(* ===== verification/_CoqProject ===== *)
-Q . S2P
Prelude.v
Pmm.v
CString.v
LibDiv.v
Env.v
Disk.v
CosData.v
Ata.v
CosAlloc.v
CosFile.v
CosDir.v
CosFormat.v
CosAllocSpec.v
CosVol.v
CosTree.v
CosBlocks.v
CosContent.v
CosDirSpec.v
CosRelease.v
CosCreate.v
CosDemo.v
CosProps.v
CosDirProps.v
FatData.v
FatDir.v
FatFile.v
FatSpec.v
FatChain.v
FatWrite.v
FatDirSpec.v
FatFind.v
FatProps.v
FatDemo.v
VfsPath.v
VfsData.v
VfsBackend.v
VfsMount.v
Vfs.v
VfsPathProps.v
VfsDemo.v
VfsFrame.v
VfsTables.v
VfsProps.v
VfsLockProps.v
VfsLive.v
VfsMountProps.v
Mem.v
Paging.v
PagingSpec.v
Task.v
Sched.v
TaskSpace.v
TaskPages.v
UserMem.v
TaskCreate.v
TaskDemo.v
Heap.v
HeapSpec.v
HeapProps.v
Elf.v
ElfSpec.v
ElfArgs.v
ElfProps.v
Clock.v
Focus.v
Terminal.v
TermEdit.v
Syscall.v
SyscallProps.v
VfsFiles.v
Segments.v
Format.v
Boot.v
Vesa.v
Console.v
Input.v
Usb.v
UsbProps.v
Scriber.v
Shell.v
