(* ===== verification/Prelude.v ===== *)
(** * CrusadIA: a verification development of the kernel

    CrusadIA is a 32-bit x86 kernel in C. This library models its memory
    management, its tasks and programs, its three file-system layers, its
    terminal, text editor and file commands, screen and input, its ATA driver
    and USB layer and the C library routines they use as executable functions,
    translated from src/, and proves what they promise.

    ** The parts of the program and the files that model them

    - Physical memory (src/pmm.c): [Pmm]. The frame bitmap as a list of words;
      one definition per function, its abstraction is the set of used frames.
    - What the boot loader hands over (src/bootinfo.c): [Boot], the memory map
      into the frame bitmap, the framebuffer.
    - Memory as the processor sees it: [Mem], bytes by address, with the class
      [FrameAlloc] and its laws [FrameAllocLaws]: what paging, tasks and heap
      need of a frame allocator, discharged there for [Pmm].
    - Paging (src/paging.c): [Paging], with [PagingSpec]: directories as maps
      from pages to entries ([walk]), and what [unmap_page_dir] followed by
      [map_page_dir] does to a directory and to those that share its tables.
    - Tasks (src/task.c, the kill of src/idt.c): [Task]. [Sched] is about
      [schedule_handler]; [TaskSpace] about user pages and the heap break;
      [TaskPages], [UserMem] and [TaskCreate] about making a task, reaching its
      memory and starting it; [TaskDemo] a small concrete machine.
    - Heap (src/heap.c): [Heap] works on headers in memory; [HeapSpec] relates
      them to a list of blocks; [HeapProps] states the contracts.
    - C library (src/string.c): [CString]; formatted output: [Format]; 64-bit
      division (src/libdiv.c): [LibDiv]. Environment (src/env.c): [Env].
    - Block devices and open files as their clients see them: [Disk], the
      interfaces (classes) that the drivers of drives and the file layer offer.
      The driver of ATA drives (src/fs.c): [Ata], which shows that it is one.
    - COSFS (src/fs.c): [CosData] (format), [CosAlloc] (bitmaps, inodes),
      [CosFile] (blocks of files), [CosDir] (directories, paths), [CosFormat]
      (formatting, mounting); the theory in [CosAllocSpec] (bitmaps),
      [CosVol] (volumes), [CosTree] (trees of blocks), [CosBlocks] (mapping a
      block), [CosContent] (contents), [CosDirSpec], [CosRelease] (freeing),
      [CosCreate]; [CosProps] and [CosDirProps] the theorems, [CosDemo] a
      formatted volume.
    - FAT32 (src/fat32.c): [FatData] (names, entries, clusters), [FatDir]
      (directories), [FatFile] (files, formatting, mounting); the theory in
      [FatSpec] (the table as a map), [FatChain] (chains), [FatWrite],
      [FatDirSpec], [FatFind]; [FatProps] the theorems, [FatDemo] a volume.
    - Virtual file system (src/vfs.c): [VfsPath] (paths), [VfsData] (mount
      table, header on disk), [VfsBackend] (dispatch to the file systems),
      [VfsMount] (mounting, start-up), [Vfs] (the lock, open files, the calls);
      [VfsPathProps], [VfsTables], [VfsFrame], [VfsProps] (tables),
      [VfsLockProps] (the lock under interleaving), [VfsLive] (calls and the lock),
      [VfsMountProps] (find_mount, the persisted table), [VfsFiles] (the
      interface of [Disk] discharged for COSFS), [VfsDemo].
    - Programs (src/elf.c): [Elf], the loader over the classes of [Disk] and
      [Mem]; [ElfSpec] (images), [ElfArgs] (arguments), [ElfProps].
    - System calls (src/syscall.c): [Syscall], [SyscallProps]; the clock
      (src/rtc.c): [Clock].
    - Keys and the command line (src/focus.c, src/terminal.c): [Focus],
      [Terminal]; [TermEdit]: the terminal as a text with a cursor.
    - The text editor (src/app.c): [Scriber], over the screen of [Vesa] and the
      keys of [Focus], which shows it to be a text of lines with a cursor.
    - The shell's commands on texts and files (src/commands.c): [Shell], over a
      class of file calls; [ShellVfs] takes those of the file layer for them.
    - The screen (src/vesa.c): [Vesa]; text on it (src/klog.c): [Console],
      which shows it to be a grid of characters.
    - Keyboards and mice (src/usbhid.c, src/ps2.c): [Input].
    - The USB layer (src/usb.c, src/usbhub.c, the attachment of src/usbhid.c,
      src/pl2303.c, src/pump.c): [Usb] over a class of host controllers;
      [UsbProps].
    - Segment and interrupt tables (src/gdt.c, src/idt.c): [Segments].
    - This file: machine integers, arrays, bytes, the state monad [st] with the
      loops of the code ([floop], [aloop], [ffor]) and their invariant rules.

    A component's theorems are in its own file, in a second Module, where they
    are few. The components meet at the classes: [BlockDev] (file systems over
    drives), [FrameAlloc] (paging, tasks, heap over frames), [FileOps] (loader
    and system calls over the file layer), [Screen] and [Keys] (terminal over
    screen, keyboards over terminal), [Calls] (commands over the
    file calls, instantiated in [ShellVfs] with those of the file layer), [Desk] (editor over file layer and terminal), [Cmos],
    [Ports], [Hcd] (hardware).

    ** How the model reads

    An integer is a [Z], wrapped ([u8], [u16], [u32], [s32], ...) where the code
    stores it. A function that changes state is a term of [st S]; a pointer
    result that may be null is 0 or an [option], as in the code; error codes are
    the code's numbers. Buffers are lists of bytes, in [Mem] and its clients
    memory itself. Code that is not in src/ (and hardware) is a parameter: the
    block device, the ports, the host controllers, the kernel services the
    file layer calls (class in [VfsData]), the addresses the linker chooses, the
    table of the font, the multiplication of floating-point numbers.

    ** What the theorems show

    - Memory: the memory map of the boot loader frees exactly the frames it
      offers; allocation and release of frames change exactly one frame and
      the counter; a mapping changes one page of one task and takes one frame;
      growing a heap break gives every new page a frame of its own; the heap
      returns blocks that overlap no other and keeps the contents of all.
    - Scheduling: the interrupt continues the nearest task that can run; no
      task that can run waits longer than a computed number of interrupts.
    - Programs: a program file is started at its entry point with its segments
      and its arguments in its own pages, which ring 3 reaches where the kernel's
      directory has the user bit; other files are turned down without a trace; a program reads files and starts programs through system calls.
    - COSFS: the tree of blocks stays consistent, a write is read back and
      touches no other file, freeing a file frees exactly its blocks, a
      directory finds what was added and no longer what was removed.
    - FAT32: overwriting is read back and leaves other files alone; the loops
      along a chain end on every chain of a consistent volume, and with what the
      model's bounded ones give.
    - File layer: the tables' invariant over every sequence of calls, mutual
      exclusion of the lock under every interleaving, no call waiting for its
      own lock and every one giving it back, a lock that is taken always in the
      hands of a task that will release it, paths normalised as a walk over their components, the deepest mount
      serving a path, the persisted mount table.
    - Terminal, screen, input: every key edits the line as a text with a cursor;
      the console is a grid of characters; the mouse pointer covers the picture
      without losing it; bytes of keyboards and mice are decoded into what they
      mean; the pointer stays on the screen.
    - Editor and commands: every key of the editor does to a text of lines what
      it should, and where on the screen its cursor is drawn; loading a text over
      the file layer, sorting its lines, and what [head], [tail], [grep] and
      [uniq] print.
    - Drives: the ATA driver over the registers is the block device that the
      file systems are proved over, also on channels that ignore the drive
      register while they are busy, as long as an access right behind a write
      needs no new value in it.
    - USB: addresses of devices stay distinct, one is always found, the
      interface chosen is the best of those described.
    - C library: sorting, searching, number conversion, formatted output within
      its buffer and read back, division; the calendar of the clock.
    - Flaws, each a theorem, a lemma or a remark of the manifest: what happens on
      a full volume, when memory runs out in the middle of a change, when a drive is
      addressed while it is still busy with a write, when a program passes a bad
      pointer, when a FAT32 chain leads back to itself, why
      a device behind a hub is never seen, where the editor draws its cursor
      in the lowest row, what moving a file onto itself or onto a full volume does.

    ** Bounds and fuel

    A loop with a counter runs over its own range ([rounds]). Loops that follow
    links carry a fuel that a theorem shows sufficient on well-formed data: the
    number of clusters of the volume for chains of clusters, the length of the
    path for components, the number of words for the bitmap, a million steps (the
    code's own limit) for the heap's list, the size in pages for copies to user
    memory, the length of the format for formatted output, of the descriptor for
    configurations, the number of entries for the memory map. Waiting for the
    lock is not a loop. A command that copies a file reads at most 2^20+1 times,
    enough for every file under 2^32 bytes; one that descends into directories
    does so to a given depth, the stack it has. For the lock, a call that cannot
    get it returns [None], and [VfsLockProps] has the interleaved system.

    ** Not modelled

    The drivers of controllers (AHCI, the USB host controllers, PCI, sound,
    serial) are register access and descriptors shared with hardware; the
    modelled layers use them through the classes above. The other commands of
    the shell (mounting, images, sound, devices, tests), the help texts of
    src/library.c and the log's logo produce text for people over the modelled
    layers. The compiler port (src/tccport), the user-space C library and programs (src/userland, with
    SQLite) and the host tool (src/UTILS) are other programs. Caches of the
    processor (the TLB), interrupt masking and timing have no counterpart in the
    model; log lines are left out of the components that write them. *)

From stdpp Require Import base list gmap numbers.
From Stdlib Require Import ZArith Lia.

Open Scope Z_scope.

(** ** Machine integers *)

(** Unsigned and signed views of a value at the widths the C code uses; an
    arithmetic result is wrapped where the code stores it. *)
Definition u8 (x : Z) : Z := x mod 2 ^ 8.
Definition u16 (x : Z) : Z := x mod 2 ^ 16.
Definition u32 (x : Z) : Z := x mod 2 ^ 32.
Definition u64 (x : Z) : Z := x mod 2 ^ 64.
Definition s32 (x : Z) : Z := (x + 2 ^ 31) mod 2 ^ 32 - 2 ^ 31.
Definition s8 (x : Z) : Z := (x + 2 ^ 7) mod 2 ^ 8 - 2 ^ 7.

Definition is_u8 (x : Z) : Prop := 0 <= x < 2 ^ 8.
Definition is_u32 (x : Z) : Prop := 0 <= x < 2 ^ 32.

#[export] Instance is_u8_dec x : Decision (is_u8 x).
Proof. unfold is_u8. apply _. Defined.
#[export] Instance is_u32_dec x : Decision (is_u32 x).
Proof. unfold is_u32. apply _. Defined.

(** Decidable facts of concrete data, by evaluation. *)
Ltac vdec := apply (bool_decide_unpack _); vm_compute; exact I.
Ltac vfacts := repeat split; first [vm_compute; reflexivity | vm_compute; congruence].

Create HintDb words.

Lemma u32_range x : 0 <= u32 x < 2 ^ 32.
Proof. apply Z.mod_pos_bound. lia. Qed.
Lemma u16_range x : 0 <= u16 x < 2 ^ 16.
Proof. apply Z.mod_pos_bound. lia. Qed.
Lemma u8_range x : 0 <= u8 x < 2 ^ 8.
Proof. apply Z.mod_pos_bound. lia. Qed.
Lemma s32_range x : - 2 ^ 31 <= s32 x < 2 ^ 31.
Proof. unfold s32. pose proof (Z.mod_pos_bound (x + 2^31) (2^32)). lia. Qed.
Lemma u32_small x : 0 <= x < 2 ^ 32 -> u32 x = x.
Proof. apply Z.mod_small. Qed.
Lemma u16_small x : 0 <= x < 2 ^ 16 -> u16 x = x.
Proof. apply Z.mod_small. Qed.
Lemma u8_small x : 0 <= x < 2 ^ 8 -> u8 x = x.
Proof. apply Z.mod_small. Qed.
Lemma s32_small x : - 2 ^ 31 <= x < 2 ^ 31 -> s32 x = x.
Proof. intros. unfold s32. rewrite Z.mod_small; lia. Qed.
Lemma u32_idemp x : u32 (u32 x) = u32 x.
Proof. unfold u32. apply Z.mod_mod. lia. Qed.
Lemma u32_add_l a b : u32 (u32 a + b) = u32 (a + b).
Proof. apply Zplus_mod_idemp_l. Qed.
Lemma u32_add_r a b : u32 (a + u32 b) = u32 (a + b).
Proof. apply Zplus_mod_idemp_r. Qed.
Lemma u32_mul_l a b : u32 (u32 a * b) = u32 (a * b).
Proof. apply Zmult_mod_idemp_l. Qed.
(** [s32] only depends on its argument modulo [2^32]. *)
Lemma s32_add_mul x q : s32 (x + q * 2 ^ 32) = s32 x.
Proof. unfold s32. replace (x + q * 2 ^ 32 + 2 ^ 31) with (x + 2 ^ 31 + q * 2 ^ 32) by lia. by rewrite Z.mod_add. Qed.
Lemma s32_quot x : exists q, s32 x = x + q * 2 ^ 32.
Proof. exists (- ((x + 2 ^ 31) / 2 ^ 32)). unfold s32. pose proof (Z.div_mod (x + 2 ^ 31) (2 ^ 32)). lia. Qed.
Lemma s32_linear x a b : s32 (s32 x * a + b) = s32 (x * a + b).
Proof.
  destruct (s32_quot x) as [q ->].
  replace ((x + q * 2 ^ 32) * a + b) with (x * a + b + (q * a) * 2 ^ 32) by lia. apply s32_add_mul.
Qed.
#[export] Hint Resolve u32_range u16_range u8_range s32_range : words.

(** Linear arithmetic over [Z] that also understands constant [/] and [mod]. *)
Ltac zdm := Z.div_mod_to_equations; lia.

(** ** Arrays: lists read and written at a [Z] index *)

Definition aget {A} `{Inhabited A} (l : list A) (i : Z) : A := l !!! Z.to_nat i.
Definition aset {A} (l : list A) (i : Z) (v : A) : list A := <[Z.to_nat i := v]> l.
Definition zlen {A} (l : list A) : Z := Z.of_nat (length l).

Declare Scope arr_scope.
Delimit Scope arr_scope with arr.
Notation "l .[ i ]" := (aget l i) (at level 1, left associativity, format "l .[ i ]") : arr_scope.
Notation "l .[ i := v ]" := (aset l i v) (at level 1, left associativity, format "l .[ i := v ]") : arr_scope.
Open Scope arr_scope.

Section arrays.
Context {A : Type} `{Inhabited A}.
Implicit Types l : list A.

Lemma zlen_aset l i v : zlen (l.[i := v]) = zlen l.
Proof. unfold zlen, aset. by rewrite length_insert. Qed.
Lemma aget_aset_eq l i v : 0 <= i < zlen l -> (l.[i := v]).[i] = v.
Proof. unfold zlen, aget, aset. intros. apply list_lookup_total_insert_eq. lia. Qed.
Lemma aget_aset_ne l i j v : 0 <= i -> 0 <= j -> i <> j -> (l.[i := v]).[j] = l.[j].
Proof. unfold aget, aset. intros. apply list_lookup_total_insert_ne. lia. Qed.
Lemma aget_aset l i j v : 0 <= i < zlen l -> 0 <= j ->
  (l.[i := v]).[j] = if decide (i = j) then v else l.[j].
Proof.
  intros. case_decide; subst; [by apply aget_aset_eq | apply aget_aset_ne; lia].
Qed.
Lemma aset_aget l i : aset l i (l.[i]) = l.
Proof.
  unfold aset, aget. destruct (decide (Z.to_nat i < length l)%nat) as [Hi|Hi].
  - apply list_insert_id. by apply list_lookup_lookup_total_lt.
  - apply list_insert_ge. lia.
Qed.
Lemma aset_aset l i v w : (l.[i := v]).[i := w] = l.[i := w].
Proof. unfold aset. apply list_insert_insert_eq. Qed.
Lemma aget_Forall (P : A -> Prop) l i : Forall P l -> 0 <= i < zlen l -> P (l.[i]).
Proof.
  unfold zlen, aget. intros HF Hi. eapply (Forall_lookup_1 P); [exact HF|].
  apply list_lookup_lookup_total_lt. lia.
Qed.
Lemma aset_Forall (P : A -> Prop) l i v : Forall P l -> P v -> Forall P (l.[i := v]).
Proof. unfold aset. intros. by apply Forall_insert. Qed.
Lemma aget_replicate n (v : A) i : 0 <= i < Z.of_nat n -> (replicate n v).[i] = v.
Proof. unfold aget. intros. apply lookup_total_replicate_2. lia. Qed.
Lemma zlen_replicate n (v : A) : zlen (replicate n v) = Z.of_nat n.
Proof. unfold zlen. by rewrite length_replicate. Qed.
Lemma list_eq_aget (l l' : list A) : zlen l = zlen l' ->
  (forall i, 0 <= i < zlen l -> l.[i] = l'.[i]) -> l = l'.
Proof.
  unfold zlen. intros Hl Hg. apply list_eq_same_length with (n := length l); [lia|done|].
  intros i x y Hi Hx Hy. specialize (Hg (Z.of_nat i)). unfold aget in Hg.
  rewrite Nat2Z.id in Hg. rewrite !list_lookup_total_alt, Hx, Hy in Hg. simpl in Hg.
  apply Hg. lia.
Qed.
End arrays.

(** ** Bits of a word *)

(** [w & (1 << k)] is non-zero exactly when bit [k] of [w] is set. *)
Definition bit_mask (k : Z) : Z := Z.shiftl 1 k.

Lemma bit_mask_testbit k j : 0 <= k -> Z.testbit (bit_mask k) j = bool_decide (j = k).
Proof.
  intros. unfold bit_mask. rewrite Z.shiftl_1_l.
  case_bool_decide; subst; [by apply Z.pow2_bits_true | apply Z.pow2_bits_false; lia].
Qed.

Lemma bit_mask_nonneg k : 0 <= bit_mask k.
Proof. unfold bit_mask. by apply Z.shiftl_nonneg. Qed.

Lemma land_bit_mask w k : 0 <= k ->
  (Z.land w (bit_mask k) =? 0) = negb (Z.testbit w k).
Proof.
  intros Hk. destruct (Z.testbit w k) eqn:E; simpl.
  - apply Z.eqb_neq. intros H0. apply (f_equal (fun x => Z.testbit x k)) in H0.
    rewrite Z.land_spec, bit_mask_testbit, E, Z.bits_0 in H0 by done.
    by rewrite bool_decide_true in H0.
  - apply Z.eqb_eq. apply Z.bits_inj'. intros j Hj.
    rewrite Z.land_spec, bit_mask_testbit, Z.bits_0 by done.
    case_bool_decide; subst; [by rewrite E | by rewrite andb_false_r].
Qed.

Lemma lor_bit_mask_testbit w k j : 0 <= k ->
  Z.testbit (Z.lor w (bit_mask k)) j = if decide (j = k) then true else Z.testbit w j.
Proof.
  intros. rewrite Z.lor_spec, bit_mask_testbit by done.
  case_decide; [by rewrite bool_decide_true, orb_true_r by done|].
  by rewrite bool_decide_false, orb_false_r.
Qed.

Lemma ldiff_bit_mask_testbit w k j : 0 <= k -> 0 <= j ->
  Z.testbit (Z.land w (Z.lnot (bit_mask k))) j = if decide (j = k) then false else Z.testbit w j.
Proof.
  intros. rewrite Z.land_spec, Z.lnot_spec, bit_mask_testbit by done.
  case_decide; [by rewrite bool_decide_true, andb_false_r by done|].
  by rewrite bool_decide_false, andb_true_r.
Qed.

Lemma testbit_high_bounds n w : 0 <= n -> 0 <= w ->
  (forall j, n <= j -> Z.testbit w j = false) -> w < 2 ^ n.
Proof.
  intros Hn Hw Hb. destruct (decide (w = 0)) as [->|]; [lia|].
  apply Z.log2_lt_pow2; [lia|].
  destruct (Z.lt_ge_cases (Z.log2 w) n); [done|].
  specialize (Hb (Z.log2 w) ltac:(lia)). rewrite Z.bit_log2 in Hb by lia. discriminate.
Qed.

(** A high part shifted over a low part. *)
Lemma lor_shiftl_add a b n : 0 <= n -> 0 <= b < 2 ^ n -> Z.lor (Z.shiftl a n) b = a * 2 ^ n + b.
Proof.
  intros Hn Hb. rewrite <- Z.shiftl_mul_pow2 by done.
  assert (E : Z.land (Z.shiftl a n) b = 0).
  { apply Z.bits_inj'. intros j Hj. rewrite Z.land_spec, Z.bits_0. destruct (decide (j < n)).
    - by rewrite Z.shiftl_spec_low.
    - destruct (decide (b = 0)) as [->|]; [by rewrite Z.bits_0, andb_false_r|].
      rewrite (Z.bits_above_log2 b j), andb_false_r; [done|lia|]. pose proof (Z.log2_lt_pow2 b n). lia. }
  pose proof (Z.add_lor_land (Z.shiftl a n) b). lia.
Qed.

(** ** Bit arrays kept in bytes *)

Definition bit_at (bm : list Z) (i : Z) : bool := Z.testbit (bm.[i / 8]) (i mod 8).
Definition bit_set (bm : list Z) (i : Z) : list Z :=
  bm.[i / 8 := Z.lor (bm.[i / 8]) (bit_mask (i mod 8))].
Definition bit_clear (bm : list Z) (i : Z) : list Z :=
  bm.[i / 8 := Z.land (bm.[i / 8]) (Z.lnot (bit_mask (i mod 8)))].

Lemma bit_at_set bm i j : 0 <= i < 8 * zlen bm -> 0 <= j ->
  bit_at (bit_set bm i) j = if decide (j = i) then true else bit_at bm j.
Proof.
  intros Hi Hj. unfold bit_at, bit_set. rewrite aget_aset by zdm.
  destruct (decide (i / 8 = j / 8)) as [E|E].
  - rewrite lor_bit_mask_testbit by zdm. rewrite E.
    destruct (decide (j mod 8 = i mod 8)), (decide (j = i)); try done; zdm.
  - by rewrite decide_False by (intros ->; lia).
Qed.
Lemma bit_at_clear bm i j : 0 <= i < 8 * zlen bm -> 0 <= j ->
  bit_at (bit_clear bm i) j = if decide (j = i) then false else bit_at bm j.
Proof.
  intros Hi Hj. unfold bit_at, bit_clear. rewrite aget_aset by zdm.
  destruct (decide (i / 8 = j / 8)) as [E|E].
  - rewrite ldiff_bit_mask_testbit by zdm. rewrite E.
    destruct (decide (j mod 8 = i mod 8)), (decide (j = i)); try done; zdm.
  - by rewrite decide_False by (intros ->; lia).
Qed.
Lemma bit_at_test bm i : 0 <= i -> (Z.land (bm.[i / 8]) (bit_mask (i mod 8)) =? 0) = negb (bit_at bm i).
Proof. intros. apply land_bit_mask. zdm. Qed.
Lemma testbit_small w n j : 0 <= w < 2 ^ n -> 0 <= n <= j -> Z.testbit w j = false.
Proof.
  intros Hw Hj. destruct (decide (w = 0)) as [->|]; [apply Z.bits_0|].
  apply Z.bits_above_log2; [lia|]. pose proof (Z.log2_lt_pow2 w n). lia.
Qed.
Lemma lor_bit_mask_bound w k n : 0 <= w < 2 ^ n -> 0 <= k < n -> 0 <= Z.lor w (bit_mask k) < 2 ^ n.
Proof.
  intros Hw Hk. assert (0 <= Z.lor w (bit_mask k)).
  { apply Z.lor_nonneg. split; [lia | apply bit_mask_nonneg]. }
  split; [done|]. apply testbit_high_bounds; [lia|done|]. intros j Hj.
  rewrite lor_bit_mask_testbit, decide_False by lia. apply testbit_small with n; lia.
Qed.
Lemma ldiff_bit_mask_bound w k n : 0 <= w < 2 ^ n -> 0 <= n -> 0 <= Z.land w (Z.lnot (bit_mask k)) < 2 ^ n.
Proof.
  intros Hw Hn. rewrite <- Z.ldiff_land.
  assert (0 <= Z.ldiff w (bit_mask k)) by (apply Z.ldiff_nonneg; lia).
  split; [done|]. apply testbit_high_bounds; [lia|done|]. intros j Hj.
  rewrite Z.ldiff_spec, (testbit_small w n) by lia. done.
Qed.

(** ** Byte buffers *)

(** A buffer is a [list Z] of bytes. [slice] is what a [memcpy] out of a
    buffer sees, [splice] what a [memcpy] into it leaves. *)
Definition is_bytes (l : list Z) : Prop := Forall is_u8 l.
Definition slice {A} (l : list A) (off n : Z) : list A :=
  take (Z.to_nat n) (drop (Z.to_nat off) l).
Definition splice {A} (l : list A) (off : Z) (bs : list A) : list A :=
  take (Z.to_nat off) l ++ bs ++ drop (Z.to_nat off + length bs) l.

Lemma bit_set_bytes bm i : is_bytes bm -> 0 <= i < 8 * zlen bm -> is_bytes (bit_set bm i).
Proof.
  intros Hb Hi. apply aset_Forall; [done|]. apply (lor_bit_mask_bound _ _ 8); [|zdm].
  apply (aget_Forall is_u8); [done|zdm].
Qed.
Lemma bit_clear_bytes bm i : is_bytes bm -> 0 <= i < 8 * zlen bm -> is_bytes (bit_clear bm i).
Proof.
  intros Hb Hi. apply aset_Forall; [done|]. apply (ldiff_bit_mask_bound _ _ 8); [|lia].
  apply (aget_Forall is_u8); [done|zdm].
Qed.
Lemma zlen_bit_set bm i : zlen (bit_set bm i) = zlen bm.
Proof. apply zlen_aset. Qed.
Lemma zlen_bit_clear bm i : zlen (bit_clear bm i) = zlen bm.
Proof. apply zlen_aset. Qed.

#[export] Instance is_bytes_dec l : Decision (is_bytes l).
Proof. unfold is_bytes. apply _. Defined.

Section slices.
Context {A : Type} `{Inhabited A}.
Implicit Types l bs : list A.

Lemma zlen_nonneg l : 0 <= zlen l.
Proof. unfold zlen. lia. Qed.
Lemma zlen_app l bs : zlen (l ++ bs) = zlen l + zlen bs.
Proof. unfold zlen. rewrite length_app. lia. Qed.
Lemma zlen_slice l off n : 0 <= off -> 0 <= n -> off + n <= zlen l -> zlen (slice l off n) = n.
Proof. unfold zlen, slice. intros. rewrite length_take, length_drop. lia. Qed.
Lemma zlen_splice l off bs : 0 <= off -> off + zlen bs <= zlen l -> zlen (splice l off bs) = zlen l.
Proof. unfold zlen, splice. intros. rewrite !length_app, length_take, length_drop. lia. Qed.

Lemma aget_slice l off n i : 0 <= off -> 0 <= i < n -> off + i < zlen l ->
  aget (slice l off n) i = aget l (off + i).
Proof.
  unfold aget, slice, zlen. intros. rewrite !list_lookup_total_alt.
  rewrite lookup_take_lt, lookup_drop by lia. do 2 f_equal. lia.
Qed.

Lemma aget_splice l off bs i : 0 <= off -> off + zlen bs <= zlen l -> 0 <= i < zlen l ->
  aget (splice l off bs) i =
  if decide (off <= i < off + zlen bs) then aget bs (i - off) else aget l i.
Proof.
  unfold aget, splice, zlen. intros. rewrite !list_lookup_total_alt.
  destruct (decide (i < off)).
  - rewrite lookup_app_l by (rewrite length_take; lia).
    rewrite lookup_take_lt by lia. by rewrite decide_False by lia.
  - rewrite lookup_app_r by (rewrite length_take; lia). rewrite length_take_le by lia.
    case_decide.
    + rewrite lookup_app_l by lia. do 2 f_equal. lia.
    + rewrite lookup_app_r, lookup_drop by lia. do 2 f_equal. lia.
Qed.

Lemma slice_splice_same l off bs : 0 <= off -> off + zlen bs <= zlen l ->
  slice (splice l off bs) off (zlen bs) = bs.
Proof.
  intros. pose proof (zlen_nonneg bs).
  pose proof (zlen_splice l off bs ltac:(lia) ltac:(lia)).
  apply list_eq_aget; [apply zlen_slice; lia|].
  rewrite zlen_slice by lia. intros i Hi.
  rewrite aget_slice, aget_splice, decide_True by lia. f_equal. lia.
Qed.

Lemma slice_splice_other l off bs off' n :
  0 <= off -> off + zlen bs <= zlen l -> 0 <= off' -> 0 <= n -> off' + n <= zlen l ->
  off' + n <= off \/ off + zlen bs <= off' ->
  slice (splice l off bs) off' n = slice l off' n.
Proof.
  intros. pose proof (zlen_splice l off bs ltac:(lia) ltac:(lia)).
  apply list_eq_aget; [rewrite !zlen_slice; lia|].
  rewrite zlen_slice by lia. intros i Hi.
  rewrite !aget_slice, aget_splice, decide_False by lia. done.
Qed.

Lemma Forall_slice (P : A -> Prop) l off n : Forall P l -> Forall P (slice l off n).
Proof. intros. by apply Forall_take, Forall_drop. Qed.
Lemma Forall_splice (P : A -> Prop) l off bs : Forall P l -> Forall P bs -> Forall P (splice l off bs).
Proof. intros. unfold splice. rewrite !Forall_app. auto using Forall_take, Forall_drop. Qed.
Lemma slice_all l : slice l 0 (zlen l) = l.
Proof. unfold slice, zlen. rewrite drop_0, Nat2Z.id. apply firstn_all. Qed.
Lemma slice_app_l l l' off n : 0 <= off -> off + n <= zlen l -> slice (l ++ l') off n = slice l off n.
Proof.
  unfold slice, zlen. intros. destruct (decide (n <= 0)); [by rewrite (Z2Nat.nonpos n)|].
  rewrite drop_app_le by lia. rewrite take_app_le by (rewrite length_drop; lia). done.
Qed.
Lemma slice_past l l' off n : zlen l <= off -> slice (l ++ l') off n = slice l' (off - zlen l) n.
Proof. unfold slice, zlen. intros. rewrite drop_app_ge by lia. do 2 f_equal. lia. Qed.
Lemma slice_plus l off n m : 0 <= off -> 0 <= n -> 0 <= m -> slice l off (n + m) = slice l off n ++ slice l (off + n) m.
Proof. unfold slice. intros. rewrite !Z2Nat.inj_add by done. by rewrite <- take_take_drop, drop_drop. Qed.
Lemma slice_cap l off n : 0 <= off -> slice l off (Z.min n (zlen l - off)) = slice l off n.
Proof.
  intros. unfold slice, zlen. destruct (decide (n <= Z.of_nat (length l) - off)); [f_equal; lia|].
  rewrite !take_ge; [done|rewrite length_drop; lia|rewrite length_drop; lia].
Qed.
Lemma slice_nil l off n : n <= 0 -> slice l off n = [].
Proof. intros. unfold slice. by rewrite (Z2Nat.nonpos n). Qed.
Lemma slice_slice l off n off' n' : 0 <= off -> 0 <= off' -> 0 <= n' -> off' + n' <= n ->
  slice (slice l off n) off' n' = slice l (off + off') n'.
Proof. unfold slice. intros. rewrite Z2Nat.inj_add by done. rewrite skipn_firstn_comm, drop_drop, take_take. f_equal. lia. Qed.
End slices.

(** The list [f m, f (m+1), ...] of [n] values. *)
Definition tab {A} (f : Z -> A) (m n : Z) : list A := f <$> seqZ m n.

Section tabs.
Context {A : Type} `{Inhabited A}.
Lemma zlen_tab (f : Z -> A) m n : 0 <= n -> zlen (tab f m n) = n.
Proof. intros. unfold zlen, tab. rewrite length_fmap, length_seqZ. lia. Qed.
Lemma aget_tab (f : Z -> A) m n i : 0 <= i < n -> (tab f m n).[i] = f (m + i).
Proof.
  intros. unfold aget, tab. apply list_lookup_total_correct. rewrite list_lookup_fmap, lookup_seqZ_lt by lia.
  cbn. f_equal. f_equal. lia.
Qed.
Lemma tab_app (f : Z -> A) m n n' : 0 <= n -> 0 <= n' -> tab f m (n + n') = tab f m n ++ tab f (m + n) n'.
Proof. intros. unfold tab. by rewrite seqZ_app, fmap_app by done. Qed.
Lemma tab_eq (f : Z -> A) m l : (forall i, 0 <= i < zlen l -> l.[i] = f (m + i)) -> l = tab f m (zlen l).
Proof.
  intros Hf. pose proof (zlen_nonneg l). apply list_eq_aget; [by rewrite zlen_tab|]. intros i Hi. by rewrite aget_tab, Hf.
Qed.
Lemma tab_ext (f h : Z -> A) m n : (forall i, m <= i < m + n -> f i = h i) -> tab f m n = tab h m n.
Proof. intros Hf. unfold tab. apply list_fmap_ext. intros i x Hx. apply lookup_seqZ in Hx. apply Hf. lia. Qed.
Lemma tab_nil (f : Z -> A) m n : n <= 0 -> tab f m n = [].
Proof. intros. unfold tab. by rewrite seqZ_nil. Qed.
End tabs.

(** Pieces of one size laid end to end. *)
Section pieces.
Context {A : Type} `{Inhabited A} (f : Z -> list A) (k : Z).

Lemma tab_snoc {B} (h : Z -> B) m n : 0 <= n -> tab h m (n + 1) = tab h m n ++ [h (m + n)].
Proof. intros. unfold tab. rewrite seqZ_app, fmap_app by lia. by replace (seqZ (m + n) 1) with [m + n] by reflexivity. Qed.
Lemma tab_cons {B} (h : Z -> B) m n : 0 < n -> tab h m n = h m :: tab h (m + 1) (n - 1).
Proof. intros. unfold tab. rewrite seqZ_cons by lia. cbn. by rewrite <- Z.add_1_r, <- Z.sub_1_r. Qed.
Lemma zlen_pieces m n : 0 <= n -> (forall i, m <= i < m + n -> zlen (f i) = k) -> zlen (concat (tab f m n)) = n * k.
Proof.
  intros Hn. replace n with (Z.of_nat (Z.to_nat n)) by lia. induction (Z.to_nat n) as [|j IH]; intros Hf; [by rewrite tab_nil|].
  replace (Z.of_nat (S j)) with (Z.of_nat j + 1) in * by lia. rewrite tab_snoc, concat_app, zlen_app, IH by (lia || (intros; apply Hf; lia)).
  cbn [concat]. rewrite app_nil_r, Hf by lia. lia.
Qed.
Lemma slice_pieces_one n i off m : (forall j, 0 <= j < n -> zlen (f j) = k) -> 0 <= i < n -> 0 <= off -> off + m <= k ->
  slice (concat (tab f 0 n)) (i * k + off) m = slice (f i) off m.
Proof.
  intros Hf Hi Ho Hm. replace n with (i + (n - i)) by lia. rewrite tab_app, concat_app by lia.
  pose proof (zlen_pieces 0 i ltac:(lia) ltac:(intros; apply Hf; lia)) as HL.
  rewrite slice_past, HL by lia. replace (i * k + off - i * k) with off by lia.
  rewrite tab_cons by lia. cbn [concat]. apply slice_app_l; [done|]. by rewrite Hf.
Qed.
Lemma aget_pieces n i : 0 < k -> (forall j, 0 <= j < n -> zlen (f j) = k) -> 0 <= i < n * k ->
  (concat (tab f 0 n)).[i] = (f (i / k)).[i mod k].
Proof.
  intros Hk Hf Hi. assert (Hq : 0 <= i / k < n) by (split; [apply Z.div_pos; lia|apply Z.div_lt_upper_bound; lia]).
  pose proof (Z.mod_pos_bound i k Hk) as Hm. pose proof (Z.div_mod i k ltac:(lia)) as Hdm.
  pose proof (slice_pieces_one n (i / k) (i mod k) 1 Hf Hq ltac:(lia) ltac:(lia)) as E.
  replace (i / k * k + i mod k) with i in E by lia. apply (f_equal (fun l => l.[0])) in E.
  rewrite !aget_slice in E; [|lia|lia|rewrite Hf by done; lia|lia|lia|rewrite zlen_pieces by (lia || done); lia].
  by rewrite !Z.add_0_r in E.
Qed.
End pieces.

(** Little-endian integers. *)
Fixpoint le_get (l : list Z) : Z :=
  match l with [] => 0 | b :: l => b + 256 * le_get l end.
Fixpoint le_put (n : nat) (v : Z) : list Z :=
  match n with O => [] | S n => v mod 256 :: le_put n (v / 256) end.

Lemma length_le_put n v : length (le_put n v) = n.
Proof. revert v. induction n; simpl; auto. Qed.
Lemma le_put_bytes n v : is_bytes (le_put n v).
Proof.
  revert v. induction n as [|n IH]; intros v; cbn [le_put]; constructor; [|apply IH].
  unfold is_u8. pose proof (Z.mod_pos_bound v 256). lia.
Qed.
Lemma le_get_put n v : le_get (le_put n v) = v mod 2 ^ (8 * Z.of_nat n).
Proof.
  revert v. induction n as [|n IH]; intros v; cbn [le_get le_put].
  - by rewrite Z.mod_1_r.
  - rewrite IH. replace (8 * Z.of_nat (S n)) with (8 + 8 * Z.of_nat n) by lia.
    rewrite Z.pow_add_r by lia. change (2 ^ 8) with 256.
    rewrite Z.rem_mul_r by lia. lia.
Qed.
Lemma le_get_bound l : is_bytes l -> 0 <= le_get l < 2 ^ (8 * zlen l).
Proof.
  unfold zlen. induction 1 as [|b l Hb Hl IH]; cbn [le_get length]; [simpl; lia|].
  unfold is_u8 in Hb. replace (8 * Z.of_nat (S (length l))) with (8 + 8 * Z.of_nat (length l)) by lia.
  rewrite Z.pow_add_r by lia. lia.
Qed.
Lemma le_put_get l : is_bytes l -> le_put (length l) (le_get l) = l.
Proof.
  induction 1 as [|b l Hb Hl IH]; cbn [le_get le_put length]; [done|].
  unfold is_u8 in Hb. replace ((b + 256 * le_get l) / 256) with (le_get l) by zdm.
  rewrite IH. f_equal. zdm.
Qed.

(** A field of [n] bytes at offset [off] of a buffer. *)
Definition get_le (n : nat) (buf : list Z) (off : Z) : Z := le_get (slice buf off (Z.of_nat n)).
Definition put_le (n : nat) (buf : list Z) (off v : Z) : list Z := splice buf off (le_put n v).
Abbreviation get16 := (get_le 2).
Abbreviation get32 := (get_le 4).
Abbreviation put16 := (put_le 2).
Abbreviation put32 := (put_le 4).

Lemma zlen_le_put n v : zlen (le_put n v) = Z.of_nat n.
Proof. unfold zlen. by rewrite length_le_put. Qed.
Lemma zlen_put_le n buf off v : 0 <= off -> off + Z.of_nat n <= zlen buf ->
  zlen (put_le n buf off v) = zlen buf.
Proof. intros. apply zlen_splice; rewrite ?zlen_le_put; lia. Qed.
Lemma get_put_le n buf off v : 0 <= off -> off + Z.of_nat n <= zlen buf ->
  get_le n (put_le n buf off v) off = v mod 2 ^ (8 * Z.of_nat n).
Proof.
  intros. unfold get_le, put_le. rewrite <- (zlen_le_put n v), slice_splice_same, le_get_put;
    rewrite ?zlen_le_put; lia || done.
Qed.
Lemma get_put_le_ne n m buf off off' v :
  0 <= off -> off + Z.of_nat n <= zlen buf -> 0 <= off' -> off' + Z.of_nat m <= zlen buf ->
  off' + Z.of_nat m <= off \/ off + Z.of_nat n <= off' ->
  get_le m (put_le n buf off v) off' = get_le m buf off'.
Proof.
  intros. unfold get_le, put_le. rewrite slice_splice_other; rewrite ?zlen_le_put; lia || done.
Qed.
Lemma put_le_bytes n buf off v : is_bytes buf -> is_bytes (put_le n buf off v).
Proof. intros. apply Forall_splice; [done | apply le_put_bytes]. Qed.
Lemma get_le_bound n buf off : is_bytes buf -> 0 <= off -> off + Z.of_nat n <= zlen buf ->
  0 <= get_le n buf off < 2 ^ (8 * Z.of_nat n).
Proof.
  intros Hb ??. pose proof (le_get_bound (slice buf off (Z.of_nat n)) (Forall_slice _ _ _ _ Hb)) as Hg.
  by rewrite zlen_slice in Hg by lia.
Qed.

(** Lengths of buffers with fields put into them. *)
Ltac flen := first [lia | rewrite zlen_put_le; flen].

Lemma slice_put_le n buf off v off' m : 0 <= off -> off + Z.of_nat n <= zlen buf -> 0 <= off' -> 0 <= m -> off' + m <= zlen buf ->
  off' + m <= off \/ off + Z.of_nat n <= off' -> slice (put_le n buf off v) off' m = slice buf off' m.
Proof. intros. unfold put_le. apply slice_splice_other; rewrite ?zlen_le_put; lia. Qed.

#[global] Arguments le_put : simpl never.
#[global] Arguments le_get : simpl never.

(** ** A state monad and the loops of the code *)

Definition st (S A : Type) : Type := S -> A * S.
#[export] Instance st_ret {S} : MRet (st S) := fun A a s => (a, s).
#[export] Instance st_bind {S} : MBind (st S) := fun A B f m s => let (a, s') := m s in f a s'.
Definition gets {S A} (f : S -> A) : st S A := fun s => (f s, s).
Definition modify {S} (f : S -> S) : st S unit := fun s => (tt, f s).
Definition when {S} (b : bool) (m : st S unit) : st S unit := if b then m else mret tt.

Lemma bind_run {S A B} (m : st S A) (f : A -> st S B) s a s' :
  m s = (a, s') -> (m ≫= f) s = f a s'.
Proof. intros H. unfold mbind, st_bind. by rewrite H. Qed.

(** [floop n i body] runs [body] at [i], [i+1], ... for at most [n] rounds.
    A round that yields [Some r] is a [return r] (or a [break] carrying [r])
    of the C loop; [None] goes on. *)
Fixpoint floop {S R} (n : nat) (i : Z) (body : Z -> st S (option R)) : st S (option R) :=
  match n with
  | O => mret None
  | S n => fun s =>
      match body i s with
      | (Some r, s') => (Some r, s')
      | (None, s') => floop n (i + 1) body s'
      end
  end.

(** The same with a local variable [a] that the rounds update: [inl a'] goes
    on with [a'], [inr r] leaves the loop. *)
Fixpoint aloop {S A R} (n : nat) (i : Z) (a : A) (body : Z -> A -> st S (A + R)) : st S (A + R) :=
  match n with
  | O => mret (inl a)
  | S n => fun s =>
      match body i a s with
      | (inr r, s') => (inr r, s')
      | (inl a', s') => aloop n (i + 1) a' body s'
      end
  end.

(** A loop without early exit. *)
Fixpoint ffor {S} (n : nat) (i : Z) (body : Z -> st S unit) : st S unit :=
  match n with
  | O => mret tt
  | S n => fun s => ffor n (i + 1) body (body i s).2
  end.

(** The number of rounds of [for (i = a; i < b; i++)]. *)
Definition rounds (a b : Z) : nat := Z.to_nat (b - a).

Section loops.
Context {S : Type}.

(** Invariant rule for [ffor]. *)
Lemma ffor_inv (P : Z -> S -> Prop) n i body s :
  P i s ->
  (forall j s, i <= j < i + Z.of_nat n -> P j s -> P (j + 1) (body j s).2) ->
  P (i + Z.of_nat n) (ffor n i body s).2.
Proof.
  revert i s. induction n as [|n IH]; intros i s Hp Hs; cbn [ffor].
  - by rewrite Z.add_0_r.
  - replace (i + Z.of_nat (Datatypes.S n)) with (i + 1 + Z.of_nat n) by lia.
    apply IH; [apply Hs; [lia|done]|]. intros. apply Hs; [lia|done].
Qed.

(** The same for [for (i = a; i < b; i++)]. *)
Lemma ffor_rounds (P : Z -> S -> Prop) a b body s :
  a <= b -> P a s -> (forall j s, a <= j < b -> P j s -> P (j + 1) (body j s).2) -> P b (ffor (rounds a b) a body s).2.
Proof.
  intros Hab Ha Hs. pose proof (ffor_inv P (rounds a b) a body s Ha) as Hi. unfold rounds in *.
  replace (a + Z.of_nat (Z.to_nat (b - a))) with b in Hi by lia. apply Hi. exact Hs.
Qed.

(** Invariant rule for [floop]: the result is related to where it stopped. *)
Lemma floop_inv {R} (P : Z -> S -> Prop) (Q : option R -> S -> Prop) n i body s :
  P i s ->
  (forall j s, i <= j < i + Z.of_nat n -> P j s ->
     match body j s with
     | (Some r, s') => Q (Some r) s'
     | (None, s') => P (j + 1) s'
     end) ->
  (forall s, P (i + Z.of_nat n) s -> Q None s) ->
  Q (floop n i body s).1 (floop n i body s).2.
Proof.
  revert i s. induction n as [|n IH]; intros i s Hp Hs Hend; cbn [floop].
  - apply Hend. by rewrite Z.add_0_r.
  - pose proof (Hs i s ltac:(lia) Hp) as H0.
    destruct (body i s) as [[r|] s'] eqn:E; [done|].
    apply IH; [done| |].
    + intros. apply Hs; [lia|done].
    + intros s0. replace (i + 1 + Z.of_nat n) with (i + Z.of_nat (Datatypes.S n)) by lia. apply Hend.
Qed.

(** Invariant rule for [aloop]. *)
Lemma aloop_inv {A R} (P : Z -> A -> S -> Prop) (Q : A + R -> S -> Prop) n i a body s :
  P i a s ->
  (forall j a s, i <= j < i + Z.of_nat n -> P j a s ->
     match body j a s with
     | (inr r, s') => Q (inr r) s'
     | (inl a', s') => P (j + 1) a' s'
     end) ->
  (forall a s, P (i + Z.of_nat n) a s -> Q (inl a) s) ->
  Q (aloop n i a body s).1 (aloop n i a body s).2.
Proof.
  revert i a s. induction n as [|n IH]; intros i a s Hp Hs Hend; cbn [aloop].
  - apply Hend. by rewrite Z.add_0_r.
  - pose proof (Hs i a s ltac:(lia) Hp) as H0.
    destruct (body i a s) as [[a'|r] s'] eqn:E; [|done].
    apply IH; [done| |].
    + intros. apply Hs; [lia|done].
    + intros a0 s0. replace (i + 1 + Z.of_nat n) with (i + Z.of_nat (Datatypes.S n)) by lia. apply Hend.
Qed.

(** A search loop: rounds that miss ([p j = false]) leave the state alone. *)
Lemma floop_find {R} (p : Z -> bool) n i (body : Z -> st S (option R)) s :
  (forall j, i <= j < i + Z.of_nat n -> p j = false -> body j s = (None, s)) ->
  (forall j, i <= j < i + Z.of_nat n -> p j = true -> (body j s).1 <> None) ->
  (exists k, i <= k < i + Z.of_nat n /\ p k = true /\
     (forall j, i <= j < k -> p j = false) /\ floop n i body s = body k s) \/
  ((forall j, i <= j < i + Z.of_nat n -> p j = false) /\ floop n i body s = (None, s)).
Proof.
  revert i. induction n as [|n IH]; intros i Hmiss Hhit; cbn [floop].
  { right. split; [lia | done]. }
  destruct (p i) eqn:Hp.
  - left. exists i. pose proof (Hhit i ltac:(lia) Hp) as Hs.
    destruct (body i s) as [[r|] s'] eqn:E; [|done]. repeat split; [lia|lia|done|lia].
  - rewrite (Hmiss i) by (lia || done).
    destruct (IH (i + 1)) as [(k & Hk & Hpk & Hlt & Hr)|[Hall Hr]].
    + intros j Hj. apply Hmiss. lia.
    + intros j Hj. apply Hhit. lia.
    + left. exists k. repeat split; [lia|lia|done| |done].
      intros j Hj. destruct (decide (j = i)) as [->|]; [done | apply Hlt; lia].
    + right. split; [|done].
      intros j Hj. destruct (decide (j = i)) as [->|]; [done | apply Hall; lia].
Qed.

(** A search loop over a state it does not change, as a pure search. *)
Fixpoint first_some {R} (r : Z -> option R) (n : nat) (i : Z) : option R :=
  match n with
  | O => None
  | Datatypes.S n => match r i with Some x => Some x | None => first_some r n (i + 1) end
  end.
Lemma first_some_none {R} (r : Z -> option R) n i j : first_some r n i = None -> i <= j < i + Z.of_nat n -> r j = None.
Proof.
  revert i. induction n as [|n IH]; intros i; cbn [first_some]; [lia|]. destruct (r i) eqn:E; [done|]. intros Hn Hj.
  destruct (decide (j = i)) as [->|]; [done|]. apply (IH (i + 1)); [done|lia].
Qed.
(** The first index where [p] holds. *)
Lemma first_some_hit (p : Z -> bool) n i : match first_some (fun j => if p j then Some j else None) n i with
  | Some j => i <= j < i + Z.of_nat n /\ p j = true /\ (forall l, i <= l < j -> p l = false)
  | None => forall j, i <= j < i + Z.of_nat n -> p j = false end.
Proof.
  revert i. induction n as [|n IH]; intros i; cbn [first_some]; [lia|]. destruct (p i) eqn:E; [split; [lia|split; [done|lia]]|].
  specialize (IH (i + 1)). destruct (first_some _ n (i + 1)) as [j|].
  - destruct IH as (Hj & Hp & Hl). split; [lia|]. split; [done|]. intros l Hl'. destruct (decide (l = i)) as [->|]; [done|apply Hl; lia].
  - intros j Hj. destruct (decide (j = i)) as [->|]; [done|apply IH; lia].
Qed.
Lemma first_some_ext {R} (f g : Z -> option R) n i : (forall j, i <= j < i + Z.of_nat n -> f j = g j) -> first_some f n i = first_some g n i.
Proof.
  revert i. induction n as [|n IH]; intros i Hf; cbn [first_some]; [done|]. rewrite (Hf i) by lia. destruct (g i); [done|]. apply IH. intros. apply Hf. lia.
Qed.
Lemma floop_pure {R} (r : Z -> option R) n i (body : Z -> st S (option R)) s :
  (forall j, i <= j < i + Z.of_nat n -> body j s = (r j, s)) -> floop n i body s = (first_some r n i, s).
Proof.
  revert i. induction n as [|n IH]; intros i Hb; cbn [floop first_some]; [done|].
  rewrite Hb by lia. destruct (r i); [done|]. apply IH. intros. apply Hb. lia.
Qed.

(** The same for a loop with a local variable, kept by the rounds that miss. *)
Lemma aloop_find {A R} (p : Z -> bool) n i (a : A) (body : Z -> A -> st S (A + R)) s :
  (forall j, i <= j < i + Z.of_nat n -> p j = false -> body j a s = (inl a, s)) ->
  (forall j, i <= j < i + Z.of_nat n -> p j = true -> exists r s', body j a s = (inr r, s')) ->
  (exists k, i <= k < i + Z.of_nat n /\ p k = true /\
     (forall j, i <= j < k -> p j = false) /\ aloop n i a body s = body k a s) \/
  ((forall j, i <= j < i + Z.of_nat n -> p j = false) /\ aloop n i a body s = (inl a, s)).
Proof.
  revert i. induction n as [|n IH]; intros i Hmiss Hhit; cbn [aloop].
  { right. split; [lia | done]. }
  destruct (p i) eqn:Hp.
  - left. exists i. destruct (Hhit i ltac:(lia) Hp) as (r & s' & E). rewrite E. repeat split; done || lia.
  - rewrite (Hmiss i) by (lia || done).
    destruct (IH (i + 1)) as [(k & Hk & Hpk & Hlt & Hr)|[Hall Hr]].
    + intros j Hj. apply Hmiss. lia.
    + intros j Hj. apply Hhit. lia.
    + left. exists k. repeat split; [lia|lia|done| |done].
      intros j Hj. destruct (decide (j = i)) as [->|]; [done | apply Hlt; lia].
    + right. split; [|done].
      intros j Hj. destruct (decide (j = i)) as [->|]; [done | apply Hall; lia].
Qed.

(** Two loops whose bodies agree on the range are equal. *)
Lemma floop_ext {R} n i (b1 b2 : Z -> st S (option R)) s :
  (forall j s, i <= j < i + Z.of_nat n -> b1 j s = b2 j s) ->
  floop n i b1 s = floop n i b2 s.
Proof.
  revert i s. induction n as [|n IH]; intros i s Hb; cbn [floop]; [done|].
  rewrite Hb by lia. destruct (b2 i s) as [[r|] s']; [done|].
  apply IH. intros. apply Hb. lia.
Qed.

Lemma ffor_ext n i (b1 b2 : Z -> st S unit) s :
  (forall j s, i <= j < i + Z.of_nat n -> b1 j s = b2 j s) ->
  ffor n i b1 s = ffor n i b2 s.
Proof.
  revert i s. induction n as [|n IH]; intros i s Hb; cbn [ffor]; [done|].
  rewrite Hb by lia. apply IH. intros. apply Hb. lia.
Qed.
End loops.

(** Unfold the monad's operations. *)
Ltac munfold := unfold mbind, st_bind, gets, modify, mret, st_ret, when; cbn [fst snd].

(** ** Counting *)

(** [count n f]: how many of [0 .. n-1] satisfy [f]. *)
Fixpoint count (n : nat) (f : Z -> bool) : Z :=
  match n with
  | O => 0
  | S n => count n f + (if f (Z.of_nat n) then 1 else 0)
  end.

Lemma count_bounds n f : 0 <= count n f <= Z.of_nat n.
Proof. induction n as [|n IH]; cbn [count]; [lia|]. destruct (f (Z.of_nat n)); lia. Qed.
Lemma count_ext n f g : (forall i, 0 <= i < Z.of_nat n -> f i = g i) -> count n f = count n g.
Proof.
  induction n as [|n IH]; intros Hfg; cbn [count]; [done|].
  rewrite (Hfg (Z.of_nat n)), IH by (intros; try apply Hfg; lia). done.
Qed.
Lemma count_flip n f g k : 0 <= k < Z.of_nat n -> f k = false -> g k = true ->
  (forall i, 0 <= i < Z.of_nat n -> i <> k -> f i = g i) -> count n g = count n f + 1.
Proof.
  induction n as [|n IH]; intros Hk Hf Hg Hfg; cbn [count]; [lia|].
  destruct (decide (k = Z.of_nat n)) as [->|].
  - rewrite Hf, Hg. rewrite (count_ext n f g); [lia|]. intros. apply Hfg; lia.
  - rewrite IH by (try done; try lia; intros; apply Hfg; lia).
    rewrite (Hfg (Z.of_nat n)) by lia. lia.
Qed.
Lemma count_all n f : count n f = Z.of_nat n -> forall i, 0 <= i < Z.of_nat n -> f i = true.
Proof.
  induction n as [|n IH]; intros Hc i Hi; [lia|]. cbn [count] in Hc.
  pose proof (count_bounds n f). destruct (f (Z.of_nat n)) eqn:E; [|lia].
  destruct (decide (i = Z.of_nat n)) as [->|]; [done|]. apply IH; lia.
Qed.
Lemma count_true n f : (forall i, 0 <= i < Z.of_nat n -> f i = true) -> count n f = Z.of_nat n.
Proof.
  induction n as [|n IH]; intros Hf; cbn [count]; [done|].
  rewrite Hf, IH by (intros; try apply Hf; lia). lia.
Qed.

(** ** The ports of the processor *)

(** One byte in and out of a port (src/io.h). *)
Class Ports (P : Type) := { inb : Z -> st P Z; outb : Z -> Z -> st P unit }.
