(* ===== verification/Pmm.v ===== *)
(** Physical memory manager (src/pmm.c): a bitmap of 4 KiB frames, a count of
    used frames and a search hint. *)
From S2P Require Import Prelude.
From stdpp Require Import base list numbers.
From Stdlib Require Import ZArith Lia.
Open Scope Z_scope.

Definition PMM_BLOCK_SIZE : Z := 4096.
Definition PMM_MAX_BLOCKS : Z := 1048576.

Module Pmm.

Record pmm := mk_pmm {
  pmm_bitmap : list Z;
  pmm_used_blocks : Z;
  pmm_next_hint : Z;
}.

Definition set_bitmap (bm : list Z) (p : pmm) : pmm := mk_pmm bm (pmm_used_blocks p) (pmm_next_hint p).
Definition set_used (u : Z) (p : pmm) : pmm := mk_pmm (pmm_bitmap p) u (pmm_next_hint p).
Definition set_hint (h : Z) (p : pmm) : pmm := mk_pmm (pmm_bitmap p) (pmm_used_blocks p) h.

Definition bitmap_set (bit : Z) (p : pmm) : pmm :=
  let bm := pmm_bitmap p in
  set_bitmap (bm.[bit / 32 := Z.lor (bm.[bit / 32]) (bit_mask (bit mod 32))]) p.

Definition bitmap_clear (bit : Z) (p : pmm) : pmm :=
  let bm := pmm_bitmap p in
  set_bitmap (bm.[bit / 32 := Z.land (bm.[bit / 32]) (Z.lnot (bit_mask (bit mod 32)))]) p.

Definition bitmap_test (bit : Z) (p : pmm) : bool :=
  negb (Z.land ((pmm_bitmap p).[bit / 32]) (bit_mask (bit mod 32)) =? 0).

Definition pmm_init (p : pmm) : pmm :=
  mk_pmm (replicate (Z.to_nat (PMM_MAX_BLOCKS / 32)) (2 ^ 32 - 1)) PMM_MAX_BLOCKS (pmm_next_hint p).

(** One round of the loop of [pmm_init_region]; [Some tt] is its [break]. *)
Definition init_region_step (align i : Z) : st pmm (option unit) := fun p =>
  let bit := u32 (align + i) in
  if PMM_MAX_BLOCKS <=? bit then (Some tt, p)
  else if bitmap_test bit p
  then (None, let p := bitmap_clear bit p in set_used (u32 (pmm_used_blocks p - 1)) p)
  else (None, p).

Definition pmm_init_region (base_addr size : Z) (p : pmm) : pmm :=
  let align := base_addr / PMM_BLOCK_SIZE in
  let blocks := size / PMM_BLOCK_SIZE in
  bitmap_set 0 (floop (rounds 0 blocks) 0 (init_region_step align) p).2.

Definition deinit_region_step (align i : Z) : st pmm (option unit) := fun p =>
  let bit := u32 (align + i) in
  if PMM_MAX_BLOCKS <=? bit then (Some tt, p)
  else if negb (bitmap_test bit p)
  then (None, let p := bitmap_set bit p in set_used (u32 (pmm_used_blocks p + 1)) p)
  else (None, p).

Definition pmm_deinit_region (base_addr size : Z) (p : pmm) : pmm :=
  let align := base_addr / PMM_BLOCK_SIZE in
  let blocks := size / PMM_BLOCK_SIZE in
  (floop (rounds 0 blocks) 0 (deinit_region_step align) p).2.

Definition pmm_count_mem (p : pmm) : Z :=
  u32 (u32 (PMM_MAX_BLOCKS - pmm_used_blocks p) * 4).

(** Body of the innermost loop of [pmm_alloc_block]: bit [j] of word [i]. *)
Definition alloc_bit (i j : Z) : st pmm (option Z) := fun p =>
  let bit := i * 32 + j in
  if bitmap_test bit p then (None, p)
  else
    let p := bitmap_set bit p in
    let p := set_used (u32 (pmm_used_blocks p + 1)) p in
    (Some (u32 (bit * PMM_BLOCK_SIZE)), set_hint bit p).

Definition alloc_word (i : Z) : st pmm (option Z) := fun p =>
  if (pmm_bitmap p).[i] =? 2 ^ 32 - 1 then (None, p) else floop 32 0 (alloc_bit i) p.

Definition alloc_pass (start_word pass : Z) : st pmm (option Z) :=
  let begin := if pass =? 0 then start_word else 0 in
  let end_ := if pass =? 0 then PMM_MAX_BLOCKS / 32 else start_word in
  floop (rounds begin end_) begin alloc_word.

(** The address of the frame, 0 when there is none. *)
Definition pmm_alloc_block : st pmm Z := fun p =>
  let start_word := pmm_next_hint p / 32 in
  let '(r, p) := floop 2 0 (alloc_pass start_word) p in
  (default 0 r, p).

Definition pmm_free_block (addr : Z) (p : pmm) : pmm :=
  let block := addr / PMM_BLOCK_SIZE in
  if PMM_MAX_BLOCKS <=? block then p
  else if negb (bitmap_test block p) then p
  else
    let p := bitmap_clear block p in
    let p := if 0 <? pmm_used_blocks p then set_used (pmm_used_blocks p - 1) p else p in
    if block <? pmm_next_hint p then set_hint block p else p.

(** ** Abstraction: the set of used frames *)

Definition frame_used (p : pmm) (b : Z) : bool := Z.testbit ((pmm_bitmap p).[b / 32]) (b mod 32).
Definition in_range (b : Z) : Prop := 0 <= b < PMM_MAX_BLOCKS.

(** The words are 32-bit, the hint is a frame number. *)
Record pmm_shape (p : pmm) : Prop := {
  shape_len : zlen (pmm_bitmap p) = PMM_MAX_BLOCKS / 32;
  shape_words : Forall is_u32 (pmm_bitmap p);
  shape_hint : in_range (pmm_next_hint p);
}.

(** Number of frames the bitmap marks used. *)
Definition frames_aux : seal (Z.to_nat PMM_MAX_BLOCKS).
Proof. by eexists. Qed.
Definition frames : nat := frames_aux.(unseal).
Lemma frames_Z : Z.of_nat frames = PMM_MAX_BLOCKS.
Proof. unfold frames. rewrite frames_aux.(seal_eq). apply Z2Nat.id. unfold PMM_MAX_BLOCKS. lia. Qed.
Definition used_count (p : pmm) : Z := count frames (frame_used p).

(** The full invariant: the counter is the number of set bits. *)
Record pmm_ok (p : pmm) : Prop := {
  ok_shape : pmm_shape p;
  ok_count : pmm_used_blocks p = used_count p;
}.

Lemma bitmap_test_used b p : bitmap_test b p = frame_used p b.
Proof.
  unfold bitmap_test, frame_used. rewrite land_bit_mask by zdm. apply negb_involutive.
Qed.

Lemma word_index b : in_range b -> 0 <= b / 32 < PMM_MAX_BLOCKS / 32.
Proof. unfold in_range, PMM_MAX_BLOCKS. zdm. Qed.

(** Writing word [b/32] so that exactly bit [b mod 32] becomes [v] makes
    exactly frame [b] become [v]. *)
Lemma frame_used_write p b w v :
  pmm_shape p -> in_range b ->
  (forall j, 0 <= j < 32 -> Z.testbit w j = if decide (j = b mod 32) then v else Z.testbit ((pmm_bitmap p).[b / 32]) j) ->
  forall c, in_range c ->
  frame_used (set_bitmap ((pmm_bitmap p).[b / 32 := w]) p) c = if decide (c = b) then v else frame_used p c.
Proof.
  intros Hp Hb Hw c Hc. unfold frame_used; cbn. pose proof (word_index _ Hb). pose proof (word_index _ Hc).
  rewrite aget_aset by (rewrite ?(shape_len _ Hp); lia).
  destruct (decide (b / 32 = c / 32)) as [E|E].
  - rewrite Hw by zdm. rewrite E.
    destruct (decide (c mod 32 = b mod 32)), (decide (c = b)); try done; zdm.
  - by rewrite decide_False by (intros ->; lia).
Qed.

Lemma shape_write p i w : pmm_shape p -> is_u32 w -> pmm_shape (set_bitmap ((pmm_bitmap p).[i := w]) p).
Proof.
  intros [Hl Hw Hh] H. constructor; cbn; [by rewrite zlen_aset | by apply aset_Forall | done].
Qed.

Lemma word_u32 p b : pmm_shape p -> in_range b -> is_u32 ((pmm_bitmap p).[b / 32]).
Proof.
  intros Hp Hb. apply (aget_Forall is_u32); [apply Hp|].
  rewrite (shape_len _ Hp). by apply word_index.
Qed.

Lemma bitmap_set_used p b c : pmm_shape p -> in_range b -> in_range c ->
  frame_used (bitmap_set b p) c = if decide (c = b) then true else frame_used p c.
Proof.
  intros. apply frame_used_write; [done..| |done].
  intros. rewrite lor_bit_mask_testbit by zdm. done.
Qed.
Lemma bitmap_clear_used p b c : pmm_shape p -> in_range b -> in_range c ->
  frame_used (bitmap_clear b p) c = if decide (c = b) then false else frame_used p c.
Proof.
  intros. apply frame_used_write; [done..| |done].
  intros. rewrite ldiff_bit_mask_testbit by zdm. done.
Qed.
Lemma bitmap_set_shape p b : pmm_shape p -> in_range b -> pmm_shape (bitmap_set b p).
Proof. intros. apply shape_write; [done|]. apply (lor_bit_mask_bound _ _ 32); [by apply word_u32 | zdm]. Qed.
Lemma bitmap_clear_shape p b : pmm_shape p -> in_range b -> pmm_shape (bitmap_clear b p).
Proof. intros. apply shape_write; [done|]. apply (ldiff_bit_mask_bound _ _ 32); [by apply word_u32 | lia]. Qed.


(** ** Allocation *)

(** What an allocation of frame [b] does to the state. *)
Definition take_frame (b : Z) (p : pmm) : pmm :=
  set_hint b (set_used (u32 (pmm_used_blocks (bitmap_set b p) + 1)) (bitmap_set b p)).

Lemma alloc_bit_miss i j p : frame_used p (i * 32 + j) = true -> alloc_bit i j p = (None, p).
Proof. intros H. unfold alloc_bit. by rewrite bitmap_test_used, H. Qed.
Lemma alloc_bit_hit i j p : frame_used p (i * 32 + j) = false ->
  alloc_bit i j p = (Some (u32 ((i * 32 + j) * PMM_BLOCK_SIZE)), take_frame (i * 32 + j) p).
Proof. intros H. unfold alloc_bit. by rewrite bitmap_test_used, H. Qed.

(** A word is full exactly when its 32 frames are used. *)
Lemma word_full p i : pmm_shape p -> 0 <= i < PMM_MAX_BLOCKS / 32 ->
  (forall j, 0 <= j < 32 -> frame_used p (i * 32 + j) = true) ->
  (pmm_bitmap p).[i] = 2 ^ 32 - 1.
Proof.
  intros Hp Hi Hj. assert (Hw : is_u32 ((pmm_bitmap p).[i])).
  { apply (aget_Forall is_u32); [apply Hp | by rewrite (shape_len _ Hp)]. }
  change (2 ^ 32 - 1) with (Z.ones 32). apply Z.bits_inj'. intros j Hj0.
  destruct (decide (j < 32)).
  - rewrite Z.ones_spec_low by lia. specialize (Hj j ltac:(lia)). unfold frame_used in Hj.
    replace ((i * 32 + j) / 32) with i in Hj by zdm.
    by replace ((i * 32 + j) mod 32) with j in Hj by zdm.
  - rewrite Z.ones_spec_high by lia. unfold is_u32 in Hw.
    destruct (decide ((pmm_bitmap p).[i] = 0)) as [->|]; [apply Z.bits_0|].
    apply Z.bits_above_log2; [lia|]. pose proof (Z.log2_lt_pow2 ((pmm_bitmap p).[i]) 32). lia.
Qed.

(** Word [i] has a free frame. *)
Definition word_free (p : pmm) (i : Z) : bool := negb ((pmm_bitmap p).[i] =? 2 ^ 32 - 1).

Lemma alloc_word_cases p i : pmm_shape p -> 0 <= i < PMM_MAX_BLOCKS / 32 ->
  (exists b, b / 32 = i /\ frame_used p b = false /\
     alloc_word i p = (Some (u32 (b * PMM_BLOCK_SIZE)), take_frame b p)) \/
  ((forall b, b / 32 = i -> frame_used p b = true) /\ alloc_word i p = (None, p)).
Proof.
  intros Hp Hi. unfold alloc_word. destruct ((pmm_bitmap p).[i] =? 2 ^ 32 - 1) eqn:E.
  - right. split; [|done]. apply Z.eqb_eq in E. intros b Hb. unfold frame_used.
    rewrite Hb, E. change (2 ^ 32 - 1) with (Z.ones 32). apply Z.ones_spec_low. zdm.
  - destruct (floop_find (fun j => negb (frame_used p (i * 32 + j))) 32 0 (alloc_bit i) p)
      as [(k & Hk & Hf & _ & Hr)|[Hall Hr]].
    + intros j _ Hj. apply alloc_bit_miss. by apply negb_false_iff.
    + intros j _ Hj. rewrite alloc_bit_hit by (by apply negb_true_iff). done.
    + left. exists (i * 32 + k). apply negb_true_iff in Hf.
      rewrite Hr, alloc_bit_hit by done. repeat split; [zdm|done].
    + exfalso. apply Z.eqb_neq in E. apply E. apply word_full; [done..|].
      intros j Hj. apply negb_false_iff, Hall. lia.
Qed.

Lemma alloc_pass_cases p s pass : pmm_shape p -> 0 <= s < PMM_MAX_BLOCKS / 32 ->
  let lo := if pass =? 0 then s else 0 in
  let hi := if pass =? 0 then PMM_MAX_BLOCKS / 32 else s in
  (exists b, in_range b /\ frame_used p b = false /\
     alloc_pass s pass p = (Some (u32 (b * PMM_BLOCK_SIZE)), take_frame b p)) \/
  ((forall b, lo <= b / 32 < hi -> frame_used p b = true) /\ alloc_pass s pass p = (None, p)).
Proof.
  intros Hp Hs lo hi. unfold alloc_pass. fold lo hi.
  assert (Hlh : 0 <= lo <= hi /\ hi <= PMM_MAX_BLOCKS / 32) by (subst lo hi; destruct (pass =? 0); lia).
  assert (Hrange : forall j, lo <= j < lo + Z.of_nat (rounds lo hi) -> 0 <= j < PMM_MAX_BLOCKS / 32)
    by (unfold rounds; lia).
  destruct (floop_find (fun i => bool_decide (is_Some (alloc_word i p).1)) (rounds lo hi) lo alloc_word p)
    as [(k & Hk & Hf & _ & Hr)|[Hall Hr]].
  - intros j Hj Hn. destruct (alloc_word_cases p j Hp (Hrange j Hj)) as [(b & ? & ? & E)|[_ E]]; [|done].
    rewrite E in Hn. by apply bool_decide_eq_false in Hn; destruct Hn.
  - intros j Hj Hn HN. apply bool_decide_eq_true in Hn as [x Hx]. congruence.
  - left. apply bool_decide_eq_true in Hf.
    destruct (alloc_word_cases p k Hp (Hrange k Hk)) as [(b & Hb & Hu & E)|[_ E]].
    + exists b. rewrite Hr, E. repeat split; [| |done]; specialize (Hrange k Hk); unfold PMM_MAX_BLOCKS in *; zdm.
    + rewrite E in Hf. by destruct Hf.
  - right. split; [|done]. intros b Hb. unfold rounds in Hall.
    assert (Hb' : lo <= b / 32 < lo + Z.of_nat (rounds lo hi)) by (unfold rounds; lia).
    specialize (Hall (b / 32) ltac:(unfold rounds in Hb'; lia)). apply bool_decide_eq_false in Hall.
    destruct (alloc_word_cases p (b / 32) Hp (Hrange _ Hb')) as [(b' & ? & ? & E)|[Hf _]]; [|by apply Hf].
    rewrite E in Hall. by destruct Hall.
Qed.

(** The two outcomes of an allocation. *)
Lemma alloc_cases p : pmm_shape p ->
  (exists b, in_range b /\ frame_used p b = false /\
     pmm_alloc_block p = (b * PMM_BLOCK_SIZE, take_frame b p)) \/
  ((forall b, in_range b -> frame_used p b = true) /\ pmm_alloc_block p = (0, p)).
Proof.
  intros Hp. pose proof (shape_hint _ Hp) as Hh. unfold pmm_alloc_block.
  set (s := pmm_next_hint p / 32). pose proof (word_index _ Hh) as Hs. fold s in Hs.
  cbn [floop]. change (0 + 1) with 1.
  assert (Hu : forall b, in_range b -> u32 (b * PMM_BLOCK_SIZE) = b * PMM_BLOCK_SIZE).
  { unfold in_range, PMM_MAX_BLOCKS, PMM_BLOCK_SIZE. intros. apply u32_small. lia. }
  destruct (alloc_pass_cases p s 0 Hp Hs) as [(b & Hb & Hf & E)|[Ha0 E0]].
  { left. exists b. rewrite E. cbn. by rewrite Hu. }
  rewrite E0.
  destruct (alloc_pass_cases p s 1 Hp Hs) as [(b & Hb & Hf & E)|[Ha1 E1]].
  { left. exists b. rewrite E. cbn. by rewrite Hu. }
  right. rewrite E1. cbn. split; [|done]. intros b Hb. pose proof (word_index _ Hb).
  cbn in Ha0, Ha1. destruct (decide (b / 32 < s)); [apply Ha1 | apply Ha0]; lia.
Qed.

Lemma take_frame_shape b p : pmm_shape p -> in_range b -> pmm_shape (take_frame b p).
Proof. intros Hp Hb. destruct (bitmap_set_shape p b Hp Hb). by constructor. Qed.
Lemma take_frame_used b p c : pmm_shape p -> in_range b -> in_range c ->
  frame_used (take_frame b p) c = if decide (c = b) then true else frame_used p c.
Proof. intros. by apply bitmap_set_used. Qed.

Lemma used_count_set p q b : in_range b -> frame_used p b = false -> frame_used q b = true ->
  (forall c, in_range c -> c <> b -> frame_used p c = frame_used q c) ->
  used_count q = used_count p + 1.
Proof.
  intros Hb Hp Hq Ho. unfold used_count, in_range in *. apply count_flip with (k := b); rewrite ?frames_Z; auto.
Qed.

Lemma used_count_bounds p : 0 <= used_count p <= PMM_MAX_BLOCKS.
Proof.
  unfold used_count. pose proof (count_bounds frames (frame_used p)) as Hc.
  rewrite frames_Z in Hc. exact Hc. Qed.

Lemma take_frame_ok b p : pmm_ok p -> in_range b -> frame_used p b = false -> pmm_ok (take_frame b p).
Proof.
  intros [Hp Hc] Hb Hf. constructor; [by apply take_frame_shape|].
  rewrite (used_count_set p (take_frame b p) b); [| done | done | |].
  - cbn. rewrite Hc. apply u32_small. pose proof (used_count_bounds p). unfold PMM_MAX_BLOCKS in *. lia.
  - rewrite take_frame_used by done. by rewrite decide_True.
  - intros c Hcr Hne. rewrite take_frame_used by done. by rewrite decide_False.
Qed.

(** ** Freeing *)

Lemma free_cases p addr : pmm_shape p -> 0 <= addr ->
  let b := addr / PMM_BLOCK_SIZE in
  (in_range b /\ frame_used p b = true /\
   pmm_bitmap (pmm_free_block addr p) = pmm_bitmap (bitmap_clear b p) /\
   pmm_used_blocks (pmm_free_block addr p) = (if 0 <? pmm_used_blocks p then pmm_used_blocks p - 1 else pmm_used_blocks p) /\
   pmm_next_hint (pmm_free_block addr p) = Z.min b (pmm_next_hint p)) \/
  ((in_range b -> frame_used p b = false) /\ pmm_free_block addr p = p).
Proof.
  intros Hp Ha b. unfold pmm_free_block. fold b.
  assert (0 <= b) by (subst b; unfold PMM_BLOCK_SIZE; zdm).
  destruct (PMM_MAX_BLOCKS <=? b) eqn:E; [right; split; [unfold in_range; lia|done]|].
  rewrite bitmap_test_used. destruct (frame_used p b) eqn:Ef; cbn [negb]; [|right; by split].
  left. split; [unfold in_range; lia|]. split; [done|].
  change (pmm_used_blocks (bitmap_clear b p)) with (pmm_used_blocks p).
  destruct (0 <? pmm_used_blocks p), (b <? _) eqn:Eh; cbn in *; repeat split; lia.
Qed.

Lemma free_block_used p addr c : pmm_shape p -> 0 <= addr -> in_range c ->
  frame_used (pmm_free_block addr p) c =
  if decide (c = addr / PMM_BLOCK_SIZE) then false else frame_used p c.
Proof.
  intros Hp Ha Hc. destruct (free_cases p addr Hp Ha) as [(Hb & Hu & Hbm & _)|[Hf ->]].
  - unfold frame_used at 1. rewrite Hbm. by apply bitmap_clear_used.
  - case_decide; [subst; by apply Hf | done].
Qed.

Lemma free_block_ok p addr : pmm_ok p -> 0 <= addr -> pmm_ok (pmm_free_block addr p).
Proof.
  intros [Hp Hc] Ha. destruct (free_cases p addr Hp Ha) as [(Hb & Hu & Hbm & Hus & Hh)|[_ ->]]; [|done].
  destruct (bitmap_clear_shape p _ Hp Hb) as [Hl Hw _]. constructor.
  - constructor; [by rewrite Hbm | by rewrite Hbm|].
    pose proof (shape_hint _ Hp). rewrite Hh. unfold in_range in *. lia.
  - assert (Hcnt : used_count p = used_count (pmm_free_block addr p) + 1).
    { apply used_count_set with (b := addr / PMM_BLOCK_SIZE); [done | | done |].
      - rewrite free_block_used by done. by rewrite decide_True.
      - intros c Hcr Hne. rewrite free_block_used by done. by rewrite decide_False. }
    pose proof (used_count_bounds (pmm_free_block addr p)).
    rewrite Hus. destruct (0 <? pmm_used_blocks p) eqn:E; lia.
Qed.

(** ** Regions *)

(** Frames of the region [base, base + size): the code drops the remainder of
    both divisions. *)
Definition in_region (base size c : Z) : Prop :=
  base / PMM_BLOCK_SIZE <= c < base / PMM_BLOCK_SIZE + size / PMM_BLOCK_SIZE.
#[export] Instance in_region_dec base size c : Decision (in_region base size c).
Proof. unfold in_region. apply _. Defined.

Lemma clear_frame_ok p b : pmm_ok p -> in_range b -> frame_used p b = true ->
  pmm_ok (set_used (u32 (pmm_used_blocks p - 1)) (bitmap_clear b p)).
Proof.
  intros [Hp Hc] Hb Hu. destruct (bitmap_clear_shape p b Hp Hb). constructor; [by constructor|].
  assert (Hcnt : used_count p = used_count (bitmap_clear b p) + 1).
  { apply used_count_set with (b := b); [done | | done |].
    - rewrite bitmap_clear_used by done. by rewrite decide_True.
    - intros c Hcr Hne. rewrite bitmap_clear_used by done. by rewrite decide_False. }
  pose proof (used_count_bounds p). pose proof (used_count_bounds (bitmap_clear b p)).
  unfold PMM_MAX_BLOCKS in *. cbn [pmm_used_blocks set_used]. rewrite u32_small by lia.
  change (used_count (set_used _ (bitmap_clear b p))) with (used_count (bitmap_clear b p)). lia.
Qed.

Lemma set_frame_ok p b : pmm_ok p -> in_range b -> frame_used p b = false ->
  pmm_ok (set_used (u32 (pmm_used_blocks p + 1)) (bitmap_set b p)).
Proof.
  intros Hp Hb Hf. destruct (take_frame_ok b p Hp Hb Hf) as [[Hl Hw Hh] Hc].
  constructor; [|exact Hc]. constructor; [done..|apply Hp].
Qed.

(** The common shape of the two region loops: [step] makes frame [bit] have
    mark [v] and keeps the invariant [I]. *)
Definition marks (I : pmm -> Prop) (v : bool) (step : Z -> Z -> st pmm (option unit)) : Prop :=
  forall align i p, I p -> 0 <= align + i < 2 ^ 32 ->
  match step align i p with
  | (Some _, p') => PMM_MAX_BLOCKS <= align + i /\ p' = p
  | (None, p') => in_range (align + i) /\ I p' /\
      forall c, in_range c -> frame_used p' c = if decide (c = align + i) then v else frame_used p c
  end.

Lemma init_step_marks (I : pmm -> Prop) : (forall p, I p -> pmm_shape p) ->
  (forall p b, I p -> in_range b -> frame_used p b = true -> I (set_used (u32 (pmm_used_blocks p - 1)) (bitmap_clear b p))) -> marks I false init_region_step.
Proof.
  intros Hshape Hkeep align i p Hp Hi. unfold init_region_step. rewrite u32_small by done.
  destruct (PMM_MAX_BLOCKS <=? align + i) eqn:E; [split; [lia|done]|].
  assert (Hb : in_range (align + i)) by (unfold in_range; lia).
  rewrite bitmap_test_used. destruct (frame_used p (align + i)) eqn:Ef.
  - split_and!; [done | by apply (Hkeep p (align + i)) |]. intros c Hc. change (frame_used (bitmap_clear (align + i) p) c = if decide (c = align + i) then false else frame_used p c).
    by apply bitmap_clear_used; [apply Hshape|..].
  - split_and!; [done..|]. intros. case_decide; by subst.
Qed.
Lemma deinit_step_marks (I : pmm -> Prop) : (forall p, I p -> pmm_shape p) ->
  (forall p b, I p -> in_range b -> frame_used p b = false -> I (set_used (u32 (pmm_used_blocks p + 1)) (bitmap_set b p))) -> marks I true deinit_region_step.
Proof.
  intros Hshape Hkeep align i p Hp Hi. unfold deinit_region_step. rewrite u32_small by done.
  destruct (PMM_MAX_BLOCKS <=? align + i) eqn:E; [split; [lia|done]|].
  assert (Hb : in_range (align + i)) by (unfold in_range; lia).
  rewrite bitmap_test_used. destruct (frame_used p (align + i)) eqn:Ef; cbn [negb].
  - split_and!; [done..|]. intros. case_decide; by subst.
  - split_and!; [done | by apply (Hkeep p (align + i)) |]. intros c Hc. change (frame_used (bitmap_set (align + i) p) c = if decide (c = align + i) then true else frame_used p c).
    by apply bitmap_set_used; [apply Hshape|..].
Qed.
Lemma init_region_step_marks : marks pmm_ok false init_region_step.
Proof. apply init_step_marks; [by intros p []|]. intros. by apply clear_frame_ok. Qed.
Lemma deinit_region_step_marks : marks pmm_ok true deinit_region_step.
Proof. apply deinit_step_marks; [by intros p []|]. intros. by apply set_frame_ok. Qed.
Lemma set_used_shape u p : pmm_shape p -> pmm_shape (set_used u p).
Proof. intros [H1 H2 H3]. by constructor. Qed.
Lemma init_shape_marks : marks pmm_shape false init_region_step.
Proof. apply init_step_marks; [done|]. intros. by apply set_used_shape, bitmap_clear_shape. Qed.
Lemma deinit_shape_marks : marks pmm_shape true deinit_region_step.
Proof. apply deinit_step_marks; [done|]. intros. by apply set_used_shape, bitmap_set_shape. Qed.

Lemma region_loop I v step p base size : marks I v step -> I p -> is_u32 base -> is_u32 size ->
  let p' := (floop (rounds 0 (size / PMM_BLOCK_SIZE)) 0 (step (base / PMM_BLOCK_SIZE)) p).2 in
  I p' /\ forall c, in_range c -> frame_used p' c = if decide (in_region base size c) then v else frame_used p c.
Proof.
  unfold is_u32. intros Hm Hp Hb Hs. set (align := base / PMM_BLOCK_SIZE). set (n := size / PMM_BLOCK_SIZE).
  assert (Ha : 0 <= align < 2 ^ 20) by (subst align; unfold PMM_BLOCK_SIZE; zdm).
  assert (Hn : 0 <= n < 2 ^ 20) by (subst n; unfold PMM_BLOCK_SIZE; zdm).
  set (J := fun hi q => I q /\ forall c, in_range c ->
        frame_used q c = if decide (align <= c < hi) then v else frame_used p c).
  cut (J (align + n) (floop (rounds 0 n) 0 (step align) p).2).
  { intros [H1 H2]. split; [done|]. intros c Hc. rewrite H2 by done. unfold in_region. fold align n. done. }
  apply (floop_inv (fun j q => J (align + j) q) (fun _ q => J (align + n) q)).
  - split; [done|]. intros. by rewrite decide_False by lia.
  - intros j q Hj [Hq Hu]. specialize (Hm align j q Hq ltac:(unfold rounds in Hj; lia)).
    destruct (step align j q) as [[u|] q'].
    + destruct Hm as [Hge ->]. split; [done|]. intros c Hc. rewrite Hu by done.
      unfold rounds in Hj. unfold in_range in Hc. destruct (decide (align <= c < align + j)), (decide (align <= c < align + n)); done || lia.
    + destruct Hm as (Hr & Hq' & Hu'). split; [done|]. intros c Hc. rewrite Hu', Hu by done.
      destruct (decide (c = align + j)), (decide (align <= c < align + j)), (decide (align <= c < align + (j + 1))); done || lia.
  - intros q. replace (0 + Z.of_nat (rounds 0 n)) with n by (unfold rounds; lia). done.
Qed.

(** Both region functions on any bitmap, whatever the counter says. *)
Lemma init_region_used p base size : pmm_shape p -> is_u32 base -> is_u32 size -> pmm_shape (pmm_init_region base size p) /\
  forall c, in_range c -> frame_used (pmm_init_region base size p) c = if decide (c = 0) then true else if decide (in_region base size c) then false else frame_used p c.
Proof.
  intros Hp Hb Hs. destruct (region_loop _ false _ p base size init_shape_marks Hp Hb Hs) as [H1 H2].
  assert (H0 : in_range 0) by (unfold in_range, PMM_MAX_BLOCKS; lia). unfold pmm_init_region. split; [by apply bitmap_set_shape|].
  intros c Hc. rewrite bitmap_set_used by done. by rewrite H2.
Qed.
Lemma deinit_region_used p base size : pmm_shape p -> is_u32 base -> is_u32 size -> pmm_shape (pmm_deinit_region base size p) /\
  forall c, in_range c -> frame_used (pmm_deinit_region base size p) c = if decide (in_region base size c) then true else frame_used p c.
Proof. intros Hp Hb Hs. by apply (region_loop _ true _ p base size deinit_shape_marks). Qed.

(** ** Properties *)

(** Allocation is sound and complete: it either hands out the 4 KiB
    aligned address of a frame that was free, marks that frame and no other,
    keeps the invariant and counts it; or every frame is in use and the state
    is untouched. *)
Theorem pmm_alloc_block_spec p : pmm_ok p ->
  let '(a, p') := pmm_alloc_block p in
  (exists b, in_range b /\ a = b * PMM_BLOCK_SIZE /\ frame_used p b = false /\
     (forall c, in_range c -> frame_used p' c = if decide (c = b) then true else frame_used p c) /\
     pmm_used_blocks p' = pmm_used_blocks p + 1 /\ pmm_ok p') \/
  ((forall b, in_range b -> frame_used p b = true) /\ a = 0 /\ p' = p).
Proof.
  intros Hok. pose proof (ok_shape _ Hok) as Hp.
  destruct (alloc_cases p Hp) as [(b & Hb & Hf & ->)|[Hall ->]]; [left|by right].
  exists b. pose proof (take_frame_ok b p Hok Hb Hf) as Hok'. split_and!; auto.
  - intros. by apply take_frame_used.
  - rewrite (ok_count _ Hok'), (ok_count _ Hok). apply used_count_set with (b := b); auto.
    + rewrite take_frame_used by done. by rewrite decide_True.
    + intros. rewrite take_frame_used by done. by rewrite decide_False.
Qed.

(** Freeing an allocated frame undoes its allocation: the invariant
    holds, exactly the same frames are in use and the counter is back. *)
Theorem pmm_free_alloc_roundtrip p : pmm_ok p -> (exists b, in_range b /\ frame_used p b = false) ->
  let '(a, p') := pmm_alloc_block p in
  let q := pmm_free_block a p' in
  pmm_ok q /\ pmm_used_blocks q = pmm_used_blocks p /\
  forall c, in_range c -> frame_used q c = frame_used p c.
Proof.
  intros Hok (f & Hf & Hff). pose proof (ok_shape _ Hok) as Hp.
  destruct (alloc_cases p Hp) as [(b & Hb & Hfr & ->)|[Hall _]]; [|by rewrite Hall in Hff].
  pose proof (take_frame_ok b p Hok Hb Hfr) as Hok'.
  assert (Ha : 0 <= b * PMM_BLOCK_SIZE) by (unfold in_range, PMM_BLOCK_SIZE in *; lia).
  assert (Hdiv : b * PMM_BLOCK_SIZE / PMM_BLOCK_SIZE = b) by (unfold PMM_BLOCK_SIZE; zdm).
  pose proof (free_block_ok _ _ Hok' Ha) as Hq.
  assert (Hu : forall c, in_range c -> frame_used (pmm_free_block (b * PMM_BLOCK_SIZE) (take_frame b p)) c = frame_used p c).
  { intros c Hc. rewrite free_block_used by (try done; apply Hok'). rewrite Hdiv, take_frame_used by done.
    case_decide; by subst. }
  split_and!; [done| |done]. rewrite (ok_count _ Hq), (ok_count _ Hok). unfold used_count. apply count_ext.
  intros i Hi. apply Hu. unfold in_range. by rewrite <- frames_Z.
Qed.

(** Reserving a region marks all of its frames used, changes no other
    frame and keeps the invariant; releasing one frees all of its frames
    except frame 0, which is always kept. *)
Theorem pmm_region_spec p base size c : pmm_ok p -> is_u32 base -> is_u32 size -> in_range c ->
  pmm_ok (pmm_deinit_region base size p) /\
  frame_used (pmm_deinit_region base size p) c =
    (if decide (in_region base size c) then true else frame_used p c) /\
  pmm_shape (pmm_init_region base size p) /\
  frame_used (pmm_init_region base size p) c =
    (if decide (c = 0) then true
     else if decide (in_region base size c) then false else frame_used p c).
Proof.
  intros Hp Hb Hs Hc.
  destruct (region_loop _ true _ p base size deinit_region_step_marks Hp Hb Hs) as [Hd1 Hd2].
  destruct (region_loop _ false _ p base size init_region_step_marks Hp Hb Hs) as [Hi1 Hi2].
  assert (H0 : in_range 0) by (unfold in_range, PMM_MAX_BLOCKS; lia).
  split_and!; [done | by apply Hd2 | |].
  - by apply bitmap_set_shape; [apply Hi1|].
  - unfold pmm_init_region. rewrite bitmap_set_used; [|apply Hi1|done|done]. by rewrite Hi2.
Qed.

(** Releasing a region that contains frame 0 leaves the used-frame
    counter one below the number of frames actually marked used, because the
    final [bitmap_set(0)] is not counted. *)
Theorem pmm_init_region_undercounts p base size : pmm_ok p -> 0 <= base < PMM_BLOCK_SIZE ->
  is_u32 size -> PMM_BLOCK_SIZE <= size ->
  used_count (pmm_init_region base size p) = pmm_used_blocks (pmm_init_region base size p) + 1.
Proof.
  intros Hp Hb Hs Hsz. unfold PMM_BLOCK_SIZE in *.
  destruct (region_loop _ false _ p base size init_region_step_marks Hp) as [Hi1 Hi2];
    [unfold is_u32; lia | done |].
  assert (H0 : in_range 0) by (unfold in_range, PMM_MAX_BLOCKS; lia).
  unfold pmm_init_region. set (q := (floop _ _ _ _).2) in *.
  change (pmm_used_blocks (bitmap_set 0 q)) with (pmm_used_blocks q). rewrite (ok_count _ Hi1).
  apply used_count_set with (b := 0); auto.
  - rewrite Hi2 by done. unfold in_region, PMM_BLOCK_SIZE. by rewrite decide_True by zdm.
  - rewrite bitmap_set_used by (apply Hi1 || done). by rewrite decide_True.
  - intros. rewrite bitmap_set_used by (apply Hi1 || done). by rewrite decide_False.
Qed.

(** ** Witnesses *)

Definition booted : pmm := pmm_init (mk_pmm [] 0 0).

Lemma booted_used c : in_range c -> frame_used booted c = true.
Proof.
  intros Hc. unfold frame_used, booted, pmm_init; cbn [pmm_bitmap].
  pose proof (word_index _ Hc). rewrite aget_replicate by (rewrite Z2Nat.id; lia).
  change (2 ^ 32 - 1) with (Z.ones 32). apply Z.ones_spec_low. zdm.
Qed.
Lemma booted_ok : pmm_ok booted.
Proof.
  constructor; [constructor|].
  - unfold booted, pmm_init; cbn [pmm_bitmap]. rewrite zlen_replicate. apply Z2Nat.id. unfold PMM_MAX_BLOCKS. zdm.
  - apply Forall_replicate. unfold is_u32. lia.
  - unfold in_range, PMM_MAX_BLOCKS; cbn. lia.
  - cbn. symmetry. unfold used_count. rewrite count_true, frames_Z; [done|].
    intros. apply booted_used. unfold in_range. by rewrite <- frames_Z.
Qed.

Lemma pmm_alloc_block_witness :
  let '(a, p') := pmm_alloc_block booted in
  (exists b, in_range b /\ a = b * PMM_BLOCK_SIZE /\ frame_used booted b = false /\
     (forall c, in_range c -> frame_used p' c = if decide (c = b) then true else frame_used booted c) /\
     pmm_used_blocks p' = pmm_used_blocks booted + 1 /\ pmm_ok p') \/
  ((forall b, in_range b -> frame_used booted b = true) /\ a = 0 /\ p' = booted).
Proof. exact (pmm_alloc_block_spec booted booted_ok). Defined.

Lemma pmm_free_alloc_witness :
  let p := pmm_free_block (300 * PMM_BLOCK_SIZE) booted in
  let '(a, p') := pmm_alloc_block p in
  let q := pmm_free_block a p' in
  pmm_ok q /\ pmm_used_blocks q = pmm_used_blocks p /\
  forall c, in_range c -> frame_used q c = frame_used p c.
Proof.
  intros p. assert (Ha : 0 <= 300 * PMM_BLOCK_SIZE) by (unfold PMM_BLOCK_SIZE; lia).
  assert (H300 : in_range 300) by (unfold in_range, PMM_MAX_BLOCKS; lia).
  apply (pmm_free_alloc_roundtrip p (free_block_ok booted _ booted_ok Ha)).
  exists 300. split; [done|]. subst p. rewrite free_block_used by (apply booted_ok || done).
  by rewrite decide_True.
Defined.

Lemma pmm_region_witness :
  frame_used (pmm_init_region (2 ^ 20) (2 ^ 20) booted) 300 = false.
Proof.
  destruct (pmm_region_spec booted (2 ^ 20) (2 ^ 20) 300 booted_ok) as (_ & _ & _ & H).
  - unfold is_u32; lia.
  - unfold is_u32; lia.
  - unfold in_range, PMM_MAX_BLOCKS; lia.
  - exact H.
Defined.

Lemma pmm_undercount_witness :
  used_count (pmm_init_region 0 (2 ^ 20) booted) = pmm_used_blocks (pmm_init_region 0 (2 ^ 20) booted) + 1.
Proof.
  apply (pmm_init_region_undercounts booted 0 (2 ^ 20) booted_ok); unfold PMM_BLOCK_SIZE, is_u32; lia.
Defined.

End Pmm.
