(* ===== verification/CString.v ===== *)
(** C strings and generic routines (src/string.c).

    A [char*] is the list of bytes (0..255) from the pointer on; a read past
    the end of the list is the terminator. A pointer result is the offset into
    the argument. *)
From S2P Require Import Prelude.
From stdpp Require Import base list numbers.
From Stdlib Require Import ZArith Lia Sorting.Sorted.
Open Scope Z_scope.

Module CString.

(** [*s]. *)
Definition hd0 (s : list Z) : Z := default 0 (head s).

(** The characters before the terminator: what the string denotes. *)
Fixpoint cstr (s : list Z) : list Z :=
  match s with [] => [] | c :: s => if c =? 0 then [] else c :: cstr s end.

(** ** Comparison and length *)

Fixpoint strcmp (a b : list Z) : Z :=
  match a with
  | x :: a' =>
      if negb (x =? 0) && (x =? hd0 b) then strcmp a' (tail b) else x - hd0 b
  | [] => 0 - hd0 b
  end.

Fixpoint strlen (s : list Z) : Z :=
  match s with [] => 0 | c :: s => if c =? 0 then 0 else 1 + strlen s end.

Fixpoint memcmp (a b : list Z) (n : nat) : Z :=
  match n with
  | O => 0
  | S n => if negb (hd0 a =? hd0 b) then hd0 a - hd0 b else memcmp (tail a) (tail b) n
  end.

Fixpoint strncmp (a b : list Z) (n : nat) : Z :=
  match n with
  | O => 0
  | S n =>
      if negb (hd0 a =? 0) && (hd0 a =? hd0 b) then strncmp (tail a) (tail b) n
      else hd0 a - hd0 b
  end.

Definition tolower (c : Z) : Z := if (65 <=? c) && (c <=? 90) then c + 32 else c.

Fixpoint strcasecmp (a b : list Z) : Z :=
  match a with
  | x :: a' =>
      if negb (x =? 0) && negb (hd0 b =? 0) then
        let ca := u8 (tolower x) in
        let cb := u8 (tolower (hd0 b)) in
        if negb (ca =? cb) then ca - cb else strcasecmp a' (tail b)
      else u8 (tolower x) - u8 (tolower (hd0 b))
  | [] => u8 (tolower 0) - u8 (tolower (hd0 b))
  end.

(** ** Copies: the bytes the destination holds afterwards, from its start *)

Definition strcpy_out (src : list Z) : list Z := cstr src ++ [0].

Fixpoint strncpy_out (src : list Z) (n : nat) : list Z :=
  match n with
  | O => []
  | S n =>
      if hd0 src =? 0 then 0 :: replicate n 0
      else hd0 src :: strncpy_out (tail src) n
  end.

Definition strcat_out (dest src : list Z) : list Z := cstr dest ++ strcpy_out src.

(** ** Searches *)

Fixpoint strchr (s : list Z) (c : Z) : option Z :=
  match s with
  | x :: s' =>
      if x =? 0 then (if c =? 0 then Some 0 else None)
      else if x =? u8 c then Some 0
      else option_map Z.succ (strchr s' c)
  | [] => if c =? 0 then Some 0 else None
  end.

(** The loop of [strrchr]: [i] is [s] minus the argument, [last] as in the code. *)
Fixpoint strrchr_from (s : list Z) (c i : Z) (last : option Z) : option Z :=
  match s with
  | x :: s' =>
      if x =? 0 then (if u8 c =? 0 then Some i else last)
      else strrchr_from s' c (i + 1) (if x =? u8 c then Some i else last)
  | [] => if u8 c =? 0 then Some i else last
  end.
Definition strrchr (s : list Z) (c : Z) : option Z := strrchr_from s c 0 None.

(** The inner loop of [strstr]: does [n] match at [h]? *)
Fixpoint match_at (h n : list Z) : bool :=
  match n with
  | [] => true
  | y :: n' =>
      if y =? 0 then true
      else if negb (hd0 h =? 0) && (hd0 h =? y) then match_at (tail h) n' else false
  end.
Fixpoint strstr_from (h n : list Z) : option Z :=
  match h with
  | [] => None
  | x :: h' =>
      if x =? 0 then None
      else if match_at h n then Some 0 else option_map Z.succ (strstr_from h' n)
  end.
Definition strstr (haystack needle : list Z) : option Z :=
  if hd0 needle =? 0 then Some 0 else strstr_from haystack needle.

(** ** Numbers *)

Definition is_digit (c : Z) : bool := (48 <=? c) && (c <=? 57).

Fixpoint str_to_int_from (s : list Z) (res : Z) : Z :=
  match s with
  | [] => res
  | c :: s =>
      if c =? 0 then res
      else if is_digit c then str_to_int_from s (s32 (res * 10 + (c - 48))) else res
  end.
Definition str_to_int (s : list Z) : Z := str_to_int_from s 0.

Definition is_space (c : Z) : bool :=
  (c =? 32) || (c =? 9) || (c =? 10) || (c =? 13) || (c =? 12) || (c =? 11).
Fixpoint skip_space (s : list Z) : list Z :=
  match s with [] => [] | c :: s' => if is_space c then skip_space s' else s end.
(** The optional sign: its value and the rest. *)
Definition take_sign (s : list Z) : Z * list Z :=
  if hd0 s =? 43 then (1, tail s) else if hd0 s =? 45 then (-1, tail s) else (1, s).

Fixpoint atoi_digits (s : list Z) (val : Z) : Z :=
  match s with
  | [] => val
  | c :: s => if is_digit c then atoi_digits s (s32 (val * 10 + (c - 48))) else val
  end.
Definition atoi (s : list Z) : Z :=
  let '(sign, s) := take_sign (skip_space s) in s32 (atoi_digits s 0 * sign).

(** The digit a character stands for, as [strtol] reads it. *)
Definition digit_of (c : Z) : option Z :=
  if is_digit c then Some (c - 48)
  else if (97 <=? c) && (c <=? 122) then Some (c - 97 + 10)
  else if (65 <=? c) && (c <=? 90) then Some (c - 65 + 10)
  else None.
(** The digit loop: accumulated value and number of characters consumed. *)
Fixpoint strtol_digits (s : list Z) (base acc n : Z) : Z * Z :=
  match s with
  | [] => (acc, n)
  | c :: s =>
      if c =? 0 then (acc, n) else
      match digit_of c with
      | None => (acc, n)
      | Some d => if base <=? d then (acc, n) else strtol_digits s base (s32 (acc * base + d)) (n + 1)
      end
  end.
Definition has_0x (s : list Z) : bool :=
  (hd0 s =? 48) && ((hd0 (tail s) =? 120) || (hd0 (tail s) =? 88)).
(** Result and [*endptr] as an offset into [nptr]. *)
Definition strtol (nptr : list Z) (base : Z) : Z * Z :=
  let s := skip_space nptr in
  let '(sign, s) := take_sign s in
  let base :=
    if base =? 0 then
      if hd0 s =? 48 then
        if (hd0 (tail s) =? 120) || (hd0 (tail s) =? 88) then 16 else 8
      else 10
    else base in
  let s := if (base =? 16) && has_0x s then tail (tail s) else s in
  let '(acc, n) := strtol_digits s base 0 0 in
  let start := zlen nptr - zlen s in
  (s32 (acc * sign), if n =? 0 then 0 else start + n).

Definition digit_char (d : Z) : Z := if d <? 10 then d + 48 else d - 10 + 65.

(** Digits of [uvalue], least significant first, as the first loop of [itoa]
    stores them; 32 rounds are enough for a 32-bit value in base 2. *)
Fixpoint itoa_digits (fuel : nat) (uvalue base : Z) : list Z :=
  match fuel with
  | O => []
  | S fuel =>
      if uvalue =? 0 then []
      else digit_char (uvalue mod base) :: itoa_digits fuel (uvalue / base) base
  end.

(** The reversal loop: [ptr1] at [i], [ptr] at [j]. *)
Fixpoint reverse_loop (fuel : nat) (buf : list Z) (i j : Z) : list Z :=
  match fuel with
  | O => buf
  | S fuel =>
      if i <? j then
        let tmp := buf.[j] in
        let buf := buf.[j := buf.[i]] in
        reverse_loop fuel (buf.[i := tmp]) (i + 1) (j - 1)
      else buf
  end.

(** The string [itoa] leaves in the buffer. *)
Definition itoa (value base : Z) : list Z :=
  if (base <? 2) || (16 <? base) then []
  else if value =? 0 then [48]
  else
    let sign := (value <? 0) && (base =? 10) in
    let uvalue := if sign then u32 (u32 (- (value + 1)) + 1) else u32 value in
    let buf := itoa_digits 32 uvalue base ++ (if sign then [45] else []) in
    reverse_loop (length buf) buf 0 (zlen buf - 1).

Definition abs (n : Z) : Z := if n <? 0 then s32 (- n) else n.

(** ** Sorting and searching *)

Section sorting.
Context (compar : list Z -> list Z -> Z).

(** Swap of [size] bytes at offsets [a] and [b]. *)
Fixpoint swap_bytes (n : nat) (k a b : Z) (arr : list Z) : list Z :=
  match n with
  | O => arr
  | S n =>
      let tmp := arr.[a + k] in
      let arr := arr.[a + k := arr.[b + k]] in
      swap_bytes n (k + 1) a b (arr.[b + k := tmp])
  end.

Definition elem (arr : list Z) (size i : Z) : list Z := slice arr (i * size) size.

(** The [while (j > 0)] loop. *)
Fixpoint sift_down (size : Z) (j : nat) (arr : list Z) : list Z :=
  match j with
  | O => arr
  | S j' =>
      let a := Z.of_nat j' * size in
      let b := Z.of_nat j * size in
      if compar (slice arr a size) (slice arr b size) <=? 0 then arr
      else sift_down size j' (swap_bytes (Z.to_nat size) 0 a b arr)
  end.

Fixpoint qsort_loop (size : Z) (n : nat) (i : nat) (arr : list Z) : list Z :=
  match n with
  | O => arr
  | S n => qsort_loop size n (S i) (sift_down size i arr)
  end.
Definition qsort (arr : list Z) (nmemb size : Z) : list Z :=
  qsort_loop size (Z.to_nat (nmemb - 1)) 1 arr.

(** [bsearch]: the index of the element found; [fuel] bounds the halvings. *)
Fixpoint bsearch_loop (fuel : nat) (key arr : list Z) (size lo hi : Z) : option Z :=
  match fuel with
  | O => None
  | S fuel =>
      if lo <? hi then
        let mid := lo + (hi - lo) / 2 in
        let cmp := compar key (slice arr (mid * size) size) in
        if cmp =? 0 then Some mid
        else if cmp <? 0 then bsearch_loop fuel key arr size lo mid
        else bsearch_loop fuel key arr size (mid + 1) hi
      else None
  end.
Definition bsearch (key arr : list Z) (nmemb size : Z) : option Z :=
  bsearch_loop (S (Z.to_nat nmemb)) key arr size 0 nmemb.
End sorting.


(** ** Lemmas *)

Lemma cstr_hd0 s : hd0 s = 0 -> cstr s = [].
Proof. destruct s; cbn; [done|]. intros ->. done. Qed.
Lemma cstr_cons s : hd0 s <> 0 -> cstr s = hd0 s :: cstr (tail s).
Proof. destruct s as [|c s]; cbn; [done|]. intros. by rewrite (proj2 (Z.eqb_neq c 0)). Qed.
Lemma cstr_nonzero s : Forall (fun c => c <> 0) (cstr s).
Proof.
  induction s as [|c s IH]; cbn; [constructor|].
  destruct (c =? 0) eqn:E; constructor; [lia|done].
Qed.
Lemma cstr_idemp s : Forall (fun c => c <> 0) s -> cstr s = s.
Proof.
  induction 1 as [|c s Hc Hs IH]; cbn; [done|]. rewrite (proj2 (Z.eqb_neq c 0)) by done. by f_equal.
Qed.
Lemma cstr_app0 s r : Forall (fun c => c <> 0) s -> cstr (s ++ 0 :: r) = s.
Proof.
  induction 1 as [|c s Hc Hs IH]; cbn; [done|]. rewrite (proj2 (Z.eqb_neq c 0)) by done. by f_equal.
Qed.

(** [strcmp] decides equality of the strings. *)
Lemma strcmp_eq a b : strcmp a b = 0 <-> cstr a = cstr b.
Proof.
  revert b. induction a as [|x a IH]; intros b; cbn [strcmp].
  - destruct (decide (hd0 b = 0)) as [E|E].
    + rewrite E, (cstr_hd0 b) by done. done.
    + rewrite (cstr_cons b) by done. cbn. split; [lia|done].
  - cbn [cstr]. destruct (x =? 0) eqn:Ex; cbn [negb andb].
    + apply Z.eqb_eq in Ex as ->. destruct (decide (hd0 b = 0)) as [E|E].
      * rewrite E, (cstr_hd0 b) by done. done.
      * rewrite (cstr_cons b) by done. split; [lia|done].
    + apply Z.eqb_neq in Ex. destruct (x =? hd0 b) eqn:Eb.
      * apply Z.eqb_eq in Eb. rewrite (cstr_cons b) by congruence.
        rewrite IH, <- Eb. split; [by intros ->|]. by intros [= ->].
      * apply Z.eqb_neq in Eb. destruct (decide (hd0 b = 0)) as [E|E].
        -- rewrite (cstr_hd0 b) by done. split; [lia|done].
        -- rewrite (cstr_cons b) by done. split; [lia|]. intros [= ? _]. congruence.
Qed.

Lemma strlen_cstr s : strlen s = zlen (cstr s).
Proof.
  unfold zlen. induction s as [|c s IH]; cbn; [done|]. destruct (c =? 0); [done|]. cbn [length]. lia.
Qed.

Lemma length_strncpy_out src n : length (strncpy_out src n) = n.
Proof.
  revert src. induction n as [|n IH]; intros src; cbn; [done|].
  destruct (hd0 src =? 0); cbn; [by rewrite length_replicate | by rewrite IH].
Qed.

(** [strncpy] copies at most [n] characters. *)
Lemma cstr_strncpy_out src n r : cstr (strncpy_out src n ++ 0 :: r) = take n (cstr src).
Proof.
  revert src. induction n as [|n IH]; intros src; cbn [strncpy_out]; [done|].
  destruct (hd0 src =? 0) eqn:E.
  - by rewrite (cstr_hd0 src) by lia.
  - rewrite (cstr_cons src) by lia. cbn. rewrite E. by rewrite IH.
Qed.
Lemma strncpy_out_bytes src n : is_bytes src -> is_bytes (strncpy_out src n).
Proof.
  revert src. induction n as [|n IH]; intros src Hs; cbn; [constructor|].
  assert (Ht : is_bytes (tail src)) by (destruct Hs; [constructor|done]).
  assert (Hh : is_u8 (hd0 src)) by (destruct Hs; [unfold is_u8; cbn; lia|done]).
  destruct (hd0 src =? 0); constructor; [unfold is_u8; lia| |done|by apply IH].
  apply Forall_replicate. unfold is_u8. lia.
Qed.

(** *** The reversal loop is list reversal *)

Lemma reverse_loop_get fuel buf i j : 0 <= i -> j < zlen buf -> j - i < 2 * Z.of_nat fuel ->
  zlen (reverse_loop fuel buf i j) = zlen buf /\
  forall k, 0 <= k < zlen buf -> (reverse_loop fuel buf i j).[k] = buf.[if decide (i <= k <= j) then i + j - k else k].
Proof.
  revert buf i j. induction fuel as [|fuel IH]; intros buf i j Hi Hj Hf; cbn [reverse_loop].
  { split; [done|]. intros k Hk. by rewrite decide_False by lia. }
  destruct (i <? j) eqn:E.
  - set (buf' := (buf.[j := buf.[i]]).[i := buf.[j]]).
    assert (Hl : zlen buf' = zlen buf) by (subst buf'; by rewrite !zlen_aset).
    destruct (IH buf' (i + 1) (j - 1)) as [Hl' Hg]; [lia|lia|lia|].
    split; [congruence|]. intros k Hk. rewrite Hg by lia. subst buf'.
    rewrite !aget_aset by (rewrite ?zlen_aset; repeat case_decide; lia).
    repeat case_decide; try (f_equal; lia); lia.
  - split; [done|]. intros k Hk. case_decide; f_equal; lia.
Qed.

Lemma aget_rev (l : list Z) k : 0 <= k < zlen l -> (rev l).[k] = l.[zlen l - 1 - k].
Proof.
  unfold aget, zlen. intros Hk. rewrite !list_lookup_total_alt.
  rewrite rev_alt. change (rev_append l []) with (reverse l).
  rewrite reverse_lookup by lia. do 2 f_equal. lia.
Qed.

Lemma reverse_loop_rev buf : reverse_loop (length buf) buf 0 (zlen buf - 1) = rev buf.
Proof.
  destruct (reverse_loop_get (length buf) buf 0 (zlen buf - 1)) as [Hl Hg]; [lia|lia|unfold zlen; lia|].
  apply list_eq_aget.
  - rewrite Hl. unfold zlen. by rewrite length_rev.
  - rewrite Hl. intros k Hk. rewrite Hg, aget_rev by done. rewrite decide_True by lia. f_equal; lia.
Qed.

(** *** Digits *)

Lemma digit_of_char d : 0 <= d < 16 -> digit_of (digit_char d) = Some d /\ digit_char d <> 0 /\
  digit_char d <> 120 /\ digit_char d <> 88 /\ digit_char d <> 43 /\ digit_char d <> 45 /\ is_space (digit_char d) = false.
Proof.
  intros. assert (Hd : In d (map Z.of_nat (seq 0 16))).
  { apply in_map_iff. exists (Z.to_nat d). split; [lia|]. apply in_seq. lia. }
  cbn in Hd. repeat (destruct Hd as [<-|Hd]; [by vm_compute|]). done.
Qed.
Lemma is_digit_char d : 0 <= d < 10 -> is_digit (digit_char d) = true /\ digit_char d - 48 = d.
Proof. unfold is_digit, digit_char. intros. destruct (d <? 10) eqn:E; lia. Qed.

(** Every character [itoa_digits] produces is the character of a digit below the base. *)
Definition digit_below (base c : Z) : Prop := exists d, 0 <= d < base /\ c = digit_char d.
Lemma itoa_digits_below fuel u base : 2 <= base -> 0 <= u -> Forall (digit_below base) (itoa_digits fuel u base).
Proof.
  intros Hb. revert u. induction fuel as [|fuel IH]; intros u Hu; cbn; [constructor|].
  destruct (u =? 0); constructor.
  - exists (u mod base). split; [apply Z.mod_pos_bound; lia|done].
  - apply IH. apply Z.div_pos; lia.
Qed.

Lemma strtol_digits_app base l r acc n : 2 <= base <= 16 -> Forall (digit_below base) l ->
  strtol_digits (l ++ r) base acc n =
  let '(acc, n) := strtol_digits l base acc n in strtol_digits r base acc n.
Proof.
  intros Hb Hl. revert acc n. induction Hl as [|c l (d & Hd & ->) Hl IH]; intros acc n; cbn [app strtol_digits]; [done|].
  destruct (digit_of_char d) as (Hof & Hnz & _); [lia|].
  rewrite (proj2 (Z.eqb_neq _ 0) Hnz), Hof. rewrite (proj2 (Z.leb_gt base d)) by lia. apply IH.
Qed.

Lemma strtol_rev_digits fuel u base acc n : 2 <= base <= 16 -> 0 <= u < base ^ Z.of_nat fuel ->
  let k := zlen (itoa_digits fuel u base) in
  strtol_digits (rev (itoa_digits fuel u base)) base (s32 acc) n = (s32 (acc * base ^ k + u), n + k).
Proof.
  intros Hb. revert u acc n. induction fuel as [|fuel IH]; intros u acc n Hu; cbn [itoa_digits rev].
  { assert (u = 0) as -> by (cbn in Hu; lia). cbn. change (zlen []) with 0. rewrite Z.pow_0_r. f_equal; [f_equal|]; lia. }
  destruct (u =? 0) eqn:E.
  { apply Z.eqb_eq in E as ->. cbn. change (zlen []) with 0. rewrite Z.pow_0_r. f_equal; [f_equal|]; lia. }
  apply Z.eqb_neq in E. cbn [rev].
  assert (Hq : 0 <= u / base < base ^ Z.of_nat fuel).
  { rewrite Nat2Z.inj_succ, Z.pow_succ_r in Hu by lia.
    split; [apply Z.div_pos; lia | apply Z.div_lt_upper_bound; lia]. }
  rewrite strtol_digits_app, IH by (try done; apply Forall_rev, itoa_digits_below; lia).
  pose proof (Z.mod_pos_bound u base ltac:(lia)) as Hm.
  destruct (digit_of_char (u mod base)) as (Hof & Hnz & _); [lia|].
  cbn [strtol_digits]. rewrite (proj2 (Z.eqb_neq _ 0) Hnz), Hof, (proj2 (Z.leb_gt base _)) by lia.
  rewrite s32_linear. replace (zlen (digit_char (u mod base) :: itoa_digits fuel (u / base) base))
    with (zlen (itoa_digits fuel (u / base) base) + 1) by (unfold zlen; cbn [length]; lia).
  f_equal; [|lia]. f_equal. rewrite Z.pow_add_r, Z.pow_1_r by (unfold zlen; lia).
  pose proof (Z.div_mod u base ltac:(lia)). nia.
Qed.

(** A non-empty digit string starts none of white space, sign, "0x". *)
Lemma skip_space_digits base l : 2 <= base <= 16 -> Forall (digit_below base) l -> skip_space l = l.
Proof.
  intros Hb [|c l' (d & Hd & ->)]; cbn; [done|].
  destruct (digit_of_char d) as (_ & _ & _ & _ & _ & _ & ->); [lia|done].
Qed.
Lemma take_sign_digits base l : 2 <= base <= 16 -> Forall (digit_below base) l -> take_sign l = (1, l).
Proof.
  intros Hb [|c l' (d & Hd & ->)]; cbn; [done|].
  destruct (digit_of_char d) as (_ & _ & _ & _ & H1 & H2 & _); [lia|].
  unfold take_sign; cbn. by rewrite (proj2 (Z.eqb_neq _ 43) H1), (proj2 (Z.eqb_neq _ 45) H2).
Qed.
Lemma has_0x_digits base l : 2 <= base <= 16 -> Forall (digit_below base) l -> has_0x l = false.
Proof.
  intros Hb [|c [|c' l'] _ Hl]; unfold has_0x; cbn; [done|by rewrite andb_false_r|].
  inversion_clear Hl as [|? ? (d & Hd & ->)].
  destruct (digit_of_char d) as (_ & _ & H1 & H2 & _); [lia|].
  rewrite (proj2 (Z.eqb_neq _ 120) H1), (proj2 (Z.eqb_neq _ 88) H2). by rewrite andb_false_r.
Qed.

(** What [itoa] computes, without the in-place reversal. *)
Lemma itoa_alt v base : 2 <= base <= 16 -> v <> 0 ->
  let neg := (v <? 0) && (base =? 10) in
  let u := if neg then u32 (u32 (- (v + 1)) + 1) else u32 v in
  itoa v base = (if neg then [45] else []) ++ rev (itoa_digits 32 u base).
Proof.
  intros Hb Hv neg u. unfold itoa. rewrite (proj2 (Z.ltb_ge base 2)), (proj2 (Z.ltb_ge 16 base)) by lia.
  cbn [orb]. rewrite (proj2 (Z.eqb_neq v 0)) by lia. rewrite reverse_loop_rev, rev_app_distr.
  fold neg u. by destruct neg.
Qed.

Lemma pow_base_bound base u : 2 <= base -> 0 <= u < 2 ^ 32 -> 0 <= u < base ^ Z.of_nat 32.
Proof. intros. pose proof (Z.pow_le_mono_l 2 base 32). simpl Z.of_nat. lia. Qed.

Lemma itoa_digits_nil fuel u base : itoa_digits fuel u base = [] -> (0 < fuel)%nat -> u = 0.
Proof. destruct fuel; cbn; [lia|]. destruct (u =? 0) eqn:E; [|done]. lia. Qed.

(** Reading back a string of digits with an optional sign in front. *)
Lemma strtol_signed_digits (neg : bool) base u : 2 <= base <= 16 -> 0 < u < 2 ^ 32 ->
  let s := (if neg then [45] else []) ++ rev (itoa_digits 32 u base) in
  strtol s base = (s32 (s32 u * (if neg then -1 else 1)), zlen s).
Proof.
  intros Hb Hu s. set (l := rev (itoa_digits 32 u base)) in *.
  assert (Hl : Forall (digit_below base) l) by (apply Forall_rev, itoa_digits_below; lia).
  assert (Hpos : 0 < zlen (itoa_digits 32 u base)).
  { pose proof (zlen_nonneg (itoa_digits 32 u base)).
    destruct (decide (zlen (itoa_digits 32 u base) = 0)) as [E|]; [|lia].
    unfold zlen in E. assert (E' : itoa_digits 32 u base = []) by (apply length_zero_iff_nil; lia).
    apply itoa_digits_nil in E'; lia. }
  assert (Hlen : zlen l = zlen (itoa_digits 32 u base)) by (subst l; unfold zlen; by rewrite length_rev).
  pose proof (strtol_rev_digits 32 u base 0 0 Hb (pow_base_bound base u ltac:(lia) ltac:(lia))) as Hd.
  cbn zeta in Hd. fold l in Hd. change (s32 0) with 0 in Hd. rewrite Z.mul_0_l, Z.add_0_l, <- Hlen in Hd.
  assert (Hrest : skip_space s = s /\ take_sign s = (if neg then -1 else 1, l)).
  { subst s. destruct neg; cbn [app]; [done|].
    by rewrite (skip_space_digits base), (take_sign_digits base). }
  destruct Hrest as [H1 H2]. unfold strtol. rewrite H1, H2.
  rewrite (proj2 (Z.eqb_neq base 0)), (has_0x_digits base), andb_false_r by done || lia.
  rewrite Hd. rewrite (proj2 (Z.eqb_neq (0 + zlen l) 0)) by lia. f_equal.
  subst s. rewrite zlen_app. lia.
Qed.

Lemma atoi_digits_rev fuel u acc : 0 <= u < 10 ^ Z.of_nat fuel ->
  atoi_digits (rev (itoa_digits fuel u 10)) (s32 acc) = s32 (acc * 10 ^ zlen (itoa_digits fuel u 10) + u).
Proof.
  intros Hu. pose proof (strtol_rev_digits fuel u 10 acc 0 ltac:(lia) Hu) as Hs. cbn zeta in Hs.
  apply (f_equal fst) in Hs. cbn in Hs. rewrite <- Hs.
  assert (HF : Forall (digit_below 10) (rev (itoa_digits fuel u 10))) by (apply Forall_rev, itoa_digits_below; lia).
  clear Hs. generalize (s32 acc) at 1 2. generalize 0 at 1.
  induction HF as [|c l (d & Hd & ->) Hl IH]; intros n z; cbn [atoi_digits strtol_digits]; [done|].
  destruct (digit_of_char d) as (Hof & Hnz & _); [lia|]. destruct (is_digit_char d Hd) as [-> ->].
  rewrite (proj2 (Z.eqb_neq _ 0) Hnz), Hof, (proj2 (Z.leb_gt 10 _)) by lia. apply IH.
Qed.

(** *** Sorting: the byte swap exchanges two elements *)

Lemma swap_bytes_get n k a b arr : 0 <= a -> 0 <= k -> a + k + Z.of_nat n <= b -> b + k + Z.of_nat n <= zlen arr ->
  zlen (swap_bytes n k a b arr) = zlen arr /\
  forall i, 0 <= i < zlen arr -> (swap_bytes n k a b arr).[i] =
    if decide (a + k <= i < a + k + Z.of_nat n) then arr.[i - a + b]
    else if decide (b + k <= i < b + k + Z.of_nat n) then arr.[i - b + a] else arr.[i].
Proof.
  revert k arr. induction n as [|n IH]; intros k arr Ha Hk Hab Hb; cbn [swap_bytes].
  { split; [done|]. intros i Hi. by rewrite !decide_False by lia. }
  set (arr' := (arr.[a + k := arr.[b + k]]).[b + k := arr.[a + k]]).
  assert (Hl : zlen arr' = zlen arr) by (subst arr'; by rewrite !zlen_aset).
  (* the overlap condition: the two runs are disjoint *)
  destruct (IH (k + 1) arr') as [Hl' Hg]; [lia|lia|lia|lia|].
  split; [congruence|]. intros i Hi. rewrite Hg by lia. subst arr'.
  repeat case_decide; rewrite !aget_aset by (rewrite ?zlen_aset; lia);
    repeat case_decide; try (f_equal; lia); lia.
Qed.

Definition elems (arr : list Z) (size : Z) (n : nat) : list (list Z) :=
  (fun i => elem arr size (Z.of_nat i)) <$> seq 0 n.

Lemma lookup_elems arr size n i : (i < n)%nat -> elems arr size n !! i = Some (elem arr size (Z.of_nat i)).
Proof.
  intros Hi. unfold elems. rewrite list_lookup_fmap, lookup_seq_lt by done. done.
Qed.

Section sort_proof.
Context (compar : list Z -> list Z -> Z) (size : Z) (n : nat).
Hypothesis size_pos : 0 < size.
(** The contract of a comparison function: a total preorder. *)
Hypothesis compar_total : forall a b, 0 < compar a b -> compar b a <= 0.
Hypothesis compar_trans : forall a b c, compar a b <= 0 -> compar b c <= 0 -> compar a c <= 0.

#[local] Abbreviation le a b := (compar a b <= 0).

Lemma swap_elem arr (j p : nat) : zlen arr = Z.of_nat n * size -> (S j < n)%nat -> (p < n)%nat ->
  elem (swap_bytes (Z.to_nat size) 0 (Z.of_nat j * size) (Z.of_nat (S j) * size) arr) size (Z.of_nat p) =
  elem arr size (Z.of_nat (if decide (p = j) then S j else if decide (p = S j) then j else p)) /\
  zlen (swap_bytes (Z.to_nat size) 0 (Z.of_nat j * size) (Z.of_nat (S j) * size) arr) = zlen arr.
Proof.
  intros Hl Hj Hp.
  destruct (swap_bytes_get (Z.to_nat size) 0 (Z.of_nat j * size) (Z.of_nat (S j) * size) arr) as [Hl' Hg]; [nia|lia|nia|nia|].
  split; [|done]. unfold elem. set (q := if decide (p = j) then S j else if decide (p = S j) then j else p).
  assert (Hq : (q < n)%nat) by (subst q; repeat case_decide; lia).
  apply list_eq_aget; [rewrite !zlen_slice; nia|]. rewrite zlen_slice by nia. intros i Hi.
  rewrite !aget_slice, Hg by nia. subst q. repeat case_decide; subst; try (f_equal; nia); nia.
Qed.

(** Insertion of element [j] into a prefix whose other elements, up to [hi], are in order. *)
Definition almost (arr : list Z) (hi j : nat) : Prop :=
  (forall p q, (p < q <= hi)%nat -> p <> j -> q <> j -> le (elem arr size (Z.of_nat p)) (elem arr size (Z.of_nat q))) /\
  (forall q, (j < q <= hi)%nat -> le (elem arr size (Z.of_nat j)) (elem arr size (Z.of_nat q))).
Definition ordered (arr : list Z) (hi : nat) : Prop :=
  forall p q, (p < q < hi)%nat -> le (elem arr size (Z.of_nat p)) (elem arr size (Z.of_nat q)).

Lemma elems_swap arr j : zlen arr = Z.of_nat n * size -> (S j < n)%nat ->
  elems (swap_bytes (Z.to_nat size) 0 (Z.of_nat j * size) (Z.of_nat (S j) * size) arr) size n ≡ₚ elems arr size n.
Proof.
  intros Hl Hj. apply Permutation_inj. split; [unfold elems; by rewrite !length_fmap|].
  set (f := fun p => if decide (p = j) then S j else if decide (p = S j) then j else p).
  exists f. split; [intros x y; subst f; cbn; repeat case_decide; lia|].
  intros p. destruct (decide (p < n)%nat) as [Hp|Hp].
  - assert (f p < n)%nat by (subst f; cbn; repeat case_decide; lia).
    rewrite !lookup_elems by done. f_equal. by apply swap_elem.
  - assert (n <= f p)%nat by (subst f; cbn; repeat case_decide; lia).
    rewrite !lookup_ge_None_2; [done| |]; unfold elems; rewrite length_fmap, length_seq; lia.
Qed.

Lemma sift_down_spec arr (j hi : nat) : zlen arr = Z.of_nat n * size -> (j <= hi < n)%nat -> almost arr hi j ->
  let arr' := sift_down compar size j arr in
  zlen arr' = zlen arr /\ elems arr' size n ≡ₚ elems arr size n /\ ordered arr' (S hi).
Proof.
  revert arr. induction j as [|j IH]; intros arr Hl Hj [H1 H2]; cbn [sift_down].
  { split_and!; [done..|]. intros p q Hpq. destruct (decide (p = 0%nat)) as [->|]; [apply H2; lia | apply H1; lia]. }
  change (slice arr (Z.of_nat j * size) size) with (elem arr size (Z.of_nat j)).
  change (slice arr (Z.of_nat (S j) * size) size) with (elem arr size (Z.of_nat (S j))).
  destruct (compar _ _ <=? 0) eqn:E.
  - split_and!; [done..|]. apply Z.leb_le in E. intros p q Hpq.
    destruct (decide (p = S j)) as [->|]; [apply H2; lia|].
    destruct (decide (q = S j)) as [->|]; [|apply H1; lia].
    destruct (decide (p = j)) as [->|]; [done|]. eapply compar_trans; [apply (H1 p j); lia|done].
  - apply Z.leb_gt in E. apply compar_total in E.
    set (arr' := swap_bytes _ _ _ _ arr).
    assert (Hl' : zlen arr' = zlen arr) by (apply (swap_elem arr j 0); lia).
    destruct (IH arr') as (Ha & Hb & Hc); [congruence|lia| |].
    { split.
      - intros p q Hpq Hp Hq. subst arr'. rewrite !(fun p H => proj1 (swap_elem arr j p Hl ltac:(lia) H)) by lia.
        repeat case_decide; subst; try lia; apply H1; lia.
      - intros q Hq. subst arr'. rewrite !(fun p H => proj1 (swap_elem arr j p Hl ltac:(lia) H)) by lia.
        repeat case_decide; subst; first [lia | apply H2; lia]. }
    split_and!; [congruence| |done]. rewrite Hb. apply elems_swap; lia.
Qed.

Lemma qsort_loop_spec arr (k i : nat) : zlen arr = Z.of_nat n * size -> (1 <= i)%nat -> (i + k = n)%nat -> ordered arr i ->
  let arr' := qsort_loop compar size k i arr in
  zlen arr' = zlen arr /\ elems arr' size n ≡ₚ elems arr size n /\ ordered arr' n.
Proof.
  revert arr i. induction k as [|k IH]; intros arr i Hl Hi Hk Ho; cbn [qsort_loop].
  { replace i with n in Ho by lia. done. }
  destruct (sift_down_spec arr i i) as (Ha & Hb & Hc); [done|lia| |].
  { split; [|lia]. intros p q Hpq Hp Hq. apply Ho. lia. }
  destruct (IH (sift_down compar size i arr) (S i)) as (Ha' & Hb' & Hc'); [congruence|lia|lia|done|].
  split_and!; [congruence| |done]. by rewrite Hb'.
Qed.
End sort_proof.

(** *** Matching *)

Lemma match_at_prefix h n : match_at h n = true <-> cstr n `prefix_of` cstr h.
Proof.
  revert h. induction n as [|y n IH]; intros h; cbn [match_at cstr].
  { split; [intros; apply prefix_nil|done]. }
  destruct (y =? 0) eqn:Ey; [split; [intros; apply prefix_nil|done]|].
  destruct (hd0 h =? 0) eqn:Eh; cbn [negb andb].
  - rewrite (cstr_hd0 h) by lia. split; [done|]. intros H. by apply prefix_nil_inv in H.
  - rewrite (cstr_cons h) by lia. destruct (hd0 h =? y) eqn:E.
    + rewrite IH. apply Z.eqb_eq in E as ->. split; [apply prefix_cons|apply prefix_cons_inv_2].
    + split; [done|]. intros H. apply prefix_cons_inv_1 in H. lia.
Qed.

(** ** Properties *)

(** Printing and reading back: for every base from 2 to 16, [strtol]
    reads the text [itoa] writes back to the same number and consumes all of
    it; in base 10 this includes negative numbers. *)
Theorem itoa_strtol_roundtrip v base : 2 <= base <= 16 -> - 2 ^ 31 < v < 2 ^ 31 -> (0 <= v \/ base = 10) ->
  strtol (itoa v base) base = (v, zlen (itoa v base)).
Proof.
  intros Hb Hv Hs. destruct (decide (v = 0)) as [->|Hnz].
  { assert (Hd : In base (map Z.of_nat (seq 2 15))).
    { apply in_map_iff. exists (Z.to_nat base). split; [lia|]. apply in_seq. lia. }
    cbn in Hd. repeat (destruct Hd as [<-|Hd]; [reflexivity|]). done. }
  rewrite (itoa_alt v base Hb Hnz). destruct (v <? 0) eqn:E.
  - destruct Hs as [Hs| ->]; [lia|]. cbn [andb Z.eqb Pos.eqb].
    rewrite (u32_small (- (v + 1))), (u32_small (- (v + 1) + 1)) by lia.
    rewrite (strtol_signed_digits true) by lia. f_equal. rewrite !s32_small by (rewrite ?s32_small; lia). lia.
  - cbn [andb]. rewrite u32_small by lia. rewrite (strtol_signed_digits false) by lia.
    f_equal. rewrite !s32_small by (rewrite ?s32_small; lia). lia.
Qed.

Lemma itoa_strtol_witness : strtol (itoa (-1234) 10) 10 = (-1234, zlen (itoa (-1234) 10)) /\ itoa (-1234) 10 = [45; 49; 50; 51; 52].
Proof. split; [apply (itoa_strtol_roundtrip (-1234) 10); [lia|lia|by right] | reflexivity]. Defined.


(** Sorting: for a comparison function that is a total preorder and
    elements of at least one byte, [qsort] permutes the elements and leaves
    them in non-decreasing order, without touching the array's size. *)
Theorem qsort_correct compar arr (n : nat) size :
  (forall a b, 0 < compar a b -> compar b a <= 0) ->
  (forall a b c, compar a b <= 0 -> compar b c <= 0 -> compar a c <= 0) ->
  0 < size -> zlen arr = Z.of_nat n * size ->
  let arr' := qsort compar arr (Z.of_nat n) size in
  zlen arr' = zlen arr /\ elems arr' size n ≡ₚ elems arr size n /\
  forall p q, (p < q < n)%nat -> compar (elem arr' size (Z.of_nat p)) (elem arr' size (Z.of_nat q)) <= 0.
Proof.
  intros Htot Htr Hs Hl. unfold qsort. destruct n as [|n].
  { split_and!; [done..|lia]. }
  replace (Z.to_nat (Z.of_nat (S n) - 1)) with n by lia.
  apply qsort_loop_spec; [done..|lia|lia|]. intros p q. lia.
Qed.

(** Comparison of one-byte elements. *)
Definition cmp_byte (a b : list Z) : Z := hd0 a - hd0 b.

Lemma qsort_witness :
  let arr' := qsort cmp_byte [5; 3; 9; 1] 4 1 in
  arr' = [1; 3; 5; 9] /\ elems arr' 1 4 ≡ₚ elems [5; 3; 9; 1] 1 4.
Proof.
  split; [reflexivity|]. apply (qsort_correct cmp_byte [5; 3; 9; 1] 4 1); unfold cmp_byte; lia || reflexivity.
Defined.

(** Searching: on an array on which the comparison with the key changes
    sign at most once, [bsearch] returns the index of an element that compares
    equal, or reports that there is none; the halving always ends. *)
Theorem bsearch_correct compar key arr (n : nat) size :
  (forall i j, 0 <= i < j -> j < Z.of_nat n -> 0 < compar key (elem arr size j) -> 0 < compar key (elem arr size i)) ->
  (forall i j, 0 <= i < j -> j < Z.of_nat n -> compar key (elem arr size i) < 0 -> compar key (elem arr size j) < 0) ->
  match bsearch compar key arr (Z.of_nat n) size with
  | Some m => 0 <= m < Z.of_nat n /\ compar key (elem arr size m) = 0
  | None => forall i, 0 <= i < Z.of_nat n -> compar key (elem arr size i) <> 0
  end.
Proof.
  intros Hpos Hneg. unfold bsearch.
  cut (forall fuel lo hi, 0 <= lo -> hi <= Z.of_nat n -> hi - lo < Z.of_nat fuel ->
    (forall i, 0 <= i < Z.of_nat n -> i < lo \/ hi <= i -> compar key (elem arr size i) <> 0) ->
    match bsearch_loop compar fuel key arr size lo hi with
    | Some m => 0 <= m < Z.of_nat n /\ compar key (elem arr size m) = 0
    | None => forall i, 0 <= i < Z.of_nat n -> compar key (elem arr size i) <> 0
    end).
  { intros H. apply H; lia. }
  induction fuel as [|fuel IH]; intros lo hi Hlo Hhi Hf Hout; cbn [bsearch_loop]; [intros; apply Hout; lia|].
  destruct (lo <? hi) eqn:E; [|intros; apply Hout; lia].
  set (mid := lo + (hi - lo) / 2). assert (Hm : lo <= mid < hi) by (subst mid; zdm).
  change (slice arr (mid * size) size) with (elem arr size mid).
  destruct (compar key (elem arr size mid) =? 0) eqn:E0; [lia|].
  destruct (compar key (elem arr size mid) <? 0) eqn:E1.
  - apply IH; [lia..|]. intros i Hi Ho. destruct (decide (i = mid)) as [->|]; [lia|].
    destruct (decide (i < lo \/ hi <= i)); [apply Hout; lia|]. specialize (Hneg mid i). lia.
  - apply IH; [lia..|]. intros i Hi Ho. destruct (decide (i = mid)) as [->|]; [lia|].
    destruct (decide (i < lo \/ hi <= i)); [apply Hout; lia|]. specialize (Hpos i mid). lia.
Qed.

Lemma bsearch_witness : match bsearch cmp_byte [5] [1; 3; 5; 9] 4 1 with
  | Some m => 0 <= m < 4 /\ cmp_byte [5] (elem [1; 3; 5; 9] 1 m) = 0
  | None => forall i, 0 <= i < 4 -> cmp_byte [5] (elem [1; 3; 5; 9] 1 i) <> 0 end.
Proof.
  assert (H4 : forall i, 0 <= i < 4 -> i = 0 \/ i = 1 \/ i = 2 \/ i = 3) by lia.
  apply (bsearch_correct cmp_byte [5] [1; 3; 5; 9] 4 1).
  - intros i j Hi Hj. destruct (H4 i) as [-> |[-> |[-> | ->]]], (H4 j) as [-> |[-> |[-> | ->]]]; first [lia | vm_compute; intros; first [reflexivity | discriminate]].
  - intros i j Hi Hj. destruct (H4 i) as [-> |[-> |[-> | ->]]], (H4 j) as [-> |[-> |[-> | ->]]]; first [lia | vm_compute; intros; first [reflexivity | discriminate]].
Defined.

(** [strstr] returns the first offset at which the needle occurs in the
    haystack, and nothing exactly when it occurs nowhere. *)
Theorem strstr_first h n :
  match strstr h n with
  | Some k => 0 <= k /\ cstr n `prefix_of` drop (Z.to_nat k) (cstr h) /\
      forall i, 0 <= i < k -> ~ cstr n `prefix_of` drop (Z.to_nat i) (cstr h)
  | None => forall i, 0 <= i -> ~ cstr n `prefix_of` drop (Z.to_nat i) (cstr h)
  end.
Proof.
  unfold strstr. destruct (hd0 n =? 0) eqn:En.
  { rewrite (cstr_hd0 n) by lia. split_and!; [lia|apply prefix_nil|lia]. }
  assert (Hn : cstr n <> []) by (rewrite (cstr_cons n) by lia; done).
  assert (Hnil : forall k, ~ cstr n `prefix_of` drop k []).
  { intros k H. rewrite drop_nil in H. by apply prefix_nil_inv in H. }
  induction h as [|x h IH]; cbn [strstr_from cstr]; [done|].
  destruct (x =? 0) eqn:Ex; [done|].
  destruct (match_at (x :: h) n) eqn:Em.
  { apply match_at_prefix in Em. cbn [cstr] in Em. rewrite Ex in Em. split_and!; [lia|done|lia]. }
  assert (H0 : ~ cstr n `prefix_of` x :: cstr h).
  { intros H. apply not_true_iff_false in Em. apply Em. apply match_at_prefix. cbn [cstr]. by rewrite Ex. }
  assert (Hstep : forall i, 0 < i -> drop (Z.to_nat i) (x :: cstr h) = drop (Z.to_nat (i - 1)) (cstr h)).
  { intros i Hi. by replace (Z.to_nat i) with (S (Z.to_nat (i - 1))) by lia. }
  destruct (strstr_from h n) as [k|]; cbn [option_map].
  - destruct IH as (Hk & Hp & Hf). split; [lia|]. rewrite Hstep by lia. replace (Z.succ k - 1) with k by lia.
    split; [done|]. intros i Hi. destruct (decide (i = 0)) as [->|]; [done|]. rewrite Hstep by lia. apply Hf. lia.
  - intros i Hi. destruct (decide (i = 0)) as [->|]; [done|]. rewrite Hstep by lia. apply IH. lia.
Qed.

End CString.
