(* ===== verification/LibDiv.v ===== *)
(** 64-bit division (src/libdiv.c): the shift-and-subtract routines the
    compiler calls for [/] and [%] on 64-bit operands. *)
From S2P Require Import Prelude.
From stdpp Require Import base list numbers.
From Stdlib Require Import ZArith Lia.
Open Scope Z_scope.

Module LibDiv.

(** One round of the loop: bit [i] of [a] moves into the remainder. *)
Definition div_round (a b i q r : Z) : Z * Z :=
  let r := u64 (Z.lor (Z.shiftl r 1) (Z.land (Z.shiftr a i) 1)) in
  if b <=? r then (Z.lor q (Z.shiftl 1 i), r - b) else (q, r).

(** [for (i = n - 1; i >= 0; --i)]. *)
Fixpoint div_loop (n : nat) (a b q r : Z) : Z * Z :=
  match n with
  | O => (q, r)
  | S n => let '(q, r) := div_round a b (Z.of_nat n) q r in div_loop n a b q r
  end.

Definition udivdi3 (a b : Z) : Z := if b =? 0 then u64 (-1) else (div_loop 64 a b 0 0).1.
Definition umoddi3 (a b : Z) : Z := if b =? 0 then a else (div_loop 64 a b 0 0).2.

(** The bits of [a] from [i] on, divided so far. *)
Lemma round_spec a b i r : 0 <= a < 2 ^ 64 -> 0 < b < 2 ^ 64 -> 0 <= i -> r = Z.shiftr a (i + 1) mod b ->
  u64 (Z.lor (Z.shiftl r 1) (Z.land (Z.shiftr a i) 1)) = 2 * (Z.shiftr a (i + 1) mod b) + (Z.shiftr a i) mod 2 /\
  Z.shiftr a i = 2 * Z.shiftr a (i + 1) + (Z.shiftr a i) mod 2.
Proof.
  intros Ha Hb Hi ->. assert (E : Z.shiftr a (i + 1) = Z.shiftr a i / 2) by (rewrite <- Z.shiftr_shiftr by lia; apply Z.shiftr_div_pow2; lia).
  rewrite E. set (x := Z.shiftr a i). assert (Hx : 0 <= x < 2 ^ 64).
  { unfold x. rewrite Z.shiftr_div_pow2 by lia. split; [apply Z.div_pos; lia|]. apply Z.div_lt_upper_bound; [lia|]. pose proof (Z.pow_pos_nonneg 2 i). nia. }
  split; [|zdm]. change 1 with (Z.ones 1) at 2. rewrite Z.land_ones by done. change (2 ^ 1) with 2.
  rewrite (lor_shiftl_add _ (x mod 2) 1) by (zdm || lia). change (2 ^ 1) with 2.
  pose proof (Z.mod_pos_bound (x / 2) b ltac:(lia)). pose proof (Z.mod_le (x / 2) b ltac:(zdm) ltac:(lia)).
  unfold u64. rewrite Z.mod_small by zdm. lia.
Qed.

Lemma div_loop_spec a b : 0 <= a < 2 ^ 64 -> 0 < b < 2 ^ 64 -> forall n q r,
  q = (Z.shiftr a (Z.of_nat n) / b) * 2 ^ Z.of_nat n -> r = Z.shiftr a (Z.of_nat n) mod b -> div_loop n a b q r = (a / b, a mod b).
Proof.
  intros Ha Hb. induction n as [|n IH]; intros q r Hq Hr; cbn [div_loop].
  { rewrite Z.shiftr_0_r, Z.mul_1_r in *. by subst. }
  replace (Z.of_nat (S n)) with (Z.of_nat n + 1) in * by lia. set (i := Z.of_nat n) in *. unfold div_round.
  destruct (round_spec a b i r Ha Hb ltac:(lia) Hr) as [Er Ex]. rewrite Er. set (x := Z.shiftr a i) in *. set (y := Z.shiftr a (i + 1)) in *.
  pose proof (Z.div_mod y b ltac:(lia)) as Hy. pose proof (Z.mod_pos_bound y b ltac:(lia)) as Hm. pose proof (Z.mod_pos_bound x 2 ltac:(lia)) as H2.
  rewrite Z.pow_add_r in Hq by lia. change (2 ^ 1) with 2 in Hq. destruct (Z.leb_spec b (2 * (y mod b) + x mod 2)) as [Hle|Hgt].
  - assert (Hd : x / b = 2 * (y / b) + 1) by (symmetry; apply (Z.div_unique x b _ (2 * (y mod b) + x mod 2 - b)); lia).
    apply IH; fold x.
    + rewrite Hd, Hq. replace (y / b * (2 ^ i * 2)) with (Z.shiftl (y / b) (i + 1)) by (rewrite Z.shiftl_mul_pow2, Z.pow_add_r by lia; lia).
      rewrite Z.shiftl_1_l, lor_shiftl_add by (rewrite ?Z.pow_add_r by lia; pose proof (Z.pow_pos_nonneg 2 i); lia). rewrite Z.pow_add_r by lia. lia.
    + rewrite <- (Z.mod_unique x b (2 * (y / b) + 1) (2 * (y mod b) + x mod 2 - b)) by lia. done.
  - assert (Hd : x / b = 2 * (y / b)) by (symmetry; apply (Z.div_unique x b _ (2 * (y mod b) + x mod 2)); lia).
    apply IH; fold x; [rewrite Hd, Hq; lia|]. by rewrite <- (Z.mod_unique x b (2 * (y / b)) (2 * (y mod b) + x mod 2)) by lia.
Qed.

(** The two routines are exact for all 64-bit operands: quotient and
    remainder of unsigned division (no round of the loop overflows, whatever
    the divisor), and for a zero divisor all ones and the dividend. *)
Theorem libdiv_exact a b : 0 <= a < 2 ^ 64 -> 0 <= b < 2 ^ 64 ->
  udivdi3 a b = (if b =? 0 then 2 ^ 64 - 1 else a / b) /\ umoddi3 a b = (if b =? 0 then a else a mod b).
Proof.
  intros Ha Hb. unfold udivdi3, umoddi3. destruct (Z.eqb_spec b 0) as [->|]; [done|].
  assert (Hz : Z.shiftr a (Z.of_nat 64) = 0) by (rewrite Z.shiftr_div_pow2 by lia; apply Z.div_small; lia).
  rewrite (div_loop_spec a b) by (rewrite ?Hz; rewrite ?Z.div_0_l, ?Z.mod_0_l by lia; lia). done.
Qed.

Lemma libdiv_exact_witness : udivdi3 (2 ^ 64 - 1) (2 ^ 63 + 1) = 1 /\ umoddi3 1000000007 10 = 7.
Proof.
  destruct (libdiv_exact (2 ^ 64 - 1) (2 ^ 63 + 1) ltac:(lia) ltac:(lia)) as [E _].
  destruct (libdiv_exact 1000000007 10 ltac:(lia) ltac:(lia)) as [_ E']. split; [exact E|exact E'].
Defined.
End LibDiv.
