(* ===== verification/Env.v ===== *)
(** The environment (src/env.c, src/env.h): sixteen entries "key=value". *)
From S2P Require Import Prelude CString.
From stdpp Require Import base list numbers.
From Stdlib Require Import ZArith Lia.
Import CString.
Open Scope Z_scope.

Module Env.

Definition ENV_MAX_VARS : Z := 16.
Definition ENV_ENTRY_MAX : Z := 128.

(** [s_env], [s_env_used], [s_env_count]; a row is a [char[128]]. *)
Record envst := mk_env { s_env : list (list Z); s_env_used : list bool; s_env_count : Z }.
#[local] Abbreviation M := (st envst).
Definition set_row (i : Z) (row : list Z) (e : envst) : envst := mk_env ((s_env e).[i := row]) (s_env_used e) (s_env_count e).
Definition set_used (i : Z) (b : bool) (e : envst) : envst := mk_env (s_env e) ((s_env_used e).[i := b]) (s_env_count e).
Definition add_count (n : Z) (e : envst) : envst := mk_env (s_env e) (s_env_used e) (s_env_count e + n).

Definition entry_of (key row : list Z) : bool :=
  (strncmp row key (Z.to_nat (strlen key)) =? 0) && (row.[strlen key] =? 61).
(** The index of the entry of [key], -1 when there is none. *)
Definition find_index (key : list Z) (e : envst) : Z :=
  default (-1) (first_some (fun i => if (s_env_used e).[i] && entry_of key ((s_env e).[i]) then Some i else None) (Z.to_nat ENV_MAX_VARS) 0).
Definition free_index (e : envst) : Z :=
  default (-1) (first_some (fun i => if (s_env_used e).[i] then None else Some i) (Z.to_nat ENV_MAX_VARS) 0).

(** [strcpy(row, key); row[klen] = '='; strcpy(row + klen + 1, value)]. *)
Definition put_entry (row key value : list Z) : list Z :=
  splice ((splice row 0 (strcpy_out key)).[strlen key := 61]) (strlen key + 1) (strcpy_out value).

Definition env_set (key value : list Z) : M Z :=
  e ← gets id;
  let idx := find_index key e in
  r ← (if idx <? 0 then
         let idx := free_index e in
         if idx <? 0 then mret (-1) else
         modify (fun e => add_count 1 (set_used idx true e));; mret idx
       else mret idx);
  if r <? 0 then mret (-1) else
  if ENV_ENTRY_MAX <? strlen key + 1 + strlen value + 1 then mret (-1) else
  modify (fun e => set_row r (put_entry ((s_env e).[r]) key value) e);;
  mret 0.

Definition env_unset (key : list Z) : M Z :=
  e ← gets id;
  let idx := find_index key e in
  if idx <? 0 then mret (-1) else
  modify (fun e => add_count (-1) (set_used idx false e));; mret 0.

(** The value, [None] for the null pointer. *)
Definition env_get (key : list Z) (e : envst) : option (list Z) :=
  let idx := find_index key e in
  if idx <? 0 then None else Some (cstr (drop (Z.to_nat (strlen key + 1)) ((s_env e).[idx]))).

Definition env_count (e : envst) : Z := s_env_count e.

(** The [index]-th entry in use. *)
Fixpoint entry_from (n : nat) (i seen index : Z) (e : envst) : option (list Z) :=
  match n with
  | O => None
  | S n =>
      if negb ((s_env_used e).[i]) then entry_from n (i + 1) seen index e
      else if seen =? index then Some ((s_env e).[i])
      else entry_from n (i + 1) (seen + 1) index e
  end.
Definition env_entry (index : Z) (e : envst) : option (list Z) := entry_from (Z.to_nat ENV_MAX_VARS) 0 0 index e.

(** "PATH", "/", "HOME", "SHELL", "/kernel", "TERM", "crusadia". *)
Definition env_defaults : list (list Z * list Z) :=
  [([80; 65; 84; 72], [47]); ([72; 79; 77; 69], [47]); ([83; 72; 69; 76; 76], [47; 107; 101; 114; 110; 101; 108]);
   ([84; 69; 82; 77], [99; 114; 117; 115; 97; 100; 105; 97])].
Definition env_init : M unit :=
  modify (fun e => mk_env (s_env e) (replicate (Z.to_nat ENV_MAX_VARS) false) 0);;
  ffor 4 0 (fun i => env_set (env_defaults.[i].1) (env_defaults.[i].2);; mret tt).

End Env.

(** What the environment promises: look-up after a change, and the entry that
    a rejected change brings back. *)
Import CString Env.

Module EnvProps.

(** ** Rows and the strings in them *)

(** A row holds a string: a terminator follows its text. *)
Definition terminated (row : list Z) : Prop := exists r, row = cstr row ++ 0 :: r.
Lemma zero_terminated (row : list Z) i : 0 <= i < zlen row -> aget row i = 0 -> terminated row.
Proof.
  unfold terminated, zlen, aget. revert i. induction row as [|x row IH]; intros i Hi H0; cbn [length] in *; [lia|]. cbn [cstr].
  destruct (Z.eqb_spec x 0) as [->|Hx]; [by exists row|]. destruct (Z.to_nat i) as [|n] eqn:En; [done|].
  destruct (IH (Z.of_nat n)) as [r Hr]; [lia|by rewrite Nat2Z.id|]. exists r. cbn. by rewrite <- Hr.
Qed.
Lemma aget_app_here (l : list Z) x r : aget (l ++ x :: r) (zlen l) = x.
Proof. unfold aget, zlen. rewrite Nat2Z.id, list_lookup_total_alt, lookup_app_r, Nat.sub_diag by done. done. Qed.
Lemma aset_app_here (l : list Z) x y r : (l ++ x :: r).[zlen l := y] = l ++ y :: r.
Proof. unfold aset, zlen. rewrite Nat2Z.id. rewrite insert_app_r_alt by done. by rewrite Nat.sub_diag. Qed.

(** [strncmp] over the whole of [key]. *)
Lemma strncmp_prefix key : forall row, strncmp row key (length (cstr key)) = 0 <-> exists v, cstr row = cstr key ++ v.
Proof.
  induction key as [|c key IH]; intros row; cbn [cstr].
  { split; [intros _; by exists (cstr row)|done]. }
  destruct (Z.eqb_spec c 0) as [->|Hc]; [split; [intros _; by exists (cstr row)|done]|].
  change (strncmp row (c :: key) (length (c :: cstr key))) with
    (if negb (hd0 row =? 0) && (hd0 row =? c) then strncmp (tail row) key (length (cstr key)) else hd0 row - c).
  destruct row as [|x row].
  - change (hd0 []) with 0. cbn [negb andb Z.eqb]. split; [lia|]. by intros (v & E).
  - change (hd0 (x :: row)) with x. change (tail (x :: row)) with row. cbn [cstr]. destruct (Z.eqb_spec x 0) as [->|Hx]; cbn [negb andb].
    + split; [lia|]. by intros (v & E).
    + destruct (Z.eqb_spec x c) as [->|Hxc].
      * rewrite IH. split; intros (v & E); exists v; cbn; [by rewrite E|by injection E].
      * split; [lia|]. by intros (v & [= -> _]).
Qed.

(** A row is the entry of [key] when its text is "key=..." . *)
Lemma entry_of_spec key row : terminated row -> entry_of key row = true <-> exists v, cstr row = cstr key ++ 61 :: v.
Proof.
  intros [r Er]. unfold entry_of. rewrite strlen_cstr. unfold zlen at 1. rewrite Nat2Z.id, andb_true_iff, !Z.eqb_eq, strncmp_prefix. split.
  - intros [(v & E) H61]. rewrite Er, E, <- app_assoc in H61. destruct v as [|x v]; cbn [app] in H61; rewrite aget_app_here in H61; [done|].
    exists v. by rewrite E, H61.
  - intros (v & E). split; [by eexists|]. rewrite Er, E, <- app_assoc. apply aget_app_here.
Qed.
Lemma key_unique k k' v v' : 61 ∉ k -> 61 ∉ k' -> k ++ 61 :: v = k' ++ 61 :: v' -> k = k'.
Proof.
  revert k'. induction k as [|x k IH]; intros [|y k'] Hk Hk'; cbn; [done| | |].
  - intros [= <- _]. exfalso. apply Hk'. by apply list.elem_of_cons; left.
  - intros [= -> _]. exfalso. apply Hk. by apply list.elem_of_cons; left.
  - apply list.not_elem_of_cons in Hk as [_ Hk]. apply list.not_elem_of_cons in Hk' as [_ Hk']. intros [= -> E]. f_equal. by apply IH.
Qed.

Lemma put_entry_text row key value : zlen (cstr key) + zlen (cstr value) + 2 <= zlen row ->
  exists r, put_entry row key value = cstr key ++ 61 :: cstr value ++ 0 :: r /\ zlen (put_entry row key value) = zlen row.
Proof.
  intros Hz. set (k := cstr key) in *. set (v := cstr value) in *. pose proof (zlen_nonneg k). pose proof (zlen_nonneg v).
  assert (E1 : (splice row 0 (strcpy_out key)).[strlen key := 61] = k ++ 61 :: drop (length k + 1) row).
  { unfold splice, strcpy_out. rewrite strlen_cstr. fold k. change (Z.to_nat 0) with 0%nat. rewrite take_0, <- app_assoc. cbn [app].
    rewrite aset_app_here, length_app. done. }
  assert (E2 : put_entry row key value = k ++ 61 :: v ++ 0 :: drop (length v + 1) (drop (length k + 1) row)).
  { unfold put_entry. rewrite E1, strlen_cstr. fold k. unfold splice, strcpy_out. fold v.
    replace (Z.to_nat (zlen k + 1)) with (length (k ++ [61])) by (rewrite length_app; unfold zlen; cbn; lia).
    replace (k ++ 61 :: drop (length k + 1) row) with ((k ++ [61]) ++ drop (length k + 1) row) by (by rewrite <- app_assoc).
    rewrite take_app_length, drop_app_add, <- !app_assoc. cbn [app]. do 4 f_equal. rewrite length_app. done. }
  eexists. split; [exact E2|]. rewrite E2. unfold zlen in *. rewrite length_app. cbn. rewrite length_app. cbn. rewrite !length_drop. lia.
Qed.

(** ** Look-up as a function of the keys *)

Record env_ok (e : envst) : Prop := {
  eo_rows : zlen (s_env e) = ENV_MAX_VARS; eo_used : zlen (s_env_used e) = ENV_MAX_VARS;
  eo_row : forall i, 0 <= i < ENV_MAX_VARS -> zlen ((s_env e).[i]) = ENV_ENTRY_MAX /\ terminated ((s_env e).[i]);
}.
(** A key as the callers pass it: no '=' in it. *)
Definition is_key (key : list Z) : Prop := 61 ∉ cstr key.
Definition hit (key : list Z) (e : envst) (i : Z) : bool := (s_env_used e).[i] && entry_of key ((s_env e).[i]).

Lemma find_index_cases key e : (0 <= find_index key e < ENV_MAX_VARS /\ hit key e (find_index key e) = true /\
    forall i, 0 <= i < find_index key e -> hit key e i = false) \/
  (find_index key e = -1 /\ forall i, 0 <= i < ENV_MAX_VARS -> hit key e i = false).
Proof.
  unfold find_index. pose proof (first_some_hit (hit key e) (Z.to_nat ENV_MAX_VARS) 0) as Hf. unfold hit in *. unfold ENV_MAX_VARS in *.
  destruct (first_some _ _ _) as [j|]; [left; cbn; split; [lia|split; apply Hf]|right; split; [done|]; intros i Hi; apply Hf; lia].
Qed.
Lemma free_index_cases e : (0 <= free_index e < ENV_MAX_VARS /\ (s_env_used e).[free_index e] = false) \/
  (free_index e = -1 /\ forall i, 0 <= i < ENV_MAX_VARS -> (s_env_used e).[i] = true).
Proof.
  unfold free_index. pose proof (first_some_hit (fun i => negb ((s_env_used e).[i])) (Z.to_nat ENV_MAX_VARS) 0) as Hf. unfold ENV_MAX_VARS in *.
  rewrite (first_some_ext _ (fun j => if negb ((s_env_used e).[j]) then Some j else None)) by (intros; by destruct ((s_env_used e).[j])).
  destruct (first_some _ _ _) as [j|].
  - left. cbn. destruct Hf as (Hj & Hp & _). split; [lia|]. by apply negb_true_iff.
  - right. split; [done|]. intros i Hi. specialize (Hf i ltac:(lia)). by apply negb_false_iff.
Qed.
Lemma env_get_none key e : env_get key e = None -> find_index key e = -1.
Proof.
  unfold env_get. destruct (find_index_cases key e) as [(Hf & _)|[Hf _]]; [|done]. by rewrite (proj2 (Z.ltb_ge _ 0)) by lia.
Qed.
Lemma find_index_same key e e' : (forall i, 0 <= i < ENV_MAX_VARS -> hit key e' i = hit key e i) -> find_index key e' = find_index key e.
Proof.
  intros Hs. unfold find_index. f_equal. apply first_some_ext. intros j Hj. unfold hit, ENV_MAX_VARS in *. cbn in Hj. by rewrite Hs by lia.
Qed.
(** The text of a row behind the entry's key. *)
Lemma entry_value row key v r : row = cstr key ++ 61 :: v ++ 0 :: r -> cstr v = v -> cstr (drop (Z.to_nat (strlen key + 1)) row) = v.
Proof.
  intros -> Hv. rewrite strlen_cstr. replace (Z.to_nat (zlen (cstr key) + 1)) with (length (cstr key ++ [61])) by (rewrite length_app; unfold zlen; cbn; lia).
  replace (cstr key ++ 61 :: v ++ 0 :: r) with ((cstr key ++ [61]) ++ v ++ 0 :: r) by (by rewrite <- app_assoc). rewrite drop_app_length.
  rewrite <- Hv at 1. rewrite cstr_app0; [done|apply cstr_nonzero].
Qed.


Lemma hit_other key i e e' : (forall j, j <> i -> 0 <= j -> (s_env_used e').[j] = (s_env_used e).[j] /\ (s_env e').[j] = (s_env e).[j]) ->
  hit key e i = false -> hit key e' i = false -> forall j, 0 <= j < ENV_MAX_VARS -> hit key e' j = hit key e j.
Proof.
  intros Hs H1 H2 j Hj. destruct (decide (j = i)) as [->|Hne]; [by rewrite H1, H2|]. destruct (Hs j Hne ltac:(lia)) as [E1 E2]. unfold hit. by rewrite E1, E2.
Qed.
(** Two keys have no entry in common. *)
Lemma entry_key key key' row : terminated row -> is_key key -> is_key key' -> entry_of key row = true -> entry_of key' row = true -> cstr key = cstr key'.
Proof. intros Ht Hk Hk' [v E]%(entry_of_spec _ _ Ht) [v' E']%(entry_of_spec _ _ Ht). rewrite E in E'. by eapply key_unique. Qed.

(** The slot [env_set] writes to, and the state with that slot in use. *)
Definition slot_for (key : list Z) (e : envst) : Z := if find_index key e <? 0 then free_index e else find_index key e.
Definition slot_taken (key : list Z) (e : envst) : envst :=
  if find_index key e <? 0 then add_count 1 (set_used (free_index e) true e) else e.
Lemma env_set_run key value e : 0 <= slot_for key e ->
  env_set key value e =
  if ENV_ENTRY_MAX <? strlen key + 1 + strlen value + 1 then (-1, slot_taken key e)
  else (0, set_row (slot_for key e) (put_entry ((s_env e).[slot_for key e]) key value) (slot_taken key e)).
Proof.
  unfold slot_for, slot_taken. intros Hs. unfold env_set. munfold. cbn [id]. unfold id. destruct (find_index key e <? 0) eqn:Ef.
  - rewrite (proj2 (Z.ltb_ge (free_index e) 0)) by done. cbv beta iota zeta. rewrite (proj2 (Z.ltb_ge (free_index e) 0)) by done.
    by destruct (ENV_ENTRY_MAX <? _).
  - cbv beta iota zeta. rewrite Ef. by destruct (ENV_ENTRY_MAX <? _).
Qed.
Lemma slot_taken_at key e i : env_ok e -> 0 <= slot_for key e -> 0 <= i ->
  (s_env (slot_taken key e)).[i] = (s_env e).[i] /\
  (s_env_used (slot_taken key e)).[i] = if decide (i = slot_for key e) then true else (s_env_used e).[i].
Proof.
  intros [E1 E2 E3] Hs Hi. unfold slot_taken, slot_for in *. destruct (Z.ltb_spec (find_index key e) 0) as [Hneg|Hpos].
  - cbn. split; [done|]. destruct (free_index_cases e) as [[Hf _]|[Hf _]]; [|lia]. rewrite aget_aset by lia.
    destruct (decide (free_index e = i)) as [<-|]; [by rewrite decide_True|by rewrite decide_False by lia].
  - split; [done|]. destruct (find_index_cases key e) as [[Hf [Hh _]]|[Hf _]]; [|lia]. case_decide as Hd; [|done]. subst.
    unfold hit in Hh. by apply andb_true_iff in Hh as [? _].
Qed.
Lemma slot_range key e : 0 <= slot_for key e -> slot_for key e < ENV_MAX_VARS.
Proof.
  unfold slot_for. destruct (Z.ltb_spec (find_index key e) 0).
  - destruct (free_index_cases e) as [[? _]|[? _]]; lia.
  - destruct (find_index_cases key e) as [[? _]|[? _]]; lia.
Qed.

(** [env_set] of a key that has an entry, or for which a slot is free,
    with a value that fits: the key then has exactly that value and every other
    key the value (or the absence) it had before. *)
Theorem env_set_get key value e : env_ok e -> is_key key -> 0 <= slot_for key e -> strlen key + strlen value + 2 <= ENV_ENTRY_MAX ->
  exists e', env_set key value e = (0, e') /\ env_ok e' /\ env_get key e' = Some (cstr value) /\
    forall key', is_key key' -> cstr key' <> cstr key -> env_get key' e' = env_get key' e.
Proof.
  intros He Hk Hs Hlen. pose proof (slot_range key e Hs) as Hr. rewrite env_set_run by done. rewrite (proj2 (Z.ltb_ge ENV_ENTRY_MAX _)) by lia.
  set (i := slot_for key e) in *. pose proof He as [E1 E2 E3]. destruct (put_entry_text ((s_env e).[i]) key value) as (r & Et & Ez).
  { rewrite (proj1 (E3 i ltac:(lia))), <- !strlen_cstr. lia. }
  set (row := put_entry ((s_env e).[i]) key value) in *. set (e' := set_row i row (slot_taken key e)).
  assert (Hrow : forall j, 0 <= j -> (s_env e').[j] = if decide (j = i) then row else (s_env e).[j]).
  { intros j Hj. unfold e'. cbn [s_env set_row]. assert (Hz : zlen (s_env (slot_taken key e)) = ENV_MAX_VARS) by (unfold slot_taken; by destruct (_ <? 0)).
    rewrite aget_aset by lia. rewrite (proj1 (slot_taken_at key e j He Hs Hj)). destruct (decide (i = j)) as [<-|]; [by rewrite decide_True|by rewrite decide_False by lia]. }
  assert (Huse : forall j, 0 <= j -> (s_env_used e').[j] = if decide (j = i) then true else (s_env_used e).[j]).
  { intros j Hj. exact (proj2 (slot_taken_at key e j He Hs Hj)). }
  assert (Hcs : cstr row = cstr key ++ 61 :: cstr value).
  { rewrite Et. replace (cstr key ++ 61 :: cstr value ++ 0 :: r) with ((cstr key ++ 61 :: cstr value) ++ 0 :: r) by (by rewrite <- app_assoc).
    apply cstr_app0. apply list.Forall_app. split; [apply cstr_nonzero|]. constructor; [done|apply cstr_nonzero]. }
  assert (Htr : terminated row) by (exists r; rewrite Hcs, Et, <- app_assoc; done).
  assert (Hhit : forall key', is_key key' -> hit key' e' i = true <-> cstr key' = cstr key).
  { intros key' Hk'. unfold hit. rewrite Hrow, Huse, !decide_True by lia. cbn [andb]. rewrite (entry_of_spec _ _ Htr), Hcs. split.
    - intros (v & E). symmetry. by eapply key_unique.
    - intros ->. by eexists. }
  assert (Hold : forall key', is_key key' -> hit key' e i = true -> cstr key' = cstr key).
  { intros key' Hk' Hh. unfold i, slot_for in Hh, Hs. destruct (Z.ltb_spec (find_index key e) 0) as [Hneg|Hpos].
    - destruct (free_index_cases e) as [[_ Hf]|[Hf _]]; [|lia]. unfold hit in Hh. by rewrite Hf in Hh.
    - destruct (find_index_cases key e) as [(Hfr & Hf & _)|[Hf _]]; [|lia]. unfold hit in Hh, Hf. apply andb_true_iff in Hh as [_ Hh]. apply andb_true_iff in Hf as [_ Hf].
      apply (entry_key key' key ((s_env e).[find_index key e])); [apply E3; lia|done..]. }
  exists e'. split; [done|]. split; [|split].
  - constructor; [unfold e', slot_taken; cbn; rewrite zlen_aset; by destruct (_ <? 0)| |].
    + unfold e', slot_taken. destruct (_ <? 0); cbn; rewrite ?zlen_aset; done.
    + intros j Hj. rewrite Hrow by lia. case_decide; [split; [rewrite Ez; by apply E3|done]|by apply E3].
  - assert (Hi : find_index key e' = i).
    { assert (Hme : hit key e' i = true) by by apply Hhit.
      destruct (find_index_cases key e') as [(Hf & Hh & Hl)|[_ Hn]]; [|by rewrite Hn in Hme by lia].
      destruct (decide (find_index key e' < i)) as [Hlt|Hge]; [|destruct (decide (i = find_index key e')); [done|by rewrite Hl in Hme by lia]].
      assert (Hhe : hit key e (find_index key e') = true) by (rewrite <- Hh; unfold hit; by rewrite Hrow, Huse, !decide_False by lia).
      destruct (find_index_cases key e) as [(Hg & _ & Hmin)|[_ Hn]]; [|by rewrite Hn in Hhe by lia].
      unfold i, slot_for in Hlt. rewrite (proj2 (Z.ltb_ge _ 0)) in Hlt by lia. by rewrite Hmin in Hhe by lia. }
    unfold env_get. rewrite Hi, (proj2 (Z.ltb_ge i 0)), Hrow, decide_True by lia. f_equal. eapply entry_value; [exact Et|apply cstr_idemp, cstr_nonzero].
  - intros key' Hk' Hne. assert (Hno : hit key' e' i = false) by (apply not_true_is_false; by intros ?%Hhit).
    assert (Hsame : find_index key' e' = find_index key' e).
    { apply find_index_same, (hit_other key' i); [intros j Hj1 Hj2; by rewrite Hrow, Huse, !decide_False by done| |done].
      apply not_true_is_false. by intros ?%Hold. }
    unfold env_get. rewrite Hsame. destruct (find_index_cases key' e') as [(Hf & Hh & _)|[Hn _]]; rewrite Hsame in *; [|by rewrite Hn].
    destruct (_ <? 0); [done|]. rewrite Hrow, decide_False; [done| |lia]. intros Heq. by rewrite <- Heq, Hh in Hno.
Qed.
(** A value that does not fit is refused only after the slot has been marked:
    what the slot still holds is an entry again.  When that is the text of a
    variable that was unset, the variable is back with its old value, the
    count has gone up, and the key that was asked for is not there. *)
Theorem env_set_rejected_revives key value old v e : env_ok e -> is_key key -> is_key old -> cstr old <> cstr key ->
  0 <= free_index e -> env_get key e = None -> env_get old e = None ->
  cstr ((s_env e).[free_index e]) = cstr old ++ 61 :: v -> ENV_ENTRY_MAX < strlen key + strlen value + 2 ->
  exists e', env_set key value e = (-1, e') /\ env_count e' = env_count e + 1 /\ env_get old e' = Some v /\ env_get key e' = None.
Proof.
  intros He Hk Ho Hne Hfree Hg Hgo Htext Hlen. apply env_get_none in Hg, Hgo. set (i := free_index e) in *.
  assert (Hsl : slot_for key e = i) by (unfold slot_for; by rewrite Hg). destruct (free_index_cases e) as [[Hr _]|[Hr _]]; [|lia]. fold i in Hr.
  destruct (eo_row _ He i Hr) as [_ [r Er]].
  assert (Hent : forall k, is_key k -> entry_of k ((s_env e).[i]) = true <-> cstr k = cstr old).
  { intros k Hkk. rewrite (entry_of_spec _ _ (ex_intro _ r Er)), Htext. split; [intros [w E]; symmetry; by eapply key_unique|intros ->; by eexists]. }
  rewrite env_set_run by (by rewrite Hsl). rewrite (proj2 (Z.ltb_lt ENV_ENTRY_MAX _)) by lia. set (e' := slot_taken key e).
  assert (Hat : forall j, 0 <= j -> (s_env e').[j] = (s_env e).[j] /\ (s_env_used e').[j] = if decide (j = i) then true else (s_env_used e).[j]).
  { intros j Hj. rewrite <- Hsl. apply slot_taken_at; [done|lia|done]. }
  assert (Hnew : forall k, is_key k -> find_index k e = -1 -> find_index k e' = if decide (cstr k = cstr old) then i else -1).
  { intros k Hkk Hn. assert (Hold : forall j, 0 <= j < ENV_MAX_VARS -> j <> i -> hit k e' j = false).
    { intros j Hj Hji. unfold hit. destruct (Hat j ltac:(lia)) as [-> ->]. rewrite decide_False by done.
      destruct (find_index_cases k e) as [[? _]|[_ Hnone]]; [lia|by apply Hnone]. }
    assert (Hi : hit k e' i = true <-> cstr k = cstr old) by (unfold hit; destruct (Hat i ltac:(lia)) as [-> ->]; rewrite decide_True by done; by apply Hent).
    destruct (find_index_cases k e') as [(Hj & Hh & _)|[Hj Hnone]].
    - destruct (decide (find_index k e' = i)) as [Heq|]; [|by rewrite Hold in Hh by done]. rewrite Heq in *. by rewrite decide_True by by apply Hi.
    - rewrite decide_False; [done|]. intros E%Hi. by rewrite Hnone in E by lia. }
  exists e'. split; [done|]. split; [unfold env_count, e', slot_taken; by rewrite Hg|]. unfold env_get.
  rewrite !Hnew, decide_True, decide_False by done. split; [|done].
  rewrite (proj2 (Z.ltb_ge i 0)), (proj1 (Hat i ltac:(lia))) by lia. f_equal.
  assert (Hv : Forall (fun c => c <> 0) v) by (pose proof (cstr_nonzero ((s_env e).[i])) as Hz; rewrite Htext in Hz; apply list.Forall_app in Hz as [_ Hz]; by apply list.Forall_cons in Hz as [_ Hz]).
  eapply entry_value; [rewrite Er, Htext, <- app_assoc; reflexivity|by apply cstr_idemp].
Qed.

(** ** The boot environment *)

(** The zeroed tables after [env_init], and after [unset PATH]. *)
Definition env_boot : envst := (env_init (mk_env (replicate 16 (replicate 128 0)) (replicate 16 false) 0)).2.
Definition env_nopath : envst := (env_unset [80; 65; 84; 72] env_boot).2.

Example env_boot_path : (env_get [80; 65; 84; 72] env_boot, env_get [84; 69; 82; 77] env_boot, env_count env_boot) =
  (Some [47], Some [99; 114; 117; 115; 97; 100; 105; 97], 4).
Proof. vm_compute. reflexivity. Qed.
Definition rows_ok (e : envst) : bool :=
  (zlen (s_env e) =? 16) && (zlen (s_env_used e) =? 16) &&
  forallb (fun row => (zlen row =? 128) && (aget row 127 =? 0)) (s_env e).
Lemma rows_ok_env_ok e : rows_ok e = true -> env_ok e.
Proof.
  unfold rows_ok. rewrite !andb_true_iff, !Z.eqb_eq, forallb_forall. intros [[H1 H2] H3]. constructor; [done|done|]. intros i Hi.
  specialize (H3 ((s_env e).[i])). rewrite andb_true_iff, !Z.eqb_eq in H3.
  destruct H3 as [Hz H0]; [apply list_elem_of_In, list_elem_of_lookup_total_2; unfold zlen, ENV_MAX_VARS in *; lia|].
  split; [done|]. by apply (zero_terminated _ 127); [rewrite Hz|].
Qed.

Lemma env_set_get_witness : exists e', env_set [72; 79; 77; 69] [47; 97] env_boot = (0, e') /\ env_ok e' /\
  env_get [72; 79; 77; 69] e' = Some [47; 97] /\
  forall key', is_key key' -> cstr key' <> cstr [72; 79; 77; 69] -> env_get key' e' = env_get key' env_boot.
Proof.
  apply (env_set_get [72; 79; 77; 69] [47; 97] env_boot); [apply rows_ok_env_ok; vm_compute; reflexivity| |vm_compute; discriminate..].
  unfold is_key. cbn. repeat (apply list.not_elem_of_cons; split; [lia|]); apply list.not_elem_of_nil.
Defined.
Lemma env_set_rejected_revives_witness : exists e', env_set [88] (replicate 130 65) env_nopath = (-1, e') /\
  env_count e' = env_count env_nopath + 1 /\ env_get [80; 65; 84; 72] e' = Some [47] /\ env_get [88] e' = None.
Proof.
  apply (env_set_rejected_revives [88] (replicate 130 65) [80; 65; 84; 72] [47] env_nopath); [apply rows_ok_env_ok; vm_compute; reflexivity|..].
  1, 2: unfold is_key; cbn; repeat (apply list.not_elem_of_cons; split; [lia|]); apply list.not_elem_of_nil.
  all: vm_compute; first [discriminate|reflexivity].
Defined.

End EnvProps.
