(* ===== verification/Disk.v ===== *)
(** Block storage: the interface the file systems are written against, and a
    bank of drives implementing it.

    [bread]/[bwrite] stand for [block_read]/[block_write] of src/fs.c on the
    drive selected last by [select_drive]; a read that the driver cannot serve
    yields a zeroed sector and such a write is dropped, as in the driver. *)
From S2P Require Import Prelude.
From stdpp Require Import base list gmap numbers.
From Stdlib Require Import ZArith Lia.
Open Scope Z_scope.

Definition SECTOR_SIZE : Z := 512.
Definition sector : Type := list Z.
Definition is_sector (b : sector) : Prop := zlen b = SECTOR_SIZE /\ is_bytes b.
Definition zero_sector : sector := replicate 512 0.

Lemma zero_sector_ok : is_sector zero_sector.
Proof. split; [reflexivity|]. apply Forall_replicate. unfold is_u8. lia. Qed.

#[export] Instance is_sector_dec b : Decision (is_sector b).
Proof. unfold is_sector. apply _. Defined.

(** Operations of a device. *)
Class BlockDev (D : Type) := {
  select_drive : Z -> Z -> D -> D;
  bread : D -> Z -> sector;
  bwrite : Z -> sector -> D -> D;
  (** number of sectors of the selected drive *)
  bcap : D -> Z;
  (** representation invariant of the device *)
  bok : D -> Prop;
}.

(** What a device promises its clients. *)
Class BlockDevLaws (D : Type) `{BlockDev D} : Prop := {
  bread_sector : forall d l, bok d -> is_sector (bread d l);
  bread_bwrite : forall d l b l', bok d -> is_sector b -> 0 <= l < bcap d ->
    bread (bwrite l b d) l' = if decide (l' = l) then b else bread d l';
  bwrite_out : forall d l b l', bok d -> ~ 0 <= l < bcap d -> bread (bwrite l b d) l' = bread d l';
  bwrite_cap : forall d l b, bcap (bwrite l b d) = bcap d;
  bwrite_ok : forall d l b, bok d -> is_sector b -> bok (bwrite l b d);
  select_ok : forall d base slave, bok d -> bok (select_drive base slave d);
  (** selecting the selected drive changes nothing *)
  select_select : forall d base slave, select_drive base slave (select_drive base slave d) = select_drive base slave d;
  (** a selection replaces the one before *)
  select_over : forall d base slave base' slave', select_drive base slave (select_drive base' slave' d) = select_drive base slave d;
  select_bwrite : forall d base slave l b,
    select_drive base slave (bwrite l b (select_drive base slave d)) = bwrite l b (select_drive base slave d);
}.

Module Drives.

(** One drive: its capacity and the sectors ever written. *)
Record drive := mk_drive { d_cap : Z; d_secs : gmap Z sector }.
(** The drives, by (ata_base, is_slave), and the selection. *)
Record drives := mk_drives { sel : Z * Z; bank : gmap (Z * Z) drive }.

Definition no_drive : drive := mk_drive 0 ∅.
Definition cur (d : drives) : drive := default no_drive (bank d !! sel d).

Definition read (d : drives) (l : Z) : sector :=
  if decide (0 <= l < d_cap (cur d)) then default zero_sector (d_secs (cur d) !! l) else zero_sector.
Definition write (l : Z) (b : sector) (d : drives) : drives :=
  if decide (0 <= l < d_cap (cur d))
  then mk_drives (sel d) (<[sel d := mk_drive (d_cap (cur d)) (<[l := b]> (d_secs (cur d)))]> (bank d))
  else d.
Definition select (base slave : Z) (d : drives) : drives := mk_drives (base, slave) (bank d).

Definition drive_ok (x : drive) : Prop := map_Forall (fun _ b => is_sector b) (d_secs x).
Definition ok (d : drives) : Prop := map_Forall (fun _ x => drive_ok x) (bank d).

#[export] Instance drives_ok_dec d : Decision (ok d).
Proof. unfold ok, drive_ok. apply _. Defined.

#[export] Instance drives_dev : BlockDev drives := {|
  select_drive := select; bread := read; bwrite := write; bcap := fun d => d_cap (cur d); bok := ok |}.

Lemma cur_ok d : ok d -> drive_ok (cur d).
Proof.
  intros H. unfold cur. destruct (bank d !! sel d) as [x|] eqn:E; cbn; [by apply (H (sel d))|].
  apply map_Forall_empty.
Qed.
Lemma cur_write l b d : 0 <= l < d_cap (cur d) ->
  cur (write l b d) = mk_drive (d_cap (cur d)) (<[l := b]> (d_secs (cur d))).
Proof. intros H. unfold write. rewrite decide_True by done. unfold cur at 1. cbn. by rewrite lookup_insert_eq. Qed.

#[export] Instance drives_laws : BlockDevLaws drives.
Proof.
  constructor; cbn.
  - intros d l Hd. unfold read. case_decide; [|apply zero_sector_ok].
    destruct (d_secs (cur d) !! l) as [b|] eqn:E; cbn; [by apply (cur_ok d Hd l)|apply zero_sector_ok].
  - intros d l b l' _ _ Hl. unfold read. rewrite cur_write by done. cbn.
    destruct (decide (l' = l)) as [->|]; [by rewrite decide_True, lookup_insert_eq by done|].
    by rewrite lookup_insert_ne by done.
  - intros d l b l' _ Hl. unfold write. by rewrite decide_False.
  - intros d l b. destruct (decide (0 <= l < d_cap (cur d))) as [Hl|Hl]; [by rewrite cur_write|].
    unfold write. by rewrite decide_False.
  - intros d l b Hd Hb. unfold write. case_decide; [|done]. intros k x. cbn.
    intros [[<- <-]|[_ Hx]]%lookup_insert_Some; [|by apply (Hd k)].
    apply map_Forall_insert_2; [done|by apply cur_ok].
  - done.
  - done.
  - done.
  - intros d base slave l b. unfold write, select. by case_decide.
Qed.

End Drives.

(** Open files as their clients use them (src/vfs.h): the calls on a
    descriptor, and what they promise while the file is not written to. *)


(** A call that waits for the lock of the file layer has no result: [None]. *)
Class FileOps (F : Type) := {
  file_open : list Z -> Z -> st F (option Z);
  (** descriptor, offset, count: the result and the bytes stored *)
  file_pread : Z -> Z -> Z -> st F (option (Z * list Z));
  file_fsize : Z -> st F (option Z);
  file_close : Z -> st F (option Z);
}.

(** [holds_file s fd c]: descriptor [fd] is open on a file with the bytes [c]. *)
Class FileLaws (F : Type) `{FileOps F} := {
  holds_file : F -> Z -> list Z -> Prop;
  holds_bytes : forall s fd c, holds_file s fd c -> is_bytes c /\ zlen c < 2 ^ 31;
  pread_law : forall s fd c off n, holds_file s fd c -> 0 <= off -> 0 <= n < 2 ^ 31 -> off + n < 2 ^ 32 ->
    exists s', file_pread fd off n s = (Some (zlen (slice c off n), slice c off n), s') /\ holds_file s' fd c;
  fsize_law : forall s fd c, holds_file s fd c -> exists s', file_fsize fd s = (Some (zlen c), s') /\ holds_file s' fd c;
  close_law : forall s fd c, holds_file s fd c -> exists r s', file_close fd s = (Some r, s');
}.
