(* ===== verification/CosData.v ===== *)
(** COSFS on-disk data (src/fs.h, src/fs.c): superblock, inode and directory
    entry layouts with their codecs, and the state of the driver. *)
From S2P Require Import Prelude CString Disk.
From stdpp Require Import base list numbers.
From Stdlib Require Import ZArith Lia.
Open Scope Z_scope.

Definition INODE_DIRECT : Z := 12.
Definition MAX_TAGS : Z := 3.
Definition TAG_LEN : Z := 12.
Definition MAX_DRIVES : Z := 4.
Definition SATA_DRIVE_MARKER : Z := 65535.
Definition INODE_BITMAP_SIZE : Z := 32768.
Definition INODE_SIZE : Z := 128.
Definition INODES_PER_BLOCK : Z := 4.
Definition SUPERBLOCK_LBA : Z := 0.
Definition ROOT_INODE : Z := 0.
Definition PTRS_PER_BLOCK : Z := 128.
Definition FS_MAGIC : Z := 0x5A4C534A.
Definition DIRENTS : Z := 16.

Module Cos.

Record superblock := mk_sb {
  magic : Z; block_size : Z; total_blocks : Z; inode_count : Z;
  bitmap_start : Z; inode_start : Z; data_start : Z;
}.

(** The packed 32-byte layout of [superblock_t]. *)
Definition sb_encode (s : superblock) : list Z :=
  le_put 4 (magic s) ++ le_put 4 (block_size s) ++ le_put 8 (total_blocks s) ++
  le_put 4 (inode_count s) ++ le_put 4 (bitmap_start s) ++ le_put 4 (inode_start s) ++ le_put 4 (data_start s).
Definition sb_decode (b : list Z) : superblock :=
  mk_sb (get32 b 0) (get32 b 4) (get_le 8 b 8) (get32 b 16) (get32 b 20) (get32 b 24) (get32 b 28).

(** [inode_t]: [direct] has 12 entries, [main_tag] 12 bytes, [tags] 3 x 12
    bytes, [unused] 15. *)
Record inode := mk_inode {
  size : Z; direct : list Z; single_indirect : Z; double_indirect : Z; triple_indirect : Z;
  type : Z; main_tag : list Z; tags : list Z; unused : list Z;
}.

Definition zero_inode : inode :=
  mk_inode 0 (replicate 12 0) 0 0 0 0 (replicate 12 0) (replicate 36 0) (replicate 15 0).

Fixpoint encode_words (l : list Z) : list Z :=
  match l with [] => [] | w :: l => le_put 4 w ++ encode_words l end.
Fixpoint decode_words (n : nat) (b : list Z) : list Z :=
  match n with O => [] | S n => le_get (take 4 b) :: decode_words n (drop 4 b) end.

(** The packed 128-byte layout. *)
Definition inode_encode (n : inode) : list Z :=
  le_put 4 (size n) ++ encode_words (direct n) ++ le_put 4 (single_indirect n) ++
  le_put 4 (double_indirect n) ++ le_put 4 (triple_indirect n) ++ le_put 1 (type n) ++
  main_tag n ++ tags n ++ unused n.
Definition inode_decode (b : list Z) : inode :=
  mk_inode (get32 b 0) (decode_words 12 (drop 4 b)) (get32 b 52) (get32 b 56) (get32 b 60)
    (get_le 1 b 64) (slice b 65 12) (slice b 77 36) (slice b 113 15).

Definition set_size (v : Z) (n : inode) : inode :=
  mk_inode v (direct n) (single_indirect n) (double_indirect n) (triple_indirect n) (type n) (main_tag n) (tags n) (unused n).
Definition set_direct (i v : Z) (n : inode) : inode :=
  mk_inode (size n) ((direct n).[i := v]) (single_indirect n) (double_indirect n) (triple_indirect n) (type n) (main_tag n) (tags n) (unused n).
Definition set_single (v : Z) (n : inode) : inode :=
  mk_inode (size n) (direct n) v (double_indirect n) (triple_indirect n) (type n) (main_tag n) (tags n) (unused n).
Definition set_double (v : Z) (n : inode) : inode :=
  mk_inode (size n) (direct n) (single_indirect n) v (triple_indirect n) (type n) (main_tag n) (tags n) (unused n).
Definition set_triple (v : Z) (n : inode) : inode :=
  mk_inode (size n) (direct n) (single_indirect n) (double_indirect n) v (type n) (main_tag n) (tags n) (unused n).
Definition set_type (v : Z) (n : inode) : inode :=
  mk_inode (size n) (direct n) (single_indirect n) (double_indirect n) (triple_indirect n) v (main_tag n) (tags n) (unused n).
Definition set_main_tag (t : list Z) (n : inode) : inode :=
  mk_inode (size n) (direct n) (single_indirect n) (double_indirect n) (triple_indirect n) (type n) t (tags n) (unused n).
Definition set_tags (t : list Z) (n : inode) : inode :=
  mk_inode (size n) (direct n) (single_indirect n) (double_indirect n) (triple_indirect n) (type n) (main_tag n) t (unused n).

(** Every field has the width and the length of the C type. *)
Record inode_wf (n : inode) : Prop := {
  wf_size : is_u32 (size n);
  wf_direct : zlen (direct n) = 12 /\ Forall is_u32 (direct n);
  wf_single : is_u32 (single_indirect n);
  wf_double : is_u32 (double_indirect n);
  wf_triple : is_u32 (triple_indirect n);
  wf_type : is_u8 (type n);
  wf_main_tag : zlen (main_tag n) = 12 /\ is_bytes (main_tag n);
  wf_tags : zlen (tags n) = 36 /\ is_bytes (tags n);
  wf_unused : zlen (unused n) = 15 /\ is_bytes (unused n);
}.

Record sb_wf (s : superblock) : Prop := {
  swf_magic : is_u32 (magic s); swf_bs : is_u32 (block_size s);
  swf_total : 0 <= total_blocks s < 2 ^ 64; swf_icount : is_u32 (inode_count s);
  swf_bitmap : is_u32 (bitmap_start s); swf_inode : is_u32 (inode_start s); swf_data : is_u32 (data_start s);
}.

(** [struct dirent] at slot [i] of a directory block. *)
Definition dirent_inode (buf : list Z) (i : Z) : Z := get32 buf (32 * i).
(** [entries[i].name] as the pointer [strcmp] receives. *)
Definition dirent_name (buf : list Z) (i : Z) : list Z := drop (Z.to_nat (32 * i + 4)) buf.

(** One element of [g_drives]; the other members of [fs_device_t] are unused. *)
Record fs_device := mk_device { ata_base : Z; is_slave : Z; total_sectors : Z }.

(** The driver's globals. *)
Record fsstate (D : Type) := mk_fs {
  dev : D;
  sb : superblock;
  inode_bitmap : list Z;
  block_bitmap_bytes : Z;
  block_bitmap_sectors : Z;
  inode_bitmap_sectors : Z;
  inode_table_blocks : Z;
  g_current_dir : Z;
  g_current_drive : Z;
  g_drives : list fs_device;
  g_active_drives : Z;
}.
Arguments mk_fs {D}. Arguments dev {D}. Arguments sb {D}. Arguments inode_bitmap {D}.
Arguments block_bitmap_bytes {D}. Arguments block_bitmap_sectors {D}. Arguments inode_bitmap_sectors {D}.
Arguments inode_table_blocks {D}. Arguments g_current_dir {D}. Arguments g_current_drive {D}.
Arguments g_drives {D}. Arguments g_active_drives {D}.

Definition set_dev {D} (d : D) (s : fsstate D) : fsstate D :=
  mk_fs d (sb s) (inode_bitmap s) (block_bitmap_bytes s) (block_bitmap_sectors s) (inode_bitmap_sectors s)
    (inode_table_blocks s) (g_current_dir s) (g_current_drive s) (g_drives s) (g_active_drives s).
Definition set_sb {D} (x : superblock) (s : fsstate D) : fsstate D :=
  mk_fs (dev s) x (inode_bitmap s) (block_bitmap_bytes s) (block_bitmap_sectors s) (inode_bitmap_sectors s)
    (inode_table_blocks s) (g_current_dir s) (g_current_drive s) (g_drives s) (g_active_drives s).
Definition set_inode_bitmap {D} (x : list Z) (s : fsstate D) : fsstate D :=
  mk_fs (dev s) (sb s) x (block_bitmap_bytes s) (block_bitmap_sectors s) (inode_bitmap_sectors s)
    (inode_table_blocks s) (g_current_dir s) (g_current_drive s) (g_drives s) (g_active_drives s).
Definition set_geometry {D} (bytes bsec isec itab : Z) (s : fsstate D) : fsstate D :=
  mk_fs (dev s) (sb s) (inode_bitmap s) bytes bsec isec itab
    (g_current_dir s) (g_current_drive s) (g_drives s) (g_active_drives s).
Definition set_current_dir {D} (x : Z) (s : fsstate D) : fsstate D :=
  mk_fs (dev s) (sb s) (inode_bitmap s) (block_bitmap_bytes s) (block_bitmap_sectors s) (inode_bitmap_sectors s)
    (inode_table_blocks s) x (g_current_drive s) (g_drives s) (g_active_drives s).
Definition set_current_drive {D} (x : Z) (s : fsstate D) : fsstate D :=
  mk_fs (dev s) (sb s) (inode_bitmap s) (block_bitmap_bytes s) (block_bitmap_sectors s) (inode_bitmap_sectors s)
    (inode_table_blocks s) (g_current_dir s) x (g_drives s) (g_active_drives s).
Definition set_active {D} (x : Z) (s : fsstate D) : fsstate D :=
  mk_fs (dev s) (sb s) (inode_bitmap s) (block_bitmap_bytes s) (block_bitmap_sectors s) (inode_bitmap_sectors s)
    (inode_table_blocks s) (g_current_dir s) (g_current_drive s) (g_drives s) x.

(** [block_bitmap_bytes], [block_bitmap_sectors], [inode_bitmap_sectors] and
    [inode_table_blocks], as format and mount both derive them. *)
Definition geom_bytes (g : superblock) : Z := u32 (u64 (total_blocks g + 7) / 8).
Definition geom_bsec (g : superblock) : Z := u32 (geom_bytes g + SECTOR_SIZE - 1) / SECTOR_SIZE.
Definition geom_isec (g : superblock) : Z := u32 (u32 (inode_count g + 7) / 8 + SECTOR_SIZE - 1) / SECTOR_SIZE.
Definition geom_itab (g : superblock) : Z := u32 (u32 (inode_count g * INODE_SIZE) + SECTOR_SIZE - 1) / SECTOR_SIZE.

(** ** Codec lemmas *)

Lemma is_bytes_app a b : is_bytes (a ++ b) <-> is_bytes a /\ is_bytes b.
Proof. apply Forall_app. Qed.
Lemma zlen_encode_words l : zlen (encode_words l) = 4 * zlen l.
Proof.
  unfold zlen. induction l as [|w l IH]; cbn [encode_words length]; [done|].
  rewrite length_app, length_le_put. lia.
Qed.
Lemma encode_words_bytes l : is_bytes (encode_words l).
Proof. induction l; cbn [encode_words]; [constructor|]. apply is_bytes_app. split; [apply le_put_bytes|done]. Qed.
Lemma decode_encode_words l r : Forall is_u32 l -> decode_words (length l) (encode_words l ++ r) = l.
Proof.
  induction 1 as [|w l Hw Hl IH]; [done|]. unfold is_u32 in Hw.
  cbn [length decode_words encode_words]. rewrite <- app_assoc.
  rewrite take_app_length', drop_app_length' by by rewrite length_le_put.
  rewrite le_get_put, IH. f_equal. apply Z.mod_small. lia.
Qed.
Lemma length_decode_words n b : length (decode_words n b) = n.
Proof. revert b. induction n; intros; cbn; auto. Qed.

#[local] Arguments decode_words : simpl never.
#[local] Arguments encode_words : simpl never.

(** A field read past a prefix of known length. *)
Lemma slice_app_r (a b : list Z) off n : zlen a <= off ->
  slice (a ++ b) off n = slice b (off - zlen a) n.
Proof.
  unfold slice, zlen. intros H. rewrite drop_app_ge by lia.
  replace (Z.to_nat (off - Z.of_nat (length a))) with (Z.to_nat off - length a)%nat by lia. done.
Qed.
Lemma slice_app_here (a b : list Z) n : n = zlen a -> slice (a ++ b) 0 n = a.
Proof. unfold slice, zlen. intros ->. rewrite Nat2Z.id. change (Z.to_nat 0) with 0%nat. rewrite drop_0. apply take_app_length. Qed.


(** Solve a field of an encoded record: skip the fields before it, then take it. *)
Ltac field_lens := rewrite ?zlen_app, ?zlen_le_put, ?zlen_encode_words; unfold zlen in *; cbn [length] in *; lia.
Ltac take_field :=
  repeat (rewrite slice_app_r by field_lens);
  match goal with
  | |- context [slice (?a ++ ?b) ?o ?n] =>
      replace o with 0 by field_lens; rewrite (slice_app_here a b n) by field_lens
  | |- context [slice ?a ?o ?n] =>
      replace o with 0 by field_lens; replace n with (zlen a) by field_lens; rewrite slice_all
  end.

Lemma sb_decode_encode s r : sb_wf s -> sb_decode (sb_encode s ++ r) = s.
Proof.
  intros [H1 H2 H3 H4 H5 H6 H7]. destruct s as [m bs t ic bm ist ds]; unfold sb_decode, sb_encode, get_le; cbn in *.
  unfold is_u32 in *. rewrite <- !app_assoc.
  f_equal; take_field; rewrite le_get_put; apply Z.mod_small; cbn; lia.
Qed.

Lemma zlen_inode_encode n : inode_wf n -> zlen (inode_encode n) = INODE_SIZE.
Proof.
  intros [? [] ? ? ? ? [] [] []]. unfold inode_encode, INODE_SIZE.
  rewrite !zlen_app, !zlen_le_put, zlen_encode_words. unfold zlen in *. cbn [length]. lia.
Qed.
Lemma inode_encode_bytes n : inode_wf n -> is_bytes (inode_encode n).
Proof.
  intros [? [] ? ? ? ? [] [] []]. unfold inode_encode. rewrite !is_bytes_app.
  split_and!; auto using le_put_bytes, encode_words_bytes.
Qed.

Lemma inode_decode_encode n r : inode_wf n -> inode_decode (inode_encode n ++ r) = n.
Proof.
  intros [Hs [Hd1 Hd2] H1 H2 H3 Ht [Hm1 Hm2] [Hg1 Hg2] [Hu1 Hu2]].
  destruct n as [sz d s1 s2 s3 ty mt tg un]; unfold inode_decode, inode_encode, get_le; cbn in *.
  unfold is_u32, is_u8 in *. rewrite <- !app_assoc.
  f_equal; try (take_field; rewrite le_get_put; apply Z.mod_small; cbn; lia); try by take_field.
  rewrite drop_app_length' by by rewrite length_le_put.
  replace 12%nat with (length d) by (unfold zlen in Hd1; lia). by apply decode_encode_words.
Qed.

Lemma decode_words_u32 n b : is_bytes b -> (4 * n <= length b)%nat -> Forall is_u32 (decode_words n b).
Proof.
  revert b. induction n as [|n IH]; intros b Hb Hl; cbn; constructor.
  - pose proof (le_get_bound (take 4 b) ltac:(by apply Forall_take)) as Hg.
    unfold zlen in Hg. rewrite length_take_le in Hg by lia. unfold is_u32. cbn in Hg. lia.
  - apply IH; [by apply Forall_drop | rewrite length_drop; lia].
Qed.

(** What comes out of the inode table is well formed. *)
Lemma inode_decode_wf b : zlen b = INODE_SIZE -> is_bytes b -> inode_wf (inode_decode b).
Proof.
  unfold INODE_SIZE. intros Hl Hb.
  assert (H32 : forall o, 0 <= o <= 124 -> is_u32 (get32 b o)) by (intros; apply (get_le_bound 4); [done|lia|lia]).
  constructor; cbn; try (apply H32; lia).
  - unfold zlen. rewrite length_decode_words. split; [done|].
    apply decode_words_u32; [by apply Forall_drop|]. rewrite length_drop. unfold zlen in Hl. lia.
  - apply (get_le_bound 1); [done|lia|lia].
  - split; [apply zlen_slice; lia | by apply Forall_slice].
  - split; [apply zlen_slice; lia | by apply Forall_slice].
  - split; [apply zlen_slice; lia | by apply Forall_slice].
Qed.

End Cos.
