(* ===== verification/Ata.v ===== *)
(** The driver of ATA drives (src/fs.c): sectors through the registers of two
    channels, the search for drives at start-up.

    Ports are the class [Ports], words of a sector [DataPorts], the drives of
    AHCI controllers (src/ahci.c) the class [Sata]. What the registers do is
    the class [AtaLaws]: a channel has two drives, takes the registers of a
    request, is busy for a while and then offers or awaits the sector. *)
From S2P Require Import Prelude Disk CosData.
From stdpp Require Import base list gmap numbers.
From Stdlib Require Import ZArith Lia.
Import Drives Cos.
Open Scope Z_scope.

(** [insw] and [outsw]: words, as bytes. *)
Class DataPorts (P : Type) := { insw : Z -> Z -> st P (list Z); outsw : Z -> list Z -> st P unit }.
Class Sata (P : Type) := {
  (** one sector of a drive; [None] is an error *)
  ahci_read_sectors : Z -> Z -> st P (option sector);
  ahci_write_sectors : Z -> Z -> sector -> st P unit;
  ahci_device_count : P -> Z;
  (** [sector_count] of a SATA disk that is present, 0 for other devices *)
  sata_sectors : Z -> P -> Z;
}.

Module Ata.

Definition ATA_REG_DATA : Z := 0.
Definition ATA_REG_SECCOUNT : Z := 2.
Definition ATA_REG_LBA0 : Z := 3.
Definition ATA_REG_LBA1 : Z := 4.
Definition ATA_REG_LBA2 : Z := 5.
Definition ATA_REG_DRIVE : Z := 6.
Definition ATA_REG_STATUS : Z := 7.
Definition ATA_REG_CMD : Z := 7.
Definition ATA_CMD_READ : Z := 0x20.
Definition ATA_CMD_WRITE : Z := 0x30.
Definition ATA_PRIMARY : Z := 0x1F0.
Definition ATA_SECONDARY : Z := 0x170.
(** [timeout] *)
Definition POLLS : nat := Z.to_nat 1000000.

Section driver.
Context {P : Type} `{Ports P} `{DataPorts P} `{Sata P}.
Record ata := mk_ata { current_ata_base : Z; current_is_slave : Z; ports : P }.
#[local] Abbreviation M := (st ata).
Definition io {R} (m : st P R) : M R := fun s => let (r, p) := m (ports s) in (r, mk_ata (current_ata_base s) (current_is_slave s) p).

Definition no_drive_status (v : Z) : bool := (v =? 0) || (v =? 0xFF).
(** Whether the flag [bit] takes the value in time. *)
Fixpoint poll (n : nat) (base bit : Z) (want : bool) : st P bool :=
  match n with
  | O => mret false
  | S n =>
      status ← inb (base + ATA_REG_STATUS);
      if no_drive_status status then mret false
      else if Bool.eqb (Z.testbit status bit) want then mret true else poll n base bit want
  end.
Definition ata_wait_busy (base : Z) : st P bool := poll POLLS base 7 false.
Definition ata_wait_drq (base : Z) : st P bool := poll POLLS base 3 true.
(** The status read four times, for the time it takes. *)
Definition settle (base : Z) : st P unit := ffor 4 0 (fun _ => _ ← inb (base + ATA_REG_STATUS); mret tt).
(** The registers of a request for one sector: whether the drive awaits its command. *)
Definition request (base slave lba cmd : Z) : st P bool :=
  outb (base + ATA_REG_DRIVE) (Z.lor (if slave =? 0 then 0xE0 else 0xF0) (Z.land (Z.shiftr lba 24) 0x0F));;
  settle base;;
  ok ← ata_wait_busy base;
  if negb (ok : bool) then mret false else
  outb (base + ATA_REG_SECCOUNT) 1;;
  outb (base + ATA_REG_LBA0) (Z.land lba 0xFF);;
  outb (base + ATA_REG_LBA1) (Z.land (Z.shiftr lba 8) 0xFF);;
  outb (base + ATA_REG_LBA2) (Z.land (Z.shiftr lba 16) 0xFF);;
  outb (base + ATA_REG_CMD) cmd;;
  ata_wait_drq base.
Definition block_read (lba : Z) : M sector :=
  s ← gets (fun s => s);
  let base := current_ata_base s in
  if base =? SATA_DRIVE_MARKER then o ← io (ahci_read_sectors (current_is_slave s) lba); mret (default zero_sector o) else
  ok ← io (request base (current_is_slave s) lba ATA_CMD_READ);
  if (ok : bool) then io (insw (base + ATA_REG_DATA) (SECTOR_SIZE / 2)) else mret zero_sector.
Definition block_write (lba : Z) (buf : sector) : M unit :=
  s ← gets (fun s => s);
  let base := current_ata_base s in
  if base =? SATA_DRIVE_MARKER then io (ahci_write_sectors (current_is_slave s) lba buf) else
  ok ← io (request base (current_is_slave s) lba ATA_CMD_WRITE);
  when (ok : bool) (io (outsw (base + ATA_REG_DATA) buf)).
Fixpoint await_drive (n : nat) (base : Z) : st P unit :=
  match n with
  | O => mret tt
  | S n => status ← inb (base + ATA_REG_STATUS); if no_drive_status status || negb (Z.testbit status 7) then mret tt else await_drive n base
  end.
Definition select_drive (base slave : Z) : M unit :=
  modify (fun s => mk_ata base slave (ports s));;
  if base =? SATA_DRIVE_MARKER then mret tt else
  io (outb (base + ATA_REG_DRIVE) (u8 (Z.lor 0xA0 (Z.shiftl slave 4)));; settle base;; await_drive POLLS base).

(** ** The search for drives *)

Definition ata_get_total_sectors_dev (base is_slave : Z) : st P Z :=
  outb (base + ATA_REG_DRIVE) (if is_slave =? 0 then 0xA0 else 0xB0);;
  settle base;;
  outb (base + ATA_REG_SECCOUNT) 0;;
  outb (base + ATA_REG_LBA0) 0;;
  outb (base + ATA_REG_LBA1) 0;;
  outb (base + ATA_REG_LBA2) 0;;
  outb (base + ATA_REG_CMD) 0xEC;;
  status ← inb (base + ATA_REG_STATUS);
  if no_drive_status status then mret 0 else
  ok ← ata_wait_busy base;
  if negb (ok : bool) then mret 0 else
  status ← inb (base + ATA_REG_STATUS);
  if Z.testbit status 0 then mret 0 else
  ok ← ata_wait_drq base;
  if negb (ok : bool) then mret 0 else
  id ← insw (base + ATA_REG_DATA) 256;
  mret (Z.lor (Z.shiftl (get_le 2 id 122) 16) (get_le 2 id 120)).
(** The drives found so far: [ata_base], [is_slave], [total_sectors] of [g_drives]. *)
Definition drive_list : Type := list (Z * Z * Z).
Definition ata_probe (found : drive_list) (at_ : Z * Z) : st P drive_list :=
  let (base, s) := at_ in
  if negb (zlen found <? MAX_DRIVES) then mret found else
  status ← inb (base + 7);
  if status =? 0xFF then mret found else
  sectors ← ata_get_total_sectors_dev base s;
  mret (if (0 <? sectors) && (sectors <? 0xFFFFFFF) then found ++ [(base, s, sectors)] else found).
Definition sata_probe (p : P) (found : drive_list) (i : Z) : drive_list :=
  if negb (zlen found <? MAX_DRIVES) || (sata_sectors i p =? 0) then found
  else found ++ [(SATA_DRIVE_MARKER, u8 i, if 0xFFFFFFFE <? sata_sectors i p then 0xFFFFFFFE else sata_sectors i p)].
Fixpoint probe_all (l : list (Z * Z)) (found : drive_list) : st P drive_list :=
  match l with [] => mret found | x :: l => found ← ata_probe found x; probe_all l found end.
Definition drives : st P drive_list :=
  found ← probe_all [(ATA_PRIMARY, 0); (ATA_PRIMARY, 1); (ATA_SECONDARY, 0); (ATA_SECONDARY, 1)] [];
  gets (fun p => foldl (sata_probe p) found (seqZ 0 (ahci_device_count p))).
End driver.
Arguments ata P : clear implicits.
End Ata.

(** ** What the registers do *)

Definition is_channel (b : Z) : Prop := b = Ata.ATA_PRIMARY \/ b = Ata.ATA_SECONDARY.
(** A channel offers a sector, awaits one, or neither. *)
Inductive phase := Idle | DataIn (b : sector) | DataOut (l : Z).
Record channel := mk_channel {
  ch_drive : bool -> option drive; ch_sel : bool; ch_head : Z; ch_count : Z; ch_lba0 : Z; ch_lba1 : Z; ch_lba2 : Z; ch_phase : phase;
  (** for how many reads of the status it is still busy *)
  ch_busy : nat;
}.
Definition chosen (c : channel) : option drive := ch_drive c (ch_sel c).
Definition ch_lba (c : channel) : Z := ch_lba0 c + 2 ^ 8 * ch_lba1 c + 2 ^ 16 * ch_lba2 c + 2 ^ 24 * ch_head c.
Definition set_busy (n : nat) (c : channel) : channel := mk_channel (ch_drive c) (ch_sel c) (ch_head c) (ch_count c) (ch_lba0 c) (ch_lba1 c) (ch_lba2 c) (ch_phase c) n.
Definition set_phase (ph : phase) (c : channel) : channel := mk_channel (ch_drive c) (ch_sel c) (ch_head c) (ch_count c) (ch_lba0 c) (ch_lba1 c) (ch_lba2 c) ph (ch_busy c).
Definition set_device (sl : bool) (head : Z) (c : channel) : channel := mk_channel (ch_drive c) sl head (ch_count c) (ch_lba0 c) (ch_lba1 c) (ch_lba2 c) (ch_phase c) (ch_busy c).
Definition set_register (r v : Z) (c : channel) : channel :=
  mk_channel (ch_drive c) (ch_sel c) (ch_head c) (if r =? 2 then v else ch_count c) (if r =? 3 then v else ch_lba0 c) (if r =? 4 then v else ch_lba1 c) (if r =? 5 then v else ch_lba2 c) (ch_phase c) (ch_busy c).
Definition set_chosen (x : drive) (c : channel) : channel :=
  mk_channel (fun sl => if Bool.eqb sl (ch_sel c) then Some x else ch_drive c sl) (ch_sel c) (ch_head c) (ch_count c) (ch_lba0 c) (ch_lba1 c) (ch_lba2 c) (ch_phase c) (ch_busy c).
Definition drive_read (x : drive) (l : Z) : sector := default zero_sector (d_secs x !! l).
Definition drive_write (x : drive) (l : Z) (b : sector) : drive := mk_drive (d_cap x) (<[l := b]> (d_secs x)).
(** What a command makes of the drive chosen. *)
Definition started (cmd : Z) (x : drive) (l : Z) : phase :=
  if decide (0 <= l < d_cap x) then (if cmd =? Ata.ATA_CMD_READ then DataIn (drive_read x l) else DataOut l) else Idle.
(** The status: nothing of a drive that is not there; busy; whether data moves. *)
Definition shows (c : channel) (v : Z) : Prop :=
  match chosen c with
  | None => Ata.no_drive_status v = true
  | Some _ => Ata.no_drive_status v = false /\ Z.testbit v 7 = negb (Nat.eqb (ch_busy c) 0) /\
      Z.testbit v 3 = Nat.eqb (ch_busy c) 0 && match ch_phase c with Idle => false | _ => true end
  end.

(** Not busy, as far as the selected drive tells. *)
Definition at_rest (c : channel) : Prop := ch_busy c = 0%nat \/ chosen c = None.
#[export] Instance at_rest_dec c : Decision (at_rest c).
Proof. unfold at_rest. destruct (chosen c); [destruct (decide (ch_busy c = 0%nat)); [left; by left|right; by intros [|]]|left; by right]. Defined.

Class AtaLaws (P : Type) `{Ports P} `{DataPorts P} := {
  chan : P -> Z -> channel;
  status_law : forall p b, is_channel b -> shows (chan p b) (inb (b + 7) p).1 /\
    (forall b', is_channel b' -> chan (inb (b + 7) p).2 b' = if decide (b' = b) then set_busy (pred (ch_busy (chan p b))) (chan p b) else chan p b');
  (** taken by a channel at rest; a busy one may ignore it *)
  device_law : forall p b v, is_channel b -> is_u8 v -> exists (n : nat) (taken : bool), (n < Ata.POLLS)%nat /\ (at_rest (chan p b) -> taken = true) /\
    forall b', is_channel b' -> chan (outb (b + 6) v p).2 b' =
      if decide (b' = b) then (if taken then set_busy n (set_device (Z.testbit v 4) (Z.land v 0x0F) (chan p b)) else chan p b) else chan p b';
  register_law : forall p b r v, is_channel b -> 2 <= r <= 5 -> is_u8 v -> ch_busy (chan p b) = 0%nat ->
    forall b', is_channel b' -> chan (outb (b + r) v p).2 b' = if decide (b' = b) then set_register r v (chan p b) else chan p b';
  command_law : forall p b cmd x, is_channel b -> cmd = Ata.ATA_CMD_READ \/ cmd = Ata.ATA_CMD_WRITE ->
    chosen (chan p b) = Some x -> ch_busy (chan p b) = 0%nat -> ch_phase (chan p b) = Idle -> ch_count (chan p b) = 1 -> exists n, (n < Ata.POLLS)%nat /\
    forall b', is_channel b' -> chan (outb (b + 7) cmd p).2 b' = if decide (b' = b) then set_busy n (set_phase (started cmd x (ch_lba (chan p b))) (chan p b)) else chan p b';
  insw_law : forall p b s, is_channel b -> ch_busy (chan p b) = 0%nat -> ch_phase (chan p b) = DataIn s ->
    (insw (b + 0) 256 p).1 = s /\ forall b', is_channel b' -> chan (insw (b + 0) 256 p).2 b' = if decide (b' = b) then set_phase Idle (chan p b) else chan p b';
  outsw_law : forall p b x l s, is_channel b -> is_sector s -> ch_busy (chan p b) = 0%nat -> ch_phase (chan p b) = DataOut l -> chosen (chan p b) = Some x -> exists n, (n < Ata.POLLS)%nat /\
    forall b', is_channel b' -> chan (outsw (b + 0) s p).2 b' = if decide (b' = b) then set_busy n (set_phase Idle (set_chosen (drive_write x l s) (chan p b))) else chan p b';
}.

Module AtaProps.
Import Ata.

Section laws.
Context {P : Type} {HP : Ports P} {HD : DataPorts P} {HL : AtaLaws P}.
Implicit Types p : P.

(** All that differs is channel [b], which is now [c]. *)
Definition becomes (p : P) (b : Z) (c : channel) (p' : P) : Prop := forall b', is_channel b' -> chan p' b' = if decide (b' = b) then c else chan p b'.
Lemma becomes_chan p b c p' : is_channel b -> becomes p b c p' -> chan p' b = c.
Proof. intros Hb Hc. rewrite (Hc b Hb). by rewrite decide_True. Qed.
Lemma becomes_trans p1 p2 p3 b c c' : becomes p1 b c p2 -> becomes p2 b c' p3 -> becomes p1 b c' p3.
Proof. intros H1 H2 b' Hb'. rewrite (H2 b' Hb'). case_decide; [done|]. rewrite (H1 b' Hb'). by rewrite decide_False. Qed.
(** Only time has passed. *)
Definition waits (p : P) (b : Z) (p' : P) : Prop := exists k, (k <= ch_busy (chan p b))%nat /\ becomes p b (set_busy k (chan p b)) p'.
Lemma waits_trans p1 p2 p3 b : is_channel b -> waits p1 b p2 -> waits p2 b p3 -> waits p1 b p3.
Proof.
  intros Hb (k & Hk & H1) (k' & Hk' & H2). rewrite (becomes_chan _ _ _ _ Hb H1) in Hk', H2. cbn in Hk'. exists k'. split; [lia|].
  eapply becomes_trans; [exact H1|exact H2].
Qed.
Lemma waits_refl p b : waits p b p.
Proof. exists (ch_busy (chan p b)). split; [done|]. intros b' _. case_decide; [subst; by destruct (chan p b)|done]. Qed.
Lemma status_waits p b : is_channel b -> waits p b (inb (b + 7) p).2.
Proof. intros Hb. exists (pred (ch_busy (chan p b))). split; [lia|]. exact (proj2 (status_law p b Hb)). Qed.
Lemma settle_waits p b : is_channel b -> waits p b (settle b p).2.
Proof.
  intros Hb. unfold settle. apply (ffor_inv (fun _ p' => waits p b p')); [apply waits_refl|]. intros j p' _ Hw. munfold.
  eapply waits_trans; [done|exact Hw|]. unfold ATA_REG_STATUS. pose proof (status_waits p' b Hb) as Hs. by destruct (inb (b + 7) p').
Qed.
Lemma chosen_waits p b p' : is_channel b -> waits p b p' -> chosen (chan p' b) = chosen (chan p b) /\ ch_phase (chan p' b) = ch_phase (chan p b) /\ (ch_busy (chan p' b) <= ch_busy (chan p b))%nat.
Proof. intros Hb (k & Hk & Hc). by rewrite (becomes_chan _ _ _ _ Hb Hc). Qed.

(** The polls: no drive; the drive ready in time; no data to come. *)
Lemma poll_absent n p b bit want : is_channel b -> chosen (chan p b) = None -> (poll n b bit want p).1 = false /\ waits p b (poll n b bit want p).2.
Proof.
  intros Hb Hn. destruct n as [|n]; cbn [poll]; [split; [done|apply waits_refl]|]. munfold. unfold ATA_REG_STATUS.
  pose proof (status_law p b Hb) as [Hs _]. pose proof (status_waits p b Hb) as Hw. destruct (inb (b + 7) p) as [v p']. unfold shows in Hs. rewrite Hn in Hs. cbn in Hs. by rewrite Hs.
Qed.
Lemma poll_present n p b bit want x : is_channel b -> chosen (chan p b) = Some x -> (ch_busy (chan p b) < n)%nat ->
  (bit = 7 /\ want = false \/ bit = 3 /\ want = true /\ ch_phase (chan p b) <> Idle) ->
  (poll n b bit want p).1 = true /\ becomes p b (set_busy 0 (chan p b)) (poll n b bit want p).2.
Proof.
  intros Hb. revert p. induction n as [|n IH]; intros p Hx Hn Hbit; [lia|]. cbn [poll]. munfold. unfold ATA_REG_STATUS.
  pose proof (status_law p b Hb) as [Hs Hc]. destruct (inb (b + 7) p) as [v p']. unfold shows in Hs. rewrite Hx in Hs. cbn [fst snd] in Hs, Hc. destruct Hs as (-> & H7 & H3).
  destruct (ch_busy (chan p b)) as [|k] eqn:Ek; cbn [Nat.eqb negb andb Nat.pred] in H7, H3, Hc.
  - replace (Bool.eqb (Z.testbit v bit) want) with true; [by split|]. destruct Hbit as [[-> ->]|(-> & -> & Hp)]; [by rewrite H7|]. rewrite H3. by destruct (ch_phase (chan p b)).
  - replace (Bool.eqb (Z.testbit v bit) want) with false; [|destruct Hbit as [[-> ->]|(-> & -> & Hp)]; [by rewrite H7|by rewrite H3]].
    pose proof (becomes_chan _ _ _ _ Hb Hc) as Ec. destruct (IH p') as [-> Hb']; [by rewrite Ec|rewrite Ec; cbn; lia|by rewrite Ec|].
    split; [done|]. rewrite Ec in Hb'. eapply becomes_trans; [exact Hc|exact Hb'].
Qed.
(** After [n] reads of the status a channel has been busy [n] reads less. *)
Lemma poll_no_data n p b x : is_channel b -> chosen (chan p b) = Some x -> ch_phase (chan p b) = Idle ->
  (poll n b 3 true p).1 = false /\ becomes p b (set_busy (ch_busy (chan p b) - n) (chan p b)) (poll n b 3 true p).2.
Proof.
  intros Hb. revert p. induction n as [|n IH]; intros p Hx Hp; cbn [poll].
  { split; [done|]. rewrite Nat.sub_0_r. munfold. cbn [snd]. intros b' _. case_decide; [subst; by destruct (chan p b)|done]. }
  munfold. unfold ATA_REG_STATUS. pose proof (status_law p b Hb) as [Hs Hc]. destruct (inb (b + 7) p) as [v p']. unfold shows in Hs. rewrite Hx, Hp in Hs.
  cbn [fst snd] in Hs, Hc. destruct Hs as (-> & _ & ->). rewrite andb_false_r. cbn [Bool.eqb]. pose proof (becomes_chan _ _ _ _ Hb Hc) as Ec.
  destruct (IH p') as [-> Hb']; [by rewrite Ec|by rewrite Ec|]. split; [done|]. rewrite Ec in Hb'. cbn [ch_busy set_busy] in Hb'.
  replace (pred (ch_busy (chan p b)) - n)%nat with (ch_busy (chan p b) - S n)%nat in Hb' by lia. eapply becomes_trans; [exact Hc|exact Hb'].
Qed.

(** The registers that hold a request. *)
Lemma device_byte slave l : 0 <= slave <= 1 -> 0 <= l < 2 ^ 28 -> let v := Z.lor (if slave =? 0 then 0xE0 else 0xF0) (Z.land (Z.shiftr l 24) 0x0F) in
  is_u8 v /\ Z.testbit v 4 = negb (slave =? 0) /\ Z.land v 0x0F = l / 2 ^ 24.
Proof.
  intros Hs Hl. change 0x0F with (Z.ones 4). rewrite Z.land_ones, Z.shiftr_div_pow2 by lia. rewrite (Z.mod_small (l / 2 ^ 24)) by (split; [apply Z.div_pos; lia|apply Z.div_lt_upper_bound; lia]).
  assert (HF : Forall (fun h => Forall (fun s => let v := Z.lor (if s =? 0 then 0xE0 else 0xF0) h in is_u8 v /\ Z.testbit v 4 = negb (s =? 0) /\ Z.land v (Z.ones 4) = h) [0; 1]) (seqZ 0 16)).
  { repeat (apply list.Forall_cons; split; [repeat (apply list.Forall_cons; split; [cbv zeta; vfacts|]); done|]). done. }
  assert (Hh : l / 2 ^ 24 ∈ seqZ 0 16) by (apply elem_of_seqZ; split; [apply Z.div_pos; lia|apply Z.div_lt_upper_bound; lia]).
  assert (Hsl : slave ∈ [0; 1]) by (assert (slave = 0 \/ slave = 1) as [-> | ->] by lia; vdec).
  exact (proj1 (list.Forall_forall _ _) (proj1 (list.Forall_forall _ _) HF _ Hh) _ Hsl).
Qed.
Lemma lba_bytes l : 0 <= l < 2 ^ 28 -> is_u8 (Z.land l 0xFF) /\ is_u8 (Z.land (Z.shiftr l 8) 0xFF) /\ is_u8 (Z.land (Z.shiftr l 16) 0xFF) /\
  Z.land l 0xFF + 2 ^ 8 * Z.land (Z.shiftr l 8) 0xFF + 2 ^ 16 * Z.land (Z.shiftr l 16) 0xFF + 2 ^ 24 * (l / 2 ^ 24) = l.
Proof. intros Hl. change 0xFF with (Z.ones 8). rewrite !Z.land_ones, !Z.shiftr_div_pow2 by lia. unfold is_u8. change (2 ^ 8) with 256. change (2 ^ 16) with 65536. change (2 ^ 24) with 16777216. repeat split; try zdm. Qed.
(** The drive and the high bits of the sector number are in place, or will be taken. *)
Definition fits (c : channel) (sl : bool) (h : Z) : Prop := at_rest c \/ ch_sel c = sl /\ ch_head c = h.
Lemma device_fits p b v sl h : is_channel b -> is_u8 v -> Z.testbit v 4 = sl -> Z.land v 0x0F = h -> fits (chan p b) sl h -> (ch_busy (chan p b) < POLLS)%nat ->
  exists n, (n < POLLS)%nat /\ becomes p b (set_busy n (set_device sl h (chan p b))) (outb (b + 6) v p).2.
Proof.
  intros Hb Hv Hsl Hh Hf Hz. destruct (device_law p b v Hb Hv) as (n & [|] & Hn & Ht & Hc); [exists n; by rewrite Hsl, Hh in Hc|].
  destruct Hf as [Hr|[<- <-]]; [by specialize (Ht Hr)|]. exists (ch_busy (chan p b)). split; [done|]. intros b' Hb'. rewrite (Hc b' Hb').
  case_decide; [|done]. by destruct (chan p b).
Qed.
Lemma request_spec p b slave l cmd : is_channel b -> 0 <= slave <= 1 -> 0 <= l < 2 ^ 28 -> cmd = ATA_CMD_READ \/ cmd = ATA_CMD_WRITE -> ch_phase (chan p b) = Idle ->
  fits (chan p b) (negb (slave =? 0)) (l / 2 ^ 24) -> (ch_busy (chan p b) < POLLS)%nat ->
  let r := request b slave l cmd p in let sl := negb (slave =? 0) in
  exists c, becomes p b c r.2 /\ ch_drive c = ch_drive (chan p b) /\ ch_sel c = sl /\ ch_head c = l / 2 ^ 24 /\ (ch_busy c < POLLS)%nat /\ at_rest c /\
  match ch_drive (chan p b) sl with
  | Some x => if decide (0 <= l < d_cap x) then r.1 = true /\ ch_busy c = 0%nat /\ ch_phase c = started cmd x l else r.1 = false /\ ch_phase c = Idle
  | None => r.1 = false /\ ch_phase c = Idle
  end.
Proof.
  intros Hb Hs Hl Hcmd Hp Hfit Hz0. destruct (device_byte slave l Hs Hl) as (Hv & Hsl & Hh). destruct (lba_bytes l Hl) as (Hl0 & Hl1 & Hl2 & Elba).
  unfold request. unfold mbind, st_bind. unfold ATA_REG_DRIVE. destruct (device_fits p b _ _ _ Hb Hv Hsl Hh Hfit Hz0) as (n1 & Hn1 & H1).
  destruct (outb (b + 6) _ p) as [u1 p1]. cbn [snd] in H1. pose proof (settle_waits p1 b Hb) as Hw. destruct (settle b p1) as [u2 p2]. cbn [snd] in Hw.
  destruct Hw as (k & Hk & H2). rewrite (becomes_chan _ _ _ _ Hb H1) in Hk, H2. cbn in Hk. pose proof (becomes_trans _ _ _ _ _ _ H1 H2) as H12. clear H1 H2 p1.
  set (c2 := set_busy k _) in H12. pose proof (becomes_chan _ _ _ _ Hb H12) as E2. unfold ata_wait_busy.
  destruct (ch_drive (chan p b) (negb (slave =? 0))) as [x|] eqn:Ex.
  2:{ destruct (poll_absent POLLS p2 b 7 false Hb) as [Hr (k' & Hk' & H3)]; [by rewrite E2|]. rewrite E2 in Hk', H3. cbn in Hk'.
      destruct (poll POLLS b 7 false p2) as [r p3]. cbn [fst snd] in Hr, H3. subst r. cbn [negb]. exists (set_busy k' c2). cbn. split; [by eapply becomes_trans|]. repeat split; [lia|by right|done]. }
  destruct (poll_present POLLS p2 b 7 false x Hb) as [Hr H3]; [by rewrite E2|rewrite E2; cbn; lia|by left|]. rewrite E2 in H3.
  destruct (poll POLLS b 7 false p2) as [r p3]. cbn [fst snd] in Hr, H3. subst r. cbn [negb]. pose proof (becomes_trans _ _ _ _ _ _ H12 H3) as H13. clear H12 H3 E2 p2.
  unfold ATA_REG_SECCOUNT, ATA_REG_LBA0, ATA_REG_LBA1, ATA_REG_LBA2, ATA_REG_CMD, ata_wait_drq.
  assert (Hreg : forall p' c r v, becomes p b c p' -> ch_busy c = 0%nat -> 2 <= r <= 5 -> is_u8 v -> becomes p b (set_register r v c) (outb (b + r) v p').2).
  { intros p' c r v Hc Hbz Hr Hu. pose proof (becomes_chan _ _ _ _ Hb Hc) as E. eapply becomes_trans; [exact Hc|]. rewrite <- E. exact (register_law p' b r v Hb Hr Hu (eq_trans (f_equal ch_busy E) Hbz)). }
  apply (Hreg _ _ 2 1) in H13; [|done|done|by vm_compute]. destruct (outb (b + 2) 1 p3) as [u4 p4]. cbn [snd] in H13.
  apply (Hreg _ _ 3 (Z.land l 0xFF)) in H13 as H14; [|done|done|exact Hl0]. destruct (outb (b + 3) _ p4) as [u5 p5]. cbn [snd] in H14.
  apply (Hreg _ _ 4 (Z.land (Z.shiftr l 8) 0xFF)) in H14 as H15; [|done|done|exact Hl1]. destruct (outb (b + 4) _ p5) as [u6 p6]. cbn [snd] in H15.
  apply (Hreg _ _ 5 (Z.land (Z.shiftr l 16) 0xFF)) in H15 as H16; [|done|done|exact Hl2]. destruct (outb (b + 5) _ p6) as [u7 p7]. cbn [snd] in H16.
  pose proof (becomes_chan _ _ _ _ Hb H16) as E7. set (c7 := set_register 5 _ _) in H16, E7.
  destruct (command_law p7 b cmd x Hb Hcmd) as (n2 & Hn2 & H8); [by rewrite E7|by rewrite E7|by rewrite E7|by rewrite E7|].
  rewrite E7 in H8. replace (ch_lba c7) with l in H8 by (rewrite <- Elba at 1; done). destruct (outb (b + 7) cmd p7) as [u9 p8]. cbn [snd] in H8.
  pose proof (becomes_trans _ _ _ _ _ _ H16 H8) as H18. set (c8 := set_busy n2 _) in H18. pose proof (becomes_chan _ _ _ _ Hb H18) as E8. unfold started in c8.
  destruct (decide (0 <= l < d_cap x)) as [Hr|Hr].
  - destruct (poll_present POLLS p8 b 3 true x Hb) as [Ht H9]; [by rewrite E8|rewrite E8; cbn; lia|right; rewrite E8; cbn; by destruct (cmd =? _)|].
    rewrite E8 in H9. exists (set_busy 0 c8). split; [by eapply becomes_trans|]. repeat split; [unfold POLLS; cbn; lia|by left|done|]. unfold started. by rewrite decide_True.
  - destruct (poll_no_data POLLS p8 b x Hb) as [Ht H9]; [by rewrite E8|by rewrite E8|].
    rewrite E8 in H9. cbn [ch_busy set_busy c8] in H9. replace (n2 - POLLS)%nat with 0%nat in H9 by lia.
    exists (set_busy 0 c8). split; [by eapply becomes_trans|]. repeat split; [unfold POLLS; cbn; lia|by left|done].
Qed.
Lemma request_ready p b slave l cmd x : is_channel b -> 0 <= slave <= 1 -> 0 <= l < 2 ^ 28 -> cmd = ATA_CMD_READ \/ cmd = ATA_CMD_WRITE -> ch_phase (chan p b) = Idle ->
  fits (chan p b) (negb (slave =? 0)) (l / 2 ^ 24) -> (ch_busy (chan p b) < POLLS)%nat ->
  ch_drive (chan p b) (negb (slave =? 0)) = Some x -> 0 <= l < d_cap x ->
  exists c p', request b slave l cmd p = (true, p') /\ becomes p b c p' /\ ch_drive c = ch_drive (chan p b) /\ chosen c = Some x /\ ch_sel c = negb (slave =? 0) /\ ch_head c = l / 2 ^ 24 /\ ch_busy c = 0%nat /\ ch_phase c = started cmd x l.
Proof.
  intros Hb Hs Hl Hcmd Hp Hfit Hz Hx Hr. destruct (request_spec p b slave l cmd Hb Hs Hl Hcmd Hp Hfit Hz) as (c & Hc & Hd & Hsl & Hh & _ & _ & Hm). rewrite Hx, decide_True in Hm by done. destruct Hm as (Ht & Hz' & Hph).
  exists c, (request b slave l cmd p).2. destruct (request b slave l cmd p) as [r p']. cbn [fst snd] in *. subst r. repeat split; try done. unfold chosen. by rewrite Hsl, Hd.
Qed.
Lemma request_refused p b slave l cmd : is_channel b -> 0 <= slave <= 1 -> 0 <= l < 2 ^ 28 -> cmd = ATA_CMD_READ \/ cmd = ATA_CMD_WRITE -> ch_phase (chan p b) = Idle ->
  fits (chan p b) (negb (slave =? 0)) (l / 2 ^ 24) -> (ch_busy (chan p b) < POLLS)%nat ->
  (forall x, ch_drive (chan p b) (negb (slave =? 0)) = Some x -> ~ 0 <= l < d_cap x) ->
  exists c p', request b slave l cmd p = (false, p') /\ becomes p b c p' /\ ch_drive c = ch_drive (chan p b) /\ (ch_busy c < POLLS)%nat /\ at_rest c /\ ch_phase c = Idle.
Proof.
  intros Hb Hs Hl Hcmd Hp Hfit Hz0 Hn. destruct (request_spec p b slave l cmd Hb Hs Hl Hcmd Hp Hfit Hz0) as (c & Hc & Hd & _ & _ & Hz & Hrest & Hm). exists c, (request b slave l cmd p).2.
  assert (Hm' : (request b slave l cmd p).1 = false /\ ch_phase c = Idle).
  { destruct (ch_drive (chan p b) _) as [x|]; [|done]. rewrite decide_False in Hm by (by apply Hn). done. }
  destruct Hm' as [Hf Hph]. destruct (request b slave l cmd p) as [r p']. cbn [fst snd] in *. by subst r.
Qed.
Lemma await_rests n p b : is_channel b -> (ch_busy (chan p b) < n)%nat ->
  exists k, (k <= ch_busy (chan p b))%nat /\ becomes p b (set_busy k (chan p b)) (await_drive n b p).2 /\ at_rest (set_busy k (chan p b)).
Proof.
  intros Hb. revert p. induction n as [|n IH]; intros p Hn; [lia|]. cbn [await_drive]. munfold. unfold ATA_REG_STATUS.
  pose proof (status_law p b Hb) as [Hs Hc]. destruct (inb (b + 7) p) as [v p']. unfold shows in Hs. cbn [fst snd] in Hs, Hc. destruct (chosen (chan p b)) as [x|] eqn:Ex.
  2:{ rewrite Hs. cbn [orb]. exists (pred (ch_busy (chan p b))). split; [lia|]. split; [exact Hc|by right]. }
  destruct Hs as (-> & H7 & _). rewrite H7. destruct (ch_busy (chan p b)) as [|k] eqn:Ek; cbn [Nat.eqb negb orb Nat.pred] in *.
  { exists 0%nat. split; [done|]. split; [exact Hc|by left]. }
  pose proof (becomes_chan _ _ _ _ Hb Hc) as Ec. destruct (IH p') as (k' & Hk' & H1 & H2); [rewrite Ec; cbn; lia|]. rewrite Ec in Hk', H1, H2. cbn in Hk'.
  exists k'. split; [lia|]. split; [eapply becomes_trans; [exact Hc|exact H1]|exact H2].
Qed.

(** *** The drives of the interface [BlockDev] *)

Context {HS : Sata P}.
(** The registers hold the drives [d], and no request is under way. The
    current channel is at rest, or still takes the sector just written, to a
    sector number with the high bits [last], on the current drive. *)
Record holds (last : option Z) (d : Drives.drives) (s : ata P) : Prop := {
  h_sel : sel d = (current_ata_base s, current_is_slave s);
  h_base : is_channel (current_ata_base s);
  h_slave : 0 <= current_is_slave s <= 1;
  h_chan : forall b, is_channel b -> ch_phase (chan (ports s) b) = Idle /\ (ch_busy (chan (ports s) b) < POLLS)%nat /\
    forall sl : bool, ch_drive (chan (ports s) b) sl = bank d !! (b, Z.b2z sl);
  h_last : let c := chan (ports s) (current_ata_base s) in
    match last with None => at_rest c | Some h => fits c (negb (current_is_slave s =? 0)) h end;
}.
(** The sector [l] may be accessed next. *)
Definition near (last : option Z) (l : Z) : Prop := match last with None => True | Some h => l / 2 ^ 24 = h end.
Lemma near_fits last d s l : holds last d s -> near last l -> fits (chan (ports s) (current_ata_base s)) (negb (current_is_slave s =? 0)) (l / 2 ^ 24).
Proof. intros H Hn. pose proof (h_last _ _ _ H) as Hl. destruct last as [h|]; [cbn in Hn; by subst h|by left]. Qed.
Lemma channel_not_sata b : is_channel b -> (b =? SATA_DRIVE_MARKER) = false.
Proof. by intros [-> | ->]. Qed.
Lemma slave_bit z : 0 <= z <= 1 -> Z.b2z (negb (z =? 0)) = z.
Proof. intros H. assert (z = 0 \/ z = 1) as [-> | ->] by lia; done. Qed.
(** A channel that is left idle with the drives it had. *)
Lemma holds_kept last last' d s c p' : holds last d s -> becomes (ports s) (current_ata_base s) c p' -> ch_phase c = Idle -> (ch_busy c < POLLS)%nat ->
  ch_drive c = ch_drive (chan (ports s) (current_ata_base s)) -> at_rest c -> holds last' d (mk_ata (current_ata_base s) (current_is_slave s) p').
Proof.
  intros [Hs Hb Hsl Hc _] Hbc Hp Hz Hd Hr. split; [done..| |].
  2:{ cbn. rewrite (becomes_chan _ _ _ _ Hb Hbc). destruct last'; [by left|done]. }
  cbn. intros b Hb'. rewrite (Hbc b Hb'). case_decide as E; [|by apply Hc].
  subst b. rewrite Hd. destruct (Hc _ Hb) as (_ & _ & H). done.
Qed.
Lemma holds_cur last d s : holds last d s -> bank d !! sel d = ch_drive (chan (ports s) (current_ata_base s)) (negb (current_is_slave s =? 0)).
Proof. intros H. destruct (h_chan _ _ _ H _ (h_base _ _ _ H)) as (_ & _ & ->). by rewrite (h_sel _ _ _ H), slave_bit by apply (h_slave _ _ _ H). Qed.
Lemma served (o : option drive) l : (exists x, o = Some x /\ 0 <= l < d_cap x) \/ (forall x, o = Some x -> ~ 0 <= l < d_cap x).
Proof. destruct o as [x|]; [|by right]. destruct (decide (0 <= l < d_cap x)); [left; by exists x|right; by intros ? [= <-]]. Qed.
Lemma block_read_holds last d s l : holds last d s -> near last l -> 0 <= l < 2 ^ 28 -> (block_read l s).1 = Drives.read d l /\ holds None d (block_read l s).2.
Proof.
  intros H Hnear Hl. pose proof (holds_cur _ _ _ H) as Hcur. pose proof (near_fits _ _ _ _ H Hnear) as Hfit. destruct (h_chan _ _ _ H _ (h_base _ _ _ H)) as (Hp & Hbz & _).
  unfold block_read, io. munfold. rewrite (channel_not_sata _ (h_base _ _ _ H)). unfold Drives.read, cur. rewrite Hcur.
  set (o := ch_drive (chan _ _) _) in *.
  destruct (served o l) as [(x & Ex & Hr)|Hn].
  - rewrite Ex. cbn [default]. rewrite decide_True by done.
    destruct (request_ready (ports s) (current_ata_base s) (current_is_slave s) l ATA_CMD_READ x (h_base _ _ _ H) (h_slave _ _ _ H) Hl (or_introl eq_refl) Hp Hfit Hbz Ex Hr) as (c & p' & Eq & Hc & Hd & Hx & _ & _ & Hz & Hph).
    rewrite Eq. cbn [current_ata_base current_is_slave ports]. unfold started in Hph. rewrite decide_True in Hph by done. cbn [Z.eqb ATA_CMD_READ] in Hph.
    pose proof (becomes_chan _ _ _ _ (h_base _ _ _ H) Hc) as Ec. destruct (insw_law p' (current_ata_base s) (drive_read x l) (h_base _ _ _ H)) as [Er Hi]; [by rewrite Ec|by rewrite Ec|].
    rewrite Ec in Hi. unfold ATA_REG_DATA. change (SECTOR_SIZE / 2) with 256. destruct (insw (current_ata_base s + 0) 256 p') as [r p2]. cbn [fst snd] in Er, Hi. subst r. split; [done|]. cbn [snd].
    eapply holds_kept; [done|by eapply becomes_trans|done|cbn; rewrite Hz; apply Nat.ltb_lt; by vm_compute|done|by left].
  - destruct (request_refused (ports s) (current_ata_base s) (current_is_slave s) l ATA_CMD_READ (h_base _ _ _ H) (h_slave _ _ _ H) Hl (or_introl eq_refl) Hp Hfit Hbz Hn) as (c & p' & Eq & Hc & Hd & Hz & Hrest & Hph).
    rewrite Eq. cbn [fst snd]. split; [|by eapply holds_kept]. destruct o as [x|]; cbn [default].
    + by rewrite decide_False by (by apply Hn).
    + by case_decide.
Qed.
Lemma set_chosen_drive x c sl : ch_drive (set_chosen x c) sl = if Bool.eqb sl (ch_sel c) then Some x else ch_drive c sl.
Proof. done. Qed.
Lemma block_write_holds last d s l b : holds last d s -> near last l -> 0 <= l < 2 ^ 28 -> is_sector b ->
  holds (Some (l / 2 ^ 24)) (Drives.write l b d) (block_write l b s).2.
Proof.
  intros H Hnear Hl Hb. pose proof (holds_cur _ _ _ H) as Hcur. pose proof (near_fits _ _ _ _ H Hnear) as Hfit. destruct (h_chan _ _ _ H _ (h_base _ _ _ H)) as (Hp & Hbz & _).
  unfold block_write, io. munfold. rewrite (channel_not_sata _ (h_base _ _ _ H)). unfold Drives.write, cur. rewrite Hcur.
  set (o := ch_drive (chan _ _) _) in *.
  destruct (served o l) as [(x & Ex & Hr)|Hn].
  - rewrite Ex. cbn [default]. rewrite decide_True by done.
    destruct (request_ready (ports s) (current_ata_base s) (current_is_slave s) l ATA_CMD_WRITE x (h_base _ _ _ H) (h_slave _ _ _ H) Hl (or_intror eq_refl) Hp Hfit Hbz Ex Hr) as (c & p' & Eq & Hc & Hd & Hx & Hsl & Hhd & Hz & Hph).
    rewrite Eq. cbn [current_ata_base current_is_slave ports when]. unfold started in Hph. rewrite decide_True in Hph by done. cbn [Z.eqb ATA_CMD_READ ATA_CMD_WRITE Pos.eqb] in Hph.
    pose proof (becomes_chan _ _ _ _ (h_base _ _ _ H) Hc) as Ec. destruct (outsw_law p' (current_ata_base s) x l b (h_base _ _ _ H) Hb) as (n & Hn & Ho); [by rewrite Ec|by rewrite Ec|by rewrite Ec|].
    rewrite Ec in Ho. unfold ATA_REG_DATA. destruct (outsw (current_ata_base s + 0) b p') as [r p2]. cbn [snd] in Ho |- *. pose proof (becomes_trans _ _ _ _ _ _ Hc Ho) as Hco.
    split; [apply H..| |].
    2:{ cbn [ports current_ata_base current_is_slave]. rewrite (becomes_chan _ _ _ _ (h_base _ _ _ H) Hco). right. by split. }
    cbn [ports bank]. intros b' Hb'. rewrite (Hco b' Hb'). destruct (h_chan _ _ _ H b' Hb') as (Hp' & Hz' & Hd').
    rewrite (h_sel _ _ _ H). case_decide as E.
    + subst b'. split; [done|]. split; [done|]. intros sl. change (ch_drive _ sl) with (ch_drive (set_chosen (drive_write x l b) c) sl). rewrite set_chosen_drive, Hsl, Hd.
      rewrite <- (slave_bit (current_is_slave s)) at 2 by apply (h_slave _ _ _ H). destruct (Bool.eqb sl _) eqn:Eb.
      * apply Bool.eqb_prop in Eb. by rewrite Eb, lookup_insert_eq.
      * rewrite Hd', lookup_insert_ne; [done|]. intros [= Hbb]. by destruct sl, (negb _).
    + split; [done|]. split; [done|]. intros sl. rewrite Hd', lookup_insert_ne; [done|congruence].
  - destruct (request_refused (ports s) (current_ata_base s) (current_is_slave s) l ATA_CMD_WRITE (h_base _ _ _ H) (h_slave _ _ _ H) Hl (or_intror eq_refl) Hp Hfit Hbz Hn) as (c & p' & Eq & Hc & Hd & Hz & Hrest & Hph).
    rewrite Eq. cbn [snd when]. assert (holds (Some (l / 2 ^ 24)) d (mk_ata (current_ata_base s) (current_is_slave s) p')) as HH by (by eapply holds_kept).
    destruct o as [x|]; cbn [default].
    + by rewrite decide_False by (by apply Hn).
    + case_decide as E; [cbn in E; lia|done].
Qed.
Lemma select_holds last d s base slave : holds last d s -> is_channel base -> 0 <= slave <= 1 -> holds None (Drives.select base slave d) (select_drive base slave s).2.
Proof.
  intros H Hb Hsl. unfold select_drive, io. munfold. rewrite (channel_not_sata _ Hb). cbn [current_ata_base current_is_slave ports].
  assert (Hv : is_u8 (u8 (Z.lor 0xA0 (Z.shiftl slave 4)))) by (assert (slave = 0 \/ slave = 1) as [-> | ->] by lia; by vm_compute).
  destruct (h_chan _ _ _ H _ Hb) as (Hp & Hz & Hd). unfold ATA_REG_DRIVE.
  destruct (device_law (ports s) base _ Hb Hv) as (n & taken & Hn & _ & H1). destruct (outb (base + 6) _ (ports s)) as [r p1]. cbn [snd] in H1.
  set (c1 := if taken then _ else _) in H1. assert (Hc1 : ch_drive c1 = ch_drive (chan (ports s) base) /\ ch_phase c1 = Idle /\ (ch_busy c1 < POLLS)%nat) by (unfold c1; by destruct taken).
  clearbody c1. destruct Hc1 as (Hd1 & Hp1 & Hz1).
  pose proof (settle_waits p1 base Hb) as H2. destruct (settle base p1) as [r2 p2]. cbn [snd] in H2.
  destruct H2 as (k & Hk & H2). rewrite (becomes_chan _ _ _ _ Hb H1) in Hk, H2. pose proof (becomes_trans _ _ _ _ _ _ H1 H2) as H12. pose proof (becomes_chan _ _ _ _ Hb H12) as E2.
  destruct (await_rests POLLS p2 base Hb) as (k2 & Hk2 & H3 & Hr); [rewrite E2; cbn; lia|]. destruct (await_drive POLLS base p2) as [r3 p3]. cbn [snd] in H3.
  rewrite E2 in H3, Hk2, Hr. cbn [ch_busy set_busy] in Hk2. pose proof (becomes_trans _ _ _ _ _ _ H12 H3) as H5. split; [done..| |].
  - cbn. intros b' Hb'. rewrite (H5 b' Hb'). case_decide; [subst b'|by apply (h_chan _ _ _ H)]. cbn. split; [done|]. split; [lia|by rewrite Hd1].
  - cbn. rewrite (becomes_chan _ _ _ _ Hb H5). exact Hr.
Qed.

(** Calls on the driver, and what the drives answer. *)
Inductive call := Select (base slave : Z) | Read (lba : Z) | Write (lba : Z) (b : sector).
Definition call_ok (c : call) : Prop :=
  match c with
  | Select base slave => is_channel base /\ 0 <= slave <= 1
  | Read lba => 0 <= lba < 2 ^ 28
  | Write lba b => 0 <= lba < 2 ^ 28 /\ is_sector b
  end.
Definition on_driver (c : call) : st (ata P) (option sector) :=
  match c with
  | Select base slave => select_drive base slave;; mret None
  | Read lba => b ← block_read lba; mret (Some b)
  | Write lba b => block_write lba b;; mret None
  end.
Definition on_drives (c : call) : st Drives.drives (option sector) :=
  fun d => match c with
  | Select base slave => (None, Drives.select base slave d)
  | Read lba => (Some (Drives.read d lba), d)
  | Write lba b => (None, Drives.write lba b d)
  end.
Fixpoint calls {S} (f : call -> st S (option sector)) (l : list call) : st S (list (option sector)) :=
  match l with [] => mret [] | c :: l => r ← f c; rs ← calls f l; mret (r :: rs) end.
(** What a call leaves under way, and which calls may follow: behind a write,
    an access to the same 2^24 sectors (8 GB) of the drive, or a selection,
    which waits for the drive. *)
Definition pending (c : call) : option Z := match c with Write lba _ => Some (lba / 2 ^ 24) | _ => None end.
Definition follows (last : option Z) (c : call) : Prop := match c with Select _ _ => True | Read lba | Write lba _ => near last lba end.
Fixpoint spaced (last : option Z) (l : list call) : Prop :=
  match l with [] => True | c :: l => call_ok c /\ follows last c /\ spaced (pending c) l end.
Fixpoint left_by (last : option Z) (l : list call) : option Z := match l with [] => last | c :: l => left_by (pending c) l end.

Lemma call_holds last d s c : holds last d s -> call_ok c -> follows last c ->
  (on_driver c s).1 = (on_drives c d).1 /\ holds (pending c) (on_drives c d).2 (on_driver c s).2.
Proof.
  intros H Hc Hf. destruct c as [base slave|lba|lba b]; cbn [on_driver on_drives pending]; munfold.
  - destruct Hc as [Hb Hs]. pose proof (select_holds last d s base slave H Hb Hs) as HH. by destruct (select_drive base slave s).
  - destruct (block_read_holds last d s lba H Hf Hc) as [Er HH]. destruct (block_read lba s) as [r s']. cbn [fst snd] in *. by subst r.
  - destruct Hc as [Hl Hb]. pose proof (block_write_holds last d s lba b H Hf Hl Hb) as HH. by destruct (block_write lba b s).
Qed.
(** In the first 8 GB of the drives nothing needs to be spaced. *)
Lemma spaced_small l : Forall (fun c => call_ok c /\ match c with Select _ _ => True | Read lba | Write lba _ => lba < 2 ^ 24 end) l ->
  forall last, last = None \/ last = Some 0 -> spaced last l.
Proof.
  assert (Hz : forall lba, 0 <= lba < 2 ^ 24 -> lba / 2 ^ 24 = 0) by (intros; by apply Z.div_small).
  induction 1 as [|c l [Hc Hs] _ IH]; intros last Hlast; [done|]. split; [done|]. destruct c as [b sl|lba|lba b]; cbn [call_ok follows pending] in *.
  - split; [done|]. apply IH. by left.
  - split; [|apply IH; by left]. destruct Hlast as [-> | ->]; [done|]. apply Hz. lia.
  - split; [destruct Hlast as [-> | ->]; [done|]; apply Hz; lia|]. apply IH. right. f_equal. apply Hz. lia.
Qed.

(** C7 - The driver of ATA drives implements the bank of drives that the file
    systems are proved against. Whatever sequence of [select_drive],
    [block_read] and [block_write] is made on it, on channels that take time
    to become ready and to bring their data, and that may ignore the drive
    register while they are busy, the sectors read are those of the drives: a
    sector that no drive has reads as zeros, and a write to it is dropped.
    Afterwards no request is left under way. The driver does not wait before
    it writes the drive register; so the access right behind a write must lie
    in the same 2^24 sectors (as all accesses to the first 8 GB do), unless a
    selection comes between. *)
Theorem ata_drives_refine last d s l : holds last d s -> spaced last l ->
  (calls on_driver l s).1 = (calls on_drives l d).1 /\ holds (left_by last l) (calls on_drives l d).2 (calls on_driver l s).2.
Proof.
  revert last d s. induction l as [|c l IH]; intros last d s H Hl; [done|]. destruct Hl as (Hc & Hf & Hl). cbn [calls left_by]. munfold.
  destruct (call_holds last d s c H Hc Hf) as [Er H']. destruct (on_driver c s) as [r s'], (on_drives c d) as [r' d']. cbn [fst snd] in *. subst r'.
  destruct (IH (pending c) d' s' H' Hl) as [Es H'']. destruct (calls on_driver l s') as [rs s2], (calls on_drives l d') as [rs' d2]. cbn [fst snd] in *. by subst rs'.
Qed.
End laws.

(** ** Two channels that are busy for a few reads of the status, and ignore the
    drive register for that time *)

Definition machine : Type := channel * channel.
Definition channel_of (m : machine) (b : Z) : channel := if b =? ATA_PRIMARY then m.1 else m.2.
Definition with_channel (b : Z) (c : channel) (m : machine) : machine := if b =? ATA_PRIMARY then (c, m.2) else (m.1, c).
Definition port_base (port : Z) : Z := port - port mod 8.
Definition status_of (c : channel) : Z :=
  match chosen c with
  | None => 0
  | Some _ => if Nat.eqb (ch_busy c) 0 then match ch_phase c with Idle => 0x50 | _ => 0x58 end else 0xD0
  end.
#[export] Instance machine_ports : Ports machine := {
  inb port m := let b := port_base port in let c := channel_of m b in
    if port mod 8 =? 7 then (status_of c, with_channel b (set_busy (pred (ch_busy c)) c) m) else (0, m);
  outb port v m := let b := port_base port in let c := channel_of m b in
    (tt, if port mod 8 =? 6 then (if decide (at_rest c) then with_channel b (set_busy 2 (set_device (Z.testbit v 4) (Z.land v 0x0F) c)) m else m)
         else if port mod 8 =? 7 then match chosen c with Some x => with_channel b (set_busy 3 (set_phase (started v x (ch_lba c)) c)) m | None => m end
         else with_channel b (set_register (port mod 8) v c) m) }.
#[export] Instance machine_data : DataPorts machine := {
  insw port n m := let b := port_base port in let c := channel_of m b in
    match ch_phase c with DataIn s => (s, with_channel b (set_phase Idle c) m) | _ => ([], m) end;
  outsw port s m := let b := port_base port in let c := channel_of m b in
    (tt, match ch_phase c, chosen c with DataOut l, Some x => with_channel b (set_busy 2 (set_phase Idle (set_chosen (drive_write x l s) c))) m | _, _ => m end) }.
#[export] Instance no_sata : Sata machine := {
  ahci_read_sectors _ _ := mret None; ahci_write_sectors _ _ _ := mret tt; ahci_device_count _ := 0; sata_sectors _ _ := 0 }.
Lemma channel_of_with m b c b' : is_channel b -> is_channel b' -> channel_of (with_channel b c m) b' = if decide (b' = b) then c else channel_of m b'.
Proof. by intros [-> | ->] [-> | ->]. Qed.
Lemma port_of b r : is_channel b -> 0 <= r < 8 -> port_base (b + r) = b /\ (b + r) mod 8 = r.
Proof. unfold port_base. intros [-> | ->] Hr; unfold ATA_PRIMARY, ATA_SECONDARY; split; zdm. Qed.
#[export] Instance machine_laws : AtaLaws machine.
Proof.
  refine {| chan := channel_of |}; intros m b.
  - intros Hb. cbn [inb machine_ports]. destruct (port_of b 7 Hb) as [-> ->]; [lia|]. cbn [Z.eqb Pos.eqb fst snd]. split; [|by intros; apply channel_of_with].
    unfold shows, status_of. destruct (chosen _); [|done]. by destruct (ch_busy _), (ch_phase _).
  - intros v Hb Hv. exists 2%nat, (bool_decide (at_rest (channel_of m b))). split; [apply Nat.ltb_lt; by vm_compute|]. split; [by intros; apply bool_decide_true|].
    cbn [outb machine_ports]. destruct (port_of b 6 Hb) as [-> ->]; [lia|]. cbn [Z.eqb Pos.eqb snd]. intros b' Hb'.
    destruct (decide (at_rest (channel_of m b))) as [Hr|Hr]; [rewrite bool_decide_true by done; by apply channel_of_with|].
    rewrite bool_decide_false by done. case_decide; by subst.
  - intros r v Hb Hr Hv _. cbn [outb machine_ports]. destruct (port_of b r Hb) as [-> ->]; [lia|]. replace (r =? 6) with false by lia. replace (r =? 7) with false by lia. by intros; apply channel_of_with.
  - intros cmd x Hb _ Hx _ _ _. exists 3%nat. split; [apply Nat.ltb_lt; by vm_compute|]. cbn [outb machine_ports]. destruct (port_of b 7 Hb) as [-> ->]; [lia|]. cbn [Z.eqb Pos.eqb]. rewrite Hx. by intros; apply channel_of_with.
  - intros s Hb _ Hs. cbn [insw machine_data]. destruct (port_of b 0 Hb) as [-> _]; [lia|]. rewrite Hs. split; [done|]. by intros; apply channel_of_with.
  - intros x l s Hb _ _ Hs Hx. exists 2%nat. split; [apply Nat.ltb_lt; by vm_compute|]. cbn [outsw machine_data]. destruct (port_of b 0 Hb) as [-> _]; [lia|]. rewrite Hs, Hx. by intros; apply channel_of_with.
Defined.

Definition disk_demo : drive := mk_drive 100 (<[7 := replicate 512 1]> ∅).
(** The primary master, and nothing else. *)
Definition machine_demo : machine :=
  let c o := mk_channel (fun sl : bool => if sl then None else o) false 0 0 0 0 0 Idle 0 in (c (Some disk_demo), c None).
Definition ata_demo : ata machine := mk_ata ATA_PRIMARY 0 machine_demo.
Definition bank_demo : Drives.drives := mk_drives (ATA_PRIMARY, 0) {[ (ATA_PRIMARY, 0) := disk_demo ]}.
Definition calls_demo : list call :=
  [Select ATA_PRIMARY 0; Read 7; Write 8 (replicate 512 2); Read 8; Read 100; Select ATA_SECONDARY 1; Read 7; Select ATA_PRIMARY 0; Read 8].
Lemma demo_holds : holds None bank_demo ata_demo.
Proof.
  split; [done|by left|done| |by left]. intros b [-> | ->]; (split; [done|]; split; [apply Nat.ltb_lt; by vm_compute|]; by intros [|]).
Qed.
Lemma demo_spaced : spaced None calls_demo.
Proof. apply spaced_small; [|by left]. repeat (apply list.Forall_cons; split; [cbn; unfold is_channel; repeat split; try lia; try done; try (by left); try (by right); vdec|]). done. Qed.
Lemma ata_drives_refine_witness : holds None bank_demo ata_demo /\ spaced None calls_demo /\
  (calls on_driver calls_demo ata_demo).1 = [None; Some (replicate 512 1); None; Some (replicate 512 2); Some zero_sector; None; Some zero_sector; None; Some (replicate 512 2)].
Proof.
  split; [exact demo_holds|]. split; [exact demo_spaced|]. transitivity (calls on_drives calls_demo bank_demo).1; [exact (proj1 (ata_drives_refine None bank_demo ata_demo calls_demo demo_holds demo_spaced))|by vm_compute].
Defined.

(** An access right behind a write to another part of the drive: the drive
    register is ignored while the drive takes the sector, and the sector read
    is another one. *)
Definition large_demo : ata machine :=
  let c o := mk_channel (fun sl : bool => if sl then None else o) false 0 0 0 0 0 Idle 0 in
  mk_ata ATA_PRIMARY 0 (c (Some (mk_drive (2 ^ 25) (<[7 := replicate 512 1]> (<[2 ^ 24 + 7 := replicate 512 3]> ∅)))), c None).
Theorem ata_busy_reads_other_sector :
  (calls on_driver [Read (2 ^ 24 + 7); Write 8 (replicate 512 2); Read (2 ^ 24 + 7)] large_demo).1 = [Some (replicate 512 3); None; Some (replicate 512 1)].
Proof. by vm_compute. Qed.
End AtaProps.
