(* ===== verification/CosAlloc.v ===== *)
(** COSFS allocation (src/fs.c): sector access, the on-disk block bitmap, the
    inode bitmap and its write-back, the inode table. *)
From S2P Require Import Prelude CString Disk CosData.
From stdpp Require Import base list numbers.
From Stdlib Require Import ZArith Lia.
Import Cos.
Open Scope Z_scope.

Module CosAlloc.

Section ops.
Context {D : Type} `{BlockDev D}.
#[local] Abbreviation M := (st (fsstate D)).

Definition block_read (lba : Z) : M sector := gets (fun s => bread (dev s) lba).
Definition block_write (lba : Z) (b : sector) : M unit := modify (fun s => set_dev (bwrite lba b (dev s)) s).

Definition set_block_bitmap_bit (idx : Z) : M unit :=
  g ← gets sb;
  if total_blocks g <=? idx then mret tt else
  let byte_off := idx / 8 in
  let sec_no := byte_off / SECTOR_SIZE in
  let in_sector := byte_off mod SECTOR_SIZE in
  sec ← block_read (u32 (bitmap_start g + sec_no));
  let sec := sec.[in_sector := Z.lor (sec.[in_sector]) (bit_mask (idx mod 8))] in
  block_write (u32 (bitmap_start g + sec_no)) sec.

Definition clear_block_bitmap_bit (idx : Z) : M unit :=
  g ← gets sb;
  if total_blocks g <=? idx then mret tt else
  let byte_off := idx / 8 in
  let sec_no := byte_off / SECTOR_SIZE in
  let in_sector := byte_off mod SECTOR_SIZE in
  sec ← block_read (u32 (bitmap_start g + sec_no));
  let sec := sec.[in_sector := Z.land (sec.[in_sector]) (Z.lnot (bit_mask (idx mod 8)))] in
  block_write (u32 (bitmap_start g + sec_no)) sec.

Definition flush_inode_bitmap_sector (idx : Z) : M unit :=
  s ← gets id;
  let sec_no := idx / 8 / SECTOR_SIZE in
  if inode_bitmap_sectors s <=? sec_no then mret tt
  else block_write (u32 (bitmap_start (sb s) + block_bitmap_sectors s + sec_no))
         (slice (inode_bitmap s) (sec_no * SECTOR_SIZE) SECTOR_SIZE).

(** Bit [bit] of the bitmap sector [sec] just read by [alloc_block]. *)
Definition alloc_block_bit (sec : sector) (sec_no base_idx bit : Z) : M (option Z) :=
  g ← gets sb;
  let idx := u32 (base_idx + bit) in
  if total_blocks g <=? idx then mret (Some 0) else
  let byte_off := bit / 8 in
  if Z.land (sec.[byte_off]) (bit_mask (bit mod 8)) =? 0 then
    block_write (u32 (bitmap_start g + sec_no))
      (sec.[byte_off := Z.lor (sec.[byte_off]) (bit_mask (bit mod 8))]);;
    mret (Some idx)
  else mret None.

Definition alloc_block_sector (start_idx start_sector sec_no : Z) : M (option Z) :=
  g ← gets sb;
  sec ← block_read (u32 (bitmap_start g + sec_no));
  let base_idx := u32 (u32 (sec_no * SECTOR_SIZE) * 8) in
  let bit_start := if (sec_no =? start_sector) && (base_idx <? start_idx) then u32 (start_idx - base_idx) else 0 in
  floop (rounds bit_start (SECTOR_SIZE * 8)) bit_start (alloc_block_bit sec sec_no base_idx).

(** The block number, 0 when the disk is full. *)
Definition alloc_block : M Z :=
  s ← gets id;
  let g := sb s in
  let start_idx := if (magic g =? FS_MAGIC) && (1 <? data_start g) then data_start g else 1 in
  let start_sector := start_idx / 8 / SECTOR_SIZE in
  r ← floop (rounds start_sector (block_bitmap_sectors s)) start_sector (alloc_block_sector start_idx start_sector);
  mret (default 0 r).

Definition free_block (idx : Z) : M unit := clear_block_bitmap_bit idx.

(** [idx] is never negative at the calls of these two. *)
Definition read_inode (idx : Z) : M inode :=
  g ← gets sb;
  let block := u32 (inode_start g + idx / INODES_PER_BLOCK) in
  let offset := idx mod INODES_PER_BLOCK * INODE_SIZE in
  buf ← block_read block;
  mret (inode_decode (slice buf offset INODE_SIZE)).

Definition write_inode (idx : Z) (n : inode) : M unit :=
  g ← gets sb;
  let block := u32 (inode_start g + idx / INODES_PER_BLOCK) in
  let offset := idx mod INODES_PER_BLOCK * INODE_SIZE in
  buf ← block_read block;
  block_write block (splice buf offset (inode_encode n)).

Definition load_block_bitmap : M unit := mret tt.
Definition save_block_bitmap : M unit := mret tt.

Definition load_inode_bitmap : M unit :=
  s ← gets id;
  let start := u32 (bitmap_start (sb s) + block_bitmap_sectors s) in
  ffor (rounds 0 (inode_bitmap_sectors s)) 0 (fun i =>
    b ← block_read (u32 (start + i));
    modify (fun s => set_inode_bitmap (splice (inode_bitmap s) (i * SECTOR_SIZE) b) s)).

Definition save_inode_bitmap : M unit :=
  s ← gets id;
  let start := u32 (bitmap_start (sb s) + block_bitmap_sectors s) in
  ffor (rounds 0 (inode_bitmap_sectors s)) 0 (fun i =>
    s ← gets id;
    block_write (u32 (start + i)) (slice (inode_bitmap s) (i * SECTOR_SIZE) SECTOR_SIZE)).

Definition create_root : M unit :=
  modify (fun s => set_inode_bitmap ((inode_bitmap s).[0 := Z.lor ((inode_bitmap s).[0]) 1]) s);;
  save_inode_bitmap;;
  let root := set_type 2 zero_inode in
  b ← alloc_block;
  if b =? 0 then mret tt else
  write_inode 0 (set_direct 0 b root);;
  block_write b zero_sector.

(** The bit test used on the inode bitmap. *)
Definition inode_used (s : fsstate D) (i : Z) : bool :=
  negb (Z.land ((inode_bitmap s).[i / 8]) (bit_mask (i mod 8)) =? 0).

Definition alloc_inode_step (i : Z) : M (option Z) :=
  s ← gets id;
  if inode_used s i then mret None else
  modify (fun s => set_inode_bitmap ((inode_bitmap s).[i / 8 := Z.lor ((inode_bitmap s).[i / 8]) (bit_mask (i mod 8))]) s);;
  flush_inode_bitmap_sector i;;
  mret (Some i).

(** The inode number, -1 when there is none. *)
Definition alloc_inode : M Z :=
  g ← gets sb;
  r ← floop (rounds 0 (inode_count g)) 0 alloc_inode_step;
  mret (default (-1) r).

Definition free_inode (idx : Z) : M unit :=
  g ← gets sb;
  if (idx <? 0) || (inode_count g <=? u32 idx) then mret tt else
  modify (fun s => set_inode_bitmap ((inode_bitmap s).[idx / 8 := Z.land ((inode_bitmap s).[idx / 8]) (Z.lnot (bit_mask (idx mod 8)))]) s);;
  flush_inode_bitmap_sector idx.

End ops.
End CosAlloc.
