(* ===== verification/CosFile.v ===== *)
(** COSFS file contents (src/fs.c): the block map with its indirect blocks,
    reading, writing and releasing data. *)
From S2P Require Import Prelude CString Disk CosData CosAlloc.
From stdpp Require Import base list numbers.
From Stdlib Require Import ZArith Lia.
Import Cos CosAlloc.
Open Scope Z_scope.

Module CosFile.

Section ops.
Context {D : Type} `{BlockDev D}.
#[local] Abbreviation M := (st (fsstate D)).

Definition zero_block (lba : Z) : M unit := block_write lba zero_sector.

(** [ptrs[i]] of a pointer block. *)
Definition ptr_get (b : sector) (i : Z) : Z := get32 b (4 * i).
Definition ptr_set (b : sector) (i v : Z) : sector := put32 b (4 * i) v.

(** One inner level of the tree: entry [i] of pointer block [parent], filled
    with a fresh zeroed pointer block on demand. *)
Definition index_level (parent i : Z) (do_alloc : bool) : M Z :=
  ptrs ← block_read parent;
  if (ptr_get ptrs i =? 0) && do_alloc then
    b ← alloc_block;
    zero_block b;;
    block_write parent (ptr_set ptrs i b);;
    mret b
  else mret (ptr_get ptrs i).

(** The last level: entry [i] of [parent] is a data block, not zeroed. *)
Definition leaf_level (parent i : Z) (do_alloc : bool) : M Z :=
  ptrs ← block_read parent;
  if (ptr_get ptrs i =? 0) && do_alloc then
    b ← alloc_block;
    block_write parent (ptr_set ptrs i b);;
    mret b
  else mret (ptr_get ptrs i).

(** An indirect pointer of the inode, filled on demand. *)
Definition root_level (inode_idx : Z) (get : inode -> Z) (set : Z -> inode -> inode)
    (do_alloc : bool) (node : inode) : M inode :=
  if (get node =? 0) && do_alloc then
    b ← alloc_block;
    let node := set b node in
    zero_block (get node);;
    write_inode inode_idx node;;
    mret node
  else mret node.

Definition double_limit : Z := PTRS_PER_BLOCK * PTRS_PER_BLOCK.
Definition triple_limit : Z := PTRS_PER_BLOCK * PTRS_PER_BLOCK * PTRS_PER_BLOCK.

(** The block number (0: none) and the inode as updated in place. *)
Definition get_physical_block (inode_idx : Z) (node : inode) (logical_idx : Z) (do_alloc : bool) : M (Z * inode) :=
  if logical_idx <? INODE_DIRECT then
    if ((direct node).[logical_idx] =? 0) && do_alloc then
      b ← alloc_block;
      let node := set_direct logical_idx b node in
      write_inode inode_idx node;;
      mret ((direct node).[logical_idx], node)
    else mret ((direct node).[logical_idx], node)
  else
  let logical_idx := logical_idx - INODE_DIRECT in
  if logical_idx <? PTRS_PER_BLOCK then
    node ← root_level inode_idx single_indirect set_single do_alloc node;
    if single_indirect node =? 0 then mret (0, node) else
    b ← leaf_level (single_indirect node) logical_idx do_alloc;
    mret (b, node)
  else
  let logical_idx := logical_idx - PTRS_PER_BLOCK in
  if logical_idx <? double_limit then
    node ← root_level inode_idx double_indirect set_double do_alloc node;
    if double_indirect node =? 0 then mret (0, node) else
    l1 ← index_level (double_indirect node) (logical_idx / PTRS_PER_BLOCK) do_alloc;
    if l1 =? 0 then mret (0, node) else
    b ← leaf_level l1 (logical_idx mod PTRS_PER_BLOCK) do_alloc;
    mret (b, node)
  else
  let logical_idx := logical_idx - double_limit in
  if logical_idx <? triple_limit then
    node ← root_level inode_idx triple_indirect set_triple do_alloc node;
    if triple_indirect node =? 0 then mret (0, node) else
    let rem := logical_idx mod (PTRS_PER_BLOCK * PTRS_PER_BLOCK) in
    l1 ← index_level (triple_indirect node) (logical_idx / (PTRS_PER_BLOCK * PTRS_PER_BLOCK)) do_alloc;
    if l1 =? 0 then mret (0, node) else
    l2 ← index_level l1 (rem / PTRS_PER_BLOCK) do_alloc;
    if l2 =? 0 then mret (0, node) else
    b ← leaf_level l2 (rem mod PTRS_PER_BLOCK) do_alloc;
    mret (b, node)
  else mret (0, node).

(** Rounds of a loop that covers [len] bytes in pieces of a sector, the first
    and the last possibly partial. *)
Definition sector_rounds (len : Z) : nat := Z.to_nat (len / SECTOR_SIZE + 2).

(** One round of the loop of [fs_write]; the local state is [written] and the
    inode. Leaving the loop carries its reason: [inl] is [return -1], [inr]
    the loop condition becoming false. *)
Definition fs_write_step (inode_idx offset : Z) (data : list Z) (len : Z) (_ : Z) (acc : Z * inode) :
    M ((Z * inode) + (unit + Z * inode)) :=
  let '(written, node) := acc in
  if written <? len then
    let current_global_offset := u32 (offset + written) in
    let block_index := current_global_offset / SECTOR_SIZE in
    let offset_in_block := current_global_offset mod SECTOR_SIZE in
    '(phys_block, node) ← get_physical_block inode_idx node block_index true;
    if phys_block =? 0 then mret (inr (inl tt)) else
    buf ← (if (0 <? offset_in_block) || (len - written <? SECTOR_SIZE)
           then block_read phys_block else mret zero_sector);
    let chunk_size := Z.min (SECTOR_SIZE - offset_in_block) (len - written) in
    block_write phys_block (splice buf offset_in_block (slice data written chunk_size));;
    mret (inl (written + chunk_size, node))
  else mret (inr (inr (written, node))).

Definition fs_write (inode_idx offset : Z) (data : list Z) (len : Z) : M Z :=
  node ← read_inode inode_idx;
  r ← aloop (sector_rounds len) 0 (0, node) (fs_write_step inode_idx offset data len);
  match r with
  | inr (inl _) => mret (-1)
  | inr (inr (written, node)) | inl (written, node) =>
      if size node <? u32 (offset + written) then
        write_inode inode_idx (set_size (u32 (offset + written)) node);;
        mret (s32 written)
      else mret (s32 written)
  end.

(** [free_indirect_tree]; the recursion is on [depth]. *)
Fixpoint free_indirect_tree (depth : nat) (block_lba : Z) : M unit :=
  if block_lba =? 0 then mret tt else
  match depth with
  | O => mret tt
  | S d =>
      ptrs ← block_read block_lba;
      ffor 128 0 (fun i => if ptr_get ptrs i =? 0 then mret tt else free_indirect_tree d (ptr_get ptrs i))
  end;;
  free_block block_lba.

Definition fs_free_inode_data (node : inode) : M unit :=
  ffor 12 0 (fun i => if (direct node).[i] =? 0 then mret tt else free_block ((direct node).[i]));;
  when (negb (single_indirect node =? 0)) (free_indirect_tree 1 (single_indirect node));;
  when (negb (double_indirect node =? 0)) (free_indirect_tree 2 (double_indirect node));;
  when (negb (triple_indirect node =? 0)) (free_indirect_tree 3 (triple_indirect node)).

(** One round of the loop of [fs_read]; the local state is the data copied so
    far ([bytes_read] is its length). *)
Definition fs_read_step (inode_idx : Z) (node : inode) (offset size : Z) (_ : Z) (out : list Z) :
    M (list Z + list Z) :=
  let bytes_read := zlen out in
  if bytes_read <? size then
    let current_global_offset := u32 (offset + bytes_read) in
    let block_index := current_global_offset / SECTOR_SIZE in
    let offset_in_block := current_global_offset mod SECTOR_SIZE in
    '(phys_block, _) ← get_physical_block inode_idx node block_index false;
    sector_buf ← (if phys_block =? 0 then mret zero_sector else block_read phys_block);
    let chunk_size := Z.min (SECTOR_SIZE - offset_in_block) (size - bytes_read) in
    mret (inl (out ++ slice sector_buf offset_in_block chunk_size))
  else mret (inr out).

(** The bytes stored in the caller's buffer; the C result is their number. *)
Definition fs_read (inode_idx : Z) (node : inode) (offset size_ : Z) : M (list Z) :=
  if size node <=? offset then mret [] else
  let size_ := if size node <? u32 (offset + size_) then size node - offset else size_ in
  r ← aloop (sector_rounds size_) 0 [] (fs_read_step inode_idx node offset size_);
  match r with inl out | inr out => mret out end.

End ops.
End CosFile.
