(* ===== verification/CosDir.v ===== *)
(** COSFS directories and files (src/fs.c): directory entries, creation,
    deletion, lookup by path and by tag. *)
From S2P Require Import Prelude CString Disk CosData CosAlloc CosFile.
From stdpp Require Import base list numbers.
From Stdlib Require Import ZArith Lia.
Import CString Cos CosAlloc CosFile.
Open Scope Z_scope.

Module CosDir.

(** First slot below [n], from [i], whose entry satisfies [f]. *)
Fixpoint find_entry (f : Z -> bool) (n : nat) (i : Z) : option Z :=
  match n with
  | O => None
  | S n => if f i then Some i else find_entry f n (i + 1)
  end.

Section ops.
Context {D : Type} `{BlockDev D}.
#[local] Abbreviation M := (st (fsstate D)).

(** Entry [i] of [buf] is live and carries [name]. *)
Definition entry_matches (count : Z) (buf : sector) (name : list Z) (i : Z) : bool :=
  negb (dirent_inode buf i =? 0) && negb (count <=? dirent_inode buf i) &&
  (strcmp (dirent_name buf i) name =? 0).

(** Block [b] of the loop of [dir_lookup]; [Some None] is its [break]. *)
Definition dir_lookup_step (dir : inode) (name : list Z) (b : Z) : M (option (option Z)) :=
  g ← gets sb;
  let lba := (direct dir).[b] in
  if lba =? 0 then mret (Some None) else
  buf ← block_read lba;
  match find_entry (entry_matches (inode_count g) buf name) 16 0 with
  | Some i => mret (Some (Some (dirent_inode buf i)))
  | None => mret None
  end.

(** The inode number, -1 when the name is not there. *)
Definition dir_lookup (dir : inode) (name : list Z) : M Z :=
  if negb (type dir =? 2) then mret (-1) else
  r ← floop 12 0 (dir_lookup_step dir name);
  mret (match r with Some (Some i) => i | _ => -1 end).

(** The entry [dir_add] writes at slot [i]. *)
Definition put_dirent (buf : sector) (i inode_idx : Z) (name : list Z) : sector :=
  splice (put32 buf (32 * i) inode_idx) (32 * i + 4) (strncpy_out name 27 ++ [0]).

Definition dir_add_step (dir_inode_id : Z) (name : list Z) (inode_idx b : Z) (dir : inode) : M (inode + Z) :=
  '(dir, buf) ←
    (if (direct dir).[b] =? 0 then
       new_block ← alloc_block;
       if new_block =? 0 then mret (dir, None) else
       let dir := set_direct b new_block dir in
       write_inode dir_inode_id dir;;
       mret (dir, Some zero_sector)
     else
       buf ← block_read ((direct dir).[b]);
       mret (dir, Some buf));
  match buf with
  | None => mret (inr (-1))
  | Some buf =>
      match find_entry (fun i => dirent_inode buf i =? 0) 16 0 with
      | Some i => block_write ((direct dir).[b]) (put_dirent buf i inode_idx name);; mret (inr 0)
      | None => mret (inl dir)
      end
  end.

Definition dir_add (dir_inode_id : Z) (dir : inode) (name : list Z) (inode_idx : Z) : M Z :=
  r ← aloop 12 0 dir (dir_add_step dir_inode_id name inode_idx);
  mret (match r with inr rc => rc | inl _ => -1 end).

(** The cleared entry [dir_remove] leaves at slot [i]. *)
Definition clear_dirent (buf : sector) (i : Z) : sector :=
  splice (put32 buf (32 * i) 0) (32 * i + 4) (replicate 28 0).

Definition dir_remove_step (dir : inode) (name : list Z) (b : Z) : M (option Z) :=
  if (direct dir).[b] =? 0 then mret None else
  buf ← block_read ((direct dir).[b]);
  match find_entry (fun i => negb (dirent_inode buf i =? 0) && (strcmp (dirent_name buf i) name =? 0)) 16 0 with
  | Some i => block_write ((direct dir).[b]) (clear_dirent buf i);; mret (Some 0)
  | None => mret None
  end.

Definition dir_remove (dir : inode) (name : list Z) : M Z :=
  if negb (type dir =? 2) then mret (-1) else
  r ← floop 12 0 (dir_remove_step dir name);
  mret (default (-1) r).

(** [tags[t]] and [main_tag] as pointers into the inode: [strcmp] may run on
    into the fields that follow. *)
Definition main_tag_ptr (n : inode) : list Z := main_tag n ++ tags n ++ unused n.
Definition tag_ptr (n : inode) (t : Z) : list Z := drop (Z.to_nat (12 * t)) (tags n) ++ unused n.
Definition tag_matches (n : inode) (tag : list Z) : bool :=
  (strcmp (main_tag_ptr n) tag =? 0) || (strcmp (tag_ptr n 0) tag =? 0) ||
  (strcmp (tag_ptr n 1) tag =? 0) || (strcmp (tag_ptr n 2) tag =? 0).

Definition find_by_tag_step (tag : list Z) (max_results i : Z) (results : list Z) : M (list Z + list Z) :=
  s ← gets id;
  if negb (inode_used s i) then mret (inl results) else
  temp_node ← read_inode i;
  if tag_matches temp_node tag then
    let results := results ++ [i] in
    if max_results <=? zlen results then mret (inr results) else mret (inl results)
  else mret (inl results).

(** The inode numbers stored in [results]; the C result is their number. *)
Definition fs_find_by_tag (tag : list Z) (max_results : Z) : M (list Z) :=
  g ← gets sb;
  r ← aloop (rounds 1 (inode_count g)) 1 [] (find_by_tag_step tag max_results);
  mret (match r with inl l | inr l => l end).

Definition live_entry (count : Z) (buf : sector) (i : Z) : bool :=
  negb (dirent_inode buf i =? 0) && (dirent_inode buf i <? count).

Definition fs_dir_is_empty (inode_idx : Z) : M bool :=
  dir ← read_inode inode_idx;
  if negb (type dir =? 2) then mret false else
  r ← floop 12 0 (fun b =>
    g ← gets sb;
    if (direct dir).[b] =? 0 then mret None else
    buf ← block_read ((direct dir).[b]);
    mret (match find_entry (live_entry (inode_count g) buf) 16 0 with Some _ => Some tt | None => None end));
  mret (match r with Some _ => false | None => true end).

Definition fs_delete_in (parent_inode_idx : Z) (name : list Z) : M Z :=
  parent ← read_inode parent_inode_idx;
  if negb (type parent =? 2) then mret (-1) else
  inode_num ← dir_lookup parent name;
  if inode_num <=? 0 then mret (-1) else
  node ← read_inode inode_num;
  empty ← (if type node =? 2 then fs_dir_is_empty inode_num else mret true);
  if negb empty then mret (-1) else
  rc ← dir_remove parent name;
  if rc <? 0 then mret (-1) else
  fs_free_inode_data node;;
  free_inode inode_num;;
  mret 0.

Definition fs_delete_file (name : list Z) : M Z :=
  root ← read_inode ROOT_INODE;
  inode_num ← dir_lookup root name;
  if inode_num <=? 0 then mret (-1) else
  node ← read_inode inode_num;
  if type node =? 2 then mret (-1) else
  fs_delete_in ROOT_INODE name.

(** "normal", the first tag of a new file. *)
Definition normal_tag : list Z := [110; 111; 114; 109; 97; 108].

(** [main_tag = None] is the null pointer; -1 stands for [(uint32_t)-1]. *)
Definition fs_create_file (name : list Z) (main_tag : option (list Z)) : M Z :=
  match main_tag with
  | None => mret (-1)
  | Some main_tag =>
  if strlen main_tag =? 0 then mret (-1) else
  s ← gets id;
  existing_check ← read_inode (g_current_dir s);
  r ← dir_lookup existing_check name;
  if 0 <=? r then mret (-1) else
  idx ← alloc_inode;
  if idx <? 0 then mret (-1) else
  let node := set_type 1 zero_inode in
  let node := set_main_tag (strncpy_out main_tag 12) node in
  let node := set_tags (splice (tags node) 0 (strncpy_out normal_tag 12)) node in
  b ← alloc_block;
  if b =? 0 then free_inode idx;; mret (-1) else
  write_inode idx (set_direct 0 b node);;
  root ← read_inode (g_current_dir s);
  dir_add (g_current_dir s) root name idx;;
  mret idx
  end.

Definition fs_create_dir (name : list Z) (parent_inode_idx : Z) : M Z :=
  existing_check ← read_inode parent_inode_idx;
  r ← dir_lookup existing_check name;
  if 0 <=? r then mret (-1) else
  idx ← alloc_inode;
  if idx <? 0 then mret (-1) else
  let node := set_type 2 zero_inode in
  b ← alloc_block;
  if b =? 0 then free_inode idx;; mret (-1) else
  write_inode idx (set_direct 0 b node);;
  block_write b zero_sector;;
  parent ← read_inode parent_inode_idx;
  dir_add parent_inode_idx parent name idx;;
  mret idx.

Definition fs_resolve_path (path : list Z) (current_dir_inode : Z) : M Z :=
  dir ← read_inode current_dir_inode;
  dir_lookup dir path.

Definition fs_cd (name : list Z) : M Z :=
  if strcmp name [46; 46] =? 0 then modify (set_current_dir 0);; mret 0 else
  s ← gets id;
  current ← read_inode (g_current_dir s);
  target_idx ← dir_lookup current name;
  if target_idx =? -1 then mret (-1) else
  target ← read_inode target_idx;
  if negb (type target =? 2) then mret (-2) else
  modify (set_current_dir (u32 target_idx));; mret 0.

End ops.
End CosDir.
