(* ===== verification/CosFormat.v ===== *)
(** COSFS volumes (src/fs.c): geometry, formatting, mounting and the choice of
    the drive. *)
From S2P Require Import Prelude CString Disk CosData CosAlloc CosFile CosDir.
From stdpp Require Import base list numbers.
From Stdlib Require Import ZArith Lia.
Import CString Cos CosAlloc CosFile CosDir.
Open Scope Z_scope.

Module CosFormat.

(** "user", "data", "mount", "lock", "cosfiles". *)
Definition defdirs : list (list Z) :=
  [[117; 115; 101; 114]; [100; 97; 116; 97]; [109; 111; 117; 110; 116]; [108; 111; 99; 107];
   [99; 111; 115; 102; 105; 108; 101; 115]].

(** The superblock [format_fs] and [qformat_fs] compute for a drive. *)
Definition format_total (total_sectors : Z) : Z :=
  if 0xFFFFFFFE <? total_sectors then 0xFFFFFFFE else total_sectors.
Definition format_inodes (total : Z) : Z :=
  let c := u32 (total / 4) in
  let c := if INODE_BITMAP_SIZE * 8 <? c then INODE_BITMAP_SIZE * 8 else c in
  let c := Z.land (u32 (c + 7)) (Z.lnot 7) in
  if c =? 0 then 8 else c.
Definition format_sb (total_sectors : Z) : superblock :=
  let total := format_total total_sectors in
  let ic := format_inodes total in
  let g0 := mk_sb FS_MAGIC SECTOR_SIZE total ic 1 0 0 in
  let ist := u32 (1 + geom_bsec g0 + geom_isec g0) in
  mk_sb FS_MAGIC SECTOR_SIZE total ic 1 ist (u32 (ist + geom_itab g0)).

Section ops.
Context {D : Type} `{BlockDev D}.
#[local] Abbreviation M := (st (fsstate D)).

Definition select_drive_m (base slave : Z) : M unit := modify (fun s => set_dev (select_drive base slave (dev s)) s).

(** [g_drives[g_current_drive]]. *)
Definition no_device : fs_device := mk_device 0 0 0.
Definition current_device (s : fsstate D) : fs_device := default no_device (g_drives s !! Z.to_nat (g_current_drive s)).

Definition set_geometry_of (g : superblock) : M unit :=
  modify (set_geometry (geom_bytes g) (geom_bsec g) (geom_isec g) (geom_itab g)).

Definition create_defdirs : M unit :=
  s ← gets id;
  ffor 5 0 (fun i => fs_create_dir (defdirs !!! Z.to_nat i) (g_current_dir s);; mret tt).

Definition init_fs : M unit :=
  s ← gets id;
  when (4 <? g_active_drives s) (modify (set_active 0));;
  s ← gets id;
  if g_active_drives s =? 0 then mret tt else
  select_drive_m (ata_base (current_device s)) (is_slave (current_device s));;
  sb_buf ← block_read SUPERBLOCK_LBA;
  let g := sb_decode sb_buf in
  modify (set_sb g);;
  if negb (magic g =? FS_MAGIC) then mret tt else
  set_geometry_of g;;
  load_block_bitmap;;
  load_inode_bitmap;;
  root ← read_inode ROOT_INODE;
  if negb (type root =? 2) then create_root else mret tt.

Definition write_zeros (start n : Z) : M unit :=
  ffor (rounds 0 n) 0 (fun i => block_write (u32 (start + i)) zero_sector).

Definition sb_sector (g : superblock) : sector := splice zero_sector 0 (sb_encode g).

Definition format_fs : M unit :=
  s ← gets id;
  select_drive_m (ata_base (current_device s)) (is_slave (current_device s));;
  modify (set_current_dir 0);;
  let g := format_sb (total_sectors (current_device s)) in
  modify (set_sb g);;
  set_geometry_of g;;
  block_write SUPERBLOCK_LBA (sb_sector g);;
  write_zeros (bitmap_start g) (geom_bsec g);;
  write_zeros (u32 (bitmap_start g + geom_bsec g)) (geom_isec g);;
  write_zeros (inode_start g) (geom_itab g);;
  modify (set_inode_bitmap (replicate (Z.to_nat INODE_BITMAP_SIZE) 0));;
  create_root;;
  create_defdirs;;
  init_fs.

Definition qformat_fs : M unit :=
  s ← gets id;
  select_drive_m (ata_base (current_device s)) (is_slave (current_device s));;
  modify (set_current_dir 0);;
  let g := format_sb (total_sectors (current_device s)) in
  modify (set_sb g);;
  set_geometry_of g;;
  write_zeros (bitmap_start g) (geom_bsec g);;
  write_zeros (u32 (bitmap_start g + geom_bsec g)) (geom_isec g);;
  write_zeros (inode_start g) (Z.min 64 (geom_itab g));;
  block_write SUPERBLOCK_LBA (sb_sector g);;
  modify (set_inode_bitmap (replicate (Z.to_nat INODE_BITMAP_SIZE) 0));;
  ffor (rounds 0 (data_start g)) 0 set_block_bitmap_bit;;
  save_block_bitmap;;
  create_root;;
  create_defdirs;;
  init_fs.

Definition fs_change_drive (drive_id : Z) : M Z :=
  s ← gets id;
  if (drive_id <? 0) || (g_active_drives s <=? drive_id) then mret (-1) else
  modify (set_current_drive drive_id);;
  init_fs;;
  mret 0.

End ops.
End CosFormat.
