(* ===== verification/CosAllocSpec.v ===== *)
(** COSFS allocation: what the inode table, the block bitmap and the inode
    bitmap operations do, seen through the device. *)
From S2P Require Import Prelude CString Disk CosData CosAlloc.
From stdpp Require Import base list numbers.
From Stdlib Require Import ZArith Lia.
Import Cos CosAlloc.
Open Scope Z_scope.

Module CosAllocSpec.

Section spec.
Context {D : Type} `{BlockDevLaws D}.
Implicit Types s : fsstate D.

(** Sector [l] as the driver would read it. *)
Definition sec_at s (l : Z) : sector := bread (dev s) l.

(** A step that changes nothing but sectors for which [W] holds. *)
Record writes (W : Z -> Prop) s s' : Prop := {
  wr_state : s' = set_dev (dev s') s;
  wr_ok : bok (dev s');
  wr_cap : bcap (dev s') = bcap (dev s);
  wr_same : forall l, ~ W l -> sec_at s' l = sec_at s l;
}.

Lemma set_dev_id s : set_dev (dev s) s = s.
Proof. by destruct s. Qed.
Lemma writes_refl W s : bok (dev s) -> writes W s s.
Proof. intros. constructor; [by rewrite set_dev_id|done..]. Qed.
Lemma writes_trans W s1 s2 s3 : writes W s1 s2 -> writes W s2 s3 -> writes W s1 s3.
Proof.
  intros [E1 ? ? H1] [E2 ? ? H2]. constructor; [|done|congruence|].
  - rewrite E2, E1. by destruct s1.
  - intros l Hl. by rewrite H2, H1.
Qed.
Lemma writes_mono (W W' : Z -> Prop) s s' : (forall l, W l -> W' l) -> writes W s s' -> writes W' s s'.
Proof. intros HW [? ? ? Hs]. constructor; [done..|]. intros l Hl. apply Hs. intros ?. by apply Hl, HW. Qed.
Lemma writes_sb W s s' : writes W s s' -> sb s' = sb s /\ inode_bitmap s' = inode_bitmap s /\
  block_bitmap_sectors s' = block_bitmap_sectors s /\ inode_bitmap_sectors s' = inode_bitmap_sectors s /\
  g_current_dir s' = g_current_dir s.
Proof. intros [-> _ _ _]. by destruct s. Qed.

Lemma block_write_spec l b s : bok (dev s) -> is_sector b -> 0 <= l < bcap (dev s) ->
  let s' := (block_write l b s).2 in
  writes (fun l' => l' = l) s s' /\ sec_at s' l = b.
Proof.
  intros Hok Hb Hl. cbn. split.
  - constructor; [by destruct s|cbn..].
    + by apply bwrite_ok.
    + apply bwrite_cap.
    + intros l' Hne. unfold sec_at; cbn. rewrite bread_bwrite by done. by rewrite decide_False.
  - unfold sec_at; cbn. rewrite bread_bwrite by done. by rewrite decide_True.
Qed.

(** ** The inode table *)

Definition inode_lba s (idx : Z) : Z := inode_start (sb s) + idx / 4.
Definition inode_at s (idx : Z) : inode := inode_decode (slice (sec_at s (inode_lba s idx)) (idx mod 4 * 128) 128).
(** Inode [idx] lies on the drive. *)
Definition inode_in s (idx : Z) : Prop :=
  0 <= idx /\ 0 <= inode_start (sb s) /\ inode_lba s idx < bcap (dev s) /\ bcap (dev s) <= 2 ^ 32.

Lemma read_inode_run s idx : inode_in s idx -> read_inode idx s = (inode_at s idx, s).
Proof.
  intros (H1 & H2 & H3 & H4). unfold read_inode, block_read. munfold. unfold INODES_PER_BLOCK.
  rewrite u32_small by (unfold inode_lba in *; zdm). done.
Qed.

Lemma inode_at_wf s idx : bok (dev s) -> 0 <= idx -> inode_wf (inode_at s idx).
Proof.
  intros Hok Hi. destruct (bread_sector (dev s) (inode_lba s idx) Hok) as [Hl Hb].
  apply inode_decode_wf; [|by apply Forall_slice]. unfold SECTOR_SIZE, INODE_SIZE in *.
  apply zlen_slice; [zdm|lia|]. unfold sec_at. zdm.
Qed.

Lemma splice_sector (b bs : list Z) off : is_sector b -> is_bytes bs -> 0 <= off -> off + zlen bs <= SECTOR_SIZE ->
  is_sector (splice b off bs).
Proof.
  intros [Hl Hb] Hbs Ho Hlen. split; [|by apply Forall_splice]. by rewrite zlen_splice; rewrite ?Hl.
Qed.

Lemma write_inode_run s idx n : bok (dev s) -> inode_in s idx -> inode_wf n ->
  let s' := (write_inode idx n s).2 in
  writes (fun l => l = inode_lba s idx) s s' /\ inode_at s' idx = n /\
  forall j, 0 <= j -> j <> idx -> inode_at s' j = inode_at s j.
Proof.
  intros Hok (H1 & H2 & H3 & H4) Hn. unfold write_inode, block_read. munfold.
  unfold INODES_PER_BLOCK, INODE_SIZE. fold (inode_lba s idx).
  rewrite u32_small by (unfold inode_lba in *; zdm).
  pose proof (bread_sector (dev s) (inode_lba s idx) Hok) as Hs.
  assert (Hlen : zlen (inode_encode n) = 128) by (by apply zlen_inode_encode).
  assert (Hoff : 0 <= idx mod 4 * 128 <= 384) by zdm.
  assert (Hsec : is_sector (splice (bread (dev s) (inode_lba s idx)) (idx mod 4 * 128) (inode_encode n))).
  { apply splice_sector; [done|by apply inode_encode_bytes|lia|unfold SECTOR_SIZE; lia]. }
  destruct (block_write_spec (inode_lba s idx) _ s Hok Hsec) as [Hw Hat]; [unfold inode_lba in *; zdm|].
  destruct Hs as [Hsl Hsb]. unfold SECTOR_SIZE in Hsl.
  set (s' := (block_write _ _ s).2) in *. split; [done|].
  assert (Hlba : forall j, inode_lba s' j = inode_lba s j) by (intros; unfold inode_lba; by destruct (writes_sb _ _ _ Hw) as [-> _]).
  split.
  - unfold inode_at. rewrite Hlba, Hat. replace 128 with (zlen (inode_encode n)) at 3 by done.
    rewrite slice_splice_same by lia. rewrite <- (app_nil_r (inode_encode n)). by apply inode_decode_encode.
  - intros j Hj Hne. unfold inode_at. rewrite Hlba.
    destruct (decide (inode_lba s j = inode_lba s idx)) as [E|E].
    + rewrite E, Hat. f_equal. unfold inode_lba in E.
      rewrite slice_splice_other; [done|lia|lia|zdm|lia|zdm|]. rewrite Hlen. zdm.
    + f_equal. f_equal. by apply (wr_same _ _ _ Hw).
Qed.

(** ** The block bitmap *)

(** Sector of the bitmap and bit inside it for block [idx]. *)
Definition bm_lba s (idx : Z) : Z := bitmap_start (sb s) + idx / 4096.
Definition blk_used s (idx : Z) : bool := bit_at (sec_at s (bm_lba s idx)) (idx mod 4096).

(** The bitmap lies on the drive and covers the volume. *)
Record bitmap_ok s : Prop := {
  bo_dev : bok (dev s);
  bo_start : 0 <= bitmap_start (sb s);
  bo_sectors : 0 <= block_bitmap_sectors s <= 2 ^ 20;
  bo_cap : bitmap_start (sb s) + block_bitmap_sectors s <= bcap (dev s) <= 2 ^ 32;
  bo_total : 0 <= total_blocks (sb s) <= block_bitmap_sectors s * 4096;
  bo_data : 0 <= data_start (sb s) < 2 ^ 32;
}.

Lemma writes_bitmap_ok W s s' : bitmap_ok s -> writes W s s' -> bitmap_ok s'.
Proof.
  intros [] Hw. destruct (writes_sb _ _ _ Hw) as (E1 & _ & E3 & _). destruct Hw as [_ ? Hc _].
  constructor; rewrite ?E1, ?E3, ?Hc; done.
Qed.

Lemma bm_index idx : 0 <= idx -> idx / 8 / 512 = idx / 4096 /\ idx / 8 mod 512 = idx mod 4096 / 8 /\ idx mod 8 = idx mod 4096 mod 8.
Proof. intros. zdm. Qed.

Lemma set_block_bitmap_bit_eq s idx : bitmap_ok s -> 0 <= idx < total_blocks (sb s) ->
  set_block_bitmap_bit idx s = block_write (bm_lba s idx) (bit_set (sec_at s (bm_lba s idx)) (idx mod 4096)) s.
Proof.
  intros [] Hi. unfold set_block_bitmap_bit, block_read. munfold. rewrite (proj2 (Z.leb_gt _ _)) by lia.
  unfold SECTOR_SIZE. destruct (bm_index idx) as (-> & -> & ->); [lia|].
  rewrite u32_small by zdm. done.
Qed.
Lemma clear_block_bitmap_bit_eq s idx : bitmap_ok s -> 0 <= idx < total_blocks (sb s) ->
  clear_block_bitmap_bit idx s = block_write (bm_lba s idx) (bit_clear (sec_at s (bm_lba s idx)) (idx mod 4096)) s.
Proof.
  intros [] Hi. unfold clear_block_bitmap_bit, block_read. munfold. rewrite (proj2 (Z.leb_gt _ _)) by lia.
  unfold SECTOR_SIZE. destruct (bm_index idx) as (-> & -> & ->); [lia|].
  rewrite u32_small by zdm. done.
Qed.

(** Overwriting the bitmap sector of [idx] so that only its bit changes. *)
Lemma bitmap_write s idx b v : bitmap_ok s -> 0 <= idx < total_blocks (sb s) -> is_sector b ->
  (forall j, 0 <= j -> bit_at b j = if decide (j = idx mod 4096) then v else bit_at (sec_at s (bm_lba s idx)) j) ->
  let s' := (block_write (bm_lba s idx) b s).2 in
  writes (fun l => l = bm_lba s idx) s s' /\
  forall j, 0 <= j -> blk_used s' j = if decide (j = idx) then v else blk_used s j.
Proof.
  intros Hb Hi Hs Hbit. destruct Hb as [].
  destruct (block_write_spec (bm_lba s idx) b s) as [Hw Hat]; [done..|unfold bm_lba; zdm|].
  split; [done|]. set (s' := (block_write _ b s).2) in *. intros j Hj.
  assert (Hlba : bm_lba s' j = bm_lba s j) by (unfold bm_lba; by destruct (writes_sb _ _ _ Hw) as [-> _]).
  unfold blk_used. rewrite Hlba. destruct (decide (bm_lba s j = bm_lba s idx)) as [E|E].
  - rewrite E, Hat, Hbit by zdm. unfold bm_lba in E.
    destruct (decide (j mod 4096 = idx mod 4096)), (decide (j = idx)); try done; zdm.
  - rewrite (wr_same _ _ _ Hw) by done. rewrite decide_False; [done|]. by intros ->.
Qed.

Lemma bit_set_sector b i : is_sector b -> 0 <= i < 4096 -> is_sector (bit_set b i).
Proof. intros [Hl Hb] Hi. split; [by rewrite zlen_bit_set|]. apply bit_set_bytes; [done|]. unfold SECTOR_SIZE in Hl. lia. Qed.
Lemma bit_clear_sector b i : is_sector b -> 0 <= i < 4096 -> is_sector (bit_clear b i).
Proof. intros [Hl Hb] Hi. split; [by rewrite zlen_bit_clear|]. apply bit_clear_bytes; [done|]. unfold SECTOR_SIZE in Hl. lia. Qed.

Lemma mark_spec s idx : bitmap_ok s -> 0 <= idx < total_blocks (sb s) ->
  let s' := (block_write (bm_lba s idx) (bit_set (sec_at s (bm_lba s idx)) (idx mod 4096)) s).2 in
  writes (fun l => l = bm_lba s idx) s s' /\
  forall j, 0 <= j -> blk_used s' j = if decide (j = idx) then true else blk_used s j.
Proof.
  intros Hb Hi. pose proof (bread_sector (dev s) (bm_lba s idx) (bo_dev _ Hb)) as [Hl Hby].
  unfold SECTOR_SIZE in Hl. apply bitmap_write; [done..|apply bit_set_sector; [done|zdm]|].
  intros j Hj. apply bit_at_set; [unfold sec_at; rewrite Hl; zdm|done].
Qed.
Lemma unmark_spec s idx : bitmap_ok s -> 0 <= idx < total_blocks (sb s) ->
  let s' := (clear_block_bitmap_bit idx s).2 in
  writes (fun l => l = bm_lba s idx) s s' /\
  forall j, 0 <= j -> blk_used s' j = if decide (j = idx) then false else blk_used s j.
Proof.
  intros Hb Hi. rewrite clear_block_bitmap_bit_eq by done.
  pose proof (bread_sector (dev s) (bm_lba s idx) (bo_dev _ Hb)) as [Hl Hby].
  unfold SECTOR_SIZE in Hl. apply bitmap_write; [done..|apply bit_clear_sector; [done|zdm]|].
  intros j Hj. apply bit_at_clear; [unfold sec_at; rewrite Hl; zdm|done].
Qed.

(** ** Allocation *)

(** First candidate of [alloc_block]. *)
Definition alloc_start s : Z :=
  if (magic (sb s) =? FS_MAGIC) && (1 <? data_start (sb s)) then data_start (sb s) else 1.

Definition mark s (idx : Z) : fsstate D :=
  (block_write (bm_lba s idx) (bit_set (sec_at s (bm_lba s idx)) (idx mod 4096)) s).2.

Lemma alloc_bit_cases s k bit : bitmap_ok s -> 0 <= k < block_bitmap_sectors s -> 0 <= bit < 4096 ->
  let idx := k * 4096 + bit in
  alloc_block_bit (sec_at s (bitmap_start (sb s) + k)) k (k * 4096) bit s =
  if total_blocks (sb s) <=? idx then (Some 0, s)
  else if blk_used s idx then (None, s) else (Some idx, mark s idx).
Proof.
  intros [] Hk Hbit idx. unfold alloc_block_bit. munfold.
  rewrite (u32_small (k * 4096 + bit)) by lia. fold idx.
  destruct (total_blocks (sb s) <=? idx); [done|].
  rewrite bit_at_test by lia.
  assert (E1 : idx / 4096 = k) by (subst idx; zdm). assert (E2 : idx mod 4096 = bit) by (subst idx; zdm).
  unfold blk_used, mark, bm_lba. rewrite E1, E2.
  destruct (bit_at _ bit) eqn:E; cbn [negb]; [done|]. rewrite u32_small by lia. done.
Qed.

(** Candidates of bitmap sector [k] that the search looks at. *)
Definition cand_lo (start k : Z) : Z := Z.max start (k * 4096).

Lemma alloc_sector_cases s start k : bitmap_ok s -> 0 <= start < 2 ^ 32 -> start / 4096 <= k < block_bitmap_sectors s ->
  let lo := cand_lo start k in let hi := (k + 1) * 4096 in
  (exists idx, lo <= idx < hi /\ idx < total_blocks (sb s) /\ blk_used s idx = false /\
     (forall j, lo <= j < idx -> blk_used s j = true) /\
     alloc_block_sector start (start / 4096) k s = (Some idx, mark s idx)) \/
  ((forall j, lo <= j < hi -> j < total_blocks (sb s) -> blk_used s j = true) /\
   total_blocks (sb s) < hi /\ alloc_block_sector start (start / 4096) k s = (Some 0, s)) \/
  ((forall j, lo <= j < hi -> j < total_blocks (sb s) -> blk_used s j = true) /\
   alloc_block_sector start (start / 4096) k s = (None, s)).
Proof.
  intros Hb Hst Hk lo hi. pose proof Hb as Hb0. destruct Hb0. unfold alloc_block_sector, block_read. munfold.
  assert (Hk0 : 0 <= k) by zdm.
  unfold SECTOR_SIZE. rewrite (u32_small (k * 512)), (u32_small (k * 512 * 8)) by lia.
  replace (k * 512 * 8) with (k * 4096) by lia. change (512 * 8) with 4096.
  rewrite (u32_small (bitmap_start (sb s) + k)) by lia. fold (sec_at s (bitmap_start (sb s) + k)).
  set (bs := if _ : bool then _ else 0).
  assert (Hbs : bs = lo - k * 4096 /\ 0 <= bs < 4096).
  { subst bs lo. unfold cand_lo. destruct (k =? start / 4096) eqn:E; cbn [andb].
    - destruct (k * 4096 <? start) eqn:E2; [rewrite u32_small by lia|]; zdm.
    - zdm. }
  destruct Hbs as [Hbs Hbs'].
  set (body := alloc_block_bit _ _ _).
  set (p := fun bit => (total_blocks (sb s) <=? k * 4096 + bit) || negb (blk_used s (k * 4096 + bit))).
  destruct (floop_find p (rounds bs 4096) bs body s) as [(bit & Hr & Hp & Hlt & ->)|[Hall ->]].
  - intros j Hj Hn. unfold rounds in Hj. apply orb_false_iff in Hn as [Hn1 Hn2]. subst body.
    rewrite alloc_bit_cases by (done || lia). rewrite Hn1. by rewrite (proj1 (negb_false_iff _) Hn2).
  - intros j Hj Hn. unfold rounds in Hj. subst body. rewrite alloc_bit_cases by (done || lia).
    destruct (total_blocks (sb s) <=? k * 4096 + j) eqn:E1; [done|].
    unfold p in Hn. rewrite E1 in Hn. cbn in Hn. apply negb_true_iff in Hn. by rewrite Hn.
  - unfold rounds in Hr. subst body. rewrite alloc_bit_cases by (done || lia).
    assert (Hbefore : forall j, lo <= j < k * 4096 + bit -> blk_used s j = true).
    { intros j Hj. specialize (Hlt (j - k * 4096) ltac:(lia)). unfold p in Hlt. apply orb_false_iff in Hlt as [_ Hu].
      apply negb_false_iff in Hu. by replace (k * 4096 + (j - k * 4096)) with j in Hu by lia. }
    destruct (total_blocks (sb s) <=? k * 4096 + bit) eqn:E1.
    + right; left. split; [|split; [subst hi; lia|done]]. intros j Hj Ht. apply Hbefore. lia.
    + unfold p in Hp. rewrite E1 in Hp. cbn in Hp. apply negb_true_iff in Hp. rewrite Hp.
      left. exists (k * 4096 + bit). repeat split; [lia|lia|lia|done|done].
  - right; right. split; [|done]. intros j Hj Ht. specialize (Hall (j - k * 4096)).
    unfold rounds, p in Hall. replace (k * 4096 + (j - k * 4096)) with j in Hall by lia.
    destruct (orb_false_elim _ _ (Hall ltac:(lia))) as [_ Hu]. by apply negb_false_iff.
Qed.

(** The two outcomes of [alloc_block]. *)
Lemma alloc_block_cases s : bitmap_ok s ->
  (exists idx, alloc_start s <= idx < total_blocks (sb s) /\ blk_used s idx = false /\
     alloc_block s = (idx, mark s idx)) \/
  ((forall j, alloc_start s <= j < total_blocks (sb s) -> blk_used s j = true) /\ alloc_block s = (0, s)).
Proof.
  intros Hb. pose proof Hb as Hb0. destruct Hb0. unfold alloc_block. munfold.
  unfold id. cbv beta zeta. fold (alloc_start s).
  assert (Hst : 1 <= alloc_start s < 2 ^ 32).
  { unfold alloc_start. destruct (magic (sb s) =? FS_MAGIC); cbn [andb]; [|lia].
    destruct (1 <? data_start (sb s)) eqn:E; lia. }
  set (st := alloc_start s) in *. unfold SECTOR_SIZE.
  replace (st / 8 / 512) with (st / 4096) by zdm. set (k0 := st / 4096).
  set (body := alloc_block_sector st k0).
  set (p := fun k => bool_decide (is_Some (body k s).1)).
  assert (Hk0 : 0 <= k0) by (subst k0; zdm).
  destruct (floop_find p (rounds k0 (block_bitmap_sectors s)) k0 body s) as [(k & Hr & Hp & Hlt & ->)|[Hall ->]].
  - intros k Hr Hn. apply bool_decide_eq_false in Hn. unfold rounds in Hr.
    destruct (alloc_sector_cases s st k Hb ltac:(lia) ltac:(lia)) as [(idx & _ & _ & _ & _ & E)|[(_ & _ & E)|(_ & E)]];
      unfold body in *; fold k0 in E; rewrite E in *; [by destruct Hn|by destruct Hn|done].
  - intros k _ Hn. apply bool_decide_eq_true in Hn as [x Hx]. congruence.
  - unfold rounds in Hr. apply bool_decide_eq_true in Hp.
    assert (Hbefore : forall j, st <= j < k * 4096 -> j < total_blocks (sb s) -> blk_used s j = true).
    { intros j Hj Ht. specialize (Hlt (j / 4096) ltac:(subst k0; zdm)). apply bool_decide_eq_false in Hlt.
      destruct (alloc_sector_cases s st (j / 4096) Hb ltac:(lia) ltac:(subst k0; zdm)) as [(idx & _ & _ & _ & _ & E)|[(_ & _ & E)|(Hu & _)]].
      - exfalso. apply Hlt. unfold body. fold k0 in E. by rewrite E.
      - exfalso. apply Hlt. unfold body. fold k0 in E. by rewrite E.
      - apply Hu; [unfold cand_lo; zdm|done]. }
    destruct (alloc_sector_cases s st k Hb ltac:(lia) ltac:(lia)) as [(idx & H1 & H2 & H3 & _ & E)|[(Hu & Ht & E)|(_ & E)]];
      unfold body in *; fold k0 in E; rewrite E in *; cbn.
    + left. exists idx. unfold cand_lo in H1. split_and!; [lia|lia|done|done].
    + right. split; [|done]. intros j Hj. destruct (decide (j < k * 4096)); [apply Hbefore; lia|].
      apply Hu; [unfold cand_lo; lia|lia].
    + by destruct Hp.
  - right. split; [|done]. intros j Hj. unfold rounds in Hall.
    specialize (Hall (j / 4096) ltac:(subst k0; zdm)). apply bool_decide_eq_false in Hall.
    destruct (alloc_sector_cases s st (j / 4096) Hb ltac:(lia) ltac:(subst k0; zdm)) as [(idx & _ & _ & _ & _ & E)|[(_ & _ & E)|(Hu & _)]].
    + exfalso. apply Hall. unfold body. fold k0 in E. by rewrite E.
    + exfalso. apply Hall. unfold body. fold k0 in E. by rewrite E.
    + apply Hu; [unfold cand_lo; zdm|lia].
Qed.

End spec.
End CosAllocSpec.
