(* ===== verification/CosVol.v ===== *)
(** COSFS seen as an abstract volume: data blocks, inodes, the two allocation
    maps and the current directory. [rep] relates the driver's state (globals
    and device) to such a volume; every allocation and table operation is a
    functional update of it. *)
From S2P Require Import Prelude CString Disk CosData CosAlloc CosAllocSpec.
From stdpp Require Import base list numbers.
From Stdlib Require Import ZArith Lia.
Import Cos CosAlloc CosAllocSpec.
Open Scope Z_scope.

Module CosVol.

Record avol := mk_avol {
  a_data : Z -> sector;   (** contents of the data blocks *)
  a_inode : Z -> inode;   (** the inode table *)
  a_used : Z -> bool;     (** the block bitmap *)
  a_iused : Z -> bool;    (** the inode bitmap *)
  a_cwd : Z;
}.

Definition upd {A} (f : Z -> A) (k : Z) (v : A) : Z -> A := fun j => if decide (j = k) then v else f j.
Lemma upd_eq {A} (f : Z -> A) k v : upd f k v k = v.
Proof. unfold upd. by rewrite decide_True. Qed.
Lemma upd_ne {A} (f : Z -> A) k v j : j <> k -> upd f k v j = f j.
Proof. intros. unfold upd. by rewrite decide_False. Qed.

Definition a_put (l : Z) (b : sector) (a : avol) : avol :=
  mk_avol (upd (a_data a) l b) (a_inode a) (a_used a) (a_iused a) (a_cwd a).
Definition a_set_inode (i : Z) (n : inode) (a : avol) : avol :=
  mk_avol (a_data a) (upd (a_inode a) i n) (a_used a) (a_iused a) (a_cwd a).
Definition a_mark (b : Z) (v : bool) (a : avol) : avol :=
  mk_avol (a_data a) (a_inode a) (upd (a_used a) b v) (a_iused a) (a_cwd a).
Definition a_imark (i : Z) (v : bool) (a : avol) : avol :=
  mk_avol (a_data a) (a_inode a) (a_used a) (upd (a_iused a) i v) (a_cwd a).

(** The regions of a volume: superblock, block bitmap, inode bitmap, inode
    table, data, in this order and disjoint. *)
Record geom_ok (g : superblock) (cap : Z) : Prop := {
  go_magic : magic g = FS_MAGIC;
  go_bitmap : 1 <= bitmap_start g;
  go_icount : 0 <= inode_count g <= 262144;
  go_istart : bitmap_start g + geom_bsec g + geom_isec g <= inode_start g;
  go_table : inode_start g + (inode_count g + 3) / 4 <= data_start g;
  go_dstart : 1 < data_start g;
  go_total : data_start g <= total_blocks g < 2 ^ 32;
  go_cap : total_blocks g <= cap <= 2 ^ 32;
}.

Lemma geom_bsec_covers g cap : geom_ok g cap -> 0 <= geom_bsec g <= 2 ^ 20 /\ total_blocks g <= geom_bsec g * 4096.
Proof.
  intros []. unfold geom_bsec, geom_bytes, SECTOR_SIZE, u64.
  rewrite (Z.mod_small (_ + 7)) by lia. rewrite (u32_small (_ / 8)) by zdm.
  rewrite u32_small by zdm. zdm.
Qed.
Lemma geom_isec_covers g cap : geom_ok g cap -> 0 <= geom_isec g <= 64 /\ inode_count g <= geom_isec g * 4096.
Proof.
  intros []. unfold geom_isec, SECTOR_SIZE.
  rewrite (u32_small (inode_count g + 7)) by lia. rewrite u32_small by zdm. zdm.
Qed.

Section spec.
Context {D : Type} `{BlockDevLaws D}.
Implicit Types s : fsstate D.
Implicit Types g : superblock.

Record rep g s (a : avol) : Prop := {
  r_sb : sb s = g;
  r_bsec : block_bitmap_sectors s = geom_bsec g;
  r_isec : inode_bitmap_sectors s = geom_isec g;
  r_geom : geom_ok g (bcap (dev s));
  r_dev : bok (dev s);
  r_super : sb_decode (sec_at s SUPERBLOCK_LBA) = g;
  r_ibm : zlen (inode_bitmap s) = INODE_BITMAP_SIZE /\ is_bytes (inode_bitmap s);
  r_ibm_disk : forall k, 0 <= k < geom_isec g ->
    sec_at s (bitmap_start g + geom_bsec g + k) = slice (inode_bitmap s) (k * 512) 512;
  r_data : forall l, data_start g <= l < total_blocks g -> sec_at s l = a_data a l;
  r_inode : forall i, 0 <= i < inode_count g -> inode_at s i = a_inode a i;
  r_used : forall b, 0 <= b < total_blocks g -> blk_used s b = a_used a b;
  r_iused : forall i, 0 <= i < inode_count g -> bit_at (inode_bitmap s) i = a_iused a i;
  r_cwd : g_current_dir s = a_cwd a;
}.

(** The volume a coherent state represents. *)
Definition abs s : avol := mk_avol (sec_at s) (inode_at s) (blk_used s) (bit_at (inode_bitmap s)) (g_current_dir s).

Lemma rep_bitmap_ok g s a : rep g s a -> bitmap_ok s.
Proof.
  intros [E1 E2 ? Hg]. destruct (geom_bsec_covers _ _ Hg), (geom_isec_covers _ _ Hg), Hg.
  constructor; rewrite ?E1, ?E2; try done; zdm.
Qed.

(** A device-only step that leaves the superblock and the inode bitmap alone. *)
Lemma rep_writes g s s' a a' W : rep g s a -> writes W s s' ->
  (forall l, W l -> bitmap_start g <= l < bitmap_start g + geom_bsec g \/ inode_start g <= l) ->
  (forall l, data_start g <= l < total_blocks g -> sec_at s' l = a_data a' l) ->
  (forall i, 0 <= i < inode_count g -> inode_at s' i = a_inode a' i) ->
  (forall b, 0 <= b < total_blocks g -> blk_used s' b = a_used a' b) ->
  a_iused a' = a_iused a -> a_cwd a' = a_cwd a -> rep g s' a'.
Proof.
  intros Hr Hw HW Hd Hi Hu Hiu Hc. pose proof (geom_isec_covers _ _ (r_geom _ _ _ Hr)) as [? _].
  pose proof (geom_bsec_covers _ _ (r_geom _ _ _ Hr)) as [? _].
  destruct (writes_sb _ _ _ Hw) as (E1 & E2 & E3 & E4 & E5). destruct Hw as [_ Hok Hcap Hsame].
  destruct Hr. destruct r_geom0. constructor; rewrite ?E1, ?E2, ?E3, ?E4, ?E5, ?Hcap, ?Hiu, ?Hc; try done.
  - rewrite Hsame; [done|]. intros [?|?]%HW; unfold SUPERBLOCK_LBA in *; zdm.
  - intros k Hk. rewrite Hsame; [by apply r_ibm_disk0|]. intros [?|?]%HW; lia.
Qed.

(** What is outside the block bitmap does not change it. *)
Lemma used_same g s s' a W b : rep g s a -> writes W s s' ->
  (forall l, W l -> inode_start g <= l) -> 0 <= b < total_blocks g -> blk_used s' b = blk_used s b.
Proof.
  intros Hr Hw HW Hb. pose proof (geom_bsec_covers _ _ (r_geom _ _ _ Hr)) as [? ?].
  pose proof (geom_isec_covers _ _ (r_geom _ _ _ Hr)) as [? ?].
  destruct (writes_sb _ _ _ Hw) as (E1 & _). destruct Hr. destruct r_geom0. subst g.
  unfold blk_used, bm_lba. rewrite E1. rewrite (wr_same _ _ _ Hw); [done|]. intros ?%HW. zdm.
Qed.
Lemma inode_same g s s' a W i : rep g s a -> writes W s s' ->
  (forall l, W l -> l < inode_start g \/ data_start g <= l) -> 0 <= i < inode_count g -> inode_at s' i = inode_at s i.
Proof.
  intros Hr Hw HW Hi. destruct (writes_sb _ _ _ Hw) as (E1 & _). destruct Hr. destruct r_geom0. subst g.
  unfold inode_at, inode_lba. rewrite E1. rewrite (wr_same _ _ _ Hw); [done|]. intros ?%HW. zdm.
Qed.
Lemma data_same g s s' a W l : rep g s a -> writes W s s' ->
  (forall l, W l -> l < data_start g) -> data_start g <= l -> sec_at s' l = sec_at s l.
Proof. intros Hr Hw HW Hl. apply (wr_same _ _ _ Hw). intros ?%HW. lia. Qed.

Lemma rep_data_sector g s a l : rep g s a -> data_start g <= l < total_blocks g -> is_sector (a_data a l).
Proof. intros [] Hl. rewrite <- r_data0 by done. by apply bread_sector. Qed.
Lemma rep_inode_wf g s a i : rep g s a -> 0 <= i < inode_count g -> inode_wf (a_inode a i).
Proof. intros [] Hi. rewrite <- r_inode0 by done. apply inode_at_wf; [done|lia]. Qed.
Lemma rep_inode_in g s a i : rep g s a -> 0 <= i < inode_count g -> inode_in s i.
Proof.
  intros Hr Hi. pose proof (geom_bsec_covers _ _ (r_geom _ _ _ Hr)) as [? _].
  pose proof (geom_isec_covers _ _ (r_geom _ _ _ Hr)) as [? _].
  destruct Hr. destruct r_geom0. subst g. unfold inode_in, inode_lba. split_and!; try lia; zdm.
Qed.

(** ** Operations as updates of the volume *)

Lemma rep_block_read g s a l : rep g s a -> data_start g <= l < total_blocks g ->
  block_read l s = (a_data a l, s).
Proof. intros [] Hl. unfold block_read, gets. by rewrite <- r_data0. Qed.

Lemma rep_block_write g s a l b : rep g s a -> data_start g <= l < total_blocks g -> is_sector b ->
  exists s', block_write l b s = (tt, s') /\ rep g s' (a_put l b a).
Proof.
  intros Hr Hl Hb. eexists. split; [reflexivity|]. pose proof (r_geom _ _ _ Hr) as Hg.
  destruct (block_write_spec l b s) as [Hw Hat]; [apply Hr|done|destruct Hg; lia|].
  set (s' := (block_write l b s).2) in *. change (set_dev _ s) with s'.
  assert (inode_start g <= data_start g) by (destruct Hg; zdm).
  apply (rep_writes _ _ _ _ _ _ Hr Hw); cbn; try done.
  - intros l' ->. lia.
  - intros l' Hl'. destruct (decide (l' = l)) as [->|]; [by rewrite upd_eq|].
    rewrite upd_ne by done. rewrite (wr_same _ _ _ Hw) by done. by apply Hr.
  - intros i Hi. rewrite (inode_same _ _ _ _ _ _ Hr Hw); [by apply Hr| |done]. intros ? ->. lia.
  - intros c Hc. rewrite (used_same _ _ _ _ _ _ Hr Hw); [by apply Hr| |done]. intros ? ->. lia.
Qed.

Lemma rep_read_inode g s a i : rep g s a -> 0 <= i < inode_count g -> read_inode i s = (a_inode a i, s).
Proof.
  intros Hr Hi. rewrite read_inode_run by by eapply rep_inode_in. by rewrite (r_inode _ _ _ Hr).
Qed.

Lemma rep_write_inode g s a i n : rep g s a -> 0 <= i < inode_count g -> inode_wf n ->
  exists s', write_inode i n s = (tt, s') /\ rep g s' (a_set_inode i n a).
Proof.
  intros Hr Hi Hn. pose proof (rep_inode_in _ _ _ _ Hr Hi) as Hin.
  destruct (write_inode_run s i n) as (Hw & Hat & Hoth); [apply Hr|done..|].
  exists (write_inode i n s).2. split; [by destruct (write_inode i n s) as [[]]|].
  set (s' := (write_inode i n s).2) in *.
  pose proof (r_geom _ _ _ Hr) as Hg.
  assert (Hlba : inode_start g <= inode_lba s i < data_start g).
  { destruct Hg. unfold inode_lba. rewrite (r_sb _ _ _ Hr). zdm. }
  apply (rep_writes _ _ _ _ _ _ Hr Hw); cbn; try done.
  - intros l ->. lia.
  - intros l Hl. rewrite (data_same _ _ _ _ _ _ Hr Hw); [by apply Hr| |lia]. intros ? ->. lia.
  - intros j Hj. unfold upd. case_decide as E; [by rewrite E|]. rewrite Hoth by (done || lia). by apply Hr.
  - intros c Hc. rewrite (used_same _ _ _ _ _ _ Hr Hw); [by apply Hr| |done]. intros ? ->. lia.
Qed.

(** The bitmap sector of a block lies in the bitmap. *)
Lemma rep_bm_lba g s a b : rep g s a -> 0 <= b < total_blocks g ->
  bitmap_start g <= bm_lba s b < bitmap_start g + geom_bsec g.
Proof.
  intros Hr Hb. destruct (geom_bsec_covers _ _ (r_geom _ _ _ Hr)). unfold bm_lba. rewrite (r_sb _ _ _ Hr). zdm.
Qed.
Lemma rep_bitmap_step g s s' a b v : rep g s a -> 0 <= b < total_blocks g ->
  writes (fun l => l = bm_lba s b) s s' ->
  (forall j, 0 <= j -> blk_used s' j = if decide (j = b) then v else blk_used s j) ->
  rep g s' (a_mark b v a).
Proof.
  intros Hr Hb Hw Hu. pose proof (rep_bm_lba _ _ _ _ Hr Hb). pose proof (r_geom _ _ _ Hr) as Hg.
  destruct (geom_isec_covers _ _ Hg). assert (bm_lba s b < inode_start g <= data_start g) by (destruct Hg; zdm).
  apply (rep_writes _ _ _ _ _ _ Hr Hw); cbn; try done.
  - intros l ->. lia.
  - intros l Hl. rewrite (data_same _ _ _ _ _ _ Hr Hw); [by apply Hr| |lia]. intros ? ->. lia.
  - intros i Hi. rewrite (inode_same _ _ _ _ _ _ Hr Hw); [by apply Hr| |done]. intros ? ->. lia.
  - intros c Hc. rewrite Hu by lia. unfold upd. case_decide; [done|]. by apply Hr.
Qed.

Lemma rep_alloc_block g s a : rep g s a ->
  (exists b s', alloc_block s = (b, s') /\ data_start g <= b < total_blocks g /\ a_used a b = false /\
     rep g s' (a_mark b true a)) \/
  ((forall b, data_start g <= b < total_blocks g -> a_used a b = true) /\ alloc_block s = (0, s)).
Proof.
  intros Hr. pose proof (rep_bitmap_ok _ _ _ Hr) as Hb. pose proof (r_geom _ _ _ Hr) as Hg. destruct Hg.
  assert (Hst : alloc_start s = data_start g).
  { unfold alloc_start. rewrite (r_sb _ _ _ Hr), go_magic0, (proj2 (Z.ltb_lt _ _)) by done. done. }
  pose proof (alloc_block_cases s Hb) as Hc. rewrite Hst, (r_sb _ _ _ Hr) in Hc.
  destruct Hc as [(idx & Hi & Hf & E)|[Hall E]].
  - left. exists idx, (mark s idx). rewrite <- (r_used _ _ _ Hr) by lia. split_and!; [done|lia|lia|done|].
    destruct (mark_spec s idx Hb) as [Hw Hu]; [rewrite (r_sb _ _ _ Hr); lia|].
    apply (rep_bitmap_step _ s); [done|lia|done|done].
  - right. split; [|done]. intros b Hbb. rewrite <- (r_used _ _ _ Hr) by lia. by apply Hall.
Qed.

Lemma rep_free_block g s a b : rep g s a -> 0 <= b < total_blocks g ->
  exists s', free_block b s = (tt, s') /\ rep g s' (a_mark b false a).
Proof.
  intros Hr Hb. pose proof (rep_bitmap_ok _ _ _ Hr) as Hok.
  destruct (unmark_spec s b Hok) as [Hw Hu]; [by rewrite (r_sb _ _ _ Hr)|].
  exists (clear_block_bitmap_bit b s).2. split.
  - unfold free_block. by destruct (clear_block_bitmap_bit b s) as [[]].
  - by apply (rep_bitmap_step _ s).
Qed.

(** ** Inode numbers *)

(** Replacing byte [i / 8] of the inode bitmap and writing its sector back. *)
Lemma rep_iflush g s a i v w : rep g s a -> 0 <= i < inode_count g -> is_u8 w ->
  let bm := (inode_bitmap s).[i / 8 := w] in
  (forall j, 0 <= j -> bit_at bm j = if decide (j = i) then v else bit_at (inode_bitmap s) j) ->
  exists s', flush_inode_bitmap_sector i (set_inode_bitmap bm s) = (tt, s') /\ rep g s' (a_imark i v a).
Proof.
  intros Hr Hi Hw8 bm Hbit. pose proof (r_geom _ _ _ Hr) as Hg.
  destruct (geom_isec_covers _ _ Hg) as [? ?], (geom_bsec_covers _ _ Hg) as [? ?].
  destruct (r_ibm _ _ _ Hr) as [Hlen Hbytes]. unfold INODE_BITMAP_SIZE in Hlen.
  assert (Hbm : zlen bm = 32768 /\ is_bytes bm).
  { subst bm. rewrite zlen_aset. split; [done|]. by apply aset_Forall. }
  assert (Hsl : forall k, 0 <= k < geom_isec g -> zlen (slice bm (k * 512) 512) = 512) by (intros; apply zlen_slice; lia).
  unfold flush_inode_bitmap_sector, id. munfold. cbn [inode_bitmap_sectors set_inode_bitmap sb block_bitmap_sectors inode_bitmap].
  rewrite (r_isec _ _ _ Hr), (r_bsec _ _ _ Hr), (r_sb _ _ _ Hr). unfold SECTOR_SIZE.
  replace (i / 8 / 512) with (i / 4096) by zdm. rewrite (proj2 (Z.leb_gt _ _)) by zdm.
  pose proof Hg as Hg'. destruct Hg'. rewrite u32_small by zdm.
  set (l := bitmap_start g + geom_bsec g + i / 4096).
  destruct (block_write_spec l (slice bm (i / 4096 * 512) 512) (set_inode_bitmap bm s)) as [Hw Hat];
    [apply Hr|split; [apply Hsl; zdm|apply Forall_slice, Hbm]|cbn; subst l; zdm|].
  eexists. split; [reflexivity|]. set (s' := (block_write l _ _).2) in *. change (set_dev _ _) with s'.
  clearbody s'. destruct (writes_sb _ _ _ Hw) as (E1 & E2 & E3 & E4 & E5). cbn in E1, E2, E3, E4, E5.
  assert (Hsame : forall l', l' <> l -> sec_at s' l' = sec_at s l') by (intros l' Hl'; apply (wr_same _ _ _ Hw l' Hl')).
  assert (Hl : bitmap_start g + geom_bsec g <= l < inode_start g) by (subst l; zdm).
  assert (Hds : inode_start g <= data_start g) by zdm.
  constructor; rewrite ?E1, ?E2, ?E3, ?E4, ?E5, ?(wr_cap _ _ _ Hw); try apply Hr; try done.
  - by apply Hw.
  - rewrite Hsame; [by apply Hr|]. unfold SUPERBLOCK_LBA. lia.
  - intros k Hk. destruct (decide (k = i / 4096)) as [->|Hne]; [done|].
    rewrite Hsame by lia. rewrite (r_ibm_disk _ _ _ Hr) by done.
    destruct Hbm as [Hbl _]. apply list_eq_aget; rewrite !zlen_slice by lia; [done|]. intros j Hj.
    rewrite !aget_slice by lia. subst bm. rewrite aget_aset_ne by zdm. done.
  - intros l' Hl'. rewrite Hsame by lia. by apply Hr.
  - intros j Hj. cbn. rewrite <- (r_inode _ _ _ Hr) by done. unfold inode_at, inode_lba. rewrite E1.
    rewrite Hsame; [done|]. rewrite (r_sb _ _ _ Hr). zdm.
  - intros b Hb. cbn. rewrite <- (r_used _ _ _ Hr) by done. pose proof (rep_bm_lba g s a b Hr Hb) as Hbb. unfold blk_used, bm_lba in *. rewrite E1.
    rewrite Hsame; [done|]. lia.
  - intros j Hj. cbn. rewrite Hbit by lia. unfold upd. case_decide; [done|]. by apply Hr.
Qed.

Lemma rep_inode_used g s a i : rep g s a -> 0 <= i < inode_count g -> inode_used s i = a_iused a i.
Proof.
  intros Hr Hi. unfold inode_used. rewrite bit_at_test by lia. rewrite negb_involutive. by apply Hr.
Qed.

Lemma ibm_index g s a i : rep g s a -> 0 <= i < inode_count g -> 0 <= i < 8 * zlen (inode_bitmap s).
Proof. intros Hr Hi. destruct (r_ibm _ _ _ Hr) as [-> _]. destruct (r_geom _ _ _ Hr). unfold INODE_BITMAP_SIZE. lia. Qed.

(** The lowest free inode is taken, on disk and in memory. *)
Lemma rep_alloc_inode g s a : rep g s a ->
  (exists i s', alloc_inode s = (i, s') /\ 0 <= i < inode_count g /\ a_iused a i = false /\
     (forall j, 0 <= j < i -> a_iused a j = true) /\ rep g s' (a_imark i true a)) \/
  ((forall i, 0 <= i < inode_count g -> a_iused a i = true) /\ alloc_inode s = (-1, s)).
Proof.
  intros Hr. unfold alloc_inode. munfold. rewrite (r_sb _ _ _ Hr).
  assert (Hn : Z.of_nat (rounds 0 (inode_count g)) = inode_count g).
  { unfold rounds. destruct (r_geom _ _ _ Hr). lia. }
  destruct (floop_find (fun i => negb (a_iused a i)) (rounds 0 (inode_count g)) 0 alloc_inode_step s)
    as [(i & Hi & Hp & Hlt & ->)|[Hall ->]].
  - intros i Hi Hu. apply negb_false_iff in Hu. unfold alloc_inode_step, id. munfold.
    rewrite (rep_inode_used _ _ _ _ Hr) by lia. by rewrite Hu.
  - intros i Hi Hu. apply negb_true_iff in Hu. unfold alloc_inode_step, id. munfold.
    rewrite (rep_inode_used _ _ _ _ Hr) by lia. rewrite Hu. by destruct (flush_inode_bitmap_sector _ _).
  - left. apply negb_true_iff in Hp. unfold alloc_inode_step, id. munfold.
    rewrite (rep_inode_used _ _ _ _ Hr) by lia. rewrite Hp.
    pose proof (ibm_index _ _ _ i Hr ltac:(lia)) as Hx. destruct (r_ibm _ _ _ Hr) as [_ Hby].
    destruct (rep_iflush g s a i true (Z.lor ((inode_bitmap s).[i / 8]) (bit_mask (i mod 8))) Hr ltac:(lia)) as (s' & -> & Hr').
    { apply (lor_bit_mask_bound _ _ 8); [|zdm]. apply (aget_Forall is_u8); [done|zdm]. }
    { intros j Hj. apply bit_at_set; [lia|done]. }
    exists i, s'. split_and!; [done|lia|lia|done| |done].
    intros j Hj. apply negb_false_iff. apply Hlt. lia.
  - right. split; [|done]. intros i Hi. apply negb_false_iff, Hall. lia.
Qed.

Lemma rep_free_inode g s a i : rep g s a -> 0 <= i < inode_count g ->
  exists s', free_inode i s = (tt, s') /\ rep g s' (a_imark i false a).
Proof.
  intros Hr Hi. unfold free_inode. munfold. rewrite (r_sb _ _ _ Hr).
  destruct (r_geom _ _ _ Hr). rewrite u32_small by lia.
  rewrite (proj2 (Z.ltb_ge i 0)), (proj2 (Z.leb_gt (inode_count g) i)) by lia. cbn [orb].
  pose proof (ibm_index _ _ _ _ Hr Hi) as Hx. destruct (r_ibm _ _ _ Hr) as [_ Hby].
  apply rep_iflush; [done|done| |].
  - apply (ldiff_bit_mask_bound _ _ 8); [|lia]. apply (aget_Forall is_u8); [done|zdm].
  - intros j Hj. apply bit_at_clear; [lia|done].
Qed.

End spec.
End CosVol.
