(* ===== verification/CosTree.v ===== *)
(** COSFS block trees: the blocks an inode reaches, as positions in a tree of
    pointers, and what filling one position does to the others. *)
From S2P Require Import Prelude CString Disk CosData CosAlloc CosFile CosAllocSpec CosVol.
From stdpp Require Import base list numbers.
From Stdlib Require Import ZArith Lia.
Import Cos CosAlloc CosFile CosAllocSpec CosVol.
Open Scope Z_scope.

Module CosTree.

(** ** Positions *)

(** A root slot of the inode (0-11 direct, 12 single, 13 double, 14 triple)
    and the indices followed below it. *)
Definition pos : Type := Z * list Z.
Definition depth (r : Z) : nat := Z.to_nat (r - 11).
Definition valid (q : pos) : Prop :=
  0 <= q.1 <= 14 /\ (length q.2 <= depth q.1)%nat /\ Forall (fun i => 0 <= i < 128) q.2.
(** A position of a data block, and one of a pointer block. *)
Definition leaf (q : pos) : Prop := valid q /\ length q.2 = depth q.1.
Definition inner (q : pos) : Prop := valid q /\ (length q.2 < depth q.1)%nat.

Definition root_ptr (n : inode) (r : Z) : Z :=
  if r <? 12 then (direct n).[r] else
  if r =? 12 then single_indirect n else if r =? 13 then double_indirect n else triple_indirect n.
Definition set_root (r b : Z) (n : inode) : inode :=
  if r <? 12 then set_direct r b n else
  if r =? 12 then set_single b n else if r =? 13 then set_double b n else set_triple b n.

(** The block found at a position, 0 when there is none. *)
Definition walk (a : avol) (b : Z) (p : list Z) : Z :=
  foldl (fun b i => if b =? 0 then 0 else ptr_get (a_data a b) i) b p.
Definition lba (a : avol) (n : inode) (q : pos) : Z := walk a (root_ptr n q.1) q.2.

(** Position of logical block [k] of a file. *)
Definition path_of (k : Z) : pos :=
  if k <? 12 then (k, []) else
  let k := k - 12 in if k <? 128 then (12, [k]) else
  let k := k - 128 in if k <? 16384 then (13, [k / 128; k mod 128]) else
  let k := k - 16384 in (14, [k / 16384; k mod 16384 / 128; k mod 16384 mod 128]).
Definition MAX_BLOCKS : Z := 12 + 128 + 16384 + 2097152.
Definition unpath (q : pos) : Z :=
  match q.2 with
  | [] => q.1
  | [i] => 12 + i
  | [i; j] => 140 + i * 128 + j
  | [i; j; k] => 16524 + i * 16384 + j * 128 + k
  | _ => 0
  end.

Lemma unpath_path k : 0 <= k -> unpath (path_of k) = k.
Proof.
  intros. unfold path_of. destruct (k <? 12) eqn:E1; [done|].
  destruct (k - 12 <? 128) eqn:E2; [cbn; lia|].
  destruct (k - 12 - 128 <? 16384) eqn:E3; cbn; zdm.
Qed.
Lemma path_inj j k : 0 <= j -> 0 <= k -> path_of j = path_of k -> j = k.
Proof. intros Hj Hk E. rewrite <- (unpath_path j), <- (unpath_path k), E by done. done. Qed.
Lemma path_leaf k : 0 <= k < MAX_BLOCKS -> leaf (path_of k).
Proof.
  unfold MAX_BLOCKS. intros. unfold path_of, leaf, valid, depth. destruct (k <? 12) eqn:E1; cbn [fst snd].
  { split_and!; try lia; [cbn; lia|constructor|cbn; lia]. }
  destruct (k - 12 <? 128) eqn:E2; cbn [fst snd].
  { split_and!; try lia; [cbn; lia|repeat constructor; lia|cbn; lia]. }
  destruct (k - 12 - 128 <? 16384) eqn:E3; cbn [fst snd].
  { split_and!; try lia; [cbn; lia|repeat constructor; zdm|cbn; lia]. }
  split_and!; try lia; [cbn; lia|repeat constructor; zdm|cbn; lia].
Qed.
Lemma leaf_not_inner q q' : leaf q -> inner q' -> q <> q'.
Proof. intros [_ ?] [_ ?] ->. lia. Qed.
Lemma valid_parent r p i : valid (r, p ++ [i]) -> inner (r, p) /\ 0 <= i < 128.
Proof.
  intros (H1 & H2 & H3). cbn in *. rewrite length_app in H2. cbn in H2.
  apply Forall_app in H3 as [H3 H4]. apply Forall_cons_1 in H4 as [H4 _]. unfold inner, valid. cbn. split_and!; done || lia.
Qed.
Lemma inner_valid q : inner q -> valid q.
Proof. by intros []. Qed.
Lemma leaf_valid q : leaf q -> valid q.
Proof. by intros []. Qed.

Lemma valid_root r : 0 <= r <= 14 -> valid (r, []).
Proof. intros. unfold valid; cbn. split_and!; try lia. constructor. Qed.
Lemma inner_root r : 12 <= r <= 14 -> inner (r, []).
Proof. intros. split; [apply valid_root; lia|]. unfold depth. cbn. lia. Qed.

(** ** Pointer blocks *)

Lemma ptr_set_sector b i v : is_sector b -> 0 <= i < 128 -> is_sector (ptr_set b i v).
Proof.
  intros [Hl Hb] Hi. unfold SECTOR_SIZE in *. split; [|by apply put_le_bytes].
  unfold ptr_set, SECTOR_SIZE. rewrite zlen_put_le; lia.
Qed.
Lemma ptr_get_set b i j v : is_sector b -> 0 <= i < 128 -> 0 <= j < 128 -> is_u32 v ->
  ptr_get (ptr_set b i v) j = if decide (j = i) then v else ptr_get b j.
Proof.
  intros [Hl Hb] Hi Hj Hv. unfold SECTOR_SIZE, is_u32 in *. unfold ptr_get, ptr_set. case_decide; subst.
  - rewrite get_put_le by lia. apply Z.mod_small. lia.
  - apply get_put_le_ne; lia.
Qed.
Lemma ptr_get_u32 b i : is_sector b -> 0 <= i < 128 -> is_u32 (ptr_get b i).
Proof. intros [Hl Hb] Hi. unfold SECTOR_SIZE in *. apply (get_le_bound 4); [done|lia|lia]. Qed.
Lemma ptr_get_zero i : 0 <= i < 128 -> ptr_get zero_sector i = 0.
Proof.
  intros Hi. unfold ptr_get, get_le, slice, zero_sector.
  rewrite drop_replicate, take_replicate.
  replace (Z.to_nat (Z.of_nat 4) `min` (512 - Z.to_nat (4 * i)))%nat with 4%nat by lia. done.
Qed.

(** ** Root slots *)

Lemma root_set_root n r r' b : inode_wf n -> 0 <= r <= 14 -> 0 <= r' <= 14 ->
  root_ptr (set_root r b n) r' = if decide (r' = r) then b else root_ptr n r'.
Proof.
  intros Hn Hr Hr'. destruct (wf_direct _ Hn) as [Hd _]. unfold root_ptr, set_root.
  destruct (r <? 12) eqn:E1; [|destruct (r =? 12) eqn:E2; [|destruct (r =? 13) eqn:E3]];
    (destruct (r' <? 12) eqn:E1'; [|destruct (r' =? 12) eqn:E2'; [|destruct (r' =? 13) eqn:E3']]);
    cbn; try (case_decide; first [done|lia]).
  rewrite aget_aset by lia. case_decide; case_decide; done || lia.
Qed.
Lemma set_root_wf n r b : inode_wf n -> is_u32 b -> inode_wf (set_root r b n).
Proof.
  intros [? [Hd1 Hd2] ? ? ? ? ? ? ?] Hb. unfold set_root.
  destruct (r <? 12); [|destruct (r =? 12); [|destruct (r =? 13)]]; constructor; cbn; try done.
  rewrite zlen_aset. split; [done|]. by apply aset_Forall.
Qed.
Lemma root_ptr_u32 n r : inode_wf n -> 0 <= r <= 14 -> is_u32 (root_ptr n r).
Proof.
  intros Hn Hr. destruct (wf_direct _ Hn) as [Hd1 Hd2]. unfold root_ptr.
  destruct (r <? 12) eqn:E1; [apply (aget_Forall is_u32); [done|lia]|].
  destruct (r =? 12); [apply Hn|]. destruct (r =? 13); apply Hn.
Qed.

(** The fields of an inode that do not point to blocks. *)
Definition meta (n : inode) := (size n, type n, main_tag n, tags n, unused n).
Lemma meta_set_root n r b : meta (set_root r b n) = meta n.
Proof. unfold set_root. destruct (r <? 12); [done|]. destruct (r =? 12); [done|]. by destruct (r =? 13). Qed.

(** ** Walking *)

Lemma walk_snoc a b p i : walk a b (p ++ [i]) = if walk a b p =? 0 then 0 else ptr_get (a_data a (walk a b p)) i.
Proof. unfold walk. by rewrite foldl_app. Qed.
Lemma lba_nil a n r : lba a n (r, []) = root_ptr n r.
Proof. done. Qed.
Lemma lba_snoc a n r p i : lba a n (r, p ++ [i]) = if lba a n (r, p) =? 0 then 0 else ptr_get (a_data a (lba a n (r, p))) i.
Proof. apply walk_snoc. Qed.
Lemma lba_one a n r i : lba a n (r, [i]) = if lba a n (r, []) =? 0 then 0 else ptr_get (a_data a (lba a n (r, []))) i.
Proof. apply (lba_snoc a n r []). Qed.
Lemma lba_two a n r i j : lba a n (r, [i; j]) = if lba a n (r, [i]) =? 0 then 0 else ptr_get (a_data a (lba a n (r, [i]))) j.
Proof. apply (lba_snoc a n r [i]). Qed.
Lemma lba_three a n r i j k : lba a n (r, [i; j; k]) = if lba a n (r, [i; j]) =? 0 then 0 else ptr_get (a_data a (lba a n (r, [i; j]))) k.
Proof. apply (lba_snoc a n r [i; j]). Qed.
Lemma lba_below_zero a n r p p' : lba a n (r, p) = 0 -> lba a n (r, p ++ p') = 0.
Proof.
  intros E. induction p' as [|i p' IH] using rev_ind; [by rewrite app_nil_r|].
  rewrite app_assoc, lba_snoc, IH. done.
Qed.

(** A tree only depends on the contents of its pointer blocks. *)
Lemma lba_frame a a' n q : valid q ->
  (forall q, inner q -> lba a n q <> 0 -> a_data a' (lba a n q) = a_data a (lba a n q)) -> lba a' n q = lba a n q.
Proof.
  intros Hq Hd. destruct q as [r p]. induction p as [|i p IH] using rev_ind; [done|].
  destruct (valid_parent _ _ _ Hq) as [Hin _]. rewrite !lba_snoc, IH by by apply inner_valid.
  destruct (lba a n (r, p) =? 0) eqn:E; [done|]. rewrite Hd; [done|done|lia].
Qed.

(** Two inodes that share no block. *)
Definition disjoint_trees (a : avol) (n n2 : inode) : Prop :=
  forall q q2, valid q -> valid q2 -> lba a n q <> 0 -> lba a n q <> lba a n2 q2.

(** Every block of the tree is an allocated data block, and no block is
    reached twice. *)
Record tree_ok (g : superblock) (a : avol) (n : inode) : Prop := {
  to_range : forall q, valid q -> lba a n q <> 0 ->
    data_start g <= lba a n q < total_blocks g /\ a_used a (lba a n q) = true;
  to_inj : forall q q', valid q -> valid q' -> lba a n q <> 0 -> lba a n q = lba a n q' -> q = q';
}.

(** ** Filling one position *)

(** [(a', n')] is [(a, n)] with the fresh block [b] hung at position [q]. *)
Record filled (idx : Z) (a : avol) (n : inode) (q : pos) (b : Z) (a' : avol) (n' : inode) : Prop := {
  fl_lba : forall q', valid q' -> lba a' n' q' = if decide (q' = q) then b else lba a n q';
  fl_used : forall l, a_used a' l = upd (a_used a) b true l;
  fl_data : forall l, a_used a l = true -> (forall q', inner q' -> lba a n q' <> l) -> a_data a' l = a_data a l;
  fl_meta : meta n' = meta n;
  fl_inode : forall j, j <> idx -> a_inode a' j = a_inode a j;
  fl_iused : a_iused a' = a_iused a;
  fl_cwd : a_cwd a' = a_cwd a;
}.

Section fill.
Context (g : superblock) (a : avol) (n : inode) (idx b : Z).
Context (Htree : tree_ok g a n) (Hn : inode_wf n) (Hds : 0 < data_start g).
Context (Hb : data_start g <= b < total_blocks g) (Hfree : a_used a b = false).
Context (Hsec : forall l, data_start g <= l < total_blocks g -> is_sector (a_data a l)).
Context (Htot : total_blocks g < 2 ^ 32).

Lemma fresh q : valid q -> lba a n q <> b.
Proof.
  intros Hq E. destruct (to_range _ _ _ Htree q Hq) as [_ Hu]; [lia|]. congruence.
Qed.

(** A root slot. *)
Lemma fill_root r a' : 0 <= r <= 14 -> root_ptr n r = 0 ->
  (forall l, l <> b -> a_data a' l = a_data a l) -> (r < 12 \/ a_data a' b = zero_sector) ->
  (forall l, a_used a' l = upd (a_used a) b true l) ->
  (forall j, j <> idx -> a_inode a' j = a_inode a j) -> a_iused a' = a_iused a -> a_cwd a' = a_cwd a ->
  filled idx a n (r, []) b a' (set_root r b n).
Proof.
  intros Hr Hz Hd Hzero Hu Hi Hiu Hc. constructor; auto using meta_set_root.
  - intros [r' p]. induction p as [|i p IH] using rev_ind; intros Hv.
    + rewrite !lba_nil. destruct Hv as (Hr' & _). cbn in Hr'. rewrite root_set_root by done.
      destruct (decide (r' = r)) as [->|]; [by rewrite decide_True|]. rewrite decide_False by congruence. done.
    + destruct (valid_parent _ _ _ Hv) as [Hp Hbi]. rewrite !lba_snoc, IH by by apply inner_valid.
      rewrite (decide_False (P := (r', p ++ [i]) = (r, []))) by (intros E; injection E as _ E; by destruct p).
      case_decide as E.
      * injection E as -> ->. rewrite lba_nil, Hz. cbn [Z.eqb].
        rewrite (proj2 (Z.eqb_neq b 0)) by lia. destruct Hzero as [?| ->]; [|by apply ptr_get_zero].
        destruct Hp as [_ Hp]. unfold depth in Hp. cbn in Hp. lia.
      * destruct (lba a n (r', p) =? 0); [done|]. rewrite Hd; [done|]. by apply fresh, inner_valid.
  - intros l Hl Hq. apply Hd. congruence.
Qed.

(** A slot of a pointer block. *)
Lemma fill_child r p i a' : let x := lba a n (r, p) in
  valid (r, p ++ [i]) -> x <> 0 -> lba a n (r, p ++ [i]) = 0 ->
  a_data a' x = ptr_set (a_data a x) i b -> (forall l, l <> b -> l <> x -> a_data a' l = a_data a l) ->
  (leaf (r, p ++ [i]) \/ a_data a' b = zero_sector) ->
  (forall l, a_used a' l = upd (a_used a) b true l) ->
  (forall j, a_inode a' j = a_inode a j) -> a_iused a' = a_iused a -> a_cwd a' = a_cwd a ->
  filled idx a n (r, p ++ [i]) b a' n.
Proof.
  intros x Hv Hx Hz Hdx Hd Hzero Hu Hi Hiu Hc. destruct (valid_parent _ _ _ Hv) as [Hp Hbi].
  destruct (to_range _ _ _ Htree _ (inner_valid _ Hp) Hx) as [Hxr Hxu].
  constructor; auto.
  - intros [r' p']. induction p' as [|j p' IH] using rev_ind; intros Hv'.
    + rewrite !lba_nil. rewrite decide_False by (intros E; injection E as _ E; by destruct p). done.
    + destruct (valid_parent _ _ _ Hv') as [Hp' Hbj]. rewrite !lba_snoc, IH by by apply inner_valid.
      case_decide as E.
      * injection E as -> ->. rewrite decide_False by (intros E%(f_equal (fun q => length q.2)); cbn in E; rewrite !length_app in E; cbn in E; lia).
        rewrite (proj2 (Z.eqb_neq b 0)) by lia. rewrite Hz. cbn [Z.eqb].
        destruct Hzero as [?| ->]; [|by apply ptr_get_zero]. by destruct (leaf_not_inner _ _ H Hp').
      * destruct (lba a n (r', p') =? 0) eqn:E0.
        { rewrite decide_False; [done|]. intros E1. injection E1 as -> [-> ->]%app_inj_tail. subst x. lia. }
        apply Z.eqb_neq in E0. destruct (decide (lba a n (r', p') = x)) as [Ex|Ex].
        -- assert ((r', p') = (r, p)) as E1 by (apply (to_inj _ _ _ Htree); auto using inner_valid).
           injection E1 as -> ->. fold x. rewrite Hdx, ptr_get_set by (auto; unfold is_u32; lia).
           destruct (decide (j = i)) as [->|]; [by rewrite decide_True|]. rewrite decide_False; [done|].
           intros E1. by injection E1 as [_ ?]%app_inj_tail.
        -- rewrite Hd by (auto; apply fresh; by apply inner_valid). rewrite decide_False; [done|].
           intros E1. injection E1 as -> [-> ->]%app_inj_tail. by destruct Ex.
  - intros l Hl Hq. apply Hd; [congruence|]. intros ->. by apply (Hq (r, p)).
Qed.

End fill.

Lemma filled_tree_ok g idx a n q b a' n' : tree_ok g a n -> valid q -> lba a n q = 0 -> 0 < data_start g ->
  data_start g <= b < total_blocks g -> a_used a b = false -> filled idx a n q b a' n' -> tree_ok g a' n'.
Proof.
  intros [Ht1 Ht2] Hq Hz Hds Hb Hf []. constructor.
  - intros q' Hq'. rewrite fl_lba0, fl_used0 by done. unfold upd. case_decide; [by rewrite decide_True|].
    intros Hne. case_decide; [lia|]. by apply Ht1.
  - intros q1 q2 H1 H2. rewrite !fl_lba0 by done.
    destruct (decide (q1 = q)), (decide (q2 = q)); intros Hne E; [congruence| | |by apply Ht2].
    + destruct (Ht1 q2 H2) as [_ ?]; congruence.
    + destruct (Ht1 q1 H1) as [_ ?]; congruence.
Qed.

(** ** Growing a tree *)

(** [(a', n')] is [(a, n)] after some positions were filled, the only data
    block among them being the one at [t]. *)
Record grows (idx : Z) (t : pos) (a : avol) (n : inode) (a' : avol) (n' : inode) : Prop := {
  gr_lba : forall q, valid q -> lba a n q <> 0 -> lba a' n' q = lba a n q;
  gr_leaf : forall q, leaf q -> q <> t -> lba a' n' q = lba a n q;
  gr_fresh : forall q, valid q -> lba a n q = 0 -> lba a' n' q <> 0 -> a_used a (lba a' n' q) = false;
  gr_used : forall l, a_used a l = true -> a_used a' l = true;
  gr_reach : forall l, a_used a l = false -> a_used a' l = true ->
    exists q, valid q /\ l <> 0 /\ lba a' n' q = l;
  gr_data : forall l, a_used a l = true -> (forall q, inner q -> lba a n q <> l) -> a_data a' l = a_data a l;
  gr_meta : meta n' = meta n;
  gr_inode : forall j, j <> idx -> a_inode a' j = a_inode a j;
  gr_iused : a_iused a' = a_iused a;
  gr_cwd : a_cwd a' = a_cwd a;
}.

Lemma grows_refl idx t a n : grows idx t a n a n.
Proof. constructor; done || congruence. Qed.

Lemma grows_trans g idx t a n a1 n1 a2 n2 : tree_ok g a1 n1 ->
  grows idx t a n a1 n1 -> grows idx t a1 n1 a2 n2 -> grows idx t a n a2 n2.
Proof.
  intros Ht G1 G2. constructor.
  - intros q Hq Hne. by rewrite (gr_lba _ _ _ _ _ _ G2), (gr_lba _ _ _ _ _ _ G1) by (rewrite ?(gr_lba _ _ _ _ _ _ G1); done).
  - intros q Hq Hne. by rewrite (gr_leaf _ _ _ _ _ _ G2), (gr_leaf _ _ _ _ _ _ G1).
  - intros q Hq Hz Hne. destruct (decide (lba a1 n1 q = 0)) as [E|E].
    + destruct (a_used a (lba a2 n2 q)) eqn:U; [|done].
      apply (gr_used _ _ _ _ _ _ G1) in U. by rewrite (gr_fresh _ _ _ _ _ _ G2) in U.
    + rewrite (gr_lba _ _ _ _ _ _ G2) by done. by apply (gr_fresh _ _ _ _ _ _ G1).
  - intros l Hl. by apply (gr_used _ _ _ _ _ _ G2), (gr_used _ _ _ _ _ _ G1).
  - intros l H0 H2. destruct (a_used a1 l) eqn:U; [|by apply (gr_reach _ _ _ _ _ _ G2)].
    destruct (gr_reach _ _ _ _ _ _ G1 l H0 U) as (q & Hq & Hne & E).
    exists q. split_and!; [done|done|]. by rewrite (gr_lba _ _ _ _ _ _ G2) by (done || lia).
  - intros l Hl Hq. rewrite (gr_data _ _ _ _ _ _ G2), (gr_data _ _ _ _ _ _ G1); [done..|by apply (gr_used _ _ _ _ _ _ G1)|].
    intros q Hin E. destruct (decide (lba a n q = 0)) as [E0|E0].
    + destruct (decide (l = 0)) as [->|].
      * by apply (Hq q).
      * rewrite <- E in Hl. rewrite (gr_fresh _ _ _ _ _ _ G1) in Hl; [done|by apply inner_valid|done|lia].
    + rewrite (gr_lba _ _ _ _ _ _ G1) in E by (done || by apply inner_valid). by apply (Hq q).
  - by rewrite (gr_meta _ _ _ _ _ _ G2), (gr_meta _ _ _ _ _ _ G1).
  - intros j Hj. by rewrite (gr_inode _ _ _ _ _ _ G2), (gr_inode _ _ _ _ _ _ G1).
  - by rewrite (gr_iused _ _ _ _ _ _ G2), (gr_iused _ _ _ _ _ _ G1).
  - by rewrite (gr_cwd _ _ _ _ _ _ G2), (gr_cwd _ _ _ _ _ _ G1).
Qed.

Lemma filled_grows g idx t a n q b a' n' : tree_ok g a n -> valid q -> lba a n q = 0 -> (inner q \/ q = t) ->
  b <> 0 -> a_used a b = false -> filled idx a n q b a' n' -> grows idx t a n a' n'.
Proof.
  intros Ht Hq Hz Hqt Hb Hf []. constructor; try done.
  - intros q' Hq' Hne. rewrite fl_lba0 by done. case_decide; congruence.
  - intros q' Hq' Hne. rewrite fl_lba0 by by apply leaf_valid. case_decide; [|done].
    subst. destruct Hqt as [Hin| ->]; [by destruct (leaf_not_inner _ _ Hq' Hin)|done].
  - intros q' Hq' Hz'. rewrite fl_lba0 by done. case_decide; congruence.
  - intros l Hl. rewrite fl_used0. unfold upd. by case_decide.
  - intros l H0. rewrite fl_used0. unfold upd. case_decide; [|congruence]. intros _. subst l.
    exists q. rewrite fl_lba0, decide_True by done. done.
Qed.

(** Number of free data blocks. *)
Definition nfree (g : superblock) (a : avol) : Z :=
  count (Z.to_nat (total_blocks g - data_start g)) (fun i => negb (a_used a (data_start g + i))).

Lemma nfree_nonneg g a : 0 <= nfree g a.
Proof. apply count_bounds. Qed.
Lemma nfree_filled g idx a n q b a' n' : data_start g <= b < total_blocks g -> a_used a b = false ->
  filled idx a n q b a' n' -> nfree g a = nfree g a' + 1.
Proof.
  intros Hb Hf []. unfold nfree. apply (count_flip _ _ _ (b - data_start g)); [lia|..].
  - replace (data_start g + (b - data_start g)) with b by lia. by rewrite fl_used0, upd_eq.
  - replace (data_start g + (b - data_start g)) with b by lia. by rewrite Hf.
  - intros i Hi Hne. rewrite fl_used0, upd_ne by lia. done.
Qed.
Lemma nfree_zero g a : (forall b, data_start g <= b < total_blocks g -> a_used a b = true) -> nfree g a = 0.
Proof.
  intros Hall. unfold nfree. rewrite (count_ext _ _ (fun _ => false)).
  - induction (Z.to_nat _) as [|m IH]; cbn [count]; lia.
  - intros i Hi. rewrite Hall by lia. done.
Qed.

End CosTree.
