(* ===== verification/CosBlocks.v ===== *)
(** COSFS block mapping: [get_physical_block] walks the tree of an inode and,
    when asked to, grows it; it fails only when the volume runs out of blocks. *)
From S2P Require Import Prelude CString Disk CosData CosAlloc CosFile CosAllocSpec CosVol CosTree.
From stdpp Require Import base list numbers.
From Stdlib Require Import ZArith Lia.
Import Cos CosAlloc CosFile CosAllocSpec CosVol CosTree.
Open Scope Z_scope.

Module CosBlocks.

Section spec.
Context {D : Type} `{BlockDevLaws D}.
Implicit Types s : fsstate D.

(** State [s] represents volume [a]; inode [idx] is [n] and its blocks form a
    tree. *)
Record fok g s (a : avol) (idx : Z) (n : inode) : Prop := {
  fo_rep : rep g s a;
  fo_idx : 0 <= idx < inode_count g;
  fo_at : a_inode a idx = n;
  fo_tree : tree_ok g a n;
}.

Lemma fok_wf g s a idx n : fok g s a idx n -> inode_wf n.
Proof. intros [Hr Hi <- _]. by apply (rep_inode_wf _ _ _ _ Hr). Qed.
Lemma fok_start g s a idx n : fok g s a idx n -> 0 < data_start g /\ total_blocks g < 2 ^ 32.
Proof. intros [Hr _ _ _]. destruct (r_geom _ _ _ Hr). lia. Qed.
Lemma fok_lba g s a idx n q : fok g s a idx n -> valid q -> lba a n q <> 0 ->
  data_start g <= lba a n q < total_blocks g.
Proof. intros [] Hq Hne. by apply (to_range _ _ _ fo_tree0). Qed.

(** Within [m] allocations block [blk] is at [q], or the volume is full. *)
Definition outcome g idx (t : pos) (m : Z) (a : avol) (n : inode) (q : pos) (blk : Z) s' n' : Prop :=
  (exists a', fok g s' a' idx n' /\ grows idx t a n a' n' /\ lba a' n' q = blk /\ blk <> 0 /\
     nfree g a - m <= nfree g a') \/
  (blk = 0 /\ nfree g a < m).

Lemma outcome_here g idx t a n q s : fok g s a idx n -> lba a n q <> 0 -> outcome g idx t 1 a n q (lba a n q) s n.
Proof. intros. left. exists a. split_and!; [done|apply grows_refl|done|done|lia]. Qed.

Lemma outcome_then g idx t m m' a n q q' blk blk' s1 n1 s2 n2 : 0 <= m' ->
  outcome g idx t m a n q blk s1 n1 ->
  (blk = 0 -> blk' = 0) ->
  (forall a1, fok g s1 a1 idx n1 -> lba a1 n1 q = blk -> blk <> 0 -> outcome g idx t m' a1 n1 q' blk' s2 n2) ->
  outcome g idx t (m + m') a n q' blk' s2 n2.
Proof.
  intros Hm [(a1 & Hf & G & Hl & Hb & Hc)|[Hb Hc]] Hz Hk.
  - destruct (Hk a1 Hf Hl Hb) as [(a2 & Hf2 & G2 & Hl2 & Hb2 & Hc2)|[Hb2 Hc2]].
    + left. exists a2. split_and!; [done| |done|done|lia].
      eapply grows_trans; [|exact G|exact G2]. by apply Hf.
    + right. split; [done|lia].
  - right. split; [by apply Hz|lia].
Qed.

Lemma outcome_filled g idx t s a n q b s' a' n' : fok g s a idx n -> valid q -> lba a n q = 0 ->
  (inner q \/ q = t) -> data_start g <= b < total_blocks g -> a_used a b = false ->
  rep g s' a' -> a_inode a' idx = n' -> filled idx a n q b a' n' -> outcome g idx t 1 a n q b s' n'.
Proof.
  intros Hf Hq Hz Hqt Hb Hfree Hr Hat Hfl. destruct (fok_start _ _ _ _ _ Hf) as [Hds _]. destruct Hf as [_ Hi _ Ht].
  left. exists a'. split_and!; [|eapply filled_grows; eauto; lia| |lia|].
  - constructor; [done|done|done|]. by eapply filled_tree_ok.
  - rewrite (fl_lba _ _ _ _ _ _ _ Hfl) by done. by rewrite decide_True.
  - rewrite (nfree_filled _ _ _ _ _ _ _ _ Hb Hfree Hfl). lia.
Qed.

Lemma fok_sector g s a idx n l : fok g s a idx n -> data_start g <= l < total_blocks g -> is_sector (a_data a l).
Proof. intros [Hr _ _ _]. apply (rep_data_sector _ _ _ _ Hr). Qed.

(** A root slot of the inode. *)
Lemma root_run g t s a idx n r : fok g s a idx n -> 12 <= r <= 14 ->
  match root_level idx (fun n => root_ptr n r) (set_root r) true n s with
  | (n', s') => outcome g idx t 1 a n (r, []) (root_ptr n' r) s' n'
  end.
Proof.
  intros Hf Hr. pose proof (fok_wf _ _ _ _ _ Hf) as Hwf. destruct (fok_start _ _ _ _ _ Hf) as [Hds Htot].
  unfold root_level. destruct (root_ptr n r =? 0) eqn:E; cbn [andb].
  2:{ munfold. apply outcome_here; [done|]. cbn. lia. }
  apply Z.eqb_eq in E. munfold. pose proof Hf as [Hrep Hidx Hat Htree].
  destruct (rep_alloc_block _ _ _ Hrep) as [(b & s1 & -> & Hb & Hfree & Hr1)|[Hfull ->]].
  - rewrite root_set_root, decide_True by (done || lia).
    destruct (rep_block_write _ _ _ b zero_sector Hr1 Hb zero_sector_ok) as (s2 & E2 & Hr2).
    unfold zero_block. rewrite E2.
    destruct (rep_write_inode _ _ _ idx (set_root r b n) Hr2 Hidx) as (s3 & E3 & Hr3);
      [apply set_root_wf; [done|unfold is_u32; lia]|]. rewrite E3.
    rewrite root_set_root, decide_True by (done || lia).
    eapply outcome_filled; try eassumption; cbn.
    + apply valid_root. lia.
    + left. apply inner_root. lia.
    + by rewrite upd_eq.
    + eapply fill_root; try eassumption; cbn; try done; [lia| |right; by rewrite upd_eq|].
      * intros l Hl. by rewrite upd_ne.
      * intros j Hj. by rewrite upd_ne.
  - rewrite root_set_root, decide_True by (done || lia). unfold zero_block, block_write, modify. cbn.
    destruct (write_inode _ _ _) as [[] s3].
    right. rewrite root_set_root, decide_True by (done || lia). split; [done|]. rewrite nfree_zero by done. lia.
Qed.

(** A direct slot: taken, but not zeroed. *)
Lemma direct_run g s a idx n k : fok g s a idx n -> 0 <= k < 12 ->
  match get_physical_block idx n k true s with
  | ((blk, n'), s') => outcome g idx (k, []) 1 a n (k, []) blk s' n'
  end.
Proof.
  intros Hf Hk. pose proof (fok_wf _ _ _ _ _ Hf) as Hwf. destruct (fok_start _ _ _ _ _ Hf) as [Hds Htot].
  unfold get_physical_block. unfold INODE_DIRECT. rewrite (proj2 (Z.ltb_lt _ _)) by lia.
  assert (Hroot : forall n', (direct n').[k] = root_ptr n' k).
  { intros. unfold root_ptr. by rewrite (proj2 (Z.ltb_lt _ _)) by lia. }
  assert (Hset : forall b, set_direct k b n = set_root k b n).
  { intros. unfold set_root. by rewrite (proj2 (Z.ltb_lt _ _)) by lia. }
  rewrite Hroot. destruct (root_ptr n k =? 0) eqn:E; cbn [andb].
  2:{ munfold. rewrite <- lba_nil with (a := a). apply outcome_here; [done|]. cbn. lia. }
  apply Z.eqb_eq in E. munfold. pose proof Hf as [Hrep Hidx Hat Htree].
  destruct (rep_alloc_block _ _ _ Hrep) as [(b & s1 & -> & Hb & Hfree & Hr1)|[Hfull ->]]; rewrite Hset.
  - destruct (rep_write_inode _ _ _ idx (set_root k b n) Hr1 Hidx) as (s3 & E3 & Hr3);
      [apply set_root_wf; [done|unfold is_u32; lia]|]. rewrite E3.
    rewrite Hroot, root_set_root, decide_True by (done || lia).
    eapply outcome_filled; try eassumption; cbn.
    + apply valid_root. lia.
    + by right.
    + by rewrite upd_eq.
    + eapply fill_root; try eassumption; cbn; try done; [lia|lia|].
      intros j Hj. by rewrite upd_ne.
  - destruct (write_inode _ _ _) as [[] s3]. rewrite Hroot, root_set_root, decide_True by (done || lia).
    right. split; [done|]. rewrite nfree_zero by done. lia.
Qed.

(** A slot of a pointer block, as an inner node or as a leaf. *)
Lemma index_run g t s a idx n r p i : fok g s a idx n -> inner (r, p ++ [i]) -> lba a n (r, p) <> 0 ->
  match index_level (lba a n (r, p)) i true s with
  | (blk, s') => outcome g idx t 1 a n (r, p ++ [i]) blk s' n
  end.
Proof.
  intros Hf Hin Hx. pose proof (fok_wf _ _ _ _ _ Hf) as Hwf. destruct (fok_start _ _ _ _ _ Hf) as [Hds Htot].
  pose proof (inner_valid _ Hin) as Hv. destruct (valid_parent _ _ _ Hv) as [Hp Hi].
  pose proof (fok_lba _ _ _ _ _ _ Hf (inner_valid _ Hp) Hx) as Hxr.
  destruct (to_range _ _ _ (fo_tree _ _ _ _ _ Hf) _ (inner_valid _ Hp) Hx) as [_ Hxu]. set (x := lba a n (r, p)) in *.
  pose proof Hf as [Hrep Hidx Hat Htree]. unfold index_level. munfold. rewrite (rep_block_read _ _ _ _ Hrep Hxr).
  assert (Hl : lba a n (r, p ++ [i]) = ptr_get (a_data a x) i).
  { rewrite lba_snoc. fold x. by rewrite (proj2 (Z.eqb_neq x 0)). }
  destruct (ptr_get (a_data a x) i =? 0) eqn:E; cbn [andb].
  2:{ munfold. rewrite <- Hl. apply outcome_here; [done|]. rewrite Hl. lia. }
  apply Z.eqb_eq in E. rewrite E in Hl.
  destruct (rep_alloc_block _ _ _ Hrep) as [(b & s1 & -> & Hb & Hfree & Hr1)|[Hfull ->]].
  - assert (Hbx : b <> x) by congruence.
    destruct (rep_block_write _ _ _ b zero_sector Hr1 Hb zero_sector_ok) as (s2 & E2 & Hr2).
    unfold zero_block. rewrite E2.
    destruct (rep_block_write _ _ _ x (ptr_set (a_data a x) i b) Hr2 Hxr) as (s3 & E3 & Hr3);
      [apply ptr_set_sector; [by eapply fok_sector|done]|]. rewrite E3.
    eapply outcome_filled; try eassumption; [by left|].
    eapply fill_child; try eassumption; cbn; try done.
    + intros l Hl'. by apply (fok_sector _ _ _ _ _ _ Hf).
    + fold x. by rewrite upd_eq.
    + intros l Hl1 Hl2. by rewrite !upd_ne.
    + right. by rewrite upd_ne, upd_eq.
  - unfold zero_block, block_write, modify. right. split; [done|]. rewrite nfree_zero by done. lia.
Qed.

Lemma leaf_run g s a idx n r p i : fok g s a idx n -> leaf (r, p ++ [i]) -> lba a n (r, p) <> 0 ->
  match leaf_level (lba a n (r, p)) i true s with
  | (blk, s') => outcome g idx (r, p ++ [i]) 1 a n (r, p ++ [i]) blk s' n
  end.
Proof.
  intros Hf Hin Hx. pose proof (fok_wf _ _ _ _ _ Hf) as Hwf. destruct (fok_start _ _ _ _ _ Hf) as [Hds Htot].
  pose proof (leaf_valid _ Hin) as Hv. destruct (valid_parent _ _ _ Hv) as [Hp Hi].
  pose proof (fok_lba _ _ _ _ _ _ Hf (inner_valid _ Hp) Hx) as Hxr.
  destruct (to_range _ _ _ (fo_tree _ _ _ _ _ Hf) _ (inner_valid _ Hp) Hx) as [_ Hxu]. set (x := lba a n (r, p)) in *.
  pose proof Hf as [Hrep Hidx Hat Htree]. unfold leaf_level. munfold. rewrite (rep_block_read _ _ _ _ Hrep Hxr).
  assert (Hl : lba a n (r, p ++ [i]) = ptr_get (a_data a x) i).
  { rewrite lba_snoc. fold x. by rewrite (proj2 (Z.eqb_neq x 0)). }
  destruct (ptr_get (a_data a x) i =? 0) eqn:E; cbn [andb].
  2:{ munfold. rewrite <- Hl. apply outcome_here; [done|]. rewrite Hl. lia. }
  apply Z.eqb_eq in E. rewrite E in Hl.
  destruct (rep_alloc_block _ _ _ Hrep) as [(b & s1 & -> & Hb & Hfree & Hr1)|[Hfull ->]].
  - assert (Hbx : b <> x) by congruence.
    destruct (rep_block_write _ _ _ x (ptr_set (a_data a x) i b) Hr1 Hxr) as (s3 & E3 & Hr3);
      [apply ptr_set_sector; [by eapply fok_sector|done]|]. rewrite E3.
    eapply outcome_filled; try eassumption; [by right|].
    eapply fill_child; try eassumption; cbn; try done.
    + intros l Hl'. by apply (fok_sector _ _ _ _ _ _ Hf).
    + fold x. by rewrite upd_eq.
    + intros l Hl1 Hl2. by rewrite !upd_ne.
    + by left.
  - unfold block_write, modify. right. split; [done|]. rewrite nfree_zero by done. lia.
Qed.

Lemma outcome_more g idx t m m' a n q blk s' n' : m <= m' ->
  outcome g idx t m a n q blk s' n' -> outcome g idx t m' a n q blk s' n'.
Proof. intros Hm [(a' & ? & ? & ? & ? & ?)|[? ?]]; [left; exists a'|right]; split_and!; done || lia. Qed.

(** The last two levels below a node known to be there, and the last three. *)
Lemma index_leaf_run g s a idx n r p i j : fok g s a idx n -> leaf (r, p ++ [i; j]) -> lba a n (r, p) <> 0 ->
  match (l1 ← index_level (lba a n (r, p)) i true;
         if l1 =? 0 then mret (0, n) else b ← leaf_level l1 j true; mret (b, n)) s with
  | ((blk, n'), s') => outcome g idx (r, p ++ [i; j]) 2 a n (r, p ++ [i; j]) blk s' n'
  end.
Proof.
  intros Hf Hl Hx. replace (p ++ [i; j]) with ((p ++ [i]) ++ [j]) in * by by rewrite <- app_assoc.
  destruct (valid_parent _ _ _ (leaf_valid _ Hl)) as [Hin Hj].
  pose proof (index_run g (r, (p ++ [i]) ++ [j]) s a idx n r p i Hf Hin Hx) as H1. munfold.
  destruct (index_level _ _ _ _) as [b1 s1]. destruct (b1 =? 0) eqn:E.
  - apply (outcome_then _ _ _ 1 1 _ _ _ _ _ 0 _ _ _ _ ltac:(lia) H1); [done|]. intros a1 _ _ ?. lia.
  - destruct (leaf_level b1 j true s1) as [b s2] eqn:E2.
    apply (outcome_then _ _ _ 1 1 _ _ _ _ _ b _ _ _ _ ltac:(lia) H1); [lia|].
    intros a1 Hf1 Hb1 Hne. pose proof (leaf_run g s1 a1 idx n r (p ++ [i]) j Hf1 Hl) as H2.
    rewrite Hb1, E2 in H2. by apply H2.
Qed.

Lemma index_index_leaf_run g s a idx n r i j k : fok g s a idx n -> leaf (r, [i; j; k]) -> lba a n (r, []) <> 0 ->
  match (l1 ← index_level (lba a n (r, [])) i true;
         if l1 =? 0 then mret (0, n) else
         l2 ← index_level l1 j true;
         if l2 =? 0 then mret (0, n) else b ← leaf_level l2 k true; mret (b, n)) s with
  | ((blk, n'), s') => outcome g idx (r, [i; j; k]) 3 a n (r, [i; j; k]) blk s' n'
  end.
Proof.
  intros Hf Hl Hx. destruct (valid_parent r [i; j] k (leaf_valid _ Hl)) as [Hin Hk].
  destruct (valid_parent r [i] j (inner_valid _ Hin)) as [Hin1 Hj].
  pose proof (index_run g (r, [i; j; k]) s a idx n r [] i Hf Hin1 Hx) as H1. munfold.
  destruct (index_level _ _ _ s) as [b1 s1]. destruct (b1 =? 0) eqn:E.
  - apply (outcome_then _ _ _ 1 2 _ _ _ _ _ 0 _ _ _ _ ltac:(lia) H1); [done|]. intros a1 _ _ ?. lia.
  - destruct ((l2 ← index_level b1 j true; if l2 =? 0 then mret (0, n) else b ← leaf_level l2 k true; mret (b, n)) s1)
      as [[b n'] s2] eqn:E2. unfold mbind, st_bind, mret, st_ret in E2. rewrite E2.
    apply (outcome_then _ _ _ 1 2 _ _ _ _ _ b _ _ _ _ ltac:(lia) H1); [lia|].
    intros a1 Hf1 Hb1 Hne. pose proof (index_leaf_run g s1 a1 idx n r [i] j k Hf1 Hl) as H2.
    cbn [app] in *. rewrite Hb1 in H2. unfold mbind, st_bind, mret, st_ret in H2. rewrite E2 in H2. by apply H2.
Qed.

(** The root stage of [get_physical_block] for indirect slot [r]: it leaves
    the state [s1], the inode [n1] and what the stage achieved in [H1]; a
    missing slot ends the walk. *)
Ltac root_stage Hf t r get set s1 n1 H1 E :=
  match type of Hf with fok ?g ?s ?a ?idx ?n =>
    pose proof (root_run g t s a idx n r Hf ltac:(lia)) as H1;
    change (root_level idx _ _ true n s) with (root_level idx get set true n s) in H1;
    rewrite (bind_run _ _ s _ _ (surjective_pairing _));
    destruct (root_level idx get set true n s) as [n1 s1]; cbn [fst snd] in *;
    change (root_ptr n1 r) with (get n1) in H1;
    destruct (get n1 =? 0) eqn:E;
    [apply (outcome_then _ _ _ 1 3 _ _ _ _ _ 0 _ _ _ _ ltac:(lia) H1); [done|]; intros ? _ _ ?; lia|]
  end.

(** [get_physical_block] with allocation. *)
Lemma gpb_run g s a idx n k : fok g s a idx n -> 0 <= k < MAX_BLOCKS ->
  match get_physical_block idx n k true s with
  | ((blk, n'), s') => outcome g idx (path_of k) 4 a n (path_of k) blk s' n'
  end.
Proof.
  intros Hf Hk. pose proof (path_leaf k Hk) as Hl. unfold path_of in *. destruct (k <? 12) eqn:E1.
  { pose proof (direct_run g s a idx n k Hf ltac:(lia)) as Hd.
    destruct (get_physical_block idx n k true s) as [[b n'] s']. by apply (outcome_more _ _ _ 1). }
  unfold get_physical_block, INODE_DIRECT, PTRS_PER_BLOCK, double_limit, triple_limit, PTRS_PER_BLOCK.
  rewrite E1. change (128 * 128) with 16384. change (16384 * 128) with 2097152.
  destruct (k - 12 <? 128) eqn:E2; [|destruct (k - 12 - 128 <? 16384) eqn:E3;
    [|rewrite (proj2 (Z.ltb_lt _ 2097152)) by (unfold MAX_BLOCKS in Hk; lia)]];
  match type of Hl with leaf ?q => set (t := q) in * end.
  - root_stage Hf t 12 single_indirect set_single s1 n1 H1 E.
    munfold. destruct (leaf_level (single_indirect n1) (k - 12) true s1) as [b s2] eqn:E3.
    apply (outcome_then _ _ _ 1 3 _ _ _ _ _ b _ _ _ _ ltac:(lia) H1); [lia|]. intros a1 Hf1 Hb1 Hne.
    apply (outcome_more _ _ _ 1); [lia|]. pose proof (leaf_run g s1 a1 idx n1 12 [] (k - 12) Hf1 Hl) as H2.
    rewrite Hb1, E3 in H2. by apply H2.
  - root_stage Hf t 13 double_indirect set_double s1 n1 H1 E.
    match goal with |- context [mbind ?f ?m s1] => destruct (mbind f m s1) as [[b n2] s2] eqn:E4 end.
    apply (outcome_then _ _ _ 1 3 _ _ _ _ _ b _ _ _ _ ltac:(lia) H1); [lia|]. intros a1 Hf1 Hb1 Hne.
    apply (outcome_more _ _ _ 2); [lia|].
    pose proof (index_leaf_run g s1 a1 idx n1 13 [] _ _ Hf1 Hl) as H2. rewrite Hb1, E4 in H2. by apply H2.
  - root_stage Hf t 14 triple_indirect set_triple s1 n1 H1 E.
    match goal with |- context [mbind ?f ?m s1] => destruct (mbind f m s1) as [[b n2] s2] eqn:E4 end.
    apply (outcome_then _ _ _ 1 3 _ _ _ _ _ b _ _ _ _ ltac:(lia) H1); [lia|]. intros a1 Hf1 Hb1 Hne.
    pose proof (index_index_leaf_run g s1 a1 idx n1 14 _ _ _ Hf1 Hl) as H2. rewrite Hb1, E4 in H2. by apply H2.
Qed.

End spec.
End CosBlocks.
