(* ===== verification/CosContent.v ===== *)
(** COSFS file contents: what [fs_read] returns and what [fs_write] leaves, on
    the tree of blocks of an inode. *)
From S2P Require Import Prelude CString Disk CosData CosAlloc CosFile CosAllocSpec CosVol CosTree CosBlocks.
From stdpp Require Import base list numbers.
From Stdlib Require Import ZArith Lia.
Import Cos CosAlloc CosFile CosAllocSpec CosVol CosTree CosBlocks.
Open Scope Z_scope.

Module CosContent.

(** Block number of logical block [k], 0 for a hole. *)
Definition bmap (a : avol) (n : inode) (k : Z) : Z := if k <? MAX_BLOCKS then lba a n (path_of k) else 0.
(** Its contents; holes read as zeros. *)
Definition block_of (a : avol) (n : inode) (k : Z) : sector :=
  if bmap a n k =? 0 then zero_sector else a_data a (bmap a n k).
(** Byte [i] of the file. *)
Definition content (a : avol) (n : inode) (i : Z) : Z := (block_of a n (i / 512)).[i mod 512].

(** ** Steps on a volume *)

(** [(a', n')] is [(a, n)] with more blocks in the tree of inode [idx]; the
    data of that tree may have changed, nothing else has. *)
Record extends (idx : Z) (a : avol) (n : inode) (a' : avol) (n' : inode) : Prop := {
  ex_lba : forall q, valid q -> lba a n q <> 0 -> lba a' n' q = lba a n q;
  ex_fresh : forall q, valid q -> lba a n q = 0 -> lba a' n' q <> 0 -> a_used a (lba a' n' q) = false;
  ex_used : forall l, a_used a l = true -> a_used a' l = true;
  ex_reach : forall l, a_used a l = false -> a_used a' l = true ->
    exists q, valid q /\ l <> 0 /\ lba a' n' q = l;
  ex_foreign : forall l, a_used a l = true -> (forall q, valid q -> lba a n q <> l) -> a_data a' l = a_data a l;
  ex_inode : forall j, j <> idx -> a_inode a' j = a_inode a j;
  ex_iused : a_iused a' = a_iused a;
  ex_cwd : a_cwd a' = a_cwd a;
}.

Lemma extends_refl idx a n : extends idx a n a n.
Proof. constructor; done || congruence. Qed.
Lemma grows_extends idx t a n a' n' : grows idx t a n a' n' -> extends idx a n a' n'.
Proof.
  intros []. constructor; try done. intros l Hl Hq. apply gr_data0; [done|]. intros q Hin. by apply Hq, inner_valid.
Qed.
Lemma extends_trans idx a n a1 n1 a2 n2 : extends idx a n a1 n1 -> extends idx a1 n1 a2 n2 -> extends idx a n a2 n2.
Proof.
  intros G1 G2. constructor.
  - intros q Hq Hne. by rewrite (ex_lba _ _ _ _ _ G2), (ex_lba _ _ _ _ _ G1) by (rewrite ?(ex_lba _ _ _ _ _ G1); done).
  - intros q Hq Hz Hne. destruct (decide (lba a1 n1 q = 0)) as [E|E].
    + destruct (a_used a (lba a2 n2 q)) eqn:U; [|done].
      apply (ex_used _ _ _ _ _ G1) in U. by rewrite (ex_fresh _ _ _ _ _ G2) in U.
    + rewrite (ex_lba _ _ _ _ _ G2) by done. by apply (ex_fresh _ _ _ _ _ G1).
  - intros l Hl. by apply (ex_used _ _ _ _ _ G2), (ex_used _ _ _ _ _ G1).
  - intros l H0 H2. destruct (a_used a1 l) eqn:U; [|by apply (ex_reach _ _ _ _ _ G2)].
    destruct (ex_reach _ _ _ _ _ G1 l H0 U) as (q & Hq & Hne & E).
    exists q. split_and!; [done|done|]. by rewrite (ex_lba _ _ _ _ _ G2) by (done || lia).
  - intros l Hl Hq. rewrite (ex_foreign _ _ _ _ _ G2), (ex_foreign _ _ _ _ _ G1); [done..|by apply (ex_used _ _ _ _ _ G1)|].
    intros q Hin E. destruct (decide (lba a n q = 0)) as [E0|E0].
    + destruct (decide (l = 0)) as [->|]; [by apply (Hq q)|].
      rewrite <- E in Hl. rewrite (ex_fresh _ _ _ _ _ G1) in Hl; [done|done|done|lia].
    + rewrite (ex_lba _ _ _ _ _ G1) in E by done. by apply (Hq q).
  - intros j Hj. by rewrite (ex_inode _ _ _ _ _ G2), (ex_inode _ _ _ _ _ G1).
  - by rewrite (ex_iused _ _ _ _ _ G2), (ex_iused _ _ _ _ _ G1).
  - by rewrite (ex_cwd _ _ _ _ _ G2), (ex_cwd _ _ _ _ _ G1).
Qed.

(** The tree and the contents of another inode stay what they were. *)
Lemma extends_other g idx a n a' n' n2 : tree_ok g a n2 -> disjoint_trees a n n2 -> extends idx a n a' n' ->
  (forall q, valid q -> lba a' n2 q = lba a n2 q) /\ tree_ok g a' n2 /\
  (forall k, 0 <= k -> block_of a' n2 k = block_of a n2 k) /\ disjoint_trees a' n' n2.
Proof.
  intros Ht Hdis He.
  assert (Hdat : forall q, valid q -> lba a n2 q <> 0 -> a_data a' (lba a n2 q) = a_data a (lba a n2 q)).
  { intros q Hq Hne. apply (ex_foreign _ _ _ _ _ He); [by apply (to_range _ _ _ Ht)|].
    intros q1 Hq1 E. by apply (Hdis q1 q Hq1 Hq); [congruence|]. }
  assert (Hlba : forall q, valid q -> lba a' n2 q = lba a n2 q).
  { intros q Hq. apply lba_frame; [done|]. intros q1 Hq1. by apply Hdat, inner_valid. }
  split_and!; [done| | |].
  - constructor.
    + intros q Hq. rewrite Hlba by done. intros Hne. destruct (to_range _ _ _ Ht q Hq Hne) as [? ?].
      split; [done|]. by apply (ex_used _ _ _ _ _ He).
    + intros q1 q2 H1 H2. rewrite !Hlba by done. by apply Ht.
  - intros k Hk. unfold block_of, bmap. destruct (k <? MAX_BLOCKS) eqn:E; [|done].
    assert (Hv : valid (path_of k)) by (apply leaf_valid, path_leaf; lia). rewrite Hlba by done.
    destruct (lba a n2 (path_of k) =? 0) eqn:E2; [done|]. apply Hdat; [done|lia].
  - intros q q2 Hq Hq2 Hne E. rewrite Hlba in E by done. destruct (decide (lba a n q = 0)) as [Ez|Ez].
    + pose proof (ex_fresh _ _ _ _ _ He q Hq Ez Hne) as Hf. rewrite E in Hf.
      destruct (to_range _ _ _ Ht q2 Hq2) as [_ ?]; [congruence|congruence].
    + rewrite (ex_lba _ _ _ _ _ He) in E by done. by apply (Hdis q q2).
Qed.

(** Data of a leaf may be overwritten without moving anything. *)
Lemma lba_put_leaf g a n q l b q' : tree_ok g a n -> leaf q -> lba a n q = l -> l <> 0 -> valid q' ->
  lba (a_put l b a) n q' = lba a n q'.
Proof.
  intros Ht Hq <- Hne. destruct q' as [r p]. induction p as [|i p IH] using rev_ind; [done|]. intros Hv.
  destruct (valid_parent _ _ _ Hv) as [Hin _]. rewrite !lba_snoc, IH by by apply inner_valid.
  destruct (lba a n (r, p) =? 0) eqn:E; [done|]. cbn. rewrite upd_ne; [done|]. intros E2.
  apply (leaf_not_inner q (r, p)); [done|done|]. symmetry. apply (to_inj _ _ _ Ht); auto using inner_valid, leaf_valid. lia.
Qed.
Lemma tree_ok_put_leaf g a n q l b : tree_ok g a n -> leaf q -> lba a n q = l -> l <> 0 -> tree_ok g (a_put l b a) n.
Proof.
  intros Ht Hq E Hne. constructor.
  - intros q' Hq'. erewrite lba_put_leaf by done. by apply Ht.
  - intros q1 q2 H1 H2. rewrite !(lba_put_leaf g a n q l b) by done. by apply Ht.
Qed.

(** Logical block [k] was given contents [b]. *)
Record wrote_block idx (k : Z) (b : sector) a n a' n' : Prop := {
  wb_ext : extends idx a n a' n';
  wb_here : bmap a' n' k <> 0 /\ block_of a' n' k = b;
  wb_other : forall j, 0 <= j -> j <> k -> bmap a' n' j = bmap a n j /\ block_of a' n' j = block_of a n j;
}.

(** Bytes [off .. off + w - 1] of the file were given the values of [data]:
    bytes of blocks that existed keep theirs, other blocks stay holes. *)
Record written idx (data : list Z) (off w : Z) a n a' n' : Prop := {
  wt_ext : extends idx a n a' n';
  wt_new : forall i, off <= i < off + w -> bmap a' n' (i / 512) <> 0 /\ content a' n' i = data.[i - off];
  wt_old : forall i, 0 <= i -> ~ off <= i < off + w -> bmap a n (i / 512) <> 0 -> content a' n' i = content a n i;
  wt_hole : forall k, 0 <= k -> (k < off / 512 \/ off + w <= k * 512) -> bmap a' n' k = bmap a n k;
}.

Section spec.
Context {D : Type} `{BlockDevLaws D}.
Implicit Types s : fsstate D.

(** ** Reading *)

Lemma gpb_read g s a n idx k : rep g s a -> tree_ok g a n -> 0 <= k ->
  get_physical_block idx n k false s = ((bmap a n k, n), s).
Proof.
  intros Hr Ht Hk. unfold bmap. destruct (k <? MAX_BLOCKS) eqn:E0; unfold MAX_BLOCKS in E0.
  2:{ unfold get_physical_block, INODE_DIRECT, PTRS_PER_BLOCK, double_limit, triple_limit, PTRS_PER_BLOCK.
      repeat rewrite (proj2 (Z.ltb_ge _ _)) by lia. done. }
  assert (Hl : leaf (path_of k)) by (apply path_leaf; unfold MAX_BLOCKS; lia).
  assert (Hrd : forall q, inner q -> lba a n q <> 0 -> block_read (lba a n q) s = (a_data a (lba a n q), s)).
  { intros q Hq Hne. apply (rep_block_read _ _ _ _ Hr). by apply (to_range _ _ _ Ht); [apply inner_valid|]. }
  unfold get_physical_block, INODE_DIRECT, PTRS_PER_BLOCK, double_limit, triple_limit, PTRS_PER_BLOCK.
  unfold path_of in *. change (128 * 128) with 16384. change (16384 * 128) with 2097152.
  unfold root_level, index_level, leaf_level.
  destruct (k <? 12) eqn:E1.
  { rewrite andb_false_r. unfold lba, root_ptr. cbn [fst snd]. by rewrite E1. }
  destruct (k - 12 <? 128) eqn:E2; [|destruct (k - 12 - 128 <? 16384) eqn:E3;
    [|rewrite (proj2 (Z.ltb_lt _ 2097152)) by lia]]; munfold; rewrite !andb_false_r; cbn [fst snd].
  - rewrite lba_one. change (single_indirect n) with (lba a n (12, [])).
    destruct (lba a n (12, []) =? 0) eqn:Ez; [done|].
    rewrite (Hrd (12, [])) by (lia || (apply inner_root; lia)). by rewrite andb_false_r.
  - destruct (valid_parent 13 [_] _ (leaf_valid _ Hl)) as [Hp _].
    rewrite lba_two, lba_one. change (double_indirect n) with (lba a n (13, [])).
    destruct (lba a n (13, []) =? 0) eqn:Ez; [done|].
    rewrite (Hrd (13, [])) by (lia || (apply inner_root; lia)). rewrite andb_false_r.
    pose proof (Hrd _ Hp) as R. rewrite lba_one, Ez in R.
    destruct (ptr_get _ _ =? 0) eqn:Ez2; [done|]. rewrite R by lia. by rewrite andb_false_r.
  - destruct (valid_parent 14 [_; _] _ (leaf_valid _ Hl)) as [Hp2 _].
    destruct (valid_parent 14 [_] _ (inner_valid _ Hp2)) as [Hp1 _].
    pose proof (Hrd _ Hp2) as R3. pose proof (Hrd _ Hp1) as R2. cbn [app] in R3.
    rewrite lba_three. rewrite lba_two in *. rewrite lba_one in *. change (triple_indirect n) with (lba a n (14, [])).
    destruct (lba a n (14, []) =? 0) eqn:Ez; [done|].
    rewrite (Hrd (14, [])) by (lia || (apply inner_root; lia)). rewrite andb_false_r.
    destruct (ptr_get (a_data a (lba a n (14, []))) _ =? 0) eqn:Ez2; [done|]. rewrite R2 by lia. rewrite andb_false_r.
    destruct (ptr_get (a_data a (ptr_get _ _)) ((k - 12 - 128 - 16384) mod 16384 / 128) =? 0) eqn:Ez3; [done|]. rewrite R3 by lia. by rewrite andb_false_r.
Qed.

Lemma block_of_sector g s a n k : rep g s a -> tree_ok g a n -> 0 <= k -> is_sector (block_of a n k).
Proof.
  intros Hr Ht Hk. unfold block_of. destruct (bmap a n k =? 0) eqn:E; [apply zero_sector_ok|].
  apply (rep_data_sector _ _ _ _ Hr). unfold bmap in *. destruct (k <? MAX_BLOCKS) eqn:E1; [|done].
  apply (to_range _ _ _ Ht); [apply leaf_valid, path_leaf; lia|lia].
Qed.

(** Bytes copied after [j] rounds of a loop over [len] bytes from [off]. *)
Definition done_after (off len j : Z) : Z := Z.min len (Z.max 0 (j * 512 - off mod 512)).
Lemma done_after_step off len j : 0 <= off -> 0 <= j -> done_after off len j < len ->
  done_after off len (j + 1) = done_after off len j + Z.min (512 - (off + done_after off len j) mod 512) (len - done_after off len j).
Proof. unfold done_after. intros. zdm. Qed.
Lemma done_after_end off len : 0 <= len -> done_after off len (0 + Z.of_nat (sector_rounds len)) = len.
Proof. unfold done_after, sector_rounds, SECTOR_SIZE. intros. zdm. Qed.

Lemma read_chunk g s a n o m : rep g s a -> tree_ok g a n -> 0 <= o -> 0 <= m -> o mod 512 + m <= 512 ->
  slice (block_of a n (o / 512)) (o mod 512) m = tab (content a n) o m.
Proof.
  intros Hr Ht Ho Hm Hle. destruct (block_of_sector _ _ _ n (o / 512) Hr Ht ltac:(zdm)) as [Hl _].
  unfold SECTOR_SIZE in Hl.
  assert (Hz : zlen (slice (block_of a n (o / 512)) (o mod 512) m) = m) by (apply zlen_slice; zdm).
  rewrite <- Hz at 2. apply tab_eq. rewrite Hz. intros i Hi. rewrite aget_slice by zdm.
  unfold content. f_equal; [f_equal|]; zdm.
Qed.

(** [fs_read] yields the bytes of the file up to its size, and touches nothing. *)
Lemma fs_read_run g s a n idx off sz : rep g s a -> tree_ok g a n -> inode_wf n ->
  0 <= off -> 0 <= sz -> off + sz < 2 ^ 32 ->
  fs_read idx n off sz s = (tab (content a n) off (Z.min sz (size n - off)), s).
Proof.
  intros Hr Ht Hn Hoff Hsz Hw. destruct (wf_size _ Hn) as [Hs0 Hs1]. unfold fs_read.
  destruct (size n <=? off) eqn:E; [by rewrite tab_nil by lia|]. rewrite u32_small by lia.
  assert (Hlen : (if size n <? off + sz then size n - off else sz) = Z.min sz (size n - off)).
  { destruct (size n <? off + sz) eqn:E2; lia. }
  rewrite Hlen. set (len := Z.min sz (size n - off)). assert (Hlen0 : 0 <= len /\ off + len < 2 ^ 32) by lia.
  clearbody len. clear E Hlen.
  assert (HQ : (fun r s' => s' = s /\ match r with inl o | inr o => o = tab (content a n) off len end)
    (aloop (sector_rounds len) 0 [] (fs_read_step idx n off len) s).1
    (aloop (sector_rounds len) 0 [] (fs_read_step idx n off len) s).2).
  { apply (aloop_inv (fun j o s' => s' = s /\ 0 <= j /\ o = tab (content a n) off (done_after off len j))).
    - split_and!; [done|done|]. rewrite tab_nil; [done|]. unfold done_after. zdm.
    - intros j o s' Hj (-> & Hj0 & ->). pose proof (done_after_step off len j) as Hst.
      set (w := done_after off len j) in *. assert (Hw0 : 0 <= w <= len) by (subst w; unfold done_after; lia).
      unfold fs_read_step. rewrite zlen_tab by lia. destruct (w <? len) eqn:E.
      + rewrite u32_small by lia. unfold SECTOR_SIZE. set (o := off + w) in *.
        rewrite (bind_run _ _ _ _ _ (gpb_read _ _ _ _ idx (o / 512) Hr Ht ltac:(zdm))).
        assert (Hb : (if bmap a n (o / 512) =? 0 then mret zero_sector else block_read (bmap a n (o / 512))) s
                     = (block_of a n (o / 512), s)).
        { unfold block_of. destruct (bmap a n (o / 512) =? 0) eqn:Eb; [done|].
          apply (rep_block_read _ _ _ _ Hr). unfold bmap in *. destruct (o / 512 <? MAX_BLOCKS) eqn:Em; [|done].
          apply (to_range _ _ _ Ht); [apply leaf_valid, path_leaf; zdm|lia]. }
        rewrite (bind_run _ _ _ _ _ Hb). munfold.
        set (c := Z.min _ _) in *. assert (Hc : 0 <= c /\ o mod 512 + c <= 512) by (subst c; zdm).
        rewrite (read_chunk g s) by (done || lia). split_and!; [done|lia|].
        rewrite <- tab_app by lia. f_equal. lia.
      + split; [done|]. f_equal. lia.
    - intros o s' (-> & _ & ->). rewrite done_after_end by lia. done. }
  cbn beta in HQ. unfold mbind, st_bind. destruct (aloop _ _ _ _ s) as [[o|o] s'] eqn:E;
    cbn [fst snd] in HQ; destruct HQ as [-> ->]; done.
Qed.

(** ** Writing *)

Lemma bmap_path a n k : 0 <= k < MAX_BLOCKS -> bmap a n k = lba a n (path_of k).
Proof. intros. unfold bmap. by rewrite (proj2 (Z.ltb_lt _ _)) by lia. Qed.

(** Overwriting a data block of the file. *)
Lemma put_leaf_run g s a idx n q blk b : fok g s a idx n -> leaf q -> lba a n q = blk -> blk <> 0 -> is_sector b ->
  exists s', block_write blk b s = (tt, s') /\ fok g s' (a_put blk b a) idx n /\ extends idx a n (a_put blk b a) n.
Proof.
  intros Hf Hl Hlba Hb Hsec. pose proof Hf as [Hr Hi Hat Ht].
  destruct (rep_block_write _ _ _ blk b Hr) as (s2 & Ew & Hr2); [|done|].
  { rewrite <- Hlba. by eapply fok_lba; [|apply leaf_valid|rewrite Hlba]. }
  assert (Hll : forall q', valid q' -> lba (a_put blk b a) n q' = lba a n q') by (intros; by eapply lba_put_leaf).
  exists s2. split_and!; [done| |].
  - constructor; [done|done|done|]. by eapply tree_ok_put_leaf.
  - constructor; cbn; try done.
    + intros q' Hq' _. by apply Hll.
    + intros q' Hq' Hz. rewrite Hll by done. congruence.
    + congruence.
    + intros l Hl' Hq. apply upd_ne. intros ->. apply (Hq q); [by apply leaf_valid|done].
Qed.

(** Finding or making block [k], then filling it. *)
Lemma block_round g s a idx n k blk n1 s1 : fok g s a idx n -> 0 <= k < MAX_BLOCKS ->
  get_physical_block idx n k true s = ((blk, n1), s1) ->
  (blk = 0 /\ nfree g a < 4) \/
  (blk <> 0 /\ meta n1 = meta n /\ exists old, block_read blk s1 = (old, s1) /\ is_sector old /\
     (bmap a n k <> 0 -> old = block_of a n k) /\
     forall b, is_sector b -> exists a2 s2, block_write blk b s1 = (tt, s2) /\ fok g s2 a2 idx n1 /\
       wrote_block idx k b a n a2 n1 /\ nfree g a - 4 <= nfree g a2).
Proof.
  intros Hf Hk E. pose proof (gpb_run g s a idx n k Hf Hk) as Ho. rewrite E in Ho.
  pose proof (path_leaf k Hk) as Hl. destruct Ho as [(a1 & Hf1 & G & Hlba & Hb & Hn)|Ho]; [right|by left].
  pose proof (fok_lba _ _ _ _ _ (path_of k) Hf1 (leaf_valid _ Hl)) as Hrange. rewrite Hlba in Hrange.
  specialize (Hrange Hb). pose proof Hf1 as [Hr1 Hi1 Hat1 Ht1].
  split_and!; [done|apply G|]. exists (a_data a1 blk). split_and!.
  - by apply (rep_block_read g).
  - by eapply fok_sector.
  - rewrite bmap_path by done. intros Hne. unfold block_of. rewrite bmap_path by done.
    rewrite (proj2 (Z.eqb_neq _ 0)) by done.
    rewrite <- Hlba, (gr_lba _ _ _ _ _ _ G) by (done || by apply leaf_valid). apply (gr_data _ _ _ _ _ _ G).
    + by apply (to_range _ _ _ (fo_tree _ _ _ _ _ Hf)); [apply leaf_valid|].
    + intros q Hq Eq. apply (leaf_not_inner _ _ Hl Hq). symmetry.
      apply (to_inj _ _ _ (fo_tree _ _ _ _ _ Hf)); auto using inner_valid, leaf_valid. congruence.
  - intros b Hsec. destruct (put_leaf_run g s1 a1 idx n1 (path_of k) blk b Hf1 Hl Hlba Hb Hsec) as (s2 & Ew & Hf2 & He2).
    assert (Hll : forall q', valid q' -> lba (a_put blk b a1) n1 q' = lba a1 n1 q') by (intros; by eapply lba_put_leaf).
    exists (a_put blk b a1), s2. split_and!; [done|done| |done].
    constructor.
      * eapply extends_trans; [by eapply grows_extends|done].
      * unfold block_of. rewrite bmap_path, Hll, Hlba by (done || by apply leaf_valid).
        rewrite (proj2 (Z.eqb_neq blk 0)) by done. split; [done|]. cbn. by rewrite upd_eq.
      * intros j Hj Hne. unfold block_of, bmap. destruct (j <? MAX_BLOCKS) eqn:Ej; [|done].
        assert (Hlj : leaf (path_of j)) by (apply path_leaf; lia).
        assert (Hpn : path_of j <> path_of k) by (intros Ep; apply Hne, path_inj; [lia..|done]).
        rewrite Hll by by apply leaf_valid. rewrite (gr_leaf _ _ _ _ _ _ G) by done. split; [done|].
        destruct (lba a n (path_of j) =? 0) eqn:Ez; [done|]. apply Z.eqb_neq in Ez.
        assert (Hsame : lba a1 n1 (path_of j) = lba a n (path_of j)) by by apply (gr_leaf _ _ _ _ _ _ G).
        cbn. rewrite upd_ne.
        -- apply (gr_data _ _ _ _ _ _ G).
           ++ by apply (to_range _ _ _ (fo_tree _ _ _ _ _ Hf)); [apply leaf_valid|].
           ++ intros q Hq Eq. apply (leaf_not_inner _ _ Hlj Hq). symmetry.
              apply (to_inj _ _ _ (fo_tree _ _ _ _ _ Hf)); auto using inner_valid, leaf_valid. congruence.
        -- intros Eb. apply Hpn. apply (to_inj _ _ _ Ht1); auto using leaf_valid; congruence.
Qed.

Lemma written_refl idx data off a n : written idx data off 0 a n a n.
Proof. constructor; [apply extends_refl|lia|done|done]. Qed.

(** One more chunk. *)
Lemma written_step idx data off w c a n a1 n1 a2 n2 old : 0 <= off -> 0 <= w -> 0 < c -> w + c <= zlen data ->
  let k := (off + w) / 512 in let o := (off + w) mod 512 in
  o + c <= 512 -> is_sector old -> (bmap a1 n1 k <> 0 -> old = block_of a1 n1 k \/ (o = 0 /\ c = 512)) ->
  written idx data off w a n a1 n1 -> wrote_block idx k (splice old o (slice data w c)) a1 n1 a2 n2 ->
  written idx data off (w + c) a n a2 n2.
Proof.
  intros Hoff Hw Hc Hd k o Hoc [Hol _] Hold [He Hnew Hwold Hhole] [Hbe [Hb1 Hb2] Hbo].
  unfold SECTOR_SIZE in Hol. assert (Hsz : zlen (slice data w c) = c) by (apply zlen_slice; lia).
  assert (Hk0 : 0 <= k /\ 0 <= o /\ off + w = k * 512 + o) by (subst k o; zdm).
  assert (Hhere : forall i, i / 512 = k -> 0 <= i -> content a2 n2 i =
    if decide (o <= i mod 512 < o + c) then data.[i - off] else old.[i mod 512]).
  { intros i Hi Hi0. unfold content. rewrite Hi, Hb2, aget_splice by (rewrite ?Hsz; zdm). rewrite Hsz.
    case_decide; [|done]. rewrite aget_slice by lia. f_equal. zdm. }
  assert (Hthere : forall i, i / 512 <> k -> 0 <= i -> content a2 n2 i = content a1 n1 i).
  { intros i Hi Hi0. unfold content. destruct (Hbo (i / 512)) as [_ ->]; [zdm|done|done]. }
  assert (Hkeep : forall i, 0 <= i -> i / 512 = k -> ~ off + w <= i < off + w + c -> bmap a1 n1 k <> 0 ->
    content a2 n2 i = content a1 n1 i).
  { intros i Hi0 Hi Hout Hne. rewrite Hhere by done. rewrite decide_False by zdm.
    destruct (Hold Hne) as [->|[? ?]]; [unfold content; by rewrite Hi|zdm]. }
  constructor.
  - by eapply extends_trans.
  - intros i Hi. destruct (decide (i / 512 = k)) as [E|E].
    + rewrite E. split; [done|]. destruct (decide (off + w <= i)).
      * rewrite Hhere by (done || lia). rewrite decide_True by zdm. done.
      * destruct (Hnew i) as [Hm Hv]; [lia|]. rewrite Hkeep by (done || lia || by rewrite <- E). done.
    + rewrite Hthere by (done || lia). destruct (Hbo (i / 512)) as [-> _]; [zdm|done|].
      apply Hnew. destruct (decide (i < off + w)); [lia|]. exfalso. apply E. zdm.
  - intros i Hi Hout Hm. assert (Hm1 : bmap a1 n1 (i / 512) <> 0).
    { unfold bmap in *. destruct (i / 512 <? MAX_BLOCKS) eqn:Em; [|done].
      rewrite (ex_lba _ _ _ _ _ He); [done|apply leaf_valid, path_leaf; zdm|done]. }
    destruct (decide (i / 512 = k)) as [E|E].
    + rewrite Hkeep by (done || lia || by rewrite <- E). apply Hwold; [done|lia|done].
    + rewrite Hthere by done. apply Hwold; [done|lia|done].
  - intros j Hj Hout. destruct (Hbo j) as [-> _]; [done|subst k; zdm|]. apply Hhole; [done|lia].
Qed.

Lemma done_after_pos off len j : 0 <= off -> 0 <= j -> done_after off len j < len -> 0 <= len ->
  let w := done_after off len j in 0 <= w /\ 0 < Z.min (512 - (off + w) mod 512) (len - w).
Proof. unfold done_after. intros. zdm. Qed.

(** Every round of the loop of [fs_write] writes its chunk. *)
Lemma fs_write_step_run g s a idx n data off len a1 n1 s1 j : fok g s1 a1 idx n1 ->
  0 <= off -> 0 <= len <= zlen data -> off + len <= MAX_BLOCKS * 512 -> is_bytes data -> 0 <= j ->
  let w := done_after off len j in
  meta n1 = meta n -> written idx data off w a n a1 n1 -> nfree g a - 4 * j <= nfree g a1 -> w < len ->
  match fs_write_step idx off data len j (w, n1) s1 with
  | (inr (inl _), _) => nfree g a < 4 * (j + 1)
  | (inr (inr _), _) => False
  | (inl (w2, n2), s2) => w2 = done_after off len (j + 1) /\ exists a2, fok g s2 a2 idx n2 /\ meta n2 = meta n /\
      written idx data off w2 a n a2 n2 /\ nfree g a - 4 * (j + 1) <= nfree g a2
  end.
Proof.
  intros Hf Hoff Hlen Hmax Hby Hj w Hmeta Hwr Hfree Hlt. unfold fs_write_step.
  rewrite (proj2 (Z.ltb_lt _ _) Hlt). destruct (done_after_pos off len j) as [Hw0 Hc0]; [lia..|]. fold w in Hw0, Hc0.
  unfold MAX_BLOCKS in Hmax. rewrite u32_small by lia. unfold SECTOR_SIZE.
  set (k := (off + w) / 512). set (o := (off + w) mod 512) in *. set (c := Z.min (512 - o) (len - w)) in *.
  assert (Hk : 0 <= k < MAX_BLOCKS) by (unfold MAX_BLOCKS; subst k; zdm). assert (Ho : 0 <= o < 512) by (subst o; zdm).
  destruct (get_physical_block idx n1 k true s1) as [[blk n2] s2] eqn:E.
  rewrite (bind_run _ _ _ _ _ E). destruct (block_round _ _ _ _ _ _ _ _ _ Hf Hk E) as [[-> Hno]|(Hb & Hm2 & old & Erd & Hold & Hsame & Hput)].
  { cbn. lia. }
  rewrite (proj2 (Z.eqb_neq blk 0) Hb).
  set (buf := if (0 <? o) || (len - w <? 512) then old else zero_sector).
  assert (Ebuf : (if (0 <? o) || (len - w <? 512) then block_read blk else mret zero_sector) s2 = (buf, s2)).
  { subst buf. by destruct ((0 <? o) || (len - w <? 512)). }
  rewrite (bind_run _ _ _ _ _ Ebuf).
  assert (Hbuf : is_sector buf) by (subst buf; destruct ((0 <? o) || (len - w <? 512)); [done|apply zero_sector_ok]).
  assert (Hsl : zlen (slice data w c) = c) by (apply zlen_slice; lia).
  destruct (Hput (splice buf o (slice data w c))) as (a3 & s3 & Ew & Hf3 & Hwb & Hn3).
  { apply splice_sector; [done|by apply Forall_slice|lia|rewrite Hsl; unfold SECTOR_SIZE; lia]. }
  munfold. rewrite Ew. pose proof (done_after_step off len j ltac:(lia) Hj Hlt) as Hst. fold w in Hst. fold o c in Hst.
  split; [by rewrite Hst|]. exists a3. split_and!; [done|congruence| |lia].
  eapply (written_step idx data off w c _ _ _ _ _ _ buf); try done; try lia.
  intros Hne. subst buf. destruct ((0 <? o) || (len - w <? 512)) eqn:Ec; [left; by apply Hsame|].
  right. apply orb_false_iff in Ec as [? ?]. subst o c. lia.
Qed.

Lemma extends_set_inode g s a n idx a1 n1 v : fok g s a1 idx n1 -> is_u32 v -> extends idx a n a1 n1 ->
  exists s' , write_inode idx (set_size v n1) s = (tt, s') /\
    fok g s' (a_set_inode idx (set_size v n1) a1) idx (set_size v n1).
Proof.
  intros Hf Hv He. pose proof (fok_wf _ _ _ _ _ Hf) as Hwf. destruct Hf as [Hr Hi Hat Ht].
  destruct (rep_write_inode _ _ _ idx (set_size v n1) Hr Hi) as (s' & E & Hr').
  { destruct Hwf. by constructor. }
  exists s'. split; [done|]. constructor; [done|done|cbn; by rewrite upd_eq|].
  destruct Ht as [H1 H2]. by constructor.
Qed.

(** [fs_write] writes all of [data] and updates the size, or reports failure
    when the volume is out of blocks. *)
Lemma fs_write_run g s a idx n data off len : fok g s a idx n ->
  0 <= off -> 0 <= len <= zlen data -> off + len <= MAX_BLOCKS * 512 -> is_bytes data ->
  match fs_write idx off data len s with
  | (r, s') =>
      (r = len /\ exists a' n', fok g s' a' idx n' /\ size n' = Z.max (size n) (off + len) /\ type n' = type n /\
         written idx data off len a n a' n') \/
      (r = -1 /\ nfree g a < 4 * (len / 512 + 2))
  end.
Proof.
  intros Hf Hoff Hlen Hmax Hby. unfold fs_write. munfold.
  rewrite (rep_read_inode _ _ _ _ (fo_rep _ _ _ _ _ Hf) (fo_idx _ _ _ _ _ Hf)), (fo_at _ _ _ _ _ Hf).
  assert (HQ : (fun r s' => match r with
      | inr (inl _) => nfree g a < 4 * (len / 512 + 2)
      | inr (inr (w, n')) | inl (w, n') => w = len /\ exists a', fok g s' a' idx n' /\ meta n' = meta n /\ written idx data off w a n a' n'
      end)
    (aloop (sector_rounds len) 0 (0, n) (fs_write_step idx off data len) s).1
    (aloop (sector_rounds len) 0 (0, n) (fs_write_step idx off data len) s).2).
  { apply (aloop_inv (fun j acc s' => 0 <= j /\ acc.1 = done_after off len j /\ exists a', fok g s' a' idx acc.2 /\
      meta acc.2 = meta n /\ written idx data off acc.1 a n a' acc.2 /\ nfree g a - 4 * j <= nfree g a')).
    - split_and!; [lia|cbn; unfold done_after; zdm|]. exists a. split_and!; [done|done|apply written_refl|lia].
    - intros j [w n1] s1 Hj (Hj0 & Hw & a1 & Hf1 & Hm1 & Hwr & Hn1). cbn [fst snd] in *.
      destruct (decide (w < len)) as [Hlt|Hge].
      + subst w. pose proof (fs_write_step_run g s a idx n data off len a1 n1 s1 j Hf1) as Hs.
        cbv zeta in Hs. specialize (Hs Hoff Hlen Hmax Hby Hj0 Hm1 Hwr Hn1 Hlt).
        destruct (fs_write_step _ _ _ _ _ _ s1) as [[[w2 n2]|[[]|r]] s2]; [|unfold sector_rounds, SECTOR_SIZE in Hj; zdm|done].
        destruct Hs as [-> (a2 & ? & ? & ? & ?)]. split_and!; [lia|done|]. by exists a2.
      + unfold fs_write_step. rewrite (proj2 (Z.ltb_ge _ _)) by lia. cbn. split; [unfold done_after in *; lia|]. by exists a1.
    - intros [w n1] s1 (Hj0 & Hw & a1 & Hf1 & Hm1 & Hwr & _). cbn [fst snd] in *.
      rewrite done_after_end in Hw by lia. split; [done|]. by exists a1. }
  cbn beta in HQ.
  assert (Hfin : forall n' s', (exists a', fok g s' a' idx n' /\ meta n' = meta n /\ written idx data off len a n a' n') ->
    match (if size n' <? u32 (off + len) then write_inode idx (set_size (u32 (off + len)) n');; mret (s32 len)
           else mret (s32 len)) s' with
    | (r, s') => r = len /\ exists a' n', fok g s' a' idx n' /\ size n' = Z.max (size n) (off + len) /\ type n' = type n /\
         written idx data off len a n a' n'
    end).
  { intros n' s' (a' & Hf' & Hm & Hwr). unfold meta in Hm. injection Hm as Es Ety _ _ _.
    unfold MAX_BLOCKS in Hmax. rewrite u32_small, s32_small by lia.
    destruct (size n' <? off + len) eqn:El.
    - destruct (extends_set_inode _ _ a n _ _ _ (off + len) Hf') as (s2 & E2 & Hf2); [unfold is_u32; lia|by apply Hwr|].
      munfold. rewrite E2. split; [done|]. eexists _, _. split_and!; [exact Hf2|cbn; lia|done|].
      destruct Hwr as [[] ? ? ?]. constructor; try done. constructor; try done.
      intros j Hj. cbn. rewrite upd_ne by done. auto.
    - munfold. split; [done|]. exists a', n'. split_and!; [done|lia|done|done]. }
  destruct (aloop _ _ _ _ s) as [[[w n']|[[]|[w n']]] s']; cbn [fst snd] in HQ.
  - destruct HQ as [-> Hx]. pose proof (Hfin n' s' Hx) as HF. unfold mbind, st_bind, mret, st_ret in HF.
    destruct (size n' <? u32 (off + len)); [destruct (write_inode _ _ s')|]; by left.
  - by right.
  - destruct HQ as [-> Hx]. pose proof (Hfin n' s' Hx) as HF. unfold mbind, st_bind, mret, st_ret in HF.
    destruct (size n' <? u32 (off + len)); [destruct (write_inode _ _ s')|]; by left.
Qed.

End spec.
End CosContent.
