(* ===== verification/CosDirSpec.v ===== *)
(** COSFS directories as association lists: lookup finds the first entry of a
    name, adding inserts one entry, removing deletes the first entry of a name. *)
From S2P Require Import Prelude CString Disk CosData CosAlloc CosFile CosDir CosAllocSpec CosVol CosTree CosBlocks CosContent.
From stdpp Require Import base list numbers.
From Stdlib Require Import ZArith Lia.
Import CString Cos CosAlloc CosFile CosDir CosAllocSpec CosVol CosTree CosBlocks CosContent.
Open Scope Z_scope.

Module CosDirSpec.

(** ** Slots of a directory block *)

Definition entry : Type := Z * list Z.
Definition slot (buf : sector) (i : Z) : option entry :=
  if dirent_inode buf i =? 0 then None else Some (dirent_inode buf i, cstr (dirent_name buf i)).

(** The entries of slots [i .. i + n - 1]. *)
Fixpoint entries_from (sl : Z -> option entry) (n : nat) (i : Z) : list entry :=
  match n with
  | O => []
  | S n => match sl i with Some e => e :: entries_from sl n (i + 1) | None => entries_from sl n (i + 1) end
  end.
Definition entries (buf : sector) : list entry := entries_from (slot buf) 16 0.

(** Every name ends inside its slot. *)
Definition names_ok (buf : sector) : Prop := forall i, 0 <= i < 16 -> buf.[32 * i + 31] = 0.

Lemma entries_from_split sl n i j : i <= j < i + Z.of_nat n ->
  entries_from sl n i = entries_from sl (Z.to_nat (j - i)) i ++
    match sl j with Some e => [e] | None => [] end ++ entries_from sl (n - 1 - Z.to_nat (j - i)) (j + 1).
Proof.
  revert i. induction n as [|n IH]; intros i Hj; [lia|].
  destruct (decide (j = i)) as [->|Hne].
  - replace (Z.to_nat (i - i)) with 0%nat by lia. cbn [entries_from app].
    replace (S n - 1 - 0)%nat with n by lia. by destruct (sl i).
  - cbn [entries_from]. rewrite (IH (i + 1)) by lia.
    replace (Z.to_nat (j - i)) with (S (Z.to_nat (j - (i + 1)))) by lia. cbn [entries_from].
    replace (S n - 1 - S (Z.to_nat (j - (i + 1))))%nat with (n - 1 - Z.to_nat (j - (i + 1)))%nat by lia.
    by destruct (sl i).
Qed.
Lemma entries_from_ext sl sl' n i : (forall j, i <= j < i + Z.of_nat n -> sl j = sl' j) ->
  entries_from sl n i = entries_from sl' n i.
Proof.
  revert i. induction n as [|n IH]; intros i Hs; cbn; [done|].
  rewrite (Hs i), (IH (i + 1)) by (try lia; intros; apply Hs; lia). done.
Qed.

(** Changing slot [j] only: what was there goes, what comes takes its place. *)
Lemma entries_update sl sl' n i j : i <= j < i + Z.of_nat n ->
  (forall k, i <= k < i + Z.of_nat n -> k <> j -> sl' k = sl k) ->
  exists l1 l2, entries_from sl n i = l1 ++ match sl j with Some e => [e] | None => [] end ++ l2 /\
    entries_from sl' n i = l1 ++ match sl' j with Some e => [e] | None => [] end ++ l2 /\
    l1 = entries_from sl (Z.to_nat (j - i)) i.
Proof.
  intros Hj Hs. eexists _, _. split_and!; [by apply entries_from_split| |done].
  rewrite (entries_from_split sl' n i j Hj). f_equal; [apply entries_from_ext|f_equal; apply entries_from_ext];
    intros; apply Hs; lia.
Qed.

Lemma find_entry_spec f n i :
  match find_entry f n i with
  | Some j => i <= j < i + Z.of_nat n /\ f j = true /\ (forall k, i <= k < j -> f k = false)
  | None => forall k, i <= k < i + Z.of_nat n -> f k = false
  end.
Proof.
  revert i. induction n as [|n IH]; intros i; cbn [find_entry]; [lia|].
  destruct (f i) eqn:E; [split_and!; [lia|lia|done|lia]|].
  specialize (IH (i + 1)). destruct (find_entry f n (i + 1)) as [j|].
  - destruct IH as (H1 & H2 & H3). split_and!; [lia|lia|done|]. intros k Hk.
    destruct (decide (k = i)) as [->|]; [done|apply H3; lia].
  - intros k Hk. destruct (decide (k = i)) as [->|]; [done|apply IH; lia].
Qed.

(** A search over slots that only looks at the live ones. *)
Lemma find_entry_entries (sl : Z -> option entry) (p : entry -> bool) f n i :
  (forall j, i <= j < i + Z.of_nat n -> f j = match sl j with Some e => p e | None => false end) ->
  match find_entry f n i with
  | Some j => i <= j < i + Z.of_nat n /\ exists e, sl j = Some e /\ find p (entries_from sl n i) = Some e /\ p e = true /\
      Forall (fun e => p e = false) (entries_from sl (Z.to_nat (j - i)) i)
  | None => Forall (fun e => p e = false) (entries_from sl n i)
  end.
Proof.
  revert i. induction n as [|n IH]; intros i Hf; cbn [find_entry entries_from]; [constructor|].
  rewrite (Hf i) by lia. specialize (IH (i + 1)).
  assert (Hf' : forall j, i + 1 <= j < i + 1 + Z.of_nat n -> f j = match sl j with Some e => p e | None => false end)
    by (intros; apply Hf; lia). specialize (IH Hf').
  destruct (sl i) as [e|] eqn:Es; [destruct (p e) eqn:Ep|].
  - split; [lia|]. exists e. cbn. rewrite Ep. replace (Z.to_nat (i - i)) with 0%nat by lia. split_and!; done || constructor.
  - destruct (find_entry f n (i + 1)) as [j|]; [|by constructor].
    destruct IH as (Hj & e' & H1 & H2 & H3 & H4). split; [lia|]. exists e'. cbn. rewrite Ep.
    replace (Z.to_nat (j - i)) with (S (Z.to_nat (j - (i + 1)))) by lia. cbn [entries_from]. rewrite Es.
    split_and!; try done. by constructor.
  - destruct (find_entry f n (i + 1)) as [j|]; [|done].
    destruct IH as (Hj & e' & H1 & H2 & H3 & H4). split; [lia|]. exists e'.
    replace (Z.to_nat (j - i)) with (S (Z.to_nat (j - (i + 1)))) by lia. cbn [entries_from]. rewrite Es. done.
Qed.

(** ** Editing a slot *)

Lemma cstr_take l k : (k < length l)%nat -> l !!! k = 0 -> cstr l = cstr (take (S k) l).
Proof.
  revert k. induction l as [|c l IH]; intros k Hk Hz; cbn in Hk; [lia|].
  destruct k as [|k]; cbn in Hz; [by subst|]. cbn [take cstr]. destruct (c =? 0); [done|].
  rewrite (IH k) by (lia || done). done.
Qed.

Lemma dirent_name_slice buf i : is_sector buf -> names_ok buf -> 0 <= i < 16 ->
  cstr (dirent_name buf i) = cstr (slice buf (32 * i + 4) 28).
Proof.
  intros [Hl _] Hn Hi. unfold SECTOR_SIZE, zlen in Hl. unfold dirent_name, slice.
  rewrite (cstr_take _ 27); [done|rewrite length_drop; lia|].
  specialize (Hn i Hi). unfold aget in Hn. rewrite list_lookup_total_alt in *. rewrite lookup_drop.
  by replace (Z.to_nat (32 * i + 4) + 27)%nat with (Z.to_nat (32 * i + 31)) by lia.
Qed.

(** Writing a whole 32-byte slot. *)
Lemma slot_write buf i v nm : is_sector buf -> names_ok buf -> 0 <= i < 16 -> is_u32 v -> is_bytes nm ->
  zlen nm = 28 -> nm.[27] = 0 ->
  let buf' := splice (put32 buf (32 * i) v) (32 * i + 4) nm in
  is_sector buf' /\ names_ok buf' /\
  (forall j, 0 <= j < 16 -> slot buf' j = if decide (j = i) then (if v =? 0 then None else Some (v, cstr nm)) else slot buf j).
Proof.
  intros Hs Hn Hi Hv Hb Hlen H27 buf'. pose proof Hs as [Hl Hby]. unfold SECTOR_SIZE in Hl.
  assert (Hl1 : zlen (put32 buf (32 * i) v) = 512) by (rewrite zlen_put_le; lia).
  assert (Hs' : is_sector buf').
  { split; [unfold buf', SECTOR_SIZE; rewrite zlen_splice; lia|]. apply Forall_splice; [by apply put_le_bytes|done]. }
  assert (Hget : forall k, 0 <= k < 512 -> buf'.[k] = if decide (32 * i + 4 <= k < 32 * i + 32) then nm.[k - (32 * i + 4)]
     else (put32 buf (32 * i) v).[k]).
  { intros k Hk. unfold buf'. rewrite aget_splice by lia. rewrite Hlen. repeat case_decide; done || lia. }
  assert (Hput : forall k, 0 <= k < 512 -> ~ 32 * i <= k < 32 * i + 4 -> (put32 buf (32 * i) v).[k] = buf.[k]).
  { intros k Hk Hout. unfold put_le. rewrite aget_splice by (rewrite ?zlen_le_put; lia). rewrite zlen_le_put.
    by rewrite decide_False by lia. }
  assert (Hn' : names_ok buf').
  { intros j Hj. rewrite Hget by lia. case_decide.
    - replace (32 * j + 31 - (32 * i + 4)) with 27 by lia. done.
    - rewrite Hput by lia. by apply Hn. }
  split_and!; [done..|]. intros j Hj. unfold slot. rewrite !(dirent_name_slice _ _) by done.
  destruct (decide (j = i)) as [->|Hne].
  - assert (E : dirent_inode buf' i = v).
    { unfold dirent_inode, buf', get_le. rewrite slice_splice_other by lia. change (le_get (slice _ _ _)) with (get32 (put32 buf (32 * i) v) (32 * i)).
      rewrite get_put_le by lia. apply Z.mod_small. unfold is_u32 in Hv. cbn. lia. }
    rewrite E. destruct (v =? 0); [done|]. do 2 f_equal.
    unfold buf'. rewrite <- Hlen. rewrite slice_splice_same by lia. done.
  - assert (E : dirent_inode buf' j = dirent_inode buf j).
    { unfold dirent_inode, buf', get_le. rewrite slice_splice_other by lia. apply (get_put_le_ne 4 4); lia. }
    rewrite E. destruct (dirent_inode buf j =? 0); [done|]. do 3 f_equal.
    unfold buf'. rewrite slice_splice_other by lia. unfold put_le. by rewrite slice_splice_other by (rewrite ?zlen_le_put; lia).
Qed.

Lemma names_ok_zero : names_ok zero_sector.
Proof. intros i Hi. unfold zero_sector. apply aget_replicate. lia. Qed.

Lemma entries_eq buf : entries buf = entries_from (slot buf) 16 0.
Proof. done. Qed.
#[global] Opaque entries.

(** ** A directory as the list of its entries *)

Fixpoint lead (l : list Z) : list Z :=
  match l with [] => [] | x :: l => if x =? 0 then [] else x :: lead l end.
Definition dlist (dat : Z -> sector) (l : list Z) : list entry := concat ((fun x => entries (dat x)) <$> lead l).
Definition dir_list (a : avol) (dn : inode) : list entry := dlist (a_data a) (direct dn).
(** What a lookup of [name] selects. *)
Definition wanted (count : Z) (name : list Z) (e : entry) : bool := (e.1 <? count) && bool_decide (e.2 = cstr name).
Definition named (name : list Z) (e : entry) : bool := bool_decide (e.2 = cstr name).

Record dir_ok (a : avol) (dn : inode) : Prop := {
  do_type : type dn = 2;
  do_names : forall b, 0 <= b < 12 -> (direct dn).[b] <> 0 -> names_ok (a_data a ((direct dn).[b]));
  do_tail : forall b b', 0 <= b <= b' -> b' < 12 -> (direct dn).[b] = 0 -> (direct dn).[b'] = 0;
}.

Lemma dlist_cons dat x l : dlist dat (x :: l) = if x =? 0 then [] else entries (dat x) ++ dlist dat l.
Proof. unfold dlist. cbn. by destruct (x =? 0). Qed.
Lemma dlist_zeros dat l : (forall j, 0 <= j < zlen l -> l.[j] = 0) -> dlist dat l = [].
Proof.
  intros Hz. destruct l as [|x l]; [done|]. rewrite dlist_cons. specialize (Hz 0). change ((x :: l).[0]) with x in Hz.
  rewrite Hz by (unfold zlen; cbn; lia). done.
Qed.
Lemma aget_cons {A} `{Inhabited A} (x : A) l j : 0 < j -> (x :: l).[j] = l.[j - 1].
Proof. intros. unfold aget. by replace (Z.to_nat j) with (S (Z.to_nat (j - 1))) by lia. Qed.
Lemma aget_cons1 {A} `{Inhabited A} (x : A) l j : 0 <= j -> (x :: l).[j + 1] = l.[j].
Proof. intros. rewrite aget_cons by lia. f_equal. lia. Qed.
Lemma zlen_cons {A} (x : A) l : zlen (x :: l) = 1 + zlen l.
Proof. unfold zlen. cbn [length]. lia. Qed.

Lemma dlist_ext dat dat' l l' : zlen l = zlen l' -> (forall j, 0 <= j < zlen l -> l.[j] = l'.[j]) ->
  (forall j, 0 <= j < zlen l -> l.[j] <> 0 -> dat (l.[j]) = dat' (l.[j])) -> dlist dat l = dlist dat' l'.
Proof.
  intros Hl He Hd. apply list_eq_aget in He as <-; [|done]. clear Hl. induction l as [|x l IH]; [done|].
  rewrite !dlist_cons. destruct (x =? 0) eqn:E; [done|]. rewrite zlen_cons in Hd. pose proof (zlen_nonneg l).
  assert (E0 : dat x = dat' x) by (apply (Hd 0); [lia|change (x <> 0); lia]). rewrite E0. f_equal.
  apply IH. intros j Hj Hne.
  specialize (Hd (j + 1)). rewrite aget_cons1 in Hd by lia. apply Hd; [lia|done].
Qed.

(** Changing block [k] of a directory, possibly its first missing one. *)
Lemma dlist_update dat dat' l l' k : zlen l = zlen l' -> 0 <= k < zlen l ->
  (forall j, 0 <= j < k -> l.[j] <> 0) -> (forall j, 0 <= j < zlen l -> j <> k -> l'.[j] = l.[j]) -> l'.[k] <> 0 ->
  (forall j, 0 <= j < zlen l -> j <> k -> l.[j] <> 0 -> dat' (l.[j]) = dat (l.[j])) ->
  (l.[k] = 0 -> forall j, k < j < zlen l -> l.[j] = 0) ->
  exists pre post, dlist dat l = pre ++ (if l.[k] =? 0 then [] else entries (dat (l.[k]))) ++ post /\
    dlist dat' l' = pre ++ entries (dat' (l'.[k])) ++ post /\
    (forall e, e ∈ pre -> exists j, 0 <= j < k /\ e ∈ entries (dat (l.[j]))).
Proof.
  revert l' k. induction l as [|x l IH]; intros l' k Hlen Hk Hlt Hoth Hne Hdat Htail.
  { unfold zlen in Hk; cbn in Hk; lia. }
  destruct l' as [|x' l']; [by rewrite zlen_cons in Hlen; pose proof (zlen_nonneg l); unfold zlen in *; cbn in *; lia|].
  rewrite !zlen_cons in *. destruct (decide (k = 0)) as [->|Hk0].
  - exists []. rewrite !dlist_cons. change ((x :: l).[0]) with x in *. change ((x' :: l').[0]) with x' in *.
    rewrite (proj2 (Z.eqb_neq x' 0)) by done.
    assert (Htl : forall j, 0 <= j < zlen l -> l'.[j] = l.[j]).
    { intros j Hj. specialize (Hoth (j + 1)). rewrite !aget_cons1 in Hoth by lia. apply Hoth; lia. }
    exists (dlist dat' l'). split_and!; [|done|intros e He; by apply not_elem_of_nil in He]. destruct (x =? 0) eqn:E.
    + symmetry. apply dlist_zeros. intros j Hj. rewrite Htl by lia. specialize (Htail ltac:(lia) (j + 1)).
      rewrite aget_cons1 in Htail by lia. apply Htail. lia.
    + cbn [app]. assert (dlist dat l = dlist dat' l') as ->; [|done].
      apply dlist_ext; [lia|intros; by rewrite Htl|]. intros j Hj Hjn. symmetry.
      specialize (Hdat (j + 1)). rewrite aget_cons1 in Hdat by lia. apply Hdat; done || lia.
  - pose proof (Hoth 0 ltac:(lia) ltac:(lia)) as E0. cbn in E0. change (x' = x) in E0. subst x'.
    pose proof (Hlt 0 ltac:(lia)) as Hx. change (x <> 0) in Hx.
    destruct (IH l' (k - 1)) as (pre & post & E1 & E2 & E3); [lia|lia|..].
    { intros j Hj. specialize (Hlt (j + 1)). rewrite aget_cons1 in Hlt by lia. apply Hlt. lia. }
    { intros j Hj Hjk. specialize (Hoth (j + 1)). rewrite !aget_cons1 in Hoth by lia. apply Hoth; lia. }
    { rewrite aget_cons in Hne by lia. done. }
    { intros j Hj Hjk. specialize (Hdat (j + 1)). rewrite aget_cons1 in Hdat by lia. apply Hdat; lia. }
    { rewrite aget_cons in Htail by lia. intros Hz j Hj. specialize (Htail Hz (j + 1)). rewrite aget_cons1 in Htail by lia. apply Htail. lia. }
    exists (entries (dat x) ++ pre), post. rewrite !dlist_cons, (proj2 (Z.eqb_neq x 0)), !aget_cons by (done || lia).
    rewrite E1, E2, <- !app_assoc. split_and!; [done| |].
    + f_equal. f_equal. specialize (Hdat 0). change ((x :: l).[0]) with x in Hdat. apply Hdat; done || lia.
    + intros e [He|He]%elem_of_app; [exists 0; split; [lia|done]|].
      destruct (E3 e He) as (j & Hj & Hje). exists (j + 1). rewrite aget_cons1 by lia. split; [lia|done].
Qed.

Lemma find_app_l {A} (p : A -> bool) l1 l2 :
  find p (l1 ++ l2) = match find p l1 with Some x => Some x | None => find p l2 end.
Proof. induction l1 as [|x l1 IH]; cbn; [done|]. by destruct (p x). Qed.
Lemma find_none {A} (p : A -> bool) l : Forall (fun e => p e = false) l -> find p l = None.
Proof. induction 1 as [|x l Hx Hl IH]; cbn; [done|]. by rewrite Hx. Qed.

Section spec.
Context {D : Type} `{BlockDevLaws D}.
Implicit Types s : fsstate D.

(** A directory inode whose blocks are in order. *)
Record dok g s a d dn : Prop := { dk_fok : fok g s a d dn; dk_ok : dir_ok a dn }.

Lemma direct_lba a dn b : 0 <= b < 12 -> lba a dn (b, []) = (direct dn).[b].
Proof. intros. unfold lba, root_ptr; cbn. by rewrite (proj2 (Z.ltb_lt _ _)) by lia. Qed.
Lemma direct_leaf b : 0 <= b < 12 -> leaf (b, []).
Proof. intros. split; [apply valid_root; lia|]. unfold depth. cbn. lia. Qed.
Lemma direct_range g s a d dn b : fok g s a d dn -> 0 <= b < 12 -> (direct dn).[b] <> 0 ->
  data_start g <= (direct dn).[b] < total_blocks g.
Proof.
  intros Hf Hb. rewrite <- (direct_lba a dn b) by done. apply (fok_lba _ _ _ _ _ _ Hf). by apply leaf_valid, direct_leaf.
Qed.
Lemma direct_inj g s a d dn b b' : fok g s a d dn -> 0 <= b < 12 -> 0 <= b' < 12 -> (direct dn).[b] <> 0 ->
  (direct dn).[b] = (direct dn).[b'] -> b = b'.
Proof.
  intros Hf Hb Hb'. rewrite <- !(direct_lba a dn) by done. intros Hne E.
  assert ((b, []) = (b', [] : list Z)) as E2; [|by injection E2].
  apply (to_inj _ _ _ (fo_tree _ _ _ _ _ Hf)); auto using leaf_valid, direct_leaf.
Qed.
Lemma direct_read g s a d dn b : fok g s a d dn -> 0 <= b < 12 -> (direct dn).[b] <> 0 ->
  block_read ((direct dn).[b]) s = (a_data a ((direct dn).[b]), s) /\ is_sector (a_data a ((direct dn).[b])).
Proof.
  intros Hf Hb Hne. pose proof (direct_range _ _ _ _ _ _ Hf Hb Hne).
  split; [apply (rep_block_read g); [apply Hf|done]|by apply (fok_sector g s a d dn)].
Qed.
Lemma direct_len g s a d dn : fok g s a d dn -> zlen (direct dn) = 12.
Proof. intros Hf. by destruct (wf_direct _ (fok_wf _ _ _ _ _ Hf)). Qed.

(** What the scan of [dir_lookup] finds, block by block. *)
Definition scan_block (count : Z) (name : list Z) (dat : Z -> sector) (x : Z) : option (option Z) :=
  if x =? 0 then Some None else
  match find (wanted count name) (entries (dat x)) with Some e => Some (Some e.1) | None => None end.

Lemma scan_dlist count name dat l n i : 0 <= i -> i + Z.of_nat n = zlen l ->
  match first_some (fun b => scan_block count name dat (l.[b])) n i with Some (Some k) => k | _ => -1 end =
  match find (wanted count name) (dlist dat (drop (Z.to_nat i) l)) with Some e => e.1 | None => -1 end.
Proof.
  revert i. induction n as [|n IH]; intros i Hi Hn; cbn [first_some].
  { rewrite drop_ge; [done|]. unfold zlen in Hn. lia. }
  assert (E : drop (Z.to_nat i) l = l.[i] :: drop (Z.to_nat (i + 1)) l).
  { replace (Z.to_nat (i + 1)) with (S (Z.to_nat i)) by lia. unfold aget. apply drop_S.
    apply list_lookup_lookup_total_lt. unfold zlen in Hn. lia. }
  rewrite E, dlist_cons. unfold scan_block at 1. destruct (l.[i] =? 0); [done|]. rewrite find_app_l.
  destruct (find _ (entries _)); [done|]. apply IH; lia.
Qed.

Lemma entry_matches_slot buf name count i : entry_matches count buf name i =
  match slot buf i with Some e => wanted count name e | None => false end.
Proof.
  unfold entry_matches, slot. destruct (dirent_inode buf i =? 0) eqn:E; [done|]. cbn [negb andb]. unfold wanted. cbn.
  rewrite Z.leb_antisym, negb_involutive. f_equal. apply eq_true_iff_eq.
  rewrite bool_decide_eq_true, Z.eqb_eq. apply strcmp_eq.
Qed.

(** [dir_lookup] is a lookup in the directory's list of entries. *)
Lemma dir_lookup_run g s a d dn name : dok g s a d dn ->
  dir_lookup dn name s =
  (match find (wanted (inode_count g) name) (dir_list a dn) with Some e => e.1 | None => -1 end, s).
Proof.
  intros [Hf [Ht _ _]]. unfold dir_lookup. rewrite Ht. change (negb (2 =? 2)) with false. cbv iota. munfold.
  pose proof (direct_len _ _ _ _ _ Hf) as Hlen.
  rewrite (floop_pure (fun b => scan_block (inode_count g) name (a_data a) ((direct dn).[b]))).
  - f_equal. rewrite scan_dlist by lia. done.
  - intros b Hb. unfold dir_lookup_step, scan_block. munfold. rewrite (r_sb _ _ _ (fo_rep _ _ _ _ _ Hf)).
    destruct ((direct dn).[b] =? 0) eqn:E; [done|]. apply Z.eqb_neq in E.
    destruct (direct_read _ _ _ _ _ b Hf ltac:(lia) E) as [-> _].
    pose proof (find_entry_entries (slot (a_data a ((direct dn).[b]))) (wanted (inode_count g) name)
      (entry_matches (inode_count g) (a_data a ((direct dn).[b])) name) 16 0) as Hfe.
    specialize (Hfe (fun j _ => entry_matches_slot _ _ _ _)).
    destruct (find_entry _ 16 0) as [i|].
    + destruct Hfe as (_ & e & Hs & Hfi & _). rewrite entries_eq, Hfi. unfold slot in Hs.
      destruct (dirent_inode _ i =? 0); [done|]. by injection Hs as <-.
    + rewrite entries_eq. by rewrite (find_none _ _ Hfe).
Qed.

(** ** Adding and removing *)

Lemma put_dirent_write buf i idx name : is_sector buf -> names_ok buf -> 0 <= i < 16 -> is_u32 idx -> idx <> 0 -> is_bytes name ->
  let buf' := put_dirent buf i idx name in
  is_sector buf' /\ names_ok buf' /\
  (forall j, 0 <= j < 16 -> slot buf' j = if decide (j = i) then Some (idx, take 27 (cstr name)) else slot buf j).
Proof.
  intros Hs Hn Hi Hidx Hne Hb buf'.
  assert (Hlen : zlen (strncpy_out name 27 ++ [0]) = 28).
  { unfold zlen. rewrite length_app, length_strncpy_out. done. }
  destruct (slot_write buf i idx (strncpy_out name 27 ++ [0]) Hs Hn Hi Hidx) as (H1 & H2 & H3).
  - apply Forall_app. split; [by apply strncpy_out_bytes|]. repeat constructor; unfold is_u8; lia.
  - done.
  - unfold aget. rewrite list_lookup_total_alt, lookup_app_r by (rewrite length_strncpy_out; lia).
    by rewrite length_strncpy_out.
  - split_and!; [done..|]. intros j Hj. rewrite H3 by done. rewrite (proj2 (Z.eqb_neq idx 0)) by done.
    by rewrite cstr_strncpy_out.
Qed.

Lemma clear_dirent_write buf i : is_sector buf -> names_ok buf -> 0 <= i < 16 ->
  let buf' := clear_dirent buf i in
  is_sector buf' /\ names_ok buf' /\
  (forall j, 0 <= j < 16 -> slot buf' j = if decide (j = i) then None else slot buf j).
Proof.
  intros Hs Hn Hi buf'. destruct (slot_write buf i 0 (replicate 28 0) Hs Hn Hi) as (H1 & H2 & H3); [unfold is_u32; lia| |done|done|by split_and!].
  apply Forall_replicate. unfold is_u8. lia.
Qed.

(** Entries of a block whose slot [i] was rewritten. *)
Lemma entries_slot buf buf' i v : 0 <= i < 16 ->
  (forall j, 0 <= j < 16 -> slot buf' j = if decide (j = i) then v else slot buf j) ->
  exists l1 l2, entries buf = l1 ++ match slot buf i with Some e => [e] | None => [] end ++ l2 /\
    entries buf' = l1 ++ match v with Some e => [e] | None => [] end ++ l2 /\
    l1 = entries_from (slot buf) (Z.to_nat i) 0.
Proof.
  intros Hi Hs. rewrite !entries_eq. destruct (entries_update (slot buf) (slot buf') 16 0 i) as (l1 & l2 & E1 & E2 & E3); [lia| |].
  - intros k Hk Hne. rewrite Hs by lia. by rewrite decide_False.
  - rewrite Hs, decide_True in E2 by (done || lia). rewrite Z.sub_0_r in E3. by exists l1, l2.
Qed.

(** The state after block [b] of the directory (present or not) got contents
    [buf]. *)
Lemma dir_put_block g s a d dn b buf : dok g s a d dn -> 0 <= b < 12 -> (direct dn).[b] <> 0 ->
  is_sector buf -> names_ok buf ->
  exists s' a', block_write ((direct dn).[b]) buf s = (tt, s') /\ dok g s' a' d dn /\ extends d a dn a' dn /\
    a' = a_put ((direct dn).[b]) buf a.
Proof.
  intros [Hf [Ht Hn Htl]] Hb Hne Hsec Hnm.
  destruct (put_leaf_run g s a d dn (b, []) ((direct dn).[b]) buf Hf) as (s' & E & Hf' & He);
    [by apply direct_leaf|by apply direct_lba|done|done|].
  exists s', (a_put ((direct dn).[b]) buf a). split_and!; [done| |done|done]. constructor; [done|]. constructor; [done| |done].
  intros b' Hb' Hne'. cbn. unfold upd. case_decide; [done|]. by apply Hn.
Qed.

(** A fresh block taken for the directory. *)
Lemma dir_new_block g s a d dn b : dok g s a d dn -> 0 <= b < 12 -> (direct dn).[b] = 0 ->
  (forall j, 0 <= j < b -> (direct dn).[j] <> 0) ->
  (exists nb s1 s2 a' , alloc_block s = (nb, s1) /\ nb <> 0 /\ write_inode d (set_direct b nb dn) s1 = (tt, s2) /\
     fok g s2 a' d (set_direct b nb dn) /\ extends d a dn a' (set_direct b nb dn) /\ a_data a' = a_data a) \/
  (alloc_block s = (0, s) /\ nfree g a = 0).
Proof.
  intros [Hf Hok] Hb Hz Hlt. pose proof (fok_wf _ _ _ _ _ Hf) as Hwf. destruct (fok_start _ _ _ _ _ Hf) as [Hds Htot].
  pose proof Hf as [Hrep Hidx Hat Htree].
  destruct (rep_alloc_block _ _ _ Hrep) as [(nb & s1 & E & Hnb & Hfree & Hr1)|[Hfull E]]; [left|right].
  2:{ split; [done|]. by apply nfree_zero. }
  assert (Hset : set_direct b nb dn = set_root b nb dn) by (unfold set_root; by rewrite (proj2 (Z.ltb_lt _ _)) by lia).
  destruct (rep_write_inode _ _ _ d (set_root b nb dn) Hr1 Hidx) as (s2 & E2 & Hr2);
    [apply set_root_wf; [done|unfold is_u32; lia]|].
  assert (Hfl : filled d a dn (b, []) nb (a_set_inode d (set_root b nb dn) (a_mark nb true a)) (set_root b nb dn)).
  { eapply (fill_root g a dn d nb); try eassumption; cbn; try done; [lia| |lia|by intros; apply upd_ne].
    by rewrite <- (direct_lba a) in Hz. }
  assert (Hv : valid (b, [])) by (apply valid_root; lia).
  exists nb, s1, s2, (a_set_inode d (set_root b nb dn) (a_mark nb true a)). rewrite Hset. split_and!; [done|lia|done| | |done].
  - constructor; [done|done|cbn; by rewrite upd_eq|]. eapply filled_tree_ok; eauto. by rewrite direct_lba.
  - apply (grows_extends d (b, [])). eapply filled_grows; eauto; [by rewrite direct_lba|lia].
Qed.

Definition free_slot (buf : sector) : option Z := find_entry (fun i => dirent_inode buf i =? 0) 16 0.
Lemma free_slot_spec buf : match free_slot buf with
  | Some i => 0 <= i < 16 /\ slot buf i = None
  | None => forall i, 0 <= i < 16 -> slot buf i <> None
  end.
Proof.
  unfold free_slot. pose proof (find_entry_spec (fun i => dirent_inode buf i =? 0) 16 0) as Hfe.
  destruct (find_entry _ 16 0) as [i|].
  - destruct Hfe as (Hi & Hz & _). split; [lia|]. unfold slot. by rewrite Hz.
  - intros i Hi. specialize (Hfe i ltac:(lia)). unfold slot. by rewrite Hfe.
Qed.
Lemma free_slot_zero : free_slot zero_sector = Some 0.
Proof. by vm_compute. Qed.

(** The list after the block at [b] got an entry in a free slot [i]. *)
Lemma dir_list_insert g s a d dn dn' (dat : Z -> sector) b i e buf : fok g s a d dn -> dir_ok a dn -> 0 <= b < 12 ->
  (forall j, 0 <= j < b -> (direct dn).[j] <> 0) ->
  zlen (direct dn') = 12 -> (forall j, 0 <= j < 12 -> j <> b -> (direct dn').[j] = (direct dn).[j]) -> (direct dn').[b] <> 0 ->
  ((direct dn).[b] = 0 /\ buf = zero_sector \/ (direct dn).[b] <> 0 /\ buf = a_data a ((direct dn).[b])) ->
  (forall j, 0 <= j < 12 -> j <> b -> (direct dn).[j] <> 0 -> dat ((direct dn).[j]) = a_data a ((direct dn).[j])) ->
  0 <= i < 16 -> slot buf i = None ->
  (forall j, 0 <= j < 16 -> slot (dat ((direct dn').[b])) j = if decide (j = i) then Some e else slot buf j) ->
  exists l1 l2, dir_list a dn = l1 ++ l2 /\ dlist dat (direct dn') = l1 ++ e :: l2.
Proof.
  intros Hf Hok Hb Hlt Hl' Hoth Hne Hbuf Hdat Hi Hfree Hslot. pose proof (direct_len _ _ _ _ _ Hf) as Hl.
  destruct (dlist_update (a_data a) dat (direct dn) (direct dn') b) as (pre & post & E1 & E2 & _);
    [congruence|by rewrite Hl|done|by rewrite Hl|done|by rewrite Hl| |].
  { rewrite Hl. intros Hz j Hj. apply (do_tail _ _ Hok b); [lia|lia|done]. }
  destruct (entries_slot _ _ i (Some e) Hi Hslot) as (l1 & l2 & F1 & F2 & _). rewrite Hfree in F1. cbn [app] in F1.
  unfold dir_list. rewrite E1, E2, F2. cbn [app]. destruct Hbuf as [[Hz ->]|[Hz ->]].
  - rewrite Hz. cbn [Z.eqb]. assert (entries zero_sector = []) as Ez by by vm_compute.
    rewrite Ez in F1. symmetry in F1. apply app_eq_nil in F1 as [-> ->]. exists pre, post. done.
  - rewrite (proj2 (Z.eqb_neq _ 0)) by done. rewrite F1. exists (pre ++ l1), (l2 ++ post).
    rewrite <- !app_assoc. done.
Qed.

(** What adding [name] for inode [idx] achieves. *)
Definition added g a d dn name idx r s' : Prop :=
  r = 0 /\ exists a' dn' l1 l2, dok g s' a' d dn' /\ extends d a dn a' dn' /\
    dir_list a dn = l1 ++ l2 /\ dir_list a' dn' = l1 ++ (idx, take 27 (cstr name)) :: l2.

(** The round that takes a new block. *)
Lemma dir_add_new g s a d dn name idx b : dok g s a d dn -> is_u32 idx -> idx <> 0 -> is_bytes name -> 0 <= b < 12 ->
  (direct dn).[b] = 0 -> (forall j, 0 <= j < b -> (direct dn).[j] <> 0) ->
  match dir_add_step d name idx b dn s with
  | (inr r, s') => added g a d dn name idx r s' \/ (r = -1 /\ s' = s /\ nfree g a = 0)
  | (inl _, _) => False
  end.
Proof.
  intros Hd Hidx Hne Hname Hb12 Ez Hlt'. pose proof Hd as [Hf Hok]. pose proof (direct_len _ _ _ _ _ Hf) as Hl.
  unfold dir_add_step. munfold. rewrite Ez. cbn [Z.eqb].
  destruct (dir_new_block _ _ _ _ _ b Hd Hb12 Ez Hlt') as [(nb & s1 & s2 & a1 & -> & Hnb & Ew & Hf1 & He1 & Hda)|[-> Hfree]].
  2:{ cbn. by right. }
  rewrite (proj2 (Z.eqb_neq nb 0)) by done. rewrite Ew. change (find_entry _ 16 0) with (Some 0).
  set (dn1 := set_direct b nb dn) in *.
  assert (Hget : forall j, 0 <= j < 12 -> (direct dn1).[j] = if decide (b = j) then nb else (direct dn).[j]) by (intros; apply aget_aset; lia).
  assert (Hnb' : (direct dn1).[b] = nb) by (rewrite Hget by lia; by rewrite decide_True).
  destruct (put_dirent_write zero_sector 0 idx name zero_sector_ok names_ok_zero ltac:(lia) Hidx Hne Hname) as (Hs' & Hn' & Hsl).
  destruct (put_leaf_run g s2 a1 d dn1 (b, []) nb (put_dirent zero_sector 0 idx name) Hf1) as (s3 & E3 & Hf3 & He3);
    [by apply direct_leaf|by rewrite direct_lba|done|done|].
  rewrite Hnb', E3. left. split; [done|]. set (a3 := a_put nb (put_dirent zero_sector 0 idx name) a1) in *. exists a3, dn1.
  assert (Hda3 : forall j, 0 <= j < 12 -> j <> b -> (direct dn).[j] <> 0 -> a_data a3 ((direct dn).[j]) = a_data a ((direct dn).[j])).
  { intros j Hj Hjb Hjn. cbn. rewrite upd_ne, Hda; [done|]. intros Enb. apply Hjb.
    apply (direct_inj _ _ _ _ dn1 _ _ Hf1); [done|done|rewrite Hget, decide_False by lia; done|].
    rewrite (Hget j), decide_False by lia. congruence. }
  assert (Hslot : forall j, 0 <= j < 16 -> slot (a_data a3 ((direct dn1).[b])) j =
    if decide (j = 0) then Some (idx, take 27 (cstr name)) else slot zero_sector j).
  { rewrite Hnb'. cbn. rewrite upd_eq. exact Hsl. }
  destruct (dir_list_insert g s a d dn dn1 (a_data a3) b 0 (idx, take 27 (cstr name)) zero_sector Hf Hok Hb12 Hlt')
    as (l1 & l2 & L1 & L2); try done.
  - by apply (direct_len _ _ _ _ _ Hf1).
  - intros j Hj Hjb. by rewrite Hget, decide_False by (lia || congruence).
  - congruence.
  - by left.
  - exists l1, l2. split_and!; [|by eapply extends_trans|done|done]. constructor; [done|]. destruct Hok as [Ht Hn Htl]. constructor.
    + done.
    + intros j Hj. rewrite Hget by lia. case_decide as Ej; [intros _; cbn; by rewrite upd_eq|].
      intros Hjn. rewrite Hda3 by (done || congruence). by apply Hn.
    + intros j j' Hj Hj'. rewrite !Hget by lia. case_decide; [done|]. intros Hz. case_decide as Ej'; [|by apply (Htl j)].
      exfalso. apply (Hlt' j); [lia|done].
Qed.

(** The round that finds a free slot in a block of the directory. *)
Lemma dir_add_old g s a d dn name idx b i : dok g s a d dn -> is_u32 idx -> idx <> 0 -> is_bytes name -> 0 <= b < 12 ->
  (direct dn).[b] <> 0 -> (forall j, 0 <= j < b -> (direct dn).[j] <> 0) -> free_slot (a_data a ((direct dn).[b])) = Some i ->
  match dir_add_step d name idx b dn s with
  | (inr r, s') => added g a d dn name idx r s'
  | (inl _, _) => False
  end.
Proof.
  intros Hd Hidx Hne Hname Hb12 Ez Hlt' Hi. pose proof Hd as [Hf Hok]. pose proof (direct_len _ _ _ _ _ Hf) as Hl.
  unfold dir_add_step. munfold. rewrite (proj2 (Z.eqb_neq _ 0)) by done.
  destruct (direct_read _ _ _ _ _ b Hf Hb12 Ez) as [-> Hsec].
  pose proof (free_slot_spec (a_data a ((direct dn).[b]))) as Hspec. rewrite Hi in Hspec.
  unfold free_slot in Hi. rewrite Hi. destruct Hspec as [Hi16 Hnone].
  destruct (put_dirent_write _ i idx name Hsec (do_names _ _ Hok b Hb12 Ez) Hi16 Hidx Hne Hname) as (Hs' & Hn' & Hsl).
  destruct (dir_put_block g s a d dn b _ Hd Hb12 Ez Hs' Hn') as (s' & a' & -> & Hd' & He' & ->).
  split; [done|]. set (a' := a_put _ _ a) in *. exists a', dn.
  destruct (dir_list_insert g s a d dn dn (a_data a') b i
    (idx, take 27 (cstr name)) (a_data a ((direct dn).[b])) Hf Hok Hb12 Hlt') as (l1 & l2 & L1 & L2); try done.
  - by right.
  - intros j Hj Hjb Hjn. cbn; rewrite upd_ne; [done|]. intros Ej. apply Hjb. by eapply direct_inj.
  - cbn. rewrite upd_eq. exact Hsl.
  - by exists l1, l2.
Qed.

(** [dir_add] inserts one entry, or leaves everything alone when the volume or
    the directory is full. *)
Lemma dir_add_run g s a d dn name idx : dok g s a d dn -> is_u32 idx -> idx <> 0 -> is_bytes name ->
  match dir_add d dn name idx s with
  | (r, s') => added g a d dn name idx r s' \/
      (r = -1 /\ s' = s /\ (nfree g a = 0 \/
         forall b i, 0 <= b < 12 -> 0 <= i < 16 -> (direct dn).[b] <> 0 /\ slot (a_data a ((direct dn).[b])) i <> None))
  end.
Proof.
  intros Hd Hidx Hne Hname. pose proof Hd as [Hf Hok]. unfold dir_add. munfold.
  set (p := fun b => ((direct dn).[b] =? 0) || bool_decide (is_Some (free_slot (a_data a ((direct dn).[b]))))).
  assert (Hmiss : forall b, p b = false -> (direct dn).[b] <> 0 /\ free_slot (a_data a ((direct dn).[b])) = None).
  { intros b Hp. apply orb_false_iff in Hp as [H1 H2]. apply bool_decide_eq_false in H2.
    split; [lia|]. by destruct (free_slot _); [destruct H2|]. }
  destruct (aloop_find p 12 0 dn (dir_add_step d name idx) s) as [(b & Hb & Hp & Hlt & E)|[Hall E]].
  - intros b Hb Hp. destruct (Hmiss b Hp) as [Hz Hfs]. unfold dir_add_step. munfold.
    rewrite (proj2 (Z.eqb_neq _ 0)) by done. destruct (direct_read _ _ _ _ _ b Hf ltac:(lia) Hz) as [-> _].
    unfold free_slot in Hfs. by rewrite Hfs.
  - intros b Hb Hp. unfold dir_add_step. munfold. destruct ((direct dn).[b] =? 0) eqn:Ez.
    + destruct (alloc_block s) as [nb s1]. destruct (nb =? 0); [by eexists _, _|].
      destruct (write_inode _ _ s1) as [[] s2]. change (find_entry _ 16 0) with (Some 0).
      by eexists _, _.
    + destruct (direct_read _ _ _ _ _ b Hf ltac:(lia) ltac:(lia)) as [-> _]. unfold p in Hp. rewrite Ez in Hp.
      apply bool_decide_eq_true in Hp as [i Hi]. unfold free_slot in Hi. rewrite Hi. by eexists _, _.
  - rewrite E. assert (Hlt' : forall j, 0 <= j < b -> (direct dn).[j] <> 0) by (intros j Hj; apply Hmiss, Hlt; lia).
    destruct (decide ((direct dn).[b] = 0)) as [Ez|Ez].
    + pose proof (dir_add_new g s a d dn name idx b Hd Hidx Hne Hname ltac:(lia) Ez Hlt') as Hr.
      destruct (dir_add_step d name idx b dn s) as [[?|r] s']; [done|]. destruct Hr as [?|(-> & -> & ?)]; [by left|].
      right. by split_and!; [..|left].
    + unfold p in Hp. rewrite (proj2 (Z.eqb_neq _ 0)) in Hp by done. apply bool_decide_eq_true in Hp as [i Hi].
      pose proof (dir_add_old g s a d dn name idx b i Hd Hidx Hne Hname ltac:(lia) Ez Hlt' Hi) as Hr.
      destruct (dir_add_step d name idx b dn s) as [[?|r] s']; [done|]. by left.
  - rewrite E. right. split_and!; [done..|]. right. intros b i Hb Hi.
    destruct (Hmiss b (Hall b ltac:(lia))) as [Hz Hfs]. split; [done|].
    pose proof (free_slot_spec (a_data a ((direct dn).[b]))) as Hspec. rewrite Hfs in Hspec. by apply Hspec.
Qed.

Definition find_named (buf : sector) (name : list Z) : option Z :=
  find_entry (fun i => negb (dirent_inode buf i =? 0) && (strcmp (dirent_name buf i) name =? 0)) 16 0.
Lemma find_named_spec buf name : match find_named buf name with
  | Some i => 0 <= i < 16 /\ exists e, slot buf i = Some e /\ named name e = true /\
      Forall (fun e => named name e = false) (entries_from (slot buf) (Z.to_nat i) 0)
  | None => Forall (fun e => named name e = false) (entries buf)
  end.
Proof.
  unfold find_named. rewrite entries_eq.
  pose proof (find_entry_entries (slot buf) (named name)
    (fun i => negb (dirent_inode buf i =? 0) && (strcmp (dirent_name buf i) name =? 0)) 16 0) as Hfe.
  assert (Hsl : forall j, 0 <= j < 0 + Z.of_nat 16 ->
    negb (dirent_inode buf j =? 0) && (strcmp (dirent_name buf j) name =? 0) = match slot buf j with Some e => named name e | None => false end).
  { intros j _. unfold slot. destruct (dirent_inode buf j =? 0); [done|]. cbn. unfold named; cbn. apply eq_true_iff_eq.
    rewrite bool_decide_eq_true, Z.eqb_eq. apply strcmp_eq. }
  specialize (Hfe Hsl). destruct (find_entry _ 16 0) as [i|]; [|done].
  destruct Hfe as (Hi & e & H1 & _ & H2 & H3). split; [lia|]. exists e. rewrite Z.sub_0_r in H3. done.
Qed.

(** Entries live in blocks of the directory. *)
Lemma elem_dlist dat l e : e ∈ dlist dat l -> exists j, 0 <= j < zlen l /\ l.[j] <> 0 /\ e ∈ entries (dat (l.[j])).
Proof.
  induction l as [|x l IH]; [intros He; by apply not_elem_of_nil in He|]. rewrite dlist_cons, zlen_cons. pose proof (zlen_nonneg l).
  destruct (x =? 0) eqn:Ex; [intros He; by apply not_elem_of_nil in He|]. intros [He|He]%elem_of_app.
  - exists 0. change ((x :: l).[0]) with x. split_and!; done || lia.
  - destruct (IH He) as (j & Hj & Hne & Hje). exists (j + 1). rewrite aget_cons1 by lia. split_and!; done || lia.
Qed.

(** [dir_remove] deletes the first entry of that name. *)
Lemma dir_remove_run g s a d dn name : dok g s a d dn ->
  match dir_remove dn name s with
  | (r, s') =>
      (r = 0 /\ exists a' l1 e l2, dok g s' a' d dn /\ extends d a dn a' dn /\
         dir_list a dn = l1 ++ e :: l2 /\ named name e = true /\ Forall (fun e => named name e = false) l1 /\
         dir_list a' dn = l1 ++ l2 /\ a_used a' = a_used a /\ a_inode a' = a_inode a) \/
      (r = -1 /\ s' = s /\ Forall (fun e => named name e = false) (dir_list a dn))
  end.
Proof.
  intros Hd. pose proof Hd as [Hf Hok]. pose proof (direct_len _ _ _ _ _ Hf) as Hl.
  unfold dir_remove. rewrite (do_type _ _ Hok). change (negb (2 =? 2)) with false. cbv iota. munfold.
  set (p := fun b => negb ((direct dn).[b] =? 0) && bool_decide (is_Some (find_named (a_data a ((direct dn).[b])) name))).
  assert (Hmiss : forall b, p b = false -> (direct dn).[b] <> 0 -> find_named (a_data a ((direct dn).[b])) name = None).
  { intros b Hp Hne. unfold p in Hp. rewrite (proj2 (Z.eqb_neq _ 0)) in Hp by done. apply bool_decide_eq_false in Hp.
    by destruct (find_named _ name); [destruct Hp|]. }
  destruct (floop_find p 12 0 (dir_remove_step dn name) s) as [(b & Hb & Hp & Hlt & E)|[Hall E]].
  - intros b Hb Hp. unfold dir_remove_step. munfold. destruct ((direct dn).[b] =? 0) eqn:Ez; [done|]. apply Z.eqb_neq in Ez.
    destruct (direct_read _ _ _ _ _ b Hf ltac:(lia) Ez) as [-> _]. pose proof (Hmiss b Hp Ez) as Hm. unfold find_named in Hm. by rewrite Hm.
  - intros b Hb Hp. apply andb_true_iff in Hp as [H1 H2]. apply negb_true_iff in H1. apply bool_decide_eq_true in H2 as [i Hi].
    unfold dir_remove_step. munfold. rewrite H1. apply Z.eqb_neq in H1.
    destruct (direct_read _ _ _ _ _ b Hf ltac:(lia) H1) as [-> _]. unfold find_named in Hi. by rewrite Hi.
  - rewrite E. apply andb_true_iff in Hp as [H1 H2]. apply negb_true_iff in H1. apply bool_decide_eq_true in H2 as [i Hi].
    unfold dir_remove_step. munfold. rewrite H1. apply Z.eqb_neq in H1. assert (Hb12 : 0 <= b < 12) by lia.
    destruct (direct_read _ _ _ _ _ b Hf Hb12 H1) as [-> Hsec].
    pose proof (find_named_spec (a_data a ((direct dn).[b])) name) as Hspec. rewrite Hi in Hspec. destruct Hspec as (Hi16 & e & Hse & Hne & Hl0).
    unfold find_named in Hi. rewrite Hi.
    destruct (clear_dirent_write _ i Hsec (do_names _ _ Hok b Hb12 H1) Hi16) as (Hs' & Hn' & Hsl).
    destruct (dir_put_block g s a d dn b _ Hd Hb12 H1 Hs' Hn') as (s' & a' & Ew & Hd' & He' & ->).
    rewrite Ew. left. split; [done|]. set (a' := a_put _ _ a) in *. exists a'.
    destruct (dlist_update (a_data a) (a_data a') (direct dn) (direct dn) b) as (pre & post & E1 & E2 & E3); try done.
    + by rewrite Hl.
    + intros j Hj Ej. apply H1. apply (do_tail _ _ Hok j); [lia|lia|done].
    + intros j Hj Hjb Hjn. cbn; rewrite upd_ne; [done|]. intros Ej. apply Hjb. eapply direct_inj; done || lia.
    + destruct (entries_slot _ _ i None Hi16 Hsl) as (l1 & l2 & F1 & F2 & ->). rewrite Hse in F1.
      rewrite (proj2 (Z.eqb_neq _ 0)) in E1 by done. rewrite (upd_eq _ _ _ : a_data a' ((direct dn).[b]) = _) in E2. rewrite F1 in E1. rewrite F2 in E2.
      exists (pre ++ entries_from (slot (a_data a ((direct dn).[b]))) (Z.to_nat i) 0), e, (l2 ++ post).
      unfold dir_list. rewrite E1, E2, <- !app_assoc. cbn [app].
      split_and!; try done.
      apply Forall_app. split; [|done]. apply list.Forall_forall. intros e' He2. destruct (E3 e' He2) as (j & Hj & Hje).
      assert (Hjn : (direct dn).[j] <> 0) by (intros Ej; apply H1; apply (do_tail _ _ Hok j); [lia|lia|done]).
      pose proof (find_named_spec (a_data a ((direct dn).[j])) name) as Hsp.
      rewrite (Hmiss j) in Hsp by (done || apply Hlt; lia). by apply (proj1 (list.Forall_forall _ _) Hsp).
  - rewrite E. right. split_and!; [done..|]. apply list.Forall_forall. intros e He.
    destruct (elem_dlist _ _ _ He) as (j & Hj & Hjn & Hje). rewrite Hl in Hj.
    pose proof (find_named_spec (a_data a ((direct dn).[j])) name) as Hsp.
    rewrite (Hmiss j) in Hsp by (done || apply Hall; lia). by apply (proj1 (list.Forall_forall _ _) Hsp).
Qed.

End spec.
End CosDirSpec.
