(* ===== verification/CosRelease.v ===== *)
(** COSFS deletion: releasing the blocks of an inode gives back exactly the
    blocks of its tree. *)
From S2P Require Import Prelude CString Disk CosData CosAlloc CosFile CosDir CosAllocSpec CosVol CosTree CosBlocks CosContent CosDirSpec.
From stdpp Require Import base list numbers.
From Stdlib Require Import ZArith Lia.
Import CString Cos CosAlloc CosFile CosDir CosAllocSpec CosVol CosTree CosBlocks CosContent CosDirSpec.
Open Scope Z_scope.

Module CosRelease.

(** [a'] is [a] with the blocks in [S] marked free. *)
Record freed (S : Z -> Prop) (a a' : avol) : Prop := {
  fr_out : forall l, S l -> a_used a' l = false;
  fr_same : forall l, ~ S l -> a_used a' l = a_used a l;
  fr_mono : forall l, a_used a' l = true -> a_used a l = true;
  fr_data : a_data a' = a_data a;
  fr_inode : a_inode a' = a_inode a;
  fr_iused : a_iused a' = a_iused a;
  fr_cwd : a_cwd a' = a_cwd a;
}.

Lemma freed_none a (S : Z -> Prop) : (forall l, ~ S l) -> freed S a a.
Proof. intros HS. constructor; try done. intros l Hl. by destruct (HS l). Qed.
Lemma freed_trans S1 S2 a a1 a2 : freed S1 a a1 -> freed S2 a1 a2 -> freed (fun l => S1 l \/ S2 l) a a2.
Proof.
  intros F1 F2. constructor.
  - intros l [Hl|Hl]; [|by apply F2]. destruct (a_used a2 l) eqn:E; [|done].
    apply (fr_mono _ _ _ F2) in E. by rewrite (fr_out _ _ _ F1) in E.
  - intros l Hl. rewrite (fr_same _ _ _ F2), (fr_same _ _ _ F1); tauto.
  - intros l Hl. by apply (fr_mono _ _ _ F1), (fr_mono _ _ _ F2).
  - by rewrite (fr_data _ _ _ F2), (fr_data _ _ _ F1).
  - by rewrite (fr_inode _ _ _ F2), (fr_inode _ _ _ F1).
  - by rewrite (fr_iused _ _ _ F2), (fr_iused _ _ _ F1).
  - by rewrite (fr_cwd _ _ _ F2), (fr_cwd _ _ _ F1).
Qed.
Lemma freed_ext S S' a a' : (forall l, S l <-> S' l) -> freed S a a' -> freed S' a a'.
Proof. intros HS []. constructor; try done; intros l Hl; [apply fr_out0|apply fr_same0]; by rewrite HS. Qed.

Lemma lba_data a a' n q : a_data a' = a_data a -> lba a' n q = lba a n q.
Proof. intros E. unfold lba, walk. by rewrite E. Qed.

(** Blocks at or below a position. *)
Definition below (a : avol) (n : inode) (r : Z) (p : list Z) (l : Z) : Prop :=
  l <> 0 /\ exists p', valid (r, p ++ p') /\ lba a n (r, p ++ p') = l.

Section spec.
Context {D : Type} `{BlockDevLaws D}.
Implicit Types s : fsstate D.

(** A loop over [n] children, child [i] freeing [S i]. *)
Lemma freed_loop g (Si : Z -> Z -> Prop) n (body : Z -> st (fsstate D) unit) s a : rep g s a ->
  (forall i s a', 0 <= i < Z.of_nat n -> rep g s a' -> a_data a' = a_data a ->
     exists a2, rep g (body i s).2 a2 /\ freed (Si i) a' a2) ->
  exists a2, rep g (ffor n 0 body s).2 a2 /\ freed (fun l => exists i, 0 <= i < Z.of_nat n /\ Si i l) a a2.
Proof.
  intros Hr Hstep.
  pose proof (ffor_inv (fun i s => exists a2, rep g s a2 /\ freed (fun l => exists j, 0 <= j < i /\ Si j l) a a2) n 0 body s) as Hi.
  cbn beta in Hi. rewrite Z.add_0_l in Hi. apply Hi; clear Hi.
  - exists a. split; [done|]. apply freed_none. intros l (j & Hj & _). lia.
  - intros i s1 Hi (a1 & Hr1 & F1). destruct (Hstep i s1 a1 ltac:(lia) Hr1 (fr_data _ _ _ F1)) as (a2 & Hr2 & F2).
    exists a2. split; [done|]. eapply freed_ext; [|exact (freed_trans _ _ _ _ _ F1 F2)]. intros l. cbn. split.
    + intros [(j & Hj & Hs)|Hs]; [exists j|exists i]; split; done || lia.
    + intros (j & Hj & Hs). destruct (decide (j = i)) as [->|]; [by right|]. left. exists j. split; [lia|done].
Qed.

Lemma free_one g s a b : rep g s a -> data_start g <= b < total_blocks g ->
  exists a2, rep g (free_block b s).2 a2 /\ freed (eq b) a a2.
Proof.
  intros Hr Hb. pose proof (r_geom _ _ _ Hr) as []. destruct (rep_free_block _ _ _ b Hr) as (s' & -> & Hr'); [lia|].
  exists (a_mark b false a). split; [done|]. constructor; cbn; try done; unfold upd.
  - intros l <-. by rewrite decide_True.
  - intros l Hl. by rewrite decide_False by congruence.
  - intros l. by case_decide.
Qed.

Context (g : superblock) (a0 : avol) (n : inode).
Context (Hrange : forall q, valid q -> lba a0 n q <> 0 -> data_start g <= lba a0 n q < total_blocks g).

(** [free_indirect_tree] on a node with [d] levels below it. *)
Lemma free_tree_run d r p s a : rep g s a -> a_data a = a_data a0 -> valid (r, p) ->
  (length p + d = depth r)%nat -> lba a0 n (r, p) <> 0 ->
  exists a2, rep g (free_indirect_tree d (lba a0 n (r, p)) s).2 a2 /\ freed (below a0 n r p) a a2.
Proof.
  revert p s a. induction d as [|d IH]; intros p s a Hr Hd Hv Hlen Hne; cbn [free_indirect_tree];
    rewrite (proj2 (Z.eqb_neq _ 0)) by done; pose proof (Hrange _ Hv Hne) as Hb.
  - change ((mret tt;; free_block (lba a0 n (r, p))) s) with (free_block (lba a0 n (r, p)) s).
    destruct (free_one g s a _ Hr Hb) as (a2 & Hr2 & F). exists a2. split; [done|]. eapply freed_ext; [|exact F].
    intros l. split.
    + intros <-. split; [done|]. exists []. by rewrite app_nil_r.
    + intros (Hl & p' & (_ & Hp & _) & <-). cbn in Hp. rewrite length_app in Hp.
      destruct p'; [by rewrite app_nil_r|cbn in Hp; lia].
  - set (x := lba a0 n (r, p)) in *.
    assert (Hrd : block_read x s = (a_data a0 x, s)) by (rewrite <- Hd; by apply (rep_block_read g)).
    munfold. rewrite Hrd.
    assert (Hchild : forall i, lba a0 n (r, p ++ [i]) = ptr_get (a_data a0 x) i).
    { intros i. rewrite lba_snoc. fold x. by rewrite (proj2 (Z.eqb_neq x 0)). }
    destruct (freed_loop g (fun i l => below a0 n r (p ++ [i]) l) 128
      (fun i => if ptr_get (a_data a0 x) i =? 0 then mret tt else free_indirect_tree d (ptr_get (a_data a0 x) i)) s a Hr)
      as (a1 & Hr1 & F1).
    { intros i s1 a1 Hi Hr1 Hd1. rewrite <- Hchild.
      assert (Hvc : valid (r, p ++ [i])).
      { destruct Hv as (V1 & V2 & V3). cbn in *. unfold valid; cbn. rewrite length_app. cbn.
        split_and!; [lia|lia|lia|]. apply Forall_app. split; [done|]. repeat constructor; lia. }
      destruct (lba a0 n (r, p ++ [i]) =? 0) eqn:Ez.
      - exists a1. split; [done|]. apply freed_none. intros l (Hl & p' & _ & El). apply Z.eqb_eq in Ez.
        rewrite lba_below_zero in El by done. congruence.
      - apply IH; [done|congruence|done|rewrite length_app; cbn; lia|lia]. }
    match goal with |- context [ffor 128 0 ?b s] => set (body := b) in * end.
    destruct (ffor 128 0 body s) as [[] s1] eqn:Ef. cbn [snd] in Hr1.
    change (fun i => if ptr_get (a_data a0 x) i =? 0 then mret tt else free_indirect_tree d (ptr_get (a_data a0 x) i)) with body in Hr1.
    rewrite Ef in Hr1. cbn [snd] in Hr1. destruct (free_one g s1 a1 x Hr1 Hb) as (a2 & Hr2 & F2). exists a2.
    split; [done|]. eapply freed_ext; [|exact (freed_trans _ _ _ _ _ F1 F2)]. intros l. cbn. split.
    + intros [(i & Hi & Hl & p' & Hp)|<-].
      * split; [done|]. exists (i :: p'). by rewrite <- app_assoc in Hp.
      * split; [done|]. exists []. by rewrite app_nil_r.
    + intros (Hl & [|i p'] & Hp & El); [rewrite app_nil_r in El; by right|]. left.
      pose proof Hp as (_ & _ & V3). cbn in V3. apply Forall_app in V3 as [_ V4]. apply Forall_cons_1 in V4 as [V4 _].
      exists i. split; [lia|]. split; [done|]. exists p'. rewrite <- app_assoc. by split.
Qed.

Lemma free_root_run r d s a : rep g s a -> a_data a = a_data a0 -> 0 <= r <= 14 -> d = depth r ->
  exists a2, rep g ((if root_ptr n r =? 0 then mret tt else free_indirect_tree d (root_ptr n r)) s).2 a2 /\
    freed (below a0 n r []) a a2.
Proof.
  intros Hr Hd Hrr ->. rewrite <- (lba_nil a0). destruct (lba a0 n (r, []) =? 0) eqn:E.
  - exists a. split; [done|]. apply freed_none. intros l (Hl & p' & _ & El). apply Z.eqb_eq in E.
    rewrite (lba_below_zero _ _ _ [] p' E) in El. congruence.
  - apply free_tree_run; [done|done|by apply valid_root|done|lia].
Qed.

(** [fs_free_inode_data] frees the blocks of the tree, each and nothing else. *)
Lemma free_inode_data_run s : rep g s a0 ->
  exists a2, rep g (fs_free_inode_data n s).2 a2 /\ freed (fun l => l <> 0 /\ exists q, valid q /\ lba a0 n q = l) a0 a2.
Proof.
  intros Hr. unfold fs_free_inode_data.
  destruct (freed_loop g (fun i l => below a0 n i [] l) 12
    (fun i => if (direct n).[i] =? 0 then mret tt else free_block ((direct n).[i])) s a0 Hr) as (a1 & Hr1 & F1).
  { intros i s1 a1 Hi Hr1 Hd1. pose proof (free_root_run i 0 s1 a1 Hr1 Hd1 ltac:(lia)) as Hf.
    unfold root_ptr in Hf. rewrite (proj2 (Z.ltb_lt i 12)) in Hf by lia.
    assert (E0 : (if (direct n).[i] =? 0 then mret tt else free_indirect_tree 0 ((direct n).[i])) s1 =
                 (if (direct n).[i] =? 0 then mret tt else free_block ((direct n).[i])) s1).
    { unfold free_indirect_tree. by destruct ((direct n).[i] =? 0). }
    rewrite E0 in Hf. apply Hf. unfold depth. lia. }
  munfold. destruct (ffor 12 0 _ s) as [[] s1]. cbn [snd] in Hr1.
  assert (Hw : forall r d s1 a1, rep g s1 a1 -> a_data a1 = a_data a0 -> 12 <= r <= 14 -> d = depth r ->
    exists a2, rep g ((if negb (root_ptr n r =? 0) then free_indirect_tree d (root_ptr n r) else mret tt) s1).2 a2 /\
      freed (below a0 n r []) a1 a2).
  { intros r d s2 a2 H2 Hd2 Hrr Hdd. destruct (free_root_run r d s2 a2 H2 Hd2 ltac:(lia) Hdd) as (a3 & H3 & F3).
    exists a3. split; [|done]. by destruct (root_ptr n r =? 0). }
  destruct (Hw 12 1%nat s1 a1 Hr1 (fr_data _ _ _ F1) ltac:(lia) eq_refl) as (a2 & Hr2 & F2).
  change (root_ptr n 12) with (single_indirect n) in Hr2. 
  match type of Hr2 with rep _ (?e).2 _ => destruct e as [[] s2] end.
  cbn [snd] in Hr2. pose proof (freed_trans _ _ _ _ _ F1 F2) as F12.
  destruct (Hw 13 2%nat s2 a2 Hr2 (fr_data _ _ _ F12) ltac:(lia) eq_refl) as (a3 & Hr3 & F3).
  change (root_ptr n 13) with (double_indirect n) in Hr3. 
  match type of Hr3 with rep _ (?e).2 _ => destruct e as [[] s3] end.
  cbn [snd] in Hr3. pose proof (freed_trans _ _ _ _ _ F12 F3) as F13.
  destruct (Hw 14 3%nat s3 a3 Hr3 (fr_data _ _ _ F13) ltac:(lia) eq_refl) as (a4 & Hr4 & F4).
  exists a4. split; [done|]. eapply freed_ext; [|exact (freed_trans _ _ _ _ _ F13 F4)]. intros l. cbn. split.
  - intros [[[(i & _ & Hl & p & Hp & El)|(Hl & p & Hp & El)]|(Hl & p & Hp & El)]|(Hl & p & Hp & El)];
      (split; [done|]; eexists; split; [exact Hp|exact El]).
  - intros (Hl & [r p] & Hp & El). pose proof Hp as (Hrr & _). cbn in Hrr.
    assert (Hb : below a0 n r [] l) by (split; [done|]; exists p; done).
    destruct (decide (r < 12)); [left; left; left; exists r; split; [lia|done]|].
    assert (r = 12 \/ r = 13 \/ r = 14) as [->|[->| ->]] by lia; tauto.
Qed.

End spec.
End CosRelease.
