(* ===== verification/CosCreate.v ===== *)
(** COSFS creation: a new file or directory takes a free inode and a free
    block, is entered in its directory, and disturbs nothing else. *)
From S2P Require Import Prelude CString Disk CosData CosAlloc CosFile CosDir CosAllocSpec CosVol CosTree CosBlocks CosContent CosDirSpec.
From stdpp Require Import base list numbers.
From Stdlib Require Import ZArith Lia.
Import CString Cos CosAlloc CosFile CosDir CosAllocSpec CosVol CosTree CosBlocks CosContent CosDirSpec.
Open Scope Z_scope.

Module CosCreate.

(** ** An inode with one block *)

Lemma single_lba a n b q : (forall r, 0 <= r <= 14 -> root_ptr n r = if decide (r = 0) then b else 0) -> valid q ->
  lba a n q = if decide (q = (0, [])) then b else 0.
Proof.
  intros Hn Hq. destruct q as [r p]. pose proof Hq as (Hr & Hp & _). cbn in Hr, Hp. destruct (decide (r = 0)) as [->|Hne].
  - unfold depth in Hp. cbn in Hp. destruct p; [|cbn in Hp; lia]. rewrite decide_True by done. rewrite lba_nil, Hn by lia. done.
  - rewrite decide_False by congruence. apply (lba_below_zero a n r []). rewrite lba_nil, Hn by lia. by rewrite decide_False.
Qed.
Lemma single_tree g a n b : (forall r, 0 <= r <= 14 -> root_ptr n r = if decide (r = 0) then b else 0) ->
  data_start g <= b < total_blocks g -> a_used a b = true -> tree_ok g a n.
Proof.
  intros Hn Hb Hu. constructor.
  - intros q Hq. rewrite (single_lba a n b q Hn Hq). case_decide; [done|lia].
  - intros q q' Hq Hq'. rewrite (single_lba a n b q Hn Hq), (single_lba a n b q' Hn Hq').
    do 2 case_decide; congruence.
Qed.

Definition fresh_inode (n : inode) : Prop := inode_wf n /\ size n = 0 /\ forall r, 0 <= r <= 14 -> root_ptr n r = 0.

Lemma root_zero r : 0 <= r -> root_ptr zero_inode r = 0.
Proof.
  intros Hr. unfold root_ptr, zero_inode. cbn [direct single_indirect double_indirect triple_indirect].
  destruct (r <? 12) eqn:E; [apply aget_replicate; lia|by repeat case_match].
Qed.
Lemma zero_inode_wf : inode_wf zero_inode.
Proof.
  constructor; cbn; repeat constructor; unfold is_u32, is_u8; lia.
Qed.
Lemma fresh_root n b : fresh_inode n -> forall r, 0 <= r <= 14 -> root_ptr (set_direct 0 b n) r = if decide (r = 0) then b else 0.
Proof.
  intros (Hwf & _ & Hz) r Hr. change (set_direct 0 b n) with (set_root 0 b n).
  rewrite root_set_root by (done || lia). case_decide; [done|]. by apply Hz.
Qed.

Section spec.
Context {D : Type} `{BlockDevLaws D}.
Implicit Types s : fsstate D.

(** A directory does not notice changes to free blocks and other inodes. *)
Lemma dok_frame g s a d dn s' a' : dok g s a d dn -> rep g s' a' -> a_inode a' d = dn ->
  (forall l, a_used a l = true -> a_used a' l = true /\ a_data a' l = a_data a l) ->
  dok g s' a' d dn /\ dir_list a' dn = dir_list a dn.
Proof.
  intros [[Hr Hi Hat Ht] Hok] Hr' Hat' Hk.
  assert (Hdat : forall q, valid q -> lba a dn q <> 0 -> a_data a' (lba a dn q) = a_data a (lba a dn q)).
  { intros q Hq Hne. by apply Hk, (to_range _ _ _ Ht). }
  assert (Hl : forall q, valid q -> lba a' dn q = lba a dn q).
  { intros q Hq. apply lba_frame; [done|]. intros q1 Hq1. by apply Hdat, inner_valid. }
  assert (Hdir : forall b, 0 <= b < 12 -> (direct dn).[b] <> 0 -> a_data a' ((direct dn).[b]) = a_data a ((direct dn).[b])).
  { intros b Hb. rewrite <- (direct_lba a dn b Hb). apply Hdat. by apply leaf_valid, direct_leaf. }
  assert (Hlen : zlen (direct dn) = 12) by (rewrite <- Hat; apply (wf_direct _ (rep_inode_wf _ _ _ d Hr Hi))).
  split; [constructor; [constructor; [done|done|done|]|]|].
  - constructor.
    + intros q Hq. rewrite Hl by done. intros Hne. destruct (to_range _ _ _ Ht q Hq Hne). split; [done|]. by apply Hk.
    + intros q q' Hq Hq'. rewrite !Hl by done. by apply Ht.
  - destruct Hok as [Hty Hn Htl]. constructor; [done| |done]. intros b Hb Hne. rewrite Hdir by done. by apply Hn.
  - unfold dir_list. apply dlist_ext; [done|done|]. rewrite Hlen. intros j Hj. by apply Hdir.
Qed.

(** The part [fs_create_file] and [fs_create_dir] share. *)
Definition create_core (zero : bool) (node : inode) (d : Z) (name : list Z) : st (fsstate D) Z :=
  idx ← alloc_inode;
  if idx <? 0 then mret (-1) else
  b ← alloc_block;
  if b =? 0 then free_inode idx;; mret (-1) else
  write_inode idx (set_direct 0 b node);;
  (if zero then block_write b zero_sector else mret tt);;
  parent ← read_inode d;
  dir_add d parent name idx;;
  mret idx.

(** The new inode [i]: [node] with one block of its own. *)
Definition created g (zero : bool) node a a' s' (i : Z) : Prop :=
  a_iused a i = false /\ a_iused a' i = true /\ (forall j, j <> i -> a_iused a' j = a_iused a j) /\
  exists b, fok g s' a' i (set_direct 0 b node) /\ a_used a b = false /\ b <> 0 /\
    (zero = true -> a_data a' b = zero_sector).

(** Nothing that was in use is lost, and other inodes keep their contents. *)
Definition keeps a a' (d i : Z) : Prop :=
  (forall l, a_used a l = true -> a_used a' l = true) /\ (forall j, j <> d -> j <> i -> a_inode a' j = a_inode a j).

Lemma create_core_run g s a d dn zero node name : dok g s a d dn -> fresh_inode node -> is_bytes name ->
  a_iused a 0 = true -> a_iused a d = true ->
  match create_core zero node d name s with
  | (r, s') => exists a' dn', dok g s' a' d dn' /\ keeps a a' d r /\
     ((r = -1 /\ dir_list a' dn' = dir_list a dn /\ (forall j, a_iused a' j = a_iused a j) /\
       (nfree g a = 0 \/ forall i, 0 <= i < inode_count g -> a_iused a i = true)) \/
      (0 < r < inode_count g /\ created g zero node a a' s' r /\
       ((exists l1 l2, dir_list a dn = l1 ++ l2 /\ dir_list a' dn' = l1 ++ (r, take 27 (cstr name)) :: l2) \/
        (dir_list a' dn' = dir_list a dn /\ (nfree g a <= 1 \/ forall b i, 0 <= b < 12 -> 0 <= i < 16 ->
           (direct dn).[b] <> 0 /\ slot (a_data a ((direct dn).[b])) i <> None)))))
  end.
Proof.
  intros Hd Hnode Hname Hu0 Hud. pose proof Hd as [Hf Hok]. pose proof Hf as [Hr Hi Hat Ht].
  pose proof (r_geom _ _ _ Hr) as Hg. destruct Hg as [_ _ Hic _ _ Hds Htot _].
  unfold create_core. munfold.
  destruct (rep_alloc_inode _ _ _ Hr) as [(i & s1 & -> & Hii & Hfree & _ & Hr1)|[Hall ->]].
  2:{ cbn. exists a, dn. split_and!; [done|done|]. left. by split_and!; [..|right]. }
  rewrite (proj2 (Z.ltb_ge i 0)) by lia.
  assert (Hi0 : i <> 0) by congruence. assert (Hid : i <> d) by congruence.
  destruct (rep_alloc_block _ _ _ Hr1) as [(b & s2 & -> & Hb & Hbf & Hr2)|[Hfull ->]].
  2:{ cbn. destruct (rep_free_inode _ _ _ i Hr1 Hii) as (s3 & -> & Hr3).
      destruct (dok_frame g s a d dn s3 _ Hd Hr3) as [Hd3 Hl3]; [done|done|].
      eexists _, dn. split_and!; [exact Hd3|done|]. left. split_and!; [done|done| |left; by apply nfree_zero].
      intros j. cbn. unfold upd. case_decide; congruence. }
  change (a_used a b = false) in Hbf. rewrite (proj2 (Z.eqb_neq b 0)) by lia. set (child := set_direct 0 b node).
  assert (Hcw : inode_wf child).
  { apply (set_root_wf node 0 b); [apply Hnode|unfold is_u32; lia]. }
  destruct (rep_write_inode _ _ _ i child Hr2 Hii Hcw) as (s3 & -> & Hr3).
  set (a3 := a_set_inode i child (a_mark b true (a_imark i true a))) in *.
  set (a4 := if zero then a_put b zero_sector a3 else a3).
  assert (H4 : exists s4, (if zero then block_write b zero_sector else mret tt) s3 = (tt, s4) /\ rep g s4 a4).
  { subst a4. destruct zero; [|by exists s3]. apply rep_block_write; [done|done|apply zero_sector_ok]. }
  destruct H4 as (s4 & E4 & Hr4). unfold mret, st_ret in E4. rewrite E4.
  assert (Ha4 : a_inode a4 = upd (a_inode a) i child /\ a_used a4 = upd (a_used a) b true /\
    a_iused a4 = upd (a_iused a) i true /\ (forall l, l <> b -> a_data a4 l = a_data a l) /\ (zero = true -> a_data a4 b = zero_sector)).
  { subst a4 a3. destruct zero; cbn; split_and!; try done; [|by rewrite upd_eq]. intros l Hl. by apply upd_ne. }
  destruct Ha4 as (Hai & Hau & Haiu & Had & Haz).
  assert (Hkeep : forall l, a_used a l = true -> a_used a4 l = true /\ a_data a4 l = a_data a l).
  { intros l Hl. rewrite Hau. assert (l <> b) by congruence. rewrite upd_ne by done. auto. }
  destruct (dok_frame g s a d dn s4 a4 Hd Hr4) as [Hd4 Hl4]; [rewrite Hai; by rewrite upd_ne|done|].
  rewrite (rep_read_inode _ _ _ _ Hr4 Hi), Hai, upd_ne, Hat by done.
  assert (Hc4 : fok g s4 a4 i child).
  { constructor; [done|done|by rewrite Hai, upd_eq|]. apply (single_tree g a4 child b); [by apply fresh_root|done|by rewrite Hau, upd_eq]. }
  assert (Hnf : nfree g a4 = nfree g a - 1).
  { assert (nfree g a = nfree g a4 + 1); [|lia]. unfold nfree. rewrite Hau. apply (count_flip _ _ _ (b - data_start g)); [lia|..].
    - replace (data_start g + (b - data_start g)) with b by lia. by rewrite upd_eq.
    - replace (data_start g + (b - data_start g)) with b by lia. by rewrite Hbf.
    - intros k Hk Hne. by rewrite upd_ne by lia. }
  pose proof (dir_add_run g s4 a4 d dn name i Hd4 ltac:(unfold is_u32; lia) Hi0 Hname) as Hadd.
  destruct (dir_add d dn name i s4) as [rc s5]. destruct Hadd as [(-> & a5 & dn5 & l1 & l2 & Hd5 & He5 & L1 & L2)|(-> & -> & Hfull)].
  - assert (Hdis : disjoint_trees a4 dn child).
    { intros q q2 Hq Hq2 Hne E. rewrite (single_lba a4 child b q2) in E by (done || by apply fresh_root).
      case_decide; [|congruence]. destruct (dok_frame g s a d dn s4 a4 Hd Hr4) as [[[_ _ _ Ht4] _] _]; [by rewrite Hai, upd_ne|done|].
      rewrite (lba_frame a a4 dn q Hq) in E.
      - destruct (to_range _ _ _ Ht q Hq) as [_ ?]; [|congruence]. lia.
      - intros q1 Hq1 Hn1. by apply Hkeep, (to_range _ _ _ Ht); [apply inner_valid|]. }
    destruct (extends_other g d a4 dn a5 dn5 child (fo_tree _ _ _ _ _ Hc4) Hdis He5) as (_ & Htc & _ & _).
    exists a5, dn5. split_and!; [done| |].
    + split; [intros l Hl; by apply (ex_used _ _ _ _ _ He5), Hkeep|].
      intros j Hj Hji. rewrite (ex_inode _ _ _ _ _ He5) by done. rewrite Hai. by apply upd_ne.
    + right. split_and!; [lia|lia| |left; exists l1, l2; by rewrite <- Hl4].
      split_and!; [done|by rewrite (ex_iused _ _ _ _ _ He5), Haiu, upd_eq| |].
      { intros j Hj. rewrite (ex_iused _ _ _ _ _ He5), Haiu. by apply upd_ne. }
      exists b. split_and!; [|done|lia|].
      * destruct Hd5 as [[Hr5 _ _ _] _]. constructor; [done|done| |done]. rewrite (ex_inode _ _ _ _ _ He5) by done. by rewrite Hai, upd_eq.
      * intros Hz. rewrite (ex_foreign _ _ _ _ _ He5); [by apply Haz|by rewrite Hau, upd_eq|].
        intros q Hq E. apply (Hdis q (0, [])); [done|by apply valid_root|lia|].
        rewrite (single_lba a4 child b) by (by apply fresh_root || by apply valid_root). by rewrite decide_True.
  - exists a4, dn. split_and!; [done| |].
    + split; [intros l Hl; by apply Hkeep|]. intros j Hj Hji. rewrite Hai. by apply upd_ne.
    + right. split_and!; [lia|lia| |right; split; [done|]].
      * split_and!; [done|by rewrite Haiu, upd_eq| |]. { intros j Hj. rewrite Haiu. by apply upd_ne. }
        exists b. split_and!; done || lia.
      * destruct Hfull as [?|Hfull]; [left; lia|right]. intros b' i' Hb' Hi'. destruct (Hfull b' i' Hb' Hi') as [Hn1 Hn2].
        split; [done|]. assert (Hu' : a_used a ((direct dn).[b']) = true).
        { rewrite <- (direct_lba a dn b') by done.
          apply (to_range _ _ _ Ht); [by apply leaf_valid, direct_leaf|by rewrite direct_lba]. }
        by rewrite <- (proj2 (Hkeep _ Hu')).
Qed.

End spec.
End CosCreate.
