(* ===== verification/CosDemo.v ===== *)
(** A small COSFS volume made by running the model: the concrete state on
    which the theorems about COSFS are instantiated. *)
From S2P Require Import Prelude CString Disk CosData CosAlloc CosFile CosDir CosFormat CosAllocSpec CosVol CosTree CosBlocks CosContent CosDirSpec CosCreate.
From stdpp Require Import base list gmap numbers.
From Stdlib Require Import ZArith Lia.
Import CString Cos CosAlloc CosFile CosDir CosFormat CosAllocSpec CosVol CosTree CosBlocks CosContent CosDirSpec CosCreate Drives.
Open Scope Z_scope.

Module CosDemo.

(** Volumes without names: state and volume agree by definition. *)
Lemma rep_abs {D} `{BlockDevLaws D} g (s : fsstate D) : sb s = g -> block_bitmap_sectors s = geom_bsec g ->
  inode_bitmap_sectors s = geom_isec g -> geom_ok g (bcap (dev s)) -> bok (dev s) -> sb_decode (sec_at s 0) = g ->
  zlen (inode_bitmap s) = INODE_BITMAP_SIZE -> is_bytes (inode_bitmap s) ->
  (forall k, 0 <= k < geom_isec g -> sec_at s (bitmap_start g + geom_bsec g + k) = slice (inode_bitmap s) (k * 512) 512) ->
  rep g s (abs s).
Proof. intros. constructor; done. Qed.

(** One IDE drive of 64 sectors. *)
Definition blank_sb : superblock := mk_sb 0 0 0 0 0 0 0.
Definition demo_disk : drives := mk_drives (0, 0) (<[(0x1F0, 0) := mk_drive 64 ∅]> ∅).
Definition demo_boot : fsstate drives :=
  mk_fs demo_disk blank_sb (replicate (Z.to_nat INODE_BITMAP_SIZE) 0) 0 0 0 0 0 0 [mk_device 0x1F0 0 64] 1.
Definition demo_g : superblock := format_sb 64.
(** The drive formatted, and with two files "a" and "b" in the root. *)
Definition demo : fsstate drives := (qformat_fs demo_boot).2.
Definition demo1 : fsstate drives := (fs_create_file [97; 0] (Some [116; 0]) demo).2.
Definition demo2 : fsstate drives := (fs_create_file [98; 0] (Some [116; 0]) demo1).2.
Definition FILE_A : Z := 6.
Definition FILE_B : Z := 7.

Lemma demo_geom : geom_ok demo_g 64.
Proof. constructor; vm_compute; done. Qed.

Ltac demo_rep_tac :=
  apply rep_abs;
  [vm_compute; reflexivity|vm_compute; reflexivity|vm_compute; reflexivity|exact demo_geom
  |apply (bool_decide_unpack _); vm_compute; exact I|vm_compute; reflexivity|vm_compute; reflexivity
  |unfold is_bytes; apply (bool_decide_unpack _); vm_compute; exact I
  |let k := fresh in intros k ?; assert (k = 0) as -> by (change (geom_isec demo_g) with 1 in *; lia); vm_compute; reflexivity].

Lemma demo_rep : rep demo_g demo (abs demo).
Proof. demo_rep_tac. Qed.
Lemma demo2_rep : rep demo_g demo2 (abs demo2).
Proof. demo_rep_tac. Qed.

(** The inodes of the two files have one block each. *)
Definition node_a : inode := a_inode (abs demo2) FILE_A.
Definition node_b : inode := a_inode (abs demo2) FILE_B.

Lemma demo_roots n b : (forall r, (r <= 14)%nat -> root_ptr n (Z.of_nat r) = if decide (r = 0%nat) then b else 0) ->
  forall r, 0 <= r <= 14 -> root_ptr n r = if decide (r = 0) then b else 0.
Proof.
  intros Hn r Hr. specialize (Hn (Z.to_nat r)). rewrite Z2Nat.id in Hn by lia. rewrite Hn by lia.
  by do 2 case_decide; try lia.
Qed.
Ltac root_cases := intros r Hr; do 15 (destruct r as [|r]; [vm_compute; reflexivity|]); lia.
Lemma roots_a : forall r, 0 <= r <= 14 -> root_ptr node_a r = if decide (r = 0) then 13 else 0.
Proof. apply demo_roots. root_cases. Qed.
Lemma roots_b : forall r, 0 <= r <= 14 -> root_ptr node_b r = if decide (r = 0) then 14 else 0.
Proof. apply demo_roots. root_cases. Qed.

Lemma demo_fok_a : fok demo_g demo2 (abs demo2) FILE_A node_a.
Proof.
  constructor; [exact demo2_rep|vm_compute; done|reflexivity|].
  apply (single_tree _ _ _ 13 roots_a); [vm_compute; done|vm_compute; reflexivity].
Qed.
Lemma demo_fok_b : fok demo_g demo2 (abs demo2) FILE_B node_b.
Proof.
  constructor; [exact demo2_rep|vm_compute; done|reflexivity|].
  apply (single_tree _ _ _ 14 roots_b); [vm_compute; done|vm_compute; reflexivity].
Qed.

(** The root directory. *)
Definition node_root : inode := a_inode (abs demo2) 0.
Lemma roots_root : forall r, 0 <= r <= 14 -> root_ptr node_root r = if decide (r = 0) then 7 else 0.
Proof. apply demo_roots. root_cases. Qed.
Lemma demo_dok_root : dok demo_g demo2 (abs demo2) 0 node_root.
Proof.
  constructor; [constructor; [exact demo2_rep|vm_compute; done|reflexivity|]|].
  - apply (single_tree _ _ _ 7 roots_root); [vm_compute; done|vm_compute; reflexivity].
  - assert (Hd : forall b, 0 <= b < 12 -> (direct node_root).[b] = if decide (b = 0) then 7 else 0).
    { intros b Hb. rewrite <- (direct_lba (abs demo2)) by done. rewrite lba_nil. apply roots_root. lia. }
    constructor; [vm_compute; reflexivity| |].
    + intros b Hb. rewrite Hd by done. case_decide; [|done]. intros _ i Hi.
      assert (Hall : forall k, (k < 16)%nat -> (a_data (abs demo2) 7).[32 * Z.of_nat k + 31] = 0).
      { intros k Hk. do 16 (destruct k as [|k]; [vm_compute; reflexivity|]). lia. }
      specialize (Hall (Z.to_nat i)). rewrite Z2Nat.id in Hall by lia. apply Hall. lia.
    + intros b b' Hb Hb'. rewrite !Hd by lia. do 2 case_decide; lia.
Qed.

(** The same volume with every block marked in use. *)
Definition demo_full : fsstate drives := (block_write 1 (replicate 512 255) demo2).2.
Lemma demo_full_rep : rep demo_g demo_full (abs demo_full).
Proof. demo_rep_tac. Qed.
Lemma demo_full_fok : fok demo_g demo_full (abs demo_full) FILE_A node_a.
Proof.
  constructor; [exact demo_full_rep|vm_compute; done|vm_compute; reflexivity|].
  apply (single_tree _ _ _ 13 roots_a); [vm_compute; done|vm_compute; reflexivity].
Qed.
Lemma demo_full_used l : data_start demo_g <= l < total_blocks demo_g -> a_used (abs demo_full) l = true.
Proof.
  intros Hl. assert (Hall : forallb (fun k => blk_used demo_full (Z.of_nat k)) (seq 0 64) = true) by (vm_compute; reflexivity).
  rewrite forallb_forall in Hall. specialize (Hall (Z.to_nat l)). change (total_blocks demo_g) with 64 in Hl.
  change (data_start demo_g) with 7 in Hl. rewrite Z2Nat.id in Hall by lia. apply Hall. apply in_seq. lia.
Qed.

End CosDemo.
