(* ===== verification/CosProps.v ===== *)
(** COSFS: the properties of the file system, each with an instance on the
    demonstration volume. *)
From S2P Require Import Prelude CString Disk CosData CosAlloc CosFile CosDir CosFormat CosAllocSpec CosVol CosTree CosBlocks CosContent CosDirSpec CosRelease CosCreate CosDemo.
From stdpp Require Import base list gmap numbers.
From Stdlib Require Import ZArith Lia.
Import CString Cos CosAlloc CosFile CosDir CosFormat CosAllocSpec CosVol CosTree CosBlocks CosContent CosDirSpec CosRelease CosCreate CosDemo Drives.
Open Scope Z_scope.

Module CosProps.

(** ** Geometry *)

Lemma land_lnot7 x : 0 <= x -> Z.land x (Z.lnot 7) = x / 8 * 8.
Proof.
  intros. rewrite <- Z.ldiff_land. change 7 with (Z.ones 3). rewrite Z.ldiff_ones_r by lia.
  rewrite Z.shiftl_mul_pow2, Z.shiftr_div_pow2 by lia. done.
Qed.
Lemma format_inodes_bounds t : 0 <= t < 2 ^ 32 ->
  8 <= format_inodes t <= 262144 /\ format_inodes t <= Z.max 8 (t / 4 + 7).
Proof.
  intros Ht. unfold format_inodes, INODE_BITMAP_SIZE. rewrite (u32_small (t / 4)) by zdm.
  set (c := if 32768 * 8 <? t / 4 then 32768 * 8 else t / 4). assert (Hc : 0 <= c <= 262144 /\ c <= t / 4).
  { subst c. destruct (_ <? t / 4) eqn:E; zdm. }
  clearbody c.
  rewrite u32_small by lia. rewrite land_lnot7 by lia. destruct ((c + 7) / 8 * 8 =? 0) eqn:E; zdm.
Qed.

(** Formatting lays the volume out in disjoint regions that fit the drive:
    for every drive of 8 sectors or more (the total clamped to 32 bits as the
    code does) the superblock that [format_fs] and [qformat_fs] compute puts the
    block bitmap, the inode bitmap, the inode table and the data one after the
    other, each large enough for what it describes, and leaves data blocks. *)
Theorem format_geometry total cap : 8 <= total -> total <= cap <= 2 ^ 32 ->
  let g := format_sb total in
  geom_ok g cap /\ total_blocks g <= geom_bsec g * 4096 /\ inode_count g <= geom_isec g * 4096 /\
  data_start g < total_blocks g.
Proof.
  intros Ht Hc g. assert (Hf : 8 <= format_total total <= 2 ^ 32 - 2 /\ format_total total <= total).
  { unfold format_total. destruct (_ <? total) eqn:E; lia. }
  destruct (format_inodes_bounds (format_total total)) as [Hi1 Hi2]; [lia|].
  assert (Hb : geom_bsec g = (format_total total + 4095) / 4096).
  { unfold geom_bsec, geom_bytes, SECTOR_SIZE, u64. cbn [total_blocks g format_sb].
    rewrite (Z.mod_small (_ + 7)) by lia. rewrite (u32_small (_ / 8)) by zdm. rewrite u32_small by zdm. zdm. }
  assert (Hs : geom_isec g = (format_inodes (format_total total) + 4095) / 4096).
  { unfold geom_isec, SECTOR_SIZE. cbn [inode_count g format_sb].
    rewrite (u32_small (_ + 7)) by lia. rewrite u32_small by zdm. zdm. }
  assert (Hst : inode_start g = 1 + geom_bsec g + geom_isec g).
  { unfold g at 1, format_sb. cbn [inode_start]. apply u32_small. fold (geom_bsec g). change (geom_bsec _) with (geom_bsec g).
    change (geom_isec _) with (geom_isec g). rewrite Hb, Hs. zdm. }
  assert (Hds : data_start g = inode_start g + (format_inodes (format_total total) + 3) / 4).
  { unfold g at 1, format_sb. cbn [data_start]. change (u32 (1 + _ + _)) with (inode_start g).
    unfold geom_itab. cbn [inode_count]. unfold INODE_SIZE, SECTOR_SIZE.
    rewrite (u32_small (_ * 128)) by lia. rewrite (u32_small (_ + 512 - 1)) by lia.
    rewrite u32_small; [zdm|]. rewrite Hst, Hb, Hs. zdm. }
  assert (Hfit : data_start g < format_total total).
  { rewrite Hds, Hst, Hb, Hs. zdm. }
  assert (magic g = FS_MAGIC /\ bitmap_start g = 1 /\ inode_count g = format_inodes (format_total total) /\
    total_blocks g = format_total total) as (E1 & E2 & E3 & E4) by done.
  clearbody g. split_and!.
  - constructor; rewrite ?E1, ?E2, ?E3, ?E4; done || zdm.
  - rewrite Hb, E4. zdm.
  - rewrite Hs, E3. zdm.
  - by rewrite E4.
Qed.

Lemma format_geometry_witness : geom_ok (format_sb 2097152) 2097152.
Proof. apply (format_geometry 2097152 2097152); lia. Defined.

(** ** File contents *)

Section files.
Context {D : Type} `{BlockDevLaws D}.
Implicit Types s : fsstate D.

(** C1 - A COSFS write is read back: on a consistent volume [fs_write] either
    reports failure, and then fewer blocks were free than the write could need,
    or it returns the full length, leaves a consistent volume, and the file then
    reads as the new bytes over the written range, its size being the larger of
    the old size and the end of the range. *)
Theorem fs_write_read_back g s a idx n data off len : fok g s a idx n ->
  0 <= off -> 0 <= len <= zlen data -> off + len <= MAX_BLOCKS * 512 -> is_bytes data ->
  let '(r, s1) := fs_write idx off data len s in
  (r = -1 /\ nfree g a < 4 * (len / 512 + 2)) \/
  (r = len /\ exists a1 n1, fok g s1 a1 idx n1 /\ read_inode idx s1 = (n1, s1) /\
     size n1 = Z.max (size n) (off + len) /\
     fs_read idx n1 off len s1 = (slice data 0 len, s1) /\
     (forall i, 0 <= i -> ~ off <= i < off + len -> bmap a n (i / 512) <> 0 -> content a1 n1 i = content a n i)).
Proof.
  intros Hf Hoff Hlen Hmax Hby. pose proof (fs_write_run g s a idx n data off len Hf Hoff Hlen Hmax Hby) as Hw.
  destruct (fs_write idx off data len s) as [r s1]. destruct Hw as [(-> & a1 & n1 & Hf1 & Hsz & _ & Hwr)|?]; [right|by left].
  split; [done|]. exists a1, n1. pose proof (fok_wf _ _ _ _ _ Hf1) as Hwf. destruct Hf1 as [Hr1 Hi1 Hat1 Ht1].
  split_and!; [by constructor|by rewrite (rep_read_inode g s1 a1), Hat1|done| |by apply Hwr].
  unfold MAX_BLOCKS in Hmax. rewrite (fs_read_run g s1 a1) by (done || lia).
  replace (Z.min len (size n1 - off)) with len by lia. f_equal.
  symmetry. assert (Hz : zlen (slice data 0 len) = len) by (apply zlen_slice; lia).
  rewrite <- Hz at 2. apply tab_eq. rewrite Hz. intros i Hi. rewrite aget_slice by lia.
  destruct (wt_new _ _ _ _ _ _ _ _ Hwr (off + i)) as [_ ->]; [lia|]. f_equal. lia.
Qed.

(** C3 - Writing one file leaves every other file alone: if two inodes share no
    block, then after a successful [fs_write] to the first the second still has a
    consistent tree, disjoint from the first, and reads back byte for byte as before. *)
Theorem fs_write_isolated g s a i n j m data off len o sz : fok g s a i n -> fok g s a j m -> i <> j ->
  disjoint_trees a n m -> 0 <= off -> 0 <= len <= zlen data -> off + len <= MAX_BLOCKS * 512 -> is_bytes data ->
  0 <= o -> 0 <= sz -> o + sz < 2 ^ 32 -> (fs_write i off data len s).1 = len ->
  let s1 := (fs_write i off data len s).2 in
  (exists a1 n1, fok g s1 a1 i n1 /\ fok g s1 a1 j m /\ disjoint_trees a1 n1 m) /\
  (fs_read j m o sz s1).1 = (fs_read j m o sz s).1.
Proof.
  intros Hf Hf2 Hij Hdis Hoff Hlen Hmax Hby Ho Hsz Hw32 Hok s1.
  pose proof (fs_write_run g s a i n data off len Hf Hoff Hlen Hmax Hby) as Hw. subst s1.
  destruct (fs_write i off data len s) as [r s1]. cbn in Hok. subst r. destruct Hw as [(_ & a1 & n1 & Hf1 & _ & _ & Hwr)|[? _]]; [|lia].
  pose proof (fok_wf _ _ _ _ _ Hf2) as Hwf. destruct Hf2 as [Hr2 Hi2 Hat2 Ht2].
  destruct (extends_other g i a n a1 n1 m Ht2 Hdis (wt_ext _ _ _ _ _ _ _ _ Hwr)) as (_ & Ht3 & Hb3 & Hd3). cbn [snd].
  assert (Hf3 : fok g s1 a1 j m).
  { constructor; [apply Hf1|done| |done]. rewrite (ex_inode _ _ _ _ _ (wt_ext _ _ _ _ _ _ _ _ Hwr)) by congruence. done. }
  split; [by exists a1, n1|].
  rewrite (fs_read_run g s1 a1), (fs_read_run g s a) by (done || apply Hf1). cbn. apply tab_ext.
  intros k Hk. unfold content. by rewrite Hb3 by zdm.
Qed.

(** [fs_read] returns exactly the bytes of the file in the range asked for,
    cut at the file's size, holes read as zeros, and changes nothing. *)
Theorem fs_read_contents g s a n idx off sz : rep g s a -> tree_ok g a n -> inode_wf n ->
  0 <= off -> 0 <= sz -> off + sz < 2 ^ 32 ->
  let '(out, s1) := fs_read idx n off sz s in
  s1 = s /\ zlen out = Z.max 0 (Z.min sz (size n - off)) /\
  forall i, 0 <= i < zlen out -> out.[i] = content a n (off + i).
Proof.
  intros Hr Ht Hn Ho Hs Hw. rewrite (fs_read_run g s a) by done.
  destruct (decide (size n <= off)) as [Hle|Hgt].
  - rewrite tab_nil by lia. split_and!; [done|unfold zlen; cbn; lia|unfold zlen; cbn; lia].
  - rewrite zlen_tab by lia. split_and!; [done|lia|]. intros i Hi. by apply aget_tab.
Qed.

(** C2 - [get_physical_block] with allocation maps the block it is asked for
    through direct, single, double and triple indirect levels: it keeps the tree
    of blocks consistent (every block allocated, none reached twice), moves no
    block already mapped, touches the data of none, maps no other block of the
    file, takes at most four blocks, and answers 0 only if fewer than four were free. *)
Theorem get_physical_block_grows g s a idx n k : fok g s a idx n -> 0 <= k < MAX_BLOCKS ->
  let '((blk, n1), s1) := get_physical_block idx n k true s in
  (blk = 0 /\ nfree g a < 4) \/
  (blk <> 0 /\ exists a1, fok g s1 a1 idx n1 /\ bmap a1 n1 k = blk /\ nfree g a - 4 <= nfree g a1 /\
     (forall j, 0 <= j -> j <> k -> bmap a1 n1 j = bmap a n j /\ block_of a1 n1 j = block_of a n j) /\
     (bmap a n k <> 0 -> bmap a1 n1 k = bmap a n k /\ block_of a1 n1 k = block_of a n k) /\
     (forall l, a_used a l = true -> (forall q, valid q -> lba a n q <> l) -> a_data a1 l = a_data a l)).
Proof.
  intros Hf Hk. pose proof (gpb_run g s a idx n k Hf Hk) as Ho.
  destruct (get_physical_block idx n k true s) as [[blk n1] s1]. pose proof (path_leaf k Hk) as Hl.
  destruct Ho as [(a1 & Hf1 & G & Hlba & Hb & Hn)|?]; [right|by left].
  assert (Hkeep : forall j, 0 <= j < MAX_BLOCKS -> lba a1 n1 (path_of j) = lba a n (path_of j) ->
    block_of a1 n1 j = block_of a n j).
  { intros j Hj E. unfold block_of. rewrite !bmap_path, E by done. destruct (lba a n (path_of j) =? 0) eqn:Ez; [done|].
    assert (Hlj : leaf (path_of j)) by by apply path_leaf.
    apply (gr_data _ _ _ _ _ _ G); [apply (to_range _ _ _ (fo_tree _ _ _ _ _ Hf)); [by apply leaf_valid|lia]|].
    intros q Hq Eq. apply (leaf_not_inner _ _ Hlj Hq). symmetry.
    apply (to_inj _ _ _ (fo_tree _ _ _ _ _ Hf)); auto using inner_valid, leaf_valid. lia. }
  split; [done|]. exists a1. rewrite bmap_path by done. split_and!; [done..| | |].
  - intros j Hj Hne. destruct (decide (j < MAX_BLOCKS)) as [Hjm|Hjm].
    + assert (E : lba a1 n1 (path_of j) = lba a n (path_of j)).
      { apply (gr_leaf _ _ _ _ _ _ G); [by apply path_leaf|]. intros Ep. apply Hne, path_inj; [done|lia|done]. }
      rewrite !bmap_path, E by done. split; [done|]. by apply Hkeep.
    + unfold block_of, bmap. by rewrite (proj2 (Z.ltb_ge j MAX_BLOCKS)) by lia.
  - rewrite (bmap_path a n) by done. intros Hne.
    assert (E : lba a1 n1 (path_of k) = lba a n (path_of k)) by (apply (gr_lba _ _ _ _ _ _ G); [by apply leaf_valid|done]).
    split; [done|by apply Hkeep].
  - intros l Hul Hq. apply (gr_data _ _ _ _ _ _ G); [done|]. intros q Hin. by apply Hq, inner_valid.
Qed.

(** C19 - Deleting the contents of an inode gives its blocks back, all of them
    and no others: after [fs_free_inode_data] the data and pointer blocks of the
    tree (every level) are free and every other block is as it was. *)
Theorem fs_free_inode_data_exact g s a idx n : fok g s a idx n ->
  exists a1, rep g (fs_free_inode_data n s).2 a1 /\ a_data a1 = a_data a /\ a_inode a1 = a_inode a /\
    (forall q, valid q -> lba a n q <> 0 -> a_used a1 (lba a n q) = false) /\
    (forall l, (forall q, valid q -> lba a n q <> l) -> a_used a1 l = a_used a l).
Proof.
  intros [Hr Hi Hat Ht].
  destruct (free_inode_data_run g a n (fun q Hq Hne => proj1 (to_range _ _ _ Ht q Hq Hne)) s Hr) as (a1 & Hr1 & F).
  exists a1. split_and!; [done|apply F|apply F| |].
  - intros q Hq Hne. apply (fr_out _ _ _ F). split; [done|]. by exists q.
  - intros l Hl. apply (fr_same _ _ _ F). intros (_ & q & Hq & E). by apply (Hl q).
Qed.

(** ** Allocation *)

(** [alloc_block] hands out a free block of the data area and marks
    exactly that one, or answers 0 exactly when no data block is free; releasing
    the block with [free_block] gives back the bitmap as it was. *)
Theorem alloc_block_sound g s a : rep g s a ->
  let '(b, s1) := alloc_block s in
  (b = 0 /\ s1 = s /\ forall l, data_start g <= l < total_blocks g -> a_used a l = true) \/
  (data_start g <= b < total_blocks g /\ a_used a b = false /\ rep g s1 (a_mark b true a) /\
   exists a2, rep g (free_block b s1).2 a2 /\ forall l, a_used a2 l = a_used a l).
Proof.
  intros Hr. pose proof (r_geom _ _ _ Hr) as []. destruct (rep_alloc_block _ _ _ Hr) as [(b & s1 & -> & Hb & Hf & Hr1)|[Hall ->]].
  - right. split_and!; [lia|lia|done|done|]. destruct (rep_free_block _ _ _ b Hr1) as (s2 & -> & Hr2); [lia|].
    exists (a_mark b false (a_mark b true a)). split; [done|]. intros l. cbn. unfold upd. case_decide; congruence.
  - by left.
Qed.

(** [alloc_inode] takes the lowest free inode number, or answers -1
    exactly when all are in use; the bitmap in memory and its copy on disk stay
    equal, and [free_inode] undoes it. *)
Theorem alloc_inode_lowest g s a : rep g s a ->
  let '(i, s1) := alloc_inode s in
  (i = -1 /\ s1 = s /\ forall j, 0 <= j < inode_count g -> a_iused a j = true) \/
  (0 <= i < inode_count g /\ a_iused a i = false /\ (forall j, 0 <= j < i -> a_iused a j = true) /\
   rep g s1 (a_imark i true a) /\
   exists a2, rep g (free_inode i s1).2 a2 /\ forall j, a_iused a2 j = a_iused a j).
Proof.
  intros Hr. destruct (rep_alloc_inode _ _ _ Hr) as [(i & s1 & -> & Hi & Hf & Hlt & Hr1)|[Hall ->]].
  - right. split_and!; [lia|lia|done|done|done|]. destruct (rep_free_inode _ _ _ i Hr1 Hi) as (s2 & -> & Hr2).
    exists (a_imark i false (a_imark i true a)). split; [done|]. intros l. cbn. unfold upd. case_decide; congruence.
  - by left.
Qed.

End files.

Lemma demo_disjoint : disjoint_trees (abs demo2) node_a node_b.
Proof.
  intros q q2 Hq Hq2. rewrite (single_lba _ node_a 13 q roots_a Hq), (single_lba _ node_b 14 q2 roots_b Hq2).
  do 2 case_decide; lia.
Qed.

Definition hello : list Z := [104; 101; 108; 108; 111].
Lemma hello_bytes : is_bytes hello.
Proof. by apply (bool_decide_unpack _). Qed.
Lemma demo_nfree : 40 <= nfree demo_g (abs demo2).
Proof. by vm_compute. Qed.

Lemma fs_write_read_back_witness :
  exists a1 n1, fok demo_g (fs_write FILE_A 510 hello 5 demo2).2 a1 FILE_A n1 /\ size n1 = 515 /\
    (fs_read FILE_A n1 510 5 (fs_write FILE_A 510 hello 5 demo2).2).1 = hello.
Proof.
  pose proof (fs_write_read_back demo_g demo2 (abs demo2) FILE_A node_a hello 510 5 demo_fok_a
    ltac:(lia) ltac:(vm_compute; split; discriminate) ltac:(vm_compute; discriminate) hello_bytes) as Hw.
  destruct (fs_write FILE_A 510 hello 5 demo2) as [r s1]. destruct Hw as [[_ Hn]|(_ & a1 & n1 & Hf & _ & Hs & Hrd & _)].
  - exfalso. pose proof demo_nfree as Hd. change (4 * (5 / 512 + 2)) with 8 in Hn. lia.
  - exists a1, n1. cbn [snd]. rewrite Hrd. split_and!; [done|exact Hs|reflexivity].
Defined.

Lemma fs_write_isolated_witness :
  (fs_read FILE_B node_b 0 100 (fs_write FILE_A 0 hello 5 demo2).2).1 = (fs_read FILE_B node_b 0 100 demo2).1.
Proof.
  apply (fs_write_isolated demo_g demo2 (abs demo2) FILE_A node_a FILE_B node_b hello 0 5 0 100 demo_fok_a demo_fok_b
    ltac:(discriminate) demo_disjoint ltac:(lia) ltac:(vm_compute; split; discriminate) ltac:(vm_compute; discriminate)
    hello_bytes ltac:(lia) ltac:(lia) ltac:(lia)). vm_compute. reflexivity.
Defined.

Lemma fs_read_contents_witness : (fs_read FILE_A node_a 0 10 demo2).1 = [].
Proof.
  pose proof (fs_read_contents demo_g demo2 (abs demo2) node_a FILE_A 0 10 demo2_rep (fo_tree _ _ _ _ _ demo_fok_a)
    (fok_wf _ _ _ _ _ demo_fok_a) ltac:(lia) ltac:(lia) ltac:(lia)) as Hr.
  destruct (fs_read FILE_A node_a 0 10 demo2) as [out s1]. destruct Hr as (_ & Hz & _). cbn.
  destruct out; [done|]. exfalso. change (size node_a) with 0 in Hz. unfold zlen in Hz. cbn in Hz. lia.
Defined.

Lemma get_physical_block_grows_witness : (get_physical_block FILE_A node_a 3 true demo2).1.1 <> 0.
Proof.
  pose proof (get_physical_block_grows demo_g demo2 (abs demo2) FILE_A node_a 3 demo_fok_a ltac:(vm_compute; split; congruence)) as Hg.
  destruct (get_physical_block FILE_A node_a 3 true demo2) as [[blk n1] s1]. destruct Hg as [[_ Hn]|[Hb _]]; [|done].
  exfalso. pose proof demo_nfree. lia.
Defined.

Lemma fs_free_inode_data_exact_witness :
  exists a1, rep demo_g (fs_free_inode_data node_a demo2).2 a1 /\ a_used a1 13 = false /\ a_used a1 14 = true.
Proof.
  destruct (fs_free_inode_data_exact demo_g demo2 (abs demo2) FILE_A node_a demo_fok_a) as (a1 & Hr & _ & _ & Hout & Hin).
  exists a1. split_and!; [done| |].
  - apply (Hout (0, [])); [by apply valid_root|vm_compute; discriminate].
  - rewrite Hin; [vm_compute; reflexivity|]. intros q Hq. rewrite (single_lba _ node_a 13 q roots_a Hq). by case_decide.
Defined.

Lemma alloc_block_sound_witness : exists b s1, alloc_block demo2 = (b, s1) /\ rep demo_g s1 (a_mark b true (abs demo2)).
Proof.
  pose proof (alloc_block_sound demo_g demo2 (abs demo2) demo2_rep) as Ha.
  destruct (alloc_block demo2) as [b s1]. destruct Ha as [(_ & _ & Hall)|(_ & _ & Hr & _)]; [|by exists b, s1].
  exfalso. specialize (Hall 60 ltac:(vm_compute; split; congruence)). vm_compute in Hall. discriminate.
Defined.

Lemma alloc_inode_lowest_witness : exists s1, alloc_inode demo2 = (8, s1) /\ rep demo_g s1 (a_imark 8 true (abs demo2)).
Proof.
  pose proof (alloc_inode_lowest demo_g demo2 (abs demo2) demo2_rep) as Ha.
  destruct (alloc_inode demo2) as [i s1] eqn:E. destruct Ha as [(_ & _ & Hall)|(_ & _ & _ & Hr & _)].
  - exfalso. specialize (Hall 9 ltac:(vm_compute; split; congruence)). vm_compute in Hall. discriminate.
  - assert (i = 8) as -> by (apply (f_equal fst) in E; vm_compute in E; congruence).
    exists s1. split; [reflexivity|exact Hr].
Defined.

End CosProps.
