(* ===== verification/CosDirProps.v ===== *)
(** COSFS: properties of directories, of file creation and of what happens on
    a full volume, with instances on the demonstration volume. *)
From S2P Require Import Prelude CString Disk CosData CosAlloc CosFile CosDir CosFormat CosAllocSpec CosVol CosTree CosBlocks CosContent CosDirSpec CosRelease CosCreate CosDemo.
From stdpp Require Import base list gmap numbers.
From Stdlib Require Import ZArith Lia.
Import CString Cos CosAlloc CosFile CosDir CosFormat CosAllocSpec CosVol CosTree CosBlocks CosContent CosDirSpec CosRelease CosCreate CosDemo Drives.
Open Scope Z_scope.

Module CosDirProps.

Lemma find_in {A} (p : A -> bool) l e : find p l = Some e -> e ∈ l /\ p e = true.
Proof.
  induction l as [|x l IH]; cbn; [done|]. destruct (p x) eqn:E.
  - intros [= ->]. split; [by left|done].
  - intros Hf. destruct (IH Hf). split; [by right|done].
Qed.
Lemma entries_in buf e : e ∈ entries buf -> exists i, 0 <= i < 16 /\ slot buf i = Some e.
Proof.
  rewrite entries_eq. assert (Hg : forall n i, e ∈ entries_from (slot buf) n i -> exists j, i <= j < i + Z.of_nat n /\ slot buf j = Some e).
  { induction n as [|n IH]; cbn [entries_from]; intros i He; [by apply not_elem_of_nil in He|].
    destruct (slot buf i) as [e'|] eqn:E.
    - apply elem_of_cons in He as [->|He]; [exists i; split; [lia|done]|].
      destruct (IH (i + 1) He) as (j & Hj & Hs). exists j. split; [lia|done].
    - destruct (IH (i + 1) He) as (j & Hj & Hs). exists j. split; [lia|done]. }
  apply Hg.
Qed.

Section dirs.
Context {D : Type} `{BlockDevLaws D}.
Implicit Types s : fsstate D.

Lemma dir_entry_pos g s a d dn e : fok g s a d dn -> e ∈ dir_list a dn -> 0 < e.1.
Proof.
  intros Hf He. destruct (elem_dlist _ _ _ He) as (j & Hj & Hne & Hje). rewrite (direct_len _ _ _ _ _ Hf) in Hj.
  destruct (direct_read _ _ _ _ _ j Hf Hj Hne) as [_ [Hl Hb]]. unfold SECTOR_SIZE in Hl.
  destruct (entries_in _ _ Hje) as (i & Hi & Hs). unfold slot in Hs.
  destruct (dirent_inode _ i =? 0) eqn:E; [done|]. injection Hs as <-. cbn.
  pose proof (get_le_bound 4 (a_data a ((direct dn).[j])) (32 * i) Hb). unfold dirent_inode in *. lia.
Qed.

(** The inode a lookup answers with, -1 when the name is absent. *)
Definition look g a dn nm : Z := match find (wanted (inode_count g) nm) (dir_list a dn) with Some e => e.1 | None => -1 end.
Lemma look_none g s a d dn nm : fok g s a d dn -> look g a dn nm = -1 -> find (wanted (inode_count g) nm) (dir_list a dn) = None.
Proof.
  unfold look. intros Hf. destruct (find _ _) as [e|] eqn:E; [|done]. apply find_in in E as [He _].
  pose proof (dir_entry_pos _ _ _ _ _ _ Hf He). lia.
Qed.
Lemma find_middle {A} (p : A -> bool) l1 e l2 : p e = false -> find p (l1 ++ e :: l2) = find p (l1 ++ l2).
Proof. intros He. rewrite !find_app_l. cbn. by rewrite He. Qed.
Lemma find_insert {A} (p : A -> bool) l1 e l2 : find p (l1 ++ l2) = None -> p e = true -> find p (l1 ++ e :: l2) = Some e.
Proof. rewrite !find_app_l. destruct (find p l1); [done|]. cbn. intros _ ->. done. Qed.

(** C14 - Adding a name to a directory makes exactly that name findable:
    for a name of at most 27 bytes that is not there, [dir_add] either reports
    failure with nothing changed, the volume or all 192 slots being full, or the
    directory stays well formed, [dir_lookup] of the name then answers the inode
    number, and lookups of all other names answer as before. *)
Theorem dir_add_lookup g s a d dn name idx : dok g s a d dn -> 1 <= idx < inode_count g -> is_bytes name ->
  zlen (cstr name) <= 27 -> (dir_lookup dn name s).1 = -1 ->
  let '(r, s1) := dir_add d dn name idx s in
  (r = -1 /\ s1 = s /\ (nfree g a = 0 \/
     forall b i, 0 <= b < 12 -> 0 <= i < 16 -> (direct dn).[b] <> 0 /\ slot (a_data a ((direct dn).[b])) i <> None)) \/
  (r = 0 /\ exists a1 dn1, dok g s1 a1 d dn1 /\ extends d a dn a1 dn1 /\ (dir_lookup dn1 name s1).1 = idx /\
     forall nm, cstr nm <> cstr name -> (dir_lookup dn1 nm s1).1 = (dir_lookup dn nm s).1).
Proof.
  intros Hd Hidx Hb Hlen Hnone. destruct (r_geom _ _ _ (fo_rep _ _ _ _ _ (dk_fok _ _ _ _ _ Hd))) as [_ _ Hic _ _ _ _ _].
  pose proof (dir_add_run g s a d dn name idx Hd ltac:(unfold is_u32; lia) ltac:(lia) Hb) as Hr.
  destruct (dir_add d dn name idx s) as [r s1]. destruct Hr as [(-> & a1 & dn1 & l1 & l2 & Hd1 & He & L1 & L2)|?]; [right|by left].
  split; [done|]. exists a1, dn1. rewrite (dir_lookup_run g s a d dn) in Hnone by done.
  apply (look_none g s a d dn name (dk_fok _ _ _ _ _ Hd)) in Hnone.
  assert (Htake : take 27 (cstr name) = cstr name) by (apply take_ge; unfold zlen in Hlen; lia). rewrite Htake in L2.
  rewrite L1 in Hnone. split_and!; [done|done| |].
  - rewrite (dir_lookup_run g s1 a1 d dn1) by done. rewrite L2, (find_insert _ _ _ _ Hnone); [done|].
    unfold wanted; cbn. rewrite bool_decide_true by done. rewrite andb_true_r. lia.
  - intros nm Hnm. rewrite (dir_lookup_run g s1 a1 d dn1), (dir_lookup_run g s a d dn) by done. rewrite L1, L2.
    rewrite find_middle; [done|]. unfold wanted; cbn. rewrite bool_decide_false by congruence. by rewrite andb_false_r.
Qed.

(** Removing a name deletes one entry and hides nothing else:
    [dir_remove] answers -1, changing nothing, exactly when no entry has the name;
    otherwise one entry of that name goes, lookups of every other name answer as
    before, and if the name was not duplicated its lookup answers -1. *)
Theorem dir_remove_lookup g s a d dn name : dok g s a d dn ->
  let '(r, s1) := dir_remove dn name s in
  (r = -1 /\ s1 = s /\ Forall (fun e => e.2 <> cstr name) (dir_list a dn)) \/
  (r = 0 /\ exists a1 l1 e l2, dok g s1 a1 d dn /\ dir_list a dn = l1 ++ e :: l2 /\ e.2 = cstr name /\
     dir_list a1 dn = l1 ++ l2 /\
     (forall nm, cstr nm <> cstr name -> (dir_lookup dn nm s1).1 = (dir_lookup dn nm s).1) /\
     (NoDup (dir_list a dn).*2 -> (dir_lookup dn name s1).1 = -1)).
Proof.
  intros Hd. pose proof (dir_remove_run g s a d dn name Hd) as Hr.
  destruct (dir_remove dn name s) as [r s1]. destruct Hr as [(-> & a1 & l1 & e & l2 & Hd1 & _ & L1 & He & Hl1 & L2 & _)|(-> & -> & Hall)].
  - right. split; [done|]. apply bool_decide_eq_true in He. exists a1, l1, e, l2. split_and!; [done..| |].
    + intros nm Hnm. rewrite (dir_lookup_run g s1 a1 d dn), (dir_lookup_run g s a d dn) by done. rewrite L1, L2.
      rewrite find_middle; [done|]. unfold wanted. rewrite bool_decide_false by congruence. by rewrite andb_false_r.
    + intros Hnd. rewrite (dir_lookup_run g s1 a1 d dn) by done. cbn. rewrite L2. rewrite L1, fmap_app in Hnd. cbn in Hnd.
      apply list.NoDup_app in Hnd as (_ & Hout & Hnd2). apply list.NoDup_cons in Hnd2 as [Hnin _].
      rewrite find_none; [done|]. apply list.Forall_forall. intros e' He'. unfold wanted.
      rewrite bool_decide_false; [by rewrite andb_false_r|]. intros Heq. rewrite <- He in Heq.
      apply elem_of_app in He' as [He'|He'].
      * apply (Hout (e'.2)); [by apply list_elem_of_fmap_2|]. rewrite Heq. by left.
      * apply Hnin. rewrite <- Heq. by apply list_elem_of_fmap_2.
  - left. split_and!; [done..|]. eapply Forall_impl; [|exact Hall]. intros e He. cbn beta in He. by apply bool_decide_eq_false in He.
Qed.

(** ** Creation *)


(** What a creation leaves: nothing but a taken inode, entered in the directory. *)
Definition creation g (zero : bool) node s a d dn name r s1 : Prop :=
  exists a1 dn1, dok g s1 a1 d dn1 /\ keeps a a1 d r /\
   ((r = -1 /\ (forall j, a_iused a1 j = a_iused a j) /\ (forall nm, (dir_lookup dn1 nm s1).1 = (dir_lookup dn nm s).1) /\
       (nfree g a = 0 \/ forall i, 0 <= i < inode_count g -> a_iused a i = true)) \/
    (0 < r < inode_count g /\ created g zero node a a1 s1 r /\
      (forall nm, cstr nm <> cstr name -> (dir_lookup dn1 nm s1).1 = (dir_lookup dn nm s).1) /\
      ((dir_lookup dn1 name s1).1 = r \/
       ((dir_lookup dn1 name s1).1 = -1 /\ (nfree g a <= 1 \/
          forall b i, 0 <= b < 12 -> 0 <= i < 16 -> (direct dn).[b] <> 0 /\ slot (a_data a ((direct dn).[b])) i <> None))))).

Lemma create_core_lookup g s a d dn zero node name : dok g s a d dn -> fresh_inode node -> is_bytes name ->
  a_iused a 0 = true -> a_iused a d = true -> zlen (cstr name) <= 27 -> (dir_lookup dn name s).1 = -1 ->
  let '(r, s1) := create_core zero node d name s in creation g zero node s a d dn name r s1.
Proof.
  intros Hd Hn Hb Hz0 Hud Hlen Hnone. pose proof (create_core_run g s a d dn zero node name Hd Hn Hb Hz0 Hud) as Hr.
  destruct (create_core zero node d name s) as [r s1]. destruct Hr as (a1 & dn1 & Hd1 & Hk & Hr).
  assert (Hlook : forall nm, (dir_lookup dn1 nm s1).1 = look g a1 dn1 nm /\ (dir_lookup dn nm s).1 = look g a dn nm).
  { intros nm. by rewrite (dir_lookup_run g s1 a1 d dn1), (dir_lookup_run g s a d dn). }
  assert (Htake : take 27 (cstr name) = cstr name) by (apply take_ge; unfold zlen in Hlen; lia). rewrite Htake in Hr.
  destruct (Hlook name) as [_ Ename]. rewrite Ename in Hnone.
  exists a1, dn1. split_and!; [done..|]. destruct Hr as [(-> & L & Hi & Hf)|(Hr & Hc & Hr2)]; [left|right].
  - split_and!; [done..| |done]. intros nm. destruct (Hlook nm) as [-> ->]. unfold look. by rewrite L.
  - split_and!; [lia|lia|done| |]; destruct Hr2 as [(l1 & l2 & L1 & L2)|[L Hf]].
    + intros nm Hnm. destruct (Hlook nm) as [-> ->]. unfold look. rewrite L1, L2, find_middle; [done|].
      unfold wanted; cbn. rewrite bool_decide_false by congruence. by rewrite andb_false_r.
    + intros nm Hnm. destruct (Hlook nm) as [-> ->]. unfold look. by rewrite L.
    + left. destruct (Hlook name) as [-> _]. apply (look_none g s a d dn name (dk_fok _ _ _ _ _ Hd)) in Hnone.
      unfold look. rewrite L1 in Hnone. rewrite L2, (find_insert _ _ _ _ Hnone); [done|].
      unfold wanted; cbn. rewrite bool_decide_true by done. rewrite andb_true_r. lia.
    + right. split; [|done]. destruct (Hlook name) as [-> _]. unfold look in *. by rewrite L.
Qed.


(** The same for a directory; its block is zeroed, so it starts empty. *)
Lemma fs_create_dir_run g s a d dn name : dok g s a d dn -> a_iused a 0 = true -> a_iused a d = true ->
  is_bytes name -> zlen (cstr name) <= 27 ->
  let '(r, s1) := fs_create_dir name d s in
  ((dir_lookup dn name s).1 <> -1 /\ r = -1 /\ s1 = s) \/
  ((dir_lookup dn name s).1 = -1 /\ creation g true (set_type 2 zero_inode) s a d dn name r s1).
Proof.
  intros Hd Hz0 Hud Hb Hlen. pose proof (dk_fok _ _ _ _ _ Hd) as [Hr Hi Hat Ht].
  unfold fs_create_dir. rewrite (bind_run _ _ s _ _ (rep_read_inode _ _ _ _ Hr Hi)), Hat.
  pose proof (dir_lookup_run g s a d dn name Hd) as El. rewrite (bind_run _ _ s _ _ El). rewrite El. cbn [fst].
  fold (look g a dn name). destruct (0 <=? look g a dn name) eqn:E.
  - left. split_and!; [lia|done|done].
  - assert (Hno : look g a dn name = -1).
    { unfold look in *. destruct (find _ _) as [e|] eqn:Ef; [|done]. apply find_in in Ef as [He _].
      pose proof (dir_entry_pos _ _ _ _ _ _ (dk_fok _ _ _ _ _ Hd) He). lia. }
    assert (Hfr : fresh_inode (set_type 2 zero_inode)).
    { split_and!; [|done|intros r Hr'; rewrite <- (root_zero r) by lia; done].
      destruct zero_inode_wf. constructor; cbn [size direct single_indirect double_indirect triple_indirect type main_tag tags unused set_type]; try done. }
    pose proof (create_core_lookup g s a d dn true (set_type 2 zero_inode) name Hd Hfr Hb Hz0 Hud Hlen) as Hc.
    rewrite El in Hc. specialize (Hc Hno).
    match goal with |- let '(_, _) := ?m s in _ => change (m s) with (create_core true (set_type 2 zero_inode) d name s) end.
    destruct (create_core _ _ _ _ s) as [r s1]. by right.
Qed.

(** ** A full volume *)

(** C37 - What [fs_write] does to a full volume: when no data block is free and
    the file has no single indirect block yet, a write that starts in the
    indirect range answers -1, but the code has zeroed "the new pointer block",
    which is block 0: the superblock on disk is gone and the volume can no longer
    be mounted. *)
Theorem full_volume_write_wipes_superblock g s a idx n data off len : fok g s a idx n ->
  (forall l, data_start g <= l < total_blocks g -> a_used a l = true) ->
  single_indirect n = 0 -> 12 <= off / 512 < 140 -> 0 < len ->
  let '(r, s1) := fs_write idx off data len s in
  r = -1 /\ sec_at s1 SUPERBLOCK_LBA = zero_sector /\ magic (sb_decode (sec_at s1 SUPERBLOCK_LBA)) <> FS_MAGIC.
Proof.
  intros Hf Hfull Hz Hoff Hlen. pose proof (fok_wf _ _ _ _ _ Hf) as Hwf. pose proof Hf as [Hr Hi Hat Ht].
  pose proof (r_geom _ _ _ Hr) as Hg.
  assert (Halloc : alloc_block s = (0, s)).
  { destruct (rep_alloc_block _ _ _ Hr) as [(b & s1 & _ & Hb & Hfr & _)|[_ E]]; [|done]. rewrite Hfull in Hfr by done. done. }
  destruct (block_write_spec SUPERBLOCK_LBA zero_sector s (r_dev _ _ _ Hr) zero_sector_ok) as [Hw Hat0].
  { unfold SUPERBLOCK_LBA. destruct Hg. lia. }
  assert (Hgpb : exists n1 s1, get_physical_block idx n (off / 512) true s = ((0, n1), s1) /\ sec_at s1 SUPERBLOCK_LBA = zero_sector).
  { unfold get_physical_block, INODE_DIRECT, PTRS_PER_BLOCK. rewrite (proj2 (Z.ltb_ge _ _)), (proj2 (Z.ltb_lt _ _)) by lia.
    unfold root_level. rewrite Hz. cbn [Z.eqb andb]. munfold. rewrite Halloc. unfold zero_block. cbn [single_indirect set_single].
    set (s0 := (block_write SUPERBLOCK_LBA zero_sector s).2) in *.
    change (block_write 0 zero_sector s) with (tt, s0). cbn [single_indirect set_single].
    assert (Hn : inode_wf (set_single 0 n)) by (destruct Hwf; constructor; try done; unfold is_u32; cbn; lia).
    assert (Hin : inode_in s0 idx).
    { pose proof (rep_inode_in _ _ _ _ Hr Hi) as Hin. unfold inode_in, inode_lba in *.
      destruct (writes_sb _ _ _ Hw) as (-> & _). by rewrite (wr_cap _ _ _ Hw). }
    destruct (write_inode_run s0 idx (set_single 0 n) (wr_ok _ _ _ Hw) Hin Hn) as (Hw2 & _).
    destruct (write_inode idx (set_single 0 n) s0) as [[] s1]. cbn [snd] in Hw2.
    exists (set_single 0 n), s1. split; [done|]. rewrite (wr_same _ _ _ Hw2); [done|].
    unfold inode_lba, SUPERBLOCK_LBA. destruct (writes_sb _ _ _ Hw) as (-> & _). rewrite (r_sb _ _ _ Hr).
    destruct (geom_bsec_covers _ _ Hg), (geom_isec_covers _ _ Hg). destruct Hg. zdm. }
  destruct Hgpb as (n1 & s1 & E & Hzero).
  assert (Hstep : fs_write idx off data len s = (-1, s1)).
  { unfold fs_write. rewrite (bind_run _ _ s _ _ (rep_read_inode _ _ _ _ Hr Hi)), Hat.
    assert (Hl : aloop (sector_rounds len) 0 (0, n) (fs_write_step idx off data len) s = (inr (inl tt), s1)).
    { unfold sector_rounds, SECTOR_SIZE. replace (Z.to_nat (len / 512 + 2)) with (S (Z.to_nat (len / 512 + 1))) by zdm.
      cbn [aloop]. unfold fs_write_step at 1. rewrite (proj2 (Z.ltb_lt 0 len)) by lia.
      rewrite (u32_small (off + 0)) by zdm. replace (off + 0) with off by lia. unfold SECTOR_SIZE.
      by rewrite (bind_run _ _ _ _ _ E). }
    by rewrite (bind_run _ _ _ _ _ Hl). }
  rewrite Hstep. split_and!; [done|done|]. rewrite Hzero. by vm_compute.
Qed.

End dirs.

(** ** Instances *)

Definition name_c : list Z := [99; 0].
Lemma name_c_bytes : is_bytes name_c.
Proof. by apply (bool_decide_unpack _). Qed.

Lemma dir_add_lookup_witness : exists a1 dn1, dok demo_g (dir_add 0 node_root name_c 9 demo2).2 a1 0 dn1 /\
  (dir_lookup dn1 name_c (dir_add 0 node_root name_c 9 demo2).2).1 = 9.
Proof.
  pose proof (dir_add_lookup demo_g demo2 (abs demo2) 0 node_root name_c 9 demo_dok_root
    ltac:(vm_compute; split; congruence) name_c_bytes ltac:(vm_compute; congruence) ltac:(vm_compute; reflexivity)) as Hr.
  assert (E : (dir_add 0 node_root name_c 9 demo2).1 = 0) by (vm_compute; reflexivity).
  destruct (dir_add 0 node_root name_c 9 demo2) as [r s1]. cbn in E. subst r.
  destruct Hr as [[? _]|(_ & a1 & dn1 & Hd & _ & Hl & _)]; [discriminate|]. exists a1, dn1. split; [exact Hd|exact Hl].
Defined.

(** "a". *)
Lemma dir_remove_lookup_witness : exists a1, dok demo_g (dir_remove node_root [97; 0] demo2).2 a1 0 node_root.
Proof.
  pose proof (dir_remove_lookup demo_g demo2 (abs demo2) 0 node_root [97; 0] demo_dok_root) as Hr.
  assert (E : (dir_remove node_root [97; 0] demo2).1 = 0) by (vm_compute; reflexivity).
  destruct (dir_remove node_root [97; 0] demo2) as [r s1]. cbn in E. subst r.
  destruct Hr as [[? _]|(_ & a1 & l1 & e & l2 & Hd & _)]; [discriminate|]. exists a1. exact Hd.
Defined.


Lemma full_volume_wipe_witness : magic (sb_decode (sec_at (fs_write FILE_A 6144 name_c 1 demo_full).2 SUPERBLOCK_LBA)) <> FS_MAGIC.
Proof.
  pose proof (full_volume_write_wipes_superblock demo_g demo_full (abs demo_full) FILE_A node_a name_c 6144 1 demo_full_fok
    demo_full_used ltac:(vm_compute; reflexivity) ltac:(vm_compute; split; congruence) ltac:(lia)) as Hr.
  destruct (fs_write FILE_A 6144 name_c 1 demo_full) as [r s1]. apply Hr.
Defined.

End CosDirProps.
