(* ===== verification/FatData.v ===== *)
(** FAT32 volumes (src/fat32.h, src/fat32.c): the driver's state, FAT entries,
    cluster allocation, short names. *)
From S2P Require Import Prelude CString Disk.
From stdpp Require Import base list numbers.
From Stdlib Require Import ZArith Lia.
Import CString.
Open Scope Z_scope.

Module Fat.

Definition FAT32_SECTOR_SIZE : Z := 512.
Definition FAT32_MAX_NAME : Z := 13.
Definition FAT32_ATTR_VOLID : Z := 0x08.
Definition FAT32_ATTR_DIR : Z := 0x10.
Definition FAT32_ATTR_ARCHIVE : Z := 0x20.
Definition FAT32_ATTR_LFN : Z := 0x0F.
Definition FAT32_MAX_LFN_ENTRIES : Z := 20.
Definition FAT32_CLUSTER_FREE : Z := 0.
Definition FAT32_CLUSTER_EOC : Z := 0x0FFFFFF8.
Definition FAT32_MAX_FDS : Z := 16.
Definition DIRENTS_PER_SECTOR : Z := 16.

(** [fat32_fs_t]. *)
Record fat32_fs := mk_fs {
  bytes_per_sector : Z; sectors_per_cluster : Z; reserved_sectors : Z; num_fats : Z; fat_size_sectors : Z;
  total_sectors : Z; root_cluster : Z; fsinfo_sector : Z; partition_lba : Z; fat_begin_lba : Z;
  cluster_begin_lba : Z; data_clusters : Z; free_cluster_hint : Z; mounted : Z;
}.
Definition zero_fs : fat32_fs := mk_fs 0 0 0 0 0 0 0 0 0 0 0 0 0 0.
Definition set_hint (h : Z) (f : fat32_fs) : fat32_fs :=
  mk_fs (bytes_per_sector f) (sectors_per_cluster f) (reserved_sectors f) (num_fats f) (fat_size_sectors f)
    (total_sectors f) (root_cluster f) (fsinfo_sector f) (partition_lba f) (fat_begin_lba f)
    (cluster_begin_lba f) (data_clusters f) h (mounted f).
Definition set_mounted (m : Z) (f : fat32_fs) : fat32_fs :=
  mk_fs (bytes_per_sector f) (sectors_per_cluster f) (reserved_sectors f) (num_fats f) (fat_size_sectors f)
    (total_sectors f) (root_cluster f) (fsinfo_sector f) (partition_lba f) (fat_begin_lba f)
    (cluster_begin_lba f) (data_clusters f) (free_cluster_hint f) m.

(** [fat32_dirent_t]. *)
Record dirent := mk_dirent { d_name : list Z; d_attr : Z; d_first_cluster : Z; d_size : Z }.
#[export] Instance dirent_inhabited : Inhabited dirent := populate (mk_dirent [] 0 0 0).
Definition set_d_size (v : Z) (d : dirent) : dirent := mk_dirent (d_name d) (d_attr d) (d_first_cluster d) v.

(** [fat32_fd_t]. *)
Record fat_fd := mk_fd { f_used : Z; f_writable : bool; f_dirent : dirent; f_dir_cluster : Z; f_name : list Z; f_pos : Z }.
Definition zero_fd : fat_fd := mk_fd 0 false (mk_dirent [] 0 0 0) 0 [] 0.
#[export] Instance fat_fd_inhabited : Inhabited fat_fd := populate zero_fd.

(** The device and the driver's globals. *)
Record fatstate (D : Type) := mk_fat { fdev : D; g_fat32 : fat32_fs; fat32_fds : list fat_fd }.
Arguments mk_fat {D}. Arguments fdev {D}. Arguments g_fat32 {D}. Arguments fat32_fds {D}.
Definition set_fdev {D} (d : D) (s : fatstate D) : fatstate D := mk_fat d (g_fat32 s) (fat32_fds s).
Definition set_fs {D} (f : fat32_fs) (s : fatstate D) : fatstate D := mk_fat (fdev s) f (fat32_fds s).
Definition set_fds {D} (l : list fat_fd) (s : fatstate D) : fatstate D := mk_fat (fdev s) (g_fat32 s) l.

(** ** Directory entry fields, on the 32 bytes of a slot *)

Definition de_name (de : list Z) : list Z := slice de 0 11.
Definition de_name0 (de : list Z) : Z := get_le 1 de 0.
Definition de_attr (de : list Z) : Z := get_le 1 de 11.
Definition de_first_cluster (de : list Z) : Z := Z.lor (Z.shiftl (get16 de 20) 16) (get16 de 26).
Definition de_file_size (de : list Z) : Z := get32 de 28.

(** Slot [slot] of a sector. *)
Definition slot_get (buf : sector) (slot : Z) : list Z := slice buf (32 * slot) 32.
Definition slot_put (buf : sector) (slot : Z) (de : list Z) : sector := splice buf (32 * slot) de.
Definition set_de_name0 (v : Z) (de : list Z) : list Z := put_le 1 de 0 v.
(** Attribute, first cluster and size, as the four assignments set them. *)
Definition set_de_fields (attr first_cluster size : Z) (de : list Z) : list Z :=
  put32 (put16 (put16 (put_le 1 de 11 attr) 20 (u16 (Z.shiftr first_cluster 16)))
    26 (u16 (Z.land first_cluster 0xFFFF))) 28 size.

(** ** Short names *)

Definition fat_is_eoc (v : Z) : bool := (FAT32_CLUSTER_EOC <=? v) || (v =? 0).

Definition up (c : Z) : Z := if (97 <=? c) && (c <=? 122) then c - 32 else c.

(** Characters up to the first that [stop] accepts, at most [n]. *)
Fixpoint take_until (stop : Z -> bool) (n : nat) (s : list Z) : list Z :=
  match n, s with
  | S n, c :: s => if stop c then [] else c :: take_until stop n s
  | _, _ => []
  end.
Fixpoint drop_until (stop : Z -> bool) (s : list Z) : list Z :=
  match s with [] => [] | c :: s' => if stop c then s else drop_until stop s' end.
Definition is_nul (c : Z) : bool := c =? 0.
Definition nul_or_dot (c : Z) : bool := (c =? 0) || (c =? 46).
Definition is_blank (c : Z) : bool := c =? 32.

(** The string left in [out]. *)
Definition name_from_83 (raw : list Z) : list Z :=
  let base := take_until is_blank 8 raw in
  let ext := slice raw 8 3 in
  if forallb is_blank ext then base else base ++ 46 :: take_until is_blank 3 ext.

(** The part of the name after its first dot, if it has one. *)
Definition after_dot (name : list Z) : option (list Z) :=
  let rest := drop_until nul_or_dot name in
  if hd0 rest =? 46 then Some (tail rest) else None.

Definition blank11 : list Z := replicate 11 32.

Definition name_to_83 (name : list Z) : list Z :=
  let out := splice blank11 0 (map up (take_until nul_or_dot 8 name)) in
  match after_dot name with
  | Some rest => splice out 8 (map up (take_until is_nul 3 rest))
  | None => out
  end.

Definition is_valid_83_char (c : Z) : bool :=
  ((65 <=? c) && (c <=? 90)) || ((48 <=? c) && (c <=? 57)) ||
  existsb (Z.eqb c) [36; 37; 39; 45; 95; 64; 126; 96; 33; 40; 41; 123; 125; 94; 35; 38].

(** The scan of one part of the name: [None] is [return 1], otherwise the
    number of characters and the rest. *)
Fixpoint lfn_scan (dots : bool) (s : list Z) (len : Z) : option (Z * list Z) :=
  match s with
  | [] => Some (len, [])
  | c :: s' =>
      if c =? 0 then Some (len, s)
      else if c =? 46 then (if dots then None else Some (len, s))
      else if (97 <=? c) && (c <=? 122) then None
      else if negb (is_valid_83_char (up c)) then None
      else lfn_scan dots s' (len + 1)
  end.
Definition name_needs_lfn (name : list Z) : bool :=
  if hd0 name =? 0 then true else
  match lfn_scan false name 0 with
  | None => true
  | Some (base_len, rest) =>
      if (base_len =? 0) || (8 <? base_len) then true
      else if hd0 rest =? 46 then
        match lfn_scan true (tail rest) 0 with
        | None => true
        | Some (ext_len, _) => (ext_len =? 0) || (3 <? ext_len)
        end
      else false
  end.

Definition short_char (c : Z) : Z := if is_valid_83_char (up c) then up c else 95.
(** The strings left in [base] and [ext]. *)
Definition base_ext_from_name (name : list Z) : list Z * list Z :=
  (map short_char (take_until nul_or_dot 8 name),
   match after_dot name with Some rest => map short_char (take_until is_nul 3 rest) | None => [] end).

(** Decimal digits of [v], least significant first; seven are enough. *)
Fixpoint dec_digits (fuel : nat) (v : Z) : list Z :=
  match fuel with
  | O => []
  | S fuel => if v =? 0 then [] else (48 + v mod 10) :: dec_digits fuel (v / 10)
  end.
(** The [n]-th candidate of [gen_short_name]. *)
Definition short_candidate (base ext : list Z) (n : Z) : list Z :=
  let tl := 126 :: rev (dec_digits 7 n) in
  let max_base := Z.max 1 (8 - zlen tl) in
  let b := take (Z.to_nat (Z.min (zlen base) max_base)) base in
  splice (splice (splice blank11 0 b) (zlen b) tl) 8 ext.

Definition lfn_checksum (short_name : list Z) : Z :=
  foldl (fun sum c => u8 (Z.shiftl (Z.land sum 1) 7 + Z.shiftr sum 1 + c)) 0 (take 11 short_name).

Section ops.
Context {D : Type} `{BlockDev D}.
#[local] Abbreviation M := (st (fatstate D)).

Definition block_read (lba : Z) : M sector := gets (fun s => bread (fdev s) lba).
Definition block_write (lba : Z) (b : sector) : M unit := modify (fun s => set_fdev (bwrite lba b (fdev s)) s).
Definition fs : M fat32_fs := gets g_fat32.

Definition cluster_to_lba (f : fat32_fs) (cluster : Z) : Z :=
  u32 (cluster_begin_lba f + u32 (u32 (cluster - 2) * sectors_per_cluster f)).

Definition fat_entry_get (cluster : Z) : M Z :=
  f ← fs;
  let fat_offset := u32 (cluster * 4) in
  let sector := u32 (fat_begin_lba f + fat_offset / FAT32_SECTOR_SIZE) in
  let off := fat_offset mod FAT32_SECTOR_SIZE in
  buf ← block_read sector;
  mret (Z.land (get32 buf off) 0x0FFFFFFF).

Definition fat_entry_set (cluster value : Z) : M unit :=
  f ← fs;
  let fat_offset := u32 (cluster * 4) in
  let off := fat_offset mod FAT32_SECTOR_SIZE in
  ffor (rounds 0 (num_fats f)) 0 (fun i =>
    let sector := u32 (u32 (fat_begin_lba f + u32 (i * fat_size_sectors f)) + fat_offset / FAT32_SECTOR_SIZE) in
    buf ← block_read sector;
    let old := get32 buf off in
    let newv := Z.lor (Z.land old 0xF0000000) (Z.land value 0x0FFFFFFF) in
    block_write sector (put32 buf off newv)).

Definition zero_cluster (c : Z) : M unit :=
  f ← fs;
  ffor (rounds 0 (sectors_per_cluster f)) 0 (fun s => block_write (u32 (cluster_to_lba f c + s)) zero_sector).

Definition alloc_cluster_try (c : Z) : M (option Z) :=
  v ← fat_entry_get c;
  if v =? FAT32_CLUSTER_FREE then
    fat_entry_set c FAT32_CLUSTER_EOC;;
    modify (fun s => set_fs (set_hint (u32 (c + 1)) (g_fat32 s)) s);;
    zero_cluster c;;
    mret (Some c)
  else mret None.

Definition alloc_cluster_pass (total start pass : Z) : M (option Z) :=
  let from := if pass =? 0 then start else 2 in
  let to := if pass =? 0 then total else start in
  floop (rounds from to) from alloc_cluster_try.

(** 0 when the volume is full. *)
Definition alloc_cluster : M Z :=
  f ← fs;
  let total := u32 (data_clusters f + 2) in
  let start := if 2 <=? free_cluster_hint f then free_cluster_hint f else 2 in
  r ← floop 2 0 (alloc_cluster_pass total start);
  mret (default 0 r).

(** The loops of the code that follow a chain have no bound. Here they are
    given more rounds than the longest chain of a consistent volume has
    clusters, where the bound is never reached ([FatProps]); along a cycle of a
    damaged table the code does not end, and the model stops. *)
Definition chain_fuel (f : fat32_fs) : nat := Z.to_nat (data_clusters f + 2).

Fixpoint free_chain_loop (fuel : nat) (cluster : Z) : M unit :=
  match fuel with
  | O => mret tt
  | S fuel =>
      if (2 <=? cluster) && negb (fat_is_eoc cluster) then
        next ← fat_entry_get cluster;
        fat_entry_set cluster FAT32_CLUSTER_FREE;;
        free_chain_loop fuel next
      else mret tt
  end.
Definition free_chain (cluster : Z) : M unit := f ← fs; free_chain_loop (chain_fuel f) cluster.

(** The last cluster of a chain. *)
Fixpoint chain_last (fuel : nat) (cluster : Z) : M Z :=
  match fuel with
  | O => mret cluster
  | S fuel =>
      v ← fat_entry_get cluster;
      if fat_is_eoc v then mret cluster else chain_last fuel v
  end.

End ops.
End Fat.
