(* ===== verification/FatDir.v ===== *)
(** FAT32 directories (src/fat32.c): iteration over entries, long names,
    lookup, finding and filling slots. *)
From S2P Require Import Prelude CString Disk FatData.
From stdpp Require Import base list numbers.
From Stdlib Require Import ZArith Lia.
Import CString Fat.
Open Scope Z_scope.

Module FatDir.

(** [lfn_state_t]: [buf] as the 13 bytes of the array. *)
Record lfn_state := mk_lfn {
  l_buf : list Z; l_len : Z; l_chk : Z; l_have : bool; l_lbas : list Z; l_slots : list Z; l_count : Z;
}.
Definition lfn_zero : lfn_state := mk_lfn (replicate 13 0) 0 0 false (replicate 20 0) (replicate 20 0) 0.
Definition lfn_reset (s : lfn_state) : lfn_state :=
  mk_lfn ((l_buf s).[0 := 0]) 0 0 false (l_lbas s) (l_slots s) 0.

(** The 13 UTF-16 units of a long-name entry. *)
Definition lfn_unit (le : list Z) (i : Z) : Z :=
  if i <? 5 then get16 le (1 + 2 * i) else if i <? 11 then get16 le (14 + 2 * (i - 5)) else get16 le (28 + 2 * (i - 11)).

(** The copying loop of [lfn_add]. *)
Fixpoint lfn_copy (fuel : nat) (le : list Z) (pos len i : Z) (buf : list Z) : list Z :=
  match fuel with
  | O => buf
  | S fuel =>
      if (i <? 13) && (pos + i <? FAT32_MAX_NAME - 1) then
        let u := lfn_unit le i in
        if u =? 0 then (if pos + i <? len then buf.[pos + i := 0] else buf)
        else if u =? 0xFFFF then lfn_copy fuel le pos len (i + 1) buf
        else lfn_copy fuel le pos len (i + 1) (buf.[pos + i := if u <? 0x80 then u else 63])
      else buf
  end.

Definition lfn_add (s : lfn_state) (le : list Z) (lba slot : Z) : lfn_state :=
  let order := get_le 1 le 0 in
  let checksum := get_le 1 le 13 in
  let ord := Z.land order 0x1F in
  if (ord <? 1) || (FAT32_MAX_LFN_ENTRIES <? ord) then lfn_reset s else
  let first := negb (Z.land order 0x40 =? 0) in
  if negb first && (negb (l_have s) || negb (checksum =? l_chk s)) then lfn_reset s else
  let s :=
    if first then
      let s := lfn_reset s in
      let len := Z.min (ord * 13) (FAT32_MAX_NAME - 1) in
      mk_lfn ((l_buf s).[len := 0]) len checksum true (l_lbas s) (l_slots s) 0
    else s in
  mk_lfn (lfn_copy 13 le ((ord - 1) * 13) (l_len s) 0 (l_buf s)) (l_len s) (l_chk s) (l_have s)
    ((l_lbas s).[ord - 1 := lba]) ((l_slots s).[ord - 1 := slot]) (Z.max ord (l_count s)).

(** The state after and the name taken. *)
Definition lfn_take (s : lfn_state) (de : list Z) : lfn_state * list Z :=
  let chk := lfn_checksum (de_name de) in
  if l_have s && (l_chk s =? chk) && (0 <? l_count s) && negb (hd0 (l_buf s) =? 0)
  then (s, cstr (take 12 (l_buf s)))
  else (mk_lfn (l_buf s) (l_len s) (l_chk s) (l_have s) (l_lbas s) (l_slots s) 0, name_from_83 (de_name de)).

(** [struct short_exists_ctx] is the boolean. A callback gives the new context
    and whether the walk ends. *)
Definition short_exists_cb (target11 : list Z) (de : list Z) (lba slot : Z) (exists_ : bool) : bool * bool :=
  if de_name0 de =? 0 then (exists_, true)
  else if de_name0 de =? 0xE5 then (exists_, false)
  else if de_attr de =? FAT32_ATTR_LFN then (exists_, false)
  else if memcmp (de_name de) target11 11 =? 0 then (true, true)
  else (exists_, false).

(** [struct list_ctx]. *)
Record list_ctx := mk_list { lc_out : list dirent; lc_lfn : lfn_state }.
Definition list_cb (out_max : Z) (de : list Z) (lba slot : Z) (ctx : list_ctx) : list_ctx * bool :=
  if de_name0 de =? 0 then (ctx, true)
  else if de_name0 de =? 0xE5 then (mk_list (lc_out ctx) (lfn_reset (lc_lfn ctx)), false)
  else if de_attr de =? FAT32_ATTR_LFN then (mk_list (lc_out ctx) (lfn_add (lc_lfn ctx) de lba slot), false)
  else if negb (Z.land (de_attr de) FAT32_ATTR_VOLID =? 0) then (mk_list (lc_out ctx) (lfn_reset (lc_lfn ctx)), false)
  else if out_max <=? zlen (lc_out ctx) then (ctx, true)
  else
    let '(l, name) := lfn_take (lc_lfn ctx) de in
    (mk_list (lc_out ctx ++ [mk_dirent name (de_attr de) (de_first_cluster de) (de_file_size de)]) (lfn_reset l), false).

(** [struct find_ctx]. *)
Record find_ctx := mk_find {
  fc_found : list Z; fc_lba : Z; fc_slot : Z; fc_ok : bool;
  fc_lfn_lbas : list Z; fc_lfn_slots : list Z; fc_lfn_count : Z; fc_lfn : lfn_state;
}.
Definition find_zero : find_ctx :=
  mk_find (replicate 32 0) 0 0 false (replicate 20 0) (replicate 20 0) 0 lfn_zero.

(** The case-insensitive comparison loop: both strings end together. *)
Fixpoint same_name (a b : list Z) : bool :=
  match a with
  | x :: a' =>
      if x =? 0 then hd0 b =? 0
      else if hd0 b =? 0 then false
      else if up x =? up (hd0 b) then same_name a' (tail b) else false
  | [] => hd0 b =? 0
  end.

Definition find_cb (target : list Z) (de : list Z) (lba slot : Z) (ctx : find_ctx) : find_ctx * bool :=
  let with_lfn l := mk_find (fc_found ctx) (fc_lba ctx) (fc_slot ctx) (fc_ok ctx) (fc_lfn_lbas ctx) (fc_lfn_slots ctx) (fc_lfn_count ctx) l in
  if de_name0 de =? 0 then (ctx, true)
  else if de_name0 de =? 0xE5 then (with_lfn (lfn_reset (fc_lfn ctx)), false)
  else if de_attr de =? FAT32_ATTR_LFN then (with_lfn (lfn_add (fc_lfn ctx) de lba slot), false)
  else
    let '(l, name) := lfn_take (fc_lfn ctx) de in
    if same_name name target then
      let n := l_count l in
      (mk_find de lba slot true (splice (fc_lfn_lbas ctx) 0 (take (Z.to_nat n) (l_lbas l)))
         (splice (fc_lfn_slots ctx) 0 (take (Z.to_nat n) (l_slots l))) n l, true)
    else (with_lfn (lfn_reset l), false).

(** [struct slot_run_ctx]: the current run of free slots. *)
Definition slot_run : Type := list (Z * Z).
Definition slot_run_cb (need : Z) (de : list Z) (lba slot : Z) (run : slot_run) : slot_run * bool :=
  if (de_name0 de =? 0) || (de_name0 de =? 0xE5) then
    let run := run ++ [(lba, slot)] in (run, need <=? zlen run)
  else ([], false).

Definition dir_empty_cb (de : list Z) (lba slot : Z) (nonempty : bool) : bool * bool :=
  if de_name0 de =? 0 then (nonempty, true)
  else if (de_name0 de =? 0xE5) || (de_attr de =? FAT32_ATTR_LFN) || negb (Z.land (de_attr de) FAT32_ATTR_VOLID =? 0)
  then (nonempty, false)
  else if (de_name0 de =? 46) && ((get_le 1 de 1 =? 32) || (get_le 1 de 1 =? 46)) then (nonempty, false)
  else (true, true).

Section ops.
Context {D : Type} `{BlockDev D}.
#[local] Abbreviation M := (st (fatstate D)).

Section walk.
Context {C : Type} (cb : list Z -> Z -> Z -> C -> C * bool).

(** The entries of a sector; the flag is [return] from the walk. *)
Fixpoint sector_entries (fuel : nat) (buf : sector) (lba i : Z) (ctx : C) : C * bool :=
  match fuel with
  | O => (ctx, false)
  | S fuel =>
      match cb (slot_get buf i) lba i ctx with
      | (ctx, true) => (ctx, true)
      | (ctx, false) => sector_entries fuel buf lba (i + 1) ctx
      end
  end.
Fixpoint cluster_entries (fuel : nat) (base_lba s : Z) (ctx : C) : M (C * bool) :=
  match fuel with
  | O => mret (ctx, false)
  | S fuel =>
      let lba := u32 (base_lba + s) in
      buf ← block_read lba;
      match sector_entries 16 buf lba 0 ctx with
      | (ctx, true) => mret (ctx, true)
      | (ctx, false) => cluster_entries fuel base_lba (s + 1) ctx
      end
  end.
Fixpoint chain_entries (fuel : nat) (cluster : Z) (ctx : C) : M C :=
  match fuel with
  | O => mret ctx
  | S fuel =>
      if (2 <=? cluster) && negb (fat_is_eoc cluster) then
        f ← fs;
        '(ctx, stop) ← cluster_entries (rounds 0 (sectors_per_cluster f)) (cluster_to_lba f cluster) 0 ctx;
        if stop : bool then mret ctx else
        next ← fat_entry_get cluster;
        chain_entries fuel next ctx
      else mret ctx
  end.
Definition for_each_dirent (dir_cluster : Z) (ctx : C) : M C :=
  f ← fs;
  let cluster := if dir_cluster =? 0 then root_cluster f else dir_cluster in
  chain_entries (chain_fuel f) cluster ctx.
End walk.

Definition short_name_exists (dir_cluster : Z) (name11 : list Z) : M bool :=
  for_each_dirent (short_exists_cb name11) dir_cluster false.

Definition short_try (dir_cluster : Z) (base ext : list Z) (n : Z) : M (option (list Z)) :=
  let out := short_candidate base ext n in
  e ← short_name_exists dir_cluster out;
  mret (if e : bool then None else Some out).
Definition gen_short_name (dir_cluster : Z) (name : list Z) : M (list Z) :=
  let '(base, ext) := base_ext_from_name name in
  let base := match base with [] => [95] | _ => base end in
  r ← floop (rounds 1 1000000) 1 (short_try dir_cluster base ext);
  mret (default (short_candidate base ext 999999) r).

(** The entries stored in [out]; [None] is the result -1. *)
Definition fat32_list_dir (dir_cluster out_max : Z) : M (option (list dirent)) :=
  f ← fs;
  if mounted f =? 0 then mret None else
  ctx ← for_each_dirent (list_cb out_max) dir_cluster (mk_list [] lfn_zero);
  mret (Some (lc_out ctx)).

(** [out]; the C result is 0 exactly when [fc_ok] holds. *)
Definition find_in_dir (dir_cluster : Z) (name : list Z) : M find_ctx :=
  for_each_dirent (find_cb name) dir_cluster find_zero.

(** Slots of a fresh cluster, in order, until [need] are there. *)
Fixpoint cluster_slots (fuel : nat) (base_lba s : Z) (need : Z) (run : slot_run) : slot_run :=
  match fuel with
  | O => run
  | S fuel =>
      if zlen run <? need then
        let more := map (fun i => (u32 (base_lba + s), i)) (take (Z.to_nat (need - zlen run)) (seqZ 0 16)) in
        cluster_slots fuel base_lba (s + 1) need (run ++ more)
      else run
  end.

(** The slots given out; [None] is -1. *)
Definition alloc_dirent_slots (dir_cluster need : Z) : M (option slot_run) :=
  f ← fs;
  let dir_cluster := if dir_cluster =? 0 then root_cluster f else dir_cluster in
  run ← for_each_dirent (slot_run_cb need) dir_cluster [];
  if need <=? zlen run then mret (Some (take (Z.to_nat need) run)) else
  cluster ← chain_last (chain_fuel f) dir_cluster;
  nc ← alloc_cluster;
  if nc =? 0 then mret None else
  fat_entry_set cluster nc;;
  let run := cluster_slots (rounds 0 (sectors_per_cluster f)) (cluster_to_lba f nc) 0 need run in
  mret (if zlen run <? need then None else Some run).

(** Read a sector, change one slot, write it back. *)
Definition update_slot (lba slot : Z) (g : list Z -> list Z) : M unit :=
  buf ← block_read lba;
  block_write lba (slot_put buf slot (g (slot_get buf slot))).

Definition update_dirent_fields (lba slot attr first_cluster size : Z) : M unit :=
  update_slot lba slot (set_de_fields attr first_cluster size).

(** The long-name entry number [order] of [name]. *)
Definition lfn_char (name : list Z) (namelen ci : Z) : Z :=
  if ci <? namelen then name.[ci] else if ci =? namelen then 0 else 0xFFFF.
Definition lfn_entry (name : list Z) (order chk : Z) (last : bool) : list Z :=
  let namelen := strlen name in
  let pos := (order - 1) * 13 in
  let units from n := concat (map (fun i => le_put 2 (lfn_char name namelen (pos + i))) (seqZ from n)) in
  [u8 (Z.lor order (if last then 0x40 else 0))] ++ units 0 5 ++ [FAT32_ATTR_LFN; 0; chk] ++ units 5 6 ++ [0; 0] ++ units 11 2.

Definition lfn_write_step (name : list Z) (lfn_count chk : Z) (run : slot_run) (e : Z) : M unit :=
  let '(lba, slot) := run !!! Z.to_nat e in
  update_slot lba slot (fun _ => lfn_entry name (lfn_count - e) chk (e =? 0)).

(** [*out_lba] and [*out_slot]; [None] is -1. *)
Definition create_new_dirent (dir_cluster : Z) (name : list Z) (attr first_cluster size : Z) : M (option (Z * Z)) :=
  let need_lfn := name_needs_lfn name in
  short11 ← (if need_lfn then gen_short_name dir_cluster name else mret (name_to_83 name));
  let namelen := strlen name in
  let lfn_count := if need_lfn then (namelen + 12) / 13 else 0 in
  let lfn_count := if FAT32_MAX_LFN_ENTRIES <? lfn_count then FAT32_MAX_LFN_ENTRIES else lfn_count in
  slots ← alloc_dirent_slots dir_cluster (lfn_count + 1);
  match slots with
  | None => mret None
  | Some run =>
      ffor (rounds 0 lfn_count) 0 (lfn_write_step name lfn_count (lfn_checksum short11) run);;
      let '(se_lba, se_slot) := run !!! Z.to_nat lfn_count in
      update_slot se_lba se_slot (fun _ =>
        set_de_fields attr first_cluster size (splice (replicate 32 0) 0 short11));;
      mret (Some (se_lba, se_slot))
  end.

Definition erase_lfn_run (fc : find_ctx) : M unit :=
  ffor (rounds 0 (fc_lfn_count fc)) 0 (fun k =>
    update_slot ((fc_lfn_lbas fc).[k]) ((fc_lfn_slots fc).[k]) (set_de_name0 0xE5)).

Definition alloc_dirent_slot (dir_cluster : Z) : M (option (Z * Z)) :=
  r ← alloc_dirent_slots dir_cluster 1;
  mret (match r with Some (p :: _) => Some p | _ => None end).

(** [name = None] is the null pointer. *)
Definition write_dirent (lba slot : Z) (name : option (list Z)) (attr first_cluster size : Z) : M unit :=
  update_slot lba slot (fun de =>
    set_de_fields attr first_cluster size
      (match name with Some nm => splice de 0 (name_to_83 nm) | None => de end)).

End ops.
End FatDir.
