(* ===== verification/FatFile.v ===== *)
(** FAT32 files (src/fat32.c): mounting and formatting, paths, reading,
    writing, appending, creation and deletion, descriptors. *)
From S2P Require Import Prelude CString Disk FatData FatDir.
From stdpp Require Import base list numbers.
From Stdlib Require Import ZArith Lia.
Import CString Fat FatDir.
Open Scope Z_scope.

Module FatFile.

Definition O_WRONLY : Z := 0x0001.
Definition O_RDWR : Z := 0x0002.
Definition O_CREAT : Z := 0x0040.
Definition O_TRUNC : Z := 0x0200.
Definition O_APPEND : Z := 0x0400.

(** ['/'] and ['>'] separate path components. *)
Definition is_sep (c : Z) : bool := (c =? 47) || (c =? 62).
Definition skip_sep (p : list Z) : list Z := if is_sep (hd0 p) then tail p else p.
Definition nul_or_sep (c : Z) : bool := (c =? 0) || is_sep c.

(** A chunk of the data as the sector buffer that is written. *)
Definition padded (chunk : list Z) : sector := splice zero_sector 0 chunk.

Definition FAT32_CLN_SHUT_BIT_MASK : Z := 0x08000000.

(** Fields of the boot sector. *)
Definition bpb_bytes_per_sector (b : sector) : Z := get16 b 11.
Definition bpb_sectors_per_cluster (b : sector) : Z := get_le 1 b 13.
Definition bpb_reserved_sectors (b : sector) : Z := get16 b 14.
Definition bpb_num_fats (b : sector) : Z := get_le 1 b 16.
Definition bpb_total_sectors_16 (b : sector) : Z := get16 b 19.
Definition bpb_total_sectors_32 (b : sector) : Z := get32 b 32.
Definition bpb_fat_size_32 (b : sector) : Z := get32 b 36.
Definition bpb_root_cluster (b : sector) : Z := get32 b 44.
Definition bpb_fsinfo_sector (b : sector) : Z := get16 b 48.

(** [pick_spc]. *)
Definition pick_spc (total_sectors : Z) : Z :=
  let bytes := u64 (total_sectors * FAT32_SECTOR_SIZE) in
  if bytes <=? 8 * 1024 * 1024 * 1024 then 8
  else if bytes <=? 16 * 1024 * 1024 * 1024 then 16
  else if bytes <=? 32 * 1024 * 1024 * 1024 then 32 else 64.

(** The sizes [fat32_format] computes. *)
Definition format_fat_size (total_sectors spc : Z) : Z :=
  let tmpval1 := u32 (total_sectors - 32) in
  let tmpval2 := (256 * spc + 2) / 2 in
  u32 (tmpval1 + tmpval2 - 1) / tmpval2.
Definition format_begin (fat_size : Z) : Z := u32 (32 + u32 (2 * fat_size)).
Definition format_clusters (total_sectors spc : Z) : Z :=
  u32 (total_sectors - format_begin (format_fat_size total_sectors spc)) / spc.

(** "CRUSADER", "NO NAME    ", "FAT32   ". *)
Definition oem : list Z := [67; 82; 85; 83; 65; 68; 69; 82].
Definition no_name : list Z := [78; 79; 32; 78; 65; 77; 69; 32; 32; 32; 32].
Definition fat32_id : list Z := [70; 65; 84; 51; 50; 32; 32; 32].

Definition format_bpb (partition_lba total_sectors spc fat_size : Z) : sector :=
  let b := splice zero_sector 0 ([0xEB; 0x58; 0x90] ++ oem) in
  let b := put16 b 11 FAT32_SECTOR_SIZE in
  let b := put_le 1 b 13 spc in
  let b := put16 b 14 32 in
  let b := put_le 1 b 16 2 in
  let b := put_le 1 b 21 0xF8 in
  let b := put16 b 24 63 in
  let b := put16 b 26 255 in
  let b := put32 b 28 partition_lba in
  let b := put32 b 32 total_sectors in
  let b := put32 b 36 fat_size in
  let b := put32 b 44 2 in
  let b := put16 b 48 1 in
  let b := put16 b 50 6 in
  let b := put_le 1 b 64 0x80 in
  let b := put_le 1 b 66 0x29 in
  let b := put32 b 67 0x12345678 in
  let b := splice b 71 no_name in
  let b := splice b 82 fat32_id in
  splice b 510 [0x55; 0xAA].
Definition format_fsinfo (clusters : Z) : sector :=
  let b := put32 zero_sector 0 0x41615252 in
  let b := put32 b 484 0x61417272 in
  let b := put32 b 488 (u32 (clusters - 1)) in
  let b := put32 b 492 3 in
  let b := put32 b 508 0xAA550000 in
  splice b 510 [0x55; 0xAA].
Definition format_fat0 : sector :=
  put32 (put32 (put32 zero_sector 0 0x0FFFFFF8) 4 0x0FFFFFFF) 8 0x0FFFFFFF.

(** Directory and last component of a path. *)
Fixpoint last_sep_from (s : list Z) (i : Z) (last : option Z) : option Z :=
  match s with
  | [] => last
  | c :: s => if c =? 0 then last else last_sep_from s (i + 1) (if is_sep c then Some i else last)
  end.
Definition base_name (s : list Z) : list Z := take 12 (cstr s).
Definition split_path (path : list Z) : list Z * list Z :=
  let p := skip_sep path in
  match last_sep_from p 0 None with
  | None => ([], base_name p)
  | Some k =>
      let dlen := if 64 <=? k then 63 else k in
      (take (Z.to_nat dlen) p, base_name (drop (Z.to_nat (k + 1)) p))
  end.

Section ops.
Context {D : Type} `{BlockDev D}.
#[local] Abbreviation M := (st (fatstate D)).

Definition fat32_set_shutdown_bit (clean : bool) : M unit :=
  f ← fs;
  ffor (rounds 0 (num_fats f)) 0 (fun i =>
    let sector := u32 (u32 (fat_begin_lba f + u32 (i * fat_size_sectors f)) + 4 / FAT32_SECTOR_SIZE) in
    buf ← block_read sector;
    let val := get32 buf 4 in
    let val := if clean then Z.lor val FAT32_CLN_SHUT_BIT_MASK else Z.land val (Z.lnot FAT32_CLN_SHUT_BIT_MASK) in
    block_write sector (put32 buf 4 val)).

Definition fat32_mount (partition : Z) : M Z :=
  sec ← block_read partition;
  if negb (bpb_bytes_per_sector sec =? FAT32_SECTOR_SIZE) then mret (-1) else
  if bpb_fat_size_32 sec =? 0 then mret (-1) else
  if negb (sec.[510] =? 0x55) || negb (sec.[511] =? 0xAA) then mret (-1) else
  let total := if bpb_total_sectors_32 sec =? 0 then bpb_total_sectors_16 sec else bpb_total_sectors_32 sec in
  let fat_begin := u32 (partition + bpb_reserved_sectors sec) in
  let cluster_begin := u32 (fat_begin + u32 (bpb_num_fats sec * bpb_fat_size_32 sec)) in
  let data_sectors := u32 (total - u32 (cluster_begin - partition)) in
  let f := mk_fs (bpb_bytes_per_sector sec) (bpb_sectors_per_cluster sec) (bpb_reserved_sectors sec)
    (bpb_num_fats sec) (bpb_fat_size_32 sec) total (bpb_root_cluster sec) (bpb_fsinfo_sector sec) partition
    fat_begin cluster_begin (data_sectors / bpb_sectors_per_cluster sec) 2 0 in
  modify (set_fs f);;
  when (negb (fsinfo_sector f =? 0))
    (fi ← block_read (u32 (partition + fsinfo_sector f));
     let next_free := get32 fi 492 in
     when ((get32 fi 0 =? 0x41615252) && negb (next_free =? 0xFFFFFFFF) && (2 <=? next_free))
       (modify (fun s => set_fs (set_hint next_free (g_fat32 s)) s)));;
  modify (fun s => set_fs (set_mounted 1 (g_fat32 s)) s);;
  fat32_set_shutdown_bit false;;
  mret 0.

Definition fat32_unmount : M unit :=
  f ← fs;
  when (negb (mounted f =? 0)) (fat32_set_shutdown_bit true);;
  modify (fun s => set_fs (set_mounted 0 (g_fat32 s)) s).

Definition fat32_format (partition total_sectors sectors_per_cluster : Z) : M Z :=
  if total_sectors <? 66600 then mret (-1) else
  let spc := if sectors_per_cluster =? 0 then pick_spc total_sectors else sectors_per_cluster in
  let fat_size := format_fat_size total_sectors spc in
  if total_sectors <=? format_begin fat_size then mret (-1) else
  let clusters := format_clusters total_sectors spc in
  if clusters <? 65525 then mret (-1) else
  let sec := format_bpb partition total_sectors spc fat_size in
  block_write partition sec;;
  block_write (u32 (partition + 6)) sec;;
  let fi := format_fsinfo clusters in
  block_write (u32 (partition + 1)) fi;;
  block_write (u32 (partition + 7)) fi;;
  let fat_begin := u32 (partition + 32) in
  ffor 2 0 (fun f => ffor (rounds 0 fat_size) 0 (fun i => block_write (u32 (u32 (fat_begin + u32 (f * fat_size)) + i)) zero_sector));;
  ffor 2 0 (fun f => block_write (u32 (fat_begin + u32 (f * fat_size))) format_fat0);;
  let cluster_begin := u32 (fat_begin + u32 (2 * fat_size)) in
  ffor (rounds 0 spc) 0 (fun s => block_write (u32 (cluster_begin + s)) zero_sector);;
  fat32_mount partition.

(** One component per round; [last] is the entry found last. *)
Fixpoint stat_loop (fuel : nat) (p : list Z) (dir : Z) (last : option (list Z)) : M (option (list Z)) :=
  match fuel with
  | O => mret None
  | S fuel =>
      if hd0 p =? 0 then mret last else
      let comp := take_until nul_or_sep 12 p in
      let p := skip_sep (drop (length comp) p) in
      match comp with
      | [] => stat_loop fuel p dir last
      | _ =>
          fc ← find_in_dir dir comp;
          if negb (fc_ok fc) then mret None else
          let found := fc_found fc in
          if hd0 p =? 0 then stat_loop fuel p dir (Some found)
          else if Z.land (de_attr found) FAT32_ATTR_DIR =? 0 then mret None
          else stat_loop fuel p (de_first_cluster found) (Some found)
      end
  end.
(** [*out]; [None] is -1. *)
Definition fat32_stat (path : list Z) : M (option dirent) :=
  f ← fs;
  if mounted f =? 0 then mret None else
  last ← stat_loop (S (length path)) (skip_sep path) (root_cluster f) None;
  mret (match last with
        | None => None
        | Some de => Some (mk_dirent (name_from_83 (de_name de)) (de_attr de) (de_first_cluster de) (de_file_size de))
        end).

(** The skipping loop of [fat32_read]. *)
Fixpoint skip_clusters (fuel : nat) (cluster : Z) : M Z :=
  match fuel with
  | O => mret cluster
  | S fuel =>
      if (2 <=? cluster) && negb (fat_is_eoc cluster) then v ← fat_entry_get cluster; skip_clusters fuel v
      else mret cluster
  end.

(** Sectors of one cluster: sector, offset in it, bytes so far. *)
Fixpoint read_sectors (fuel : nat) (f : fat32_fs) (base_lba size sec_in_cluster off_in_sec : Z) (out : list Z) : M (list Z) :=
  match fuel with
  | O => mret out
  | S fuel =>
      if (zlen out <? size) && (sec_in_cluster <? sectors_per_cluster f) then
        sec ← block_read (u32 (base_lba + sec_in_cluster));
        let chunk := Z.min (FAT32_SECTOR_SIZE - off_in_sec) (size - zlen out) in
        read_sectors fuel f base_lba size (sec_in_cluster + 1) 0 (out ++ slice sec off_in_sec chunk)
      else mret out
  end.
Fixpoint read_chain (fuel : nat) (f : fat32_fs) (size cluster offset_in_cluster : Z) (out : list Z) : M (list Z) :=
  match fuel with
  | O => mret out
  | S fuel =>
      if (zlen out <? size) && ((2 <=? cluster) && negb (fat_is_eoc cluster)) then
        out ← read_sectors (Z.to_nat (sectors_per_cluster f)) f (cluster_to_lba f cluster) size
                (offset_in_cluster / FAT32_SECTOR_SIZE) (offset_in_cluster mod FAT32_SECTOR_SIZE) out;
        next ← fat_entry_get cluster;
        read_chain fuel f size next 0 out
      else mret out
  end.
(** The bytes stored in [buffer]; the C result is their number. *)
Definition fat32_read (file : dirent) (offset size : Z) : M (list Z) :=
  f ← fs;
  if mounted f =? 0 then mret [] else
  if d_size file <=? offset then mret [] else
  let size := if d_size file <? u32 (offset + size) then d_size file - offset else size in
  let cluster_bytes := u32 (sectors_per_cluster f * FAT32_SECTOR_SIZE) in
  cluster ← skip_clusters (Z.to_nat (offset / cluster_bytes)) (d_first_cluster file);
  read_chain (Z.to_nat (size / FAT32_SECTOR_SIZE + 2)) f size cluster (offset mod cluster_bytes) [].

(** The sectors [fat32_write_file] fills in one cluster; the bytes written. *)
Fixpoint write_sectors (fuel : nat) (base_lba in_cluster cluster_bytes : Z) (data : list Z) (len written : Z) : M Z :=
  match fuel with
  | O => mret written
  | S fuel =>
      if (in_cluster <? cluster_bytes) && (written <? len) then
        let chunk := Z.min FAT32_SECTOR_SIZE (len - written) in
        block_write (u32 (base_lba + in_cluster / FAT32_SECTOR_SIZE)) (padded (slice data written chunk));;
        write_sectors fuel base_lba (in_cluster + FAT32_SECTOR_SIZE) cluster_bytes data len (written + chunk)
      else mret written
  end.
(** Cluster after cluster; running out of clusters ends the loop. *)
Fixpoint write_clusters (fuel : nat) (cluster : Z) (data : list Z) (len written : Z) : M unit :=
  match fuel with
  | O => mret tt
  | S fuel =>
      if written <? len then
        f ← fs;
        written ← write_sectors (Z.to_nat (sectors_per_cluster f)) (cluster_to_lba f cluster) 0
                    (u32 (sectors_per_cluster f * FAT32_SECTOR_SIZE)) data len written;
        if written <? len then
          nc ← alloc_cluster;
          if nc =? 0 then mret tt else
          fat_entry_set cluster nc;;
          write_clusters fuel nc data len written
        else write_clusters fuel cluster data len written
      else mret tt
  end.

Definition fat32_write_file (dir_cluster : Z) (name : list Z) (data : list Z) (len : Z) : M Z :=
  f ← fs;
  if mounted f =? 0 then mret (-1) else
  fc ← find_in_dir dir_cluster name;
  let old := de_first_cluster (fc_found fc) in
  when (fc_ok fc && (2 <=? old)) (free_chain old);;
  first_cluster ← (if 0 <? len then alloc_cluster else mret 0);
  if (0 <? len) && (first_cluster =? 0) then mret (-1) else
  write_clusters (Z.to_nat (len / FAT32_SECTOR_SIZE + 2)) first_cluster data len 0;;
  if fc_ok fc then
    update_dirent_fields (fc_lba fc) (fc_slot fc) FAT32_ATTR_ARCHIVE first_cluster len;;
    mret 0
  else
    r ← create_new_dirent dir_cluster name FAT32_ATTR_ARCHIVE first_cluster len;
    match r with
    | None => when (2 <=? first_cluster) (free_chain first_cluster);; mret (-1)
    | Some _ => mret 0
    end.

(** The loop of [fat32_append_file]: last cluster and bytes written. *)
Fixpoint append_loop (fuel : nat) (cluster off_in_cluster cluster_bytes : Z) (data : list Z) (len written : Z) : M (Z * Z) :=
  match fuel with
  | O => mret (cluster, written)
  | S fuel =>
      if written <? len then
        next ← (if cluster_bytes <=? off_in_cluster then
                  nc ← alloc_cluster;
                  if nc =? 0 then mret None else
                  fat_entry_set cluster nc;;
                  mret (Some (nc, 0))
                else mret (Some (cluster, off_in_cluster)));
        match next with
        | None => mret (cluster, written)
        | Some (cluster, off_in_cluster) =>
            f ← fs;
            let lba := u32 (cluster_to_lba f cluster + off_in_cluster / FAT32_SECTOR_SIZE) in
            let off_in_sec := off_in_cluster mod FAT32_SECTOR_SIZE in
            sec ← block_read lba;
            let chunk := Z.min (FAT32_SECTOR_SIZE - off_in_sec) (len - written) in
            block_write lba (splice sec off_in_sec (slice data written chunk));;
            append_loop fuel cluster (off_in_cluster + chunk) cluster_bytes data len (written + chunk)
        end
      else mret (cluster, written)
  end.

Definition fat32_append_file (dir_cluster : Z) (name : list Z) (data : list Z) (len : Z) : M Z :=
  f ← fs;
  if (mounted f =? 0) || (len =? 0) then mret (if len =? 0 then 0 else -1) else
  fc ← find_in_dir dir_cluster name;
  if negb (fc_ok fc) then fat32_write_file dir_cluster name data len else
  let old_size := de_file_size (fc_found fc) in
  let cluster := de_first_cluster (fc_found fc) in
  let cluster_bytes := u32 (sectors_per_cluster f * FAT32_SECTOR_SIZE) in
  cluster ← (if cluster <? 2 then alloc_cluster else chain_last (chain_fuel f) cluster);
  if cluster =? 0 then mret (-1) else
  when (de_first_cluster (fc_found fc) <? 2)
    (update_dirent_fields (fc_lba fc) (fc_slot fc) (de_attr (fc_found fc)) cluster old_size);;
  let off := old_size mod cluster_bytes in
  let off := if (0 <? old_size) && (off =? 0) then cluster_bytes else off in
  '(cluster, written) ← append_loop (Z.to_nat (len / FAT32_SECTOR_SIZE + 2)) cluster off cluster_bytes data len 0;
  write_dirent (fc_lba fc) (fc_slot fc) (Some name) (de_attr (fc_found fc)) (if 2 <=? cluster then cluster else 0)
    (u32 (old_size + written));;
  mret (if written =? len then 0 else -1).

(** The "." and ".." entries of a new directory. *)
Definition dot_entry (nm : list Z) (cluster : Z) : list Z :=
  set_de_fields FAT32_ATTR_DIR cluster 0 (splice (splice (replicate 32 0) 0 blank11) 0 nm).
Definition fat32_create_dir (dir_cluster : Z) (name : list Z) : M Z :=
  f ← fs;
  if mounted f =? 0 then mret (-1) else
  fc ← find_in_dir dir_cluster name;
  if fc_ok fc then mret (-1) else
  new_cluster ← alloc_cluster;
  if new_cluster =? 0 then mret (-1) else
  let parent := if (dir_cluster =? root_cluster f) || (dir_cluster =? 0) then 0 else dir_cluster in
  block_write (cluster_to_lba f new_cluster)
    (slot_put (slot_put zero_sector 0 (dot_entry [46] new_cluster)) 1 (dot_entry [46; 46] parent));;
  slot ← alloc_dirent_slot dir_cluster;
  match slot with
  | None => free_chain new_cluster;; mret (-1)
  | Some (lba, slot) => write_dirent lba slot (Some name) FAT32_ATTR_DIR new_cluster 0;; mret 0
  end.

Definition fat32_delete_file (dir_cluster : Z) (name : list Z) : M Z :=
  f ← fs;
  if mounted f =? 0 then mret (-1) else
  fc ← find_in_dir dir_cluster name;
  if negb (fc_ok fc) then mret (-1) else
  if negb (Z.land (de_attr (fc_found fc)) FAT32_ATTR_DIR =? 0) then mret (-1) else
  let cluster := de_first_cluster (fc_found fc) in
  when (2 <=? cluster) (free_chain cluster);;
  update_slot (fc_lba fc) (fc_slot fc) (set_de_name0 0xE5);;
  mret 0.

Definition fat32_remove_dir (dir_cluster : Z) (name : list Z) : M Z :=
  f ← fs;
  if mounted f =? 0 then mret (-1) else
  fc ← find_in_dir dir_cluster name;
  if negb (fc_ok fc) || (Z.land (de_attr (fc_found fc)) FAT32_ATTR_DIR =? 0) then mret (-1) else
  let cluster := de_first_cluster (fc_found fc) in
  if (cluster <? 2) || (cluster =? root_cluster f) then mret (-1) else
  nonempty ← for_each_dirent dir_empty_cb cluster false;
  if nonempty : bool then mret (-2) else
  free_chain cluster;;
  update_slot (fc_lba fc) (fc_slot fc) (set_de_name0 0xE5);;
  mret 0.

Definition resolve_dir_cluster (dirpath : list Z) : M Z :=
  f ← fs;
  if hd0 dirpath =? 0 then mret (root_cluster f) else
  d ← fat32_stat dirpath;
  match d with
  | None => mret 0xFFFFFFFF
  | Some d =>
      if Z.land (d_attr d) FAT32_ATTR_DIR =? 0 then mret 0xFFFFFFFF
      else mret (if d_first_cluster d =? 0 then root_cluster f else d_first_cluster d)
  end.

Fixpoint fd_alloc_from (fds : list fat_fd) (n : nat) (i : Z) : Z :=
  match n with
  | O => -1
  | S n => if f_used (fds.[i]) =? 0 then i else fd_alloc_from fds n (i + 1)
  end.
Definition fat32_fd_alloc : M Z := gets (fun s => fd_alloc_from (fat32_fds s) 16 0).

(** Descriptors in use. *)
Definition fd_ok (fds : list fat_fd) (fd : Z) : bool :=
  (0 <=? fd) && (fd <? FAT32_MAX_FDS) && negb (f_used (fds.[fd]) =? 0).
Definition set_fd (fd : Z) (x : fat_fd) : M unit := modify (fun s => set_fds ((fat32_fds s).[fd := x]) s).

Definition fat32_open (path : list Z) (flags : Z) : M Z :=
  f ← fs;
  if mounted f =? 0 then mret (-1) else
  let '(dirpath, base) := split_path path in
  dc ← resolve_dir_cluster dirpath;
  if dc =? 0xFFFFFFFF then mret (-1) else
  d ← fat32_stat path;
  let creating := negb (Z.land flags O_CREAT =? 0) in
  let truncating := negb (Z.land flags O_TRUNC =? 0) in
  let appending := negb (Z.land flags O_APPEND =? 0) in
  let writable := negb (Z.land flags O_WRONLY =? 0) || negb (Z.land flags O_RDWR =? 0) in
  let empty_it : M (option dirent) :=
    rc ← fat32_write_file dc base [] 0;
    if rc =? 0 then fat32_stat path else mret None in
  d ← (match d with
       | None => if creating then empty_it else mret None
       | Some d => if truncating then empty_it else mret (Some d)
       end);
  match d with
  | None => mret (-1)
  | Some d =>
      fd ← fat32_fd_alloc;
      if fd <? 0 then mret (-1) else
      set_fd fd (mk_fd 1 writable d dc base (if appending then d_size d else 0));;
      mret fd
  end.

(** The bytes read; [None] is -1. *)
Definition fat32_fread (fd count : Z) : M (option (list Z)) :=
  fds ← gets fat32_fds;
  if negb (fd_ok fds fd) then mret None else
  let f := fds.[fd] in
  got ← fat32_read (f_dirent f) (f_pos f) count;
  set_fd fd (mk_fd (f_used f) (f_writable f) (f_dirent f) (f_dir_cluster f) (f_name f) (u32 (f_pos f + zlen got)));;
  mret (Some got).

Definition fat32_fwrite (fd : Z) (buf : list Z) (count : Z) : M Z :=
  fds ← gets fat32_fds;
  if negb (fd_ok fds fd) || negb (f_writable (fds.[fd])) then mret (-1) else
  let f := fds.[fd] in
  rc ← fat32_append_file (f_dir_cluster f) (f_name f) buf count;
  if negb (rc =? 0) then mret (-1) else
  fresh ← fat32_stat (f_name f);
  let size := match fresh with Some d => d_size d | None => u32 (d_size (f_dirent f) + count) end in
  set_fd fd (mk_fd (f_used f) (f_writable f) (set_d_size size (f_dirent f)) (f_dir_cluster f) (f_name f) (u32 (f_pos f + count)));;
  mret (s32 count).

Definition fat32_flseek (fd offset whence : Z) : M Z :=
  fds ← gets fat32_fds;
  if negb (fd_ok fds fd) then mret (-1) else
  let f := fds.[fd] in
  let base := if whence =? 0 then Some 0 else if whence =? 1 then Some (s32 (f_pos f))
              else if whence =? 2 then Some (s32 (d_size (f_dirent f))) else None in
  match base with
  | None => mret (-1)
  | Some base =>
      let target := s32 (base + offset) in
      if target <? 0 then mret (-1) else
      set_fd fd (mk_fd (f_used f) (f_writable f) (f_dirent f) (f_dir_cluster f) (f_name f) (u32 target));;
      mret target
  end.

Definition fat32_fclose (fd : Z) : M Z :=
  fds ← gets fat32_fds;
  if negb (fd_ok fds fd) then mret (-1) else
  let f := fds.[fd] in
  set_fd fd (mk_fd 0 (f_writable f) (f_dirent f) (f_dir_cluster f) (f_name f) (f_pos f));;
  mret 0.

Definition fat32_funlink (path : list Z) : M Z :=
  f ← fs;
  if mounted f =? 0 then mret (-1) else
  let '(dirpath, base) := split_path path in
  dc ← resolve_dir_cluster dirpath;
  if dc =? 0xFFFFFFFF then mret (-1) else fat32_delete_file dc base.

Definition fat32_fmkdir (path : list Z) : M Z :=
  f ← fs;
  if mounted f =? 0 then mret (-1) else
  let '(dirpath, base) := split_path path in
  dc ← resolve_dir_cluster dirpath;
  if dc =? 0xFFFFFFFF then mret (-1) else fat32_create_dir dc base.

End ops.
End FatFile.
