(* ===== verification/FatSpec.v ===== *)
(** FAT32 volumes seen as a table of entries and an array of clusters: what
    the primitive operations of the driver do to them. *)
From S2P Require Import Prelude CString Disk FatData.
From stdpp Require Import base list numbers.
From Stdlib Require Import ZArith Lia.
Import CString Fat.
Open Scope Z_scope.

Module FatSpec.

Definition MASK : Z := 0x0FFFFFFF.

(** A geometry that the volume's device can hold: the tables end before the
    clusters, the table has an entry for every cluster, the clusters fit. *)
Record fat_geom (g : fat32_fs) (cap : Z) : Prop := {
  gm_fats : 1 <= num_fats g <= 255;
  gm_spc : 1 <= sectors_per_cluster g <= 128;
  gm_begin : 0 <= fat_begin_lba g;
  gm_size : 1 <= fat_size_sectors g;
  gm_tables : fat_begin_lba g + num_fats g * fat_size_sectors g <= cluster_begin_lba g;
  gm_count : 0 <= data_clusters g /\ data_clusters g + 2 <= 0x0FFFFFF7;
  gm_entries : 4 * (data_clusters g + 2) <= 512 * fat_size_sectors g;
  gm_data : cluster_begin_lba g + data_clusters g * sectors_per_cluster g <= cap;
  gm_cap : cap <= 2 ^ 32;
}.

Section geometry.
Context (g : fat32_fs).
(** Entries and clusters of the volume. *)
Definition entry (c : Z) : Prop := 0 <= c < data_clusters g + 2.
Definition cluster (c : Z) : Prop := 2 <= c < data_clusters g + 2.
(** Sector and offset of entry [c] in table [k]. *)
Definition fat_lba (k c : Z) : Z := fat_begin_lba g + k * fat_size_sectors g + c * 4 / 512.
Definition fat_off (c : Z) : Z := (c * 4) mod 512.
(** Sector [i] of cluster [c]. *)
Definition data_lba (c i : Z) : Z := cluster_begin_lba g + (c - 2) * sectors_per_cluster g + i.
End geometry.

Section spec.
Context {D : Type} `{BlockDev D, !BlockDevLaws D} (g : fat32_fs).
Implicit Types s : fatstate D.
#[local] Abbreviation entry := (entry g).
#[local] Abbreviation cluster := (cluster g).
#[local] Abbreviation fat_lba := (fat_lba g).
#[local] Abbreviation data_lba := (data_lba g).

(** The driver's state is on a volume of geometry [g]. *)
Record fat_rep s : Prop := {
  fr_geo : set_hint 0 (g_fat32 s) = g;
  fr_geom : fat_geom g (bcap (fdev s));
  fr_dev : bok (fdev s);
}.
(** Entry [c] as the driver reads it, and the whole word in table [k]. *)
Definition fat_word s (k c : Z) : Z := get32 (bread (fdev s) (fat_lba k c)) (fat_off c).
Definition fat s (c : Z) : Z := Z.land (fat_word s 0 c) MASK.
Definition csec s (c i : Z) : sector := bread (fdev s) (data_lba c i).

Lemma rep_field {A} (p : fat32_fs -> A) s : fat_rep s -> (forall h f, p (set_hint h f) = p f) -> p (g_fat32 s) = p g.
Proof. intros [Hg _ _] Hp. by rewrite <- Hg, Hp. Qed.
Ltac geo Hr := rewrite ?(rep_field num_fats _ Hr), ?(rep_field sectors_per_cluster _ Hr), ?(rep_field fat_begin_lba _ Hr),
  ?(rep_field fat_size_sectors _ Hr), ?(rep_field cluster_begin_lba _ Hr), ?(rep_field data_clusters _ Hr),
  ?(rep_field mounted _ Hr), ?(rep_field root_cluster _ Hr) by done.

Lemma entry_bounds c : fat_geom g (2 ^ 32) \/ (exists cap, fat_geom g cap) -> entry c ->
  0 <= c < 2 ^ 28 /\ 0 <= c * 4 / 512 < fat_size_sectors g.
Proof.
  intros Hg Hc. assert (Hcap : exists cap, fat_geom g cap) by (destruct Hg; eauto). clear Hg. destruct Hcap as [cap []].
  unfold FatSpec.entry in Hc. split; [lia|]. zdm.
Qed.
Lemma fat_lba_bounds s k c : fat_rep s -> entry c -> 0 <= k < num_fats g ->
  0 <= fat_lba k c < bcap (fdev s) /\ fat_lba k c < cluster_begin_lba g /\ u32 (c * 4) = c * 4 /\
  u32 (u32 (fat_begin_lba g + u32 (k * fat_size_sectors g)) + c * 4 / 512) = fat_lba k c.
Proof.
  intros [_ Hg _] Hc Hk. destruct (entry_bounds c) as [Hc1 Hc2]; [eauto|done|]. destruct Hg. unfold FatSpec.fat_lba.
  assert (k * fat_size_sectors g <= (num_fats g - 1) * fat_size_sectors g) by (apply Z.mul_le_mono_nonneg_r; lia).
  assert (0 <= k * fat_size_sectors g) by lia.
  assert (0 <= data_clusters g * sectors_per_cluster g) by lia.
  rewrite (u32_small (c * 4)), (u32_small (k * _)), (u32_small (fat_begin_lba g + _)), u32_small by lia. lia.
Qed.
Lemma fat_off_bounds c : 0 <= c -> 0 <= fat_off c /\ fat_off c + 4 <= 512.
Proof. unfold fat_off. intros. zdm. Qed.
Lemma fat_sec_len s k c : fat_rep s -> zlen (bread (fdev s) (fat_lba k c)) = 512.
Proof. intros [_ _ Hd]. by apply (bread_sector (fdev s)). Qed.
Lemma data_lba_bounds s c i : fat_rep s -> cluster c -> 0 <= i < sectors_per_cluster g ->
  cluster_begin_lba g <= data_lba c i < bcap (fdev s) /\ 0 <= data_lba c i < 2 ^ 32.
Proof.
  intros [_ Hg _] Hc Hi. destruct Hg. unfold FatSpec.cluster, FatSpec.data_lba in *.
  assert ((c - 2) * sectors_per_cluster g <= (data_clusters g - 1) * sectors_per_cluster g) by (apply Z.mul_le_mono_nonneg_r; lia).
  assert (0 <= (c - 2) * sectors_per_cluster g) by (apply Z.mul_nonneg_nonneg; lia).
  assert (0 <= num_fats g * fat_size_sectors g) by lia. lia.
Qed.
Lemma data_lba_inj c i c' i' : cluster c -> cluster c' -> 0 <= i < sectors_per_cluster g -> 0 <= i' < sectors_per_cluster g ->
  data_lba c i = data_lba c' i' -> c = c' /\ i = i'.
Proof.
  unfold FatSpec.cluster, FatSpec.data_lba. intros Hc Hc' Hi Hi' E.
  destruct (Z.div_mod_unique (sectors_per_cluster g) (c - 2) (c' - 2) i i'); lia.
Qed.
Lemma cluster_to_lba_run s c : fat_rep s -> cluster c -> cluster_to_lba (g_fat32 s) c = data_lba c 0.
Proof.
  intros Hr Hc. destruct (data_lba_bounds s c 0 Hr Hc) as [? ?]; [destruct (fr_geom s Hr); lia|].
  unfold cluster_to_lba. geo Hr. destruct (fr_geom s Hr). unfold FatSpec.data_lba, FatSpec.cluster in *.
  assert (0 <= (c - 2) * sectors_per_cluster g) by (apply Z.mul_nonneg_nonneg; lia).
  assert (0 <= num_fats g * fat_size_sectors g) by lia.
  rewrite (u32_small (c - 2)), (u32_small ((c - 2) * _)), u32_small by lia. lia.
Qed.

(** ** Reading an entry *)

Lemma fat_get_run s c : fat_rep s -> entry c -> fat_entry_get c s = (fat s c, s).
Proof.
  intros Hr Hc. destruct (fat_lba_bounds s 0 c Hr Hc) as (_ & _ & E1 & E2); [destruct (fr_geom s Hr); lia|].
  unfold fat_entry_get, fat, fat_word, fs, block_read. munfold. rewrite E1. geo Hr.
  replace (u32 (fat_begin_lba g + c * 4 / FAT32_SECTOR_SIZE)) with (fat_lba 0 c); [done|].
  rewrite <- E2. unfold FAT32_SECTOR_SIZE. by rewrite Z.mul_0_l, Z.add_0_r, u32_add_l.
Qed.

(** ** Writing an entry *)

Definition set_word (old value : Z) : Z := Z.lor (Z.land old 0xF0000000) (Z.land value MASK).
Lemma set_word_mask old v : Z.land (set_word old v) MASK = Z.land v MASK.
Proof.
  unfold set_word. rewrite Z.land_lor_distr_l, <- !Z.land_assoc, Z.land_diag. change (Z.land 0xF0000000 MASK) with 0.
  by rewrite Z.land_0_r, Z.lor_0_l.
Qed.
Lemma set_word_bound old v : 0 <= set_word old v < 2 ^ 32.
Proof.
  unfold set_word. assert (Hn : 0 <= Z.lor (Z.land old 0xF0000000) (Z.land v MASK)).
  { apply Z.lor_nonneg. split; apply Z.land_nonneg; right; done. }
  split; [done|]. apply testbit_high_bounds; [done|done|]. intros j Hj.
  rewrite Z.lor_spec, !Z.land_spec, (testbit_small 0xF0000000 32), (testbit_small MASK 32) by (done || (unfold MASK; lia)).
  by rewrite !andb_false_r.
Qed.
Lemma mask_small v : 0 <= v < 2 ^ 28 -> Z.land v MASK = v.
Proof. intros. unfold MASK. change 0x0FFFFFFF with (Z.ones 28). rewrite Z.land_ones by done. by apply Z.mod_small. Qed.
Lemma fat_bound s c : 0 <= fat s c < 2 ^ 28.
Proof. unfold fat, MASK. change 0x0FFFFFFF with (Z.ones 28). rewrite Z.land_ones by done. by apply Z.mod_pos_bound. Qed.

(** A write to the volume keeps the driver on the volume. *)
Definition put_sec (l : Z) (b : sector) s : fatstate D := set_fdev (bwrite l b (fdev s)) s.
Lemma block_write_run l b s : block_write l b s = (tt, put_sec l b s).
Proof. done. Qed.
Lemma rep_put_sec s l b : fat_rep s -> is_sector b -> fat_rep (put_sec l b s).
Proof.
  intros [Hg Hm Hd] Hb. constructor; cbn; [done| |by apply bwrite_ok]. by rewrite bwrite_cap.
Qed.
Lemma bread_put_sec s l b l' : fat_rep s -> is_sector b -> 0 <= l < bcap (fdev s) ->
  bread (fdev (put_sec l b s)) l' = if decide (l' = l) then b else bread (fdev s) l'.
Proof. intros [_ _ Hd] Hb Hl. by apply bread_bwrite. Qed.
Lemma put32_sector b off v : is_sector b -> 0 <= off -> off + 4 <= 512 -> is_sector (put32 b off v).
Proof. intros [Hl Hb] ? ?. unfold SECTOR_SIZE in *. split; [rewrite zlen_put_le; unfold SECTOR_SIZE; lia|by apply put_le_bytes]. Qed.

(** The copies of entry [c]'s sector, and the sectors that hold another one. *)
Lemma fat_lba_inj k c k' c' : (exists cap, fat_geom g cap) -> entry c -> entry c' ->
  fat_lba k c = fat_lba k' c' -> k = k' /\ c * 4 / 512 = c' * 4 / 512.
Proof.
  intros Hg Hc Hc' E. destruct (entry_bounds c) as [_ Hq]; [by right|done|]. destruct (entry_bounds c') as [_ Hq']; [by right|done|].
  unfold FatSpec.fat_lba in E. destruct (Z.div_mod_unique (fat_size_sectors g) k k' (c * 4 / 512) (c' * 4 / 512)); lia.
Qed.

Record copies_set s c v (i : Z) s1 : Prop := {
  cs_rep : fat_rep s1; cs_g : g_fat32 s1 = g_fat32 s; cs_fds : fat32_fds s1 = fat32_fds s;
  cs_cap : bcap (fdev s1) = bcap (fdev s);
  cs_in : forall k, 0 <= k < i -> bread (fdev s1) (fat_lba k c) =
    put32 (bread (fdev s) (fat_lba k c)) (fat_off c) (set_word (fat_word s k c) v);
  cs_out : forall l, (forall k, 0 <= k < i -> l <> fat_lba k c) -> bread (fdev s1) l = bread (fdev s) l;
}.

Lemma set_copies s c v : fat_rep s -> entry c ->
  exists s', fat_entry_set c v s = (tt, s') /\ copies_set s c v (num_fats g) s'.
Proof.
  intros Hr Hc. exists (fat_entry_set c v s).2. split; [by destruct (fat_entry_set c v s) as [[] ?]|].
  unfold fat_entry_set, fs. munfold. geo Hr. destruct (fat_lba_bounds s 0 c Hr Hc) as (_ & _ & -> & _); [destruct (fr_geom s Hr); lia|].
  assert (HN : 1 <= num_fats g) by (destruct (fr_geom s Hr); lia).
  apply (ffor_rounds (copies_set s c v)); [lia| |].
  { constructor; try done. intros; lia. }
  intros k s1 Hk H1. unfold block_read. munfold. rewrite block_write_run. cbn [snd].
  destruct (fat_lba_bounds s k c Hr Hc) as (Hb & _ & _ & E); [lia|].
  unfold FAT32_SECTOR_SIZE. rewrite E. pose proof (fat_off_bounds c ltac:(unfold FatSpec.entry in Hc; lia)) as [Ho1 Ho2]. fold (fat_off c).
  assert (Heq : bread (fdev s1) (fat_lba k c) = bread (fdev s) (fat_lba k c)).
  { apply (cs_out _ _ _ _ _ H1). intros k' Hk' E'. destruct (fat_lba_inj k c k' c); [by eapply ex_intro, (fr_geom s)|done..|lia]. }
  rewrite Heq. set (b := put32 _ _ _).
  assert (Hs : is_sector b) by (apply put32_sector; [apply bread_sector, Hr|lia|lia]).
  destruct H1 as [R1 R2 R3 R4 R5 R6].
  assert (Hput : forall l, bread (fdev (put_sec (fat_lba k c) b s1)) l = if decide (l = fat_lba k c) then b else bread (fdev s1) l).
  { intros l. apply bread_put_sec; [done|done|]. by rewrite R4. }
  constructor; [by apply rep_put_sec|done|done|by cbn; rewrite bwrite_cap| |].
  - intros k' Hk'. rewrite Hput. case_decide as E'; [|apply R5; destruct (decide (k' = k)); [congruence|lia]].
    destruct (fat_lba_inj k' c k c) as [-> _]; [by eapply ex_intro, (fr_geom s)|done..|].
    done.
  - intros l Hl. rewrite Hput, decide_False by (apply Hl; lia). apply R6. intros; apply Hl; lia.
Qed.

Lemma set_run s c v : fat_rep s -> entry c -> exists s', fat_entry_set c v s = (tt, s') /\
  fat_rep s' /\ g_fat32 s' = g_fat32 s /\ fat32_fds s' = fat32_fds s /\ bcap (fdev s') = bcap (fdev s) /\
  (forall k c', 0 <= k < num_fats g -> entry c' ->
     fat_word s' k c' = if decide (c' = c) then set_word (fat_word s k c) v else fat_word s k c') /\
  (forall l, cluster_begin_lba g <= l -> bread (fdev s') l = bread (fdev s) l).
Proof.
  intros Hr Hc. destruct (set_copies s c v Hr Hc) as (s' & -> & [R1 R2 R3 R4 R5 R6]). exists s'.
  do 5 (split; [done|]). split.
  - intros k c' Hk Hc'. unfold fat_word. pose proof (fat_sec_len s k c Hr) as HL.
    destruct (fat_off_bounds c) as [? ?]; [unfold FatSpec.entry in Hc; lia|].
    destruct (fat_off_bounds c') as [? ?]; [unfold FatSpec.entry in Hc'; lia|].
    destruct (decide (c' * 4 / 512 = c * 4 / 512)) as [Eq|Ne].
    + assert (E : fat_lba k c' = fat_lba k c) by (unfold FatSpec.fat_lba; lia). rewrite E, R5 by done. case_decide as Ec.
      * subst c'. rewrite get_put_le by lia. apply Z.mod_small, set_word_bound.
      * apply get_put_le_ne; try lia. unfold fat_off in *. zdm.
    + rewrite R6; [by rewrite decide_False by congruence|]. intros k' Hk' E.
      destruct (fat_lba_inj k c' k' c); [by eapply ex_intro, (fr_geom s)|done..].
  - intros l Hl. apply R6. intros k Hk E. destruct (fat_lba_bounds s k c Hr Hc Hk) as (_ & ? & _). lia.
Qed.

End spec.
End FatSpec.
