(* ===== verification/FatChain.v ===== *)
(** FAT32 cluster chains: what allocating a cluster, freeing a chain and
    following one do to the table and to the clusters. *)
From S2P Require Import Prelude CString Disk FatData FatSpec.
From stdpp Require Import base list numbers.
From Stdlib Require Import ZArith Lia.
Import CString Fat FatSpec.
Open Scope Z_scope.

Module FatChain.

(** ** Chains of a table [f] *)

Section chains.
Context (g : fat32_fs) (f : Z -> Z).

(** The chain that starts at [c] has the clusters [l] and ends in an
    end-of-chain mark. *)
Fixpoint chain (c : Z) (l : list Z) : Prop :=
  match l with
  | [] => FAT32_CLUSTER_EOC <= c
  | x :: l => c = x /\ cluster g x /\ chain (f x) l
  end.

Hypothesis Hcount : data_clusters g + 2 <= 0x0FFFFFF7.

Lemma cluster_live c : cluster g c -> (2 <=? c) && negb (fat_is_eoc c) = true.
Proof.
  unfold cluster, fat_is_eoc, FAT32_CLUSTER_EOC. intros Hc.
  rewrite (proj2 (Z.leb_le 2 c)), (proj2 (Z.leb_gt _ c)), (proj2 (Z.eqb_neq c 0)) by lia. done.
Qed.
Lemma eoc_dead c : FAT32_CLUSTER_EOC <= c -> (2 <=? c) && negb (fat_is_eoc c) = false.
Proof. unfold fat_is_eoc. intros Hc. rewrite (proj2 (Z.leb_le FAT32_CLUSTER_EOC c)) by done. apply andb_false_r. Qed.

Lemma chain_Forall c l : chain c l -> Forall (cluster g) l.
Proof. revert c. induction l as [|x l IH]; intros c; [done|]. intros (-> & Hx & Hl). constructor; [done|]. by eapply IH. Qed.
Lemma chain_det c l l' : chain c l -> chain c l' -> l = l'.
Proof.
  revert c l'. induction l as [|x l IH]; intros c [|x' l']; cbn; [done| | |].
  - intros ? (-> & Hx & _). unfold cluster, FAT32_CLUSTER_EOC in *. lia.
  - intros (-> & Hx & _) ?. unfold cluster, FAT32_CLUSTER_EOC in *. lia.
  - intros (-> & _ & Hl) (-> & _ & Hl'). by rewrite (IH _ _ Hl Hl').
Qed.
Lemma chain_suffix c l1 x l2 : chain c (l1 ++ x :: l2) -> chain x (x :: l2).
Proof. revert c. induction l1 as [|y l1 IH]; intros c; cbn; [by intros (-> & ? & ?)|]. intros (_ & _ & Hl). by eapply IH. Qed.
Lemma chain_NoDup c l : chain c l -> NoDup l.
Proof.
  revert c. induction l as [|x l IH]; intros c Hc; [constructor|]. pose proof Hc as (-> & Hx & Hl). constructor; [|by eapply IH].
  intros (l1 & l2 & ->)%list_elem_of_split.
  pose proof (chain_suffix _ _ _ _ Hl) as Hs. pose proof (chain_det _ _ _ Hc Hs) as E.
  injection E as E. apply (f_equal length) in E. rewrite length_app in E. cbn in E. lia.
Qed.
Lemma chain_length c l : 0 <= data_clusters g -> chain c l -> zlen l <= data_clusters g.
Proof.
  intros Hd Hc. assert (Hs : l ⊆+ seqZ 2 (data_clusters g)).
  { apply NoDup_submseteq; [by eapply chain_NoDup|]. intros x Hx. apply elem_of_seqZ.
    apply chain_Forall in Hc. rewrite list.Forall_forall in Hc. apply Hc in Hx. unfold cluster in Hx. lia. }
  apply submseteq_length in Hs. rewrite length_seqZ in Hs. unfold zlen. lia.
Qed.
End chains.

Lemma chain_ext g f f' c l : (forall x, x ∈ l -> f' x = f x) -> chain g f c l -> chain g f' c l.
Proof.
  revert c. induction l as [|x l IH]; intros c Hf; cbn; [done|]. intros (-> & Hx & Hl). do 2 (split; [done|]).
  rewrite Hf by constructor. apply IH; [|done]. intros y Hy. apply Hf. by constructor.
Qed.

Section spec.
Context {D : Type} `{BlockDev D, !BlockDevLaws D} (g : fat32_fs).
Implicit Types s : fatstate D.
#[local] Abbreviation entry := (entry g).
#[local] Abbreviation cluster := (cluster g).
#[local] Abbreviation fat := (fat g).
#[local] Abbreviation csec := (csec g).
#[local] Abbreviation data_lba := (data_lba g).
#[local] Abbreviation rep := (fat_rep g).
#[local] Abbreviation chain := (chain g).

(** [s'] differs from [s] on the volume by the table [f] and the clusters
    [d]; descriptors and capacity are the same. *)
Record shift s s' (f : Z -> Z) (d : Z -> Z -> sector) : Prop := {
  sh_rep : rep s'; sh_fds : fat32_fds s' = fat32_fds s; sh_cap : bcap (fdev s') = bcap (fdev s);
  sh_fat : forall c, entry c -> fat s' c = f c;
  sh_data : forall c i, cluster c -> 0 <= i < sectors_per_cluster g -> csec s' c i = d c i;
}.
Definition hint_ok s : Prop := free_cluster_hint (g_fat32 s) <= data_clusters g + 2.

Lemma shift_refl s : rep s -> shift s s (fat s) (csec s).
Proof. by constructor. Qed.
Lemma shift_eq s s' f d f' d' : shift s s' f d -> (forall c, entry c -> f c = f' c) ->
  (forall c i, cluster c -> 0 <= i < sectors_per_cluster g -> d c i = d' c i) -> shift s s' f' d'.
Proof.
  intros [R1 R2 R3 R4 R5] Hf Hd. constructor; [done|done|done| |]; intros; rewrite ?R4, ?R5, ?Hf, ?Hd by done; done.
Qed.
Lemma shift_trans s1 s2 s3 f d f' d' : shift s1 s2 f d -> shift s2 s3 f' d' -> shift s1 s3 f' d'.
Proof. intros [? ? ? ? ?] [? ? ? ? ?]. constructor; [done|congruence|congruence|done|done]. Qed.

Lemma cluster_entry c : cluster c -> entry c.
Proof. unfold FatSpec.cluster, FatSpec.entry. lia. Qed.
Lemma live s c : rep s -> cluster c -> (2 <=? c) && negb (fat_is_eoc c) = true.
Proof. intros Hr. destruct (fr_geom g s Hr). apply cluster_live. lia. Qed.

(** Setting an entry. *)
Lemma set_shift s c v : rep s -> entry c -> 0 <= v < 2 ^ 28 -> exists s', fat_entry_set c v s = (tt, s') /\
  g_fat32 s' = g_fat32 s /\ shift s s' (fun c' => if decide (c' = c) then v else fat s c') (csec s).
Proof.
  intros Hr Hc Hv. destruct (set_run g s c v Hr Hc) as (s' & E & R1 & R2 & R3 & R4 & R5 & R6). exists s'.
  split; [done|]. split; [done|]. constructor; [done|done|done| |].
  - intros c' Hc'. unfold FatSpec.fat. rewrite R5 by (done || (destruct (fr_geom g s Hr); lia)).
    case_decide; [|done]. by rewrite set_word_mask, mask_small.
  - intros c' i Hc' Hi. apply R6. by apply (data_lba_bounds g s c' i Hr Hc' Hi).
Qed.

(** Writing one sector of a cluster. *)
Lemma write_shift s c i b : rep s -> cluster c -> 0 <= i < sectors_per_cluster g -> is_sector b ->
  shift s (put_sec (data_lba c i) b s) (fat s) (fun c' i' => if decide (c' = c /\ i' = i) then b else csec s c' i').
Proof.
  intros Hr Hc Hi Hb. pose proof (data_lba_bounds g s c i Hr Hc Hi) as [Hl _].
  assert (Hg : 0 <= cluster_begin_lba g) by (destruct (fr_geom g s Hr); assert (0 <= num_fats g * fat_size_sectors g) by (apply Z.mul_nonneg_nonneg; lia); lia).
  constructor; [by apply rep_put_sec|done|by cbn; rewrite bwrite_cap| |].
  - intros c' Hc'. unfold FatSpec.fat, fat_word. rewrite (bread_put_sec g) by (done || lia). rewrite decide_False; [done|].
    destruct (fat_lba_bounds g s 0 c' Hr Hc') as (_ & ? & _); [destruct (fr_geom g s Hr); lia|]. lia.
  - intros c' i' Hc' Hi'. unfold FatSpec.csec. rewrite (bread_put_sec g) by (done || lia).
    destruct (decide (c' = c /\ i' = i)) as [[-> ->]|Hn]; [by rewrite decide_True|]. rewrite decide_False; [done|].
    intros E. apply Hn. by apply (data_lba_inj g c' i' c i).
Qed.
Lemma data_addr s c i : rep s -> cluster c -> 0 <= i < sectors_per_cluster g ->
  u32 (cluster_to_lba (g_fat32 s) c + i) = data_lba c i.
Proof.
  intros Hr Hc Hi. rewrite (cluster_to_lba_run g s c Hr Hc). pose proof (data_lba_bounds g s c i Hr Hc Hi) as [_ ?].
  unfold FatSpec.data_lba in *. rewrite u32_small; lia.
Qed.

(** ** Zeroing and allocating a cluster *)

Definition data_set (d : Z -> Z -> sector) (c : Z) (b : Z -> sector) (c' i : Z) : sector := if decide (c' = c) then b i else d c' i.

Lemma zero_run s c : rep s -> cluster c -> exists s', zero_cluster c s = (tt, s') /\ g_fat32 s' = g_fat32 s /\
  shift s s' (fat s) (data_set (csec s) c (fun _ => zero_sector)).
Proof.
  intros Hr Hc. exists (zero_cluster c s).2. split; [by destruct (zero_cluster c s) as [[] ?]|].
  unfold zero_cluster, fs. munfold.
  pose (P := fun i s1 => g_fat32 s1 = g_fat32 s /\ shift s s1 (fat s) (fun c' j => if decide (c' = c /\ j < i) then zero_sector else csec s c' j)).
  enough (HP : P (sectors_per_cluster g) (ffor (rounds 0 (sectors_per_cluster (g_fat32 s))) 0 (fun i => block_write (u32 (cluster_to_lba (g_fat32 s) c + i)) zero_sector) s).2).
  { destruct HP as [HP1 HP2]. split; [done|]. apply (shift_eq _ _ _ _ _ _ HP2); [done|]. intros c' i Hc' Hi. unfold data_set.
    destruct (decide (c' = c)), (decide (c' = c /\ i < sectors_per_cluster g)); (done || lia). }
  rewrite (rep_field g sectors_per_cluster s Hr) by done.
  apply (ffor_rounds P); [destruct (fr_geom g s Hr); lia| |].
  - split; [done|]. apply (shift_eq _ _ _ _ _ _ (shift_refl s Hr)); [done|]. intros c' i Hc' Hi. by rewrite decide_False by lia.
  - intros i s1 Hi [Hg1 H1]. rewrite block_write_run. cbn [snd]. split; [done|]. pose proof (sh_rep _ _ _ _ H1) as Hr1.
    rewrite <- Hg1, data_addr by done. eapply shift_eq.
    + eapply shift_trans; [exact H1|]. apply (write_shift s1 c i zero_sector Hr1 Hc Hi zero_sector_ok).
    + intros. by apply (sh_fat _ _ _ _ H1).
    + intros c' j Hc' Hj. cbn beta. rewrite (sh_data _ _ _ _ H1) by done.
      destruct (decide (c' = c /\ j = i)), (decide (c' = c /\ j < i)), (decide (c' = c /\ j < i + 1)); (done || lia).
Qed.

Lemma rep_hint s h : rep s -> rep (set_fs (set_hint h (g_fat32 s)) s).
Proof. intros [Hg Hm Hd]. constructor; cbn; [|done|done]. by rewrite <- Hg. Qed.

(** The table with cluster [c] allocated. *)
Definition fat_set (f : Z -> Z) (c v c' : Z) : Z := if decide (c' = c) then v else f c'.

Lemma try_hit s c : rep s -> hint_ok s -> cluster c -> fat s c = 0 -> exists s', alloc_cluster_try c s = (Some c, s') /\ hint_ok s' /\
  shift s s' (fat_set (fat s) c FAT32_CLUSTER_EOC) (data_set (csec s) c (fun _ => zero_sector)).
Proof.
  intros Hr Hh Hc Hf. unfold alloc_cluster_try.
  rewrite (bind_run _ _ _ _ _ (fat_get_run g s c Hr (cluster_entry c Hc))), Hf. cbn [Z.eqb FAT32_CLUSTER_FREE].
  destruct (set_shift s c FAT32_CLUSTER_EOC Hr (cluster_entry c Hc)) as (s1 & E1 & Hg1 & S1); [done|].
  rewrite (bind_run _ _ _ _ _ E1). rewrite (bind_run (modify _) _ s1 tt (set_fs (set_hint (u32 (c + 1)) (g_fat32 s1)) s1)) by done.
  set (s2 := set_fs _ s1). assert (R2 : rep s2) by apply rep_hint, S1.
  destruct (zero_run s2 c R2 Hc) as (s3 & E3 & Hg3 & S3). rewrite (bind_run _ _ _ _ _ E3). exists s3. split; [done|]. split.
  - unfold hint_ok. rewrite Hg3. cbn. unfold FatSpec.cluster in Hc. destruct (fr_geom g s Hr). rewrite u32_small; lia.
  - assert (S2 : shift s1 s2 (fat s1) (csec s1)) by (constructor; done). eapply shift_eq.
    + eapply shift_trans; [exact S1|]. eapply shift_trans; [exact S2|exact S3].
    + intros c' Hc'. change (fat s2 c') with (fat s1 c'). by rewrite (sh_fat _ _ _ _ S1).
    + intros c' i Hc' Hi. unfold data_set. case_decide; [done|]. change (csec s2 c' i) with (csec s1 c' i). by apply (sh_data _ _ _ _ S1).
Qed.
Lemma try_miss s c : rep s -> entry c -> fat s c <> 0 -> alloc_cluster_try c s = (None, s).
Proof.
  intros Hr Hc Hf. unfold alloc_cluster_try. rewrite (bind_run _ _ _ _ _ (fat_get_run g s c Hr Hc)).
  unfold FAT32_CLUSTER_FREE. by rewrite (proj2 (Z.eqb_neq (fat s c) 0)).
Qed.

(** A search of [from .. to - 1]. *)
Lemma pass_run s from to : rep s -> hint_ok s -> 2 <= from -> to <= data_clusters g + 2 ->
  (exists c s', floop (rounds from to) from alloc_cluster_try s = (Some c, s') /\ cluster c /\ fat s c = 0 /\ hint_ok s' /\
     shift s s' (fat_set (fat s) c FAT32_CLUSTER_EOC) (data_set (csec s) c (fun _ => zero_sector))) \/
  (floop (rounds from to) from alloc_cluster_try s = (None, s) /\ forall c, from <= c < to -> fat s c <> 0).
Proof.
  intros Hr Hh Hf Ht. assert (HC : forall j, from <= j < from + Z.of_nat (rounds from to) -> cluster j) by (unfold rounds, FatSpec.cluster; lia).
  destruct (floop_find (fun c => fat s c =? 0) (rounds from to) from alloc_cluster_try s) as [(k & Hk & Hp & _ & E)|[Hall E]].
  - intros j Hj Hp. apply try_miss; [done|by apply cluster_entry, HC|by apply Z.eqb_neq].
  - intros j Hj Hp. apply Z.eqb_eq in Hp. destruct (try_hit s j Hr Hh (HC j Hj) Hp) as (s' & -> & _). done.
  - left. apply Z.eqb_eq in Hp. destruct (try_hit s k Hr Hh (HC k Hk) Hp) as (s' & E' & ? & ?). exists k, s'. rewrite E, E'. eauto 10.
  - right. split; [done|]. intros c Hc. apply Z.eqb_neq, Hall. unfold rounds. lia.
Qed.

Lemma alloc_run s : rep s -> hint_ok s ->
  (exists c s', alloc_cluster s = (c, s') /\ cluster c /\ fat s c = 0 /\ hint_ok s' /\
     shift s s' (fat_set (fat s) c FAT32_CLUSTER_EOC) (data_set (csec s) c (fun _ => zero_sector))) \/
  (alloc_cluster s = (0, s) /\ forall c, cluster c -> fat s c <> 0).
Proof.
  intros Hr Hh. unfold alloc_cluster, fs. rewrite (bind_run (gets g_fat32) _ s (g_fat32 s) s) by done.
  rewrite (rep_field g data_clusters s Hr) by done. destruct (fr_geom g s Hr). rewrite u32_small by lia.
  unfold hint_ok in Hh. set (start := if _ <=? _ then _ else _).
  assert (Hst : 2 <= start <= data_clusters g + 2) by (unfold start; case_match; lia). clearbody start.
  unfold alloc_cluster_pass. cbn [floop]. change (0 + 1) with 1. cbn [Z.eqb].
  destruct (pass_run s start (data_clusters g + 2) Hr Hh) as [(c & s' & E & ?)|[E Hn]]; [lia|lia| |].
  { left. exists c, s'. rewrite (bind_run _ _ s (Some c) s') by (munfold; by rewrite E). done. }
  destruct (pass_run s 2 start Hr Hh) as [(c & s' & E' & ?)|[E' Hn']]; [lia|lia| |].
  { left. exists c, s'. rewrite (bind_run _ _ s (Some c) s') by (munfold; by rewrite E, E'). done. }
  right. rewrite (bind_run _ _ s None s) by (munfold; by rewrite E, E'). split; [done|].
  intros c Hc. unfold FatSpec.cluster in Hc. destruct (decide (c < start)); [apply Hn'; lia|apply Hn; lia].
Qed.

(** ** Freeing and following a chain *)

Definition fat_clear (f : Z -> Z) (l : list Z) (c : Z) : Z := if decide (c ∈ l) then 0 else f c.

Lemma free_loop_run l : forall fuel s c, rep s -> (length l <= fuel)%nat -> chain (fat s) c l ->
  exists s', free_chain_loop fuel c s = (tt, s') /\ g_fat32 s' = g_fat32 s /\ shift s s' (fat_clear (fat s) l) (csec s).
Proof.
  induction l as [|x l IH]; intros fuel s c Hr Hfl Hc.
  - exists s. split; [|split; [done|]].
    + destruct fuel; cbn [free_chain_loop]; [done|]. by rewrite eoc_dead.
    + by apply (shift_eq _ _ _ _ _ _ (shift_refl s Hr)).
  - cbn in Hfl. destruct fuel as [|fuel]; [lia|]. pose proof Hc as (-> & Hx & Hl). cbn [free_chain_loop]. rewrite (live s x Hr Hx).
    rewrite (bind_run _ _ _ _ _ (fat_get_run g s x Hr (cluster_entry x Hx))).
    destruct (set_shift s x FAT32_CLUSTER_FREE Hr (cluster_entry x Hx)) as (s1 & E1 & Hg1 & S1); [done|].
    rewrite (bind_run _ _ _ _ _ E1).
    assert (Hnd : (x ∉ l) /\ NoDup l).
    { apply list.NoDup_cons. eapply chain_NoDup; [|exact Hc]. destruct (fr_geom g s Hr). lia. }
    assert (HF : Forall cluster l) by (eapply chain_Forall; exact Hl).
    destruct (IH fuel s1 (fat s x)) as (s' & E & Hg & S2); [apply S1|lia| |].
    + eapply chain_ext; [|exact Hl]. intros y Hy. rewrite (sh_fat _ _ _ _ S1).
      * rewrite decide_False; [done|]. intros ->. by apply Hnd.
      * rewrite list.Forall_forall in HF. by apply cluster_entry, HF.
    + exists s'. split; [done|]. split; [congruence|]. eapply shift_eq; [eapply shift_trans; [exact S1|exact S2]| |].
      * intros c' Hc'. unfold fat_clear. rewrite (sh_fat _ _ _ _ S1) by done.
        destruct (decide (c' ∈ l)), (decide (c' = x)), (decide (c' ∈ x :: l)) as [H'|H']; rewrite list.elem_of_cons in H'; (done || tauto).
      * intros. by apply (sh_data _ _ _ _ S1).
Qed.
Lemma chain_fuel_ok s c l : rep s -> chain (fat s) c l -> (length l <= chain_fuel (g_fat32 s))%nat.
Proof.
  intros Hr Hc. destruct (fr_geom g s Hr). pose proof (chain_length g (fat s) ltac:(lia) c l ltac:(lia) Hc) as Hn.
  unfold chain_fuel, zlen in *. rewrite (rep_field g data_clusters s Hr) by done. lia.
Qed.
Lemma free_run s c l : rep s -> chain (fat s) c l ->
  exists s', free_chain c s = (tt, s') /\ g_fat32 s' = g_fat32 s /\ shift s s' (fat_clear (fat s) l) (csec s).
Proof.
  intros Hr Hc. unfold free_chain, fs. rewrite (bind_run (gets g_fat32) _ s (g_fat32 s) s) by done.
  apply free_loop_run; [done|by eapply chain_fuel_ok|done].
Qed.

Lemma last_run l : forall fuel s c, rep s -> (S (length l) <= fuel)%nat -> chain (fat s) c (c :: l) ->
  chain_last fuel c s = (List.last (c :: l) 0, s).
Proof.
  induction l as [|x l IH]; intros fuel s c Hr Hf Hc; cbn in Hf; (destruct fuel as [|fuel]; [lia|]); pose proof Hc as (_ & Hx & Hl);
    cbn [chain_last]; rewrite (bind_run _ _ _ _ _ (fat_get_run g s c Hr (cluster_entry c Hx))).
  - unfold fat_is_eoc. cbn in Hl. by rewrite (proj2 (Z.leb_le _ _)).
  - pose proof Hl as (E & Hx' & _). rewrite E in *.
    pose proof (live s x Hr Hx') as Hlive. apply andb_true_iff in Hlive as [_ Hn]. apply negb_true_iff in Hn. rewrite Hn.
    rewrite IH; [done|done|lia|done].
Qed.

(** ** Free clusters *)

Definition nfree s : Z := count (Z.to_nat (data_clusters g + 2)) (fun c => (2 <=? c) && (fat s c =? 0)).

Lemma nfree_pos s c : cluster c -> fat s c = 0 -> 0 < nfree s.
Proof.
  unfold FatSpec.cluster, nfree. intros Hc Hf. set (p := fun c => _). set (n := Z.to_nat _).
  pose proof (count_bounds n p) as Hb. destruct (decide (count n p = 0)) as [E|]; [|lia]. exfalso.
  pose proof (count_flip n (fun i => p i && negb (i =? c)) p c ltac:(lia)) as Hc'. cbn beta in Hc'.
  rewrite Hc' in E; [pose proof (count_bounds n (fun i => p i && negb (i =? c))); lia| | |].
  - by rewrite Z.eqb_refl, andb_false_r.
  - unfold p. rewrite Hf, (proj2 (Z.leb_le 2 c)) by lia. done.
  - intros i _ Hi. rewrite (proj2 (Z.eqb_neq i c)) by done. by rewrite andb_true_r.
Qed.
Lemma fat_none_free s : (forall c, cluster c -> fat s c <> 0) -> nfree s = 0.
Proof.
  intros Hn. unfold nfree. rewrite (count_ext _ _ (fun _ => false)); [by induction (Z.to_nat _) as [|n IH]; cbn [count]; lia|].
  intros c Hc. cbn beta. destruct (2 <=? c) eqn:E; [|done]. apply Z.leb_le in E. cbn [andb]. apply Z.eqb_neq, Hn. unfold FatSpec.cluster. lia.
Qed.
Lemma nfree_ext s s' : (forall c, cluster c -> (fat s' c =? 0) = (fat s c =? 0)) -> nfree s' = nfree s.
Proof.
  intros He. unfold nfree. apply count_ext. intros c Hc. cbn beta. destruct (2 <=? c) eqn:E; [|done]. apply Z.leb_le in E.
  rewrite He; [done|]. unfold FatSpec.cluster. lia.
Qed.
Lemma nfree_set s s' c v d : shift s s' (fat_set (fat s) c v) d -> cluster c -> v <> 0 -> fat s c = 0 -> nfree s' = nfree s - 1.
Proof.
  intros S Hc Hv Hf. unfold nfree. unfold FatSpec.cluster in Hc.
  rewrite (count_flip _ (fun c => (2 <=? c) && (fat s' c =? 0)) (fun c => (2 <=? c) && (fat s c =? 0)) c); [lia|lia| | |].
  - rewrite (sh_fat _ _ _ _ S) by (unfold FatSpec.entry; lia). unfold fat_set. rewrite decide_True by done.
    by rewrite (proj2 (Z.eqb_neq v 0)), andb_false_r.
  - rewrite Hf, (proj2 (Z.leb_le 2 c)) by lia. done.
  - intros i Hi Hne. rewrite (sh_fat _ _ _ _ S) by (unfold FatSpec.entry; lia). unfold fat_set. by rewrite decide_False.
Qed.
End spec.
End FatChain.
