(* ===== verification/FatWrite.v ===== *)
(** FAT32 file contents: the bytes a chain of clusters holds, what reading
    them gives and what writing them leaves. *)
From S2P Require Import Prelude CString Disk FatData FatDir FatFile FatSpec FatChain.
From stdpp Require Import base list numbers.
From Stdlib Require Import ZArith Lia.
Import CString Fat FatDir FatFile FatSpec FatChain.
Open Scope Z_scope.

Module FatIO.

Section spec.
Context {D : Type} `{BlockDev D, !BlockDevLaws D} (g : fat32_fs).
Implicit Types s : fatstate D.
#[local] Abbreviation entry := (entry g).
#[local] Abbreviation cluster := (cluster g).
#[local] Abbreviation fat := (fat g).
#[local] Abbreviation csec := (csec g).
#[local] Abbreviation data_lba := (data_lba g).
#[local] Abbreviation rep := (fat_rep g).
#[local] Abbreviation chain := (chain g).
#[local] Abbreviation spc := (sectors_per_cluster g).

(** Bytes of a cluster and of a list of clusters. *)
Definition cbytes : Z := spc * 512.
Definition cdata s (c : Z) : list Z := concat (tab (csec s c) 0 spc).
Definition file_data s (l : list Z) : list Z := concat (map (cdata s) l).

Lemma csec_len s c i : rep s -> zlen (csec s c i) = 512.
Proof. intros [_ _ Hd]. by apply (bread_sector (fdev s)). Qed.
Lemma spc_bounds s : rep s -> 1 <= spc <= 128.
Proof. intros Hr. by destruct (fr_geom g s Hr). Qed.
Lemma zlen_cdata s c : rep s -> zlen (cdata s c) = cbytes.
Proof. intros Hr. pose proof (spc_bounds s Hr). apply zlen_pieces; [lia|]. intros. by apply csec_len. Qed.
Lemma zlen_file s l : rep s -> zlen (file_data s l) = zlen l * cbytes.
Proof.
  intros Hr. unfold file_data. induction l as [|c l IH]; [done|]. cbn [map concat]. rewrite zlen_app, zlen_cdata, IH by done.
  unfold zlen. cbn [length]. lia.
Qed.
Lemma cdata_slice s c i off n : rep s -> 0 <= i < spc -> 0 <= off -> off + n <= 512 ->
  slice (cdata s c) (i * 512 + off) n = slice (csec s c i) off n.
Proof. intros Hr Hi Ho Hn. apply (slice_pieces_one (csec s c) 512 spc i off n); [|done..]. intros. by apply csec_len. Qed.

(** ** Reading *)

Lemma read_sectors_run fuel : forall s c size i off out, rep s -> cluster c -> 0 <= i <= spc -> 0 <= off < 512 ->
  spc - i <= Z.of_nat fuel ->
  read_sectors fuel (g_fat32 s) (cluster_to_lba (g_fat32 s) c) size i off out s =
  (out ++ slice (cdata s c) (i * 512 + off) (Z.min (size - zlen out) (cbytes - i * 512 - off)), s).
Proof.
  induction fuel as [|fuel IH]; intros s c size i off out Hr Hc Hi Ho Hf; cbn [read_sectors].
  { rewrite slice_nil by (unfold cbytes; lia). by rewrite app_nil_r. }
  rewrite (rep_field g sectors_per_cluster s Hr) by done.
  destruct (Z.ltb_spec (zlen out) size) as [Hs|Hs]; [|rewrite slice_nil by (unfold cbytes; lia); by rewrite app_nil_r].
  destruct (Z.ltb_spec i spc) as [Hlt|Hge]; [|rewrite slice_nil by (unfold cbytes; lia); by rewrite app_nil_r].
  cbn [andb]. rewrite (data_addr g) by (done || lia). unfold block_read. rewrite (bind_run _ _ s (csec s c i) s) by done.
  rewrite IH by (done || lia). f_equal. rewrite <- app_assoc. f_equal. unfold FAT32_SECTOR_SIZE.
  set (n := Z.min (512 - off) (size - zlen out)). assert (Hn : 0 < n <= 512 - off) by (unfold n; lia).
  rewrite zlen_app, zlen_slice by (rewrite ?csec_len by done; lia).
  rewrite <- cdata_slice by (done || lia). unfold cbytes in *.
  destruct (decide (n = 512 - off)) as [E|E].
  - replace ((i + 1) * 512 + 0) with (i * 512 + off + n) by lia. rewrite <- slice_plus by lia. f_equal. lia.
  - rewrite (slice_nil _ ((i + 1) * 512 + 0)) by lia. rewrite app_nil_r. f_equal. lia.
Qed.

Lemma chain_nil_dead s c : chain (fat s) c [] -> (2 <=? c) && negb (fat_is_eoc c) = false.
Proof. cbn. apply eoc_dead. Qed.

Lemma read_chain_run l : forall fuel s c size off out, rep s -> chain (fat s) c l -> 0 <= off < cbytes ->
  size - zlen out + off <= Z.of_nat fuel * cbytes ->
  read_chain fuel (g_fat32 s) size c off out s = (out ++ slice (file_data s l) off (Z.min (size - zlen out) (zlen l * cbytes - off)), s).
Proof.
  induction l as [|x l IH]; intros fuel s c size off out Hr Hc Ho Hf.
  { unfold file_data. cbn [map concat]. change (zlen []) with 0. rewrite slice_nil, app_nil_r by lia.
    destruct fuel; cbn [read_chain]; [done|]. by rewrite (chain_nil_dead s c Hc), andb_false_r. }
  pose proof Hc as (-> & Hx & Hl). pose proof (spc_bounds s Hr) as Hspc. assert (Hzl : zlen (x :: l) = 1 + zlen l) by (unfold zlen; cbn; lia).
  pose proof (zlen_nonneg l). destruct fuel as [|fuel]; cbn [read_chain]; [rewrite slice_nil, app_nil_r by lia; done|].
  destruct (Z.ltb_spec (zlen out) size) as [Hs|Hs]; [|rewrite slice_nil by lia; by rewrite app_nil_r].
  rewrite (live g s x Hr Hx). cbn [andb]. rewrite (rep_field g sectors_per_cluster s Hr) by done. unfold FAT32_SECTOR_SIZE. unfold cbytes in Ho.
  rewrite (bind_run _ _ _ _ _ (read_sectors_run (Z.to_nat spc) s x size (off / 512) (off mod 512) out Hr Hx ltac:(zdm) ltac:(zdm) ltac:(zdm))).
  rewrite (bind_run _ _ _ _ _ (fat_get_run g s x Hr (cluster_entry g x Hx))).
  replace (off / 512 * 512 + off mod 512) with off by zdm. replace (cbytes - off / 512 * 512 - off mod 512) with (cbytes - off) by zdm.
  set (n := Z.min _ (cbytes - off)). assert (Hn : 0 < n <= cbytes - off) by (unfold n, cbytes; lia).
  assert (Hzn : zlen (out ++ slice (cdata s x) off n) = zlen out + n) by (rewrite zlen_app, zlen_slice; rewrite ?zlen_cdata by done; lia).
  rewrite IH; [|done|done|unfold cbytes; lia|].
  2:{ rewrite Hzn. unfold cbytes in *. nia. }
  rewrite Hzn, <- app_assoc. do 2 f_equal. rewrite Hzl. unfold file_data. cbn [map concat]. fold (file_data s l).
  destruct (decide (n = cbytes - off)) as [E|E].
  - rewrite <- (slice_app_l (cdata s x) (file_data s l) off n) by (rewrite ?zlen_cdata by done; lia).
    replace (Z.min (size - zlen out) ((1 + zlen l) * cbytes - off)) with (n + Z.min (size - (zlen out + n)) (zlen l * cbytes - 0)) by (unfold n in *; nia).
    destruct (decide (size - (zlen out + n) <= 0)) as [Hz|Hz].
    + replace (Z.min (size - (zlen out + n)) (zlen l * cbytes - 0)) with 0 by (unfold n, cbytes in *; nia).
      by rewrite Z.add_0_r, (slice_nil (file_data s l)), app_nil_r by done.
    + rewrite slice_plus by (unfold cbytes in *; nia). f_equal. rewrite (slice_past (cdata s x)) by (rewrite zlen_cdata by done; lia).
      rewrite zlen_cdata by done. f_equal. lia.
  - rewrite (slice_nil (file_data s l)) by (unfold n in *; lia). rewrite app_nil_r.
    rewrite slice_app_l; [f_equal; unfold n, cbytes in *; nia|lia|rewrite zlen_cdata by done; unfold n, cbytes in *; nia].
Qed.

Lemma skip_run n : forall s c l, rep s -> chain (fat s) c l -> exists c', skip_clusters n c s = (c', s) /\ chain (fat s) c' (drop n l).
Proof.
  induction n as [|n IH]; intros s c l Hr Hc; cbn [skip_clusters]; [by exists c|]. destruct l as [|x l]; cbn [drop].
  - rewrite (chain_nil_dead s c Hc). by exists c.
  - pose proof Hc as (-> & Hx & Hl). rewrite (live g s x Hr Hx).
    rewrite (bind_run _ _ _ _ _ (fat_get_run g s x Hr (cluster_entry g x Hx))). by apply IH.
Qed.

Lemma slice_file_drop s l k off n : rep s -> 0 <= off -> 0 <= k <= zlen l ->
  slice (file_data s (drop (Z.to_nat k) l)) off n = slice (file_data s l) (k * cbytes + off) n.
Proof.
  intros Hr Ho Hk. rewrite <- (take_drop (Z.to_nat k) l) at 2. unfold file_data at 2. rewrite map_app, concat_app. fold (file_data s).
  pose proof (zlen_file s (take (Z.to_nat k) l) Hr) as HL. unfold file_data in HL. unfold cbytes in *. pose proof (spc_bounds s Hr).
  assert (HT : zlen (take (Z.to_nat k) l) = k) by (unfold zlen in *; rewrite length_take; lia). rewrite HT in HL.
  rewrite slice_past by (rewrite HL; lia). rewrite HL. unfold file_data. f_equal. lia.
Qed.

(** Reading gives the bytes of the chain. *)
Lemma fat_read_run s file off size l : rep s -> mounted g <> 0 -> chain (fat s) (d_first_cluster file) l ->
  0 <= off < d_size file -> off <= zlen l * cbytes -> 0 <= size -> off + size < 2 ^ 32 ->
  fat32_read file off size s = (slice (file_data s l) off (Z.min size (d_size file - off)), s).
Proof.
  intros Hr Hm Hc Ho Hd Hs Hov. pose proof (spc_bounds s Hr). unfold fat32_read, fs. rewrite (bind_run (gets g_fat32) _ s (g_fat32 s) s) by done.
  rewrite (rep_field g mounted s Hr), (rep_field g sectors_per_cluster s Hr) by done. rewrite (proj2 (Z.eqb_neq (mounted g) 0)) by done.
  rewrite (proj2 (Z.leb_gt (d_size file) off)) by lia. unfold FAT32_SECTOR_SIZE. rewrite (u32_small (spc * 512)), (u32_small (off + size)) by lia.
  fold cbytes. assert (Hcb : 512 <= cbytes) by (unfold cbytes; lia).
  set (n := if _ <? _ then _ else _). assert (En : n = Z.min size (d_size file - off)) by (unfold n; case_match; lia). rewrite <- En. clearbody n.
  assert (Hq : 0 <= off / cbytes <= zlen l) by (split; [apply Z.div_pos; lia|apply Z.div_le_upper_bound; nia]).
  destruct (skip_run (Z.to_nat (off / cbytes)) s _ l Hr Hc) as (c' & E & Hc'). rewrite (bind_run _ _ _ _ _ E).
  pose proof (Z.mod_pos_bound off cbytes ltac:(lia)). pose proof (Z.div_mod off cbytes ltac:(lia)) as Hdm.
  assert (Hfuel : n - zlen (@nil Z) + off mod cbytes <= Z.of_nat (Z.to_nat (n / 512 + 2)) * cbytes).
  { assert (0 <= n) by lia. assert (n < (n / 512 + 1) * 512) by zdm. assert (0 <= n / 512) by zdm. change (zlen []) with 0. rewrite Z2Nat.id by lia. nia. }
  rewrite (read_chain_run _ _ s c' n (off mod cbytes) [] Hr Hc') by done.
  cbn [app]. f_equal. change (zlen []) with 0. rewrite Z.sub_0_r, slice_file_drop by (done || lia).
  rewrite (Z.mul_comm (off / cbytes)), <- Hdm. rewrite <- (slice_cap (file_data s l) off n) by lia. rewrite zlen_file by done.
  f_equal. assert (E2 : zlen (drop (Z.to_nat (off / cbytes)) l) = zlen l - off / cbytes) by (unfold zlen in *; rewrite length_drop; lia).
  rewrite E2. nia.
Qed.

End spec.
End FatIO.

(** FAT32 file contents: what writing a file's data leaves in the clusters. *)
Import CString Fat FatDir FatFile FatSpec FatChain FatIO.

Module FatWrite.

Lemma padded_sector chunk : zlen chunk <= 512 -> is_bytes chunk -> is_sector (padded chunk).
Proof.
  intros Hl Hb. destruct zero_sector_ok as [Hz Hzb]. unfold padded. unfold SECTOR_SIZE in *.
  split; [unfold SECTOR_SIZE; rewrite zlen_splice; lia|].
  by apply Forall_splice.
Qed.
Lemma slice_padded chunk n : 0 <= n <= zlen chunk -> zlen chunk <= 512 -> slice (padded chunk) 0 n = slice chunk 0 n.
Proof.
  intros Hn Hl. unfold padded, splice. change (take (Z.to_nat 0) zero_sector) with (@nil Z). cbn [app]. by rewrite slice_app_l by lia.
Qed.

Section spec.
Context {D : Type} `{BlockDev D, !BlockDevLaws D} (g : fat32_fs).
Implicit Types s : fatstate D.
#[local] Abbreviation entry := (entry g).
#[local] Abbreviation cluster := (cluster g).
#[local] Abbreviation fat := (fat g).
#[local] Abbreviation csec := (csec g).
#[local] Abbreviation data_lba := (data_lba g).
#[local] Abbreviation rep := (fat_rep g).
#[local] Abbreviation chain := (chain g).
#[local] Abbreviation spc := (sectors_per_cluster g).
#[local] Abbreviation cbytes := (cbytes g).

Section data.
Context (data : list Z).
Hypothesis Hbytes : is_bytes data.
#[local] Abbreviation len := (zlen data).

(** The sector that holds the data from byte [w]. *)
Definition wsec (w : Z) : sector := padded (slice data w 512).
Lemma wsec_ok w : is_sector (wsec w).
Proof. apply padded_sector; [|by apply Forall_slice]. unfold zlen, slice. rewrite length_take. lia. Qed.
Lemma wsec_past w : len <= w -> wsec w = zero_sector.
Proof. intros Hw. unfold wsec. replace (slice data w 512) with (@nil Z); [done|]. unfold slice, zlen in *. rewrite drop_ge by lia. by rewrite take_nil. Qed.

(** Cluster [c] from sector [i] on holds the data from byte [w]. *)
Definition filled (d : Z -> Z -> sector) (c i w c' j : Z) : sector :=
  if decide (c' = c /\ i <= j /\ w + (j - i) * 512 < len) then wsec (w + (j - i) * 512) else d c' j.

Lemma write_sectors_run fuel : forall s c i w, rep s -> cluster c -> 0 <= i <= spc -> 0 <= w <= len -> spc - i <= Z.of_nat fuel ->
  exists s', write_sectors fuel (cluster_to_lba (g_fat32 s) c) (i * 512) cbytes data len w s = (Z.min len (w + (spc - i) * 512), s') /\
    g_fat32 s' = g_fat32 s /\ shift g s s' (fat s) (filled (csec s) c i w).
Proof.
  induction fuel as [|fuel IH]; intros s c i w Hr Hc Hi Hw Hf; cbn [write_sectors].
  { exists s. split; [f_equal; unfold FatIO.cbytes in *; lia|]. split; [done|]. apply (shift_eq _ _ _ _ _ _ _ (shift_refl g s Hr)); [done|].
    intros c' j Hc' Hj. unfold filled. by rewrite decide_False by lia. }
  unfold FatIO.cbytes at 1. unfold FatIO.cbytes in IH. destruct (Z.ltb_spec (i * 512) (spc * 512)) as [Hlt|Hge], (Z.ltb_spec w len) as [Hwl|Hwl]; cbn [andb].
  2-4: exists s; split; [f_equal; lia|]; split; [done|]; apply (shift_eq _ _ _ _ _ _ _ (shift_refl g s Hr)); [done|];
    intros c' j Hc' Hj; unfold filled; by rewrite decide_False by lia.
  assert (Hi2 : 0 <= i < spc) by lia. unfold FAT32_SECTOR_SIZE. rewrite Z.min_comm. rewrite Z.div_mul by done. rewrite (data_addr g) by done.
  rewrite (Z.min_comm (len - w)), slice_cap by lia. fold (wsec w).
  rewrite (bind_run _ _ _ _ _ (block_write_run _ _ _)). pose proof (write_shift g s c i (wsec w) Hr Hc Hi2 (wsec_ok w)) as S1.
  set (s1 := put_sec _ _ s) in *. replace (i * 512 + 512) with ((i + 1) * 512) by lia.
  destruct (IH s1 c (i + 1) (w + Z.min 512 (len - w))) as (s' & E & Hg & S2); [apply S1|done|lia|lia|lia|].
  change (g_fat32 s1) with (g_fat32 s) in *. exists s'. unfold FatIO.cbytes. rewrite E. split; [f_equal; lia|]. split; [done|].
  eapply shift_eq; [eapply shift_trans; [exact S1|exact S2]| |].
  - intros. by apply (sh_fat _ _ _ _ _ S1).
  - intros c' j Hc' Hj. unfold filled. destruct (decide (w + 512 <= len)).
    + replace (w + Z.min 512 (len - w) + (j - (i + 1)) * 512) with (w + (j - i) * 512) by lia.
      rewrite (sh_data _ _ _ _ _ S1) by done. destruct (decide (c' = c /\ j = i)) as [[-> ->]|Hn].
      * rewrite decide_False, decide_True by lia. f_equal. lia.
      * destruct (decide (c' = c /\ i + 1 <= j /\ _)), (decide (c' = c /\ i <= j /\ _)); (done || lia).
    + rewrite decide_False by lia. rewrite (sh_data _ _ _ _ _ S1) by done. destruct (decide (c' = c /\ j = i)) as [[-> ->]|Hn].
      * rewrite decide_True by lia. f_equal. lia.
      * by rewrite decide_False by lia.
Qed.

(** A cluster that holds the data from byte [w]. *)
Lemma filled_bytes s c w n : rep s -> (forall j, 0 <= j < spc -> csec s c j = wsec (w + j * 512)) -> 0 <= w ->
  0 <= n <= Z.min cbytes (len - w) -> slice (cdata g s c) 0 n = slice data w n.
Proof.
  intros Hr Hf Hw Hn. pose proof (zlen_cdata g s c Hr) as HL. unfold FatIO.cbytes in *.
  apply list_eq_aget; rewrite !zlen_slice by lia; [done|]. intros i Hi. rewrite !aget_slice, Z.add_0_l by lia.
  unfold cdata. rewrite (aget_pieces (csec s c) 512) by (lia || (intros; by apply (csec_len g))).
  rewrite Hf by zdm. unfold wsec. pose proof (Z.mod_pos_bound i 512). pose proof (Z.div_mod i 512).
  assert (HS : i mod 512 < zlen (slice data (w + i / 512 * 512) 512)).
  { rewrite <- slice_cap by lia. rewrite zlen_slice by lia. lia. }
  unfold padded. assert (zlen zero_sector = 512) by done.
  assert (zlen (slice data (w + i / 512 * 512) 512) <= 512) by (unfold zlen, slice; rewrite length_take; lia).
  rewrite aget_splice, decide_True, Z.sub_0_r by lia. rewrite aget_slice by lia. f_equal. lia.
Qed.

(** What [write_clusters] does from cluster [c] and byte [w] on: the chain
    grows by free clusters [l], enough for the data or all there are, and the
    chain holds the data. *)
Record wrote s s' (c : Z) (l : list Z) (w : Z) : Prop := {
  wr_rep : rep s'; wr_hint : hint_ok g s'; wr_fds : fat32_fds s' = fat32_fds s; wr_cap : bcap (fdev s') = bcap (fdev s);
  wr_chain : chain (fat s') c (c :: l);
  wr_free : forall x, x ∈ l -> cluster x /\ fat s x = 0;
  wr_fat : forall x, entry x -> x ∉ c :: l -> fat s' x = fat s x;
  wr_data : forall x i, cluster x -> 0 <= i < spc -> x ∉ c :: l -> csec s' x i = csec s x i;
  wr_len : zlen l = Z.min ((len - w - 1) / cbytes) (nfree g s);
  wr_bytes : forall n, 0 <= n <= Z.min (len - w) ((1 + zlen l) * cbytes) -> slice (file_data g s' (c :: l)) 0 n = slice data w n;
}.

Lemma write_clusters_done fuel c w s : len <= w -> write_clusters fuel c data len w s = (tt, s).
Proof. intros Hw. destruct fuel; cbn [write_clusters]; [done|]. by rewrite (proj2 (Z.ltb_ge w len)). Qed.

(** A fresh cluster: allocated, last of its chain, zeroed. *)
Record fresh s (c : Z) : Prop := {
  fh_cluster : cluster c; fh_eoc : fat s c = FAT32_CLUSTER_EOC;
  fh_zero : forall j, 0 <= j < spc -> csec s c j = zero_sector;
}.

(** Filling a fresh cluster. *)
Lemma fill_fresh s c w : rep s -> fresh s c -> 0 <= w <= len -> exists s',
  write_sectors (Z.to_nat spc) (cluster_to_lba (g_fat32 s) c) 0 cbytes data len w s = (Z.min len (w + cbytes), s') /\
  g_fat32 s' = g_fat32 s /\ shift g s s' (fat s) (data_set (csec s) c (fun j => wsec (w + j * 512))).
Proof.
  intros Hr [Hc He Hz] Hw. pose proof (spc_bounds g s Hr).
  destruct (write_sectors_run (Z.to_nat spc) s c 0 w Hr Hc ltac:(lia) Hw ltac:(lia)) as (s' & E & Hg & S).
  exists s'. rewrite Z.sub_0_r in E. split; [exact E|]. split; [done|]. apply (shift_eq _ _ _ _ _ _ _ S); [done|].
  intros c' j Hc' Hj. unfold filled, data_set. rewrite Z.sub_0_r. destruct (decide (c' = c)) as [->|]; [|by rewrite decide_False by lia].
  case_decide; [done|]. rewrite Hz by done. by rewrite wsec_past by lia.
Qed.

Lemma file_data_app s l l' : file_data g s (l ++ l') = file_data g s l ++ file_data g s l'.
Proof. unfold file_data. by rewrite map_app, concat_app. Qed.
Lemma file_data_cons s c l : file_data g s (c :: l) = cdata g s c ++ file_data g s l.
Proof. done. Qed.
Lemma cdata_eq s s' c : (forall j, 0 <= j < spc -> csec s' c j = csec s c j) -> cdata g s' c = cdata g s c.
Proof. intros He. unfold cdata. f_equal. apply tab_ext. intros. apply He. lia. Qed.

(** One more cluster in front of a chain. *)
Lemma wrote_one s s1 c w : 0 <= w < len -> rep s -> hint_ok g s -> fresh s c -> g_fat32 s1 = g_fat32 s ->
  shift g s s1 (fat s) (data_set (csec s) c (fun j => wsec (w + j * 512))) ->
  len <= w + cbytes \/ nfree g s = 0 -> wrote s s1 c [] w.
Proof.
  intros Hw Hr Hh [Hc He Hz] Hg S Hend. pose proof (spc_bounds g s Hr).
  assert (Hb : forall j, 0 <= j < spc -> csec s1 c j = wsec (w + j * 512)).
  { intros j Hj. rewrite (sh_data _ _ _ _ _ S) by done. unfold data_set. by rewrite decide_True. }
  constructor; try apply S.
  - unfold hint_ok. by rewrite Hg.
  - cbn. rewrite (sh_fat _ _ _ _ _ S) by by apply cluster_entry. rewrite He. done.
  - by intros x ?%list.elem_of_nil.
  - intros. by apply (sh_fat _ _ _ _ _ S).
  - intros x i Hx Hi Hn. rewrite (sh_data _ _ _ _ _ S) by done. unfold data_set. rewrite decide_False; [done|]. intros ->. apply Hn. constructor.
  - change (zlen []) with 0. pose proof (count_bounds (Z.to_nat (data_clusters g + 2)) (fun c => (2 <=? c) && (fat s c =? 0))) as Hcb.
    fold (nfree g s) in Hcb. unfold FatIO.cbytes in *. destruct Hend as [Hend|Hend].
    + rewrite Z.div_small by lia. lia.
    + rewrite Hend. assert (0 <= (len - w - 1) / (spc * 512)) by (apply Z.div_pos; lia). lia.
  - intros n Hn. change (zlen []) with 0 in Hn. rewrite file_data_cons. rewrite slice_app_l by (rewrite ?zlen_cdata by apply S; lia).
    apply filled_bytes; [apply S|done|lia|lia].
Qed.

Lemma fat_zero_free s s' c f v d : shift g s s' (fat_set f c v) d -> (forall x, entry x -> f x = fat s x) -> v <> 0 -> fat s c <> 0 ->
  nfree g s' = nfree g s.
Proof.
  intros S Hf Hv Hc. apply nfree_ext. intros x Hx. rewrite (sh_fat _ _ _ _ _ S) by by apply cluster_entry. unfold fat_set.
  case_decide; [subst|by rewrite Hf by by apply cluster_entry]. by rewrite !(proj2 (Z.eqb_neq _ 0)).
Qed.

(** The next cluster is taken and linked behind [c]. *)
Lemma link_next s1 c : rep s1 -> hint_ok g s1 -> cluster c -> fat s1 c = FAT32_CLUSTER_EOC -> nfree g s1 <> 0 ->
  exists nc s2 s3, alloc_cluster s1 = (nc, s2) /\ fat_entry_set c nc s2 = (tt, s3) /\ cluster nc /\ nc <> c /\ fat s1 nc = 0 /\
    hint_ok g s3 /\ fresh s3 nc /\ nfree g s3 = nfree g s1 - 1 /\
    shift g s1 s3 (fat_set (fat_set (fat s1) nc FAT32_CLUSTER_EOC) c nc) (data_set (csec s1) nc (fun _ => zero_sector)).
Proof.
  intros Hr Hh Hc He Hn. destruct (alloc_run g s1 Hr Hh) as [(nc & s2 & E & Hnc & Hf & Hh2 & S2)|[_ Hnone]]; [|by destruct Hn; apply fat_none_free].
  assert (Hne : nc <> c) by (intros ->; rewrite He in Hf; done). pose proof Hnc as Hnc2. unfold FatSpec.cluster in Hnc2. destruct (fr_geom g s1 Hr).
  destruct (set_shift g s2 c nc (sh_rep _ _ _ _ _ S2) (cluster_entry g c Hc)) as (s3 & E3 & Hg3 & S3); [lia|].
  assert (S : shift g s1 s3 (fat_set (fat_set (fat s1) nc FAT32_CLUSTER_EOC) c nc) (data_set (csec s1) nc (fun _ => zero_sector))).
  { eapply shift_eq; [eapply shift_trans; [exact S2|exact S3]| |].
    - intros x Hx. unfold fat_set at 1. case_decide; [done|]. by apply (sh_fat _ _ _ _ _ S2).
    - intros. by apply (sh_data _ _ _ _ _ S2). }
  exists nc, s2, s3. do 5 (split; [done|]). split; [unfold hint_ok in *; by rewrite Hg3|]. split; [|split; [|done]].
  - constructor; [done| |].
    + rewrite (sh_fat _ _ _ _ _ S) by by apply cluster_entry. unfold fat_set. rewrite decide_False, decide_True; done.
    + intros j Hj. rewrite (sh_data _ _ _ _ _ S) by done. unfold data_set. by rewrite decide_True.
  - rewrite <- (nfree_set g s1 s2 nc _ _ S2) by done. eapply (fat_zero_free s2 s3 c (fat s2)); [exact S3|done|lia|].
    rewrite (sh_fat _ _ _ _ _ S2) by by apply cluster_entry. unfold fat_set. rewrite decide_False by done. by rewrite He.
Qed.

(** The rest of the data is written behind [c]. *)
Lemma wrote_cons s s1 s3 s' c nc l w :
  rep s -> fresh s c -> 0 <= w -> w + cbytes < len ->
  shift g s s1 (fat s) (data_set (csec s) c (fun j => wsec (w + j * 512))) ->
  cluster nc -> nc <> c -> fat s1 nc = 0 -> nfree g s3 = nfree g s1 - 1 ->
  shift g s1 s3 (fat_set (fat_set (fat s1) nc FAT32_CLUSTER_EOC) c nc) (data_set (csec s1) nc (fun _ => zero_sector)) ->
  wrote s3 s' nc l (w + cbytes) -> wrote s s' c (nc :: l) w.
Proof.
  intros Hr [Hc He Hz] Hw Hlt S1 Hnc Hne Hf Hn S3 [W1 W2 W3 W4 W5 W6 W7 W8 W9 W10]. pose proof (spc_bounds g s Hr).
  assert (Hfat1 : forall x, entry x -> fat s1 x = fat s x) by (intros; by apply (sh_fat _ _ _ _ _ S1)).
  assert (Hfat3 : forall x, entry x -> fat s3 x = if decide (x = c) then nc else if decide (x = nc) then FAT32_CLUSTER_EOC else fat s x).
  { intros x Hx. rewrite (sh_fat _ _ _ _ _ S3) by done. unfold fat_set. by rewrite Hfat1. }
  assert (Hcl : c ∉ nc :: l).
  { rewrite list.elem_of_cons. intros [->|Hin]; [done|]. destruct (W6 c Hin) as [_ E]. rewrite Hfat3 in E by by apply cluster_entry.
    rewrite decide_True in E by done. unfold FatSpec.cluster in Hnc. lia. }
  constructor; [done|done|rewrite W3, (sh_fds _ _ _ _ _ S3); by apply (sh_fds _ _ _ _ _ S1)|rewrite W4, (sh_cap _ _ _ _ _ S3); by apply (sh_cap _ _ _ _ _ S1)| | | | | |].
  - cbn [FatChain.chain]. split; [done|]. split; [done|]. rewrite W7 by (done || by apply cluster_entry).
    rewrite Hfat3, decide_True by (done || by apply cluster_entry). exact W5.
  - intros x [->|Hx]%list.elem_of_cons; [split; [done|]; by rewrite <- Hfat1 by by apply cluster_entry|].
    destruct (W6 x Hx) as [Hxc E]. split; [done|]. rewrite Hfat3 in E by by apply cluster_entry.
    destruct (decide (x = c)); [by unfold FatSpec.cluster in Hnc; lia|]. by destruct (decide (x = nc)).
  - intros x Hx Hnot. apply list.not_elem_of_cons in Hnot as [Hxc Hnot]. rewrite W7 by done. rewrite Hfat3 by done.
    apply list.not_elem_of_cons in Hnot as [? _]. by rewrite !decide_False.
  - intros x i Hx Hi Hnot. apply list.not_elem_of_cons in Hnot as [Hxc Hnot]. rewrite W8 by done. rewrite (sh_data _ _ _ _ _ S3) by done.
    pose proof (proj1 (proj1 (list.not_elem_of_cons _ _ _) Hnot)). unfold data_set. rewrite decide_False by done. rewrite (sh_data _ _ _ _ _ S1) by done. unfold data_set. by rewrite decide_False.
  - assert (Hzl : zlen (nc :: l) = 1 + zlen l) by (unfold zlen; cbn; lia). rewrite Hzl, W9, Hn.
    replace (nfree g s1) with (nfree g s) by (symmetry; apply nfree_ext; intros; by rewrite Hfat1 by by apply cluster_entry).
    replace (len - w - 1) with (len - (w + cbytes) - 1 + 1 * cbytes) by lia. unfold FatIO.cbytes in *. rewrite Z.div_add by lia. lia.
  - assert (Hzl : zlen (nc :: l) = 1 + zlen l) by (unfold zlen; cbn; lia). rewrite Hzl. intros n Hnn. rewrite file_data_cons.
    assert (Hcd : forall m, 0 <= m <= Z.min cbytes (len - w) -> slice (cdata g s' c) 0 m = slice data w m).
    { intros m Hm. apply filled_bytes; [done| |done|done]. intros j Hj. rewrite W8, (sh_data _ _ _ _ _ S3) by done.
      unfold data_set. rewrite decide_False by (intros ->; done). rewrite (sh_data _ _ _ _ _ S1) by done. unfold data_set. by rewrite decide_True. }
    pose proof (zlen_cdata g s' c W1) as HL. destruct (decide (n <= cbytes)).
    + rewrite slice_app_l by lia. apply Hcd. lia.
    + replace n with (cbytes + (n - cbytes)) by lia. unfold FatIO.cbytes in *. rewrite !slice_plus by lia. f_equal.
      * rewrite slice_app_l by lia. apply Hcd. lia.
      * rewrite slice_past by lia. rewrite HL. replace (0 + spc * 512 - spc * 512) with 0 by lia. apply W10. nia.
Qed.

Lemma write_clusters_run fuel : forall s c w, rep s -> hint_ok g s -> fresh s c -> 0 <= w < len -> len - w <= Z.of_nat fuel * 512 ->
  exists l s', write_clusters fuel c data len w s = (tt, s') /\ wrote s s' c l w.
Proof.
  induction fuel as [|fuel IH]; intros s c w Hr Hh Hfr Hw Hf; [lia|]. cbn [write_clusters]. rewrite (proj2 (Z.ltb_lt w len)) by lia.
  pose proof (spc_bounds g s Hr). unfold fs. rewrite (bind_run (gets g_fat32) _ s (g_fat32 s) s) by done.
  rewrite (rep_field g sectors_per_cluster s Hr) by done. unfold FAT32_SECTOR_SIZE. rewrite (u32_small (spc * 512)) by lia. fold cbytes.
  destruct (fill_fresh s c w Hr Hfr ltac:(lia)) as (s1 & E1 & Hg1 & S1). rewrite (bind_run _ _ _ _ _ E1).
  destruct (Z.ltb_spec (Z.min len (w + cbytes)) len) as [Hlt|Hge].
  2:{ exists [], s1. split; [apply write_clusters_done; lia|]. apply (wrote_one s); (done || lia). }
  assert (He1 : fat s1 c = FAT32_CLUSTER_EOC) by (rewrite (sh_fat _ _ _ _ _ S1) by (apply cluster_entry, Hfr); apply Hfr).
  assert (Hh1 : hint_ok g s1) by (unfold hint_ok in *; by rewrite Hg1).
  assert (Hn1 : nfree g s1 = nfree g s) by (apply nfree_ext; intros; by rewrite (sh_fat _ _ _ _ _ S1) by by apply cluster_entry).
  destruct (decide (nfree g s1 = 0)) as [Hz|Hz].
  - destruct (alloc_run g s1 (sh_rep _ _ _ _ _ S1) Hh1) as [(nc & s2 & _ & Hnc & Hf0 & _)|[E _]].
    { pose proof (nfree_pos g s1 nc Hnc Hf0). lia. }
    rewrite (bind_run _ _ _ _ _ E). exists [], s1. split; [done|]. apply (wrote_one s); (done || lia || (right; congruence)).
  - destruct (link_next s1 c (sh_rep _ _ _ _ _ S1) Hh1) as (nc & s2 & s3 & E2 & E3 & Hnc & Hne & Hf0 & Hh3 & Hfr3 & Hn3 & S3); [apply Hfr|done|done|].
    rewrite (bind_run _ _ _ _ _ E2). rewrite (proj2 (Z.eqb_neq nc 0)) by (unfold FatSpec.cluster in Hnc; lia). rewrite (bind_run _ _ _ _ _ E3).
    replace (Z.min len (w + cbytes)) with (w + cbytes) in * by lia. unfold FatIO.cbytes in *.
    destruct (IH s3 nc (w + spc * 512) (sh_rep _ _ _ _ _ S3) Hh3 Hfr3) as (l & s' & E' & W); [lia|lia|].
    exists (nc :: l), s'. split; [done|]. apply (wrote_cons s s1 s3); (done || (unfold FatIO.cbytes; lia)).
Qed.

End data.
End spec.
End FatWrite.
