(* ===== verification/FatDirSpec.v ===== *)
(** FAT32 directories as lists of entries: a walk over a directory is a fold
    over its slots, and a lookup finds a slot. *)
From S2P Require Import Prelude CString Disk FatData FatDir FatSpec FatChain FatWrite.
From stdpp Require Import base list numbers.
From Stdlib Require Import ZArith Lia.
Import CString Fat FatDir FatSpec FatChain FatIO.
Open Scope Z_scope.

Module FatDirSpec.

(** A slot of a directory: its 32 bytes, its sector and its number there. *)
Definition item : Type := list Z * Z * Z.

(** A callback over slots until it asks to stop. *)
Fixpoint walk {C} (cb : list Z -> Z -> Z -> C -> C * bool) (items : list item) (ctx : C) : C * bool :=
  match items with
  | [] => (ctx, false)
  | (de, lba, slot) :: items =>
      match cb de lba slot ctx with
      | (ctx, true) => (ctx, true)
      | (ctx, false) => walk cb items ctx
      end
  end.
Lemma walk_app {C} (cb : list Z -> Z -> Z -> C -> C * bool) a b ctx :
  walk cb (a ++ b) ctx = match walk cb a ctx with (c, true) => (c, true) | (c, false) => walk cb b c end.
Proof.
  revert ctx. induction a as [|[[de lba] slot] a IH]; intros ctx; cbn [walk app]; [done|].
  destruct (cb de lba slot ctx) as [c []]; [done|apply IH].
Qed.

Definition sector_items (buf : sector) (lba : Z) : list item := (fun j => (slot_get buf j, lba, j)) <$> seqZ 0 16.

Lemma sector_entries_walk {C} (cb : list Z -> Z -> Z -> C -> C * bool) fuel buf lba i ctx :
  sector_entries cb fuel buf lba i ctx = walk cb ((fun j => (slot_get buf j, lba, j)) <$> seqZ i (Z.of_nat fuel)) ctx.
Proof.
  revert i ctx. induction fuel as [|fuel IH]; intros i ctx; [done|]. rewrite seqZ_cons by lia. cbn [sector_entries fmap list_fmap walk].
  destruct (cb _ _ _ ctx) as [c []]; [done|]. rewrite IH. do 3 f_equal; lia.
Qed.

Lemma elem_concat {A} (x : A) ls : x ∈ concat ls <-> exists l, x ∈ l /\ l ∈ ls.
Proof.
  rewrite list_elem_of_In, in_concat. split; intros (l & Hl & Hx); exists l; rewrite !list_elem_of_In in *; done.
Qed.
Lemma elem_map {A B} (h : A -> B) l y : y ∈ map h l <-> exists x, y = h x /\ x ∈ l.
Proof. rewrite list_elem_of_In, in_map_iff. split; intros (z & Hz & Hx); exists z; rewrite ?list_elem_of_In in *; done. Qed.
Lemma NoDup_concat_map {A B} (F : A -> list B) l : NoDup l -> (forall x, x ∈ l -> NoDup (F x)) ->
  (forall x y z, x ∈ l -> y ∈ l -> z ∈ F x -> z ∈ F y -> x = y) -> NoDup (concat (map F l)).
Proof.
  induction l as [|x l IH]; intros Hn HF Hd; cbn [map concat]; [constructor|]. apply list.NoDup_cons in Hn as [Hx Hn].
  apply list.NoDup_app. split; [apply HF; constructor|]. split.
  - intros z Hz (y & Hzy & (w & -> & Hw)%elem_map)%elem_concat. apply Hx.
    by rewrite (Hd x w z) by (done || by constructor).
  - apply IH; [done| |]; intros; [apply HF|eapply Hd]; try done; by constructor.
Qed.

Section spec.
Context {D : Type} `{BlockDev D, !BlockDevLaws D} (g : fat32_fs).
Implicit Types s : fatstate D.
#[local] Abbreviation entry := (entry g).
#[local] Abbreviation cluster := (cluster g).
#[local] Abbreviation fat := (fat g).
#[local] Abbreviation csec := (csec g).
#[local] Abbreviation data_lba := (data_lba g).
#[local] Abbreviation rep := (fat_rep g).
#[local] Abbreviation chain := (chain g).
#[local] Abbreviation spc := (sectors_per_cluster g).

(** The slots of a cluster from sector [i] on, and of a directory. *)
Definition cluster_items s (c i : Z) : list item :=
  concat (tab (fun i => sector_items (csec s c i) (data_lba c i)) i (spc - i)).
Definition dir_items s (l : list Z) : list item := concat (map (fun c => cluster_items s c 0) l).

Lemma cluster_entries_walk {C} (cb : list Z -> Z -> Z -> C -> C * bool) fuel : forall s c i ctx, rep s -> cluster c ->
  0 <= i -> Z.of_nat fuel = spc - i ->
  cluster_entries cb fuel (cluster_to_lba (g_fat32 s) c) i ctx s = (walk cb (cluster_items s c i) ctx, s).
Proof.
  induction fuel as [|fuel IH]; intros s c i ctx Hr Hc Hi Hf; cbn [cluster_entries].
  { unfold cluster_items. rewrite tab_nil by lia. done. }
  rewrite (data_addr g) by (done || lia). unfold block_read. rewrite (bind_run _ _ s (csec s c i) s) by done.
  rewrite sector_entries_walk. unfold cluster_items. rewrite tab_cons by lia. cbn [concat]. rewrite walk_app.
  change (walk cb ((λ j : Z, (slot_get (csec s c i) j, data_lba c i, j)) <$> seqZ 0 (Z.of_nat 16)) ctx)
    with (walk cb (sector_items (csec s c i) (data_lba c i)) ctx).
  destruct (walk cb (sector_items _ _) ctx) as [c' []]; [done|].
  rewrite IH by (done || lia). unfold cluster_items. by replace (spc - (i + 1)) with (spc - i - 1) by lia.
Qed.

Lemma chain_entries_walk {C} (cb : list Z -> Z -> Z -> C -> C * bool) l : forall fuel s c ctx, rep s -> chain (fat s) c l ->
  (length l <= fuel)%nat -> chain_entries cb fuel c ctx s = ((walk cb (dir_items s l) ctx).1, s).
Proof.
  induction l as [|x l IH]; intros fuel s c ctx Hr Hc Hf.
  { destruct fuel; cbn [chain_entries]; [done|]. by rewrite (chain_nil_dead g s c Hc). }
  cbn in Hf. destruct fuel as [|fuel]; [lia|]. pose proof Hc as (-> & Hx & Hl). cbn [chain_entries]. rewrite (live g s x Hr Hx).
  unfold fs. rewrite (bind_run (gets g_fat32) _ s (g_fat32 s) s) by done.
  rewrite (rep_field g sectors_per_cluster s Hr) by done. pose proof (spc_bounds g s Hr).
  rewrite (bind_run _ _ _ _ _ (cluster_entries_walk cb (rounds 0 spc) s x 0 ctx Hr Hx ltac:(lia) ltac:(unfold rounds; lia))).
  unfold dir_items. cbn [map concat]. rewrite walk_app. fold (dir_items s l).
  destruct (walk cb (cluster_items s x 0) ctx) as [c' []]; cbn iota; [done|].
  rewrite (bind_run _ _ _ _ _ (fat_get_run g s x Hr (cluster_entry g x Hx))). apply IH; (done || lia).
Qed.

(** The first cluster of a directory. *)
Definition dir_start (dir_cluster : Z) : Z := if dir_cluster =? 0 then root_cluster g else dir_cluster.
Lemma for_each_walk {C} (cb : list Z -> Z -> Z -> C -> C * bool) s d l ctx : rep s -> chain (fat s) (dir_start d) l ->
  for_each_dirent cb d ctx s = ((walk cb (dir_items s l) ctx).1, s).
Proof.
  intros Hr Hc. unfold for_each_dirent, fs. rewrite (bind_run (gets g_fat32) _ s (g_fat32 s) s) by done.
  rewrite (rep_field g root_cluster s Hr) by done. fold (dir_start d). apply chain_entries_walk; [done|done|]. by apply (chain_fuel_ok g s (dir_start d)).
Qed.

(** ** Where the slots are *)

Lemma elem_sector_items buf lba x : x ∈ sector_items buf lba <-> exists j, 0 <= j < 16 /\ x = (slot_get buf j, lba, j).
Proof.
  unfold sector_items. rewrite elem_map. split.
  - intros (j & -> & Hj%elem_of_seqZ). exists j. split; [lia|done].
  - intros (j & Hj & ->). exists j. split; [done|]. apply elem_of_seqZ. lia.
Qed.
Lemma elem_dir_items s l x : x ∈ dir_items s l <-> exists c i j, c ∈ l /\ 0 <= i < spc /\ 0 <= j < 16 /\
  x = (slot_get (csec s c i) j, data_lba c i, j).
Proof.
  unfold dir_items. rewrite elem_concat. split.
  - intros (y & Hx & (c & -> & Hc)%elem_map). unfold cluster_items in Hx. apply elem_concat in Hx as (z & Hx & Hz).
    unfold tab in Hz. apply elem_map in Hz as (i & -> & Hi%elem_of_seqZ). apply elem_sector_items in Hx as (j & Hj & ->).
    exists c, i, j. split; [done|]. split; [lia|]. done.
  - intros (c & i & j & Hc & Hi & Hj & ->). exists (cluster_items s c 0). split.
    + unfold cluster_items. apply elem_concat. exists (sector_items (csec s c i) (data_lba c i)). split.
      * apply elem_sector_items. by exists j.
      * apply elem_map. exists i. split; [done|]. apply elem_of_seqZ. lia.
    + apply elem_map. by exists c.
Qed.

(** Position of a slot; no slot of a chain is met twice. *)
Definition pos (x : item) : Z * Z := let '(_, lba, slot) := x in (lba, slot).
Lemma fmap_concat_map {A B C} (h : B -> C) (F : A -> list B) l : h <$> concat (map F l) = concat (map (fun x => h <$> F x) l).
Proof. induction l as [|x l IH]; cbn [map concat]; [done|]. by rewrite fmap_app, IH. Qed.
Lemma cluster_items_fmap s c i : pos <$> cluster_items s c i = concat (map (fun i => (fun j => (data_lba c i, j)) <$> seqZ 0 16) (seqZ i (spc - i))).
Proof.
  unfold cluster_items, tab. change (fmap (M := list) (A := Z) (B := list item)) with (@map Z (list item)).
  rewrite fmap_concat_map. f_equal.
Qed.
Lemma pos_NoDup s l : rep s -> NoDup l -> Forall cluster l -> NoDup (pos <$> dir_items s l).
Proof.
  intros Hr Hn HF. rewrite list.Forall_forall in HF. unfold dir_items. rewrite fmap_concat_map.
  assert (Hin : forall c z, z ∈ pos <$> cluster_items s c 0 -> exists i j, 0 <= i < spc /\ z = (data_lba c i, j)).
  { intros c z Hz. rewrite cluster_items_fmap in Hz. apply elem_concat in Hz as (y & Hz & (i & -> & Hi%elem_of_seqZ)%elem_map).
    apply elem_map in Hz as (j & -> & _). exists i, j. split; [lia|done]. }
  apply NoDup_concat_map; [done| |].
  - intros c Hc. rewrite cluster_items_fmap. apply NoDup_concat_map; [apply NoDup_seqZ| |].
    + intros i Hi. apply (NoDup_fmap_2 (fun j => (data_lba c i, j))), NoDup_seqZ.
    + intros i i' z Hi%elem_of_seqZ Hi'%elem_of_seqZ (j & -> & _)%elem_map (j' & E & _)%elem_map.
      injection E as E _. unfold FatSpec.data_lba in E. lia.
  - intros c c' z Hc Hc' (i & j & Hi & ->)%Hin (i' & j' & Hi' & E)%Hin. injection E as E _.
    eapply (data_lba_inj g c i c' i'); eauto.
Qed.

(** ** One slot changed *)

(** The items with the slot at [p] changed to [de]. *)
Definition patch (p : Z * Z) (de : list Z) (x : item) : item := if decide (pos x = p) then (de, p.1, p.2) else x.

Lemma slot_get_put buf slot slot' de : zlen buf = 512 -> zlen de = 32 -> 0 <= slot < 16 -> 0 <= slot' < 16 ->
  slot_get (slot_put buf slot de) slot' = if decide (slot' = slot) then de else slot_get buf slot'.
Proof.
  intros Hb Hd Hs Hs'. unfold slot_get, slot_put. case_decide as E.
  - subst. rewrite <- Hd. apply slice_splice_same; lia.
  - apply slice_splice_other; lia.
Qed.

Lemma dir_items_patch s s' l c0 i0 slot0 de : rep s -> rep s' -> Forall cluster l -> cluster c0 -> 0 <= i0 < spc -> 0 <= slot0 < 16 -> zlen de = 32 ->
  (forall c i, c ∈ l -> 0 <= i < spc -> csec s' c i = if decide (c = c0 /\ i = i0) then slot_put (csec s c0 i0) slot0 de else csec s c i) ->
  dir_items s' l = patch (data_lba c0 i0, slot0) de <$> dir_items s l.
Proof.
  intros Hr Hr' HF Hc0 Hi0 Hs0 Hd Hsec. rewrite list.Forall_forall in HF. unfold dir_items. rewrite fmap_concat_map. f_equal. apply map_ext_in. intros c Hc%list_elem_of_In.
  unfold cluster_items, tab. change (fmap (M := list) (A := Z) (B := list item)) with (@map Z (list item)). rewrite fmap_concat_map.
  f_equal. apply map_ext_in. intros i Hi%list_elem_of_In%elem_of_seqZ. unfold sector_items. rewrite <- list_fmap_compose.
  apply list_fmap_ext. intros k j Hj%list_elem_of_lookup_2%elem_of_seqZ. unfold compose, patch. cbn [pos].
  rewrite Hsec by (done || lia). destruct (decide (c = c0 /\ i = i0)) as [[-> ->]|Hn].
  - rewrite slot_get_put; [|by apply (csec_len g)|done|done|lia]. destruct (decide (j = slot0)) as [->|Hne].
    + by rewrite decide_True.
    + rewrite decide_False; [done|]. intros E. injection E as E. done.
  - rewrite decide_False; [done|]. intros E. injection E as E _. destruct (data_lba_inj g c i c0 i0); [by apply HF|done|lia|done|done|]. by apply Hn.
Qed.

End spec.
End FatDirSpec.
