(* ===== verification/FatFind.v ===== *)
(** FAT32 lookups: what [find_in_dir] finds, the fields of the slot it found,
    and how it sees a slot that was rewritten. *)
From S2P Require Import Prelude CString Disk FatData FatDir FatSpec FatChain FatWrite FatDirSpec.
From stdpp Require Import base list numbers.
From Stdlib Require Import ZArith Lia.
Import CString Fat FatDir FatSpec FatChain FatIO FatDirSpec.
Open Scope Z_scope.

Module FatFind.

(** ** Fields of a slot *)

Lemma de_name0_name de : zlen de = 32 -> de_name0 de = get_le 1 (de_name de) 0.
Proof. intros Hl. unfold de_name0, get_le, de_name. by rewrite slice_slice by lia. Qed.

Section fields.
Context (attr first size : Z) (de : list Z).
Hypothesis Hlen : zlen de = 32.
#[local] Abbreviation new := (set_de_fields attr first size de).

Lemma zlen_set_fields : zlen new = 32.
Proof. unfold set_de_fields. flen. Qed.
Lemma set_fields_name : de_name new = de_name de.
Proof. unfold de_name, set_de_fields. by rewrite !slice_put_le by flen. Qed.
Lemma set_fields_attr : de_attr new = attr mod 2 ^ 8.
Proof. unfold de_attr, set_de_fields. rewrite !(get_put_le_ne _ 1) by flen. apply get_put_le; lia. Qed.
Lemma set_fields_size : de_file_size new = size mod 2 ^ 32.
Proof. unfold de_file_size, set_de_fields. apply get_put_le; flen. Qed.
Lemma set_fields_first : 0 <= first < 2 ^ 32 -> de_first_cluster new = first.
Proof.
  intros Hf. unfold de_first_cluster, set_de_fields. rewrite !(get_put_le_ne 4 2) by flen.
  rewrite (get_put_le_ne 2 2 _ 26 20), (get_put_le 2 _ 20), (get_put_le 2 _ 26) by flen.
  change (8 * Z.of_nat 2) with 16. unfold u16. change 0xFFFF with (Z.ones 16). rewrite Z.land_ones, !Z.mod_mod by done.
  rewrite Z.shiftr_div_pow2 by done. rewrite lor_shiftl_add by zdm. zdm.
Qed.
End fields.
(** ** A lookup's answer *)

Definition set_found (de : list Z) (fc : find_ctx) : find_ctx :=
  mk_find de (fc_lba fc) (fc_slot fc) (fc_ok fc) (fc_lfn_lbas fc) (fc_lfn_slots fc) (fc_lfn_count fc) (fc_lfn fc).

(** The slot that ends the lookup, and any slot of the same name in its
    place. *)
Lemma find_cb_hit name de lba slot ctx fc b : fc_ok ctx = false -> find_cb name de lba slot ctx = (fc, b) -> fc_ok fc = true ->
  b = true /\ fc_found fc = de /\ fc_lba fc = lba /\ fc_slot fc = slot /\ de_name0 de <> 0 /\ de_name0 de <> 0xE5 /\
  de_attr de <> FAT32_ATTR_LFN.
Proof.
  intros Hk. unfold find_cb. destruct (Z.eqb_spec (de_name0 de) 0) as [E0|N0]; [intros [= <- <-]; congruence|].
  destruct (Z.eqb_spec (de_name0 de) 0xE5) as [E5|N5]; [intros [= <- <-]; cbn; congruence|].
  destruct (Z.eqb_spec (de_attr de) FAT32_ATTR_LFN) as [EL|NL]; [intros [= <- <-]; cbn; congruence|].
  destruct (lfn_take (fc_lfn ctx) de) as [l nm]. destruct (same_name nm name); intros [= <- <-]; cbn; [done|congruence].
Qed.
Lemma find_cb_same name de de' lba slot ctx fc : zlen de = 32 -> zlen de' = 32 -> de_name de' = de_name de -> de_attr de' <> FAT32_ATTR_LFN ->
  fc_ok ctx = false -> find_cb name de lba slot ctx = (fc, true) -> fc_ok fc = true ->
  find_cb name de' lba slot ctx = (set_found de' fc, true).
Proof.
  intros Hl Hl' Hn Ha Hk E Hok. destruct (find_cb_hit _ _ _ _ _ _ _ Hk E Hok) as (_ & _ & _ & _ & N0 & N5 & NL).
  revert E. unfold find_cb, lfn_take. rewrite (de_name0_name de'), Hn, <- (de_name0_name de) by done.
  rewrite (proj2 (Z.eqb_neq _ 0) N0), (proj2 (Z.eqb_neq _ 0xE5) N5), (proj2 (Z.eqb_neq _ _) NL), (proj2 (Z.eqb_neq _ _) Ha).
  cbn zeta. destruct (l_have _ && _ && _ && _); cbn iota beta; case_match; intros [= <-]; done.
Qed.

Lemma walk_find name items : forall ctx fc b, fc_ok ctx = false -> walk (find_cb name) items ctx = (fc, b) -> fc_ok fc = true ->
  exists pre de lba slot post ctx', items = pre ++ (de, lba, slot) :: post /\ walk (find_cb name) pre ctx = (ctx', false) /\
    fc_ok ctx' = false /\ find_cb name de lba slot ctx' = (fc, true).
Proof.
  induction items as [|[[de lba] slot] items IH]; intros ctx fc b Hk; cbn [walk]; [intros [= <- <-]; congruence|].
  destruct (find_cb name de lba slot ctx) as [c' b'] eqn:E. destruct b'.
  - intros [= <- <-] Hok. exists [], de, lba, slot, items, ctx. done.
  - intros Hw Hok. assert (Hk' : fc_ok c' = false).
    { destruct (fc_ok c') eqn:Ec; [|done]. by destruct (find_cb_hit _ _ _ _ _ _ _ Hk E Ec) as [? _]. }
    destruct (IH c' fc b Hk' Hw Hok) as (pre & de1 & lba1 & slot1 & post & ctx' & -> & Hp & ? & ?).
    exists ((de, lba, slot) :: pre), de1, lba1, slot1, post, ctx'. split; [done|]. cbn [walk]. by rewrite E.
Qed.

(** The lookup after the slot it found was rewritten under its name. *)
Lemma find_after_patch name items fc b de' : NoDup (pos <$> items) -> walk (find_cb name) items find_zero = (fc, b) -> fc_ok fc = true ->
  zlen (fc_found fc) = 32 -> zlen de' = 32 -> de_name de' = de_name (fc_found fc) -> de_attr de' <> FAT32_ATTR_LFN ->
  walk (find_cb name) (patch (fc_lba fc, fc_slot fc) de' <$> items) find_zero = (set_found de' fc, true).
Proof.
  intros Hnd Hw Hok Hl Hl' Hn Ha. destruct (walk_find name items find_zero fc b eq_refl Hw Hok) as (pre & de & lba & slot & post & ctx' & -> & Hp & Hk & Ecb).
  destruct (find_cb_hit _ _ _ _ _ _ _ Hk Ecb Hok) as (_ & Ef & <- & <- & _). rewrite fmap_app, fmap_cons. rewrite Ef in *.
  rewrite fmap_app, fmap_cons in Hnd. apply list.NoDup_app in Hnd as (_ & Hdis & _). cbn [pos] in Hdis.
  replace (patch _ de' <$> pre) with pre.
  - rewrite walk_app, Hp. cbn [walk]. unfold patch at 1. rewrite decide_True by done. cbn [fst snd].
    by rewrite (find_cb_same name de de' _ _ ctx' fc).
  - symmetry. rewrite <- (list_fmap_id pre) at 2. apply list_fmap_ext. intros k x Hx%list_elem_of_lookup_2. unfold patch. rewrite decide_False; [done|].
    intros E. apply (Hdis (fc_lba fc, fc_slot fc)); [rewrite <- E; by apply list_elem_of_fmap_2|constructor].
Qed.

Section spec.
Context {D : Type} `{BlockDev D, !BlockDevLaws D} (g : fat32_fs).
Implicit Types s : fatstate D.
#[local] Abbreviation fat := (fat g).
#[local] Abbreviation csec := (csec g).
#[local] Abbreviation rep := (fat_rep g).
#[local] Abbreviation chain := (chain g).

Lemma find_run s d name dl : rep s -> chain (fat s) (dir_start g d) dl ->
  find_in_dir d name s = ((walk (find_cb name) (dir_items g s dl) find_zero).1, s).
Proof. intros. by apply for_each_walk. Qed.

Lemma slot_get_len (buf : sector) slot : zlen buf = 512 -> 0 <= slot < 16 -> zlen (slot_get buf slot) = 32.
Proof. intros. unfold slot_get. apply zlen_slice; lia. Qed.

(** Where the entry found is. *)
Lemma find_where s d name dl fc : rep s -> chain (fat s) (dir_start g d) dl -> find_in_dir d name s = (fc, s) -> fc_ok fc = true ->
  exists dc di, dc ∈ dl /\ cluster g dc /\ 0 <= di < sectors_per_cluster g /\ 0 <= fc_slot fc < 16 /\ fc_lba fc = data_lba g dc di /\
    fc_found fc = slot_get (csec s dc di) (fc_slot fc) /\ zlen (fc_found fc) = 32.
Proof.
  intros Hr Hc Hf Hok. rewrite (find_run s d name dl Hr Hc) in Hf. injection Hf as Hf.
  destruct (walk (find_cb name) (dir_items g s dl) find_zero) as [fc' b] eqn:E. cbn in Hf. subst fc'.
  destruct (walk_find name _ find_zero fc b eq_refl E Hok) as (pre & de & lba & slot & post & ctx' & Ei & _ & Hk & Ecb).
  destruct (find_cb_hit _ _ _ _ _ _ _ Hk Ecb Hok) as (_ & Ef & El & Es & _).
  assert (Hin : (de, lba, slot) ∈ dir_items g s dl) by (rewrite Ei; apply list.elem_of_app; right; constructor).
  apply elem_dir_items in Hin as (c & i & j & Hcl & Hi & Hj & E'). injection E' as -> -> ->.
  pose proof (chain_Forall g (fat s) _ _ Hc) as HF. rewrite list.Forall_forall in HF.
  exists c, i. rewrite Es, El, Ef. split; [done|]. split; [by apply HF|]. do 4 (split; [done|]). apply slot_get_len; [by apply (csec_len g)|done].
Qed.

End spec.
End FatFind.
