(* ===== verification/FatProps.v ===== *)
(** FAT32 files: what replacing a file's contents does to the volume, what is
    read back, and the other files. *)
From S2P Require Import Prelude CString Disk FatData FatDir FatFile FatSpec FatChain FatWrite FatDirSpec FatFind.
From stdpp Require Import base list numbers.
From Stdlib Require Import ZArith Lia.
Import CString Fat FatDir FatFile FatSpec FatChain FatIO FatWrite FatDirSpec FatFind.
Open Scope Z_scope.

Module FatProps.

Section spec.
Context {D : Type} `{BlockDev D, !BlockDevLaws D} (g : fat32_fs).
Implicit Types s : fatstate D.
#[local] Abbreviation entry := (entry g).
#[local] Abbreviation cluster := (cluster g).
#[local] Abbreviation fat := (fat g).
#[local] Abbreviation csec := (csec g).
#[local] Abbreviation data_lba := (data_lba g).
#[local] Abbreviation rep := (fat_rep g).
#[local] Abbreviation chain := (chain g).
#[local] Abbreviation spc := (sectors_per_cluster g).
#[local] Abbreviation cbytes := (cbytes g).

Lemma chain_live f c l x : chain f c l -> x ∈ l -> f x <> 0 /\ cluster x.
Proof.
  intros Hc Hx. pose proof (chain_Forall g f c l Hc) as HF. rewrite list.Forall_forall in HF. split; [|by apply HF].
  apply list_elem_of_split in Hx as (l1 & l2 & ->). pose proof (chain_suffix g f _ _ _ _ Hc) as (_ & _ & Hs).
  destruct l2 as [|y l2]; cbn in Hs; unfold FAT32_CLUSTER_EOC in Hs; [lia|]. destruct Hs as (-> & Hy & _). unfold FatSpec.cluster in Hy. lia.
Qed.

(** Clusters freed with a chain. *)
Lemma count_clear f n l : NoDup l -> (forall x, x ∈ l -> 2 <= x < Z.of_nat n /\ f x <> 0) ->
  count n (fun c => (2 <=? c) && (fat_clear f l c =? 0)) = count n (fun c => (2 <=? c) && (f c =? 0)) + zlen l.
Proof.
  induction l as [|x l IH]; intros Hn Hl.
  { change (zlen []) with 0. rewrite Z.add_0_r. apply count_ext. intros i _. unfold fat_clear. by rewrite decide_False by apply list.not_elem_of_nil. }
  apply list.NoDup_cons in Hn as [Hx Hn].
  destruct (Hl x ltac:(constructor)) as [Hb Hf].
  rewrite (count_flip n (fun c => (2 <=? c) && (fat_clear f l c =? 0)) (fun c => (2 <=? c) && (fat_clear f (x :: l) c =? 0)) x); [| lia| | |].
  - rewrite IH; [unfold zlen; cbn [length]; lia|done|]. intros y Hy. apply Hl. by constructor.
  - unfold fat_clear. rewrite decide_False by done. by rewrite (proj2 (Z.eqb_neq _ 0)), andb_false_r.
  - unfold fat_clear. rewrite decide_True by constructor. rewrite (proj2 (Z.leb_le 2 x)) by lia. done.
  - intros i _ Hi. unfold fat_clear. f_equal. f_equal. destruct (decide (i ∈ l)), (decide (i ∈ x :: l)) as [H'|H']; rewrite ?list.elem_of_cons in *; (done || tauto).
Qed.
Lemma nfree_clear s s1 c l d : rep s -> chain (fat s) c l -> shift g s s1 (fat_clear (fat s) l) d -> nfree g s1 = nfree g s + zlen l.
Proof.
  intros Hr Hc S. unfold nfree. rewrite <- (count_clear (fat s) _ l).
  - apply count_ext. intros x Hx. destruct (2 <=? x) eqn:E; [|done]. cbn [andb]. rewrite (sh_fat _ _ _ _ _ S); [done|]. unfold FatSpec.entry. lia.
  - eapply chain_NoDup; [|exact Hc]. destruct (fr_geom g s Hr). lia.
  - intros x Hx. destruct (chain_live _ _ _ _ Hc Hx) as [? Hcl]. unfold FatSpec.cluster in Hcl. split; [lia|done].
Qed.

(** The old contents of an entry: an empty file or a chain. *)
Definition old_chain s (first : Z) (l : list Z) : Prop := (first < 2 /\ l = []) \/ (2 <= first /\ chain (fat s) first l).

Lemma free_old s first l : rep s -> hint_ok g s -> old_chain s first l ->
  exists s1, when (2 <=? first) (free_chain first) s = (tt, s1) /\ hint_ok g s1 /\ shift g s s1 (fat_clear (fat s) l) (csec s) /\
    nfree g s1 = nfree g s + zlen l.
Proof.
  intros Hr Hh [[Hf ->]|[Hf Hc]].
  - exists s. rewrite (proj2 (Z.leb_gt 2 first)) by lia. split; [done|]. split; [done|].
    split; [by apply (shift_eq _ _ _ _ _ _ _ (shift_refl g s Hr))|change (zlen []) with 0; lia].
  - rewrite (proj2 (Z.leb_le 2 first)) by lia. cbn [when]. destruct (free_run g s first l Hr Hc) as (s1 & E & Hg & S). exists s1.
    split; [done|]. split; [unfold hint_ok in *; by rewrite Hg|]. split; [done|]. by apply (nfree_clear _ _ first l _ Hr Hc S).
Qed.

(** The volume after the entry at [(dc, di, slot)] got the data. *)
Record replaced s s' (data : list Z) (l0 : list Z) (dc di slot first : Z) (l : list Z) : Prop := {
  rp_rep : rep s'; rp_hint : hint_ok g s'; rp_fds : fat32_fds s' = fat32_fds s;
  rp_chain : chain (fat s') first l;
  rp_from : forall x, x ∈ l -> cluster x /\ (x ∈ l0 \/ fat s x = 0);
  rp_len : zlen l = Z.min ((zlen data - 1) / cbytes + 1) (nfree g s + zlen l0);
  rp_bytes : forall n, 0 <= n <= Z.min (zlen data) (zlen l * cbytes) -> slice (file_data g s' l) 0 n = slice data 0 n;
  rp_fat : forall x, entry x -> x ∉ l -> fat s' x = fat_clear (fat s) l0 x;
  rp_data : forall x i, cluster x -> 0 <= i < spc -> x ∉ l ->
    csec s' x i = if decide (x = dc /\ i = di)
                  then slot_put (csec s dc di) slot (set_de_fields FAT32_ATTR_ARCHIVE first (zlen data) (slot_get (csec s dc di) slot)) else csec s x i;
}.

Lemma is_sector_slot_put buf slot de : is_sector buf -> zlen de = 32 -> is_bytes de -> 0 <= slot < 16 -> is_sector (slot_put buf slot de).
Proof.
  intros [Hl Hb] Hd Hdb Hs. unfold SECTOR_SIZE in *. split; [unfold SECTOR_SIZE, slot_put; rewrite zlen_splice; lia|]. by apply Forall_splice.
Qed.
Lemma set_fields_bytes attr first size de : is_bytes de -> is_bytes (set_de_fields attr first size de).
Proof. intros. unfold set_de_fields. by repeat apply put_le_bytes. Qed.

Lemma update_fields_run s c i lba slot attr first size : rep s -> cluster c -> 0 <= i < spc -> 0 <= slot < 16 -> lba = data_lba c i ->
  exists s', update_dirent_fields lba slot attr first size s = (tt, s') /\ g_fat32 s' = g_fat32 s /\
    shift g s s' (fat s) (fun c' i' => if decide (c' = c /\ i' = i) then slot_put (csec s c i) slot (set_de_fields attr first size (slot_get (csec s c i) slot)) else csec s c' i').
Proof.
  intros Hr Hc Hi Hs ->. unfold update_dirent_fields, update_slot, block_read. rewrite (bind_run _ _ s (csec s c i) s) by done.
  rewrite block_write_run. eexists. split; [done|]. split; [done|]. apply (write_shift g s c i); [done|done|done|].
  assert (Hsec : is_sector (csec s c i)) by (apply bread_sector, Hr).
  apply is_sector_slot_put; [done| | |done].
  - apply zlen_set_fields. apply slot_get_len; [apply Hsec|done].
  - apply set_fields_bytes. apply Forall_slice, Hsec.
Qed.

(** Freeing the old chain, allocating the first cluster, writing the data and
    updating the entry. *)
Lemma replace_run s fc dc di l0 data d name :
  rep s -> hint_ok g s -> mounted g <> 0 -> is_bytes data -> 0 < zlen data ->
  find_in_dir d name s = (fc, s) -> fc_ok fc = true ->
  cluster dc -> 0 <= di < spc -> 0 <= fc_slot fc < 16 -> fc_lba fc = data_lba dc di -> fc_found fc = slot_get (csec s dc di) (fc_slot fc) ->
  old_chain s (de_first_cluster (fc_found fc)) l0 -> dc ∉ l0 -> fat s dc <> 0 -> 0 < nfree g s + zlen l0 ->
  exists first l s', fat32_write_file d name data (zlen data) s = (0, s') /\ replaced s s' data l0 dc di (fc_slot fc) first l.
Proof.
  intros Hr Hh Hm Hb Hlen Hfind Hok Hdc Hdi Hslot Hlba Hfound Hold Hdl0 Hdlive Hfree. pose proof (spc_bounds g s Hr) as Hspc.
  unfold fat32_write_file, fs. rewrite (bind_run (gets g_fat32) _ s (g_fat32 s) s) by done.
  rewrite (rep_field g mounted s Hr) by done. rewrite (proj2 (Z.eqb_neq (mounted g) 0)) by done.
  rewrite (bind_run _ _ _ _ _ Hfind), Hok. cbn [andb].
  destruct (free_old s _ l0 Hr Hh Hold) as (s1 & E1 & Hh1 & S1 & Hn1). rewrite (bind_run _ _ _ _ _ E1).
  rewrite (proj2 (Z.ltb_lt 0 (zlen data))) by done. cbn [andb].
  destruct (alloc_run g s1 (sh_rep _ _ _ _ _ S1) Hh1) as [(c & s2 & E2 & Hc & Hf2 & Hh2 & S2)|[_ Hno]]; [|pose proof (fat_none_free g s1 Hno); lia].
  rewrite (bind_run _ _ _ _ _ E2). rewrite (proj2 (Z.eqb_neq c 0)) by (unfold FatSpec.cluster in Hc; lia).
  assert (Hfresh : fresh g s2 c).
  { constructor; [done| |].
    - rewrite (sh_fat _ _ _ _ _ S2) by by apply cluster_entry. unfold fat_set. by rewrite decide_True.
    - intros j Hj. rewrite (sh_data _ _ _ _ _ S2) by done. unfold data_set. by rewrite decide_True. }
  assert (Hn2 : nfree g s2 = nfree g s1 - 1) by (eapply nfree_set; [exact S2|done|done|done]).
  destruct (write_clusters_run g data Hb (Z.to_nat (zlen data / FAT32_SECTOR_SIZE + 2)) s2 c 0 (sh_rep _ _ _ _ _ S2) Hh2 Hfresh) as (l & s3 & E3 & W);
    [lia|unfold FAT32_SECTOR_SIZE; zdm|]. destruct W as [W1 W2 W3 W4 W5 W6 W7 W8 W9 W10]. rewrite (bind_run _ _ _ _ _ E3).
  destruct (update_fields_run s3 dc di (fc_lba fc) (fc_slot fc) FAT32_ATTR_ARCHIVE c (zlen data) W1 Hdc Hdi Hslot Hlba) as (s' & E4 & Hg4 & S4).
  rewrite (bind_run _ _ _ _ _ E4). exists c, (c :: l), s'. split; [done|].
  assert (Hfat1 : forall x, entry x -> fat s1 x = fat_clear (fat s) l0 x) by apply S1.
  assert (Hfree1 : forall x, x ∈ c :: l -> cluster x /\ fat_clear (fat s) l0 x = 0).
  { intros x [->|Hx]%list.elem_of_cons; [split; [done|]; by rewrite <- Hfat1 by by apply cluster_entry|].
    destruct (W6 x Hx) as [Hxc E]. split; [done|]. rewrite (sh_fat _ _ _ _ _ S2) in E by by apply cluster_entry. unfold fat_set in E.
    case_decide as Ed; [done|]. by rewrite <- Hfat1 by by apply cluster_entry. }
  assert (Hdcl : dc ∉ c :: l).
  { intros Hin. destruct (Hfree1 dc Hin) as [_ E]. unfold fat_clear in E. by rewrite decide_False in E. }
  assert (Hd3 : forall x i, cluster x -> 0 <= i < spc -> x ∉ c :: l -> csec s3 x i = csec s x i).
  { intros x i Hx Hi Hn. rewrite W8, (sh_data _ _ _ _ _ S2) by done. unfold data_set. rewrite decide_False by (intros ->; apply Hn; constructor). by apply S1. }
  assert (Hfile : file_data g s' (c :: l) = file_data g s3 (c :: l)).
  { unfold file_data. f_equal. apply map_ext_in. intros x Hx%list_elem_of_In. apply cdata_eq. intros j Hj.
    rewrite (sh_data _ _ _ _ _ S4) by (done || by apply Hfree1). rewrite decide_False; [done|]. intros [-> _]. done. }
  assert (Hz : zlen (c :: l) = 1 + zlen l) by (unfold zlen; cbn; lia).
  constructor.
  - apply S4.
  - unfold hint_ok in *. by rewrite Hg4.
  - rewrite (sh_fds _ _ _ _ _ S4), W3, (sh_fds _ _ _ _ _ S2). apply S1.
  - eapply chain_ext; [|exact W5]. intros x Hx. apply (sh_fat _ _ _ _ _ S4). apply cluster_entry. by apply Hfree1.
  - intros x Hx. destruct (Hfree1 x Hx) as [? E]. split; [done|]. unfold fat_clear in E. case_decide; auto.
  - rewrite Hz, W9, Hn2, Hn1. rewrite Z.sub_0_r. lia.
  - rewrite Hz, Hfile. intros n Hn. apply W10. lia.
  - intros x Hx Hn. rewrite (sh_fat _ _ _ _ _ S4), W7, (sh_fat _ _ _ _ _ S2) by done. unfold fat_set.
    rewrite decide_False by (intros ->; apply Hn; constructor). by apply Hfat1.
  - intros x i Hx Hi Hn. rewrite (sh_data _ _ _ _ _ S4) by done. rewrite !Hd3 by done. done.
Qed.

(** The entry as the file's [fat32_dirent_t]. *)
Definition dirent_at (de : list Z) : dirent := mk_dirent (name_from_83 (de_name de)) (de_attr de) (de_first_cluster de) (de_file_size de).

(** A file named in a directory: its directory's clusters [dl], its entry
    [fc] and its clusters [l0], apart from each other. *)
Record file_at s (d : Z) (name : list Z) (dl : list Z) (fc : find_ctx) (l0 : list Z) : Prop := {
  fa_dir : chain (fat s) (dir_start g d) dl;
  fa_find : find_in_dir d name s = (fc, s);
  fa_ok : fc_ok fc = true;
  fa_chain : old_chain s (de_first_cluster (fc_found fc)) l0;
  fa_apart : forall x, x ∈ dl -> x ∉ l0;
}.
Record volume s : Prop := { vo_rep : rep s; vo_hint : hint_ok g s; vo_mounted : mounted g <> 0 }.

(** Replacing a file's contents, on the lists of clusters involved. *)
Lemma overwrite_run s d name dl fc l0 data : volume s -> file_at s d name dl fc l0 -> is_bytes data -> 0 < zlen data ->
  0 < nfree g s + zlen l0 ->
  exists dc di first l s', fat32_write_file d name data (zlen data) s = (0, s') /\ dc ∈ dl /\
    replaced s s' data l0 dc di (fc_slot fc) first l /\ file_at s' d name dl (set_found (set_de_fields FAT32_ATTR_ARCHIVE first (zlen data) (fc_found fc)) fc) l /\
    zlen (fc_found fc) = 32 /\ (forall x, x ∈ dl -> x ∉ l).
Proof.
  intros [Hr Hh Hm] [Hdl Hfind Hok Hold Hap] Hb Hlen Hfree.
  destruct (find_where g s d name dl fc Hr Hdl Hfind Hok) as (dc & di & Hin & Hdc & Hdi & Hsl & Hlba & Hfd & Hl32).
  destruct (chain_live _ _ _ _ Hdl Hin) as [Hlive _].
  destruct (replace_run s fc dc di l0 data d name) as (first & l & s' & E & Rp); [done..|by apply Hap|done|done|].
  assert (Hdll : forall x, x ∈ dl -> x ∉ l).
  { intros x Hx Hxl. destruct (rp_from _ _ _ _ _ _ _ _ _ Rp x Hxl) as [_ [H0|H0]]; [by apply (Hap x Hx)|]. by destruct (chain_live _ _ _ _ Hdl Hx). }
  assert (Hdir : chain (fat s') (dir_start g d) dl).
  { eapply chain_ext; [|exact Hdl]. intros x Hx. rewrite (rp_fat _ _ _ _ _ _ _ _ _ Rp) by first [by apply Hdll|apply (cluster_entry g); by eapply chain_live].
    unfold fat_clear. rewrite decide_False by by apply Hap. done. }
  assert (Hfirst : 0 <= first < 2 ^ 32 /\ 2 <= first).
  { pose proof (rp_chain _ _ _ _ _ _ _ _ _ Rp) as Hc. destruct l as [|y l].
    - pose proof (rp_len _ _ _ _ _ _ _ _ _ Rp) as Hl. change (zlen []) with 0 in Hl. pose proof (spc_bounds g s Hr).
      assert (0 <= (zlen data - 1) / cbytes) by (apply Z.div_pos; unfold FatIO.cbytes; lia). lia.
    - destruct Hc as (-> & Hy & _). unfold FatSpec.cluster in Hy. destruct (fr_geom g s Hr). lia. }
  set (de' := set_de_fields FAT32_ATTR_ARCHIVE first (zlen data) (fc_found fc)) in *.
  assert (Hl' : zlen de' = 32) by by apply zlen_set_fields.
  exists dc, di, first, l, s'. split; [done|]. split; [done|]. split; [done|]. split; [|done].
  constructor; [done| |done| |done].
  - rewrite (find_run g s d name dl Hr Hdl) in Hfind. injection Hfind as Hfind.
    destruct (walk (find_cb name) (dir_items g s dl) find_zero) as [fc1 b] eqn:Ew. cbn in Hfind. subst fc1.
    rewrite (find_run g s' d name dl (rp_rep _ _ _ _ _ _ _ _ _ Rp) Hdir). f_equal.
    rewrite (dir_items_patch g s s' dl dc di (fc_slot fc) de' Hr (rp_rep _ _ _ _ _ _ _ _ _ Rp)); [|by eapply chain_Forall|done..|].
    + rewrite <- Hlba. rewrite (find_after_patch name _ fc b de'); [done| |done|done|done|done|by apply set_fields_name|].
      * apply (pos_NoDup g s); [done| |by eapply chain_Forall]. eapply chain_NoDup; [|exact Hdl]. destruct (fr_geom g s Hr). lia.
      * unfold de'. by rewrite set_fields_attr.
    + intros c i Hc Hi. rewrite (rp_data _ _ _ _ _ _ _ _ _ Rp) by first [done|by apply Hdll|by eapply chain_live]. by rewrite <- Hfd.
  - right. cbn [fc_found set_found]. unfold de'. rewrite set_fields_first by (done || lia). split; [lia|]. apply Rp.
Qed.

(** C10 - overwriting a file: [fat32_write_file] on a name that the directory
    has, with enough free clusters (those the old contents used included),
    succeeds; the name is then found with the new size, and [fat32_read] of
    the entry gives back exactly the data. *)
Theorem fat32_overwrite_read_back s d name dl fc l0 data :
  volume s -> file_at s d name dl fc l0 -> is_bytes data -> 0 < zlen data < 2 ^ 32 ->
  (zlen data - 1) / cbytes + 1 <= nfree g s + zlen l0 ->
  exists fc' s', fat32_write_file d name data (zlen data) s = (0, s') /\ find_in_dir d name s' = (fc', s') /\ fc_ok fc' = true /\
    de_file_size (fc_found fc') = zlen data /\ fat32_read (dirent_at (fc_found fc')) 0 (zlen data) s' = (data, s').
Proof.
  intros Hv Hf Hb Hlen Hfree. pose proof (spc_bounds g s (vo_rep _ Hv)). assert (512 <= cbytes) by (unfold FatIO.cbytes; lia).
  assert (0 <= (zlen data - 1) / cbytes) by (apply Z.div_pos; lia).
  destruct (overwrite_run s d name dl fc l0 data) as (dc & di & first & l & s' & E & _ & Rp & Hf' & H32 & _); [done..|lia|lia|].
  eexists _, s'. split; [exact E|]. split; [apply Hf'|]. split; [apply Hf'|]. cbn [fc_found set_found].
  rewrite set_fields_size, Z.mod_small by (done || lia). split; [done|].
  pose proof (rp_len _ _ _ _ _ _ _ _ _ Rp) as Hl.
  destruct (fa_chain _ _ _ _ _ _ Hf') as [[? ->]|[_ Hc]]; [change (zlen []) with 0 in Hl; lia|]. cbn [fc_found set_found] in Hc.
  assert (Hsz : d_size (dirent_at (set_de_fields FAT32_ATTR_ARCHIVE first (zlen data) (fc_found fc))) = zlen data).
  { cbn. by rewrite set_fields_size, Z.mod_small by (done || lia). }
  assert (zlen data <= zlen l * cbytes) by (pose proof (Z.div_mod (zlen data - 1) cbytes); pose proof (Z.mod_pos_bound (zlen data - 1) cbytes); nia).
  rewrite (fat_read_run g s' _ 0 (zlen data) l); [|apply Rp|apply Hv|exact Hc|rewrite Hsz; lia|lia|lia|lia].
  f_equal. rewrite Hsz, Z.sub_0_r, Z.min_id. rewrite (rp_bytes _ _ _ _ _ _ _ _ _ Rp) by lia. apply slice_all.
Qed.

(** C22 - overwriting a file disturbs no other: a chain that shares no cluster
    with the old contents stays a chain of the table, and unless it belongs to
    the directory itself every byte of it is unchanged. *)
Theorem fat32_overwrite_isolated s d name dl fc l0 data s' r c k :
  volume s -> file_at s d name dl fc l0 -> is_bytes data -> 0 < zlen data -> 0 < nfree g s + zlen l0 ->
  fat32_write_file d name data (zlen data) s = (r, s') ->
  chain (fat s) c k -> (forall x, x ∈ k -> x ∉ l0) ->
  chain (fat s') c k /\ ((forall x, x ∈ k -> x ∉ dl) -> file_data g s' k = file_data g s k).
Proof.
  intros Hv Hf Hb Hlen Hfree E Hk Hkl0. destruct (overwrite_run s d name dl fc l0 data) as (dc & di & first & l & s1 & E1 & Hdc & Rp & _); [done..|].
  rewrite E1 in E. injection E as <- <-.
  assert (Hkl : forall x, x ∈ k -> x ∉ l).
  { intros x Hx Hxl. destruct (rp_from _ _ _ _ _ _ _ _ _ Rp x Hxl) as [_ [H0|H0]]; [by apply (Hkl0 x Hx)|]. by destruct (chain_live _ _ _ _ Hk Hx). }
  split.
  - eapply chain_ext; [|exact Hk]. intros x Hx. rewrite (rp_fat _ _ _ _ _ _ _ _ _ Rp) by first [by apply Hkl|apply (cluster_entry g); by eapply chain_live].
    unfold fat_clear. by rewrite decide_False by by apply Hkl0.
  - intros Hdl. unfold file_data. f_equal. apply map_ext_in. intros x Hx%list_elem_of_In. apply cdata_eq. intros j Hj.
    rewrite (rp_data _ _ _ _ _ _ _ _ _ Rp) by first [done|by apply Hkl|by eapply chain_live]. rewrite decide_False; [done|].
    intros [-> _]. by apply (Hdl dc).
Qed.

(** *** The loops along a chain *)

(** The [while] loop of [for_each_dirent] as it is written, without a bound on
    its rounds: from cluster [c] it ends with the last two arguments. *)
Section loops.
Context {C : Type} (cb : list Z -> Z -> Z -> C -> C * bool).
Definition live_cluster (c : Z) : bool := (2 <=? c) && negb (fat_is_eoc c).
Definition round (c : Z) (ctx : C) : st (fatstate D) (C * bool) :=
  f ← fs; cluster_entries cb (rounds 0 (sectors_per_cluster f)) (cluster_to_lba f c) 0 ctx.
Inductive walk_ends : Z -> C -> fatstate D -> C -> fatstate D -> Prop :=
  | we_done c ctx s : live_cluster c = false -> walk_ends c ctx s ctx s
  | we_return c ctx s ctx' s' : live_cluster c = true -> round c ctx s = ((ctx', true), s') -> walk_ends c ctx s ctx' s'
  | we_round c ctx s ctx1 s1 next s2 ctx' s' : live_cluster c = true -> round c ctx s = ((ctx1, false), s1) ->
      fat_entry_get c s1 = (next, s2) -> walk_ends next ctx1 s2 ctx' s' -> walk_ends c ctx s ctx' s'.

Lemma walk_ends_det c ctx s ctx1 s1 : walk_ends c ctx s ctx1 s1 -> forall ctx2 s2, walk_ends c ctx s ctx2 s2 -> (ctx2, s2) = (ctx1, s1).
Proof.
  induction 1 as [c ctx s Hl|c ctx s ctx' s' Hl E|c ctx s ctxa sa next sb ctx' s' Hl E G _ IH]; intros ctx2 s2 Hw; inversion Hw; subst; try congruence.
  apply IH. congruence.
Qed.
Lemma round_run s c ctx : rep s -> cluster c -> round c ctx s = (walk cb (cluster_items g s c 0) ctx, s).
Proof.
  intros Hr Hc. unfold round, fs. rewrite (bind_run (gets g_fat32) _ s (g_fat32 s) s) by done. rewrite (rep_field g sectors_per_cluster s Hr) by done. pose proof (spc_bounds g s Hr).
  apply (cluster_entries_walk g cb (rounds 0 spc) s c 0 ctx Hr Hc); [lia|unfold rounds; lia].
Qed.
(** On a chain it ends. *)
Lemma chain_walk_ends l : forall s c ctx, rep s -> chain (fat s) c l -> walk_ends c ctx s (walk cb (dir_items g s l) ctx).1 s.
Proof.
  induction l as [|x l IH]; intros s c ctx Hr Hc.
  { apply we_done. exact (chain_nil_dead g s c Hc). }
  pose proof Hc as (-> & Hx & Hl). pose proof (round_run s x ctx Hr Hx) as E. unfold dir_items. cbn [map concat]. rewrite walk_app. fold (dir_items g s l).
  destruct (walk cb (cluster_items g s x 0) ctx) as [ctx1 []].
  - by apply we_return; [exact (live g s x Hr Hx)|].
  - eapply we_round; [exact (live g s x Hr Hx)|exact E|exact (fat_get_run g s x Hr (cluster_entry g x Hx))|by apply IH].
Qed.
(** On clusters that lead only to each other it never does, unless the
    callback returns. *)
Lemma walk_on_cycle_never_ends s (L : list Z) c ctx ctx' s' : rep s -> (forall x, x ∈ L -> cluster x /\ fat s x ∈ L) -> c ∈ L ->
  (forall de lba slot ctx, (cb de lba slot ctx).2 = false) -> ~ walk_ends c ctx s ctx' s'.
Proof.
  intros Hr HL Hc Hcb Hw. induction Hw as [c ctx s Hl|c ctx s ctx' s' Hl E|c ctx s ctx1 s1 next s2 ctx' s' Hl E G _ IH]; destruct (HL c Hc) as [Hx Hn].
  - pose proof (live g s c Hr Hx) as Ht. unfold live_cluster in Hl. congruence.
  - rewrite round_run in E by done. injection E as E _. assert (Hf : forall items x, (walk cb items x).2 = false).
    { induction items as [|[[de lba] slot] items IHi]; intros x; [done|]. cbn [walk]. specialize (Hcb de lba slot x). destruct (cb de lba slot x) as [x' b]. cbn in Hcb. subst b. apply IHi. }
    specialize (Hf (cluster_items g s c 0) ctx). rewrite E in Hf. done.
  - rewrite round_run in E by done. injection E as _ <-. rewrite (fat_get_run g s c Hr (cluster_entry g c Hx)) in G. injection G as <- <-. by apply IH.
Qed.
End loops.

(** Freeing a chain does not depend on a bound that covers it. *)
Lemma free_loop_fuel l : forall n m s c, rep s -> (length l <= n)%nat -> (length l <= m)%nat -> chain (fat s) c l -> free_chain_loop n c s = free_chain_loop m c s.
Proof.
  induction l as [|x l IH]; intros n m s c Hr Hn Hm Hc.
  { assert (Hz : forall k, free_chain_loop k c s = (tt, s)) by (intros [|k]; cbn [free_chain_loop]; [done|]; by rewrite (chain_nil_dead g s c Hc)). by rewrite !Hz. }
  cbn in Hn, Hm. destruct n as [|n]; [lia|]. destruct m as [|m]; [lia|]. pose proof Hc as (-> & Hx & Hl). cbn [free_chain_loop]. rewrite (live g s x Hr Hx).
  rewrite !(bind_run _ _ _ _ _ (fat_get_run g s x Hr (cluster_entry g x Hx))).
  destruct (set_shift g s x FAT32_CLUSTER_FREE Hr (cluster_entry g x Hx)) as (s1 & E1 & _ & S1); [done|]. rewrite !(bind_run _ _ _ _ _ E1).
  apply IH; [apply S1|lia|lia|]. eapply chain_ext; [|exact Hl]. intros y Hy. rewrite (sh_fat _ _ _ _ _ S1) by (apply (cluster_entry g); by apply (chain_live _ _ _ _ Hl)).
  rewrite decide_False; [done|]. intros ->. assert (Hnd : NoDup (x :: l)) by (eapply chain_NoDup; [|exact Hc]; destruct (fr_geom g s Hr); lia). by apply list.NoDup_cons in Hnd as [Hnd _].
Qed.

(** C36 - The loops along a chain of clusters come to an end on every chain of
    a consistent volume. From the start of a directory the [while] loop of
    [for_each_dirent], whatever its callback, ends, in one state, and what it
    ends with is what the walk of the model gives with its bound on the rounds,
    or any larger one; looking for the last cluster of a chain ends at its last
    cluster, and freeing it ends, with any such bound in the same state. *)
Theorem fat32_chain_loops_end {C} (cb : list Z -> Z -> Z -> C -> C * bool) s d l ctx c k : rep s -> chain (fat s) (dir_start g d) l -> chain (fat s) c (c :: k) ->
  (exists ctx', walk_ends cb (dir_start g d) ctx s ctx' s /\ (forall ctx2 s2, walk_ends cb (dir_start g d) ctx s ctx2 s2 -> (ctx2, s2) = (ctx', s)) /\
     for_each_dirent cb d ctx s = (ctx', s) /\ forall fuel, (chain_fuel (g_fat32 s) <= fuel)%nat -> chain_entries cb fuel (dir_start g d) ctx s = (ctx', s)) /\
  (forall fuel, (chain_fuel (g_fat32 s) <= fuel)%nat -> chain_last fuel c s = (List.last (c :: k) 0, s)) /\
  (forall fuel, (chain_fuel (g_fat32 s) <= fuel)%nat -> free_chain_loop fuel c s = free_chain c s).
Proof.
  intros Hr Hd Hc. pose proof (chain_walk_ends cb l s _ ctx Hr Hd) as Hw. pose proof (chain_fuel_ok g s _ l Hr Hd) as Hl. pose proof (chain_fuel_ok g s _ _ Hr Hc) as Hk. split; [|split].
  - eexists. split; [exact Hw|]. split; [by apply walk_ends_det|]. split; [by apply for_each_walk|]. intros fuel Hf. apply chain_entries_walk; [done|done|lia].
  - intros fuel Hf. apply (last_run g); [done|cbn [length] in *; lia|done].
  - intros fuel Hf. unfold free_chain, fs. rewrite (bind_run (gets g_fat32) _ s (g_fat32 s) s) by done. by apply free_loop_fuel with (l := c :: k); [|lia|lia|].
Qed.

(** a volume that runs full while a file is overwritten: the call still
    returns 0 and the entry carries the full size, but the chain holds only
    the clusters there were, and reading the file gives only that many bytes
    of the data. *)
Theorem fat32_write_full_silent s d name dl fc l0 data :
  volume s -> file_at s d name dl fc l0 -> is_bytes data -> 0 < zlen data < 2 ^ 32 ->
  0 < nfree g s + zlen l0 < (zlen data - 1) / cbytes + 1 ->
  exists fc' s', fat32_write_file d name data (zlen data) s = (0, s') /\ find_in_dir d name s' = (fc', s') /\
    de_file_size (fc_found fc') = zlen data /\
    fat32_read (dirent_at (fc_found fc')) 0 (zlen data) s' = (slice data 0 ((nfree g s + zlen l0) * cbytes), s') /\
    (nfree g s + zlen l0) * cbytes < zlen data.
Proof.
  intros Hv Hf Hb Hlen Hfull. pose proof (spc_bounds g s (vo_rep _ Hv)). assert (512 <= cbytes) by (unfold FatIO.cbytes; lia).
  destruct (overwrite_run s d name dl fc l0 data) as (dc & di & first & l & s' & E & _ & Rp & Hf' & H32 & _); [done..|lia|lia|].
  eexists _, s'. split; [exact E|]. split; [apply Hf'|]. cbn [fc_found set_found].
  rewrite set_fields_size, Z.mod_small by (done || lia). split; [done|].
  pose proof (rp_len _ _ _ _ _ _ _ _ _ Rp) as Hl. rewrite Z.min_r in Hl by lia. rewrite <- Hl in *.
  destruct (fa_chain _ _ _ _ _ _ Hf') as [[? ->]|[_ Hc]]; [change (zlen []) with 0 in *; lia|]. cbn [fc_found set_found] in Hc.
  assert (Hsz : d_size (dirent_at (set_de_fields FAT32_ATTR_ARCHIVE first (zlen data) (fc_found fc))) = zlen data).
  { cbn. by rewrite set_fields_size, Z.mod_small by (done || lia). }
  assert (zlen l * cbytes < zlen data) by (pose proof (Z.div_mod (zlen data - 1) cbytes); pose proof (Z.mod_pos_bound (zlen data - 1) cbytes); nia).
  split; [|done]. rewrite (fat_read_run g s' _ 0 (zlen data) l); [|apply Rp|apply Hv|exact Hc|rewrite Hsz; lia|nia|lia|lia].
  f_equal. rewrite Hsz, Z.sub_0_r, Z.min_id. rewrite <- slice_cap, zlen_file by (lia || apply Rp). rewrite Z.sub_0_r, Z.min_r by lia.
  apply (rp_bytes _ _ _ _ _ _ _ _ _ Rp). lia.
Qed.

End spec.
End FatProps.
