(* ===== verification/FatDemo.v ===== *)
(** A FAT32 volume of 66600 sectors, formatted and given a file of two
    clusters and one of a single cluster: an instance of the theorems on FAT32 files. *)
From S2P Require Import Prelude CString Disk FatData FatDir FatFile FatSpec FatChain FatWrite FatDirSpec FatFind FatProps.
From stdpp Require Import base list gmap numbers.
From Stdlib Require Import ZArith Lia.
Import CString Drives Fat FatDir FatFile FatSpec FatChain FatIO FatWrite FatDirSpec FatFind FatProps.
Open Scope Z_scope.

Module FatDemo.

Definition blank : fatstate drives := mk_fat (mk_drives (0, 0) {[ (0, 0) := mk_drive 66600 ∅ ]}) zero_fs (replicate 16 zero_fd).
(** "A.TXT" *)
Definition a_txt : list Z := [65; 46; 84; 88; 84].
Definition b_txt : list Z := [66; 46; 84; 88; 84].
Definition demo : fatstate drives :=
  (fat32_write_file 0 b_txt (replicate 100 67) 100 (fat32_write_file 0 a_txt (replicate 600 66) 600 (fat32_format 0 66600 1 blank).2).2).2.
Definition geo : fat32_fs := Eval vm_compute in set_hint 0 (g_fat32 demo).
Definition found : find_ctx := Eval vm_compute in (find_in_dir 0 a_txt demo).1.

Lemma demo_volume : volume geo demo.
Proof.
  constructor; [constructor| |].
  - vm_compute. reflexivity.
  - constructor; vfacts.
  - vdec.
  - vfacts.
  - vfacts.
Qed.
Lemma demo_chain : FatChain.chain geo (fat geo demo) 3 [3; 4].
Proof. vfacts. Qed.
Lemma demo_file : file_at geo demo 0 a_txt [2] found [3; 4].
Proof.
  constructor.
  - vfacts.
  - rewrite (find_run geo demo 0 a_txt [2]); [|apply demo_volume|vfacts]. apply (f_equal2 pair); [vm_compute; reflexivity|reflexivity].
  - reflexivity.
  - right. split; [vfacts|exact demo_chain].
  - intros x ->%list_elem_of_singleton. vdec.
Qed.
Lemma demo_free : 0 < nfree geo demo.
Proof. apply (nfree_pos geo demo 6); vfacts. Qed.

(** Looking "A.TXT" up in the root directory, and the chain of that file. *)
Lemma fat32_chain_loops_end_witness : (exists ctx', walk_ends (find_cb a_txt) 2 find_zero demo ctx' demo /\ for_each_dirent (find_cb a_txt) 0 find_zero demo = (ctx', demo)) /\
  chain_last (chain_fuel (g_fat32 demo)) 3 demo = (List.last [3; 4] 0, demo).
Proof.
  destruct (fat32_chain_loops_end geo (find_cb a_txt) demo 0 [2] find_zero 3 [4] (vo_rep _ _ demo_volume) ltac:(vfacts) demo_chain) as ((ctx' & Hw & _ & E & _) & Hl & _).
  exact (conj (ex_intro _ ctx' (conj Hw E)) (Hl _ (le_n _))).
Defined.

(** The two clusters are replaced by three. *)
Definition new_data : list Z := replicate 1100 67.
Lemma new_data_ok : is_bytes new_data.
Proof. vdec. Qed.

Lemma fat32_overwrite_read_back_witness : volume geo demo /\ file_at geo demo 0 a_txt [2] found [3; 4] /\
  exists fc' s', fat32_write_file 0 a_txt new_data 1100 demo = (0, s') /\ find_in_dir 0 a_txt s' = (fc', s') /\ fc_ok fc' = true /\
    de_file_size (fc_found fc') = 1100 /\ fat32_read (dirent_at (fc_found fc')) 0 1100 s' = (new_data, s').
Proof.
  split; [exact demo_volume|]. split; [exact demo_file|].
  apply (fat32_overwrite_read_back geo demo 0 a_txt [2] found [3; 4] new_data demo_volume demo_file new_data_ok).
  - change (zlen new_data) with 1100. lia.
  - change (zlen new_data) with 1100. change (cbytes geo) with 512. change (zlen [3; 4]) with 2.
    change ((1100 - 1) / 512 + 1) with 3. pose proof demo_free. lia.
Defined.

Lemma demo_chain_b : FatChain.chain geo (fat geo demo) 5 [5].
Proof. vfacts. Qed.
Lemma fat32_overwrite_isolated_witness : (fat32_write_file 0 a_txt new_data 1100 demo).1 = 0 /\
  FatChain.chain geo (fat geo (fat32_write_file 0 a_txt new_data 1100 demo).2) 5 [5] /\
  file_data geo (fat32_write_file 0 a_txt new_data 1100 demo).2 [5] = file_data geo demo [5].
Proof.
  destruct (fat32_overwrite_isolated geo demo 0 a_txt [2] found [3; 4] new_data (fat32_write_file 0 a_txt new_data 1100 demo).2
    (fat32_write_file 0 a_txt new_data 1100 demo).1 5 [5] demo_volume demo_file new_data_ok) as [Hc Hd].
  - change (zlen new_data) with 1100. lia.
  - change (zlen [3; 4]) with 2. pose proof demo_free. lia.
  - apply surjective_pairing.
  - exact demo_chain_b.
  - intros x ->%list_elem_of_singleton. vdec.
  - split; [vm_compute; reflexivity|]. split; [exact Hc|]. apply Hd. intros x ->%list_elem_of_singleton. vdec.
Defined.

(** The same volume with every other cluster taken. *)
Definition fill_sector (b : sector) : sector :=
  concat (map (fun k => le_put 4 (if get32 b (4 * k) =? 0 then 0x0FFFFFFF else get32 b (4 * k))) (seqZ 0 128)).
Definition full_sector : sector := concat (replicate 128 [255; 255; 255; 15]).
Definition full : fatstate drives :=
  (ffor 1034 32 (fun l => if (l =? 32) || (l =? 549) then b ← block_read l; block_write l (fill_sector b) else block_write l full_sector) demo).2.

Lemma full_volume : volume geo full.
Proof.
  constructor; [constructor| |].
  - vm_compute. reflexivity.
  - constructor; vfacts.
  - vdec.
  - vfacts.
  - vfacts.
Qed.
Lemma full_file : file_at geo full 0 a_txt [2] found [3; 4].
Proof.
  constructor.
  - vfacts.
  - rewrite (find_run geo full 0 a_txt [2]); [|apply full_volume|vfacts]. apply (f_equal2 pair); [vm_compute; reflexivity|reflexivity].
  - reflexivity.
  - right. split; [vfacts|vfacts].
  - intros x ->%list_elem_of_singleton. vdec.
Qed.
Lemma full_free : nfree geo full = 0.
Proof.
  apply fat_none_free. intros c Hc E.
  pose proof (first_some_none (fun c => if fat geo full c =? 0 then Some c else None) (Z.to_nat 65534) 2 c) as Hn. cbn beta in Hn.
  rewrite E in Hn. cut (@None Z = Some c); [discriminate|]. symmetry. apply Hn; [vm_compute; reflexivity|].
  unfold FatSpec.cluster in Hc. change (data_clusters geo) with 65534 in Hc. rewrite Z2Nat.id by done. lia.
Qed.
Lemma fat32_write_full_silent_witness : volume geo full /\ file_at geo full 0 a_txt [2] found [3; 4] /\
  exists fc' s', fat32_write_file 0 a_txt new_data 1100 full = (0, s') /\ find_in_dir 0 a_txt s' = (fc', s') /\
    de_file_size (fc_found fc') = 1100 /\ fat32_read (dirent_at (fc_found fc')) 0 1100 s' = (slice new_data 0 1024, s') /\ 1024 < 1100.
Proof.
  split; [exact full_volume|]. split; [exact full_file|].
  pose proof (fat32_write_full_silent geo full 0 a_txt [2] found [3; 4] new_data full_volume full_file new_data_ok) as Hw.
  rewrite full_free in Hw. change (zlen [3; 4]) with 2 in Hw. change (zlen new_data) with 1100 in Hw. change (cbytes geo) with 512 in Hw.
  apply Hw; [lia|]. vm_compute. split; reflexivity.
Defined.
End FatDemo.
