(* ===== verification/VfsPath.v ===== *)
(** Paths of the virtual file system (src/vfs.c): normalisation, containment,
    splitting, name rules, drive names. A path is the list of its characters,
    without the terminator. *)
From S2P Require Import Prelude CString.
From stdpp Require Import base list numbers.
From Stdlib Require Import ZArith Lia.
Import CString.
Open Scope Z_scope.

Module VfsPath.

Definition VFS_PATH_MAX : Z := 128.
Definition VFS_NAME_MAX : Z := 32.
Definition VFS_MOUNT_PATH_MAX : Z := 48.
Definition COS_NAME_MAX : Z := 27.
Definition VFS_FS_NONE : Z := 0.
Definition VFS_FS_COSFS : Z := 1.
Definition VFS_FS_FAT32 : Z := 2.

(** '/', '.', "/", ".", "..". *)
Definition sl : Z := 47.
Definition dot : Z := 46.
Definition root_path : list Z := [sl].

Definition lc (c : Z) : Z := if (65 <=? c) && (c <=? 90) then c + 32 else c.

(** Whether [p] starts [s], case aside; [p] has [n] characters at each call. *)
Fixpoint ci_prefix (s p : list Z) : bool :=
  match p with
  | [] => true
  | y :: p' => if hd0 s =? 0 then false else if lc (hd0 s) =? lc y then ci_prefix (tail s) p' else false
  end.

Definition path_within (path base : list Z) : bool :=
  let n := length base in
  if (n =? 1)%nat then true else
  if negb (ci_prefix path base) then false else
  let c := hd0 (drop n path) in (c =? 0) || (c =? sl).

(** The next component: up to a slash; and what follows it. *)
Fixpoint skip_slashes (p : list Z) : list Z :=
  match p with c :: p' => if c =? sl then skip_slashes p' else p | [] => [] end.
Fixpoint take_comp (p : list Z) : list Z * list Z :=
  match p with
  | [] => ([], [])
  | c :: p' => if c =? sl then ([], p) else let (w, r) := take_comp p' in (c :: w, r)
  end.

(** The two shrinking steps for "..", on the reversed output: drop the last
    component, then its slash unless it is the first character. *)
Fixpoint drop_comp_rev (r : list Z) : list Z :=
  match r with
  | c :: ((_ :: _) as r') => if c =? sl then r else drop_comp_rev r'
  | _ => r
  end.
Definition pop_comp (out : list Z) : list Z :=
  if zlen out <=? 1 then out else
  match drop_comp_rev (rev out) with
  | _ :: ((_ :: _) as r) => rev r
  | r => rev r
  end.

Fixpoint norm_loop (fuel : nat) (p out : list Z) : option (list Z) :=
  match fuel with
  | O => None
  | S fuel =>
      match skip_slashes p with
      | [] => Some out
      | p =>
          let (comp, p) := take_comp p in
          if VFS_PATH_MAX - 1 <? zlen comp then None
          else if decide (comp = [dot]) then norm_loop fuel p out
          else if decide (comp = [dot; dot]) then norm_loop fuel p (pop_comp out)
          else if VFS_PATH_MAX <=? zlen out + zlen comp + 2 then None
          else norm_loop fuel p ((if 1 <? zlen out then out ++ [sl] else out) ++ comp)
      end
  end.

(** [normalize]; [cwd] is [s_cwd], [None] is [VFS_E_PATH]. *)
Definition normalize (cwd inp : list Z) : option (list Z) :=
  let inp := cstr inp in
  let inp := match inp with [] => [dot] | _ => inp end in
  if hd0 inp =? sl then
    if 2 * VFS_PATH_MAX <=? zlen inp then None else norm_loop (S (length inp)) inp root_path
  else
    if 2 * VFS_PATH_MAX <=? zlen cwd + zlen inp + 2 then None
    else let full := cwd ++ sl :: inp in norm_loop (S (length full)) full root_path.

(** Trailing slashes of [rel] dropped while more than one character is left;
    on the reversed path. *)
Fixpoint strip_rev (r : list Z) : list Z :=
  match r with
  | c :: ((_ :: _) as r') => if c =? sl then strip_rev r' else r
  | _ => r
  end.
(** Parent and leaf; [None] is -1. *)
Definition split_rel (rel : list Z) : option (list Z * list Z) :=
  let r := strip_rev (rev rel) in
  if zlen r <=? 1 then None else
  let (leaf_rev, rest) := take_comp r in
  if (zlen leaf_rev =? 0) || (VFS_NAME_MAX <=? zlen leaf_rev) then None else
  Some (if zlen rest <=? 1 then root_path else rev (tail rest), rev leaf_rev).

Fixpoint fat_name_scan (s : list Z) (base ext : Z) (dots : bool) : bool :=
  match s with
  | [] => (base <=? 8) && (ext <=? 3)
  | c :: s =>
      if c =? dot then (if dots || (base =? 0) then false else fat_name_scan s base ext true)
      else if (c =? 32) || (c =? sl) || (c =? 62) then false
      else if dots then fat_name_scan s base (ext + 1) dots else fat_name_scan s (base + 1) ext dots
  end.
Definition fat_name_ok (s : list Z) : bool :=
  match s with [] => false | _ => fat_name_scan s 0 0 false end.

Definition name_ok (fs : Z) (leaf : list Z) : bool :=
  if fs =? VFS_FS_FAT32 then fat_name_ok leaf else (0 <? zlen leaf) && (zlen leaf <=? COS_NAME_MAX).

Definition target_ok (t : list Z) : bool :=
  let n := zlen t in (1 <? n) && (n <? VFS_MOUNT_PATH_MAX) && (hd0 t =? sl).

(** The digits of a drive name: value, count and rest; [None] is -1. *)
Fixpoint drive_digits (s : list Z) (v digits : Z) : option (Z * Z * list Z) :=
  match s with
  | c :: s' =>
      if c =? dot then Some (v, digits, s)
      else if (c <? 48) || (57 <? c) then None
      else let v := v * 10 + (c - 48) in if 99 <? v then None else drive_digits s' v (digits + 1)
  | [] => Some (v, digits, [])
  end.
Definition vfs_parse_drive (active : Z) (s : list Z) : Z :=
  match cstr s with
  | [] => -1
  | c :: s' =>
      let s := if (c =? 100) || (c =? 68) then s' else c :: s' in
      match drive_digits s 0 0 with
      | None => -1
      | Some (v, digits, rest) =>
          if digits =? 0 then -1
          else if (hd0 rest =? dot) && negb (bool_decide (tail rest = [48])) then -1
          else if active <=? v then -1 else v
      end
  end.

End VfsPath.
