(* ===== verification/VfsData.v ===== *)
(** The virtual file system's state (src/vfs.c, src/vfs.h): mount table, open
    files, lock, the header kept on the root drive; drive detection and the
    lookups in the mount table. *)
From S2P Require Import Prelude CString Disk CosData CosAlloc CosFormat FatData FatDir FatFile VfsPath.
From stdpp Require Import base list numbers.
From Stdlib Require Import ZArith Lia.
Import CString VfsPath.
Open Scope Z_scope.

(** What the file layer uses of the rest of the kernel: the heap for its write
    buffer, the console for descriptors 0 to 2. *)
Class Kernel (K : Type) := {
  (** [malloc]: 0 is the null pointer *)
  k_malloc : Z -> K -> Z * K;
  k_free : Z -> K -> K;
  k_klog : list Z -> K -> K;
  (** [stdin_getc]: negative when no character waits *)
  k_stdin_getc : K -> Z * K;
  k_ps2_poll : K -> K;
}.

Module VfsData.

Definition VFS_OK : Z := 0.
Definition VFS_E_NODRIVE : Z := -1.
Definition VFS_E_NOFS : Z := -2.
Definition VFS_E_MOUNTED : Z := -3.
Definition VFS_E_NOROOT : Z := -4.
Definition VFS_E_TARGET : Z := -5.
Definition VFS_E_BUSY : Z := -6.
Definition VFS_E_NOTMOUNTED : Z := -7.
Definition VFS_E_IO : Z := -8.
Definition VFS_E_FSNAME : Z := -9.
Definition VFS_E_TOOSMALL : Z := -10.
Definition VFS_E_NOHDR : Z := -11.
Definition VFS_E_NAME : Z := -12.
Definition VFS_E_NOENT : Z := -13.
Definition VFS_E_EXIST : Z := -14.
Definition VFS_E_NOTDIR : Z := -15.
Definition VFS_E_ISDIR : Z := -16.
Definition VFS_E_PATH : Z := -17.
Definition VFS_E_NOTEMPTY : Z := -18.
Definition VFS_E_MFILE : Z := -19.
Definition VFS_E_BADF : Z := -20.
Definition VFS_E_NOTSUP : Z := -21.

Definition COS_MAGIC : Z := 0x5A4C534A.
Definition HDR_COS_OFFSET : Z := 64.
Definition HDR_FAT_SECTOR : Z := 12.
Definition HDR_MAGIC : Z := 0x56465332.
Definition HDR_MAGIC_V1 : Z := 0x56465331.
Definition HDR_MAX_MOUNTS : Z := 6.
Definition HDR_SIZE : Z := 320.
Definition VFS_MAX_MOUNTS : nat := 7.
Definition VFS_MAX_FDS : nat := 32.
Definition FAT_TMP_MAX : Z := 130.
Definition LOCK_NONE : Z := -2.

(** [vfs_mount_t]. *)
Record mount := mk_mount {
  m_used : bool; m_drive : Z; m_fs : Z; m_is_root : bool; m_part_lba : Z; m_seq : Z; m_open_count : Z;
  m_mountpoint : list Z; m_fat : Fat.fat32_fs;
}.
Definition zero_mount : mount := mk_mount false 0 0 false 0 0 0 [] Fat.zero_fs.
#[export] Instance mount_inhabited : Inhabited mount := populate zero_mount.

(** [vfs_file_t]; of [stream] only [eof]. *)
Record vfile := mk_vfile {
  v_used : bool; v_mount : Z; v_writable : bool; v_append : bool; v_pos : Z; v_size : Z; v_id : Z; v_rel : list Z; v_eof : bool;
}.
Definition zero_vfile : vfile := mk_vfile false 0 false false 0 0 0 [] false.
#[export] Instance vfile_inhabited : Inhabited vfile := populate zero_vfile.
Definition set_v_used (x : bool) (f : vfile) : vfile :=
  mk_vfile x (v_mount f) (v_writable f) (v_append f) (v_pos f) (v_size f) (v_id f) (v_rel f) (v_eof f).
Definition set_v_pos (x : Z) (f : vfile) : vfile :=
  mk_vfile (v_used f) (v_mount f) (v_writable f) (v_append f) x (v_size f) (v_id f) (v_rel f) (v_eof f).
Definition set_v_size (x : Z) (f : vfile) : vfile :=
  mk_vfile (v_used f) (v_mount f) (v_writable f) (v_append f) (v_pos f) x (v_id f) (v_rel f) (v_eof f).
Definition set_v_id (x : Z) (f : vfile) : vfile :=
  mk_vfile (v_used f) (v_mount f) (v_writable f) (v_append f) (v_pos f) (v_size f) x (v_rel f) (v_eof f).
Definition set_v_eof (x : bool) (f : vfile) : vfile :=
  mk_vfile (v_used f) (v_mount f) (v_writable f) (v_append f) (v_pos f) (v_size f) (v_id f) (v_rel f) x.
Definition set_m_used (x : bool) (m : mount) : mount :=
  mk_mount x (m_drive m) (m_fs m) (m_is_root m) (m_part_lba m) (m_seq m) (m_open_count m) (m_mountpoint m) (m_fat m).
Definition set_m_is_root (x : bool) (m : mount) : mount :=
  mk_mount (m_used m) (m_drive m) (m_fs m) x (m_part_lba m) (m_seq m) (m_open_count m) (m_mountpoint m) (m_fat m).
Definition set_m_fat (x : Fat.fat32_fs) (m : mount) : mount :=
  mk_mount (m_used m) (m_drive m) (m_fs m) (m_is_root m) (m_part_lba m) (m_seq m) (m_open_count m) (m_mountpoint m) x.
Definition set_m_open_count (x : Z) (m : mount) : mount :=
  mk_mount (m_used m) (m_drive m) (m_fs m) (m_is_root m) (m_part_lba m) (m_seq m) x (m_mountpoint m) (m_fat m).
(** [strcpy(slot->mountpoint, t); slot->used = 1; slot->seq = seq]. *)
Definition name_mount (t : list Z) (seq : Z) (m : mount) : mount :=
  mk_mount true (m_drive m) (m_fs m) (m_is_root m) (m_part_lba m) seq (m_open_count m) t (m_fat m).

(** [vnode_t], [vfs_dirent_t]. *)
Record vnode := mk_vnode { n_is_dir : bool; n_size : Z; n_id : Z }.
Record vdirent := mk_vdirent { vd_name : list Z; vd_is_dir : bool; vd_size : Z }.

(** The lock's three words. *)
Record lockst := mk_lock { s_lock : Z; s_owner : Z; s_depth : Z }.
Definition lock_free : lockst := mk_lock 0 LOCK_NONE 0.

(** The file layer and what is below it. *)
Record vstate (D K : Type) := mk_v {
  cos : Cos.fsstate D;             (** COSFS globals, with the device and g_drives *)
  fat32 : Fat.fat32_fs;            (** g_fat32 *)
  fat_fds : list Fat.fat_fd;
  kern : K;
  s_mounts : list mount;
  s_root : option Z;               (** index of the root mount *)
  s_files : list vfile;
  s_cwd : list Z;
  g_current_path : list Z;
  s_cos_loaded : Z;
  s_seq : Z;
  lck : lockst;
  current_task : Z;
}.
Arguments mk_v {D K}. Arguments cos {D K}. Arguments fat32 {D K}. Arguments fat_fds {D K}. Arguments kern {D K}.
Arguments s_mounts {D K}. Arguments s_root {D K}. Arguments s_files {D K}. Arguments s_cwd {D K}.
Arguments g_current_path {D K}. Arguments s_cos_loaded {D K}. Arguments s_seq {D K}. Arguments lck {D K}.
Arguments current_task {D K}.

Section setters.
Context {D K : Type}.
Implicit Types s : vstate D K.
Definition set_cos x s := mk_v (D:=D) (K:=K) x (fat32 s) (fat_fds s) (kern s) (s_mounts s) (s_root s) (s_files s) (s_cwd s) (g_current_path s) (s_cos_loaded s) (s_seq s) (lck s) (current_task s).
Definition set_fat32 x s := mk_v (D:=D) (K:=K) (cos s) x (fat_fds s) (kern s) (s_mounts s) (s_root s) (s_files s) (s_cwd s) (g_current_path s) (s_cos_loaded s) (s_seq s) (lck s) (current_task s).
Definition set_fat_fds x s := mk_v (D:=D) (K:=K) (cos s) (fat32 s) x (kern s) (s_mounts s) (s_root s) (s_files s) (s_cwd s) (g_current_path s) (s_cos_loaded s) (s_seq s) (lck s) (current_task s).
Definition set_kern x s := mk_v (D:=D) (K:=K) (cos s) (fat32 s) (fat_fds s) x (s_mounts s) (s_root s) (s_files s) (s_cwd s) (g_current_path s) (s_cos_loaded s) (s_seq s) (lck s) (current_task s).
Definition set_mounts x s := mk_v (D:=D) (K:=K) (cos s) (fat32 s) (fat_fds s) (kern s) x (s_root s) (s_files s) (s_cwd s) (g_current_path s) (s_cos_loaded s) (s_seq s) (lck s) (current_task s).
Definition set_root x s := mk_v (D:=D) (K:=K) (cos s) (fat32 s) (fat_fds s) (kern s) (s_mounts s) x (s_files s) (s_cwd s) (g_current_path s) (s_cos_loaded s) (s_seq s) (lck s) (current_task s).
Definition set_files x s := mk_v (D:=D) (K:=K) (cos s) (fat32 s) (fat_fds s) (kern s) (s_mounts s) (s_root s) x (s_cwd s) (g_current_path s) (s_cos_loaded s) (s_seq s) (lck s) (current_task s).
Definition set_cwd x s := mk_v (D:=D) (K:=K) (cos s) (fat32 s) (fat_fds s) (kern s) (s_mounts s) (s_root s) (s_files s) x (g_current_path s) (s_cos_loaded s) (s_seq s) (lck s) (current_task s).
Definition set_current_path x s := mk_v (D:=D) (K:=K) (cos s) (fat32 s) (fat_fds s) (kern s) (s_mounts s) (s_root s) (s_files s) (s_cwd s) x (s_cos_loaded s) (s_seq s) (lck s) (current_task s).
Definition set_cos_loaded x s := mk_v (D:=D) (K:=K) (cos s) (fat32 s) (fat_fds s) (kern s) (s_mounts s) (s_root s) (s_files s) (s_cwd s) (g_current_path s) x (s_seq s) (lck s) (current_task s).
Definition set_seq x s := mk_v (D:=D) (K:=K) (cos s) (fat32 s) (fat_fds s) (kern s) (s_mounts s) (s_root s) (s_files s) (s_cwd s) (g_current_path s) (s_cos_loaded s) x (lck s) (current_task s).
Definition set_lck x s := mk_v (D:=D) (K:=K) (cos s) (fat32 s) (fat_fds s) (kern s) (s_mounts s) (s_root s) (s_files s) (s_cwd s) (g_current_path s) (s_cos_loaded s) (s_seq s) x (current_task s).
End setters.

(** ** The header on disk *)

Record hdr_mount := mk_hm { hm_ata_base : Z; hm_is_slave : Z; hm_used : Z; hm_path : list Z }.
Record hdr := mk_hdr { h_magic : Z; h_is_root : Z; h_count : Z; h_mounts : list hdr_mount }.

(** A string in a zeroed array of [n] bytes. *)
Definition padz (n : Z) (s : list Z) : list Z := splice (replicate (Z.to_nat n) 0) 0 s.
Definition hm_encode (m : hdr_mount) : list Z :=
  le_put 2 (hm_ata_base m) ++ le_put 1 (hm_is_slave m) ++ le_put 1 (hm_used m) ++ padz VFS_MOUNT_PATH_MAX (hm_path m).
(** The 320 bytes of [vfs_hdr_t]; entries beyond the count are zero. *)
Definition hdr_encode (h : hdr) : list Z :=
  padz HDR_SIZE (le_put 4 (h_magic h) ++ le_put 1 (h_is_root h) ++ le_put 1 (h_count h) ++ le_put 2 0 ++
                 concat (map hm_encode (h_mounts h))).
(** The path as [t] receives it: 48 bytes, the last one overwritten by 0. *)
Definition hm_decode (b : list Z) : hdr_mount :=
  mk_hm (get16 b 0) (get_le 1 b 2) (get_le 1 b 3) (cstr (take 47 (slice b 4 VFS_MOUNT_PATH_MAX))).
Definition hdr_entries (size : Z) (dec : list Z -> hdr_mount) (b : list Z) : list hdr_mount :=
  map (fun k => dec (slice b (8 + size * k) size)) (seqZ 0 6).
Definition hdr_decode (b : list Z) : hdr :=
  mk_hdr (get32 b 0) (get_le 1 b 4) (get_le 1 b 5) (hdr_entries 52 hm_decode b).

(** "/mount/", before the 16-byte name of a version 1 entry. *)
Definition mount_prefix : list Z := [47; 109; 111; 117; 110; 116; 47].
Definition hm1_decode (b : list Z) : hdr_mount :=
  mk_hm (get16 b 0) (get_le 1 b 2) (get_le 1 b 3) (mount_prefix ++ cstr (take 15 (slice b 4 16))).
Definition hdr1_decode (b : list Z) : hdr :=
  mk_hdr HDR_MAGIC (get_le 1 b 4) (get_le 1 b 5) (hdr_entries 20 hm1_decode b).
(** The header as [vfs_init] uses it. *)
Definition hdr_upgrade (b : list Z) : hdr :=
  if get32 b 0 =? HDR_MAGIC_V1 then hdr1_decode b else hdr_decode b.

Definition is_fat32_bpb (s : sector) : bool :=
  if negb (s.[510] =? 0x55) || negb (s.[511] =? 0xAA) then false
  else if negb (s.[0] =? 0xEB) && negb (s.[0] =? 0xE9) then false
  else if negb (get16 s 11 =? 512) then false
  else if s.[13] =? 0 then false
  else if get32 s 36 =? 0 then false
  else if get32 s 44 <? 2 then false
  else true.

(** ** Lookups in the mount table *)

(** Index of the first element from [i] on that satisfies [f]. *)
Fixpoint find_index {A} (f : A -> bool) (l : list A) (i : Z) : option Z :=
  match l with
  | [] => None
  | x :: l => if f x then Some i else find_index f l (i + 1)
  end.
Definition find_by_drive (ms : list mount) (drive : Z) : option Z :=
  find_index (fun m => m_used m && (m_drive m =? drive)) ms 0.
Definition find_mount_exact (ms : list mount) (abs : list Z) : option Z :=
  find_index (fun m => m_used m && (strcasecmp (m_mountpoint m) abs =? 0)) ms 0.
Definition free_slot (ms : list mount) : option Z := find_index (fun m => negb (m_used m)) ms 0.

(** The loop of [find_mount]: the best mount so far and its length. *)
Fixpoint find_mount_loop (ms : list mount) (i : Z) (abs : list Z) (best : option Z) (best_len : Z) : option Z * Z :=
  match ms with
  | [] => (best, best_len)
  | m :: ms =>
      let n := if m_is_root m then 1 else zlen (m_mountpoint m) in
      if negb (m_used m) then find_mount_loop ms (i + 1) abs best best_len
      else if negb (path_within abs (m_mountpoint m)) then find_mount_loop ms (i + 1) abs best best_len
      else if best_len <? n then find_mount_loop ms (i + 1) abs (Some i) n
      else find_mount_loop ms (i + 1) abs best best_len
  end.
(** The mount's index and the path below it. *)
Definition find_mount (ms : list mount) (abs : list Z) : option (Z * list Z) :=
  match find_mount_loop ms 0 abs None 0 with
  | (None, _) => None
  | (Some i, best_len) =>
      let r := if m_is_root (ms.[i]) then abs else drop (Z.to_nat best_len) abs in
      Some (i, match r with [] => root_path | _ => r end)
  end.

(** Number of mounts of [drive], one excepted. *)
Fixpoint drive_refs_from (ms : list mount) (i drive : Z) (except : option Z) : Z :=
  match ms with
  | [] => 0
  | m :: ms =>
      (if m_used m && (m_drive m =? drive) && negb (bool_decide (Some i = except)) then 1 else 0) +
      drive_refs_from ms (i + 1) drive except
  end.
Definition drive_refs (ms : list mount) (drive : Z) (except : option Z) : Z := drive_refs_from ms 0 drive except.

Fixpoint find_last_loop (all ms : list mount) (i drive : Z) (best : option Z) : option Z :=
  match ms with
  | [] => best
  | m :: ms =>
      if negb (m_used m) || negb (m_drive m =? drive) then find_last_loop all ms (i + 1) drive best
      else
        let better := match best with None => true | Some b => m_seq (all.[b]) <? m_seq m end in
        find_last_loop all ms (i + 1) drive (if better then Some i else best)
  end.
Definition find_last_by_drive (ms : list mount) (drive : Z) : option Z := find_last_loop ms ms 0 drive None.

(** The exchange sort of [persist], by [seq]. The inner loop with [cur] in
    place [a] gives the element left there and the rest. *)
Fixpoint exchange (cur : mount) (rest : list mount) : mount * list mount :=
  match rest with
  | [] => (cur, [])
  | y :: rest =>
      if m_seq y <? m_seq cur
      then let (c, rest) := exchange y rest in (c, cur :: rest)
      else let (c, rest) := exchange cur rest in (c, y :: rest)
  end.
Fixpoint seq_sort (n : nat) (l : list mount) : list mount :=
  match n, l with
  | S n, x :: l => let (c, l) := exchange x l in c :: seq_sort n l
  | _, _ => l
  end.

Section ops.
Context {D K : Type} `{BlockDev D}.
#[local] Abbreviation M := (st (vstate D K)).

(** Run a COSFS operation, or a FAT32 operation on the same device. *)
Definition in_cos {A} (m : st (Cos.fsstate D) A) : M A := fun s => let (a, c) := m (cos s) in (a, set_cos c s).
Definition in_fat {A} (m : st (Fat.fatstate D) A) : M A := fun s =>
  let (a, f) := m (Fat.mk_fat (Cos.dev (cos s)) (fat32 s) (fat_fds s)) in
  (a, set_fat_fds (Fat.fat32_fds f) (set_fat32 (Fat.g_fat32 f) (set_cos (Cos.set_dev (Fat.fdev f) (cos s)) s))).

Definition g_drive (s : vstate D K) (drive : Z) : Cos.fs_device :=
  default CosFormat.no_device (Cos.g_drives (cos s) !! Z.to_nat drive).
Definition select_drive_of (drive : Z) : M unit :=
  s ← gets id;
  in_cos (CosFormat.select_drive_m (Cos.ata_base (g_drive s drive)) (Cos.is_slave (g_drive s drive))).
Definition block_read (lba : Z) : M sector := in_cos (CosAlloc.block_read lba).
Definition block_write (lba : Z) (b : sector) : M unit := in_cos (CosAlloc.block_write lba b).

(** Partition entry [i] of the boot record [sec]. *)
Definition detect_part (sec : sector) (i : Z) : M (option Z) :=
  let type := sec.[446 + 16 * i + 4] in
  let lba := get32 sec (446 + 16 * i + 8) in
  if ((type =? 0x0B) || (type =? 0x0C)) && negb (lba =? 0) then
    pb ← block_read lba;
    mret (if is_fat32_bpb pb then Some lba else None)
  else mret None.
(** The file system found and its first sector. *)
Definition detect_ex (drive : Z) : M (Z * Z) :=
  s ← gets id;
  if (drive <? 0) || (Cos.g_active_drives (cos s) <=? drive) then mret (VFS_FS_NONE, 0) else
  select_drive_of drive;;
  sec ← block_read 0;
  if get32 sec 0 =? COS_MAGIC then mret (VFS_FS_COSFS, 0) else
  if is_fat32_bpb sec then mret (VFS_FS_FAT32, 0) else
  if (sec.[510] =? 0x55) && (sec.[511] =? 0xAA) then
    r ← floop 4 0 (detect_part sec);
    mret (match r with Some lba => (VFS_FS_FAT32, lba) | None => (VFS_FS_NONE, 0) end)
  else mret (VFS_FS_NONE, 0).

(** Sector and offset of the header; [inl] is the error returned. *)
Definition hdr_place (drive fs part : Z) : M (Z + Z * Z) :=
  select_drive_of drive;;
  if fs =? VFS_FS_COSFS then mret (inr (0, HDR_COS_OFFSET))
  else if fs =? VFS_FS_FAT32 then
    sec ← block_read part;
    if get16 sec 14 <=? HDR_FAT_SECTOR then mret (inl VFS_E_NOHDR) else mret (inr (u32 (part + HDR_FAT_SECTOR), 0))
  else mret (inl VFS_E_NOFS).
(** [hdr_io] with [write] = 0: the 320 bytes read. *)
Definition hdr_read (drive fs part : Z) : M (Z + list Z) :=
  p ← hdr_place drive fs part;
  match p with
  | inl e => mret (inl e)
  | inr (lba, off) => sec ← block_read lba; mret (inr (slice sec off HDR_SIZE))
  end.
(** [hdr_io] with [write] = 1. *)
Definition hdr_write (drive fs part : Z) (h : list Z) : M Z :=
  p ← hdr_place drive fs part;
  match p with
  | inl e => mret e
  | inr (lba, off) => sec ← block_read lba; block_write lba (splice sec off h);; mret 0
  end.
Definition hdr_clear (drive fs part : Z) : M Z := hdr_write drive fs part (replicate (Z.to_nat HDR_SIZE) 0).

End ops.
End VfsData.
