(* ===== verification/VfsBackend.v ===== *)
(** The file systems behind a mount (src/vfs.c): selecting a mount's file
    system, resolving and changing names in it, reading and writing files. *)
From S2P Require Import Prelude CString Disk CosData CosAlloc CosFile CosDir CosFormat FatData FatDir FatFile VfsPath VfsData.
From stdpp Require Import base list numbers.
From Stdlib Require Import ZArith Lia.
Import CString VfsPath VfsData.
Open Scope Z_scope.

Module VfsBackend.

(** "." and ".." *)
Definition is_dots (name : list Z) : bool := (strcmp name [dot] =? 0) || (strcmp name [dot; dot] =? 0).

(** [r == 0]. *)
Definition present {A} (v : option A) : bool := match v with Some _ => true | None => false end.

(** A component as [cos_resolve] keeps it: 31 characters. *)
Definition cut_comp (c : list Z) : list Z := take (Z.to_nat (VFS_NAME_MAX - 1)) c.

Section ops.
Context {D K : Type} `{BlockDev D} `{Kernel K}.
#[local] Abbreviation M := (st (vstate D K)).

Definition mount_at (s : vstate D K) (i : Z) : mount := (s_mounts s).[i].
Definition set_mount (i : Z) (m : mount) : M unit := modify (fun s => set_mounts ((s_mounts s).[i := m]) s).

Definition ctx_enter (mi : Z) : M unit :=
  s ← gets id;
  let m := mount_at s mi in
  select_drive_of (m_drive m);;
  if m_fs m =? VFS_FS_COSFS then
    when (negb (s_cos_loaded s =? m_drive m))
      (in_cos (modify (Cos.set_current_drive (m_drive m)));;
       in_cos CosFormat.init_fs;;
       modify (set_cos_loaded (m_drive m)));;
    in_cos (modify (Cos.set_current_dir 0))
  else modify (set_fat32 (m_fat m)).

Definition ctx_leave (mi : Z) : M unit :=
  s ← gets id;
  let m := mount_at s mi in
  when (m_fs m =? VFS_FS_FAT32) (set_mount mi (set_m_fat (fat32 s) m)).

(** [ctx_enter(m); body; ctx_leave(m)]. *)
Definition in_ctx {A} (mi : Z) (body : M A) : M A :=
  ctx_enter mi;;
  r ← body;
  ctx_leave mi;;
  mret r.

Fixpoint cos_resolve_loop (fuel : nat) (p : list Z) (cur : Z) : st (Cos.fsstate D) Z :=
  match fuel with
  | O => mret (-1)
  | S fuel =>
      match skip_slashes p with
      | [] => mret cur
      | p =>
          let (comp, p) := take_comp p in
          dir ← CosAlloc.read_inode cur;
          if negb (Cos.type dir =? 2) then mret (-1) else
          next ← CosDir.dir_lookup dir (cut_comp comp);
          if next <? 0 then mret (-1) else cos_resolve_loop fuel p next
      end
  end.
(** The inode number, -1 when there is none. *)
Definition cos_resolve (rel : list Z) : M Z := in_cos (cos_resolve_loop (S (length rel)) rel 0).
Definition read_inode (idx : Z) : M Cos.inode := in_cos (CosAlloc.read_inode idx).

(** The cluster, or the error. *)
Definition fat_parent_cluster (parent_rel : list Z) : M (Z + Z) :=
  g ← gets fat32;
  if strcmp parent_rel root_path =? 0 then mret (inr (Fat.root_cluster g)) else
  d ← in_fat (FatFile.fat32_stat parent_rel);
  mret (match d with
        | None => inl VFS_E_NOENT
        | Some d =>
            if Z.land (Fat.d_attr d) Fat.FAT32_ATTR_DIR =? 0 then inl VFS_E_NOTDIR
            else inr (if Fat.d_first_cluster d =? 0 then Fat.root_cluster g else Fat.d_first_cluster d)
        end).

(** [None] is [VFS_E_NOENT], its only error. *)
Definition be_stat (mi : Z) (rel : list Z) : M (option vnode) :=
  s ← gets id;
  if m_fs (mount_at s mi) =? VFS_FS_COSFS then
    idx ← cos_resolve rel;
    if idx <? 0 then mret None else
    n ← read_inode idx;
    mret (Some (mk_vnode (Cos.type n =? 2) (Cos.size n) idx))
  else if strcmp rel root_path =? 0 then mret (Some (mk_vnode true 0 (Fat.root_cluster (fat32 s))))
  else
    d ← in_fat (FatFile.fat32_stat rel);
    mret (match d with
          | None => None
          | Some d => Some (mk_vnode (negb (Z.land (Fat.d_attr d) Fat.FAT32_ATTR_DIR =? 0)) (Fat.d_size d) (Fat.d_first_cluster d))
          end).

Definition be_mkdir (mi : Z) (rel : list Z) : M Z :=
  s ← gets id;
  let fs := m_fs (mount_at s mi) in
  match split_rel rel with
  | None => mret VFS_E_NAME
  | Some (parent, leaf) =>
      if negb (name_ok fs leaf) then mret VFS_E_NAME else
      v ← be_stat mi rel;
      if present v then mret VFS_E_EXIST else
      if fs =? VFS_FS_COSFS then
        p ← cos_resolve parent;
        if p <? 0 then mret VFS_E_NOENT else
        pn ← read_inode p;
        if negb (Cos.type pn =? 2) then mret VFS_E_NOTDIR else
        r ← in_cos (CosDir.fs_create_dir leaf p);
        if r <? 0 then mret VFS_E_IO else
        idx ← cos_resolve rel;
        mret (if idx <? 0 then VFS_E_IO else 0)
      else
        dc ← fat_parent_cluster parent;
        match dc with
        | inl e => mret e
        | inr dc => r ← in_fat (FatFile.fat32_create_dir dc leaf); mret (if r =? 0 then 0 else VFS_E_IO)
        end
  end.

Definition be_create (mi : Z) (rel tag : list Z) : M Z :=
  s ← gets id;
  let fs := m_fs (mount_at s mi) in
  match split_rel rel with
  | None => mret VFS_E_NAME
  | Some (parent, leaf) =>
      if negb (name_ok fs leaf) then mret VFS_E_NAME else
      v ← be_stat mi rel;
      if present v then mret VFS_E_EXIST else
      if fs =? VFS_FS_COSFS then
        p ← cos_resolve parent;
        if p <? 0 then mret VFS_E_NOENT else
        pn ← read_inode p;
        if negb (Cos.type pn =? 2) then mret VFS_E_NOTDIR else
        in_cos (modify (Cos.set_current_dir p));;
        r ← in_cos (CosDir.fs_create_file leaf (Some tag));
        in_cos (modify (Cos.set_current_dir 0));;
        if s32 r <? 0 then mret VFS_E_IO else
        idx ← cos_resolve rel;
        mret (if idx <? 0 then VFS_E_IO else 0)
      else
        dc ← fat_parent_cluster parent;
        match dc with
        | inl e => mret e
        | inr dc => r ← in_fat (FatFile.fat32_write_file dc leaf [] 0); mret (if r =? 0 then 0 else VFS_E_IO)
        end
  end.

Definition be_remove (mi : Z) (rel : list Z) : M Z :=
  s ← gets id;
  if strcmp rel root_path =? 0 then mret VFS_E_BUSY else
  match split_rel rel with
  | None => mret VFS_E_NAME
  | Some (parent, leaf) =>
      v ← be_stat mi rel;
      match v with
      | None => mret VFS_E_NOENT
      | Some v =>
          if m_fs (mount_at s mi) =? VFS_FS_COSFS then
            p ← cos_resolve parent;
            if p <? 0 then mret VFS_E_NOENT else
            empty ← (if n_is_dir v then in_cos (CosDir.fs_dir_is_empty (n_id v)) else mret true);
            if negb empty then mret VFS_E_NOTEMPTY else
            r ← in_cos (CosDir.fs_delete_in p leaf);
            mret (if r <? 0 then VFS_E_IO else 0)
          else
            dc ← fat_parent_cluster parent;
            match dc with
            | inl e => mret e
            | inr dc =>
                if n_is_dir v then
                  rc ← in_fat (FatFile.fat32_remove_dir dc leaf);
                  mret (if rc =? -2 then VFS_E_NOTEMPTY else if rc =? 0 then 0 else VFS_E_IO)
                else
                  rc ← in_fat (FatFile.fat32_delete_file dc leaf);
                  mret (if rc =? 0 then 0 else VFS_E_IO)
            end
      end
  end.

(** The tag kept when a file is truncated. *)
Definition keep_tag (n : Cos.inode) (tag : list Z) : list Z :=
  cstr (take 12 (if hd0 (Cos.main_tag n) =? 0 then tag else Cos.main_tag n)).

Definition be_truncate (mi : Z) (rel tag : list Z) : M Z :=
  s ← gets id;
  match split_rel rel with
  | None => mret VFS_E_NAME
  | Some (parent, leaf) =>
      if m_fs (mount_at s mi) =? VFS_FS_COSFS then
        idx ← cos_resolve rel;
        p ← cos_resolve parent;
        if (idx <? 0) || (p <? 0) then mret VFS_E_NOENT else
        n ← read_inode idx;
        r ← in_cos (CosDir.fs_delete_in p leaf);
        if r <? 0 then mret VFS_E_IO else
        be_create mi rel (keep_tag n tag)
      else
        dc ← fat_parent_cluster parent;
        match dc with
        | inl e => mret e
        | inr dc => r ← in_fat (FatFile.fat32_write_file dc leaf [] 0); mret (if r =? 0 then 0 else VFS_E_IO)
        end
  end.

(** ** Directory listing *)

(** Slot [i] of a COSFS directory block; [inr] is [return n]. *)
Fixpoint cos_readdir_slots (n : nat) (i : Z) (buf : sector) (max : Z) (out : list vdirent) : M (list vdirent + list vdirent) :=
  match n with
  | O => mret (inl out)
  | S n =>
      s ← gets id;
      let ino := Cos.dirent_inode buf i in
      if (ino =? 0) || (Cos.inode_count (Cos.sb (cos s)) <=? ino) then cos_readdir_slots n (i + 1) buf max out
      else if max <=? zlen out then mret (inr out)
      else
        child ← read_inode ino;
        cos_readdir_slots n (i + 1) buf max
          (out ++ [mk_vdirent (cstr (take 28 (Cos.dirent_name buf i))) (Cos.type child =? 2) (Cos.size child)])
  end.
Definition cos_readdir_block (dir : Cos.inode) (max b : Z) (out : list vdirent) : M (list vdirent + list vdirent) :=
  let lba := (Cos.direct dir).[b] in
  if lba =? 0 then mret (inl out) else
  buf ← block_read lba;
  cos_readdir_slots 16 0 buf max out.

Fixpoint fat_readdir_filter (l : list Fat.dirent) (max : Z) (out : list vdirent) : list vdirent :=
  match l with
  | [] => out
  | d :: l =>
      if max <=? zlen out then out
      else if is_dots (Fat.d_name d) then fat_readdir_filter l max out
      else fat_readdir_filter l max
             (out ++ [mk_vdirent (cstr (take 31 (Fat.d_name d))) (negb (Z.land (Fat.d_attr d) Fat.FAT32_ATTR_DIR =? 0)) (Fat.d_size d)])
  end.

(** The entries stored, or the error. *)
Definition be_readdir (mi : Z) (rel : list Z) (max : Z) : M (Z + list vdirent) :=
  s ← gets id;
  v ← be_stat mi rel;
  match v with
  | None => mret (inl VFS_E_NOENT)
  | Some v =>
      if negb (n_is_dir v) then mret (inl VFS_E_NOTDIR) else
      if m_fs (mount_at s mi) =? VFS_FS_COSFS then
        dir ← read_inode (n_id v);
        r ← aloop 12 0 [] (cos_readdir_block dir max);
        mret (match r with inl l | inr l => inr l end)
      else
        l ← in_fat (FatDir.fat32_list_dir (n_id v) (Z.min (max + 2) FAT_TMP_MAX));
        mret (match l with None => inl VFS_E_IO | Some l => inr (fat_readdir_filter l max []) end)
  end.

(** ** File contents *)

Definition file_at (s : vstate D K) (fd : Z) : vfile := (s_files s).[fd].
Definition upd_file (fd : Z) (g : vfile -> vfile) : M unit :=
  modify (fun s => set_files ((s_files s).[fd := g (file_at s fd)]) s).

(** The bytes stored in the caller's buffer. *)
Definition read_at (mi fd off n : Z) : M (list Z) :=
  s ← gets id;
  let f := file_at s fd in
  if m_fs (mount_at s mi) =? VFS_FS_COSFS then
    node ← read_inode (v_id f);
    upd_file fd (set_v_size (Cos.size node));;
    in_cos (CosFile.fs_read (v_id f) node off n)
  else in_fat (FatFile.fat32_read (Fat.mk_dirent [] 0 (v_id f) (v_size f)) off n).

(** The rewriting branch of [fat_write_at]: the file's bytes with [data] in
    place, in a buffer of [total] bytes ([memcpy] past its end is cut). [inl]
    is the error. *)
Definition fat_rewrite (f : vfile) (dc : Z) (leaf : list Z) (pos : Z) (data : list Z) (len : Z) : M Z :=
  let end_ := u32 (pos + len) in
  let total := if v_size f <? end_ then end_ else v_size f in
  s ← gets id;
  let '(p, k) := k_malloc total (kern s) in
  modify (set_kern k);;
  if p =? 0 then mret VFS_E_IO else
  old ← (if v_size f =? 0 then mret (Some []) else
           got ← in_fat (FatFile.fat32_read (Fat.mk_dirent [] 0 (v_id f) (v_size f)) 0 (v_size f));
           mret (if zlen got =? v_size f then Some got else None));
  match old with
  | None => modify (fun s => set_kern (k_free p (kern s)) s);; mret VFS_E_IO
  | Some got =>
      let buf := splice (splice (replicate (Z.to_nat total) 0) 0 got) pos (take (Z.to_nat len) data) in
      rc ← in_fat (FatFile.fat32_write_file dc leaf (take (Z.to_nat total) buf) total);
      modify (fun s => set_kern (k_free p (kern s)) s);;
      mret (if rc =? 0 then 0 else VFS_E_IO)
  end.

Definition fat_write_at (fd pos : Z) (data : list Z) (len : Z) : M Z :=
  s ← gets id;
  let f := file_at s fd in
  if len =? 0 then mret 0 else
  match split_rel (v_rel f) with
  | None => mret VFS_E_NAME
  | Some (parent, leaf) =>
      dc ← fat_parent_cluster parent;
      match dc with
      | inl _ => mret VFS_E_IO
      | inr dc =>
          rc ← (if pos =? v_size f then
                  r ← in_fat (FatFile.fat32_append_file dc leaf data len);
                  mret (if r =? 0 then 0 else VFS_E_IO)
                else fat_rewrite f dc leaf pos data len);
          if negb (rc =? 0) then mret rc else
          fresh ← in_fat (FatFile.fat32_stat (v_rel f));
          match fresh with
          | None => mret VFS_E_IO
          | Some d =>
              upd_file fd (fun f => set_v_size (Fat.d_size d) (set_v_id (Fat.d_first_cluster d) f));;
              mret (s32 len)
          end
      end
  end.

Definition cos_write_at (fd pos : Z) (data : list Z) (len : Z) : M Z :=
  s ← gets id;
  let f := file_at s fd in
  if len =? 0 then mret 0 else
  w ← in_cos (CosFile.fs_write (v_id f) pos data len);
  if w <? 0 then mret VFS_E_IO else
  n ← read_inode (v_id f);
  upd_file fd (set_v_size (Cos.size n));;
  mret w.

End ops.
End VfsBackend.
