(* ===== verification/VfsMount.v ===== *)
(** Mounting (src/vfs.c): the mount table's operations, the header that
    persists it, formatting, start-up and shut-down. *)
From S2P Require Import Prelude CString Disk CosData CosAlloc CosFile CosDir CosFormat FatData FatDir FatFile VfsPath VfsData VfsBackend.
From stdpp Require Import base list numbers.
From Stdlib Require Import ZArith Lia.
Import CString VfsPath VfsData VfsBackend.
Open Scope Z_scope.

Module VfsMount.

(** "/mount", "/user"; the default directories are those of src/fs.c. *)
Definition mount_dir : list Z := [47; 109; 111; 117; 110; 116].
Definition user_dir : list Z := [47; 117; 115; 101; 114].
Definition default_dirs : list (list Z) := CosFormat.defdirs.

(** The prompt: '>' and the path, or "..." and its end. *)
Definition prompt_of (cwd : list Z) : list Z :=
  62 :: (if zlen cwd <=? 60 then cwd else [46; 46; 46] ++ drop (Z.to_nat (zlen cwd - 56)) cwd).

Section ops.
Context {D K : Type} `{BlockDev D} `{Kernel K}.
#[local] Abbreviation M := (st (vstate D K)).

Definition prompt_update : M unit := modify (fun s => set_current_path (prompt_of (s_cwd s)) s).
Definition change_cwd (p : list Z) : M unit := modify (set_cwd p).

Definition ensure_dir_abs (abs : list Z) : M Z :=
  s ← gets id;
  match find_mount (s_mounts s) abs with
  | None => mret VFS_E_NOROOT
  | Some (mi, rel) =>
      in_ctx mi
        (v ← be_stat mi rel;
         match v with
         | Some v => mret (if n_is_dir v then 0 else VFS_E_NOTDIR)
         | None => be_mkdir mi rel
         end)
  end.

Definition remove_abs (abs : list Z) : M Z :=
  s ← gets id;
  match find_mount (s_mounts s) abs with
  | None => mret VFS_E_NOROOT
  | Some (mi, rel) => in_ctx mi (be_remove mi rel)
  end.

(** The mounts [persist] lists, sorted, at most six. *)
Definition listed (m : mount) : bool := m_used m && negb (m_is_root m) && target_ok (m_mountpoint m).
Definition persist_list (ms : list mount) : list mount :=
  let l := filter (fun m => Is_true (listed m)) ms in take 6 (seq_sort (length l) l).
Definition header_of (s : vstate D K) : hdr :=
  let l := persist_list (s_mounts s) in
  mk_hdr HDR_MAGIC 1 (zlen l)
    (map (fun m => let d := g_drive s (m_drive m) in
                   mk_hm (Cos.ata_base d) (Cos.is_slave d) 1 (m_mountpoint m)) l).
Definition persist : M Z :=
  s ← gets id;
  match s_root s with
  | None => mret VFS_E_NOROOT
  | Some r =>
      let m := mount_at s r in
      hdr_write (m_drive m) (m_fs m) (m_part_lba m) (hdr_encode (header_of s))
  end.

Definition mount_backend (slot drive fs part : Z) : M Z :=
  let m := mk_mount false drive fs false part 0 0 [] Fat.zero_fs in
  set_mount slot m;;
  select_drive_of drive;;
  if fs =? VFS_FS_COSFS then
    modify (set_cos_loaded (-1));;
    in_cos (modify (Cos.set_current_drive drive));;
    in_cos CosFormat.init_fs;;
    s ← gets id;
    if negb (Cos.magic (Cos.sb (cos s)) =? COS_MAGIC) then mret VFS_E_IO else
    modify (set_cos_loaded drive);;
    mret 0
  else
    r ← in_fat (FatFile.fat32_mount part);
    if negb (r =? 0) then mret VFS_E_IO else
    s ← gets id;
    set_mount slot (set_m_fat (fat32 s) m);;
    mret 0.

Definition backend_unmount (mi : Z) : M unit :=
  s ← gets id;
  let m := mount_at s mi in
  if 0 <? drive_refs (s_mounts s) (m_drive m) (Some mi) then mret tt else
  if m_fs m =? VFS_FS_COSFS then when (s_cos_loaded s =? m_drive m) (modify (set_cos_loaded (-1)))
  else ctx_enter mi;; in_fat FatFile.fat32_unmount.

Definition set_cwd_default : M unit :=
  change_cwd root_path;;
  s ← gets id;
  match find_mount (s_mounts s) user_dir with
  | None => mret tt
  | Some (mi, rel) =>
      in_ctx mi
        (v ← be_stat mi rel;
         match v with
         | Some v => when (n_is_dir v) (change_cwd user_dir)
         | None => mret tt
         end)
  end;;
  prompt_update.

(** The checks on the target, before anything is read. *)
Definition mount_check (s : vstate D K) (t : list Z) : Z :=
  if strcmp t root_path =? 0 then (match s_root s with Some _ => VFS_E_BUSY | None => 0 end)
  else match s_root s with
       | None => VFS_E_NOROOT
       | Some _ =>
           if negb (target_ok t) then VFS_E_TARGET
           else if present (find_mount_exact (s_mounts s) t) then VFS_E_BUSY else 0
       end.

(** The directory a mount needs under the root. *)
Definition mount_dirs (t : list Z) : M Z :=
  r ← (if path_within t mount_dir then ensure_dir_abs mount_dir else mret 0);
  if negb (r =? 0) then mret r else ensure_dir_abs t.

(** The rest of [do_mount] once the slot is filled. *)
Definition finish_mount (slot : Z) (is_root boot : bool) : M Z :=
  if is_root then
    s ← gets id;
    set_mount slot (set_m_is_root true (mount_at s slot));;
    modify (set_root (Some slot));;
    r ← (if boot then mret 0 else
           ffor 5 0 (fun i => ensure_dir_abs (root_path ++ default_dirs !!! Z.to_nat i);; mret tt);;
           persist);
    if negb (r =? 0) then
      backend_unmount slot;;
      s ← gets id;
      set_mount slot (set_m_used false (mount_at s slot));;
      modify (set_root None);;
      mret r
    else set_cwd_default;; mret 0
  else
    (if boot then mret tt else persist;; mret tt);;
    mret 0.

Definition do_mount (drive : Z) (t : list Z) (boot : bool) : M Z :=
  let is_root := strcmp t root_path =? 0 in
  s ← gets id;
  let c := mount_check s t in
  if negb (c =? 0) then mret c else
  '(fs, part) ← detect_ex drive;
  if fs =? VFS_FS_NONE then mret VFS_E_NOFS else
  s ← gets id;
  match free_slot (s_mounts s) with
  | None => mret VFS_E_BUSY
  | Some slot =>
      r ← (if is_root then mret 0 else mount_dirs t);
      if negb (r =? 0) then mret r else
      r ← mount_backend slot drive fs part;
      if negb (r =? 0) then mret r else
      s ← gets id;
      let seq := u32 (s_seq s + 1) in
      modify (set_seq seq);;
      set_mount slot (name_mount t seq (mount_at s slot));;
      finish_mount slot is_root boot
  end.

Definition cwd_fix_after_unmount (mp : list Z) : M unit :=
  s ← gets id;
  when (path_within (s_cwd s) mp) (change_cwd root_path;; prompt_update).

(** Another mount forbids unmounting [idx]: any one when it is the root, one
    below it otherwise. *)
Definition blocks_umount (m : mount) (idx i : Z) (x : mount) : bool :=
  negb (i =? idx) && m_used x &&
  (m_is_root m || (negb (m_is_root x) && path_within (m_mountpoint x) (m_mountpoint m))).
Definition umount_busy (s : vstate D K) (idx : Z) : bool :=
  let m := mount_at s idx in
  existsb (fun i => blocks_umount m idx i (mount_at s i)) (seqZ 0 7) ||
  existsb (fun f => v_used f && (v_mount f =? idx)) (s_files s).

(** The mount [what] names: a drive or a path. [inl] is the error. *)
Definition umount_target (s : vstate D K) (what : list Z) : Z + option Z :=
  let d := if hd0 what =? sl then -1 else vfs_parse_drive (Cos.g_active_drives (cos s)) what in
  if 0 <=? d then inr (find_last_by_drive (s_mounts s) d) else
  match normalize (s_cwd s) what with
  | None => inl VFS_E_PATH
  | Some abs => inr (find_mount_exact (s_mounts s) abs)
  end.

(** What follows the release of mount [m]'s slot. *)
Definition finish_umount (m : mount) : M Z :=
  if m_is_root m then
    modify (set_root None);;
    s ← gets id;
    when (drive_refs (s_mounts s) (m_drive m) None =? 0) (hdr_clear (m_drive m) (m_fs m) (m_part_lba m);; mret tt);;
    change_cwd root_path;;
    prompt_update;;
    mret 0
  else
    persist;;
    cwd_fix_after_unmount (m_mountpoint m);;
    mret 0.
Definition do_umount (what : list Z) : M Z :=
  s ← gets id;
  if hd0 what =? 0 then mret VFS_E_NOTMOUNTED else
  match umount_target s what with
  | inl e => mret e
  | inr None => mret VFS_E_NOTMOUNTED
  | inr (Some idx) =>
      if umount_busy s idx then mret VFS_E_BUSY else
      let m := mount_at s idx in
      backend_unmount idx;;
      modify (fun s => set_mounts ((s_mounts s).[idx := set_m_used false (mount_at s idx)]) s);;
      finish_umount m
  end.

Definition do_format (drive fs : Z) : M Z :=
  s ← gets id;
  let d := g_drive s drive in
  select_drive_of drive;;
  if fs =? VFS_FS_COSFS then
    if Cos.total_sectors d <? 1024 then mret VFS_E_TOOSMALL else
    modify (set_cos_loaded (-1));;
    in_cos (modify (Cos.set_current_drive drive));;
    in_cos CosFormat.qformat_fs;;
    in_cos (modify (Cos.set_current_dir 0));;
    s ← gets id;
    let ok := Cos.magic (Cos.sb (cos s)) =? COS_MAGIC in
    modify (set_cos_loaded (if ok then drive else -1));;
    mret (if (if ok then drive else -1) <? 0 then VFS_E_IO else 0)
  else
    if Cos.total_sectors d =? 0 then mret VFS_E_NODRIVE else
    r ← in_fat (FatFile.fat32_format 0 (Cos.total_sectors d) 0);
    if negb (r =? 0) then mret VFS_E_TOOSMALL else
    ffor 5 0 (fun i =>
      s ← gets id;
      in_fat (FatFile.fat32_create_dir (Fat.root_cluster (fat32 s)) (default_dirs !!! Z.to_nat i));; mret tt);;
    in_fat FatFile.fat32_unmount;;
    hdr_clear drive VFS_FS_FAT32 0;;
    mret 0.

(** One drive of the search for the root in [vfs_init]. *)
Definition root_probe (i : Z) : M (option (Z * hdr)) :=
  '(fs, part) ← detect_ex i;
  if fs =? VFS_FS_NONE then mret None else
  h ← hdr_read i fs part;
  mret (match h with
        | inl _ => None
        | inr b => let h := hdr_upgrade b in
                   if (h_magic h =? HDR_MAGIC) && negb (h_is_root h =? 0) then Some (i, h) else None
        end).

(** The drive an entry names. *)
Definition entry_drive (s : vstate D K) (e : hdr_mount) : option Z :=
  find_index (fun i => let d := g_drive s i in
    (Cos.ata_base d =? hm_ata_base e) && (Cos.is_slave d =? hm_is_slave e))
    (seqZ 0 (Cos.g_active_drives (cos s))) 0.
Definition restore_entry (h : hdr) (k : Z) : M unit :=
  match h_mounts h !! Z.to_nat k with
  | None => mret tt
  | Some e =>
      if hm_used e =? 0 then mret tt else
      s ← gets id;
      match entry_drive s e with
      | None => mret tt
      | Some target =>
          if negb (hd0 (hm_path e) =? sl) then mret tt else do_mount target (hm_path e) true;; mret tt
      end
  end.

(** What [vfs_init] does with the lock held. *)
Definition init_body : M unit :=
  modify (fun s => set_seq 0 (set_cos_loaded (-1) (set_root None
    (set_files (replicate VFS_MAX_FDS zero_vfile) (set_mounts (replicate VFS_MAX_MOUNTS zero_mount) s)))));;
  change_cwd root_path;;
  prompt_update;;
  s ← gets id;
  r ← floop (rounds 0 (Cos.g_active_drives (cos s))) 0 root_probe;
  match r with
  | None => mret tt
  | Some (root_drive, h) =>
      rc ← do_mount root_drive root_path true;
      if negb (rc =? 0) then mret tt else
      ffor (rounds 0 (Z.min (h_count h) HDR_MAX_MOUNTS)) 0 (restore_entry h);;
      set_cwd_default
  end.

(** Unmount slot [i] at shut-down. *)
Definition shutdown_slot (i : Z) : M unit :=
  s ← gets id;
  if negb (m_used (mount_at s i)) then mret tt else
  backend_unmount i;;
  modify (fun s => set_mounts ((s_mounts s).[i := set_m_used false (mount_at s i)]) s).

End ops.
End VfsMount.
