(* ===== verification/Vfs.v ===== *)
(** The virtual file system's interface (src/vfs.c): its lock, open files, the
    vfs_* operations and the POSIX and stdio layer on top of them. *)
From S2P Require Import Prelude CString Disk CosData CosAlloc CosFile CosDir CosFormat FatData FatDir FatFile VfsPath VfsData VfsBackend VfsMount.
From stdpp Require Import base list numbers.
From Stdlib Require Import ZArith Lia.
Import CString VfsPath VfsData VfsBackend VfsMount.
Open Scope Z_scope.

(** ** The lock *)

Module VfsLock.

(** One round of [vfs_lock] by task [me]: [None] means another turn of the
    waiting loop (the exchange stored 1 where a 1 was). *)
Definition vfs_lock_try (me : Z) (l : lockst) : option lockst :=
  if (0 <? s_depth l) && (s_owner l =? me) then Some (mk_lock (s_lock l) (s_owner l) (s_depth l + 1))
  else if negb (s_lock l =? 0) then None
  else Some (mk_lock 1 me 1).
Definition vfs_unlock (l : lockst) : lockst :=
  let d := s_depth l - 1 in
  if d =? 0 then mk_lock 0 LOCK_NONE 0 else mk_lock (s_lock l) (s_owner l) d.
Definition vfs_task_killed (task : Z) (l : lockst) : lockst :=
  if (0 <? s_depth l) && (s_owner l =? task) then mk_lock 0 LOCK_NONE 0 else l.

End VfsLock.

Module Vfs.
Import VfsLock.

Definition O_CREAT : Z := 0x0040.
Definition O_TRUNC : Z := 0x0200.
Definition O_APPEND : Z := 0x0400.
Definition O_EXCL : Z := 0x0800.
Definition O_RDONLY : Z := 0.
Definition O_WRONLY : Z := 1.
Definition O_RDWR : Z := 2.
Definition SEEK_SET : Z := 0.
Definition SEEK_CUR : Z := 1.
Definition SEEK_END : Z := 2.
Definition has (flags bit : Z) : bool := negb (Z.land flags bit =? 0).

(** "file", "tcc". *)
Definition file_tag : list Z := [102; 105; 108; 101].
Definition tcc_tag : list Z := [116; 99; 99].

Section ops.
Context {D K : Type} `{BlockDev D} `{Kernel K}.
#[local] Abbreviation M := (st (vstate D K)).

(** [vfs_lock(); body; vfs_unlock()]. The result [None] is a call that waits
    for the lock's owner. *)
Definition locked {A} (body : M (option A)) : M (option A) :=
  s ← gets id;
  match vfs_lock_try (current_task s) (lck s) with
  | None => mret None
  | Some l =>
      modify (set_lck l);;
      r ← body;
      match r with
      | None => mret None
      | Some a => modify (fun s => set_lck (vfs_unlock (lck s)) s);; mret (Some a)
      end
  end.
Definition ret {A} (a : A) : M (option A) := mret (Some a).

Definition fget (s : vstate D K) (fd : Z) : bool :=
  (0 <=? fd) && (fd <? Z.of_nat VFS_MAX_FDS) && v_used (file_at s fd).

(** What [open_locked] does between [ctx_enter] and [ctx_leave]. *)
Definition open_node (mi : Z) (rel : list Z) (flags : Z) (tag : list Z) : M (Z + vnode) :=
  let writable := negb (Z.land flags 3 =? 0) in
  let again : M (Z + vnode) :=
    v ← be_stat mi rel; mret (match v with Some v => inr v | None => inl VFS_E_NOENT end) in
  v ← be_stat mi rel;
  match v with
  | Some v =>
      if n_is_dir v then mret (inl VFS_E_ISDIR)
      else if has flags O_CREAT && has flags O_EXCL then mret (inl VFS_E_EXIST)
      else if has flags O_TRUNC && writable then
        r ← be_truncate mi rel tag;
        if r =? 0 then again else mret (inl r)
      else mret (inr v)
  | None =>
      if has flags O_CREAT then
        r ← be_create mi rel tag;
        if r =? 0 then again else mret (inl r)
      else mret (inl VFS_E_NOENT)
  end.

Definition open_locked (path : list Z) (flags : Z) (tag : list Z) : M Z :=
  s ← gets id;
  match normalize (s_cwd s) path with
  | None => mret VFS_E_PATH
  | Some abs =>
      match find_mount (s_mounts s) abs with
      | None => mret VFS_E_NOROOT
      | Some (mi, rel) =>
          match find_index (fun f => negb (v_used f)) (s_files s) 0 with
          | None => mret VFS_E_MFILE
          | Some slot =>
              r ← in_ctx mi (open_node mi rel flags tag);
              match r with
              | inl e => mret e
              | inr v =>
                  let app := has flags O_APPEND in
                  let f := mk_vfile true mi (negb (Z.land flags 3 =? 0)) app (if app then n_size v else 0)
                             (n_size v) (n_id v) rel false in
                  upd_file slot (fun _ => f);;
                  s ← gets id;
                  let m := mount_at s mi in
                  set_mount mi (set_m_open_count (m_open_count m + 1) m);;
                  mret slot
              end
          end
      end
  end.

Definition vfs_drive_size_mb (drive : Z) : M Z :=
  s ← gets id;
  mret (if (drive <? 0) || (Cos.g_active_drives (cos s) <=? drive) then 0 else Cos.total_sectors (g_drive s drive) / 2048).
(** True for "sata". *)
Definition vfs_drive_bus (drive : Z) : M bool :=
  s ← gets id;
  mret (if (drive <? 0) || (Cos.g_active_drives (cos s) <=? drive) then false
        else Cos.ata_base (g_drive s drive) =? SATA_DRIVE_MARKER).
Definition vfs_detect (drive : Z) : M (option Z) := locked ('(fs, _) ← detect_ex drive; ret fs).
Definition vfs_drive_mountpoint (drive : Z) : M (option (list Z)) :=
  s ← gets id;
  mret (match find_by_drive (s_mounts s) drive with Some i => Some (m_mountpoint (mount_at s i)) | None => None end).

Definition vfs_mount (drive target : list Z) : M (option Z) :=
  s ← gets id;
  let d := vfs_parse_drive (Cos.g_active_drives (cos s)) drive in
  if d <? 0 then ret VFS_E_NODRIVE else
  locked (s ← gets id;
          match normalize (s_cwd s) target with
          | None => ret VFS_E_PATH
          | Some t => r ← do_mount d t false; ret r
          end).
Definition vfs_umount (what : list Z) : M (option Z) := locked (r ← do_umount what; ret r).

(** "cosfs", "cos", "fat32", "fat"; [VFS_FS_NONE] for another name. *)
Definition fs_of_name (n : list Z) : Z :=
  if (strcasecmp n [99; 111; 115; 102; 115] =? 0) || (strcasecmp n [99; 111; 115] =? 0) then VFS_FS_COSFS
  else if (strcasecmp n [102; 97; 116; 51; 50] =? 0) || (strcasecmp n [102; 97; 116] =? 0) then VFS_FS_FAT32
  else VFS_FS_NONE.
Definition vfs_format (drive : list Z) (fsname : option (list Z)) : M (option Z) :=
  s ← gets id;
  let d := vfs_parse_drive (Cos.g_active_drives (cos s)) drive in
  if d <? 0 then ret VFS_E_NODRIVE else
  match fsname with
  | None => ret VFS_E_FSNAME
  | Some n =>
      if fs_of_name n =? VFS_FS_NONE then ret VFS_E_FSNAME else
      locked (s ← gets id;
              if 0 <? drive_refs (s_mounts s) d None then ret VFS_E_MOUNTED
              else r ← do_format d (fs_of_name n); ret r)
  end.

Definition used_mounts (ms : list mount) : list mount := filter (fun m => Is_true (m_used m)) ms.
Definition vfs_mount_count : M (option Z) := locked (s ← gets id; ret (zlen (used_mounts (s_mounts s)))).
(** [*out]; the inner [None] is -1. *)
Definition vfs_mount_get (index : Z) : M (option (option mount)) :=
  locked (s ← gets id; ret (if index <? 0 then None else used_mounts (s_mounts s) !! Z.to_nat index)).

(** The common frame of the operations on a path: normalise, find the mount,
    run [body] with its file system selected. *)
Definition on_path {A} (path : list Z) (fail : Z -> A) (body : list Z -> Z -> list Z -> M A) : M (option A) :=
  locked (s ← gets id;
          match normalize (s_cwd s) path with
          | None => ret (fail VFS_E_PATH)
          | Some abs =>
              match find_mount (s_mounts s) abs with
              | None => ret (fail VFS_E_NOROOT)
              | Some (mi, rel) => r ← body abs mi rel; ret r
              end
          end).

Definition vfs_chdir (path : list Z) : M (option Z) :=
  on_path path id (fun abs mi rel =>
    v ← in_ctx mi (be_stat mi rel);
    match v with
    | None => mret VFS_E_NOENT
    | Some v => if negb (n_is_dir v) then mret VFS_E_NOTDIR else change_cwd abs;; prompt_update;; mret 0
    end).
Definition vfs_stat (path : list Z) : M (option (Z + vnode)) :=
  on_path path inl (fun abs mi rel =>
    v ← in_ctx mi (be_stat mi rel);
    mret (match v with None => inl VFS_E_NOENT | Some v => inr v end)).
Definition vfs_readdir (path : list Z) (max : Z) : M (option (Z + list vdirent)) :=
  on_path path inl (fun abs mi rel => in_ctx mi (be_readdir mi rel max)).
Definition vfs_mkdir (path : list Z) : M (option Z) :=
  on_path path id (fun abs mi rel =>
    s ← gets id;
    if present (find_mount_exact (s_mounts s) abs) then mret VFS_E_EXIST else in_ctx mi (be_mkdir mi rel)).
Definition vfs_remove (path : list Z) : M (option Z) :=
  locked (s ← gets id;
          match normalize (s_cwd s) path with
          | None => ret VFS_E_PATH
          | Some abs =>
              if present (find_mount_exact (s_mounts s) abs) then ret VFS_E_BUSY
              else r ← remove_abs abs; ret r
          end).

Definition vfs_open (path : list Z) (flags : Z) : M (option Z) := locked (r ← open_locked path flags file_tag; ret r).
Definition vfs_open_tcc (path : list Z) (flags : Z) : M (option Z) := locked (r ← open_locked path flags tcc_tag; ret r).

Definition vfs_close (fd : Z) : M (option Z) :=
  locked (s ← gets id;
          if negb (fget s fd) then ret VFS_E_BADF else
          let mi := v_mount (file_at s fd) in
          let m := mount_at s mi in
          set_mount mi (set_m_open_count (m_open_count m - 1) m);;
          upd_file fd (set_v_used false);;
          ret 0).

Definition advance (fd r : Z) : M unit :=
  when (0 <? r) (upd_file fd (fun f => set_v_pos (u32 (v_pos f + r)) f)).

(** The result and the bytes stored; [buf] is false for a null pointer. *)
Definition vfs_read (fd : Z) (buf : bool) (count : Z) : M (option (Z * list Z)) :=
  locked (s ← gets id;
          if negb (fget s fd && buf) then ret (-1, []) else
          let f := file_at s fd in
          out ← in_ctx (v_mount f) (read_at (v_mount f) fd (v_pos f) count);
          let r := s32 (zlen out) in
          advance fd r;;
          ret (r, out)).
Definition vfs_pread (fd offset : Z) (buf : bool) (count : Z) : M (option (Z * list Z)) :=
  locked (s ← gets id;
          if negb (fget s fd && buf) then ret (-1, []) else
          let f := file_at s fd in
          out ← in_ctx (v_mount f) (read_at (v_mount f) fd offset count);
          ret (s32 (zlen out), out)).

(** [None] is a null [buf]. *)
Definition vfs_write (fd : Z) (buf : option (list Z)) (count : Z) : M (option Z) :=
  locked (s ← gets id;
          match buf with
          | Some data =>
              if negb (fget s fd && v_writable (file_at s fd)) then ret (-1) else
              when (v_append (file_at s fd)) (upd_file fd (fun f => set_v_pos (v_size f) f));;
              s ← gets id;
              let f := file_at s fd in
              let mi := v_mount f in
              r ← in_ctx mi (if m_fs (mount_at s mi) =? VFS_FS_COSFS then cos_write_at fd (v_pos f) data count
                             else fat_write_at fd (v_pos f) data count);
              advance fd r;;
              ret (if r <? 0 then -1 else r)
          | None => ret (-1)
          end).

Definition vfs_lseek (fd offset whence : Z) : M (option Z) :=
  locked (s ← gets id;
          if negb (fget s fd) then ret (-1) else
          let f := file_at s fd in
          let base := if whence =? SEEK_SET then 0 else if whence =? SEEK_CUR then s32 (v_pos f)
                      else if whence =? SEEK_END then s32 (v_size f) else -1 in
          let target := s32 (base + offset) in
          if (0 <=? base) && (0 <=? target) then upd_file fd (set_v_pos target);; ret target else ret (-1)).
Definition vfs_fsize (fd : Z) : M (option Z) :=
  locked (s ← gets id; ret (if fget s fd then s32 (v_size (file_at s fd)) else -1)).

Definition vfs_write_file (path : list Z) (data : list Z) (len : Z) (tag : option (list Z)) (append : bool) : M (option Z) :=
  let flags := Z.lor (Z.lor O_WRONLY O_CREAT) (if append then O_APPEND else O_TRUNC) in
  let tag := match tag with Some t => if hd0 t =? 0 then file_tag else t | None => file_tag end in
  locked (fd ← open_locked path flags tag;
          if fd <? 0 then ret fd else
          w ← (if 0 <? len then vfs_write fd (Some data) len else ret 0);
          match w with
          | None => mret None
          | Some w => c ← vfs_close fd; match c with None => mret None | Some _ => ret (if w <? 0 then VFS_E_IO else w) end
          end).

(** The inode numbers found, or the error. *)
Definition vfs_find_by_tag (tag : list Z) (max_results : Z) : M (option (Z + list Z)) :=
  locked (s ← gets id;
          match find_mount (s_mounts s) (s_cwd s) with
          | None => ret (inl VFS_E_NOROOT)
          | Some (mi, _) =>
              if negb (m_fs (mount_at s mi) =? VFS_FS_COSFS) then ret (inl VFS_E_NOTSUP) else
              ctx_enter mi;;
              l ← in_cos (CosDir.fs_find_by_tag tag max_results);
              ret (inr l)
          end).

Definition vfs_sync : M (option unit) :=
  locked (s ← gets id;
          (if 0 <=? s_cos_loaded s then
             select_drive_of (s_cos_loaded s);; in_cos CosAlloc.save_block_bitmap;; in_cos CosAlloc.save_inode_bitmap
           else mret tt);;
          ret tt).
Definition vfs_shutdown : M (option unit) :=
  locked (r ← vfs_sync;
          match r with
          | None => mret None
          | Some _ =>
              ffor VFS_MAX_MOUNTS 0 (fun i => shutdown_slot (Z.of_nat VFS_MAX_MOUNTS - 1 - i));;
              modify (set_root None);;
              ret tt
          end).
Definition vfs_init : M (option unit) := locked (init_body;; ret tt).

(** ** POSIX and stdio *)

Definition STDIO_FD_IN : Z := 0.
Definition STDIO_FD_OUT : Z := 1.
Definition STDIO_FD_ERR : Z := 2.
Definition STDIO_FD_COUNT : Z := 3.
Definition is_stdio_fd (fd : Z) : bool := (fd =? STDIO_FD_IN) || (fd =? STDIO_FD_OUT) || (fd =? STDIO_FD_ERR).

Definition stdio_write (buf : option (list Z)) (count : Z) : M (option Z) :=
  match buf with
  | None => ret (-1)
  | Some p =>
      ffor (rounds 0 count) 0 (fun i => modify (fun s => set_kern (k_klog [p.[i]] (kern s)) s));;
      ret (s32 count)
  end.

(** The waiting characters, up to [n] or a newline. *)
Fixpoint stdin_line (n : nat) : M (list Z) :=
  match n with
  | O => mret []
  | S n =>
      s ← gets id;
      let '(c, k) := k_stdin_getc (kern s) in
      modify (set_kern k);;
      if c <? 0 then mret [] else
      if c =? 10 then mret [c] else r ← stdin_line n; mret (c :: r)
  end.
(** [None]: no character came in [fuel] rounds of polling. *)
Fixpoint stdio_read_loop (fuel : nat) (count : Z) : M (option (Z * list Z)) :=
  match fuel with
  | O => mret None
  | S fuel =>
      l ← stdin_line (Z.to_nat count);
      match l with
      | [] => modify (fun s => set_kern (k_ps2_poll (kern s)) s);; stdio_read_loop fuel count
      | _ => ret (zlen l, map u8 l)
      end
  end.
Definition stdio_read (fuel : nat) (buf : bool) (count : Z) : M (option (Z * list Z)) :=
  if negb buf || (count =? 0) then ret (0, []) else stdio_read_loop fuel count.

(** [r] mapped through [g], a waiting call still waiting. *)
Definition map_done {A B} (m : M (option A)) (g : A -> B) : M (option B) :=
  r ← m; mret (match r with Some a => Some (g a) | None => None end).

Definition open (path : list Z) (flags : Z) : M (option Z) :=
  map_done (vfs_open_tcc path flags) (fun r => if r <? 0 then -1 else r + STDIO_FD_COUNT).
Definition close (fd : Z) : M (option Z) :=
  if is_stdio_fd fd then ret 0
  else map_done (vfs_close (s32 (fd - STDIO_FD_COUNT))) (fun r => if r <? 0 then -1 else 0).
Definition read (fuel : nat) (fd : Z) (buf : bool) (count : Z) : M (option (Z * list Z)) :=
  if fd =? STDIO_FD_IN then stdio_read fuel buf count
  else if is_stdio_fd fd then ret (-1, [])
  else vfs_read (s32 (fd - STDIO_FD_COUNT)) buf count.
Definition write (fd : Z) (buf : option (list Z)) (count : Z) : M (option Z) :=
  if (fd =? STDIO_FD_OUT) || (fd =? STDIO_FD_ERR) then stdio_write buf count
  else if is_stdio_fd fd then ret (-1)
  else vfs_write (s32 (fd - STDIO_FD_COUNT)) buf count.
Definition lseek (fd offset whence : Z) : M (option Z) :=
  if is_stdio_fd fd then ret (-1) else vfs_lseek (s32 (fd - STDIO_FD_COUNT)) offset whence.
Definition unlink (path : list Z) : M (option Z) :=
  r ← vfs_stat path;
  match r with
  | None => mret None
  | Some (inl _) => ret (-1)
  | Some (inr v) => if n_is_dir v then ret (-1) else map_done (vfs_remove path) (fun r => if r <? 0 then -1 else 0)
  end.
(** The string stored in a buffer of [size] bytes; [None] is the null result. *)
Definition getcwd (size : Z) : M (option (list Z)) :=
  s ← gets id; mret (if size <? zlen (s_cwd s) + 1 then None else Some (s_cwd s)).

Definition S_IFREG : Z := 0x8000.
Definition S_IFDIR : Z := 0x4000.
(** [st_size] and [st_mode]; the inner [None] is -1. *)
Definition fstat (fd : Z) : M (option (option (Z * Z))) :=
  map_done (vfs_fsize fd) (fun sz => if sz <? 0 then None else Some (sz, S_IFREG)).
Definition stat (path : list Z) : M (option (option (Z * Z))) :=
  map_done (vfs_stat path) (fun r =>
    match r with inl _ => None | inr v => Some (n_size v, if n_is_dir v then S_IFDIR else S_IFREG) end).

(** A [FILE*] is the index of its slot; [None] is the null pointer. *)
Definition stream_fd (f : option Z) : M Z :=
  s ← gets id;
  mret (match f with
        | Some i => if (0 <=? i) && (i <? Z.of_nat VFS_MAX_FDS) && v_used (file_at s i) then i else -1
        | None => -1
        end).
Definition fopen_flags (mode : list Z) : Z :=
  let plus := present (strchr mode 43) in
  let wr := if plus then O_RDWR else O_WRONLY in
  if hd0 mode =? 119 then Z.lor (Z.lor wr O_CREAT) O_TRUNC
  else if hd0 mode =? 97 then Z.lor (Z.lor wr O_CREAT) O_APPEND
  else if plus then O_RDWR else O_RDONLY.
Definition fopen (path mode : list Z) : M (option (option Z)) :=
  map_done (vfs_open_tcc path (fopen_flags mode)) (fun fd => if fd <? 0 then None else Some fd).
Definition fdopen (fd : Z) : M (option Z) := s ← gets id; mret (if fget s fd then Some fd else None).

Definition set_eof (fd : Z) (x : bool) : M unit := upd_file fd (set_v_eof x).
(** The number of items and the bytes stored. *)
Definition fread (size nmemb : Z) (f : option Z) (buf : bool) : M (option (Z * list Z)) :=
  fd ← stream_fd f;
  if (fd <? 0) || (size =? 0) || (nmemb =? 0) then ret (0, []) else
  let want := u32 (size * nmemb) in
  r ← vfs_read fd buf want;
  match r with
  | None => mret None
  | Some (got, out) =>
      if got <=? 0 then set_eof fd true;; ret (0, out)
      else (when (u32 got <? want) (set_eof fd true));; ret (got / size, out)
  end.
Definition fwrite (buf : option (list Z)) (size nmemb : Z) (f : option Z) : M (option Z) :=
  fd ← stream_fd f;
  if (fd <? 0) || (size =? 0) || (nmemb =? 0) then ret 0 else
  map_done (vfs_write fd buf (u32 (size * nmemb))) (fun w => if w <? 0 then 0 else w / size).
Definition fclose (f : option Z) : M (option Z) :=
  fd ← stream_fd f;
  if fd <? 0 then ret (-1) else map_done (vfs_close fd) (fun r => if r <? 0 then -1 else 0).
Definition fseek (f : option Z) (offset whence : Z) : M (option Z) :=
  fd ← stream_fd f;
  if fd <? 0 then ret (-1) else
  r ← vfs_lseek fd offset whence;
  match r with
  | None => mret None
  | Some p => if p <? 0 then ret (-1) else set_eof fd false;; ret 0
  end.
Definition ftell (f : option Z) : M (option Z) :=
  fd ← stream_fd f; if fd <? 0 then ret (-1) else vfs_lseek fd 0 SEEK_CUR.
Definition feof (f : option Z) : M bool :=
  s ← gets id; mret (match f with None => true | Some i => v_eof (file_at s i) end).

End ops.
End Vfs.
