(* ===== verification/VfsPathProps.v ===== *)
(** Properties of the virtual file system's path functions: normalisation
    against a reference definition on lists of components, splitting. *)
From S2P Require Import Prelude CString VfsPath.
From stdpp Require Import base list numbers.
From Stdlib Require Import ZArith Lia.
Import CString VfsPath.
Open Scope Z_scope.

Module VfsPathProps.

(** ** The reference: a path as the list of its components *)

Definition no_slash (c : list Z) : Prop := Forall (fun x => x <> sl) c.
(** A component that names an entry. *)
Definition plain (c : list Z) : Prop := c <> [] /\ no_slash c /\ c <> [dot] /\ c <> [dot; dot].

Definition flush (cur : list Z) (r : list (list Z)) : list (list Z) := match cur with [] => r | _ => cur :: r end.
Fixpoint comps_from (cur p : list Z) : list (list Z) :=
  match p with
  | [] => flush cur []
  | c :: p => if c =? sl then flush cur (comps_from [] p) else comps_from (cur ++ [c]) p
  end.
(** The components of a path, empty ones dropped. *)
Definition comps (p : list Z) : list (list Z) := comps_from [] p.

(** "." stays, ".." goes up and stops at the root, a name goes down. *)
Definition walk_comp (acc : list (list Z)) (c : list Z) : list (list Z) :=
  if decide (c = [dot]) then acc else if decide (c = [dot; dot]) then removelast acc else acc ++ [c].
Definition walk (cs : list (list Z)) : list (list Z) := foldl walk_comp [] cs.

Definition slashed (l : list (list Z)) : list Z := concat (map (cons sl) l).
Definition render (l : list (list Z)) : list Z := match l with [] => root_path | _ => slashed l end.

(** What [normalize] reads: the path, or the working directory, a slash and
    the path; the empty path is ".". *)
Definition full_path (cwd inp : list Z) : list Z :=
  let inp := match cstr inp with [] => [dot] | q => q end in
  if hd0 inp =? sl then inp else cwd ++ sl :: inp.

(** A stack of components each of which passed the length check when it was
    pushed. *)
Fixpoint fits (pre l : list (list Z)) : Prop :=
  match l with
  | [] => True
  | c :: l => zlen c <= VFS_PATH_MAX - 1 /\ zlen (render pre) + zlen c + 2 < VFS_PATH_MAX /\ fits (pre ++ [c]) l
  end.
Definition canonical (l : list (list Z)) : Prop := Forall plain l /\ fits [] l.

(** ** Lists of components and strings *)

Lemma comps_from_app_plain cur c p : no_slash c ->
  comps_from cur (c ++ p) = comps_from (cur ++ c) p.
Proof.
  unfold no_slash. intros Hc. revert cur. induction c as [|x c IH]; intros cur; cbn.
  - by rewrite app_nil_r.
  - apply list.Forall_cons in Hc as [Hx Hc]. apply Z.eqb_neq in Hx. rewrite Hx, IH by done. by rewrite <- app_assoc.
Qed.
Lemma comps_skip p : comps p = comps (skip_slashes p).
Proof.
  induction p as [|c p IH]; [done|]. cbn [skip_slashes]. destruct (c =? sl) eqn:E; [|done].
  rewrite <- IH. unfold comps. cbn. by rewrite E.
Qed.
Lemma skip_slashes_cons p x q : skip_slashes p = x :: q -> x <> sl.
Proof. induction p as [|c p IH]; cbn; [done|]. destruct (Z.eqb_spec c sl); [done|]. intros [= <- _]. done. Qed.
Lemma length_skip_slashes p : (length (skip_slashes p) <= length p)%nat.
Proof. induction p as [|c p IH]; cbn; [done|]. destruct (c =? sl); cbn; lia. Qed.
Lemma take_comp_spec p : let (c, r) := take_comp p in
  p = c ++ r /\ no_slash c /\ (r = [] \/ exists r', r = sl :: r').
Proof.
  induction p as [|x p IH]; cbn; [split_and!; [done|constructor|by left]|].
  destruct (Z.eqb_spec x sl) as [->|Hx]; [split_and!; [done|constructor|by eauto]|].
  destruct (take_comp p) as [c r]. destruct IH as (-> & Hc & Hr). split_and!; [done|by constructor|done].
Qed.
Lemma take_comp_app c r : no_slash c -> (r = [] \/ exists r', r = sl :: r') -> take_comp (c ++ r) = (c, r).
Proof.
  intros Hc Hr. induction c as [|x c IH]; cbn.
  - destruct Hr as [->|[r' ->]]; done.
  - apply list.Forall_cons in Hc as [Hx Hc]. apply Z.eqb_neq in Hx. by rewrite Hx, IH.
Qed.
(** The loop's view of the components. *)
Lemma comps_step p x q : skip_slashes p = x :: q ->
  let (c, r) := take_comp (x :: q) in comps p = c :: comps r /\ (length r < length p)%nat /\ c <> [] /\ no_slash c.
Proof.
  intros Hp. pose proof (skip_slashes_cons _ _ _ Hp) as Hx. pose proof (length_skip_slashes p) as Hl.
  pose proof (take_comp_spec (x :: q)) as Hs. destruct (take_comp (x :: q)) as [c r] eqn:E.
  destruct Hs as (Hc & Hn & Hr). assert (c <> []) as Hne.
  { intros ->. cbn in E. destruct (Z.eqb_spec x sl); [done|]. destruct (take_comp q). by simplify_eq. }
  rewrite comps_skip, Hp, Hc. unfold comps. rewrite comps_from_app_plain by done. cbn [app].
  rewrite Hp, Hc, length_app in Hl. split_and!; [|destruct c; [done|cbn in *; lia]|done|done].
  destruct Hr as [->|[r' ->]]; cbn; by destruct c.
Qed.
Lemma comps_slashed l : Forall (fun c => c <> [] /\ no_slash c) l -> comps (slashed l) = l.
Proof.
  induction 1 as [|c l [Hne Hns] Hl IH]; [done|].
  change (slashed (c :: l)) with (sl :: c ++ slashed l). rewrite comps_skip. cbn. rewrite <- comps_skip.
  unfold comps. rewrite comps_from_app_plain by done. cbn [app].
  destruct l as [|c' l]; [destruct c; done|]. change (slashed (c' :: l)) with (sl :: (c' ++ slashed l)) in *.
  cbn [comps_from]. rewrite Z.eqb_refl. unfold comps in IH. cbn in IH. rewrite IH. by destruct c.
Qed.
Lemma comps_render l : Forall plain l -> comps (render l) = l.
Proof.
  intros Hl. destruct l as [|c l]; [done|]. apply comps_slashed.
  eapply Forall_impl; [|exact Hl]. by intros x (? & ? & _).
Qed.

Lemma slashed_app l l' : slashed (l ++ l') = slashed l ++ slashed l'.
Proof. unfold slashed. by rewrite map_app, concat_app. Qed.
Lemma slashed_snoc l c : slashed (l ++ [c]) = slashed l ++ sl :: c.
Proof. rewrite slashed_app. unfold slashed at 2. cbn. by rewrite app_nil_r. Qed.
Lemma render_snoc l c : render (l ++ [c]) = slashed (l ++ [c]).
Proof. by destruct l. Qed.
Lemma render_len l : 1 <= zlen (render l).
Proof. unfold zlen. destruct l; cbn; lia. Qed.
(** The push of the loop. *)
Lemma render_push l c : Forall plain l ->
  (if 1 <? zlen (render l) then render l ++ [sl] else render l) ++ c = render (l ++ [c]).
Proof.
  intros Hl. rewrite render_snoc, slashed_snoc. destruct Hl as [|x l [Hx _] Hl]; [done|].
  rewrite (proj2 (Z.ltb_lt _ _)); [by rewrite <- app_assoc|].
  destruct x; [done|]. unfold zlen. cbn. lia.
Qed.

Lemma drop_comp_rev_app c R : no_slash c -> R <> [] ->
  drop_comp_rev (c ++ sl :: R) = sl :: R.
Proof.
  intros Hc HR. induction c as [|x c IH].
  - by destruct R.
  - apply list.Forall_cons in Hc as [Hx Hc]. apply Z.eqb_neq in Hx. rewrite <- (IH Hc) at 2.
    destruct c; cbn; by rewrite Hx.
Qed.
Lemma drop_comp_rev_root c : no_slash c -> drop_comp_rev (c ++ [sl]) = [sl].
Proof.
  intros Hc. induction c as [|x c IH]; [done|]. apply list.Forall_cons in Hc as [Hx Hc]. apply Z.eqb_neq in Hx.
  rewrite <- (IH Hc) at 2. destruct c; cbn; by rewrite Hx.
Qed.
(** The pop of the loop. *)
Lemma pop_render l : Forall plain l -> pop_comp (render l) = render (removelast l).
Proof.
  intros Hl. destruct l as [|c l _] using rev_ind; [done|].
  apply Forall_app in Hl as [Hl [(Hne & Hns & _) _]%list.Forall_cons]. rewrite removelast_last, render_snoc.
  assert (Hns' : no_slash (rev c)) by by apply Forall_rev.
  unfold pop_comp. rewrite (proj2 (Z.leb_gt _ _)).
  2:{ rewrite slashed_snoc. unfold zlen. rewrite length_app. destruct c; [done|]. cbn. lia. }
  rewrite slashed_snoc, rev_app_distr. cbn [rev]. rewrite <- app_assoc. cbn [app].
  destruct l as [|c' l']; [cbn; by rewrite drop_comp_rev_root|].
  assert (HR : rev (slashed (c' :: l')) <> []) by (cbn; intros [? ?]%app_eq_nil; done).
  rewrite drop_comp_rev_app by done.
  destruct (rev (slashed (c' :: l'))) as [|y R] eqn:E; [done|]. rewrite <- E. by rewrite rev_involutive.
Qed.

(** ** The loop on the list of components *)

Fixpoint run (cs acc : list (list Z)) : option (list (list Z)) :=
  match cs with
  | [] => Some acc
  | c :: cs =>
      if VFS_PATH_MAX - 1 <? zlen c then None
      else if decide (c = [dot]) then run cs acc
      else if decide (c = [dot; dot]) then run cs (removelast acc)
      else if VFS_PATH_MAX <=? zlen (render acc) + zlen c + 2 then None
      else run cs (acc ++ [c])
  end.

Lemma removelast_Forall {A} (P : A -> Prop) l : Forall P l -> Forall P (removelast l).
Proof.
  intros Hl. destruct l as [|x l _] using rev_ind; [done|]. rewrite removelast_last. by apply Forall_app in Hl as [? _].
Qed.
Lemma norm_loop_run fuel p acc : Forall plain acc -> (length p < fuel)%nat ->
  norm_loop fuel p (render acc) = render <$> run (comps p) acc.
Proof.
  revert p acc. induction fuel as [|fuel IH]; intros p acc Hacc Hf; [lia|]. cbn [norm_loop].
  destruct (skip_slashes p) as [|x q] eqn:Hs; [by rewrite comps_skip, Hs|].
  pose proof (comps_step p x q Hs) as Hc. destruct (take_comp (x :: q)) as [c r].
  destruct Hc as (-> & Hl & Hne & Hns). cbn [run].
  destruct (VFS_PATH_MAX - 1 <? zlen c); [done|].
  destruct (decide (c = [dot])) as [|Hd]; [apply IH; [done|lia]|].
  destruct (decide (c = [dot; dot])) as [|Hdd].
  { rewrite pop_render by done. apply IH; [by apply removelast_Forall|lia]. }
  destruct (VFS_PATH_MAX <=? zlen (render acc) + zlen c + 2); [done|].
  rewrite render_push by done. apply IH; [|lia]. apply Forall_app. split; [done|]. by apply list.Forall_singleton.
Qed.

Lemma fits_app pre l l' : fits pre (l ++ l') <-> fits pre l /\ fits (pre ++ l) l'.
Proof.
  revert pre. induction l as [|c l IH]; intros pre; cbn; [rewrite app_nil_r; tauto|].
  rewrite IH, <- app_assoc. cbn. tauto.
Qed.
Lemma canonical_removelast l : canonical l -> canonical (removelast l).
Proof.
  intros [Hp Hf]. split; [by apply removelast_Forall|].
  destruct l as [|c l _] using rev_ind; [done|]. rewrite removelast_last. by apply fits_app in Hf as [? _].
Qed.

(** A run that succeeds is the reference walk and ends canonical. *)
Lemma run_walk cs acc out : Forall (fun c => c <> [] /\ no_slash c) cs -> canonical acc ->
  run cs acc = Some out -> out = foldl walk_comp acc cs /\ canonical out.
Proof.
  intros Hcs. revert acc. induction Hcs as [|c cs [Hne Hns] Hcs IH]; intros acc Hacc; cbn [run foldl].
  { by intros [= <-]. }
  destruct (Z.ltb_spec (VFS_PATH_MAX - 1) (zlen c)) as [|Hl]; [done|]. unfold walk_comp at 2.
  destruct (decide (c = [dot])); [by apply IH|].
  destruct (decide (c = [dot; dot])); [by apply IH, canonical_removelast|].
  destruct (Z.leb_spec VFS_PATH_MAX (zlen (render acc) + zlen c + 2)) as [|Hlen]; [done|]. apply IH.
  destruct Hacc as [Hp Hf]. split.
  - apply Forall_app. split; [done|]. by apply list.Forall_singleton.
  - apply fits_app. split; [done|]. cbn. by split_and!.
Qed.
(** A canonical list of components runs to itself. *)
Lemma run_canonical l pre : Forall plain l -> fits pre l -> run l pre = Some (pre ++ l).
Proof.
  intros Hl. revert pre. induction Hl as [|c l (Hne & Hns & Hd & Hdd) Hl IH]; intros pre Hf; cbn [run].
  { by rewrite app_nil_r. }
  destruct Hf as (Hc & Hlen & Hf). rewrite (proj2 (Z.ltb_ge _ _)) by done.
  rewrite !decide_False by done. rewrite (proj2 (Z.leb_gt _ _)) by done. rewrite IH by done. by rewrite <- app_assoc.
Qed.
Lemma comps_ok p : Forall (fun c => c <> [] /\ no_slash c) (comps p).
Proof.
  unfold comps. assert (H : forall cur, no_slash cur -> Forall (fun c => c <> [] /\ no_slash c) (comps_from cur p)).
  { induction p as [|x p IH]; intros cur Hc; cbn.
    - destruct cur; [constructor|]. by apply list.Forall_singleton.
    - destruct (Z.eqb_spec x sl).
      + destruct cur; cbn; [apply IH; constructor|]. constructor; [done|]. apply IH. constructor.
      + apply IH. apply Forall_app. split; [done|]. by apply list.Forall_singleton. }
  apply H. constructor.
Qed.

(** The length test before the loop. *)
Definition too_long (cwd inp : list Z) : bool :=
  let q := match cstr inp with [] => [dot] | q => q end in
  if hd0 q =? sl then 2 * VFS_PATH_MAX <=? zlen q else 2 * VFS_PATH_MAX <=? zlen cwd + zlen q + 2.
Lemma normalize_run cwd inp :
  normalize cwd inp = if too_long cwd inp then None else render <$> run (comps (full_path cwd inp)) [].
Proof.
  unfold full_path, normalize, too_long. set (q := match cstr inp with [] => [dot] | q => q end).
  replace (match cstr inp with [] => [dot] | _ :: _ => cstr inp end) with q by (unfold q; by destruct (cstr inp)).
  destruct (hd0 q =? sl).
  - destruct (2 * VFS_PATH_MAX <=? zlen q); [done|]. apply (norm_loop_run _ q []); [done|lia].
  - destruct (2 * VFS_PATH_MAX <=? zlen cwd + zlen q + 2); [done|].
    apply (norm_loop_run _ (cwd ++ sl :: q) []); [done|lia].
Qed.

(** Nothing the loop meets is too long when the whole path is short. *)
Fixpoint total (cs : list (list Z)) : Z := match cs with [] => 0 | c :: cs => 1 + zlen c + total cs end.
Lemma total_nonneg cs : 0 <= total cs.
Proof. induction cs; cbn; unfold zlen; lia. Qed.
Lemma render_total acc : zlen (render acc) <= Z.max 1 (total acc).
Proof.
  assert (H : zlen (slashed acc) = total acc).
  { induction acc as [|c acc IH]; [done|]. change (slashed (c :: acc)) with (sl :: c ++ slashed acc).
    cbn [total]. rewrite <- IH. unfold zlen. cbn [length]. rewrite length_app. lia. }
  destruct acc; [unfold zlen; cbn; lia|]. change (render (l :: acc)) with (slashed (l :: acc)). lia.
Qed.
Lemma total_app a b : total (a ++ b) = total a + total b.
Proof. induction a; cbn; lia. Qed.
Lemma total_removelast l : total (removelast l) <= total l.
Proof.
  destruct l as [|c l _] using rev_ind; [done|]. rewrite removelast_last, total_app. cbn. unfold zlen. lia.
Qed.
Lemma run_total cs acc : total acc + total cs < VFS_PATH_MAX - 2 -> run cs acc <> None.
Proof.
  unfold VFS_PATH_MAX. revert acc. induction cs as [|c cs IH]; intros acc Hl; cbn [run]; [done|]. cbn [total] in Hl.
  pose proof (zlen_nonneg c). pose proof (total_nonneg cs). pose proof (total_nonneg acc).
  rewrite (proj2 (Z.ltb_ge _ _)) by (unfold VFS_PATH_MAX; lia).
  destruct (decide (c = [dot])); [apply IH; lia|].
  destruct (decide (c = [dot; dot])); [apply IH; pose proof (total_removelast acc); lia|].
  pose proof (render_total acc). rewrite (proj2 (Z.leb_gt _ _)) by (unfold VFS_PATH_MAX; lia).
  apply IH. rewrite total_app. cbn. lia.
Qed.
Lemma total_comps p : total (comps p) <= 1 + zlen p.
Proof.
  assert (H : forall cur, total (comps_from cur p) <= 1 + zlen cur + zlen p).
  { induction p as [|x p IH]; intros cur; cbn [comps_from].
    - destruct cur; cbn [flush total]; unfold zlen; cbn [length]; lia.
    - destruct (x =? sl).
      + specialize (IH []). destruct cur; cbn [flush total]; unfold zlen in *; cbn [length] in *; lia.
      + specialize (IH (cur ++ [x])). unfold zlen in *. rewrite length_app in IH. cbn [length] in *. lia. }
  apply (H []).
Qed.

(** A canonical path has no terminator when its components have none. *)
Definition no_nul (p : list Z) : Prop := Forall (fun x => x <> 0) p.
Lemma cstr_no_nul s : no_nul (cstr s).
Proof. induction s as [|c s IH]; cbn; [constructor|]. destruct (Z.eqb_spec c 0); by constructor. Qed.
Lemma cstr_id s : no_nul s -> cstr s = s.
Proof. induction 1 as [|c s Hc Hs IH]; cbn; [done|]. apply Z.eqb_neq in Hc. by rewrite Hc, IH. Qed.
Lemma comps_no_nul p : no_nul p -> Forall no_nul (comps p).
Proof.
  intros Hp. assert (H : forall cur, no_nul cur -> Forall no_nul (comps_from cur p)).
  { induction Hp as [|x p Hx Hp IH]; intros cur Hc; cbn [comps_from].
    - destruct cur; [constructor|]. by apply list.Forall_singleton.
    - destruct (x =? sl).
      + destruct cur; [apply IH; constructor|]. constructor; [done|]. apply IH. constructor.
      + apply IH. apply Forall_app. split; [done|]. by apply list.Forall_singleton. }
  apply H. constructor.
Qed.
Lemma walk_no_nul cs acc : Forall no_nul cs -> Forall no_nul acc -> Forall no_nul (foldl walk_comp acc cs).
Proof.
  intros Hcs. revert acc. induction Hcs as [|c cs Hc Hcs IH]; intros acc Ha; [done|]. cbn. apply IH.
  unfold walk_comp. repeat case_decide; [done|by apply removelast_Forall|].
  apply Forall_app. split; [done|]. by apply list.Forall_singleton.
Qed.
Lemma render_no_nul l : Forall no_nul l -> no_nul (render l).
Proof.
  intros Hl. assert (H : no_nul (slashed l)).
  { induction Hl as [|c l Hc Hl IH]; [constructor|]. change (slashed (c :: l)) with (sl :: c ++ slashed l).
    constructor; [done|]. by apply Forall_app. }
  destruct l; [by repeat constructor|done].
Qed.
Lemma render_bound l : canonical l -> zlen (render l) < VFS_PATH_MAX - 1.
Proof.
  intros [Hp Hf]. destruct l as [|c l _] using rev_ind; [reflexivity|].
  apply fits_app in Hf as [_ (_ & Hf & _)]. cbn [app] in Hf. apply Forall_app in Hp as [Hp _].
  rewrite <- render_push by done. destruct (1 <? zlen (render l)); rewrite ?zlen_app in *;
    unfold zlen, VFS_PATH_MAX in *; cbn [length] in *; lia.
Qed.
Lemma render_head l : exists q, render l = sl :: q.
Proof. destruct l; by eexists. Qed.
Lemma normalize_render cwd l : canonical l -> Forall no_nul l -> normalize cwd (render l) = Some (render l).
Proof.
  intros Hc Hn. rewrite normalize_run. unfold too_long, full_path. rewrite cstr_id by by apply render_no_nul.
  pose proof (render_bound l Hc) as Hb. destruct (render_head l) as [q Hq]. rewrite Hq. cbn [hd0 head default].
  rewrite Z.eqb_refl, <- Hq. unfold VFS_PATH_MAX in Hb. rewrite (proj2 (Z.leb_gt _ _)) by (unfold VFS_PATH_MAX; lia).
  destruct Hc as [Hp Hf]. by rewrite comps_render, (run_canonical l []).
Qed.

Lemma full_path_no_nul cwd inp : no_nul cwd -> no_nul (full_path cwd inp).
Proof.
  intros Hcwd. unfold full_path. pose proof (cstr_no_nul inp). destruct (cstr inp) as [|x q].
  - cbn. apply Forall_app. split; [done|]. by repeat constructor.
  - destruct (hd0 (x :: q) =? sl); [done|]. apply Forall_app. split; [done|]. by constructor.
Qed.

(** ** Properties *)

(** C21 - Normalising a path is walking its components from the root: empty
    components and "." stay in place, ".." goes to the parent and stops at the
    root, any other component is entered. A path that is accepted is rendered
    from the list of components so reached, each of them non-empty, free of
    slashes and neither "." nor "..", and it is shorter than the 128-byte
    arrays it is copied into. *)
Theorem normalize_spec cwd inp out : normalize cwd inp = Some out ->
  out = render (walk (comps (full_path cwd inp))) /\ Forall plain (walk (comps (full_path cwd inp))) /\ zlen out < VFS_PATH_MAX - 1.
Proof.
  rewrite normalize_run. destruct (too_long cwd inp); [done|].
  destruct (run _ []) as [acc|] eqn:E; [|done]. intros [= <-].
  apply run_walk in E as [-> [Hp Hf]]; [|apply comps_ok|split; [constructor|done]].
  unfold walk. split_and!; [done|done|].
  by apply render_bound.
Qed.
Lemma normalize_spec_witness :
  normalize [47; 97] [46; 46; 47; 98; 47; 47; 99] = Some [47; 98; 47; 99] /\ [47; 98; 47; 99] = render (walk (comps (full_path [47; 97] [46; 46; 47; 98; 47; 47; 99]))).
Proof.
  split; [vm_compute; reflexivity|].
  exact (proj1 (normalize_spec [47; 97] [46; 46; 47; 98; 47; 47; 99] [47; 98; 47; 99] ltac:(vm_compute; reflexivity))).
Defined.

(** Every path whose full form is shorter than 125 characters is
    accepted, whatever it contains; and normalising is idempotent: what it
    returns is an absolute path that it returns again, from any working
    directory. *)
Theorem normalize_total_idempotent cwd inp : no_nul cwd ->
  (zlen (full_path cwd inp) < VFS_PATH_MAX - 3 -> normalize cwd inp <> None) /\
  (forall out cwd', normalize cwd inp = Some out -> normalize cwd' out = Some out).
Proof.
  intros Hcwd. split.
  - intros Hl. rewrite normalize_run. unfold too_long. unfold full_path in *.
    set (q := match cstr inp with [] => [dot] | q => q end) in *.
    destruct (run _ []) eqn:E.
    2:{ exfalso. revert E. apply run_total. pose proof (total_comps (if hd0 q =? sl then q else cwd ++ sl :: q)). cbn. lia. }
    unfold VFS_PATH_MAX, zlen in *. destruct (hd0 q =? sl).
    + by rewrite (proj2 (Z.leb_gt _ _)) by lia.
    + rewrite length_app in Hl. cbn [length] in Hl. by rewrite (proj2 (Z.leb_gt _ _)) by lia.
  - intros out cwd'. rewrite normalize_run. destruct (too_long cwd inp); [done|].
    destruct (run _ []) as [acc|] eqn:E; [|done]. intros [= <-].
    apply run_walk in E as [-> Hacc]; [|apply comps_ok|split; [constructor|done]]. apply normalize_render; [done|].
    apply walk_no_nul; [|constructor]. by apply comps_no_nul, full_path_no_nul.
Qed.
Lemma normalize_idempotent_witness :
  normalize [47; 97] [46; 46; 47; 98] = Some [47; 98] /\ normalize [47; 120] [47; 98] = Some [47; 98].
Proof.
  split; [vm_compute; reflexivity|].
  apply (proj2 (normalize_total_idempotent [47; 97] [46; 46; 47; 98] ltac:(repeat constructor; discriminate)));
    vm_compute; reflexivity.
Defined.

End VfsPathProps.
