(* ===== verification/VfsDemo.v ===== *)
(** A machine for the theorems about the virtual file system: one blank IDE
    drive of 1024 sectors, formatted and mounted by running the model. *)
From S2P Require Import Prelude CString Disk CosData FatData VfsPath VfsData VfsBackend VfsMount Vfs.
From stdpp Require Import base list gmap numbers.
From Stdlib Require Import ZArith Lia.
Import VfsPath VfsData VfsMount Vfs Drives.
Open Scope Z_scope.

Module VfsDemo.

(** A kernel whose heap never fails and whose console is silent. *)
#[export] Instance null_kernel : Kernel unit := {|
  k_malloc := fun _ k => (1, k); k_free := fun _ k => k; k_klog := fun _ k => k;
  k_stdin_getc := fun k => (-1, k); k_ps2_poll := fun k => k |}.

Definition demo_bank : drives := mk_drives (0, 0) {[ (0x1F0, 0) := mk_drive 1024 ∅ ]}.
Definition demo_cos : Cos.fsstate drives :=
  Cos.mk_fs demo_bank (Cos.mk_sb 0 0 0 0 0 0 0) (replicate (Z.to_nat INODE_BITMAP_SIZE) 0) 0 0 0 0 0 0 [Cos.mk_device 0x1F0 0 1024] 1.
Definition powered : vstate drives unit :=
  mk_v demo_cos Fat.zero_fs [] tt [] None [] [] [] (-1) 0 lock_free 0.
(** "0", "cos", "/", "a". *)
Definition drive0 : list Z := [48].
Definition cos_name : list Z := [99; 111; 115].
Definition name_a : list Z := [97].

(** Start-up, format, mount at the root, a file opened for reading and
    writing. *)
Definition booted : vstate drives unit := (vfs_init powered).2.
Definition formatted : vstate drives unit := (vfs_format drive0 (Some cos_name) booted).2.
Definition mounted : vstate drives unit := (vfs_mount drive0 root_path formatted).2.
Definition opened : vstate drives unit := (vfs_open name_a (Z.lor O_CREAT O_RDWR) mounted).2.

Lemma booted_run : vfs_init powered = (Some tt, booted).
Proof.
  assert (E : (vfs_init powered).1 = Some tt) by (vm_compute; reflexivity).
  unfold booted. rewrite <- E. apply surjective_pairing.
Qed.

End VfsDemo.
