(* ===== verification/VfsFrame.v ===== *)
(** What the operations behind a mount leave alone: the mount table but for
    the cached FAT32 volumes, which files are open, the root, the working
    directory, the lock. *)
From S2P Require Import Prelude CString Disk CosData CosAlloc CosFile CosDir CosFormat FatData FatDir FatFile VfsPath VfsData VfsBackend VfsMount.
From stdpp Require Import base list numbers.
From Stdlib Require Import ZArith Lia.
Import CString VfsPath VfsData VfsBackend VfsMount.
Open Scope Z_scope.

Create HintDb keeps.

Module VfsFrame.

(** A mount without its cached volume; the part of an open file the tables'
    invariant speaks of. *)
Definition skel (m : mount) : mount := set_m_fat Fat.zero_fs m.
Definition fskel (f : vfile) : bool * Z := (v_used f, v_mount f).

Section frame.
Context {D K : Type} `{BlockDev D} `{Kernel K}.
Implicit Types s : vstate D K.
#[local] Abbreviation M := (st (vstate D K)).

Record stable s s' : Prop := {
  st_mounts : skel <$> s_mounts s' = skel <$> s_mounts s;
  st_files : fskel <$> s_files s' = fskel <$> s_files s;
  st_root : s_root s' = s_root s;
  st_cwd : s_cwd s' = s_cwd s;
  st_lck : lck s' = lck s;
  st_task : current_task s' = current_task s;
}.
#[export] Instance stable_preorder : PreOrder stable.
Proof. split; [by constructor|]. intros s1 s2 s3 [] []. constructor; congruence. Qed.

Definition keeps {A} (m : M A) : Prop := forall s, stable s (m s).2.

Lemma keeps_ret {A} (a : A) : keeps (mret a).
Proof. intros s. reflexivity. Qed.
Lemma keeps_gets {A} (f : vstate D K -> A) : keeps (gets f).
Proof. intros s. reflexivity. Qed.
Lemma keeps_bind {A B} (m : M A) (f : A -> M B) : keeps m -> (forall a, keeps (f a)) -> keeps (m ≫= f).
Proof.
  intros Hm Hf s. unfold mbind, st_bind. specialize (Hm s). destruct (m s) as [a s']. cbn in Hm.
  etransitivity; [exact Hm|apply Hf].
Qed.
Lemma keeps_when b (m : M unit) : keeps m -> keeps (when b m).
Proof. intros. destruct b; [done|apply keeps_ret]. Qed.
Lemma keeps_modify (f : vstate D K -> vstate D K) : (forall s, stable s (f s)) -> keeps (modify f).
Proof. intros Hf s. apply Hf. Qed.
Lemma keeps_in_cos {A} (m : st (Cos.fsstate D) A) : keeps (in_cos m).
Proof. intros s. unfold in_cos. destruct (m (cos s)). by constructor. Qed.
Lemma keeps_in_fat {A} (m : st (Fat.fatstate D) A) : keeps (in_fat m).
Proof. intros s. unfold in_fat. destruct (m _). by constructor. Qed.
Lemma keeps_ffor n i (body : Z -> M unit) : (forall j, keeps (body j)) -> keeps (ffor n i body).
Proof.
  intros Hb. revert i. induction n as [|n IH]; intros i s; cbn [ffor]; [reflexivity|].
  etransitivity; [apply (Hb i s)|apply IH].
Qed.
Lemma keeps_floop {R} n i (body : Z -> M (option R)) : (forall j, keeps (body j)) -> keeps (floop n i body).
Proof.
  intros Hb. revert i. induction n as [|n IH]; intros i s; cbn [floop]; [reflexivity|].
  pose proof (Hb i s) as Hs. destruct (body i s) as [[r|] s']; [exact Hs|].
  etransitivity; [exact Hs|apply IH].
Qed.
Lemma keeps_aloop {A R} n i (a : A) (body : Z -> A -> M (A + R)) :
  (forall j a, keeps (body j a)) -> keeps (aloop n i a body).
Proof.
  intros Hb. revert i a. induction n as [|n IH]; intros i a s; cbn [aloop]; [reflexivity|].
  pose proof (Hb i a s) as Hs. destruct (body i a s) as [[a'|r] s']; [|exact Hs].
  etransitivity; [exact Hs|apply IH].
Qed.

Lemma fmap_aset_same {A B} `{Inhabited A} (f : A -> B) (l : list A) i x :
  f x = f (l.[i]) -> f <$> l.[i := x] = f <$> l.
Proof.
  intros Hx. rewrite <- (aset_aget l i) at 2. unfold aset. by rewrite !list_fmap_insert, Hx.
Qed.
Lemma keeps_upd_file fd (g : vfile -> vfile) : (forall f, fskel (g f) = fskel f) -> keeps (upd_file fd g).
Proof.
  intros Hg s. unfold upd_file, modify. constructor; cbn; try done.
  apply fmap_aset_same. unfold file_at. by rewrite Hg.
Qed.
End frame.

#[export] Hint Resolve keeps_ret keeps_gets keeps_in_cos keeps_in_fat : keeps.

(** Walk through an operation: its binds, tests and loops. *)
Ltac keep :=
  repeat (intros; match goal with
  | |- keeps (mbind _ _) => apply keeps_bind
  | |- keeps (when _ _) => apply keeps_when
  | |- keeps (ffor _ _ _) => apply keeps_ffor
  | |- keeps (floop _ _ _) => apply keeps_floop
  | |- keeps (aloop _ _ _ _) => apply keeps_aloop
  | |- keeps (modify _) => apply keeps_modify; intros; constructor; reflexivity
  | |- keeps (upd_file _ _) => apply keeps_upd_file; intros; reflexivity
  | |- keeps (match ?x with _ => _ end) => destruct x
  | |- keeps (let _ := _ in _) => cbn zeta
  | |- keeps _ => solve [eauto with keeps nocore]
  end).

Section ops.
Context {D K : Type} `{BlockDev D} `{Kernel K}.
Implicit Types s : vstate D K.
#[local] Abbreviation kp := (keeps (D:=D) (K:=K)).

Lemma keeps_select drive : kp (select_drive_of drive).
Proof. unfold select_drive_of. keep. Qed.
Lemma keeps_block_read lba : kp (block_read lba).
Proof. apply keeps_in_cos. Qed.
Lemma keeps_block_write lba b : kp (block_write lba b).
Proof. apply keeps_in_cos. Qed.
Hint Resolve keeps_select keeps_block_read keeps_block_write : keeps.
Lemma keeps_detect_ex drive : kp (detect_ex drive).
Proof. unfold detect_ex, detect_part. keep. Qed.
Lemma keeps_hdr_place drive fs part : kp (hdr_place drive fs part).
Proof. unfold hdr_place. keep. Qed.
Hint Resolve keeps_hdr_place : keeps.
Lemma keeps_hdr_read drive fs part : kp (hdr_read drive fs part).
Proof. unfold hdr_read. keep. Qed.
Lemma keeps_hdr_write drive fs part h : kp (hdr_write drive fs part h).
Proof. unfold hdr_write. keep. Qed.
Lemma keeps_hdr_clear drive fs part : kp (hdr_clear drive fs part).
Proof. apply keeps_hdr_write. Qed.

Lemma keeps_ctx_enter mi : kp (ctx_enter mi).
Proof. unfold ctx_enter. keep. Qed.
Lemma keeps_ctx_leave mi : kp (ctx_leave mi).
Proof.
  intros s. unfold ctx_leave, set_mount. munfold. cbn.
  destruct (m_fs (mount_at s mi) =? VFS_FS_FAT32); [|reflexivity]. constructor; cbn; try done.
  apply fmap_aset_same. unfold mount_at. by destruct ((s_mounts s).[mi]).
Qed.
Hint Resolve keeps_ctx_enter keeps_ctx_leave : keeps.
Lemma keeps_in_ctx {A} mi (m : st (vstate D K) A) : kp m -> kp (in_ctx mi m).
Proof. intros. unfold in_ctx. keep. Qed.

Lemma keeps_cos_resolve rel : kp (cos_resolve rel).
Proof. apply keeps_in_cos. Qed.
Lemma keeps_read_inode i : kp (read_inode i).
Proof. apply keeps_in_cos. Qed.
Hint Resolve keeps_cos_resolve keeps_read_inode : keeps.
Lemma keeps_fat_parent p : kp (fat_parent_cluster p).
Proof. unfold fat_parent_cluster. keep. Qed.
Lemma keeps_be_stat mi rel : kp (be_stat mi rel).
Proof. unfold be_stat. keep. Qed.
Hint Resolve keeps_fat_parent keeps_be_stat : keeps.
Lemma keeps_be_mkdir mi rel : kp (be_mkdir mi rel).
Proof. unfold be_mkdir. keep. Qed.
Lemma keeps_be_create mi rel tag : kp (be_create mi rel tag).
Proof. unfold be_create. keep. Qed.
Lemma keeps_be_remove mi rel : kp (be_remove mi rel).
Proof. unfold be_remove. keep. Qed.
Hint Resolve keeps_be_create keeps_be_mkdir keeps_be_remove : keeps.
Lemma keeps_be_truncate mi rel tag : kp (be_truncate mi rel tag).
Proof. unfold be_truncate. keep. Qed.
Lemma keeps_readdir_slots n i buf max out : kp (cos_readdir_slots n i buf max out).
Proof. revert i out. induction n as [|n IH]; intros; cbn [cos_readdir_slots]; keep; apply IH. Qed.
Hint Resolve keeps_readdir_slots : keeps.
Lemma keeps_be_readdir mi rel max : kp (be_readdir mi rel max).
Proof. unfold be_readdir, cos_readdir_block. keep. Qed.
Lemma keeps_read_at mi fd off n : kp (read_at mi fd off n).
Proof. unfold read_at. keep. Qed.
Lemma keeps_fat_rewrite f dc leaf pos data len : kp (fat_rewrite f dc leaf pos data len).
Proof. unfold fat_rewrite. keep. Qed.
Hint Resolve keeps_fat_rewrite : keeps.
Lemma keeps_fat_write_at fd pos data len : kp (fat_write_at fd pos data len).
Proof. unfold fat_write_at. keep. Qed.
Lemma keeps_cos_write_at fd pos data len : kp (cos_write_at fd pos data len).
Proof. unfold cos_write_at. keep. Qed.

Lemma keeps_persist : kp persist.
Proof. unfold persist. keep. apply keeps_hdr_write. Qed.
Lemma keeps_backend_unmount mi : kp (backend_unmount mi).
Proof. unfold backend_unmount. keep. Qed.
Hint Resolve keeps_in_ctx : keeps.
Lemma keeps_ensure_dir_abs abs : kp (ensure_dir_abs abs).
Proof. unfold ensure_dir_abs. keep. apply keeps_in_ctx. keep. Qed.
Lemma keeps_remove_abs abs : kp (remove_abs abs).
Proof. unfold remove_abs. keep. Qed.
Lemma keeps_prompt_update : kp prompt_update.
Proof. unfold prompt_update. keep. Qed.
End ops.
#[export] Hint Resolve keeps_select keeps_detect_ex keeps_hdr_read keeps_hdr_write keeps_hdr_clear keeps_ctx_enter
  keeps_ctx_leave keeps_in_ctx keeps_be_stat keeps_be_mkdir keeps_be_create keeps_be_remove keeps_be_truncate
  keeps_be_readdir keeps_read_at keeps_fat_write_at keeps_cos_write_at keeps_persist keeps_backend_unmount
  keeps_ensure_dir_abs keeps_remove_abs keeps_prompt_update : keeps.

End VfsFrame.
