(* ===== verification/VfsTables.v ===== *)
(** The invariant of the mount table and of the open files, and the lemmas
    that keep it. *)
From S2P Require Import Prelude CString Disk CosData CosAlloc CosFile CosDir CosFormat FatData FatDir FatFile VfsPath VfsPathProps VfsData VfsBackend VfsMount VfsFrame.
From stdpp Require Import base list numbers.
From Stdlib Require Import ZArith Lia.
Import CString VfsPath VfsPathProps VfsData VfsBackend VfsMount VfsFrame.
Open Scope Z_scope.

Module VfsTables.

(** How many open files are on mount [i]. *)
Definition opens (fl : list (bool * Z)) (i : Z) : Z := zlen (filter (fun p => p.1 = true /\ p.2 = i) fl).

(** A path [normalize] returns. *)
Definition canon (p : list Z) : Prop := exists l, canonical l /\ Forall no_nul l /\ p = render l.

Record tables_ok (ms : list mount) (fl : list (bool * Z)) (root : option Z) (cwd : list Z) : Prop := {
  tk_len : length ms = 7%nat;
  tk_flen : length fl = 32%nat;
  (** an open file is on a mounted file system *)
  tk_file : forall i, (true, i) ∈ fl -> 0 <= i < 7 /\ m_used (ms.[i]) = true;
  (** [open_count] counts the open files *)
  tk_count : forall i, 0 <= i < 7 -> m_used (ms.[i]) = true -> m_open_count (ms.[i]) = opens fl i;
  (** [s_root] is the one mount flagged as root, at "/" *)
  tk_root : forall i, 0 <= i < 7 -> m_used (ms.[i]) = true ->
    if m_is_root (ms.[i]) then root = Some i /\ m_mountpoint (ms.[i]) = root_path
    else root <> Some i /\ root <> None /\ target_ok (m_mountpoint (ms.[i])) = true;
  tk_root_used : forall r, root = Some r -> 0 <= r < 7 /\ m_used (ms.[r]) = true;
  (** no two mounts at the same place *)
  tk_distinct : forall i j, 0 <= i < 7 -> 0 <= j < 7 -> i <> j -> m_used (ms.[i]) = true -> m_used (ms.[j]) = true ->
    strcasecmp (m_mountpoint (ms.[i])) (m_mountpoint (ms.[j])) <> 0;
  tk_cwd : canon cwd;
}.

(** ** Counting open files *)

Lemma opens_insert fl k p q i : fl !! k = Some q ->
  opens (<[k := p]> fl) i = opens fl i - (if decide (q.1 = true /\ q.2 = i) then 1 else 0)
                                       + (if decide (p.1 = true /\ p.2 = i) then 1 else 0).
Proof.
  intros Hk. unfold opens, zlen. rewrite <- (take_drop_middle fl k q Hk) at 2.
  rewrite insert_take_drop by by eapply lookup_lt_Some.
  rewrite !list.filter_app, !length_app, !list.filter_cons. repeat case_decide; cbn [length]; lia.
Qed.
Lemma opens_zero fl i : (forall p, p ∈ fl -> ~ (p.1 = true /\ p.2 = i)) -> opens fl i = 0.
Proof.
  intros Hn. unfold opens. replace (filter _ fl) with (@nil (bool * Z)); [done|].
  symmetry. destruct (filter _ fl) as [|p l] eqn:E; [done|].
  assert (Hp : p ∈ filter (fun p => p.1 = true /\ p.2 = i) fl) by (rewrite E; left).
  apply list_elem_of_filter in Hp as [Hp1 Hp2]. by destruct (Hn p Hp2).
Qed.
Lemma opens_pos fl i : (true, i) ∈ fl -> 0 < opens fl i.
Proof.
  intros Hi. unfold opens, zlen. enough (length (filter (fun p : bool * Z => p.1 = true /\ p.2 = i) fl) <> 0%nat) by lia.
  rewrite length_zero_iff_nil. intros E. assert (Hp : (true, i) ∈ filter (fun p : bool * Z => p.1 = true /\ p.2 = i) fl).
  { apply list_elem_of_filter. by split. }
  rewrite E in Hp. by apply not_elem_of_nil in Hp.
Qed.
Lemma elem_insert {A} (l : list A) k (x y : A) : y ∈ <[k := x]> l -> y = x \/ y ∈ l.
Proof.
  intros (j & Hj)%list_elem_of_lookup. apply list_lookup_insert_Some in Hj as [(_ & <- & _)|[_ Hj]]; [by left|].
  right. by eapply list_elem_of_lookup_2.
Qed.

(** ** Searches *)

Lemma find_index_spec {A} (f : A -> bool) l i k : find_index f l i = Some k ->
  exists n, k = i + Z.of_nat n /\ exists x, l !! n = Some x /\ f x = true.
Proof.
  revert i. induction l as [|x l IH]; intros i; cbn; [done|]. destruct (f x) eqn:Hf.
  - intros [= <-]. exists 0%nat. split; [lia|by exists x].
  - intros (n & -> & y & Hy & Hfy)%IH. exists (S n). split; [lia|by exists y].
Qed.
Lemma find_index_none {A} (f : A -> bool) l i : find_index f l i = None -> forall n x, l !! n = Some x -> f x = false.
Proof.
  revert i. induction l as [|x l IH]; intros i Hn n y Hy; [done|]. cbn in Hn. destruct (f x) eqn:Hf; [done|].
  destruct n as [|n]; [by injection Hy as <-|]. by eapply IH.
Qed.
Lemma find_index_0 {A} `{Inhabited A} (f : A -> bool) (l : list A) k : find_index f l 0 = Some k ->
  0 <= k < zlen l /\ f (l.[k]) = true.
Proof.
  intros (n & -> & x & Hx & Hf)%find_index_spec. pose proof (lookup_lt_Some _ _ _ Hx). unfold zlen, aget.
  split; [lia|]. rewrite Z.add_0_l, Nat2Z.id. by erewrite list_lookup_total_correct.
Qed.
Lemma find_index_0_none {A} `{Inhabited A} (f : A -> bool) (l : list A) : find_index f l 0 = None ->
  forall i, 0 <= i < zlen l -> f (l.[i]) = false.
Proof.
  intros Hn i Hi. eapply find_index_none; [exact Hn|]. unfold aget. apply list_lookup_lookup_total_lt. unfold zlen in Hi. lia.
Qed.

Lemma strcasecmp_sym a b : strcasecmp a b = 0 -> strcasecmp b a = 0.
Proof.
  revert b. induction a as [|x a IH]; intros [|y b]; cbn; try lia.
  - rewrite andb_false_r. lia.
  - rewrite andb_false_r. lia.
  - destruct (x =? 0), (y =? 0); cbn; try lia.
    destruct (Z.eqb_spec (u8 (tolower x)) (u8 (tolower y))) as [E|]; cbn; [|lia].
    rewrite E, Z.eqb_refl. cbn. apply IH.
Qed.

(** ** The invariant on states *)

Section inv.
Context {D K : Type} `{BlockDev D} `{Kernel K}.
Implicit Types s : vstate D K.

Definition vfs_ok s : Prop := tables_ok (skel <$> s_mounts s) (fskel <$> s_files s) (s_root s) (s_cwd s).

Lemma stable_ok s s' : stable s s' -> vfs_ok s -> vfs_ok s'.
Proof. intros [] Hs. unfold vfs_ok in *. congruence. Qed.
Lemma keeps_ok {A} (m : st (vstate D K) A) s : keeps m -> vfs_ok s -> vfs_ok (m s).2.
Proof. intros Hm. by apply stable_ok. Qed.

Lemma skel_aget (ms : list mount) i : (skel <$> ms).[i] = skel (ms.[i]).
Proof.
  unfold aget. destruct (decide (Z.to_nat i < length ms)%nat) as [Hi|Hi].
  - apply list_lookup_total_correct. by rewrite list_lookup_fmap, (list_lookup_lookup_total_lt ms) by done.
  - rewrite !list_lookup_total_alt, (lookup_ge_None_2 (skel <$> ms)), (lookup_ge_None_2 ms) by (rewrite ?length_fmap; lia).
    reflexivity.
Qed.
Lemma skel_proj m : m_used (skel m) = m_used m /\ m_is_root (skel m) = m_is_root m /\
  m_mountpoint (skel m) = m_mountpoint m /\ m_open_count (skel m) = m_open_count m.
Proof. done. Qed.

(** Tables seen through the states of two stable moments. *)
Lemma stable_mount s s' i : stable s s' -> skel (mount_at s' i) = skel (mount_at s i).
Proof. intros [Hm _ _ _ _ _]. unfold mount_at. by rewrite <- !skel_aget, Hm. Qed.

(** One mount changes its counter, the open files change on it alone. *)
Lemma recount_ok ms fl fl' root cwd mi m :
  tables_ok ms fl root cwd -> length fl' = 32%nat ->
  (forall i, (true, i) ∈ fl' -> (true, i) ∈ fl \/ i = mi) -> (forall i, i <> mi -> opens fl' i = opens fl i) ->
  0 <= mi < 7 -> m_used (ms.[mi]) = true -> m = skel (set_m_open_count (opens fl' mi) (ms.[mi])) ->
  tables_ok (ms.[mi := m]) fl' root cwd.
Proof.
  intros [] Hfl Hin Hop Hmi Hu ->.
  assert (Hl : zlen ms = 7) by (unfold zlen; lia).
  set (m := skel _).
  assert (Hg : forall i, 0 <= i < 7 -> m_used ((ms.[mi := m]).[i]) = m_used (ms.[i]) /\
     m_is_root ((ms.[mi := m]).[i]) = m_is_root (ms.[i]) /\ m_mountpoint ((ms.[mi := m]).[i]) = m_mountpoint (ms.[i])).
  { intros i Hi. rewrite aget_aset by lia. destruct (decide (mi = i)) as [->|]; by split_and!. }
  constructor; [unfold aset; by rewrite length_insert|done| | | | | |done].
  - intros i [Hi| ->]%Hin; [|split; [done|by rewrite (proj1 (Hg _ Hmi))]].
    destruct (tk_file0 i Hi) as [Hr Hu']. split; [done|]. by rewrite (proj1 (Hg _ Hr)).
  - intros i Hi. rewrite (proj1 (Hg i Hi)). intros Hui. rewrite aget_aset by lia.
    destruct (decide (mi = i)) as [->|Hne]; [done|]. rewrite tk_count0, Hop by done. done.
  - intros i Hi. destruct (Hg i Hi) as (-> & -> & ->). by apply tk_root0.
  - intros r Hr. destruct (tk_root_used0 r Hr) as [Hr' Hu']. split; [done|]. by rewrite (proj1 (Hg _ Hr')).
  - intros i j Hi Hj. destruct (Hg i Hi) as (-> & _ & ->), (Hg j Hj) as (-> & _ & ->). by apply tk_distinct0.
Qed.
(** Opening: a free slot gets a file on a used mount. *)
Lemma open_ok ms fl root cwd slot mi q m :
  tables_ok ms fl root cwd -> fl !! slot = Some q -> q.1 = false -> 0 <= mi < 7 -> m_used (ms.[mi]) = true ->
  m = skel (set_m_open_count (m_open_count (ms.[mi]) + 1) (ms.[mi])) ->
  tables_ok (ms.[mi := m]) (<[slot := (true, mi)]> fl) root cwd.
Proof.
  intros Ht Hq Hqf Hmi Hu ->.
  assert (Ho : forall i, opens (<[slot := (true, mi)]> fl) i = opens fl i + if decide (mi = i) then 1 else 0).
  { intros i. rewrite (opens_insert _ _ _ q), Hqf by done. cbn [fst snd]. repeat case_decide; first [lia | exfalso; intuition congruence]. }
  eapply recount_ok; try done.
  - rewrite length_insert. apply Ht.
  - intros i [[= ->]|Hi]%elem_insert; auto.
  - intros i Hi. rewrite Ho, decide_False by done. lia.
  - rewrite Ho, decide_True, (tk_count _ _ _ _ Ht) by done. done.
Qed.
(** Closing: an open file's slot is released. *)
Lemma close_ok ms fl root cwd slot mi m :
  tables_ok ms fl root cwd -> fl !! slot = Some (true, mi) ->
  m = skel (set_m_open_count (m_open_count (ms.[mi]) - 1) (ms.[mi])) ->
  tables_ok (ms.[mi := m]) (<[slot := (false, mi)]> fl) root cwd.
Proof.
  intros Ht Hq ->. destruct (tk_file _ _ _ _ Ht mi ltac:(by eapply list_elem_of_lookup_2)) as [Hmi Hu].
  assert (Ho : forall i, opens (<[slot := (false, mi)]> fl) i = opens fl i - if decide (mi = i) then 1 else 0).
  { intros i. rewrite (opens_insert _ _ _ (true, mi)) by done. cbn [fst snd]. repeat case_decide; first [lia | exfalso; intuition congruence]. }
  eapply recount_ok; try done.
  - rewrite length_insert. apply Ht.
  - intros i [[=]|Hi]%elem_insert; auto.
  - intros i Hi. rewrite Ho, decide_False by done. lia.
  - rewrite Ho, decide_True, (tk_count _ _ _ _ Ht) by done. done.
Qed.

Lemma no_opens ms fl root cwd i : tables_ok ms fl root cwd -> m_used (ms.[i]) = false -> opens fl i = 0.
Proof.
  intros Ht Hu. apply opens_zero. intros [u j] Hp [? ?]; cbn in *; subst. destruct (tk_file _ _ _ _ Ht i Hp). congruence.
Qed.
(** A slot without open files is replaced: what the new entry and the new
    root must satisfy. *)
Lemma replace_ok ms fl root root' cwd i m :
  tables_ok ms fl root cwd -> 0 <= i < 7 -> opens fl i = 0 ->
  (m_used m = true -> m_open_count m = 0) ->
  (forall j, 0 <= j < 7 -> j <> i -> m_used (ms.[j]) = true -> root' = root) ->
  (m_used m = true -> if m_is_root m then root' = Some i /\ m_mountpoint m = root_path
                      else root' <> Some i /\ root' <> None /\ target_ok (m_mountpoint m) = true) ->
  (forall r, root' = Some r -> r = i /\ m_used m = true \/ r <> i /\ root = Some r) ->
  (m_used m = true -> forall j, 0 <= j < 7 -> j <> i -> m_used (ms.[j]) = true ->
     strcasecmp (m_mountpoint (ms.[j])) (m_mountpoint m) <> 0) ->
  tables_ok (ms.[i := m]) fl root' cwd.
Proof.
  intros [] Hi Ho Hc Hroot Hm Hr Hd. assert (Hl : zlen ms = 7) by (unfold zlen; lia).
  assert (Hg : forall j, 0 <= j < 7 -> (ms.[i := m]).[j] = if decide (i = j) then m else ms.[j])
    by (intros; apply aget_aset; lia).
  constructor; [unfold aset; by rewrite length_insert|done| | | | | |done].
  - intros j Hj. destruct (tk_file0 j Hj) as [Hjr Hu]. split; [done|]. rewrite Hg, decide_False by (done || intros <-;
    apply (opens_pos fl i) in Hj; lia). done.
  - intros j Hj. rewrite Hg by done. case_decide as E; [subst|by apply tk_count0]. intros. rewrite Hc; done.
  - intros j Hj. rewrite Hg by done. case_decide as E; [subst; done|]. intros Hu.
    rewrite (Hroot j) by done. by apply tk_root0.
  - intros r Hrr. destruct (Hr r Hrr) as [[-> Hu]|[Hne Hrr']].
    + by rewrite Hg, decide_True by done.
    + destruct (tk_root_used0 r Hrr') as [? ?]. by rewrite Hg, decide_False by done.
  - intros j k Hj Hk Hjk. rewrite !Hg by done. repeat case_decide; subst; [done| | |by apply tk_distinct0].
    + intros Hum Huk E. apply (Hd Hum k Hk) in Huk; [|done]. by apply Huk, strcasecmp_sym.
    + intros Huj Hum. by apply Hd.
Qed.
Lemma cwd_ok ms fl root cwd cwd' : tables_ok ms fl root cwd -> canon cwd' -> tables_ok ms fl root cwd'.
Proof. intros [] ?. by constructor. Qed.

End inv.
End VfsTables.
