(* ===== verification/VfsProps.v ===== *)
(** Properties of the virtual file system: the tables' invariant over every
    sequence of calls. *)
From S2P Require Import Prelude CString Disk CosData CosAlloc CosFile CosDir CosFormat FatData FatDir FatFile VfsPath VfsPathProps VfsData VfsBackend VfsMount Vfs VfsFrame VfsTables VfsDemo.
From stdpp Require Import base list numbers relations.
From Stdlib Require Import ZArith Lia.
Import CString VfsPath VfsPathProps VfsData VfsBackend VfsMount VfsLock Vfs VfsFrame VfsTables.
Open Scope Z_scope.

Module VfsProps.

Section calls.
Context {D K : Type} `{BlockDev D} `{Kernel K}.
Implicit Types s : vstate D K.
#[local] Abbreviation M := (st (vstate D K)).

(** A call that keeps the tables' invariant. *)
Definition safe {A} (m : M A) : Prop := forall s, vfs_ok s -> vfs_ok (m s).2.

Lemma safe_keeps {A} (m : M A) : keeps m -> safe m.
Proof. intros Hm s. by apply keeps_ok. Qed.
Lemma safe_bind {A B} (m : M A) (f : A -> M B) : safe m -> (forall a, safe (f a)) -> safe (m ≫= f).
Proof.
  intros Hm Hf s Hs. unfold mbind, st_bind. specialize (Hm s Hs). destruct (m s) as [a s']. by apply Hf.
Qed.
Lemma safe_lck s l : vfs_ok s -> vfs_ok (set_lck l s).
Proof. done. Qed.
Lemma safe_locked {A} (m : M (option A)) : safe m -> safe (locked m).
Proof.
  intros Hm s Hs. unfold locked. munfold. cbn. destruct (vfs_lock_try (current_task s) (lck s)) as [l|]; [|done].
  specialize (Hm (set_lck l s) (safe_lck _ _ Hs)). destruct (m (set_lck l s)) as [[a|] s']; done.
Qed.

Lemma file_skel s fd : fskel <$> s_files s !! Z.to_nat fd = (fskel <$> s_files s) !! Z.to_nat fd.
Proof. by rewrite list_lookup_fmap. Qed.
Lemma fget_lookup s fd : vfs_ok s -> fget s fd = true ->
  (fskel <$> s_files s) !! Z.to_nat fd = Some (true, v_mount (file_at s fd)).
Proof.
  intros Hs. unfold fget. rewrite !andb_true_iff, Z.leb_le, Z.ltb_lt. intros [[? ?] Hu].
  assert (Hl : length (s_files s) = 32%nat) by (pose proof (tk_flen _ _ _ _ Hs) as Hl; by rewrite length_fmap in Hl).
  unfold file_at, aget, VFS_MAX_FDS in *. rewrite list_lookup_fmap.
  rewrite (list_lookup_lookup_total_lt (s_files s)) by lia. cbn. unfold fskel. by rewrite Hu.
Qed.

(** ** Finding a mount *)

Lemma find_mount_loop_best ms i abs best bl : forall r n, find_mount_loop ms i abs best bl = (Some r, n) ->
  best = Some r \/ i <= r < i + zlen ms /\ exists m, ms !! Z.to_nat (r - i) = Some m /\ m_used m = true.
Proof.
  revert i best bl. induction ms as [|m ms IH]; intros i best bl r n; cbn [find_mount_loop]; [by intros [= -> _]; left|].
  assert (Hstep : forall b l, find_mount_loop ms (i + 1) abs b l = (Some r, n) -> b = best \/ (b = Some i /\ m_used m = true) ->
    best = Some r \/ i <= r < i + zlen (m :: ms) /\ exists x, (m :: ms) !! Z.to_nat (r - i) = Some x /\ m_used x = true).
  { intros b l Hr Hb. destruct (IH _ _ _ _ _ Hr) as [-> |[Hlt (x & Hx & Hu)]].
    - destruct Hb as [<-|[[= ->] Hu]]; [by left|]. right. unfold zlen. cbn [length]. split; [lia|].
      exists m. by replace (Z.to_nat (i - i)) with 0%nat by lia.
    - right. unfold zlen in *. cbn [length]. split; [lia|]. exists x.
      replace (Z.to_nat (r - i)) with (S (Z.to_nat (r - (i + 1)))) by lia. done. }
  destruct (m_used m) eqn:Hu; cbn [negb]; [|intros E; eapply Hstep; eauto].
  destruct (negb (path_within abs (m_mountpoint m))); [intros E; eapply Hstep; eauto|].
  destruct (bl <? _); intros E; eapply Hstep; eauto.
Qed.
Lemma find_mount_used ms abs mi rel : find_mount ms abs = Some (mi, rel) -> 0 <= mi < zlen ms /\ m_used (ms.[mi]) = true.
Proof.
  unfold find_mount. destruct (find_mount_loop ms 0 abs None 0) as [[r|] n] eqn:E; [|done]. intros [= <- _].
  apply find_mount_loop_best in E as [?|[Hr (m & Hm & Hu)]]; [done|]. split; [lia|].
  unfold aget. rewrite Z.sub_0_r in Hm. by erewrite list_lookup_total_correct.
Qed.
Lemma ok_mounts_len s : vfs_ok s -> zlen (s_mounts s) = 7.
Proof. intros Hs. pose proof (tk_len _ _ _ _ Hs) as Hl. rewrite length_fmap in Hl. unfold zlen. lia. Qed.
Lemma skel_used s mi : m_used ((skel <$> s_mounts s).[mi]) = m_used (mount_at s mi).
Proof. by rewrite skel_aget. Qed.

(** ** Descriptors *)

(** The state after the two table updates of a successful open. *)
Lemma open_tables s slot mi f : vfs_ok s -> 0 <= slot < 32 -> v_used (file_at s slot) = false ->
  0 <= mi < 7 -> m_used (mount_at s mi) = true -> fskel f = (true, mi) ->
  vfs_ok (set_mounts ((s_mounts s).[mi := set_m_open_count (m_open_count (mount_at s mi) + 1) (mount_at s mi)])
           (set_files ((s_files s).[slot := f]) s)).
Proof.
  intros Hs Hslot Hf Hmi Hu Hsk. unfold vfs_ok. cbn. unfold aset at 1. rewrite list_fmap_insert.
  unfold aset. rewrite list_fmap_insert, Hsk. eapply open_ok with (q := fskel (file_at s slot)); try done.
  - rewrite list_lookup_fmap. unfold file_at, aget.
    assert (Hl : length (s_files s) = 32%nat) by (pose proof (tk_flen _ _ _ _ Hs) as Hl; by rewrite length_fmap in Hl).
    by rewrite (list_lookup_lookup_total_lt (s_files s)) by lia.
  - by rewrite skel_used.
  - rewrite !skel_aget. done.
Qed.

Lemma stable_used s s' i : stable s s' -> m_used (mount_at s' i) = m_used (mount_at s i).
Proof. intros Hst. pose proof (stable_mount _ _ i Hst) as E. by apply (f_equal m_used) in E. Qed.
Lemma stable_file s s' i : stable s s' -> v_used (file_at s' i) = v_used (file_at s i).
Proof.
  intros [_ Hf _ _ _ _]. unfold file_at, aget. rewrite !list_lookup_total_alt.
  apply (f_equal (fun l => l !! Z.to_nat i)) in Hf. rewrite !list_lookup_fmap in Hf.
  destruct (s_files s' !! Z.to_nat i), (s_files s !! Z.to_nat i); unfold fskel in Hf; cbn in *; congruence.
Qed.

Lemma keeps_open_node mi rel flags tag : keeps (D:=D) (K:=K) (open_node mi rel flags tag).
Proof. unfold open_node. keep. Qed.

Lemma safe_open_locked path flags tag : safe (open_locked path flags tag).
Proof.
  intros s Hs. unfold open_locked. munfold. cbn.
  destruct (normalize (s_cwd s) path) as [abs|]; [|done].
  destruct (find_mount (s_mounts s) abs) as [[mi rel]|] eqn:Hm; [|done].
  destruct (find_index _ (s_files s) 0) as [slot|] eqn:Hslot; [|done].
  apply find_index_0 in Hslot as [Hslot Hfree]. apply negb_true_iff in Hfree.
  apply find_mount_used in Hm as [Hmi Hu]. rewrite ok_mounts_len in Hmi by done.
  assert (Hl : zlen (s_files s) = 32).
  { pose proof (tk_flen _ _ _ _ Hs) as Hl. rewrite length_fmap in Hl. unfold zlen. lia. }
  pose proof (keeps_in_ctx mi _ (keeps_open_node mi rel flags tag) s) as Hst.
  destruct (in_ctx mi (open_node mi rel flags tag) s) as [[e|v] s1]; cbn in Hst; [by eapply stable_ok|].
  cbn. apply (open_tables s1 slot mi); [by eapply stable_ok|lia| |done| |done].
  - by rewrite (stable_file s).
  - by rewrite (stable_used s).
Qed.

Lemma safe_close fd : safe (vfs_close fd).
Proof.
  apply safe_locked. intros s Hs. munfold. cbn. destruct (fget s fd) eqn:Hf; cbn [negb]; [|done].
  pose proof (fget_lookup s fd Hs Hf) as Hl. cbn. unfold vfs_ok. cbn.
  unfold aset. rewrite !list_fmap_insert. cbn.
  replace (fskel _) with (false, v_mount (file_at s fd)) by done.
  eapply close_ok; [exact Hs|exact Hl|]. by rewrite !skel_aget.
Qed.

(** ** Mounting *)

(** A state that differs from [s] in slot [slot] and in the root. *)
Record slot_set s s' (slot : Z) (m : mount) (root' : option Z) : Prop := {
  ss_mounts : skel <$> s_mounts s' = (skel <$> s_mounts s).[slot := skel m];
  ss_files : fskel <$> s_files s' = fskel <$> s_files s;
  ss_root : s_root s' = root';
  ss_cwd : s_cwd s' = s_cwd s;
}.
Lemma slot_set_stable s s1 s2 slot m r : slot_set s s1 slot m r -> stable s1 s2 -> slot_set s s2 slot m r.
Proof. intros [] []. constructor; congruence. Qed.
Lemma slot_set_stable_l s s1 s2 slot m r : stable s s1 -> slot_set s1 s2 slot m r -> slot_set s s2 slot m r.
Proof. intros [Hm Hf _ Hc _ _] []. constructor; congruence. Qed.
Lemma slot_set_again s s1 s2 slot m m' r r' : slot_set s s1 slot m r -> slot_set s1 s2 slot m' r' -> slot_set s s2 slot m' r'.
Proof. intros [Hm ? ? ?] [Hm' ? ? ?]. constructor; try congruence. rewrite Hm', Hm. apply aset_aset. Qed.
Lemma slot_set_mounts s s' slot m : s_mounts s' = (s_mounts s).[slot := m] -> s_files s' = s_files s -> s_cwd s' = s_cwd s ->
  slot_set s s' slot m (s_root s').
Proof. intros Hm Hf Hc. constructor; [|by rewrite Hf|done|done]. rewrite Hm. unfold aset. apply list_fmap_insert. Qed.
Lemma slot_set_at s s' slot m r : slot_set s s' slot m r -> vfs_ok s -> 0 <= slot < 7 -> skel (mount_at s' slot) = skel m.
Proof.
  intros [Hm _ _ _] Hs Hsl. unfold mount_at. rewrite <- skel_aget, Hm. apply aget_aset_eq.
  pose proof (tk_len _ _ _ _ Hs). unfold zlen. lia.
Qed.

(** Entries of the other slots and the entry itself, when the slot is free of
    open files. *)
Lemma slot_set_ok s s' slot m root' : slot_set s s' slot m root' -> vfs_ok s -> 0 <= slot < 7 ->
  opens (fskel <$> s_files s) slot = 0 -> (m_used m = true -> m_open_count m = 0) ->
  (forall j, 0 <= j < 7 -> j <> slot -> m_used (mount_at s j) = true -> root' = s_root s) ->
  (m_used m = true -> if m_is_root m then root' = Some slot /\ m_mountpoint m = root_path
                      else root' <> Some slot /\ root' <> None /\ target_ok (m_mountpoint m) = true) ->
  (forall r, root' = Some r -> r = slot /\ m_used m = true \/ r <> slot /\ s_root s = Some r) ->
  (m_used m = true -> forall j, 0 <= j < 7 -> j <> slot -> m_used (mount_at s j) = true ->
     strcasecmp (m_mountpoint (mount_at s j)) (m_mountpoint m) <> 0) ->
  vfs_ok s'.
Proof.
  intros [Hm Hf Hr Hc] Hs Hsl Ho Hcount Hroot Hmr Hrr Hd. unfold vfs_ok. rewrite Hm, Hf, Hr, Hc.
  eapply replace_ok; [exact Hs|done..| | | | |]; try done.
  - intros j Hj Hne. rewrite skel_aget. eapply Hroot; done.
  - intros Hu j Hj Hne. rewrite skel_aget. by apply Hd.
Qed.

(** What [mount_backend] leaves in the slot. *)
Definition raw_mount (drive fs part : Z) : mount := mk_mount false drive fs false part 0 0 [] Fat.zero_fs.
Lemma mount_backend_slot slot drive fs part s : vfs_ok s -> 0 <= slot < 7 ->
  slot_set s (mount_backend slot drive fs part s).2 slot (raw_mount drive fs part) (s_root s).
Proof.
  intros Hs Hsl. unfold mount_backend. fold (raw_mount drive fs part).
  set (s1 := set_mounts ((s_mounts s).[slot := raw_mount drive fs part]) s).
  assert (H1 : slot_set s s1 slot (raw_mount drive fs part) (s_root s)) by exact (slot_set_mounts s s1 slot _ eq_refl eq_refl eq_refl).
  set (rest := select_drive_of drive;; _).
  change ((set_mount slot (raw_mount drive fs part);; rest) s) with (rest s1).
  enough (Hst : stable s1 (rest s1).2) by by eapply slot_set_stable.
  assert (Hat : skel (mount_at s1 slot) = skel (raw_mount drive fs part)) by by eapply slot_set_at.
  clearbody s1. unfold rest. clear rest H1 Hs. unfold mbind at 1, st_bind at 1.
  pose proof (keeps_select drive s1) as Hsel. destruct (select_drive_of drive s1) as [u s2]. cbn in Hsel.
  etransitivity; [exact Hsel|]. destruct (fs =? VFS_FS_COSFS).
  { assert (Hk : keeps (D:=D) (K:=K) (modify (set_cos_loaded (-1));; in_cos (modify (Cos.set_current_drive drive));;
      in_cos CosFormat.init_fs;; s ← gets id;
      if negb (Cos.magic (Cos.sb (cos s)) =? COS_MAGIC) then mret VFS_E_IO else modify (set_cos_loaded drive);; mret 0)) by keep.
    apply Hk. }
  unfold mbind at 1, st_bind at 1. pose proof (keeps_in_fat (K:=K) (FatFile.fat32_mount part) s2) as Hmt.
  destruct (in_fat (FatFile.fat32_mount part) s2) as [r s3]. cbn in Hmt. etransitivity; [exact Hmt|].
  destruct (negb (r =? 0)); [reflexivity|]. munfold. cbn. constructor; cbn; try done.
  apply fmap_aset_same. change ((s_mounts s3).[slot]) with (mount_at s3 slot).
  rewrite (stable_mount _ _ slot Hmt), (stable_mount _ _ slot Hsel), Hat. done.
Qed.

Lemma safe_in_ctx {A} mi (m : M A) : safe m -> safe (in_ctx mi m).
Proof.
  intros Hm. unfold in_ctx. apply safe_bind; [apply safe_keeps, keeps_ctx_enter|]. intros _.
  apply safe_bind; [done|]. intros r. apply safe_bind; [apply safe_keeps, keeps_ctx_leave|]. intros _.
  by apply safe_keeps, keeps_ret.
Qed.
Lemma safe_change_cwd p : canon p -> safe (change_cwd p).
Proof. intros Hp s Hs. by eapply cwd_ok. Qed.
Lemma canon_root : canon root_path.
Proof. exists []. by repeat constructor. Qed.
Lemma canon_user : canon user_dir.
Proof.
  exists [[117; 115; 101; 114]]. split_and!; [|by repeat constructor|done]. split; [|by vm_compute].
  repeat constructor; done.
Qed.
Lemma safe_set_cwd_default : safe set_cwd_default.
Proof.
  unfold set_cwd_default. apply safe_bind; [apply safe_change_cwd, canon_root|]. intros _.
  apply safe_bind; [apply safe_keeps, keeps_gets|]. intros s.
  apply safe_bind; [|intros; apply safe_keeps, keeps_prompt_update].
  destruct (find_mount (s_mounts s) user_dir) as [[mi rel]|]; [|apply safe_keeps, keeps_ret].
  apply safe_in_ctx, safe_bind; [apply safe_keeps, keeps_be_stat|]. intros [v|]; [|apply safe_keeps, keeps_ret].
  unfold when. destruct (n_is_dir v); [apply safe_change_cwd, canon_user|apply safe_keeps, keeps_ret].
Qed.

Lemma keeps_mount_dirs t : keeps (D:=D) (K:=K) (mount_dirs t).
Proof. unfold mount_dirs. keep. Qed.

(** What the checks of [do_mount] establish, in the terms of [slot_set_ok]. *)
Definition may_mount s (is_root : bool) (t : list Z) : Prop :=
  if is_root then s_root s = None
  else s_root s <> None /\ target_ok t = true /\
       (forall j, 0 <= j < 7 -> m_used (mount_at s j) = true -> strcasecmp (m_mountpoint (mount_at s j)) t <> 0).
Lemma mount_check_may s t : vfs_ok s -> mount_check s t = 0 -> may_mount s (strcmp t root_path =? 0) t.
Proof.
  intros Hs. unfold mount_check, may_mount. destruct (strcmp t root_path =? 0); [by destruct (s_root s)|].
  destruct (s_root s); [|done]. destruct (target_ok t); [|done]. cbn.
  destruct (find_mount_exact (s_mounts s) t) eqn:E; [done|]. intros _. split_and!; [done|done|].
  intros j Hj Hu. pose proof (find_index_0_none _ _ E j ltac:(rewrite ok_mounts_len by done; lia)) as Hn.
  cbn in Hn. unfold mount_at in *. rewrite Hu in Hn. by apply Z.eqb_neq in Hn.
Qed.
Lemma stable_mountpoint s s' i : stable s s' -> m_mountpoint (mount_at s' i) = m_mountpoint (mount_at s i).
Proof. intros Hst. pose proof (stable_mount _ _ i Hst) as E. by apply (f_equal m_mountpoint) in E. Qed.
Lemma may_mount_stable s s' r t : stable s s' -> may_mount s r t -> may_mount s' r t.
Proof.
  intros Hst. unfold may_mount. rewrite (st_root _ _ Hst). destruct r; [done|]. intros (? & ? & Hj).
  split_and!; [done|done|]. intros j Hjr. rewrite (stable_used s), (stable_mountpoint s) by done. by apply Hj.
Qed.
(** Without a root nothing is mounted. *)
Lemma no_root_no_mount s j : vfs_ok s -> s_root s = None -> 0 <= j < 7 -> m_used (mount_at s j) = true -> False.
Proof.
  intros Hs Hr Hj Hu. pose proof (tk_root _ _ _ _ Hs j Hj) as Hk. rewrite skel_used in Hk. specialize (Hk Hu).
  destruct (m_is_root _); [destruct Hk; congruence|by destruct Hk as (_ & ? & _)].
Qed.

(** Slot [slot], free in [s], holding an entry named [t] with no open file. *)
Lemma mounted_ok s s' slot drive fs part t seq (is_root : bool) root' :
  vfs_ok s -> 0 <= slot < 7 -> m_used (mount_at s slot) = false -> may_mount s is_root t ->
  (is_root = true -> t = root_path) -> root' = (if is_root then Some slot else s_root s) ->
  slot_set s s' slot (mk_mount true drive fs is_root part seq 0 t Fat.zero_fs) root' -> vfs_ok s'.
Proof.
  intros Hs Hsl Hu Hmay Ht -> Hset.
  assert (Hnr : s_root s <> Some slot).
  { intros E. destruct (tk_root_used _ _ _ _ Hs slot E) as [_ Hx]. rewrite skel_used in Hx. congruence. }
  eapply slot_set_ok; [exact Hset|done|done| | | | | |]; cbn.
  - eapply no_opens; [exact Hs|by rewrite skel_used].
  - done.
  - intros j Hj Hne Huj. destruct is_root; [|done]. by destruct (no_root_no_mount s j).
  - intros _. destruct is_root; [by rewrite Ht by done|]. destruct Hmay as (? & ? & _). by split_and!.
  - intros r Hr. destruct is_root; [left; by simplify_eq|]. right. split; [congruence|done].
  - intros _ j Hj Hne Huj. destruct is_root; [by destruct (no_root_no_mount s j)|]. by apply Hmay.
Qed.
(** The slot emptied again after a failed start of a root. *)
Lemma unmounted_ok s s' slot m root' : vfs_ok s -> 0 <= slot < 7 -> opens (fskel <$> s_files s) slot = 0 ->
  m_used m = false ->
  (root' = s_root s /\ s_root s <> Some slot \/
   root' = None /\ forall j, 0 <= j < 7 -> j <> slot -> m_used (mount_at s j) = true -> False) ->
  slot_set s s' slot m root' -> vfs_ok s'.
Proof.
  intros Hs Hsl Ho Hm Hr Hset. eapply slot_set_ok; [exact Hset|done|done|done| | | | |]; rewrite ?Hm; try done.
  - intros j Hj Hne Hu. destruct Hr as [[-> _]|[_ Hn]]; [done|]. by destruct (Hn j).
  - intros r Hr'. right. destruct Hr as [[E ?]|[E _]]; [|congruence]. split; congruence.
Qed.

Lemma strcmp_root t : Forall (fun c => c <> 0) t -> strcmp t root_path = 0 -> t = root_path.
Proof.
  destruct t as [|x [|y t]]; cbn; unfold root_path, sl; [done| |].
  - intros [Hx _]%list.Forall_cons. destruct (Z.eqb_spec x 0); cbn; [done|].
    destruct (Z.eqb_spec x 47); cbn; [by subst|lia].
  - intros [Hx [Hy _]%list.Forall_cons]%list.Forall_cons.
    destruct (Z.eqb_spec x 0); cbn; [done|]. destruct (Z.eqb_spec x 47); cbn; [|lia].
    destruct (Z.eqb_spec y 0); cbn; lia.
Qed.

(** Setting one slot's entry. *)
Lemma set_mount_slot s slot m : slot_set s (set_mounts ((s_mounts s).[slot := m]) s) slot m (s_root s).
Proof. by exact (slot_set_mounts s (set_mounts ((s_mounts s).[slot := m]) s) slot m eq_refl eq_refl eq_refl). Qed.

Lemma finish_root_ok s slot drive fs part t seq boot s4 : vfs_ok s -> 0 <= slot < 7 ->
  m_used (mount_at s slot) = false -> s_root s = None -> t = root_path ->
  slot_set s s4 slot (mk_mount true drive fs false part seq 0 t Fat.zero_fs) (s_root s) ->
  vfs_ok (finish_mount slot true boot s4).2.
Proof.
  intros Hs Hsl Hu Hr Ht Hset. unfold finish_mount.
  set (tail := if boot then mret 0 else _). assert (Hk : keeps (D:=D) (K:=K) tail) by (unfold tail; keep). clearbody tail.
  munfold. cbn.
  set (s5 := set_root (Some slot) _).
  assert (H5 : slot_set s s5 slot (mk_mount true drive fs true part seq 0 t Fat.zero_fs) (Some slot)).
  { pose proof (slot_set_at _ _ _ _ _ Hset Hs Hsl) as Hat. destruct Hset as [Hm Hf _ Hc].
    constructor; try done. cbn. unfold aset. rewrite list_fmap_insert, Hm. unfold aset.
    rewrite list_insert_insert_eq. f_equal. unfold mount_at in *.
    transitivity (set_m_is_root true (skel ((s_mounts s4).[slot]))); [done|]. by rewrite Hat. }
  assert (Hok5 : vfs_ok s5).
  { eapply (mounted_ok s s5 slot drive fs part t seq true); [done|done|done|done|done|done|exact H5]. }
  pose proof (Hk s5) as Hst. clearbody s5. destruct (tail s5) as [r s6]. cbn in Hst.
  assert (Hok6 : vfs_ok s6) by by eapply stable_ok.
  destruct (negb (r =? 0)).
  2:{ pose proof (safe_set_cwd_default s6 Hok6) as Hx. by destruct (set_cwd_default s6). }
  pose proof (keeps_backend_unmount (K:=K) slot s6) as Hst'. destruct (backend_unmount slot s6) as [u s7]. cbn in Hst'.
  assert (Hok7 : vfs_ok s7) by by eapply stable_ok.
  eapply (unmounted_ok s7 _ slot (set_m_used false (mount_at s7 slot))); [done|done| |done| |].
  - rewrite (st_files _ _ Hst'), (st_files _ _ Hst), (ss_files _ _ _ _ _ H5).
    eapply no_opens; [exact Hs|by rewrite skel_used].
  - right. split; [done|]. intros j Hj Hne. rewrite (stable_used s6), (stable_used s5) by done. intros Huj.
    eapply (no_root_no_mount s j); [done..|]. rewrite <- skel_used.
    rewrite <- skel_used, (ss_mounts _ _ _ _ _ H5), aget_aset_ne in Huj by lia. done.
  - pose proof (set_mount_slot s7 slot (set_m_used false (mount_at s7 slot))) as [? ? ? ?]. by constructor.
Qed.

Lemma safe_do_mount drive t boot : Forall (fun c => c <> 0) t -> safe (do_mount drive t boot).
Proof.
  intros Ht s0 Hs0. unfold do_mount.
  set (dirs := if strcmp t root_path =? 0 then mret 0 else mount_dirs t).
  assert (Hk : keeps (D:=D) (K:=K) dirs) by (unfold dirs; destruct (_ =? _); [apply keeps_ret|apply keeps_mount_dirs]).
  clearbody dirs. munfold. cbn.
  destruct (Z.eqb_spec (mount_check s0 t) 0) as [Hchk|]; cbn [negb]; [|done].
  pose proof (mount_check_may s0 t Hs0 Hchk) as Hmay.
  pose proof (keeps_detect_ex (K:=K) drive s0) as Hst1. destruct (detect_ex drive s0) as [[fs part] s1]. cbn in Hst1.
  assert (Hok1 : vfs_ok s1) by by eapply stable_ok.
  destruct (fs =? VFS_FS_NONE); [done|]. cbn.
  destruct (free_slot (s_mounts s1)) as [slot|] eqn:Hslot; [|done].
  apply find_index_0 in Hslot as [Hsl Hfree]. rewrite ok_mounts_len in Hsl by done. apply negb_true_iff in Hfree.
  pose proof (Hk s1) as Hst2. destruct (dirs s1) as [r s2]. cbn in Hst2.
  assert (Hok2 : vfs_ok s2) by by eapply stable_ok.
  destruct (negb (r =? 0)); [done|].
  assert (Hu2 : m_used (mount_at s2 slot) = false) by by rewrite (stable_used s1).
  assert (Hmay2 : may_mount s2 (strcmp t root_path =? 0) t) by (eapply may_mount_stable, may_mount_stable; eassumption).
  pose proof (mount_backend_slot slot drive fs part s2 Hok2 Hsl) as Hset.
  destruct (mount_backend slot drive fs part s2) as [r' s3]. cbn in Hset.
  destruct (negb (r' =? 0)).
  { eapply unmounted_ok; [exact Hok2|exact Hsl| | | |exact Hset]; [|done|].
    - eapply no_opens; [exact Hok2|by rewrite skel_used].
    - left. split; [done|]. intros E. destruct (tk_root_used _ _ _ _ Hok2 slot E) as [_ Hx]. rewrite skel_used in Hx. congruence. }
  set (seq := u32 (s_seq s3 + 1)).
  set (s4 := set_mounts _ (set_seq seq s3)).
  assert (H4 : slot_set s2 s4 slot (mk_mount true drive fs false part seq 0 t Fat.zero_fs) (s_root s2)).
  { pose proof (slot_set_at _ _ _ _ _ Hset Hok2 Hsl) as Hat. destruct Hset as [Hm Hf Hr Hc].
    constructor; try done. cbn. unfold aset. rewrite list_fmap_insert, Hm. unfold aset.
    rewrite list_insert_insert_eq. f_equal. unfold mount_at in *.
    transitivity (name_mount t seq (skel ((s_mounts s3).[slot]))); [done|]. by rewrite Hat. }
  clearbody s4. destruct (Z.eqb_spec (strcmp t root_path) 0) as [Hroot|Hroot].
  - eapply finish_root_ok; [exact Hok2|done|done|exact Hmay2| |exact H4]. by apply strcmp_root.
  - assert (Hok4 : vfs_ok s4) by (eapply (mounted_ok s2 s4 slot drive fs part t seq false); done).
    unfold finish_mount. apply (safe_bind (if boot then mret tt else persist;; mret tt)); [|intros; by apply safe_keeps, keeps_ret|done].
    apply safe_keeps. keep.
Qed.

(** ** Unmounting *)

Lemma find_last_used all ms i drive best r : (forall k m, ms !! k = Some m -> all !! (Z.to_nat i + k)%nat = Some m) -> 0 <= i ->
  find_last_loop all ms i drive best = Some r ->
  best = Some r \/ i <= r < i + zlen ms /\ exists m, all !! Z.to_nat r = Some m /\ m_used m = true.
Proof.
  revert i best. induction ms as [|m ms IH]; intros i best Hall Hi; cbn [find_last_loop]; [by left|].
  assert (Hstep : forall b, find_last_loop all ms (i + 1) drive b = Some r -> b = best \/ (b = Some i /\ m_used m = true) ->
    best = Some r \/ i <= r < i + zlen (m :: ms) /\ exists x, all !! Z.to_nat r = Some x /\ m_used x = true).
  { intros b0 Hr Hb. apply IH in Hr; [|intros k x Hx; replace (Z.to_nat (i + 1) + k)%nat with (Z.to_nat i + S k)%nat by lia; by apply Hall|lia].
    unfold zlen in *. cbn [length]. destruct Hr as [-> |[Hlt Hx]]; [|right; split; [lia|done]].
    destruct Hb as [<-|[[= ->] Hu]]; [by left|]. right. split; [lia|]. exists m.
    specialize (Hall 0%nat m eq_refl). by rewrite Nat.add_0_r in Hall. }
  destruct (m_used m) eqn:Hu; cbn [negb orb]; [|intros E; eapply Hstep; eauto].
  destruct (negb (m_drive m =? drive)); [intros E; eapply Hstep; eauto|]. intros E. eapply Hstep; [exact E|].
  destruct (match best with Some _ => _ | None => _ end); auto.
Qed.
Lemma umount_target_used s what idx : vfs_ok s -> umount_target s what = inr (Some idx) ->
  0 <= idx < 7 /\ m_used (mount_at s idx) = true.
Proof.
  intros Hs. unfold umount_target. pose proof (ok_mounts_len s Hs) as Hl.
  destruct (0 <=? _).
  - intros [= E]. unfold find_last_by_drive in E. apply find_last_used in E as [|[Hr (m & Hm & Hu)]]; [done| |done|lia].
    split; [lia|]. unfold mount_at, aget. by erewrite list_lookup_total_correct.
  - destruct (normalize (s_cwd s) what) as [abs|]; [|done]. intros [= E].
    apply find_index_0 in E as [Hr [Hu _]%andb_true_iff]. split; [lia|done].
Qed.
(** What [umount_busy] rules out. *)
Lemma not_busy s idx : vfs_ok s -> umount_busy s idx = false -> 0 <= idx < 7 ->
  opens (fskel <$> s_files s) idx = 0 /\
  (m_is_root (mount_at s idx) = true -> forall j, 0 <= j < 7 -> j <> idx -> m_used (mount_at s j) = true -> False).
Proof.
  intros Hs. unfold umount_busy. rewrite orb_false_iff. intros [Hm Hf] Hi. split.
  - apply opens_zero. intros [u j] (f & E & Hin)%list_elem_of_fmap [? ?]; cbn in *; subst.
    apply not_true_iff_false in Hf. apply Hf, existsb_exists. exists f. split; [by apply list_elem_of_In|].
    unfold fskel in E. injection E as Eu Em. by rewrite <- Eu, <- Em, Z.eqb_refl.
  - intros Hroot j Hj Hne Hu. apply not_true_iff_false in Hm. apply Hm, existsb_exists. exists j.
    split; [apply list_elem_of_In, elem_of_seqZ; lia|]. unfold blocks_umount. rewrite Hu, Hroot.
    by rewrite (proj2 (Z.eqb_neq j idx)).
Qed.

Lemma safe_cwd_fix mp : safe (cwd_fix_after_unmount mp).
Proof.
  unfold cwd_fix_after_unmount. apply safe_bind; [apply safe_keeps, keeps_gets|]. intros s. unfold when.
  destruct (path_within (s_cwd s) mp); [|apply safe_keeps, keeps_ret].
  apply safe_bind; [apply safe_change_cwd, canon_root|intros; apply safe_keeps, keeps_prompt_update].
Qed.
Lemma finish_umount_ok m s : vfs_ok (if m_is_root m then set_root None s else s) -> vfs_ok (finish_umount m s).2.
Proof.
  unfold finish_umount. destruct (m_is_root m); intros Hok.
  - unfold mbind at 1, st_bind at 1, modify at 1.
    match goal with |- vfs_ok (?f _).2 => assert (Hsafe : safe f) end; [|by apply Hsafe].
    apply safe_bind; [apply safe_keeps, keeps_gets|]. intros x. apply safe_bind; [apply safe_keeps; keep|]. intros _.
    apply safe_bind; [apply safe_change_cwd, canon_root|]. intros _. apply safe_keeps. keep.
  - apply (safe_bind persist); [apply safe_keeps, keeps_persist|intros _|done].
    apply safe_bind; [apply safe_cwd_fix|]. intros _. apply safe_keeps, keeps_ret.
Qed.
Lemma safe_do_umount what : safe (do_umount what).
Proof.
  intros s Hs. unfold do_umount.
  unfold mbind at 1, st_bind at 1, gets at 1, id. cbn iota beta. destruct (hd0 what =? 0); [done|].
  destruct (umount_target s what) as [e|[idx|]] eqn:Ht; [done| |done].
  destruct (umount_busy s idx) eqn:Hb; [done|].
  apply umount_target_used in Ht as [Hi Hu]; [|done]. apply not_busy in Hb as [Ho Hroot]; [|done|done].
  unfold mbind at 1, st_bind at 1. pose proof (keeps_backend_unmount (K:=K) idx s) as Hst.
  destruct (backend_unmount idx s) as [u s1]. cbn in Hst. assert (Hok1 : vfs_ok s1) by by eapply stable_ok.
  set (m := mount_at s idx) in *. set (s2 := set_mounts ((s_mounts s1).[idx := set_m_used false (mount_at s1 idx)]) s1).
  change (vfs_ok (finish_umount m s2).2). apply finish_umount_ok.
  pose proof (tk_root _ _ _ _ Hs idx Hi) as Hr. rewrite skel_used in Hr. specialize (Hr Hu). rewrite skel_aget in Hr.
  change (m_is_root (skel _)) with (m_is_root m) in Hr.
  pose proof (set_mount_slot s1 idx (set_m_used false (mount_at s1 idx))) as Hset. fold s2 in Hset.
  assert (Ho1 : opens (fskel <$> s_files s1) idx = 0) by by rewrite (st_files _ _ Hst).
  destruct (m_is_root m).
  - eapply (unmounted_ok s1 _ idx (set_m_used false (mount_at s1 idx)) None); [done|done|done|done| |].
    + right. split; [done|]. intros j Hj Hne. rewrite (stable_used s) by done. by apply Hroot.
    + destruct Hset. by constructor.
  - eapply unmounted_ok; [exact Hok1|done|done| | |exact Hset]; [done|]. left. split; [done|].
    rewrite (st_root _ _ Hst). apply Hr.
Qed.

(** ** Every call *)

Lemma normalize_canon cwd inp out : canon cwd -> normalize cwd inp = Some out -> canon out.
Proof.
  intros (l & Hl & Hn & ->). rewrite normalize_run. destruct (too_long _ inp); [done|].
  destruct (run _ []) as [acc|] eqn:E; [|done]. intros [= <-].
  apply run_walk in E as [-> Hacc]; [|apply comps_ok|split; [constructor|done]].
  eexists. split_and!; [exact Hacc| |done]. apply walk_no_nul; [|constructor]. apply comps_no_nul.
  apply full_path_no_nul. by apply render_no_nul.
Qed.
Lemma canon_no_nul p : canon p -> Forall (fun c => c <> 0) p.
Proof. intros (l & _ & Hn & ->). by apply render_no_nul. Qed.
Lemma safe_ret {A} (a : A) : safe (ret a).
Proof. by apply safe_keeps, keeps_ret. Qed.

Lemma safe_on_path {A} path fail (body : list Z -> Z -> list Z -> M A) :
  (forall abs mi rel, canon abs -> safe (body abs mi rel)) -> safe (on_path path fail body).
Proof.
  intros Hb. apply safe_locked. intros s Hs. unfold mbind at 1, st_bind at 1, gets at 1, id.
  destruct (normalize (s_cwd s) path) as [abs|] eqn:E; [|by apply safe_ret].
  apply normalize_canon in E; [|by apply (tk_cwd _ _ _ _ Hs)].
  destruct (find_mount (s_mounts s) abs) as [[mi rel]|]; [|by apply safe_ret].
  apply safe_bind; [by apply Hb|intros; apply safe_ret|done].
Qed.
Lemma keeps_advance fd r : keeps (D:=D) (K:=K) (advance fd r).
Proof. unfold advance. keep. Qed.
#[local] Hint Resolve keeps_advance : keeps.
Ltac safe_keep := apply safe_locked, safe_keeps; unfold ret; keep.

Lemma safe_chdir path : safe (vfs_chdir path).
Proof.
  apply safe_on_path. intros abs mi rel Habs. apply safe_bind; [apply safe_keeps; keep|].
  intros [v|]; [|apply safe_keeps, keeps_ret]. destruct (negb (n_is_dir v)); [apply safe_keeps, keeps_ret|].
  apply safe_bind; [by apply safe_change_cwd|]. intros _. apply safe_keeps. keep.
Qed.
Lemma safe_stat path : safe (vfs_stat path).
Proof. apply safe_on_path. intros. apply safe_keeps. keep. Qed.
Lemma safe_readdir path max : safe (vfs_readdir path max).
Proof. apply safe_on_path. intros. apply safe_keeps. keep. Qed.
Lemma safe_mkdir path : safe (vfs_mkdir path).
Proof. apply safe_on_path. intros. apply safe_keeps. keep. Qed.
Lemma safe_remove path : safe (vfs_remove path).
Proof. safe_keep. Qed.
Lemma safe_open path flags : safe (vfs_open path flags).
Proof. apply safe_locked, safe_bind; [apply safe_open_locked|intros; apply safe_ret]. Qed.
Lemma safe_open_tcc path flags : safe (vfs_open_tcc path flags).
Proof. apply safe_locked, safe_bind; [apply safe_open_locked|intros; apply safe_ret]. Qed.
Lemma safe_read fd buf count : safe (vfs_read fd buf count).
Proof. safe_keep. Qed.
Lemma safe_pread fd off buf count : safe (vfs_pread fd off buf count).
Proof. safe_keep. Qed.
Lemma safe_write fd buf count : safe (vfs_write fd buf count).
Proof. safe_keep. apply keeps_in_ctx. keep. Qed.
Lemma safe_lseek fd offset whence : safe (vfs_lseek fd offset whence).
Proof. safe_keep. Qed.
Lemma safe_write_file path data len tag app : safe (vfs_write_file path data len tag app).
Proof.
  apply safe_locked, safe_bind; [apply safe_open_locked|]. intros fd. destruct (fd <? 0); [apply safe_ret|].
  apply safe_bind; [destruct (0 <? len); [apply safe_write|apply safe_ret]|]. intros [w|]; [|apply safe_keeps, keeps_ret].
  apply safe_bind; [apply safe_close|]. intros [c|]; [apply safe_ret|apply safe_keeps, keeps_ret].
Qed.
Lemma safe_find_by_tag tag max : safe (vfs_find_by_tag tag max).
Proof. safe_keep. Qed.
Lemma safe_sync : safe (vfs_sync : M (option unit)).
Proof. safe_keep. Qed.
Lemma safe_mount drive target : safe (vfs_mount drive target).
Proof.
  intros s Hs. unfold vfs_mount. unfold mbind at 1, st_bind at 1, gets at 1, id. destruct (_ <? 0); [done|].
  generalize (vfs_parse_drive (Cos.g_active_drives (cos s)) drive). intros d.
  apply safe_locked; [|done]. clear s Hs. intros s Hs. unfold mbind at 1, st_bind at 1, gets at 1, id.
  destruct (normalize (s_cwd s) target) as [t|] eqn:E; [|by apply safe_ret].
  apply normalize_canon in E; [|by apply (tk_cwd _ _ _ _ Hs)].
  apply safe_bind; [by apply safe_do_mount, canon_no_nul|intros; apply safe_ret|done].
Qed.
Lemma safe_umount what : safe (vfs_umount what).
Proof. apply safe_locked, safe_bind; [apply safe_do_umount|intros; apply safe_ret]. Qed.
Lemma keeps_do_format drive fs : keeps (D:=D) (K:=K) (do_format drive fs).
Proof. unfold do_format. keep. Qed.
Lemma safe_format drive fsname : safe (vfs_format drive fsname).
Proof.
  intros s Hs. unfold vfs_format. unfold mbind at 1, st_bind at 1, gets at 1, id. destruct (_ <? 0); [done|].
  destruct fsname as [n|]; [|done]. destruct (_ =? _); [done|]. apply safe_locked; [|done]. apply safe_keeps.
  unfold ret. keep. apply keeps_do_format.
Qed.

(** ** Start-up *)

Lemma hdr_path_no_nul b e : e ∈ h_mounts (hdr_upgrade b) -> Forall (fun c => c <> 0) (hm_path e).
Proof.
  unfold hdr_upgrade. destruct (_ =? _); cbn [hdr1_decode hdr_decode h_mounts]; unfold hdr_entries;
    intros (k & -> & _)%list_elem_of_fmap; cbn [hm1_decode hm_decode hm_path].
  - apply Forall_app. split; [by repeat constructor|apply cstr_no_nul].
  - apply cstr_no_nul.
Qed.
Lemma floop_result {R} (P : R -> Prop) n i (body : Z -> M (option R)) s r :
  (forall j s r, (body j s).1 = Some r -> P r) -> (floop n i body s).1 = Some r -> P r.
Proof.
  intros Hb. revert i s. induction n as [|n IH]; intros i s; cbn [floop]; [done|].
  pose proof (Hb i s) as Hr. destruct (body i s) as [[x|] s']; [intros [= <-]; by apply Hr|apply IH].
Qed.
Lemma root_probe_paths i s i' h : (root_probe i s).1 = Some (i', h) -> exists b, h = hdr_upgrade b.
Proof.
  unfold root_probe. unfold mbind, st_bind. destruct (detect_ex i s) as [[fs part] s1].
  destruct (fs =? VFS_FS_NONE); [done|]. destruct (hdr_read i fs part s1) as [[e|b] s2]; cbn; [done|].
  destruct (_ && _); [|done]. intros [= _ <-]. by exists b.
Qed.
Lemma safe_restore h k : (forall e, e ∈ h_mounts h -> Forall (fun c => c <> 0) (hm_path e)) -> safe (restore_entry h k).
Proof.
  intros Hp. unfold restore_entry. destruct (h_mounts h !! Z.to_nat k) as [e|] eqn:He; [|apply safe_keeps, keeps_ret].
  destruct (hm_used e =? 0); [apply safe_keeps, keeps_ret|]. apply safe_bind; [apply safe_keeps, keeps_gets|]. intros s.
  destruct (entry_drive s e) as [t|]; [|apply safe_keeps, keeps_ret]. destruct (negb _); [apply safe_keeps, keeps_ret|].
  apply safe_bind; [|intros; apply safe_keeps, keeps_ret]. eapply safe_do_mount, Hp, list_elem_of_lookup_2, He.
Qed.
Lemma safe_ffor n i (body : Z -> M unit) : (forall j, safe (body j)) -> safe (ffor n i body).
Proof. intros Hb. revert i. induction n as [|n IH]; intros i s Hs; cbn [ffor]; [done|]. by apply IH, Hb. Qed.

Lemma fresh_tables_ok : tables_ok (replicate 7 zero_mount) (replicate 32 (false, 0)) None root_path.
Proof.
  assert (Hu : forall i, m_used ((replicate 7 zero_mount).[i]) = true -> 0 <= i < 7 -> False).
  { intros i Hu Hi. rewrite aget_replicate in Hu by lia. done. }
  constructor; try done.
  - intros i Hi. by apply elem_of_replicate in Hi as [[= ] _].
  - intros i Hi Hx. by destruct (Hu i).
  - intros i Hi Hx. by destruct (Hu i).
  - intros i j Hi _ _ Hx. by destruct (Hu i).
  - apply canon_root.
Qed.
Lemma init_body_ok s : vfs_ok (init_body s).2.
Proof.
  unfold init_body. set (clear := fun x => set_seq 0 _). unfold mbind at 1, st_bind at 1, modify at 1.
  unfold mbind at 1, st_bind at 1, change_cwd at 1, modify at 1.
  set (s1 := set_cwd root_path (clear s)).
  assert (H1 : vfs_ok s1) by apply fresh_tables_ok. clearbody s1. clear clear.
  unfold mbind at 1, st_bind at 1. pose proof (safe_keeps _ keeps_prompt_update s1 H1) as H2.
  destruct (prompt_update s1) as [u s2]. cbn in H2. unfold mbind at 1, st_bind at 1, gets at 1, id.
  unfold mbind at 1, st_bind at 1. set (n := rounds 0 _).
  assert (Hk : keeps (D:=D) (K:=K) (floop n 0 root_probe)) by (apply keeps_floop; intros; unfold root_probe; keep).
  pose proof (safe_keeps _ Hk s2 H2) as H3.
  pose proof (floop_result (fun r => exists b, r.2 = hdr_upgrade b) n 0 root_probe s2) as Hres.
  destruct (floop n 0 root_probe s2) as [[[d h]|] s3]; cbn in H3; [|done].
  destruct (Hres (d, h)) as [b Hb]; [|done|]. { intros j x [i' h'] Hx. by apply root_probe_paths in Hx as [b ->]; exists b. }
  cbn in Hb. subst h. apply safe_bind; [apply safe_do_mount; by repeat constructor| |done]. intros rc.
  destruct (negb (rc =? 0)); [apply safe_keeps, keeps_ret|]. apply safe_bind; [|intros; apply safe_set_cwd_default].
  apply safe_ffor. intros j. apply safe_restore. intros e. apply hdr_path_no_nul.
Qed.

(** ** The calls as a transition system *)

(** One call of the interface, by whichever task runs, or a change of task. A
    call that waits for the lock leaves the state as it is. *)
Inductive vfs_step : vstate D K -> vstate D K -> Prop :=
  | step_open path flags s : vfs_step s (vfs_open path flags s).2
  | step_open_tcc path flags s : vfs_step s (vfs_open_tcc path flags s).2
  | step_close fd s : vfs_step s (vfs_close fd s).2
  | step_read fd buf count s : vfs_step s (vfs_read fd buf count s).2
  | step_pread fd off buf count s : vfs_step s (vfs_pread fd off buf count s).2
  | step_write fd buf count s : vfs_step s (vfs_write fd buf count s).2
  | step_lseek fd offset whence s : vfs_step s (vfs_lseek fd offset whence s).2
  | step_write_file path data len tag app s : vfs_step s (vfs_write_file path data len tag app s).2
  | step_chdir path s : vfs_step s (vfs_chdir path s).2
  | step_stat path s : vfs_step s (vfs_stat path s).2
  | step_readdir path max s : vfs_step s (vfs_readdir path max s).2
  | step_mkdir path s : vfs_step s (vfs_mkdir path s).2
  | step_remove path s : vfs_step s (vfs_remove path s).2
  | step_mount drive target s : vfs_step s (vfs_mount drive target s).2
  | step_umount what s : vfs_step s (vfs_umount what s).2
  | step_format drive fsname s : vfs_step s (vfs_format drive fsname s).2
  | step_find_by_tag tag max s : vfs_step s (vfs_find_by_tag tag max s).2
  | step_sync s : vfs_step s (vfs_sync s).2
  | step_init s : vfs_step s (vfs_init s).2
  | step_killed task s : vfs_step s (set_lck (vfs_task_killed task (lck s)) s)
  | step_switch task s : vfs_step s (mk_v (cos s) (fat32 s) (fat_fds s) (kern s) (s_mounts s) (s_root s) (s_files s)
      (s_cwd s) (g_current_path s) (s_cos_loaded s) (s_seq s) (lck s) task).

Lemma safe_init : safe (vfs_init : M (option unit)).
Proof.
  apply safe_locked. intros s _. unfold mbind at 1, st_bind at 1. pose proof (init_body_ok s).
  by destruct (init_body s).
Qed.
Lemma vfs_step_ok s s' : vfs_step s s' -> vfs_ok s -> vfs_ok s'.
Proof.
  destruct 1; intros Hs;
    [apply safe_open|apply safe_open_tcc|apply safe_close|apply safe_read|apply safe_pread|apply safe_write
    |apply safe_lseek|apply safe_write_file|apply safe_chdir|apply safe_stat|apply safe_readdir|apply safe_mkdir
    |apply safe_remove|apply safe_mount|apply safe_umount|apply safe_format|apply safe_find_by_tag|apply safe_sync
    |apply safe_init|exact Hs|exact Hs]; exact Hs.
Qed.

(** C8 - From a start-up that got the lock on, whatever the drives hold and
    whatever sequence of calls the tasks make: every open file is on a mounted
    file system and each mount's [open_count] is the number of its open files
    (a mount with open files cannot go away); [s_root] designates the one
    mount flagged as root, which is at "/", and nothing is mounted without it;
    no two mounts share a mount point; the working directory is a normalised
    path. *)
Theorem vfs_tables_invariant s0 s1 s2 : vfs_init s0 = (Some tt, s1) -> rtc vfs_step s1 s2 -> vfs_ok s2.
Proof.
  intros Hi Hr. assert (H1 : vfs_ok s1).
  { revert Hi. unfold vfs_init, locked, mbind, st_bind, gets, modify, id. cbn.
    destruct (vfs_lock_try _ _) as [l|]; [|done]. pose proof (init_body_ok (set_lck l s0)) as Hb.
    destruct (init_body (set_lck l s0)) as [u s']. cbn in *. by intros [= <-]. }
  clear Hi. induction Hr as [|x y z Hxy _ IH]; [done|]. apply IH. by eapply vfs_step_ok.
Qed.

End calls.

Import VfsDemo Drives.
Lemma vfs_tables_invariant_witness : vfs_init powered = (Some tt, booted) /\ vfs_ok opened.
Proof.
  split; [exact booted_run|]. apply (vfs_tables_invariant powered booted opened booted_run).
  apply (rtc_l _ booted formatted); [exact (step_format drive0 (Some cos_name) booted)|].
  apply (rtc_l _ formatted mounted); [exact (step_mount drive0 root_path formatted)|].
  apply (rtc_l _ mounted opened); [exact (step_open name_a (Z.lor O_CREAT O_RDWR) mounted)|]. apply rtc_refl.
Defined.

End VfsProps.
