(* ===== verification/VfsLockProps.v ===== *)
(** The file layer's lock under preemption (src/vfs.c: vfs_lock, vfs_unlock,
    vfs_task_killed): the tasks' steps interleaved one memory access at a
    time, mutual exclusion, and that a lock that is taken comes free again. *)
From S2P Require Import Prelude CString Disk CosData FatData VfsPath VfsData VfsBackend VfsMount Vfs.
From stdpp Require Import base list numbers relations.
From Stdlib Require Import ZArith Lia.
Import VfsData VfsLock.
Open Scope Z_scope.

Module VfsLockProps.

(** Where a task stands. *)
Inductive pc :=
  | Run (n : nat)  (** outside the lock's code, [n] calls of [vfs_lock] not yet undone *)
  | Try            (** in the waiting loop, before [__sync_lock_test_and_set] *)
  | Got            (** the exchange returned 0; [s_owner] not yet set *)
  | Owned          (** [s_owner] set; [s_depth] not yet *)
  | Rel1           (** [s_depth] is down to 0; [s_owner] not yet cleared *)
  | Rel2           (** [s_owner] cleared; the lock not yet released *)
  | Dead.

Record sys := mk_sys { l : lockst; pcs : Z -> pc }.
Definition upd_pc (f : Z -> pc) (t : Z) (p : pc) : Z -> pc := fun x => if decide (x = t) then p else f x.

(** A task ends by its own call of [task_exit] or by an exception of its own,
    while it runs its code: the instructions of [vfs_lock] and [vfs_unlock]
    access the kernel's variables and raise none. *)
Definition own_death (p : pc) : Prop := match p with Run _ => True | _ => False end.

(** One step of task [t], or its death where [may_die] allows it; task numbers
    are not [LOCK_NONE]. *)
Inductive lock_step (may_die : pc -> Prop) : sys -> sys -> Prop :=
  (** [if (s_depth > 0 && s_owner == me) { s_depth++; return; }] *)
  | ls_reenter t n L f : t <> LOCK_NONE -> f t = Run n -> 0 < s_depth L -> s_owner L = t ->
      lock_step may_die (mk_sys L f) (mk_sys (mk_lock (s_lock L) (s_owner L) (s_depth L + 1)) (upd_pc f t (Run (S n))))
  | ls_enter t n L f : t <> LOCK_NONE -> f t = Run n -> ~ (0 < s_depth L /\ s_owner L = t) ->
      lock_step may_die (mk_sys L f) (mk_sys L (upd_pc f t Try))
  (** [while (__sync_lock_test_and_set(&s_lock, 1)) lock_wait();] *)
  | ls_wait t L f : f t = Try -> s_lock L <> 0 -> lock_step may_die (mk_sys L f) (mk_sys (mk_lock 1 (s_owner L) (s_depth L)) f)
  | ls_take t L f : f t = Try -> s_lock L = 0 ->
      lock_step may_die (mk_sys L f) (mk_sys (mk_lock 1 (s_owner L) (s_depth L)) (upd_pc f t Got))
  | ls_owner t L f : f t = Got -> lock_step may_die (mk_sys L f) (mk_sys (mk_lock (s_lock L) t (s_depth L)) (upd_pc f t Owned))
  | ls_depth t L f : f t = Owned -> lock_step may_die (mk_sys L f) (mk_sys (mk_lock (s_lock L) (s_owner L) 1) (upd_pc f t (Run 1)))
  (** [if (--s_depth == 0) { s_owner = LOCK_NONE; __sync_lock_release(&s_lock); }] *)
  | ls_unlock t n L f : f t = Run (S n) -> s_depth L - 1 <> 0 ->
      lock_step may_die (mk_sys L f) (mk_sys (mk_lock (s_lock L) (s_owner L) (s_depth L - 1)) (upd_pc f t (Run n)))
  | ls_last t n L f : f t = Run (S n) -> s_depth L - 1 = 0 ->
      lock_step may_die (mk_sys L f) (mk_sys (mk_lock (s_lock L) (s_owner L) 0) (upd_pc f t Rel1))
  | ls_clear t L f : f t = Rel1 -> lock_step may_die (mk_sys L f) (mk_sys (mk_lock (s_lock L) LOCK_NONE (s_depth L)) (upd_pc f t Rel2))
  | ls_release t L f : f t = Rel2 -> lock_step may_die (mk_sys L f) (mk_sys (mk_lock 0 (s_owner L) (s_depth L)) (upd_pc f t (Run 0)))
  | ls_kill t L f : f t <> Dead -> may_die (f t) -> lock_step may_die (mk_sys L f) (mk_sys (vfs_task_killed t L) (upd_pc f t Dead)).

Definition start : sys := mk_sys lock_free (fun _ => Run 0).

(** The task is between the exchange that took the lock and its release. *)
Definition inside (p : pc) : bool :=
  match p with Run n => negb (n =? 0)%nat | Got | Owned | Rel1 | Rel2 => true | _ => false end.
(** The task has the lock for its caller: the file layer's code runs. *)
Definition holding (p : pc) : bool := match p with Run n => negb (n =? 0)%nat | _ => false end.

Record lock_inv (s : sys) : Prop := {
  li_lock : s_lock (l s) = 0 \/ s_lock (l s) = 1;
  li_inside : forall t, inside (pcs s t) = true -> s_lock (l s) = 1;
  li_one : forall t u, inside (pcs s t) = true -> inside (pcs s u) = true -> t = u;
  li_run : forall t n, pcs s t = Run (S n) -> s_owner (l s) = t /\ s_depth (l s) = Z.of_nat (S n);
  li_owned : forall t, pcs s t = Owned -> s_owner (l s) = t;
  li_depth : s_depth (l s) <> 0 -> exists t n, pcs s t = Run (S n);
  li_nonneg : 0 <= s_depth (l s);
}.

Lemma upd_pc_eq f t p : upd_pc f t p t = p.
Proof. unfold upd_pc. by rewrite decide_True. Qed.
Lemma upd_pc_ne f t p u : u <> t -> upd_pc f t p u = f u.
Proof. intros. unfold upd_pc. by rewrite decide_False. Qed.

Lemma start_inv : lock_inv start.
Proof. constructor; cbn; try done; auto. Qed.

(** A step by a task that is inside keeps the others outside. *)
Lemma others_outside s t u : lock_inv s -> inside (pcs s t) = true -> u <> t -> inside (pcs s u) = false.
Proof.
  intros Hi Ht Hne. destruct (inside (pcs s u)) eqn:E; [|done]. by destruct Hne; apply (li_one s Hi).
Qed.
Lemma outside_not_run s t u n : lock_inv s -> inside (pcs s t) = true -> u <> t -> pcs s u = Run (S n) -> False.
Proof. intros Hi Ht Hne E. pose proof (others_outside s t u Hi Ht Hne) as Ho. by rewrite E in Ho. Qed.

(** The invariant after task [t], which was inside or takes the free lock,
    moves: the other tasks are not inside. *)
Lemma inv_move f t p L' :
  (forall u, u <> t -> inside (f u) = false) ->
  s_lock L' = (if inside p then 1 else 0) ->
  match p with
  | Run (S n) => s_owner L' = t /\ s_depth L' = Z.of_nat (S n)
  | Owned => s_owner L' = t /\ s_depth L' = 0
  | _ => s_depth L' = 0
  end -> lock_inv (mk_sys L' (upd_pc f t p)).
Proof.
  intros Ho Hl Hp. assert (Ho' : forall u n, u <> t -> f u <> Run (S n) /\ f u <> Owned).
  { intros u n Hu. split; intros E; specialize (Ho u Hu); by rewrite E in Ho. }
  constructor; cbn [l pcs].
  - destruct (inside p); auto.
  - intros u Hu. destruct (decide (u = t)) as [->|Hne]; [rewrite upd_pc_eq in Hu; by rewrite Hl, Hu|].
    rewrite upd_pc_ne in Hu by done. by rewrite Ho in Hu.
  - intros u v Hu Hv. destruct (decide (u = t)) as [->|Hne].
    + destruct (decide (v = t)) as [->|Hne]; [done|]. rewrite upd_pc_ne, Ho in Hv by done. done.
    + rewrite upd_pc_ne, Ho in Hu by done. done.
  - intros u n. destruct (decide (u = t)) as [->|Hne]; [rewrite upd_pc_eq; by intros ->|].
    rewrite upd_pc_ne by done. intros E. by destruct (Ho' u n Hne).
  - intros u. destruct (decide (u = t)) as [->|Hne]; [rewrite upd_pc_eq; intros ->; apply Hp|].
    rewrite upd_pc_ne by done. intros E. by destruct (Ho' u 0%nat Hne).
  - intros Hd. destruct p as [[|n]| | | | | |]; try (by destruct Hd); try (by destruct Hp).
    exists t, n. apply upd_pc_eq.
  - destruct p as [[|n]| | | | | |]; destruct Hp || idtac; lia.
Qed.
(** The invariant after a task outside moves to a place outside. *)
Lemma inv_outside s t p L' : lock_inv s -> inside (pcs s t) = false -> inside p = false ->
  s_owner L' = s_owner (l s) -> s_depth L' = s_depth (l s) -> s_lock L' = s_lock (l s) ->
  lock_inv (mk_sys L' (upd_pc (pcs s) t p)).
Proof.
  intros [] Ht Hp How Hd Hl. constructor; cbn [l pcs]; rewrite ?How, ?Hd, ?Hl; try done.
  - intros u. destruct (decide (u = t)) as [->|Hne]; [rewrite upd_pc_eq; congruence|]. rewrite upd_pc_ne by done. apply li_inside0.
  - intros u v. destruct (decide (u = t)) as [->|Hu]; [rewrite upd_pc_eq; congruence|].
    destruct (decide (v = t)) as [->|Hv]; [rewrite (upd_pc_eq _ t); congruence|]. rewrite !upd_pc_ne by done. apply li_one0.
  - intros u n. destruct (decide (u = t)) as [->|Hne]; [rewrite upd_pc_eq; intros ->; done|]. rewrite upd_pc_ne by done. apply li_run0.
  - intros u. destruct (decide (u = t)) as [->|Hne]; [rewrite upd_pc_eq; intros ->; done|]. rewrite upd_pc_ne by done. apply li_owned0.
  - intros Hn. destruct (li_depth0 Hn) as (u & n & Hu). exists u, n. rewrite upd_pc_ne; [done|].
    intros ->. by rewrite Hu in Ht.
Qed.

Lemma depth_zero s t : lock_inv s -> inside (pcs s t) = true -> (forall n, pcs s t <> Run (S n)) -> s_depth (l s) = 0.
Proof.
  intros Hi Ht Hn. destruct (decide (s_depth (l s) = 0)) as [|Hd]; [done|].
  destruct (li_depth s Hi Hd) as (u & n & Hu). destruct (decide (u = t)) as [->|Hne]; [by destruct (Hn n)|].
  by destruct (outside_not_run s t u n Hi Ht Hne).
Qed.
Lemma free_outside s u : lock_inv s -> s_lock (l s) = 0 -> inside (pcs s u) = false.
Proof. intros Hi Hl. destruct (inside (pcs s u)) eqn:E; [|done]. apply (li_inside s Hi) in E. lia. Qed.

Lemma kill_inv L f t : lock_inv (mk_sys L f) -> lock_inv (mk_sys (vfs_task_killed t L) (upd_pc f t Dead)).
Proof.
  intros Hi. unfold vfs_task_killed. destruct ((0 <? s_depth L) && (s_owner L =? t)) eqn:E.
  - apply andb_true_iff in E as [Hd%Z.ltb_lt Ho%Z.eqb_eq].
    destruct (li_depth _ Hi) as (u & n & Hu); [cbn; lia|]. cbn in Hu.
    destruct (li_run _ Hi u n Hu) as [Hou _]. cbn in Hou. assert (u = t) as -> by congruence.
    apply inv_move; [|done|done]. intros v Hv. apply (others_outside (mk_sys L f) t v Hi); [cbn; by rewrite Hu|done].
  - destruct (inside (f t)) eqn:Ht.
    + assert (Hd : s_depth L = 0).
      { destruct (f t) as [[|n]| | | | | |] eqn:Ef; try done;
          try (apply (depth_zero _ t Hi); cbn; by rewrite Ef).
        destruct (li_run _ Hi t n Ef) as [Ho Hd]. cbn in Ho, Hd. exfalso.
        apply not_true_iff_false in E. apply E, andb_true_iff. split; [apply Z.ltb_lt; lia|by apply Z.eqb_eq]. }
      pose proof (others_outside (mk_sys L f) t) as Hot. constructor; cbn [l pcs].
      * apply (li_lock _ Hi).
      * intros u. destruct (decide (u = t)) as [->|Hne]; [by rewrite upd_pc_eq|]. rewrite upd_pc_ne by done. apply (li_inside _ Hi).
      * intros u v. destruct (decide (u = t)) as [->|Hne]; [by rewrite upd_pc_eq|]. rewrite upd_pc_ne by done.
        intros Hu. pose proof (Hot u Hi Ht Hne) as Hx. cbn in Hx. congruence.
      * intros u n. destruct (decide (u = t)) as [->|Hne]; [by rewrite upd_pc_eq|]. rewrite upd_pc_ne by done. apply (li_run _ Hi).
      * intros u. destruct (decide (u = t)) as [->|Hne]; [by rewrite upd_pc_eq|]. rewrite upd_pc_ne by done. apply (li_owned _ Hi).
      * done.
      * lia.
    + by apply (inv_outside (mk_sys L f)).
Qed.

Lemma step_inv md s s' : lock_step md s s' -> lock_inv s -> lock_inv s'.
Proof.
  destruct 1 as [t n L f Hn Ht Hd Ho|t n L f Hn Ht Hno|t L f Ht Hl|t L f Ht Hl|t L f Ht|t L f Ht|t n L f Ht Hd|t n L f Ht Hd
    |t L f Ht|t L f Ht|t L f Ht Hmd]; intros Hi; pose proof (others_outside (mk_sys L f) t) as Hot; cbn in Hot.
  - destruct (li_depth _ Hi) as (u & m & Hu); [cbn; lia|]. destruct (li_run _ Hi u m Hu) as [Hou Hdu]. cbn in *.
    assert (u = t) as -> by congruence. rewrite Hu in Ht. injection Ht as <-.
    apply inv_move; cbn [s_lock s_owner s_depth].
    + intros v Hv. apply (Hot v Hi); [by rewrite Hu|done].
    + apply (li_inside _ Hi t). cbn. by rewrite Hu.
    + split; [done|lia].
  - assert (n = 0%nat) as ->.
    { destruct n as [|n]; [done|]. destruct (li_run _ Hi t n Ht) as [? Hdn]. cbn in *. destruct Hno. split; [lia|done]. }
    by apply (inv_outside (mk_sys L f)); cbn; rewrite ?Ht.
  - destruct Hi. constructor; cbn in *; auto.
  - assert (Ho : forall u, inside (f u) = false) by (intros u; by apply (free_outside _ u Hi)).
    apply inv_move; [by intros; apply Ho|done|]. cbn. destruct (decide (s_depth L = 0)) as [|Hd]; [done|].
    destruct (li_depth _ Hi Hd) as (u & n & Hu). cbn in Hu. specialize (Ho u). by rewrite Hu in Ho.
  - assert (Hin : inside (f t) = true) by by rewrite Ht. apply inv_move; [by intros; apply Hot| |].
    + by apply (li_inside _ Hi t).
    + split; [done|]. apply (depth_zero _ t Hi); [done|]. cbn. by rewrite Ht.
  - assert (Hin : inside (f t) = true) by by rewrite Ht. apply inv_move; [by intros; apply Hot| |].
    + by apply (li_inside _ Hi t).
    + split; [|done]. by apply (li_owned _ Hi t).
  - assert (Hin : inside (f t) = true) by by rewrite Ht. destruct (li_run _ Hi t n Ht) as [Ho Hdn]. cbn in Ho, Hdn.
    destruct n as [|n]; [cbn in Hdn; lia|]. apply inv_move; [by intros; apply Hot| |].
    + by apply (li_inside _ Hi t).
    + split; [done|]. cbn. lia.
  - assert (Hin : inside (f t) = true) by by rewrite Ht. apply inv_move; [by intros; apply Hot| |done].
    by apply (li_inside _ Hi t).
  - assert (Hin : inside (f t) = true) by by rewrite Ht. apply inv_move; [by intros; apply Hot| |].
    + by apply (li_inside _ Hi t).
    + apply (depth_zero _ t Hi); [done|]. cbn. by rewrite Ht.
  - assert (Hin : inside (f t) = true) by by rewrite Ht. apply inv_move; [by intros; apply Hot|done|].
    apply (depth_zero _ t Hi); [done|]. cbn. by rewrite Ht.
  - by apply kill_inv.
Qed.
(** A lock that is taken has a task inside, or a task died. *)
Definition accounted (s : sys) : Prop :=
  s_lock (l s) = 1 -> exists t, inside (pcs s t) = true \/ pcs s t = Dead.
Lemma accounted_upd f t p L' : inside p = true \/ p = Dead \/ s_lock L' <> 1 -> accounted (mk_sys L' (upd_pc f t p)).
Proof.
  intros Hp Hl. cbn in *. exists t. rewrite upd_pc_eq. destruct Hp as [?|[?|?]]; [by left|by right|done].
Qed.
Lemma step_accounted md s s' : lock_step md s s' -> lock_inv s -> accounted s -> accounted s'.
Proof.
  destruct 1 as [t n L f Hn Ht Hd Ho|t n L f Hn Ht Hno|t L f Ht Hl|t L f Ht Hl|t L f Ht|t L f Ht|t n L f Ht Hd|t n L f Ht Hd
    |t L f Ht|t L f Ht|t L f Ht Hmd]; intros Hi Ha; try by apply accounted_upd; auto.
  - intros Hl. destruct (Ha Hl) as [u Hu]. exists u. cbn in *. rewrite upd_pc_ne; [done|]. intros ->.
    rewrite Ht in Hu. destruct n as [|n]; [by destruct Hu|].
    destruct (li_run _ Hi t n Ht) as [? Hdn]. cbn in *. destruct Hno. split; [lia|done].
  - intros _. destruct (li_lock _ Hi) as [|Hx]; [done|]. destruct (Ha Hx) as [u Hu]. by exists u.
  - destruct n as [|n]; [|by apply accounted_upd; auto].
    destruct (li_run _ Hi t 0%nat Ht) as [_ Hdn]. cbn in Hdn. lia.
Qed.

Lemma reachable_ok md s : rtc (lock_step md) start s -> lock_inv s /\ accounted s.
Proof.
  assert (Hgen : forall x, rtc (lock_step md) x s -> lock_inv x /\ accounted x -> lock_inv s /\ accounted s).
  { induction 1 as [|x y z Hxy _ IH]; [done|]. intros [Hx Ha]. apply IH.
    split; [by eapply step_inv|by eapply step_accounted]. }
  intros Hr. apply (Hgen _ Hr). split; [apply start_inv|done].
Qed.

(** Where tasks end only in their own code, a taken lock has a task inside. *)
Definition carried_on (s : sys) : Prop := s_lock (l s) = 1 -> exists t, inside (pcs s t) = true.
Lemma holder_killed s t n : lock_inv s -> pcs s t = Run (S n) -> vfs_task_killed t (l s) = mk_lock 0 LOCK_NONE 0.
Proof.
  intros Hi Ht. destruct (li_run s Hi t n Ht) as [Ho Hd]. unfold vfs_task_killed. rewrite Ho, Hd, Z.eqb_refl. by rewrite (proj2 (Z.ltb_lt 0 _)) by lia.
Qed.
Lemma step_carried_on s s' : lock_step own_death s s' -> lock_inv s -> accounted s -> carried_on s -> carried_on s'.
Proof.
  intros Hst Hi Ha Hc. pose proof (step_inv _ _ _ Hst Hi) as Hi'. pose proof (step_accounted _ _ _ Hst Hi Ha) as Ha'.
  assert (Hmv : forall f t p L', inside p = true \/ s_lock L' <> 1 -> carried_on (mk_sys L' (upd_pc f t p))).
  { intros f t p L' Hp Hl. cbn in *. exists t. rewrite upd_pc_eq. by destruct Hp. }
  destruct Hst as [t n L f Hn Ht Hd Ho|t n L f Hn Ht Hno|t L f Ht Hl|t L f Ht Hl|t L f Ht|t L f Ht|t n L f Ht Hd|t n L f Ht Hd
    |t L f Ht|t L f Ht|t L f Ht Hmd]; try by apply Hmv; auto.
  - intros Hl. destruct (Hc Hl) as [u Hu]. exists u. cbn in *. rewrite upd_pc_ne; [done|]. intros ->. rewrite Ht in Hu. destruct n as [|n]; [done|].
    destruct (li_run _ Hi t n Ht) as [? Hdn]. cbn in *. destruct Hno. split; [lia|done].
  - intros _. destruct (li_lock _ Hi) as [|Hx]; [done|]. destruct (Hc Hx) as [u Hu]. by exists u.
  - destruct n as [|n]; [|by apply Hmv; auto]. destruct (li_run _ Hi t 0%nat Ht) as [_ Hdn]. cbn in Hdn. lia.
  - destruct (f t) as [[|n]| | | | | |] eqn:Ef; try done.
    + intros Hl. cbn in Hl. assert (HL : s_lock L = 1). { unfold vfs_task_killed in Hl. by destruct (_ && _). }
      destruct (Hc HL) as [u Hu]. exists u. cbn in *. rewrite upd_pc_ne; [done|]. intros ->. by rewrite Ef in Hu.
    + pose proof (holder_killed _ t n Hi Ef) as Ek. cbn in Ek. rewrite Ek. apply Hmv. by right.
Qed.
Lemma reachable_carried_on s : rtc (lock_step own_death) start s -> carried_on s.
Proof.
  assert (Hgen : forall x, rtc (lock_step own_death) x s -> lock_inv x -> accounted x -> carried_on x -> carried_on s).
  { induction 1 as [|x y z Hxy _ IH]; [done|]. intros Hx Ha Hc. apply IH; [by eapply step_inv|by eapply step_accounted|by eapply step_carried_on]. }
  intros Hr. by apply (Hgen _ Hr); [apply start_inv|..].
Qed.

(** The task inside goes on by its own steps until it has released the lock. *)
Lemma inside_releases md t p : inside p = true -> forall L f, lock_inv (mk_sys L f) -> f t = p ->
  exists L' f', rtc (lock_step md) (mk_sys L f) (mk_sys L' f') /\ s_lock L' = 0 /\ f' t = Run 0 /\ forall u, u <> t -> f' u = f u.
Proof.
  assert (Hgo : forall L f L1 p1, lock_step md (mk_sys L f) (mk_sys L1 (upd_pc f t p1)) -> 
    (exists L' f', rtc (lock_step md) (mk_sys L1 (upd_pc f t p1)) (mk_sys L' f') /\ s_lock L' = 0 /\ f' t = Run 0 /\ forall u, u <> t -> f' u = upd_pc f t p1 u) ->
    exists L' f', rtc (lock_step md) (mk_sys L f) (mk_sys L' f') /\ s_lock L' = 0 /\ f' t = Run 0 /\ forall u, u <> t -> f' u = f u).
  { intros L f L1 p1 Hs (L' & f' & Hr & Hl & Ht & Ho). exists L', f'. split; [by eapply rtc_l|]. split; [done|]. split; [done|].
    intros u Hu. rewrite Ho by done. by apply upd_pc_ne. }
  assert (H2 : forall L f, f t = Rel2 -> exists L' f', rtc (lock_step md) (mk_sys L f) (mk_sys L' f') /\ s_lock L' = 0 /\ f' t = Run 0 /\ forall u, u <> t -> f' u = f u).
  { intros L f Ht. eapply Hgo; [by apply (ls_release md t)|]. eexists _, _. split; [apply rtc_refl|]. split; [done|]. split; [apply upd_pc_eq|done]. }
  assert (H1 : forall L f, f t = Rel1 -> exists L' f', rtc (lock_step md) (mk_sys L f) (mk_sys L' f') /\ s_lock L' = 0 /\ f' t = Run 0 /\ forall u, u <> t -> f' u = f u).
  { intros L f Ht. eapply Hgo; [by apply (ls_clear md t)|]. apply H2, upd_pc_eq. }
  assert (HR : forall n L f, lock_inv (mk_sys L f) -> f t = Run (S n) ->
    exists L' f', rtc (lock_step md) (mk_sys L f) (mk_sys L' f') /\ s_lock L' = 0 /\ f' t = Run 0 /\ forall u, u <> t -> f' u = f u).
  { induction n as [|n IH]; intros L f Hi Ht; destruct (li_run _ Hi t _ Ht) as [Ho Hd]; cbn [l] in Ho, Hd.
    - eapply Hgo; [apply (ls_last md t 0%nat); [done|lia]|]. apply H1, upd_pc_eq.
    - assert (Hst : lock_step md (mk_sys L f) (mk_sys (mk_lock (s_lock L) (s_owner L) (s_depth L - 1)) (upd_pc f t (Run (S n))))) by (apply ls_unlock; [done|lia]).
      eapply Hgo; [exact Hst|]. apply IH; [by eapply step_inv|apply upd_pc_eq]. }
  assert (H3 : forall L f, lock_inv (mk_sys L f) -> f t = Owned ->
    exists L' f', rtc (lock_step md) (mk_sys L f) (mk_sys L' f') /\ s_lock L' = 0 /\ f' t = Run 0 /\ forall u, u <> t -> f' u = f u).
  { intros L f Hi Ht. pose proof (ls_depth md t L f Ht) as Hst. eapply Hgo; [exact Hst|]. apply (HR 0%nat); [by eapply step_inv|apply upd_pc_eq]. }
  intros Hp L f Hi Ht. destruct p as [[|n]| | | | | |]; try done; [by eapply HR| |by apply H3|by apply H1|by apply H2].
  pose proof (ls_owner md t L f Ht) as Hst. eapply Hgo; [exact Hst|]. apply H3; [by eapply step_inv|apply upd_pc_eq].
Qed.

(** ** Properties *)

(** C9 - Whatever the interleaving of the tasks' accesses to the lock's three
    words, and whichever tasks are killed, even if at any point whatever: at
    most one task is between taking and releasing the lock, so two tasks never
    run the file layer at once; the task that holds it is the one [s_owner]
    names, and [s_depth] is the number of its unfinished calls; and while no
    task has been killed a taken lock always has a task that is going to
    release it. *)
Theorem vfs_lock_mutual_exclusion may_die s : rtc (lock_step may_die) start s ->
  (forall t u, inside (pcs s t) = true -> inside (pcs s u) = true -> t = u) /\
  (forall t n, pcs s t = Run (S n) -> s_lock (l s) = 1 /\ s_owner (l s) = t /\ s_depth (l s) = Z.of_nat (S n)) /\
  ((forall t, pcs s t <> Dead) -> s_lock (l s) = 1 -> exists t, inside (pcs s t) = true).
Proof.
  intros Hr. apply reachable_ok in Hr as [Hi Ha]. split_and!.
  - apply (li_one s Hi).
  - intros t n Ht. split; [apply (li_inside s Hi t); by rewrite Ht|by apply (li_run s Hi)].
  - intros Hd Hl. destruct (Ha Hl) as [t [Ht|Ht]]; [by exists t|by destruct (Hd t)].
Qed.
(** Tasks 1 and 2: 1 enters twice, 2 waits. *)
Definition nested : sys :=
  mk_sys (mk_lock 1 1 2) (upd_pc (upd_pc (upd_pc (upd_pc (upd_pc (upd_pc (fun _ => Run 0) 1 Try) 1 Got) 1 Owned) 1 (Run 1)) 2 Try) 1 (Run 2)).
Lemma nested_reachable md : rtc (lock_step md) start nested.
Proof.
  eapply rtc_l; [apply (ls_enter md 1 0); [done|done|cbn; lia]|].
  eapply rtc_l; [by apply (ls_take md 1)|]. eapply rtc_l; [by apply (ls_owner md 1)|].
  eapply rtc_l; [by apply (ls_depth md 1)|]. eapply rtc_l; [apply (ls_enter md 2 0); [done|done|cbn; lia]|].
  eapply rtc_l; [by apply (ls_reenter md 1 1)|]. apply rtc_refl.
Qed.
Lemma vfs_lock_mutual_exclusion_witness : rtc (lock_step own_death) start nested /\
  s_lock (l nested) = 1 /\ s_owner (l nested) = 1 /\ s_depth (l nested) = Z.of_nat 2.
Proof.
  split; [exact (nested_reachable _)|].
  exact (proj1 (proj2 (vfs_lock_mutual_exclusion own_death nested (nested_reachable _))) 1 1%nat eq_refl).
Defined.

(** C23 - A task that ends while it holds the lock of the file layer, by
    [task_exit] or by an exception in its code, does not block the others:
    [vfs_task_killed] frees the lock whatever the depth, and leaves it alone
    when another task ends. So in every state that the tasks reach by their
    steps, deaths included, a taken lock has a live task inside, whose own next
    steps release it while no other task moves; and a task that waits for a
    free lock gets it by its next step. *)
Theorem vfs_lock_never_orphaned s : rtc (lock_step own_death) start s ->
  (s_lock (l s) = 1 -> exists t s', inside (pcs s t) = true /\ rtc (lock_step own_death) s s' /\ s_lock (l s') = 0 /\ pcs s' t = Run 0 /\
     forall u, u <> t -> pcs s' u = pcs s u) /\
  (forall t n, pcs s t = Run (S n) -> vfs_task_killed t (l s) = lock_free) /\
  (forall t, pcs s t = Run 0 -> vfs_task_killed t (l s) = l s) /\
  (forall t, pcs s t = Try -> s_lock (l s) = 0 -> exists s', lock_step own_death s s' /\ inside (pcs s' t) = true).
Proof.
  intros Hr. pose proof (reachable_carried_on s Hr) as Hc. apply reachable_ok in Hr as [Hi Ha]. destruct s as [L f]. cbn [l pcs] in *. split_and!.
  - intros Hl. destruct (Hc Hl) as [t Ht]. cbn in Ht. destruct (inside_releases own_death t (f t) Ht L f Hi eq_refl) as (L' & f' & Hr' & Hl' & Ht' & Ho).
    exists t, (mk_sys L' f'). done.
  - intros t n Ht. exact (holder_killed _ t n Hi Ht).
  - intros t Ht. unfold vfs_task_killed. destruct ((0 <? s_depth L) && (s_owner L =? t)) eqn:E; [|done].
    apply andb_true_iff in E as [Hd%Z.ltb_lt Ho%Z.eqb_eq]. destruct (li_depth _ Hi) as (u & n & Hu); [cbn; lia|]. destruct (li_run _ Hi u n Hu) as [Hou _].
    cbn in Hou, Hu. assert (u = t) as -> by congruence. congruence.
  - intros t Ht Hl. eexists. split; [by apply (ls_take _ t)|]. cbn. by rewrite upd_pc_eq.
Qed.
Lemma vfs_lock_never_orphaned_witness : rtc (lock_step own_death) start nested /\
  (exists t s', inside (pcs nested t) = true /\ rtc (lock_step own_death) nested s' /\ s_lock (l s') = 0 /\ pcs s' t = Run 0 /\ forall u, u <> t -> pcs s' u = pcs nested u) /\
  vfs_task_killed 1 (l nested) = lock_free.
Proof.
  destruct (vfs_lock_never_orphaned nested (nested_reachable _)) as (H1 & H2 & _).
  split; [exact (nested_reachable _)|]. split; [exact (H1 eq_refl)|exact (H2 1 1%nat eq_refl)].
Defined.

(** The calls as the file layer's operations use them are runs of the
    interleaved system: when one round of [vfs_lock] succeeds, the task
    reaches, by its own steps, the state with the call counted; a round fails
    only while another task is inside, or after a kill; and [vfs_unlock]
    undoes one call. *)
Theorem vfs_lock_functions_refine md s t n : rtc (lock_step md) start s -> t <> LOCK_NONE -> pcs s t = Run n ->
  match vfs_lock_try t (l s) with
  | Some L' => exists f', rtc (lock_step md) s (mk_sys L' f') /\ f' t = Run (S n) /\ forall u, u <> t -> f' u = pcs s u
  | None => exists u, u <> t /\ (inside (pcs s u) = true \/ pcs s u = Dead)
  end /\
  (n <> 0%nat -> exists f', rtc (lock_step md) s (mk_sys (vfs_unlock (l s)) f') /\ f' t = Run (pred n) /\ forall u, u <> t -> f' u = pcs s u).
Proof.
  intros Hr Hn Ht. apply reachable_ok in Hr as [Hi Ha]. destruct s as [L f]. cbn [l pcs] in *. split.
  - unfold vfs_lock_try. destruct ((0 <? s_depth L) && (s_owner L =? t)) eqn:E.
    { apply andb_true_iff in E as [Hd%Z.ltb_lt Ho%Z.eqb_eq]. exists (upd_pc f t (Run (S n))). split_and!.
      - apply rtc_once. by eapply ls_reenter.
      - apply upd_pc_eq.
      - intros. by apply upd_pc_ne. }
    assert (Hno : ~ (0 < s_depth L /\ s_owner L = t)).
    { intros [? ?]. apply not_true_iff_false in E. apply E, andb_true_iff. split; [by apply Z.ltb_lt|by apply Z.eqb_eq]. }
    assert (n = 0%nat) as ->.
    { destruct n as [|n]; [done|]. destruct (li_run _ Hi t n Ht) as [? Hdn]. cbn in *. destruct Hno. split; [lia|done]. }
    destruct (Z.eqb_spec (s_lock L) 0) as [Hl|Hl]; cbn [negb].
    + eexists. split_and!.
      * eapply rtc_l; [by apply (ls_enter md t 0)|]. eapply rtc_l; [apply (ls_take md t); [apply upd_pc_eq|done]|].
        eapply rtc_l; [apply (ls_owner md t); apply upd_pc_eq|]. eapply rtc_l; [apply (ls_depth md t); apply upd_pc_eq|]. apply rtc_refl.
      * apply upd_pc_eq.
      * intros. by rewrite !upd_pc_ne.
    + destruct (li_lock _ Hi) as [|Hl1]; [done|]. destruct (Ha Hl1) as [u Hu]. exists u. split; [|done].
      intros ->. cbn in Hu. rewrite Ht in Hu. by destruct Hu.
  - intros Hnz. destruct n as [|n]; [done|]. destruct (li_run _ Hi t n Ht) as [Ho Hd]. cbn [l] in Ho, Hd.
    unfold vfs_unlock. destruct (Z.eqb_spec (s_depth L - 1) 0) as [Hz|Hz].
    + assert (n = 0%nat) as -> by lia. eexists. split_and!.
      * eapply rtc_l; [by eapply (ls_last md t 0)|]. eapply rtc_l; [apply (ls_clear md t), upd_pc_eq|].
        eapply rtc_l; [apply (ls_release md t), upd_pc_eq|]. apply rtc_refl.
      * apply upd_pc_eq.
      * intros. by rewrite !upd_pc_ne.
    + exists (upd_pc f t (Run n)). split_and!; [|apply upd_pc_eq|intros; by apply upd_pc_ne].
      apply rtc_once. by eapply ls_unlock.
Qed.
Lemma vfs_lock_functions_refine_witness :
  vfs_lock_try 1 (l nested) = Some (mk_lock 1 1 3) /\
  exists f', rtc (lock_step own_death) nested (mk_sys (mk_lock 1 1 3) f') /\ f' 1 = Run 3 /\ forall u, u <> 1 -> f' u = pcs nested u.
Proof.
  split; [reflexivity|].
  exact (proj1 (vfs_lock_functions_refine own_death nested 1 2 (nested_reachable _) ltac:(discriminate) eq_refl)).
Defined.

End VfsLockProps.
