(* ===== verification/VfsLive.v ===== *)
(** The calls of the virtual file system and the lock: with the lock free, or
    held by the calling task, no call waits, the nested ones included, and the
    lock is left as it was found on every path by which a call ends. Whether
    its loops end is another question: [FatProps] answers it for the chains of
    FAT32. *)
From S2P Require Import Prelude CString Disk CosData CosAlloc CosFile CosDir CosFormat FatData FatDir FatFile VfsPath VfsData VfsBackend VfsMount Vfs VfsFrame VfsDemo.
From stdpp Require Import base list gmap numbers.
From Stdlib Require Import ZArith Lia.
Import CString VfsPath VfsData VfsBackend VfsMount VfsLock Vfs VfsFrame.
Open Scope Z_scope.

Create HintDb calm.

Module VfsLive.

Section live.
Context {D K : Type} `{BlockDev D} `{Kernel K}.
Implicit Types s : vstate D K.
#[local] Abbreviation M := (st (vstate D K)).

(** The operation leaves the lock and the running task alone. *)
Definition calm {A} (m : M A) : Prop := forall s, lck (m s).2 = lck s /\ current_task (m s).2 = current_task s.

Lemma calm_keeps {A} (m : M A) : keeps m -> calm m.
Proof. intros Hm s. destruct (Hm s). done. Qed.
Lemma calm_bind {A B} (m : M A) (f : A -> M B) : calm m -> (forall a, calm (f a)) -> calm (m ≫= f).
Proof.
  intros Hm Hf s. unfold mbind, st_bind. destruct (Hm s) as [Hl Ht]. destruct (m s) as [a s']. cbn in *.
  destruct (Hf a s') as [-> ->]. done.
Qed.
Lemma calm_modify (f : vstate D K -> vstate D K) :
  (forall s, lck (f s) = lck s /\ current_task (f s) = current_task s) -> calm (modify f).
Proof. intros Hf s. apply Hf. Qed.
Lemma calm_when b (m : M unit) : calm m -> calm (when b m).
Proof. destruct b; [done|]. intros _. apply calm_keeps, keeps_ret. Qed.
Lemma calm_ffor n i (body : Z -> M unit) : (forall j, calm (body j)) -> calm (ffor n i body).
Proof.
  intros Hb. revert i. induction n as [|n IH]; intros i s; cbn [ffor]; [done|].
  destruct (IH (i + 1) (body i s).2) as [-> ->]. apply Hb.
Qed.

(** The call can take the lock: it is free, or the task has it already. *)
Definition available s : Prop := lck s = lock_free \/ (0 < s_depth (lck s) /\ s_owner (lck s) = current_task s).
(** The call does not wait and leaves the lock as it was. *)
Definition returns {A} (m : M (option A)) : Prop := forall s, available s ->
  exists a s', m s = (Some a, s') /\ lck s' = lck s /\ current_task s' = current_task s.

Lemma returns_calm {A B} (m : M A) (f : A -> M (option B)) : calm m -> (forall a, returns (f a)) -> returns (m ≫= f).
Proof.
  intros Hm Hf s Hs. unfold mbind, st_bind. destruct (Hm s) as [Hl Ht]. destruct (m s) as [a s1]. cbn in *.
  destruct (Hf a s1) as (b & s2 & -> & Hl2 & Ht2); [unfold available in *; by rewrite Hl, Ht|]. exists b, s2. by rewrite Hl2, Ht2.
Qed.
Lemma returns_ret {A} (a : A) : returns (ret a).
Proof. intros s _. by exists a, s. Qed.
Lemma returns_bind {A B} (m : M (option A)) (f : option A -> M (option B)) :
  returns m -> (forall a, returns (f (Some a))) -> returns (m ≫= f).
Proof.
  intros Hm Hf s Hs. unfold mbind, st_bind. destruct (Hm s Hs) as (a & s1 & -> & Hl & Ht).
  destruct (Hf a s1) as (b & s2 & -> & Hl2 & Ht2); [unfold available in *; by rewrite Hl, Ht|]. exists b, s2. by rewrite Hl2, Ht2.
Qed.
(** Taking the lock, a body that returns, giving it back. *)
Lemma returns_locked {A} (m : M (option A)) : returns m -> returns (locked m).
Proof.
  intros Hm s Hs. unfold locked. munfold. unfold id.
  assert (Hl : exists L, vfs_lock_try (current_task s) (lck s) = Some L /\ 0 < s_depth L /\
    s_owner L = current_task s /\ vfs_unlock L = lck s).
  { unfold vfs_lock_try. destruct Hs as [->|[Hd Ho]].
    - eexists. cbn. split_and!; [reflexivity|cbn; lia|done|done].
    - rewrite Ho, Z.eqb_refl, (proj2 (Z.ltb_lt _ _)) by lia. cbn. eexists. split_and!; [done|cbn; lia|done|].
      unfold vfs_unlock. cbn. rewrite Z.add_simpl_r. destruct (Z.eqb_spec (s_depth (lck s)) 0); [lia|].
      rewrite <- Ho. by destruct (lck s). }
  destruct Hl as (L & -> & Hd & Ho & Hun). cbn.
  destruct (Hm (set_lck L s)) as (a & s1 & -> & Hl1 & Ht1); [right; by split|].
  cbn in *. eexists a, _. split_and!; [done| |done]. cbn. by rewrite Hl1.
Qed.
Lemma returns_map {A B} (m : M (option A)) (g : A -> B) : returns m -> returns (map_done m g).
Proof. intros Hm. apply returns_bind; [done|]. intros a. apply returns_ret. Qed.
End live.

Ltac calm_step :=
  repeat (intros; match goal with
  | |- calm (mbind _ _) => apply calm_bind
  | |- calm (when _ _) => apply calm_when
  | |- calm (ffor _ _ _) => apply calm_ffor
  | |- calm (modify _) => apply calm_modify; done
  | |- calm (match ?x with _ => _ end) => destruct x
  | |- calm _ => solve [eauto with calm nocore | apply calm_keeps; eauto with keeps nocore]
  | |- calm _ => apply calm_keeps; solve [keep]
  end).
(** A body of reads and writes of the state that ends in [ret]. *)
Ltac live_step :=
  repeat (intros; match goal with
  | |- returns (locked _) => apply returns_locked
  | |- returns (ret _) => apply returns_ret
  | |- returns (mret (Some _)) => apply (returns_ret (A:=_))
  | |- returns (map_done _ _) => apply returns_map
  | |- returns (mbind (locked _) _) => apply returns_bind
  | |- returns (match ?x with _ => _ end) => destruct x
  | |- returns (mbind _ _) => first [apply returns_bind; [solve [eauto with calm nocore]|] | apply returns_calm; [solve [calm_step]|]]
  | |- returns _ => solve [eauto with calm nocore]
  end).

Section calls.
Context {D K : Type} `{BlockDev D} `{Kernel K}.
Implicit Types s : vstate D K.
#[local] Abbreviation cm := (calm (D:=D) (K:=K)).

Lemma calm_in_ctx {A} mi (m : st (vstate D K) A) : cm m -> cm (in_ctx mi m).
Proof. intros. unfold in_ctx. calm_step. Qed.
Lemma calm_change_cwd p : cm (change_cwd p).
Proof. by apply calm_modify. Qed.
Lemma calm_set_mount i m : cm (set_mount i m).
Proof. by apply calm_modify. Qed.
Lemma calm_upd_file fd g : cm (upd_file fd g).
Proof. by apply calm_modify. Qed.
Hint Resolve calm_change_cwd calm_set_mount calm_upd_file : calm.
Lemma calm_set_cwd_default : cm set_cwd_default.
Proof. unfold set_cwd_default. calm_step. apply calm_in_ctx. calm_step. Qed.
Lemma calm_open_node mi rel flags tag : cm (in_ctx mi (open_node mi rel flags tag)).
Proof. apply calm_in_ctx, calm_keeps. unfold open_node. keep. Qed.
Hint Resolve calm_set_cwd_default calm_open_node : calm.
Lemma calm_open_locked path flags tag : cm (open_locked path flags tag).
Proof. unfold open_locked. calm_step. Qed.
Lemma calm_mount_dirs t : cm (mount_dirs t).
Proof. unfold mount_dirs. calm_step. Qed.
Lemma calm_mount_backend slot drive fs part : cm (mount_backend slot drive fs part).
Proof. unfold mount_backend. calm_step. Qed.
Lemma calm_finish_mount slot r b : cm (finish_mount slot r b).
Proof. unfold finish_mount. calm_step. Qed.
Hint Resolve calm_open_locked calm_mount_dirs calm_mount_backend calm_finish_mount : calm.
Lemma calm_do_mount drive t boot : cm (do_mount drive t boot).
Proof. unfold do_mount. calm_step. Qed.
Lemma calm_cwd_fix mp : cm (cwd_fix_after_unmount mp).
Proof. unfold cwd_fix_after_unmount. calm_step. Qed.
Hint Resolve calm_do_mount calm_cwd_fix : calm.
Lemma calm_finish_umount m : cm (finish_umount m).
Proof. unfold finish_umount. calm_step. Qed.
Hint Resolve calm_finish_umount : calm.
Lemma calm_do_umount what : cm (do_umount what).
Proof. unfold do_umount. calm_step. Qed.
Lemma calm_do_format drive fs : cm (do_format drive fs).
Proof. unfold do_format. calm_step. Qed.
Lemma calm_restore h k : cm (restore_entry h k).
Proof. unfold restore_entry. calm_step. Qed.
Hint Resolve calm_do_umount calm_do_format calm_restore : calm.
Lemma calm_floop_probe n i : cm (floop n i root_probe).
Proof. apply calm_keeps, keeps_floop. intros. unfold root_probe. keep. Qed.
Hint Resolve calm_floop_probe : calm.
Lemma calm_init_body : cm init_body.
Proof. unfold init_body. calm_step. Qed.
Lemma calm_shutdown_slot i : cm (shutdown_slot i).
Proof. unfold shutdown_slot. calm_step. Qed.
Lemma calm_advance fd r : cm (advance fd r).
Proof. unfold advance. calm_step. Qed.
Lemma calm_in_ctx_write mi fd pos data count : forall s0 : vstate D K,
  cm (in_ctx mi (if m_fs (mount_at s0 mi) =? VFS_FS_COSFS then cos_write_at fd pos data count else fat_write_at fd pos data count)).
Proof. intros. apply calm_in_ctx. calm_step. Qed.
Hint Resolve calm_init_body calm_shutdown_slot calm_advance calm_in_ctx_write calm_in_ctx : calm.

Lemma returns_on_path {A} path fail (body : list Z -> Z -> list Z -> st (vstate D K) A) :
  (forall abs mi rel, calm (body abs mi rel)) -> returns (on_path path fail body).
Proof. intros Hb. unfold on_path. live_step. Qed.

(** The interface of the file layer. *)
Inductive vfs_call : forall {A : Type}, st (vstate D K) (option A) -> Prop :=
  | call_init : vfs_call vfs_init
  | call_sync : vfs_call vfs_sync
  | call_shutdown : vfs_call vfs_shutdown
  | call_detect drive : vfs_call (vfs_detect drive)
  | call_mount drive target : vfs_call (vfs_mount drive target)
  | call_umount what : vfs_call (vfs_umount what)
  | call_format drive fsname : vfs_call (vfs_format drive fsname)
  | call_mount_count : vfs_call vfs_mount_count
  | call_mount_get i : vfs_call (vfs_mount_get i)
  | call_chdir path : vfs_call (vfs_chdir path)
  | call_stat path : vfs_call (vfs_stat path)
  | call_readdir path max : vfs_call (vfs_readdir path max)
  | call_mkdir path : vfs_call (vfs_mkdir path)
  | call_remove path : vfs_call (vfs_remove path)
  | call_open path flags : vfs_call (vfs_open path flags)
  | call_open_tcc path flags : vfs_call (vfs_open_tcc path flags)
  | call_close fd : vfs_call (vfs_close fd)
  | call_read fd buf count : vfs_call (vfs_read fd buf count)
  | call_pread fd off buf count : vfs_call (vfs_pread fd off buf count)
  | call_write fd buf count : vfs_call (vfs_write fd buf count)
  | call_lseek fd offset whence : vfs_call (vfs_lseek fd offset whence)
  | call_fsize fd : vfs_call (vfs_fsize fd)
  | call_write_file path data len tag app : vfs_call (vfs_write_file path data len tag app)
  | call_find_by_tag tag max : vfs_call (vfs_find_by_tag tag max)
  | call_unlink path : vfs_call (unlink path).

Lemma returns_write fd buf count : returns (D:=D) (K:=K) (vfs_write fd buf count).
Proof. unfold vfs_write. live_step. Qed.
Lemma returns_close fd : returns (D:=D) (K:=K) (vfs_close fd).
Proof. unfold vfs_close. live_step. Qed.
Lemma returns_sync : returns (D:=D) (K:=K) vfs_sync.
Proof. unfold vfs_sync. live_step. Qed.
Lemma returns_stat path : returns (D:=D) (K:=K) (vfs_stat path).
Proof. apply returns_on_path. calm_step. Qed.
Lemma returns_remove path : returns (D:=D) (K:=K) (vfs_remove path).
Proof. unfold vfs_remove. live_step. Qed.
Hint Resolve returns_write returns_close returns_sync returns_stat returns_remove : calm.

Lemma call_returns A (m : st (vstate D K) (option A)) : vfs_call m -> returns m.
Proof.
  intros Hc. destruct Hc.
  - unfold vfs_init. live_step.
  - apply returns_sync.
  - unfold vfs_shutdown. live_step.
  - unfold vfs_detect. live_step.
  - unfold vfs_mount. live_step.
  - unfold vfs_umount. live_step.
  - unfold vfs_format. live_step.
  - unfold vfs_mount_count. live_step.
  - unfold vfs_mount_get. live_step.
  - apply returns_on_path. calm_step.
  - apply returns_stat.
  - apply returns_on_path. calm_step.
  - apply returns_on_path. calm_step.
  - apply returns_remove.
  - unfold vfs_open. live_step.
  - unfold vfs_open_tcc. live_step.
  - apply returns_close.
  - unfold vfs_read. live_step.
  - unfold vfs_pread. live_step.
  - apply returns_write.
  - unfold vfs_lseek. live_step.
  - unfold vfs_fsize. live_step.
  - unfold vfs_write_file. live_step. apply returns_bind; [destruct (0 <? len)|]; live_step.
  - unfold vfs_find_by_tag. live_step.
  - unfold unlink. live_step.
Qed.

(** C35 - No call of the file layer waits for its own lock, and every path by
    which a call ends gives the lock back: started with the lock free or with
    the calling task in it, it has a result, not a wait, and ends with the lock
    as it found it. This covers the calls that call others ([vfs_write_file]
    opens, writes and closes, [vfs_shutdown] syncs, [unlink] looks before it
    removes). *)
Theorem vfs_calls_balance_lock A (m : st (vstate D K) (option A)) s a s' : vfs_call m -> available s -> m s = (a, s') ->
  is_Some a /\ lck s' = lck s /\ current_task s' = current_task s.
Proof.
  intros Hc Hs E. assert (Hr : returns m) by (by apply call_returns). destruct (Hr s Hs) as (r & s1 & E1 & Hl & Ht).
  rewrite E in E1. injection E1 as -> ->. split; [by eexists|by split].
Qed.
End calls.

Import VfsDemo Drives.
(** Writing a file through [vfs_write_file]: the nested calls included. *)
Lemma vfs_calls_balance_lock_witness : available mounted /\ lck (vfs_write_file name_a [1; 2; 3] 3 None false mounted).2 = lck mounted.
Proof.
  assert (Ha : available mounted) by (left; vm_compute; reflexivity).
  split; [exact Ha|].
  exact (proj1 (proj2 (vfs_calls_balance_lock Z (vfs_write_file name_a [1; 2; 3] 3 None false) mounted _ _ (call_write_file _ _ _ _ _) Ha (surjective_pairing _)))).
Defined.

End VfsLive.
