(* ===== verification/VfsMountProps.v ===== *)
(** Properties of the mount table's searches and of the header on disk. *)
From S2P Require Import Prelude CString Disk CosData CosAlloc CosFormat FatData FatDir FatFile VfsPath VfsPathProps VfsData VfsBackend VfsMount Vfs VfsTables VfsDemo.
From stdpp Require Import base list gmap numbers.
From Stdlib Require Import ZArith Lia Sorting.Sorted.
Import CString VfsPath VfsPathProps VfsData VfsBackend VfsMount Vfs VfsTables Drives.
Open Scope Z_scope.

Module VfsMountProps.

(** ** Containment of paths, by components *)

(** Components with the letters' case removed. *)
Definition folded (l : list (list Z)) : list (list Z) := map (map lc) l.
Definition at_end (p : list Z) : bool := (hd0 p =? 0) || (hd0 p =? sl).

Lemma lc_slash x : lc x = lc sl -> x = sl.
Proof. unfold lc, sl. destruct ((65 <=? x) && (x <=? 90)) eqn:E; cbn; lia. Qed.

Lemma comp_match c d X Y : no_slash c -> no_slash d -> no_nul d ->
  (X = [] \/ exists q, X = sl :: q) -> (Y = [] \/ exists q, Y = sl :: q) ->
  (ci_prefix (d ++ X) (c ++ Y) = true /\ at_end (drop (length (c ++ Y)) (d ++ X)) = true <->
   map lc c = map lc d /\ ci_prefix X Y = true /\ at_end (drop (length Y) X) = true).
Proof.
  intros Hc. revert d. induction Hc as [|x c Hx Hc IH]; intros [|y d] Hd Hn HX HY; cbn [app map].
  - tauto.
  - apply list.Forall_cons in Hd as [Hy _]. apply list.Forall_cons in Hn as [Hy0 _].
    split; [|by intros [? _]]. intros [Hp He]. exfalso. destruct HY as [->|[q ->]]; cbn -[lc sl] in *.
    + unfold at_end in He. cbn -[sl] in He. apply orb_true_iff in He as [?%Z.eqb_eq|?%Z.eqb_eq]; done.
    + apply Z.eqb_neq in Hy0. rewrite Hy0 in Hp. destruct (Z.eqb_spec (lc y) (lc sl)) as [E|]; [by apply lc_slash in E|done].
  - split; [|by intros [? _]]. intros [Hp _]. exfalso. destruct HX as [->|[q ->]]; cbn -[lc sl] in Hp; [done|]. change (sl =? 0) with false in Hp. cbn -[lc sl] in Hp.
    destruct (Z.eqb_spec (lc sl) (lc x)) as [E|]; [|done]. symmetry in E. by apply lc_slash in E.
  - apply list.Forall_cons in Hd as [Hy Hd]. apply list.Forall_cons in Hn as [Hy0 Hn].
    cbn [ci_prefix tail length drop]. change (hd0 (y :: d ++ X)) with y. apply Z.eqb_neq in Hy0. rewrite Hy0.
    destruct (Z.eqb_spec (lc y) (lc x)) as [E|E].
    + rewrite IH, E by done. split; intros (H1 & H2 & H3); split_and!; try done; congruence.
    + split; [by intros [? _]|]. intros [[=] _]. by destruct E.
Qed.
Lemma slashed_shape l : slashed l = [] \/ exists q, slashed l = sl :: q.
Proof. destruct l; [by left|right]. by eexists. Qed.
Lemma within_slashed l b : Forall plain l -> Forall no_nul l -> Forall plain b ->
  (ci_prefix (slashed l) (slashed b) = true /\ at_end (drop (length (slashed b)) (slashed l)) = true <->
   folded b `prefix_of` folded l).
Proof.
  intros Hl Hn Hb. revert l Hl Hn. induction Hb as [|c b (Hc & Hcs & _) Hb IH]; intros l Hl Hn.
  - split; [intros _; apply prefix_nil|]. intros _. split; [done|]. change (at_end (slashed l) = true).
    by destruct (slashed_shape l) as [->|[q ->]].
  - destruct Hl as [|d l (Hd & Hds & _) Hl].
    + split; [by intros [? _]|]. intros Hp. by apply prefix_nil_not in Hp.
    + apply list.Forall_cons in Hn as [Hnd Hn].
      change (slashed (c :: b)) with (sl :: (c ++ slashed b)). change (slashed (d :: l)) with (sl :: (d ++ slashed l)).
      cbn [ci_prefix tail length drop]. change (hd0 (sl :: d ++ slashed l)) with sl. change (sl =? 0) with false. rewrite Z.eqb_refl.
      rewrite comp_match by (done || apply slashed_shape). rewrite IH by done. cbn [folded map].
      split; [intros [-> Hp]; by apply prefix_cons|]. intros Hp. split; [by apply prefix_cons_inv_1 in Hp|by apply prefix_cons_inv_2 in Hp].
Qed.
(** [path_within] on normalised paths. *)
Lemma path_within_spec l b : Forall plain l -> Forall no_nul l -> Forall plain b ->
  path_within (render l) (render b) = true <-> folded b `prefix_of` folded l.
Proof.
  intros Hl Hn Hb. destruct b as [|c b].
  { split; [intros _; apply prefix_nil|done]. }
  assert (Hlen : (length (render (c :: b)) =? 1)%nat = false).
  { apply Nat.eqb_neq. cbn. inversion_clear Hb as [|? ? [Hc _] _]. destruct c; [done|]. cbn. lia. }
  unfold path_within. rewrite Hlen. change (render (c :: b)) with (slashed (c :: b)).
  fold (at_end (drop (length (slashed (c :: b))) (render l))).
  destruct l as [|d l].
  - split; [|intros Hp; by apply prefix_nil_not in Hp].
    change (slashed (c :: b)) with (sl :: (c ++ slashed b)). cbn [ci_prefix render root_path]. change (hd0 [sl]) with sl.
    change (sl =? 0) with false. rewrite Z.eqb_refl. inversion_clear Hb as [|? ? [Hc _] _]. by destruct c.
  - change (render (d :: l)) with (slashed (d :: l)). rewrite <- within_slashed by done.
    destruct (ci_prefix _ _); cbn [negb]; [tauto|]. split; [done|by intros [? _]].
Qed.

(** What follows a prefix. *)
Lemma length_folded (x y : list Z) : map lc x = map lc y -> length x = length y.
Proof. intros E. apply (f_equal length) in E. by rewrite !length_map in E. Qed.
Lemma drop_slashed l b : folded b `prefix_of` folded l -> drop (length (slashed b)) (slashed l) = slashed (drop (length b) l).
Proof.
  revert l. induction b as [|c b IH]; intros l Hp; [done|].
  destruct l as [|d l]; [by apply prefix_nil_not in Hp|]. cbn [folded map] in Hp.
  pose proof (prefix_cons_inv_1 _ _ _ _ Hp) as E. apply prefix_cons_inv_2 in Hp.
  change (slashed (c :: b)) with (sl :: (c ++ slashed b)). change (slashed (d :: l)) with (sl :: (d ++ slashed l)).
  cbn [length drop]. rewrite length_app, (length_folded c d) by done. rewrite <- drop_drop, drop_app_length. by apply IH.
Qed.
Lemma drop_render l b : b <> [] -> folded b `prefix_of` folded l ->
  drop (Z.to_nat (zlen (render b))) (render l) = slashed (drop (length b) l).
Proof.
  intros Hb Hp. unfold zlen. rewrite Nat2Z.id. destruct b as [|c b]; [done|]. destruct l as [|d l]; [by apply prefix_nil_not in Hp|].
  by apply (drop_slashed (d :: l) (c :: b)).
Qed.

(** ** The mount a path belongs to *)

(** Whether mount [m] contains [abs], and how long its mount point is. *)
Definition covers (abs : list Z) (m : mount) : bool := m_used m && path_within abs (m_mountpoint m).
Definition mlen (m : mount) : Z := if m_is_root m then 1 else zlen (m_mountpoint m).

Lemma find_mount_loop_spec ms i abs best bl :
  let '(r, n) := find_mount_loop ms i abs best bl in
  bl <= n /\ (forall m, m ∈ ms -> covers abs m = true -> mlen m <= n) /\
  ((r = best /\ n = bl) \/ exists k m, r = Some (i + Z.of_nat k) /\ ms !! k = Some m /\ covers abs m = true /\ n = mlen m /\ bl < n).
Proof.
  revert i best bl. induction ms as [|m ms IH]; intros i best bl; cbn [find_mount_loop].
  { split_and!; [lia|by intros m Hm%not_elem_of_nil|by left]. }
  fold (mlen m). assert (Hskip : covers abs m = false \/ mlen m <= bl ->
    let '(r, n) := find_mount_loop ms (i + 1) abs best bl in
    bl <= n /\ (forall x, x ∈ m :: ms -> covers abs x = true -> mlen x <= n) /\
    ((r = best /\ n = bl) \/ exists k x, r = Some (i + Z.of_nat k) /\ (m :: ms) !! k = Some x /\ covers abs x = true /\ n = mlen x /\ bl < n)).
  { intros Hs. specialize (IH (i + 1) best bl). destruct (find_mount_loop ms (i + 1) abs best bl) as [r n].
    destruct IH as (Hb & Hall & Hr). split_and!; [done| |].
    - intros x [->|Hx]%elem_of_cons Hc; [|by apply Hall]. destruct Hs as [Hs|Hs]; [congruence|lia].
    - destruct Hr as [?|(k & x & -> & Hx)]; [by left|]. right. exists (S k), x. split; [f_equal; lia|done]. }
  unfold covers at 1 in Hskip. destruct (m_used m) eqn:Hu; cbn [negb andb] in *; [|by apply Hskip; left].
  destruct (path_within abs (m_mountpoint m)) eqn:Hw; cbn [negb] in *; [|by apply Hskip; left].
  destruct (Z.ltb_spec bl (mlen m)) as [Hlt|Hge]; [|apply Hskip; right; lia].
  specialize (IH (i + 1) (Some i) (mlen m)). destruct (find_mount_loop ms (i + 1) abs (Some i) (mlen m)) as [r n].
  assert (Hc : covers abs m = true) by (unfold covers; by rewrite Hu, Hw).
  destruct IH as (Hb & Hall & Hr). split_and!; [lia| |].
  - intros x [->|Hx]%elem_of_cons Hcx; [lia|by apply Hall].
  - right. destruct Hr as [[-> ->]|(k & x & -> & Hx & Hcx & -> & Hlt')].
    + exists 0%nat, m. rewrite Z.add_0_r. by split_and!.
    + exists (S k), x. split_and!; [f_equal; lia|done|done|done|lia].
Qed.

(** C20 - A path is served by the mounted file system whose mount point lies
    deepest above it: of the mounts whose components are, case aside, a prefix
    of the path's components it is the one with the longest mount point; the
    path handed to that file system is what follows the mount point (the whole
    path for the root, "/" at the mount point itself). No mount is found only
    when none contains the path. *)
Theorem find_mount_deepest ms l : Forall plain l -> Forall no_nul l ->
  (forall m, m ∈ ms -> m_used m = true -> exists b, Forall plain b /\ m_mountpoint m = render b /\ (m_is_root m = true <-> b = [])) ->
  match find_mount ms (render l) with
  | Some (i, rel) => exists m b, ms !! Z.to_nat i = Some m /\ m_used m = true /\ Forall plain b /\
      m_mountpoint m = render b /\ folded b `prefix_of` folded l /\
      (forall m', m' ∈ ms -> m_used m' = true -> forall b', Forall plain b' -> m_mountpoint m' = render b' ->
         folded b' `prefix_of` folded l -> zlen (render b') <= zlen (render b)) /\
      rel = render (drop (length b) l)
  | None => forall m, m ∈ ms -> m_used m = true -> forall b, Forall plain b -> m_mountpoint m = render b -> ~ folded b `prefix_of` folded l
  end.
Proof.
  intros Hl Hn Hms. unfold find_mount. pose proof (find_mount_loop_spec ms 0 (render l) None 0) as Hs.
  destruct (find_mount_loop ms 0 (render l) None 0) as [r n]. destruct Hs as (Hn0 & Hall & Hr).
  assert (Hcov : forall m b, m_used m = true -> Forall plain b -> m_mountpoint m = render b ->
            folded b `prefix_of` folded l -> covers (render l) m = true).
  { intros m b Hu Hb Hm Hp. unfold covers. rewrite Hu, Hm. by apply path_within_spec. }
  assert (Hlen : forall m b, m ∈ ms -> m_used m = true -> m_mountpoint m = render b -> mlen m = zlen (render b)).
  { intros m b Hm Hu Hb. unfold mlen. destruct (m_is_root m) eqn:Er; [|by rewrite Hb].
    destruct (Hms m Hm Hu) as (b' & _ & Hb' & Hroot). rewrite <- Hb, Hb', (proj1 Hroot Er). done. }
  destruct Hr as [[-> ->]|(k & m & -> & Hk & Hc & -> & Hlt)].
  - intros m Hm Hu b Hb Hmb Hp. pose proof (Hall m Hm (Hcov m b Hu Hb Hmb Hp)) as Hle.
    rewrite (Hlen m b) in Hle by done. pose proof (render_len b). lia.
  - pose proof (list_elem_of_lookup_2 _ _ _ Hk) as Hin. unfold covers in Hc. apply andb_true_iff in Hc as [Hu Hw].
    destruct (Hms m Hin Hu) as (b & Hb & Hmb & Hroot). exists m, b.
    rewrite Hmb in Hw. apply path_within_spec in Hw; [|done..].
    rewrite Z.add_0_l, Nat2Z.id. split_and!; try done.
    + intros m' Hm' Hu' b' Hb' Hmb' Hp'. rewrite <- (Hlen m b), <- (Hlen m' b') by done. apply Hall; [done|by eapply Hcov].
    + unfold aget. rewrite Nat2Z.id, (list_lookup_total_correct _ _ _ Hk).
      destruct (m_is_root m) eqn:Er.
      * rewrite (proj1 Hroot eq_refl), drop_0. by destruct (render_head l) as [q ->].
      * rewrite (Hlen m b), (drop_render l b) by (done || intros E; apply Hroot in E; done).
        by destruct (drop (length b) l).
Qed.

(** ** The header on disk *)

(** The entries of the header are well formed: the widths of the fields, a
    path that fits its 48 bytes. *)
Record hm_wf (m : hdr_mount) : Prop := {
  hw_base : 0 <= hm_ata_base m < 2 ^ 16;
  hw_slave : is_u8 (hm_is_slave m);
  hw_used : is_u8 (hm_used m);
  hw_path : no_nul (hm_path m) /\ is_bytes (hm_path m) /\ zlen (hm_path m) < VFS_MOUNT_PATH_MAX;
}.

Lemma zlen_padz n p : 0 <= n -> zlen p <= n -> zlen (padz n p) = n.
Proof. intros. unfold padz. rewrite zlen_splice; rewrite ?zlen_replicate; lia. Qed.
Lemma padz_app n p : zlen p <= n -> padz n p = p ++ replicate (Z.to_nat (n - zlen p)) 0.
Proof.
  intros. unfold padz, splice. cbn. rewrite take_0. cbn. f_equal. unfold zlen in *.
  rewrite drop_replicate. f_equal. lia.
Qed.
Lemma padz_bytes n p : is_bytes p -> is_bytes (padz n p).
Proof. intros. apply Forall_splice; [|done]. apply Forall_replicate. unfold is_u8. lia. Qed.
Lemma zlen_hm_encode m : hm_wf m -> zlen (hm_encode m) = 52.
Proof.
  intros [_ _ _ (_ & _ & Hl)]. unfold hm_encode. rewrite !zlen_app, !zlen_le_put, zlen_padz; unfold VFS_MOUNT_PATH_MAX in *; lia.
Qed.
Lemma cstr_pad p n : no_nul p -> cstr (p ++ replicate n 0) = p.
Proof.
  induction 1 as [|c p Hc Hp IH]; cbn; [by destruct n|]. apply Z.eqb_neq in Hc. by rewrite Hc, IH.
Qed.
Lemma hm_decode_encode m : hm_wf m -> hm_decode (hm_encode m) = m.
Proof.
  intros [Hb Hs Hu (Hn & _ & Hl)]. unfold hm_decode, hm_encode, get_le. unfold is_u8, VFS_MOUNT_PATH_MAX in *.
  destruct m as [ab sv us pt]. cbn [hm_ata_base hm_is_slave hm_used hm_path] in *.
  assert (Hpl : zlen (padz 48 pt) = 48) by (apply zlen_padz; lia).
  f_equal.
  - rewrite Cos.slice_app_here by by rewrite zlen_le_put. rewrite le_get_put. by apply Z.mod_small.
  - rewrite Cos.slice_app_r, zlen_le_put by (rewrite zlen_le_put; lia). cbn [Z.of_nat Pos.of_succ_nat Pos.succ Z.sub Z.add Z.opp Z.pos_sub].
    rewrite Cos.slice_app_here by by rewrite zlen_le_put. rewrite le_get_put. by apply Z.mod_small.
  - rewrite !Cos.slice_app_r, !zlen_le_put by (rewrite !zlen_le_put; lia).
    rewrite Cos.slice_app_here by by rewrite zlen_le_put. rewrite le_get_put. by apply Z.mod_small.
  - rewrite !Cos.slice_app_r by (rewrite !zlen_le_put; lia). rewrite !zlen_le_put.
    replace (4 - Z.of_nat 2 - Z.of_nat 1 - Z.of_nat 1) with 0 by lia.
    rewrite <- Hpl at 2. rewrite slice_all, padz_app by lia. rewrite take_app_ge by (unfold zlen in Hl; lia).
    rewrite take_replicate. by apply cstr_pad.
Qed.

(** The [k]-th of a row of pieces of [w] bytes. *)
Lemma slice_pieces (ps : list (list Z)) w r (k : nat) p : Forall (fun p => zlen p = w) ps -> 0 <= w -> ps !! k = Some p ->
  slice (concat ps ++ r) (w * Z.of_nat k) w = p.
Proof.
  intros Hps Hw. revert k. induction Hps as [|q ps Hq Hps IH]; intros k Hk; [done|]. cbn [concat]. rewrite <- app_assoc.
  destruct k as [|k].
  - injection Hk as ->. rewrite Z.mul_0_r. by apply Cos.slice_app_here.
  - rewrite Cos.slice_app_r by lia. replace (w * Z.of_nat (S k) - zlen q) with (w * Z.of_nat k) by lia. by apply IH.
Qed.
Definition hdr_wf (h : hdr) : Prop :=
  0 <= h_magic h < 2 ^ 32 /\ is_u8 (h_is_root h) /\ h_count h = zlen (h_mounts h) /\ zlen (h_mounts h) <= 6 /\ Forall hm_wf (h_mounts h).
Lemma zlen_concat_encode l : Forall hm_wf l -> zlen (concat (map hm_encode l)) = 52 * zlen l.
Proof.
  induction 1 as [|m l Hm Hl IH]; [done|]. cbn [map concat]. rewrite zlen_app, IH, zlen_hm_encode by done.
  unfold zlen. cbn [length]. lia.
Qed.
Lemma zlen_hdr_encode h : hdr_wf h -> zlen (hdr_encode h) = HDR_SIZE.
Proof.
  intros (_ & _ & _ & Hn & Hw). unfold hdr_encode. apply zlen_padz; [done|].
  rewrite !zlen_app, !zlen_le_put, zlen_concat_encode by done. unfold HDR_SIZE. lia.
Qed.
Lemma hdr_encode_bytes h : hdr_wf h -> is_bytes (hdr_encode h).
Proof.
  intros (_ & _ & _ & _ & Hw). apply padz_bytes. rewrite !Cos.is_bytes_app.
  split_and!; auto using le_put_bytes. induction Hw as [|m l Hm Hl IH]; [constructor|]. cbn. apply Cos.is_bytes_app.
  split; [|done]. unfold hm_encode. rewrite !Cos.is_bytes_app. split_and!; auto using le_put_bytes. apply padz_bytes, Hm.
Qed.
(** What [vfs_init] reads back of a header. *)
Lemma hdr_decode_encode h : hdr_wf h -> h_magic (hdr_decode (hdr_encode h)) = h_magic h /\
  h_is_root (hdr_decode (hdr_encode h)) = h_is_root h /\ h_count (hdr_decode (hdr_encode h)) = h_count h /\
  forall k m, h_mounts h !! k = Some m -> h_mounts (hdr_decode (hdr_encode h)) !! k = Some m.
Proof.
  intros (Hm & Hr & Hc & Hn & Hw). unfold hdr_encode. unfold is_u8 in Hr. rewrite padz_app.
  2:{ rewrite !zlen_app, !zlen_le_put, zlen_concat_encode by done. unfold HDR_SIZE. lia. }
  set (z := replicate _ 0). cbn [hdr_decode h_magic h_is_root h_count h_mounts]. unfold get_le. rewrite <- !app_assoc.
  split_and!.
  - rewrite Cos.slice_app_here by by rewrite zlen_le_put. rewrite le_get_put. by apply Z.mod_small.
  - rewrite Cos.slice_app_r by (rewrite zlen_le_put; lia). rewrite zlen_le_put.
    rewrite Cos.slice_app_here by by rewrite zlen_le_put. rewrite le_get_put. by apply Z.mod_small.
  - rewrite !Cos.slice_app_r by (rewrite !zlen_le_put; lia). rewrite !zlen_le_put.
    rewrite Cos.slice_app_here by by rewrite zlen_le_put. rewrite le_get_put. apply Z.mod_small. rewrite Hc. pose proof (zlen_nonneg (h_mounts h)). lia.
  - intros k m Hk. pose proof (lookup_lt_Some _ _ _ Hk) as Hlt. unfold hdr_entries. rewrite list_lookup_fmap, lookup_seqZ_lt by (unfold zlen in Hn; lia).
    cbn [fmap option_fmap option_map]. f_equal. rewrite !Cos.slice_app_r by (rewrite !zlen_le_put; lia). rewrite !zlen_le_put.
    replace (8 + 52 * (0 + Z.of_nat k) - Z.of_nat 4 - Z.of_nat 1 - Z.of_nat 1 - Z.of_nat 2) with (52 * Z.of_nat k) by lia.
    rewrite (slice_pieces _ 52 _ k (hm_encode m)).
    + apply hm_decode_encode. by eapply Forall_lookup_1.
    + apply Forall_fmap. eapply Forall_impl; [|exact Hw]. intros x Hx. by apply zlen_hm_encode.
    + lia.
    + by rewrite list_lookup_fmap, Hk.
Qed.

(** ** The order of the entries *)

Definition older (a b : mount) : Prop := m_seq a <= m_seq b.
Lemma exchange_spec cur rest : let '(c, r) := exchange cur rest in
  c :: r ≡ₚ cur :: rest /\ Forall (older c) (cur :: rest).
Proof.
  unfold older. revert cur. induction rest as [|y rest IH]; intros cur; cbn [exchange].
  { split; [done|]. apply list.Forall_singleton. lia. }
  destruct (Z.ltb_spec (m_seq y) (m_seq cur)) as [Hlt|Hge].
  - specialize (IH y). destruct (exchange y rest) as [c r]. destruct IH as [Hp Hf]. split.
    + etransitivity; [apply Permutation_swap|]. by rewrite Hp.
    + apply list.Forall_cons in Hf as [Hy Hf]. apply list.Forall_cons. split; [lia|]. by constructor.
  - specialize (IH cur). destruct (exchange cur rest) as [c r]. destruct IH as [Hp Hf]. split.
    + etransitivity; [apply Permutation_swap|]. rewrite Hp. apply Permutation_swap.
    + apply list.Forall_cons in Hf as [Hc Hf]. apply list.Forall_cons. split; [done|]. constructor; [lia|done].
Qed.
Lemma seq_sort_spec n l : (length l <= n)%nat -> seq_sort n l ≡ₚ l /\ StronglySorted older (seq_sort n l).
Proof.
  revert l. induction n as [|n IH]; intros [|x l] Hl; cbn [seq_sort length] in *; [split; [done|apply SSorted_nil]|lia|split; [done|apply SSorted_nil]|].
  pose proof (exchange_spec x l) as Hx. destruct (exchange x l) as [c r]. destruct Hx as [Hp Hf].
  assert (Hlr : length r = length l) by (apply Permutation_length in Hp; cbn in Hp; lia).
  destruct (IH r ltac:(lia)) as [Hp' Hs]. split; [by rewrite Hp'|]. constructor; [done|].
  rewrite Hp'. rewrite <- Hp in Hf. by apply list.Forall_cons in Hf as [_ Hf].
Qed.

Section persist.
Context {D K : Type} `{BlockDev D, !BlockDevLaws D} `{Kernel K}.
Implicit Types s : vstate D K.

(** The drives and the mounts hold what their types say. *)
Definition drives_wf s : Prop := Forall (fun d => 0 <= Cos.ata_base d < 2 ^ 16 /\ is_u8 (Cos.is_slave d)) (Cos.g_drives (cos s)).
Definition mounts_wf s : Prop := Forall (fun m => no_nul (m_mountpoint m) /\ is_bytes (m_mountpoint m)) (s_mounts s).

Lemma g_drive_wf s d : drives_wf s -> 0 <= Cos.ata_base (g_drive s d) < 2 ^ 16 /\ is_u8 (Cos.is_slave (g_drive s d)).
Proof.
  intros Hd. unfold g_drive. destruct (Cos.g_drives (cos s) !! Z.to_nat d) as [x|] eqn:E; cbn; [|unfold is_u8; lia].
  by apply (Forall_lookup_1 _ _ _ _ Hd E).
Qed.
Lemma persist_list_listed ms m : m ∈ persist_list ms -> m ∈ ms /\ listed m = true.
Proof.
  intros Hm. unfold persist_list in Hm. apply (subseteq_take 6) in Hm. rewrite (proj1 (seq_sort_spec _ _ (Nat.le_refl _))) in Hm.
  apply list_elem_of_filter in Hm as [Hl Hm]. split; [done|by apply Is_true_true].
Qed.
Lemma header_wf s : drives_wf s -> mounts_wf s -> hdr_wf (header_of s).
Proof.
  intros Hd Hm. unfold header_of. split_and!; cbn [h_magic h_is_root h_count h_mounts]; try done.
  - unfold zlen. by rewrite length_map.
  - unfold zlen, persist_list. rewrite length_map, length_take. lia.
  - apply Forall_fmap, list.Forall_forall. intros m [Hin Hl]%persist_list_listed. pose proof (g_drive_wf s (m_drive m) Hd) as [? ?].
    pose proof (proj1 (list.Forall_forall _ _) Hm m Hin) as [? ?].
    unfold listed in Hl. rewrite !andb_true_iff in Hl. destruct Hl as [_ Ht]. unfold target_ok in Ht.
    rewrite !andb_true_iff, !Z.ltb_lt in Ht. destruct Ht as [[_ Ht] _].
    constructor; cbn; [done|done|unfold is_u8; lia|done].
Qed.

Lemma run_in_cos {A} (m : st (Cos.fsstate D) A) s : in_cos (K:=K) m s = ((m (cos s)).1, set_cos (m (cos s)).2 s).
Proof. unfold in_cos. by destruct (m (cos s)). Qed.

(** The device with the drive of a mount selected. *)
Definition on_drive s (drive : Z) : D :=
  select_drive (Cos.ata_base (g_drive s drive)) (Cos.is_slave (g_drive s drive)) (Cos.dev (cos s)).
Lemma hdr_place_run drive fs part s : exists s1, hdr_place drive fs part s = (
    (if fs =? VFS_FS_COSFS then inr (0, HDR_COS_OFFSET)
     else if fs =? VFS_FS_FAT32 then
       if get16 (bread (on_drive s drive) part) 14 <=? HDR_FAT_SECTOR then inl VFS_E_NOHDR else inr (u32 (part + HDR_FAT_SECTOR), 0)
     else inl VFS_E_NOFS), s1) /\ Cos.dev (cos s1) = on_drive s drive /\ Cos.g_drives (cos s1) = Cos.g_drives (cos s).
Proof.
  exists (set_cos (Cos.set_dev (on_drive s drive) (cos s)) s). unfold hdr_place, select_drive_of, block_read. munfold. rewrite !run_in_cos. cbn.
  split_and!; [|reflexivity|reflexivity].
  destruct (fs =? VFS_FS_COSFS); [reflexivity|]. destruct (fs =? VFS_FS_FAT32); [|reflexivity]. by destruct (_ <=? _).
Qed.
Lemma on_drive_frame s s' drive : Cos.dev (cos s') = Cos.dev (cos s) -> Cos.g_drives (cos s') = Cos.g_drives (cos s) ->
  on_drive s' drive = on_drive s drive.
Proof. intros Hd Hg. unfold on_drive, g_drive. by rewrite Hd, Hg. Qed.

(** The header written to a mount's drive is what is read there next. *)
Lemma hdr_write_read drive fs part h s : bok (Cos.dev (cos s)) -> zlen h = HDR_SIZE -> is_bytes h ->
  0 <= part -> (fs = VFS_FS_COSFS -> 0 < bcap (on_drive s drive)) ->
  (fs = VFS_FS_FAT32 -> part + HDR_FAT_SECTOR < bcap (on_drive s drive) /\ part + HDR_FAT_SECTOR < 2 ^ 32) ->
  (hdr_write drive fs part h s).1 = 0 ->
  exists s2, hdr_read drive fs part (hdr_write drive fs part h s).2 = (inr h, s2).
Proof.
  intros Hok Hlen Hb Hpart Hcos Hfat. unfold hdr_write, hdr_read.
  destruct (hdr_place_run drive fs part s) as (s1 & Hp & Hd1 & Hg1). rewrite (bind_run _ _ _ _ _ Hp).
  assert (Hok1 : bok (on_drive s drive)) by (by apply select_ok).
  set (place := if fs =? VFS_FS_COSFS then _ else _) in *. destruct place as [e|[lba off]] eqn:Epl.
  { cbn. intros ->. unfold place in Epl. unfold VFS_E_NOHDR, VFS_E_NOFS in Epl.
    destruct (fs =? VFS_FS_COSFS); [done|]. destruct (fs =? VFS_FS_FAT32); [|done]. by destruct (_ <=? _). }
  intros _. unfold block_read, block_write. munfold. rewrite !run_in_cos. cbn [fst snd].
  set (s2 := set_cos _ _).
  assert (Hrange : 0 <= lba < bcap (on_drive s drive) /\ 0 <= off /\ off + HDR_SIZE <= SECTOR_SIZE /\
    (fs = VFS_FS_FAT32 -> lba <> part)).
  { unfold place, HDR_FAT_SECTOR, HDR_COS_OFFSET, HDR_SIZE, SECTOR_SIZE in *. destruct (Z.eqb_spec fs VFS_FS_COSFS) as [E|].
    - injection Epl as <- <-. specialize (Hcos E). split_and!; try lia. intros E2. rewrite E in E2. done.
    - destruct (Z.eqb_spec fs VFS_FS_FAT32) as [E|]; [|done]. destruct (_ <=? _); [done|]. injection Epl as <- <-.
      specialize (Hfat E). rewrite u32_small by lia. split_and!; lia. }
  destruct Hrange as (Hlba & Hoff & Hfit & Hne). set (sec := bread (Cos.dev (cos s1)) lba) in *.
  assert (Hsec : is_sector (splice sec off h)).
  { pose proof (bread_sector (on_drive s drive) lba Hok1) as [Hl1 Hl2]. unfold sec. rewrite Hd1. split.
    - rewrite zlen_splice; rewrite ?Hl1; lia.
    - by apply Forall_splice. }
  assert (Hd2 : Cos.dev (cos s2) = bwrite lba (splice sec off h) (on_drive s drive)) by (unfold s2, sec; cbn; by rewrite Hd1).
  assert (Hon : on_drive s2 drive = bwrite lba (splice sec off h) (on_drive s drive)).
  { unfold on_drive at 1. rewrite Hd2. replace (g_drive s2 drive) with (g_drive s drive) by (unfold g_drive; cbn; by rewrite Hg1).
    apply select_bwrite. }
  assert (Hread : forall j, bread (on_drive s2 drive) j = if decide (j = lba) then splice sec off h else bread (on_drive s drive) j).
  { intros j. rewrite Hon. by apply bread_bwrite. }
  clearbody s2. destruct (hdr_place_run drive fs part s2) as (s3 & Hp2 & Hd3 & _). unfold mbind in Hp2. rewrite Hp2.
  assert (Hsame : (if fs =? VFS_FS_COSFS then inr (0, HDR_COS_OFFSET)
     else if fs =? VFS_FS_FAT32 then
       if get16 (bread (on_drive s2 drive) part) 14 <=? HDR_FAT_SECTOR
       then inl VFS_E_NOHDR else inr (u32 (part + HDR_FAT_SECTOR), 0)
     else inl VFS_E_NOFS) = (inr (lba, off) : Z + Z * Z)).
  { rewrite <- Epl. unfold place. destruct (fs =? VFS_FS_COSFS); [done|]. destruct (Z.eqb_spec fs VFS_FS_FAT32) as [E|]; [|done].
    rewrite Hread, decide_False; [done|]. intros Ep. by apply (Hne E). }
  rewrite Hsame. eexists. f_equal. f_equal. cbn. rewrite Hd3, Hread, decide_True by done.
  rewrite <- Hlen. apply slice_splice_same; [done|]. pose proof (bread_sector (on_drive s drive) lba Hok1) as [Hl1 _].
  unfold sec. rewrite Hd1, Hl1, Hlen. done.
Qed.


(** C34 - What [persist] stores on the root drive is what the next start-up
    reads there: a header of the current version flagged as root, counting the
    mounts that were listed, its entries naming, in the order in which the
    mounts were made, the drive and the mount point of each. The list holds
    every mount below the root, up to six. *)
Theorem persist_read_back s r : bok (Cos.dev (cos s)) -> drives_wf s -> mounts_wf s -> s_root s = Some r ->
  let m := mount_at s r in
  0 <= m_part_lba m -> (m_fs m = VFS_FS_COSFS -> 0 < bcap (on_drive s (m_drive m))) ->
  (m_fs m = VFS_FS_FAT32 -> m_part_lba m + HDR_FAT_SECTOR < bcap (on_drive s (m_drive m)) /\ m_part_lba m + HDR_FAT_SECTOR < 2 ^ 32) ->
  (persist s).1 = 0 ->
  exists b s2, hdr_read (m_drive m) (m_fs m) (m_part_lba m) (persist s).2 = (inr b, s2) /\
    h_magic (hdr_upgrade b) = HDR_MAGIC /\ h_is_root (hdr_upgrade b) = 1 /\
    exists all, all ≡ₚ filter (fun m => Is_true (listed m)) (s_mounts s) /\ StronglySorted older all /\
      h_count (hdr_upgrade b) = zlen (take 6 all) /\
      forall k x, take 6 all !! k = Some x ->
        h_mounts (hdr_upgrade b) !! k =
        Some (mk_hm (Cos.ata_base (g_drive s (m_drive x))) (Cos.is_slave (g_drive s (m_drive x))) 1 (m_mountpoint x)).
Proof.
  intros Hok Hd Hm Hr m Hpart Hcos Hfat. unfold persist. unfold mbind at 1 2, st_bind at 1 2, gets at 1 2, id. rewrite Hr.
  fold m. pose proof (header_wf s Hd Hm) as Hwf. intros Hrc.
  destruct (hdr_write_read (m_drive m) (m_fs m) (m_part_lba m) (hdr_encode (header_of s)) s) as [s2 Hs2]; try done.
  { by apply zlen_hdr_encode. } { by apply hdr_encode_bytes. }
  exists (hdr_encode (header_of s)), s2. split; [exact Hs2|].
  destruct (hdr_decode_encode (header_of s) Hwf) as (E1 & E2 & E3 & E4).
  assert (Hup : hdr_upgrade (hdr_encode (header_of s)) = hdr_decode (hdr_encode (header_of s))).
  { unfold hdr_upgrade. change (get32 (hdr_encode (header_of s)) 0) with (h_magic (hdr_decode (hdr_encode (header_of s)))).
    by rewrite E1. }
  rewrite Hup. split_and!; [done|done|]. set (f := filter _ (s_mounts s)).
  destruct (seq_sort_spec (length f) f (Nat.le_refl _)) as [Hp Hs]. exists (seq_sort (length f) f).
  split_and!; [done|done|done|]. intros k x Hx. apply E4. unfold header_of. cbn [h_mounts].
  unfold persist_list. fold f. by rewrite list_lookup_fmap, Hx.
Qed.
End persist.

Import VfsDemo.
(** The demonstration machine with its drive also mounted at "/mount/x". *)
Definition two_mounts : vstate drives unit := (vfs_mount drive0 [47; 109; 111; 117; 110; 116; 47; 120] mounted).2.
Lemma persist_read_back_witness : (persist two_mounts).1 = 0 /\
  exists b s2, hdr_read 0 VFS_FS_COSFS 0 (persist two_mounts).2 = (inr b, s2) /\ h_magic (hdr_upgrade b) = HDR_MAGIC.
Proof.
  assert (Hok : bok (Cos.dev (cos two_mounts))).
  { cbn. unfold ok, drive_ok, is_sector, is_bytes. apply (bool_decide_unpack _). vm_compute. exact I. }
  assert (Hd : drives_wf two_mounts) by (unfold drives_wf; apply (bool_decide_unpack _); vm_compute; exact I).
  assert (Hm : mounts_wf two_mounts) by (unfold mounts_wf, no_nul, is_bytes; apply (bool_decide_unpack _); vm_compute; exact I).
  assert (Hr : s_root two_mounts = Some 0) by (vm_compute; reflexivity).
  assert (Hp : (persist two_mounts).1 = 0) by (vm_compute; reflexivity).
  split; [exact Hp|].
  destruct (persist_read_back two_mounts 0 Hok Hd Hm Hr) as (b & s2 & Hb & Hmg & _).
  - vm_compute. discriminate.
  - intros _. vm_compute. reflexivity.
  - vm_compute. discriminate.
  - exact Hp.
  - exists b, s2. split; [exact Hb|exact Hmg].
Defined.

Lemma find_mount_deepest_witness : find_mount (s_mounts two_mounts) [47; 77; 111; 117; 110; 116; 47; 120; 47; 102] = Some (1, [47; 102]) /\
  exists m b, s_mounts two_mounts !! 1%nat = Some m /\ m_mountpoint m = render b /\ [47; 102] = render (drop (length b) [[77; 111; 117; 110; 116]; [120]; [102]]).
Proof.
  assert (E : find_mount (s_mounts two_mounts) (render [[77; 111; 117; 110; 116]; [120]; [102]]) = Some (1, [47; 102]))
    by (vm_compute; reflexivity).
  split; [exact E|].
  pose proof (find_mount_deepest (s_mounts two_mounts) [[77; 111; 117; 110; 116]; [120]; [102]]) as H. rewrite E in H.
  destruct H as (m & b & Hm & _ & _ & Hb & _ & _ & Hrel).
  - repeat constructor; discriminate.
  - repeat constructor; discriminate.
  - intros m Hm Hu.
    assert (Hms : m_mountpoint m = root_path /\ m_is_root m = true \/ m_mountpoint m = [47; 109; 111; 117; 110; 116; 47; 120] /\ m_is_root m = false).
    { assert (Hall : forallb (fun m => negb (m_used m) || bool_decide (m_mountpoint m = root_path) && m_is_root m ||
          bool_decide (m_mountpoint m = [47; 109; 111; 117; 110; 116; 47; 120]) && negb (m_is_root m)) (s_mounts two_mounts) = true)
        by (vm_compute; reflexivity).
      apply list_elem_of_In in Hm. apply (proj1 (forallb_forall _ _) Hall) in Hm. rewrite Hu in Hm. cbn [negb orb] in Hm.
      apply orb_true_iff in Hm as [[Hm1%bool_decide_eq_true Hm2]%andb_true_iff|[Hm1%bool_decide_eq_true Hm2%negb_true_iff]%andb_true_iff];
        [left|right]; split; [exact Hm1|exact Hm2|exact Hm1|exact Hm2]. }
    clear Hm Hu E. destruct Hms as [[-> ->]|[-> ->]].
    + exists []. split_and!; [constructor|reflexivity|done].
    + exists [[109; 111; 117; 110; 116]; [120]]. split_and!; [repeat constructor; discriminate|reflexivity|done].
  - exists m, b. split_and!; [exact Hm|exact Hb|exact Hrel].
Defined.

End VfsMountProps.
