(* ===== verification/Mem.v ===== *)
(** Physical memory and physical frames: bytes at 32-bit addresses, 32-bit
    loads and stores, and the interface to the frame allocator. *)
From S2P Require Import Prelude Pmm.
From stdpp Require Import base list gmap numbers.
From Stdlib Require Import ZArith Lia.
Import Pmm.
Open Scope Z_scope.

Module Mem.

(** Bytes by address; memory never written reads as 0. *)
Abbreviation mem := (gmap Z Z).
Definition ld8 (m : mem) (a : Z) : Z := u8 (default 0 (m !! a)).
Definition st8 (a v : Z) (m : mem) : mem := <[a := v]> m.
Fixpoint store_bytes (a : Z) (bs : list Z) (m : mem) : mem :=
  match bs with [] => m | b :: bs => store_bytes (a + 1) bs (st8 a b m) end.
Definition load_bytes (m : mem) (a n : Z) : list Z := tab (ld8 m) a n.
Definition ld32 (m : mem) (a : Z) : Z := le_get (load_bytes m a 4).
Definition st32 (a v : Z) (m : mem) : mem := store_bytes a (le_put 4 v) m.
(** [memset]; [memcpy] between buffers that do not overlap. *)
Definition memset (a v n : Z) (m : mem) : mem := store_bytes a (replicate (Z.to_nat n) v) m.
Definition memcpy (dst src n : Z) (m : mem) : mem := store_bytes dst (load_bytes m src n) m.

Lemma ld8_byte m a : is_u8 (ld8 m a).
Proof. apply u8_range. Qed.
Lemma ld8_store_bytes bs : forall a m b,
  ld8 (store_bytes a bs m) b = if decide (a <= b < a + zlen bs) then u8 (bs.[b - a]) else ld8 m b.
Proof.
  induction bs as [|x bs IH]; intros a m b; cbn [store_bytes].
  - by rewrite decide_False by (change (zlen []) with 0; lia).
  - rewrite IH. assert (Hz : zlen (x :: bs) = 1 + zlen bs) by (unfold zlen; cbn; lia). rewrite Hz. pose proof (zlen_nonneg bs).
    destruct (decide (b = a)) as [->|Hne].
    + rewrite decide_False, decide_True by lia. rewrite Z.sub_diag. unfold ld8, st8. by rewrite lookup_insert_eq.
    + destruct (decide (a + 1 <= b < a + 1 + zlen bs)).
      * rewrite decide_True by lia. f_equal. unfold aget. replace (Z.to_nat (b - a)) with (S (Z.to_nat (b - (a + 1)))) by lia. done.
      * rewrite decide_False by lia. unfold ld8, st8. by rewrite lookup_insert_ne by done.
Qed.
Lemma load_bytes_bytes m a n : is_bytes (load_bytes m a n).
Proof. unfold load_bytes, tab. apply Forall_fmap, list.Forall_true. intros. apply ld8_byte. Qed.
Lemma zlen_load m a n : 0 <= n -> zlen (load_bytes m a n) = n.
Proof. apply zlen_tab. Qed.
Lemma load_same m m' a n : (forall b, a <= b < a + n -> ld8 m' b = ld8 m b) -> load_bytes m' a n = load_bytes m a n.
Proof. intros. by apply tab_ext. Qed.
Lemma load_store m a bs : is_bytes bs -> load_bytes (store_bytes a bs m) a (zlen bs) = bs.
Proof.
  intros Hb. symmetry. apply tab_eq. intros i Hi. rewrite ld8_store_bytes, decide_True by lia.
  replace (a + i - a) with i by lia. symmetry. apply u8_small. by apply (aget_Forall is_u8).
Qed.
Lemma load_store_ne m a bs b n : b + n <= a \/ a + zlen bs <= b -> load_bytes (store_bytes a bs m) b n = load_bytes m b n.
Proof. intros. apply load_same. intros. by rewrite ld8_store_bytes, decide_False by lia. Qed.

Lemma ld32_bound m a : 0 <= ld32 m a < 2 ^ 32.
Proof. unfold ld32. pose proof (le_get_bound _ (load_bytes_bytes m a 4)) as Hb. by rewrite zlen_load in Hb. Qed.
Lemma ld32_st32 m a v : ld32 (st32 a v m) a = u32 v.
Proof.
  unfold ld32, st32. pose proof (load_store m a (le_put 4 v) (le_put_bytes 4 v)) as E. rewrite zlen_le_put in E.
  change (Z.of_nat 4) with 4 in E. by rewrite E, le_get_put.
Qed.
Lemma ld32_store_ne m a bs b : b + 4 <= a \/ a + zlen bs <= b -> ld32 (store_bytes a bs m) b = ld32 m b.
Proof. intros. unfold ld32. by rewrite load_store_ne. Qed.
Lemma ld32_st32_ne m a v b : b + 4 <= a \/ a + 4 <= b -> ld32 (st32 a v m) b = ld32 m b.
Proof. intros. apply ld32_store_ne. rewrite zlen_le_put. lia. Qed.
Lemma ld32_same m m' a : (forall b, a <= b < a + 4 -> ld8 m' b = ld8 m b) -> ld32 m' a = ld32 m a.
Proof. intros. unfold ld32. by rewrite (load_same m m'). Qed.
(** Words of a table at 4-aligned addresses. *)
Lemma ld32_st32_word m a v b : a mod 4 = b mod 4 -> ld32 (st32 a v m) b = if decide (b = a) then u32 v else ld32 m b.
Proof. intros. case_decide; [subst; apply ld32_st32|]. apply ld32_st32_ne. zdm. Qed.
Lemma ld8_memset m a v n b : 0 <= n -> ld8 (memset a v n m) b = if decide (a <= b < a + n) then u8 v else ld8 m b.
Proof.
  intros Hn. unfold memset. rewrite ld8_store_bytes, zlen_replicate, Z2Nat.id by done. case_decide; [|done].
  f_equal. apply aget_replicate. lia.
Qed.
Lemma ld32_zero m a : (forall b, a <= b < a + 4 -> ld8 m b = 0) -> ld32 m a = 0.
Proof.
  intros Hz. unfold ld32, load_bytes. rewrite (tab_ext _ (fun _ => 0)) by done. done.
Qed.

End Mem.

(** ** The frame allocator as its clients see it *)

(** Frames by number; address 0 stands for failure. *)
Class FrameAlloc (F : Type) := {
  alloc_frame : F -> Z * F;
  free_frame : Z -> F -> F;
  used_frame : F -> Z -> bool;
  frames_ok : F -> Prop;
}.
Class FrameAllocLaws (F : Type) `{FrameAlloc F} : Prop := {
  alloc_law : forall f, frames_ok f ->
    (exists b f', alloc_frame f = (b * PMM_BLOCK_SIZE, f') /\ 0 < b < PMM_MAX_BLOCKS /\ used_frame f b = false /\ frames_ok f' /\
       forall c, 0 <= c < PMM_MAX_BLOCKS -> used_frame f' c = if decide (c = b) then true else used_frame f c) \/
    (alloc_frame f = (0, f) /\ forall b, 0 <= b < PMM_MAX_BLOCKS -> used_frame f b = true);
  free_law : forall f a, frames_ok f -> PMM_BLOCK_SIZE <= a -> frames_ok (free_frame a f) /\
    forall c, 0 <= c < PMM_MAX_BLOCKS -> used_frame (free_frame a f) c = if decide (c = a / PMM_BLOCK_SIZE) then false else used_frame f c;
  used_zero : forall f, frames_ok f -> used_frame f 0 = true;
}.

(** The bitmap allocator serves the interface once frame 0 is reserved. *)
#[export] Instance pmm_frames : FrameAlloc pmm := {|
  alloc_frame := pmm_alloc_block; free_frame := pmm_free_block; used_frame := frame_used;
  frames_ok := fun p => pmm_ok p /\ frame_used p 0 = true |}.

#[export] Instance pmm_frames_laws : FrameAllocLaws pmm.
Proof.
  assert (H0 : in_range 0) by (unfold in_range, PMM_MAX_BLOCKS; lia).
  constructor; cbn.
  - intros p [Hok Hz]. destruct (alloc_cases p (ok_shape _ Hok)) as [(b & Hb & Hf & E)|[Hall E]]; [left|by right].
    pose proof (take_frame_ok b p Hok Hb Hf). pose proof (ok_shape _ Hok).
    assert (b <> 0) by (intros ->; congruence).
    exists b, (take_frame b p). split; [exact E|]. split; [unfold in_range in *; lia|]. split; [done|].
    split; [split; [done|]|intros; by apply take_frame_used]. rewrite take_frame_used by done. by case_decide.
  - intros p a [Hok Hz] Ha. assert (0 <= a) by (unfold PMM_BLOCK_SIZE in *; lia). pose proof (ok_shape _ Hok).
    split; [split; [by apply free_block_ok|]|intros; by apply free_block_used].
    rewrite free_block_used by done. rewrite decide_False; [done|]. unfold PMM_BLOCK_SIZE in *. zdm.
  - by intros p [_ ?].
Qed.
