(* ===== verification/Paging.v ===== *)
(** Paging (src/paging.c): page directories and page tables in physical
    memory, over any frame allocator.

    The kernel runs with every frame it touches mapped at its own address, so
    the pointers it follows are physical addresses here. The log lines and the
    detection of the page attribute table (cpuid, rdmsr, wrmsr) are not part
    of the model: whether write combining is available is a parameter, and so
    is the time each benchmark of the framebuffer takes. *)
From S2P Require Import Prelude Pmm Mem.
From stdpp Require Import base list gmap numbers.
From Stdlib Require Import ZArith Lia.
Import Mem.
Open Scope Z_scope.

Module Paging.

(** The machine below the tasks: memory, frames, the directory in use. *)
Record hw (F : Type) := mk_hw { ram : mem; frames : F; cr3 : Z }.
Arguments mk_hw {F}. Arguments ram {F}. Arguments frames {F}. Arguments cr3 {F}.
Definition set_ram {F} (m : mem) (h : hw F) : hw F := mk_hw m (frames h) (cr3 h).
Definition set_frames {F} (f : F) (h : hw F) : hw F := mk_hw (ram h) f (cr3 h).
Definition set_cr3 {F} (d : Z) (h : hw F) : hw F := mk_hw (ram h) (frames h) d.

(** The kernel's directory. *)
Definition page_directory : Z := 0x10000.
Definition FB_FLAGS_WC : Z := 0x0B.
Definition FB_FLAGS_FALLBACK : Z := 0x03.

(** Indices into a directory and a table; an entry's frame and its flags. *)
Definition pd_index (virt : Z) : Z := Z.shiftr virt 22.
Definition pt_index (virt : Z) : Z := Z.land (Z.shiftr virt 12) 0x03FF.
Definition frame_of (e : Z) : Z := Z.land e 0xFFFFF000.
Definition flags_of (e : Z) : Z := Z.land e 0xFFF.
Definition present (e : Z) : bool := negb (Z.land e 1 =? 0).

Section ops.
Context {F : Type} `{FrameAlloc F}.
#[local] Abbreviation M := (st (hw F)).

Definition pmm_alloc_block : M Z := fun h => let '(a, f) := alloc_frame (frames h) in (a, set_frames f h).
Definition pmm_free_block (a : Z) : M unit := modify (fun h => set_frames (free_frame a (frames h)) h).
Definition load (a : Z) : M Z := gets (fun h => ld32 (ram h) a).
Definition store (a v : Z) : M unit := modify (fun h => set_ram (st32 a v (ram h)) h).
Definition memset (a v n : Z) : M unit := modify (fun h => set_ram (Mem.memset a v n (ram h)) h).

Definition protect_table_frame (phys : Z) : M unit :=
  let pdi := pd_index phys in
  let pti := pt_index phys in
  e ← load (page_directory + 4 * pdi);
  ok ← (if present e then mret true else
        t ← pmm_alloc_block;
        if t =? 0 then mret false else
        memset t 0 4096;;
        store (page_directory + 4 * pdi) (Z.lor t 0x07);;
        mret true);
  if ok : bool then
    e ← load (page_directory + 4 * pdi);
    store (frame_of e + 4 * pti) (Z.lor (frame_of phys) 0x03)
  else mret tt.

Definition map_page_dir (dir phys virt flags : Z) : M unit :=
  let pdi := pd_index virt in
  let pti := pt_index virt in
  e ← load (dir + 4 * pdi);
  ok ← (if present e then mret true else
        new_table ← pmm_alloc_block;
        if new_table =? 0 then mret false else
        memset new_table 0 4096;;
        protect_table_frame new_table;;
        store (dir + 4 * pdi) (Z.lor (Z.lor new_table (Z.land flags 0x07)) 0x01);;
        mret true);
  if ok : bool then
    e ← load (dir + 4 * pdi);
    store (frame_of e + 4 * pti) (Z.lor (frame_of phys) flags)
  else mret tt.

Definition map_page (phys virt flags : Z) : M unit := map_page_dir page_directory phys virt flags.

(** The loop [dst[i] = src[i]] over the 1024 words of a table. *)
Definition copy_table (dst src : Z) : M unit :=
  ffor 1024 0 (fun i => v ← load (src + 4 * i); store (dst + 4 * i) v).

Definition unmap_page_dir (dir virt : Z) : M unit :=
  let pdi := pd_index virt in
  let pti := pt_index virt in
  e ← load (dir + 4 * pdi);
  if negb (present e) then mret tt else
  new_table ← pmm_alloc_block;
  if new_table =? 0 then mret tt else
  protect_table_frame new_table;;
  copy_table new_table (frame_of e);;
  store (new_table + 4 * pti) 0;;
  e ← load (dir + 4 * pdi);
  store (dir + 4 * pdi) (Z.lor new_table (flags_of e)).

(** The new directory, 0 when memory is out. *)
Definition clone_kernel_page_directory : M Z :=
  new_dir ← pmm_alloc_block;
  if new_dir =? 0 then mret 0 else
  protect_table_frame new_dir;;
  copy_table new_dir page_directory;;
  mret new_dir.

Definition switch_page_directory (dir : Z) : M unit := modify (set_cr3 dir).

(** [for (i = 0; i < size; i += 4096) map_page(base + i, base + i, flags)]. *)
Definition map_range (base size flags : Z) : M unit :=
  ffor (Z.to_nat ((size + 4095) / 4096)) 0 (fun i => map_page (u32 (base + 4096 * i)) (u32 (base + 4096 * i)) flags).

(** The fastest of the trials [from .. from+4] so far. *)
Definition benchmark (ticks : Z -> Z) (fb size flags from : Z) : M Z :=
  r ← aloop 5 from 0 (fun t best =>
    map_range fb size flags;;
    memset fb 0xAA size;;
    mret ((inl (if (0 <? ticks t) && ((best =? 0) || (ticks t <? best)) then ticks t else best)) : Z + Z));
  mret (match r with inl best => best | inr r => r end).

Definition pick_fb_flags (pat_wc_ready : bool) (ticks : Z -> Z) (fb_phys_addr fb_size : Z) : M Z :=
  if negb pat_wc_ready then mret FB_FLAGS_FALLBACK else
  let test_size := if fb_size <? 2 ^ 20 then fb_size else 2 ^ 20 in
  if test_size <? 4096 then mret FB_FLAGS_FALLBACK else
  wc_best ← benchmark ticks fb_phys_addr test_size FB_FLAGS_WC 0;
  wb_best ← benchmark ticks fb_phys_addr test_size FB_FLAGS_FALLBACK 5;
  mret (if (0 <? wc_best) && (0 <? wb_best) && (wc_best <? wb_best / 2) then FB_FLAGS_WC else FB_FLAGS_FALLBACK).

Definition init_paging (pat_wc_ready : bool) (ticks : Z -> Z) (fb_phys_addr fb_width fb_height fb_bpp : Z) : M unit :=
  memset page_directory 0 4096;;
  ffor (Z.to_nat 1048576) 0 (fun i => map_page (i * 4096) (i * 4096) 0x03);;
  let fb_size := u32 (u32 (fb_width * fb_height) * (fb_bpp / 8)) in
  fb_flags ← pick_fb_flags pat_wc_ready ticks fb_phys_addr fb_size;
  map_range fb_phys_addr fb_size fb_flags;;
  map_page 0 0 0x02;;
  map_page 0x10000 0x10000 0x03;;
  switch_page_directory page_directory.

End ops.
End Paging.
