(* ===== verification/PagingSpec.v ===== *)
(** Page directories as maps from pages to entries: what changing one page of
    a directory does to it and to the directories that share its tables. *)
From S2P Require Import Prelude Pmm Mem Paging.
From stdpp Require Import base list gmap numbers.
From Stdlib Require Import ZArith Lia.
Import Mem Paging.
Open Scope Z_scope.

Module PagingSpec.

(** ** Entries as numbers *)

Lemma flags_mod e : flags_of e = e mod 4096.
Proof. unfold flags_of. change 0xFFF with (Z.ones 12). by rewrite Z.land_ones. Qed.
(** Clearing the low [k] bits of a 32-bit word. *)
Lemma land_high k e : 0 <= k <= 32 -> 0 <= e < 2 ^ 32 -> Z.land e (Z.shiftl (Z.ones (32 - k)) k) = e / 2 ^ k * 2 ^ k.
Proof.
  intros Hk He. apply Z.bits_inj'. intros j Hj. rewrite Z.land_spec.
  replace (e / 2 ^ k * 2 ^ k) with (Z.shiftl (Z.shiftr e k) k) by (rewrite Z.shiftl_mul_pow2, Z.shiftr_div_pow2 by lia; done).
  destruct (decide (j < k)); [by rewrite !Z.shiftl_spec_low, andb_false_r|].
  rewrite !Z.shiftl_spec by lia. rewrite Z.shiftr_spec by lia. replace (j - k + k) with j by lia.
  destruct (decide (j < 32)); [rewrite Z.ones_spec_low, andb_true_r by lia; done|].
  rewrite (testbit_small e 32) by lia. done.
Qed.
Lemma frame_div e : 0 <= e < 2 ^ 32 -> frame_of e = e / 4096 * 4096.
Proof. intros He. apply (land_high 12 e ltac:(lia) He). Qed.
Lemma present_odd e : present e = (e mod 2 =? 1).
Proof.
  unfold present. change 1 with (Z.ones 1) at 1. rewrite Z.land_ones by done. change (2 ^ 1) with 2.
  pose proof (Z.mod_pos_bound e 2). destruct (Z.eqb_spec (e mod 2) 0), (Z.eqb_spec (e mod 2) 1); (done || lia).
Qed.
Lemma frame_lor b f : 0 <= f < 4096 -> Z.lor (b * 4096) f = b * 4096 + f.
Proof. intros Hf. change 4096 with (2 ^ 12) in *. rewrite <- (lor_shiftl_add b f 12) by (done || lia). by rewrite Z.shiftl_mul_pow2. Qed.
Lemma pd_div va : pd_index va = va / 2 ^ 22.
Proof. unfold pd_index. by rewrite Z.shiftr_div_pow2. Qed.
Lemma pt_mod va : pt_index va = va / 4096 mod 1024.
Proof. unfold pt_index. change 0x03FF with (Z.ones 10). rewrite Z.land_ones, Z.shiftr_div_pow2 by done. done. Qed.
Lemma pd_bound va : is_u32 va -> 0 <= pd_index va < 1024.
Proof. unfold is_u32. rewrite pd_div. intros. zdm. Qed.
Lemma pt_bound va : 0 <= pt_index va < 1024.
Proof. rewrite pt_mod. apply Z.mod_pos_bound. done. Qed.
(** Two addresses with equal indices are on the same page. *)
Lemma same_page va vb : is_u32 va -> is_u32 vb -> pd_index va = pd_index vb -> pt_index va = pt_index vb -> va / 4096 = vb / 4096.
Proof. unfold is_u32. rewrite !pd_div, !pt_mod. intros. zdm. Qed.

(** Storing the value a word has changes no byte. *)
Lemma st32_same m a : forall b, ld8 (st32 a (ld32 m a) m) b = ld8 m b.
Proof.
  intros b. unfold st32. rewrite ld8_store_bytes, zlen_le_put. case_decide as Hb; [|done].
  pose proof (le_put_get _ (load_bytes_bytes m a 4)) as E. assert (HL : length (load_bytes m a 4) = 4%nat) by done. rewrite HL in E.
  unfold ld32. rewrite E. unfold load_bytes. change (Z.of_nat 4) with 4 in Hb. rewrite aget_tab by lia. replace (a + (b - a)) with b by lia.
  apply u8_small, ld8_byte.
Qed.

Section spec.
Context {F : Type} `{FrameAlloc F, !FrameAllocLaws F}.
Implicit Types h : hw F.

Definition pde h (d i : Z) : Z := ld32 (ram h) (d + 4 * i).
Definition pte h (t j : Z) : Z := ld32 (ram h) (t + 4 * j).
(** The entry of the page of [va] in directory [d], as the processor walks. *)
Definition walk h (d va : Z) : option Z :=
  let e := pde h d (pd_index va) in
  if present e then Some (pte h (frame_of e) (pt_index va)) else None.
(** Ring 3 reaches a page when both entries carry the user bit. *)
Definition user_page h (d va : Z) : bool :=
  match walk h d va with
  | Some p => present p && Z.testbit p 2 && Z.testbit (pde h d (pd_index va)) 2
  | None => false
  end.

Definition is_frame (a : Z) : Prop := exists b, 0 < b < PMM_MAX_BLOCKS /\ a = b * 4096.
Definition used h (a : Z) : bool := used_frame (frames h) (a / 4096).

(** A directory in a used frame whose tables are in used frames, none of them
    the frame [x]. *)
Record dir_ok h (x d : Z) : Prop := {
  do_frame : is_frame d; do_used : used h d = true;
  do_table : forall i, 0 <= i < 1024 -> present (pde h d i) = true ->
    is_frame (frame_of (pde h d i)) /\ used h (frame_of (pde h d i)) = true /\ frame_of (pde h d i) <> x;
}.
(** The kernel maps every free frame at its own address, read-write. *)
Definition identity h : Prop := forall b, 0 < b < PMM_MAX_BLOCKS -> used_frame (frames h) b = false ->
  walk h page_directory (b * 4096) = Some (b * 4096 + 3).
(** No byte differs outside [lo, hi) and outside the frame [f]. *)
Definition changed_in (m m' : mem) (lo hi f : Z) : Prop :=
  forall a, ~ lo <= a < hi -> a / 4096 <> f / 4096 -> ld8 m' a = ld8 m a.

Lemma frame_bounds a : is_frame a -> 4096 <= a < 2 ^ 32 /\ a mod 4096 = 0.
Proof. intros (b & Hb & ->). unfold PMM_MAX_BLOCKS in Hb. split; [lia|]. apply Z.mod_mul. done. Qed.
Lemma word_in f i : is_frame f -> 0 <= i < 1024 -> (f + 4 * i) / 4096 = f / 4096 /\ (f + 4 * i + 3) / 4096 = f / 4096.
Proof. intros Hf Hi. destruct (frame_bounds f Hf). zdm. Qed.
Lemma frame_eq f f' : is_frame f -> is_frame f' -> f / 4096 = f' / 4096 -> f = f'.
Proof. intros (b & _ & ->) (b' & _ & ->). rewrite !Z.div_mul by done. by intros ->. Qed.
(** A word of a frame that was not touched. *)
Lemma word_same m m' lo hi f t i : changed_in m m' lo hi f -> is_frame t -> is_frame f -> 0 <= i < 1024 -> t <> f ->
  (forall k, 0 <= k < 4 -> ~ lo <= t + 4 * i + k < hi) -> ld32 m' (t + 4 * i) = ld32 m (t + 4 * i).
Proof.
  intros Hc Ht Hf Hi Hn Hk. apply ld32_same. intros b Hb. apply Hc.
  - specialize (Hk (b - (t + 4 * i)) ltac:(lia)). by replace (t + 4 * i + (b - (t + 4 * i))) with b in Hk by lia.
  - intros E. apply Hn. apply frame_eq; [done..|]. rewrite <- E. destruct (frame_bounds t Ht). zdm.
Qed.

(** ** Copying a table *)

Lemma copy_run dst src h : is_frame dst -> is_frame src -> dst <> src ->
  exists m', copy_table dst src h = (tt, set_ram m' h) /\
    (forall j, 0 <= j < 1024 -> ld32 m' (dst + 4 * j) = ld32 (ram h) (src + 4 * j)) /\
    (forall a, a / 4096 <> dst / 4096 -> ld8 m' a = ld8 (ram h) a).
Proof.
  intros Hd Hs Hne. destruct (frame_bounds dst Hd), (frame_bounds src Hs).
  exists (ram (copy_table dst src h).2).
  pose (P := fun i h1 => (frames h1 = frames h /\ cr3 h1 = cr3 h) /\ (forall j, 0 <= j < i -> ld32 (ram h1) (dst + 4 * j) = ld32 (ram h) (src + 4 * j)) /\
    (forall a, a / 4096 <> dst / 4096 -> ld8 (ram h1) a = ld8 (ram h) a)).
  assert (HP : P 1024 (copy_table dst src h).2).
  { unfold copy_table. change 1024%nat with (rounds 0 1024). apply (ffor_rounds P); [lia| |].
    - split; [done|]. split; [intros; lia|done].
    - intros i h1 Hi (E1 & K1 & K2). unfold load, store. munfold.
      set (v := ld32 (ram h1) (src + 4 * i)). assert (Ev : v = ld32 (ram h) (src + 4 * i)).
      { apply ld32_same. intros b Hb. apply K2. intros E. apply Hne. apply frame_eq; [done..|]. rewrite <- E. zdm. }
      split; [exact E1|]. cbn [snd set_ram ram]. split.
      + intros j Hj. destruct (decide (j = i)) as [->|]; [rewrite ld32_st32, Ev; apply u32_small, ld32_bound|].
        rewrite ld32_st32_ne by lia. apply K1. lia.
      + intros a Ha. unfold st32. rewrite ld8_store_bytes, zlen_le_put, decide_False; [by apply K2|]. change (Z.of_nat 4) with 4. zdm. }
  destruct HP as ([E1 E2] & K1 & K2). split; [|done]. destruct (copy_table dst src h) as [[] [m1 f1 c1]]. cbn in *. unfold set_ram. by subst.
Qed.

(** ** One page of a directory *)

Lemma load_run a h : load a h = (ld32 (ram h) a, h).
Proof. done. Qed.
Lemma walk_entry h d va p : walk h d va = Some p ->
  present (pde h d (pd_index va)) = true /\ pte h (frame_of (pde h d (pd_index va))) (pt_index va) = p.
Proof. unfold walk. destruct (present _); [|done]. by intros [= <-]. Qed.

(** Protecting a frame that the kernel maps at its own address. *)
Lemma protect_run h b : 0 < b < PMM_MAX_BLOCKS -> walk h page_directory (b * 4096) = Some (b * 4096 + 3) ->
  exists m', protect_table_frame (b * 4096) h = (tt, set_ram m' h) /\ forall a, ld8 m' a = ld8 (ram h) a.
Proof.
  intros Hb Hw. destruct (walk_entry _ _ _ _ Hw) as [Hp Hq]. unfold PMM_MAX_BLOCKS in Hb. unfold protect_table_frame, pde, pte in *.
  rewrite (bind_run _ _ _ _ _ (load_run _ h)), Hp. rewrite (bind_run (mret true) _ h true h) by done.
  rewrite (bind_run _ _ _ _ _ (load_run _ h)). eexists. split; [done|]. cbn [ram set_ram].
  rewrite (frame_div (b * 4096)), Z.div_mul, frame_lor by lia. rewrite <- Hq. apply st32_same.
Qed.

Lemma frame_alloc_run h a f : alloc_frame (frames h) = (a, f) -> pmm_alloc_block h = (a, set_frames f h).
Proof. intros E. unfold pmm_alloc_block. by rewrite E. Qed.

(** What [unmap_page_dir] leaves when memory is left: the directory points to
    a private copy [nt] of the table, without the page's entry. *)
Record unmapped h (d va : Z) (b : Z) (h' : hw F) : Prop := {
  um_free : 0 < b < PMM_MAX_BLOCKS /\ used_frame (frames h) b = false;
  um_ok : frames_ok (frames h');
  um_used : forall c, 0 <= c < PMM_MAX_BLOCKS -> used_frame (frames h') c = if decide (c = b) then true else used_frame (frames h) c;
  um_cr3 : cr3 h' = cr3 h;
  um_table : forall j, 0 <= j < 1024 ->
    pte h' (b * 4096) j = if decide (j = pt_index va) then 0 else pte h (frame_of (pde h d (pd_index va))) j;
  um_entry : pde h' d (pd_index va) = b * 4096 + flags_of (pde h d (pd_index va));
  um_rest : changed_in (ram h) (ram h') (d + 4 * pd_index va) (d + 4 * pd_index va + 4) (b * 4096);
}.

Lemma fresh_ne h a b : used h a = true -> used_frame (frames h) b = false -> a <> b * 4096.
Proof. intros Hu Hf ->. unfold used in Hu. rewrite Z.div_mul in Hu by done. congruence. Qed.

Lemma unmap_run h d va : frames_ok (frames h) -> dir_ok h d d -> identity h -> is_u32 va -> present (pde h d (pd_index va)) = true ->
  (exists b h', unmap_page_dir d va h = (tt, h') /\ unmapped h d va b h') \/
  ((forall b, 0 <= b < PMM_MAX_BLOCKS -> used_frame (frames h) b = true) /\ unmap_page_dir d va h = (tt, h)).
Proof.
  intros Hok [Hdf Hdu Hdt] Hid Hva Hp. pose proof (pd_bound va Hva) as Hpd. pose proof (pt_bound va) as Hpt.
  unfold unmap_page_dir. fold (pde h d (pd_index va)). rewrite (bind_run _ _ _ _ _ (load_run _ h)). unfold pde in Hp. rewrite Hp. cbn [negb].
  destruct (alloc_law (frames h) Hok) as [(b & f' & E & Hb & Hfree & Hok' & Hused)|[E Hall]].
  2:{ right. split; [done|]. rewrite (bind_run _ _ _ _ _ (frame_alloc_run _ _ _ E)). cbn. by destruct h. }
  left. rewrite (bind_run _ _ _ _ _ (frame_alloc_run _ _ _ E)). unfold PMM_BLOCK_SIZE in E |- *. rewrite (proj2 (Z.eqb_neq (b * 4096) 0)) by lia.
  set (h1 := set_frames f' h). assert (Hw1 : walk h1 page_directory (b * 4096) = Some (b * 4096 + 3)) by (by apply Hid).
  destruct (protect_run h1 b Hb Hw1) as (m1 & E1 & Hm1). rewrite (bind_run _ _ _ _ _ E1).
  destruct (Hdt (pd_index va) Hpd Hp) as (HTf & HTu & HTd). unfold pde in HTf, HTu, HTd. set (e := ld32 (ram h) (d + 4 * pd_index va)) in *. set (T := frame_of e) in *.
  assert (Hnf : is_frame (b * 4096)) by (by exists b). pose proof (fresh_ne h T b HTu Hfree) as HTn. pose proof (fresh_ne h d b Hdu Hfree) as Hdn.
  destruct (copy_run (b * 4096) T (set_ram m1 h1) Hnf HTf ltac:(done)) as (m2 & E2 & Hc1 & Hc2). rewrite (bind_run _ _ _ _ _ E2).
  cbn [ram set_ram] in Hc1, Hc2. set (m3 := st32 (b * 4096 + 4 * pt_index va) 0 m2).
  destruct (frame_bounds _ Hnf) as [Hnb Hna]. destruct (frame_bounds _ Hdf) as [Hdb Hda].
  assert (Hd3 : ld32 m3 (d + 4 * pd_index va) = e).
  { apply ld32_same. intros a Ha. unfold m3, st32. rewrite ld8_store_bytes, zlen_le_put. change (Z.of_nat 4) with 4.
    assert (a / 4096 <> b * 4096 / 4096).
    { intros Ea. apply Hdn. apply frame_eq; [done..|]. rewrite <- Ea. zdm. }
    rewrite decide_False by zdm. rewrite Hc2 by done. apply Hm1. }
  eexists b, _. split.
  { rewrite (bind_run (store _ _) _ _ tt (set_ram m3 h1)) by (unfold store; munfold; done).
    rewrite (bind_run _ _ _ _ _ (load_run _ (set_ram m3 h1))). unfold store. munfold. cbn [ram set_ram]. rewrite Hd3. done. }
  assert (Hval : Z.lor (b * 4096) (flags_of e) = b * 4096 + flags_of e).
  { apply frame_lor. rewrite flags_mod. apply Z.mod_pos_bound. done. }
  assert (Hfl : 0 <= flags_of e < 4096) by (rewrite flags_mod; apply Z.mod_pos_bound; done).
  constructor; [exact (conj Hb Hfree)|exact Hok'|exact Hused|reflexivity| | |]; unfold pte, pde; cbn [ram set_ram frames set_frames].
  - intros j Hj. rewrite ld32_st32_ne.
    2:{ destruct (word_in (b * 4096) j Hnf Hj), (word_in d (pd_index va) Hdf Hpd).
        destruct (decide (b * 4096 < d)); [assert (b * 4096 + 4096 <= d) by zdm; lia|assert (d + 4096 <= b * 4096) by zdm; lia]. }
    unfold m3. destruct (decide (j = pt_index va)) as [->|]; [apply ld32_st32|]. rewrite ld32_st32_ne by lia. rewrite Hc1 by done.
    apply ld32_same. intros; apply Hm1.
  - fold e. rewrite ld32_st32, Hval. apply u32_small. unfold PMM_MAX_BLOCKS in Hb. lia.
  - intros a Ha Hn. unfold st32. rewrite ld8_store_bytes, zlen_le_put. change (Z.of_nat 4) with 4. rewrite decide_False by lia.
    unfold m3, st32. rewrite ld8_store_bytes, zlen_le_put. change (Z.of_nat 4) with 4. rewrite decide_False by zdm. rewrite Hc2 by done. apply Hm1.
Qed.

(** [map_page_dir] where the directory has a table. *)
Lemma map_present_run h d phys va flags : present (pde h d (pd_index va)) = true ->
  map_page_dir d phys va flags h =
  (tt, set_ram (st32 (frame_of (pde h d (pd_index va)) + 4 * pt_index va) (Z.lor (frame_of phys) flags) (ram h)) h).
Proof.
  unfold pde. intros Hp. unfold map_page_dir. rewrite (bind_run _ _ _ _ _ (load_run _ h)), Hp.
  rewrite (bind_run (mret true) _ h true h) by done. rewrite (bind_run _ _ _ _ _ (load_run _ h)). done.
Qed.

(** A page given a private table with one new entry: [unmap_page_dir], then
    [map_page_dir]. *)
Record remapped h (d va : Z) (e' : Z) (b : Z) (h' : hw F) : Prop := {
  rm_free : 0 < b < PMM_MAX_BLOCKS /\ used_frame (frames h) b = false;
  rm_ok : frames_ok (frames h');
  rm_used : forall c, 0 <= c < PMM_MAX_BLOCKS -> used_frame (frames h') c = if decide (c = b) then true else used_frame (frames h) c;
  rm_cr3 : cr3 h' = cr3 h;
  rm_table : forall j, 0 <= j < 1024 ->
    pte h' (b * 4096) j = if decide (j = pt_index va) then e' else pte h (frame_of (pde h d (pd_index va))) j;
  rm_entry : pde h' d (pd_index va) = b * 4096 + flags_of (pde h d (pd_index va));
  rm_rest : changed_in (ram h) (ram h') (d + 4 * pd_index va) (d + 4 * pd_index va + 4) (b * 4096);
}.

Lemma entry_parts b f : 0 < b < PMM_MAX_BLOCKS -> 0 <= f < 4096 ->
  frame_of (b * 4096 + f) = b * 4096 /\ flags_of (b * 4096 + f) = f /\ present (b * 4096 + f) = present f.
Proof.
  unfold PMM_MAX_BLOCKS. intros Hb Hf. rewrite frame_div by lia. rewrite flags_mod, !present_odd. split; [zdm|]. split; [zdm|]. f_equal. zdm.
Qed.
Lemma flags_bound e : 0 <= flags_of e < 4096.
Proof. rewrite flags_mod. apply Z.mod_pos_bound. done. Qed.
Lemma present_flags e : present (flags_of e) = present e.
Proof. rewrite !present_odd, flags_mod. f_equal. zdm. Qed.

Lemma disjoint_words d t i j : is_frame d -> is_frame t -> d <> t -> 0 <= i < 1024 -> 0 <= j < 1024 ->
  d + 4 * i + 4 <= t + 4 * j \/ t + 4 * j + 4 <= d + 4 * i.
Proof.
  intros Hd Ht Hn Hi Hj. destruct (frame_bounds d Hd), (frame_bounds t Ht).
  destruct (decide (t < d)); [assert (t + 4096 <= d) by zdm; lia|assert (d + 4096 <= t) by zdm; lia].
Qed.

Lemma remap_run h d phys va flags : frames_ok (frames h) -> dir_ok h d d -> identity h -> is_u32 va -> is_u32 phys -> 0 <= flags < 4096 ->
  present (pde h d (pd_index va)) = true ->
  (exists b h', (unmap_page_dir d va;; map_page_dir d phys va flags) h = (tt, h') /\
     remapped h d va (phys / 4096 * 4096 + flags) b h') \/
  ((forall b, 0 <= b < PMM_MAX_BLOCKS -> used_frame (frames h) b = true) /\
   (unmap_page_dir d va;; map_page_dir d phys va flags) h =
   (tt, set_ram (st32 (frame_of (pde h d (pd_index va)) + 4 * pt_index va) (phys / 4096 * 4096 + flags) (ram h)) h)).
Proof.
  intros Hok Hd Hid Hva Hph Hfl Hp. pose proof (pd_bound va Hva) as Hpd. pose proof (pt_bound va) as Hpt.
  assert (Hlor : Z.lor (frame_of phys) flags = phys / 4096 * 4096 + flags) by (rewrite frame_div by done; by apply frame_lor).
  destruct (unmap_run h d va Hok Hd Hid Hva Hp) as [(b & h1 & E & [U1 U2 U3 U4 U5 U6 U7])|[Hall E]].
  2:{ right. split; [done|]. rewrite (bind_run _ _ _ _ _ E), (map_present_run h d phys va flags Hp), Hlor. done. }
  left. destruct U1 as [Hb Hfree]. destruct (entry_parts b _ Hb (flags_bound (pde h d (pd_index va)))) as (Ef & Eg & Ep).
  eexists b, _. split.
  { rewrite (bind_run _ _ _ _ _ E), map_present_run; [reflexivity|]. rewrite U6, Ep, present_flags. exact Hp. }
  rewrite U6, Ef, Hlor. assert (Hnf : is_frame (b * 4096)) by (by exists b). pose proof (fresh_ne h d b (do_used _ _ _ Hd) Hfree) as Hdn.
  destruct (frame_bounds _ Hnf). assert (Hv : 0 <= phys / 4096 * 4096 + flags < 2 ^ 32) by (unfold is_u32 in Hph; zdm).
  constructor; [exact (conj Hb Hfree)|exact U2|exact U3|exact U4| | |]; unfold pte, pde; cbn [ram set_ram frames set_frames].
  - intros j Hj. destruct (decide (j = pt_index va)) as [->|Hne]; [rewrite ld32_st32; by apply u32_small|].
    rewrite ld32_st32_ne by lia. specialize (U5 j Hj). rewrite decide_False in U5 by done. exact U5.
  - rewrite ld32_st32_ne; [exact U6|]. apply disjoint_words; [apply Hd|done|done|done|done].
  - intros a Ha Hn. unfold st32. rewrite ld8_store_bytes, zlen_le_put. change (Z.of_nat 4) with 4. rewrite decide_False by zdm. by apply U7.
Qed.

Section views.
Context (h h' : hw F) (d va e' b : Z).
Hypothesis (Hd : dir_ok h d d) (Hva : is_u32 va) (Hp : present (pde h d (pd_index va)) = true) (R : remapped h d va e' b h').

Lemma new_frame : is_frame (b * 4096).
Proof. exists b. split; [apply R|done]. Qed.
Lemma pde_other x i : is_frame x -> used h x = true -> 0 <= i < 1024 -> (x = d -> i <> pd_index va) -> pde h' x i = pde h x i.
Proof.
  intros Hx Hu Hi Hn. unfold pde. pose proof (pd_bound va Hva). eapply (word_same (ram h)); [apply R|done|apply new_frame|done| |].
  - apply (fresh_ne h); [done|apply R].
  - intros k Hk. destruct (decide (x = d)) as [->|Hne]; [specialize (Hn eq_refl); lia|].
    destruct (disjoint_words x d i (pd_index va)); [done|apply Hd|done|done|lia|lia|lia].
Qed.
Lemma pte_other t j : is_frame t -> used h t = true -> t <> d -> 0 <= j < 1024 -> pte h' t j = pte h t j.
Proof. intros Ht Hu Hn Hj. by apply (pde_other t j). Qed.

(** The page itself. *)
Lemma walk_here : walk h' d va = Some e'.
Proof.
  pose proof (pt_bound va). unfold walk. rewrite (rm_entry _ _ _ _ _ _ R).
  destruct (entry_parts b _ (proj1 (rm_free _ _ _ _ _ _ R)) (flags_bound (pde h d (pd_index va)))) as (-> & _ & ->).
  rewrite present_flags, Hp. rewrite (rm_table _ _ _ _ _ _ R) by done. by rewrite decide_True.
Qed.
(** The other pages of the directory. *)
Lemma walk_rest vb : is_u32 vb -> vb / 4096 <> va / 4096 -> walk h' d vb = walk h d vb.
Proof.
  intros Hvb Hn. pose proof (pt_bound vb). pose proof (pd_bound vb Hvb) as Hpd. unfold walk. destruct (decide (pd_index vb = pd_index va)) as [E|E].
  - rewrite E, (rm_entry _ _ _ _ _ _ R).
    destruct (entry_parts b _ (proj1 (rm_free _ _ _ _ _ _ R)) (flags_bound (pde h d (pd_index va)))) as (-> & _ & ->).
    rewrite present_flags, Hp. rewrite (rm_table _ _ _ _ _ _ R) by done. rewrite decide_False; [done|]. intros E'. apply Hn. by apply same_page.
  - rewrite pde_other by (done || apply Hd). destruct (present (pde h d (pd_index vb))) eqn:Ep; [|done].
    destruct (do_table _ _ _ Hd _ Hpd Ep) as (? & ? & ?). by rewrite pte_other.
Qed.
(** Every other directory. *)
Lemma walk_others x vb : dir_ok h d x -> x <> d -> is_u32 vb -> walk h' x vb = walk h x vb.
Proof.
  intros Hx Hn Hvb. pose proof (pt_bound vb). pose proof (pd_bound vb Hvb) as Hpd. unfold walk. rewrite pde_other by (done || apply Hx).
  destruct (present (pde h x (pd_index vb))) eqn:Ep; [|done]. destruct (do_table _ _ _ Hx _ Hpd Ep) as (? & ? & ?). by rewrite pte_other.
Qed.

Lemma used_grows x : is_frame x -> used h x = true -> used h' x = true.
Proof.
  intros (c & Hc & ->) Hu. unfold used in *. rewrite Z.div_mul in * by done. rewrite (rm_used _ _ _ _ _ _ R) by lia. by case_decide.
Qed.
Lemma used_new : used h' (b * 4096) = true.
Proof. destruct (rm_free _ _ _ _ _ _ R). unfold used. rewrite Z.div_mul by done. rewrite (rm_used _ _ _ _ _ _ R) by lia. by rewrite decide_True. Qed.
Lemma dir_ok_others x y : dir_ok h y x -> x <> d -> dir_ok h' y x.
Proof.
  intros Hx Hn. constructor; [apply Hx|apply used_grows; apply Hx|]. intros i Hi. rewrite pde_other by (done || apply Hx). intros Ep.
  destruct (do_table _ _ _ Hx _ Hi Ep) as (? & ? & ?). split; [done|]. split; [by apply used_grows|done].
Qed.
Lemma dir_ok_here y : dir_ok h y d -> used h y = true -> dir_ok h' y d.
Proof.
  intros Hx Hy. constructor; [apply Hx|apply used_grows; apply Hx|]. intros i Hi. destruct (decide (i = pd_index va)) as [->|Hn].
  - intros _. rewrite (rm_entry _ _ _ _ _ _ R). destruct (rm_free _ _ _ _ _ _ R) as [Hb Hf].
    destruct (entry_parts b _ Hb (flags_bound (pde h d (pd_index va)))) as (-> & _ & _).
    split; [apply new_frame|]. split; [apply used_new|]. intros E. by apply (fresh_ne h y b Hy Hf).
  - rewrite pde_other by (done || apply Hx). intros Ep. destruct (do_table _ _ _ Hx _ Hi Ep) as (? & ? & ?). split; [done|]. split; [by apply used_grows|done].
Qed.
Lemma identity_kept : identity h -> dir_ok h d page_directory -> page_directory <> d -> identity h'.
Proof.
  intros Hid HK Hn c Hc Hf. rewrite (rm_used _ _ _ _ _ _ R) in Hf by lia. case_decide; [done|].
  rewrite walk_others; [by apply Hid|done|done|]. unfold is_u32. unfold PMM_MAX_BLOCKS in Hc. lia.
Qed.
End views.

End spec.
End PagingSpec.
