(* ===== verification/Task.v ===== *)
(** Tasks (src/task.c, src/task.h): the task table, the frames and the address
    space a task owns, its heap break, user memory, and the scheduler.

    The addresses of the two static stack arrays are fixed by the linker and
    are parameters. [task_exit] ends in a loop that only waits for the next
    timer interrupt; the model returns there, and the task is never chosen
    again. The task killed by an exception (fault_handler of src/idt.c) is
    here too. *)
From S2P Require Import Prelude Pmm Mem Paging Disk VfsData Vfs.
From stdpp Require Import base list gmap numbers.
From Stdlib Require Import ZArith Lia.
Import Mem Paging VfsData VfsLock.
Open Scope Z_scope.

Module Task.

Definition MAX_TASKS : Z := 32.
Definition TASK_MAX_OWNED_FRAMES : Z := 256.
Definition USER_STACK_TOP : Z := 0x90000000.
Definition USER_STACK_SIZE : Z := 16384.
Definition USER_HEAP_BASE : Z := 0x40000000.
Definition USER_HEAP_MAX : Z := 0x80000000.
Definition TASK_STACK_SIZE : Z := USER_STACK_SIZE.
Definition TASK_KSTACK_SIZE : Z := 8192.
Definition TASK_GUARD_SIZE : Z := 4096.
Definition GDT_USER_CODE_SEL : Z := Z.lor 0x20 3.
Definition GDT_USER_DATA_SEL : Z := Z.lor 0x28 3.

(** [task_state_t]. *)
Inductive task_state := TASK_READY | TASK_RUNNING | TASK_SLEEPING | TASK_DEAD.
#[export] Instance task_state_dec : EqDecision task_state.
Proof. solve_decision. Defined.

(** [heap_arena_t]. *)
Record arena := mk_arena { head : Z; tail : Z }.
Definition heap_arena_init : arena := mk_arena 0 0.

(** [task_t]; [owned_frames] is the part of the array in use, its length is
    [owned_frame_count]. [ebp] and [eip] are never read or written. *)
Record task := mk_task {
  esp : Z; pid : Z; state : task_state; dir : Z; priority : Z; kernel_stack_top : Z; is_user : Z;
  owned_frames : list Z; heap : arena; heap_virt_next : Z;
}.
Definition zero_task : task := mk_task 0 0 TASK_READY 0 0 0 0 [] heap_arena_init 0.
#[export] Instance task_inhabited : Inhabited task := populate zero_task.

Definition set_esp (v : Z) (t : task) := mk_task v (pid t) (state t) (dir t) (priority t) (kernel_stack_top t) (is_user t) (owned_frames t) (heap t) (heap_virt_next t).
Definition set_pid (v : Z) (t : task) := mk_task (esp t) v (state t) (dir t) (priority t) (kernel_stack_top t) (is_user t) (owned_frames t) (heap t) (heap_virt_next t).
Definition set_state (v : task_state) (t : task) := mk_task (esp t) (pid t) v (dir t) (priority t) (kernel_stack_top t) (is_user t) (owned_frames t) (heap t) (heap_virt_next t).
Definition set_dir (v : Z) (t : task) := mk_task (esp t) (pid t) (state t) v (priority t) (kernel_stack_top t) (is_user t) (owned_frames t) (heap t) (heap_virt_next t).
Definition set_priority (v : Z) (t : task) := mk_task (esp t) (pid t) (state t) (dir t) v (kernel_stack_top t) (is_user t) (owned_frames t) (heap t) (heap_virt_next t).
Definition set_kstack (v : Z) (t : task) := mk_task (esp t) (pid t) (state t) (dir t) (priority t) v (is_user t) (owned_frames t) (heap t) (heap_virt_next t).
Definition set_is_user (v : Z) (t : task) := mk_task (esp t) (pid t) (state t) (dir t) (priority t) (kernel_stack_top t) v (owned_frames t) (heap t) (heap_virt_next t).
Definition set_owned (v : list Z) (t : task) := mk_task (esp t) (pid t) (state t) (dir t) (priority t) (kernel_stack_top t) (is_user t) v (heap t) (heap_virt_next t).
Definition set_heap (v : arena) (t : task) := mk_task (esp t) (pid t) (state t) (dir t) (priority t) (kernel_stack_top t) (is_user t) (owned_frames t) v (heap_virt_next t).
Definition set_brk (v : Z) (t : task) := mk_task (esp t) (pid t) (state t) (dir t) (priority t) (kernel_stack_top t) (is_user t) (owned_frames t) (heap t) v.

(** The kernel's globals for tasks, over the machine. *)
Record kst (F : Type) := mk_kst {
  khw : hw F; tasks : list task; current_task : Z; num_tasks : Z; next_pid : Z; ticks_left_on_current : Z;
  system_ticks : Z; tss_esp0 : Z; vfs_lock : lockst;
}.
Arguments mk_kst {F}. Arguments khw {F}. Arguments tasks {F}. Arguments current_task {F}. Arguments num_tasks {F}.
Arguments next_pid {F}. Arguments ticks_left_on_current {F}. Arguments system_ticks {F}. Arguments tss_esp0 {F}. Arguments vfs_lock {F}.

Section fields.
Context {F : Type}.
Implicit Types k : kst F.
Definition set_hw (h : hw F) k := mk_kst h (tasks k) (current_task k) (num_tasks k) (next_pid k) (ticks_left_on_current k) (system_ticks k) (tss_esp0 k) (vfs_lock k).
Definition set_tasks (l : list task) k := mk_kst (khw k) l (current_task k) (num_tasks k) (next_pid k) (ticks_left_on_current k) (system_ticks k) (tss_esp0 k) (vfs_lock k).
Definition set_current (v : Z) k := mk_kst (khw k) (tasks k) v (num_tasks k) (next_pid k) (ticks_left_on_current k) (system_ticks k) (tss_esp0 k) (vfs_lock k).
Definition set_num (v : Z) k := mk_kst (khw k) (tasks k) (current_task k) v (next_pid k) (ticks_left_on_current k) (system_ticks k) (tss_esp0 k) (vfs_lock k).
Definition set_next_pid (v : Z) k := mk_kst (khw k) (tasks k) (current_task k) (num_tasks k) v (ticks_left_on_current k) (system_ticks k) (tss_esp0 k) (vfs_lock k).
Definition set_ticks_left (v : Z) k := mk_kst (khw k) (tasks k) (current_task k) (num_tasks k) (next_pid k) v (system_ticks k) (tss_esp0 k) (vfs_lock k).
Definition set_system_ticks (v : Z) k := mk_kst (khw k) (tasks k) (current_task k) (num_tasks k) (next_pid k) (ticks_left_on_current k) v (tss_esp0 k) (vfs_lock k).
Definition set_tss (v : Z) k := mk_kst (khw k) (tasks k) (current_task k) (num_tasks k) (next_pid k) (ticks_left_on_current k) (system_ticks k) v (vfs_lock k).
Definition set_vfs_lock (v : lockst) k := mk_kst (khw k) (tasks k) (current_task k) (num_tasks k) (next_pid k) (ticks_left_on_current k) (system_ticks k) (tss_esp0 k) v.
End fields.

Section ops.
Context {F : Type} `{FrameAlloc F}.
#[local] Abbreviation M := (st (kst F)).

(** A paging operation on the machine below. *)
Definition in_hw {A} (m : st (hw F) A) : M A := fun k => let '(a, h) := m (khw k) in (a, set_hw h k).
Definition task_at (slot : Z) : M task := gets (fun k => (tasks k).[slot]).
Definition upd (slot : Z) (g : task -> task) : M unit := modify (fun k => set_tasks ((tasks k).[slot := g ((tasks k).[slot])]) k).
Definition no_slot (slot : Z) : M bool := gets (fun k => (slot <? 0) || (num_tasks k <=? slot)).

Definition find_dead_slot : M Z :=
  k ← gets id;
  r ← floop (rounds 0 (num_tasks k)) 0 (fun i =>
    t ← task_at i; mret (if decide (state t = TASK_DEAD) then Some i else None));
  mret (default (-1) r).

(** The table of entry [i] of [dir], unless the kernel's directory has it. *)
Definition free_table (dir i : Z) : st (hw F) unit :=
  entry ← load (dir + 4 * i);
  if negb (present entry) then mret tt else
  global_entry ← load (page_directory + 4 * i);
  if present global_entry && (frame_of entry =? frame_of global_entry) then mret tt
  else pmm_free_block (frame_of entry).

Definition free_task_address_space (slot : Z) : M unit :=
  t ← task_at slot;
  if (dir t =? 0) || (dir t =? page_directory) then mret tt else
  in_hw (switch_page_directory page_directory;;
         ffor 1024 0 (free_table (dir t));;
         pmm_free_block (frame_of (dir t));;
         ffor (length (owned_frames t)) 0 (fun i => pmm_free_block ((owned_frames t).[i])));;
  upd slot (fun t => set_dir 0 (set_owned [] t)).

Definition task_track_frames (slot : Z) (fr : list Z) : M Z :=
  bad ← no_slot slot;
  if bad : bool then mret (-1) else
  t ← task_at slot;
  if TASK_MAX_OWNED_FRAMES <? zlen (owned_frames t) + zlen fr then mret (-1) else
  upd slot (set_owned (owned_frames t ++ fr));;
  mret 0.

(** The last frame takes the place of the first equal to [frame]. *)
Definition remove_frame (l : list Z) (i : Z) : list Z := take (length l - 1) (l.[i := l.[zlen l - 1]]).
Definition task_untrack_frame (slot frame : Z) : M Z :=
  bad ← no_slot slot;
  if bad : bool then mret (-1) else
  t ← task_at slot;
  match first_some (fun i => if (owned_frames t).[i] =? frame then Some i else None) (length (owned_frames t)) 0 with
  | Some i => upd slot (set_owned (remove_frame (owned_frames t) i));; mret 0
  | None => mret (-1)
  end.

Definition task_map_user_page (slot phys virt flags : Z) : M Z :=
  bad ← no_slot slot;
  if bad : bool then mret (-1) else
  t ← task_at slot;
  if dir t =? 0 then mret (-1) else
  in_hw (unmap_page_dir (dir t) virt;; map_page_dir (dir t) phys virt flags);;
  mret 0.

(** 0: not mapped. *)
Definition translate (h : hw F) (d virt : Z) : Z :=
  let e := ld32 (ram h) (d + 4 * pd_index virt) in
  if negb (present e) then 0 else
  let p := ld32 (ram h) (frame_of e + 4 * pt_index virt) in
  if negb (present p) then 0 else Z.lor (frame_of p) (Z.land virt 0xFFF).
Definition task_translate_user_ptr (slot virt : Z) : M Z :=
  bad ← no_slot slot;
  if bad : bool then mret 0 else
  t ← task_at slot;
  if dir t =? 0 then mret 0 else gets (fun k => translate (khw k) (dir t) virt).

(** The loop of [task_write_user_mem]: one page, or the part of it that is
    left, per round. *)
Fixpoint write_user_loop (fuel : nat) (slot uva : Z) (data : list Z) (len written : Z) : M Z :=
  match fuel with
  | O => mret 0
  | S fuel =>
      if written <? len then
        phys ← task_translate_user_ptr slot (u32 (uva + written));
        if phys =? 0 then mret (-1) else
        let page_off := Z.land (u32 (uva + written)) 0xFFF in
        let chunk := Z.min (4096 - page_off) (len - written) in
        in_hw (modify (fun h => set_ram (store_bytes phys (slice data written chunk) (ram h)) h));;
        write_user_loop fuel slot uva data len (written + chunk)
      else mret 0
  end.
Definition task_write_user_mem (slot uva : Z) (data : list Z) (len : Z) : M Z :=
  bad ← no_slot slot;
  if bad : bool then mret (-1) else
  write_user_loop (Z.to_nat (len / 4096 + 2)) slot uva data len 0.

Definition brk_of (t : task) : Z := if heap_virt_next t <? USER_HEAP_BASE then USER_HEAP_BASE else heap_virt_next t.
Definition task_get_heap_break (slot : Z) : M Z :=
  bad ← no_slot slot;
  if bad : bool then mret 0 else
  t ← task_at slot; mret (brk_of t).

Definition page_up (a : Z) : Z := Z.land (u32 (a + (PMM_BLOCK_SIZE - 1))) 0xFFFFF000.
(** Unmap the page of [va] and give its frame back. *)
Definition release_page (slot va : Z) : M unit :=
  p ← task_translate_user_ptr slot va;
  t ← task_at slot;
  in_hw (unmap_page_dir (dir t) va);;
  if p =? 0 then mret tt else
  task_untrack_frame slot p;;
  in_hw (pmm_free_block p).
Definition pages (from to : Z) : nat := Z.to_nat ((to - from) / PMM_BLOCK_SIZE).
Definition release_pages (slot from to : Z) : M unit :=
  ffor (pages from to) 0 (fun i => release_page slot (from + PMM_BLOCK_SIZE * i)).

(** One page more; [Some tt] is the rollback that ends the call. *)
Definition grow_page (slot cur_aligned : Z) (i : Z) : M (option unit) :=
  let va := cur_aligned + PMM_BLOCK_SIZE * i in
  phys ← in_hw pmm_alloc_block;
  if phys =? 0 then release_pages slot cur_aligned va;; mret (Some tt) else
  r ← task_track_frames slot [phys];
  if negb (r =? 0) then in_hw (pmm_free_block phys);; release_pages slot cur_aligned va;; mret (Some tt) else
  task_map_user_page slot phys va 0x07;;
  mret None.

Definition task_set_heap_break (slot new_break : Z) : M Z :=
  bad ← no_slot slot;
  if bad : bool then mret 0 else
  t ← task_at slot;
  let cur := brk_of t in
  if (new_break =? 0) || (new_break <? USER_HEAP_BASE) || (USER_HEAP_MAX <? new_break) then mret cur else
  let cur_aligned := page_up cur in
  let new_aligned := page_up new_break in
  failed ← (if cur_aligned <? new_aligned then floop (pages cur_aligned new_aligned) 0 (grow_page slot cur_aligned)
            else release_pages slot new_aligned cur_aligned;; mret None);
  match failed with
  | Some _ => mret cur
  | None => upd slot (set_brk new_break);; mret new_break
  end.

Definition task_abort_user (slot : Z) : M unit :=
  bad ← no_slot slot;
  if bad : bool then mret tt else
  free_task_address_space slot;;
  upd slot (set_state TASK_DEAD).

Definition task_killed : M unit := modify (fun k => set_vfs_lock (vfs_task_killed (current_task k) (vfs_lock k)) k).
Definition task_exit : M unit :=
  task_killed;;
  k ← gets id;
  free_task_address_space (current_task k);;
  upd (current_task k) (set_state TASK_DEAD).
(** [fault_handler] on an exception raised in ring 3. *)
Definition fault_kill : M unit :=
  k ← gets id;
  if current_task k <? 0 then mret tt else
  task_killed;;
  upd (current_task k) (set_state TASK_DEAD).

Definition init_multitasking : M unit :=
  upd 0 (fun t => set_dir page_directory (set_state TASK_RUNNING (set_pid 0 t)));;
  modify (fun k => set_next_pid 1 (set_current 0 (set_num 1 k))).

(** ** The scheduler *)

Definition runnable (t : task) : bool := bool_decide (state t = TASK_READY) || bool_decide (state t = TASK_RUNNING).
(** The next task in the circle. *)
Definition next_task : M (option unit) :=
  modify (fun k => set_current (let c := current_task k + 1 in if num_tasks k <=? c then 0 else c) k);;
  k ← gets id;
  mret (if runnable ((tasks k).[current_task k]) then Some tt else None).

Definition tss_set_kernel_stack (v : Z) : M unit := modify (set_tss v).

(** The stack pointer to continue with. *)
Definition schedule_handler (esp : Z) : M Z :=
  modify (fun k => set_system_ticks (u32 (system_ticks k + 1)) k);;
  k ← gets id;
  if num_tasks k <=? 1 then mret esp else
  when (0 <=? current_task k) (upd (current_task k) (set_esp esp));;
  if 0 <? ticks_left_on_current k then
    modify (set_ticks_left (ticks_left_on_current k - 1));;
    t ← task_at (current_task k);
    tss_set_kernel_stack (kernel_stack_top t);;
    mret (Task.esp t)
  else
    found ← floop (rounds 0 (num_tasks k)) 0 (fun _ => next_task);
    match found with
    | Some _ => mret tt
    | None =>
        t0 ← task_at 0;
        if decide (state t0 = TASK_DEAD)
        then modify (set_current (if (0 <=? current_task k) && (current_task k <? num_tasks k) then current_task k else 0))
        else modify (set_current 0);; upd 0 (set_state TASK_RUNNING)
    end;;
    k ← gets id;
    t ← task_at (current_task k);
    modify (set_ticks_left (if 0 <? priority t then priority t - 1 else 0));;
    tss_set_kernel_stack (kernel_stack_top t);;
    in_hw (switch_page_directory (dir t));;
    mret (Task.esp t).

(** ** Making tasks *)

Section create.
Context (task_stacks task_kstacks : Z).
Definition stack_of (slot : Z) : Z := task_stacks + slot * (TASK_GUARD_SIZE + TASK_STACK_SIZE).
Definition kstack_of (slot : Z) : Z := task_kstacks + slot * (TASK_GUARD_SIZE + TASK_KSTACK_SIZE).

(** [*(--stack) = v] for each word; the stack pointer after. *)
Fixpoint push_words (ws : list Z) (sp : Z) : M Z :=
  match ws with
  | [] => mret sp
  | w :: ws => in_hw (store (u32 (sp - 4)) w);; push_words ws (u32 (sp - 4))
  end.

(** A dead slot, or a new one; -1 when the table is full. *)
Definition take_slot : M Z :=
  slot ← find_dead_slot;
  if 0 <=? slot then mret slot else
  k ← gets id;
  if MAX_TASKS <=? num_tasks k then mret (-1) else
  modify (set_num (num_tasks k + 1));;
  mret (num_tasks k).

(** [tasks[slot].pid = next_pid++]. *)
Definition take_pid (slot : Z) : M unit :=
  k ← gets id;
  upd slot (set_pid (next_pid k));;
  modify (set_next_pid (u32 (next_pid k + 1))).

Definition create_task (entry_point priority : Z) : M Z :=
  slot ← take_slot;
  if slot <? 0 then mret (-1) else
  upd slot (fun t => set_heap heap_arena_init (set_owned [] t));;
  sp ← push_words ([0x0202; 0x10; entry_point; 0; 32] ++ replicate 8 0 ++ replicate 4 0x18)
         (stack_of slot + TASK_GUARD_SIZE + TASK_STACK_SIZE);
  upd slot (set_esp sp);;
  take_pid slot;;
  upd slot (fun t => set_kstack (kstack_of slot + TASK_GUARD_SIZE + TASK_KSTACK_SIZE)
                       (set_is_user 0 (set_priority priority (set_state TASK_READY t))));;
  d ← in_hw clone_kernel_page_directory;
  if d =? 0 then upd slot (set_state TASK_DEAD);; mret (-1) else
  in_hw (unmap_page_dir d (stack_of slot);; unmap_page_dir d (kstack_of slot));;
  upd slot (set_dir d);;
  mret slot.

(** One page of the user stack; [Some tt] is a failure. *)
Definition stack_page (slot : Z) (i : Z) : M (option unit) :=
  phys ← in_hw pmm_alloc_block;
  if phys =? 0 then task_abort_user slot;; mret (Some tt) else
  r ← task_track_frames slot [phys];
  if negb (r =? 0) then in_hw (pmm_free_block phys);; task_abort_user slot;; mret (Some tt) else
  task_map_user_page slot phys (USER_STACK_TOP - TASK_STACK_SIZE + PMM_BLOCK_SIZE * i) 0x07;;
  mret None.

Definition task_create_user (priority : Z) : M Z :=
  slot ← take_slot;
  if slot <? 0 then mret (-1) else
  upd slot (fun t => set_kstack (kstack_of slot + TASK_GUARD_SIZE + TASK_KSTACK_SIZE)
                       (set_brk USER_HEAP_BASE (set_heap heap_arena_init (set_is_user 1 (set_priority priority
                       (set_state TASK_DEAD (set_owned [] t)))))));;
  d ← in_hw clone_kernel_page_directory;
  if d =? 0 then mret (-1) else
  upd slot (set_dir d);;
  r ← floop (pages (USER_STACK_TOP - TASK_STACK_SIZE) USER_STACK_TOP) 0 (stack_page slot);
  mret (match r with Some _ => -1 | None => slot end).

Definition task_start_user (slot entry_point user_esp : Z) : M unit :=
  bad ← no_slot slot;
  if bad : bool then mret tt else
  t ← task_at slot;
  let user_stack_top := if user_esp =? 0 then USER_STACK_TOP else user_esp in
  sp ← push_words ([GDT_USER_DATA_SEL; user_stack_top; 0x0202; GDT_USER_CODE_SEL; entry_point; 0; 128]
                     ++ replicate 8 0 ++ replicate 4 GDT_USER_DATA_SEL) (kernel_stack_top t);
  upd slot (set_esp sp);;
  take_pid slot;;
  upd slot (set_state TASK_READY);;
  in_hw (unmap_page_dir (dir t) (kstack_of slot)).

Definition create_user_task (entry_point priority : Z) : M Z :=
  slot ← task_create_user priority;
  if slot <? 0 then mret (-1) else
  task_start_user slot entry_point 0;;
  mret slot.
End create.

End ops.
End Task.
