(* ===== verification/Sched.v ===== *)
(** The scheduler: which task each timer interrupt continues, and how long a
    task that can run waits for its turn. *)
From S2P Require Import Prelude Pmm Mem Paging Disk VfsData Vfs Task.
From stdpp Require Import base list gmap numbers.
From Stdlib Require Import ZArith Lia.
Import Pmm Mem Paging VfsData VfsLock Task.
Open Scope Z_scope.

Module Sched.

Section sched.
Context {F : Type} `{FrameAlloc F}.
Implicit Types k : kst F.

(** The task [m] places further in the circle. *)
Definition ring k (m : Z) : Z := (current_task k + m) mod num_tasks k.
Definition can_run k (i : Z) : bool := runnable ((tasks k).[i]).
Definition in_table k : Prop := 0 <= current_task k < num_tasks k.

Lemma ring_step k m : in_table k -> 0 <= m ->
  (let c := ring k m + 1 in if num_tasks k <=? c then 0 else c) = ring k (m + 1).
Proof.
  unfold in_table, ring. intros Hc Hm. cbn zeta. replace (current_task k + (m + 1)) with (current_task k + m + 1) by lia.
  pose proof (Z.mod_pos_bound (current_task k + m) (num_tasks k) ltac:(lia)) as Hb.
  rewrite (Z.add_mod (current_task k + m) 1) by lia. destruct (decide (num_tasks k = 1)) as [E|].
  { rewrite E, !Z.mod_1_r in *. done. }
  rewrite (Z.mod_small 1) by lia. generalize dependent ((current_task k + m) mod num_tasks k). intros x Hb.
  destruct (Z.leb_spec (num_tasks k) (x + 1)).
  - replace (x + 1) with (num_tasks k) by lia. by rewrite Z.mod_same by lia.
  - rewrite Z.mod_small by lia. done.
Qed.

Lemma next_task_run k m : in_table k -> 0 <= m ->
  next_task (set_current (ring k m) k) = (if can_run k (ring k (m + 1)) then Some tt else None, set_current (ring k (m + 1)) k).
Proof.
  intros Hk Hm. pose proof (ring_step k m Hk Hm) as Er. cbn zeta in Er. unfold next_task. munfold.
  cbn [current_task num_tasks set_current tasks]. rewrite Er. reflexivity.
Qed.

(** The search takes the nearest task of the circle that can run. *)
Lemma search_run n k m i : in_table k -> 0 <= m ->
  (exists j, m < j <= m + Z.of_nat n /\ can_run k (ring k j) = true /\ (forall l, m < l < j -> can_run k (ring k l) = false) /\
     floop n i (fun _ => next_task) (set_current (ring k m) k) = (Some tt, set_current (ring k j) k)) \/
  ((forall l, m < l <= m + Z.of_nat n -> can_run k (ring k l) = false) /\
     floop n i (fun _ => next_task) (set_current (ring k m) k) = (None, set_current (ring k (m + Z.of_nat n)) k)).
Proof.
  intros Hk. revert m i. induction n as [|n IH]; intros m i Hm; cbn [floop].
  { right. split; [lia|]. rewrite Z.add_0_r. done. }
  rewrite next_task_run by done. destruct (can_run k (ring k (m + 1))) eqn:Ec.
  - left. exists (m + 1). split; [lia|]. split; [done|]. split; [intros; lia|]. done.
  - destruct (IH (m + 1) (i + 1) ltac:(lia)) as [(j & Hj & Hr & Hl & E)|[Hl E]].
    + left. exists j. split; [lia|]. split; [done|]. split; [|exact E]. intros l Hl'.
      destruct (decide (l = m + 1)) as [->|]; [done|apply Hl; lia].
    + right. split.
      * intros l Hl'. destruct (decide (l = m + 1)) as [->|]; [done|apply Hl; lia].
      * replace (m + Z.of_nat (S n)) with (m + 1 + Z.of_nat n) by lia. exact E.
Qed.

(** The state in which the interrupt looks for the next task. *)
Definition preempted (esp : Z) k : kst F :=
  set_tasks ((tasks k).[current_task k := set_esp esp ((tasks k).[current_task k])]) (set_system_ticks (u32 (system_ticks k + 1)) k).
Definition slice_of (t : task) : Z := if 0 <? priority t then priority t - 1 else 0.
Definition switch_to (j : Z) k : kst F :=
  let t := (tasks k).[j] in
  set_hw (set_cr3 (dir t) (khw k)) (set_tss (kernel_stack_top t) (set_ticks_left (slice_of t) (set_current j k))).

Lemma tick_stay esp k : 1 < num_tasks k -> in_table k -> 0 < ticks_left_on_current k ->
  schedule_handler esp k =
  (Task.esp ((tasks (preempted esp k)).[current_task k]),
   set_tss (kernel_stack_top ((tasks (preempted esp k)).[current_task k])) (set_ticks_left (ticks_left_on_current k - 1) (preempted esp k))).
Proof.
  intros Hn [Hc _] Ht. unfold schedule_handler. munfold. cbn [id num_tasks set_system_ticks].
  rewrite (proj2 (Z.leb_gt (num_tasks k) 1)) by lia. cbn [id current_task set_system_ticks]. rewrite (proj2 (Z.leb_le 0 (current_task k))) by lia.
  cbn [id ticks_left_on_current set_system_ticks set_tasks]. rewrite (proj2 (Z.ltb_lt 0 (ticks_left_on_current k))) by lia. reflexivity.
Qed.

Lemma tick_switch esp k j : 1 < num_tasks k -> in_table k -> ticks_left_on_current k <= 0 -> 1 <= j <= num_tasks k ->
  can_run (preempted esp k) (ring k j) = true -> (forall l, 1 <= l < j -> can_run (preempted esp k) (ring k l) = false) ->
  schedule_handler esp k = (Task.esp ((tasks (preempted esp k)).[ring k j]), switch_to (ring k j) (preempted esp k)).
Proof.
  intros Hn Hk Ht Hj Hr Hl. unfold schedule_handler. munfold. cbn [id num_tasks set_system_ticks].
  rewrite (proj2 (Z.leb_gt (num_tasks k) 1)) by lia. cbn [id current_task set_system_ticks]. rewrite (proj2 (Z.leb_le 0 (current_task k))) by (unfold in_table in Hk; lia).
  cbn [id ticks_left_on_current set_system_ticks set_tasks]. rewrite (proj2 (Z.ltb_ge 0 (ticks_left_on_current k))) by lia.
  set (k1 := preempted esp k). assert (Hk1 : in_table k1) by exact Hk.
  pose proof (search_run (rounds 0 (num_tasks k)) k1 0 0 Hk1 ltac:(lia)) as Hs.
  assert (E0 : set_current (ring k1 0) k1 = k1).
  { unfold ring. rewrite Z.add_0_r, Z.mod_small by exact Hk1. by destruct k. }
  rewrite E0 in Hs. fold (preempted esp k). fold k1. unfold rounds in *. rewrite Z.sub_0_r, Z2Nat.id in Hs by lia. rewrite Z.sub_0_r in *.
  destruct Hs as [(j' & Hj' & Hr' & Hl' & E)|[Hl' E]].
  - assert (j' = j) as ->.
    { destruct (Z.lt_trichotomy j' j) as [Hlt|[|Hlt]]; [|done|].
      - assert (X : can_run k1 (ring k1 j') = false) by exact (Hl j' ltac:(lia)). congruence.
      - assert (X : can_run k1 (ring k1 j) = true) by exact Hr. specialize (Hl' j ltac:(lia)). congruence. }
    unfold upd, modify. cbv beta iota zeta.
    match goal with |- context [floop ?n ?i ?f ?s] => change (floop n i f s) with (floop (Z.to_nat (num_tasks k)) 0 (fun _ : Z => next_task) k1) end.
    rewrite E. reflexivity.
  - assert (X : can_run k1 (ring k1 j) = true) by exact Hr. specialize (Hl' j ltac:(lia)). congruence.
Qed.

(** ** What an interrupt does to the table *)

Record table_ok k : Prop := {
  to_len : zlen (tasks k) = MAX_TASKS;
  to_num : 1 < num_tasks k <= MAX_TASKS;
  to_cur : in_table k;
}.

Lemma preempted_at esp k i : table_ok k -> 0 <= i ->
  (tasks (preempted esp k)).[i] = if decide (i = current_task k) then set_esp esp ((tasks k).[i]) else (tasks k).[i].
Proof.
  intros [Hl Hn Hc] Hi. unfold preempted. cbn [tasks set_tasks set_system_ticks]. unfold in_table in Hc.
  rewrite aget_aset by lia. destruct (decide (current_task k = i)) as [<-|]; [by rewrite decide_True|by rewrite decide_False by lia].
Qed.
Lemma preempted_run esp k i : table_ok k -> 0 <= i -> can_run (preempted esp k) i = can_run k i.
Proof. intros. unfold can_run. rewrite preempted_at by done. by case_decide. Qed.
Lemma preempted_priority esp k i : table_ok k -> 0 <= i -> priority ((tasks (preempted esp k)).[i]) = priority ((tasks k).[i]).
Proof. intros. rewrite preempted_at by done. by case_decide. Qed.

Lemma ring_bound k m : table_ok k -> 0 <= ring k m < num_tasks k.
Proof. intros [_ Hn _]. apply Z.mod_pos_bound. lia. Qed.
(** How far a task is away in the circle: a full turn for the current one. *)
Definition ahead k (j : Z) : Z := if current_task k <? j then j - current_task k else num_tasks k - current_task k + j.
Lemma ring_ahead k j : table_ok k -> 0 <= j < num_tasks k -> ring k (ahead k j) = j /\ 1 <= ahead k j <= num_tasks k.
Proof.
  intros [_ Hn Hc] Hj. unfold in_table in Hc. unfold ring, ahead. destruct (Z.ltb_spec (current_task k) j).
  - replace (current_task k + (j - current_task k)) with j by lia. rewrite Z.mod_small by lia. lia.
  - replace (current_task k + (num_tasks k - current_task k + j)) with (j + 1 * num_tasks k) by lia.
    rewrite Z.mod_add, Z.mod_small by lia. lia.
Qed.

(** The nearest task that can run, when there is one. *)
Lemma nearest_run k j : table_ok k -> 0 <= j < num_tasks k -> can_run k j = true ->
  exists m, 1 <= m <= ahead k j /\ can_run k (ring k m) = true /\ (forall l, 1 <= l < m -> can_run k (ring k l) = false).
Proof.
  intros Hk Hj Hr. destruct (ring_ahead k j Hk Hj) as [Ea Ha].
  destruct (search_run (Z.to_nat (num_tasks k)) k 0 0 (to_cur _ Hk) ltac:(lia)) as [(m & Hm & Hrm & Hl & _)|[Hl _]].
  - exists m. split; [|split; [done|intros; apply Hl; lia]]. split; [lia|].
    destruct (decide (m <= ahead k j)); [done|]. specialize (Hl (ahead k j) ltac:(lia)). rewrite Ea in Hl. congruence.
  - specialize (Hl (ahead k j) ltac:(lia)). rewrite Ea in Hl. congruence.
Qed.

(** The interrupt at the end of a slice, when some task [j] can run. *)
Lemma slice_end esp k j : table_ok k -> ticks_left_on_current k <= 0 -> 0 <= j < num_tasks k -> can_run k j = true ->
  exists m, 1 <= m <= ahead k j /\ can_run k (ring k m) = true /\ (forall l, 1 <= l < m -> can_run k (ring k l) = false) /\
    schedule_handler esp k = (Task.esp ((tasks (preempted esp k)).[ring k m]), switch_to (ring k m) (preempted esp k)).
Proof.
  intros Hk Ht Hj Hr. destruct (nearest_run k j Hk Hj Hr) as (m & Hm & Hrm & Hl). destruct (ring_ahead k j Hk Hj) as [_ Ha].
  exists m. do 3 (split; [done|]). apply tick_switch; [apply Hk|apply Hk|done|lia| |].
  - rewrite preempted_run by (done || apply ring_bound; done). done.
  - intros l Hl'. rewrite preempted_run by (done || apply ring_bound; done). by apply Hl.
Qed.

(** ** Waiting *)

(** What the rest of the kernel may do between two interrupts while [j] can
    run: change any task, add tasks, but not the scheduler's own variables. *)
Record between (j P : Z) k k' : Prop := {
  bt_cur : current_task k' = current_task k;
  bt_left : ticks_left_on_current k' = ticks_left_on_current k;
  bt_num : num_tasks k <= num_tasks k';
  bt_ok : table_ok k';
  bt_run : 0 <= j < num_tasks k' /\ can_run k' j = true;
  bt_prio : forall i, 0 <= i < num_tasks k' -> 0 <= priority ((tasks k').[i]) <= P;
}.

(** [n] interrupts follow, none of which continues with task [j]. *)
Inductive waiting (j P : Z) : nat -> kst F -> Prop :=
| waiting_0 k : waiting j P 0 k
| waiting_S n k k1 esp : between j P k k1 -> current_task (schedule_handler esp k1).2 <> j ->
    waiting j P n (schedule_handler esp k1).2 -> waiting j P (S n) k.

(** The bound: what is left of the slice, then a slice of at most [max 1 P]
    interrupts for each task on the way. *)
Definition places (j c : Z) : Z := if c <? j then j - c else MAX_TASKS - c + j.
Definition wait_bound (j P : Z) k : Z := Z.max 0 (ticks_left_on_current k) + places j (current_task k) * Z.max 1 P.

Lemma places_ring k j m : table_ok k -> 0 <= j < num_tasks k -> 1 <= m <= ahead k j -> ring k m <> j ->
  places j (ring k m) + 1 <= places j (current_task k).
Proof.
  intros Hk Hj Hm Hne. destruct (ring_ahead k j Hk Hj) as [Ea _]. destruct Hk as [_ Hn Hc]. unfold in_table in Hc.
  assert (m <> ahead k j) by congruence. unfold ring in *. unfold ahead in *. unfold places.
  assert (Hr : (current_task k + m) mod num_tasks k = if current_task k + m <? num_tasks k then current_task k + m else current_task k + m - num_tasks k).
  { destruct (Z.ltb_spec (current_task k + m) (num_tasks k)); [apply Z.mod_small; lia|].
    replace (current_task k + m) with (current_task k + m - num_tasks k + 1 * num_tasks k) at 1 by lia. rewrite Z.mod_add by lia.
    apply Z.mod_small. destruct (current_task k <? j); lia. }
  rewrite Hr in *. clear Hr Ea. destruct (Z.ltb_spec (current_task k + m) (num_tasks k)), (Z.ltb_spec (current_task k) j);
    [destruct (Z.ltb_spec (current_task k + m) j)|destruct (Z.ltb_spec (current_task k + m) j)|
     destruct (Z.ltb_spec (current_task k + m - num_tasks k) j)|destruct (Z.ltb_spec (current_task k + m - num_tasks k) j)]; lia.
Qed.

(** Every interrupt that does not continue with [j] brings it nearer. *)
Lemma tick_nearer j P k k1 esp : between j P k k1 -> current_task (schedule_handler esp k1).2 <> j ->
  wait_bound j P (schedule_handler esp k1).2 + 1 <= wait_bound j P k /\ table_ok (schedule_handler esp k1).2.
Proof.
  intros [Ec El En Hk1 [Hj Hr] HP] Hne. unfold wait_bound. rewrite <- Ec, <- El.
  destruct (decide (0 < ticks_left_on_current k1)) as [Ht|Ht].
  - rewrite tick_stay in * by (done || apply Hk1). cbn [snd ticks_left_on_current current_task set_tss set_ticks_left preempted set_tasks set_system_ticks] in *.
    split; [lia|]. destruct Hk1 as [Hl Hn Hc]. constructor; [|exact Hn|exact Hc]. cbn [tasks set_tss set_ticks_left preempted set_tasks set_system_ticks].
    by rewrite zlen_aset.
  - destruct (slice_end esp k1 j Hk1 ltac:(lia) Hj Hr) as (m & Hm & Hrm & _ & E). rewrite E in *. cbn [snd] in *.
    cbn [ticks_left_on_current current_task switch_to set_hw set_tss set_ticks_left set_current] in *.
    pose proof (places_ring k1 j m Hk1 Hj Hm Hne) as Hp. pose proof (ring_bound k1 m Hk1) as Hb. specialize (HP (ring k1 m) Hb). split.
    + assert (slice_of ((tasks (preempted esp k1)).[ring k1 m]) <= Z.max 1 P - 1).
      { unfold slice_of. rewrite preempted_priority by (done || lia). destruct (Z.ltb_spec 0 (priority ((tasks k1).[ring k1 m]))); lia. }
      assert (places j (ring k1 m) * Z.max 1 P + Z.max 1 P <= places j (current_task k1) * Z.max 1 P) by nia. lia.
    + destruct Hk1 as [Hl Hn Hc]. constructor; [|exact Hn|exact Hb]. cbn. by rewrite zlen_aset.
Qed.

Lemma waiting_bound j P n k : 0 <= j -> table_ok k -> waiting j P n k -> Z.of_nat n <= wait_bound j P k.
Proof.
  intros Hj Hk Hw. induction Hw as [k|n k k1 esp Hb Hne Hw IH].
  - destruct Hk as [_ Hn Hc]. unfold in_table in Hc. unfold wait_bound. assert (0 <= places j (current_task k)); [|nia].
    unfold places. destruct (Z.ltb_spec (current_task k) j); lia.
  - destruct (tick_nearer j P k k1 esp Hb Hne) as [Hm Hk']. specialize (IH Hk'). lia.
Qed.

(** ** Properties *)

(** The timer interrupt. Its caller's stack pointer is saved in the
    current task and nothing else in the task table changes; the tick counter
    advances in 32 bits; the value returned is the stack pointer last saved by
    the task that continues, and the processor's kernel stack is that task's.
    While the slice lasts the same task continues in the same address space
    with one tick less. At its end the nearest task of the circle that can run
    continues, in its own directory, with [priority] ticks (at least one). *)
Theorem schedule_handler_spec esp k j : table_ok k -> 0 <= j < num_tasks k -> can_run k j = true ->
  let r := (schedule_handler esp k).1 in let k' := (schedule_handler esp k).2 in let t := (tasks k').[current_task k'] in
  (forall i, 0 <= i < num_tasks k -> (tasks k').[i] = if decide (i = current_task k) then set_esp esp ((tasks k).[i]) else (tasks k).[i]) /\
  num_tasks k' = num_tasks k /\ system_ticks k' = u32 (system_ticks k + 1) /\ r = Task.esp t /\ tss_esp0 k' = kernel_stack_top t /\
  (0 < ticks_left_on_current k ->
     current_task k' = current_task k /\ ticks_left_on_current k' = ticks_left_on_current k - 1 /\ khw k' = khw k) /\
  (ticks_left_on_current k <= 0 -> exists m, 1 <= m <= ahead k j /\ current_task k' = ring k m /\ can_run k (ring k m) = true /\
     (forall l, 1 <= l < m -> can_run k (ring k l) = false) /\
     ticks_left_on_current k' = (if 0 <? priority t then priority t - 1 else 0) /\ khw k' = set_cr3 (dir t) (khw k)).
Proof.
  intros Hk Hj Hr. cbn zeta. destruct (decide (0 < ticks_left_on_current k)) as [Ht|Ht].
  - rewrite tick_stay by (done || apply Hk). cbn. split; [|do 5 (split; [done|]); lia].
    intros i Hi. apply (preempted_at esp k i Hk). lia.
  - destruct (slice_end esp k j Hk ltac:(lia) Hj Hr) as (m & Hm & Hrm & Hl & ->). cbn.
    split; [intros i Hi; apply (preempted_at esp k i Hk); lia|]. do 4 (split; [done|]). split; [lia|]. intros _.
    exists m. repeat (split; [done|]). done.
Qed.

(** C5 - No task starves: a task that stays able to run is continued after at
    most [wait_bound] timer interrupts, whatever the rest of the kernel does
    between them (tasks die, fall asleep, are created or re-prioritised up to
    [P]); the bound is the rest of the current slice plus one slice of at most
    [max 1 P] interrupts for each of the 32 places of the table. *)
Theorem schedule_bounded_wait j P n k : table_ok k -> 0 <= j < MAX_TASKS -> waiting j P n k ->
  Z.of_nat n <= wait_bound j P k /\ wait_bound j P k <= Z.max 0 (ticks_left_on_current k) + MAX_TASKS * Z.max 1 P.
Proof.
  intros Hk Hj Hw. split; [apply waiting_bound; [lia|done|done]|]. destruct Hk as [_ Hn Hc]. unfold in_table in Hc.
  unfold wait_bound, places. destruct (Z.ltb_spec (current_task k) j); nia.
Qed.

End sched.

(** ** A table of three tasks *)

Definition demo_task (st : task_state) (prio esp : Z) : task := set_state st (set_priority prio (set_esp esp zero_task)).
Definition demo_tasks : list task :=
  [demo_task TASK_RUNNING 2 100; demo_task TASK_READY 1 200; demo_task TASK_DEAD 2 300; demo_task TASK_READY 0 400] ++ replicate 28 zero_task.
Definition demo_sched : kst pmm := mk_kst (mk_hw ∅ (mk_pmm [] 0 0) 0) demo_tasks 0 4 4 1 0 0 lock_free.

Lemma demo_ok : table_ok demo_sched.
Proof. constructor; vm_compute; repeat split; discriminate. Qed.

Lemma schedule_handler_spec_witness : can_run demo_sched 3 = true /\ (schedule_handler 77 demo_sched).1 = 77.
Proof.
  split; [reflexivity|].
  pose proof (schedule_handler_spec 77 demo_sched 3 demo_ok ltac:(vm_compute; split; congruence) eq_refl) as (_ & _ & _ & E & _).
  etransitivity; [exact E|reflexivity].
Defined.

(** Task 3 waits for the rest of the slice of task 0 and the slice of task 1. *)
Lemma demo_between n : (n < 3)%nat -> between 3 2 (Nat.iter n (fun k => (schedule_handler 50 k).2) demo_sched) (Nat.iter n (fun k => (schedule_handler 50 k).2) demo_sched).
Proof.
  intros Hn. assert (Hp : forall (k : kst pmm), num_tasks k = 4 -> forallb (fun i => (0 <=? priority ((tasks k).[i])) && (priority ((tasks k).[i]) <=? 2)) [0; 1; 2; 3] = true ->
    forall i, 0 <= i < num_tasks k -> 0 <= priority ((tasks k).[i]) <= 2).
  { intros k -> Hf i Hi. rewrite forallb_forall in Hf. assert (Hin : In i [0; 1; 2; 3]) by (cbn; lia). specialize (Hf i Hin). lia. }
  destruct n as [|[|[|n]]]; [..|lia]; (constructor; [done|done|done|constructor; vm_compute; repeat split; discriminate|vm_compute; repeat split; discriminate|apply Hp; reflexivity]).
Qed.
Lemma demo_waiting : waiting 3 2 2 demo_sched.
Proof.
  apply (waiting_S 3 2 1 demo_sched demo_sched 50); [apply (demo_between 0); lia|discriminate|].
  apply (waiting_S 3 2 0 _ (schedule_handler 50 demo_sched).2 50); [apply (demo_between 1); lia|discriminate|]. constructor.
Qed.
Lemma schedule_bounded_wait_witness : current_task (Nat.iter 3 (fun k => (schedule_handler 50 k).2) demo_sched) = 3 /\ 2 <= wait_bound 3 2 demo_sched.
Proof. split; [reflexivity|]. exact (proj1 (schedule_bounded_wait 3 2 2 demo_sched demo_ok ltac:(vm_compute; split; congruence) demo_waiting)). Defined.

End Sched.
