(* ===== verification/TaskSpace.v ===== *)
(** Address spaces of tasks: mapping user pages, the heap break, and what
    happens to both when memory runs out. *)
From S2P Require Import Prelude Pmm Mem Paging PagingSpec Disk VfsData Vfs Task.
From stdpp Require Import base list gmap numbers.
From Stdlib Require Import ZArith Lia.
Import Mem Paging PagingSpec Task.
Open Scope Z_scope.

Module TaskSpace.

Section space.
Context {F : Type} `{FrameAlloc F, !FrameAllocLaws F}.
Implicit Types (h : hw F) (k : kst F).

(** A task's directory [d]: every entry has a table (the kernel maps all of
    the address space), the tables and the directory are in used frames, the
    kernel's directory does not use [d]'s frame, and the kernel reaches every
    free frame at its own address. *)
Record space h (d : Z) : Prop := {
  sp_frames : frames_ok (frames h);
  sp_dir : dir_ok h d d;
  sp_kernel : dir_ok h d page_directory;
  sp_private : page_directory <> d;
  sp_ident : identity h;
  sp_full : forall i, 0 <= i < 1024 -> present (pde h d i) = true;
}.

(** At least [n] frames are free. *)
Definition free_at_least h (n : nat) : Prop :=
  exists fr, NoDup fr /\ Forall (fun b => 0 <= b < PMM_MAX_BLOCKS /\ used_frame (frames h) b = false) fr /\ (n <= length fr)%nat.

Lemma free_some h n : free_at_least h (S n) -> exists b, 0 <= b < PMM_MAX_BLOCKS /\ used_frame (frames h) b = false.
Proof. intros ([|b fr] & _ & Hf & Hn); [cbn in Hn; lia|]. inversion Hf. by exists b. Qed.
Lemma filter_ne_id (a : Z) (fr : list Z) : a ∉ fr -> filter (.≠ a) fr = fr.
Proof.
  induction fr as [|x fr IH]; [done|]. intros Ha. apply list.not_elem_of_cons in Ha as [Hn Ha].
  rewrite filter_cons_True by congruence. by rewrite IH.
Qed.
Lemma length_filter_ne (a : Z) (fr : list Z) : NoDup fr -> (length fr <= S (length (filter (.≠ a) fr)))%nat.
Proof.
  induction 1 as [|x fr Hx Hnd IH]; [cbn; lia|]. destruct (decide (x = a)) as [->|Hne].
  - rewrite filter_cons_False by (intros Hne; by apply Hne). rewrite filter_ne_id by done. cbn. lia.
  - rewrite filter_cons_True by done. cbn. lia.
Qed.
Lemma free_less h h' b n : free_at_least h (S n) ->
  (forall c, 0 <= c < PMM_MAX_BLOCKS -> used_frame (frames h') c = if decide (c = b) then true else used_frame (frames h) c) -> free_at_least h' n.
Proof.
  intros (fr & Hnd & Hf & Hn) Hu. exists (filter (.≠ b) fr). split; [by apply list.NoDup_filter|]. split.
  - apply list.Forall_forall. intros c Hc. apply list_elem_of_filter in Hc as [Hcb Hc]. rewrite list.Forall_forall in Hf.
    destruct (Hf c Hc) as [Hr Hfree]. split; [done|]. rewrite Hu by done. by rewrite decide_False.
  - pose proof (length_filter_ne b fr Hnd). lia.
Qed.

(** At most [n] frames are free. *)
Definition free_at_most h (n : nat) : Prop :=
  exists fr, (length fr <= n)%nat /\ forall c, 0 <= c < PMM_MAX_BLOCKS -> used_frame (frames h) c = false -> c ∈ fr.
Lemma free_at_most_less h h' b n : free_at_most h (S n) -> 0 <= b < PMM_MAX_BLOCKS -> used_frame (frames h) b = false ->
  (forall c, 0 <= c < PMM_MAX_BLOCKS -> used_frame (frames h') c = if decide (c = b) then true else used_frame (frames h) c) -> free_at_most h' n.
Proof.
  intros (fr & Hn & Hf) Hb Hfree Hu. exists (filter (.≠ b) fr). split.
  - pose proof (list.length_filter_lt (.≠ b) fr b (Hf b Hb Hfree) ltac:(by intros X; apply X)). lia.
  - intros c Hc Hcf. rewrite Hu in Hcf by done. case_decide; [done|]. apply list_elem_of_filter. split; [done|]. by apply Hf.
Qed.
Lemma free_none h : free_at_most h 0 -> forall c, 0 <= c < PMM_MAX_BLOCKS -> used_frame (frames h) c = true.
Proof.
  intros (fr & Hn & Hf) c Hc. destruct (used_frame (frames h) c) eqn:E; [done|]. specialize (Hf c Hc E).
  destruct fr; [by apply list.elem_of_nil in Hf|cbn in Hn; lia].
Qed.

(** Taking a frame keeps address spaces. *)
Lemma dir_ok_alloc h x d a f : frames_ok (frames h) -> dir_ok h x d -> alloc_frame (frames h) = (a, f) -> dir_ok (set_frames f h) x d.
Proof.
  intros S1 [D1 D2 D3] E. destruct (alloc_law (frames h) S1) as [(b & f' & E' & Hb & Hfree & Hok & Hu)|[E' _]]; rewrite E in E'; injection E' as -> ->.
  2:{ by destruct h. }
  assert (Hgrow : forall y, is_frame y -> used h y = true -> used (set_frames f' h) y = true).
  { intros y (c & Hc & ->) Hx. unfold used in *. cbn [frames set_frames]. rewrite Z.div_mul in * by done. rewrite Hu by lia. by case_decide. }
  constructor; [done|by apply Hgrow|]. intros i Hi Hp. destruct (D3 i Hi Hp) as (T1 & T2 & T3). split; [done|]. split; [by apply Hgrow|done].
Qed.

Lemma space_alloc h d a f : space h d -> alloc_frame (frames h) = (a, f) -> space (set_frames f h) d.
Proof.
  intros [S1 S2 S3 S4 S5 S6] E. pose proof (dir_ok_alloc h d d a f S1 S2 E). pose proof (dir_ok_alloc h d page_directory a f S1 S3 E).
  destruct (alloc_law (frames h) S1) as [(b & f' & E' & Hb & Hfree & Hok & Hu)|[E' _]]; rewrite E in E'; injection E' as -> ->.
  2:{ by destruct h. }
  constructor; [done..| |done]. intros c Hc Hf. cbn [frames set_frames] in Hf. rewrite Hu in Hf by lia. case_decide; [done|]. by apply S5.
Qed.
(** What mapping the page of [va] to the entry [e] leaves; [b] is the frame
    of its private table. *)
Record mapped h (d va e b : Z) h' : Prop := {
  mp_free : 0 < b < PMM_MAX_BLOCKS /\ used_frame (frames h) b = false;
  mp_used : forall c, 0 <= c < PMM_MAX_BLOCKS -> used_frame (frames h') c = if decide (c = b) then true else used_frame (frames h) c;
  mp_space : space h' d;
  mp_cr3 : cr3 h' = cr3 h;
  mp_here : walk h' d va = Some e;
  mp_rest : forall vb, is_u32 vb -> vb / 4096 <> va / 4096 -> walk h' d vb = walk h d vb;
  mp_others : forall x, dir_ok h d x -> x <> d -> dir_ok h' d x /\ forall vb, is_u32 vb -> walk h' x vb = walk h x vb;
  mp_flags : forall i, 0 <= i < 1024 -> flags_of (pde h' d i) = flags_of (pde h d i);
  mp_mem : forall a, used h a = true -> a / 4096 <> d / 4096 -> ld8 (ram h') a = ld8 (ram h) a;
  mp_off : forall x y, used h y = true -> dir_ok h y x -> dir_ok h' y x;
}.

Lemma remapped_mapped h d va e b h' : space h d -> is_u32 va -> remapped h d va e b h' -> mapped h d va e b h'.
Proof.
  intros [S1 S2 S3 S4 S5 S6] Hva R. pose proof (S6 _ (pd_bound va Hva)) as Hp.
  assert (Hfl : forall i, 0 <= i < 1024 -> flags_of (pde h' d i) = flags_of (pde h d i)).
  { intros i Hi. destruct (decide (i = pd_index va)) as [->|Hn].
    - rewrite (rm_entry _ _ _ _ _ _ R). apply entry_parts; [apply R|apply flags_bound].
    - f_equal. eapply pde_other; eauto; apply S2. }
  assert (Hmem : forall a, used h a = true -> a / 4096 <> d / 4096 -> ld8 (ram h') a = ld8 (ram h) a).
  { intros a Hu Hn. pose proof (pd_bound va Hva) as Hpd. destruct (word_in d _ (do_frame _ _ _ S2) Hpd) as [Hw1 Hw2].
    apply (rm_rest _ _ _ _ _ _ R); [intros Ha; apply Hn; zdm|]. intros E. destruct (rm_free _ _ _ _ _ _ R) as [_ Hfree].
    unfold used in Hu. rewrite E, Z.div_mul in Hu by done. congruence. }
  constructor; [apply R|apply R| |apply R|eapply walk_here; eauto| | |done|done|].
  - constructor; [apply R|eapply dir_ok_here; eauto; apply S2|eapply dir_ok_others; eauto|done|eapply identity_kept; eauto|].
    intros i Hi. rewrite <- present_flags, Hfl, present_flags by done. by apply S6.
  - intros vb Hvb Hn. by apply (walk_rest h h' d va e b).
  - intros x Hx Hn. split; [by apply (dir_ok_others h h' d va e b)|]. intros vb Hvb. by apply (walk_others h h' d va e b).
  - intros x y Hu Hx. destruct (decide (x = d)) as [->|Hn]; [by eapply dir_ok_here|by apply (dir_ok_others h h' d va e b)].
Qed.

Lemma map_pages_run h d phys va flags : space h d -> is_u32 va -> is_u32 phys -> 0 <= flags < 4096 ->
  (exists b h', (unmap_page_dir d va;; map_page_dir d phys va flags) h = (tt, h') /\ mapped h d va (phys / 4096 * 4096 + flags) b h') \/
  ((forall b, 0 <= b < PMM_MAX_BLOCKS -> used_frame (frames h) b = true) /\
   (unmap_page_dir d va;; map_page_dir d phys va flags) h =
   (tt, set_ram (st32 (frame_of (pde h d (pd_index va)) + 4 * pt_index va) (phys / 4096 * 4096 + flags) (ram h)) h)).
Proof.
  intros Hs Hva Hph Hfl. pose proof Hs as [S1 S2 S3 S4 S5 S6].
  destruct (remap_run h d phys va flags S1 S2 S5 Hva Hph Hfl (S6 _ (pd_bound va Hva))) as [(b & h' & E & R)|R]; [left|by right].
  exists b, h'. split; [exact E|]. by apply remapped_mapped.
Qed.

(** The user bit is one of the flags. *)
Lemma user_bit_flags e : Z.testbit e 2 = Z.testbit (flags_of e) 2.
Proof. rewrite flags_mod. change 4096 with (2 ^ 12). by rewrite Z.mod_pow2_bits_low. Qed.

(** ** Tasks *)

(** A slot in use whose task has an address space. *)
Record slot_ok k (slot : Z) : Prop := {
  so_slot : 0 <= slot < num_tasks k;
  so_len : num_tasks k <= zlen (tasks k);
  so_space : space (khw k) (dir ((tasks k).[slot]));
}.

Lemma space_nonzero h d : space h d -> (d =? 0) = false.
Proof. intros Hs. destruct (frame_bounds d (do_frame _ _ _ (sp_dir _ _ Hs))). lia. Qed.
Lemma no_slot_run k slot : slot_ok k slot -> no_slot slot k = (false, k).
Proof. intros [Hs _ _]. unfold no_slot. munfold. f_equal. lia. Qed.

Lemma in_hw_run {A} (m : st (hw F) A) k : in_hw m k = ((m (khw k)).1, set_hw (m (khw k)).2 k).
Proof. unfold in_hw. by destruct (m (khw k)). Qed.

Lemma map_user_run k slot phys va flags : slot_ok k slot ->
  task_map_user_page slot phys va flags k =
  (0, set_hw ((unmap_page_dir (dir ((tasks k).[slot])) va;; map_page_dir (dir ((tasks k).[slot])) phys va flags) (khw k)).2 k).
Proof.
  intros Hk. unfold task_map_user_page. rewrite (bind_run _ _ _ _ _ (no_slot_run k slot Hk)). unfold task_at.
  rewrite (bind_run _ _ k ((tasks k).[slot]) k) by done. rewrite (space_nonzero _ _ (so_space _ _ Hk)).
  by rewrite (bind_run _ _ _ _ _ (in_hw_run _ k)).
Qed.

Lemma alloc_in_hw k a f : alloc_frame (frames (khw k)) = (a, f) -> in_hw pmm_alloc_block k = (a, set_hw (set_frames f (khw k)) k).
Proof. intros E. by rewrite in_hw_run, (frame_alloc_run _ _ _ E). Qed.

(** Recording frames; the table has a place for the task. *)
Definition owning k (slot : Z) (fr : list Z) : list task :=
  (tasks k).[slot := set_owned (owned_frames ((tasks k).[slot]) ++ fr) ((tasks k).[slot])].
Lemma track_run k slot fr : slot_ok k slot -> zlen (owned_frames ((tasks k).[slot])) + zlen fr <= TASK_MAX_OWNED_FRAMES ->
  task_track_frames slot fr k = (0, set_tasks (owning k slot fr) k).
Proof.
  intros Hk Hn. unfold task_track_frames. rewrite (bind_run _ _ _ _ _ (no_slot_run k slot Hk)). unfold task_at.
  rewrite (bind_run _ _ k ((tasks k).[slot]) k) by done. by rewrite (proj2 (Z.ltb_ge _ _)) by done.
Qed.

(** ** Growing the heap *)

(** The pages from [base] on have been given the frames [fs], from [k] to [k']. *)
Record grown k (slot base : Z) (fs : list Z) k' : Prop := {
  gr_state : k' = set_hw (khw k') (set_tasks (owning k slot ((fun b => b * 4096) <$> fs)) k);
  gr_space : space (khw k') (dir ((tasks k).[slot]));
  gr_cr3 : cr3 (khw k') = cr3 (khw k);
  gr_nodup : NoDup fs;
  gr_new : Forall (fun b => 0 < b < PMM_MAX_BLOCKS /\ used_frame (frames (khw k)) b = false) fs;
  gr_used : forall c, 0 <= c < PMM_MAX_BLOCKS -> used_frame (frames (khw k)) c = true \/ c ∈ fs -> used_frame (frames (khw k')) c = true;
  gr_pages : forall i, 0 <= i < zlen fs -> walk (khw k') (dir ((tasks k).[slot])) (base + 4096 * i) = Some (fs.[i] * 4096 + 7);
  gr_rest : forall vb, is_u32 vb -> ~ base <= vb < base + 4096 * zlen fs ->
    walk (khw k') (dir ((tasks k).[slot])) vb = walk (khw k) (dir ((tasks k).[slot])) vb;
  gr_others : forall x, dir_ok (khw k) (dir ((tasks k).[slot])) x -> x <> dir ((tasks k).[slot]) ->
    dir_ok (khw k') (dir ((tasks k).[slot])) x /\ forall vb, is_u32 vb -> walk (khw k') x vb = walk (khw k) x vb;
}.

Lemma owning_nil k slot : owning k slot [] = tasks k.
Proof.
  unfold owning. rewrite app_nil_r. replace (set_owned _ _) with ((tasks k).[slot]) by (by destruct ((tasks k).[slot])). apply aset_aget.
Qed.
Lemma set_tasks_same k : set_hw (khw k) (set_tasks (tasks k) k) = k.
Proof. by destruct k. Qed.
Lemma owning_at k slot fr : 0 <= slot < zlen (tasks k) -> (owning k slot fr).[slot] = set_owned (owned_frames ((tasks k).[slot]) ++ fr) ((tasks k).[slot]).
Proof. intros. by apply aget_aset_eq. Qed.
Lemma owning_twice k slot fr fr' h : 0 <= slot < zlen (tasks k) ->
  owning (set_hw h (set_tasks (owning k slot fr) k)) slot fr' = owning k slot (fr ++ fr').
Proof.
  intros Hs. unfold owning at 1. cbn [tasks set_hw set_tasks]. rewrite owning_at by done. unfold owning. rewrite aset_aset.
  cbn. by rewrite app_assoc.
Qed.

Lemma owning_step k slot fr fr' h1 h2 h3 k1 : 0 <= slot < zlen (tasks k) -> k1 = set_hw h1 (set_tasks (owning k slot fr) k) ->
  set_hw h3 (set_tasks (owning (set_hw h2 k1) slot fr') (set_hw h2 k1)) = set_hw h3 (set_tasks (owning k slot (fr ++ fr')) k).
Proof. intros Hs ->. rewrite <- (owning_twice k slot fr fr' h2) by done. done. Qed.

Lemma grown_nil k slot base : slot_ok k slot -> grown k slot base [] k.
Proof.
  intros Hk. constructor; [by rewrite fmap_nil, owning_nil, set_tasks_same|apply Hk|done|constructor|constructor| | |done|done].
  - intros c Hc [Hu|Hu]; [done|]. by apply list.elem_of_nil in Hu.
  - intros i Hi. change (zlen []) with 0 in Hi. lia.
Qed.
Lemma grown_slot k slot base fs k' : slot_ok k slot -> grown k slot base fs k' -> slot_ok k' slot /\ dir ((tasks k').[slot]) = dir ((tasks k).[slot]) /\
  zlen (owned_frames ((tasks k').[slot])) = zlen (owned_frames ((tasks k).[slot])) + zlen fs.
Proof.
  intros [Hs Hl Hsp] G. pose proof (gr_space _ _ _ _ _ G) as Hs'. pose proof (gr_state _ _ _ _ _ G) as E.
  assert (Et : tasks k' = owning k slot ((fun b => b * 4096) <$> fs)) by (by rewrite E).
  assert (En : num_tasks k' = num_tasks k) by (by rewrite E).
  rewrite Et, owning_at by lia. split; [constructor|split; [done|]].
  - by rewrite En.
  - rewrite En, Et. unfold owning. by rewrite zlen_aset.
  - rewrite Et, owning_at by lia. exact Hs'.
  - cbn. rewrite zlen_app. f_equal. unfold zlen. by rewrite length_fmap.
Qed.

(** Taking one frame, when some are left. *)
Lemma alloc_some h d n : space h d -> free_at_least h (S n) -> exists b f', alloc_frame (frames h) = (b * 4096, f') /\ 0 < b < PMM_MAX_BLOCKS /\
  used_frame (frames h) b = false /\ (forall c, 0 <= c < PMM_MAX_BLOCKS -> used_frame f' c = if decide (c = b) then true else used_frame (frames h) c) /\
  space (set_frames f' h) d /\ free_at_least (set_frames f' h) n.
Proof.
  intros Hs Hfr. destruct (alloc_law (frames h) (sp_frames _ _ Hs)) as [(b & f' & E & Hb & Hfree & Hok & Hu)|[E Hall]].
  - exists b, f'. split; [exact E|]. do 3 (split; [done|]). split; [by apply (space_alloc h d (b * 4096))|]. by apply (free_less h _ b).
  - destruct (free_some _ _ Hfr) as (b & Hb & Hf). rewrite Hall in Hf by done. discriminate.
Qed.
Lemma map_some h d phys va flags n : space h d -> free_at_least h (S n) -> is_u32 va -> is_u32 phys -> 0 <= flags < 4096 ->
  exists b h', (unmap_page_dir d va;; map_page_dir d phys va flags) h = (tt, h') /\ mapped h d va (phys / 4096 * 4096 + flags) b h' /\ free_at_least h' n.
Proof.
  intros Hs Hfr Hva Hph Hfl. destruct (map_pages_run h d phys va flags Hs Hva Hph Hfl) as [(b & h' & E & M)|[Hall _]].
  - exists b, h'. split; [exact E|]. split; [done|]. apply (free_less h h' b); [done|]. apply M.
  - destruct (free_some _ _ Hfr) as (b & Hb & Hf). rewrite Hall in Hf by done. discriminate.
Qed.

Lemma grown_snoc k slot base fs k1 n : slot_ok k slot -> grown k slot base fs k1 -> free_at_least (khw k1) (2 + n) ->
  base mod 4096 = 0 -> 0 <= base -> base + 4096 * (zlen fs + 1) <= 2 ^ 32 -> zlen (owned_frames ((tasks k).[slot])) + zlen fs + 1 <= TASK_MAX_OWNED_FRAMES ->
  exists b k2, grow_page slot base (zlen fs) k1 = (None, k2) /\ grown k slot base (fs ++ [b]) k2 /\ free_at_least (khw k2) n /\
    (forall m, free_at_most (khw k1) (2 + m) -> free_at_most (khw k2) m).
Proof.
  intros Hk G Hfr Hal Hb0 Hb1 Ho. destruct (grown_slot _ _ _ _ _ Hk G) as (Hk1 & Hd & Ho1). pose proof (zlen_nonneg fs) as Hz.
  set (d := dir ((tasks k).[slot])) in *. pose proof (so_slot _ _ Hk) as Hsl. pose proof (so_len _ _ Hk) as Hln.
  destruct (alloc_some (khw k1) d (1 + n) (gr_space _ _ _ _ _ G) Hfr) as (b & f & E & Hb & Hfree & Hu & Hsp & Hfr1).
  assert (Hb' : 0 <= b < PMM_MAX_BLOCKS) by lia. unfold PMM_MAX_BLOCKS in Hb.
  set (ka := set_hw (set_frames f (khw k1)) k1).
  assert (Hka : slot_ok ka slot) by (constructor; [apply Hk1|apply Hk1|]; cbn [tasks ka set_hw khw]; by rewrite Hd).
  set (kb := set_tasks (owning ka slot [b * 4096]) ka).
  assert (Htr : task_track_frames slot [b * 4096] ka = (0, kb)).
  { apply track_run; [done|]. cbn [tasks ka set_hw]. rewrite Ho1. change (zlen [b * 4096]) with 1. lia. }
  assert (Hzt : 0 <= slot < zlen (tasks ka)) by (destruct Hka; lia).
  assert (Etb : tasks kb = owning ka slot [b * 4096]) by done.
  assert (Hdb : dir ((tasks kb).[slot]) = d) by (rewrite Etb, owning_at by done; exact Hd).
  assert (Hkb : slot_ok kb slot).
  { constructor; [apply Hk1| |]; [rewrite Etb; unfold owning; rewrite zlen_aset; apply Hk1|rewrite Hdb; exact Hsp]. }
  set (va := base + 4096 * zlen fs). assert (Hva : is_u32 va) by (unfold is_u32, va; lia).
  destruct (map_some (khw kb) d (b * 4096) va 7 n Hsp Hfr1 Hva ltac:(unfold is_u32; lia) ltac:(lia)) as (c & h' & Em & M & Hfr2).
  rewrite Z.div_mul in M by done.
  exists b, (set_hw h' kb). split; [|split; [|split; [exact Hfr2|]]].
  { unfold grow_page. rewrite (bind_run _ _ _ _ _ (alloc_in_hw k1 _ _ E)). rewrite (proj2 (Z.eqb_neq (b * 4096) 0)) by lia.
    fold ka. rewrite (bind_run _ _ _ _ _ Htr). cbn [negb Z.eqb]. fold va.
    rewrite (bind_run _ _ _ _ _ (map_user_run kb slot (b * 4096) va 7 Hkb)). by rewrite Hdb, Em. }
  2:{ intros m Hm. cbn [khw set_hw]. apply (free_at_most_less (khw kb) h' c); [|destruct (mp_free _ _ _ _ _ _ M); lia|apply M|apply M].
    by apply (free_at_most_less (khw k1) (khw kb) b). }
  destruct M as [Hc Hcu Hsp' Hcr Hh Hre Hot _ _ _]. change (khw kb) with (set_frames f (khw k1)) in *.
  assert (Hnb : b ∉ fs). { intros Hin. rewrite (gr_used _ _ _ _ _ G) in Hfree by auto. discriminate. }
  constructor; cbn [khw set_hw].
  - rewrite fmap_app. apply (owning_step k slot _ _ (khw k1)); [lia|]. apply (gr_state _ _ _ _ _ G).
  - exact Hsp'.
  - rewrite Hcr. exact (gr_cr3 _ _ _ _ _ G).
  - apply list.NoDup_app. split; [apply G|]. split; [|apply list.NoDup_singleton]. intros x Hx Hxb.
    apply list_elem_of_singleton in Hxb as ->. done.
  - apply list.Forall_app. split; [apply G|]. constructor; [|constructor]. split; [unfold PMM_MAX_BLOCKS; lia|].
    destruct (used_frame (frames (khw k)) b) eqn:Eb; [|done]. rewrite (gr_used _ _ _ _ _ G) in Hfree by auto. discriminate.
  - intros x Hx Hux. rewrite Hcu by done. case_decide; [done|]. cbn [frames set_frames]. rewrite Hu by done. case_decide as Hxb; [done|].
    apply (gr_used _ _ _ _ _ G); [done|]. destruct Hux as [|Hux]; [by left|right]. apply list.elem_of_app in Hux as [|Hux]; [done|].
    by apply list_elem_of_singleton in Hux.
  - rewrite zlen_app. change (zlen [b]) with 1. intros i Hi. destruct (decide (i = zlen fs)) as [->|Hne].
    + unfold aget. rewrite lookup_total_app_r by (unfold zlen; lia). unfold zlen. rewrite Nat2Z.id, Nat.sub_diag. exact Hh.
    + rewrite Hre by (unfold is_u32, va; lia || zdm). change (walk (set_frames f (khw k1)) d (base + 4096 * i)) with (walk (khw k1) d (base + 4096 * i)).
      rewrite (gr_pages _ _ _ _ _ G) by lia. do 2 f_equal. unfold aget. rewrite lookup_total_app_l by (unfold zlen in *; lia). done.
  - rewrite zlen_app. change (zlen [b]) with 1. intros vb Hvb Hout. rewrite Hre by (done || (unfold va; zdm)). apply (gr_rest _ _ _ _ _ G); [done|lia].
  - intros x Hx Hxd. destruct (gr_others _ _ _ _ _ G x Hx Hxd) as [Hx1 Hw1].
    pose proof (dir_ok_alloc (khw k1) d x _ _ (sp_frames _ _ (gr_space _ _ _ _ _ G)) Hx1 E) as Hx2.
    destruct (Hot x Hx2 Hxd) as [Hx3 Hw3]. split; [done|]. intros vb Hvb. rewrite Hw3 by done. by apply Hw1.
Qed.

Lemma grow_loop k slot base n : forall fs k1, slot_ok k slot -> grown k slot base fs k1 -> free_at_least (khw k1) (2 * n) ->
  base mod 4096 = 0 -> 0 <= base -> base + 4096 * (zlen fs + Z.of_nat n) <= 2 ^ 32 ->
  zlen (owned_frames ((tasks k).[slot])) + zlen fs + Z.of_nat n <= TASK_MAX_OWNED_FRAMES ->
  exists fs' k2, floop n (zlen fs) (grow_page slot base) k1 = (None, k2) /\ grown k slot base (fs ++ fs') k2 /\ length fs' = n.
Proof.
  induction n as [|n IH]; intros fs k1 Hk G Hfr Hal Hb0 Hb1 Ho; cbn [floop].
  { exists [], k1. by rewrite app_nil_r. }
  destruct (grown_snoc k slot base fs k1 (2 * n) Hk G) as (b & k2 & E & G2 & Hfr2 & _); [by replace (2 + 2 * n)%nat with (2 * S n)%nat by lia|done|done|lia|lia|].
  rewrite E. assert (Hz : zlen (fs ++ [b]) = zlen fs + 1) by (by rewrite zlen_app).
  destruct (IH (fs ++ [b]) k2 Hk G2 Hfr2 Hal Hb0) as (fs' & k3 & E3 & G3 & Hn); [lia|lia|].
  rewrite Hz in E3. exists (b :: fs'), k3. split; [exact E3|]. split; [by rewrite <- app_assoc in G3|]. cbn. by rewrite Hn.
Qed.

(** ** The heap break *)

Lemma page_up_div a : 0 <= a <= USER_HEAP_MAX -> page_up a = (a + 4095) / 4096 * 4096.
Proof.
  unfold USER_HEAP_MAX. intros Ha. unfold page_up, PMM_BLOCK_SIZE. replace (a + (4096 - 1)) with (a + 4095) by lia.
  rewrite u32_small by lia. apply (frame_div (a + 4095)). lia.
Qed.
Lemma brk_bounds t : heap_virt_next t <= USER_HEAP_MAX -> USER_HEAP_BASE <= brk_of t <= USER_HEAP_MAX.
Proof. unfold brk_of, USER_HEAP_BASE, USER_HEAP_MAX. intros. case_match; lia. Qed.

(** The part of [task_set_heap_break] before the loops. *)
Lemma set_break_run k slot nb : slot_ok k slot -> USER_HEAP_BASE <= nb <= USER_HEAP_MAX ->
  let cur := brk_of ((tasks k).[slot]) in
  page_up cur < page_up nb ->
  task_set_heap_break slot nb k =
  match floop (pages (page_up cur) (page_up nb)) 0 (grow_page slot (page_up cur)) k with
  | (Some _, k') => (cur, k')
  | (None, k') => (nb, set_tasks ((tasks k').[slot := set_brk nb ((tasks k').[slot])]) k')
  end.
Proof.
  intros Hk Hnb cur Hlt. unfold task_set_heap_break. rewrite (bind_run _ _ _ _ _ (no_slot_run k slot Hk)). unfold task_at.
  rewrite (bind_run _ _ k ((tasks k).[slot]) k) by done. fold cur. unfold USER_HEAP_BASE, USER_HEAP_MAX in *.
  assert (E : (nb =? 0) || (nb <? 0x40000000) || (0x80000000 <? nb) = false) by lia. rewrite E.
  rewrite (proj2 (Z.ltb_lt _ _)) by exact Hlt. unfold mbind, st_bind at 1.
  destruct (floop _ 0 (grow_page slot (page_up cur)) k) as [[r|] k']; done.
Qed.

Lemma translate_walk h d va f : 0 < f < PMM_MAX_BLOCKS -> va mod 4096 = 0 -> walk h d va = Some (f * 4096 + 7) -> translate h d va = f * 4096.
Proof.
  intros Hf Hva. unfold walk, translate, pde, pte. destruct (present (ld32 (ram h) (d + 4 * pd_index va))); [|done]. intros [= E]. rewrite E.
  destruct (entry_parts f 7 Hf ltac:(lia)) as (-> & _ & ->). cbn [negb present]. change (Z.land va 0xFFF) with (flags_of va).
  rewrite flags_mod, Hva. apply Z.lor_0_r.
Qed.

(** Giving a page back without a free frame: the frame is released, the page
    stays mapped. *)
Lemma release_full k slot va f : slot_ok k slot -> (forall c, 0 <= c < PMM_MAX_BLOCKS -> used_frame (frames (khw k)) c = true) ->
  is_u32 va -> va mod 4096 = 0 -> 0 < f < PMM_MAX_BLOCKS -> walk (khw k) (dir ((tasks k).[slot])) va = Some (f * 4096 + 7) ->
  exists k', release_page slot va k = (tt, k') /\ khw k' = set_frames (free_frame (f * 4096) (frames (khw k))) (khw k).
Proof.
  intros Hk Hall Hva Hal Hf Hw. pose proof (so_space _ _ Hk) as Hs. set (d := dir ((tasks k).[slot])) in *. unfold release_page.
  assert (Et : task_translate_user_ptr slot va k = (f * 4096, k)).
  { unfold task_translate_user_ptr. rewrite (bind_run _ _ _ _ _ (no_slot_run k slot Hk)). unfold task_at.
    rewrite (bind_run _ _ k ((tasks k).[slot]) k) by done. fold d. rewrite (space_nonzero _ _ Hs). unfold gets. by rewrite (translate_walk _ _ _ f). }
  rewrite (bind_run _ _ _ _ _ Et). unfold task_at. rewrite (bind_run _ _ k ((tasks k).[slot]) k) by done. fold d.
  assert (Eu : in_hw (unmap_page_dir d va) k = (tt, k)).
  { rewrite in_hw_run. destruct (unmap_run (khw k) d va (sp_frames _ _ Hs) (sp_dir _ _ Hs) (sp_ident _ _ Hs) Hva (sp_full _ _ Hs _ (pd_bound va Hva)))
      as [(b & h' & _ & U)|[_ E]].
    - destruct (um_free _ _ _ _ _ U) as [Hb Hfree]. rewrite Hall in Hfree by lia. discriminate.
    - rewrite E. cbn. by destruct k. }
  rewrite (bind_run _ _ _ _ _ Eu). rewrite (proj2 (Z.eqb_neq (f * 4096) 0)) by lia.
  unfold task_untrack_frame, mbind, st_bind. rewrite (no_slot_run k slot Hk). cbn.
  destruct (first_some _ _ _); eexists; (split; [reflexivity|done]).
Qed.

Lemma pages_one base : pages base (base + 4096 * 1) = 1%nat.
Proof. unfold pages, PMM_BLOCK_SIZE. replace (base + 4096 * 1 - base) with 4096 by lia. done. Qed.

(** The second page of a growing heap when no frame is left for it. *)
Lemma grow_full k slot base f : slot_ok k slot -> (forall c, 0 <= c < PMM_MAX_BLOCKS -> used_frame (frames (khw k)) c = true) ->
  is_u32 base -> base mod 4096 = 0 -> 0 < f < PMM_MAX_BLOCKS -> walk (khw k) (dir ((tasks k).[slot])) base = Some (f * 4096 + 7) ->
  exists k', grow_page slot base 1 k = (Some tt, k') /\ khw k' = set_frames (free_frame (f * 4096) (frames (khw k))) (khw k).
Proof.
  intros Hk Hall Hva Hal Hf Hw. pose proof (so_space _ _ Hk) as Hs.
  destruct (alloc_law (frames (khw k)) (sp_frames _ _ Hs)) as [(b & f' & _ & Hb & Hfree & _)|[E _]].
  { rewrite Hall in Hfree by lia. discriminate. }
  destruct (release_full k slot base f Hk Hall Hva Hal Hf Hw) as (k' & Er & Eh). exists k'. split; [|done].
  unfold grow_page. assert (Ea : in_hw pmm_alloc_block k = (0, k)) by (rewrite (alloc_in_hw k _ _ E); by destruct k as [[]]).
  rewrite (bind_run _ _ _ _ _ Ea). cbn [Z.eqb]. unfold release_pages, PMM_BLOCK_SIZE. rewrite pages_one. unfold mbind, st_bind. cbn [ffor].
  replace (base + 4096 * 0) with base by lia. by rewrite Er.
Qed.

(** ** Properties *)

(** C13 - Mapping a page of a task while a frame is left: the call returns 0
    and changes nothing but the machine; the page then has the entry asked
    for, every other page of the task and every page of every other directory
    (the kernel's included) keeps its entry, exactly one more frame is in use,
    and the directory stays fit for the next call. No page becomes reachable
    from ring 3 under a directory entry without the user bit: the call keeps
    the flags of the directory entries as the kernel's directory had them. *)
Theorem task_map_user_page_spec k slot phys va flags : slot_ok k slot -> free_at_least (khw k) 1 -> is_u32 va -> is_u32 phys -> 0 <= flags < 4096 ->
  let d := dir ((tasks k).[slot]) in
  exists b h', task_map_user_page slot phys va flags k = (0, set_hw h' k) /\ 0 < b < PMM_MAX_BLOCKS /\ used_frame (frames (khw k)) b = false /\
    (forall c, 0 <= c < PMM_MAX_BLOCKS -> used_frame (frames h') c = if decide (c = b) then true else used_frame (frames (khw k)) c) /\
    space h' d /\ walk h' d va = Some (phys / 4096 * 4096 + flags) /\
    (forall vb, is_u32 vb -> vb / 4096 <> va / 4096 -> walk h' d vb = walk (khw k) d vb) /\
    (forall x vb, dir_ok (khw k) d x -> x <> d -> is_u32 vb -> walk h' x vb = walk (khw k) x vb) /\
    (forall vb, is_u32 vb -> user_page h' d vb = true -> Z.testbit (pde (khw k) d (pd_index vb)) 2 = true).
Proof.
  intros Hk Hfr Hva Hph Hfl d. destruct (map_some (khw k) d phys va flags 0 (so_space _ _ Hk) Hfr Hva Hph Hfl) as (b & h' & E & M & _).
  exists b, h'. split; [rewrite (map_user_run k slot phys va flags Hk); fold d; by rewrite E|]. do 2 (split; [apply M|]). split; [apply M|]. split; [apply M|].
  split; [apply M|]. split; [apply M|]. split; [intros; by apply (mp_others _ _ _ _ _ _ M)|].
  intros vb Hvb. unfold user_page. destruct (walk h' d vb); [|done]. intros Hu. apply andb_true_iff in Hu as [_ Hu].
  rewrite user_bit_flags, <- (mp_flags _ _ _ _ _ _ M), <- user_bit_flags; [done|]. by apply pd_bound.
Qed.

(** Mapping a page of a task when no frame is left: the call still
    returns 0, and the entry is written into the table the task shares with
    other directories, so that the page changes in each of them, the kernel's
    own directory for one. *)
Theorem task_map_user_page_full k slot phys va flags x : slot_ok k slot ->
  (forall c, 0 <= c < PMM_MAX_BLOCKS -> used_frame (frames (khw k)) c = true) -> is_u32 va -> is_u32 phys -> 0 <= flags < 4096 ->
  dir_ok (khw k) x x -> pde (khw k) x (pd_index va) = pde (khw k) (dir ((tasks k).[slot])) (pd_index va) ->
  exists k', task_map_user_page slot phys va flags k = (0, k') /\ walk (khw k') x va = Some (phys / 4096 * 4096 + flags).
Proof.
  intros Hk Hall Hva Hph Hfl Hx He. set (d := dir ((tasks k).[slot])) in *. pose proof (so_space _ _ Hk) as Hs. fold d in Hs.
  pose proof (sp_full _ _ Hs _ (pd_bound va Hva)) as Hp. pose proof (pd_bound va Hva) as Hpd. pose proof (pt_bound va) as Hpt.
  destruct (map_pages_run (khw k) d phys va flags Hs Hva Hph Hfl) as [(b & h' & _ & M)|[_ E]].
  { destruct (mp_free _ _ _ _ _ _ M) as [Hb Hfree]. rewrite Hall in Hfree by lia. discriminate. }
  eexists. split; [rewrite (map_user_run k slot phys va flags Hk); fold d; by rewrite E|].
  destruct (do_table _ _ _ Hx _ Hpd ltac:(by rewrite He)) as (HTf & _ & HTx).
  cbn [khw set_hw snd]. unfold walk, pde, pte. cbn [ram set_ram]. rewrite ld32_st32_ne.
  2:{ rewrite He in HTf, HTx. apply disjoint_words; [apply Hx|exact HTf|exact (not_eq_sym HTx)|done|done]. }
  fold (pde (khw k) x (pd_index va)) (pde (khw k) d (pd_index va)). rewrite He, Hp, ld32_st32. f_equal. apply u32_small. unfold is_u32 in Hph. zdm.
Qed.

(** Growing a task's heap while two frames are left for every page to
    come: the new break is returned and recorded, every page of the grown part
    is mapped read-write for the user to a frame of its own that was free
    before, the frames are recorded as the task's, no other page of the task
    and no other address space changes. *)
Theorem task_set_heap_break_grows k slot nb : slot_ok k slot -> heap_virt_next ((tasks k).[slot]) <= USER_HEAP_MAX -> USER_HEAP_BASE <= nb <= USER_HEAP_MAX ->
  let base := page_up (brk_of ((tasks k).[slot])) in let n := (page_up nb - base) / 4096 in
  base < page_up nb -> zlen (owned_frames ((tasks k).[slot])) + n <= TASK_MAX_OWNED_FRAMES -> free_at_least (khw k) (2 * Z.to_nat n) ->
  exists fs k1, grown k slot base fs k1 /\ zlen fs = n /\
    let k' := set_tasks ((tasks k1).[slot := set_brk nb ((tasks k1).[slot])]) k1 in
    task_set_heap_break slot nb k = (nb, k') /\ task_get_heap_break slot k' = (nb, k').
Proof.
  intros Hk Hv Hnb base n Hlt Ho Hfr. pose proof (brk_bounds _ Hv) as Hc. unfold USER_HEAP_BASE, USER_HEAP_MAX in Hnb, Hc.
  assert (Eb : base = (brk_of ((tasks k).[slot]) + 4095) / 4096 * 4096) by (apply page_up_div; unfold USER_HEAP_MAX; lia).
  assert (En : page_up nb = (nb + 4095) / 4096 * 4096) by (apply page_up_div; unfold USER_HEAP_MAX; lia).
  assert (Hn : 0 <= n /\ page_up nb = base + 4096 * n) by (unfold n; zdm).
  destruct (grow_loop k slot base (Z.to_nat n) [] k Hk (grown_nil k slot base Hk) Hfr) as (fs & k1 & E & G & Hlen);
    [zdm|zdm|change (zlen []) with 0; zdm|change (zlen []) with 0; lia|].
  exists fs, k1. split; [exact G|]. split; [unfold zlen; lia|]. cbn zeta.
  destruct (grown_slot _ _ _ _ _ Hk G) as (Hk1 & _ & _). destruct Hk1 as [Hs1 Hl1 _]. split.
  - rewrite (set_break_run k slot nb Hk) by (done || (unfold USER_HEAP_BASE, USER_HEAP_MAX; lia)). fold base.
    assert (Ep : pages base (page_up nb) = Z.to_nat n) by done. rewrite Ep. change (zlen []) with 0 in E. by rewrite E.
  - unfold task_get_heap_break, no_slot, task_at. munfold. cbn [num_tasks tasks set_tasks].
    replace ((slot <? 0) || (num_tasks k1 <=? slot)) with false by lia. cbn [tasks set_tasks]. rewrite aget_aset_eq by lia. unfold brk_of. cbn.
    by rewrite (proj2 (Z.ltb_ge _ _)) by (unfold USER_HEAP_BASE; lia).
Qed.

(** Growing a task's heap by two pages or more when exactly two frames
    are free: the call fails and returns the old break, but its rollback
    cannot unmap the page it had mapped (unmapping takes a frame), and frees
    that page's frame all the same: the task keeps a writable mapping of a
    frame the allocator will hand out again. *)
Theorem task_set_heap_break_rollback_dangling k slot nb : slot_ok k slot -> heap_virt_next ((tasks k).[slot]) <= USER_HEAP_MAX -> USER_HEAP_BASE <= nb <= USER_HEAP_MAX ->
  let cur := brk_of ((tasks k).[slot]) in
  page_up cur + 4096 < page_up nb -> zlen (owned_frames ((tasks k).[slot])) + 2 <= TASK_MAX_OWNED_FRAMES ->
  free_at_least (khw k) 2 -> free_at_most (khw k) 2 ->
  exists f k', task_set_heap_break slot nb k = (cur, k') /\ 0 < f < PMM_MAX_BLOCKS /\
    walk (khw k') (dir ((tasks k).[slot])) (page_up cur) = Some (f * 4096 + 7) /\ used_frame (frames (khw k')) f = false.
Proof.
  intros Hk Hv Hnb cur Hlt Ho Hfr Hfm. pose proof (brk_bounds _ Hv) as Hc. fold cur in Hc. unfold USER_HEAP_BASE, USER_HEAP_MAX in Hnb, Hc.
  assert (Eb : page_up cur = (cur + 4095) / 4096 * 4096) by (apply page_up_div; unfold USER_HEAP_MAX; lia).
  assert (En : page_up nb = (nb + 4095) / 4096 * 4096) by (apply page_up_div; unfold USER_HEAP_MAX; lia).
  set (base := page_up cur) in *.
  destruct (grown_snoc k slot base [] k 0 Hk (grown_nil k slot base Hk) Hfr) as (f & k1 & E & G & _ & Hfm1);
    [zdm|zdm|change (zlen []) with 0; zdm|change (zlen []) with 0; lia|]. cbn [app] in G. specialize (Hfm1 0%nat Hfm).
  pose proof (gr_new _ _ _ _ _ G) as Hnew. inversion Hnew as [|? ? [Hf _] _]; subst.
  pose proof (gr_pages _ _ _ _ _ G 0 ltac:(change (zlen [f]) with 1; lia)) as Hw. replace (base + 4096 * 0) with base in Hw by lia. change ([f].[0]) with f in Hw.
  destruct (grown_slot _ _ _ _ _ Hk G) as (Hk1 & Hd & _). rewrite <- Hd in Hw.
  destruct (grow_full k1 slot base f Hk1 (free_none _ Hfm1)) as (k2 & E2 & Eh); [unfold is_u32; zdm|zdm|done|done|].
  exists f, k2. split; [|split; [done|]].
  - rewrite (set_break_run k slot nb Hk) by ((unfold USER_HEAP_BASE, USER_HEAP_MAX; lia) || (fold cur; fold base; lia)). fold cur. fold base.
    assert (Ep : exists m, pages base (page_up nb) = S (S m)).
    { exists (Z.to_nat ((page_up nb - base) / 4096 - 2)). unfold pages, PMM_BLOCK_SIZE. zdm. }
    destruct Ep as [m ->]. cbn [floop]. change (zlen []) with 0 in E. rewrite E. change (0 + 1) with 1. by rewrite E2.
  - rewrite Eh. split; [rewrite <- Hd; exact Hw|]. cbn [frames set_frames]. unfold PMM_MAX_BLOCKS in Hf.
    destruct (free_law (frames (khw k1)) (f * 4096) (sp_frames _ _ (gr_space _ _ _ _ _ G)) ltac:(unfold PMM_BLOCK_SIZE; lia)) as [_ Hu].
    rewrite Hu by (unfold PMM_MAX_BLOCKS; lia). unfold PMM_BLOCK_SIZE. rewrite Z.div_mul by done. by rewrite decide_True.
Qed.

End space.
End TaskSpace.
