(* ===== verification/TaskPages.v ===== *)
(** Pages of a task filled by the kernel: a frame taken, written at its physical
    address and mapped, and what a run of such pages leaves. *)
From S2P Require Import Prelude Pmm Mem Paging PagingSpec Disk VfsData Vfs Task TaskSpace.
From stdpp Require Import base list gmap numbers.
From Stdlib Require Import ZArith Lia.
Import Mem Paging PagingSpec Task TaskSpace.
Open Scope Z_scope.

Module TaskPages.

(** ** Frames filled before they are mapped *)

Section filled.
Context {A : Type} `{FrameAlloc A, !FrameAllocLaws A}.
Implicit Types h : hw A.

(** Frame [b] was free, is used now, and no other byte changed. *)
Record filled h (b : Z) h1 : Prop := {
  fl_free : 0 < b < PMM_MAX_BLOCKS /\ used_frame (frames h) b = false;
  fl_ok : frames_ok (frames h1);
  fl_used : forall c, 0 <= c < PMM_MAX_BLOCKS -> used_frame (frames h1) c = if decide (c = b) then true else used_frame (frames h) c;
  fl_cr3 : cr3 h1 = cr3 h;
  fl_mem : forall a, a / 4096 <> b -> ld8 (ram h1) a = ld8 (ram h) a;
}.

Section views.
Context (h : hw A) (b : Z) (h1 : hw A) (Hf : filled h b h1).

Lemma used_filled x : is_frame x -> used h x = true -> used h1 x = true.
Proof. intros (c & Hc & ->) Hu. unfold used in *. rewrite Z.div_mul in * by done. rewrite (fl_used _ _ _ Hf) by lia. by case_decide. Qed.
Lemma pde_filled x i : is_frame x -> used h x = true -> 0 <= i < 1024 -> pde h1 x i = pde h x i.
Proof.
  intros Hx Hu Hi. unfold pde. apply ld32_same. intros a Ha. apply (fl_mem _ _ _ Hf). destruct (word_in x i Hx Hi) as [W1 W2].
  intros E. unfold used in Hu. assert (Ex : x / 4096 = b) by zdm. rewrite Ex in Hu. destruct (fl_free _ _ _ Hf). congruence.
Qed.
Lemma dir_ok_filled d x : dir_ok h d x -> dir_ok h1 d x.
Proof.
  intros [D1 D2 D3]. constructor; [done|by apply used_filled|]. intros i Hi. rewrite pde_filled by done. intros Hp.
  destruct (D3 i Hi Hp) as (T1 & T2 & T3). split; [done|]. split; [by apply used_filled|done].
Qed.
Lemma walk_filled d x va : dir_ok h d x -> is_u32 va -> walk h1 x va = walk h x va.
Proof.
  intros [D1 D2 D3] Hva. pose proof (pd_bound va Hva) as Hpd. pose proof (pt_bound va). unfold walk. rewrite pde_filled by done.
  destruct (present (pde h x (pd_index va))) eqn:Ep; [|done]. destruct (D3 _ Hpd Ep) as (T1 & T2 & _). f_equal. by apply pde_filled.
Qed.
Lemma space_filled d : space h d -> space h1 d.
Proof.
  intros [S1 S2 S3 S4 S5 S6]. constructor; [apply Hf|by apply dir_ok_filled|by apply dir_ok_filled|done| |].
  - intros c Hc Hfree. rewrite (fl_used _ _ _ Hf) in Hfree by lia. case_decide; [done|].
    rewrite (walk_filled d) by (done || (unfold is_u32; unfold PMM_MAX_BLOCKS in Hc; lia)). by apply S5.
  - intros i Hi. rewrite pde_filled by (done || apply S2). by apply S6.
Qed.
End views.

Lemma filled_free h b h1 n : filled h b h1 -> free_at_least h (S n) -> free_at_least h1 n.
Proof. intros Hf Hn. by apply (free_less h h1 b); [|apply Hf]. Qed.

(** ** One page with its contents *)

(** From [h] to [h']: the page of [va] is mapped read-write for the user to
    the fresh frame [b], which holds [img] of each address of the page. *)
Record page_loaded h d va b (img : Z -> Z) h' : Prop := {
  pl_free : 0 < b < PMM_MAX_BLOCKS /\ used_frame (frames h) b = false;
  pl_taken : used_frame (frames h') b = true;
  pl_used : forall c, 0 <= c < PMM_MAX_BLOCKS -> used_frame (frames h) c = true -> used_frame (frames h') c = true;
  pl_space : space h' d;
  pl_cr3 : cr3 h' = cr3 h;
  pl_here : walk h' d va = Some (b * 4096 + 7);
  pl_rest : forall vb, is_u32 vb -> vb / 4096 <> va / 4096 -> walk h' d vb = walk h d vb;
  pl_others : forall x, dir_ok h d x -> x <> d -> dir_ok h' d x /\ forall vb, is_u32 vb -> walk h' x vb = walk h x vb;
  pl_mem : forall a, is_u32 a -> used h a = true -> a / 4096 <> d / 4096 -> ld8 (ram h') a = ld8 (ram h) a;
  pl_bytes : forall o, 0 <= o < 4096 -> ld8 (ram h') (b * 4096 + o) = img (va + o);
  pl_off : forall x y, is_frame y -> used h y = true -> dir_ok h y x -> dir_ok h' y x;
  pl_private : forall x, dir_ok h d x -> dir_ok h' (b * 4096) x /\ x <> b * 4096;
  pl_flags : forall i, 0 <= i < 1024 -> flags_of (pde h' d i) = flags_of (pde h d i);
}.

Lemma page_load h d va b (img : Z -> Z) h1 n : space h d -> filled h b h1 -> free_at_least h1 (S n) -> is_u32 va ->
  (forall o, 0 <= o < 4096 -> ld8 (ram h1) (b * 4096 + o) = img (va + o)) ->
  exists h', (unmap_page_dir d va;; map_page_dir d (b * 4096) va 7) h1 = (tt, h') /\ page_loaded h d va b img h' /\ free_at_least h' n.
Proof.
  intros Hs Hf Hfr Hva Hb. destruct (fl_free _ _ _ Hf) as [Hbr Hbf]. pose proof Hbr as Hbr'. unfold PMM_MAX_BLOCKS in Hbr'.
  destruct (map_some h1 d (b * 4096) va 7 n (space_filled h b h1 Hf d Hs) Hfr Hva ltac:(unfold is_u32; lia) ltac:(lia)) as (b2 & h' & E & Mp & Hfr').
  exists h'. split; [exact E|]. split; [|done]. rewrite Z.div_mul in Mp by done.
  assert (Hdb : d / 4096 <> b). { intros Ed. pose proof (do_used _ _ _ (sp_dir _ _ Hs)) as Hu. unfold used in Hu. rewrite Ed in Hu. congruence. }
  assert (Hb1 : used_frame (frames h1) b = true) by (rewrite (fl_used _ _ _ Hf) by lia; by case_decide).
  assert (Hmono : forall c, 0 <= c < PMM_MAX_BLOCKS -> used_frame (frames h1) c = true -> used_frame (frames h') c = true).
  { intros c Hc Hu. rewrite (mp_used _ _ _ _ _ _ Mp) by done. by case_decide. }
  constructor; [done|apply Hmono; [lia|done]| |apply Mp| |apply Mp| | | | | | |].
  9:{ intros i Hi. rewrite (mp_flags _ _ _ _ _ _ Mp) by done. f_equal. destruct (sp_dir _ _ Hs). by apply (pde_filled h b h1 Hf). }
  - intros c Hc Hu. apply Hmono; [done|]. rewrite (fl_used _ _ _ Hf) by done. by case_decide.
  - rewrite (mp_cr3 _ _ _ _ _ _ Mp). apply Hf.
  - intros vb Hvb Hn. rewrite (mp_rest _ _ _ _ _ _ Mp) by done. apply (walk_filled h b h1 Hf d); [apply Hs|done].
  - intros x Hx Hn. destruct (mp_others _ _ _ _ _ _ Mp x (dir_ok_filled h b h1 Hf d x Hx) Hn) as [Hx' Hw]. split; [done|].
    intros vb Hvb. rewrite Hw by done. by apply (walk_filled h b h1 Hf d).
  - intros a Ha Hu Hn. rewrite (mp_mem _ _ _ _ _ _ Mp).
    + apply (fl_mem _ _ _ Hf). intros E'. unfold used in Hu. congruence.
    + unfold used in *. destruct (decide (a / 4096 = b)) as [->|]; [done|]. rewrite (fl_used _ _ _ Hf), decide_False; [done|done|].
      unfold is_u32 in Ha. unfold PMM_MAX_BLOCKS. zdm.
    + done.
  - intros o Ho. rewrite (mp_mem _ _ _ _ _ _ Mp); [by apply Hb| |]; unfold used; replace ((b * 4096 + o) / 4096) with b by zdm; [done|by apply not_eq_sym].
  - intros x y Hy Hu Hx. apply (mp_off _ _ _ _ _ _ Mp); [by apply (used_filled h b h1 Hf)|by apply (dir_ok_filled h b h1 Hf)].
  - intros x Hx. pose proof (fresh_ne h x b (do_used _ _ _ Hx) Hbf) as Hxb. split; [|done]. apply (mp_off _ _ _ _ _ _ Mp).
    + unfold used. by rewrite Z.div_mul.
    + apply (dir_ok_filled h b h1 Hf). destruct Hx as [X1 X2 X3]. constructor; [done..|]. intros i Hi Hp. destruct (X3 i Hi Hp) as (T1 & T2 & _).
      split; [done|]. split; [done|]. by apply (fresh_ne h).
Qed.

(** ** Pages after one another *)

(** What an address holds in the part loaded so far. *)
Definition mem_image : Type := Z -> option Z.
Definition on_range (lo hi : Z) (g : Z -> Z) (img : mem_image) : mem_image := fun a => if decide (lo <= a < hi) then Some (g a) else img a.

(** From [h0] to [h] the frames [taken] were taken, and directory [d] shows
    [img] in them. *)
Record loaded h0 d (img : mem_image) (taken : list Z) h : Prop := {
  ld_space : space h d; ld_cr3 : cr3 h = cr3 h0;
  ld_image : forall va x, is_u32 va -> img va = Some x ->
    exists b, walk h d va = Some (b * 4096 + 7) /\ b ∈ taken /\ ld8 (ram h) (b * 4096 + va mod 4096) = x;
  ld_rest : forall va, is_u32 va -> img va = None -> walk h d va = walk h0 d va;
  ld_taken : Forall (fun b => 0 < b < PMM_MAX_BLOCKS /\ used_frame (frames h0) b = false /\ used_frame (frames h) b = true) taken;
  ld_nodup : NoDup taken;
  ld_used : forall c, 0 <= c < PMM_MAX_BLOCKS -> used_frame (frames h0) c = true -> used_frame (frames h) c = true;
  ld_others : forall x, dir_ok h0 d x -> x <> d -> dir_ok h d x /\ forall vb, is_u32 vb -> walk h x vb = walk h0 x vb;
  ld_mem : forall a, is_u32 a -> used h0 a = true -> a / 4096 <> d / 4096 -> ld8 (ram h) a = ld8 (ram h0) a;
  ld_off : forall x y, is_frame y -> used h0 y = true -> dir_ok h0 y x -> dir_ok h y x;
  ld_inj : forall va vb, is_u32 va -> is_u32 vb -> img va <> None -> img vb <> None -> walk h d va = walk h d vb -> va / 4096 = vb / 4096;
  ld_private : forall x b, dir_ok h0 d x -> b ∈ taken -> dir_ok h (b * 4096) x /\ x <> b * 4096;
  ld_flags : forall i, 0 <= i < 1024 -> flags_of (pde h d i) = flags_of (pde h0 d i);
}.

Lemma loaded_ext h0 d img img' taken h : (forall a, is_u32 a -> img' a = img a) -> loaded h0 d img taken h -> loaded h0 d img' taken h.
Proof.
  intros He [L1 L2 L3 L4 L5 L6 L7 L8 L9 L10 L12 L11 L13]. constructor; try done.
  - intros va x Hva. rewrite He by done. by apply L3.
  - intros va Hva. rewrite He by done. by apply L4.
  - intros va vb Ha Hb. rewrite !He by done. by apply L12.
Qed.
Lemma loaded_nil h d : space h d -> loaded h d (fun _ => None) [] h.
Proof. intros Hs. constructor; try done; [constructor..|]. intros x b _ Hb. by apply list.elem_of_nil in Hb. Qed.

Lemma walk_page h d va vb : is_u32 va -> is_u32 vb -> va / 4096 = vb / 4096 -> walk h d va = walk h d vb.
Proof.
  unfold is_u32. intros Ha Hb E. unfold walk. rewrite !pd_div, !pt_mod, E. replace (va / 2 ^ 22) with (vb / 2 ^ 22) by zdm. done.
Qed.

Lemma loaded_step h0 d img taken h va b g h' : dir_ok h0 d d -> loaded h0 d img taken h -> page_loaded h d va b g h' -> is_u32 va -> va mod 4096 = 0 ->
  loaded h0 d (on_range va (va + 4096) g img) (taken ++ [b]) h'.
Proof.
  intros Hd0 [L1 L2 L3 L4 L5 L6 L7 L8 L9 L10 L12 L11 L13] [P1 P2 P3 P4 P5 P6 P7 P8 P9 P10 P11 P12 P13] Hva Hal. rewrite list.Forall_forall in L5.
  assert (Hdu : forall x, x ∈ taken -> x <> d / 4096).
  { intros x Hx ->. destruct (L5 _ Hx) as (_ & Hf & _). pose proof (do_used _ _ _ Hd0) as Hu. unfold used in Hu. congruence. }
  assert (Hb0 : used_frame (frames h0) b = false).
  { destruct (used_frame (frames h0) b) eqn:E; [|done]. apply L7 in E; [|lia]. destruct P1. congruence. }
  constructor; [done|congruence| | | | | | | | | | |intros i Hi; by rewrite P13, L13].
  - intros a x Ha. unfold on_range. case_decide as Hin.
    + intros [= <-]. exists b. split; [rewrite <- P6; apply walk_page; [done|done|zdm]|]. split; [apply elem_of_app; right; by apply list_elem_of_singleton|].
      rewrite P10 by zdm. f_equal. zdm.
    + intros Hx. destruct (L3 a x Ha Hx) as (c & Hw & Hc & Hl). exists c. split; [rewrite P7 by (done || zdm); done|].
      split; [apply elem_of_app; by left|]. destruct (L5 c Hc) as (Hcr & _ & Hcu). unfold PMM_MAX_BLOCKS in Hcr.
      assert (Ec : (c * 4096 + a mod 4096) / 4096 = c) by zdm. rewrite P9; [done| | |]; unfold used, is_u32; rewrite ?Ec; [zdm|done|by apply Hdu].
  - intros a Ha. unfold on_range. case_decide as Hin; [done|]. intros Hx. rewrite P7 by (done || zdm). by apply L4.
  - apply list.Forall_app. split; [apply list.Forall_forall; intros c Hc; destruct (L5 c Hc) as (Hr & Hq1 & Hq2); split; [done|split; [done|apply P3; [lia|done]]]|].
    rewrite list.Forall_singleton. exact (conj (proj1 P1) (conj Hb0 P2)).
  - apply list.NoDup_app. split; [done|]. split; [|by apply list.NoDup_singleton]. intros c Hc ->%list_elem_of_singleton.
    destruct (L5 b Hc) as (_ & _ & Hu). destruct P1. congruence.
  - intros c Hc Hu. apply P3; [done|by apply L7].
  - intros x Hx Hn. destruct (L8 x Hx Hn) as [Hx' Hw]. destruct (P8 x Hx' Hn) as [Hx'' Hw']. split; [done|]. intros vb Hvb. by rewrite Hw', Hw.
  - intros a Ha Hu Hn. rewrite P9; [by apply L9|done| |done]. apply L7; [unfold is_u32 in Ha; unfold PMM_MAX_BLOCKS; zdm|done].
  - intros x y Hy Hu Hx. apply P11; [done| |by apply L10]. destruct Hy as (c & Hc & ->). unfold used in *. rewrite Z.div_mul in * by done. apply L7; [lia|done].
  - assert (Hmix : forall va' vb', is_u32 va' -> is_u32 vb' -> va' / 4096 = va / 4096 -> vb' / 4096 <> va / 4096 -> img vb' <> None ->
      walk h' d va' <> walk h' d vb').
    { intros va' vb' Ha Hb E Hne Hi Hw. rewrite (walk_page h' d va' va), P6, P7 in Hw by done. destruct (img vb') as [x|] eqn:Ex; [|done].
      destruct (L3 vb' x Hb Ex) as (c & Hwc & Hc & _). rewrite Hwc in Hw. injection Hw as Hw. assert (c = b) as -> by lia.
      destruct (L5 b Hc) as (_ & _ & Hu). destruct P1. congruence. }
    intros va' vb' Ha Hb. unfold on_range. assert (Hpg : forall v, va <= v < va + 4096 <-> v / 4096 = va / 4096) by (intros v; split; intros; zdm).
    destruct (decide (va <= va' < va + 4096)) as [Ea|Ea], (decide (va <= vb' < va + 4096)) as [Eb|Eb]; rewrite Hpg in Ea, Eb; intros Hia Hib Hw.
    + congruence.
    + by destruct (Hmix va' vb').
    + by destruct (Hmix vb' va').
    + rewrite !P7 in Hw by done. by apply L12.
  - intros x c Hx [Hc|Hc]%elem_of_app; [|apply list_elem_of_singleton in Hc as ->].
    + destruct (L11 x c Hx Hc) as [Ho Hn]. split; [|done]. destruct (L5 c Hc) as (Hcr & _ & Hcu).
      apply P11; [by exists c|unfold used; by rewrite Z.div_mul|done].
    + apply P12. apply L10; [apply Hd0|apply Hd0|done].
Qed.

End filled.
End TaskPages.
