(* ===== verification/UserMem.v ===== *)
(** Kernel writes to the memory of a user task: a window of pages with frames
    of their own, seen as flat memory. *)
From S2P Require Import Prelude Pmm Mem Paging PagingSpec Disk VfsData Vfs Task TaskSpace TaskPages.
From stdpp Require Import base list gmap numbers.
From Stdlib Require Import ZArith Lia.
Import Mem Paging PagingSpec Task TaskSpace TaskPages.
Open Scope Z_scope.

Module UserMem.

Section window.
Context {A : Type} `{FrameAlloc A, !FrameAllocLaws A}.
Implicit Types (h : hw A) (k : kst A).
(** The physical address of a user address, and the byte there. *)
Definition phys (fr : Z -> Z) (va : Z) : Z := fr (va / 4096) * 4096 + va mod 4096.
Definition ubyte h (fr : Z -> Z) (va : Z) : Z := ld8 (ram h) (phys fr va).

Lemma phys_page fr va : phys fr va / 4096 = fr (va / 4096).
Proof. unfold phys. zdm. Qed.
(** The directories that must stay as they are. *)
Context (X : Z -> Prop).

(** The addresses from [lo] to [hi] of directory [d] are mapped to the frames
    [fr] of their pages; no table and no directory lies in these. *)
Record window h (d lo hi : Z) (fr : Z -> Z) : Prop := {
  w_range : 0 <= lo <= hi /\ hi <= 2 ^ 32;
  w_walk : forall va, lo <= va < hi -> walk h d va = Some (fr (va / 4096) * 4096 + 7);
  w_frame : forall va, lo <= va < hi -> 0 < fr (va / 4096) < PMM_MAX_BLOCKS /\ used h (fr (va / 4096) * 4096) = true;
  w_self : X d; w_dirs : forall x, X x -> dir_ok h d x;
  w_off : forall va x, lo <= va < hi -> X x -> dir_ok h (fr (va / 4096) * 4096) x /\ x <> fr (va / 4096) * 4096;
  w_inj : forall va vb, lo <= va < hi -> lo <= vb < hi -> fr (va / 4096) = fr (vb / 4096) -> va / 4096 = vb / 4096;
}.
Lemma phys_inj h d lo hi fr va vb : window h d lo hi fr -> lo <= va < hi -> lo <= vb < hi -> phys fr va = phys fr vb -> va = vb.
Proof.
  intros W Ha Hb E. assert (Ef : fr (va / 4096) = fr (vb / 4096)) by (rewrite <- !phys_page; congruence).
  pose proof (w_inj _ _ _ _ _ W va vb Ha Hb Ef) as Ep. unfold phys in E. rewrite Ef in E. zdm.
Qed.

(** What a write into the window leaves as it was. *)
Record only_window h (d lo hi : Z) (fr : Z -> Z) h' : Prop := {
  ow_frames : frames h' = frames h; ow_cr3 : cr3 h' = cr3 h;
  ow_dirs : forall x y, X x -> dir_ok h y x -> dir_ok h' y x;
  ow_walk : forall x va, X x -> is_u32 va -> walk h' x va = walk h x va;
  ow_pde : forall x i, X x -> 0 <= i < 1024 -> pde h' x i = pde h x i;
  ow_mem : forall a, (forall va, lo <= va < hi -> a / 4096 <> fr (va / 4096)) -> ld8 (ram h') a = ld8 (ram h) a;
}.

(** Changing one frame that is neither a table nor a directory of [x]. *)
Lemma frame_write_dirs h m' b x : 0 < b < PMM_MAX_BLOCKS -> (forall a, a / 4096 <> b -> ld8 m' a = ld8 (ram h) a) ->
  dir_ok h (b * 4096) x -> x <> b * 4096 ->
  (forall i, 0 <= i < 1024 -> pde (set_ram m' h) x i = pde h x i) /\
  (forall va, is_u32 va -> walk (set_ram m' h) x va = walk h x va) /\
  (forall y, dir_ok h y x -> dir_ok (set_ram m' h) y x).
Proof.
  intros Hb Hm [X1 X2 X3] Hx.
  assert (Hw : forall t i, is_frame t -> t <> b * 4096 -> 0 <= i < 1024 -> pde (set_ram m' h) t i = pde h t i).
  { intros t i Ht Hn Hi. unfold pde. cbn [ram set_ram]. apply ld32_same. intros a Ha. apply Hm. destruct (word_in t i Ht Hi), (frame_bounds t Ht).
    intros E. apply Hn. zdm. }
  split; [intros i Hi; by apply Hw|]. split.
  - intros va Hva. pose proof (pd_bound va Hva) as Hpd. pose proof (pt_bound va). unfold walk. rewrite Hw by done.
    destruct (present (pde h x (pd_index va))) eqn:Ep; [|done]. destruct (X3 _ Hpd Ep) as (T1 & _ & T3). f_equal. by apply Hw.
  - intros y [Y1 Y2 Y3]. constructor; [done|done|]. intros i Hi. rewrite Hw by done. by apply Y3.
Qed.

Lemma only_window_refl h d lo hi fr : only_window h d lo hi fr h.
Proof. by constructor. Qed.
Lemma only_window_trans h d lo hi fr h1 h2 : only_window h d lo hi fr h1 -> only_window h1 d lo hi fr h2 -> only_window h d lo hi fr h2.
Proof.
  intros [O1 O2 O3 O4 O5 O6] [Q1 Q2 Q3 Q4 Q5 Q6]. constructor; [congruence|congruence|auto| | |].
  - intros. by rewrite Q4, O4.
  - intros. by rewrite Q5, O5.
  - intros. by rewrite Q6, O6.
Qed.
Lemma window_kept h d lo hi fr h' : window h d lo hi fr -> only_window h d lo hi fr h' -> window h' d lo hi fr.
Proof.
  intros [W1 W2 W3 W4 W5 W6 W7] O. constructor; [done| | |done| | |done].
  - intros va Hva. rewrite (ow_walk _ _ _ _ _ _ O) by (done || (unfold is_u32; lia)). by apply W2.
  - intros va Hva. unfold used. rewrite (ow_frames _ _ _ _ _ _ O). by apply W3.
  - intros x Hx. apply O; [done|]. by apply W5.
  - intros va x Hva Hx. destruct (W6 va x Hva Hx). split; [|done]. by apply O.
Qed.
Lemma space_kept h d lo hi fr h' : X page_directory -> X d -> only_window h d lo hi fr h' -> space h d -> space h' d.
Proof.
  intros HX Hd O [S1 S2 S3 S4 S5 S6]. constructor; [by rewrite (ow_frames _ _ _ _ _ _ O)|by apply O|by apply O|done| |].
  - intros b Hb Hf. rewrite (ow_frames _ _ _ _ _ _ O) in Hf. rewrite (ow_walk _ _ _ _ _ _ O); [by apply S5|done|].
    unfold is_u32. unfold PMM_MAX_BLOCKS in Hb. lia.
  - intros i Hi. rewrite (ow_pde _ _ _ _ _ _ O) by done. by apply S6.
Qed.
(** A frame that is no directory of [X] and none of their tables. *)
Lemma frame_write h d m' b : 0 < b < PMM_MAX_BLOCKS -> (forall x, X x -> dir_ok h (b * 4096) x /\ x <> b * 4096) ->
  (forall a, a / 4096 <> b -> ld8 m' a = ld8 (ram h) a) -> only_window h d 0 1 (fun _ => b) (set_ram m' h).
Proof.
  intros Hb Hx Hm. constructor; [done|done| | | |].
  - intros x y HXx. apply (frame_write_dirs h _ b x Hb Hm); by apply Hx.
  - intros x v HXx. apply (frame_write_dirs h _ b x Hb Hm); by apply Hx.
  - intros x i HXx. apply (frame_write_dirs h _ b x Hb Hm); by apply Hx.
  - intros a Ha. apply Hm. apply (Ha 0). lia.
Qed.

(** Bytes stored inside one page of the window. *)
Lemma window_store h d lo hi fr va bs : window h d lo hi fr -> lo <= va -> va + zlen bs <= hi -> va mod 4096 + zlen bs <= 4096 -> 0 < zlen bs -> is_bytes bs ->
  let h' := set_ram (store_bytes (phys fr va) bs (ram h)) h in
  only_window h d lo hi fr h' /\
  forall vb, lo <= vb < hi -> ubyte h' fr vb = if decide (va <= vb < va + zlen bs) then bs.[vb - va] else ubyte h fr vb.
Proof.
  intros W Hlo Hhi Hpg Hn Hbs h'. set (b := fr (va / 4096)). destruct (w_frame _ _ _ _ _ W va ltac:(lia)) as [Hb _]. fold b in Hb.
  assert (Hm : forall a, a / 4096 <> b -> ld8 (store_bytes (phys fr va) bs (ram h)) a = ld8 (ram h) a).
  { intros a Ha. rewrite ld8_store_bytes, decide_False; [done|]. unfold phys. fold b. zdm. }
  assert (Hd : forall x, X x -> dir_ok h (b * 4096) x /\ x <> b * 4096) by (intros x Hx; apply (w_off _ _ _ _ _ W va x); [lia|done]).
  split.
  - constructor; [done|done| | | |].
    + intros x y Hx. apply (frame_write_dirs h _ b x Hb Hm); by apply Hd.
    + intros x v Hx. apply (frame_write_dirs h _ b x Hb Hm); by apply Hd.
    + intros x i Hx. apply (frame_write_dirs h _ b x Hb Hm); by apply Hd.
    + intros a Ha. apply Hm. apply (Ha va). lia.
  - intros vb Hvb. unfold ubyte. cbn [ram set_ram h']. rewrite ld8_store_bytes. case_decide as Hin.
    + assert (Epa : phys fr va = b * 4096 + va mod 4096) by done.
      assert (Hp : phys fr vb / 4096 = b) by zdm. rewrite phys_page in Hp.
      pose proof (w_inj _ _ _ _ _ W vb va Hvb ltac:(lia) Hp) as Ep.
      assert (Epb : phys fr vb = b * 4096 + vb mod 4096) by (unfold phys; by rewrite Ep).
      rewrite decide_True by zdm. rewrite u8_small by (apply (aget_Forall is_u8); [done|lia]). f_equal. zdm.
    + rewrite decide_False; [done|]. intros Hr. apply Hin. assert (Ep : vb / 4096 = va / 4096) by zdm. unfold phys. rewrite Ep. fold b. zdm.
Qed.

(** [task_translate_user_ptr] in the window. *)
Lemma translate_window h d lo hi fr va : window h d lo hi fr -> lo <= va < hi -> translate h d va = phys fr va /\ phys fr va <> 0.
Proof.
  intros W Hva. destruct (w_frame _ _ _ _ _ W va Hva) as [Hb _]. pose proof (w_walk _ _ _ _ _ W va Hva) as Hw. unfold walk in Hw. unfold translate.
  fold (pde h d (pd_index va)). destruct (present (pde h d (pd_index va))); [|done]. injection Hw as Hw. fold (pte h (frame_of (pde h d (pd_index va))) (pt_index va)).
  rewrite Hw. destruct (entry_parts _ 7 Hb ltac:(lia)) as (-> & _ & ->). change (Z.land va 0xFFF) with (flags_of va). rewrite flags_mod.
  cbn [negb present]. rewrite frame_lor by zdm. split; [done|]. unfold phys. zdm.
Qed.

(** ** [task_write_user_mem] *)

Context (HX : X page_directory).

Lemma slot_kept k slot lo hi fr h' : slot_ok k slot -> window (khw k) (dir ((tasks k).[slot])) lo hi fr ->
  only_window (khw k) (dir ((tasks k).[slot])) lo hi fr h' -> slot_ok (set_hw h' k) slot.
Proof. intros [S1 S2 S3] W O. constructor; [done|done|]. cbn [khw set_hw tasks]. apply (space_kept (khw k) _ lo hi fr); [exact HX|apply W|exact O|done]. Qed.

(** The bytes [bs] at [va] and the rest of the window as before. *)
Definition stored h fr lo hi va bs h' : Prop :=
  forall vb, lo <= vb < hi -> ubyte h' fr vb = if decide (va <= vb < va + zlen bs) then bs.[vb - va] else ubyte h fr vb.

Lemma translate_run k slot va : slot_ok k slot -> task_translate_user_ptr slot va k = (translate (khw k) (dir ((tasks k).[slot])) va, k).
Proof.
  intros Hk. unfold task_translate_user_ptr. rewrite (bind_run _ _ _ _ _ (no_slot_run k slot Hk)). unfold task_at.
  rewrite (bind_run _ _ k ((tasks k).[slot]) k) by done. by rewrite (space_nonzero _ _ (so_space _ _ Hk)).
Qed.

Lemma write_loop_run slot lo hi fr uva data : is_bytes data -> lo <= uva -> uva + zlen data <= hi ->
  forall fuel k written, let d := dir ((tasks k).[slot]) in
  slot_ok k slot -> window (khw k) d lo hi fr -> 0 <= written <= zlen data ->
  (written < zlen data -> ((uva + written) mod 4096 + (zlen data - written) + 4095) / 4096 <= Z.of_nat fuel) ->
  exists h', write_user_loop fuel slot uva data (zlen data) written k = (0, set_hw h' k) /\ only_window (khw k) d lo hi fr h' /\
    stored (khw k) fr lo hi (uva + written) (slice data written (zlen data - written)) h'.
Proof.
  intros Hd Hlo Hhi fuel. induction fuel as [|fuel IH]; intros k written d Hk W Hw Hfuel; cbn [write_user_loop].
  { assert (written = zlen data) as -> by (destruct (decide (written < zlen data)) as [Hl|]; [specialize (Hfuel Hl); zdm|lia]). exists (khw k). split; [by destruct k|]. split; [apply only_window_refl|].
    intros vb _. rewrite Z.sub_diag, slice_nil, decide_False by (done || (change (zlen []) with 0; lia)). done. }
  destruct (w_range _ _ _ _ _ W) as [Hr1 Hr2].
  destruct (Z.ltb_spec written (zlen data)) as [Hlt|Hge].
  2:{ assert (written = zlen data) as -> by lia. exists (khw k). split; [by destruct k|]. split; [apply only_window_refl|].
    intros vb _. rewrite Z.sub_diag, slice_nil, decide_False by (done || (change (zlen []) with 0; lia)). done. }
  rewrite u32_small by lia. rewrite (bind_run _ _ _ _ _ (translate_run k slot _ Hk)). fold d. set (va := uva + written) in *.
  destruct (translate_window _ _ _ _ _ va W ltac:(unfold va; lia)) as [Et Ez]. rewrite Et, (proj2 (Z.eqb_neq _ 0)) by done.
  change (Z.land va 0xFFF) with (flags_of va). rewrite flags_mod.
  set (chunk := Z.min (4096 - va mod 4096) (zlen data - written)). assert (Hch : 0 < chunk) by (unfold chunk; zdm).
  assert (Hzs : zlen (slice data written chunk) = chunk) by (apply zlen_slice; unfold chunk; lia).
  destruct (window_store (khw k) d lo hi fr va (slice data written chunk) W) as [O1 S1]; [unfold va; lia|rewrite Hzs; unfold va, chunk; lia|rewrite Hzs; unfold chunk; lia|lia|by apply Forall_slice|].
  set (h1 := set_ram _ (khw k)) in *. rewrite (bind_run _ _ k tt (set_hw h1 k)) by done.
  destruct (IH (set_hw h1 k) (written + chunk)) as (h' & E' & O' & S'); [by apply (slot_kept k slot lo hi fr)|by apply (window_kept (khw k))|unfold chunk; lia| |].
  { intros Hmore. specialize (Hfuel Hlt). assert (Ech : chunk = 4096 - va mod 4096) by (unfold chunk in *; lia). rewrite Ech.
    replace (uva + (written + (4096 - va mod 4096))) with ((va / 4096 + 1) * 4096) by (unfold va; zdm). rewrite Z.mod_mul by done. zdm. }
  cbn [khw set_hw tasks] in O', S'. fold d in O'. exists h'. split; [exact E'|]. split; [by eapply only_window_trans|].
  intros vb Hvb. rewrite (S' vb Hvb), (S1 vb Hvb), Hzs. rewrite !zlen_slice by (unfold chunk; lia). fold va. replace (uva + (written + chunk)) with (va + chunk) by (unfold va; lia).
  destruct (decide (va + chunk <= vb < _)) as [Hin|Hout].
  - rewrite decide_True by lia. rewrite !aget_slice by (unfold chunk in *; lia). f_equal. lia.
  - destruct (decide (va <= vb < va + chunk)) as [Hin2|Hout2].
    + rewrite decide_True by (unfold chunk in *; lia). by rewrite !aget_slice by (unfold chunk in *; lia).
    + rewrite decide_False by lia. done.
Qed.

Lemma write_user_run k slot lo hi fr uva data : let d := dir ((tasks k).[slot]) in is_bytes data ->
  slot_ok k slot -> window (khw k) d lo hi fr -> lo <= uva -> uva + zlen data <= hi ->
  exists h', task_write_user_mem slot uva data (zlen data) k = (0, set_hw h' k) /\ only_window (khw k) d lo hi fr h' /\
    stored (khw k) fr lo hi uva data h'.
Proof.
  intros d Hb Hk W Hlo Hhi. unfold task_write_user_mem. rewrite (bind_run _ _ _ _ _ (no_slot_run k slot Hk)). pose proof (zlen_nonneg data).
  destruct (write_loop_run slot lo hi fr uva data Hb Hlo Hhi (Z.to_nat (zlen data / 4096 + 2)) k 0 Hk W ltac:(lia)) as (h' & E & O & S'); [intros _; zdm|].
  exists h'. split; [exact E|]. split; [exact O|]. by rewrite Z.add_0_r, Z.sub_0_r, slice_all in S'.
Qed.
End window.
End UserMem.
