(* ===== verification/TaskCreate.v ===== *)
(** Making a user task: the copy of the kernel's directory and the pages of
    the user stack. *)
From S2P Require Import Prelude Pmm Disk VfsData Vfs Mem Paging PagingSpec Task TaskSpace TaskPages UserMem.
From stdpp Require Import base list gmap numbers.
From Stdlib Require Import ZArith Lia.
Import Mem Paging PagingSpec Task TaskSpace TaskPages.
Open Scope Z_scope.

Module TaskCreate.

Section create.
Context {A : Type} `{FrameAlloc A, !FrameAllocLaws A}.
Implicit Types (h : hw A) (k : kst A).

(** The kernel's own address space, with a table for every entry. *)
Record kernel_space h : Prop := {
  ks_frames : frames_ok (frames h); ks_dir : dir_ok h page_directory page_directory; ks_ident : identity h;
  ks_full : forall i, 0 <= i < 1024 -> present (pde h page_directory i) = true;
}.

Lemma dir_ok_off h x y : is_frame y -> used h y = false -> dir_ok h x x -> dir_ok h y x /\ x <> y.
Proof.
  intros (b & Hb & ->) Hf [X1 X2 X3]. unfold used in Hf. rewrite Z.div_mul in Hf by done. split; [|by apply (fresh_ne h)].
  constructor; [done..|]. intros i Hi Hp. destruct (X3 i Hi Hp) as (T1 & T2 & _). split; [done|]. split; [done|]. by apply (fresh_ne h).
Qed.

(** A copy of the kernel's directory in a fresh frame. *)
Lemma clone_run h n : kernel_space h -> free_at_least h (S n) -> exists b h1, clone_kernel_page_directory h = (b * 4096, h1) /\
  filled h b h1 /\ space h1 (b * 4096) /\ (forall va, is_u32 va -> walk h1 (b * 4096) va = walk h page_directory va) /\
  (forall y, dir_ok h y page_directory -> dir_ok h1 y (b * 4096)) /\ (forall i, 0 <= i < 1024 -> pde h1 (b * 4096) i = pde h page_directory i) /\ free_at_least h1 n.
Proof.
  intros [K1 K2 K3 K4] Hfr. destruct (alloc_law (frames h) K1) as [(b & f' & E & Hb & Hfree & Hok & Hu)|[E Hall]].
  2:{ destruct (free_some _ _ Hfr) as (b & Hb & Hf). rewrite Hall in Hf by done. discriminate. }
  unfold PMM_BLOCK_SIZE in E. unfold clone_kernel_page_directory. rewrite (bind_run _ _ _ _ _ (frame_alloc_run _ _ _ E)).
  rewrite (proj2 (Z.eqb_neq (b * 4096) 0)) by lia. set (h0 := set_frames f' h).
  destruct (protect_run h0 b Hb (K3 b Hb Hfree)) as (m1 & E1 & Hm1). rewrite (bind_run _ _ _ _ _ E1).
  assert (Hnf : is_frame (b * 4096)) by (by exists b).
  assert (Hub : used h (b * 4096) = false) by (unfold used; by rewrite Z.div_mul).
  destruct (dir_ok_off h page_directory (b * 4096) Hnf Hub K2) as [Hoff Hne]. pose proof (do_frame _ _ _ K2) as Hpf.
  destruct (copy_run (b * 4096) page_directory (set_ram m1 h0) Hnf Hpf ltac:(by apply not_eq_sym)) as (m2 & E2 & Hc1 & Hc2).
  rewrite (bind_run _ _ _ _ _ E2). cbn [ram set_ram] in Hc1, Hc2. set (h1 := set_ram m2 (set_ram m1 h0)).
  assert (Hf : filled h b h1).
  { constructor; [exact (conj Hb Hfree)|exact Hok|exact Hu|reflexivity|]. intros a Ha. unfold h1. cbn [ram set_ram]. rewrite Hc2 by (by rewrite Z.div_mul). apply Hm1. }
  assert (Hpde : forall i, 0 <= i < 1024 -> pde h1 (b * 4096) i = pde h page_directory i).
  { intros i Hi. unfold pde at 1. unfold h1. cbn [ram set_ram]. rewrite Hc1 by done. apply ld32_same. intros; apply Hm1. }
  fold h1. change ((mret (b * 4096) : st (hw A) Z) h1) with (b * 4096, h1). clearbody h1.
  assert (Hbu : used h1 (b * 4096) = true) by (unfold used; rewrite Z.div_mul, (fl_used _ _ _ Hf), decide_True by lia; reflexivity).
  assert (Hdir : forall y, dir_ok h y page_directory -> dir_ok h1 y (b * 4096)).
  { intros y Hy. constructor; [exact Hnf|exact Hbu|].
    intros i Hi. rewrite Hpde by done. intros Hp. destruct (do_table _ _ _ Hy i Hi Hp) as (T1 & T2 & T3). split; [done|]. split; [by apply (used_filled h b)|done]. }
  exists b, h1. split; [done|]. split; [done|]. split; [|split].
  - constructor; [apply Hf|by apply Hdir|by apply (dir_ok_filled h b)|done| |intros i Hi; rewrite Hpde by done; by apply K4].
    intros c Hc Hcf. rewrite (fl_used _ _ _ Hf) in Hcf by lia. case_decide; [done|].
    rewrite (walk_filled h b h1 Hf page_directory) by (exact K2 || (unfold is_u32; unfold PMM_MAX_BLOCKS in Hc; lia)). by apply K3.
  - intros va Hva. pose proof (pd_bound va Hva) as Hpd. pose proof (pt_bound va). unfold walk. rewrite Hpde by done.
    destruct (present (pde h page_directory (pd_index va))) eqn:Ep; [|done]. destruct (do_table _ _ _ K2 _ Hpd Ep) as (T1 & T2 & _).
    f_equal. by apply (pde_filled h b).
  - split; [exact Hdir|]. split; [exact Hpde|].
    by apply (filled_free h b).
Qed.

(** A free place in the table: that of a dead task, or a new one. *)
Record place k slot k1 : Prop := {
  pc_run : take_slot k = (slot, k1); pc_slot : 0 <= slot < num_tasks k1; pc_len : num_tasks k1 <= zlen (tasks k1);
  pc_tasks : tasks k1 = tasks k; pc_hw : khw k1 = khw k; pc_current : current_task k1 = current_task k;
  pc_dead : slot < num_tasks k -> state ((tasks k).[slot]) = TASK_DEAD;
}.
Lemma find_dead_run k : find_dead_slot k =
  (default (-1) (first_some (fun i => if bool_decide (state ((tasks k).[i]) = TASK_DEAD) then Some i else None) (rounds 0 (num_tasks k)) 0), k).
Proof.
  unfold find_dead_slot. rewrite (bind_run (gets id) _ k k k) by done. etransitivity;
    [apply (bind_run _ _ k (first_some (fun i => if bool_decide (state ((tasks k).[i]) = TASK_DEAD) then Some i else None) (rounds 0 (num_tasks k)) 0) k), floop_pure|reflexivity].
  intros j _. unfold task_at. munfold. f_equal. destruct (decide (state ((tasks k).[j]) = TASK_DEAD)) as [Hd|Hd].
  - by rewrite bool_decide_true.
  - by rewrite bool_decide_false.
Qed.
Lemma take_slot_cases k : 0 <= num_tasks k <= MAX_TASKS -> zlen (tasks k) = MAX_TASKS ->
  (exists slot k1, place k slot k1) \/
  (take_slot k = (-1, k) /\ num_tasks k = MAX_TASKS /\ forall i, 0 <= i < MAX_TASKS -> state ((tasks k).[i]) <> TASK_DEAD).
Proof.
  intros Hn Hl. unfold take_slot in *.
  pose proof (first_some_hit (fun i => bool_decide (state ((tasks k).[i]) = TASK_DEAD)) (rounds 0 (num_tasks k)) 0) as Hf. unfold rounds in Hf.
  pose proof (find_dead_run k) as E. unfold rounds in E. destruct (first_some _ _ _) as [i|]; cbn in E.
  - left. exists i, k. destruct Hf as (Hi & Hd & _). apply bool_decide_eq_true in Hd. constructor; try done; try lia.
    unfold take_slot. rewrite (bind_run _ _ _ _ _ E). by rewrite (proj2 (Z.leb_le 0 i)) by lia.
  - assert (Hall : forall i, 0 <= i < num_tasks k -> state ((tasks k).[i]) <> TASK_DEAD).
    { intros i Hi. specialize (Hf i ltac:(lia)). by apply bool_decide_eq_false in Hf. }
    destruct (decide (MAX_TASKS <= num_tasks k)) as [Hge|Hlt].
    + right. assert (En : num_tasks k = MAX_TASKS) by lia. split; [|split; [done|by rewrite <- En]]. rewrite (bind_run _ _ _ _ _ E).
      change (0 <=? -1) with false. cbv iota. rewrite (bind_run (gets id) _ k k k) by done. by rewrite (proj2 (Z.leb_le _ _)) by lia.
    + left. exists (num_tasks k), (set_num (num_tasks k + 1) k). constructor; cbn; try done; try lia.
      unfold take_slot. rewrite (bind_run _ _ _ _ _ E). change (0 <=? -1) with false. cbv iota. rewrite (bind_run (gets id) _ k k k) by done.
      by rewrite (proj2 (Z.leb_gt _ _)) by lia.
Qed.

(** ** The user stack *)

Definition stack_base : Z := USER_STACK_TOP - TASK_STACK_SIZE.
(** From [k] to [k'] the first [length fs] pages of the stack were mapped to
    the frames [fs], which the task owns. *)
Record stack_loaded k slot (fs : list Z) k' : Prop := {
  sl_state : k' = set_hw (khw k') (set_tasks (owning k slot ((fun b => b * 4096) <$> fs)) k);
  sl_pages : exists img, loaded (khw k) (dir ((tasks k).[slot])) img fs (khw k') /\
    forall a, img a <> None <-> stack_base <= a < stack_base + 4096 * zlen fs;
}.
Lemma stack_loaded_slot k slot fs k' : slot_ok k slot -> stack_loaded k slot fs k' -> slot_ok k' slot /\
  (tasks k').[slot] = set_owned (owned_frames ((tasks k).[slot]) ++ ((fun b => b * 4096) <$> fs)) ((tasks k).[slot]).
Proof.
  intros [S1 S2 S3] [E (img & L & _)]. assert (Et : tasks k' = owning k slot ((fun b => b * 4096) <$> fs)) by (by rewrite E).
  assert (En : num_tasks k' = num_tasks k) by (by rewrite E).
  assert (Eg : (tasks k').[slot] = set_owned (owned_frames ((tasks k).[slot]) ++ ((fun b => b * 4096) <$> fs)) ((tasks k).[slot])) by (rewrite Et; apply owning_at; lia).
  split; [|done]. constructor; [by rewrite En|rewrite En, Et; unfold owning; by rewrite zlen_aset|rewrite Eg; exact (ld_space _ _ _ _ _ L)].
Qed.

Lemma stack_page_run k slot fs k1 m : slot_ok k slot -> stack_loaded k slot fs k1 -> free_at_least (khw k1) (2 + m) -> zlen fs < 4 ->
  zlen (owned_frames ((tasks k).[slot])) + zlen fs + 1 <= TASK_MAX_OWNED_FRAMES ->
  exists b k2, stack_page slot (zlen fs) k1 = (None, k2) /\ stack_loaded k slot (fs ++ [b]) k2 /\ free_at_least (khw k2) m.
Proof.
  intros Hk G Hfr Hn Ho. destruct (stack_loaded_slot _ _ _ _ Hk G) as [Hk1 Et1]. destruct G as [Es (img & L & Himg)]. pose proof (zlen_nonneg fs) as Hz.
  pose proof (so_space _ _ Hk1) as Hsp. set (d := dir ((tasks k).[slot])) in *. assert (Ed : dir ((tasks k1).[slot]) = d) by (by rewrite Et1). rewrite Ed in Hsp.
  destruct (alloc_some (khw k1) d (1 + m) Hsp Hfr) as (b & f & E & Hb & Hfree & Hu & Hsp1 & Hfr1).
  set (ka := set_hw (set_frames f (khw k1)) k1). assert (Hka : slot_ok ka slot) by (constructor; [apply Hk1|apply Hk1|]; change (tasks ka) with (tasks k1); by rewrite Ed).
  set (kb := set_tasks (owning ka slot [b * 4096]) ka).
  assert (Htr : task_track_frames slot [b * 4096] ka = (0, kb)).
  { apply track_run; [done|]. change (tasks ka) with (tasks k1). rewrite Et1. cbn [owned_frames set_owned]. rewrite zlen_app.
    assert (Hzf : zlen ((fun b => b * 4096) <$> fs) = zlen fs) by (unfold zlen; by rewrite length_fmap). change (zlen [b * 4096]) with 1. lia. }
  assert (Hzt : 0 <= slot < zlen (tasks ka)) by (destruct Hka; lia).
  assert (Hdb : dir ((tasks kb).[slot]) = d) by (change (tasks kb) with (owning ka slot [b * 4096]); rewrite owning_at by done; exact Ed).
  assert (Hkb : slot_ok kb slot).
  { constructor; [apply Hk1|change (tasks kb) with (owning ka slot [b * 4096]); unfold owning; rewrite zlen_aset; apply Hk1|rewrite Hdb; exact Hsp1]. }
  set (va := stack_base + 4096 * zlen fs). assert (Hva : is_u32 va /\ va mod 4096 = 0).
  { unfold is_u32, va, stack_base, USER_STACK_TOP, TASK_STACK_SIZE, USER_STACK_SIZE. zdm. }
  assert (Hf : filled (khw k1) b (khw kb)).
  { constructor; [exact (conj Hb Hfree)|exact (sp_frames _ _ Hsp1)|exact Hu|reflexivity|done]. }
  destruct (page_load (khw k1) d va b (fun a => ld8 (ram (khw k1)) (b * 4096 + (a - va))) (khw kb) m Hsp Hf Hfr1 (proj1 Hva)) as (h' & Em & Hp & Hfr').
  { intros o Ho'. change (ram (khw kb)) with (ram (khw k1)). f_equal. lia. }
  assert (Hd0 : dir_ok (khw k) d d) by apply Hk.
  pose proof (loaded_step _ _ _ _ _ _ _ _ _ Hd0 L Hp (proj1 Hva) (proj2 Hva)) as L'.
  exists b, (set_hw h' kb). split; [|split; [|exact Hfr']].
  - unfold stack_page. rewrite (bind_run _ _ _ _ _ (alloc_in_hw k1 _ _ E)). rewrite (proj2 (Z.eqb_neq (b * 4096) 0)) by lia.
    fold ka. rewrite (bind_run _ _ _ _ _ Htr). cbn [negb Z.eqb]. change (USER_STACK_TOP - TASK_STACK_SIZE + PMM_BLOCK_SIZE * zlen fs) with va.
    rewrite (bind_run _ _ _ _ _ (map_user_run kb slot (b * 4096) va 7 Hkb)). by rewrite Hdb, Em.
  - constructor.
    + rewrite fmap_app. apply (owning_step k slot _ _ (khw k1)); [destruct Hk; lia|]. exact Es.
    + eexists. split; [exact L'|]. intros a. unfold on_range. rewrite zlen_app. change (zlen [b]) with 1. case_decide as Hin; [split; [unfold va in Hin; lia|done]|].
      rewrite Himg. unfold va in Hin. lia.
Qed.
Lemma stack_loop k slot n : forall fs k1 m, slot_ok k slot -> stack_loaded k slot fs k1 -> free_at_least (khw k1) (2 * n + m) -> zlen fs + Z.of_nat n <= 4 ->
  zlen (owned_frames ((tasks k).[slot])) + 4 <= TASK_MAX_OWNED_FRAMES ->
  exists fs' k2, floop n (zlen fs) (stack_page slot) k1 = (None, k2) /\ stack_loaded k slot (fs ++ fs') k2 /\ length fs' = n /\ free_at_least (khw k2) m.
Proof.
  induction n as [|n IH]; intros fs k1 m Hk G Hfr Hn Ho; cbn [floop].
  { exists [], k1. by rewrite app_nil_r. }
  destruct (stack_page_run k slot fs k1 (2 * n + m) Hk G) as (b & k2 & E & G2 & Hfr2); [by replace (2 + (2 * n + m))%nat with (2 * S n + m)%nat by lia|lia|lia|].
  rewrite E. assert (Hz : zlen (fs ++ [b]) = zlen fs + 1) by (by rewrite zlen_app).
  destruct (IH (fs ++ [b]) k2 m Hk G2 Hfr2) as (fs' & k3 & E3 & G3 & Hl & Hfr3); [lia|lia|].
  rewrite Hz in E3. exists (b :: fs'), k3. split; [exact E3|]. split; [by rewrite <- app_assoc in G3|]. split; [cbn; by rewrite Hl|done].
Qed.

Lemma stack_nothing k slot : slot_ok k slot -> stack_loaded k slot [] k.
Proof.
  intros Hk. constructor; [by rewrite fmap_nil, owning_nil, set_tasks_same|]. exists (fun _ => None). split; [apply loaded_nil, Hk|].
  intros a. change (zlen []) with 0. split; [done|lia].
Qed.

(** ** [task_create_user] *)

(** A new task in [slot]: not to be run yet, its own directory in the frame
    [b] over the kernel's mappings, four stack pages in the frames [fs]. *)
Record created k k1 slot (ks priority b : Z) (fs : list Z) k' : Prop := {
  cr_slot : slot_ok k' slot;
  cr_task : exists p e, (tasks k').[slot] = mk_task e p TASK_DEAD (b * 4096) priority (kstack_of ks slot + TASK_GUARD_SIZE + TASK_KSTACK_SIZE) 1
              ((fun b => b * 4096) <$> fs) heap_arena_init USER_HEAP_BASE;
  cr_others : forall i, 0 <= i -> i <> slot -> (tasks k').[i] = (tasks k).[i];
  cr_stack : length fs = 4%nat;
  cr_mem : exists h1 img, filled (khw k) b h1 /\ (forall va, is_u32 va -> walk h1 (b * 4096) va = walk (khw k) page_directory va) /\
    (forall y, dir_ok (khw k) y page_directory -> dir_ok h1 y (b * 4096)) /\
    (forall i, 0 <= i < 1024 -> pde h1 (b * 4096) i = pde (khw k) page_directory i) /\
    loaded h1 (b * 4096) img fs (khw k') /\ space h1 (b * 4096) /\ forall a, img a <> None <-> stack_base <= a < USER_STACK_TOP;
  cr_current : current_task k' = current_task k;
  cr_pid : next_pid k' = next_pid k1;
}.

Lemma task_create_run k slot k1 ks priority m : place k slot k1 -> kernel_space (khw k) -> free_at_least (khw k) (9 + m) ->
  exists b fs k', task_create_user ks priority k = (slot, k') /\ created k k1 slot ks priority b fs k' /\ free_at_least (khw k') m.
Proof.
  intros [P1 P2 P3 P4 P5 P6 P7] Hks Hfr. unfold task_create_user. rewrite (bind_run _ _ _ _ _ P1). rewrite (proj2 (Z.ltb_ge slot 0)) by lia.
  set (t0 := (tasks k1).[slot]).
  set (t := mk_task (esp t0) (pid t0) TASK_DEAD (dir t0) priority (kstack_of ks slot + TASK_GUARD_SIZE + TASK_KSTACK_SIZE) 1 [] heap_arena_init USER_HEAP_BASE).
  set (k2 := set_tasks ((tasks k1).[slot := t]) k1). rewrite (bind_run _ _ k1 tt k2) by done.
  destruct (clone_run (khw k) (8 + m) Hks Hfr) as (b & h1 & Ec & Hf & Hsp & Hw & Hdd & Hpde & Hfr1).
  assert (Ecl : in_hw clone_kernel_page_directory k2 = (b * 4096, set_hw h1 k2)) by (rewrite in_hw_run; change (khw k2) with (khw k1); rewrite P5, Ec; done).
  rewrite (bind_run _ _ _ _ _ Ecl). destruct (fl_free _ _ _ Hf) as [Hb Hfree]. rewrite (proj2 (Z.eqb_neq (b * 4096) 0)) by lia.
  set (k3 := set_hw h1 (set_tasks ((tasks k1).[slot := set_dir (b * 4096) t]) k1)).
  assert (Hzs : 0 <= slot < zlen (tasks k1)) by lia.
  assert (Ek3 : upd slot (set_dir (b * 4096)) (set_hw h1 k2) = (tt, k3)).
  { unfold upd. munfold. unfold k3, k2, set_hw, set_tasks. cbn. by rewrite aget_aset_eq, aset_aset by done. }
  rewrite (bind_run _ _ _ _ _ Ek3).
  assert (Et3 : (tasks k3).[slot] = set_dir (b * 4096) t) by (apply aget_aset_eq; lia).
  assert (Hk3 : slot_ok k3 slot). { constructor; [done|change (tasks k3) with ((tasks k1).[slot := set_dir (b * 4096) t]); by rewrite zlen_aset|by rewrite Et3]. }
  destruct (stack_loop k3 slot 4 [] k3 m Hk3 (stack_nothing k3 slot Hk3) Hfr1) as (fs & k' & E & G & Hl & Hfr'); [by vm_compute|rewrite Et3; by vm_compute|].
  cbn [app] in G. change (zlen []) with 0 in E.
  change (pages (USER_STACK_TOP - TASK_STACK_SIZE) USER_STACK_TOP) with 4%nat. rewrite (bind_run _ _ _ _ _ E).
  exists b, fs, k'. split; [done|]. split; [|done]. destruct (stack_loaded_slot _ _ _ _ Hk3 G) as [Hk' Et']. destruct G as [Es (img & L & Himg)].
  rewrite Et3 in *. constructor; [done| | |done| | |].
  - exists (pid t0), (esp t0). by rewrite Et'.
  - intros i Hi Hn. assert (Et : tasks k' = owning k3 slot ((fun b => b * 4096) <$> fs)) by (by rewrite Es). rewrite Et. unfold owning. rewrite aget_aset_ne by lia.
    change (tasks k3) with ((tasks k1).[slot := set_dir (b * 4096) t]). rewrite aget_aset_ne by lia. by rewrite P4.
  - exists h1, img. split; [done|]. split; [done|]. split; [exact Hdd|]. split; [exact Hpde|]. split; [exact L|]. split; [done|]. intros a. rewrite Himg.
    assert (Hz : zlen fs = 4) by (unfold zlen; lia). rewrite Hz. unfold stack_base, USER_STACK_TOP, TASK_STACK_SIZE, USER_STACK_SIZE. lia.
  - rewrite Es. exact P6.
  - by rewrite Es.
Qed.
End create.
End TaskCreate.

(** Starting a user task: the frame on its kernel stack from which the
    scheduler enters it, and the guard page below that stack. *)
Import Mem Paging PagingSpec Task TaskSpace TaskPages UserMem.

Module TaskStart.

Section start.
Context {A : Type} `{FrameAlloc A, !FrameAllocLaws A}.
Implicit Types (h : hw A) (k : kst A).

(** Words pushed one after the other below [sp]. *)
Lemma push_words_run ws : forall sp k, 4 * zlen ws <= sp < 2 ^ 32 ->
  exists m', push_words ws sp k = (sp - 4 * zlen ws, set_hw (set_ram m' (khw k)) k) /\
    (forall a, ~ sp - 4 * zlen ws <= a < sp -> ld8 m' a = ld8 (ram (khw k)) a) /\
    forall i, 0 <= i < zlen ws -> ld32 m' (sp - 4 * (i + 1)) = u32 (ws.[i]).
Proof.
  induction ws as [|w ws IH]; intros sp k Hsp; cbn [push_words].
  { change (zlen []) with 0 in *. exists (ram (khw k)). split; [rewrite Z.sub_0_r; by destruct k as [[] ?]|]. split; [done|lia]. }
  assert (Hz : zlen (w :: ws) = 1 + zlen ws) by (unfold zlen; cbn; lia). rewrite Hz in *. pose proof (zlen_nonneg ws).
  rewrite (u32_small (sp - 4)) by lia. set (h1 := set_ram (st32 (sp - 4) w (ram (khw k))) (khw k)).
  rewrite (bind_run _ _ k tt (set_hw h1 k)) by done.
  destruct (IH (sp - 4) (set_hw h1 k)) as (m' & E & Hm & Hw); [lia|]. cbn [khw set_hw] in E, Hm. exists m'. split; [|split].
  - rewrite E. f_equal. lia.
  - intros a Ha. rewrite Hm by lia. unfold h1. cbn [ram set_ram]. unfold st32. rewrite ld8_store_bytes, decide_False; [done|]. change (zlen (le_put 4 w)) with 4. lia.
  - intros i Hi. destruct (decide (i = 0)) as [->|].
    + rewrite (ld32_same (st32 (sp - 4) w (ram (khw k)))); [apply ld32_st32|]. intros b Hb. apply Hm. lia.
    + replace (sp - 4 * (i + 1)) with (sp - 4 - 4 * (i - 1 + 1)) by lia. rewrite Hw by lia. unfold aget. by replace (Z.to_nat i) with (S (Z.to_nat (i - 1))) by lia.
Qed.

(** The nineteen words of the entry frame, the last pushed at the end. *)
Definition entry_words (entry uesp : Z) : list Z :=
  [GDT_USER_DATA_SEL; uesp; 0x0202; GDT_USER_CODE_SEL; entry; 0; 128] ++ replicate 8 0 ++ replicate 4 GDT_USER_DATA_SEL.
Definition entry_frame (m : mem) (top entry uesp : Z) : Prop :=
  forall i, 0 <= i < 19 -> ld32 m (top - 4 * (i + 1)) = u32 ((entry_words entry uesp).[i]).

(** The kernel stack of a task: its last page, which belongs to the kernel. *)
Record kstack_ok (X : Z -> Prop) h (top : Z) : Prop := {
  ko_aligned : top mod 4096 = 0; ko_range : 0 < top / 4096 - 1 < PMM_MAX_BLOCKS - 1;
  ko_used : used h (top - 4096) = true;
  ko_off : forall x, X x -> dir_ok h (top - 4096) x /\ x <> top - 4096;
}.

(** What starting changes: the words, the guard page, the task's entry. *)
Record started (X : Z -> Prop) k slot (top guard entry uesp : Z) k' : Prop := {
  st_task : tasks k' = (tasks k).[slot := set_state TASK_READY (set_pid (next_pid k) (set_esp (top - 76) ((tasks k).[slot])))];
  st_frame : entry_frame (ram (khw k')) top entry uesp;
  st_space : space (khw k') (dir ((tasks k).[slot]));
  st_guard : walk (khw k') (dir ((tasks k).[slot])) guard = Some 0;
  st_walk : forall va, is_u32 va -> va / 4096 <> guard / 4096 -> walk (khw k') (dir ((tasks k).[slot])) va = walk (khw k) (dir ((tasks k).[slot])) va;
  st_others : forall x va, X x -> x <> dir ((tasks k).[slot]) -> is_u32 va -> walk (khw k') x va = walk (khw k) x va;
  st_mem : forall a, used (khw k) a = true -> a / 4096 <> dir ((tasks k).[slot]) / 4096 -> a / 4096 <> top / 4096 - 1 ->
    ld8 (ram (khw k')) a = ld8 (ram (khw k)) a;
  st_current : current_task k' = current_task k;
  st_flags : forall i, 0 <= i < 1024 -> flags_of (pde (khw k') (dir ((tasks k).[slot])) i) = flags_of (pde (khw k) (dir ((tasks k).[slot])) i);
}.

Lemma task_start_run (X : Z -> Prop) k slot ks entry uesp m : let t := (tasks k).[slot] in let top := kernel_stack_top t in
  slot_ok k slot -> X page_directory -> X (dir t) -> (forall x, X x -> dir_ok (khw k) (dir t) x) -> kstack_ok X (khw k) top -> is_u32 (kstack_of ks slot) ->
  uesp <> 0 -> free_at_least (khw k) (S m) ->
  exists k', task_start_user ks slot entry uesp k = (tt, k') /\ started X k slot top (kstack_of ks slot) entry uesp k'.
Proof.
  intros t top Hk HXp HXd HX [Kal Kr Ku Ko] Hg Hue Hfr. set (d := dir t) in *. unfold PMM_MAX_BLOCKS in Kr. set (kf := top / 4096 - 1) in *.
  assert (Etop : top - 4096 = kf * 4096) by (unfold kf; zdm). rewrite Etop in *.
  unfold task_start_user. rewrite (bind_run _ _ _ _ _ (no_slot_run k slot Hk)). unfold task_at. rewrite (bind_run _ _ k t k) by done.
  rewrite (proj2 (Z.eqb_neq uesp 0)) by done. fold (entry_words entry uesp). fold top.
  destruct (push_words_run (entry_words entry uesp) top k) as (m' & E & Hm & Hw); [change (zlen (entry_words entry uesp)) with 19; zdm|].
  change (4 * zlen (entry_words entry uesp)) with 76 in *. change (zlen (entry_words entry uesp)) with 19 in *. rewrite (bind_run _ _ _ _ _ E). set (h1 := set_ram m' (khw k)) in *.
  assert (O : only_window X (khw k) d 0 1 (fun _ => kf) h1).
  { apply frame_write; [unfold PMM_MAX_BLOCKS; lia|exact Ko|]. intros a Ha. apply Hm. unfold kf in Ha. zdm. }
  pose proof (space_kept X (khw k) d 0 1 _ h1 HXp HXd O (so_space _ _ Hk)) as Hs1. destruct Hk as [S1 S2 S3].
  set (t1 := set_state TASK_READY (set_pid (next_pid k) (set_esp (top - 76) t))).
  set (k1 := set_next_pid (u32 (next_pid k + 1)) (set_tasks ((tasks k).[slot := t1]) (set_hw h1 k))).
  assert (Hlt : 0 <= slot < zlen (tasks k)) by lia.
  assert (Hfr1 : free_at_least h1 (S m)) by exact Hfr.
  destruct (unmap_run h1 d (kstack_of ks slot) (sp_frames _ _ Hs1) (sp_dir _ _ Hs1) (sp_ident _ _ Hs1) Hg (sp_full _ _ Hs1 _ (pd_bound _ Hg))) as [(b & h' & Eu & [U1 U2 U3 U4 U5 U6 U7])|[Hall _]].
  2:{ destruct (free_some _ _ Hfr1) as (b & Hb & Hf). rewrite Hall in Hf by done. discriminate. }
  assert (M : mapped h1 d (kstack_of ks slot) 0 b h') by (apply remapped_mapped; [done|done|by constructor]).
  assert (Hbk : kf <> b). { intros <-. destruct U1 as [_ Hf]. unfold used in Ku. rewrite Z.div_mul in Ku by done. change (frames h1) with (frames (khw k)) in Hf. congruence. }
  assert (Hdk : d / 4096 <> kf). { intros Ed. destruct (Ko d HXd) as [_ Hn]. apply Hn. destruct (frame_bounds d (do_frame _ _ _ (sp_dir _ _ Hs1))). zdm. }
  exists (set_hw h' k1). split.
  { assert (Eupd : upd slot (set_state TASK_READY) (set_next_pid (u32 (next_pid k + 1)) (set_tasks (((tasks k).[slot := set_esp (top - 76) t]).[slot := set_pid (next_pid k) (set_esp (top - 76) t)]) (set_hw h1 k))) = (tt, k1)).
    { unfold upd. munfold. unfold k1, set_next_pid, set_tasks. cbn. rewrite aset_aset, aget_aset_eq by (rewrite ?zlen_aset; exact Hlt). rewrite aset_aset. reflexivity. }
    rewrite (bind_run _ _ _ tt (set_tasks ((tasks k).[slot := set_esp (top - 76) t]) (set_hw h1 k))) by done.
    rewrite (bind_run (take_pid slot) _ _ tt (set_next_pid (u32 (next_pid k + 1)) (set_tasks (((tasks k).[slot := set_esp (top - 76) t]).[slot := set_pid (next_pid k) (set_esp (top - 76) t)]) (set_hw h1 k)))).
    2:{ unfold take_pid, upd. munfold. cbn. by rewrite aget_aset_eq by exact Hlt. }
    rewrite (bind_run _ _ _ _ _ Eupd). rewrite in_hw_run. change (khw k1) with h1. fold d. by rewrite Eu. }
  constructor; cbn [khw set_hw tasks]; fold t; fold d.
  - done.
  - intros i Hi. rewrite <- Hw by done. apply ld32_same. intros a Ha. apply (mp_mem _ _ _ _ _ _ M).
    + unfold used. replace (a / 4096) with kf by (unfold kf; zdm). unfold used in Ku. rewrite Z.div_mul in Ku by done. exact Ku.
    + replace (a / 4096) with kf by (unfold kf; zdm). by apply not_eq_sym.
  - apply M.
  - apply M.
  - intros va Hva Hn. rewrite (mp_rest _ _ _ _ _ _ M) by done. by apply O.
  - intros x va HXx Hn Hva. destruct (mp_others _ _ _ _ _ _ M x (ow_dirs _ _ _ _ _ _ _ O x d HXx (HX x HXx)) Hn) as [_ Hq]. rewrite Hq by done. by apply O.
  - intros a Hu Hn Hk'. rewrite (mp_mem _ _ _ _ _ _ M) by done. apply O. intros _ _. done.
  - done.
  - intros i Hi. rewrite (mp_flags _ _ _ _ _ _ M) by done. f_equal. by apply O.
Qed.
End start.
End TaskStart.
