(* ===== verification/TaskDemo.v ===== *)
(** A small machine with one user task: its kernel directory, one table for
    all of the address space, and a few free frames. *)
From S2P Require Import Prelude Pmm Mem Paging PagingSpec Disk VfsData Vfs Task TaskSpace.
From stdpp Require Import base list gmap numbers.
From Stdlib Require Import ZArith Lia.
Import Pmm Mem Paging PagingSpec VfsData Task TaskSpace.
Open Scope Z_scope.

Module TaskDemo.

(** The allocator with exactly the frames [l] free. *)
Definition with_free (l : list Z) : pmm := foldr (fun b p => Pmm.pmm_free_block (b * 4096) p) booted l.

Lemma with_free_spec l : Forall (fun b => 0 < b < PMM_MAX_BLOCKS) l ->
  pmm_ok (with_free l) /\ forall c, 0 <= c < PMM_MAX_BLOCKS -> frame_used (with_free l) c = negb (bool_decide (c ∈ l)).
Proof.
  induction 1 as [|b l Hb Hl [IHo IHu]]; cbn [with_free foldr].
  - split; [exact booted_ok|]. intros c Hc. rewrite bool_decide_false by (apply list.not_elem_of_nil). by apply booted_used.
  - assert (0 <= b * 4096) by lia. split; [by apply free_block_ok|]. intros c Hc.
    rewrite free_block_used by (apply IHo || done). unfold PMM_BLOCK_SIZE. rewrite Z.div_mul by done.
    destruct (decide (c = b)) as [->|Hn]; [by rewrite bool_decide_true by apply list.elem_of_cons, or_introl, eq_refl|].
    fold (with_free l). rewrite IHu by done. f_equal. apply bool_decide_ext. rewrite list.elem_of_cons. tauto.
Qed.
Lemma with_free_ok l : Forall (fun b => 0 < b < PMM_MAX_BLOCKS) l -> frames_ok (with_free l).
Proof.
  intros Hl. destruct (with_free_spec l Hl) as [Ho Hu]. split; [done|]. rewrite Hu by (unfold PMM_MAX_BLOCKS; lia).
  rewrite bool_decide_false; [done|]. intros Hin. rewrite list.Forall_forall in Hl. specialize (Hl 0 Hin). lia.
Qed.

(** Frame 16 holds the kernel's directory, frame 18 the task's, frame 17 the
    table that maps the first 1024 frames at their own addresses. *)
Definition words (l : list Z) : list Z := concat (le_put 4 <$> l).
Definition table : Z := 17 * 4096.
Definition task_dir : Z := 18 * 4096.
Definition demo_ram : mem :=
  store_bytes page_directory (words (replicate 1024 (table + 3)))
    (store_bytes task_dir (words (replicate 1024 (table + 3)))
      (store_bytes table (words ((fun j => j * 4096 + 3) <$> seqZ 0 1024)) ∅)).
Definition demo_hw (l : list Z) : hw pmm := mk_hw demo_ram (with_free l) page_directory.
Definition user_task : task := set_is_user 1 (set_dir task_dir zero_task).
Definition demo (l : list Z) : kst pmm :=
  mk_kst (demo_hw l) ([set_dir page_directory zero_task; user_task] ++ replicate 30 zero_task) 1 2 2 0 0 0 lock_free.

(** Facts of the tables, by evaluation. *)
Definition dir_words (d : Z) : bool := forallb (fun i => ld32 demo_ram (d + 4 * i) =? table + 3) (seqZ 0 1024).
Lemma forall_range (f : Z -> bool) n i : forallb f (seqZ 0 n) = true -> 0 <= i < n -> f i = true.
Proof. rewrite forallb_forall. intros Hf Hi. apply Hf. apply list_elem_of_In, elem_of_seqZ. lia. Qed.
Lemma kernel_words i : 0 <= i < 1024 -> ld32 demo_ram (page_directory + 4 * i) = table + 3.
Proof. intros Hi. apply Z.eqb_eq. apply (forall_range (fun i => ld32 demo_ram (page_directory + 4 * i) =? table + 3) 1024 i); [vm_compute; reflexivity|done]. Qed.
Lemma task_words i : 0 <= i < 1024 -> ld32 demo_ram (task_dir + 4 * i) = table + 3.
Proof. intros Hi. apply Z.eqb_eq. apply (forall_range (fun i => ld32 demo_ram (task_dir + 4 * i) =? table + 3) 1024 i); [vm_compute; reflexivity|done]. Qed.
Lemma table_words j : 0 <= j < 1024 -> ld32 demo_ram (table + 4 * j) = j * 4096 + 3.
Proof. intros Hi. apply Z.eqb_eq. apply (forall_range (fun j => ld32 demo_ram (table + 4 * j) =? j * 4096 + 3) 1024 j); [vm_compute; reflexivity|done]. Qed.

Section demo.
Context (l : list Z) (Hl : Forall (fun b => 256 <= b < 1024) l).

Lemma demo_range : Forall (fun b => 0 < b < PMM_MAX_BLOCKS) l.
Proof. eapply list.Forall_impl; [exact Hl|]. unfold PMM_MAX_BLOCKS. intros b Hb. cbv beta in Hb. lia. Qed.
Lemma demo_used c : 0 <= c < PMM_MAX_BLOCKS -> used_frame (frames (demo_hw l)) c = negb (bool_decide (c ∈ l)).
Proof. apply (with_free_spec l demo_range). Qed.
Lemma demo_taken b : 0 < b < 256 -> used (demo_hw l) (b * 4096) = true.
Proof.
  intros Hb. unfold used. rewrite Z.div_mul, demo_used by (done || (unfold PMM_MAX_BLOCKS; lia)). rewrite bool_decide_false; [done|].
  intros Hin. rewrite list.Forall_forall in Hl. specialize (Hl b Hin). lia.
Qed.
Lemma demo_dir b x : 0 < b < 256 -> (forall i, 0 <= i < 1024 -> ld32 demo_ram (b * 4096 + 4 * i) = table + 3) -> x <> table ->
  dir_ok (demo_hw l) x (b * 4096).
Proof.
  intros Hb Hw Hx. constructor; [exists b; unfold PMM_MAX_BLOCKS; split; [lia|done]|by apply demo_taken|].
  intros i Hi _. unfold pde. cbn [ram demo_hw]. rewrite Hw by done. change (frame_of (table + 3)) with (17 * 4096).
  split; [exists 17; unfold PMM_MAX_BLOCKS; split; [lia|done]|]. split; [apply demo_taken; lia|]. by intros E; apply Hx.
Qed.
Lemma demo_space : space (demo_hw l) task_dir.
Proof.
  constructor.
  - apply with_free_ok, demo_range.
  - apply (demo_dir 18); [lia|exact task_words|discriminate].
  - apply (demo_dir 16); [lia|exact kernel_words|discriminate].
  - discriminate.
  - intros b Hb Hf. rewrite demo_used in Hf by lia. apply negb_false_iff, bool_decide_eq_true in Hf.
    rewrite list.Forall_forall in Hl. specialize (Hl b Hf). unfold walk, pde, pte. cbn [ram demo_hw].
    assert (E1 : pd_index (b * 4096) = 0) by (rewrite pd_div; zdm). assert (E2 : pt_index (b * 4096) = b) by (rewrite pt_mod; zdm).
    rewrite E1, E2, kernel_words by lia. change (present (table + 3)) with true. change (frame_of (table + 3)) with table. cbn [negb].
    by rewrite table_words by lia.
  - intros i Hi. unfold pde. cbn [ram demo_hw]. rewrite task_words by done. reflexivity.
Qed.
Lemma demo_slot : slot_ok (demo l) 1.
Proof. constructor; [vm_compute; split; congruence|vm_compute; congruence|exact demo_space]. Qed.
Lemma demo_has_free n : NoDup l -> (n <= length l)%nat -> free_at_least (khw (demo l)) n.
Proof.
  intros Hnd Hn. exists l. split; [done|]. split; [|done]. apply list.Forall_forall. intros b Hb. pose proof demo_range as Hr.
  rewrite list.Forall_forall in Hr. specialize (Hr b Hb). split; [lia|]. cbn [khw demo]. rewrite demo_used by lia. by rewrite bool_decide_true.
Qed.
End demo.

(** ** Witnesses *)

Definition five : list Z := [300; 301; 302; 303; 304].
Lemma five_range : Forall (fun b => 256 <= b < 1024) five.
Proof. vdec. Qed.
Lemma five_nodup : NoDup five.
Proof. vdec. Qed.
Lemma five_slot : slot_ok (demo five) 1.
Proof. exact (demo_slot five five_range). Qed.

Lemma task_map_user_page_spec_witness :
  exists h', task_map_user_page 1 (1000 * 4096) USER_HEAP_BASE 7 (demo five) = (0, set_hw h' (demo five)) /\
    walk h' task_dir USER_HEAP_BASE = Some (1000 * 4096 + 7).
Proof.
  destruct (task_map_user_page_spec (demo five) 1 (1000 * 4096) USER_HEAP_BASE 7 five_slot (demo_has_free five five_range 1 five_nodup ltac:(vm_compute; lia)) ltac:(vdec) ltac:(vdec) ltac:(lia))
    as (b & h' & E & _ & _ & _ & _ & Hw & _).
  exists h'. split; [exact E|exact Hw].
Defined.

(** With no frame left the user page shows up in the kernel's directory. *)
Lemma task_map_user_page_full_witness :
  exists k', task_map_user_page 1 (1000 * 4096) USER_HEAP_BASE 7 (demo []) = (0, k') /\
    walk (khw k') page_directory USER_HEAP_BASE = Some (1000 * 4096 + 7).
Proof.
  assert (Hl : Forall (fun b => 256 <= b < 1024) []) by constructor.
  apply (task_map_user_page_full (demo []) 1 (1000 * 4096) USER_HEAP_BASE 7 page_directory (demo_slot [] Hl)).
  - intros c Hc. exact (demo_used [] Hl c Hc).
  - vdec.
  - vdec.
  - lia.
  - apply (demo_dir [] Hl 16); [lia|exact kernel_words|discriminate].
  - vm_compute. reflexivity.
Defined.

Lemma task_set_heap_break_grows_witness :
  exists k', task_set_heap_break 1 (USER_HEAP_BASE + 5000) (demo five) = (USER_HEAP_BASE + 5000, k').
Proof.
  destruct (task_set_heap_break_grows (demo five) 1 (USER_HEAP_BASE + 5000) five_slot ltac:(vm_compute; discriminate) ltac:(vm_compute; split; discriminate)
    ltac:(vm_compute; reflexivity) ltac:(vm_compute; discriminate) (demo_has_free five five_range 4 five_nodup ltac:(vm_compute; lia))) as (fs & k1 & _ & _ & E & _).
  eexists. exact E.
Defined.

(** Two free frames and a request for two pages. *)
Definition two : list Z := [300; 301].
Lemma two_range : Forall (fun b => 256 <= b < 1024) two.
Proof. vdec. Qed.
Lemma two_at_most : free_at_most (khw (demo two)) 2.
Proof.
  exists two. split; [vm_compute; lia|]. intros c Hc Hf. cbn [khw demo] in Hf. rewrite (demo_used two two_range) in Hf by done.
  by apply negb_false_iff, bool_decide_eq_true in Hf.
Qed.
Lemma task_set_heap_break_rollback_witness :
  exists f k', task_set_heap_break 1 (USER_HEAP_BASE + 5000) (demo two) = (USER_HEAP_BASE, k') /\
    walk (khw k') task_dir USER_HEAP_BASE = Some (f * 4096 + 7) /\ used_frame (frames (khw k')) f = false.
Proof.
  destruct (task_set_heap_break_rollback_dangling (demo two) 1 (USER_HEAP_BASE + 5000) (demo_slot two two_range) ltac:(vm_compute; discriminate) ltac:(vm_compute; split; discriminate)
    ltac:(vm_compute; reflexivity) ltac:(vm_compute; discriminate) (demo_has_free two two_range 2 ltac:(vdec) ltac:(vm_compute; lia)) two_at_most) as (f & k' & E & _ & Hw & Hu).
  exists f, k'. split; [exact E|]. split; [exact Hw|exact Hu].
Defined.
End TaskDemo.
