(* ===== verification/Heap.v ===== *)
(** The heap (src/heap.c, src/heap.h): first-fit allocation over a doubly
    linked list of blocks whose headers lie in memory before the payload.

    The functions work on an arena; [hst] is the arena with the kernel below
    it. The kernel's own heap runs them with owner -1, a task's heap with the
    task's slot. Saving and restoring the interrupt flag and the debugging
    output are not part of the model. *)
From S2P Require Import Prelude Pmm Mem Paging Disk VfsData Vfs Task.
From stdpp Require Import base list gmap numbers.
From Stdlib Require Import ZArith Lia.
Import Mem Paging Task.
Open Scope Z_scope.

Module Heap.

Definition HEAP_MAGIC : Z := 0x5A4C534A.
Definition ALIGN : Z := 8.
Definition ALIGN_UP (x : Z) : Z := Z.land (u32 (x + (ALIGN - 1))) (2 ^ 32 - 1 - (ALIGN - 1)).
Definition SIZE_MAX_LOCAL : Z := 2 ^ 32 - 1.
(** [sizeof(block_header_t)] is 20: magic, size, free (a byte and padding),
    next, prev. *)
Definition HEADER_SIZE : Z := ALIGN_UP 20.

Record hst (F : Type) := mk_hst { ar : arena; kk : kst F }.
Arguments mk_hst {F}. Arguments ar {F}. Arguments kk {F}.

Section ops.
Context {F : Type} `{FrameAlloc F}.
#[local] Abbreviation M := (st (hst F)).

Definition hram (s : hst F) : mem := ram (khw (kk s)).
Definition set_hram (m : mem) (s : hst F) : hst F := mk_hst (ar s) (set_hw (set_ram m (khw (kk s))) (kk s)).
Definition set_ar (a : arena) (s : hst F) : hst F := mk_hst a (kk s).
Definition in_kst {A} (m : st (kst F) A) : M A := fun s => let '(a, k) := m (kk s) in (a, mk_hst (ar s) k).

(** The fields of the header at [b]. *)
Definition h_magic (b : Z) : M Z := gets (fun s => ld32 (hram s) b).
Definition h_size (b : Z) : M Z := gets (fun s => ld32 (hram s) (b + 4)).
Definition h_free (b : Z) : M Z := gets (fun s => ld8 (hram s) (b + 8)).
Definition h_next (b : Z) : M Z := gets (fun s => ld32 (hram s) (b + 12)).
Definition h_prev (b : Z) : M Z := gets (fun s => ld32 (hram s) (b + 16)).
Definition set_h_magic (b v : Z) : M unit := modify (fun s => set_hram (st32 b v (hram s)) s).
Definition set_h_size (b v : Z) : M unit := modify (fun s => set_hram (st32 (b + 4) v (hram s)) s).
Definition set_h_free (b v : Z) : M unit := modify (fun s => set_hram (st8 (b + 8) v (hram s)) s).
Definition set_h_next (b v : Z) : M unit := modify (fun s => set_hram (st32 (b + 12) v (hram s)) s).
Definition set_h_prev (b v : Z) : M unit := modify (fun s => set_hram (st32 (b + 16) v (hram s)) s).
Definition set_tail (v : Z) : M unit := modify (fun s => set_ar (mk_arena (head (ar s)) v) s).
Definition set_head (v : Z) : M unit := modify (fun s => set_ar (mk_arena v (tail (ar s))) s).

Definition heap_arena_init : M unit := modify (set_ar (mk_arena 0 0)).

Definition alloc_page : M Z := in_kst (in_hw Paging.pmm_alloc_block).
Definition free_page (a : Z) : M unit := in_kst (in_hw (Paging.pmm_free_block a)).
(** [if (owner_slot >= 0) task_track_frames(owner_slot, &f, 1)], its result
    dropped. *)
Definition track_page (owner_slot f : Z) : M unit :=
  if 0 <=? owner_slot then in_kst (task_track_frames owner_slot [f]);; mret tt else mret tt.

(** The next page of a region that ends at [region_end]; [inr] leaves the loop. *)
Definition next_page (owner_slot : Z) (i region_end : Z) : M (Z + Z) :=
  next_page ← alloc_page;
  if next_page =? 0 then mret (inr region_end) else
  if next_page =? region_end then
    track_page owner_slot next_page;;
    mret (inl (u32 (region_end + PMM_BLOCK_SIZE)))
  else free_page next_page;; mret (inr region_end).

(** A new free block at the end of the list, 0 on failure. *)
Definition grow_heap (min_size owner_slot : Z) : M Z :=
  if SIZE_MAX_LOCAL - HEADER_SIZE <? min_size then mret 0 else
  let needed := HEADER_SIZE + min_size in
  if SIZE_MAX_LOCAL - (PMM_BLOCK_SIZE - 1) <? needed then mret 0 else
  let pages_needed := (needed + PMM_BLOCK_SIZE - 1) / PMM_BLOCK_SIZE in
  first ← alloc_page;
  if first =? 0 then mret 0 else
  track_page owner_slot first;;
  r ← aloop (rounds 1 pages_needed) 1 (u32 (first + PMM_BLOCK_SIZE)) (next_page owner_slot);
  let region_end := match r with inl e => e | inr e => e end in
  let block := first in
  set_h_magic block HEAP_MAGIC;;
  set_h_size block (u32 (u32 (region_end - first) - HEADER_SIZE));;
  set_h_free block 1;;
  set_h_next block 0;;
  a ← gets ar;
  set_h_prev block (tail a);;
  (if negb (tail a =? 0) then set_h_next (tail a) block else set_head block);;
  set_tail block;;
  mret block.

Definition split_block (block size : Z) : M unit :=
  bsize ← h_size block;
  if bsize <? size then mret tt else
  if bsize - size <? HEADER_SIZE + ALIGN then mret tt else
  let new_block := block + HEADER_SIZE + size in
  set_h_magic new_block HEAP_MAGIC;;
  set_h_size new_block (bsize - size - HEADER_SIZE);;
  set_h_free new_block 1;;
  next ← h_next block;
  set_h_next new_block next;;
  set_h_prev new_block block;;
  (if negb (next =? 0) then set_h_prev next new_block else set_tail new_block);;
  set_h_next block new_block;;
  set_h_size block size.

(** [left] swallows [dead], its successor. *)
Definition merge (left dead : Z) : M unit :=
  lsize ← h_size left;
  dsize ← h_size dead;
  set_h_size left (u32 (lsize + (HEADER_SIZE + dsize)));;
  next ← h_next dead;
  set_h_next left next;;
  if negb (next =? 0) then set_h_prev next left else set_tail left.
(** [left] ends where [right] begins. *)
Definition adjacent (left right : Z) : M bool :=
  lsize ← h_size left; mret (u32 (left + HEADER_SIZE + lsize) =? right).

Definition coalesce (block : Z) : M unit :=
  next ← h_next block;
  (if next =? 0 then mret tt else
   nfree ← h_free next;
   adj ← adjacent block next;
   if negb (nfree =? 0) && adj then merge block next else mret tt);;
  prev ← h_prev block;
  if prev =? 0 then mret tt else
  pfree ← h_free prev;
  adj ← adjacent prev block;
  if negb (pfree =? 0) && adj then merge prev block else mret tt.

(** The search: [++steps > 1000000] gives up. *)
Inductive fit := Fit (block : Z) | NoFit | Stuck.
Definition MAX_STEPS : nat := Z.to_nat 1000000.
Fixpoint find_fit (steps_left : nat) (size cur : Z) : M fit :=
  if cur =? 0 then mret NoFit else
  match steps_left with
  | O => mret Stuck
  | S steps_left =>
      f ← h_free cur;
      n ← h_size cur;
      if negb (f =? 0) && (size <=? n) then mret (Fit cur) else
      next ← h_next cur;
      find_fit steps_left size next
  end.

Definition take_block (block size : Z) : M Z :=
  split_block block size;;
  set_h_free block 0;;
  mret (block + HEADER_SIZE).

Definition heap_arena_alloc (size owner_slot : Z) : M Z :=
  if size =? 0 then mret 0 else
  if SIZE_MAX_LOCAL - (ALIGN - 1) <? size then mret 0 else
  let size := ALIGN_UP size in
  a ← gets ar;
  r ← find_fit MAX_STEPS size (head a);
  match r with
  | Stuck => mret 0
  | Fit cur => take_block cur size
  | NoFit =>
      fresh ← grow_heap size owner_slot;
      if fresh =? 0 then mret 0 else
      n ← h_size fresh;
      if n <? size then mret 0 else take_block fresh size
  end.

Definition heap_arena_free (ptr : Z) : M unit :=
  if ptr =? 0 then mret tt else
  if negb (ptr mod ALIGN =? 0) then mret tt else
  let block := u32 (ptr - HEADER_SIZE) in
  magic ← h_magic block;
  if negb (magic =? HEAP_MAGIC) then mret tt else
  f ← h_free block;
  if negb (f =? 0) then mret tt else
  set_h_free block 1;;
  coalesce block.

Definition heap_arena_calloc (nmemb size owner_slot : Z) : M Z :=
  if (nmemb =? 0) || (size =? 0) then mret 0 else
  if SIZE_MAX_LOCAL / size <? nmemb then mret 0 else
  let total := nmemb * size in
  ptr ← heap_arena_alloc total owner_slot;
  (if negb (ptr =? 0) then modify (fun s => set_hram (Mem.memset ptr 0 total (hram s)) s) else mret tt);;
  mret ptr.

Definition heap_arena_realloc (ptr size owner_slot : Z) : M Z :=
  if ptr =? 0 then heap_arena_alloc size owner_slot else
  if size =? 0 then heap_arena_free ptr;; mret 0 else
  if negb (ptr mod ALIGN =? 0) then mret 0 else
  let block := u32 (ptr - HEADER_SIZE) in
  magic ← h_magic block;
  if negb (magic =? HEAP_MAGIC) then mret 0 else
  f ← h_free block;
  if negb (f =? 0) then mret 0 else
  if SIZE_MAX_LOCAL - (ALIGN - 1) <? size then mret 0 else
  let aligned := ALIGN_UP size in
  old_size ← h_size block;
  if aligned <=? old_size then split_block block aligned;; mret ptr else
  new_ptr ← heap_arena_alloc size owner_slot;
  if new_ptr =? 0 then mret 0 else
  modify (fun s => set_hram (Mem.memcpy new_ptr ptr old_size (hram s)) s);;
  heap_arena_free ptr;;
  mret new_ptr.

(** The kernel's heap. *)
Definition malloc (size : Z) : M Z := heap_arena_alloc size (-1).
Definition free (ptr : Z) : M unit := heap_arena_free ptr.
Definition calloc (nmemb size : Z) : M Z := heap_arena_calloc nmemb size (-1).
Definition realloc (ptr size : Z) : M Z := heap_arena_realloc ptr size (-1).

(** Total, used and free bytes; [fuel] bounds the length of the list. *)
Fixpoint stats_loop (fuel : nat) (cur total used freeb : Z) : M (Z * Z * Z) :=
  if cur =? 0 then mret (total, used, freeb) else
  match fuel with
  | O => mret (total, used, freeb)
  | S fuel =>
      n ← h_size cur;
      f ← h_free cur;
      next ← h_next cur;
      let total := u32 (total + u32 (n + HEADER_SIZE)) in
      if negb (f =? 0) then stats_loop fuel next total used (u32 (freeb + n))
      else stats_loop fuel next total (u32 (used + n)) freeb
  end.
Definition heap_stats (fuel : nat) : M (Z * Z * Z) :=
  a ← gets ar; stats_loop fuel (head a) 0 0 0.

End ops.
End Heap.
