(* ===== verification/HeapSpec.v ===== *)
(** The heap as a list of blocks: how the headers in memory represent the
    list, and what splitting, merging and growing do to it. *)
From S2P Require Import Prelude Pmm Mem Paging PagingSpec Disk VfsData Vfs Task Heap.
From stdpp Require Import base list gmap numbers.
From Stdlib Require Import ZArith Lia.
Import Mem Paging Task Heap.
Open Scope Z_scope.

Module HeapSpec.

Lemma u32_sub_l a b : u32 (u32 a - b) = u32 (a - b).
Proof. apply Zminus_mod_idemp_l. Qed.

(** ** Stores of one byte *)

Lemma ld8_st8 m a v b : ld8 (st8 a v m) b = if decide (b = a) then u8 v else ld8 m b.
Proof. unfold ld8, st8. case_decide; [subst; by rewrite lookup_insert_eq|by rewrite lookup_insert_ne]. Qed.
Lemma ld32_st8_ne m a v b : b + 4 <= a \/ a < b -> ld32 (st8 a v m) b = ld32 m b.
Proof. intros. apply ld32_same. intros c Hc. by rewrite ld8_st8, decide_False by lia. Qed.
Lemma ld8_st32_ne m a v b : b < a \/ a + 4 <= b -> ld8 (st32 a v m) b = ld8 m b.
Proof. intros. unfold st32. rewrite ld8_store_bytes, zlen_le_put. change (Z.of_nat 4) with 4. by rewrite decide_False by lia. Qed.
Lemma ld8_st8_ne m a v b : b <> a -> ld8 (st8 a v m) b = ld8 m b.
Proof. intros. by rewrite ld8_st8, decide_False. Qed.

(** Reads after the writes to headers. *)
Ltac rd := repeat first
  [ rewrite ld32_st32 | rewrite ld32_st32_ne by lia | rewrite ld32_st8_ne by lia
  | rewrite ld8_st32_ne by lia | rewrite ld8_st8_ne by lia ].

Ltac rd8 := repeat first [ rewrite ld8_st32_ne by lia | rewrite ld8_st8_ne by lia ].
(** Membership in the parts of a list. *)
Ltac ins := rewrite ?list.elem_of_app, ?list.elem_of_cons, ?list.elem_of_app, ?list.elem_of_cons in *; tauto.

(** ** Blocks *)

Record blk := mk_blk { b_at : Z; b_size : Z; b_free : bool }.
#[export] Instance blk_dec : EqDecision blk.
Proof. solve_decision. Defined.
#[export] Instance blk_inhabited : Inhabited blk := populate (mk_blk 0 0 false).
Definition b_end (b : blk) : Z := b_at b + 24 + b_size b.
Definition sep (b c : blk) : Prop := b_end b <= b_at c \/ b_end c <= b_at b.
Definition in_header (b : blk) (a : Z) : Prop := b_at b <= a < b_at b + 24.
Definition in_payload (b : blk) (a : Z) : Prop := b_at b + 24 <= a < b_end b.

(** Aligned, inside the address space, in used frames. *)
Record blk_ok (u : Z -> bool) (b : blk) : Prop := {
  bo_low : 4096 <= b_at b; bo_high : b_end b <= 2 ^ 32;
  bo_at : b_at b mod 8 = 0; bo_size : b_size b mod 8 = 0; bo_min : 8 <= b_size b;
  bo_used : forall a, b_at b <= a < b_end b -> u (a / 4096) = true;
}.

(** The header of [b] in memory, between the blocks at [p] and at [n]. *)
Record node (m : mem) (b : blk) (p n : Z) : Prop := {
  nd_magic : ld32 m (b_at b) = HEAP_MAGIC;
  nd_size : ld32 m (b_at b + 4) = b_size b;
  nd_free : ld8 m (b_at b + 8) = if b_free b then 1 else 0;
  nd_next : ld32 m (b_at b + 12) = n;
  nd_prev : ld32 m (b_at b + 16) = p;
}.
Lemma node_frame m m' b p n : (forall a, in_header b a -> ld8 m' a = ld8 m a) -> node m b p n -> node m' b p n.
Proof.
  intros Hs [N1 N2 N3 N4 N5]. unfold in_header in Hs. constructor; rewrite <- ?N1, <- ?N2, <- ?N3, <- ?N4, <- ?N5;
    first [apply ld32_same; intros; apply Hs; lia|apply Hs; lia].
Qed.

(** ** Lists of blocks *)

Definition first_at (l : list blk) (n : Z) : Z := match l with [] => n | b :: _ => b_at b end.
Fixpoint last_at (l : list blk) (p : Z) : Z := match l with [] => p | b :: l => last_at l (b_at b) end.
Fixpoint linked (m : mem) (p : Z) (l : list blk) (n : Z) : Prop :=
  match l with [] => True | b :: l => node m b p (first_at l n) /\ linked m (b_at b) l n end.
Fixpoint pairwise (l : list blk) : Prop :=
  match l with [] => True | b :: l => Forall (sep b) l /\ pairwise l end.

Lemma first_at_app l1 l2 n : first_at (l1 ++ l2) n = first_at l1 (first_at l2 n).
Proof. by destruct l1. Qed.
Lemma last_at_app l1 l2 p : last_at (l1 ++ l2) p = last_at l2 (last_at l1 p).
Proof. revert p. induction l1 as [|b l1 IH]; intros p; cbn; [done|apply IH]. Qed.
Lemma linked_app m l1 l2 p n : linked m p (l1 ++ l2) n <-> linked m p l1 (first_at l2 n) /\ linked m (last_at l1 p) l2 n.
Proof.
  revert p. induction l1 as [|b l1 IH]; intros p; cbn; [tauto|]. rewrite IH, first_at_app. tauto.
Qed.
Lemma linked_frame m m' l : forall p n, (forall b a, b ∈ l -> in_header b a -> ld8 m' a = ld8 m a) -> linked m p l n -> linked m' p l n.
Proof.
  induction l as [|b l IH]; intros p n Hs; cbn; [done|]. intros [Hn Hl]. split.
  - apply (node_frame m); [|done]. intros a. apply Hs. apply list.elem_of_cons. by left.
  - apply IH; [|done]. intros c a Hc. apply Hs. apply list.elem_of_cons. by right.
Qed.
Lemma pairwise_app l1 l2 : pairwise (l1 ++ l2) <-> pairwise l1 /\ pairwise l2 /\ Forall (fun b => Forall (sep b) l2) l1.
Proof.
  induction l1 as [|b l1 IH]; cbn; [split; [by repeat split|tauto]|]. rewrite IH, list.Forall_app, list.Forall_cons. tauto.
Qed.
Lemma sep_sym b c : sep b c -> sep c b.
Proof. unfold sep. tauto. Qed.
Lemma pairwise_in l b c : pairwise l -> b ∈ l -> c ∈ l -> b = c \/ sep b c.
Proof.
  induction l as [|x l IH]; cbn; [intros _ Hb; by apply list.elem_of_nil in Hb|]. rewrite list.Forall_forall. intros [Hx Hl] Hb Hc.
  apply list.elem_of_cons in Hb as [->|Hb]; apply list.elem_of_cons in Hc as [->|Hc]; [by left|right; auto|right; apply sep_sym; auto|auto].
Qed.

(** No header of the list meets a payload of the list. *)
Lemma payload_clear l b c a : pairwise l -> b ∈ l -> c ∈ l -> in_payload b a -> 0 <= b_size c -> ~ in_header c a.
Proof.
  intros Hp Hb Hc Ha Hs Hh. unfold in_payload, in_header, b_end in *. destruct (pairwise_in l b c Hp Hb Hc) as [->|[Hs'|Hs']]; unfold b_end in *; lia.
Qed.

(** Memory differs only in headers of the list. *)
Definition header_only (l : list blk) (m m' : mem) : Prop := forall a, (forall c, c ∈ l -> ~ in_header c a) -> ld8 m' a = ld8 m a.

Section rep.
Context {F : Type} `{FrameAlloc F, !FrameAllocLaws F}.
Implicit Types s : hst F.

Definition in_use s (f : Z) : bool := used_frame (Paging.frames (khw (kk s))) f.
(** The list [l] is what the arena's headers say. *)
Record heap_rep s (l : list blk) : Prop := {
  hr_head : head (ar s) = first_at l 0;
  hr_tail : tail (ar s) = last_at l 0;
  hr_linked : linked (hram s) 0 l 0;
  hr_ok : Forall (blk_ok (in_use s)) l;
  hr_sep : pairwise l;
  hr_frames : frames_ok (Paging.frames (khw (kk s)));
}.

(** It depends on the arena and the machine only. *)
Lemma heap_rep_same s s' l : ar s' = ar s -> khw (kk s') = khw (kk s) -> heap_rep s l -> heap_rep s' l.
Proof.
  intros Ea Eh [R1 R2 R3 R4 R5 R6]. unfold in_use, hram in *. constructor; unfold in_use, hram; by rewrite ?Ea, ?Eh.
Qed.

Lemma rep_at s l b : heap_rep s l -> b ∈ l -> blk_ok (in_use s) b.
Proof. intros R Hb. pose proof (hr_ok _ _ R) as Hok. rewrite list.Forall_forall in Hok. by apply Hok. Qed.
Lemma linked_node m l1 b l2 p n : linked m p (l1 ++ b :: l2) n -> node m b (last_at l1 p) (first_at l2 n).
Proof. rewrite linked_app. by intros (_ & Hn & _). Qed.
Lemma rep_node s l1 b l2 : heap_rep s (l1 ++ b :: l2) -> node (hram s) b (last_at l1 0) (first_at l2 0).
Proof. intros R. apply linked_node, R. Qed.


(** ** Replacing a part of the list *)

Lemma pairwise_mid l1 l l2 : pairwise (l1 ++ l ++ l2) -> pairwise l /\ forall d y, d ∈ l1 ++ l2 -> y ∈ l -> sep d y.
Proof.
  rewrite !pairwise_app. intros (_ & (Hl & _ & H2) & H1). split; [done|]. intros d y Hd Hy. rewrite !list.Forall_forall in *.
  apply list.elem_of_app in Hd as [Hd|Hd].
  - specialize (H1 d Hd). apply list.Forall_app in H1 as [H1 _]. rewrite list.Forall_forall in H1. by apply H1.
  - specialize (H2 y Hy). rewrite list.Forall_forall in H2. by apply sep_sym, H2.
Qed.
Lemma pairwise_replace l1 l l2 l' : pairwise (l1 ++ l ++ l2) -> pairwise l' -> (forall d y, d ∈ l1 ++ l2 -> y ∈ l' -> sep d y) -> pairwise (l1 ++ l' ++ l2).
Proof.
  rewrite !pairwise_app. intros (H1 & (_ & H2 & _) & H12) Hl' Hs. rewrite list.Forall_forall in H12. split; [done|]. split; [split; [done|split; [done|]]|].
  - apply list.Forall_forall. intros y Hy. apply list.Forall_forall. intros d Hd. apply sep_sym, Hs; [|done]. apply list.elem_of_app. by right.
  - apply list.Forall_forall. intros d Hd. apply list.Forall_app. split.
    + apply list.Forall_forall. intros y Hy. apply Hs; [|done]. apply list.elem_of_app. by left.
    + specialize (H12 d Hd). apply list.Forall_app in H12. apply H12.
Qed.

(** Nothing but memory and the arena has changed. *)
Definition beside s s' : Prop := kk s' = set_hw (set_ram (hram s') (khw (kk s))) (kk s).
Lemma beside_in_use s s' : beside s s' -> in_use s' = in_use s.
Proof. intros E. unfold in_use. by rewrite E. Qed.
Lemma beside_set a m s : beside s (set_ar a (set_hram m s)).
Proof. done. Qed.

(** The part [x :: l] of the list becomes [y :: l'], at the same place. *)
Lemma rep_change s s' l1 x l l2 y l' : heap_rep s (l1 ++ (x :: l) ++ l2) -> beside s s' -> b_at y = b_at x ->
  ar s' = mk_arena (head (ar s)) (match l2 with [] => last_at (y :: l') 0 | _ => tail (ar s) end) ->
  (forall d a, d ∈ l1 ++ drop 1 l2 -> in_header d a -> ld8 (hram s') a = ld8 (hram s) a) ->
  linked (hram s') (last_at l1 0) (y :: l') (first_at l2 0) ->
  (match l2 with [] => True | c :: l3 => node (hram s') c (last_at (y :: l') 0) (first_at l3 0) end) ->
  Forall (blk_ok (in_use s)) (y :: l') -> pairwise (y :: l') -> (forall d z, d ∈ l1 ++ l2 -> z ∈ y :: l' -> sep d z) ->
  heap_rep s' (l1 ++ (y :: l') ++ l2).
Proof.
  intros [R1 R2 R3 R4 R5 R6] Hb Hat Har Hsame Hmid Hnext Hok Hp Hs.
  rewrite !linked_app in R3. destruct R3 as (R31 & _ & R32). rewrite !list.Forall_app in R4. destruct R4 as (R41 & _ & R42).
  constructor.
  - rewrite Har. cbn [head]. rewrite R1, !first_at_app. cbn. by rewrite Hat.
  - rewrite Har. cbn [tail]. rewrite !last_at_app. destruct l2 as [|c l3]; [done|]. rewrite R2, !last_at_app. done.
  - apply linked_app. split.
    + cbn [app first_at]. rewrite Hat. apply (linked_frame (hram s)); [|exact R31]. intros d a Hd. apply Hsame. apply list.elem_of_app. by left.
    + apply linked_app. split; [exact Hmid|]. destruct l2 as [|c l3]; [done|]. cbn. cbn in Hnext. split; [done|].
      apply (linked_frame (hram s)); [|apply R32]. intros d a Hd. apply Hsame. apply list.elem_of_app. right. cbn. by rewrite drop_0.
  - rewrite (beside_in_use s s') by done. rewrite !list.Forall_app. done.
  - by apply (pairwise_replace l1 (x :: l)).
  - by rewrite Hb.
Qed.

(** ** Running the operations *)

Lemma hram_set m s : hram (set_hram m s) = m.
Proof. done. Qed.
Lemma set_set m m' s : set_hram m (set_hram m' s) = set_hram m s.
Proof. done. Qed.
Lemma hram_ar a s : hram (set_ar a s) = hram s.
Proof. done. Qed.
Lemma set_over_ar m a s : set_hram m (set_ar a s) = set_ar a (set_hram m s).
Proof. done. Qed.
Lemma ar_set m s : ar (set_hram m s) = ar s.
Proof. done. Qed.
Lemma ar_set_ar a s : ar (set_ar a s) = a.
Proof. done. Qed.
End rep.

Create Rewrite HintDb hst.
#[export] Hint Rewrite @hram_set @set_set @hram_ar @set_over_ar @ar_set @ar_set_ar : hst.
Ltac hrun := unfold h_magic, h_size, h_free, h_next, h_prev, set_h_magic, set_h_size, set_h_free, set_h_next, set_h_prev, set_tail, set_head;
  munfold; autorewrite with hst.

Section moves.
Context {F : Type} `{FrameAlloc F, !FrameAllocLaws F}.
Implicit Types s : hst F.

Lemma arena_eta a : mk_arena (head a) (tail a) = a.
Proof. by destruct a. Qed.

(** ** Splitting *)

Lemma split_small s b size : ld32 (hram s) (b + 4) - size < 32 -> split_block b size s = (tt, s).
Proof.
  intros Hs. unfold split_block. hrun. destruct (_ <? size); [done|]. change (HEADER_SIZE + ALIGN) with 32.
  by rewrite (proj2 (Z.ltb_lt _ 32)) by lia.
Qed.

Definition left_part (b : blk) (size : Z) : blk := mk_blk (b_at b) size (b_free b).
Definition right_part (b : blk) (size : Z) : blk := mk_blk (b_at b + 24 + size) (b_size b - size - 24) true.

(** The fields of one header after the writes. *)
Ltac fields := cbn [left_part right_part b_at b_size b_free]; rd; rewrite ?ld8_st8, ?decide_True by done; rewrite ?u32_idemp; rewrite ?u32_small by lia;
  first [done|assumption|lia].

Lemma parts_ok u b size : blk_ok u b -> 8 <= size -> size mod 8 = 0 -> size + 32 <= b_size b ->
  Forall (blk_ok u) [left_part b size; right_part b size] /\ pairwise [left_part b size; right_part b size].
Proof.
  intros [O1 O2 O3 O4 O5 O6] H1 H2 H3. unfold b_end in *. split; [constructor; [|constructor; [|constructor]]|].
  - constructor; unfold b_end; cbn; try lia. intros a Ha. apply O6. lia.
  - constructor; unfold b_end; cbn; try lia; try zdm. intros a Ha. apply O6. lia.
  - cbn. split; [|done]. constructor; [|constructor]. left. unfold b_end. cbn. lia.
Qed.
Lemma parts_sep d b size z : sep d b -> 8 <= size -> size + 32 <= b_size b -> z ∈ [left_part b size; right_part b size] -> sep d z.
Proof.
  intros Hs H1 H2 Hz. unfold sep, b_end in *. apply list.elem_of_cons in Hz as [->|Hz]; [cbn; lia|]. apply list_elem_of_singleton in Hz as ->. cbn. lia.
Qed.

Lemma split_run s l1 b l2 size : heap_rep s (l1 ++ b :: l2) -> 8 <= size -> size mod 8 = 0 -> size + 32 <= b_size b ->
  let l' := l1 ++ left_part b size :: right_part b size :: l2 in
  exists s', split_block (b_at b) size s = (tt, s') /\ heap_rep s' l' /\ beside s s' /\ header_only l' (hram s) (hram s').
Proof.
  intros R H1 H2 H3 l'. pose proof (rep_node _ _ _ _ R) as [N1 N2 N3 N4 N5].
  unfold split_block. hrun. rewrite N2, (proj2 (Z.ltb_ge _ _)) by lia. change (HEADER_SIZE + ALIGN) with 32. rewrite (proj2 (Z.ltb_ge _ _)) by lia.
  change HEADER_SIZE with 24. hrun. rewrite !(ld32_st8_ne _ _ _ (b_at b + 12)), !(ld32_st32_ne _ _ _ (b_at b + 12)), N4 by lia.
  pose proof (rep_at _ _ b R ltac:(ins)) as Ob. pose proof (hr_sep _ _ R) as Hp.
  destruct (parts_ok _ b size Ob H1 H2 H3) as [Pok Ppw]. destruct l2 as [|c l3].
  - cbn [first_at Z.eqb negb]. hrun. eexists. split; [reflexivity|]. destruct (pairwise_mid l1 [b] [] Hp) as [_ Hs].
    split; [|split; [apply beside_set|]]; autorewrite with hst.
    + apply (rep_change s _ l1 b [] [] (left_part b size) [right_part b size]); [exact R|apply beside_set|done|done| | |done| | |]; autorewrite with hst.
      * intros d a Hd Ha. rewrite drop_nil in Hd. specialize (Hs d b Hd ltac:(ins)). pose proof (rep_at _ _ d R ltac:(ins)) as Od.
        destruct Ob, Od. unfold sep, in_header, b_end in *. rd8. done.
      * destruct Ob. unfold b_end in *. split; [|split; [|done]]; constructor; fields.
      * exact Pok.
      * exact Ppw.
      * intros d z Hd Hz. apply (parts_sep d b size); [apply Hs; [done|ins]|lia|lia|done].
    + intros a Ha. pose proof (Ha (left_part b size) ltac:(unfold l'; ins)) as Ha1. pose proof (Ha (right_part b size) ltac:(unfold l'; ins)) as Ha2.
      unfold in_header in *. cbn in Ha1, Ha2. rd8. done.
  - destruct (pairwise_mid l1 [b; c] l3 Hp) as [Hbc Hs]. cbn in Hbc. destruct Hbc as [Hbc _]. rewrite list.Forall_singleton in Hbc.
    pose proof (rep_at _ _ c R ltac:(ins)) as Oc. destruct (linked_node _ (l1 ++ [b]) c l3 0 0 ltac:(rewrite <- app_assoc; apply R)) as [C1 C2 C3 C4 C5].
    cbn [first_at]. rewrite (proj2 (Z.eqb_neq (b_at c) 0)) by (destruct Oc; lia). cbn [negb]. hrun. eexists. split; [reflexivity|].
    split; [|split; [apply beside_set|]]; autorewrite with hst.
    + apply (rep_change s _ l1 b [] (c :: l3) (left_part b size) [right_part b size]); [exact R|apply beside_set|done|symmetry; apply arena_eta| | | | | |]; autorewrite with hst.
      * intros d a Hd Ha. change (drop 1 (c :: l3)) with l3 in Hd. pose proof (Hs d b Hd ltac:(ins)) as S1. pose proof (Hs d c Hd ltac:(ins)) as S2.
        pose proof (rep_at _ _ d R ltac:(ins)) as Od. destruct Ob, Oc, Od. unfold sep, in_header, b_end in *. rd8. done.
      * destruct Ob, Oc. unfold sep, b_end in *. split; [|split; [|done]]; constructor; fields.
      * destruct Ob, Oc. unfold sep, b_end in *. constructor; fields.
      * exact Pok.
      * exact Ppw.
      * intros d z Hd Hz. apply (parts_sep d b size); [|lia|lia|done]. destruct (pairwise_mid l1 [b] (c :: l3) Hp) as [_ Hs']. apply Hs'; [done|ins].
    + intros a Ha. pose proof (Ha (left_part b size) ltac:(unfold l'; ins)) as Ha1. pose proof (Ha (right_part b size) ltac:(unfold l'; ins)) as Ha2.
      pose proof (Ha c ltac:(unfold l'; ins)) as Ha3. unfold in_header in *. cbn in Ha1, Ha2. rd8. done.
Qed.

(** ** Marking *)

Definition marked (b : blk) (f : bool) : blk := mk_blk (b_at b) (b_size b) f.
Lemma mark_run s l1 b l2 f v : heap_rep s (l1 ++ b :: l2) -> v = (if f : bool then 1 else 0) ->
  exists s', set_h_free (b_at b) v s = (tt, s') /\ heap_rep s' (l1 ++ marked b f :: l2) /\ beside s s' /\
    header_only (l1 ++ b :: l2) (hram s) (hram s') /\ ar s' = ar s.
Proof.
  intros R Hv. pose proof (rep_node _ _ _ _ R) as [N1 N2 N3 N4 N5]. pose proof (rep_at _ _ b R ltac:(ins)) as Ob.
  pose proof (hr_sep _ _ R) as Hp. destruct (pairwise_mid l1 [b] l2 Hp) as [_ Hs].
  exists (set_hram (st8 (b_at b + 8) v (hram s)) s). split; [by hrun|].
  assert (Hm : forall d a, d ∈ l1 ++ l2 -> in_header d a -> ld8 (st8 (b_at b + 8) v (hram s)) a = ld8 (hram s) a).
  { intros d a Hd Ha. pose proof (rep_at _ _ d R ltac:(ins)) as Od. pose proof (Hs d b Hd ltac:(ins)) as S1.
    destruct Ob, Od. unfold sep, in_header, b_end in *. rd8. done. }
  split; [|split; [done|split; [|done]]].
  - apply (rep_change s _ l1 b [] l2 (marked b f) []); [exact R|done|done| | | | | | |]; autorewrite with hst.
    + symmetry. destruct l2 as [|c l3]; [|apply arena_eta]. replace (last_at [marked b f] 0) with (tail (ar s)); [apply arena_eta|].
      rewrite (hr_tail _ _ R), last_at_app. done.
    + intros d a Hd. apply Hm. destruct l2 as [|c l3]; [done|]. change (drop 1 (c :: l3)) with l3 in Hd. ins.
    + split; [|done]. destruct Ob. unfold b_end in *. constructor; unfold marked; cbn [b_at b_size b_free]; rd; try done. rewrite ld8_st8, decide_True by done. by destruct f; subst.
    + destruct l2 as [|c l3]; [done|]. destruct (linked_node _ (l1 ++ [b]) c l3 0 0 ltac:(rewrite <- app_assoc; apply R)) as [C1 C2 C3 C4 C5].
      apply (node_frame (hram s)); [intros a; apply Hm; ins|]. constructor; try done. rewrite C5, last_at_app. done.
    + constructor; [|constructor]. by destruct Ob.
    + done.
    + intros d z Hd Hz. apply list_elem_of_singleton in Hz as ->. exact (Hs d b Hd ltac:(ins)).
  - intros a Ha. specialize (Ha b ltac:(ins)). unfold in_header in Ha. autorewrite with hst. rd8. done.
Qed.

(** ** Merging *)

Definition joined (x y : blk) : blk := mk_blk (b_at x) (b_size x + 24 + b_size y) (b_free x).
Lemma joined_ok u x y : blk_ok u x -> blk_ok u y -> b_end x = b_at y -> blk_ok u (joined x y).
Proof.
  intros [X1 X2 X3 X4 X5 X6] [Y1 Y2 Y3 Y4 Y5 Y6] E. unfold b_end in *. constructor; unfold b_end; cbn; try lia; try zdm.
  intros a Ha. destruct (decide (a < b_at x + 24 + b_size x)); [apply X6; lia|apply Y6; lia].
Qed.

Lemma merge_run s l1 x y l2 : heap_rep s (l1 ++ x :: y :: l2) -> b_end x = b_at y ->
  exists s', merge (b_at x) (b_at y) s = (tt, s') /\ heap_rep s' (l1 ++ joined x y :: l2) /\ beside s s' /\
    header_only (l1 ++ x :: y :: l2) (hram s) (hram s').
Proof.
  intros R E. pose proof (rep_node _ _ _ _ R) as [N1 N2 N3 N4 N5].
  destruct (linked_node _ (l1 ++ [x]) y l2 0 0 ltac:(rewrite <- app_assoc; apply R)) as [Y1 Y2 Y3 Y4 Y5].
  pose proof (rep_at _ _ x R ltac:(ins)) as Ox. pose proof (rep_at _ _ y R ltac:(ins)) as Oy. pose proof (joined_ok _ x y Ox Oy E) as Oj.
  pose proof (hr_sep _ _ R) as Hp. destruct (pairwise_mid l1 [x; y] l2 Hp) as [_ Hs].
  assert (Hz : forall d z, d ∈ l1 ++ l2 -> z ∈ [joined x y] -> sep d z).
  { intros d z Hd Hz. apply list_elem_of_singleton in Hz as ->. pose proof (Hs d x Hd ltac:(ins)). pose proof (Hs d y Hd ltac:(ins)).
    pose proof (rep_at _ _ d R ltac:(ins)) as Od. destruct Ox, Oy, Od. unfold sep, b_end in *. cbn. lia. }
  unfold merge. hrun. change HEADER_SIZE with 24. rewrite N2, Y2.
  assert (E4 : ld32 (st32 (b_at x + 4) (u32 (b_size x + (24 + b_size y))) (hram s)) (b_at y + 12) = first_at l2 0).
  { destruct Ox, Oy. unfold b_end in *. rd. exact Y4. }
  rewrite E4. destruct l2 as [|c l3].
  - cbn [first_at Z.eqb negb]. hrun. eexists. split; [reflexivity|]. split; [|split; [apply beside_set|]]; autorewrite with hst.
    + apply (rep_change s _ l1 x [y] [] (joined x y) []); [exact R|apply beside_set|done|done| | |done|by constructor|done|done]; autorewrite with hst.
      * intros d a Hd Ha. rewrite drop_nil in Hd. pose proof (Hs d x Hd ltac:(ins)). pose proof (rep_at _ _ d R ltac:(ins)) as Od.
        destruct Ox, Od. unfold sep, in_header, b_end in *. rd8. done.
      * destruct Ox, Oy. unfold b_end in *. split; [|done]. constructor; unfold joined; fields.
    + intros a Ha. pose proof (Ha x ltac:(ins)) as Hx. unfold in_header in Hx. rd8. done.
  - pose proof (rep_at _ _ c R ltac:(ins)) as Oc. destruct (linked_node _ (l1 ++ [x; y]) c l3 0 0 ltac:(rewrite <- app_assoc; apply R)) as [C1 C2 C3 C4 C5].
    destruct (pairwise_mid l1 [x; y; c] l3 Hp) as [_ Hs3].
    cbn [first_at]. rewrite (proj2 (Z.eqb_neq (b_at c) 0)) by (destruct Oc; lia). cbn [negb]. hrun. eexists. split; [reflexivity|].
    split; [|split; [apply beside_set|]]; autorewrite with hst.
    + apply (rep_change s _ l1 x [y] (c :: l3) (joined x y) []); [exact R|apply beside_set|done|symmetry; apply arena_eta| | | |by constructor|done|done]; autorewrite with hst.
      * intros d a Hd Ha. change (drop 1 (c :: l3)) with l3 in Hd. pose proof (Hs3 d x Hd ltac:(ins)). pose proof (Hs3 d c Hd ltac:(ins)).
        pose proof (rep_at _ _ d R ltac:(ins)) as Od. destruct Ox, Oc, Od. unfold sep, in_header, b_end in *. rd8. done.
      * pose proof (Hs c x ltac:(ins) ltac:(ins)). pose proof (Hs c y ltac:(ins) ltac:(ins)). destruct Ox, Oy, Oc. unfold sep, b_end in *.
        split; [|done]. constructor; unfold joined; fields.
      * pose proof (Hs c x ltac:(ins) ltac:(ins)). pose proof (Hs c y ltac:(ins) ltac:(ins)). destruct Ox, Oy, Oc. unfold sep, b_end in *. constructor; fields.
    + intros a Ha. pose proof (Ha x ltac:(ins)) as Hx. pose proof (Ha c ltac:(ins)) as Hc. unfold in_header in *. rd8. done.
Qed.

(** ** Merging with the neighbours *)

(** From [l] to [l'] without a change to the blocks in use. *)
Record moved s s' (l l' : list blk) : Prop := {
  mv_rep : heap_rep s' l';
  mv_beside : beside s s';
  mv_mem : header_only l (hram s) (hram s');
  mv_at : forall d, d ∈ l' -> exists e, e ∈ l /\ b_at e = b_at d;
  mv_live : forall d, b_free d = false -> (d ∈ l' <-> d ∈ l);
  mv_len : (length l' <= length l)%nat;
}.
Lemma beside_refl s : beside s s.
Proof. unfold beside, hram. by destruct s as [? [[] ? ? ? ? ? ? ? ?]]. Qed.
Lemma beside_trans s1 s2 s3 : beside s1 s2 -> beside s2 s3 -> beside s1 s3.
Proof. unfold beside. intros E1 E2. rewrite E2, E1. done. Qed.
Lemma header_only_trans l l' m1 m2 m3 : header_only l m1 m2 -> header_only l' m2 m3 ->
  (forall d, d ∈ l' -> exists e, e ∈ l /\ b_at e = b_at d) -> header_only l m1 m3.
Proof.
  intros H1 H2 Ha a Hn. rewrite H2, H1; [done|done|]. intros d Hd Hh. destruct (Ha d Hd) as (e & He & E).
  apply (Hn e He). unfold in_header in *. lia.
Qed.
Lemma moved_refl s l : heap_rep s l -> moved s s l l.
Proof. intros R. constructor; [done|apply beside_refl|done| |done|lia]. intros d Hd. by exists d. Qed.
Lemma moved_trans s1 s2 s3 l1 l2 l3 : moved s1 s2 l1 l2 -> moved s2 s3 l2 l3 -> moved s1 s3 l1 l3.
Proof.
  intros [A1 A2 A3 A4 A5 A6] [B1 B2 B3 B4 B5 B6]. constructor; [done|by apply (beside_trans s1 s2)|by apply (header_only_trans l1 l2 _ (hram s2))| | |lia].
  - intros d Hd. destruct (B4 d Hd) as (e & He & E). destruct (A4 e He) as (e' & He' & E'). exists e'. split; [done|congruence].
  - intros d Hd. rewrite B5, A5 by done. done.
Qed.

Lemma merge_moved s l1 x y l2 : heap_rep s (l1 ++ x :: y :: l2) -> b_end x = b_at y -> b_free x = true -> b_free y = true ->
  exists s', merge (b_at x) (b_at y) s = (tt, s') /\ moved s s' (l1 ++ x :: y :: l2) (l1 ++ joined x y :: l2).
Proof.
  intros R E Hx Hy. destruct (merge_run s l1 x y l2 R E) as (s' & Er & R' & Hb & Hm). exists s'. split; [done|]. constructor; [done..| | |].
  - intros d Hd. apply list.elem_of_app in Hd as [Hd|Hd]; [exists d; split; [ins|done]|]. apply list.elem_of_cons in Hd as [->|Hd]; [exists x; split; [ins|done]|exists d; split; [ins|done]].
  - intros d Hd. rewrite !list.elem_of_app, !list.elem_of_cons. split; [intros [?|[->|?]]; [tauto|cbn in Hd; congruence|tauto]|].
    intros [?|[->|[->|?]]]; [tauto|congruence|congruence|tauto].
  - rewrite !length_app. cbn. lia.
Qed.

Lemma adjacent_run s x y r : ld32 (hram s) (b_at x + 4) = b_size x -> blk_ok (in_use s) x -> blk_ok (in_use s) y -> r = b_at y ->
  adjacent (b_at x) r s = (b_end x =? b_at y, s).
Proof.
  intros N [X1 X2 X3 X4 X5 X6] [Y1 Y2 Y3 Y4 Y5 Y6] ->. unfold adjacent. hrun. rewrite N. f_equal. change HEADER_SIZE with 24. unfold b_end in *.
  destruct (decide (b_at x + 24 + b_size x = 2 ^ 32)) as [E|]; [rewrite E; change (u32 (2 ^ 32)) with 0; lia|]. by rewrite u32_small by lia.
Qed.

(** Free blocks next to each other in memory; what joining a block with the
    next, and with the last of the blocks before, makes of the list. *)
Definition joins (x y : blk) : bool := b_free x && b_free y && (b_end x =? b_at y).
Definition join_right (x : blk) (r : list blk) : list blk :=
  match r with y :: l => if joins x y then joined x y :: l else x :: r | [] => [x] end.
Fixpoint join_left (l1 r : list blk) : list blk :=
  match l1 with [] => r | [p] => join_right p r | p :: l => p :: join_left l r end.
Lemma join_left_snoc l1 p r : join_left (l1 ++ [p]) r = l1 ++ join_right p r.
Proof. induction l1 as [|q l1 IH]; [done|]. cbn [app]. rewrite <- IH. by destruct l1. Qed.
(** No free blocks next to each other follow one another in the list. *)
Fixpoint spread (l : list blk) : Prop :=
  match l with x :: (y :: _) as l => joins x y = false /\ spread l | _ => True end.
Lemma joins_joined p x y : joins x y = true -> joins p (joined x y) = joins p x /\ forall z, joins (joined x y) z = joins y z.
Proof.
  unfold joins. intros Hj. apply andb_true_iff in Hj as [Hf He]. apply andb_true_iff in Hf as [Hx Hy]. apply Z.eqb_eq in He. split; [done|]. intros z. cbn [b_free joined].
  rewrite Hx, Hy. replace (b_end (joined x y)) with (b_end y) by (unfold b_end in *; cbn [b_at b_size joined]; lia). done.
Qed.
Lemma spread_right x r : spread r -> spread (join_right x r).
Proof.
  destruct r as [|y l]; [done|]. cbn [join_right]. destruct (joins x y) eqn:Hj; [|by split]. destruct (joins_joined x x y Hj) as [_ Hz].
  destruct l as [|z l]; [done|]. intros [Hyz Hl]. split; [by rewrite Hz|done].
Qed.
Lemma join_left_head p q l1 r : exists h t, join_left (q :: l1) r = h :: t /\ joins p h = joins p q.
Proof.
  destruct l1 as [|x l1]; [|by exists q, (join_left (x :: l1) r)]. destruct r as [|y l]; [by exists q, []|]. cbn [join_left join_right].
  destruct (joins q y) eqn:Hj; [|by exists q, (y :: l)]. exists (joined q y), l. split; [done|]. apply joins_joined, Hj.
Qed.
Lemma spread_left l1 r : spread l1 -> spread r -> spread (join_left l1 r).
Proof.
  intros H1 Hr. induction l1 as [|p l1 IH]; [done|]. destruct l1 as [|q l1]; [by apply spread_right|]. destruct H1 as [Hpq H1].
  change (join_left (p :: q :: l1) r) with (p :: join_left (q :: l1) r). specialize (IH H1).
  destruct (join_left_head p q l1 r) as (h & t & E & Eh). rewrite E in IH |- *. split; [by rewrite Eh|done].
Qed.
Lemma spread_parts l1 b l2 : spread (l1 ++ b :: l2) -> spread l1 /\ spread l2.
Proof.
  induction l1 as [|p l1 IH]; intros Hs; [split; [done|]; destruct l2; [done|apply Hs]|]. destruct l1 as [|q l1]; [split; [done|apply (IH (proj2 Hs))]|].
  destruct Hs as [Hpq Hs]. destruct (IH Hs) as [H1 H2]. by split.
Qed.

(** The step towards one neighbour, [x] being the left of the two. *)
Definition join_if (side x y : Z) : st (hst F) unit :=
  f ← h_free side; adj ← adjacent x y; if negb (f =? 0) && adj then merge x y else mret tt.
Lemma join_if_run s l1 x y l2 side : heap_rep s (l1 ++ x :: y :: l2) ->
  (side = b_at y /\ b_free x = true \/ side = b_at x /\ b_free y = true) ->
  exists s', join_if side (b_at x) (b_at y) s = (tt, s') /\ moved s s' (l1 ++ x :: y :: l2) (l1 ++ join_right x (y :: l2)).
Proof.
  intros R Hside. pose proof (rep_node _ _ _ _ R) as Nx. pose proof (linked_node _ (l1 ++ [x]) y l2 0 0 ltac:(rewrite <- app_assoc; apply R)) as Ny.
  pose proof (rep_at _ _ x R ltac:(ins)) as Ox. pose proof (rep_at _ _ y R ltac:(ins)) as Oy.
  unfold join_if, h_free. unfold mbind, st_bind, gets at 1. rewrite (adjacent_run s x y (b_at y) (nd_size _ _ _ _ Nx) Ox Oy eq_refl).
  assert (Hf : negb (ld8 (hram s) (side + 8) =? 0) = b_free x && b_free y).
  { destruct Hside as [[-> Hf]|[-> Hf]]; rewrite ?(nd_free _ _ _ _ Nx), ?(nd_free _ _ _ _ Ny), Hf; [by destruct (b_free y)|by destruct (b_free x)]. }
  rewrite Hf. cbn [join_right]. unfold joins. destruct (b_free x && b_free y && (b_end x =? b_at y)) eqn:Ec.
  - apply andb_true_iff in Ec as [Ec E]. apply andb_true_iff in Ec as [Ex Ey]. apply Z.eqb_eq in E.
    destruct (merge_moved s l1 x y l2 R E Ex Ey) as (s' & Er & Hm). by exists s'.
  - exists s. split; [done|]. by apply moved_refl.
Qed.

Lemma join_right_head x r : exists y l, join_right x r = y :: l /\ b_at y = b_at x /\ b_free y = b_free x.
Proof. destruct r as [|z l]; [by exists x, []|]. cbn [join_right]. destruct (joins x z); by eexists _, _. Qed.

Lemma coalesce_run s l1 b l2 : heap_rep s (l1 ++ b :: l2) -> b_free b = true ->
  exists s', coalesce (b_at b) s = (tt, s') /\ moved s s' (l1 ++ b :: l2) (join_left l1 (join_right b l2)).
Proof.
  intros R Hb.
  assert (Hn : exists s1, (next ← h_next (b_at b); if next =? 0 then mret tt else join_if next (b_at b) next) s = (tt, s1) /\
     moved s s1 (l1 ++ b :: l2) (l1 ++ join_right b l2)).
  { pose proof (nd_next _ _ _ _ (rep_node _ _ _ _ R)) as N4. unfold h_next, mbind, st_bind, gets. rewrite N4. destruct l2 as [|c l3]; cbn [first_at].
    - exists s. split; [done|]. by apply moved_refl.
    - pose proof (rep_at _ _ c R ltac:(ins)) as Oc. rewrite (proj2 (Z.eqb_neq (b_at c) 0)) by (destruct Oc; lia).
      apply (join_if_run s l1 b c l3 (b_at c) R). by left. }
  destruct Hn as (s1 & E1 & M1). destruct (join_right_head b l2) as (b1 & l2' & Ej & Ha1 & Hf1). rewrite Ej in M1 |- *. rewrite Hb in Hf1.
  pose proof (mv_rep _ _ _ _ M1) as R1.
  assert (Hp : exists s2, (prev ← h_prev (b_at b1); if prev =? 0 then mret tt else join_if prev prev (b_at b1)) s1 = (tt, s2) /\
     moved s1 s2 (l1 ++ b1 :: l2') (join_left l1 (b1 :: l2'))).
  { pose proof (nd_prev _ _ _ _ (rep_node _ _ _ _ R1)) as N5. unfold h_prev, mbind, st_bind, gets. rewrite N5.
    destruct l1 as [|p0 l0 _] using rev_ind; cbn [last_at].
    - exists s1. split; [done|]. by apply moved_refl.
    - rewrite last_at_app, join_left_snoc. cbn [last_at]. pose proof (rep_at _ _ p0 R1 ltac:(ins)) as Op. rewrite (proj2 (Z.eqb_neq (b_at p0) 0)) by (destruct Op; lia).
      rewrite <- app_assoc in R1 |- *. cbn [app] in R1 |- *. apply (join_if_run s1 l0 p0 b1 l2' (b_at p0) R1). by right. }
  destruct Hp as (s2 & E2 & M2). exists s2. split; [|by apply (moved_trans s s1 s2 _ (l1 ++ b1 :: l2'))].
  unfold coalesce. rewrite <- Ha1 in E1 |- *. unfold join_if, h_next, h_prev in E1, E2 |- *.
  unfold mbind, st_bind, gets in E1, E2 |- *. cbv beta iota zeta in E1, E2 |- *. rewrite E1. exact E2.
Qed.

(** ** Searching *)

Definition fits (size : Z) (b : blk) : bool := b_free b && (size <=? b_size b).
Lemma find_fit_run size l : forall n s l1, heap_rep s (l1 ++ l) -> (length l <= n)%nat ->
  find_fit n size (first_at l 0) s = (match List.find (fits size) l with Some b => Fit (b_at b) | None => NoFit end, s).
Proof.
  induction l as [|b l IH]; intros n s l1 R Hn; [by destruct n|]. destruct n as [|n]; cbn in Hn; [lia|].
  pose proof (rep_node _ _ _ _ R) as [N1 N2 N3 N4 N5]. pose proof (rep_at _ _ b R ltac:(ins)) as Ob. cbn [find_fit first_at List.find].
  rewrite (proj2 (Z.eqb_neq (b_at b) 0)) by (destruct Ob; lia). hrun. rewrite N2, N3.
  assert (Ef : negb ((if b_free b then 1 else 0) =? 0) && (size <=? b_size b) = fits size b) by (unfold fits; by destruct (b_free b)).
  rewrite Ef. destruct (fits size b); [done|]. cbv beta. rewrite N4. apply (IH n s (l1 ++ [b])); [by rewrite <- app_assoc|lia].
Qed.

(** ** Pages for the heap *)

(** The frames [f .. f+g-1], free before, are in use. *)
Record took s s' (f g : Z) : Prop := {
  tk_ar : ar s' = ar s;
  tk_ram : hram s' = hram s;
  tk_ok : frames_ok (Paging.frames (khw (kk s')));
  tk_range : 0 < f /\ 0 <= g /\ f + g <= PMM_MAX_BLOCKS;
  tk_free : forall c, f <= c < f + g -> in_use s c = false;
  tk_used : forall c, 0 <= c < PMM_MAX_BLOCKS -> in_use s' c = bool_decide (f <= c < f + g) || in_use s c;
}.
Lemma track_page_run o a s : exists s', track_page o a s = (tt, s') /\ ar s' = ar s /\ khw (kk s') = khw (kk s).
Proof.
  unfold track_page. destruct (0 <=? o); [|by exists s]. unfold in_kst, task_track_frames, no_slot, task_at, Task.upd. munfold.
  destruct ((o <? 0) || _); [by eexists|]. destruct (TASK_MAX_OWNED_FRAMES <? _); by eexists.
Qed.
Lemma took_same s s1 s' f g : took s s1 f g -> ar s' = ar s1 -> khw (kk s') = khw (kk s1) -> took s s' f g.
Proof.
  intros [T1 T2 T3 T4 T5 T6] Ea Eh. unfold in_use, hram in *. constructor; unfold in_use, hram; rewrite ?Ea, ?Eh; done.
Qed.

Lemma alloc_page_run s : frames_ok (Paging.frames (khw (kk s))) ->
  (exists f s', alloc_page s = (f * 4096, s') /\ took s s' f 1) \/ (alloc_page s = (0, s) /\ forall c, 0 <= c < PMM_MAX_BLOCKS -> in_use s c = true).
Proof.
  intros Hok. unfold alloc_page, in_kst, in_hw, Paging.pmm_alloc_block.
  destruct (alloc_law _ Hok) as [(f & fr & E & Hf & Hfree & Hok' & Hu)|[E Hall]]; rewrite E.
  - left. exists f. eexists. split; [reflexivity|]. constructor; [done|done|done|lia| |].
    + intros c Hc. by replace c with f by lia.
    + intros c Hc. unfold in_use. cbn. rewrite Hu by done. case_decide; [by rewrite bool_decide_true by lia|by rewrite bool_decide_false by lia].
  - right. split; [|done]. by destruct s as [? [[] ? ? ? ? ? ? ? ?]].
Qed.

Lemma next_page_run s0 s o f g i : took s0 s f g -> 0 < g ->
  exists s' g', took s0 s' f g' /\ g <= g' /\
    (next_page o i (u32 ((f + g) * 4096)) s = (inl (u32 ((f + g') * 4096)), s') \/ next_page o i (u32 ((f + g) * 4096)) s = (inr (u32 ((f + g') * 4096)), s')).
Proof.
  intros T Hg. unfold next_page. destruct (alloc_page_run s (tk_ok _ _ _ _ T)) as [(c & s1 & E & T1)|[E _]].
  2:{ exists s, g. split; [done|]. split; [lia|]. right. by rewrite (bind_run _ _ _ _ _ E). }
  rewrite (bind_run _ _ _ _ _ E). destruct (tk_range _ _ _ _ T1) as (Hc0 & _ & Hc1). destruct (tk_range _ _ _ _ T) as (Hf0 & _ & Hf1).
  unfold PMM_MAX_BLOCKS in *. rewrite (proj2 (Z.eqb_neq (c * 4096) 0)) by lia. destruct (Z.eqb_spec (c * 4096) (u32 ((f + g) * 4096))) as [Ec|Ec].
  - assert (c = f + g) as ->.
    { destruct (decide ((f + g) * 4096 = 2 ^ 32)) as [E2|]; [rewrite E2 in Ec; change (u32 (2 ^ 32)) with 0 in Ec; lia|]. rewrite u32_small in Ec by lia. lia. }
    destruct (track_page_run o ((f + g) * 4096) s1) as (s2 & Et & Ea & Eh). exists s2, (g + 1). split; [|split; [lia|left]].
    + apply (took_same _ s1); [|done|done]. destruct T as [A1 A2 A3 A4 A5 A6], T1 as [B1 B2 B3 B4 B5 B6]. unfold PMM_MAX_BLOCKS in *.
      constructor; [congruence|congruence|done|unfold PMM_MAX_BLOCKS; lia| |].
      * intros c Hc. destruct (decide (c = f + g)) as [->|]; [|apply A5; lia]. specialize (B5 (f + g) ltac:(lia)). rewrite A6 in B5 by lia.
        by rewrite bool_decide_false in B5 by lia.
      * unfold PMM_MAX_BLOCKS. intros c Hc. rewrite B6, A6 by done. destruct (in_use s0 c); [by rewrite !orb_true_r|]. rewrite !orb_false_r.
        destruct (decide (c = f + g)) as [->|].
        { by rewrite (bool_decide_true (f + g <= _ < _)), (bool_decide_true (f <= f + g < f + (g + 1))) by lia. } rewrite (bool_decide_false (f + g <= c < f + g + 1)) by lia.
        apply bool_decide_ext. lia.
    + rewrite (bind_run _ _ _ _ _ Et). unfold mret, st_ret. do 2 f_equal. unfold PMM_BLOCK_SIZE. rewrite u32_add_l. f_equal. lia.
  - exists (mk_hst (ar s1) (set_hw (set_frames (free_frame (c * 4096) (Paging.frames (khw (kk s1)))) (khw (kk s1))) (kk s1))), g.
    split; [|split; [lia|right; done]]. destruct T as [A1 A2 A3 A4 A5 A6], T1 as [B1 B2 B3 B4 B5 B6].
    destruct (free_law _ (c * 4096) B3 ltac:(unfold PMM_BLOCK_SIZE; lia)) as [Hok Hu].
    constructor; [cbn; congruence|change (hram s1 = hram s0); congruence|done|unfold PMM_MAX_BLOCKS; lia|done|].
    intros x Hx. unfold in_use at 1. cbn. rewrite Hu by done. unfold PMM_BLOCK_SIZE. rewrite Z.div_mul by done. fold (in_use s1 x).
    rewrite <- A6 by done. case_decide as Hxc; [subst; symmetry; apply B5; lia|]. rewrite B6 by done. by rewrite bool_decide_false by lia.
Qed.
Lemma pages_run s0 o f : forall n i g s, took s0 s f g -> 0 < g ->
  exists r s' g', aloop n i (u32 ((f + g) * 4096)) (next_page o) s = (r, s') /\ took s0 s' f g' /\ g <= g' /\
    (match r with inl e => e | inr e => e end) = u32 ((f + g') * 4096).
Proof.
  induction n as [|n IH]; intros i g s T Hg; cbn [aloop].
  { exists (inl (u32 ((f + g) * 4096))), s, g. split; [done|]. split; [done|]. split; [lia|done]. }
  destruct (next_page_run s0 s o f g i T Hg) as (s1 & g1 & T1 & Hg1 & [->| ->]).
  - destruct (IH (i + 1) g1 s1 T1 ltac:(lia)) as (r & s2 & g2 & E & T2 & Hg2 & Er). exists r, s2, g2. split; [done|]. split; [done|]. split; [lia|done].
  - by exists (inr (u32 ((f + g1) * 4096))), s1, g1.
Qed.

(** ** Growing *)

Lemma took_blocks s s' f g l : took s s' f g -> Forall (blk_ok (in_use s)) l -> Forall (blk_ok (in_use s')) l.
Proof.
  intros T Hl. eapply list.Forall_impl; [exact Hl|]. intros b [O1 O2 O3 O4 O5 O6]. constructor; try done. intros a Ha.
  rewrite (tk_used _ _ _ _ T); [rewrite O6 by done; apply orb_true_r|]. unfold PMM_MAX_BLOCKS. zdm.
Qed.
Lemma took_rep s s' f g l : took s s' f g -> heap_rep s l -> heap_rep s' l.
Proof.
  intros T [R1 R2 R3 R4 R5 R6]. constructor; rewrite ?(tk_ar _ _ _ _ T), ?(tk_ram _ _ _ _ T); try done; [by apply (took_blocks s s' f g)|apply T].
Qed.
(** The block made of the pages [f .. f+g-1]. *)
Definition region (f g : Z) : blk := mk_blk (f * 4096) (g * 4096 - 24) true.
Lemma region_ok s s' f g : took s s' f g -> 0 < g -> blk_ok (in_use s') (region f g).
Proof.
  intros T Hg. destruct (tk_range _ _ _ _ T) as (H1 & _ & H2). unfold PMM_MAX_BLOCKS in H2. constructor; unfold b_end, region; cbn; try lia; try zdm.
  intros a Ha. rewrite (tk_used _ _ _ _ T) by (unfold PMM_MAX_BLOCKS; zdm). by rewrite bool_decide_true by zdm.
Qed.
Lemma region_sep s s' f g d : took s s' f g -> 0 < g -> blk_ok (in_use s) d -> sep d (region f g).
Proof.
  intros T Hg [O1 O2 O3 O4 O5 O6]. destruct (tk_range _ _ _ _ T) as (H1 & _ & H2). unfold PMM_MAX_BLOCKS in H2. unfold sep, b_end, region in *. cbn.
  destruct (decide (b_at d + 24 + b_size d <= f * 4096)); [by left|]. destruct (decide (f * 4096 + 24 + (g * 4096 - 24) <= b_at d)); [by right|]. exfalso.
  specialize (O6 (Z.max (b_at d) (f * 4096)) ltac:(lia)). rewrite (tk_free _ _ _ _ T) in O6; [done|zdm].
Qed.

(** The writes that put a region at the end of the list. *)
Definition put_region (block rend : Z) : st (hst F) Z :=
  set_h_magic block HEAP_MAGIC;;
  set_h_size block (u32 (u32 (rend - block) - HEADER_SIZE));;
  set_h_free block 1;;
  set_h_next block 0;;
  a ← gets ar;
  set_h_prev block (tail a);;
  (if negb (tail a =? 0) then set_h_next (tail a) block else set_head block);;
  set_tail block;;
  mret block.
Lemma put_region_run s0 s f g l : took s0 s f g -> 0 < g -> heap_rep s0 l ->
  exists s', put_region (f * 4096) (u32 ((f + g) * 4096)) s = (f * 4096, s') /\ heap_rep s' (l ++ [region f g]) /\ beside s s' /\
    header_only (l ++ [region f g]) (hram s) (hram s').
Proof.
  intros T Hg R0. pose proof (took_rep _ _ _ _ _ T R0) as R. pose proof (region_ok _ _ _ _ T Hg) as Or.
  assert (Hsep : forall d, d ∈ l -> sep d (region f g)) by (intros d Hd; apply (region_sep s0 s); [done|done|by apply (rep_at s0 l)]).
  destruct (tk_range _ _ _ _ T) as (Hf & _ & Hfg). unfold PMM_MAX_BLOCKS in Hfg. unfold put_region. hrun. rewrite (hr_tail _ _ R).
  assert (Es : u32 (u32 (u32 ((f + g) * 4096) - f * 4096) - HEADER_SIZE) = g * 4096 - 24).
  { change HEADER_SIZE with 24. rewrite u32_sub_l. replace (u32 ((f + g) * 4096) - f * 4096 - 24) with (u32 ((f + g) * 4096) - (f * 4096 + 24)) by lia.
    rewrite u32_sub_l. replace ((f + g) * 4096 - (f * 4096 + 24)) with (g * 4096 - 24) by lia. apply u32_small. lia. }
  rewrite Es. destruct l as [|t l0 _] using rev_ind.
  - cbn [last_at Z.eqb negb]. hrun. eexists. split; [reflexivity|]. split; [|split; [apply beside_set|]]; autorewrite with hst.
    + constructor; autorewrite with hst; [done|done| | | |apply R].
      * cbn. split; [|done]. constructor; unfold region; fields.
      * constructor; [exact Or|constructor].
      * by repeat constructor.
    + intros a Ha. specialize (Ha (region f g) ltac:(ins)). unfold in_header, region in Ha. cbn in Ha. rd8. done.
  - rewrite last_at_app. cbn [last_at]. pose proof (rep_at _ _ t R ltac:(ins)) as Ot. rewrite (proj2 (Z.eqb_neq (b_at t) 0)) by (destruct Ot; lia).
    cbn [negb]. hrun. eexists. split; [reflexivity|]. pose proof (rep_node _ _ _ _ R) as [N1 N2 N3 N4 N5]. pose proof (Hsep t ltac:(ins)) as Ht.
    assert (Hm : header_only ((l0 ++ [t]) ++ [region f g]) (hram s) (st32 (b_at t + 12) (f * 4096) (st32 (f * 4096 + 16) (b_at t)
      (st32 (f * 4096 + 12) 0 (st8 (f * 4096 + 8) 1 (st32 (f * 4096 + 4) (g * 4096 - 24) (st32 (f * 4096) HEAP_MAGIC (hram s)))))))).
    { intros a Ha. pose proof (Ha t ltac:(ins)) as Ha1. specialize (Ha (region f g) ltac:(ins)). unfold in_header, region in Ha, Ha1. cbn in Ha. rd8. done. }
    pose proof (hr_sep _ _ R) as Hp. destruct (pairwise_mid l0 [t] [] ltac:(by rewrite app_nil_r)) as [_ Hs]. rewrite app_nil_r in Hs.
    split; [|split; [apply beside_set|]]; autorewrite with hst; [|exact Hm]. pose proof (hr_linked _ _ R) as HL. apply linked_app in HL as [HL1 _].
    constructor; autorewrite with hst.
    + rewrite <- app_assoc, (hr_head _ _ R), !first_at_app. done.
    + by rewrite last_at_app.
    + rewrite <- app_assoc. apply linked_app. split.
      * apply (linked_frame (hram s)); [|exact HL1]. intros d a Hd Ha. pose proof (Hs d t Hd ltac:(ins)) as S1. pose proof (Hsep d ltac:(ins)) as S2.
        pose proof (rep_at _ _ d R ltac:(ins)) as Od. destruct Od, Ot. unfold sep, in_header, b_end, region in *. cbn in S2. rd8. done.
      * destruct Ot. unfold sep, b_end, region in Ht. cbn in Ht. unfold b_end in *. split; [constructor; fields|]. split; [|done]. constructor; unfold region; fields.
    + apply list.Forall_app. split; [apply R|]. constructor; [exact Or|constructor].
    + apply pairwise_app. split; [exact Hp|]. split; [by repeat constructor|]. apply list.Forall_forall. intros d Hd. constructor; [by apply Hsep|constructor].
    + apply R.
Qed.

Lemma grow_heap_run s l size o : heap_rep s l ->
  (exists f g s' s1, grow_heap size o s = (f * 4096, s') /\ heap_rep s' (l ++ [region f g]) /\ took s s1 f g /\ 0 < g /\ beside s1 s' /\
     header_only (l ++ [region f g]) (hram s) (hram s')) \/
  (grow_heap size o s = (0, s) /\ (size + 24 <= 4096 -> forall c, 0 <= c < PMM_MAX_BLOCKS -> in_use s c = true)).
Proof.
  intros R. unfold grow_heap. change HEADER_SIZE with 24. change (SIZE_MAX_LOCAL - 24) with (2 ^ 32 - 25). change (SIZE_MAX_LOCAL - (PMM_BLOCK_SIZE - 1)) with (2 ^ 32 - 4096).
  destruct (Z.ltb_spec (2 ^ 32 - 25) size); [right; split; [done|lia]|]. cbn zeta. destruct (Z.ltb_spec (2 ^ 32 - 4096) (24 + size)); [right; split; [done|lia]|].
  destruct (alloc_page_run s (hr_frames _ _ R)) as [(f & s1 & E & T)|[E Hall]]; rewrite (bind_run _ _ _ _ _ E); [left|right; done].
  destruct (tk_range _ _ _ _ T) as (Hf & _ & Hfg). unfold PMM_MAX_BLOCKS in Hfg. rewrite (proj2 (Z.eqb_neq (f * 4096) 0)) by lia.
  destruct (track_page_run o (f * 4096) s1) as (s2 & Et & Ea & Eh). rewrite (bind_run _ _ _ _ _ Et). pose proof (took_same _ _ _ _ _ T Ea Eh) as T2.
  destruct (pages_run s o f (rounds 1 ((24 + size + PMM_BLOCK_SIZE - 1) / PMM_BLOCK_SIZE)) 1 1 s2 T2 ltac:(lia)) as (r & s3 & g & Ep & T3 & Hg & Er).
  replace ((f + 1) * 4096) with (f * 4096 + PMM_BLOCK_SIZE) in Ep by (unfold PMM_BLOCK_SIZE; lia). rewrite (bind_run _ _ _ _ _ Ep).
  destruct (put_region_run s s3 f g l T3 ltac:(lia) R) as (s4 & E4 & R4 & B4 & M4). rewrite <- Er in E4.
  exists f, g, s4, s3. split; [exact E4|]. split; [done|]. split; [done|]. split; [lia|]. split; [done|]. by rewrite <- (tk_ram _ _ _ _ T3).
Qed.

(** ** What is kept *)

(** The bytes of the blocks of [l] in use. *)
Definition kept s s' (l : list blk) : Prop := forall d a, d ∈ l -> b_free d = false -> in_payload d a -> ld8 (hram s') a = ld8 (hram s) a.
Lemma kept_header s0 s s' L l : heap_rep s0 L -> header_only L (hram s) (hram s') -> (forall d, d ∈ l -> b_free d = false -> d ∈ L) -> kept s s' l.
Proof.
  intros R Hh Hl d a Hd Hf Ha. apply Hh. intros c Hc. apply (payload_clear L d c a); [apply R|by apply Hl|done|done|].
  pose proof (rep_at _ _ c R Hc) as [_ _ _ _ Hs _]. lia.
Qed.
Lemma kept_trans s1 s2 s3 l l' : kept s1 s2 l -> kept s2 s3 l' -> (forall d, d ∈ l -> b_free d = false -> d ∈ l') -> kept s1 s3 l.
Proof. intros K1 K2 Hl d a Hd Hf Ha. rewrite (K2 d a), (K1 d a); auto. Qed.

(** ** Taking a block *)

Lemma take_block_run s l1 b l2 size : heap_rep s (l1 ++ b :: l2) -> b_free b = true -> 8 <= size -> size mod 8 = 0 -> size <= b_size b ->
  exists s' y r, take_block (b_at b) size s = (b_at b + 24, s') /\ heap_rep s' (l1 ++ y :: r ++ l2) /\ kept s s' (l1 ++ l2) /\
    b_at y = b_at b /\ b_free y = false /\ size <= b_size y /\ Forall (fun d => b_free d = true) r /\ (length r <= 1)%nat /\ beside s s'.
Proof.
  intros R Hb H1 H2 H3. unfold take_block. change HEADER_SIZE with 24. destruct (decide (size + 32 <= b_size b)) as [Hbig|Hsmall].
  - destruct (split_run s l1 b l2 size R H1 H2 Hbig) as (s1 & E1 & R1 & B1 & M1). rewrite (bind_run _ _ _ _ _ E1).
    destruct (mark_run s1 l1 (left_part b size) (right_part b size :: l2) false 0 R1 eq_refl) as (s2 & E2 & R2 & B2 & M2 & _).
    change (b_at (left_part b size)) with (b_at b) in E2. rewrite (bind_run _ _ _ _ _ E2).
    exists s2, (marked (left_part b size) false), [right_part b size]. split; [done|]. split; [exact R2|]. split.
    + apply (kept_trans _ s1 _ _ (l1 ++ l2)).
      * eapply kept_header; [exact R1|exact M1|]. intros d Hd _. ins.
      * eapply kept_header; [exact R1|exact M2|]. intros d Hd _. ins.
      * done.
    + do 3 (split; [done || (cbn; lia)|]). split; [by repeat constructor|]. split; [done|]. by apply (beside_trans s s1).
  - pose proof (rep_node _ _ _ _ R) as [N1 N2 N3 N4 N5]. pose proof (rep_at _ _ b R ltac:(ins)) as Ob.
    rewrite (bind_run _ _ s tt s) by (apply split_small; rewrite N2; lia).
    destruct (mark_run s l1 b l2 false 0 R eq_refl) as (s2 & E2 & R2 & B2 & M2 & _). rewrite (bind_run _ _ _ _ _ E2).
    exists s2, (marked b false), []. split; [done|]. split; [exact R2|]. split; [eapply kept_header; [exact R|exact M2|]; intros d Hd _; ins|].
    do 3 (split; [done || (cbn; lia)|]). split; [constructor|]. split; [cbn; lia|done].
Qed.
End moves.
End HeapSpec.
