(* ===== verification/HeapProps.v ===== *)
(** What the heap promises: allocation, release, reallocation. *)
From S2P Require Import Prelude Pmm Mem Paging PagingSpec Disk VfsData Vfs Task TaskSpace TaskDemo Heap HeapSpec.
From stdpp Require Import base list gmap numbers.
From Stdlib Require Import ZArith Lia.
Import Pmm Mem Paging Task TaskSpace TaskDemo Heap HeapSpec.
Open Scope Z_scope.

Module HeapProps.

Lemma align_up_div x : 0 <= x <= 2 ^ 32 - 8 -> ALIGN_UP x = (x + 7) / 8 * 8.
Proof.
  intros Hx. unfold ALIGN_UP, ALIGN. replace (x + (8 - 1)) with (x + 7) by lia. rewrite u32_small by lia.
  exact (PagingSpec.land_high 3 (x + 7) ltac:(lia) ltac:(lia)).
Qed.
Lemma align_up_bounds x : 0 < x <= 2 ^ 32 - 8 -> x <= ALIGN_UP x /\ 8 <= ALIGN_UP x /\ ALIGN_UP x mod 8 = 0 /\ ALIGN_UP x < x + 8.
Proof. intros Hx. rewrite align_up_div by lia. zdm. Qed.

Lemma MAX_STEPS_Z : Z.of_nat MAX_STEPS = 1000000.
Proof. unfold MAX_STEPS. by rewrite Z2Nat.id. Qed.

Section heap.
Context {F : Type} `{FrameAlloc F, !FrameAllocLaws F}.
Implicit Types s : hst F.

(** [b] has joined the blocks in use, nothing else has changed for them. *)
Definition gains (l l' : list blk) (b : blk) : Prop :=
  b_free b = false /\ b ∈ l' /\ (b ∉ l) /\ forall d, b_free d = false -> (d ∈ l' <-> d = b \/ d ∈ l).

Lemma gains_from l l1 x l2 y r : pairwise (l1 ++ x :: l2) -> b_free x = true -> (forall d, b_free d = false -> (d ∈ l1 ++ x :: l2 <-> d ∈ l)) ->
  b_free y = false -> b_at y = b_at x -> 0 <= b_size x -> 0 <= b_size y -> Forall (fun d => b_free d = true) r -> gains l (l1 ++ y :: r ++ l2) y.
Proof.
  intros Hp Hx Hl Hy Hat Hsx Hsy Hr. split; [done|]. split; [ins|]. split.
  - intros Hin. rewrite <- Hl in Hin by done. destruct (pairwise_in _ x y Hp ltac:(ins) Hin) as [->|Hs]; [congruence|].
    unfold sep, b_end in Hs. lia.
  - intros d Hd. rewrite <- (Hl d Hd). rewrite list.Forall_forall in Hr.
    assert (Hnr : d ∉ r) by (intros Hin; specialize (Hr d Hin); congruence). assert (d <> x) by congruence. ins.
Qed.

Lemma gains_aligned s l l' b : heap_rep s l' -> gains l l' b -> (b_at b + 24) mod 8 = 0.
Proof. intros R (_ & Hb & _). pose proof (rep_at _ _ b R Hb) as [_ _ Hat _ _ _]. zdm. Qed.

(** Taking the block [x] of a list that has the blocks in use of [l]. *)
Lemma take_gains s s1 l l1 x l2 size : heap_rep s1 (l1 ++ x :: l2) -> b_free x = true -> (forall d, b_free d = false -> (d ∈ l1 ++ x :: l2 <-> d ∈ l)) ->
  kept s s1 l -> 8 <= size -> size mod 8 = 0 -> size <= b_size x ->
  exists s' l' b, take_block (b_at x) size s1 = (b_at b + 24, s') /\ heap_rep s' l' /\ kept s s' l /\ gains l l' b /\ size <= b_size b /\
    (length l' <= S (length (l1 ++ x :: l2)))%nat.
Proof.
  intros R Hx Hl K H1 H2 H3. destruct (take_block_run s1 l1 x l2 size R Hx H1 H2 H3) as (s' & y & r & E & R' & K' & Hat & Hf & Hs & Hr & Hlen & _).
  exists s', (l1 ++ y :: r ++ l2), y. rewrite Hat. split; [done|]. split; [done|]. split; [|split; [|split; [done|]]].
  - apply (kept_trans s s1 s' l (l1 ++ l2)); [done|done|]. intros d Hd Hfd. apply Hl in Hd; [|done].
    rewrite list.elem_of_app, list.elem_of_cons in *. destruct Hd as [|[->|]]; [tauto|congruence|tauto].
  - pose proof (rep_at _ _ x R ltac:(ins)) as [_ _ _ _ Hmin _]. apply (gains_from l l1 x); try done; [apply R|lia|lia].
  - rewrite !length_app. cbn. rewrite length_app. lia.
Qed.

(** Allocation, on every branch. *)
Lemma heap_alloc_run s l size o : heap_rep s l -> Z.of_nat (length l) <= 1000000 -> 0 < size <= 2 ^ 32 - 8 ->
  exists p s' l', heap_arena_alloc size o s = (p, s') /\ heap_rep s' l' /\ kept s s' l /\ (length l' <= length l + 2)%nat /\
    ((exists b, p = b_at b + 24 /\ gains l l' b /\ ALIGN_UP size <= b_size b) \/
     (p = 0 /\ (forall d, b_free d = false -> (d ∈ l' <-> d ∈ l)) /\ (forall d, d ∈ l -> b_free d = true -> b_size d < ALIGN_UP size) /\
      (ALIGN_UP size + 24 <= 4096 -> forall c, 0 <= c < PMM_MAX_BLOCKS -> in_use s c = true))).
Proof.
  intros R Hlen Hsz. destruct (align_up_bounds size Hsz) as (A1 & A2 & A3 & A4). unfold heap_arena_alloc.
  rewrite (proj2 (Z.eqb_neq size 0)) by lia. change (SIZE_MAX_LOCAL - (ALIGN - 1)) with (2 ^ 32 - 8). rewrite (proj2 (Z.ltb_ge (2 ^ 32 - 8) size)) by lia.
  cbn zeta. rewrite (bind_run _ _ s (ar s) s) by done. rewrite (hr_head _ _ R).
  rewrite (bind_run _ _ _ _ _ (find_fit_run (ALIGN_UP size) l MAX_STEPS s [] R ltac:(pose proof MAX_STEPS_Z; lia))).
  destruct (List.find (fits (ALIGN_UP size)) l) as [x|] eqn:Ef.
  - apply List.find_some in Ef as [Hin Hfit]. apply list_elem_of_In, list_elem_of_split in Hin as (l1 & l2 & ->).
    unfold fits in Hfit. apply andb_true_iff in Hfit as [Hx Hxs]. apply Z.leb_le in Hxs.
    destruct (take_gains s s (l1 ++ x :: l2) l1 x l2 (ALIGN_UP size) R Hx ltac:(done) ltac:(by intros ? ? ? ? ?) A2 A3 Hxs) as (s' & l' & b & E & R' & K & G & Hb & Hn).
    exists (b_at b + 24), s', l'. split; [done|]. split; [done|]. split; [done|]. split; [lia|]. left. exists b. done.
  - assert (Hno : forall d, d ∈ l -> b_free d = true -> b_size d < ALIGN_UP size).
    { intros d Hd Hf. pose proof (List.find_none _ _ Ef d ltac:(by apply list_elem_of_In)) as Hn. unfold fits in Hn. rewrite Hf in Hn. cbn in Hn. lia. }
    destruct (grow_heap_run s l (ALIGN_UP size) o R) as [(f & g & s2 & s1 & E & R2 & T & Hg & B & M)|[E Hfull]].
    2:{ rewrite (bind_run _ _ _ _ _ E). exists 0, s, l. split; [done|]. split; [done|]. split; [by intros ? ? ? ? ?|]. split; [lia|]. right. done. }
    rewrite (bind_run _ _ _ _ _ E). destruct (tk_range _ _ _ _ T) as (Hf0 & _ & Hfg). unfold PMM_MAX_BLOCKS in Hfg. rewrite (proj2 (Z.eqb_neq (f * 4096) 0)) by lia.
    pose proof (nd_size _ _ _ _ (rep_node s2 l (region f g) [] R2)) as Hns. rewrite (bind_run _ _ s2 (g * 4096 - 24) s2) by (unfold h_size, gets; cbn in Hns; by rewrite Hns).
    assert (Hl : forall d, b_free d = false -> (d ∈ l ++ [region f g] <-> d ∈ l)).
    { intros d Hd. rewrite list.elem_of_app, list_elem_of_singleton. split; [intros [| ->]; [done|discriminate]|tauto]. }
    assert (K : kept s s2 l).
    { eapply kept_header; [exact R2|exact M|]. intros d Hd Hfd. by apply Hl. }
    destruct (Z.ltb_spec (g * 4096 - 24) (ALIGN_UP size)) as [Hsmall|Hbig].
    + exists 0, s2, (l ++ [region f g]). split; [done|]. split; [done|]. split; [done|]. split; [rewrite length_app; cbn; lia|]. right.
      split; [done|]. split; [done|]. split; [done|lia].
    + destruct (take_gains s s2 l l (region f g) [] (ALIGN_UP size) R2 eq_refl Hl K A2 A3 Hbig) as (s' & l' & b & E' & R' & K' & G & Hb & Hn).
      exists (b_at b + 24), s', l'. split; [done|]. split; [done|]. split; [done|]. rewrite length_app in Hn. cbn in Hn. split; [lia|]. left. exists b. done.
Qed.

(** [b] has left the blocks in use; the others are as before. *)
Definition loses (l l' : list blk) (b : blk) : Prop := forall d, b_free d = false -> (d ∈ l' <-> d ∈ l /\ d <> b).
Definition kept_but s s' (l : list blk) (b : blk) : Prop :=
  forall d a, d ∈ l -> d <> b -> b_free d = false -> in_payload d a -> ld8 (hram s') a = ld8 (hram s) a.

(** The header that a pointer names. *)
Lemma ptr_header s l b : heap_rep s l -> b ∈ l ->
  b_at b + 24 <> 0 /\ (b_at b + 24) mod ALIGN = 0 /\ u32 (b_at b + 24 - HEADER_SIZE) = b_at b /\
  ld32 (hram s) (b_at b) = HEAP_MAGIC /\ ld8 (hram s) (b_at b + 8) = (if b_free b then 1 else 0) /\ ld32 (hram s) (b_at b + 4) = b_size b.
Proof.
  intros R Hb. pose proof (rep_at _ _ b R Hb) as [O1 O2 O3 O4 O5 O6]. apply list_elem_of_split in Hb as (l1 & l2 & ->).
  pose proof (rep_node _ _ _ _ R) as [N1 N2 N3 N4 N5]. unfold b_end in *. split; [lia|]. split; [unfold ALIGN; zdm|].
  split; [change HEADER_SIZE with 24; rewrite u32_small by lia; lia|]. done.
Qed.

(** The block [b] has become free between [l1] and [l2]. *)
Definition freed (l1 : list blk) (b : blk) (l2 : list blk) : list blk := join_left l1 (join_right (marked b true) l2).
Lemma freed_spread l1 b l2 : spread (l1 ++ b :: l2) -> spread (freed l1 b l2).
Proof. intros [H1 H2]%spread_parts. apply spread_left; [done|]. by apply spread_right. Qed.

Lemma free_used_run s l1 b l2 : heap_rep s (l1 ++ b :: l2) -> b_free b = false -> let l := l1 ++ b :: l2 in let l' := freed l1 b l2 in
  exists s', heap_arena_free (b_at b + 24) s = (tt, s') /\ heap_rep s' l' /\ loses l l' b /\ kept_but s s' l b /\ (length l' <= length l)%nat.
Proof.
  intros R Hf l l'. destruct (ptr_header s l b R ltac:(unfold l; ins)) as (P1 & P2 & P3 & P4 & P5 & _). rewrite Hf in P5.
  unfold l, l' in *. clear l l'. pose proof (hr_sep _ _ R) as Hp.
  destruct (mark_run s l1 b l2 true 1 R eq_refl) as (s1 & E1 & R1 & B1 & M1 & _).
  destruct (coalesce_run s1 l1 (marked b true) l2 R1 eq_refl) as (s2 & E2 & Mv). fold (freed l1 b l2) in Mv. change (b_at (marked b true)) with (b_at b) in E2.
  exists s2. split; [|split; [apply Mv|split; [|split]]].
  - unfold heap_arena_free. rewrite (proj2 (Z.eqb_neq _ _)) by done. rewrite P2. cbn [Z.eqb negb]. rewrite P3.
    rewrite (bind_run _ _ s HEAP_MAGIC s) by (unfold h_magic, gets; by rewrite P4). rewrite Z.eqb_refl. cbn [negb].
    rewrite (bind_run _ _ s 0 s) by (unfold h_free, gets; by rewrite P5). cbn [Z.eqb negb]. rewrite (bind_run _ _ _ _ _ E1). exact E2.
  - intros d Hd. rewrite (mv_live _ _ _ _ Mv d Hd). assert (d <> marked b true) by (intros ->; discriminate).
    assert (Hnd : b ∉ l1 ++ l2).
    { intros Hin. destruct (pairwise_mid l1 [b] l2 Hp) as [_ Hs]. pose proof (rep_at _ _ b R ltac:(ins)) as [_ _ _ _ Hm _].
      destruct (Hs b b Hin ltac:(ins)) as [Hx|Hx]; unfold b_end in Hx; lia. }
    destruct (decide (d = b)) as [->|]; ins.
  - intros d a Hd Hn Hfd Ha. assert (Hd1 : d ∈ l1 ++ marked b true :: l2) by ins. assert (Hd0 : d ∈ l1 ++ l2) by ins.
    assert (K1 : kept s s1 (l1 ++ l2)) by (eapply kept_header; [exact R|exact M1|]; intros x Hx _; ins).
    assert (K2 : kept s1 s2 (l1 ++ marked b true :: l2)) by (eapply kept_header; [exact R1|apply Mv|]; intros x Hx _; done).
    by rewrite (K2 d a Hd1), (K1 d a Hd0).
  - pose proof (mv_len _ _ _ _ Mv) as Hn. rewrite !length_app in *. cbn in *. lia.
Qed.

(** C6 - [heap_arena_alloc] on any arena, for any request that is neither 0
    nor within 7 bytes of 4 GB, while the list has at most a million blocks.
    It returns the address of a new block in use, aligned to 8 bytes, at
    least as large as asked, that no block in use overlaps; or 0, when no
    free block is large enough and the memory for one could not be had (a
    request that fits a page only fails when no frame is free). Either way
    the list stays well formed, the other blocks in use stay where they are
    with their contents. *)
Theorem heap_arena_alloc_spec s l size o : heap_rep s l -> Z.of_nat (length l) <= 1000000 -> 0 < size <= 2 ^ 32 - 8 ->
  exists p s' l', heap_arena_alloc size o s = (p, s') /\ heap_rep s' l' /\ kept s s' l /\ (length l' <= length l + 2)%nat /\
    ((exists b, p = b_at b + 24 /\ gains l l' b /\ p mod 8 = 0 /\ size <= b_size b) \/
     (p = 0 /\ (forall d, b_free d = false -> (d ∈ l' <-> d ∈ l)) /\ (forall d, d ∈ l -> b_free d = true -> b_size d < ALIGN_UP size) /\
      (ALIGN_UP size + 24 <= 4096 -> forall c, 0 <= c < PMM_MAX_BLOCKS -> in_use s c = true))).
Proof.
  intros R Hn Hsz. destruct (heap_alloc_run s l size o R Hn Hsz) as (p & s' & l' & E & R' & K & Hl & [(b & -> & G & Hb)|Hr]); exists p || eexists _; exists s', l'.
  - split; [done|]. split; [done|]. split; [done|]. split; [done|]. left. exists b. split; [done|]. split; [done|].
    split; [by eapply (gains_aligned s')|]. destruct (align_up_bounds size Hsz). lia.
  - split; [done|]. split; [done|]. split; [done|]. split; [done|]. by right.
Qed.

(** C15 - [heap_arena_free] of the address of a block of the arena. A block in
    use becomes free and is merged with the block behind it in the list and
    then with the one before, each if it is free and next to it in memory; the
    list is otherwise as it was. So exactly it leaves the blocks in use, all
    the others stay where they are with their contents, the list stays well
    formed, and where no free blocks next to each other followed one another
    before, none do after. A block that is free already (a second [free]) is
    recognised and nothing changes. *)
Theorem heap_arena_free_spec s l1 b l2 : let l := l1 ++ b :: l2 in heap_rep s l ->
  exists s', let l' := if b_free b then l else freed l1 b l2 in
    heap_arena_free (b_at b + 24) s = (tt, s') /\ heap_rep s' l' /\ (length l' <= length l)%nat /\ (spread l -> spread l') /\
    (b_free b = false -> loses l l' b /\ kept_but s s' l b) /\ (b_free b = true -> s' = s).
Proof.
  intros l R. assert (Hb : b ∈ l) by (unfold l; ins). destruct (b_free b) eqn:Hf.
  - destruct (ptr_header s l b R Hb) as (P1 & P2 & P3 & P4 & P5 & _). rewrite Hf in P5. exists s. split; [|done].
    unfold heap_arena_free. rewrite (proj2 (Z.eqb_neq _ _)) by done. rewrite P2. cbn [Z.eqb negb]. rewrite P3.
    rewrite (bind_run _ _ s HEAP_MAGIC s) by (unfold h_magic, gets; by rewrite P4). rewrite Z.eqb_refl. cbn [negb].
    rewrite (bind_run _ _ s 1 s) by (unfold h_free, gets; by rewrite P5). done.
  - destruct (free_used_run s l1 b l2 R Hf) as (s' & E & R' & L & K & Hn). exists s'. do 3 (split; [done|]).
    split; [apply freed_spread|done].
Qed.

(** ** Reallocation *)

(** Writing into the payload of a block in use leaves the list alone. *)
Lemma payload_write s l c off bs : heap_rep s l -> c ∈ l -> 0 <= off -> off + zlen bs <= b_size c ->
  let s' := set_hram (store_bytes (b_at c + 24 + off) bs (hram s)) s in
  heap_rep s' l /\ forall d a, d ∈ l -> d <> c -> in_payload d a -> ld8 (hram s') a = ld8 (hram s) a.
Proof.
  intros R Hc Ho Hz s'. pose proof (zlen_nonneg bs). assert (Hout : forall a, ~ in_payload c a -> ld8 (hram s') a = ld8 (hram s) a).
  { intros a Ha. unfold s'. autorewrite with hst. rewrite ld8_store_bytes, decide_False; [done|]. unfold in_payload, b_end in Ha. lia. }
  split.
  - destruct R as [R1 R2 R3 R4 R5 R6]. constructor; try done. apply (linked_frame (hram s)); [|done]. intros d a Hd Ha. apply Hout. intros Hp.
    rewrite list.Forall_forall in R4. specialize (R4 d Hd). apply (payload_clear l c d a R5 Hc Hd Hp); [destruct R4; lia|done].
  - intros d a Hd Hn Ha. apply Hout. intros Hp. destruct (pairwise_in l c d (hr_sep _ _ R) Hc Hd) as [->|[Hs|Hs]]; [done|..];
      unfold in_payload, b_end in *; lia.
Qed.

(** The bytes of a block that survive in another. *)
Definition carried s s' (p q n : Z) : Prop := forall i, 0 <= i < n -> ld8 (hram s') (q + i) = ld8 (hram s) (p + i).

(** Shrinking in place: the block keeps its address. *)
Lemma shrink_run s l b size : heap_rep s l -> b ∈ l -> b_free b = false -> 8 <= size -> size mod 8 = 0 -> size <= b_size b ->
  exists s' l' c, split_block (b_at b) size s = (tt, s') /\ heap_rep s' l' /\ b_at c = b_at b /\ c ∈ l' /\ b_free c = false /\ size <= b_size c /\
    (forall d, b_free d = false -> (d ∈ l' <-> d = c \/ (d ∈ l /\ d <> b))) /\
    (forall d a, d ∈ l -> d <> b -> b_free d = false -> in_payload d a -> ld8 (hram s') a = ld8 (hram s) a) /\
    (forall i, 0 <= i < size -> ld8 (hram s') (b_at b + 24 + i) = ld8 (hram s) (b_at b + 24 + i)).
Proof.
  intros R Hb Hf H1 H2 H3. destruct (ptr_header s l b R Hb) as (_ & _ & _ & _ & _ & P6). pose proof (rep_at _ _ b R Hb) as Ob.
  destruct (decide (size + 32 <= b_size b)) as [Hbig|Hsmall].
  - apply list_elem_of_split in Hb as (l1 & l2 & ->). destruct (split_run s l1 b l2 size R H1 H2 Hbig) as (s' & E & R' & _ & M).
    exists s', (l1 ++ left_part b size :: right_part b size :: l2), (left_part b size). split; [done|]. split; [done|]. split; [done|]. split; [ins|]. split; [done|]. split; [done|].
    destruct (pairwise_mid l1 [b] l2 (hr_sep _ _ R)) as [_ Hs]. assert (Hnb : b ∉ l1 ++ l2).
    { intros Hin. destruct (Hs b b Hin ltac:(ins)) as [Hx|Hx]; destruct Ob; unfold b_end in Hx; lia. }
    split; [|split].
    + intros d Hd. assert (d <> right_part b size) by (intros ->; discriminate). destruct (decide (d = b)) as [->|]; ins.
    + intros d a Hd Hn Hfd Ha. assert (K : kept s s' (l1 ++ l2)) by (eapply kept_header; [exact R'|exact M|]; intros x Hx _; ins).
      apply (K d a); [ins|done|done].
    + intros i Hi. apply M. intros c Hc. apply (payload_clear _ (left_part b size) c _ (hr_sep _ _ R')); [ins|done|unfold in_payload, b_end; cbn; lia|].
      pose proof (rep_at _ _ c R' Hc) as [_ _ _ _ Hm _]. lia.
  - exists s, l, b. split; [apply split_small; rewrite P6; lia|]. do 5 (split; [done|]). split; [|done]. intros d Hd.
    destruct (decide (d = b)) as [->|]; tauto.
Qed.

(** [heap_arena_realloc] of a block in use, for any size that is neither
    0 nor within 7 bytes of 4 GB, while the list has fewer than a million
    blocks. It returns the address of a block in use with room for the new
    size whose first bytes, up to the smaller of the two sizes, are those of
    the old block, the old one having been released if it moved; or 0, and
    then the old block is still there with its contents. Every other block in
    use stays where it is with its contents, and the list stays well formed. *)
Theorem heap_arena_realloc_spec s l b size o : heap_rep s l -> b ∈ l -> b_free b = false -> Z.of_nat (length l) <= 1000000 -> 0 < size <= 2 ^ 32 - 8 ->
  exists q s' l', heap_arena_realloc (b_at b + 24) size o s = (q, s') /\ heap_rep s' l' /\ kept_but s s' l b /\
    (forall d, d ∈ l -> d <> b -> b_free d = false -> d ∈ l') /\
    ((q = 0 /\ b ∈ l' /\ carried s s' (b_at b + 24) (b_at b + 24) (b_size b)) \/
     (exists c, q = b_at c + 24 /\ c ∈ l' /\ b_free c = false /\ size <= b_size c /\ carried s s' (b_at b + 24) q (Z.min size (b_size b)) /\
        forall d, b_free d = false -> d ∈ l' -> d = c \/ (d ∈ l /\ d <> b))).
Proof.
  intros R Hb Hf Hlen Hsz. destruct (align_up_bounds size Hsz) as (A1 & A2 & A3 & A4). destruct (ptr_header s l b R Hb) as (P1 & P2 & P3 & P4 & P5 & P6). rewrite Hf in P5.
  unfold heap_arena_realloc. rewrite (proj2 (Z.eqb_neq (b_at b + 24) 0)) by done. rewrite (proj2 (Z.eqb_neq size 0)) by lia. rewrite P2. cbn [Z.eqb negb]. cbn zeta. rewrite P3.
  rewrite (bind_run _ _ s HEAP_MAGIC s) by (unfold h_magic, gets; by rewrite P4). rewrite Z.eqb_refl. cbn [negb].
  rewrite (bind_run _ _ s 0 s) by (unfold h_free, gets; by rewrite P5). cbn [Z.eqb negb].
  change (SIZE_MAX_LOCAL - (ALIGN - 1)) with (2 ^ 32 - 8). rewrite (proj2 (Z.ltb_ge (2 ^ 32 - 8) size)) by lia.
  rewrite (bind_run _ _ s (b_size b) s) by (unfold h_size, gets; by rewrite P6). destruct (Z.leb_spec (ALIGN_UP size) (b_size b)) as [Hle|Hgt].
  - destruct (shrink_run s l b (ALIGN_UP size) R Hb Hf A2 A3 Hle) as (s' & l' & c & E & R' & Hat & Hc & Hcf & Hcs & Hl & Hby1 & Hby2).
    rewrite (bind_run _ _ _ _ _ E). exists (b_at b + 24), s', l'. split; [done|]. split; [done|].
    split; [intros d a Hd Hn Hfd Ha; by apply (Hby1 d)|]. split; [intros d Hd Hn Hfd; apply Hl; [done|by right]|]. right. exists c.
    rewrite Hat. split; [done|]. split; [done|]. split; [done|]. split; [lia|]. split; [|intros d Hd Hdl; by apply Hl].
    intros i Hi. by rewrite Hby2 by lia.
  - destruct (heap_alloc_run s l size o R Hlen Hsz) as (q & s1 & l1 & E & R1 & K1 & _ & [(c & -> & G & Hc)|(-> & Hl & _)]); rewrite (bind_run _ _ _ _ _ E).
    2:{ exists 0, s1, l1. split; [done|]. split; [done|]. split; [intros d a Hd Hn Hfd Ha; by apply (K1 d)|]. split; [intros d Hd _ Hfd; by apply Hl|]. left.
      split; [done|]. split; [by apply Hl|]. intros i Hi. apply (K1 b); [done|done|]. unfold in_payload, b_end. lia. }
    destruct G as (Gf & Gin & Gn & Gl). pose proof (rep_at _ _ c R1 Gin) as Oc. rewrite (proj2 (Z.eqb_neq (b_at c + 24) 0)) by (destruct Oc; lia).
    assert (Hb1 : b ∈ l1) by (apply Gl; [done|by right]). assert (Hcb : c <> b) by (intros ->; done).
    set (bs := load_bytes (hram s1) (b_at b + 24) (b_size b)). pose proof (rep_at _ _ b R Hb) as Ob.
    assert (Hbs : zlen bs = b_size b) by (apply zlen_load; destruct Ob; lia).
    destruct (payload_write s1 l1 c 0 bs R1 Gin ltac:(lia) ltac:(lia)) as [R2 K2]. rewrite Z.add_0_r in R2, K2.
    set (s2 := set_hram (store_bytes (b_at c + 24) bs (hram s1)) s1) in *.
    pose proof Hb1 as (la & lb & El)%list_elem_of_split. pose proof R2 as Rs. rewrite El in Rs.
    destruct (free_used_run s2 la b lb Rs Hf) as (s3 & E3 & R3 & L3 & K3 & _). rewrite <- El in L3, K3. set (l3 := freed la b lb) in *. clearbody l3.
    exists (b_at c + 24), s3, l3. split; [|split; [done|split; [|split]]].
    + rewrite (bind_run _ _ s1 tt s2) by done. by rewrite (bind_run _ _ _ _ _ E3).
    + intros d a Hd Hn Hfd Ha. assert (Hd1 : d ∈ l1) by (apply Gl; [done|by right]).
      rewrite (K3 d a), (K2 d a), (K1 d a); try done. intros ->. done.
    + intros d Hd Hn Hfd. apply L3; [done|]. split; [|done]. apply Gl; [done|by right].
    + right. exists c. split; [done|]. split; [by apply L3|]. split; [done|]. split; [lia|]. split.
      * intros i Hi. rewrite (K3 c); [|done|done|done|unfold in_payload, b_end; lia]. unfold s2. autorewrite with hst.
        rewrite ld8_store_bytes, decide_True by lia. replace (b_at c + 24 + i - (b_at c + 24)) with i by lia. unfold bs, load_bytes.
        rewrite aget_tab by lia. rewrite u8_small by apply ld8_byte. apply (K1 b); [done|done|]. unfold in_payload, b_end. lia.
      * intros d Hd Hdl. apply L3 in Hdl as [Hdl Hn]; [|done]. apply Gl in Hdl as [->|Hdl]; [by left|by right|done].
Qed.
End heap.

(** ** Witnesses: an empty kernel heap and five free frames *)

Definition demo_heap : hst pmm := mk_hst (mk_arena 0 0) (demo five).
Lemma demo_heap_rep : heap_rep demo_heap [].
Proof. constructor; [reflexivity|reflexivity|exact I|constructor|exact I|]. exact (sp_frames _ _ (so_space _ _ five_slot)). Qed.
Lemma demo_free_frame : in_use demo_heap 300 = false.
Proof. unfold in_use. cbn [demo_heap kk khw demo]. rewrite (demo_used five five_range) by (unfold PMM_MAX_BLOCKS; lia). vm_compute. reflexivity. Qed.
Lemma demo_allocates : exists s' l' b, heap_arena_alloc 100 (-1) demo_heap = (b_at b + 24, s') /\ heap_rep s' l' /\ gains [] l' b /\ 100 <= b_size b /\ (length l' <= 2)%nat.
Proof.
  destruct (heap_alloc_run demo_heap [] 100 (-1) demo_heap_rep ltac:(cbn; lia) ltac:(lia)) as (p & s' & l' & E & R' & _ & Hl & [(b & -> & G & Hb)|(_ & _ & _ & Hfull)]).
  - exists s', l', b. split; [done|]. split; [done|]. split; [done|]. split; [|exact Hl]. change (ALIGN_UP 100) with 104 in Hb. lia.
  - specialize (Hfull ltac:(change (ALIGN_UP 100) with 104; lia) 300 ltac:(unfold PMM_MAX_BLOCKS; lia)). by rewrite demo_free_frame in Hfull.
Qed.

Lemma heap_arena_alloc_witness : exists p s' l', heap_arena_alloc 100 (-1) demo_heap = (p, s') /\ heap_rep s' l'.
Proof.
  destruct (heap_arena_alloc_spec demo_heap [] 100 (-1) demo_heap_rep ltac:(cbn; lia) ltac:(lia)) as (p & s' & l' & E & R' & _).
  exists p, s', l'. split; [exact E|exact R'].
Defined.
Lemma heap_arena_free_witness : exists p s1 s2, heap_arena_alloc 100 (-1) demo_heap = (p, s1) /\ heap_arena_free p s1 = (tt, s2).
Proof.
  destruct demo_allocates as (s1 & l & b & E & R1 & (Hf & (l1 & l2 & ->)%list_elem_of_split & _) & _).
  destruct (heap_arena_free_spec s1 l1 b l2 R1) as (s2 & E2 & _). exists (b_at b + 24), s1, s2. split; [exact E|exact E2].
Defined.
Lemma heap_arena_realloc_witness : exists p q s1 s2, heap_arena_alloc 100 (-1) demo_heap = (p, s1) /\ heap_arena_realloc p 5000 (-1) s1 = (q, s2).
Proof.
  destruct demo_allocates as (s1 & l1 & b & E & R1 & (Hf & Hb & _) & _ & Hl).
  destruct (heap_arena_realloc_spec s1 l1 b 5000 (-1) R1 Hb Hf ltac:(lia) ltac:(lia)) as (q & s2 & l2 & E2 & _).
  exists (b_at b + 24), q, s1, s2. split; [exact E|exact E2].
Defined.
End HeapProps.
