(* ===== verification/Elf.v ===== *)
(** The ELF loader (src/elf.c, src/elf.h): header and program headers read
    through the file layer, segments copied into frames mapped in a new task,
    the argument block on the user stack.

    The loader writes to a frame at its physical address, where the kernel
    maps it. The task services are those of [Task]; the file layer is any
    implementation of [FileOps]. A call that waits for the file layer's lock
    gives [None]. *)
From S2P Require Import Prelude CString Disk Env Pmm Mem Paging VfsData Vfs Task.
From stdpp Require Import base list gmap numbers.
From Stdlib Require Import ZArith Lia.
Import CString Env Mem Paging Task.
Open Scope Z_scope.

Module Elf.

Definition ELFCLASS32 : Z := 1.
Definition ELFDATA2LSB : Z := 1.
Definition ET_EXEC : Z := 2.
Definition EM_386 : Z := 3.
Definition PT_LOAD : Z := 1.
Definition PAGE_SIZE : Z := 4096.
Definition ELF_OK : Z := 0.
Definition ELF_E_OPEN : Z := -1.
Definition ELF_E_READ : Z := -2.
Definition ELF_E_MAGIC : Z := -3.
Definition ELF_E_CLASS : Z := -4.
Definition ELF_E_TYPE : Z := -5.
Definition ELF_E_PHDR : Z := -6.
Definition ELF_E_SEGMENT : Z := -7.
Definition ELF_E_MEM : Z := -8.
Definition ELF_MAX_ARGV : Z := 32.
Definition ELF_MAX_ENV : Z := 16.
Definition ELF_MAX_ARGV_BYTES : Z := 4096.

(** [elf32_ehdr_t], the fields the loader reads, and [elf32_phdr_t]. *)
Record elf32_ehdr := mk_ehdr {
  e_ident : list Z; e_type : Z; e_machine : Z; e_entry : Z; e_phoff : Z; e_phentsize : Z; e_phnum : Z;
}.
Record elf32_phdr := mk_phdr {
  p_type : Z; p_offset : Z; p_vaddr : Z; p_paddr : Z; p_filesz : Z; p_memsz : Z; p_flags : Z; p_align : Z;
}.
Definition EHDR_SIZE : Z := 52.
Definition PHDR_SIZE : Z := 32.
Definition ehdr_decode (b : list Z) : elf32_ehdr :=
  mk_ehdr (slice b 0 16) (get16 b 16) (get16 b 18) (get32 b 24) (get32 b 28) (get16 b 42) (get16 b 44).
Definition phdr_decode (b : list Z) : elf32_phdr :=
  mk_phdr (get32 b 0) (get32 b 4) (get32 b 8) (get32 b 12) (get32 b 16) (get32 b 20) (get32 b 24) (get32 b 28).

(** ** Effects: the file layer, the kernel with its tasks, the environment *)

Record est (F A : Type) := mk_est { fstate : F; kstate : kst A; estate : envst }.
Arguments mk_est {F A}. Arguments fstate {F A}. Arguments kstate {F A}. Arguments estate {F A}.

(** The next step of a call that did not have to wait. *)
Definition andthen {S A B} (m : st S (option A)) (k : A -> st S (option B)) : st S (option B) :=
  r ← m; match r with Some a => k a | None => mret None end.

Section ops.
Context {F A : Type} `{FileOps F} `{FrameAlloc A}.
#[local] Abbreviation M := (st (est F A)).
#[local] Notation "x ⇠ m ; k" := (andthen m (fun x => k)) (at level 20, m at level 100, k at level 200, only parsing).
#[local] Notation "' x ⇠ m ; k" := (andthen m (fun x => k)) (at level 20, x pattern, m at level 100, k at level 200, only parsing).

Definition done {R} (r : R) : M (option R) := mret (Some r).
Definition in_files {R} (m : st F (option R)) : M (option R) := fun s =>
  let '(r, f) := m (fstate s) in (r, mk_est f (kstate s) (estate s)).
Definition in_kern {R} (m : st (kst A) R) : M (option R) := fun s =>
  let '(r, k) := m (kstate s) in (Some r, mk_est (fstate s) k (estate s)).

(** ** Frames taken by a load *)

(** [None]: the array is full. *)
Definition track_frame (fr : list Z) (phys : Z) : option (list Z) :=
  if TASK_MAX_OWNED_FRAMES <=? zlen fr then None else Some (fr ++ [phys]).
Definition free_frames (fr : list Z) : st (kst A) unit :=
  ffor (length fr) 0 (fun i => in_hw (pmm_free_block (fr.[i]))).

(** The part of the page of [va] that the file fills: where it starts and
    ends, and the place of its first byte in the file. *)
Definition overlap (ph : elf32_phdr) (va : Z) : Z * Z :=
  let file_end := u32 (p_vaddr ph + p_filesz ph) in
  let page_end := u32 (va + PAGE_SIZE) in
  (if va <? p_vaddr ph then p_vaddr ph else va, if file_end <? page_end then file_end else page_end).

Definition write_phys (a : Z) (bs : list Z) : st (kst A) unit :=
  in_hw (modify (fun h => set_ram (store_bytes a bs (ram h)) h)).

(** One page of a segment: the code, and the frames taken so far. *)
Definition load_page (fd : Z) (ph : elf32_phdr) (slot va : Z) (fr : list Z) : M (option (Z * list Z)) :=
  phys ⇠ in_kern (in_hw pmm_alloc_block);
  if phys =? 0 then done (ELF_E_MEM, fr) else
  match track_frame fr phys with
  | None => _ ⇠ in_kern (in_hw (pmm_free_block phys)); done (ELF_E_MEM, fr)
  | Some fr =>
      _ ⇠ in_kern (in_hw (Paging.memset phys 0 PAGE_SIZE));
      let (ov_start, ov_end) := overlap ph va in
      r ⇠ (if ov_start <? ov_end then
                   let file_off := u32 (p_offset ph + u32 (ov_start - p_vaddr ph)) in
                   let len := ov_end - ov_start in
                   '(n, bytes) ⇠ in_files (file_pread fd file_off len);
                   _ ⇠ in_kern (write_phys (phys + (ov_start - va)) bytes);
                   done (if n =? len then ELF_OK else ELF_E_READ)
                 else done ELF_OK);
      if r =? ELF_OK then _ ⇠ in_kern (task_map_user_page slot phys va 0x07); done (ELF_OK, fr)
      else done (r, fr)
  end.

Fixpoint load_pages (n : nat) (fd : Z) (ph : elf32_phdr) (slot va : Z) (fr : list Z) : M (option (Z * list Z)) :=
  match n with
  | O => done (ELF_OK, fr)
  | S n =>
      '(r, fr) ⇠ load_page fd ph slot va fr;
      if r =? ELF_OK then load_pages n fd ph slot (va + PAGE_SIZE) fr else done (r, fr)
  end.

Definition seg_start (ph : elf32_phdr) : Z := Z.land (p_vaddr ph) 0xFFFFF000.
Definition seg_end (ph : elf32_phdr) : Z := Z.land (u32 (u32 (p_vaddr ph + p_memsz ph) + (PAGE_SIZE - 1))) 0xFFFFF000.
Definition load_segment (fd fsize : Z) (ph : elf32_phdr) (slot : Z) (fr : list Z) : M (option (Z * list Z)) :=
  if p_memsz ph <? p_filesz ph then done (ELF_E_SEGMENT, fr) else
  if fsize <? p_offset ph then done (ELF_E_SEGMENT, fr) else
  if fsize - p_offset ph <? p_filesz ph then done (ELF_E_SEGMENT, fr) else
  if p_memsz ph =? 0 then done (ELF_OK, fr) else
  if seg_end ph <=? seg_start ph then done (ELF_E_SEGMENT, fr) else
  load_pages (Z.to_nat ((seg_end ph - seg_start ph) / PAGE_SIZE)) fd ph slot (seg_start ph) fr.

(** ** The argument block *)

(** The strings [n-1 .. 0], each below the one before; [None] is -1. The
    addresses are in the order of the strings. *)
Fixpoint push_strings (n : nat) (str : Z -> list Z) (slot sp used : Z) (addrs : list Z) : st (kst A) (option (Z * Z * list Z)) :=
  match n with
  | O => mret (Some (sp, used, addrs))
  | S n =>
      let s := str (Z.of_nat n) in
      let len := u32 (strlen s + 1) in
      let used := u32 (used + len) in
      if ELF_MAX_ARGV_BYTES <? used then mret None else
      let sp := u32 (sp - len) in
      r ← task_write_user_mem slot sp (strcpy_out s) len;
      if negb (r =? 0) then mret None else push_strings n str slot sp used (sp :: addrs)
  end.

(** [task_write_user_mem(slot, base + i * 4, &w[i], 4)] for the words. *)
Fixpoint push_words_at (slot base : Z) (ws : list Z) : st (kst A) bool :=
  match ws with
  | [] => mret true
  | w :: ws =>
      r ← task_write_user_mem slot base (le_put 4 w) 4;
      if negb (r =? 0) then mret false else push_words_at slot (u32 (base + 4)) ws
  end.
(** A vector of pointers and its null pointer below [sp]. *)
Definition push_vector (slot sp used : Z) (addrs : list Z) : st (kst A) (option (Z * Z)) :=
  let size := 4 * (zlen addrs + 1) in
  let used := u32 (used + size) in
  if ELF_MAX_ARGV_BYTES <? used then mret None else
  let sp := u32 (sp - size) in
  ok ← push_words_at slot sp (addrs ++ [0]);
  mret (if ok : bool then Some (sp, used) else None).

(** The stack pointer for the program; [None] is -1. *)
Definition push_argv (slot : Z) (argv : list (list Z)) (argc : Z) (env : envst) : st (kst A) (option Z) :=
  if (argc <? 0) || (ELF_MAX_ARGV <? argc) then mret None else
  let envc := if ELF_MAX_ENV <? env_count env then ELF_MAX_ENV else env_count env in
  e ← push_strings (Z.to_nat envc) (fun i => default [] (env_entry i env)) slot USER_STACK_TOP 0 [];
  match e with
  | None => mret None
  | Some (sp, used, env_addrs) =>
      a ← push_strings (Z.to_nat argc) (fun i => argv.[i]) slot sp used [];
      match a with
      | None => mret None
      | Some (sp, used, str_addrs) =>
          v ← push_vector slot (Z.land sp 0xFFFFFFFC) used env_addrs;
          match v with
          | None => mret None
          | Some (sp, used) =>
              v ← push_vector slot sp used str_addrs;
              match v with
              | None => mret None
              | Some (sp, used) =>
                  if ELF_MAX_ARGV_BYTES <? u32 (used + 4) then mret None else
                  let sp := u32 (sp - 4) in
                  r ← task_write_user_mem slot sp (le_put 4 (u32 argc)) 4;
                  mret (if r =? 0 then Some sp else None)
              end
          end
      end
  end.

(** ** Starting a program *)

Section exec.
Context (task_kstacks : Z).

Definition close_with (fd r : Z) : M (option Z) := _ ⇠ in_files (file_close fd); done r.
Definition give_up_load (fd slot : Z) (fr : list Z) (r : Z) : M (option Z) :=
  _ ⇠ in_kern (free_frames fr;; task_abort_user slot); close_with fd r.

(** The segments from program header [i] on; the code and the frames. *)
Fixpoint load_segments (n : nat) (fd fsize : Z) (eh : elf32_ehdr) (slot i : Z) (fr : list Z) : M (option (Z * list Z)) :=
  match n with
  | O => done (ELF_OK, fr)
  | S n =>
      let off := u32 (e_phoff eh + i * e_phentsize eh) in
      if (fsize <? off) || (fsize - off <? PHDR_SIZE) then done (ELF_E_PHDR, fr) else
      '(r, bytes) ⇠ in_files (file_pread fd off PHDR_SIZE);
      if negb (r =? PHDR_SIZE) then done (ELF_E_PHDR, fr) else
      let ph := phdr_decode bytes in
      if negb (p_type ph =? PT_LOAD) then load_segments n fd fsize eh slot (i + 1) fr else
      '(r, fr) ⇠ load_segment fd fsize ph slot fr;
      if r =? ELF_OK then load_segments n fd fsize eh slot (i + 1) fr else done (r, fr)
  end.

Definition bad_magic (id : list Z) : bool := negb ((id.[0] =? 0x7F) && (id.[1] =? 69) && (id.[2] =? 76) && (id.[3] =? 70)).
(** What is wrong with a header, 0 when nothing is. *)
Definition check_header (eh : elf32_ehdr) : Z :=
  if bad_magic (e_ident eh) then ELF_E_MAGIC
  else if negb ((e_ident eh).[4] =? ELFCLASS32) || negb ((e_ident eh).[5] =? ELFDATA2LSB) || negb (e_machine eh =? EM_386) then ELF_E_CLASS
  else if negb (e_type eh =? ET_EXEC) || (e_phnum eh =? 0) || (e_phentsize eh <? PHDR_SIZE) then ELF_E_TYPE
  else ELF_OK.

(** The frames become the task's, the arguments go on its stack, it starts. *)
Definition finish_exec (slot : Z) (fr : list Z) (eh : elf32_ehdr) (argv : list (list Z)) (argc : Z) : M (option Z) :=
  t ⇠ in_kern (task_track_frames slot fr);
  if negb (t =? 0) then _ ⇠ in_kern (free_frames fr;; task_abort_user slot); done ELF_E_MEM else
  esp ⇠ (fun s => in_kern (push_argv slot argv argc (estate s)) s);
  match esp with
  | None => _ ⇠ in_kern (task_abort_user slot); done ELF_E_MEM
  | Some user_esp => _ ⇠ in_kern (task_start_user task_kstacks slot (e_entry eh) user_esp); done ELF_OK
  end.
(** What follows the checks of the header. *)
Definition load_exec (fd fsize : Z) (eh : elf32_ehdr) (argv : list (list Z)) (argc priority : Z) : M (option Z) :=
  slot ⇠ in_kern (task_create_user task_kstacks priority);
  if slot <? 0 then close_with fd ELF_E_MEM else
  '(r, fr) ⇠ load_segments (Z.to_nat (e_phnum eh)) fd (u32 fsize) eh slot 0 [];
  if negb (r =? ELF_OK) then give_up_load fd slot fr r else
  _ ⇠ in_files (file_close fd);
  finish_exec slot fr eh argv argc.
Definition elf_exec_argv (path : list Z) (argv : list (list Z)) (argc priority : Z) : M (option Z) :=
  fd ⇠ in_files (file_open path Vfs.O_RDONLY);
  if fd <? 0 then done ELF_E_OPEN else
  '(r, bytes) ⇠ in_files (file_pread fd 0 EHDR_SIZE);
  if negb (r =? EHDR_SIZE) then close_with fd ELF_E_READ else
  let eh := ehdr_decode bytes in
  if negb (check_header eh =? ELF_OK) then close_with fd (check_header eh) else
  fsize ⇠ in_files (file_fsize fd);
  if fsize <? 0 then close_with fd ELF_E_READ else
  load_exec fd fsize eh argv argc priority.

Definition elf_exec (path : list Z) (priority : Z) : M (option Z) := elf_exec_argv path [path] 1 priority.
End exec.

End ops.
End Elf.
