(* ===== verification/ElfSpec.v ===== *)
(** What loading does to memory: one page, a segment, all segments of a
    program, over any file layer and frame allocator that keep their laws. *)
From S2P Require Import Prelude CString Disk Env Pmm Mem Paging PagingSpec VfsData Vfs Task TaskSpace TaskPages Elf.
From stdpp Require Import base list gmap numbers.
From Stdlib Require Import ZArith Lia.
Import Env Mem Paging PagingSpec Task TaskSpace TaskPages Elf.
Open Scope Z_scope.

Module ElfSpec.

(** ** Segments *)

(** A segment inside its file, whose last page does not wrap. *)
Record seg_ok (c : list Z) (ph : elf32_phdr) : Prop := {
  sg_offset : 0 <= p_offset ph; sg_filesz : 0 <= p_filesz ph <= p_memsz ph; sg_file : p_offset ph + p_filesz ph <= zlen c;
  sg_vaddr : 0 <= p_vaddr ph; sg_memsz : 0 < p_memsz ph; sg_end : p_vaddr ph + p_memsz ph + 4095 < 2 ^ 32;
}.
(** The byte a segment puts at [va]: the file's, or 0 behind them. *)
Definition seg_byte (c : list Z) (ph : elf32_phdr) (va : Z) : Z :=
  if decide (p_vaddr ph <= va < p_vaddr ph + p_filesz ph) then c.[p_offset ph + (va - p_vaddr ph)] else 0.

Lemma page_down a : is_u32 a -> Z.land a 0xFFFFF000 = a / 4096 * 4096.
Proof. intros Ha. apply (land_high 12 a ltac:(lia) Ha). Qed.
Lemma seg_start_div c ph : seg_ok c ph -> seg_start ph = p_vaddr ph / 4096 * 4096.
Proof. intros [? ? ? ? ? ?]. apply page_down. unfold is_u32. lia. Qed.
Lemma seg_end_div c ph : seg_ok c ph -> seg_end ph = (p_vaddr ph + p_memsz ph + 4095) / 4096 * 4096.
Proof.
  intros [? ? ? ? ? ?]. unfold seg_end, PAGE_SIZE. rewrite (u32_small (p_vaddr ph + p_memsz ph)) by lia. rewrite u32_small by lia.
  rewrite page_down by (unfold is_u32; lia). do 2 f_equal.
Qed.

Lemma zlen_slice_le {T} (l : list T) off n : 0 <= n -> zlen (slice l off n) <= n.
Proof. intros Hn. unfold zlen, slice. rewrite length_take. lia. Qed.
Lemma overlap_run c ph va : seg_ok c ph -> va mod 4096 = 0 -> seg_start ph <= va < seg_end ph ->
  overlap ph va = (Z.max va (p_vaddr ph), Z.min (p_vaddr ph + p_filesz ph) (va + 4096)).
Proof.
  intros Hok Hal Hva. rewrite (seg_start_div c), (seg_end_div c) in Hva by done. destruct Hok as [? ? ? ? ? ?]. unfold overlap, PAGE_SIZE.
  rewrite !u32_small by zdm. f_equal; [destruct (Z.ltb_spec va (p_vaddr ph)); lia|]. destruct (Z.ltb_spec (p_vaddr ph + p_filesz ph) (va + 4096)); lia.
Qed.

(** A page set to 0 and then overlaid with its part of the file. *)
Lemma page_bytes c ph va m b : is_bytes c -> seg_ok c ph ->
  let lo := Z.max va (p_vaddr ph) in let hi := Z.min (p_vaddr ph + p_filesz ph) (va + 4096) in
  forall o, 0 <= o < 4096 -> let m0 := Mem.memset (b * 4096) 0 4096 m in
  ld8 (if decide (lo < hi) then store_bytes (b * 4096 + (lo - va)) (slice c (p_offset ph + (lo - p_vaddr ph)) (hi - lo)) m0 else m0) (b * 4096 + o) =
  seg_byte c ph (va + o).
Proof.
  intros Hc [? ? ? ? ? ?] lo hi o Ho m0. assert (H0 : ld8 m0 (b * 4096 + o) = 0) by (unfold m0; by rewrite ld8_memset, decide_True by lia).
  unfold seg_byte. case_decide as Hlt.
  - assert (Hz : zlen (slice c (p_offset ph + (lo - p_vaddr ph)) (hi - lo)) = hi - lo) by (apply zlen_slice; lia).
    rewrite ld8_store_bytes, Hz. destruct (decide (p_vaddr ph <= va + o < p_vaddr ph + p_filesz ph)) as [Hin|Hout].
    + rewrite decide_True by lia. replace (b * 4096 + o - (b * 4096 + (lo - va))) with (va + o - lo) by lia. rewrite aget_slice by lia.
      replace (p_offset ph + (lo - p_vaddr ph) + (va + o - lo)) with (p_offset ph + (va + o - p_vaddr ph)) by lia.
      apply u8_small. apply (aget_Forall is_u8); [done|lia].
    + rewrite decide_False by lia. exact H0.
  - rewrite decide_False by lia. exact H0.
Qed.

Section load.
Context {F A : Type} `{FileLaws F} `{FrameAlloc A, !FrameAllocLaws A}.
Implicit Types (f : F) (h : hw A) (k : kst A) (e : envst).

Lemma andthen_run {S R R'} (m : st S (option R)) (g : R -> st S (option R')) s r s' : m s = (Some r, s') -> andthen m g s = g r s'.
Proof. intros E. unfold andthen. by rewrite (bind_run _ _ _ _ _ E). Qed.
Lemma in_kern_run {R} (m : st (kst A) R) f k e r k' : m k = (r, k') -> in_kern (F:=F) m (mk_est f k e) = (Some r, mk_est f k' e).
Proof. intros E. unfold in_kern. cbn [kstate fstate estate]. by rewrite E. Qed.
Lemma in_files_run {R} (m : st F (option R)) f k e r f' : m f = (r, f') -> in_files (A:=A) m (mk_est f k e) = (r, mk_est f' k e).
Proof. intros E. unfold in_files. cbn [kstate fstate estate]. by rewrite E. Qed.
Lemma slot_ok_hw k slot h1 : slot_ok k slot -> space h1 (dir ((tasks k).[slot])) -> slot_ok (set_hw h1 k) slot.
Proof. intros [S1 S2 S3] Hs. by constructor. Qed.

Lemma load_page_run fd ph slot va fr f k e c n : let d := dir ((tasks k).[slot]) in
  slot_ok k slot -> holds_file f fd c -> seg_ok c ph -> va mod 4096 = 0 -> seg_start ph <= va < seg_end ph ->
  free_at_least (khw k) (2 + n) -> zlen fr < TASK_MAX_OWNED_FRAMES ->
  exists b f' h', load_page fd ph slot va fr (mk_est f k e) = (Some (ELF_OK, fr ++ [b * 4096]), mk_est f' (set_hw h' k) e) /\
    holds_file f' fd c /\ page_loaded (khw k) d va b (seg_byte c ph) h' /\ free_at_least h' n.
Proof.
  intros d Hk Hf Hsg Hal Hva Hfr Htr. destruct (holds_bytes _ _ _ Hf) as [Hcb Hcz]. pose proof (so_space _ _ Hk) as Hs. fold d in Hs.
  destruct (alloc_some (khw k) d (S n) Hs Hfr) as (b & fa & Ea & Hb & Hfree & Hu & Hs1 & Hfr1).
  assert (Hu32 : is_u32 va) by (rewrite (seg_start_div c), (seg_end_div c) in Hva by done; destruct Hsg; unfold is_u32; zdm).
  unfold load_page. rewrite (andthen_run _ _ _ _ _ (in_kern_run _ f k e _ _ (alloc_in_hw k _ _ Ea))). rewrite (proj2 (Z.eqb_neq (b * 4096) 0)) by lia.
  unfold track_frame. rewrite (proj2 (Z.leb_gt _ _)) by done. unfold PAGE_SIZE.
  set (k1 := set_hw (set_frames fa (khw k)) k). set (m0 := Mem.memset (b * 4096) 0 4096 (ram (khw k))).
  rewrite (andthen_run _ _ _ tt (mk_est f (set_hw (set_ram m0 (khw k1)) k1) e)) by done. rewrite (overlap_run c) by done.
  set (lo := Z.max va (p_vaddr ph)). set (hi := Z.min (p_vaddr ph + p_filesz ph) (va + 4096)).
  set (bytes := slice c (p_offset ph + (lo - p_vaddr ph)) (hi - lo)).
  set (m1 := if decide (lo < hi) then store_bytes (b * 4096 + (lo - va)) bytes m0 else m0). set (h1 := set_ram m1 (khw k1)).
  assert (Hmid : exists f1, (if lo <? hi then
      andthen (in_files (file_pread fd (u32 (p_offset ph + u32 (lo - p_vaddr ph))) (hi - lo))) (fun '(r, bs) =>
        andthen (in_kern (write_phys (b * 4096 + (lo - va)) bs)) (fun _ => done (if r =? hi - lo then ELF_OK else ELF_E_READ)))
      else done ELF_OK) (mk_est f (set_hw (set_ram m0 (khw k1)) k1) e) = (Some ELF_OK, mk_est f1 (set_hw h1 k) e) /\ holds_file f1 fd c).
  { unfold h1, m1. destruct (Z.ltb_spec lo hi) as [Hlt|Hge]; [rewrite decide_True by done|rewrite decide_False by lia; by exists f].
    pose proof (sg_filesz _ _ Hsg). pose proof (sg_file _ _ Hsg). pose proof (sg_offset _ _ Hsg). pose proof (sg_vaddr _ _ Hsg). pose proof (sg_end _ _ Hsg).
    rewrite (u32_small (lo - p_vaddr ph)), u32_small by lia.
    destruct (pread_law f fd c (p_offset ph + (lo - p_vaddr ph)) (hi - lo) Hf ltac:(lia) ltac:(lia) ltac:(lia)) as (f1 & Ef & Hf1).
    exists f1. split; [|done]. rewrite (andthen_run _ _ _ _ _ (in_files_run _ f _ e _ _ Ef)). fold bytes.
    rewrite (andthen_run _ _ _ tt (mk_est f1 (set_hw (set_ram (store_bytes (b * 4096 + (lo - va)) bytes m0) (khw k1)) k) e)) by done.
    assert (Hz : zlen bytes = hi - lo) by (apply zlen_slice; lia). by rewrite Hz, Z.eqb_refl. }
  destruct Hmid as (f1 & Em & Hf1). rewrite (andthen_run _ _ _ _ _ Em). rewrite Z.eqb_refl.
  assert (Hfl : filled (khw k) b h1).
  { constructor; [done|apply Hs1|exact Hu|done|]. intros a Ha. unfold h1. cbn [ram set_ram]. unfold m1.
    assert (Hm0 : ld8 m0 a = ld8 (ram (khw k)) a) by (unfold m0; rewrite ld8_memset, decide_False by zdm; done).
    case_decide as Hlt; [|exact Hm0]. rewrite ld8_store_bytes, decide_False; [exact Hm0|].
    assert (Hz : zlen bytes <= hi - lo) by (unfold bytes; apply zlen_slice_le; lia). zdm. }
  destruct (page_load (khw k) d va b (seg_byte c ph) h1 n Hs Hfl Hfr1 Hu32) as (h' & E' & Hp & Hfr').
  { intros o Ho. unfold h1. cbn [ram set_ram]. by apply page_bytes. }
  exists b, f1, h'. split; [|done]. rewrite (andthen_run _ _ _ 0 (mk_est f1 (set_hw h' k) e)); [done|].
  apply in_kern_run. rewrite map_user_run by (apply slot_ok_hw; [done|by apply (space_filled (khw k) b)]). cbn [khw set_hw tasks]. fold d. by rewrite E'.
Qed.

(** ** Segments after one another *)

Lemma loaded_slot k slot h0 img taken h : slot_ok k slot -> loaded h0 (dir ((tasks k).[slot])) img taken h -> slot_ok (set_hw h k) slot.
Proof. intros Hk L. apply slot_ok_hw; [done|apply L]. Qed.

Lemma load_pages_run h0 fd ph slot c e k n m : forall va fr img taken f h, let d := dir ((tasks k).[slot]) in
  dir_ok h0 d d -> loaded h0 d img taken h -> slot_ok k slot -> holds_file f fd c -> seg_ok c ph -> va mod 4096 = 0 ->
  seg_start ph <= va -> va + 4096 * Z.of_nat n <= seg_end ph ->
  free_at_least h (2 * n + m) -> zlen fr + Z.of_nat n <= TASK_MAX_OWNED_FRAMES ->
  exists fs f' h', load_pages n fd ph slot va fr (mk_est f (set_hw h k) e) =
      (Some (ELF_OK, fr ++ ((fun b => b * 4096) <$> fs)), mk_est f' (set_hw h' k) e) /\ holds_file f' fd c /\ length fs = n /\
    loaded h0 d (on_range va (va + 4096 * Z.of_nat n) (seg_byte c ph) img) (taken ++ fs) h' /\ free_at_least h' m.
Proof.
  induction n as [|n IH]; intros va fr img taken f h d Hd0 L Hk Hf Hsg Hal Hlo Hhi Hfr Htr; cbn [load_pages].
  { exists [], f, h. rewrite app_nil_r. split_and!; [done|done|done| |done]. rewrite app_nil_r. eapply loaded_ext; [|exact L].
    intros a _. unfold on_range. by rewrite decide_False by lia. }
  destruct (load_page_run fd ph slot va fr f (set_hw h k) e c (2 * n + m) (loaded_slot _ _ _ _ _ _ Hk L) Hf Hsg Hal) as (b & f1 & h1 & E1 & Hf1 & Hp & Hfr1);
    [lia|by replace (2 + (2 * n + m))%nat with (2 * S n + m)%nat by lia|lia|].
  rewrite (andthen_run _ _ _ _ _ E1). cbv beta iota. rewrite Z.eqb_refl. cbn [khw set_hw tasks] in Hp. fold d in Hp.
  assert (Hu : is_u32 va) by (rewrite (seg_start_div c), (seg_end_div c) in * by done; destruct Hsg; unfold is_u32; zdm).
  pose proof (loaded_step _ _ _ _ _ _ _ _ _ Hd0 L Hp Hu Hal) as L1. unfold PAGE_SIZE.
  destruct (IH (va + 4096) (fr ++ [b * 4096]) _ _ f1 h1 Hd0 L1 Hk Hf1 Hsg) as (fs & f' & h' & E' & Hf' & Hlen & L' & Hfr');
    [zdm|lia|lia|done|rewrite zlen_app; change (zlen [b * 4096]) with 1; lia|].
  exists (b :: fs), f', h'. split.
  { change (set_hw h1 (set_hw h k)) with (set_hw h1 k). rewrite E'. by rewrite fmap_cons, <- app_assoc. }
  split; [done|]. split; [cbn; lia|]. split; [|done]. rewrite <- app_assoc in L'. eapply loaded_ext; [|exact L'].
  intros a _. unfold on_range. destruct (decide (va + 4096 <= a < _)); [by rewrite decide_True by lia|].
  destruct (decide (va <= a < va + 4096)); [by rewrite decide_True by lia|by rewrite decide_False by lia].
Qed.

(** A loadable segment of the program: empty, or inside the file. *)
Definition seg_pages (ph : elf32_phdr) : nat := if p_memsz ph =? 0 then 0 else Z.to_nat ((seg_end ph - seg_start ph) / 4096).
Definition empty_seg (c : list Z) (ph : elf32_phdr) : Prop := p_memsz ph = 0 /\ p_filesz ph = 0 /\ 0 <= p_offset ph <= zlen c.
Definition seg_image (c : list Z) (ph : elf32_phdr) (img : mem_image) : mem_image :=
  if p_memsz ph =? 0 then img else on_range (seg_start ph) (seg_end ph) (seg_byte c ph) img.

Lemma load_segment_run h0 fd ph slot c e k m fr img taken f h : let d := dir ((tasks k).[slot]) in
  dir_ok h0 d d -> loaded h0 d img taken h -> slot_ok k slot -> holds_file f fd c -> seg_ok c ph \/ empty_seg c ph ->
  free_at_least h (2 * seg_pages ph + m) -> zlen fr + Z.of_nat (seg_pages ph) <= TASK_MAX_OWNED_FRAMES ->
  exists fs f' h', load_segment fd (zlen c) ph slot fr (mk_est f (set_hw h k) e) =
      (Some (ELF_OK, fr ++ ((fun b => b * 4096) <$> fs)), mk_est f' (set_hw h' k) e) /\ holds_file f' fd c /\ length fs = seg_pages ph /\
    loaded h0 d (seg_image c ph img) (taken ++ fs) h' /\ free_at_least h' m.
Proof.
  intros d Hd0 L Hk Hf [Hsg|(E1 & E2 & E3)] Hfr Htr; unfold load_segment, seg_pages, seg_image in *.
  - pose proof Hsg as [? ? ? ? ? ?]. rewrite !(proj2 (Z.ltb_ge _ _)) by lia. rewrite (proj2 (Z.eqb_neq (p_memsz ph) 0)) in * by lia.
    pose proof (seg_start_div c ph Hsg) as Es. pose proof (seg_end_div c ph Hsg) as Ee. rewrite (proj2 (Z.leb_gt _ _)) by (rewrite Es, Ee; zdm).
    set (n := Z.to_nat ((seg_end ph - seg_start ph) / 4096)) in *. assert (En : seg_end ph = seg_start ph + 4096 * Z.of_nat n) by (unfold n; rewrite Es, Ee; zdm).
    destruct (load_pages_run h0 fd ph slot c e k n m (seg_start ph) fr img taken f h Hd0 L Hk Hf Hsg) as (fs & f' & h' & E' & Hf' & Hl & L' & Hfr');
      [rewrite Es; zdm|lia|lia|done|done|]. exists fs, f', h'. do 3 (split; [done|]). split; [by rewrite En|done].
  - rewrite E1, E2 in *. rewrite !(proj2 (Z.ltb_ge _ _)) by lia. rewrite Z.eqb_refl. exists [], f, h. rewrite !app_nil_r. by split_and!.
Qed.

(** ** All segments of a program *)

Section program.
Context (c : list Z) (eh : elf32_ehdr).
Definition phdr_off (i : Z) : Z := e_phoff eh + i * e_phentsize eh.
Definition phdr_at (i : Z) : elf32_phdr := phdr_decode (slice c (phdr_off i) PHDR_SIZE).
Definition loads (ph : elf32_phdr) : bool := p_type ph =? PT_LOAD.

(** The image of the program headers [i, i+n) over [img]: a later segment
    covers the pages of an earlier one. *)
Fixpoint program_image (n : nat) (i : Z) (img : mem_image) : mem_image :=
  match n with
  | O => img
  | S n => program_image n (i + 1) (if loads (phdr_at i) then seg_image c (phdr_at i) img else img)
  end.
Fixpoint program_pages (n : nat) (i : Z) : nat :=
  match n with
  | O => 0
  | S n => (if loads (phdr_at i) then seg_pages (phdr_at i) else 0) + program_pages n (i + 1)
  end.
(** A program header table inside the file, with segments inside it. *)
Record program_ok : Prop := {
  po_off : 0 <= e_phoff eh; po_size : 0 <= e_phentsize eh;
  po_table : forall i, 0 <= i < e_phnum eh -> phdr_off i + PHDR_SIZE <= zlen c;
  po_segs : forall i, 0 <= i < e_phnum eh -> loads (phdr_at i) = true -> seg_ok c (phdr_at i) \/ empty_seg c (phdr_at i);
}.

Lemma load_segments_run h0 fd slot e k n m : program_ok -> forall i fr img taken f h, let d := dir ((tasks k).[slot]) in
  dir_ok h0 d d -> loaded h0 d img taken h -> slot_ok k slot -> holds_file f fd c -> 0 <= i -> i + Z.of_nat n <= e_phnum eh ->
  free_at_least h (2 * program_pages n i + m) -> zlen fr + Z.of_nat (program_pages n i) <= TASK_MAX_OWNED_FRAMES ->
  exists fs f' h', load_segments n fd (zlen c) eh slot i fr (mk_est f (set_hw h k) e) =
      (Some (ELF_OK, fr ++ ((fun b => b * 4096) <$> fs)), mk_est f' (set_hw h' k) e) /\ holds_file f' fd c /\ length fs = program_pages n i /\
    loaded h0 d (program_image n i img) (taken ++ fs) h' /\ free_at_least h' m.
Proof.
  intros Hpo. induction n as [|n IH]; intros i fr img taken f h d Hd0 L Hk Hf Hi Hn Hfr Htr; cbn [load_segments program_image program_pages] in *.
  { exists [], f, h. rewrite app_nil_r. by split_and!; rewrite ?app_nil_r. }
  destruct (holds_bytes _ _ _ Hf) as [_ Hcz]. pose proof (po_off Hpo). pose proof (po_size Hpo). pose proof (po_table Hpo i ltac:(lia)) as Ht.
  assert (Hoff : 0 <= phdr_off i) by (unfold phdr_off; nia). unfold PHDR_SIZE in *.
  fold (phdr_off i). rewrite (u32_small (phdr_off i)) by lia. replace (_ || _) with false by lia.
  destruct (pread_law f fd c (phdr_off i) 32 Hf Hoff ltac:(lia) ltac:(lia)) as (f1 & Ef & Hf1). rewrite (andthen_run _ _ _ _ _ (in_files_run _ f _ e _ _ Ef)).
  cbv beta iota. rewrite zlen_slice by lia. rewrite Z.eqb_refl. cbn [negb]. change 32 with PHDR_SIZE. fold (phdr_at i). fold (loads (phdr_at i)).
  destruct (loads (phdr_at i)) eqn:El; cbn [negb].
  2:{ destruct (IH (i + 1) fr img taken f1 h Hd0 L Hk Hf1) as (fs & f' & h' & R); [lia|lia|done|done|]. by exists fs, f', h'. }
  destruct (load_segment_run h0 fd (phdr_at i) slot c e k (2 * program_pages n (i + 1) + m) fr img taken f1 h Hd0 L Hk Hf1) as (fs1 & f2 & h2 & E2 & Hf2 & Hl2 & L2 & Hfr2);
    [by apply (po_segs Hpo); [lia|]| |lia|].
  { replace (2 * seg_pages (phdr_at i) + (2 * program_pages n (i + 1) + m))%nat with (2 * (seg_pages (phdr_at i) + program_pages n (i + 1)) + m)%nat by lia. done. }
  rewrite (andthen_run _ _ _ _ _ E2). cbv beta iota. rewrite Z.eqb_refl.
  destruct (IH (i + 1) (fr ++ ((fun b => b * 4096) <$> fs1)) _ _ f2 h2 Hd0 L2 Hk Hf2) as (fs & f' & h' & E' & Hf' & Hl & L' & Hfr'); [lia|lia|done| |].
  { rewrite zlen_app. unfold zlen at 2. rewrite length_fmap, Hl2. lia. }
  exists (fs1 ++ fs), f', h'. rewrite E', fmap_app, <- !app_assoc. split; [done|]. split; [done|]. split; [rewrite length_app; lia|].
  rewrite <- app_assoc in L'. done.
Qed.
End program.
End load.
End ElfSpec.
