(* ===== verification/ElfArgs.v ===== *)
(** The argument block of a program (push_argv of src/elf.c): strings, the two
    vectors of pointers and the count on the user stack. *)
From S2P Require Import Prelude CString Disk Env Pmm Mem Paging PagingSpec VfsData Vfs Task TaskSpace TaskPages UserMem Elf.
From stdpp Require Import base list gmap numbers.
From Stdlib Require Import ZArith Lia.
Import CString Env Mem Paging PagingSpec Task TaskSpace TaskPages UserMem Elf.
Open Scope Z_scope.

Module ElfArgs.

Section args.
Context {A : Type} `{FrameAlloc A, !FrameAllocLaws A}.
Implicit Types (h : hw A) (k : kst A).
Context (X : Z -> Prop) (HX : X page_directory) (slot lo hi : Z) (fr : Z -> Z).

(** [bs] at the user address [va]; the 32-bit word there. *)
Definition holds h (va : Z) (bs : list Z) : Prop := forall j, 0 <= j < zlen bs -> ubyte h fr (va + j) = bs.[j].
Definition uword h (va : Z) : Z := le_get (tab (ubyte h fr) va 4).
(** Nothing of the window from [sp] on differs. *)
Definition same_above (sp : Z) h h' : Prop := forall va, sp <= va < hi -> ubyte h' fr va = ubyte h fr va.

Lemma same_above_trans sp sp' h1 h2 h3 : same_above sp h1 h2 -> same_above sp' h2 h3 -> sp' <= sp -> same_above sp h1 h3.
Proof. intros S1 S2 Hs va Hva. rewrite S2 by lia. by apply S1. Qed.
Lemma holds_above sp h h' va bs : same_above sp h h' -> sp <= va -> va + zlen bs <= hi -> holds h va bs -> holds h' va bs.
Proof. intros Sm H1 H2 Hh j Hj. rewrite Sm by lia. by apply Hh. Qed.
Lemma uword_above sp h h' va : same_above sp h h' -> sp <= va -> va + 4 <= hi -> uword h' va = uword h va.
Proof. intros Sm H1 H2. unfold uword. f_equal. apply tab_ext. intros i Hi. by apply Sm; lia. Qed.
Lemma uword_holds h va w : holds h va (le_put 4 w) -> uword h va = u32 w.
Proof.
  intros Hh. unfold uword. transitivity (le_get (le_put 4 w)); [|apply (le_get_put 4)]. f_equal. symmetry.
  apply (tab_eq _ va (le_put 4 w)). intros i Hi. symmetry. by apply Hh.
Qed.

(** The task with its stack, ready for a write: what every step needs. *)
Definition stack_ready k : Prop := slot_ok k slot /\ window X (khw k) (dir ((tasks k).[slot])) lo hi fr.
Definition stack_step k h' : Prop := only_window X (khw k) (dir ((tasks k).[slot])) lo hi fr h'.
Lemma stack_ready_step k h' : stack_ready k -> stack_step k h' -> stack_ready (set_hw h' k).
Proof. intros [Hk W] O. split; [by apply (slot_kept X HX k slot lo hi fr)|by apply (window_kept X (khw k))]. Qed.
Lemma stack_step_trans k h1 h2 : stack_step k h1 -> stack_step (set_hw h1 k) h2 -> stack_step k h2.
Proof. apply only_window_trans. Qed.

Lemma push_bytes k va bs : stack_ready k -> is_bytes bs -> lo <= va -> va + zlen bs <= hi ->
  exists h', task_write_user_mem slot va bs (zlen bs) k = (0, set_hw h' k) /\ stack_step k h' /\ holds h' va bs /\
    (forall vb, lo <= vb < hi -> ~ va <= vb < va + zlen bs -> ubyte h' fr vb = ubyte (khw k) fr vb).
Proof.
  intros [Hk W] Hb H1 H2. destruct (write_user_run X HX k slot lo hi fr va bs Hb Hk W H1 H2) as (h' & E & O & S').
  exists h'. split; [exact E|]. split; [exact O|]. split.
  - intros j Hj. rewrite S' by lia. rewrite decide_True by lia. f_equal. lia.
  - intros vb Hvb Hn. rewrite S' by lia. by rewrite decide_False.
Qed.
Lemma above_of sp va (bs : list Z) h h' : (forall vb, lo <= vb < hi -> ~ va <= vb < va + zlen bs -> ubyte h' fr vb = ubyte h fr vb) ->
  lo <= va -> va + zlen bs <= sp -> same_above sp h h'.
Proof. intros Hr H1 H2 vb Hvb. pose proof (zlen_nonneg bs). apply Hr; lia. Qed.

(** ** Strings *)

Definition str_size (s : list Z) : Z := strlen s + 1.
Fixpoint total (n : nat) (str : Z -> list Z) : Z :=
  match n with O => 0 | S n => str_size (str (Z.of_nat n)) + total n str end.
Lemma str_size_pos s : 0 < str_size s.
Proof. unfold str_size. rewrite strlen_cstr. pose proof (zlen_nonneg (cstr s)). lia. Qed.
Lemma total_pos n str : 0 <= total n str.
Proof. induction n as [|n IH]; cbn; [lia|]. unfold str_size. rewrite strlen_cstr. pose proof (zlen_nonneg (cstr (str (Z.of_nat n)))). lia. Qed.
Lemma zlen_strcpy s : zlen (strcpy_out s) = str_size s.
Proof. unfold strcpy_out, str_size. by rewrite zlen_app, strlen_cstr. Qed.
Lemma strcpy_bytes s : is_bytes s -> is_bytes (strcpy_out s).
Proof.
  intros Hb. apply list.Forall_app. split; [|repeat constructor; unfold is_u8; lia]. induction s as [|c s IH]; [constructor|].
  cbn [cstr]. inversion Hb; subst. destruct (c =? 0); [constructor|]. constructor; [done|by apply IH].
Qed.

Lemma push_strings_run str n : (forall i, 0 <= i < Z.of_nat n -> is_bytes (str i)) -> forall sp used addrs k, stack_ready k -> 0 <= used ->
  lo <= sp - total n str -> sp <= hi -> used + total n str <= ELF_MAX_ARGV_BYTES ->
  exists new h', push_strings n str slot sp used addrs k = (Some (sp - total n str, used + total n str, new ++ addrs), set_hw h' k) /\
    stack_step k h' /\ same_above sp (khw k) h' /\ length new = n /\
    forall i, 0 <= i < Z.of_nat n -> sp - total n str <= new.[i] /\ new.[i] + str_size (str i) <= sp /\ holds h' (new.[i]) (strcpy_out (str i)).
Proof.
  induction n as [|n IH]; intros Hb sp used addrs k Hk Hu Hlo Hhi Hmax; cbn [push_strings total] in *.
  { exists [], (khw k). rewrite Z.sub_0_r, Z.add_0_r. split; [by destruct k|]. split; [apply only_window_refl|]. split; [done|]. split; [done|]. lia. }
  destruct Hk as [Hsl W]. destruct (w_range _ _ _ _ _ _ W) as [Hr1 Hr2]. pose proof (conj Hsl W : stack_ready k) as Hk. pose proof (total_pos n str) as Ht.
  set (s := str (Z.of_nat n)) in *. assert (Hsz : 0 < str_size s) by (unfold str_size; rewrite strlen_cstr; pose proof (zlen_nonneg (cstr s)); lia).
  unfold ELF_MAX_ARGV_BYTES in *. fold (str_size s). rewrite (u32_small (str_size s)), (u32_small (used + _)), (u32_small (sp - _)) by lia.
  rewrite (proj2 (Z.ltb_ge 4096 _)) by lia. rewrite <- zlen_strcpy in *.
  destruct (push_bytes k (sp - zlen (strcpy_out s)) (strcpy_out s) Hk) as (h1 & E1 & O1 & Hh1 & R1); [apply strcpy_bytes, Hb; lia|lia|lia|].
  rewrite (bind_run _ _ _ _ _ E1). cbn [negb Z.eqb].
  destruct (IH ltac:(intros; apply Hb; lia) (sp - zlen (strcpy_out s)) (used + zlen (strcpy_out s)) ((sp - zlen (strcpy_out s)) :: addrs) (set_hw h1 k))
    as (new & h' & E' & O' & Sm & Hl & Hs); [by apply stack_ready_step|lia|lia|lia|lia|].
  exists (new ++ [sp - zlen (strcpy_out s)]), h'. rewrite E', <- app_assoc. split; [f_equal; do 3 f_equal; lia|].
  pose proof (above_of sp _ (strcpy_out s) (khw k) h1 R1 ltac:(lia) ltac:(lia)) as A1.
  split; [by eapply stack_step_trans|]. split; [eapply same_above_trans; [exact A1|exact Sm|lia]|]. split; [rewrite length_app; cbn; lia|].
  intros i Hi. destruct (decide (i = Z.of_nat n)) as [->|Hne].
  - assert (Eg : aget (new ++ [sp - zlen (strcpy_out s)]) (Z.of_nat n) = sp - zlen (strcpy_out s)).
    { unfold aget. rewrite Nat2Z.id, lookup_total_app_r by lia. by rewrite Hl, Nat.sub_diag. }
    rewrite Eg. fold s. rewrite <- zlen_strcpy. split; [lia|]. split; [lia|]. eapply holds_above; [exact Sm|lia|lia|exact Hh1].
  - assert (Eg : aget (new ++ [sp - zlen (strcpy_out s)]) i = new.[i]) by (unfold aget; rewrite lookup_total_app_l; [done|lia]).
    rewrite Eg. destruct (Hs i ltac:(lia)) as (H1 & H2 & H3). split; [lia|]. split; [lia|done].
Qed.

(** ** Vectors *)

Lemma push_words_at_run ws : Forall is_u32 ws -> forall base k, stack_ready k -> lo <= base -> base + 4 * zlen ws <= hi ->
  exists h', push_words_at slot base ws k = (true, set_hw h' k) /\ stack_step k h' /\
    (forall vb, lo <= vb < hi -> ~ base <= vb < base + 4 * zlen ws -> ubyte h' fr vb = ubyte (khw k) fr vb) /\
    forall i, 0 <= i < zlen ws -> uword h' (base + 4 * i) = ws.[i].
Proof.
  induction 1 as [|w ws Hw Hws IH]; intros base k Hk Hlo Hhi; cbn [push_words_at].
  { exists (khw k). split; [by destruct k|]. split; [apply only_window_refl|]. split; [done|]. change (zlen []) with 0. lia. }
  assert (Hz : zlen (w :: ws) = 1 + zlen ws) by (unfold zlen; cbn; lia). rewrite Hz in *. pose proof (zlen_nonneg ws) as Hzn.
  destruct (w_range _ _ _ _ _ _ (proj2 Hk)) as [Hr1 Hr2].
  assert (Hz4 : zlen (le_put 4 w) = 4) by done.
  destruct (push_bytes k base (le_put 4 w) Hk (le_put_bytes 4 w) Hlo ltac:(lia)) as (h1 & E1 & O1 & Hh1 & R1). rewrite Hz4 in *.
  rewrite (bind_run _ _ _ _ _ E1). cbn [negb Z.eqb]. pose proof (uword_holds _ _ _ Hh1) as Hw1. rewrite u32_small in Hw1 by done.
  destruct (decide (ws = [])) as [->|Hne].
  { exists h1. split; [done|]. split; [done|]. split; [intros vb Hvb Hn; apply R1; [done|change (zlen []) with 0 in Hn; lia]|].
    change (zlen []) with 0. intros i Hi. assert (i = 0) as -> by lia. by replace (base + 4 * 0) with base by lia. }
  assert (Hpos : 0 < zlen ws) by (destruct ws; [done|unfold zlen; cbn; lia]). rewrite (u32_small (base + 4)) by lia.
  destruct (IH (base + 4) (set_hw h1 k)) as (h' & E' & O' & R' & Hws'); [by apply stack_ready_step|lia|lia|].
  exists h'. split; [exact E'|]. split; [by eapply stack_step_trans|]. split.
  - intros vb Hvb Hn. rewrite R' by lia. apply R1; lia.
  - intros i Hi. destruct (decide (i = 0)) as [->|].
    + replace (base + 4 * 0) with base by lia. change ((w :: ws).[0]) with w.
      transitivity (uword h1 base); [|done]. unfold uword. f_equal. apply tab_ext. intros j Hj. apply R'; lia.
    + replace (base + 4 * i) with (base + 4 + 4 * (i - 1)) by lia. rewrite Hws' by lia. unfold aget. by replace (Z.to_nat i) with (S (Z.to_nat (i - 1))) by lia.
Qed.

Lemma push_vector_run sp used addrs k : stack_ready k -> Forall is_u32 addrs -> let n := zlen addrs in
  lo <= sp - 4 * (n + 1) -> sp <= hi -> 0 <= used -> used + 4 * (n + 1) <= ELF_MAX_ARGV_BYTES ->
  exists h', push_vector slot sp used addrs k = (Some (sp - 4 * (n + 1), used + 4 * (n + 1)), set_hw h' k) /\ stack_step k h' /\
    same_above sp (khw k) h' /\
    (forall i, 0 <= i < n -> uword h' (sp - 4 * (n + 1) + 4 * i) = addrs.[i]) /\ uword h' (sp - 4) = 0.
Proof.
  intros Hk Ha n Hlo Hhi Hu Hmax. destruct (w_range _ _ _ _ _ _ (proj2 Hk)) as [Hr1 Hr2]. pose proof (zlen_nonneg addrs). fold n in H0.
  unfold push_vector. fold n. unfold ELF_MAX_ARGV_BYTES in *. rewrite (u32_small (used + _)), (u32_small (sp - _)) by lia. rewrite (proj2 (Z.ltb_ge 4096 _)) by lia.
  assert (Hz : zlen (addrs ++ [0]) = n + 1) by (by rewrite zlen_app).
  destruct (push_words_at_run (addrs ++ [0])) with (base := sp - 4 * (n + 1)) (k := k) as (h' & E & O & R & Hw); [|done|done|lia|].
  { apply list.Forall_app. split; [done|]. constructor; [unfold is_u32; lia|constructor]. }
  rewrite Hz in *. exists h'. rewrite (bind_run _ _ _ _ _ E). split; [done|]. split; [done|]. split; [intros vb Hvb; apply R; lia|]. split.
  - intros i Hi. rewrite Hw by lia. unfold aget. rewrite lookup_total_app_l; [done|]. unfold n, zlen in Hi. lia.
  - specialize (Hw n ltac:(lia)). replace (sp - 4 * (n + 1) + 4 * n) with (sp - 4) in Hw by lia. rewrite Hw. unfold aget.
    rewrite lookup_total_app_r by (unfold n, zlen; lia). unfold n, zlen. by rewrite Nat2Z.id, Nat.sub_diag.
Qed.

(** ** The whole block *)

Definition env_str (env : envst) (i : Z) : list Z := default [] (env_entry i env).
(** What the block takes, without the bytes skipped to align it. *)
Definition block_size (argv : list (list Z)) (argc : Z) (env : envst) : Z :=
  total (Z.to_nat (env_count env)) (env_str env) + total (Z.to_nat argc) (fun i => argv.[i]) + 4 * (env_count env + 1) + 4 * (argc + 1) + 4.

(** A vector of [n] pointers at [va], each to the string [str i], then 0. *)
Definition pointers h (va n : Z) (str : Z -> list Z) : Prop :=
  (forall i, 0 <= i < n -> exists p, uword h (va + 4 * i) = p /\ va < p /\ p + str_size (str i) <= hi /\ holds h p (strcpy_out (str i))) /\
  uword h (va + 4 * n) = 0.
Record argument_block h (sp argc : Z) (argv : list (list Z)) (env : envst) : Prop := {
  ab_aligned : sp mod 4 = 0; ab_fits : sp + 4 + 4 * (argc + 1) + 4 * (env_count env + 1) <= hi;
  ab_argc : uword h sp = argc;
  ab_argv : pointers h (sp + 4) argc (fun i => argv.[i]);
  ab_envp : pointers h (sp + 4 + 4 * (argc + 1)) (env_count env) (env_str env);
}.

Lemma pointers_above sp h h' va n str : same_above sp h h' -> sp <= va -> 0 <= n -> va + 4 * (n + 1) <= hi -> pointers h va n str -> pointers h' va n str.
Proof.
  intros Sm H1 H2 H3 [Hp Hz]. split.
  - intros i Hi. destruct (Hp i Hi) as (p & Ew & H4 & H5 & H6). exists p. split; [by rewrite (uword_above sp h h') by (done || lia)|].
    split; [done|]. split; [done|]. eapply holds_above; [exact Sm|lia|by rewrite zlen_strcpy|done].
  - by rewrite (uword_above sp h h') by (done || lia).
Qed.

Lemma pointers_intro h va n str l : zlen l = n -> 0 <= n -> (forall i, 0 <= i < n -> uword h (va + 4 * i) = l.[i]) -> uword h (va + 4 * n) = 0 ->
  (forall i, 0 <= i < n -> va < l.[i] /\ l.[i] + str_size (str i) <= hi /\ holds h (l.[i]) (strcpy_out (str i))) -> pointers h va n str.
Proof. intros Hl Hn Hw Hz Hs. split; [|done]. intros i Hi. exists (l.[i]). split; [by apply Hw|]. by apply Hs. Qed.
Lemma addrs_u32 (l : list Z) lo' : (forall i, 0 <= i < zlen l -> lo' <= l.[i] < 2 ^ 32) -> 0 <= lo' -> Forall is_u32 l.
Proof.
  intros Hl Hlo. apply list.Forall_forall. intros x Hx. apply list_elem_of_lookup_total_1 in Hx as (i & Hi & <-).
  specialize (Hl (Z.of_nat i) ltac:(unfold zlen; lia)). unfold aget in Hl. rewrite Nat2Z.id in Hl. unfold is_u32. lia.
Qed.

Lemma block_same h h' sp argc argv env : (forall va, lo <= va < hi -> ubyte h' fr va = ubyte h fr va) -> lo <= sp -> 0 <= argc -> 0 <= env_count env ->
  argument_block h sp argc argv env -> argument_block h' sp argc argv env.
Proof.
  intros Hu Hsp Ha He [B1 B2 B3 B4 B5]. assert (Sm : same_above sp h h') by (intros v Hv; apply Hu; lia).
  constructor; [done|done|rewrite (uword_above sp h h') by (done || lia); done| |].
  - eapply pointers_above; [exact Sm|lia|lia|lia|done].
  - eapply pointers_above; [exact Sm|lia|lia|lia|done].
Qed.

Lemma push_argv_run argv argc env k : stack_ready k -> hi = USER_STACK_TOP -> lo <= hi - 4104 -> 0 <= argc <= ELF_MAX_ARGV -> 0 <= env_count env <= ELF_MAX_ENV ->
  (forall i, 0 <= i < argc -> is_bytes (argv.[i])) -> (forall i, 0 <= i < env_count env -> is_bytes (env_str env i)) ->
  block_size argv argc env <= ELF_MAX_ARGV_BYTES ->
  exists sp h', push_argv slot argv argc env k = (Some sp, set_hw h' k) /\ stack_step k h' /\ hi - 4104 <= sp < hi /\ argument_block h' sp argc argv env.
Proof.
  intros Hk Hhi Hlo Hargc Henv Hba Hbe Hsz. unfold push_argv. unfold ELF_MAX_ARGV, ELF_MAX_ENV in *.
  replace ((argc <? 0) || (32 <? argc)) with false by lia. rewrite (proj2 (Z.ltb_ge 16 _)) by lia. set (envc := env_count env) in *.
  change (fun i => default [] (env_entry i env)) with (env_str env).
  unfold block_size, ELF_MAX_ARGV_BYTES in Hsz. fold envc in Hsz. set (te := total (Z.to_nat envc) (env_str env)) in *.
  set (ta := total (Z.to_nat argc) (fun i => argv.[i])) in *. pose proof (total_pos (Z.to_nat envc) (env_str env)) as Hte. fold te in Hte.
  pose proof (total_pos (Z.to_nat argc) (fun i => argv.[i])) as Hta. fold ta in Hta.
  destruct (w_range _ _ _ _ _ _ (proj2 Hk)) as [Hr1 Hr2]. rewrite <- Hhi. unfold USER_STACK_TOP in Hhi.
  destruct (push_strings_run (env_str env) (Z.to_nat envc) ltac:(intros; apply Hbe; lia) hi 0 [] k Hk) as (ea & h1 & E1 & O1 & A1 & L1 & S1);
    [lia|fold te; lia|lia|unfold ELF_MAX_ARGV_BYTES; fold te; lia|]. fold te in E1, S1. rewrite app_nil_r in E1. rewrite Z2Nat.id in S1 by lia.
  rewrite (bind_run _ _ _ _ _ E1). pose proof (stack_ready_step k h1 Hk O1) as Hk1.
  destruct (push_strings_run (fun i => argv.[i]) (Z.to_nat argc) ltac:(intros; apply Hba; lia) (hi - te) (0 + te) [] (set_hw h1 k) Hk1) as (aa & h2 & E2 & O2 & A2 & L2 & S2);
    [lia|fold ta; lia|lia|unfold ELF_MAX_ARGV_BYTES; fold ta; lia|]. fold ta in E2, S2. rewrite app_nil_r in E2. rewrite Z2Nat.id in S2 by lia.
  rewrite (bind_run _ _ _ _ _ E2). pose proof (stack_step_trans k h1 h2 O1 O2) as O12. change (set_hw h2 (set_hw h1 k)) with (set_hw h2 k).
  pose proof (stack_ready_step k h2 Hk O12) as Hk2. cbn [khw set_hw] in A2. set (sp2 := hi - te - ta) in *.
  assert (Esp : Z.land sp2 0xFFFFFFFC = sp2 / 4 * 4) by (apply (land_high 2 sp2); unfold sp2; lia). rewrite Esp. set (sp3 := sp2 / 4 * 4).
  assert (Hsp3 : sp2 - 3 <= sp3 <= sp2 /\ sp3 mod 4 = 0) by (unfold sp3; zdm).
  assert (Hz1 : zlen ea = envc) by (unfold zlen; lia). assert (Hz2 : zlen aa = argc) by (unfold zlen; lia).
  destruct (push_vector_run sp3 (0 + te + ta) ea (set_hw h2 k) Hk2) as (h3 & E3 & O3 & A3 & V3 & Z3); rewrite ?Hz1;
    [apply (addrs_u32 ea 0); [intros i Hi; rewrite Hz1 in Hi; destruct (S1 i Hi) as (? & ? & _); pose proof (str_size_pos (env_str env i)); lia|lia]|lia|lia|lia|unfold ELF_MAX_ARGV_BYTES; lia|].
  rewrite Hz1 in *. rewrite (bind_run _ _ _ _ _ E3). pose proof (stack_step_trans k h2 h3 O12 O3) as O123. change (set_hw h3 (set_hw h2 k)) with (set_hw h3 k).
  pose proof (stack_ready_step k h3 Hk O123) as Hk3. cbn [khw set_hw] in A3. set (sp4 := sp3 - 4 * (envc + 1)) in *.
  destruct (push_vector_run sp4 (0 + te + ta + 4 * (envc + 1)) aa (set_hw h3 k) Hk3) as (h4 & E4 & O4 & A4 & V4 & Z4); rewrite ?Hz2;
    [apply (addrs_u32 aa 0); [intros i Hi; rewrite Hz2 in Hi; destruct (S2 i Hi) as (? & ? & _); pose proof (str_size_pos (argv.[i])); lia|lia]|lia|lia|lia|unfold ELF_MAX_ARGV_BYTES; lia|].
  rewrite Hz2 in *. rewrite (bind_run _ _ _ _ _ E4). pose proof (stack_step_trans k h3 h4 O123 O4) as O1234. change (set_hw h4 (set_hw h3 k)) with (set_hw h4 k).
  pose proof (stack_ready_step k h4 Hk O1234) as Hk4. cbn [khw set_hw] in A4. set (sp5 := sp4 - 4 * (argc + 1)) in *.
  unfold ELF_MAX_ARGV_BYTES. rewrite (u32_small (_ + 4)), (u32_small (sp5 - 4)), (u32_small argc) by lia. rewrite (proj2 (Z.ltb_ge 4096 _)) by lia.
  destruct (push_bytes (set_hw h4 k) (sp5 - 4) (le_put 4 argc) Hk4 (le_put_bytes 4 argc)) as (h5 & E5 & O5 & Hh5 & R5); [lia|change (zlen (le_put 4 argc)) with 4; lia|].
  change (zlen (le_put 4 argc)) with 4 in *. rewrite (bind_run _ _ _ _ _ E5). change (set_hw h5 (set_hw h4 k)) with (set_hw h5 k). rewrite Z.eqb_refl.
  cbn [khw set_hw] in R5.
  assert (A5 : same_above sp5 h4 h5) by (intros vb Hvb; apply R5; lia).
  exists (sp5 - 4), h5. split; [done|]. split; [by apply (stack_step_trans k h4)|]. split; [lia|].
  pose proof (uword_holds _ _ _ Hh5) as Hw5. rewrite u32_small in Hw5 by lia.
  assert (Ai : same_above sp2 h2 h5) by (eapply same_above_trans; [|exact A5|lia]; eapply same_above_trans; [|exact A4|lia]; intros v Hv; apply A3; lia).
  assert (Ai1 : same_above (hi - te) h1 h5) by (eapply same_above_trans; [exact A2|exact Ai|lia]).
  constructor; [unfold sp5, sp4; zdm|fold envc; lia|done| |]; replace (sp5 - 4 + 4) with sp5 by lia.
  - apply (pointers_above sp5 h4 h5); [done|lia|lia|lia|]. apply (pointers_intro _ _ _ _ aa); [done|lia|done|unfold sp5; by replace (sp4 - 4 * (argc + 1) + 4 * argc) with (sp4 - 4) by lia|].
    intros i Hi. destruct (S2 i Hi) as (H1 & H2 & H3). pose proof (str_size_pos (argv.[i])). split; [lia|]. split; [lia|].
    eapply (holds_above sp2 h2 h4); [eapply same_above_trans; [intros v Hv; apply A3; lia|exact A4|lia]|lia|rewrite zlen_strcpy; lia|exact H3].
  - replace (sp5 + 4 * (argc + 1)) with sp4 by (unfold sp5; lia). apply (pointers_above sp4 h3 h5); [eapply same_above_trans; [exact A4|exact A5|lia]|lia|lia|lia|].
    fold envc. apply (pointers_intro _ _ _ _ ea); [done|lia|done|unfold sp4; by replace (sp3 - 4 * (envc + 1) + 4 * envc) with (sp3 - 4) by lia|].
    intros i Hi. destruct (S1 i Hi) as (H1 & H2 & H3). pose proof (str_size_pos (env_str env i)). split; [lia|]. split; [lia|].
    eapply (holds_above (hi - te) h1 h3); [eapply same_above_trans; [exact A2|exact A3|lia]|lia|rewrite zlen_strcpy; lia|exact H3].
Qed.
End args.
End ElfArgs.
