(* ===== verification/ElfProps.v ===== *)
(** Starting a program: the whole of elf_exec_argv (src/elf.c) on a file that
    is a program, and on one that is not. *)
From S2P Require Import Prelude CString Disk Env Pmm Mem Paging PagingSpec VfsData Vfs Task TaskSpace TaskPages UserMem TaskCreate Elf ElfSpec ElfArgs TaskDemo.
From stdpp Require Import base list gmap numbers.
From Stdlib Require Import ZArith Lia.
Import CString Env Mem Paging PagingSpec Task TaskSpace TaskPages UserMem TaskCreate TaskStart Elf ElfSpec ElfArgs.
Open Scope Z_scope.

Module ElfProps.

Section exec.
Context {F A : Type} `{FileLaws F} `{FrameAlloc A, !FrameAllocLaws A}.
Implicit Types (f : F) (h : hw A) (k : kst A) (env : envst).
Context (ks : Z).

Definition header_of (c : list Z) : elf32_ehdr := ehdr_decode (slice c 0 EHDR_SIZE).
(** The memory image of a program file; [None]: no segment has the address. *)
Definition image_of (c : list Z) : mem_image := program_image c (header_of c) (Z.to_nat (e_phnum (header_of c))) 0 (fun _ => None).
Definition pages_of (c : list Z) : nat := program_pages c (header_of c) (Z.to_nat (e_phnum (header_of c))) 0.
Definition kstack_top (slot : Z) : Z := kstack_of ks slot + TASK_GUARD_SIZE + TASK_KSTACK_SIZE.

(** A program whose segments leave the stack and the guard page below the
    slot's kernel stack alone. *)
Record program_file (slot : Z) (c : list Z) : Prop := {
  pf_size : EHDR_SIZE <= zlen c;
  pf_header : check_header (header_of c) = ELF_OK;
  pf_program : program_ok c (header_of c);
  pf_apart : forall a, image_of c a <> None -> ~ stack_base <= a < USER_STACK_TOP /\ a / 4096 <> kstack_of ks slot / 4096;
}.
(** Directories that are in order and do not use the frame [y]. *)
Definition clear_of h (y x : Z) : Prop := dir_ok h x x /\ dir_ok h y x /\ x <> y.

(** The byte at an address whose page is mapped with the user bit in its entry. *)
Definition mapped_byte h (d va : Z) : option Z :=
  match walk h d va with
  | Some p => if present p && Z.testbit p 2 then Some (ld8 (ram h) (frame_of p + va mod 4096)) else None
  | None => None
  end.
(** What ring 3 finds there: the processor asks for the user bit in the entry
    of the directory, too. *)
Definition user_byte h (d va : Z) : option Z := if user_page h d va then mapped_byte h d va else None.
(** Whether the kernel's directory has the user bit for the table of [va]. *)
Definition opened h (va : Z) : bool := Z.testbit (pde h page_directory (pd_index va)) 2.

(** The task that runs the program of [c]. *)
Record running k k1 slot (c : list Z) (argv : list (list Z)) (argc priority : Z) env k' (d sp : Z) : Prop := {
  rn_task : exists owned, (tasks k').[slot] =
    mk_task (kstack_top slot - 76) (next_pid k1) TASK_READY d priority (kstack_top slot) 1 owned heap_arena_init USER_HEAP_BASE;
  rn_entry : entry_frame (ram (khw k')) (kstack_top slot) (e_entry (header_of c)) sp;
  rn_image : forall va x, is_u32 va -> image_of c va = Some x -> mapped_byte (khw k') d va = Some x;
  rn_stack : exists fr, (forall va, stack_base <= va < USER_STACK_TOP -> mapped_byte (khw k') d va = Some (ubyte (khw k') fr va)) /\
    argument_block USER_STACK_TOP fr (khw k') sp argc argv env;
  rn_user : forall va x, is_u32 va -> mapped_byte (khw k') d va = Some x -> user_byte (khw k') d va = if opened (khw k) va then Some x else None;
  rn_tasks : forall i, 0 <= i -> i <> slot -> (tasks k').[i] = (tasks k).[i];
  rn_spaces : forall x va, clear_of (khw k) (kstack_top slot - 4096) x -> is_u32 va -> walk (khw k') x va = walk (khw k) x va;
  rn_mem : forall a, is_u32 a -> used (khw k) a = true -> a / 4096 <> kstack_top slot / 4096 - 1 -> ld8 (ram (khw k')) a = ld8 (ram (khw k)) a;
}.

(** ** The pieces put together *)

Lemma set_hw_same k : set_hw (khw k) k = k.
Proof. by destruct k. Qed.
Lemma user_byte_opened h0 h d va x : (forall i, 0 <= i < 1024 -> flags_of (pde h d i) = flags_of (pde h0 page_directory i)) -> is_u32 va ->
  mapped_byte h d va = Some x -> user_byte h d va = if opened h0 va then Some x else None.
Proof.
  intros Hf Hva Hx. unfold user_byte, user_page, opened. rewrite Hx. rewrite (user_bit_flags (pde h0 _ _)), <- Hf, <- user_bit_flags by (by apply pd_bound).
  unfold mapped_byte in Hx. destruct (walk h d va) as [e|]; [|done]. by destruct (present e && Z.testbit e 2).
Qed.
Lemma mapped_byte_at h d va b : walk h d va = Some (b * 4096 + 7) -> 0 < b < PMM_MAX_BLOCKS -> mapped_byte h d va = Some (ld8 (ram h) (b * 4096 + va mod 4096)).
Proof.
  intros Hw Hb. unfold mapped_byte. rewrite Hw. destruct (entry_parts b 7 Hb ltac:(lia)) as (-> & _ & ->).
  replace (Z.testbit (b * 4096 + 7) 2) with true; [done|]. symmetry. rewrite user_bit_flags.
  destruct (entry_parts b 7 Hb ltac:(lia)) as (_ & -> & _). done.
Qed.

(** The stack seen as a window, after the program's pages have been loaded. *)
Definition frame_at h (d p : Z) : Z := match walk h d (p * 4096) with Some e => e / 4096 | None => 0 end.
Lemma stack_window (X : Z -> Prop) h1 h2 h3 d simg pimg fs ps : X d -> (forall x, X x -> dir_ok h1 d x) -> loaded h1 d simg fs h2 -> loaded h2 d pimg ps h3 ->
  (forall a, simg a <> None <-> stack_base <= a < USER_STACK_TOP) -> (forall a, pimg a <> None -> ~ stack_base <= a < USER_STACK_TOP) ->
  let fr := frame_at h3 d in
  window X h3 d stack_base USER_STACK_TOP fr /\ forall va, stack_base <= va < USER_STACK_TOP -> fr (va / 4096) ∈ fs.
Proof.
  intros HXd HX L1 L2 Hs Hp fr.
  assert (Hr : forall va, stack_base <= va < USER_STACK_TOP -> is_u32 va /\ stack_base <= va / 4096 * 4096 < USER_STACK_TOP /\ is_u32 (va / 4096 * 4096)).
  { unfold stack_base, USER_STACK_TOP, TASK_STACK_SIZE, USER_STACK_SIZE, is_u32. intros va Hva. zdm. }
  assert (Hw : forall va, stack_base <= va < USER_STACK_TOP -> walk h3 d va = walk h2 d va).
  { intros va Hva. destruct (Hr va Hva) as (Hu & _). apply (ld_rest _ _ _ _ _ L2); [done|]. destruct (pimg va) eqn:E; [|done]. exfalso. by apply (Hp va); [rewrite E|]. }
  assert (Hfr : forall va, stack_base <= va < USER_STACK_TOP -> walk h3 d va = Some (fr (va / 4096) * 4096 + 7) /\ fr (va / 4096) ∈ fs).
  { intros va Hva. destruct (Hr va Hva) as (Hu & Hb & Hub). destruct (simg (va / 4096 * 4096)) as [x|] eqn:Ex; [|by apply Hs in Hb].
    destruct (ld_image _ _ _ _ _ L1 _ x Hub Ex) as (b & Hwb & Hin & _). rewrite <- Hw in Hwb by done.
    unfold fr, frame_at. rewrite Hwb. replace ((b * 4096 + 7) / 4096) with b by zdm. split; [|done]. rewrite <- Hwb. apply walk_page; [done|done|zdm]. }
  assert (Hin : forall va, stack_base <= va < USER_STACK_TOP -> 0 < fr (va / 4096) < PMM_MAX_BLOCKS /\ used_frame (frames h2) (fr (va / 4096)) = true).
  { intros va Hva. destruct (Hfr va Hva) as [_ Hin]. pose proof (ld_taken _ _ _ _ _ L1) as Ht. rewrite list.Forall_forall in Ht. destruct (Ht _ Hin) as (? & _ & ?). done. }
  assert (HX2 : forall x, X x -> dir_ok h2 d x).
  { intros x Hx. destruct (decide (x = d)) as [->|Hn]; [apply (sp_dir _ _ (ld_space _ _ _ _ _ L1))|]. by apply (ld_others _ _ _ _ _ L1); [apply HX|]. }
  split; [|intros va Hva; by apply Hfr]. constructor.
  - unfold stack_base, USER_STACK_TOP, TASK_STACK_SIZE, USER_STACK_SIZE. lia.
  - intros va Hva. by apply Hfr.
  - intros va Hva. destruct (Hin va Hva) as [Hb Hu]. split; [done|]. unfold used. rewrite Z.div_mul by done. apply (ld_used _ _ _ _ _ L2); [lia|done].
  - done.
  - intros x Hx. destruct (decide (x = d)) as [->|Hn]; [apply (sp_dir _ _ (ld_space _ _ _ _ _ L2))|]. by apply (ld_others _ _ _ _ _ L2); [apply HX2|].
  - intros va x Hva Hx. destruct (Hfr va Hva) as [_ Hf]. destruct (ld_private _ _ _ _ _ L1 x _ (HX x Hx) Hf) as [Ho Hn]. split; [|done].
    destruct (Hin va Hva) as [Hb Hu]. apply (ld_off _ _ _ _ _ L2); [by eexists|unfold used; by rewrite Z.div_mul|done].
  - intros va vb Ha Hb E. destruct (Hr va Ha) as (Hua & _), (Hr vb Hb) as (Hub & _). apply (ld_inj _ _ _ _ _ L1); [done|done|by apply Hs|by apply Hs|].
    rewrite <- !Hw by done. destruct (Hfr va Ha) as [-> _], (Hfr vb Hb) as [-> _]. by rewrite E.
Qed.

(** ** What the stages of a start did to memory *)

Section stages.
(** Memory before the start, with the directory made (in frame [b]), with the
    stack mapped (frames [fs]), with the segments loaded (frames [ps]), with
    the arguments written, and with the task started. *)
Context (h0 h1 h2 h3 h5 h6 : hw A) (b : Z) (fs ps : list Z) (simg pimg : mem_image) (top : Z).
Let d := b * 4096.
Definition protected (x : Z) : Prop := x = b * 4096 \/ clear_of h0 (top - 4096) x.
Hypotheses (Fl : filled h0 b h1) (Sp1 : space h1 d) (L1 : loaded h1 d simg fs h2) (L2 : loaded h2 d pimg ps h3)
  (Dd : forall y, dir_ok h0 y page_directory -> dir_ok h1 y d)
  (Hpd : clear_of h0 (top - 4096) page_directory) (Hal : top mod 4096 = 0) (Htr : 16384 <= top <= USER_HEAP_BASE) (Htu : used h0 (top - 4096) = true).

Lemma top_page : (top - 4096) / 4096 = top / 4096 - 1 /\ 0 < top / 4096 - 1 < PMM_MAX_BLOCKS - 1 /\ is_frame (top - 4096).
Proof.
  unfold USER_HEAP_BASE in Htr. split; [zdm|]. split; [unfold PMM_MAX_BLOCKS; zdm|]. exists (top / 4096 - 1). split; [unfold PMM_MAX_BLOCKS; zdm|zdm].
Qed.
Lemma protected_dirs x : protected x -> dir_ok h1 d x.
Proof.
  destruct (fl_free _ _ _ Fl) as [Hb Hbf]. intros [->|(X1 & X2 & X3)]; [apply Sp1|]. apply (dir_ok_filled h0 b h1 Fl).
  apply (dir_ok_off h0 x d); [by exists b|unfold used, d; by rewrite Z.div_mul|done].
Qed.
Lemma kstack_used : used h1 (top - 4096) = true /\ used h2 (top - 4096) = true /\ used h3 (top - 4096) = true.
Proof.
  destruct top_page as (Hy & Hyr & Hf). assert (U1 : used h1 (top - 4096) = true) by by apply (used_filled h0 b h1 Fl).
  assert (U2 : used h2 (top - 4096) = true) by (unfold used in *; rewrite Hy in *; apply (ld_used _ _ _ _ _ L1); [lia|done]).
  split; [done|]. split; [done|]. unfold used in *; rewrite Hy in *; apply (ld_used _ _ _ _ _ L2); [lia|done].
Qed.
Lemma kstack_kept : kstack_ok protected h3 top.
Proof.
  destruct top_page as (Hy & Hyr & Hf). destruct kstack_used as (U1 & U2 & U3). destruct (fl_free _ _ _ Fl) as [Hb Hbf].
  constructor; [done|done|done|]. intros x [->|(X1 & X2 & X3)].
  - split; [|intros Eq; apply (fresh_ne h0 (top - 4096) b Htu Hbf); by rewrite <- Eq].
    apply (ld_off _ _ _ _ _ L2); [done|done|]. apply (ld_off _ _ _ _ _ L1); [done|done|]. apply Dd, Hpd.
  - split; [|done]. apply (ld_off _ _ _ _ _ L2); [done|done|]. apply (ld_off _ _ _ _ _ L1); [done|done|]. by apply (dir_ok_filled h0 b h1 Fl).
Qed.

Context (fr : Z -> Z).
Hypotheses (O5 : only_window protected h3 d stack_base USER_STACK_TOP fr h5) (Wfs : forall va, stack_base <= va < USER_STACK_TOP -> fr (va / 4096) ∈ fs)
  (W : window protected h3 d stack_base USER_STACK_TOP fr)
  (T6 : forall x va, protected x -> x <> d -> is_u32 va -> walk h6 x va = walk h5 x va)
  (T7 : forall a, used h5 a = true -> a / 4096 <> d / 4096 -> a / 4096 <> top / 4096 - 1 -> ld8 (ram h6) a = ld8 (ram h5) a).

Lemma used5 a : used h5 a = used h3 a.
Proof. unfold used. by rewrite (ow_frames _ _ _ _ _ _ _ O5). Qed.
Lemma dir_frame : d / 4096 = b /\ used_frame (frames h1) b = true.
Proof. destruct (fl_free _ _ _ Fl). split; [unfold d; by rewrite Z.div_mul|]. rewrite (fl_used _ _ _ Fl) by lia. by rewrite decide_True. Qed.
(** Stack frames are neither the directory nor the kernel stack. *)
Lemma stack_frames va : stack_base <= va < USER_STACK_TOP -> let c := fr (va / 4096) in
  0 < c < PMM_MAX_BLOCKS /\ used_frame (frames h1) c = false /\ used_frame (frames h2) c = true /\ c <> b /\ c <> top / 4096 - 1.
Proof.
  intros Hva c. pose proof (ld_taken _ _ _ _ _ L1) as Ht1. rewrite list.Forall_forall in Ht1. destruct (Ht1 c (Wfs va Hva)) as (Hr2 & Hf1 & Hf2).
  destruct top_page as (Hy & _), kstack_used as (U1 & _), dir_frame as [_ Hb1]. do 3 (split; [done|]).
  split; intros E; rewrite E in *; unfold used in U1; rewrite ?Hy in U1; congruence.
Qed.

Lemma stages_spaces x va : clear_of h0 (top - 4096) x -> is_u32 va -> walk h6 x va = walk h0 x va.
Proof.
  intros Hx Hva. assert (HXx : protected x) by (by right). destruct (fl_free _ _ _ Fl) as [Hb Hbf].
  assert (Hxd : x <> d). { intros ->. destruct Hx as (Hx & _). pose proof (do_used _ _ _ Hx) as Hu. unfold used, d in Hu. rewrite Z.div_mul in Hu by done. congruence. }
  rewrite T6 by done. rewrite (ow_walk _ _ _ _ _ _ _ O5) by done.
  destruct (ld_others _ _ _ _ _ L1 x (protected_dirs x HXx) Hxd) as [Hx2 Hw2]. destruct (ld_others _ _ _ _ _ L2 x Hx2 Hxd) as [_ Hw3].
  rewrite Hw3, Hw2 by done. apply (walk_filled h0 b h1 Fl x); [apply Hx|done].
Qed.

Lemma stages_mem a : is_u32 a -> used h0 a = true -> a / 4096 <> top / 4096 - 1 -> ld8 (ram h6) a = ld8 (ram h0) a.
Proof.
  intros Ha Hu Hk'. assert (Hrg : 0 <= a / 4096 < PMM_MAX_BLOCKS) by (unfold is_u32 in Ha; unfold PMM_MAX_BLOCKS; zdm). unfold used in Hu.
  destruct (fl_free _ _ _ Fl) as [Hb Hbf]. destruct dir_frame as [Hdb _]. assert (Hab : a / 4096 <> b) by (intros E; congruence).
  assert (Hu1 : used_frame (frames h1) (a / 4096) = true) by (rewrite (fl_used _ _ _ Fl) by done; by rewrite decide_False).
  pose proof (ld_used _ _ _ _ _ L1 _ Hrg Hu1) as Hu2. pose proof (ld_used _ _ _ _ _ L2 _ Hrg Hu2) as Hu3.
  rewrite T7; [|by rewrite used5|by rewrite Hdb|done]. rewrite (ow_mem _ _ _ _ _ _ _ O5).
  2:{ intros v Hv E. destruct (stack_frames v Hv) as (_ & Hff & _). rewrite <- E in Hff. congruence. }
  rewrite (ld_mem _ _ _ _ _ L2) by (done || by rewrite Hdb). rewrite (ld_mem _ _ _ _ _ L1) by (done || by rewrite Hdb).
  by apply (fl_mem _ _ _ Fl).
Qed.
Context (guard : Z).
Hypothesis T5 : forall va, is_u32 va -> va / 4096 <> guard / 4096 -> walk h6 d va = walk h5 d va.

Lemma stages_image va x : is_u32 va -> pimg va = Some x -> va / 4096 <> guard / 4096 -> mapped_byte h6 d va = Some x.
Proof.
  intros Hva Hx Hng. pose proof (ld_taken _ _ _ _ _ L2) as Ht2. rewrite list.Forall_forall in Ht2. destruct top_page as (Hy & _), kstack_used as (_ & U2 & _), dir_frame as [Hdb Hb1].
  destruct (ld_image _ _ _ _ _ L2 va x Hva Hx) as (c2 & Hw & Hin & Hby). destruct (Ht2 c2 Hin) as (Hr2 & Hfree2 & Hu2).
  assert (Hpg : (c2 * 4096 + va mod 4096) / 4096 = c2) by zdm.
  assert (Hne : c2 <> b /\ c2 <> top / 4096 - 1).
  { split; intros ->; unfold used in U2; rewrite ?Hy in U2; [rewrite (ld_used _ _ _ _ _ L1) in Hfree2 by (done || lia)|]; congruence. }
  rewrite (mapped_byte_at _ _ _ c2); [|rewrite T5, (ow_walk _ _ _ _ _ _ _ O5) by (done || by left); exact Hw|done]. f_equal. rewrite T7.
  - rewrite (ow_mem _ _ _ _ _ _ _ O5); [exact Hby|]. intros v Hv. rewrite Hpg. intros ->. destruct (stack_frames v Hv) as (_ & _ & Hu & _). congruence.
  - rewrite used5. unfold used. by rewrite Hpg.
  - rewrite Hpg, Hdb. apply Hne.
  - rewrite Hpg. apply Hne.
Qed.

Lemma stages_stack sp argc argv env : guard < USER_HEAP_BASE -> stack_base <= sp -> 0 <= argc -> 0 <= env_count env -> argument_block USER_STACK_TOP fr h5 sp argc argv env ->
  (forall va, stack_base <= va < USER_STACK_TOP -> mapped_byte h6 d va = Some (ubyte h6 fr va)) /\ argument_block USER_STACK_TOP fr h6 sp argc argv env.
Proof.
  intros Hg Hsp Ha He B5. destruct dir_frame as [Hdb _].
  assert (Hsb : forall va, stack_base <= va < USER_STACK_TOP -> is_u32 va /\ va / 4096 <> guard / 4096).
  { unfold USER_HEAP_BASE in Hg. unfold stack_base, USER_STACK_TOP, TASK_STACK_SIZE, USER_STACK_SIZE, is_u32. intros va Hva. zdm. }
  split.
  - intros va Hva. destruct (Hsb va Hva) as [Hu Hn]. destruct (stack_frames va Hva) as (Hr2 & _).
    rewrite (mapped_byte_at _ _ _ (fr (va / 4096))); [done| |done]. rewrite T5, (ow_walk _ _ _ _ _ _ _ O5) by (done || by left). by apply (w_walk _ _ _ _ _ _ W).
  - apply (block_same stack_base USER_STACK_TOP fr h5); [|done|done|done|exact B5].
    intros va Hva. destruct (stack_frames va Hva) as (Hr2 & _ & Hu2 & Hn1 & Hn2). unfold ubyte. apply T7; [|by rewrite phys_page, Hdb|by rewrite phys_page].
    rewrite used5. unfold used. rewrite phys_page. apply (ld_used _ _ _ _ _ L2); [lia|done].
Qed.

End stages.

(** The last part: from the loaded segments to the task that is ready. *)
Lemma finish_run (X : Z -> Prop) k slot fs ps f env eh argv argc lo fr m : let t := (tasks k).[slot] in let d := dir t in let top := kernel_stack_top t in
  slot_ok k slot -> X page_directory -> window X (khw k) d lo USER_STACK_TOP fr -> lo <= USER_STACK_TOP - 4104 ->
  owned_frames t = (fun b => b * 4096) <$> fs -> zlen fs + zlen ps <= TASK_MAX_OWNED_FRAMES ->
  0 <= argc <= ELF_MAX_ARGV -> 0 <= env_count env <= ELF_MAX_ENV ->
  (forall i, 0 <= i < argc -> is_bytes (argv.[i])) -> (forall i, 0 <= i < env_count env -> is_bytes (env_str env i)) ->
  block_size argv argc env <= ELF_MAX_ARGV_BYTES ->
  kstack_ok X (khw k) top -> is_u32 (kstack_of ks slot) -> free_at_least (khw k) (S m) ->
  exists sp h5 k', finish_exec ks slot ((fun b => b * 4096) <$> ps) eh argv argc (mk_est f k env) = (Some ELF_OK, mk_est f k' env) /\
    only_window X (khw k) d lo USER_STACK_TOP fr h5 /\ argument_block USER_STACK_TOP fr h5 sp argc argv env /\ USER_STACK_TOP - 4104 <= sp < USER_STACK_TOP /\
    started X (set_hw h5 (set_tasks (owning k slot ((fun b => b * 4096) <$> ps)) k)) slot top (kstack_of ks slot) (e_entry eh) sp k'.
Proof.
  intros t d top Hk HXp W Hlo Hown Hcnt Hargc Henv Hba Hbe Hsz Hko Hg Hfr. unfold finish_exec.
  assert (Hzm : forall l : list Z, zlen ((fun b => b * 4096) <$> l) = zlen l) by (intros l; unfold zlen; by rewrite length_fmap).
  assert (Htr : task_track_frames slot ((fun b => b * 4096) <$> ps) k = (0, set_tasks (owning k slot ((fun b => b * 4096) <$> ps)) k)).
  { apply track_run; [done|]. fold t. rewrite Hown, !Hzm. done. }
  rewrite (andthen_run _ _ _ _ _ (in_kern_run _ f k env _ _ Htr)). rewrite Z.eqb_refl. cbn [negb].
  set (k4 := set_tasks (owning k slot ((fun b => b * 4096) <$> ps)) k).
  assert (Hlt : 0 <= slot < zlen (tasks k)) by (destruct Hk; lia).
  assert (Et4 : (tasks k4).[slot] = set_owned (owned_frames t ++ ((fun b => b * 4096) <$> ps)) t) by (by apply owning_at).
  assert (Hk4 : slot_ok k4 slot) by (destruct Hk as [S1 S2 S3]; constructor; [done|change (tasks k4) with (owning k slot ((fun b => b * 4096) <$> ps)); unfold owning; by rewrite zlen_aset|by rewrite Et4]).
  assert (Hd4 : dir ((tasks k4).[slot]) = d) by (by rewrite Et4).
  assert (Hr4 : stack_ready X slot lo USER_STACK_TOP fr k4) by (split; [done|by rewrite Hd4]).
  destruct (push_argv_run X HXp slot lo USER_STACK_TOP fr argv argc env k4 Hr4) as (sp & h5 & E5 & O5 & Hsp & B5); [done..|].
  unfold stack_step in O5. rewrite Hd4 in O5. change (khw k4) with (khw k) in O5.
  rewrite (andthen_run _ _ _ (Some sp) (mk_est f (set_hw h5 k4) env)) by (by apply in_kern_run).
  set (k5 := set_hw h5 k4). assert (Hk5 : slot_ok k5 slot) by (apply (slot_kept X HXp k4 slot lo USER_STACK_TOP fr h5 Hk4); rewrite Hd4; [exact W|exact O5]).
  assert (Et5 : (tasks k5).[slot] = set_owned (owned_frames t ++ ((fun b => b * 4096) <$> ps)) t) by done.
  destruct (task_start_run X k5 slot ks (e_entry eh) sp m) as (k' & E6 & S6); rewrite ?Et5; try done.
  - exact (w_self _ _ _ _ _ _ W).
  - intros x Hx. change (dir _) with d. change (khw k5) with h5. apply O5; [done|]. by apply W.
  - destruct Hko as [K1 K2 K3 K4]. change (kernel_stack_top _) with top. constructor; [done|done|unfold used; change (frames (khw k5)) with (frames h5); by rewrite (ow_frames _ _ _ _ _ _ _ O5)|].
    intros x Hx. destruct (K4 x Hx). split; [by apply O5|done].
  - unfold USER_STACK_TOP in Hsp. lia.
  - destruct Hfr as (l & L1 & L2 & L3). exists l. split; [done|]. split; [|done]. change (khw k5) with h5. by rewrite (ow_frames _ _ _ _ _ _ _ O5).
  - rewrite Et5 in S6. exists sp, h5, k'. split; [|done]. rewrite (andthen_run _ _ _ tt (mk_est f k' env)); [done|]. by apply in_kern_run.
Qed.

Lemma phnum_bound c : is_bytes c -> EHDR_SIZE <= zlen c -> 0 <= e_phnum (header_of c).
Proof.
  intros Hb Hz. unfold EHDR_SIZE in Hz. apply (get_le_bound 2); [by apply Forall_slice|lia|]. unfold EHDR_SIZE. rewrite zlen_slice by lia. lia.
Qed.
(** The checks at the front pass on a program file. *)
Lemma front_run f f1 k env c fd slot path argv argc priority : file_open path Vfs.O_RDONLY f = (Some fd, f1) -> 0 <= fd -> holds_file f1 fd c ->
  program_file slot c ->
  exists f2, elf_exec_argv ks path argv argc priority (mk_est f k env) = load_exec ks fd (zlen c) (header_of c) argv argc priority (mk_est f2 k env) /\
    holds_file f2 fd c.
Proof.
  intros Eo Hfd Hf [P1 P2 P3 _]. unfold elf_exec_argv. rewrite (andthen_run _ _ _ _ _ (in_files_run _ f k env _ _ Eo)). rewrite (proj2 (Z.ltb_ge fd 0)) by done.
  assert (Hz : zlen (slice c 0 EHDR_SIZE) = EHDR_SIZE) by (apply zlen_slice; unfold EHDR_SIZE in *; lia).
  destruct (pread_law f1 fd c 0 EHDR_SIZE Hf ltac:(lia) ltac:(unfold EHDR_SIZE; lia) ltac:(unfold EHDR_SIZE; lia)) as (f2 & E2 & Hf2).
  rewrite (andthen_run _ _ _ _ _ (in_files_run _ f1 k env _ _ E2)). cbv beta iota. rewrite Hz, Z.eqb_refl. cbn [negb]. fold (header_of c). rewrite P2, Z.eqb_refl. cbn [negb].
  destruct (fsize_law f2 fd c Hf2) as (f3 & E3 & Hf3). rewrite (andthen_run _ _ _ _ _ (in_files_run _ f2 k env _ _ E3)).
  pose proof (zlen_nonneg c). rewrite (proj2 (Z.ltb_ge (zlen c) 0)) by lia. by exists f3.
Qed.

(** C4 - A program file is started: with a place in the task table, memory
    for the directory, the stack, the segments and the tables, and arguments
    and environment that fit a page, [elf_exec_argv] answers [ELF_OK]; the
    new task is ready, enters the program at its entry point with the stack
    pointer at the argument block, and its pages hold the image of the file's
    segments and the arguments, mapped read-write with the user bit. Ring 3
    reaches a mapped byte exactly where the kernel's directory has the user bit
    for its table: the loader never sets that bit. No other task, no other
    address space and no memory in use before differs (but the new task's
    kernel stack). *)
Theorem elf_exec_runs f f1 k k1 env c fd slot path argv argc priority :
  file_open path Vfs.O_RDONLY f = (Some fd, f1) -> 0 <= fd -> holds_file f1 fd c -> program_file slot c ->
  place k slot k1 -> kernel_space (khw k) -> clear_of (khw k) (kstack_top slot - 4096) page_directory ->
  kstack_top slot mod 4096 = 0 -> 16384 <= kstack_top slot <= USER_HEAP_BASE -> used (khw k) (kstack_top slot - 4096) = true ->
  4 + Z.of_nat (pages_of c) <= TASK_MAX_OWNED_FRAMES -> free_at_least (khw k) (9 + (2 * pages_of c + 1)) ->
  0 <= argc <= ELF_MAX_ARGV -> 0 <= env_count env <= ELF_MAX_ENV ->
  (forall i, 0 <= i < argc -> is_bytes (argv.[i])) -> (forall i, 0 <= i < env_count env -> is_bytes (env_str env i)) ->
  block_size argv argc env <= ELF_MAX_ARGV_BYTES ->
  exists f' k' d sp, elf_exec_argv ks path argv argc priority (mk_est f k env) = (Some ELF_OK, mk_est f' k' env) /\
    running k k1 slot c argv argc priority env k' d sp.
Proof.
  intros Eo Hfd Hf Hp Hpl Hks Hcl Hta Htr Htu Hcnt Hfr Hargc Henv Hba Hbe Hsz.
  destruct (front_run f f1 k env c fd slot path argv argc priority Eo Hfd Hf Hp) as (f2 & E1 & Hf2). rewrite E1. unfold load_exec.
  destruct (task_create_run k slot k1 ks priority (2 * pages_of c + 1) Hpl Hks Hfr) as (b & fs & k2 & E2 & Hc & Hfr2).
  rewrite (andthen_run _ _ _ _ _ (in_kern_run _ f2 k env _ _ E2)). destruct (pc_slot _ _ _ Hpl) as [Hs0 Hs1]. rewrite (proj2 (Z.ltb_ge slot 0)) by done.
  destruct Hc as [C1 (p & e & C2) C3 C4 (h1 & simg & Fl & Wk & Dd & Dp & L1 & Sp1 & Him) C6 C7]. set (d := b * 4096) in *.
  assert (Ed : dir ((tasks k2).[slot]) = d) by (by rewrite C2). set (n := Z.to_nat (e_phnum (header_of c))).
  destruct (holds_bytes _ _ _ Hf) as [Hcb Hcz]. pose proof (phnum_bound c Hcb (pf_size _ _ Hp)) as Hph.
  destruct (load_segments_run c (header_of c) (khw k2) fd slot env k2 n 1 (pf_program _ _ Hp) 0 [] (fun _ => None) [] f2 (khw k2)) as (ps & f3 & h3 & E3 & Hf3 & Hl3 & L2 & Hfr3).
  { rewrite Ed. apply (sp_dir _ _ (ld_space _ _ _ _ _ L1)). } { apply loaded_nil. rewrite Ed. apply L1. } { done. } { done. } { done. } { unfold n. lia. }
  { exact Hfr2. } { change (zlen []) with 0. unfold pages_of in Hcnt. fold n in Hcnt. lia. }
  rewrite set_hw_same, Ed in *. cbn [app] in E3, L2. pose proof (zlen_nonneg c) as Hzc. fold n. rewrite u32_small by lia.
  rewrite (andthen_run _ _ _ _ _ E3). cbv beta iota. rewrite Z.eqb_refl. cbn [negb].
  destruct (close_law f3 fd c Hf3) as (r & f4 & E4). rewrite (andthen_run _ _ _ _ _ (in_files_run _ f3 (set_hw h3 k2) env _ _ E4)).
  set (top := kstack_top slot) in *. set (k3 := set_hw h3 k2).
  assert (Hpi : forall a, image_of c a <> None -> ~ stack_base <= a < USER_STACK_TOP) by (intros a Ha; by apply (pf_apart _ _ Hp)).
  set (X := protected (khw k) b top). assert (HX1 : forall x, X x -> dir_ok h1 d x) by (intros x; by apply protected_dirs).
  destruct (stack_window X h1 (khw k2) h3 d simg (image_of c) fs ps ltac:(by left) HX1 L1 L2 Him Hpi) as [W Wfs]. set (fr := frame_at h3 d) in *.
  pose proof (kstack_kept (khw k) h1 (khw k2) h3 b fs ps simg (image_of c) top Fl L1 L2 Dd Hcl Hta Htr Htu) as Hko.
  assert (Et3 : (tasks k3).[slot] = (tasks k2).[slot]) by done.
  assert (Hk3 : slot_ok k3 slot) by (apply slot_ok_hw; [done|rewrite Ed; apply L2]).
  assert (Eg : kstack_of ks slot = top - 12288) by (unfold top, kstack_top, TASK_GUARD_SIZE, TASK_KSTACK_SIZE; lia). unfold USER_HEAP_BASE in Htr.
  assert (Hzf : zlen fs + zlen ps <= TASK_MAX_OWNED_FRAMES) by (unfold zlen; rewrite C4, Hl3; unfold pages_of in Hcnt; fold n in Hcnt; lia).
  pose proof (finish_run X k3 slot fs ps f4 env (header_of c) argv argc stack_base fr 0) as Hfin. cbv zeta in Hfin. rewrite Et3, Ed, C2 in Hfin. cbn [kernel_stack_top owned_frames] in Hfin.
  destruct Hfin as (sp & h5 & k' & E5 & O5 & B5 & Hsp & S5); try done; [by right|rewrite Eg; unfold is_u32; lia|].
  exists f4, k', d, sp. split; [exact E5|].
  assert (Hlt : 0 <= slot < zlen (tasks k3)) by (destruct Hk3; lia).
  destruct S5 as [T1 T2 _ _ T5 T6 T7 _ T8]. cbn [tasks set_hw set_tasks khw next_pid] in T1, T5, T6, T7, T8. rewrite owning_at, Et3, C2 in T1, T5, T6, T7, T8 by done.
  cbn [dir set_owned] in T5, T6, T7, T8. change (kstack_of ks slot + TASK_GUARD_SIZE + TASK_KSTACK_SIZE) with top in *.
  destruct (stages_stack (khw k) h1 (khw k2) h3 h5 (khw k') b fs ps simg (image_of c) top Fl L1 L2 Hta Htr Htu fr O5 Wfs W T7 (kstack_of ks slot) T5 sp argc argv env) as [K1 K2];
    [rewrite Eg; unfold USER_HEAP_BASE; lia|unfold stack_base, TASK_STACK_SIZE, USER_STACK_SIZE; lia|lia|lia|exact B5|].
  constructor.
  - rewrite T1, aget_aset_eq by (unfold owning; by rewrite zlen_aset). change (next_pid k3) with (next_pid k2). rewrite C7. eexists. reflexivity.
  - exact T2.
  - intros va x Hva Hx. eapply (stages_image (khw k) h1 (khw k2) h3 h5 (khw k')); eauto. apply (pf_apart _ _ Hp). by rewrite Hx.
  - by exists fr.
  - intros va x Hva. apply user_byte_opened; [|done]. intros i Hi. rewrite T8, (ow_pde _ _ _ _ _ _ _ O5) by (done || by left). by rewrite (ld_flags _ _ _ _ _ L2), (ld_flags _ _ _ _ _ L1), Dp.
  - intros i Hi Hn. rewrite T1, aget_aset_ne by lia. unfold owning. rewrite aget_aset_ne by lia. by apply C3.
  - intros x va Hx Hva. eapply (stages_spaces (khw k) h1 (khw k2) h3 h5 (khw k')); eauto.
  - intros a Ha Hu Hk'. eapply (stages_mem (khw k) h1 (khw k2) h3 h5 (khw k')); eauto.
Qed.

(** A file that is not a program is turned down before anything is made:
    one that cannot be opened, one too short for a header, one whose header is
    not that of a 32-bit x86 executable with program headers of the right
    size. The code names the reason, and no task, frame or page table differs. *)
Theorem elf_exec_rejects f f1 k env c fd path argv argc priority : file_open path Vfs.O_RDONLY f = (Some fd, f1) ->
  fd < 0 \/ holds_file f1 fd c /\ (zlen c < EHDR_SIZE \/ check_header (header_of c) <> ELF_OK) ->
  exists f', elf_exec_argv ks path argv argc priority (mk_est f k env) =
    (Some (if fd <? 0 then ELF_E_OPEN else if zlen c <? EHDR_SIZE then ELF_E_READ else check_header (header_of c)), mk_est f' k env).
Proof.
  intros Eo Hbad. unfold elf_exec_argv. rewrite (andthen_run _ _ _ _ _ (in_files_run _ f k env _ _ Eo)).
  destruct (Z.ltb_spec fd 0); [by exists f1|]. destruct Hbad as [|[Hf Hbad]]; [lia|].
  destruct (pread_law f1 fd c 0 EHDR_SIZE Hf ltac:(lia) ltac:(unfold EHDR_SIZE; lia) ltac:(unfold EHDR_SIZE; lia)) as (f2 & E2 & Hf2).
  rewrite (andthen_run _ _ _ _ _ (in_files_run _ f1 k env _ _ E2)). cbv beta iota. destruct (close_law f2 fd c Hf2) as (r & f3 & E3).
  assert (Hcl : forall x, close_with fd x (mk_est f2 k env) = (Some x, mk_est f3 k env)).
  { intros x. unfold close_with. by rewrite (andthen_run _ _ _ _ _ (in_files_run _ f2 k env _ _ E3)). }
  assert (Hz : zlen (slice c 0 EHDR_SIZE) = Z.min EHDR_SIZE (zlen c)).
  { unfold zlen, slice, EHDR_SIZE. rewrite length_take, length_drop. lia. }
  exists f3. rewrite Hz. destruct (Z.ltb_spec (zlen c) EHDR_SIZE) as [Hs|Hs].
  - rewrite (proj2 (Z.eqb_neq _ _)) by lia. apply Hcl.
  - replace (Z.min EHDR_SIZE (zlen c)) with EHDR_SIZE by lia. rewrite Z.eqb_refl. cbn [negb]. fold (header_of c).
    destruct Hbad as [|Hh]; [lia|]. rewrite (proj2 (Z.eqb_neq _ _)) by done. apply Hcl.
Qed.
End exec.
End ElfProps.

(** A program started and a file turned down on the machine of [TaskDemo]:
    the witnesses of [ElfProps]. *)
Import Pmm CString Env EnvProps Mem Paging PagingSpec Task TaskSpace TaskPages TaskCreate TaskDemo Elf ElfSpec ElfArgs ElfProps.

Module ElfDemo.

(** A file layer with one file, which every descriptor from 0 on reads. *)
#[export] Instance one_file : FileOps (list Z) := {|
  file_open := fun _ _ => mret (Some 3);
  file_pread := fun _ off n => c ← gets id; mret (Some (zlen (slice c off n), slice c off n));
  file_fsize := fun _ => c ← gets id; mret (Some (zlen c));
  file_close := fun _ => mret (Some 0);
|}.
#[export] Instance one_file_laws : FileLaws (list Z).
Proof.
  refine {| holds_file := fun s _ c => s = c /\ is_bytes c /\ zlen c < 2 ^ 31 |}.
  - intros s fd c. tauto.
  - intros s fd c off n (-> & ?) ???. by eexists.
  - intros s fd c (-> & ?). by eexists.
  - intros s fd c _. by exists 0, s.
Defined.

(** A program of two bytes, [jmp .], in a segment of 8192 bytes at 0x400000
    that starts with the file's headers. *)
Definition program : list Z :=
  [0x7F; 69; 76; 70; 1; 1; 1; 0; 0; 0; 0; 0; 0; 0; 0; 0] ++ le_put 2 2 ++ le_put 2 3 ++ le_put 4 1 ++ le_put 4 0x400054 ++ le_put 4 52 ++
  le_put 4 0 ++ le_put 4 0 ++ le_put 2 52 ++ le_put 2 32 ++ le_put 2 1 ++ le_put 2 0 ++ le_put 2 0 ++ le_put 2 0 ++
  le_put 4 1 ++ le_put 4 0 ++ le_put 4 0x400000 ++ le_put 4 0x400000 ++ le_put 4 86 ++ le_put 4 8192 ++ le_put 4 5 ++ le_put 4 4096 ++ [0xEB; 0xFE].
Definition kstacks : Z := 64 * 4096.
Definition free_frames_list : list Z := seqZ 300 20.
Lemma frames_range : Forall (fun b => 256 <= b < 1024) free_frames_list.
Proof. vdec. Qed.
Definition machine : kst pmm := demo free_frames_list.

Lemma program_bytes : is_bytes program /\ zlen program < 2 ^ 31.
Proof. split; [vdec|reflexivity]. Qed.
Lemma image_is : image_of program = on_range 0x400000 0x402000 (seg_byte program (phdr_decode (slice program 52 32))) (fun _ => None).
Proof. reflexivity. Qed.
Lemma program_runs : program_file kstacks 2 program.
Proof.
  constructor; [vm_compute; congruence|reflexivity| |].
  - constructor; [vm_compute; congruence|vm_compute; congruence| |]; change (e_phnum (header_of program)) with 1; intros i Hi; replace i with 0 by lia.
    + vm_compute. congruence.
    + intros _. left. constructor; vm_compute; repeat split; congruence.
  - intros a Ha. assert (Hr : 0x400000 <= a < 0x402000).
    { destruct (decide (0x400000 <= a < 0x402000)) as [|Hn]; [done|]. exfalso. apply Ha. rewrite image_is. unfold on_range. by rewrite decide_False. }
    change (kstack_of kstacks 2 / 4096) with 70. unfold stack_base, USER_STACK_TOP, TASK_STACK_SIZE, USER_STACK_SIZE. split; [lia|zdm].
Qed.

Lemma machine_kernel : kernel_space (khw machine).
Proof.
  destruct (demo_space free_frames_list frames_range) as [S1 S2 S3 S4 S5 S6]. constructor; [exact S1|exact (demo_dir free_frames_list frames_range 16 page_directory ltac:(lia) kernel_words ltac:(discriminate))| |].
  { exact S5. }
  intros i Hi. unfold pde. cbn [ram khw machine demo demo_hw]. rewrite kernel_words by done. reflexivity.
Qed.
Definition machine' : kst pmm := set_num 3 machine.
Lemma place_behind (k : kst pmm) : default (-1) (first_some (fun i => if bool_decide (state ((tasks k).[i]) = TASK_DEAD) then Some i else None) (rounds 0 (num_tasks k)) 0) = -1 ->
  0 <= num_tasks k < MAX_TASKS -> num_tasks k < zlen (tasks k) -> place k (num_tasks k) (set_num (num_tasks k + 1) k).
Proof.
  intros Hn H1 H2. constructor; cbn [num_tasks set_num tasks khw current_task]; [|lia|lia|done|done|done|lia].
  unfold take_slot. rewrite (bind_run _ _ _ _ _ (find_dead_run k)), Hn. cbn [Z.leb Z.compare]. rewrite (bind_run (gets id) _ k k k) by done.
  rewrite (proj2 (Z.leb_gt _ _)) by lia. done.
Qed.
Lemma machine_place : place machine 2 machine'.
Proof. exact (place_behind machine ltac:(vdec) ltac:(vdec) ltac:(vdec)). Qed.

Lemma machine_clear : clear_of (khw machine) (kstack_top kstacks 2 - 4096) page_directory.
Proof.
  split; [apply machine_kernel|]. split; [|vm_compute; congruence]. exact (demo_dir free_frames_list frames_range 16 (72 * 4096) ltac:(lia) kernel_words ltac:(discriminate)).
Qed.
Lemma elf_exec_runs_witness : exists f' k' d sp,
  elf_exec_argv kstacks [97] [[97]; [98; 99]] 2 5 (mk_est program machine env_boot) = (Some ELF_OK, mk_est f' k' env_boot) /\
  running kstacks machine machine' 2 program [[97]; [98; 99]] 2 5 env_boot k' d sp.
Proof.
  apply (elf_exec_runs kstacks program program machine machine' env_boot program 3 2 [97] [[97]; [98; 99]] 2 5);
    [reflexivity|lia|exact (conj eq_refl program_bytes)|exact program_runs|exact machine_place|exact machine_kernel|exact machine_clear|reflexivity
    |vm_compute; split; congruence|apply (demo_taken free_frames_list frames_range 72); lia|vm_compute; congruence| |vm_compute; split; congruence
    |vm_compute; split; congruence| | |vm_compute; congruence].
  - apply (demo_has_free free_frames_list frames_range); [vdec|vm_compute; lia].
  - intros i Hi. assert (i = 0 \/ i = 1) as [->| ->] by lia; vdec.
  - change (env_count env_boot) with 4. intros i Hi. assert (i = 0 \/ i = 1 \/ i = 2 \/ i = 3) as [->|[->|[->| ->]]] by lia; vdec.
Defined.
Definition no_program : list Z := 0 :: drop 1 program.
Lemma elf_exec_rejects_witness : exists f',
  elf_exec_argv kstacks [97] [[97]] 1 5 (mk_est no_program machine env_boot) = (Some ELF_E_MAGIC, mk_est f' machine env_boot).
Proof.
  apply (elf_exec_rejects kstacks no_program no_program machine env_boot no_program 3 [97] [[97]] 1 5); [reflexivity|].
  right. split; [split; [reflexivity|split; [vdec|reflexivity]]|right; vm_compute; congruence].
Defined.
End ElfDemo.
