(* ===== verification/Clock.v ===== *)
(** The real-time clock (src/rtc.c) and the time in seconds that the system
    call reports (rtc_to_epoch of src/syscall.c), against the calendar.

    The clock is a device behind two ports: the class [Cmos] has its registers,
    each read a step of the device. *)
From S2P Require Import Prelude.
From stdpp Require Import base list numbers.
From Stdlib Require Import ZArith Lia.
Open Scope Z_scope.

Class Cmos (D : Type) := {
  (** [outb(0x70, reg); inb(0x71)] *)
  cmos_read : Z -> D -> Z * D;
}.
(** [shows d reg]: the clock shows the values [reg] for as long as it is read,
    and no update is in progress. *)
Class CmosLaws (D : Type) `{Cmos D} := {
  shows : D -> (Z -> Z) -> Prop;
  shows_bytes : forall d reg r, shows d reg -> is_u8 (reg r);
  shows_quiet : forall d reg, shows d reg -> Z.land (reg 10) 0x80 = 0;
  shows_read : forall d reg r, shows d reg -> exists d', cmos_read r d = (reg r, d') /\ shows d' reg;
}.

Module Clock.

(** ** The code *)

Section ports.
Context {D : Type} `{Cmos D}.

Definition rtc_read (reg : Z) : st D Z := cmos_read reg.
Definition rtc_updating : st D bool := v ← cmos_read 0x0A; mret (negb (Z.land v 0x80 =? 0)).
(** [while (rtc_updating() && --timeout);] with [timeout = n]. *)
Fixpoint wait_update (n : nat) : st D unit :=
  match n with
  | O => mret tt
  | S n => u ← rtc_updating; if u : bool then wait_update n else mret tt
  end.

End ports.

Definition bcd_to_bin (val : Z) : Z := Z.land val 0x0F + Z.shiftr val 4 * 10.
Record datetime := mk_dt { year : Z; month : Z; day : Z; hour : Z; min : Z; sec : Z }.
(** The registers as read, [hour] with the timezone added; [statusB]: format. *)
Definition in_binary (statusB : Z) (t : datetime) : datetime :=
  if Z.land statusB 0x04 =? 0
  then mk_dt (bcd_to_bin (year t)) (bcd_to_bin (month t)) (bcd_to_bin (day t)) (bcd_to_bin (Z.land (hour t) 0x7F)) (bcd_to_bin (min t)) (bcd_to_bin (sec t))
  else t.
Definition in_24h (statusB h : Z) : Z :=
  let h := if (Z.land statusB 0x02 =? 0) && negb (Z.land h 0x80 =? 0) then (Z.land h 0x7F + 12) mod 24 else h in
  if 24 <=? h then h - 24 else h.
Definition rtc_get_datetime {D} `{Cmos D} (timezone : Z) : st D datetime :=
  wait_update (Z.to_nat 100000);;
  s ← rtc_read 0x00; mi ← rtc_read 0x02; h ← rtc_read 0x04;
  d ← rtc_read 0x07; mo ← rtc_read 0x08; y ← rtc_read 0x09;
  statusB ← rtc_read 0x0B;
  let t := in_binary statusB (mk_dt y mo d (h + timezone) mi s) in
  mret (mk_dt (year t + 2000) (month t) (day t) (in_24h statusB (hour t)) (min t) (sec t)).

(** The days since 1970-01-01, computed from the years that begin in March. *)
Definition epoch_days (y m d : Z) : Z :=
  let y := (if y <? 100 then y + 2000 else y) - (if m <=? 2 then 1 else 0) in
  let era := Z.quot (if 0 <=? y then y else y - 399) 400 in
  let yoe := u32 (y - era * 400) in
  let doy := u32 (u32 (u32 (153 * u32 (m + (if 2 <? m then -3 else 9)) + 2) / 5 + u32 d) - 1) in
  let doe := u32 (u32 (u32 (yoe * 365 + yoe / 4) - yoe / 100) + doy) in
  era * 146097 + doe - 719468.
Definition epoch_of (t : datetime) : Z :=
  let epoch := epoch_days (year t) (month t) (day t) * 86400 + hour t * 3600 + min t * 60 + sec t in
  u32 (if epoch <? 0 then 0 else epoch).
Definition rtc_to_epoch {D} `{Cmos D} (timezone : Z) : st D Z := t ← rtc_get_datetime timezone; mret (epoch_of t).

(** ** The calendar *)

Definition leap (y : Z) : bool := (y mod 4 =? 0) && negb ((y mod 100 =? 0) && negb (y mod 400 =? 0)).
Definition year_days (y : Z) : Z := if leap y then 366 else 365.
Definition month_days (y m : Z) : Z :=
  if m =? 2 then (if leap y then 29 else 28) else if (m =? 4) || (m =? 6) || (m =? 9) || (m =? 11) then 30 else 31.
(** [f 0 + ... + f (n-1)] *)
Fixpoint sum (n : nat) (f : Z -> Z) : Z := match n with O => 0 | S n => sum n f + f (Z.of_nat n) end.
(** The days from 1970-01-01 to a date, year by year and month by month. *)
Definition calendar_days (y m d : Z) : Z :=
  sum (Z.to_nat (y - 1970)) (fun i => year_days (1970 + i)) + sum (Z.to_nat (m - 1)) (fun i => month_days y (1 + i)) + (d - 1).
Definition valid_date (y m d : Z) : Prop := 1970 <= y /\ 1 <= m <= 12 /\ 1 <= d <= month_days y m.

Lemma leap_spec y : leap y = true <-> y mod 4 = 0 /\ (y mod 100 <> 0 \/ y mod 400 = 0).
Proof. unfold leap. rewrite andb_true_iff, negb_true_iff, andb_false_iff, negb_false_iff, !Z.eqb_eq, Z.eqb_neq. tauto. Qed.
Lemma leap_days y : year_days y = 365 + (y / 4 - (y - 1) / 4) - (y / 100 - (y - 1) / 100) + (y / 400 - (y - 1) / 400).
Proof.
  unfold year_days. destruct (leap y) eqn:E; [apply leap_spec in E|assert (~ (y mod 4 = 0 /\ (y mod 100 <> 0 \/ y mod 400 = 0))) by (rewrite <- leap_spec; congruence)]; zdm.
Qed.
Lemma years_sum n : sum n (fun i => year_days (1970 + i)) =
  let y := 1969 + Z.of_nat n in 365 * Z.of_nat n + y / 4 - y / 100 + y / 400 - 477.
Proof.
  induction n as [|n IH]; cbn [sum]; [reflexivity|]. rewrite IH, leap_days. cbv zeta.
  replace (1970 + Z.of_nat n) with (1969 + Z.of_nat (S n)) by lia. replace (1969 + Z.of_nat (S n) - 1) with (1969 + Z.of_nat n) by lia. lia.
Qed.
(** Days up to the years that begin in March, and within one of them. *)
Lemma march_years y doy : 0 <= y < 100000 -> 0 <= doy < 400 ->
  let era := Z.quot (if 0 <=? y then y else y - 399) 400 in let yoe := u32 (y - era * 400) in
  era * 146097 + u32 (u32 (u32 (yoe * 365 + yoe / 4) - yoe / 100) + doy) = 365 * y + y / 4 - y / 100 + y / 400 + doy.
Proof.
  intros Hy Hd era yoe. assert (Ee : era = y / 400) by (unfold era; rewrite (proj2 (Z.leb_le 0 y)) by lia; apply Z.quot_div_nonneg; lia).
  assert (Ey : yoe = y mod 400) by (unfold yoe; rewrite Ee, u32_small by zdm; zdm). rewrite Ee, Ey. clearbody era yoe. clear Ee Ey era yoe.
  assert (Hr : 0 <= y mod 400 < 400) by zdm. assert (E4 : y / 4 = 100 * (y / 400) + y mod 400 / 4) by zdm. assert (E100 : y / 100 = 4 * (y / 400) + y mod 400 / 100) by zdm.
  assert (H4 : 0 <= y mod 400 / 4 < 100) by zdm. assert (H100 : 0 <= y mod 400 / 100 < 4 /\ y mod 400 / 100 <= y mod 400) by zdm.
  rewrite E4, E100. set (q := y mod 400 / 4) in *. set (c := y mod 400 / 100) in *. set (r := y mod 400) in *.
  rewrite (u32_small (r * 365 + q)) by lia. rewrite (u32_small (r * 365 + q - c)) by lia. rewrite u32_small by lia. unfold q, c, r in *. zdm.
Qed.
Definition march_day (m d : Z) : Z := u32 (u32 (u32 (153 * u32 (m + (if 2 <? m then -3 else 9)) + 2) / 5 + u32 d) - 1).
Lemma months_cases (P : Z -> Prop) : Forall P (seqZ 1 12) -> forall m, 1 <= m <= 12 -> P m.
Proof. rewrite list.Forall_forall. intros HP m Hm. apply HP, elem_of_seqZ. lia. Qed.
Definition leap_day (y : Z) : Z := if leap y then 1 else 0.
(** Replaces a closed term by its value. *)
Ltac ground x := let v := eval vm_compute in x in change x with v.
Lemma march_day_table y m d : 1 <= m <= 12 -> 1 <= d <= 31 ->
  march_day m d = sum (Z.to_nat (m - 1)) (fun i => month_days y (1 + i)) + (d - 1) + (if m <=? 2 then 306 else - 59 - leap_day y) /\ 0 <= march_day m d < 400.
Proof.
  intros Hm Hd. revert m Hm. apply months_cases. change (seqZ 1 12) with [1; 2; 3; 4; 5; 6; 7; 8; 9; 10; 11; 12].
  unfold march_day, month_days, leap_day. rewrite (u32_small d) by lia.
  repeat apply list.Forall_cons_2; [..|apply list.Forall_nil_2];
    match goal with |- context [u32 (?x / 5 + _)] => ground (x / 5) end; match goal with |- context [Z.to_nat ?x] => ground (Z.to_nat x) end;
    rewrite (u32_small (_ + d)), u32_small by (rewrite ?u32_small; lia); cbn [sum];
    repeat match goal with |- context [?a =? ?b] => ground (a =? b) end; destruct (leap y); cbn; lia.
Qed.
Lemma epoch_days_calendar y m d : valid_date y m d -> y < 100000 -> epoch_days y m d = calendar_days y m d.
Proof.
  intros (Hy & Hm & Hd) Hb. unfold calendar_days. rewrite years_sum. rewrite Z2Nat.id by lia. cbv zeta.
  assert (Hd31 : d <= 31) by (unfold month_days in Hd; repeat case_match; lia).
  destruct (march_day_table y m d Hm ltac:(lia)) as [Et Hr].
  pose proof (leap_days y) as El. unfold year_days in El. unfold leap_day in Et. unfold epoch_days. rewrite (proj2 (Z.ltb_ge y 100)) by lia. fold (march_day m d).
  destruct (Z.leb_spec m 2); rewrite march_years by lia; rewrite Et; replace (1969 + (y - 1970)) with (y - 1) by lia; [lia|].
  rewrite Z.sub_0_r. destruct (leap y); lia.
Qed.

Lemma sum_nonneg n f : (forall i, 0 <= f i) -> 0 <= sum n f.
Proof. intros Hf. induction n as [|n IH]; cbn [sum]; [done|]. specialize (Hf (Z.of_nat n)). lia. Qed.
Lemma calendar_bound y m d : valid_date y m d -> y < 2100 -> 0 <= calendar_days y m d < 49000.
Proof.
  intros (Hy & Hm & Hd) Hb. assert (Hd31 : d <= 31) by (unfold month_days in Hd; repeat case_match; lia).
  destruct (march_day_table y m d Hm ltac:(lia)) as [Et Hr]. unfold calendar_days. rewrite years_sum, Z2Nat.id by lia.
  pose proof (sum_nonneg (Z.to_nat (m - 1)) (fun i => month_days y (1 + i)) ltac:(intros i; unfold month_days; repeat case_match; lia)).
  assert (0 <= 365 * (y - 1970) + (1969 + (y - 1970)) / 4 - (1969 + (y - 1970)) / 100 + (1969 + (y - 1970)) / 400 - 477 < 48000) by (clear - Hy Hb; zdm).
  cbv zeta. unfold leap_day in Et. destruct (m <=? 2), (leap y); lia.
Qed.

(** ** What the registers mean *)

(** A value in a register: as it is, or as two decimal digits. *)
Definition encode (binary : bool) (v : Z) : Z := if binary then v else v / 10 * 16 + v mod 10.
Definition is_binary (reg : Z -> Z) : bool := negb (Z.land (reg 11) 0x04 =? 0).
(** The clock counts 24 hours and shows [t], a time of the years 2000-2099. *)
Record showing (reg : Z -> Z) (t : datetime) : Prop := {
  sh_24h : Z.land (reg 11) 0x02 <> 0; sh_century : 2000 <= year t < 2100; sh_date : valid_date (year t) (month t) (day t);
  sh_hour : 0 <= hour t < 24; sh_min : 0 <= min t < 60; sh_sec : 0 <= sec t < 60;
  sh_regs : reg 9 = encode (is_binary reg) (year t - 2000) /\ reg 8 = encode (is_binary reg) (month t) /\ reg 7 = encode (is_binary reg) (day t) /\
    reg 4 = encode (is_binary reg) (hour t) /\ reg 2 = encode (is_binary reg) (min t) /\ reg 0 = encode (is_binary reg) (sec t);
}.

Lemma below_cases (P : Z -> bool) n v : forallb P (seqZ 0 n) = true -> 0 <= v < n -> P v = true.
Proof. rewrite forallb_forall. intros HP Hv. apply HP. apply list_elem_of_In, elem_of_seqZ. lia. Qed.
Lemma bcd_decode v : 0 <= v < 100 -> bcd_to_bin (encode false v) = v.
Proof. intros Hv. apply Z.eqb_eq. by apply (below_cases (fun v => bcd_to_bin (encode false v) =? v) 100). Qed.
(** A timezone added to the decimal digits: right as long as the last digit
    stays below 16, six hours short from there. *)
Lemma bcd_timezone h tz : 0 <= h < 24 -> 0 <= tz <= 12 ->
  bcd_to_bin (Z.land (encode false h + tz) 0x7F) = h + tz - (if 16 <=? h mod 10 + tz then 6 else 0).
Proof.
  intros Hh Ht. apply Z.eqb_eq. apply (below_cases (fun tz => bcd_to_bin (Z.land (encode false h + tz) 0x7F) =? h + tz - (if 16 <=? h mod 10 + tz then 6 else 0)) 13); [|lia].
  by apply (below_cases (fun h => forallb (fun tz => bcd_to_bin (Z.land (encode false h + tz) 0x7F) =? h + tz - (if 16 <=? h mod 10 + tz then 6 else 0)) (seqZ 0 13)) 24).
Qed.

Section device.
Context {D : Type} `{CmosLaws D}.

Lemma wait_quiet n d reg : shows d reg -> exists d', wait_update n d = (tt, d') /\ shows d' reg.
Proof.
  intros Hd. destruct n as [|n]; [by exists d|]. cbn [wait_update]. destruct (shows_read d reg 0x0A Hd) as (d1 & E1 & K1).
  exists d1. split; [|done]. unfold rtc_updating. munfold. rewrite E1. by rewrite (shows_quiet d reg Hd).
Qed.
(** With the clock quiet the result is a function of its registers. *)
Definition decoded (reg : Z -> Z) (timezone : Z) : datetime :=
  let t := in_binary (reg 11) (mk_dt (reg 9) (reg 8) (reg 7) (reg 4 + timezone) (reg 2) (reg 0)) in
  mk_dt (year t + 2000) (month t) (day t) (in_24h (reg 11) (hour t)) (min t) (sec t).
Lemma get_datetime_run d reg tz : shows d reg -> exists d', rtc_get_datetime tz d = (decoded reg tz, d') /\ shows d' reg.
Proof.
  intros Hd. unfold rtc_get_datetime, rtc_read. destruct (wait_quiet (Z.to_nat 100000) d reg Hd) as (d0 & E0 & K0). rewrite (bind_run _ _ _ _ _ E0). clear E0.
  destruct (shows_read d0 reg 0 K0) as (d1 & E1 & K1), (shows_read d1 reg 2 K1) as (d2 & E2 & K2), (shows_read d2 reg 4 K2) as (d3 & E3 & K3),
    (shows_read d3 reg 7 K3) as (d4 & E4 & K4), (shows_read d4 reg 8 K4) as (d5 & E5 & K5), (shows_read d5 reg 9 K5) as (d6 & E6 & K6), (shows_read d6 reg 11 K6) as (d7 & E7 & K7).
  rewrite (bind_run _ _ _ _ _ E1), (bind_run _ _ _ _ _ E2), (bind_run _ _ _ _ _ E3), (bind_run _ _ _ _ _ E4), (bind_run _ _ _ _ _ E5), (bind_run _ _ _ _ _ E6), (bind_run _ _ _ _ _ E7).
  by exists d7.
Qed.

Lemma decoded_showing reg t tz : showing reg t -> 0 <= tz <= 12 -> hour t + tz < 24 -> is_binary reg = true \/ hour t mod 10 + tz < 16 ->
  decoded reg tz = mk_dt (year t) (month t) (day t) (hour t + tz) (min t) (sec t).
Proof.
  intros [S1 S2 (D1 & D2 & D3) S4 S5 S6 (R9 & R8 & R7 & R4 & R2 & R0)] Htz Hh Hb. unfold decoded.
  assert (Hd31 : day t <= 31) by (unfold month_days in D3; repeat case_match; lia).
  assert (Ei : in_24h (reg 11) (hour t + tz) = hour t + tz).
  { unfold in_24h. rewrite (proj2 (Z.eqb_neq _ 0) S1). cbn [andb]. by rewrite (proj2 (Z.leb_gt 24 _)) by lia. }
  assert (E : in_binary (reg 11) (mk_dt (reg 9) (reg 8) (reg 7) (reg 4 + tz) (reg 2) (reg 0)) = mk_dt (year t - 2000) (month t) (day t) (hour t + tz) (min t) (sec t)).
  { unfold in_binary. rewrite R9, R8, R7, R4, R2, R0. cbn [year month day hour min sec]. unfold is_binary in *. destruct (Z.land (reg 11) 4 =? 0); cbn [negb] in *; [|done].
    rewrite bcd_timezone, !bcd_decode by lia. destruct Hb as [|Hb]; [done|]. rewrite (proj2 (Z.leb_gt 16 _)) by lia. by rewrite Z.sub_0_r. }
  rewrite E. cbn [year month day hour min sec]. rewrite Ei. f_equal. lia.
Qed.

(** C38 - The system's time is the calendar's: when the clock is quiet and counts
    24 hours, in binary or in decimal digits, [rtc_to_epoch] gives the seconds
    from 1970-01-01 00:00 to the date it shows, counted year by year and month
    by month, with the timezone's hours added, if these stay within the day
    and, in decimal digits, within what the last digit can carry. *)
Theorem rtc_epoch_calendar d reg t tz : shows d reg -> showing reg t -> 0 <= tz <= 12 -> hour t + tz < 24 -> is_binary reg = true \/ hour t mod 10 + tz < 16 ->
  exists d', rtc_to_epoch tz d = (calendar_days (year t) (month t) (day t) * 86400 + (hour t + tz) * 3600 + min t * 60 + sec t, d') /\ shows d' reg.
Proof.
  intros Hd Ht Htz Hh Hb. destruct (get_datetime_run d reg tz Hd) as (d' & E & Hd'). exists d'. split; [|done].
  unfold rtc_to_epoch. rewrite (bind_run _ _ _ _ _ E), (decoded_showing reg t tz) by done. munfold. f_equal. unfold epoch_of. cbn [year month day hour min sec].
  destruct Ht as [_ S2 S3 S4 S5 S6 _]. rewrite epoch_days_calendar by (done || lia).
  pose proof (calendar_bound _ _ _ S3 (proj2 S2)) as Hr.
  rewrite (proj2 (Z.ltb_ge _ 0)) by lia. rewrite u32_small by lia. lia.
Qed.
(** The same clock where the last digit of the hour carries: six hours are lost. *)
Lemma rtc_timezone_digits d reg t tz : shows d reg -> showing reg t -> is_binary reg = false -> 0 <= tz <= 12 -> 16 <= hour t mod 10 + tz -> hour t + tz < 30 ->
  exists d', rtc_get_datetime tz d = (mk_dt (year t) (month t) (day t) (hour t + tz - 6) (min t) (sec t), d').
Proof.
  intros Hd [S1 S2 (D1 & D2 & D3) S4 S5 S6 (R9 & R8 & R7 & R4 & R2 & R0)] Hb Htz Hm Hh. destruct (get_datetime_run d reg tz Hd) as (d' & E & _). exists d'. rewrite E. f_equal.
  assert (Hd31 : day t <= 31) by (unfold month_days in D3; repeat case_match; lia).
  unfold decoded, in_binary. rewrite R9, R8, R7, R4, R2, R0, Hb. unfold is_binary in Hb. apply negb_false_iff in Hb. rewrite Hb. cbn [year month day hour min sec].
  rewrite bcd_timezone, !bcd_decode, (proj2 (Z.leb_le 16 _)) by lia. unfold in_24h. rewrite (proj2 (Z.eqb_neq _ 0) S1). cbn [andb].
  rewrite (proj2 (Z.leb_gt 24 _)) by lia. f_equal. lia.
Qed.
End device.

(** ** A clock that stands still *)

#[export] Instance still_clock : Cmos (Z -> Z) := {| cmos_read := fun r => gets (fun reg => reg r) |}.
#[export] Instance still_clock_laws : CmosLaws (Z -> Z).
Proof.
  refine {| shows := fun d reg => d = reg /\ (forall r, is_u8 (reg r)) /\ Z.land (reg 10) 0x80 = 0 |}.
  - intros d reg r (_ & Hb & _). apply Hb.
  - tauto.
  - intros d reg r (-> & Hr). by exists reg.
Defined.
(** 2024-02-29 08:59:58, in decimal digits. *)
Definition demo_regs (r : Z) : Z :=
  if r =? 0 then 0x58 else if r =? 2 then 0x59 else if r =? 4 then 0x08 else if r =? 7 then 0x29 else if r =? 8 then 0x02 else if r =? 9 then 0x24
  else if r =? 11 then 0x02 else 0.
Lemma demo_shows : shows demo_regs demo_regs.
Proof. split; [done|]. split; [|done]. intros r. unfold demo_regs. repeat case_match; split; done. Qed.
Lemma demo_showing : showing demo_regs (mk_dt 2024 2 29 8 59 58).
Proof. constructor; cbn; try (vm_compute; repeat split; congruence). Qed.
Lemma rtc_epoch_calendar_witness : exists d', rtc_to_epoch 2 demo_regs = (1709204398, d').
Proof.
  destruct (rtc_epoch_calendar demo_regs demo_regs (mk_dt 2024 2 29 8 59 58) 2 demo_shows demo_showing ltac:(lia) ltac:(vm_compute; congruence) ltac:(right; vm_compute; congruence)) as (d' & E & _).
  exists d'. rewrite E. vm_compute. reflexivity.
Defined.
End Clock.
