(* ===== verification/Focus.v ===== *)
(** Who gets the keys (src/focus.c): the table of key handlers and the stack of
    those that have the keyboard.

    A handler is whatever [H] names, with its context; to run it is the
    client's business, so [focus_dispatch] answers which one to call. *)
From S2P Require Import Prelude.
From stdpp Require Import base list numbers.
From Stdlib Require Import ZArith Lia.
Open Scope Z_scope.

Module Focus.

Definition MAX_TARGETS : Z := 16.
Definition MAX_STACK : Z := 8.

(** [None]: an entry not used. *)
Record target (H : Type) := mk_target { handler : H; ctx : Z; name : list Z }.
Arguments mk_target {H}. Arguments handler {H}. Arguments ctx {H}. Arguments name {H}.
Record focus (H : Type) := mk_focus { targets : list (option (target H)); target_count : Z; focus_stack : list Z; focus_depth : Z }.
Arguments mk_focus {H}. Arguments targets {H}. Arguments target_count {H}. Arguments focus_stack {H}. Arguments focus_depth {H}.

Section ops.
Context {H : Type}.
Implicit Types f : focus H.
Definition focus_boot : focus H := mk_focus (replicate 16 None) 0 (replicate 8 0) 0.
Definition set_depth (d : Z) f : focus H := mk_focus (targets f) (target_count f) (focus_stack f) d.

Definition focus_register (h : H) (ctx : Z) (name : list Z) : st (focus H) Z :=
  r ← floop (rounds 0 MAX_TARGETS) 0 (fun i => f ← gets id;
    match (targets f).[i] with
    | Some _ => mret None
    | None =>
        modify (fun f => mk_focus ((targets f).[i := Some (mk_target h ctx name)]) (if target_count f <=? i then i + 1 else target_count f) (focus_stack f) (focus_depth f));;
        mret (Some i)
    end);
  mret (default (-1) r).
Definition used (id : Z) f : bool := match (targets f).[id] with Some _ => true | None => false end.
Definition focus_push (id : Z) : st (focus H) unit :=
  f ← gets (fun f => f);
  if (id <? 0) || (target_count f <=? id) || negb (used id f) then mret tt else
  if focus_depth f <? MAX_STACK then
    modify (fun f => mk_focus (targets f) (target_count f) ((focus_stack f).[focus_depth f := id]) (focus_depth f + 1))
  else mret tt.
Definition focus_pop : st (focus H) unit := modify (fun f => if 0 <? focus_depth f then set_depth (focus_depth f - 1) f else f).
Definition focus_active f : bool := 0 <? focus_depth f.
(** The handler [focus_dispatch] calls and its context. *)
Definition focus_dispatch f : option (H * Z) :=
  if focus_depth f =? 0 then None else
  match (targets f).[(focus_stack f).[focus_depth f - 1]] with
  | Some t => Some (handler t, ctx t)
  | None => None
  end.
End ops.

(** ** The stack as a list, the table as a map *)

Section spec.
Context {H : Type}.
Implicit Types f : focus H.
(** The identifiers that have the keyboard, the latest first. *)
Definition holders f : list Z := rev (take (Z.to_nat (focus_depth f)) (focus_stack f)).
Record focus_ok f : Prop := {
  fo_targets : zlen (targets f) = MAX_TARGETS; fo_stack : zlen (focus_stack f) = MAX_STACK;
  fo_depth : 0 <= focus_depth f <= MAX_STACK; fo_count : 0 <= target_count f <= MAX_TARGETS;
  fo_known : forall i, 0 <= i < MAX_TARGETS -> used i f = true -> i < target_count f;
  fo_holders : Forall (fun id => 0 <= id < target_count f /\ used id f = true) (holders f);
}.
Inductive call := Register (h : H) (ctx : Z) (name : list Z) | Push (id : Z) | Pop.
Definition step (c : call) : st (focus H) Z :=
  match c with
  | Register h ctx name => focus_register h ctx name
  | Push id => focus_push id;; mret 0
  | Pop => focus_pop;; mret 0
  end.
(** What the calls mean for the list of holders. *)
Definition holders_after (c : call) f : list Z :=
  match c with
  | Register _ _ _ => holders f
  | Push id => if bool_decide (0 <= id < MAX_TARGETS /\ used id f = true /\ zlen (holders f) < MAX_STACK) then id :: holders f else holders f
  | Pop => tail (holders f)
  end.

Lemma zlen_holders f : focus_ok f -> zlen (holders f) = focus_depth f.
Proof. intros Hf. destruct (fo_depth f Hf), (fo_stack f Hf). unfold zlen, MAX_STACK, holders in *. rewrite length_rev, length_take. lia. Qed.
Lemma take_aset (l : list Z) i v : 0 <= i < zlen l -> take (Z.to_nat (i + 1)) (l.[i := v]) = take (Z.to_nat i) l ++ [v].
Proof.
  intros Hi. unfold zlen, aset in *. replace (Z.to_nat (i + 1)) with (S (Z.to_nat i)) by lia.
  rewrite (take_S_r _ _ v) by (rewrite list_lookup_insert_eq; [done|lia]). by rewrite take_insert_ge by lia.
Qed.
Lemma holders_top f : focus_ok f -> 0 < focus_depth f -> holders f = (focus_stack f).[focus_depth f - 1] :: rev (take (Z.to_nat (focus_depth f - 1)) (focus_stack f)).
Proof.
  intros Hf Hd. destruct (fo_depth f Hf), (fo_stack f Hf). unfold holders. replace (Z.to_nat (focus_depth f)) with (S (Z.to_nat (focus_depth f - 1))) by lia.
  rewrite (take_S_r _ _ ((focus_stack f).[focus_depth f - 1])).
  - by rewrite rev_unit.
  - unfold aget. apply list_lookup_lookup_total_lt. unfold zlen, MAX_STACK in *. lia.
Qed.

Lemma register_run h c n f : focus_ok f ->
  (exists i, 0 <= i < MAX_TARGETS /\ used i f = false /\ focus_register h c n f =
    (i, mk_focus ((targets f).[i := Some (mk_target h c n)]) (if target_count f <=? i then i + 1 else target_count f) (focus_stack f) (focus_depth f))) \/
  (focus_register h c n f = (-1, f) /\ forall i, 0 <= i < MAX_TARGETS -> used i f = true).
Proof.
  intros Hf. unfold focus_register, rounds, MAX_TARGETS in *.
  match goal with |- context [floop ?m ?i0 ?b] => destruct (floop_find (fun i => negb (used i f)) m i0 b f) as [(i & Hi & Hu & _ & E)|[Hall E]] end.
  - intros j _ Hj. apply negb_false_iff in Hj. revert Hj. unfold used. munfold. unfold id. by destruct ((targets f).[j]).
  - intros j _ Hj. apply negb_true_iff in Hj. revert Hj. unfold used. munfold. unfold id. by destruct ((targets f).[j]).
  - left. exists i. apply negb_true_iff in Hu. split; [lia|]. split; [done|]. unfold mbind at 1. unfold st_bind at 1. rewrite E. revert Hu. unfold used. munfold. unfold id. by destruct ((targets f).[i]).
  - right. rewrite (bind_run _ _ _ _ _ E). split; [done|]. intros i Hi. specialize (Hall i ltac:(lia)). by apply negb_false_iff in Hall.
Qed.

Lemma focus_keeps c f : focus_ok f -> focus_ok (step c f).2 /\ holders (step c f).2 = holders_after c f.
Proof.
  intros Hf. set (f' := (step c f).2). pose proof Hf as [F1 F2 F3 F4 F5 F6]. pose proof (zlen_holders f Hf) as Hz.
  destruct c as [h x n|id|]; cbn [step holders_after] in *.
    - unfold f'. destruct (register_run h x n f Hf) as [(i & Hi & Hu & E)|[E _]]; rewrite E; cbn [snd]; [|done]. split; [|done].
      assert (Hus : forall j, 0 <= j < MAX_TARGETS -> used j (mk_focus ((targets f).[i := Some (mk_target h x n)]) 0 [] 0) = bool_decide (i = j) || used j f).
      { intros j Hj. unfold used. cbn [targets]. rewrite aget_aset by lia. case_decide; [by rewrite bool_decide_true|by rewrite bool_decide_false]. }
      constructor; cbn [targets target_count focus_stack focus_depth]; [by rewrite zlen_aset|done|done|destruct (Z.leb_spec (target_count f) i); lia| |].
      + intros j Hj Hju. unfold used in *. cbn [targets] in *. specialize (Hus j Hj). rewrite Hus in Hju. apply orb_true_iff in Hju as [Hju|Hju].
        * apply bool_decide_eq_true in Hju. destruct (Z.leb_spec (target_count f) i); lia.
        * specialize (F5 j Hj Hju). destruct (Z.leb_spec (target_count f) i); lia.
      + eapply list.Forall_impl; [exact F6|]. cbn. intros j [Hj Hju]. split; [destruct (Z.leb_spec (target_count f) i); lia|].
        specialize (Hus j ltac:(lia)). unfold used in *. cbn [targets] in *. rewrite Hus, Hju. apply orb_true_r.
    - unfold f', focus_push. rewrite (bind_run (focus_push id) _ f tt (focus_push id f).2) by (by destruct (focus_push id f) as [[] ?]). cbn [snd].
      unfold focus_push. rewrite (bind_run (gets _) _ f f f) by done. case_bool_decide as Hb.
      + destruct Hb as (Hi & Hu & Hd). pose proof (F5 id Hi Hu). rewrite (proj2 (Z.ltb_ge id 0)), (proj2 (Z.leb_gt _ id)), Hu, (proj2 (Z.ltb_lt _ _)) by lia. cbn [orb negb].
        munfold. assert (Eh : holders (mk_focus (targets f) (target_count f) ((focus_stack f).[focus_depth f := id]) (focus_depth f + 1)) = id :: holders f).
        { unfold holders. cbn [focus_stack focus_depth]. rewrite take_aset by lia. by rewrite rev_unit. }
        split; [|exact Eh]. constructor; rewrite ?Eh; cbn [targets target_count focus_stack focus_depth]; [done|by rewrite zlen_aset|lia|done|done|]. apply list.Forall_cons. split; [split; [lia|exact Hu]|exact F6].
      + rewrite Hz in Hb. destruct (Z.ltb_spec id 0); [done|]. destruct (Z.leb_spec (target_count f) id); [done|]. destruct (used id f) eqn:Hu; [|done]. cbn [orb negb].
        rewrite (proj2 (Z.ltb_ge _ _)); [done|]. destruct (decide (focus_depth f < MAX_STACK)); [|lia]. exfalso. apply Hb. split; [lia|done].
    - unfold f'. rewrite (bind_run focus_pop _ f tt (focus_pop f).2) by done. cbn [snd focus_pop modify mret st_ret].
      destruct (Z.ltb_spec 0 (focus_depth f)).
      + pose proof (holders_top f Hf ltac:(lia)) as Et. assert (Eh : holders (set_depth (focus_depth f - 1) f) = tail (holders f)) by (by rewrite Et).
        split; [|exact Eh]. constructor; rewrite ?Eh; cbn [set_depth targets target_count focus_stack focus_depth]; [done|done|lia|done|done|].
        rewrite Et in F6 |- *. by inversion F6.
      + split; [done|]. destruct (holders f); [done|]. cbn in Hz. unfold zlen in Hz. cbn in Hz. lia.
Qed.

(** The keyboard goes by a stack: whatever is called, the table and the
    stack stay in order; registering a handler moves nobody, pushing a
    registered one puts it on top while there is room, popping takes the top
    off; and a key goes to the handler registered for the top. *)
Theorem focus_refines_stack c f : focus_ok f -> let f' := (step c f).2 in
  focus_ok f' /\ holders f' = holders_after c f /\ (focus_active f' = negb (bool_decide (holders f' = []))) /\
  focus_dispatch f' = match holders f' with [] => None | id :: _ => option_map (fun t => (handler t, ctx t)) ((targets f').[id]) end.
Proof.
  intros Hf f'. destruct (focus_keeps c f Hf) as [Hok Eh]. fold f' in Hok, Eh. split; [done|]. split; [done|]. clearbody f'. clear Eh. pose proof (zlen_holders f' Hok) as Hz'. destruct (fo_depth f' Hok) as [Hd0 _].
  unfold focus_active, focus_dispatch. destruct (Z.eqb_spec (focus_depth f') 0) as [E0|Hn].
  - rewrite E0. destruct (holders f') as [|x l] eqn:El; [done|]. unfold zlen in Hz'. cbn [length] in Hz'. lia.
  - rewrite (holders_top f' Hok) by lia. split; [by rewrite (proj2 (Z.ltb_lt _ _)) by lia|]. by destruct ((targets f').[_]).
Qed.
End spec.

Lemma focus_boot_ok {H} : focus_ok (@focus_boot H).
Proof.
  constructor; [done|done|vm_compute; split; congruence|vm_compute; split; congruence| |constructor].
  intros i Hi Hu. unfold used in Hu. cbn [targets focus_boot] in Hu. by rewrite aget_replicate in Hu by (unfold MAX_TARGETS in Hi; lia).
Qed.
(** Two handlers registered and the first one given the keyboard. *)
Definition demo : focus nat := (focus_register 7%nat 70 [] ((focus_register 5%nat 50 [] focus_boot).2)).2.
Lemma focus_demo_ok : focus_ok demo.
Proof.
  assert (Hr : forall h c n (f : focus nat), focus_ok f -> focus_ok (focus_register h c n f).2) by (intros h c n f Hf; apply (focus_keeps (Register h c n) f Hf)).
  apply Hr, Hr, focus_boot_ok.
Qed.
Lemma focus_refines_stack_witness : focus_dispatch ((step (Push 0) demo).2) = Some (5%nat, 50).
Proof. destruct (focus_refines_stack (Push 0) demo focus_demo_ok) as (_ & E & _ & Ed). rewrite Ed, E. vm_compute. reflexivity. Defined.
End Focus.
