(* ===== verification/Terminal.v ===== *)
(** The command line (src/terminal.c): the ring of characters for programs that
    read their input, the line editor with its history, and the split of a
    line into a command and its arguments.

    The screen is the class [Screen]: drawing and where the next character
    goes. The commands and the handlers of src/focus.c are run by functions
    that may change everything. *)
From S2P Require Import Prelude CString Focus.
From stdpp Require Import base list numbers.
From Stdlib Require Import ZArith Lia.
Import CString Focus.
Open Scope Z_scope.

Class Screen (S : Type) := {
  klog : list Z -> S -> S;
  klog_color : list Z -> Z -> S -> S;
  (** [vesa_draw_char_34(ch, x, y, 0xFFFFFF, 0x000000)] *)
  draw_char : Z -> Z -> Z -> S -> S;
  (** [cursor('d')] *)
  cursor : S -> S;
  (** [c_x], [c_y] *)
  screen_pos : S -> Z * Z;
  set_screen_pos : Z -> Z -> S -> S;
  Wwidth : S -> Z;
  screen_app_mode : S -> Z;
  tcc_guest_blocking : S -> Z;
}.

Module Terminal.

Definition ARROW_UP : Z := 1.
Definition ARROW_DOWN : Z := 2.
Definition ARROW_ESC : Z := 3.
Definition ARROW_LEFT : Z := 4.
Definition ARROW_RIGHT : Z := 5.
Definition CMD_BUF_SIZE : Z := 32768.
Definition HISTORY_SIZE : Z := 16.
Definition STDIN_RING_SIZE : Z := 256.

(** ** Characters for programs *)

Record ring := mk_ring { stdin_ring : list Z; stdin_head : Z; stdin_tail : Z }.
Definition stdin_feed (c : Z) (r : ring) : ring :=
  if (c <? 0x20) && negb (c =? 10) && negb (c =? 9) && negb (c =? 8) then r else
  let next := (stdin_head r + 1) mod STDIN_RING_SIZE in
  if next =? stdin_tail r then r else mk_ring ((stdin_ring r).[stdin_head r := c]) next (stdin_tail r).
Definition stdin_getc : st ring Z := fun r =>
  if stdin_tail r =? stdin_head r then (-1, r) else
  (u8 ((stdin_ring r).[stdin_tail r]), mk_ring (stdin_ring r) (stdin_head r) ((stdin_tail r + 1) mod STDIN_RING_SIZE)).

(** ** Splitting a line *)

(** The first index from [p] on whose character is not [f]; [n] bounds it. *)
Fixpoint skip_while (f : Z -> bool) (buf : list Z) (n : nat) (p : Z) : Z :=
  match n with
  | O => p
  | S n => if f (buf.[p]) then skip_while f buf n (p + 1) else p
  end.
Definition in_word (c : Z) : bool := negb (c =? 0) && negb (c =? 32).
(** The loop while the line goes on and there are less than 8: where the arguments start, and the line with the
    arguments ended. *)
Fixpoint split_args (n : nat) (buf : list Z) (p argc : Z) : list Z * list Z :=
  match n with
  | O => ([], buf)
  | S n =>
      if (buf.[p] =? 0) || (8 <=? argc) then ([], buf) else
      let a := skip_while (Z.eqb 32) buf (length buf) p in
      if buf.[a] =? 0 then ([], buf) else
      let e := skip_while in_word buf (length buf) a in
      let '(rest, out) := if buf.[e] =? 0 then split_args n buf e (argc + 1) else split_args n (buf.[e := 0]) (e + 1) (argc + 1) in
      (a :: rest, out)
  end.
Definition string_at (buf : list Z) (p : Z) : list Z := cstr (drop (Z.to_nat p) buf).

(** ** The line editor *)

(** [H] names a key handler of src/focus.c. *)
Record term (S H : Type) := mk_term {
  cmd_buf : list Z; cmd_len : Z; sac_x : Z; sac_y : Z; cmd_pos : Z; cursor_shown_at : Z;
  cmd_history : list (list Z); history_count : Z; history_pos : Z;
  g_current_path : list Z; keys : focus H; screen : S;
}.
Arguments mk_term {S H}. Arguments cmd_buf {S H}. Arguments cmd_len {S H}. Arguments sac_x {S H}. Arguments sac_y {S H}. Arguments cmd_pos {S H}.
Arguments cursor_shown_at {S H}. Arguments cmd_history {S H}. Arguments history_count {S H}. Arguments history_pos {S H}. Arguments g_current_path {S H}.
Arguments keys {S H}. Arguments screen {S H}.

Section fields.
Context {S H : Type}.
Implicit Types t : term S H.
Definition set_line (b : list Z) (n : Z) t := mk_term b n (sac_x t) (sac_y t) (cmd_pos t) (cursor_shown_at t) (cmd_history t) (history_count t) (history_pos t) (g_current_path t) (keys t) (screen t).
Definition set_sac (x y : Z) t := mk_term (cmd_buf t) (cmd_len t) x y (cmd_pos t) (cursor_shown_at t) (cmd_history t) (history_count t) (history_pos t) (g_current_path t) (keys t) (screen t).
Definition set_pos (p : Z) t := mk_term (cmd_buf t) (cmd_len t) (sac_x t) (sac_y t) p (cursor_shown_at t) (cmd_history t) (history_count t) (history_pos t) (g_current_path t) (keys t) (screen t).
Definition set_shown (p : Z) t := mk_term (cmd_buf t) (cmd_len t) (sac_x t) (sac_y t) (cmd_pos t) p (cmd_history t) (history_count t) (history_pos t) (g_current_path t) (keys t) (screen t).
Definition set_history (h : list (list Z)) (n : Z) t := mk_term (cmd_buf t) (cmd_len t) (sac_x t) (sac_y t) (cmd_pos t) (cursor_shown_at t) h n (history_pos t) (g_current_path t) (keys t) (screen t).
Definition set_hpos (p : Z) t := mk_term (cmd_buf t) (cmd_len t) (sac_x t) (sac_y t) (cmd_pos t) (cursor_shown_at t) (cmd_history t) (history_count t) p (g_current_path t) (keys t) (screen t).
Definition set_screen (s : S) t := mk_term (cmd_buf t) (cmd_len t) (sac_x t) (sac_y t) (cmd_pos t) (cursor_shown_at t) (cmd_history t) (history_count t) (history_pos t) (g_current_path t) (keys t) s.
End fields.

Section ops.
Context {S H : Type} `{Screen S}.
#[local] Abbreviation M := (st (term S H)).

Definition on_screen (f : S -> S) : M unit := modify (fun t => set_screen (f (screen t)) t).
Definition screen_pos_for (pos : Z) (t : term S H) : Z * Z :=
  let cells := Z.quot (Wwidth (screen t)) 8 in
  let total := Z.quot (sac_x t) 8 + pos in
  (Z.rem total cells * 8, sac_y t + Z.quot total cells * 8).
Definition draw_char_at_pos (pos : Z) : M unit :=
  t ← gets (fun t => t);
  let (x, y) := screen_pos_for pos t in
  on_screen (draw_char (if pos <? cmd_len t then (cmd_buf t).[pos] else 32) x y).
Definition move_cursor_to (pos : Z) : M unit :=
  t ← gets (fun t => t);
  draw_char_at_pos (cursor_shown_at t);;
  t ← gets (fun t => t);
  let (x, y) := screen_pos_for pos t in
  on_screen (fun s => cursor (set_screen_pos x y s));;
  modify (set_shown pos).
Definition redraw_from (from_pos old_len : Z) : M unit :=
  move_cursor_to from_pos;;
  t ← gets (fun t => t);
  ffor (rounds from_pos (cmd_len t)) from_pos (fun i => on_screen (klog [(cmd_buf t).[i]]));;
  ffor (rounds (cmd_len t) old_len) (cmd_len t) (fun _ => on_screen (klog [32]));;
  modify (set_shown (if cmd_len t <? old_len then old_len else if from_pos <? cmd_len t then cmd_len t else from_pos));;
  move_cursor_to (cmd_pos t).

Definition history_add (cmd : list Z) : M unit :=
  t ← gets (fun t => t);
  if hd0 cmd =? 0 then mret tt else
  if (0 <? history_count t) && (strcmp ((cmd_history t).[history_count t - 1]) cmd =? 0) then modify (set_hpos (history_count t)) else
  when (history_count t =? HISTORY_SIZE)
    (ffor (rounds 1 HISTORY_SIZE) 1 (fun i => modify (fun t => set_history ((cmd_history t).[i - 1 := splice ((cmd_history t).[i - 1]) 0 (strcpy_out ((cmd_history t).[i]))]) (history_count t) t));;
     modify (fun t => set_history (cmd_history t) (history_count t - 1) t));;
  modify (fun t => set_history ((cmd_history t).[history_count t := splice ((cmd_history t).[history_count t]) 0 (strcpy_out cmd)]) (history_count t + 1) t);;
  modify (fun t => set_hpos (history_count t) t).

Definition clear_current_line : M unit :=
  t ← gets (fun t => t);
  move_cursor_to (cmd_len t);;
  ffor (rounds 0 (cmd_len t)) 0 (fun _ => on_screen (klog [8]));;
  modify (fun t => set_line (cmd_buf t) (Z.min 0 (cmd_len t)) t);;
  modify (set_pos 0);; modify (set_shown 0).
Definition history_recall (idx : Z) : M unit :=
  clear_current_line;;
  t ← gets (fun t => t);
  if (0 <=? idx) && (idx <? history_count t) then
    let s := (cmd_history t).[idx] in
    modify (fun t => set_line (splice (cmd_buf t) 0 (strcpy_out s)) (strlen s) t);;
    on_screen (klog (cstr s));;
    modify (fun t => set_shown (cmd_len t) (set_pos (cmd_len t) t))
  else mret tt.

Definition terminal_show_prompt : M unit :=
  t ← gets (fun t => t);
  on_screen (fun s => klog_color [62; 62; 32] 0xFFFF00 (klog_color (g_current_path t) 0xFFA500 (klog_color [67; 82; 85; 83; 65; 68; 69; 82] 0xFFFF00 s)));;
  modify (fun t => let (x, y) := screen_pos (screen t) in set_sac x y t);;
  modify (set_pos 0);; modify (set_shown 0).

(** [commands]: the names; command [i] is run by [run_command i]. *)
Context (commands : list (list Z)) (run_command : Z -> list (list Z) -> M unit) (run_handler : H -> Z -> Z -> M unit).

Definition busy_msg : list Z := [97; 32; 99; 99; 47; 103; 117; 105; 100; 101; 109; 111; 32; 112; 114; 111; 103; 114; 97; 109; 32; 105; 115; 32; 97; 108; 114; 101; 97; 100; 121; 32; 114; 117; 110; 110; 105; 110; 103; 44; 32; 105; 103; 110; 111; 114; 105; 110; 103; 32; 105; 110; 112; 117; 116; 10].
Definition unknown_msg : list Z := [115; 111; 114; 114; 121; 32; 98; 117; 100; 100; 121; 32; 119; 101; 32; 100; 111; 110; 39; 116; 32; 107; 110; 111; 119; 32; 116; 104; 105; 115; 32; 111; 110; 101; 10].
(** [execute_command] on the command buffer, the only line it is called with. *)
Definition execute_command : M unit :=
  t ← gets (fun t => t);
  if (cmd_buf t).[0] =? 0 then mret tt else
  let (starts, buf) := split_args (length (cmd_buf t)) (cmd_buf t) 0 0 in
  modify (fun t => set_line buf (cmd_len t) t);;
  match string_at buf <$> starts with
  | [] => mret tt
  | name :: args =>
      if negb (tcc_guest_blocking (screen t) =? 0) then on_screen (klog busy_msg) else
      match first_some (fun i => if strcmp name (commands.[i]) =? 0 then Some i else None) (length commands) 0 with
      | Some i => run_command i (name :: args)
      | None => on_screen (klog unknown_msg)
      end
  end.

Definition insert_char (c : Z) : M unit :=
  t ← gets (fun t => t);
  if cmd_len t <? CMD_BUF_SIZE - 1 then
    let old_len := cmd_len t in
    let pos := cmd_pos t in
    ffor (rounds pos old_len) 0 (fun j => let i := old_len - j in modify (fun t => set_line ((cmd_buf t).[i := (cmd_buf t).[i - 1]]) (cmd_len t) t));;
    modify (fun t => set_pos (pos + 1) (set_line ((cmd_buf t).[pos := c]) (old_len + 1) t));;
    redraw_from pos old_len
  else mret tt.
Definition backspace : M unit :=
  t ← gets (fun t => t);
  if 0 <? cmd_pos t then
    let old_len := cmd_len t in
    let pos := cmd_pos t in
    ffor (rounds (pos - 1) (old_len - 1)) (pos - 1) (fun i => modify (fun t => set_line ((cmd_buf t).[i := (cmd_buf t).[i + 1]]) (cmd_len t) t));;
    modify (fun t => set_pos (pos - 1) (set_line (cmd_buf t) (old_len - 1) t));;
    redraw_from (pos - 1) old_len
  else mret tt.
Definition enter : M unit :=
  modify (fun t => set_line ((cmd_buf t).[cmd_len t := 0]) (cmd_len t) t);;
  on_screen (klog [10]);;
  t ← gets (fun t => t);
  history_add (cmd_buf t);;
  execute_command;;
  modify (fun t => set_shown 0 (set_pos 0 (set_line (cmd_buf t) 0 t)));;
  t ← gets (fun t => t);
  if screen_app_mode (screen t) =? 0 then terminal_show_prompt else mret tt.

(** The part of [terminal_key] behind the handler of src/focus.c. *)
Definition edit_key (c : Z) : M unit :=
  t ← gets (fun t => t);
  when (cmd_len t =? 0) (modify (fun t => let (x, y) := screen_pos (screen t) in set_shown 0 (set_sac x y t)));;
  if c =? ARROW_UP then
    if history_count t =? 0 then mret tt else
    let p := if 0 <? history_pos t then history_pos t - 1 else history_pos t in
    modify (set_hpos p);; history_recall p
  else if c =? ARROW_DOWN then
    if history_count t =? 0 then mret tt else
    if history_pos t <? history_count t - 1 then modify (set_hpos (history_pos t + 1));; history_recall (history_pos t + 1)
    else modify (set_hpos (history_count t));; clear_current_line
  else if c =? ARROW_ESC then mret tt
  else if c =? ARROW_LEFT then
    if 0 <? cmd_pos t then modify (set_pos (cmd_pos t - 1));; move_cursor_to (cmd_pos t - 1) else mret tt
  else if c =? ARROW_RIGHT then
    if cmd_pos t <? cmd_len t then modify (set_pos (cmd_pos t + 1));; move_cursor_to (cmd_pos t + 1) else mret tt
  else if c =? 10 then enter
  else if c =? 8 then backspace
  else insert_char c.
Definition terminal_key (c : Z) : M unit :=
  t ← gets (fun t => t);
  if focus_active (keys t) then
    match focus_dispatch (keys t) with
    | Some (h, ctx) => run_handler h ctx c
    | None => mret tt
    end
  else if c =? 0 then mret tt else edit_key c.
End ops.
End Terminal.
