(* ===== verification/TermEdit.v ===== *)
(** What the command line promises: the ring is a queue, a line splits into its
    words, and the keys edit a text with a cursor and a history. *)
From S2P Require Import Prelude CString Focus Terminal.
From stdpp Require Import base list numbers.
From Stdlib Require Import ZArith Lia.
Import CString Focus Terminal.
Open Scope Z_scope.

Module TermProps.

(** ** The ring as a queue *)

Definition waiting (r : ring) : Z := (stdin_head r - stdin_tail r) mod STDIN_RING_SIZE.
Definition queue (r : ring) : list Z := tab (fun i => (stdin_ring r).[(stdin_tail r + i) mod STDIN_RING_SIZE]) 0 (waiting r).
Record ring_ok (r : ring) : Prop := {
  ri_size : zlen (stdin_ring r) = STDIN_RING_SIZE; ri_head : 0 <= stdin_head r < STDIN_RING_SIZE; ri_tail : 0 <= stdin_tail r < STDIN_RING_SIZE;
}.
(** Characters the ring takes: printable ones, newline, tab and backspace. *)
Definition takes (c : Z) : bool := (32 <=? c) || (c =? 10) || (c =? 9) || (c =? 8).

(** The ring of input characters is a queue that holds 255: a character fed
    is appended, unless it is a control character or the queue is full, when
    nothing changes; reading gives the oldest character, or -1 and no change
    when there is none. *)
Theorem stdin_queue r c : ring_ok r ->
  (ring_ok (stdin_feed c r) /\ queue (stdin_feed c r) = if takes c && (zlen (queue r) <? 255) then queue r ++ [c] else queue r) /\
  match queue r with
  | [] => stdin_getc r = (-1, r)
  | x :: q => (stdin_getc r).1 = u8 x /\ ring_ok (stdin_getc r).2 /\ queue (stdin_getc r).2 = q
  end.
Proof.
  intros [R1 R2 R3]. unfold STDIN_RING_SIZE in *. assert (Hw : 0 <= waiting r < 256) by (unfold waiting, STDIN_RING_SIZE; zdm).
  assert (Hq : zlen (queue r) = waiting r) by (apply zlen_tab; lia). split.
  - unfold stdin_feed, STDIN_RING_SIZE. replace (takes c) with (negb ((c <? 32) && negb (c =? 10) && negb (c =? 9) && negb (c =? 8))).
    2:{ unfold takes. rewrite Z.ltb_antisym. by destruct (32 <=? c), (c =? 10), (c =? 9), (c =? 8). }
    destruct ((c <? 32) && _ && _ && _); cbn [negb andb]; [done|].
    assert (Efull : ((stdin_head r + 1) mod 256 =? stdin_tail r) = negb (waiting r <? 255)).
    { rewrite Z.ltb_antisym, negb_involutive. apply eq_true_iff_eq. rewrite Z.eqb_eq, Z.leb_le. unfold waiting, STDIN_RING_SIZE in *. zdm. }
    rewrite Efull, Hq. destruct (Z.ltb_spec (waiting r) 255); cbn [negb]; [|done].
    split; [constructor; cbn; rewrite ?zlen_aset; unfold STDIN_RING_SIZE; zdm|].
    assert (Ew : waiting (mk_ring ((stdin_ring r).[stdin_head r := c]) ((stdin_head r + 1) mod 256) (stdin_tail r)) = waiting r + 1) by (unfold waiting, STDIN_RING_SIZE in *; cbn; zdm).
    unfold queue. rewrite Ew, tab_snoc by lia. f_equal.
    + apply tab_ext. intros i Hi. cbn. apply aget_aset_ne; unfold waiting, STDIN_RING_SIZE in *; zdm.
    + f_equal. cbn. unfold STDIN_RING_SIZE. replace ((stdin_tail r + (0 + waiting r)) mod 256) with (stdin_head r) by (unfold waiting, STDIN_RING_SIZE in *; zdm). apply aget_aset_eq. lia.
  - unfold stdin_getc. destruct (Z.eqb_spec (stdin_tail r) (stdin_head r)) as [E|Hn].
    + unfold queue. replace (waiting r) with 0 by (unfold waiting, STDIN_RING_SIZE; rewrite E; zdm). done.
    + assert (Hp : 0 < waiting r) by (unfold waiting, STDIN_RING_SIZE in *; zdm). unfold queue. rewrite tab_cons by lia. cbn [fst snd].
      split; [do 2 f_equal; rewrite Z.add_0_r; symmetry; apply Z.mod_small; done|]. split; [constructor; cbn; unfold STDIN_RING_SIZE; zdm|].
      set (r' := mk_ring _ _ _). assert (Ew : waiting r' = waiting r - 1) by (unfold r', waiting, STDIN_RING_SIZE in *; cbn; zdm). rewrite Ew.
      apply list_eq_aget; [rewrite !zlen_tab by lia; lia|]. rewrite zlen_tab by lia. intros i Hi. rewrite !aget_tab by lia. unfold r', STDIN_RING_SIZE. cbn. f_equal. zdm.
Qed.
Lemma stdin_queue_witness : let r := stdin_feed 97 (mk_ring (replicate 256 0) 255 255) in queue r = [97] /\ (stdin_getc r).1 = 97.
Proof.
  destruct (stdin_queue (mk_ring (replicate 256 0) 255 255) 97) as [[Hok Hq] _]; [constructor; vm_compute; repeat split; congruence|].
  destruct (stdin_queue _ 98 Hok) as [_ Hg]. rewrite Hq in Hg. split; [exact Hq|exact (proj1 Hg)].
Defined.

(** ** A line and its words *)

(** The pieces between the spaces, and those that are not empty. *)
Fixpoint pieces (l : list Z) : list (list Z) :=
  match l with
  | [] => [[]]
  | c :: l => if c =? 32 then [] :: pieces l else match pieces l with w :: ws => (c :: w) :: ws | [] => [[c]] end
  end.
Definition words (l : list Z) : list (list Z) := filter (fun w => w <> []) (pieces l).

Lemma words_spaces n l : words (replicate n 32 ++ l) = words l.
Proof. induction n as [|n IH]; [done|]. etransitivity; [|exact IH]. unfold words. cbn [replicate app pieces]. rewrite Z.eqb_refl. rewrite filter_cons_False; [done|]. intros Hn. by apply Hn. Qed.
Lemma words_nil : words [] = [].
Proof. reflexivity. Qed.
Lemma pieces_word w r : Forall (fun c => c <> 32) w -> pieces (w ++ 32 :: r) = w :: pieces r.
Proof. induction 1 as [|c w Hc Hw IH]; [done|]. cbn [app pieces]. by rewrite (proj2 (Z.eqb_neq c 32)), IH. Qed.
Lemma pieces_last w : Forall (fun c => c <> 32) w -> pieces w = [w].
Proof. induction 1 as [|c w Hc Hw IH]; [done|]. cbn [pieces]. by rewrite (proj2 (Z.eqb_neq c 32)), IH. Qed.
Lemma words_word w r : Forall (fun c => c <> 32) w -> w <> [] -> words (w ++ 32 :: r) = w :: words r.
Proof. intros Hw Hn. unfold words. rewrite pieces_word by done. by rewrite filter_cons_True. Qed.
Lemma words_last w : Forall (fun c => c <> 32) w -> w <> [] -> words w = [w].
Proof. intros Hw Hn. unfold words. rewrite pieces_last by done. by rewrite filter_cons_True. Qed.

Lemma skip_while_spec f buf n p z : f (buf.[z]) = false -> p <= z -> z - p <= Z.of_nat n ->
  let q := skip_while f buf n p in p <= q <= z /\ (forall i, p <= i < q -> f (buf.[i]) = true) /\ f (buf.[q]) = false.
Proof.
  intros Hz. revert p. induction n as [|n IH]; intros p Hp Hn; cbn [skip_while].
  - replace p with z by lia. split; [lia|]. split; [lia|done].
  - destruct (f (buf.[p])) eqn:E; [|split; [lia|split; [lia|done]]]. assert (p <> z) by (intros ->; congruence).
    destruct (IH (p + 1) ltac:(lia) ltac:(lia)) as (H1 & H2 & H3). split; [lia|]. split; [|done].
    intros i Hi. destruct (decide (i = p)) as [->|]; [done|apply H2; lia].
Qed.
(** A string between [p] and its end at [z]. *)
Definition ends_at (buf : list Z) (p z : Z) : Prop := 0 <= p <= z /\ z < zlen buf /\ buf.[z] = 0 /\ forall i, p <= i < z -> buf.[i] <> 0.
Lemma string_at_slice buf p z : ends_at buf p z -> string_at buf p = slice buf p (z - p).
Proof.
  intros (Hp & Hz & H0 & Hn). unfold string_at.
  assert (Hs : drop (Z.to_nat p) buf = slice buf p (z - p) ++ 0 :: drop (Z.to_nat (z + 1)) buf).
  { unfold slice. rewrite <- (take_drop (Z.to_nat (z - p)) (drop (Z.to_nat p) buf)) at 1. f_equal. rewrite drop_drop. replace (Z.to_nat p + Z.to_nat (z - p))%nat with (Z.to_nat z) by lia.
    replace (Z.to_nat (z + 1)) with (S (Z.to_nat z)) by lia. rewrite <- H0. apply drop_S. unfold aget, zlen in *. apply list_lookup_lookup_total_lt. lia. }
  rewrite Hs. apply cstr_app0. apply list.Forall_lookup. intros i x Hx.
  assert (Hi : (i < Z.to_nat (z - p))%nat) by (apply lookup_lt_Some in Hx; unfold slice in Hx; rewrite length_take in Hx; lia).
  unfold slice in Hx. rewrite lookup_take_lt, lookup_drop in Hx by done. specialize (Hn (p + Z.of_nat i) ltac:(lia)).
  unfold aget in Hn. rewrite list_lookup_total_alt in Hn. replace (Z.to_nat (p + Z.of_nat i)) with (Z.to_nat p + i)%nat in Hn by lia. by rewrite Hx in Hn.
Qed.
Lemma slice_ext {T} `{Inhabited T} (l l' : list T) p n : 0 <= p -> 0 <= n -> p + n <= zlen l -> zlen l = zlen l' -> (forall i, p <= i < p + n -> l.[i] = l'.[i]) -> slice l p n = slice l' p n.
Proof.
  intros Hp Hn Hl Hz Hi. apply list_eq_aget; [rewrite !zlen_slice; lia|]. rewrite zlen_slice by lia. intros i Hb. rewrite !aget_slice by lia. apply Hi. lia.
Qed.
Lemma slice_const (l : list Z) p n v : 0 <= p -> 0 <= n -> p + n <= zlen l -> (forall i, p <= i < p + n -> l.[i] = v) -> slice l p n = replicate (Z.to_nat n) v.
Proof.
  intros Hp Hn Hl Hv. apply list_eq_aget; [rewrite zlen_slice, zlen_replicate by lia; lia|]. rewrite zlen_slice by lia. intros i Hi.
  rewrite aget_slice, aget_replicate by lia. apply Hv. lia.
Qed.
Lemma slice_Forall (l : list Z) (P : Z -> Prop) p n : 0 <= p -> p + n <= zlen l -> (forall i, p <= i < p + n -> P (l.[i])) -> Forall P (slice l p n).
Proof.
  intros Hp Hl HP. apply list.Forall_lookup. intros i x Hx. assert (Hi : (i < Z.to_nat n)%nat) by (apply lookup_lt_Some in Hx; unfold slice in Hx; rewrite length_take in Hx; lia).
  unfold slice in Hx. rewrite lookup_take_lt, lookup_drop in Hx by done. specialize (HP (p + Z.of_nat i) ltac:(lia)).
  unfold aget in HP. rewrite list_lookup_total_alt in HP. replace (Z.to_nat (p + Z.of_nat i)) with (Z.to_nat p + i)%nat in HP by lia. by rewrite Hx in HP.
Qed.
Lemma split_args_run n : forall buf p z argc, ends_at buf p z -> z - p < Z.of_nat n -> 0 <= argc ->
  let '(starts, out) := split_args n buf p argc in
  zlen out = zlen buf /\ (forall i, 0 <= i < p -> out.[i] = buf.[i]) /\ (forall i, 0 <= i -> buf.[i] = 0 -> out.[i] = 0) /\
  string_at out <$> starts = take (Z.to_nat (8 - argc)) (words (slice buf p (z - p))).
Proof.
  induction n as [|n IH]; intros buf p z argc Hb Hn Ha; [destruct Hb as [[] _]; lia|]. cbn [split_args]. pose proof Hb as (Hp & Hz & H0 & Hnz).
  destruct (Z.eqb_spec (buf.[p]) 0) as [Ep|Ep]; cbn [orb].
  { assert (p = z) as -> by (destruct (decide (p = z)); [done|]; exfalso; apply (Hnz p); [lia|done]). rewrite Z.sub_diag, slice_nil, words_nil, take_nil by lia. by split_and!. }
  destruct (Z.leb_spec 8 argc). { replace (Z.to_nat (8 - argc)) with 0%nat by lia. done. }
  assert (Hzl : z < Z.of_nat (length buf)) by done.
  destruct (skip_while_spec (Z.eqb 32) buf (length buf) p z) as (A1 & A2 & A3); [by rewrite H0|lia|lia|]. set (a := skip_while (Z.eqb 32) buf (length buf) p) in *.
  assert (Ew : words (slice buf p (z - p)) = words (slice buf a (z - a))).
  { replace (z - p) with ((a - p) + (z - a)) by lia. rewrite slice_plus by lia. replace (p + (a - p)) with a by lia. rewrite (slice_const _ _ _ 32) by (lia || (intros i Hi; specialize (A2 i ltac:(lia)); apply Z.eqb_eq in A2; done)). apply words_spaces. }
  rewrite Ew. destruct (Z.eqb_spec (buf.[a]) 0) as [Ea|Ea].
  { assert (a = z) as -> by (destruct (decide (a = z)); [done|]; exfalso; apply (Hnz a); [lia|done]). rewrite Z.sub_diag, slice_nil, words_nil, take_nil by lia. by split_and!. }
  destruct (skip_while_spec in_word buf (length buf) a z) as (E1 & E2 & E3); [by rewrite H0|lia|lia|]. set (e := skip_while in_word buf (length buf) a) in *.
  assert (Hae : a < e). { destruct (decide (a = e)) as [Eq|]; [|lia]. rewrite <- Eq in E3. unfold in_word in E3. rewrite (proj2 (Z.eqb_neq _ 0) Ea) in E3. cbn in E3. apply negb_false_iff in E3. apply Z.eqb_neq in A3. lia. }
  assert (Hw : Forall (fun c => c <> 32) (slice buf a (e - a))).
  { apply slice_Forall; [lia|lia|]. intros i Hi. specialize (E2 i ltac:(lia)). unfold in_word in E2. apply andb_true_iff in E2 as [_ E2]. apply negb_true_iff, Z.eqb_neq in E2. done. }
  assert (Hwn : slice buf a (e - a) <> []). { intros Eq. pose proof (zlen_slice buf a (e - a) ltac:(lia) ltac:(lia) ltac:(lia)) as Hl. rewrite Eq in Hl. change (zlen []) with 0 in Hl. lia. }
  replace (Z.to_nat (8 - argc)) with (S (Z.to_nat (8 - (argc + 1)))) by lia.
  assert (Hhead : forall out, zlen out = zlen buf -> (forall i, a <= i < e -> out.[i] = buf.[i]) -> out.[e] = 0 -> string_at out a = slice buf a (e - a)).
  { intros out Hl Hs He. rewrite (string_at_slice out a e); [|split; [lia|split; [lia|split; [done|intros i Hi; rewrite Hs by done; apply Hnz; lia]]]]. apply slice_ext; [lia|lia|lia|done|]. intros i Hi. apply Hs. lia. }
  destruct (Z.eqb_spec (buf.[e]) 0) as [Ee|Ee].
  - assert (e = z) as Eq by (destruct (decide (e = z)); [done|]; exfalso; apply (Hnz e); [lia|done]).
    specialize (IH buf e z (argc + 1) ltac:(split; [lia|split; [lia|split; [done|intros; lia]]]) ltac:(lia) ltac:(lia)). destruct (split_args n buf e (argc + 1)) as [rest out].
    destruct IH as (O1 & O2 & O3 & O4). split; [done|]. split; [intros i Hi; apply O2; lia|]. split; [done|]. rewrite Eq, Z.sub_diag, slice_nil, words_nil, take_nil in O4 by lia.
    rewrite fmap_cons, O4, (Hhead out) by (done || (intros i Hi; apply O2; lia) || (apply O3; [lia|done])). rewrite <- Eq. rewrite words_last by done. cbn [take]. by rewrite take_nil.
  - assert (Esp : buf.[e] = 32). { unfold in_word in E3. rewrite (proj2 (Z.eqb_neq _ 0) Ee) in E3. cbn in E3. apply negb_false_iff, Z.eqb_eq in E3. done. }
    assert (Hez : e < z) by (destruct (decide (e = z)) as [->|]; [done|lia]).
    set (buf' := buf.[e := 0]). assert (Hl' : zlen buf' = zlen buf) by apply zlen_aset. assert (Hs' : forall i, 0 <= i -> i <> e -> buf'.[i] = buf.[i]) by (intros; apply aget_aset_ne; lia).
    specialize (IH buf' (e + 1) z (argc + 1)). destruct (split_args n buf' (e + 1) (argc + 1)) as [rest out].
    destruct IH as (O1 & O2 & O3 & O4); [split; [lia|split; [lia|split; [by rewrite Hs' by lia|intros i Hi; rewrite Hs' by lia; apply Hnz; lia]]]|lia|lia|].
    assert (H0e : out.[e] = 0) by (apply O3; [lia|apply aget_aset_eq; lia]).
    split; [lia|]. split; [intros i Hi; rewrite O2 by lia; apply Hs'; lia|]. split.
    { intros i Hi Hi0. destruct (decide (i = e)) as [->|]; [done|]. apply O3; [done|]. by rewrite Hs'. }
    rewrite fmap_cons, O4, (Hhead out) by (lia || done || (intros i Hi; rewrite O2 by lia; apply Hs'; lia)).
    replace (z - a) with ((e - a) + (1 + (z - (e + 1)))) by lia. rewrite slice_plus by lia. replace (a + (e - a)) with e by lia. rewrite (slice_plus _ e 1) by lia.
    replace (slice buf e 1) with [32]; [|rewrite (slice_const buf e 1 32) by (lia || (intros i Hi; by replace i with e by lia)); done].
    cbn [app]. rewrite words_word by done. cbn [take]. do 3 f_equal. apply slice_ext; [lia|lia|lia|done|]. intros i Hi. apply Hs'; lia.
Qed.
End TermProps.

(** The line editor of src/terminal.c against an abstract editor: a text with a
    cursor in it, and the lines entered before. *)
Import CString Focus Terminal TermProps.

Create HintDb draws.

Module TermEdit.

(** ** The abstract editor *)

(** The text before and behind the cursor, the lines entered, the oldest
    first, and the one shown ([zlen hist]: none of them). *)
Record editor := mk_ed { before : list Z; behind : list Z; hist : list (list Z); hpos : Z }.
Definition text (e : editor) : list Z := before e ++ behind e.
Definition show (p : Z) (e : editor) : editor := mk_ed ((hist e).[p]) [] (hist e) p.
Definition remember (line : list Z) (h : list (list Z)) : list (list Z) :=
  if bool_decide (head (rev h) = Some line) then h else (if zlen h =? HISTORY_SIZE then tail h else h) ++ [line].
Definition ed_key (c : Z) (e : editor) : editor :=
  if c =? ARROW_UP then if zlen (hist e) =? 0 then e else show (Z.max 0 (hpos e - 1)) e
  else if c =? ARROW_DOWN then
    if zlen (hist e) =? 0 then e else if hpos e <? zlen (hist e) - 1 then show (hpos e + 1) e else mk_ed [] [] (hist e) (zlen (hist e))
  else if c =? ARROW_ESC then e
  else if c =? ARROW_LEFT then
    match rev (before e) with x :: b => mk_ed (rev b) (x :: behind e) (hist e) (hpos e) | [] => e end
  else if c =? ARROW_RIGHT then
    match behind e with x :: a => mk_ed (before e ++ [x]) a (hist e) (hpos e) | [] => e end
  else if c =? 10 then
    if bool_decide (text e = []) then e else let h := remember (text e) (hist e) in mk_ed [] [] h (zlen h)
  else if c =? 8 then mk_ed (removelast (before e)) (behind e) (hist e) (hpos e)
  else if zlen (text e) <? CMD_BUF_SIZE - 1 then mk_ed (before e ++ [c]) (behind e) (hist e) (hpos e) else e.

Section edit.
Context {S H : Type} `{Screen S}.
Implicit Types t : term S H.

(** A text the buffers hold with the zero behind it. *)
Definition fits (l : list Z) : Prop := zlen l <= CMD_BUF_SIZE - 1 /\ Forall (fun c => c <> 0) l.
Record rows_are (rows : list (list Z)) (n : Z) (h : list (list Z)) : Prop := {
  hi_rows : zlen rows = HISTORY_SIZE; hi_size : forall i, 0 <= i < HISTORY_SIZE -> zlen (rows.[i]) = CMD_BUF_SIZE;
  hi_count : n = zlen h; hi_max : zlen h <= HISTORY_SIZE;
  hi_lines : forall i, 0 <= i < zlen h -> cstr (rows.[i]) = h.[i]; hi_fit : Forall fits h;
}.
Definition history_is t (h : list (list Z)) : Prop := rows_are (cmd_history t) (history_count t) h.
Record rep t (e : editor) : Prop := {
  rp_buf : zlen (cmd_buf t) = CMD_BUF_SIZE; rp_fits : fits (text e); rp_len : cmd_len t = zlen (text e); rp_pos : cmd_pos t = zlen (before e);
  rp_text : slice (cmd_buf t) 0 (zlen (text e)) = text e;
  rp_hist : history_is t (hist e); rp_hpos : history_pos t = hpos e; rp_range : 0 <= hpos e <= zlen (hist e);
}.

(** ** Drawing leaves the editor alone *)

Definition core t := (cmd_buf t, cmd_len t, cmd_pos t, cmd_history t, history_count t, history_pos t, keys t).
Definition draws {A} (m : st (term S H) A) : Prop := forall t, core (m t).2 = core t.
Lemma draws_bind {A B} (m : st (term S H) A) (k : A -> st (term S H) B) : draws m -> (forall a, draws (k a)) -> draws (m ≫= k).
Proof. intros Hm Hk t. unfold mbind, st_bind. pose proof (Hm t). destruct (m t) as [a t']. cbn in *. by rewrite Hk. Qed.
Lemma draws_ret {A} (a : A) : draws (mret a).
Proof. done. Qed.
Lemma draws_gets {A} (f : term S H -> A) : draws (gets f).
Proof. done. Qed.
Lemma draws_screen (f : S -> S) : draws (on_screen f).
Proof. by intros []. Qed.
Lemma draws_shown p : draws (modify (set_shown p)).
Proof. by intros []. Qed.
Lemma draws_for n i (body : Z -> st (term S H) unit) : (forall j, draws (body j)) -> draws (ffor n i body).
Proof. intros Hb t. revert i t. induction n as [|n IH]; intros i t; cbn [ffor]; [done|]. rewrite IH. apply Hb. Qed.
Lemma draws_at p : draws (draw_char_at_pos p).
Proof. apply draws_bind; [apply draws_gets|]. intros t. destruct (screen_pos_for p t). apply draws_screen. Qed.
Lemma draws_cursor p : draws (move_cursor_to p).
Proof.
  unfold move_cursor_to. apply draws_bind; [apply draws_gets|]. intros t. apply draws_bind; [apply draws_at|]. intros _. apply draws_bind; [apply draws_gets|]. intros t'.
  destruct (screen_pos_for p t'). apply draws_bind; [apply draws_screen|]. intros _. apply draws_shown.
Qed.
Lemma draws_redraw a b : draws (redraw_from a b).
Proof.
  unfold redraw_from. apply draws_bind; [apply draws_cursor|]. intros _. apply draws_bind; [apply draws_gets|]. intros t.
  apply draws_bind; [apply draws_for; intros; apply draws_screen|]. intros _. apply draws_bind; [apply draws_for; intros; apply draws_screen|]. intros _.
  apply draws_bind; [apply draws_shown|]. intros _. apply draws_cursor.
Qed.
Lemma rep_core t t' e : core t' = core t -> rep t e -> rep t' e.
Proof.
  unfold core. intros E [R1 R2 R3 R4 R5 [I1 I2 I3 I4 I5 I6] R7 R8]. injection E as E1 E2 E3 E4 E5 E6 E7.
  constructor; rewrite ?E1, ?E2, ?E3, ?E6; try done. constructor; rewrite ?E4, ?E5; done.
Qed.
Lemma rep_draws {A} (m : st (term S H) A) t e : draws m -> rep t e -> rep (m t).2 e.
Proof. intros Hm. apply rep_core, Hm. Qed.

(** ** The keys that only move *)

Lemma aget_app (l l' : list Z) i : 0 <= i -> (l ++ l').[i] = if decide (i < zlen l) then l.[i] else l'.[i - zlen l].
Proof.
  intros Hi. unfold aget, zlen. case_decide.
  - by rewrite lookup_total_app_l by lia.
  - rewrite lookup_total_app_r by lia. f_equal. lia.
Qed.
Lemma rep_zlen t e : rep t e -> zlen (text e) = zlen (before e) + zlen (behind e).
Proof. intros _. apply zlen_app. Qed.
(** The screen's corner is noted when the line is empty: not the editor's business. *)
Lemma rep_start t e : rep t e -> let m := when (cmd_len t =? 0) (modify (fun t => let (x, y) := screen_pos (screen t) in set_shown 0 (set_sac x y t))) in
  core (m t).2 = core t.
Proof. intros _ m. unfold m, when. destruct (cmd_len t =? 0); [|done]. destruct t; cbn. by destruct (screen_pos _). Qed.

Lemma run_modify {A} (f : term S H -> term S H) (k : unit -> st (term S H) A) t : (modify f ≫= k) t = k tt (f t).
Proof. done. Qed.
Lemma rep_hpos t e p : rep t e -> 0 <= p <= zlen (hist e) -> rep (set_hpos p t) (mk_ed (before e) (behind e) (hist e) p).
Proof. intros [R1 R2 R3 R4 R5 [I1 I2 I3 I4 I5 I6] R7 R8] Hp. by constructor. Qed.
Lemma set_hpos_same e : mk_ed (before e) (behind e) (hist e) (hpos e) = e.
Proof. by destruct e. Qed.
(** The cursor moved within the text. *)
Lemma rep_move t e b a : rep t e -> b ++ a = text e -> rep (set_pos (zlen b) t) (mk_ed b a (hist e) (hpos e)).
Proof.
  intros [R1 R2 R3 R4 R5 [I1 I2 I3 I4 I5 I6] R7 R8] E. unfold text in *. constructor; unfold text; cbn [before behind hist hpos]; rewrite ?E; done.
Qed.
Lemma key_left t e : rep t e -> rep ((if 0 <? zlen (before e) then modify (set_pos (zlen (before e) - 1));; move_cursor_to (zlen (before e) - 1) else mret tt) t).2 (ed_key ARROW_LEFT e).
Proof.
  intros Hr. change (ed_key ARROW_LEFT e) with (match rev (before e) with x :: b => mk_ed (rev b) (x :: behind e) (hist e) (hpos e) | [] => e end).
  destruct (rev (before e)) as [|x b] eqn:Er; apply (f_equal (@rev Z)) in Er; rewrite rev_involutive in Er; cbn [rev] in Er; rewrite Er; [exact Hr|].
  assert (Hz : zlen (rev b ++ [x]) - 1 = zlen (rev b)) by (rewrite zlen_app; change (zlen [x]) with 1; lia).
  rewrite (proj2 (Z.ltb_lt _ _)) by (pose proof (zlen_nonneg (rev b)); lia). rewrite run_modify, Hz. apply rep_draws; [apply draws_cursor|].
  apply rep_move; [done|]. unfold text. by rewrite Er, <- app_assoc.
Qed.
Lemma key_right t e : rep t e ->
  rep ((if zlen (before e) <? zlen (text e) then modify (set_pos (zlen (before e) + 1));; move_cursor_to (zlen (before e) + 1) else mret tt) t).2 (ed_key ARROW_RIGHT e).
Proof.
  intros Hr. change (ed_key ARROW_RIGHT e) with (match behind e with x :: a => mk_ed (before e ++ [x]) a (hist e) (hpos e) | [] => e end).
  rewrite (rep_zlen t e Hr). destruct (behind e) as [|x a] eqn:Ea; [by rewrite (proj2 (Z.ltb_ge _ _)) by (change (zlen []) with 0; lia)|].
  rewrite (proj2 (Z.ltb_lt _ _)) by (unfold zlen; cbn; lia). rewrite run_modify. apply rep_draws; [apply draws_cursor|].
  replace (zlen (before e) + 1) with (zlen (before e ++ [x])) by (rewrite zlen_app; done). apply rep_move; [done|]. unfold text. by rewrite Ea, <- app_assoc.
Qed.

(** ** Lines from the history *)

Lemma rep_clear t e : rep t e -> rep (clear_current_line t).2 (mk_ed [] [] (hist e) (hpos e)).
Proof.
  intros Hr. unfold clear_current_line. rewrite (bind_run (gets _) _ t t t) by done. pose proof (rp_len t e Hr) as Hl. pose proof (zlen_nonneg (text e)).
  assert (Hd : draws (move_cursor_to (cmd_len t);; ffor (rounds 0 (cmd_len t)) 0 (fun _ => on_screen (klog [8])))).
  { apply draws_bind; [apply draws_cursor|]. intros _. apply draws_for. intros. apply draws_screen. }
  set (m := (move_cursor_to (cmd_len t);; _)) in Hd. specialize (Hd t). assert (Ht1 : rep (m t).2 e) by (by apply (rep_core t)).
  match goal with |- rep (?x).2 _ => assert (E : x = (modify (fun t => set_line (cmd_buf t) (Z.min 0 (cmd_len t)) t);; modify (set_pos 0);; modify (set_shown 0)) (m t).2) end.
  { unfold m, mbind, st_bind. by destruct (move_cursor_to (cmd_len t) t) as [[] ?], (ffor _ _ _ _) as [[] ?]. }
  rewrite E. clear E. set (t1 := (m t).2) in *. clearbody t1. destruct Ht1 as [R1 R2 R3 R4 R5 [I1 I2 I3 I4 I5 I6] R7 R8].
  munfold. constructor; cbn; try done. rewrite R3. change (zlen []) with 0. lia.
Qed.
Lemma cstr_row row s : zlen (cstr s) < zlen row -> cstr (splice row 0 (strcpy_out s)) = cstr s.
Proof. intros Hl. unfold splice, strcpy_out. change (Z.to_nat 0) with 0%nat. rewrite take_0. cbn [app]. rewrite <- app_assoc. cbn [app]. apply cstr_app0, cstr_nonzero. Qed.
Lemma fits_cstr l : fits l -> cstr l = l.
Proof. intros [_ Hl]. by apply cstr_idemp. Qed.
Lemma rep_recall t e p : rep t e -> 0 <= p < zlen (hist e) -> hpos e = p -> rep (history_recall p t).2 (show p e).
Proof.
  intros Hr Hp Eh. unfold history_recall. pose proof (rep_clear t e Hr) as Hc. destruct (clear_current_line t) as [[] t1] eqn:E1. cbn [snd] in Hc.
  rewrite (bind_run _ _ _ _ _ E1), (bind_run (gets _) _ t1 t1 t1) by done. destruct Hc as [R1 R2 R3 R4 R5 [I1 I2 I3 I4 I5 I6] R7 R8]. cbn [hist hpos] in *.
  rewrite I3, (proj2 (Z.leb_le 0 p)), (proj2 (Z.ltb_lt _ _)) by lia. cbn [andb]. rewrite run_modify. set (s := (cmd_history t1).[p]).
  assert (Es : cstr s = (hist e).[p]) by (apply I5; lia). assert (Hf : fits ((hist e).[p])) by (apply aget_Forall; [done|lia]). destruct Hf as [Hf1 Hf2].
  set (t2 := set_line _ _ t1). unfold mbind, st_bind at 1. destruct (on_screen (klog (cstr s)) t2) as [[] t3] eqn:E3.
  assert (Ec : core t3 = core t2) by (pose proof (draws_screen (klog (cstr s)) t2) as Hd; by rewrite E3 in Hd). cbn [snd modify].
  assert (R : rep (set_pos (cmd_len t2) t2) (show p e)).
  { unfold t2, show. assert (Hz : zlen (strcpy_out s) = zlen ((hist e).[p]) + 1) by (unfold strcpy_out; rewrite Es, zlen_app; done). unfold CMD_BUF_SIZE in *.
    constructor; unfold text; cbn [before behind hist hpos cmd_buf cmd_len set_line set_pos cmd_pos history_pos]; rewrite ?app_nil_r, ?strlen_cstr, ?Es; try done; try congruence; try lia.
    - rewrite zlen_splice; [done|lia|lia].
    - unfold slice, splice, strcpy_out. change (Z.to_nat 0) with 0%nat. rewrite drop_0, take_0, Es. cbn [app]. rewrite <- app_assoc. unfold zlen. rewrite Nat2Z.id. by rewrite take_app_length. }
  eapply rep_core; [|exact R]. unfold core in *. cbn. injection Ec as E4 E5 E6 E7 E8 E9 E10. cbn in E4, E5, E6, E7, E8, E9, E10. by rewrite E4, E5, E7, E8, E9, E10.
Qed.

(** ** Keys that change the text *)

(** A change of the text and the cursor only. *)
Lemma rep_line t e b (buf : list Z) n p : rep t e -> zlen buf = CMD_BUF_SIZE -> fits (text b) -> n = zlen (text b) -> p = zlen (before b) -> slice buf 0 n = text b ->
  hist b = hist e -> hpos b = hpos e -> rep (set_pos p (set_line buf n t)) b.
Proof. intros [R1 R2 R3 R4 R5 [I1 I2 I3 I4 I5 I6] R7 R8] Hb Hf -> -> Hs Eh Ep. constructor; rewrite ?Eh, ?Ep; done. Qed.
Lemma set_line_for (f : Z -> list Z -> list Z) n i t : ffor n i (fun j => modify (fun t => set_line (f j (cmd_buf t)) (cmd_len t) t)) t =
  (tt, set_line ((ffor n i (fun j => modify (f j)) (cmd_buf t)).2) (cmd_len t) t).
Proof. revert i t. induction n as [|n IH]; intros i t; cbn [ffor]; [by destruct t|]. unfold modify at 1. cbn [snd]. rewrite IH. by destruct t. Qed.

Lemma shift_right (buf : list Z) pos len : 0 <= pos <= len -> len < zlen buf -> let out := (ffor (rounds pos len) 0 (fun j => let i := len - j in modify (fun b => b.[i := b.[i - 1]])) buf).2 in
  zlen out = zlen buf /\ forall i, 0 <= i < zlen buf -> out.[i] = if decide (pos < i <= len) then buf.[i - 1] else buf.[i].
Proof.
  intros Hp Hl out. pose proof (ffor_inv (fun j b => zlen b = zlen buf /\ forall i, 0 <= i < zlen buf -> b.[i] = if decide (len - j < i <= len) then buf.[i - 1] else buf.[i])
    (rounds pos len) 0 (fun j => let i := len - j in modify (fun b => b.[i := b.[i - 1]])) buf) as Hi. cbv beta in Hi. unfold rounds in *.
  destruct Hi as [Hz Hi].
  - split; [done|]. intros i Hi. by rewrite decide_False by lia.
  - intros j b Hj [Hz Hb]. cbn. rewrite zlen_aset. split; [done|]. intros i Hi. rewrite aget_aset by lia. case_decide as Hd.
    + rewrite decide_True by lia. rewrite Hb by lia. rewrite decide_False by lia. by subst.
    + rewrite Hb by lia. destruct (decide (len - j < i <= len)); [by rewrite decide_True by lia|by rewrite decide_False by lia].
  - split; [done|]. intros i Hr. rewrite Hi by done. replace (len - (0 + Z.of_nat (Z.to_nat (len - pos)))) with pos by lia. done.
Qed.
Lemma shift_left (buf : list Z) pos len : 0 < pos <= len -> len <= zlen buf -> let out := (ffor (rounds (pos - 1) (len - 1)) (pos - 1) (fun i => modify (fun b => b.[i := b.[i + 1]])) buf).2 in
  zlen out = zlen buf /\ forall i, 0 <= i < len - 1 -> out.[i] = if decide (pos - 1 <= i) then buf.[i + 1] else buf.[i].
Proof.
  intros Hp Hl out. pose proof (ffor_rounds (fun j b => zlen b = zlen buf /\ forall i, 0 <= i < zlen buf -> b.[i] = if decide (pos - 1 <= i < j) then buf.[i + 1] else buf.[i])
    (pos - 1) (len - 1) (fun i => modify (fun b => b.[i := b.[i + 1]])) buf) as Hi. cbv beta in Hi.
  destruct Hi as [Hz Hi].
  - lia.
  - split; [done|]. intros i Hi. by rewrite decide_False by lia.
  - intros j b Hj [Hz Hb]. cbn. rewrite zlen_aset. split; [done|]. intros i Hi. rewrite aget_aset by lia. case_decide as Hd.
    + rewrite decide_True by lia. rewrite Hb by lia. rewrite decide_False by lia. by subst.
    + rewrite Hb by lia. destruct (decide (pos - 1 <= i < j)); [by rewrite decide_True by lia|by rewrite decide_False by lia].
  - split; [done|]. intros i Hr. rewrite Hi by lia. destruct (decide (pos - 1 <= i < len - 1)); [by rewrite decide_True by lia|by rewrite decide_False by lia].
Qed.
(** The characters of the text, in the buffer. *)
Lemma rep_text_at t e i : rep t e -> 0 <= i < zlen (text e) -> (cmd_buf t).[i] = (text e).[i].
Proof. intros [R1 [R2 _] R3 R4 R5 _ R7 R8] Hi. unfold CMD_BUF_SIZE in *. transitivity (aget (slice (cmd_buf t) 0 (zlen (text e))) i); [by rewrite aget_slice by lia|by rewrite R5]. Qed.

Lemma key_insert t e c : rep t e -> c <> 0 -> rep (insert_char c t).2
  (if zlen (text e) <? CMD_BUF_SIZE - 1 then mk_ed (before e ++ [c]) (behind e) (hist e) (hpos e) else e).
Proof.
  intros Hr Hc. unfold insert_char. rewrite (bind_run (gets _) _ t t t) by done. rewrite (rp_len t e Hr), (rp_pos t e Hr). destruct (Z.ltb_spec (zlen (text e)) (CMD_BUF_SIZE - 1)) as [Hlt|]; [|done].
  set (len := zlen (text e)) in *. set (pos := zlen (before e)) in *. pose proof (rp_buf t e Hr) as Hb. pose proof (rep_zlen t e Hr) as Hz. fold len pos in Hz. assert (Hpos : 0 <= pos) by apply zlen_nonneg. pose proof (zlen_nonneg (behind e)).
  rewrite (bind_run _ _ _ _ _ (set_line_for (fun j b => b.[len - j := b.[len - j - 1]]) (rounds pos len) 0 t)). rewrite run_modify. apply rep_draws; [apply draws_redraw|].
  destruct (shift_right (cmd_buf t) pos len ltac:(lia) ltac:(lia)) as [Ho Hs]. set (out := (ffor _ _ _ (cmd_buf t)).2) in *.
  assert (Et : text (mk_ed (before e ++ [c]) (behind e) (hist e) (hpos e)) = before e ++ c :: behind e) by (unfold text; cbn; by rewrite <- app_assoc).
  assert (Hl : zlen (before e ++ c :: behind e) = len + 1) by (rewrite zlen_app; unfold pos, zlen in *; cbn [length]; lia).
  apply (rep_line t e); [done|cbn; rewrite zlen_aset; congruence| | | | |done|done].
  - rewrite Et. split; [lia|]. destruct (rp_fits t e Hr) as [_ Hf]. unfold text in Hf. rewrite Forall_app in *. destruct Hf. split; [done|by constructor].
  - by rewrite Et.
  - cbn. rewrite zlen_app. done.
  - rewrite Et. cbn. apply list_eq_aget; [rewrite zlen_slice; rewrite ?zlen_aset; lia|]. rewrite zlen_slice by (rewrite ?zlen_aset; lia). intros i Hi.
    rewrite aget_slice by (rewrite ?zlen_aset; lia). rewrite Z.add_0_l, aget_aset by lia. rewrite aget_app by lia. fold pos. case_decide as E1.
    + subst i. rewrite decide_False by lia. by rewrite Z.sub_diag.
    + rewrite Hs by lia. destruct (decide (i < pos)).
      * rewrite decide_False by lia. rewrite (rep_text_at t e) by (done || lia). unfold text. rewrite aget_app by lia. by rewrite decide_True.
      * rewrite decide_True by lia. rewrite (rep_text_at t e) by (done || (fold len; lia)). unfold text. rewrite aget_app by lia. fold pos. rewrite decide_False by lia.
        unfold aget. replace (Z.to_nat (i - pos)) with (Datatypes.S (Z.to_nat (i - 1 - pos))) by lia. done.
Qed.
Lemma key_backspace t e : rep t e -> rep (backspace t).2 (mk_ed (removelast (before e)) (behind e) (hist e) (hpos e)).
Proof.
  intros Hr. unfold backspace. rewrite (bind_run (gets _) _ t t t) by done. rewrite (rp_len t e Hr), (rp_pos t e Hr). destruct (rev (before e)) as [|x b] eqn:Er.
  { apply (f_equal (@rev Z)) in Er. rewrite rev_involutive in Er. cbn [rev] in Er. rewrite Er. cbn [removelast]. change (zlen []) with 0. cbn [Z.ltb Z.compare]. rewrite <- Er. by rewrite set_hpos_same. }
  assert (Eb : before e = rev b ++ [x]) by (by rewrite <- (rev_involutive (before e)), Er). set (b' := rev b) in *. rewrite Eb, removelast_last.
  assert (Hz1 : zlen (b' ++ [x]) = zlen b' + 1) by (rewrite zlen_app; done). rewrite Hz1. pose proof (zlen_nonneg b'). rewrite (proj2 (Z.ltb_lt 0 _)) by lia.
  set (len := zlen (text e)) in *. set (pos := zlen b' + 1) in *. pose proof (rp_buf t e Hr) as Hb. pose proof (rep_zlen t e Hr) as Hz. fold len in Hz. rewrite Eb, Hz1 in Hz. pose proof (zlen_nonneg (behind e)).
  destruct (rp_fits t e Hr) as [Hf1 Hf2]. fold len in Hf1. unfold CMD_BUF_SIZE in *.
  rewrite (bind_run _ _ _ _ _ (set_line_for (fun i b => b.[i := b.[i + 1]]) (rounds (pos - 1) (len - 1)) (pos - 1) t)). rewrite run_modify. apply rep_draws; [apply draws_redraw|].
  destruct (shift_left (cmd_buf t) pos len ltac:(lia) ltac:(lia)) as [Ho Hs]. set (out := (ffor _ _ _ (cmd_buf t)).2) in *.
  assert (Hl : zlen (b' ++ behind e) = len - 1) by (rewrite zlen_app; lia). assert (Et : text e = b' ++ x :: behind e) by (unfold text; by rewrite Eb, <- app_assoc).
  apply (rep_line t e); [done|cbn; unfold CMD_BUF_SIZE; congruence| |unfold text; cbn; lia|cbn; lia| |done|done]; unfold text; cbn [before behind].
  - split; [unfold CMD_BUF_SIZE; lia|]. rewrite Et in Hf2. rewrite Forall_app in *. destruct Hf2 as [? Hf2]. split; [done|by inversion Hf2].
  - cbn. apply list_eq_aget; [rewrite zlen_slice; lia|]. rewrite zlen_slice by lia. intros i Hi. rewrite aget_slice by lia. rewrite Z.add_0_l, Hs by lia.
    rewrite !(rep_text_at t e) by (done || (fold len; lia)). rewrite Et, !aget_app by lia. destruct (decide (i < zlen b')).
    + by rewrite decide_False by lia.
    + rewrite decide_True by lia. rewrite decide_False by lia. unfold aget. replace (Z.to_nat (i + 1 - zlen b')) with (Datatypes.S (Z.to_nat (i - zlen b'))) by lia. done.
Qed.

(** ** Entering a line *)

Lemma rows_push rows n h cmd : rows_are rows n h -> zlen h < HISTORY_SIZE -> fits (cstr cmd) ->
  rows_are (rows.[n := splice (rows.[n]) 0 (strcpy_out cmd)]) (n + 1) (h ++ [cstr cmd]).
Proof.
  intros [I1 I2 I3 I4 I5 I6] Hlt [Hf1 Hf2]. pose proof (zlen_nonneg h). subst n. unfold HISTORY_SIZE, CMD_BUF_SIZE in *.
  assert (Hz : zlen (h ++ [cstr cmd]) = zlen h + 1) by (rewrite zlen_app; done).
  assert (Hs : zlen (splice (rows.[zlen h]) 0 (strcpy_out cmd)) = 32768).
  { unfold strcpy_out. rewrite zlen_splice; [by apply I2|lia|]. rewrite zlen_app, I2 by lia. change (zlen [0]) with 1. lia. }
  constructor; unfold HISTORY_SIZE, CMD_BUF_SIZE; rewrite ?zlen_aset; [done| |lia|lia| |].
  - intros i Hi. rewrite aget_aset by lia. case_decide; [done|by apply I2].
  - intros i Hi. rewrite aget_aset by lia. case_decide as Hd.
    + subst i. rewrite cstr_row by (rewrite I2; lia). unfold aget, zlen. rewrite Nat2Z.id. by rewrite lookup_total_app_r, Nat.sub_diag by lia.
    + rewrite I5 by lia. unfold aget, zlen in *. by rewrite lookup_total_app_l by lia.
  - apply Forall_app. split; [done|]. apply list.Forall_singleton. by split.
Qed.
Lemma rows_shift rows x h : rows_are rows HISTORY_SIZE (x :: h) ->
  rows_are ((ffor (rounds 1 HISTORY_SIZE) 1 (fun i => modify (fun r => r.[i - 1 := splice (r.[i - 1]) 0 (strcpy_out (r.[i]))])) rows).2) (HISTORY_SIZE - 1) h.
Proof.
  intros [I1 I2 I3 I4 I5 I6]. unfold HISTORY_SIZE, CMD_BUF_SIZE in *. assert (Hzh : zlen h = 15) by (unfold zlen in *; cbn [length] in *; lia).
  assert (Hc : forall i, 0 <= i < 16 -> zlen (cstr (rows.[i])) < 32768).
  { intros i Hi. rewrite I5 by lia. destruct (aget_Forall fits (x :: h) i I6 ltac:(lia)) as [Hf _]. unfold CMD_BUF_SIZE in Hf. lia. }
  pose proof (ffor_rounds (fun j r => zlen r = 16 /\ (forall i, 0 <= i < 16 -> zlen (r.[i]) = 32768) /\
      (forall i, 0 <= i < 16 -> cstr (r.[i]) = if decide (i < j - 1) then cstr (rows.[i + 1]) else cstr (rows.[i])))
    1 16 (fun i => modify (fun r => r.[i - 1 := splice (r.[i - 1]) 0 (strcpy_out (r.[i]))])) rows) as Hi. cbv beta in Hi.
  destruct Hi as (J1 & J2 & J3); [lia|split; [done|split; [done|intros i Hi; by rewrite decide_False by lia]]| |].
  - intros j r Hj (K1 & K2 & K3). cbn. rewrite zlen_aset. split; [done|].
    assert (Ej : cstr (r.[j]) = cstr (rows.[j])) by (rewrite K3 by lia; by rewrite decide_False by lia). pose proof (Hc j ltac:(lia)).
    assert (Hs : zlen (splice (r.[j - 1]) 0 (strcpy_out (r.[j]))) = 32768).
    { unfold strcpy_out. rewrite zlen_splice; [apply K2; lia|lia|]. rewrite zlen_app, K2, Ej by lia. change (zlen [0]) with 1. lia. }
    split; intros i Hi; rewrite aget_aset by lia; case_decide as Hd.
    + done.
    + by apply K2.
    + subst i. rewrite cstr_row by (rewrite Ej, K2 by lia; lia). rewrite decide_True by lia. rewrite Ej. do 2 f_equal. lia.
    + rewrite K3 by lia. destruct (decide (i < j - 1)); [by rewrite decide_True by lia|by rewrite decide_False by lia].
  - constructor; [done|exact J2|unfold HISTORY_SIZE; lia|unfold HISTORY_SIZE; lia| |by inversion I6].
    intros i Hi. rewrite J3 by lia. rewrite decide_True by lia. rewrite I5 by lia. unfold aget. by replace (Z.to_nat (i + 1)) with (Datatypes.S (Z.to_nat i)) by lia.
Qed.
Lemma set_history_for (f : Z -> list (list Z) -> list (list Z)) n i t : ffor n i (fun j => modify (fun t => set_history (f j (cmd_history t)) (history_count t) t)) t =
  (tt, set_history ((ffor n i (fun j => modify (f j)) (cmd_history t)).2) (history_count t) t).
Proof. revert i t. induction n as [|n IH]; intros i t; cbn [ffor]; [by destruct t|]. unfold modify at 1. cbn [snd]. rewrite IH. by destruct t. Qed.
Lemma last_line (h : list (list Z)) : 0 < zlen h -> head (rev h) = Some (h.[zlen h - 1]).
Proof.
  intros Hl. destruct (rev h) as [|x b] eqn:E; apply (f_equal (@rev (list Z))) in E; rewrite rev_involutive in E; cbn [rev] in E; subst h; [unfold zlen in Hl; cbn in Hl; lia|].
  rewrite zlen_app. change (zlen [x]) with 1. unfold aget, zlen. replace (Z.to_nat (Z.of_nat (length (rev b)) + 1 - 1)) with (length (rev b)) by lia.
  by rewrite lookup_total_app_r, Nat.sub_diag by lia.
Qed.

(** [history_add] of a line that fits: the rest of the state stays. *)
Lemma history_add_run t h cmd : history_is t h -> fits (cstr cmd) -> let h' := if bool_decide (cstr cmd = []) then h else remember (cstr cmd) h in
  exists rows n, history_add cmd t = (tt, set_hpos (if bool_decide (cstr cmd = []) then history_pos t else zlen h') (set_history rows n t)) /\ rows_are rows n h'.
Proof.
  intros Hh Hf h'. unfold history_add. rewrite (bind_run (gets _) _ t t t) by done. unfold h'. clear h'. destruct (Z.eqb_spec (hd0 cmd) 0) as [E0|Hn].
  { rewrite (cstr_hd0 cmd E0), bool_decide_true by done. exists (cmd_history t), (history_count t). split; [by destruct t|done]. }
  rewrite !bool_decide_false by (rewrite (cstr_cons cmd Hn); done). pose proof Hh as [I1 I2 I3 I4 I5 I6]. pose proof (zlen_nonneg h). unfold remember.
  destruct (decide (head (rev h) = Some (cstr cmd))) as [Hd|Hd].
  - rewrite bool_decide_true by done. assert (Hp : 0 < zlen h) by (destruct h; [done|unfold zlen; cbn; lia]). rewrite (last_line h Hp) in Hd. injection Hd as Hd.
    rewrite I3, (proj2 (Z.ltb_lt 0 _)) by lia. replace (strcmp _ cmd =? 0) with true by (symmetry; apply Z.eqb_eq, strcmp_eq; rewrite I5 by lia; done).
    exists (cmd_history t), (history_count t). split; [by destruct t|done].
  - rewrite bool_decide_false by done. replace ((0 <? history_count t) && (strcmp ((cmd_history t).[history_count t - 1]) cmd =? 0)) with false.
    2:{ symmetry. rewrite I3. destruct (Z.ltb_spec 0 (zlen h)) as [Hp|]; [|done]. cbn. apply Z.eqb_neq. intros E. apply strcmp_eq in E. rewrite I5 in E by lia. apply Hd. by rewrite (last_line h Hp), E. }
    destruct (Z.eqb_spec (zlen h) HISTORY_SIZE) as [Efull|Hroom].
    + rewrite I3, Efull, Z.eqb_refl. cbn [when]. destruct h as [|x h]; [done|]. cbn [tail]. unfold history_is in Hh. rewrite I3, Efull in Hh.
      pose proof (rows_shift _ _ _ Hh) as Hs. pose proof (set_history_for (fun i r => r.[i - 1 := splice (r.[i - 1]) 0 (strcpy_out (r.[i]))]) (rounds 1 HISTORY_SIZE) 1 t) as E1.
      set (rows := (ffor _ _ _ (cmd_history t)).2) in *. eapply (bind_run _ (fun _ => modify (fun t => set_history (cmd_history t) (history_count t - 1) t))) in E1.
      rewrite (bind_run _ _ _ _ _ E1).
      pose proof (rows_push rows (HISTORY_SIZE - 1) h cmd Hs ltac:(unfold zlen, HISTORY_SIZE in *; cbn [length] in *; lia) Hf) as Hp.
      eexists _, _. split; [|exact Hp]. munfold. destruct t. cbn in *. unfold set_hpos, set_history. cbn. subst. rewrite Efull. repeat f_equal. 
      by destruct Hp as [_ _ P3 _ _ _].
    + rewrite I3. rewrite (proj2 (Z.eqb_neq _ _)) by done. pose proof (rows_push _ _ h cmd Hh ltac:(lia) Hf) as Hp. eexists _, _. split; [|exact Hp].
      munfold. destruct t. cbn in *. unfold set_hpos, set_history. cbn. repeat f_equal. by destruct Hp as [_ _ P3 _ _ _].
Qed.

Lemma cstr_split s : zlen (cstr s) < zlen s -> exists r, s = cstr s ++ 0 :: r.
Proof.
  induction s as [|c s IH]; intros Hl; [unfold zlen in Hl; cbn in Hl; lia|]. cbn [cstr] in *. destruct (Z.eqb_spec c 0) as [->|Hc]; [by exists s|].
  destruct IH as [r E]; [unfold zlen in *; cbn [length] in Hl; lia|]. exists r. cbn [app]. by rewrite <- E.
Qed.
Lemma cstr_ends s : zlen (cstr s) < zlen s -> ends_at s 0 (zlen (cstr s)).
Proof.
  intros Hl. destruct (cstr_split s Hl) as [r E]. pose proof (zlen_nonneg (cstr s)). pose proof (cstr_nonzero s) as Hn. set (l := cstr s) in *. clearbody l. subst s.
  split; [lia|]. split; [done|]. split; [unfold aget, zlen; rewrite Nat2Z.id; by rewrite lookup_total_app_r, Nat.sub_diag by lia|].
  intros i Hi. unfold aget. rewrite lookup_total_app_l by (unfold zlen in *; lia). change (aget l i <> 0). apply (aget_Forall (fun c => c <> 0)); [done|lia].
Qed.

Context (commands : list (list Z)) (run_command : Z -> list (list Z) -> st (term S H) unit) (run_handler : H -> Z -> Z -> st (term S H) unit).
(** What happens to a line that was split. *)
Definition run_words (ws : list (list Z)) : st (term S H) unit := fun t =>
  match ws with
  | [] => (tt, t)
  | name :: args =>
      if tcc_guest_blocking (screen t) =? 0 then
        match first_some (fun i => if strcmp name (commands.[i]) =? 0 then Some i else None) (length commands) 0 with
        | Some i => run_command i ws t
        | None => on_screen (klog unknown_msg) t
        end
      else on_screen (klog busy_msg) t
  end.
(** A line is run as a command: [execute_command] hands the first eight
    words of the line, in order, to the first command whose name is the first
    word; no word, no command. Only the command buffer has changed by then. *)
Theorem execute_command_words t : zlen (cstr (cmd_buf t)) < zlen (cmd_buf t) ->
  exists buf, zlen buf = zlen (cmd_buf t) /\
    execute_command commands run_command t = run_words (take 8 (words (cstr (cmd_buf t)))) (set_line buf (cmd_len t) t).
Proof.
  intros Hl. pose proof (cstr_ends _ Hl) as He. pose proof (string_at_slice _ _ _ He) as Hs. unfold string_at in Hs. change (Z.to_nat 0) with 0%nat in Hs. rewrite drop_0, Z.sub_0_r in Hs.
  unfold execute_command. rewrite (bind_run (gets _) _ t t t) by done. destruct (Z.eqb_spec ((cmd_buf t).[0]) 0) as [E0|Hn].
  { exists (cmd_buf t). split; [done|]. assert (Ec : cstr (cmd_buf t) = []) by (apply cstr_hd0; revert E0; by destruct (cmd_buf t)). rewrite Ec. by destruct t. }
  pose proof (split_args_run (length (cmd_buf t)) (cmd_buf t) 0 _ 0 He ltac:(unfold zlen in *; lia) ltac:(lia)) as Hw.
  destruct (split_args _ _ _ _) as [starts out]. destruct Hw as (O1 & _ & _ & O4). exists out. split; [done|]. rewrite run_modify, O4. change (Z.to_nat (8 - 0)) with 8%nat. rewrite Z.sub_0_r, <- Hs.
  unfold run_words. destruct (take 8 _) as [|name args]; [done|]. change (screen (set_line out (cmd_len t) t)) with (screen t). destruct (tcc_guest_blocking (screen t) =? 0); cbn [negb]; [|done]. by destruct (first_some _ _ _).
Qed.

(** Commands do not touch the variables only src/terminal.c knows. *)
Hypothesis commands_keep : forall i argv t, let t' := (run_command i argv t).2 in
  cmd_history t' = cmd_history t /\ history_count t' = history_count t /\ history_pos t' = history_pos t /\ zlen (cmd_buf t') = zlen (cmd_buf t).
Definition same_history t t' : Prop := cmd_history t' = cmd_history t /\ history_count t' = history_count t /\ history_pos t' = history_pos t /\ zlen (cmd_buf t') = zlen (cmd_buf t).
Lemma same_screen (f : S -> S) t : same_history t (on_screen f t).2.
Proof. by destruct t. Qed.
Lemma run_words_keeps ws t : same_history t (run_words ws t).2.
Proof.
  unfold run_words. destruct ws as [|name args]; [done|]. destruct (_ =? 0); [|apply same_screen]. destruct (first_some _ _ _); [apply commands_keep|apply same_screen].
Qed.
Lemma rep_prompt t h p : rep t (mk_ed [] [] h p) -> rep (terminal_show_prompt t).2 (mk_ed [] [] h p).
Proof.
  intros Hr. unfold terminal_show_prompt. rewrite (bind_run (gets _) _ t t t) by done. set (f := fun s : S => _). pose proof (rep_draws (on_screen f) t _ (draws_screen f) Hr) as H1.
  destruct (on_screen f t) as [[] t1] eqn:E1. cbn [snd] in H1. rewrite (bind_run _ _ _ _ _ E1). rewrite run_modify. destruct (screen_pos (screen t1)) as [x y]. rewrite run_modify.
  pose proof H1 as [R1 R2 R3 R4 R5 [I1 I2 I3 I4 I5 I6] R7 R8]. eapply rep_core; [|exact H1]. unfold core. cbn. cbn in R4. change (zlen []) with 0 in R4. by rewrite R4.
Qed.
(** The whole text, as the string the buffer holds once it is ended. *)
Lemma rep_ended t e : rep t e -> cstr ((cmd_buf t).[cmd_len t := 0]) = text e.
Proof.
  intros Hr. pose proof Hr as [R1 [Rf1 Rf2] R3 _ R5 _ _ _]. pose proof (zlen_nonneg (text e)). unfold CMD_BUF_SIZE in *. rewrite R3.
  assert (He : ends_at ((cmd_buf t).[zlen (text e) := 0]) 0 (zlen (text e))).
  { split; [lia|]. split; [rewrite zlen_aset; lia|]. split; [apply aget_aset_eq; lia|]. intros i Hi. rewrite aget_aset_ne by lia. rewrite (rep_text_at t e i Hr) by lia.
    apply (aget_Forall (fun c => c <> 0)); [done|lia]. }
  pose proof (string_at_slice _ _ _ He) as Hs. unfold string_at in Hs. change (Z.to_nat 0) with 0%nat in Hs. rewrite drop_0, Z.sub_0_r in Hs. rewrite Hs. rewrite <- R5 at 3.
  apply slice_ext; [lia|lia|rewrite zlen_aset; lia|by rewrite zlen_aset|]. intros i Hi. apply aget_aset_ne; lia.
Qed.
Lemma key_enter t e : rep t e -> rep (enter commands run_command t).2 (ed_key 10 e).
Proof.
  intros Hr. pose proof (rep_ended t e Hr) as Hc. pose proof Hr as [R1 R2 R3 R4 R5 Hh R7 R8]. unfold enter. rewrite run_modify. set (t1 := set_line _ _ t).
  pose proof (draws_screen (klog [10]) t1) as Hd. destruct (on_screen (klog [10]) t1) as [[] t2] eqn:E2. cbn [snd] in Hd. rewrite (bind_run _ _ _ _ _ E2), (bind_run (gets _) _ t2 t2 t2) by done.
  unfold core in Hd. injection Hd as D1 D2 D3 D4 D5 D6 _.
  assert (Hh2 : history_is t2 (hist e)) by (unfold history_is; rewrite D4, D5; exact Hh). assert (Hc2 : cstr (cmd_buf t2) = text e) by (rewrite D1; exact Hc).
  destruct (history_add_run t2 (hist e) (cmd_buf t2) Hh2 ltac:(by rewrite Hc2)) as (rows & n & E3 & Hrows). rewrite (bind_run _ _ _ _ _ E3). rewrite Hc2 in *. set (t3 := set_hpos _ _) in *.
  assert (Hb3 : zlen (cmd_buf t3) = CMD_BUF_SIZE) by (change (cmd_buf t3) with (cmd_buf t2); rewrite D1; unfold t1; cbn; by rewrite zlen_aset).
  destruct (execute_command_words t3) as (buf & Hbuf & E4). { rewrite Hb3. change (cmd_buf t3) with (cmd_buf t2). rewrite Hc2. destruct R2 as [Hf _]. lia. }
  set (t4 := set_line buf (cmd_len t3) t3) in *. set (ws := take 8 _) in *. destruct (run_words_keeps ws t4) as (K1 & K2 & K3 & K4). rewrite <- E4 in K1, K2, K3, K4.
  destruct (execute_command commands run_command t3) as [[] t5] eqn:E5. cbn [snd] in *. rewrite (bind_run _ _ _ _ _ E5), run_modify, (bind_run (gets _) _ _ _ _ eq_refl).
  set (t6 := set_shown 0 _). set (h' := if bool_decide (text e = []) then hist e else remember (text e) (hist e)) in *. set (p' := if bool_decide (text e = []) then history_pos t2 else zlen h') in *.
  assert (Ee : ed_key 10 e = mk_ed [] [] h' p').
  { change (ed_key 10 e) with (if bool_decide (text e = []) then e else let h := remember (text e) (hist e) in mk_ed [] [] h (zlen h)). unfold p', h'. case_bool_decide as Hb; [|done].
    rewrite D6. change (history_pos t1) with (history_pos t). rewrite R7. unfold text in Hb. apply app_eq_nil in Hb as [Hb1 Hb2]. destruct e; cbn in *; by subst. }
  assert (R6 : rep t6 (mk_ed [] [] h' p')).
  { constructor; unfold text; cbn [before behind hist hpos app]; try done.
    - change (cmd_buf t6) with (cmd_buf t5). by rewrite K4, <- Hb3.
    - unfold history_is. change (cmd_history t6) with (cmd_history t5). change (history_count t6) with (history_count t5). rewrite K1, K2. exact Hrows.
    - unfold p', h'. case_bool_decide; [rewrite D6; change (history_pos t1) with (history_pos t); lia|]. pose proof (zlen_nonneg (remember (text e) (hist e))). lia. }
  rewrite Ee. destruct (screen_app_mode _ =? 0); [by apply rep_prompt|done].
Qed.

(** C11 - The command line is an editor of a text with a cursor and of a list of
    the lines entered: while no handler of src/focus.c has the keyboard, each
    key does to the state of src/terminal.c what [ed_key] does to the text, the
    cursor and the history. The text never outgrows its buffer, the history
    never its 16 rows, and a command that runs in between changes neither. *)
Theorem terminal_key_edits c t e : rep t e -> focus_active (keys t) = false -> c <> 0 ->
  rep (terminal_key commands run_command run_handler c t).2 (ed_key c e).
Proof.
  intros Hr Hf Hc. unfold terminal_key. rewrite (bind_run (gets _) _ t t t), Hf, (proj2 (Z.eqb_neq c 0)) by done. unfold edit_key. rewrite (bind_run (gets _) _ t t t) by done.
  pose proof (rep_start t e Hr) as Hs. cbv zeta in Hs. destruct (when _ _ t) as [[] t1] eqn:E1. cbn [snd] in Hs. rewrite (bind_run _ _ _ _ _ E1).
  pose proof (rep_core t t1 e Hs Hr) as Hr1. pose proof Hr as [_ _ R3 R4 _ [_ _ I3 _ _ _] R7 R8]. rewrite I3, R7, R4, R3. unfold ed_key.
  destruct (c =? ARROW_UP).
  { destruct (Z.eqb_spec (zlen (hist e)) 0) as [|Hn]; [done|]. replace (if 0 <? hpos e then hpos e - 1 else hpos e) with (Z.max 0 (hpos e - 1)) by (destruct (Z.ltb_spec 0 (hpos e)); lia).
    rewrite run_modify. apply (rep_recall _ (mk_ed (before e) (behind e) (hist e) (Z.max 0 (hpos e - 1)))); [apply rep_hpos; [done|lia]|cbn; lia|done]. }
  destruct (c =? ARROW_DOWN).
  { destruct (Z.eqb_spec (zlen (hist e)) 0) as [|Hn]; [done|]. destruct (Z.ltb_spec (hpos e) (zlen (hist e) - 1)); rewrite run_modify.
    - apply (rep_recall _ (mk_ed (before e) (behind e) (hist e) (hpos e + 1))); [apply rep_hpos; [done|lia]|cbn; lia|done].
    - apply (rep_clear _ (mk_ed (before e) (behind e) (hist e) (zlen (hist e)))). apply rep_hpos; [done|lia]. }
  destruct (c =? ARROW_ESC); [done|]. destruct (c =? ARROW_LEFT); [by apply (key_left t1 e)|]. destruct (c =? ARROW_RIGHT); [by apply (key_right t1 e)|].
  destruct (Z.eqb_spec c 10) as [->|_]; [by apply (key_enter t1 e)|]. destruct (c =? 8); [by apply key_backspace|by apply key_insert].
Qed.
End edit.

(** ** A terminal after start-up, on a screen that keeps what was written *)

#[export] Instance paper : Screen (list Z) := {|
  klog := fun s l => l ++ s; klog_color := fun s _ l => l ++ s; draw_char := fun _ _ _ l => l; cursor := fun l => l;
  screen_pos := fun _ => (0, 0); set_screen_pos := fun _ _ l => l; Wwidth := fun _ => 640; screen_app_mode := fun _ => 0; tcc_guest_blocking := fun _ => 0;
|}.
Definition start (buf : list Z) : term (list Z) nat := mk_term buf 0 0 0 0 0 (replicate 16 (replicate (Z.to_nat 32768) 0)) 0 0 [] focus_boot [].
Definition boot : term (list Z) nat := start (replicate (Z.to_nat 32768) 0).
(** One command, "ls", that writes its last argument. *)
Definition names : list (list Z) := [[108; 115]].
Definition run_ls (i : Z) (argv : list (list Z)) : st (term (list Z) nat) unit := on_screen (klog (argv.[zlen argv - 1])).
Lemma zero_row : zlen (replicate (Z.to_nat 32768) 0) = CMD_BUF_SIZE /\ cstr (replicate (Z.to_nat 32768) 0) = [].
Proof. split; [rewrite zlen_replicate; reflexivity|by vm_compute]. Qed.
Lemma boot_rep : rep boot (mk_ed [] [] [] 0).
Proof.
  constructor; unfold text; cbn [before behind hist hpos app]; try done.
  constructor; try done.
  - intros i Hi. unfold HISTORY_SIZE in Hi. cbn [cmd_history boot start]. rewrite aget_replicate by lia. apply zero_row.
  - intros i Hi. change (zlen []) with 0 in Hi. lia.
Qed.
Lemma run_ls_keeps i argv t : let t' := (run_ls i argv t).2 in
  cmd_history t' = cmd_history t /\ history_count t' = history_count t /\ history_pos t' = history_pos t /\ zlen (cmd_buf t') = zlen (cmd_buf t).
Proof. by destruct t. Qed.
Lemma terminal_key_edits_witness : rep (terminal_key names run_ls (fun _ _ _ => mret tt) 108 boot).2 (mk_ed [108] [] [] 0).
Proof.
  apply (terminal_key_edits names run_ls (fun _ _ _ => mret tt) run_ls_keeps 108 boot (mk_ed [] [] [] 0) boot_rep); [reflexivity|lia].
Defined.
(** "ls  -a x" *)
Definition line : list Z := [108; 115; 32; 32; 45; 97; 32; 120; 0; 7].
Lemma execute_command_words_witness : exists buf, screen (execute_command names run_ls (start line)).2 = [120] /\ zlen (buf : list Z) = 10.
Proof.
  destruct (execute_command_words names run_ls (start line) ltac:(vm_compute; reflexivity)) as (buf & Hb & E). exists buf. split; [|exact Hb]. rewrite E. reflexivity.
Defined.
End TermEdit.
