(* ===== verification/Syscall.v ===== *)
(** System calls (src/syscall.c, src/syscall.h): [syscall_dispatch], from the
    registers of the caller to the result in eax.

    A pointer from ring 3 is followed as the code follows it: through the
    directory in use, in ring 0, so that a page must be present and nothing
    else is asked of it (CR0.WP is never set). An access to a page that is not
    present stops the machine: fault_handler returns from no exception of
    ring 0; the state the model gives then means nothing. Bytes and strings are
    read as a whole before the call they go to begins.

    The file layer and the tasks both know the task that runs and the lock of
    the file layer; [proc_step] hands them over and back. *)
From S2P Require Import Prelude CString Disk Env Pmm Mem Paging PagingSpec VfsData Vfs Task Elf Clock.
From stdpp Require Import base list gmap numbers.
From Stdlib Require Import ZArith Lia.
Import CString Env Mem Paging PagingSpec Task Elf Clock.
Open Scope Z_scope.

(** The calls of the POSIX part of src/vfs.h that the dispatch makes. [None]:
    the call waits, for the lock or, within [fuel] rounds, for input. *)
Class PosixOps (F : Type) := {
  posix_open : list Z -> Z -> st F (option Z);
  posix_close : Z -> st F (option Z);
  posix_read : nat -> Z -> Z -> st F (option (Z * list Z));
  posix_write : Z -> list Z -> st F (option Z);
  posix_lseek : Z -> Z -> Z -> st F (option Z);
  posix_unlink : list Z -> st F (option Z);
  posix_mkdir : list Z -> st F (option Z);
  (** [klog] *)
  print : list Z -> st F unit;
  (** the task that runs and the lock, handed in; the lock, handed back *)
  file_ctx : Z -> VfsData.lockst -> F -> F;
  file_lock : F -> VfsData.lockst;
}.

Module Syscall.

Definition SYS_EXIT : Z := 1.
Definition SYS_WRITE : Z := 2.
Definition SYS_YIELD : Z := 3.
Definition SYS_COSFS_OPEN : Z := 4.
Definition SYS_COSFS_CLOSE : Z := 5.
Definition SYS_COSFS_READ : Z := 6.
Definition SYS_COSFS_WRITE : Z := 7.
Definition SYS_COSFS_LSEEK : Z := 8.
Definition SYS_COSFS_UNLINK : Z := 9.
Definition SYS_COSFS_MKDIR : Z := 10.
Definition SYS_FAT32_OPEN : Z := 11.
Definition SYS_FAT32_CLOSE : Z := 12.
Definition SYS_FAT32_READ : Z := 13.
Definition SYS_FAT32_WRITE : Z := 14.
Definition SYS_FAT32_LSEEK : Z := 15.
Definition SYS_FAT32_UNLINK : Z := 16.
Definition SYS_FAT32_MKDIR : Z := 17.
Definition SYS_BRK : Z := 18.
Definition SYS_SPAWN : Z := 19.
Definition SYS_GETTIME : Z := 20.
Definition ELF_SPAWN_MAX_ARGV : Z := 16.
Definition ELF_SPAWN_ARG_MAX : Z := 64.
Definition ELF_SPAWN_PATH_MAX : Z := 128.

(** The registers of the caller that the dispatch reads. *)
Record registers := mk_regs { eax : Z; ebx : Z; ecx : Z; edx : Z }.
Inductive outcome :=
| Returns (eax : Z)
| Busy  (** the call waits, or still reads a string *)
| Faults (va : Z)  (** page fault in ring 0 *)
| Exits.

(** ** Memory of the caller *)

Section memory.
Context {A : Type}.
Implicit Types h : hw A.
(** The physical address behind an address, in the directory in use. *)
Definition virt h (va : Z) : option Z :=
  match walk h (cr3 h) va with Some p => if present p then Some (frame_of p + va mod 4096) else None | None => None end.
(** [inl va]: the access at [va] faults. *)
Fixpoint user_bytes h (n : nat) (va : Z) : Z + list Z :=
  match n with
  | O => inr []
  | S n =>
      match virt h va with
      | None => inl va
      | Some a => match user_bytes h n (u32 (va + 1)) with inl e => inl e | inr l => inr (ld8 (ram h) a :: l) end
      end
  end.
(** The characters up to a zero, [n] at most; whether the zero was met. *)
Fixpoint user_strn h (n : nat) (va : Z) : Z + (list Z * bool) :=
  match n with
  | O => inr ([], false)
  | S n =>
      match virt h va with
      | None => inl va
      | Some a =>
          if ld8 (ram h) a =? 0 then inr ([], true) else
          match user_strn h n (u32 (va + 1)) with inl e => inl e | inr (l, z) => inr (ld8 (ram h) a :: l, z) end
      end
  end.
Fixpoint user_store h (bs : list Z) (va : Z) : Z + hw A :=
  match bs with
  | [] => inr h
  | b :: bs => match virt h va with None => inl va | Some a => user_store (set_ram (st8 a b (ram h)) h) bs (u32 (va + 1)) end
  end.
(** The strings a vector of [n] pointers points to, cut to a buffer each;
    [None]: a null pointer. *)
Fixpoint user_argv h (n : nat) (uargv : Z) : Z + option (list (list Z)) :=
  match n with
  | O => inr (Some [])
  | S n =>
      match user_bytes h 4 uargv with
      | inl e => inl e
      | inr w =>
          if le_get w =? 0 then inr None else
          match user_strn h (Z.to_nat (ELF_SPAWN_ARG_MAX - 1)) (le_get w) with
          | inl e => inl e
          | inr (s, _) => match user_argv h n (u32 (uargv + 4)) with inr (Some l) => inr (Some (s :: l)) | r => r end
          end
      end
  end.
End memory.

(** ** The dispatch *)

(** The kernel's parts, the clock and the hours the timezone adds. *)
Record sys (F A C : Type) := mk_sys { proc : est F A; clock : C; timezone : Z }.
Arguments mk_sys {F A C}. Arguments proc {F A C}. Arguments clock {F A C}. Arguments timezone {F A C}.

Section ops.
Context {F A C : Type} `{FileOps F} `{PosixOps F} `{FrameAlloc A} `{Cmos C}.
Context (task_kstacks : Z).
#[local] Abbreviation M := (st (sys F A C)).

Definition kernel (s : sys F A C) : kst A := kstate (proc s).
Definition memory (s : sys F A C) : hw A := khw (kernel s).
Definition sync_in (p : est F A) : est F A := mk_est (file_ctx (Task.current_task (kstate p)) (vfs_lock (kstate p)) (fstate p)) (kstate p) (estate p).
Definition sync_out (p : est F A) : est F A := mk_est (fstate p) (set_vfs_lock (file_lock (fstate p)) (kstate p)) (estate p).
Definition proc_step {R} (m : st (est F A) R) : M R := fun s => let '(r, p) := m (sync_in (proc s)) in (r, mk_sys (sync_out p) (clock s) (timezone s)).
Definition kern_step {R} (m : st (kst A) R) : M R := fun s =>
  let '(r, k) := m (kernel s) in (r, mk_sys (mk_est (fstate (proc s)) k (estate (proc s))) (clock s) (timezone s)).

(** A step that may fault, and one that may wait. *)
Definition fetch {R} (r : Z + R) (k : R -> M outcome) : M outcome := match r with inl va => mret (Faults va) | inr x => k x end.
Definition call {R} (m : st (est F A) (option R)) (k : R -> M outcome) : M outcome :=
  r ← proc_step m; match r with Some x => k x | None => mret Busy end.
Definition returns (v : Z) : M outcome := mret (Returns (u32 v)).
(** The string at a pointer that is not null. *)
Definition with_path (fuel : nat) (p : Z) (k : list Z -> M outcome) : M outcome := fun s =>
  if p =? 0 then (Returns (u32 (-1)), s) else
  match user_strn (memory s) fuel p with
  | inl va => (Faults va, s)
  | inr (path, true) => k path s
  | inr (_, false) => (Busy, s)
  end.

Definition sys_write (buf len : Z) : M outcome := fun s =>
  if buf =? 0 then (Returns (u32 (-1)), s) else
  fetch (user_bytes (memory s) (Z.to_nat len) buf)
    (fun bytes => proc_step (fun p => let '(_, f) := ffor (length bytes) 0 (fun i => print (cstr [bytes.[i]])) (fstate p) in (tt, mk_est f (kstate p) (estate p)));; returns len) s.
Definition sys_spawn (upath uargv argc : Z) : M outcome := fun s =>
  if (upath =? 0) || (argc <? 0) || (ELF_SPAWN_MAX_ARGV <? argc) then (Returns (u32 (-1)), s) else
  if (0 <? argc) && (uargv =? 0) then (Returns (u32 (-1)), s) else
  fetch (user_strn (memory s) (Z.to_nat (ELF_SPAWN_PATH_MAX - 1)) upath) (fun '(path, _) =>
  fetch (user_argv (memory s) (Z.to_nat argc) uargv) (fun argv =>
    match argv with
    | None => returns (-1)
    | Some argv => call (elf_exec_argv task_kstacks path argv argc 1) (fun r => returns (if r =? ELF_OK then 0 else -1))
    end)) s.
Definition sys_read (fuel : nat) (fd buf count : Z) : M outcome := fun s =>
  if buf =? 0 then (Returns (u32 (-1)), s) else
  call (in_files (posix_read fuel fd count)) (fun '(r, bytes) s1 =>
    fetch (user_store (memory s1) bytes buf) (fun h => kern_step (modify (set_hw h));; returns r) s1) s.
Definition sys_fwrite (fd buf count : Z) : M outcome := fun s =>
  if buf =? 0 then (Returns (u32 (-1)), s) else
  fetch (user_bytes (memory s) (Z.to_nat count) buf) (fun bytes => call (in_files (posix_write fd bytes)) returns) s.

(** [fuel] bounds the strings read and the rounds of waiting for input. *)
Definition syscall_dispatch (fuel : nat) (regs : registers) : M outcome :=
  let n := eax regs in
  if n =? SYS_EXIT then kern_step task_exit;; mret Exits else
  if n =? SYS_WRITE then sys_write (ebx regs) (ecx regs) else
  if n =? SYS_YIELD then mret (Returns 0) else
  if n =? SYS_BRK then s ← gets (fun s => s); r ← kern_step (task_set_heap_break (Task.current_task (kernel s)) (ebx regs)); mret (Returns r) else
  if n =? SYS_SPAWN then sys_spawn (ebx regs) (ecx regs) (s32 (edx regs)) else
  if n =? SYS_GETTIME then fun s => let '(r, c) := rtc_to_epoch (timezone s) (clock s) in (Returns r, mk_sys (proc s) c (timezone s)) else
  if (n =? SYS_COSFS_OPEN) || (n =? SYS_FAT32_OPEN) then with_path fuel (ebx regs) (fun path => call (in_files (posix_open path (s32 (ecx regs)))) returns) else
  if (n =? SYS_COSFS_CLOSE) || (n =? SYS_FAT32_CLOSE) then call (in_files (posix_close (s32 (ebx regs)))) returns else
  if (n =? SYS_COSFS_READ) || (n =? SYS_FAT32_READ) then sys_read fuel (s32 (ebx regs)) (ecx regs) (edx regs) else
  if (n =? SYS_COSFS_WRITE) || (n =? SYS_FAT32_WRITE) then sys_fwrite (s32 (ebx regs)) (ecx regs) (edx regs) else
  if (n =? SYS_COSFS_LSEEK) || (n =? SYS_FAT32_LSEEK) then call (in_files (posix_lseek (s32 (ebx regs)) (s32 (ecx regs)) (s32 (edx regs)))) returns else
  if (n =? SYS_COSFS_UNLINK) || (n =? SYS_FAT32_UNLINK) then with_path fuel (ebx regs) (fun path => call (in_files (posix_unlink path)) returns) else
  if (n =? SYS_COSFS_MKDIR) || (n =? SYS_FAT32_MKDIR) then
    with_path fuel (ebx regs) (fun path => call (in_files (posix_mkdir path)) (fun r => returns (if r =? 0 then 0 else -1)))
  else returns (-1).
End ops.
End Syscall.
