(* ===== verification/SyscallProps.v ===== *)
(** What the system calls do: a read delivers the bytes of the
    file, a spawn runs the program, a bad pointer stops the machine. *)
From S2P Require Import Prelude CString Disk Env Pmm Mem Paging PagingSpec VfsData Vfs Task TaskSpace TaskCreate Elf ElfArgs ElfProps Clock Syscall TaskDemo ElfSpec.
From stdpp Require Import base list gmap numbers.
From Stdlib Require Import ZArith Lia.
Import CString Env Mem Paging PagingSpec Task TaskSpace TaskCreate Elf ElfArgs ElfProps Clock Syscall.
Open Scope Z_scope.

Module SyscallProps.

(** ** Pointers *)

Section pointers.
Context {F A C : Type} `{FileOps F} `{PosixOps F} `{FrameAlloc A} `{Cmos C}.
Context (task_kstacks : Z).
Implicit Types s : sys F A C.

(** A pointer is not checked before it is followed: when the path of an
    open, a removal or a new directory, or of a program to start, lies in a
    page that is not present, the kernel itself faults, and the machine stops. *)
Theorem syscall_bad_pointer fuel regs s : (0 < fuel)%nat ->
  eax regs ∈ [SYS_COSFS_OPEN; SYS_FAT32_OPEN; SYS_COSFS_UNLINK; SYS_FAT32_UNLINK; SYS_COSFS_MKDIR; SYS_FAT32_MKDIR; SYS_SPAWN] ->
  (eax regs = SYS_SPAWN -> edx regs = 0) ->
  ebx regs <> 0 -> virt (memory s) (ebx regs) = None ->
  syscall_dispatch task_kstacks fuel regs s = (Faults (ebx regs), s).
Proof.
  intros Hf Hn Hx Hb Hv. assert (Hs : forall n, (0 < n)%nat -> user_strn (memory s) n (ebx regs) = inl (ebx regs)) by (intros [|n] Hn'; [lia|]; cbn; by rewrite Hv).
  assert (Hp : forall k, with_path fuel (ebx regs) k s = (Faults (ebx regs), s)) by (intros k; unfold with_path; by rewrite (proj2 (Z.eqb_neq _ 0) Hb), Hs).
  rewrite !list.elem_of_cons in Hn. destruct Hn as [E|[E|[E|[E|[E|[E|[E|Hn]]]]]]]; [unfold syscall_dispatch; rewrite E; apply Hp..| |by apply list.elem_of_nil in Hn].
  assert (E0 : syscall_dispatch task_kstacks fuel regs s = sys_spawn task_kstacks (ebx regs) (ecx regs) (s32 (edx regs)) s) by (unfold syscall_dispatch; by rewrite E).
  rewrite E0, (Hx E). unfold sys_spawn. rewrite (proj2 (Z.eqb_neq _ 0) Hb).
  change (false || (s32 0 <? 0) || (ELF_SPAWN_MAX_ARGV <? s32 0)) with false. change ((0 <? s32 0) && (ecx regs =? 0)) with false. cbv iota. by rewrite Hs by (vm_compute; lia).
Qed.
End pointers.

(** ** Memory of the caller *)

Section buffers.
Context {A : Type}.
Implicit Types h : hw A.
(** The bytes of the two entries through which an address is reached. *)
Definition walks h (va a : Z) : Prop :=
  (cr3 h + 4 * pd_index va <= a < cr3 h + 4 * pd_index va + 4) \/
  (frame_of (pde h (cr3 h) (pd_index va)) + 4 * pt_index va <= a < frame_of (pde h (cr3 h) (pd_index va)) + 4 * pt_index va + 4).
(** A buffer from [lo] to [hi], the byte at [va] at the physical address [pa va]:
    present, no byte twice, none of them in the tables it is reached through. *)
Record buffer h (lo hi : Z) (pa : Z -> Z) : Prop := {
  bu_range : 0 <= lo <= hi; bu_top : hi < 2 ^ 32;
  bu_virt : forall va, lo <= va < hi -> virt h va = Some (pa va);
  bu_inj : forall va vb, lo <= va < hi -> lo <= vb < hi -> pa va = pa vb -> va = vb;
  bu_apart : forall va vb, lo <= va < hi -> lo <= vb < hi -> ~ walks h vb (pa va);
}.
Lemma walks_kept h a b va : ~ walks h va a -> let h' := set_ram (st8 a b (ram h)) h in
  virt h' va = virt h va /\ (forall c, walks h' va c <-> walks h va c).
Proof.
  intros Hn h'. assert (Hs : forall w, ~ w <= a < w + 4 -> ld32 (ram h') w = ld32 (ram h) w) by (intros w Hw; apply (ld32_store_ne (ram h) a [b]); change (zlen [b]) with 1; lia).
  assert (E1 : pde h' (cr3 h') (pd_index va) = pde h (cr3 h) (pd_index va)) by (apply Hs; intros Hw; apply Hn; left; exact Hw).
  unfold virt, walk, walks. rewrite E1. change (cr3 h') with (cr3 h). split; [|done]. destruct (present (pde h (cr3 h) (pd_index va))); [|done].
  unfold pte. rewrite Hs; [done|]. intros Hw. apply Hn. right. lia.
Qed.
Lemma user_store_run bs : is_bytes bs -> forall h va pa, buffer h va (va + zlen bs) pa ->
  exists h', user_store h bs va = inr h' /\ frames h' = frames h /\ cr3 h' = cr3 h /\
    (forall i, 0 <= i < zlen bs -> ld8 (ram h') (pa (va + i)) = bs.[i]) /\
    (forall a, (forall i, 0 <= i < zlen bs -> a <> pa (va + i)) -> ld8 (ram h') a = ld8 (ram h) a).
Proof.
  induction 1 as [|b bs Hb Hbs IH]; intros h va pa Hbu; cbn [user_store].
  { exists h. split_and!; try done. intros i Hi. change (zlen []) with 0 in Hi. lia. }
  assert (Hz : zlen (b :: bs) = zlen bs + 1) by (unfold zlen; cbn; lia). rewrite Hz in *. pose proof (zlen_nonneg bs). destruct Hbu as [B1 B0 B2 B3 B4].
  rewrite B2 by lia. rewrite u32_small by lia. set (h1 := set_ram (st8 (pa va) b (ram h)) h).
  assert (Hk : forall vb, va <= vb < va + (zlen bs + 1) -> virt h1 vb = virt h vb /\ forall c, walks h1 vb c <-> walks h vb c) by (intros vb Hvb; apply walks_kept, B4; lia).
  destruct (IH h1 (va + 1) pa) as (h' & E & F1 & F2 & F3 & F4).
  { constructor; [lia|lia| | |].
    - intros vb Hvb. destruct (Hk vb ltac:(lia)) as [-> _]. apply B2. lia.
    - intros v1 v2 H1 H2. apply B3; lia.
    - intros v1 v2 H1 H2. destruct (Hk v2 ltac:(lia)) as [_ ->]. apply B4; lia. }
  exists h'. split; [done|]. split; [done|]. split; [done|]. split.
  - intros i Hi. destruct (decide (i = 0)) as [->|Hn].
    + rewrite Z.add_0_r. rewrite F4; [|intros j Hj E1; apply B3 in E1; lia]. change (ram h1) with (store_bytes (pa va) [b] (ram h)). rewrite ld8_store_bytes, decide_True by (change (zlen [b]) with 1; lia).
      rewrite Z.sub_diag. by apply u8_small.
    + specialize (F3 (i - 1) ltac:(lia)). replace (va + 1 + (i - 1)) with (va + i) in F3 by lia. rewrite F3. unfold aget. by replace (Z.to_nat i) with (S (Z.to_nat (i - 1))) by lia.
  - intros a Ha. rewrite F4; [|intros i Hi; specialize (Ha (i + 1) ltac:(lia)); by replace (va + 1 + i) with (va + (i + 1)) by lia].
    change (ram h1) with (store_bytes (pa va) [b] (ram h)). rewrite ld8_store_bytes, decide_False; [done|]. change (zlen [b]) with 1. specialize (Ha 0 ltac:(lia)). rewrite Z.add_0_r in Ha. lia.
Qed.
Lemma user_strn_bytes h n : forall va l z, user_strn h n va = inr (l, z) -> is_bytes l.
Proof.
  induction n as [|n IH]; intros va l z; cbn; [by intros [= <- _]; constructor|]. destruct (virt h va); [|done]. destruct (_ =? 0); [intros [= <- _]; constructor|].
  destruct (user_strn h n _) as [|[l' z']] eqn:E; [done|]. intros [= <- _]. constructor; [apply ld8_byte|by eapply IH].
Qed.
Lemma user_argv_strings h n : forall p l, user_argv h n p = inr (Some l) -> length l = n /\ Forall is_bytes l.
Proof.
  induction n as [|n IH]; intros p l; cbn [user_argv]; [intros [= <-]; by split|]. destruct (user_bytes h 4 p); [done|]. destruct (_ =? 0); [done|].
  destruct (user_strn _ _ _) as [|[s0 z]] eqn:E; [done|]. destruct (user_argv h n _) as [|[l'|]] eqn:E1; [done| |done]. intros [= <-]. destruct (IH _ _ E1). cbn. split; [lia|].
  constructor; [by eapply user_strn_bytes|done].
Qed.
End buffers.

(** ** Reading a file, starting a program *)

Section calls.
Context {F A C : Type} `{FileLaws F} `{PosixOps F} `{FrameAlloc A, !FrameAllocLaws A} `{Cmos C}.
Context (task_kstacks : Z).
Implicit Types s : sys F A C.

(** C12 - A read of a file delivers: what the file layer reads ends up in the
    caller's buffer, byte by byte through the pages the buffer lies in, and
    nowhere else; the result is what the file layer says. That the pages are
    the caller's is not asked: any page present in the directory in use does. *)
Theorem syscall_read_delivers fuel regs s r bytes f' pa : eax regs = SYS_COSFS_READ \/ eax regs = SYS_FAT32_READ -> ecx regs <> 0 ->
  posix_read fuel (s32 (ebx regs)) (edx regs) (fstate (sync_in (proc s))) = (Some (r, bytes), f') -> is_bytes bytes ->
  buffer (memory s) (ecx regs) (ecx regs + zlen bytes) pa ->
  exists s', syscall_dispatch task_kstacks fuel regs s = (Returns (u32 r), s') /\ fstate (proc s') = f' /\ tasks (kernel s') = tasks (kernel s) /\
    frames (memory s') = frames (memory s) /\ cr3 (memory s') = cr3 (memory s) /\
    (forall i, 0 <= i < zlen bytes -> ld8 (ram (memory s')) (pa (ecx regs + i)) = bytes.[i]) /\
    (forall a, (forall i, 0 <= i < zlen bytes -> a <> pa (ecx regs + i)) -> ld8 (ram (memory s')) a = ld8 (ram (memory s)) a).
Proof.
  intros Hn Hx Hr Hby Hbu. assert (E0 : syscall_dispatch task_kstacks fuel regs s = sys_read fuel (s32 (ebx regs)) (ecx regs) (edx regs) s) by (unfold syscall_dispatch; by destruct Hn as [-> | ->]).
  rewrite E0. unfold sys_read. rewrite (proj2 (Z.eqb_neq _ 0) Hx). unfold call. set (s1 := mk_sys (sync_out (mk_est f' (kstate (proc s)) (estate (proc s)))) (clock s) (timezone s)).
  assert (E1 : proc_step (in_files (posix_read fuel (s32 (ebx regs)) (edx regs))) s = (Some (r, bytes), s1)) by (unfold proc_step, in_files; by rewrite Hr).
  rewrite (bind_run _ _ _ _ _ E1). cbv beta iota. destruct (user_store_run bytes Hby (memory s1) (ecx regs) pa Hbu) as (h' & E & F1 & F2 & F3 & F4). rewrite E. cbn [fetch].
  eexists. split; [reflexivity|]. by split_and!.
Qed.

Lemma running_lock k k1 slot c argv argc priority env k' d sp l : running task_kstacks k k1 slot c argv argc priority env k' d sp ->
  running task_kstacks k k1 slot c argv argc priority env (set_vfs_lock l k') d sp.
Proof. intros [R1 R2 R3 R4 R5 R6 R7]. by constructor. Qed.

(** Starting a program from ring 3: the path and the arguments are read
    from the caller's memory, at most 127 characters and 63 of each argument;
    with a program file behind the path and memory enough, the result is 0 and
    the new task runs the program with these arguments, as [running] says. *)
Theorem syscall_spawn_runs fuel regs s path z argv fd f1 c slot k1 : eax regs = SYS_SPAWN -> ebx regs <> 0 ->
  let argc := s32 (edx regs) in let p := proc s in let k := kstate p in
  0 <= argc <= ELF_SPAWN_MAX_ARGV -> (argc <> 0 -> ecx regs <> 0) ->
  user_strn (memory s) 127 (ebx regs) = inr (path, z) -> user_argv (memory s) (Z.to_nat argc) (ecx regs) = inr (Some argv) ->
  file_open path Vfs.O_RDONLY (fstate (sync_in p)) = (Some fd, f1) -> 0 <= fd -> holds_file f1 fd c -> program_file task_kstacks slot c ->
  place k slot k1 -> kernel_space (khw k) -> clear_of (khw k) (kstack_top task_kstacks slot - 4096) page_directory ->
  kstack_top task_kstacks slot mod 4096 = 0 -> 16384 <= kstack_top task_kstacks slot <= USER_HEAP_BASE -> used (khw k) (kstack_top task_kstacks slot - 4096) = true ->
  4 + Z.of_nat (pages_of c) <= TASK_MAX_OWNED_FRAMES -> free_at_least (khw k) (9 + (2 * pages_of c + 1)) ->
  0 <= env_count (estate p) <= ELF_MAX_ENV -> (forall i, 0 <= i < env_count (estate p) -> is_bytes (env_str (estate p) i)) ->
  block_size argv argc (estate p) <= ELF_MAX_ARGV_BYTES ->
  exists s' d sp, syscall_dispatch task_kstacks fuel regs s = (Returns 0, s') /\ running task_kstacks k k1 slot c argv argc 1 (estate p) (kernel s') d sp.
Proof.
  intros Hn Hb argc p k Hargc Hcx Hpath Hargv Ho Hfd Hf Hp Hpl Hks Hcl Hta Htr Htu Hcnt Hfr He Hbe Hsz.
  assert (E0 : syscall_dispatch task_kstacks fuel regs s = sys_spawn task_kstacks (ebx regs) (ecx regs) argc s) by (unfold syscall_dispatch; by rewrite Hn).
  destruct (user_argv_strings _ _ _ _ Hargv) as [Hl Hba]. unfold ELF_SPAWN_MAX_ARGV in *.
  destruct (elf_exec_runs task_kstacks (fstate (sync_in p)) f1 k k1 (estate p) c fd slot path argv argc 1) as (f' & k' & d & sp & E & R); try done.
  { unfold ELF_MAX_ARGV. lia. } { intros i Hi. apply (aget_Forall is_bytes); [done|unfold zlen; rewrite Hl; lia]. }
  exists (mk_sys (sync_out (mk_est f' k' (estate p))) (clock s) (timezone s)), d, sp. split; [|by apply running_lock]. rewrite E0. unfold sys_spawn.
  rewrite (proj2 (Z.eqb_neq _ 0) Hb), (proj2 (Z.ltb_ge argc 0)), (proj2 (Z.ltb_ge _ argc)) by (unfold ELF_SPAWN_MAX_ARGV; lia). cbn [orb].
  replace ((0 <? argc) && (ecx regs =? 0)) with false by (destruct (Z.ltb_spec 0 argc); [|done]; symmetry; apply Z.eqb_neq, Hcx; lia).
  change (Z.to_nat (ELF_SPAWN_PATH_MAX - 1)) with 127%nat. rewrite Hpath. cbn [fetch]. rewrite Hargv. cbn [fetch]. unfold call.
  assert (E1 : proc_step (elf_exec_argv task_kstacks path argv argc 1) s = (Some ELF_OK, mk_sys (sync_out (mk_est f' k' (estate p))) (clock s) (timezone s))).
  { unfold proc_step. change (sync_in (proc s)) with (mk_est (fstate (sync_in p)) k (estate p)). by rewrite E. }
  by rewrite (bind_run _ _ _ _ _ E1).
Qed.
End calls.
End SyscallProps.

(** System calls on the machine of [TaskDemo] with the one file of [ElfDemo]:
    the witnesses of [SyscallProps]. *)
Import Pmm CString Env EnvProps Mem Paging PagingSpec Task TaskSpace TaskCreate TaskDemo Elf ElfSpec ElfArgs ElfProps ElfDemo Clock Syscall SyscallProps.

Module SyscallDemo.

(** Every descriptor reads the file from its start; nothing is written. *)
#[export] Instance one_file_posix : PosixOps (list Z) := {|
  posix_open := fun _ _ => mret (Some 3); posix_close := fun _ => mret (Some 0);
  posix_read := fun _ _ n => c ← gets id; mret (Some (zlen (slice c 0 n), slice c 0 n));
  posix_write := fun _ _ => mret (Some (-1)); posix_lseek := fun _ _ _ => mret (Some (-1)); posix_unlink := fun _ => mret (Some (-1)); posix_mkdir := fun _ => mret (Some (-1));
  print := fun _ => mret tt; file_ctx := fun _ _ c => c; file_lock := fun _ => VfsData.lock_free;
|}.
Definition running_kernel (k : kst pmm) : sys (list Z) pmm (Z -> Z) := mk_sys (mk_est program k env_boot) demo_regs 2.

(** A machine whose directory is empty. *)
Definition unmapped : kst pmm := set_hw (mk_hw ∅ (with_free free_frames_list) page_directory) machine.
Lemma syscall_bad_pointer_witness : syscall_dispatch kstacks 8 (mk_regs SYS_COSFS_OPEN 1000 0 0) (running_kernel unmapped) = (Faults 1000, running_kernel unmapped).
Proof.
  apply (syscall_bad_pointer kstacks 8 (mk_regs SYS_COSFS_OPEN 1000 0 0) (running_kernel unmapped)); [lia|left|discriminate|discriminate|vm_compute; reflexivity].
Defined.

(** A buffer in frame 100, which the kernel maps at its own address. *)
Definition buf : Z := 100 * 4096.
Lemma demo_buffer : buffer (memory (running_kernel machine)) buf (buf + 4) (fun va => va).
Proof.
  assert (Hva : forall va, buf <= va < buf + 4 -> pd_index va = 0 /\ pt_index va = 100) by (unfold buf; intros va Hva; rewrite pd_div, pt_mod; zdm).
  change (memory (running_kernel machine)) with (demo_hw free_frames_list). assert (E0 : pde (demo_hw free_frames_list) page_directory 0 = table + 3) by (unfold pde; cbn [ram demo_hw]; by rewrite kernel_words).
  constructor; [unfold buf; lia|reflexivity| |done|].
  - intros va Hr. destruct (Hva va Hr) as [E1 E2]. unfold virt, walk. cbn [cr3 demo_hw]. rewrite E1, E2, E0. change (present (table + 3)) with true. cbv iota.
    unfold pte. cbn [ram demo_hw]. change (frame_of (table + 3)) with table. rewrite table_words by lia. change (present (100 * 4096 + 3)) with true. cbv iota. f_equal.
    change (frame_of (100 * 4096 + 3)) with buf. unfold buf in *. zdm.
  - intros va vb Hr Hr'. destruct (Hva vb Hr') as [E1 E2]. unfold walks. cbn [cr3 demo_hw]. rewrite E1, E2, E0. change (frame_of (table + 3)) with table. unfold table, buf, page_directory in *. lia.
Qed.
Lemma syscall_read_delivers_witness : exists s', syscall_dispatch kstacks 8 (mk_regs SYS_COSFS_READ 3 buf 4) (running_kernel machine) = (Returns 4, s') /\
  ld8 (ram (memory s')) (buf + 1) = 69.
Proof.
  destruct (syscall_read_delivers kstacks 8 (mk_regs SYS_COSFS_READ 3 buf 4) (running_kernel machine) 4 [0x7F; 69; 76; 70] program (fun va => va)) as (s' & E & _ & _ & _ & _ & Hb & _);
    [by left|discriminate|reflexivity|vdec|exact demo_buffer|].
  exists s'. split; [exact E|]. exact (Hb 1 ltac:(vm_compute; split; congruence)).
Defined.

(** The path lies in memory that is 0 there: the empty string. *)
Lemma syscall_spawn_runs_witness : exists s' d sp, syscall_dispatch kstacks 8 (mk_regs SYS_SPAWN buf 0 0) (running_kernel machine) = (Returns 0, s') /\
  running kstacks machine machine' 2 program [] 0 1 env_boot (kernel s') d sp.
Proof.
  apply (syscall_spawn_runs kstacks 8 (mk_regs SYS_SPAWN buf 0 0) (running_kernel machine) [] true [] 3 program program 2 machine');
    [reflexivity|discriminate|vm_compute; split; congruence|intros Hn; by destruct Hn|vm_compute; reflexivity|reflexivity|reflexivity|lia|exact (conj eq_refl program_bytes)|exact program_runs
    |exact machine_place|exact machine_kernel|exact machine_clear|reflexivity|vm_compute; split; congruence|apply (demo_taken free_frames_list frames_range 72); lia|vm_compute; congruence| |vm_compute; split; congruence| |vm_compute; congruence].
  - apply (demo_has_free free_frames_list frames_range); [vdec|vm_compute; lia].
  - intros i Hi. change (env_count (estate (proc (running_kernel machine)))) with 4 in Hi. assert (i = 0 \/ i = 1 \/ i = 2 \/ i = 3) as [->|[->|[->| ->]]] by lia; vdec.
Defined.
End SyscallDemo.
