(* ===== verification/VfsFiles.v ===== *)
(** The virtual file system behind the interface of [Files]: the calls of
    src/vfs.h serve the ELF loader and the system calls, and an open COSFS file
    keeps the promises of [FileLaws]. *)
From S2P Require Import Prelude CString Disk CosData CosAlloc CosFile CosFormat CosAllocSpec CosVol CosTree CosContent CosBlocks CosDirSpec CosCreate CosDemo FatData VfsPath VfsData VfsBackend Vfs VfsDemo Syscall.
From stdpp Require Import base list gmap numbers.
From Stdlib Require Import ZArith Lia.
Import Drives CosDemo CosAllocSpec CosVol CosTree CosBlocks CosContent CosCreate VfsLock VfsPath VfsData VfsBackend Vfs.
Open Scope Z_scope.

Section instances.
Context {D K : Type} `{BlockDev D} `{Kernel K}.
#[export] Instance vfs_files : FileOps (vstate D K) := {|
  file_open := vfs_open; file_pread := fun fd off n => vfs_pread fd off true n; file_fsize := vfs_fsize; file_close := vfs_close;
|}.
Definition set_task (me : Z) (v : vstate D K) : vstate D K :=
  mk_v (cos v) (fat32 v) (fat_fds v) (kern v) (s_mounts v) (s_root v) (s_files v) (s_cwd v) (g_current_path v) (s_cos_loaded v) (s_seq v) (lck v) me.
#[export] Instance vfs_posix : PosixOps (vstate D K) := {|
  posix_open := Vfs.open; posix_close := Vfs.close; posix_read := fun fuel fd n => Vfs.read fuel fd true n;
  posix_write := fun fd bs => Vfs.write fd (Some bs) (zlen bs); posix_lseek := Vfs.lseek; posix_unlink := Vfs.unlink; posix_mkdir := vfs_mkdir;
  print := fun msg => modify (fun v => set_kern (k_klog msg (kern v)) v);
  file_ctx := fun me l v => set_lck l (set_task me v); file_lock := lck;
|}.
End instances.

Module VfsFiles.

(** ** Loading a volume *)

Section loading.
Context {D : Type} `{BlockDevLaws D}.
Implicit Types s : Cos.fsstate D.

Definition bitmap_kept s : Prop := zlen (Cos.inode_bitmap s) = INODE_BITMAP_SIZE /\ is_bytes (Cos.inode_bitmap s).
Definition drives_kept s s' : Prop := Cos.g_drives s' = Cos.g_drives s /\ Cos.g_active_drives s' = Cos.g_active_drives s.

(** The inode bitmap read from the volume. *)
Lemma load_bitmap_run s g : Cos.sb s = g -> Cos.inode_bitmap_sectors s = Cos.geom_isec g -> Cos.block_bitmap_sectors s = Cos.geom_bsec g ->
  geom_ok g (bcap (Cos.dev s)) -> bok (Cos.dev s) -> bitmap_kept s ->
  exists m, CosAlloc.load_inode_bitmap s = (tt, Cos.set_inode_bitmap m s) /\ zlen m = INODE_BITMAP_SIZE /\ is_bytes m /\
    forall k, 0 <= k < Cos.geom_isec g -> bread (Cos.dev s) (Cos.bitmap_start g + Cos.geom_bsec g + k) = slice m (k * 512) 512.
Proof.
  intros Eg Ei Eb Hg Hd [Hz Hy]. destruct (geom_isec_covers _ _ Hg) as [Hi _], (geom_bsec_covers _ _ Hg) as [Hb _]. destruct Hg. unfold INODE_BITMAP_SIZE in *.
  unfold CosAlloc.load_inode_bitmap. rewrite (bind_run (gets id) _ s s s) by done. rewrite Eg, Ei, Eb.
  set (body := fun i : Z => _). set (st := ffor _ 0 body s).
  assert (HP : exists m, st.2 = Cos.set_inode_bitmap m s /\ zlen m = 32768 /\ is_bytes m /\
    forall k, 0 <= k < Cos.geom_isec g -> bread (Cos.dev s) (Cos.bitmap_start g + Cos.geom_bsec g + k) = slice m (k * 512) 512).
  { unfold st. apply (ffor_rounds (fun j st' => exists m, st' = Cos.set_inode_bitmap m s /\ zlen m = 32768 /\ is_bytes m /\
      forall k, 0 <= k < j -> bread (Cos.dev s) (Cos.bitmap_start g + Cos.geom_bsec g + k) = slice m (k * 512) 512)); [lia| |].
    - exists (Cos.inode_bitmap s). split; [by destruct s|]. split; [done|]. split; [done|lia].
    - intros j st' Hj (m & -> & Hm & Hmb & Hk). unfold body, CosAlloc.block_read. munfold. cbn [snd Cos.dev Cos.inode_bitmap Cos.set_inode_bitmap].
      rewrite (u32_small (Cos.bitmap_start g + Cos.geom_bsec g)) by zdm. rewrite u32_small by zdm. destruct (bread_sector (Cos.dev s) (Cos.bitmap_start g + Cos.geom_bsec g + j) Hd) as [Hbz Hbb].
      set (b := bread _ _) in *. unfold SECTOR_SIZE in *. exists (splice m (j * 512) b). split; [done|].
      split; [rewrite zlen_splice by lia; done|]. split; [by apply Forall_splice|]. intros k Hk'. destruct (decide (k = j)) as [->|].
      + fold b. rewrite <- Hbz. rewrite slice_splice_same; [done|lia|lia].
      + rewrite slice_splice_other by lia. apply Hk. lia. }
  destruct HP as (m & Est & Hm). exists m. split; [|done]. fold st. rewrite <- Est. by destruct st as [[] ?].
Qed.

(** [init_fs] on a drive with the volume [a] on it, whichever volume the
    driver's variables held before. *)
Lemma init_fs_loads s s0 g a : rep g s0 a -> Cos.type (a_inode a 0) = 2 -> 0 < Cos.inode_count g -> bitmap_kept s -> 0 < Cos.g_active_drives s <= 4 ->
  Cos.dev s0 = select_drive (Cos.ata_base (CosFormat.current_device s)) (Cos.is_slave (CosFormat.current_device s)) (Cos.dev s) ->
  let s1 := (CosFormat.init_fs s).2 in rep g (Cos.set_current_dir (a_cwd a) s1) a /\ Cos.dev s1 = Cos.dev s0 /\ drives_kept s s1 /\ bitmap_kept s1.
Proof.
  intros R Hroot Hic Hbm Ha Hd. unfold CosFormat.init_fs. rewrite (bind_run (gets id) _ s s s) by done. rewrite (proj2 (Z.ltb_ge 4 _)) by lia. cbn [when].
  rewrite (bind_run (mret tt) _ s tt s), (bind_run (gets id) _ s s s) by done. rewrite (proj2 (Z.eqb_neq _ 0)) by lia.
  set (sa := Cos.set_dev (Cos.dev s0) s). rewrite (bind_run _ _ s tt sa) by (unfold CosFormat.select_drive_m, modify, sa; by rewrite Hd).
  pose proof (r_super _ _ _ R) as Hsup. rewrite (bind_run (CosAlloc.block_read _) _ sa (bread (Cos.dev s0) SUPERBLOCK_LBA) sa) by done.
  unfold CosAllocSpec.sec_at in Hsup. rewrite Hsup. cbv zeta. rewrite (bind_run (modify (Cos.set_sb g)) _ sa tt (Cos.set_sb g sa)) by done.
  pose proof (r_geom _ _ _ R) as Hg. rewrite (go_magic _ _ Hg), Z.eqb_refl. cbn [negb].
  set (sc := Cos.set_geometry (Cos.geom_bytes g) (Cos.geom_bsec g) (Cos.geom_isec g) (Cos.geom_itab g) (Cos.set_sb g sa)).
  rewrite (bind_run (CosFormat.set_geometry_of g) _ _ tt sc) by done. rewrite (bind_run CosAlloc.load_block_bitmap _ sc tt sc) by done.
  destruct (load_bitmap_run sc g) as (m & El & Hm & Hmb & Hk); [done|done|done|exact Hg|apply R|exact Hbm|]. rewrite (bind_run _ _ _ _ _ El).
  set (s1 := Cos.set_inode_bitmap m sc) in *. change (Cos.dev sc) with (Cos.dev s0) in Hk.
  assert (R1 : rep g (Cos.set_current_dir (a_cwd a) s1) a).
  { pose proof R as [R1 R2 R3 R4 R5 R6 R7 R8 R9 R10 R11 R12 R13]. constructor; try done.
    - intros i Hi. rewrite <- R10 by done. unfold inode_at, inode_lba. by rewrite R1.
    - intros b Hb. rewrite <- R11 by done. unfold blk_used, bm_lba. by rewrite R1.
    - intros i Hi. rewrite <- R12 by done. unfold bit_at. f_equal. destruct (geom_isec_covers _ _ Hg) as [Hi1 Hi2].
      assert (Hq : 0 <= i / 8 / 512 < Cos.geom_isec g) by zdm. pose proof (R8 _ Hq) as Em. specialize (Hk _ Hq). unfold sec_at in Em. rewrite Hk in Em.
      assert (Es : forall l : list Z, zlen l = INODE_BITMAP_SIZE -> l.[i / 8] = (slice l (i / 8 / 512 * 512) 512).[i / 8 - i / 8 / 512 * 512]).
      { intros l Hl. rewrite aget_slice; [f_equal; lia|lia|zdm|unfold INODE_BITMAP_SIZE in Hl; zdm]. }
      change (Cos.inode_bitmap (Cos.set_current_dir (a_cwd a) s1)) with m. rewrite (Es m Hm), (Es _ (proj1 R7)). by rewrite Em. }
  assert (Er : CosAlloc.read_inode ROOT_INODE s1 = (a_inode a 0, s1)).
  { pose proof (rep_read_inode g _ a 0 R1 ltac:(lia)) as E. transitivity ((CosAlloc.read_inode 0 (Cos.set_current_dir (a_cwd a) s1)).1, s1); [reflexivity|by rewrite E]. }
  rewrite (bind_run _ _ _ _ _ Er), Hroot. cbn [negb Z.eqb Pos.eqb]. cbn [mret st_ret snd]. split; [exact R1|]. done.
Qed.
End loading.

Section laws.
Context {D K : Type} `{BlockDevLaws D} `{Kernel K}.
Implicit Types v : vstate D K.

(** The device with drive [drv] selected. *)
Definition at_drive v (drv : Z) : D := select_drive (Cos.ata_base (g_drive v drv)) (Cos.is_slave (g_drive v drv)) (Cos.dev (cos v)).
(** Drive [drv] carries the COSFS volume [a]; if it is the one the driver has
    loaded, the driver's variables belong to it. Another drive may be selected,
    another volume be loaded, and any directory be current. *)
Record hosted v (drv : Z) (g : Cos.superblock) (a : avol) : Prop := {
  ho_volume : exists s0, rep g s0 a /\ Cos.dev s0 = at_drive v drv /\
    (s_cos_loaded v = drv -> s0 = Cos.set_current_dir 0 (Cos.set_dev (at_drive v drv) (cos v)));
  ho_cwd : a_cwd a = 0; ho_root : Cos.type (a_inode a 0) = 2; ho_inodes : 0 < Cos.inode_count g;
}.
(** The table of drives and the buffer of the inode bitmap. *)
Record driver_ok v : Prop := { dr_active : 0 < Cos.g_active_drives (cos v) <= 4; dr_bitmap : bitmap_kept (cos v) }.
(** The file in inode [idx] of [a] has the bytes [c]. *)
Definition file_in (g : Cos.superblock) (a : avol) (idx : Z) (c : list Z) : Prop :=
  exists n, 0 <= idx < Cos.inode_count g /\ a_inode a idx = n /\ tree_ok g a n /\ Cos.size n = zlen c /\ forall i, 0 <= i < zlen c -> c.[i] = content a n i.
(** Descriptor [fd] is open on a COSFS file with the bytes [c], of a volume in order. *)
Record open_file v (fd : Z) (c : list Z) : Prop := {
  of_used : fget v fd = true; of_fs : m_fs (mount_at v (v_mount (file_at v fd))) = VFS_FS_COSFS; of_driver : driver_ok v;
  of_size : v_size (file_at v fd) = zlen c; of_max : zlen c < 2 ^ 31; of_bytes : is_bytes c;
  of_file : exists g a, hosted v (m_drive (mount_at v (v_mount (file_at v fd)))) g a /\ file_in g a (v_id (file_at v fd)) c;
}.
(** And the lock of the file layer can be had. *)
Definition lock_ready v : Prop := exists l, vfs_lock_try (current_task v) (lck v) = Some l /\ vfs_unlock l = lck v.
Definition serves v (fd : Z) (c : list Z) : Prop := lock_ready v /\ open_file v fd c.

(** *** Entering a mount *)

(** The driver's state on drive [drv], and the file layer with it. *)
Definition arrive v (drv : Z) : Cos.fsstate D :=
  let cs := Cos.set_dev (at_drive v drv) (cos v) in
  Cos.set_current_dir 0 (if s_cos_loaded v =? drv then cs else (CosFormat.init_fs (Cos.set_current_drive drv cs)).2).
Definition come v (drv : Z) : vstate D K := set_cos_loaded drv (set_cos (arrive v drv) v).

Lemma enter_run v mi : m_fs (mount_at v mi) = VFS_FS_COSFS -> ctx_enter mi v = (tt, come v (m_drive (mount_at v mi))).
Proof.
  intros E1. unfold ctx_enter, come, arrive. rewrite (bind_run (gets id) _ v v v) by done. rewrite E1, Z.eqb_refl. set (drv := m_drive (mount_at v mi)).
  rewrite (bind_run _ _ v tt (set_cos (Cos.set_dev (at_drive v drv) (cos v)) v)) by done. destruct (Z.eqb_spec (s_cos_loaded v) drv) as [E|Hne]; cbn [negb when].
  - rewrite <- E. unfold in_cos, modify. munfold. by destruct v.
  - unfold in_cos, modify. munfold. cbn [cos set_cos]. by destruct (CosFormat.init_fs _) as [[] s1].
Qed.
Lemma arrive_rep v drv g a : driver_ok v -> hosted v drv g a ->
  rep g (arrive v drv) a /\ Cos.dev (arrive v drv) = at_drive v drv /\ drives_kept (cos v) (arrive v drv) /\ bitmap_kept (arrive v drv).
Proof.
  intros [A1 A2] [(s0 & R & Hd & Hl) Hc Hr Hi]. unfold arrive. cbv zeta. destruct (Z.eqb_spec (s_cos_loaded v) drv) as [E|Hne]; [rewrite <- (Hl E); split; [done|]; split; [done|]; by rewrite (Hl E)|].
  destruct (init_fs_loads (Cos.set_current_drive drv (Cos.set_dev (at_drive v drv) (cos v))) s0 g a R Hr Hi A2 A1) as (R1 & Hd1 & Hk & Hb); [|rewrite Hc in R1; split; [exact R1|]; split; [exact (eq_trans Hd1 Hd)|]; by split].
  rewrite Hd. unfold at_drive, CosFormat.current_device. cbn [Cos.dev Cos.set_current_drive Cos.set_dev Cos.g_drives Cos.g_current_drive].
  fold (g_drive v drv). symmetry. apply select_select.
Qed.
Lemma come_drive v drv g a drv' : driver_ok v -> hosted v drv g a -> at_drive (come v drv) drv' = at_drive v drv' /\ driver_ok (come v drv).
Proof.
  intros Hv Hh. destruct (arrive_rep v drv g a Hv Hh) as (_ & Hd & [Hk1 Hk2] & Hb). destruct Hv as [A1 A2]. split.
  - unfold at_drive, g_drive. cbn [come cos set_cos_loaded set_cos]. rewrite Hk1, Hd. unfold at_drive. by rewrite select_over.
  - constructor; [cbn [come cos set_cos_loaded set_cos]; by rewrite Hk2|exact Hb].
Qed.
(** What was on the drives still is. *)
Lemma hosted_kept v drv g a drv' g' a' : driver_ok v -> hosted v drv g a -> hosted v drv' g' a' -> hosted (come v drv) drv' g' a'.
Proof.
  intros Hv Hh Hh'. destruct (come_drive v drv g a drv' Hv Hh) as [Hd _]. destruct (decide (drv' = drv)) as [->|Hne].
  - destruct (arrive_rep v drv g' a' Hv Hh') as (R & Hd1 & _). destruct Hh' as [_ Hc Hr Hi]. constructor; [|done..]. exists (arrive v drv).
    split; [done|]. split; [by rewrite Hd|]. intros _. rewrite Hd, <- Hd1. pose proof (r_cwd _ _ _ R) as Hcw. rewrite Hc in Hcw.
    cbn [come cos set_cos_loaded set_cos]. destruct (arrive v drv). cbn in *. by subst.
  - destruct Hh' as [(s0 & R & Hd0 & _) Hc Hr Hi]. constructor; [|done..]. exists s0. split; [done|]. split; [by rewrite Hd|].
    cbn [come s_cos_loaded set_cos_loaded set_cos]. congruence.
Qed.
Lemma open_file_come v drv g a fd c : driver_ok v -> hosted v drv g a -> open_file v fd c -> open_file (come v drv) fd c.
Proof.
  intros Hv Hh [O1 O2 O3 O4 O5 O6 (g' & a' & Hh' & Hf)]. destruct (come_drive v drv g a drv Hv Hh) as [_ Hv']. constructor; [exact O1|exact O2|exact Hv'|exact O4|done|done|].
  exists g', a'. split; [|exact Hf]. by apply (hosted_kept v drv g a).
Qed.

(** *** The calls *)

Lemma zlen_slice_min (c : list Z) off n : 0 <= off -> 0 <= n -> zlen (slice c off n) = Z.max 0 (Z.min n (zlen c - off)).
Proof. intros Ho Hn. unfold zlen, slice. rewrite length_take, length_drop. lia. Qed.
Lemma tab_slice (f : Z -> Z) c off n : 0 <= off -> 0 <= n -> (forall i, 0 <= i < zlen c -> c.[i] = f i) -> tab f off (Z.min n (zlen c - off)) = slice c off n.
Proof.
  intros Ho Hn Hc. destruct (decide (zlen c <= off)).
  - rewrite tab_nil by lia. symmetry. apply length_zero_iff_nil. pose proof (zlen_slice_min c off n Ho Hn) as Hz. unfold zlen in Hz at 1. lia.
  - apply list_eq_aget; [rewrite zlen_tab, zlen_slice_min by lia; lia|]. rewrite zlen_tab by lia. intros i Hi. rewrite aget_tab, aget_slice by lia. symmetry. apply Hc. lia.
Qed.
Lemma locked_run {A} (body : st (vstate D K) (option A)) v v2 l r : vfs_lock_try (current_task v) (lck v) = Some l -> vfs_unlock l = lck v ->
  body (set_lck l v) = (Some r, set_lck l v2) -> locked body v = (Some r, set_lck (lck v) v2).
Proof.
  intros E1 E2 E3. unfold locked. rewrite (bind_run (gets id) _ v v v) by done. rewrite E1. rewrite (bind_run (modify (set_lck l)) _ v tt (set_lck l v)) by done. rewrite (bind_run _ _ _ _ _ E3).
  munfold. f_equal. cbn [set_lck lck]. by rewrite E2.
Qed.
Lemma open_file_lock v fd c l : open_file v fd c -> open_file (set_lck l v) fd c.
Proof. intros [O1 O2 [A1 A2] O4 O5 O6 (g & a & [Hv Hc Hr Hi] & Hf)]. constructor; try done. exists g, a. by split. Qed.
Lemma read_at_run v fd c off n : open_file v fd c -> 0 <= off -> 0 <= n -> off + n < 2 ^ 32 ->
  let v1 := come v (m_drive (mount_at v (v_mount (file_at v fd)))) in read_at (v_mount (file_at v fd)) fd off n v1 = (slice c off n, v1).
Proof.
  intros Ho Hoff Hn Hw v1. destruct Ho as [Hu Hfs Hdr Hs Hm Hb (g & a & Hh & (nd & F1 & F2 & F3 & Hz & Hc))]. destruct (arrive_rep _ _ _ _ Hdr Hh) as (R & _).
  assert (Ef0 : file_at v1 fd = file_at v fd) by done. assert (R1 : rep g (cos v1) a) by exact R.
  unfold read_at. rewrite (bind_run (gets id) _ v1 v1 v1) by done. rewrite Ef0. change (mount_at v1) with (mount_at v). rewrite Hfs, Z.eqb_refl.
  assert (Ei : VfsBackend.read_inode (v_id (file_at v fd)) v1 = (nd, v1)).
  { unfold VfsBackend.read_inode, in_cos. rewrite (rep_read_inode g (cos v1) a) by done. rewrite F2. by destruct v1. }
  rewrite (bind_run _ _ _ _ _ Ei). assert (Ef : upd_file fd (set_v_size (Cos.size nd)) v1 = (tt, v1)).
  { unfold upd_file, modify. f_equal. rewrite Hz, <- Hs, Ef0. replace (set_v_size (v_size (file_at v fd)) (file_at v fd)) with (file_at v fd) by (by destruct (file_at v fd)).
    rewrite <- Ef0. unfold file_at. rewrite aset_aget. by destruct v1. }
  rewrite (bind_run _ _ _ _ _ Ef). unfold in_cos. pose proof (fok_wf g (cos v1) a _ nd ltac:(by constructor)) as Hwf. rewrite (fs_read_run g (cos v1) a) by done.
  rewrite Hz, (tab_slice _ c) by done. by destruct v1.
Qed.

(** The drive of an open file. *)
Definition drive_of v (fd : Z) : Z := m_drive (mount_at v (v_mount (file_at v fd))).
Lemma serves_come v fd c fd' c' : serves v fd c -> serves v fd' c' -> serves (come v (drive_of v fd)) fd' c'.
Proof.
  intros [Hl [_ _ Hv _ _ _ (g & a & Hh & _)]] [_ Ho]. split; [exact Hl|]. by apply (open_file_come v _ g a).
Qed.
Lemma pread_run v fd c off n : serves v fd c -> 0 <= off -> 0 <= n -> off + n < 2 ^ 32 ->
  vfs_pread fd off true n v = (Some (zlen (slice c off n), slice c off n), come v (drive_of v fd)).
Proof.
  intros [(l & E1 & E2) Hs] Ho Hn Hw. unfold vfs_pread. change (come v (drive_of v fd)) with (set_lck (lck v) (come v (drive_of v fd))).
  apply (locked_run _ v (come v (drive_of v fd)) l); [done|done|]. pose proof (open_file_lock v fd c l Hs) as Hs1.
  change (set_lck l (come v (drive_of v fd))) with (come (set_lck l v) (drive_of (set_lck l v) fd)). set (v1 := set_lck l v) in *.
  rewrite (bind_run (gets id) _ v1 v1 v1) by done. rewrite (of_used _ _ _ Hs1). cbn [andb negb]. set (v2 := come v1 (drive_of v1 fd)).
  assert (Er : in_ctx (v_mount (file_at v1 fd)) (read_at (v_mount (file_at v1 fd)) fd off n) v1 = (slice c off n, v2)).
  { unfold in_ctx. rewrite (bind_run _ _ _ _ _ (enter_run v1 _ (of_fs _ _ _ Hs1))), (bind_run _ _ _ _ _ (read_at_run v1 fd c off n Hs1 Ho Hn Hw)).
    fold v2. unfold ctx_leave. rewrite (bind_run _ _ v2 tt v2); [done|]. rewrite (bind_run (gets id) _ v2 v2 v2) by done.
    change (mount_at v2) with (mount_at v1). by rewrite (of_fs _ _ _ Hs1). }
  rewrite (bind_run _ _ _ _ _ Er). unfold ret. munfold. do 3 f_equal. apply s32_small. rewrite zlen_slice_min by done.
  pose proof (of_max _ _ _ Hs). pose proof (zlen_nonneg c). lia.
Qed.
Lemma fsize_run v fd c : serves v fd c -> vfs_fsize fd v = (Some (zlen c), v).
Proof.
  intros [(l & E1 & E2) Hs]. unfold vfs_fsize. replace v with (set_lck (lck v) v) at 2 by (by destruct v). apply (locked_run _ v v l); [done|done|]. pose proof (open_file_lock v fd c l Hs) as Hs1. set (v1 := set_lck l v) in *.
  rewrite (bind_run (gets id) _ v1 v1 v1) by done. rewrite (of_used _ _ _ Hs1), (of_size _ _ _ Hs1). unfold ret. munfold. do 2 f_equal. apply s32_small. pose proof (of_max _ _ _ Hs). pose proof (zlen_nonneg c). lia.
Qed.
Lemma close_run v fd c : serves v fd c -> exists v', vfs_close fd v = (Some 0, v').
Proof.
  intros [(l & E1 & E2) Hs]. unfold vfs_close, locked. rewrite (bind_run (gets id) _ v v v) by done. rewrite E1. rewrite (bind_run (modify (set_lck l)) _ v tt (set_lck l v)) by done.
  pose proof (open_file_lock v fd c l Hs) as Hs1. set (v1 := set_lck l v) in *. eexists. unfold mbind at 1. unfold st_bind at 1.
  rewrite (bind_run (gets id) _ v1 v1 v1) by done. rewrite (of_used _ _ _ Hs1). reflexivity.
Qed.

#[export] Instance vfs_laws : FileLaws (vstate D K).
Proof.
  refine {| holds_file := serves |}.
  - intros v fd c [_ Hs]. by destruct Hs.
  - intros v fd c off n Hs Ho Hn Hw. exists (come v (drive_of v fd)). split; [apply pread_run; [done|done|lia|done]|by apply (serves_come v fd c)].
  - intros v fd c Hs. exists v. split; [by apply fsize_run|done].
  - intros v fd c Hs. destruct (close_run v fd c Hs) as [v' E]. by exists 0, v'.
Defined.

(** C17 - An open COSFS file is what the loader and the programs take it for,
    whichever drive is selected, whichever volume the driver has loaded and
    whichever directory is current: with the lock free or held by the caller,
    and the file's length as the descriptor has it, [vfs_pread] selects the
    file's drive, loads its volume if it is not the one loaded, and gives the
    bytes of the file in the range asked for, cut at its end. Afterwards the
    mount table, the descriptors and the lock are as before, and every other
    open file, on this drive or another, is served as before. [vfs_fsize] gives
    the length and changes nothing; [vfs_close] succeeds. *)
Theorem vfs_serves_file v fd c : serves v fd c ->
  (forall off n, 0 <= off -> 0 <= n -> off + n < 2 ^ 32 -> exists v', vfs_pread fd off true n v = (Some (zlen (slice c off n), slice c off n), v') /\
    Cos.dev (cos v') = at_drive v (drive_of v fd) /\ s_cos_loaded v' = drive_of v fd /\
    s_mounts v' = s_mounts v /\ s_files v' = s_files v /\ lck v' = lck v /\ (forall fd' c', serves v fd' c' -> serves v' fd' c')) /\
  vfs_fsize fd v = (Some (zlen c), v) /\ exists v', vfs_close fd v = (Some 0, v').
Proof.
  intros Hs. split; [|split; [by apply fsize_run|by apply (close_run v fd c)]]. intros off n Ho Hn Hw. exists (come v (drive_of v fd)).
  split; [by apply pread_run|]. split; [|do 4 (split; [done|]); intros fd' c'; by apply (serves_come v fd c)].
  destruct Hs as [_ [_ _ Hv _ _ _ (g & a & Hh & _)]]. by destruct (arrive_rep v _ g a Hv Hh) as (_ & Hd & _).
Qed.
End laws.

(** ** The file "a" of the volume of [CosDemo] with "hello" in it, as descriptor
    0, while the other drive of the channel is selected and taken as loaded *)

Definition hello : list Z := [104; 101; 108; 108; 111].
Definition volume : Cos.fsstate drives := (CosFile.fs_write FILE_A 0 hello 5 demo2).2.
Definition node : Cos.inode := a_inode (abs volume) FILE_A.
Lemma volume_rep : rep demo_g volume (abs volume).
Proof. demo_rep_tac. Qed.
Lemma roots_node : forall r, 0 <= r <= 14 -> root_ptr node r = if decide (r = 0) then 13 else 0.
Proof. apply demo_roots. root_cases. Qed.
(** The machine: drive 1 is selected, its driver state is blank. *)
Definition two_drives : drives := mk_drives (0x1F0, 1) (bank (Cos.dev volume)).
Definition elsewhere : Cos.fsstate drives :=
  Cos.mk_fs two_drives blank_sb (replicate (Z.to_nat INODE_BITMAP_SIZE) 0) 0 0 0 0 3 1 [Cos.mk_device 0x1F0 0 64; Cos.mk_device 0x1F0 1 64] 2.
Definition machine : vstate drives unit :=
  mk_v elsewhere Fat.zero_fs [] tt [mk_mount true 0 VFS_FS_COSFS true 0 0 1 [47] Fat.zero_fs] (Some 0) [mk_vfile true 0 false false 0 5 FILE_A [97] false] [47] [] 1 0 lock_free 0.
Lemma machine_serves : serves machine 0 hello.
Proof.
  split; [by exists (mk_lock 1 0 1)|]. constructor; [reflexivity|reflexivity| |reflexivity|reflexivity|vdec|].
  - constructor; [vm_compute; done|]. split; [vm_compute; reflexivity|unfold is_bytes; vdec].
  - exists demo_g, (abs volume). split.
    + constructor; [|vm_compute; reflexivity|vm_compute; reflexivity|vm_compute; reflexivity]. exists volume. split; [exact volume_rep|]. split; [vm_compute; reflexivity|discriminate].
    + exists node. split; [vm_compute; done|]. split; [reflexivity|]. split; [apply (single_tree _ _ _ 13 roots_node); [vm_compute; done|vm_compute; reflexivity]|]. split; [vm_compute; reflexivity|].
      intros i Hi. change (zlen hello) with 5 in Hi. assert (i = 0 \/ i = 1 \/ i = 2 \/ i = 3 \/ i = 4) as [->|[->|[->|[->| ->]]]] by lia; vm_compute; reflexivity.
Qed.
Lemma vfs_serves_file_witness : exists v', vfs_pread 0 1 true 100 machine = (Some (4, [101; 108; 108; 111]), v') /\ serves v' 0 hello.
Proof.
  destruct (proj1 (vfs_serves_file machine 0 hello machine_serves) 1 100 ltac:(lia) ltac:(lia) ltac:(lia)) as (v' & E & _ & _ & _ & _ & _ & Hk).
  exists v'. split; [exact E|exact (Hk 0 hello machine_serves)].
Defined.
End VfsFiles.
