(* ===== verification/Segments.v ===== *)
(** Segments, the task state segment and the interrupt gates (src/gdt.c,
    src/gdt.h, the tables of src/idt.c, the ports src/kernel.c opens): the
    tables the processor consults, written as the code writes them, and what
    they allow. Loading the registers (lgdt, ltr, lidt) and programming the
    interrupt controller are instructions without a state here. *)
From S2P Require Import Prelude.
From stdpp Require Import base list numbers.
From Stdlib Require Import ZArith Lia.
Open Scope Z_scope.

Module Segments.

Definition GDT_KERNEL_CODE_SEL : Z := 0x10.
Definition GDT_KERNEL_DATA_SEL : Z := 0x18.
Definition IO_BITMAP_SIZE : Z := 8193.
Definition TSS_SIZE : Z := 104.

Record gdt_entry := mk_gdt { limit_low : Z; base_low : Z; base_middle : Z; access : Z; granularity : Z; base_high : Z }.
Definition zero_gdt : gdt_entry := mk_gdt 0 0 0 0 0 0.
#[export] Instance gdt_inhabited : Inhabited gdt_entry := populate zero_gdt.
(** [tss_entry_t], the fields the kernel sets, and the port bitmap behind it. *)
Record tss := mk_tss { esp0 : Z; ss0 : Z; t_cs : Z; t_ds : Z; iomap_base : Z; io_bitmap : list Z }.
Record idt_entry := mk_idt { i_base_low : Z; sel : Z; always0 : Z; flags : Z; i_base_high : Z }.
Definition zero_idt : idt_entry := mk_idt 0 0 0 0 0.
#[export] Instance idt_inhabited : Inhabited idt_entry := populate zero_idt.
Record tables := mk_tables { gdt : list gdt_entry; sys_tss : tss; idt : list idt_entry }.
Definition set_gdt (g : list gdt_entry) (t : tables) : tables := mk_tables g (sys_tss t) (idt t).
Definition set_sys_tss (s : tss) (t : tables) : tables := mk_tables (gdt t) s (idt t).
Definition set_idt (l : list idt_entry) (t : tables) : tables := mk_tables (gdt t) (sys_tss t) l.

(** ** The code *)

Definition gate (base limit access gran : Z) : gdt_entry :=
  mk_gdt (Z.land limit 0xFFFF) (Z.land base 0xFFFF) (Z.land (Z.shiftr base 16) 0xFF) access
    (Z.lor (Z.land (Z.shiftr limit 16) 0x0F) (Z.land gran 0xF0)) (Z.land (Z.shiftr base 24) 0xFF).
Definition gdt_set_gate (num base limit access gran : Z) : st tables unit := modify (fun t => set_gdt ((gdt t).[num := gate base limit access gran]) t).
(** [tss_addr]: where the linker puts sys_tss. *)
Definition write_tss (tss_addr num ss0 esp0 : Z) : st tables unit :=
  gdt_set_gate num tss_addr (TSS_SIZE + IO_BITMAP_SIZE - 1) 0xE9 0x00;;
  modify (set_sys_tss (mk_tss esp0 ss0 GDT_KERNEL_CODE_SEL GDT_KERNEL_DATA_SEL TSS_SIZE (replicate (Z.to_nat IO_BITMAP_SIZE) 0xFF))).
Definition init_gdt (tss_addr stack_top : Z) : st tables unit :=
  modify (set_gdt (replicate 7 zero_gdt));;
  gdt_set_gate 0 0 0 0 0;;
  gdt_set_gate 1 0 0 0 0;;
  gdt_set_gate 2 0 0xFFFFFFFF 0x9A 0xCF;;
  gdt_set_gate 3 0 0xFFFFFFFF 0x92 0xCF;;
  gdt_set_gate 4 0 0xFFFFFFFF 0xFA 0xCF;;
  gdt_set_gate 5 0 0xFFFFFFFF 0xF2 0xCF;;
  write_tss tss_addr 6 GDT_KERNEL_DATA_SEL stack_top.
Definition tss_set_kernel_stack (e : Z) : st tables unit :=
  modify (fun t => let s := sys_tss t in set_sys_tss (mk_tss e (ss0 s) (t_cs s) (t_ds s) (iomap_base s) (io_bitmap s)) t).
Definition set_io_bitmap (b : list Z) (s : tss) : tss := mk_tss (esp0 s) (ss0 s) (t_cs s) (t_ds s) (iomap_base s) b.
Definition tss_allow_port (port : Z) : st tables unit := modify (fun t => set_sys_tss (set_io_bitmap (bit_clear (io_bitmap (sys_tss t)) port) (sys_tss t)) t).
Definition tss_deny_port (port : Z) : st tables unit := modify (fun t => set_sys_tss (set_io_bitmap (bit_set (io_bitmap (sys_tss t)) port) (sys_tss t)) t).
Definition tss_allow_io_range (base_port count : Z) : st tables unit := ffor (rounds 0 count) 0 (fun i => tss_allow_port (u16 (base_port + i))).

Definition idt_set_gate (num base s fl : Z) : st tables unit :=
  modify (fun t => set_idt ((idt t).[num := mk_idt (Z.land base 0xFFFF) s 0 (Z.lor fl 0x60) (Z.land (Z.shiftr base 16) 0xFFFF)]) t).
(** [isr n]: where the linker puts the entry of interrupt [n]. *)
Definition init_idt (isr : Z -> Z) : st tables unit :=
  modify (set_idt (replicate 256 zero_idt));;
  ffor (rounds 0 48) 0 (fun n => idt_set_gate n (isr n) 0x10 0x8E);;
  idt_set_gate 128 (isr 128) 0x10 0x8E.
(** The ports opened at start-up. *)
Definition open_ports : st tables unit := tss_allow_io_range 0x70 2;; tss_allow_io_range 0x1F0 8;; tss_allow_io_range 0x170 8.

(** ** What the tables mean to the processor *)

Definition seg_base (e : gdt_entry) : Z := base_low e + 2 ^ 16 * base_middle e + 2 ^ 24 * base_high e.
Definition seg_limit (e : gdt_entry) : Z := limit_low e + 2 ^ 16 * Z.land (granularity e) 0x0F.
Definition idt_base (e : idt_entry) : Z := i_base_low e + 2 ^ 16 * i_base_high e.
(** The lowest privilege that may raise the interrupt by an instruction. *)
Definition idt_dpl (e : idt_entry) : Z := Z.land (Z.shiftr (flags e) 5) 3.
Definition idt_present (e : idt_entry) : bool := Z.testbit (flags e) 7.
(** Ring 3 may use a port when its bit is clear. *)
Definition port_open (t : tables) (p : Z) : bool := negb (bit_at (io_bitmap (sys_tss t)) p).

Lemma mask_mod n v : 0 <= n -> Z.land v (2 ^ n - 1) = v mod 2 ^ n.
Proof. intros Hn. rewrite <- Z.land_ones by done. f_equal. rewrite Z.ones_equiv. lia. Qed.
(** A descriptor gives back the base and the low twenty bits of the limit. *)
Lemma gate_decode base limit acc gran : is_u32 base -> is_u32 limit ->
  let e := gate base limit acc gran in seg_base e = base /\ seg_limit e = limit mod 2 ^ 20 /\ access e = acc /\ Z.land (granularity e) 0xF0 = Z.land gran 0xF0.
Proof.
  intros Hb Hl e. unfold is_u32 in *. split; [|split; [|split; [done|]]].
  - unfold seg_base, e, gate. cbn [base_low base_middle base_high]. change 0xFFFF with (2 ^ 16 - 1). change 0xFF with (2 ^ 8 - 1). rewrite !mask_mod, !Z.shiftr_div_pow2 by lia. zdm.
  - unfold seg_limit, e, gate. cbn [limit_low granularity]. rewrite Z.land_lor_distr_l, <- !Z.land_assoc. change (Z.land 15 15) with 15. change (Z.land 240 15) with 0. rewrite Z.land_0_r, Z.lor_0_r.
    change 0xFFFF with (2 ^ 16 - 1). change 15 with (2 ^ 4 - 1). rewrite !mask_mod, !Z.shiftr_div_pow2 by lia. zdm.
  - unfold e, gate. cbn [granularity]. rewrite Z.land_lor_distr_l, <- !Z.land_assoc. change (Z.land 15 240) with 0. by rewrite Z.land_0_r, Z.lor_0_l.
Qed.

(** ** Ports *)

Definition bitmap_ok (t : tables) : Prop := zlen (io_bitmap (sys_tss t)) = IO_BITMAP_SIZE.
Lemma allow_one t p q : bitmap_ok t -> 0 <= p < 2 ^ 16 -> 0 <= q -> let t' := (tss_allow_port p t).2 in bitmap_ok t' /\ port_open t' q = bool_decide (q = p) || port_open t q.
Proof.
  intros Hb Hp Hq t'. unfold bitmap_ok, IO_BITMAP_SIZE, port_open in *. cbn. rewrite zlen_bit_clear. split; [done|]. rewrite bit_at_clear by lia.
  case_decide; [by rewrite bool_decide_true|by rewrite bool_decide_false].
Qed.
Lemma allow_range t base n q : bitmap_ok t -> 0 <= base -> 0 <= n -> base + n <= 2 ^ 16 -> 0 <= q -> let t' := (tss_allow_io_range base n t).2 in
  bitmap_ok t' /\ port_open t' q = bool_decide (base <= q < base + n) || port_open t q.
Proof.
  intros Hb H1 H2 H3 Hq t'. apply (ffor_rounds (fun j s => bitmap_ok s /\ port_open s q = bool_decide (base <= q < base + j) || port_open t q) 0 n).
  - done.
  - split; [done|]. by rewrite bool_decide_false by lia.
  - intros j s Hj [Hs Ho]. rewrite u16_small by lia. destruct (allow_one s (base + j) q Hs ltac:(lia) Hq) as [Hs' Ho']. split; [done|]. rewrite Ho', Ho.
    destruct (decide (q = base + j)) as [->|Hn]; [rewrite (bool_decide_eq_true_2 (base + j = base + j)) by done; symmetry; apply orb_true_iff; left; apply bool_decide_eq_true_2; lia|].
    rewrite bool_decide_false by done. cbn [orb]. f_equal. apply bool_decide_ext. lia.
Qed.

Lemma open_ports_run t q : bitmap_ok t -> 0 <= q -> port_open (open_ports t).2 q =
  bool_decide (0x170 <= q < 0x170 + 8) || (bool_decide (0x1F0 <= q < 0x1F0 + 8) || (bool_decide (0x70 <= q < 0x70 + 2) || port_open t q)).
Proof.
  intros Hb Hq. unfold open_ports. destruct (allow_range t 0x70 2 q Hb) as [B1 O1]; [lia..|]. set (t1 := (tss_allow_io_range 0x70 2 t).2) in *.
  destruct (allow_range t1 0x1F0 8 q B1) as [B2 O2]; [lia..|]. set (t2 := (tss_allow_io_range 0x1F0 8 t1).2) in *. destruct (allow_range t2 0x170 8 q B2) as [_ O3]; [lia..|].
  rewrite (bind_run (tss_allow_io_range 0x70 2) _ t tt t1), (bind_run (tss_allow_io_range 0x1F0 8) _ t1 tt t2) by (by destruct (tss_allow_io_range _ _ _) as [[] ?] eqn:Hr; unfold t1, t2; rewrite ?Hr). by rewrite O3, O2, O1.
Qed.
Lemma open_ports_idt t : idt (open_ports t).2 = idt t.
Proof. reflexivity. Qed.
Definition entry_of (isr : Z -> Z) (n : Z) : idt_entry := mk_idt (Z.land (isr n) 0xFFFF) 0x10 0 0xEE (Z.land (Z.shiftr (isr n) 16) 0xFFFF).
Lemma init_idt_run isr t : exists l, init_idt isr t = (tt, set_idt l t) /\ forall n, 0 <= n < 48 \/ n = 128 -> l.[n] = entry_of isr n.
Proof.
  unfold init_idt. rewrite (bind_run (modify _) _ t tt (set_idt (replicate 256 zero_idt) t)) by done. set (t0 := set_idt _ t).
  pose proof (ffor_rounds (fun j s => exists l, s = set_idt l t /\ zlen l = 256 /\ forall n, 0 <= n < j -> l.[n] = entry_of isr n) 0 48 (fun n => idt_set_gate n (isr n) 0x10 0x8E) t0) as Hi.
  destruct Hi as (l & E & Hz & Hl); [lia|by exists (replicate 256 zero_idt); split; [done|split; [done|lia]]| |].
  - intros j s Hj (l & -> & Hz & Hl). exists (l.[j := entry_of isr j]). split; [done|]. rewrite zlen_aset. split; [done|]. intros n Hn. rewrite aget_aset by lia. case_decide; [by subst|apply Hl; lia].
  - unfold mbind, st_bind. destruct (ffor _ _ _ t0) as [[] s]. cbn [snd] in E. subst s. exists (l.[128 := entry_of isr 128]). split; [done|].
    intros n Hn. rewrite aget_aset by lia. case_decide; [by subst|apply Hl; lia].
Qed.

(** What ring 3 may do to the machine after start-up: of the 65536 ports,
    exactly the clock's (0x70, 0x71) and those of both disk controllers (0x170 to
    0x177, 0x1F0 to 0x1F7) are open to every program; every interrupt the
    kernel has an entry for, the processor's exceptions and the devices' too,
    can be raised by an instruction of ring 3, and leads to its entry. *)
Theorem start_up_gates tss_addr stack_top isr t : let t' := (init_gdt tss_addr stack_top;; init_idt isr;; open_ports) t in
  (forall p, 0 <= p < 2 ^ 16 -> port_open t'.2 p = true <-> p = 0x70 \/ p = 0x71 \/ 0x170 <= p <= 0x177 \/ 0x1F0 <= p <= 0x1F7) /\
  (forall n, 0 <= n < 48 \/ n = 128 -> is_u32 (isr n) -> let e := (idt t'.2).[n] in idt_present e = true /\ idt_dpl e = 3 /\ sel e = GDT_KERNEL_CODE_SEL /\ idt_base e = isr n).
Proof.
  intros t'. destruct (init_idt_run isr (init_gdt tss_addr stack_top t).2) as (l & E & Hl). set (t0 := (init_gdt tss_addr stack_top t).2) in *.
  assert (E1 : t' = open_ports (set_idt l t0)) by (unfold t'; rewrite (bind_run _ _ t tt t0) by done; by rewrite (bind_run _ _ _ _ _ E)). split.
  - intros p Hp. rewrite E1, open_ports_run; [|unfold bitmap_ok; change (sys_tss (set_idt l t0)) with (sys_tss t0); unfold t0; reflexivity|lia].
    replace (port_open (set_idt l t0) p) with false.
    2:{ unfold port_open, bit_at. change (io_bitmap (sys_tss (set_idt l t0))) with (replicate (Z.to_nat IO_BITMAP_SIZE) 0xFF). rewrite aget_replicate by (unfold IO_BITMAP_SIZE; zdm).
        symmetry. apply negb_false_iff. assert (Hm : 0 <= p mod 8 < 8) by zdm. revert Hm. generalize (p mod 8). intros i Hi.
        assert (i = 0 \/ i = 1 \/ i = 2 \/ i = 3 \/ i = 4 \/ i = 5 \/ i = 6 \/ i = 7) as [->|[->|[->|[->|[->|[->|[->| ->]]]]]]] by lia; reflexivity. }
    rewrite orb_false_r, !orb_true_iff, !bool_decide_eq_true. lia.
  - intros n Hn Hi. rewrite E1. replace (idt (open_ports (set_idt l t0)).2) with l by (symmetry; apply (open_ports_idt (set_idt l t0))). intros e. unfold e. rewrite Hl by done.
    split; [reflexivity|]. split; [reflexivity|]. split; [reflexivity|]. unfold idt_base, entry_of. cbn [i_base_low i_base_high]. unfold is_u32 in Hi.
    change 0xFFFF with (2 ^ 16 - 1). rewrite !mask_mod, Z.shiftr_div_pow2 by lia. zdm.
Qed.
#[local] Definition demo_isr (n : Z) : Z := 0x100000 + 16 * n.
Lemma start_up_gates_witness : let t := ((init_gdt 0x200000 0x300000;; init_idt demo_isr;; open_ports) (mk_tables [] (mk_tss 0 0 0 0 0 []) [])).2 in
  port_open t 0x1F3 = true /\ port_open t 0x60 = false /\ idt_base ((idt t).[14]) = 0x1000E0 /\ idt_dpl ((idt t).[14]) = 3.
Proof.
  destruct (start_up_gates 0x200000 0x300000 demo_isr (mk_tables [] (mk_tss 0 0 0 0 0 []) [])) as [Hp Hi]. intros t.
  split; [apply Hp; lia|]. split; [apply not_true_iff_false; intros E; apply Hp in E; lia|].
  destruct (Hi 14) as (_ & D & _ & B); [lia|split; [done|reflexivity]|]. by split.
Defined.
End Segments.
