(* ===== verification/Format.v ===== *)
(** Formatted text (vsnprintf and snprintf of src/string.c): the sink that
    counts what does not fit, the parse of a conversion, the conversions.

    The variable arguments are the words on the stack, taken one by one; a
    missing argument reads as 0. A pointer argument gives the characters at
    it through [str_at]. A double is its two words; the one place where the
    floating point unit rounds is a parameter. *)
From S2P Require Import Prelude CString.
From stdpp Require Import base list numbers.
From Stdlib Require Import ZArith Lia.
Import CString.
Open Scope Z_scope.

Module Format.

Definition s16 (x : Z) : Z := (x + 2 ^ 15) mod 2 ^ 16 - 2 ^ 15.
Definition s64 (x : Z) : Z := (x + 2 ^ 63) mod 2 ^ 64 - 2 ^ 63.

(** ** The sink *)

Record vs_out := mk_out { buf : list Z; size : Z; pos : Z }.
Definition vs_put (c : Z) : st vs_out unit :=
  modify (fun o => mk_out (if u32 (pos o + 1) <? size o then (buf o).[pos o := c] else buf o) (size o) (u32 (pos o + 1))).
Definition vs_fill (c n : Z) : st vs_out unit := ffor (Z.to_nat n) 0 (fun _ => vs_put c).
Definition vs_emit (prefix : list Z) (zeros : Z) (body : list Z) (width : Z) (left zero_pad : bool) : st vs_out unit :=
  let plen := strlen prefix in
  let total := plen + zeros + zlen body in
  let pad := if total <? width then width - total else 0 in
  when (negb left && negb zero_pad) (vs_fill 32 pad);;
  ffor (rounds 0 plen) 0 (fun i => vs_put (prefix.[i]));;
  when (negb left && zero_pad) (vs_fill 48 pad);;
  vs_fill 48 zeros;;
  ffor (rounds 0 (zlen body)) 0 (fun i => vs_put (body.[i]));;
  when left (vs_fill 32 pad).

(** ** The parse of a conversion *)

Record spec := mk_spec { left : bool; zero : bool; plus : bool; space : bool; alt : bool; width : Z; prec : Z; lng : Z }.
Definition set_left (b : bool) (s : spec) : spec := mk_spec b (zero s) (plus s) (space s) (alt s) (width s) (prec s) (lng s).
Definition set_width (w : Z) (s : spec) : spec := mk_spec (left s) (zero s) (plus s) (space s) (alt s) w (prec s) (lng s).
Definition set_prec (p : Z) (s : spec) : spec := mk_spec (left s) (zero s) (plus s) (space s) (alt s) (width s) p (lng s).
Definition set_lng (l : Z) (s : spec) : spec := mk_spec (left s) (zero s) (plus s) (space s) (alt s) (width s) (prec s) l.

Fixpoint parse_flags (f : list Z) (s : spec) : spec * list Z :=
  match f with
  | [] => (s, [])
  | c :: f' =>
      if c =? 45 then parse_flags f' (mk_spec true (zero s) (plus s) (space s) (alt s) (width s) (prec s) (lng s))
      else if c =? 48 then parse_flags f' (mk_spec (left s) true (plus s) (space s) (alt s) (width s) (prec s) (lng s))
      else if c =? 43 then parse_flags f' (mk_spec (left s) (zero s) true (space s) (alt s) (width s) (prec s) (lng s))
      else if c =? 32 then parse_flags f' (mk_spec (left s) (zero s) (plus s) true (alt s) (width s) (prec s) (lng s))
      else if c =? 35 then parse_flags f' (mk_spec (left s) (zero s) (plus s) (space s) true (width s) (prec s) (lng s))
      else (s, f)
  end.
Fixpoint parse_number (f : list Z) (n : Z) : Z * list Z :=
  match f with
  | [] => (n, [])
  | c :: f' => if is_digit c then parse_number f' (s32 (n * 10 + (c - 48))) else (n, f)
  end.
(** [va_arg] of a word, signed and unsigned, and of two words. *)
Definition va_word (args : list Z) : Z * list Z := (u32 (hd0 args), tail args).
Definition va_int (args : list Z) : Z * list Z := let (w, args) := va_word args in (s32 w, args).
Definition va_two (args : list Z) : Z * list Z := let (lo, args) := va_word args in let (hi, args) := va_word args in (lo + 2 ^ 32 * hi, args).

Definition parse_width (f : list Z) (s : spec) (args : list Z) : spec * list Z * list Z :=
  if hd0 f =? 42 then
    let (w, args) := va_int args in
    (if w <? 0 then set_width (s32 (- w)) (set_left true s) else set_width w s, tail f, args)
  else let (w, f) := parse_number f 0 in (set_width w s, f, args).
Definition parse_prec (f : list Z) (s : spec) (args : list Z) : spec * list Z * list Z :=
  if hd0 f =? 46 then
    if hd0 (tail f) =? 42 then
      let (p, args) := va_int args in (set_prec (if p <? 0 then -1 else p) s, tail (tail f), args)
    else let (p, f) := parse_number (tail f) 0 in (set_prec p s, f, args)
  else (set_prec (-1) s, f, args).
Fixpoint parse_length (f : list Z) (l : Z) : Z * list Z :=
  match f with
  | [] => (l, [])
  | c :: f' =>
      if c =? 108 then parse_length f' (l + 1)
      else if c =? 104 then parse_length f' (l - 1)
      else if (c =? 122) || (c =? 116) || (c =? 106) then parse_length f' 1
      else (l, f)
  end.
(** What stands between the percent sign and the conversion character. *)
Definition parse_spec (f : list Z) (args : list Z) : spec * list Z * list Z :=
  let (s, f) := parse_flags f (mk_spec false false false false false 0 (-1) 0) in
  let '(s, f, args) := parse_width f s args in
  let '(s, f, args) := parse_prec f s args in
  let (l, f) := parse_length f 0 in
  (set_lng (Z.max (-2) (Z.min 2 l)) s, f, args).

(** ** The conversions *)

Definition vs_digit (upper : bool) (d : Z) : Z := if d <? 10 then 48 + d else (if upper then 65 else 97) + (d - 10).
(** The two digit loops: while the value takes more than 32 bits, and after. *)
Fixpoint digits_wide (fuel : nat) (upper : bool) (v base : Z) : list Z * Z :=
  match fuel with
  | O => ([], v)
  | S fuel => if 0xFFFFFFFF <? v then let (l, v') := digits_wide fuel upper (v / base) base in (vs_digit upper (v mod base) :: l, v') else ([], v)
  end.
Fixpoint digits_word (fuel : nat) (upper : bool) (w base : Z) : list Z :=
  match fuel with
  | O => []
  | S fuel => if w =? 0 then [] else vs_digit upper (w mod base) :: digits_word fuel upper (w / base) base
  end.
(** [tmp] after both loops; at most 22 of its 24 places are used. *)
Definition digits_of (upper : bool) (prec v base : Z) : list Z :=
  (if (v =? 0) && negb (prec =? 0) then [48] else []) ++
  let (l, w) := digits_wide 24 upper v base in l ++ digits_word 24 upper w base.

Definition signed_arg (lng : Z) (args : list Z) : Z * list Z :=
  if lng =? 2 then let (v, args) := va_two args in (s64 v, args)
  else if lng =? 1 then va_int args
  else let (v, args) := va_int args in (if lng =? -1 then s16 v else if lng =? -2 then s8 v else v, args).
Definition unsigned_arg (lng : Z) (args : list Z) : Z * list Z :=
  if lng =? 2 then va_two args
  else if lng =? 1 then va_word args
  else let (v, args) := va_word args in (if lng =? -1 then u16 v else if lng =? -2 then u8 v else v, args).
(** Value, base and prefix of an integer conversion. *)
Definition int_value (conv : Z) (s : spec) (args : list Z) : Z * Z * list Z * list Z :=
  if (conv =? 100) || (conv =? 105) then
    let (sv, args) := signed_arg (lng s) args in
    (if sv <? 0 then u64 (0 - u64 sv) else sv, 10, if sv <? 0 then [45] else if plus s then [43] else if space s then [32] else [], args)
  else if conv =? 112 then let (v, args) := va_word args in (v, 16, [48; 120], args)
  else
    let (v, args) := unsigned_arg (lng s) args in
    if (conv =? 120) || (conv =? 88) then (v, 16, if alt s && negb (v =? 0) then [48; if conv =? 88 then 88 else 120] else [], args)
    else if conv =? 111 then (v, 8, if alt s then [48] else [], args)
    else (v, 10, [], args).
(** What a conversion emits: prefix, number of zeros, body, and whether the
    padding is zeros; then the arguments left. *)
Definition piece : Type := list Z * Z * list Z * bool * list Z.
Definition conv_int (conv : Z) (s : spec) (args : list Z) : piece :=
  let '(v, base, prefix, args) := int_value conv s args in
  let tmp := digits_of (conv =? 88) (prec s) v base in
  let n := zlen tmp in
  (prefix, if n <? prec s then prec s - n else 0, rev tmp, zero s && negb (left s) && (prec s <? 0), args).
Definition conv_char (args : list Z) : piece := let (c, args) := va_int args in ([], 0, [u8 c], false, args).

Section ops.
(** The characters at a pointer. *)
Context (str_at : Z -> list Z).

Fixpoint str_prefix (str : list Z) (prec n : Z) : list Z :=
  match str with
  | [] => []
  | c :: str => if negb (c =? 0) && ((prec <? 0) || (n <? prec)) then c :: str_prefix str prec (n + 1) else []
  end.
Definition conv_str (s : spec) (args : list Z) : piece :=
  let (p, args) := va_word args in
  let str := if p =? 0 then [40; 110; 117; 108; 108; 41] else str_at p in
  ([], 0, str_prefix str (prec s) 0, false, args).

(** *** Doubles *)

(** [fpu_scale m e p]: what the floating point unit makes of
    [(unsigned long long)(frac * (double)scale + 0.5)] where [frac] is [m]
    times two to the [e] and [scale] is ten to the [p]. *)
Context (fpu_scale : Z -> Z -> Z -> Z).
(** A double by its bits: [m] times two to the [e]. *)
Definition dbl_mant (d : Z) : Z := let f := d mod 2 ^ 52 in if (d / 2 ^ 52) mod 2 ^ 11 =? 0 then f else f + 2 ^ 52.
Definition dbl_exp (d : Z) : Z := let e := (d / 2 ^ 52) mod 2 ^ 11 in (if e =? 0 then 1 else e) - 1075.
Definition dbl_nan (d : Z) : bool := ((d / 2 ^ 52) mod 2 ^ 11 =? 2047) && negb (d mod 2 ^ 52 =? 0).
Definition dbl_neg (d : Z) : bool := (2 ^ 63 <=? d) && negb (dbl_mant d =? 0).
(** Whether the magnitude exceeds 1.0e18, its whole part, and the rest. *)
Definition dbl_big (d : Z) : bool := let e := dbl_exp d in if 0 <=? e then 10 ^ 18 <? dbl_mant d * 2 ^ e else 10 ^ 18 * 2 ^ (- e) <? dbl_mant d.
Definition dbl_whole (d : Z) : Z := let e := dbl_exp d in if 0 <=? e then dbl_mant d * 2 ^ e else dbl_mant d / 2 ^ (- e).
Definition dbl_rest (d : Z) : Z := let e := dbl_exp d in if 0 <=? e then 0 else dbl_mant d mod 2 ^ (- e).

Fixpoint dec_loop (fuel : nat) (v : Z) : list Z :=
  match fuel with O => [] | S fuel => if v =? 0 then [] else (48 + v mod 10) :: dec_loop fuel (v / 10) end.
(** The last [p] decimal digits of [v], the last one first. *)
Fixpoint dec_fixed (p : nat) (v : Z) : list Z := match p with O => [] | S p => (48 + v mod 10) :: dec_fixed p (v / 10) end.
Definition conv_double (s : spec) (args : list Z) : piece :=
  let (d, args) := va_two args in
  let p := Z.min 9 (if prec s <? 0 then 6 else prec s) in
  let prefix := if dbl_nan d then [] else if dbl_neg d then [45] else if plus s then [43] else if space s then [32] else [] in
  let body :=
    if dbl_nan d then [110; 97; 110] else if dbl_big d then [105; 110; 102] else
    let ip := dbl_whole d in
    let fp := fpu_scale (dbl_rest d) (dbl_exp d) p in
    let scale := 10 ^ p in
    let (ip, fp) := if scale <=? fp then (ip + 1, fp - scale) else (ip, fp) in
    (if ip =? 0 then [48] else rev (dec_loop 24 ip)) ++ (if (0 <? p) || alt s then [46] else []) ++ rev (dec_fixed (Z.to_nat p) fp) in
  (prefix, 0, body, zero s && negb (left s), args).

Definition is_int_conv (c : Z) : bool := existsb (Z.eqb c) [100; 105; 117; 120; 88; 111; 112].
Definition is_dbl_conv (c : Z) : bool := existsb (Z.eqb c) [102; 70; 101; 69; 103; 71].
Definition convert (conv : Z) (s : spec) (args : list Z) : option piece :=
  if is_int_conv conv then Some (conv_int conv s args)
  else if conv =? 99 then Some (conv_char args)
  else if conv =? 115 then Some (conv_str s args)
  else if is_dbl_conv conv then Some (conv_double s args)
  else None.

(** The loop over the format; every round takes a character at least. *)
Fixpoint vs_loop (fuel : nat) (f args : list Z) : st vs_out unit :=
  match fuel with
  | O => mret tt
  | S fuel =>
      match f with
      | [] => mret tt
      | c :: f =>
          if c =? 0 then mret tt
          else if negb (c =? 37) then vs_put c;; vs_loop fuel f args
          else
            let '(s, f, args) := parse_spec f args in
            if hd0 f =? 0 then mret tt
            else
              match convert (hd0 f) s args with
              | Some (prefix, zeros, body, zero_pad, args) => vs_emit prefix zeros body (width s) (left s) zero_pad;; vs_loop fuel (tail f) args
              | None => vs_put 37;; when (negb (hd0 f =? 37)) (vs_put (hd0 f));; vs_loop fuel (tail f) args
              end
      end
  end.
(** The value returned and the destination, [sz] bytes of which may be written. *)
Definition vsnprintf (b : list Z) (sz : Z) (fmt args : list Z) : Z * list Z :=
  let '(_, o) := vs_loop (length fmt) fmt args (mk_out b sz 0) in
  (s32 (pos o), if 0 <? sz then (buf o).[if pos o <? sz then pos o else sz - 1 := 0] else buf o).
Definition snprintf (b : list Z) (sz : Z) (fmt args : list Z) : Z * list Z := vsnprintf b sz fmt args.
End ops.

(** ** What is written *)

(** Putting the characters of a text, one by one. *)
Fixpoint puts (t : list Z) : st vs_out unit := match t with [] => mret tt | c :: t => vs_put c;; puts t end.
(** [m] puts the text [t] and returns [r], whatever the sink holds. *)
Definition writes {R} (m : st vs_out R) (t : list Z) (r : R) : Prop := forall o, m o = (r, (puts t o).2).

Lemma puts_app t t' o : puts (t ++ t') o = puts t' (puts t o).2.
Proof.
  revert o. induction t as [|c t IH]; intros o; [done|]. cbn [app puts]. rewrite (bind_run (vs_put c) _ o tt (vs_put c o).2), IH by done.
  by rewrite (bind_run (vs_put c) (fun _ => puts t) o tt (vs_put c o).2) by done.
Qed.
Lemma writes_ret {R} (r : R) : writes (mret r) [] r.
Proof. done. Qed.
Lemma writes_put c : writes (vs_put c) [c] tt.
Proof. done. Qed.
Lemma writes_bind {R R'} (m : st vs_out R) (k : R -> st vs_out R') t r t' r' : writes m t r -> writes (k r) t' r' -> writes (m ≫= k) (t ++ t') r'.
Proof. intros Hm Hk o. rewrite (bind_run _ _ _ _ _ (Hm o)), Hk. by rewrite puts_app. Qed.
Lemma writes_after {R} m t (k : st vs_out R) t' r' : writes m t tt -> writes k t' r' -> writes (m;; k) (t ++ t') r'.
Proof. intros Hm Hk. by apply (writes_bind m (fun _ => k) t tt). Qed.
Lemma writes_when b m t : writes m t tt -> writes (when b m) (if b then t else []) tt.
Proof. by destruct b. Qed.
Lemma writes_fill c n : writes (vs_fill c n) (replicate (Z.to_nat n) c) tt.
Proof.
  unfold vs_fill. generalize (Z.to_nat n) 0. intros k. induction k as [|k IH]; intros i o; [done|]. cbn [ffor]. rewrite IH. cbn [replicate puts].
  by rewrite (bind_run (vs_put c) _ o tt (vs_put c o).2) by done.
Qed.
Lemma writes_tab l k i : writes (ffor k i (fun i => vs_put (l.[i]))) (tab (fun i => l.[i]) i (Z.of_nat k)) tt.
Proof.
  revert i. induction k as [|k IH]; intros i o; [done|]. cbn [ffor]. rewrite IH. rewrite (tab_cons _ i (Z.of_nat (S k))) by lia.
  replace (Z.of_nat (S k) - 1) with (Z.of_nat k) by lia. cbn [puts]. by rewrite (bind_run (vs_put (l.[i])) _ o tt (vs_put (l.[i]) o).2) by done.
Qed.
Lemma writes_list l : writes (ffor (rounds 0 (zlen l)) 0 (fun i => vs_put (l.[i]))) l tt.
Proof. intros o. rewrite writes_tab. do 3 f_equal. unfold rounds. rewrite Z.sub_0_r, Z2Nat.id by apply zlen_nonneg. symmetry. by apply tab_eq. Qed.
Lemma strlen_zlen l : Forall (fun c => c <> 0) l -> strlen l = zlen l.
Proof. induction 1 as [|c l Hc _ IH]; [done|]. cbn [strlen]. rewrite (proj2 (Z.eqb_neq c 0)), IH by done. unfold zlen. cbn [length]. lia. Qed.

(** The text of a conversion: prefix, zeros and body, padded to the width. *)
Definition emit_text (prefix : list Z) (zeros : Z) (body : list Z) (width : Z) (left zero_pad : bool) : list Z :=
  let pad := Z.to_nat (width - (zlen prefix + Z.max 0 zeros + zlen body)) in
  (if left then [] else if zero_pad then [] else replicate pad 32) ++ prefix ++ (if left then [] else if zero_pad then replicate pad 48 else []) ++
  replicate (Z.to_nat zeros) 48 ++ body ++ (if left then replicate pad 32 else []).
Lemma writes_emit prefix zeros body width left zero_pad : Forall (fun c => c <> 0) prefix -> 0 <= zeros ->
  writes (vs_emit prefix zeros body width left zero_pad) (emit_text prefix zeros body width left zero_pad) tt.
Proof.
  intros Hp Hz. unfold vs_emit, emit_text. rewrite (strlen_zlen _ Hp), (Z.max_r 0 zeros) by done. set (pad := if _ <? _ then _ else _).
  assert (Hpad : Z.to_nat (width - (zlen prefix + zeros + zlen body)) = Z.to_nat pad) by (unfold pad; destruct (Z.ltb_spec (zlen prefix + zeros + zlen body) width); lia). rewrite Hpad.
  replace (if left then [] else if zero_pad then [] else replicate (Z.to_nat pad) 32) with (if negb left && negb zero_pad then replicate (Z.to_nat pad) 32 else []) by (by destruct left, zero_pad).
  replace (if left then [] else if zero_pad then replicate (Z.to_nat pad) 48 else []) with (if negb left && zero_pad then replicate (Z.to_nat pad) 48 else []) by (by destruct left, zero_pad).
  repeat (apply writes_after; [first [apply writes_when, writes_fill | apply writes_list | apply writes_fill]|]). apply writes_when, writes_fill.
Qed.
Create HintDb writes.
#[local] Hint Resolve writes_ret writes_put writes_fill : writes.

Definition no_zero (l : list Z) : Prop := Forall (fun c => c <> 0) l.
Definition piece_ok (p : piece) : Prop := let '(prefix, zeros, _, _, _) := p in no_zero prefix /\ 0 <= zeros.
Lemma int_piece conv s args : piece_ok (conv_int conv s args).
Proof.
  unfold conv_int, piece_ok. assert (Hp : let '(_, _, prefix, _) := int_value conv s args in no_zero prefix).
  { unfold int_value. destruct (_ || _).
    - destruct (signed_arg _ _) as [sv a]. repeat (case_match; simplify_eq); repeat constructor; lia.
    - destruct (conv =? 112); [repeat constructor; lia|]. destruct (unsigned_arg _ _) as [v a].
      repeat (case_match; simplify_eq); repeat constructor; lia. }
  destruct (int_value conv s args) as [[[v base] prefix] args']. split; [done|]. destruct (Z.ltb_spec (zlen (digits_of (conv =? 88) (prec s) v base)) (prec s)); lia.
Qed.

Section text.
Context (str_at : Z -> list Z) (fpu_scale : Z -> Z -> Z -> Z).
Lemma convert_piece conv s args p : convert str_at fpu_scale conv s args = Some p -> piece_ok p.
Proof.
  unfold convert. destruct (is_int_conv conv); [intros [= <-]; apply int_piece|].
  destruct (conv =? 99); [unfold conv_char; destruct (va_int args); intros [= <-]; split; [constructor|lia]|].
  destruct (conv =? 115); [unfold conv_str; destruct (va_word args); intros [= <-]; split; [constructor|lia]|].
  destruct (is_dbl_conv conv); [|done]. unfold conv_double. destruct (va_two args) as [d a]. intros E. apply (inj Some) in E. subst p. split; [|lia]. generalize (dbl_nan d) (dbl_neg d). intros [] []; destruct (plus s), (space s); repeat constructor; lia.
Qed.

(** The text a format and its arguments stand for. *)
Fixpoint text_from (fuel : nat) (f args : list Z) : list Z :=
  match fuel with
  | O => []
  | S fuel =>
      if hd0 f =? 0 then [] else
      if negb (hd0 f =? 37) then hd0 f :: text_from fuel (tail f) args else
      let '(s, f, args) := parse_spec (tail f) args in
      if hd0 f =? 0 then [] else
      match convert str_at fpu_scale (hd0 f) s args with
      | Some (prefix, zeros, body, zero_pad, args) => emit_text prefix zeros body (width s) (left s) zero_pad ++ text_from fuel (tail f) args
      | None => 37 :: (if hd0 f =? 37 then [] else [hd0 f]) ++ text_from fuel (tail f) args
      end
  end.
Definition text (fmt args : list Z) : list Z := text_from (length fmt) fmt args.
Lemma loop_writes fuel f args : writes (vs_loop str_at fpu_scale fuel f args) (text_from fuel f args) tt.
Proof.
  revert f args. induction fuel as [|fuel IH]; intros f args; cbn [vs_loop text_from]; [apply writes_ret|].
  destruct f as [|c f]; [apply writes_ret|]. change (hd0 (c :: f)) with c. change (list.tail (c :: f)) with f. destruct (c =? 0); [apply writes_ret|]. destruct (c =? 37); cbn [negb].
  - destruct (parse_spec f args) as [[s f'] args']. destruct (hd0 f' =? 0); [apply writes_ret|].
    destruct (convert str_at fpu_scale (hd0 f') s args') as [p|] eqn:E.
    + apply convert_piece in E. destruct p as [[[[prefix zeros] body] zero_pad] args2]. destruct E. apply writes_after; [by apply writes_emit|apply IH].
    + change (37 :: ?a) with ([37] ++ a). apply writes_after; [apply writes_put|]. apply writes_after; [|apply IH]. destruct (hd0 f' =? 37); apply writes_ret || apply writes_put.
  - change (c :: ?a) with ([c] ++ a). apply writes_after; [apply writes_put|apply IH].
Qed.

(** ** The sink keeps a prefix *)

Lemma puts_run t o : 0 <= pos o -> pos o + zlen t < 2 ^ 32 -> 0 <= size o <= zlen (buf o) ->
  let o' := (puts t o).2 in pos o' = pos o + zlen t /\ size o' = size o /\ zlen (buf o') = zlen (buf o) /\
    forall i, 0 <= i -> (buf o').[i] = if decide (pos o <= i < pos o + zlen t /\ i < size o - 1) then t.[i - pos o] else (buf o).[i].
Proof.
  revert o. induction t as [|c t IH]; intros o Hp Hz Hs; cbn [puts].
  - change (zlen []) with 0 in *. split; [cbn; lia|]. split; [done|]. split; [done|]. intros i Hi. by rewrite decide_False by lia.
  - assert (Hl : zlen (c :: t) = 1 + zlen t) by (unfold zlen; cbn [length]; lia). rewrite Hl in *. pose proof (zlen_nonneg t).
    rewrite (bind_run (vs_put c) _ o tt (vs_put c o).2) by done. set (o1 := (vs_put c o).2).
    assert (P1 : pos o1 = pos o + 1) by (unfold o1; cbn; apply u32_small; lia). assert (S1 : size o1 = size o) by done.
    assert (B1 : buf o1 = if pos o + 1 <? size o then (buf o).[pos o := c] else buf o) by (unfold o1; cbn; by rewrite u32_small by lia).
    assert (L1 : zlen (buf o1) = zlen (buf o)) by (rewrite B1; case_match; by rewrite ?zlen_aset).
    destruct (IH o1) as (I1 & I2 & I3 & I4); [lia|lia|lia|]. rewrite P1, S1, L1 in *. split; [lia|]. split; [done|]. split; [done|].
    intros i Hi. rewrite (I4 i Hi), B1. destruct (Z.ltb_spec (pos o + 1) (size o)).
    + destruct (decide (i = pos o)) as [->|].
      * rewrite decide_False, decide_True, aget_aset_eq, Z.sub_diag by lia. done.
      * rewrite aget_aset_ne by lia. case_decide; [|by rewrite decide_False by lia]. rewrite decide_True by lia.
        unfold aget. by replace (Z.to_nat (i - pos o)) with (S (Z.to_nat (i - (pos o + 1)))) by lia.
    + case_decide; [lia|]. by rewrite decide_False by lia.
Qed.

(** C39 - [vsnprintf] writes as much as fits: whatever the destination and its
    size, the call returns the length of the whole text, the destination then
    holds the text's first [sz] - 1 characters at most and a terminator, and
    what lies behind is left alone; with [sz] 0 nothing is written at all. *)
Theorem vsnprintf_bounded fmt args b sz : 0 <= sz <= zlen b -> zlen (text fmt args) < 2 ^ 31 ->
  vsnprintf str_at fpu_scale b sz fmt args =
    (zlen (text fmt args), if 0 <? sz then splice b 0 (take (Z.to_nat (sz - 1)) (text fmt args) ++ [0]) else b).
Proof.
  intros Hs Hz. unfold vsnprintf. rewrite (loop_writes (length fmt) fmt args). fold (text fmt args). set (t := text fmt args) in *. pose proof (zlen_nonneg t).
  destruct (puts_run t (mk_out b sz 0)) as (P & S & L & G); cbn [pos size buf] in *; [lia|lia|lia|]. set (o' := (puts t _).2) in *. rewrite P, Z.add_0_l.
  rewrite s32_small by lia. f_equal. destruct (Z.ltb_spec 0 sz).
  - set (k := if zlen t <? sz then zlen t else sz - 1). assert (Hk : k = Z.min (zlen t) (sz - 1)) by (unfold k; destruct (Z.ltb_spec (zlen t) sz); lia).
    assert (Hl : zlen (take (Z.to_nat (sz - 1)) t ++ [0]) = k + 1) by (rewrite zlen_app; change (zlen [0]) with 1; unfold zlen in *; rewrite length_take; lia).
    assert (Hb : zlen (buf o') = zlen b) by (rewrite L; done).
    apply list_eq_aget; [rewrite zlen_aset, Hb, zlen_splice; lia|]. rewrite zlen_aset, Hb. intros i Hi. rewrite aget_splice, Hl by lia.
    destruct (decide (i = k)) as [->|Hn].
    + rewrite aget_aset_eq, decide_True by lia. rewrite Z.sub_0_r. unfold aget. rewrite lookup_total_app_r by (rewrite length_take; unfold zlen in *; lia).
      by replace (Z.to_nat k - length (take (Z.to_nat (sz - 1)) t))%nat with 0%nat by (rewrite length_take; unfold zlen in *; lia).
    + rewrite aget_aset_ne, G by lia. destruct (decide (0 <= i < 0 + (k + 1))) as [|].
      * rewrite decide_True by lia. unfold aget. rewrite lookup_total_app_l by (rewrite length_take; unfold zlen in *; lia). by rewrite lookup_total_take_lt by (unfold zlen in *; lia).
      * by rewrite decide_False by lia.
  - apply list_eq_aget; [done|]. rewrite L. intros i Hi. rewrite G by lia. by rewrite decide_False by lia.
Qed.
End text.
(** ** The fuel of the loop *)

Lemma parse_flags_short f : forall s, (length (parse_flags f s).2 <= length f)%nat.
Proof. induction f as [|c f IH]; intros s; cbn; [done|]. repeat (case_match; [etrans; [apply IH|lia]|]). done. Qed.
Lemma parse_number_short f : forall n, (length (parse_number f n).2 <= length f)%nat.
Proof. induction f as [|c f IH]; intros n; cbn; [done|]. case_match; [etrans; [apply IH|lia]|done]. Qed.
Lemma parse_length_short f : forall l, (length (parse_length f l).2 <= length f)%nat.
Proof. induction f as [|c f IH]; intros l; cbn; [done|]. repeat (case_match; [etrans; [apply IH|lia]|]). done. Qed.
Lemma tail_short (f : list Z) : (length (list.tail f) <= length f)%nat.
Proof. destruct f; cbn; lia. Qed.
Lemma parse_spec_short f args : let '(_, f', _) := parse_spec f args in (length f' <= length f)%nat.
Proof.
  unfold parse_spec. pose proof (parse_flags_short f (mk_spec false false false false false 0 (-1) 0)) as H1. destruct (parse_flags _ _) as [s f1]. cbn [snd] in H1.
  assert (H2 : let '(_, f2, _) := parse_width f1 s args in (length f2 <= length f1)%nat).
  { unfold parse_width. pose proof (tail_short f1). pose proof (parse_number_short f1 0). destruct (hd0 f1 =? 42); [by destruct (va_int args)|by destruct (parse_number f1 0)]. }
  destruct (parse_width f1 s args) as [[s2 f2] a2].
  assert (H3 : let '(_, f3, _) := parse_prec f2 s2 a2 in (length f3 <= length f2)%nat).
  { unfold parse_prec. pose proof (tail_short f2). pose proof (tail_short (list.tail f2)). pose proof (parse_number_short (list.tail f2) 0). destruct (hd0 f2 =? 46); [|done].
    destruct (hd0 (list.tail f2) =? 42); [destruct (va_int a2); lia|destruct (parse_number (list.tail f2) 0); cbn [snd] in *; lia]. }
  destruct (parse_prec f2 s2 a2) as [[s3 f3] a3]. pose proof (parse_length_short f3 0) as H4. destruct (parse_length f3 0) as [l f4]. cbn [snd] in H4. lia.
Qed.
(** The length of the format is fuel enough: with more the loop does the same. *)
Lemma vs_loop_fuel str_at fpu fuel n : forall f args o, (length f <= n <= fuel)%nat -> vs_loop str_at fpu fuel f args o = vs_loop str_at fpu n f args o.
Proof.
  revert n. induction fuel as [|fuel IH]; intros n f args o Hn; [by destruct n; [|lia]|].
  destruct n as [|n]; [destruct f; [done|cbn in Hn; lia]|]. cbn [vs_loop]. destruct f as [|c f]; [done|]. cbn [length] in Hn. destruct (c =? 0); [done|]. destruct (c =? 37); cbn [negb].
  - pose proof (parse_spec_short f args) as Hs. destruct (parse_spec f args) as [[s f'] args']. pose proof (tail_short f'). destruct (hd0 f' =? 0); [done|].
    destruct (convert _ _ _ _ _) as [[[[[p z] b] zp] a]|]; unfold mbind, st_bind; repeat case_match; apply IH; lia.
  - unfold mbind, st_bind. case_match. apply IH. lia.
Qed.

(** ** Numbers read back *)

Lemma digits_itoa fuel w : digits_word fuel false w 10 = itoa_digits fuel w 10.
Proof.
  revert w. induction fuel as [|fuel IH]; intros w; [done|]. cbn [digits_word itoa_digits]. rewrite IH. destruct (w =? 0); [done|]. f_equal.
  unfold vs_digit, digit_char. pose proof (Z.mod_pos_bound w 10). destruct (Z.ltb_spec (w mod 10) 10); lia.
Qed.
Lemma zero_digit : digit_below 10 48.
Proof. exists 0. split; [lia|done]. Qed.
Lemma strtol_zeros n l k : strtol_digits (replicate n 48 ++ l) 10 0 k = strtol_digits l 10 0 (k + Z.of_nat n).
Proof.
  revert k. induction n as [|n IH]; intros k; cbn [replicate app]; [by rewrite Z.add_0_r|]. cbn [strtol_digits]. change (48 =? 0) with false. change (digit_of 48) with (Some 0).
  cbn match. change (10 <=? 0) with false. change (s32 (0 * 10 + 0)) with 0. cbn match. rewrite IH. f_equal. lia.
Qed.
Lemma strtol_digits_shift l base acc n v k d : strtol_digits l base acc n = (v, k) -> strtol_digits l base acc (n + d) = (v, k + d).
Proof.
  revert acc n. induction l as [|c l IH]; intros acc n; cbn [strtol_digits]; [by intros [= -> ->]|]. destruct (c =? 0); [by intros [= -> ->]|].
  destruct (digit_of c) as [x|]; [|by intros [= -> ->]]. destruct (base <=? x); [by intros [= -> ->]|]. intros E. replace (n + d + 1) with (n + 1 + d) by lia. by apply IH.
Qed.
(** Whatever follows the digits, if it is no digit. *)
Definition stops (c : list Z) : Prop := hd0 c = 0 \/ digit_of (hd0 c) = None.
Lemma strtol_stop c acc n : stops c -> strtol_digits c 10 acc n = (acc, n).
Proof. destruct c as [|x c]; [done|]. intros [E|E]; cbn in E |- *; [by subst|]. destruct (x =? 0); [done|]. by rewrite E. Qed.
Lemma skip_spaces n l : skip_space (replicate n 32 ++ l) = skip_space l.
Proof. induction n; [done|]. cbn. done. Qed.
Lemma skip_digits l c : Forall (digit_below 10) l -> l <> [] -> skip_space (l ++ c) = l ++ c.
Proof. intros [|x l' (d & Hd & ->)] Hn; [done|]. cbn. destruct (digit_of_char d) as (_ & _ & _ & _ & _ & _ & ->); [lia|done]. Qed.
Lemma sign_digits l c : Forall (digit_below 10) l -> l <> [] -> take_sign (l ++ c) = (1, l ++ c).
Proof.
  intros [|x l' (d & Hd & ->)] Hn; [done|]. unfold take_sign. cbn. destruct (digit_of_char d) as (_ & _ & _ & _ & H1 & H2 & _); [lia|].
  by rewrite (proj2 (Z.eqb_neq _ 43) H1), (proj2 (Z.eqb_neq _ 45) H2).
Qed.
Definition sign_of (p : list Z) : Z := if hd0 p =? 45 then -1 else 1.
Lemma strtol_number a p l c v k : p ∈ [[]; [43]; [32]; [45]] -> Forall (digit_below 10) l -> l <> [] -> stops c -> strtol_digits l 10 0 0 = (v, k) ->
  (strtol (replicate a 32 ++ p ++ l ++ c) 10).1 = s32 (v * sign_of p).
Proof.
  intros Hp Hl Hn Hc Hv. unfold strtol. rewrite skip_spaces.
  assert (E : take_sign (skip_space (p ++ l ++ c)) = (sign_of p, l ++ c)).
  { repeat (apply elem_of_cons in Hp as [->|Hp]); [| | | |by apply not_elem_of_nil in Hp]; cbn [app].
    - by rewrite skip_digits, sign_digits.
    - done.
    - change (skip_space (32 :: l ++ c)) with (skip_space (l ++ c)). by rewrite skip_digits, sign_digits.
    - done. }
  rewrite E. change (10 =? 0) with false. change (10 =? 16) with false. cbv beta iota zeta. change (10 =? 16) with false. cbn [andb]. rewrite strtol_digits_app, Hv by done || lia. by rewrite strtol_stop.
Qed.

(** The signed value a directive prints. *)
Definition int_arg (s : spec) (args : list Z) : Z := (signed_arg (lng s) args).1.
Lemma signed_range s args : lng s <= 1 -> - 2 ^ 31 <= int_arg s args < 2 ^ 31.
Proof.
  intros Hl. unfold int_arg, signed_arg. rewrite (proj2 (Z.eqb_neq (lng s) 2)) by lia. unfold va_int. destruct (va_word args) as [w a].
  pose proof (s32_range w). destruct (lng s =? 1); [done|]. cbn [fst]. unfold s16, s8. destruct (lng s =? -1); [zdm|]. destruct (lng s =? -2); [zdm|done].
Qed.
(** The digits of a magnitude that takes 32 bits. *)
Lemma digits_small p u : 0 <= u < 2 ^ 32 -> p <> 0 \/ u <> 0 -> exists k, Forall (digit_below 10) (digits_of false p u 10) /\ digits_of false p u 10 <> [] /\
  strtol_digits (rev (digits_of false p u 10)) 10 0 0 = (s32 u, k).
Proof.
  intros Hu Hp. unfold digits_of. cbn [digits_wide]. rewrite (proj2 (Z.ltb_ge 0xFFFFFFFF u)) by lia. cbn [app]. rewrite digits_itoa.
  destruct (Z.eqb_spec u 0) as [->|Hn].
  - rewrite (proj2 (Z.eqb_neq p 0)) by lia. cbn [negb andb itoa_digits Z.eqb app rev]. exists 1. split; [repeat constructor; apply zero_digit|]. by split.
  - cbn [andb app]. exists (0 + zlen (itoa_digits 24 u 10)). split; [apply itoa_digits_below; lia|]. split; [intros E; apply itoa_digits_nil in E; lia|].
    pose proof (strtol_rev_digits 24 u 10 0 0 ltac:(lia)) as H. cbv zeta in H. rewrite Z.mul_0_l, Z.add_0_l in H. apply H. lia.
Qed.

(** A magnitude, its sign in front, blanks and zeros around it, read back. *)
Lemma strtol_emit prefix zeros body width left zero_pad c v k : prefix ∈ [[]; [43]; [32]; [45]] -> Forall (digit_below 10) body -> body <> [] -> stops c ->
  strtol_digits body 10 0 0 = (v, k) -> (strtol (emit_text prefix zeros body width left zero_pad ++ c) 10).1 = s32 (v * sign_of prefix).
Proof.
  intros Hp Hb Hn Hc Hv. unfold emit_text. set (pad := Z.to_nat _).
  set (a := if left then 0%nat else if zero_pad then 0%nat else pad). set (z := ((if left then 0 else if zero_pad then pad else 0) + Z.to_nat zeros)%nat).
  set (r := (if left then replicate pad 32 else []) ++ c).
  replace ((_ ++ prefix ++ _) ++ c) with (replicate a 32 ++ prefix ++ (replicate z 48 ++ body) ++ r).
  2:{ unfold a, z, r. rewrite replicate_add. destruct left, zero_pad; by rewrite <- ?app_assoc. }
  apply (strtol_number a prefix (replicate z 48 ++ body) r v (k + Z.of_nat z)); [done| | |idtac|].
  - apply Forall_app. split; [apply Forall_replicate, zero_digit|done].
  - by destruct z, body.
  - unfold r. destruct left; [|done]. destruct pad; [done|]. right. done.
  - rewrite strtol_zeros. by apply strtol_digits_shift.
Qed.
Section read_back.
Context (str_at : Z -> list Z) (fpu_scale : Z -> Z -> Z -> Z).
(** C32 - What %d prints reads back: whatever flags, width, precision and length
    stand in the directive, as long as the value takes 32 bits and is not a 0
    of precision 0, [strtol] reads from the destination the value printed. *)
Theorem vsnprintf_read_back f args s args' b sz : parse_spec f args = (s, [100], args') -> lng s <= 1 -> prec s <> 0 \/ int_arg s args' <> 0 ->
  zlen (text str_at fpu_scale (37 :: f) args) < sz <= zlen b -> sz < 2 ^ 31 ->
  (strtol (vsnprintf str_at fpu_scale b sz (37 :: f) args).2 10).1 = int_arg s args'.
Proof.
  intros Hs Hl Hp Hz Hb. pose proof (signed_range s args' Hl) as Hr. pose proof (zlen_nonneg (text str_at fpu_scale (37 :: f) args)).
  rewrite vsnprintf_bounded by lia. cbn [snd]. rewrite (proj2 (Z.ltb_lt 0 sz)) by lia. rewrite take_ge by (unfold zlen in *; lia).
  unfold splice. change (take (Z.to_nat 0) b) with (@nil Z). rewrite app_nil_l, <- app_assoc. set (c := [0] ++ _).
  unfold text. cbn [length text_from]. change (hd0 (37 :: f)) with 37. change (list.tail (37 :: f)) with f. cbn [negb Z.eqb Pos.eqb]. rewrite Hs.
  change (hd0 [100]) with 100. cbn [Z.eqb Pos.eqb]. change (convert str_at fpu_scale 100 s args') with (Some (conv_int 100 s args')).
  unfold conv_int, int_value. change (100 =? 100) with true. cbn [orb]. unfold int_arg in *. destruct (signed_arg (lng s) args') as [v a]. cbn [fst] in *. change (100 =? 88) with false. cbn match.
  set (u := if v <? 0 then _ else v). set (p := if v <? 0 then _ else _). assert (Hu : u = Z.abs v) by (unfold u, u64; destruct (Z.ltb_spec v 0); zdm).
  destruct (digits_small (prec s) u) as (k & D1 & D2 & D3); [lia|lia|]. rewrite <- app_assoc.
  rewrite (strtol_emit p _ _ _ _ _ _ (s32 u) k).
  - assert (Hsg : sign_of p = if v <? 0 then -1 else 1) by (unfold p; by destruct (v <? 0), (plus s), (space s)). rewrite Hsg, <- (Z.add_0_r (s32 u * _)), s32_linear, Z.add_0_r, Hu.
    rewrite s32_small; destruct (Z.ltb_spec v 0); lia.
  - unfold p. destruct (v <? 0), (plus s), (space s); vdec.
  - by apply Forall_rev.
  - intros E. apply (f_equal (@rev Z)) in E. by rewrite rev_involutive in E.
  - left. by destruct f.
  - done.
Qed.
End read_back.
(** "x%-6.3dy" of -42 into a destination of eight bytes, five of which may be
    written; and into all of it, read back. *)
#[local] Definition demo_fmt : list Z := [120; 37; 45; 54; 46; 51; 100; 121].
#[local] Definition demo_buf : list Z := replicate 16 170.
Lemma vsnprintf_bounded_witness : vsnprintf (fun _ => []) (fun _ _ _ => 0) demo_buf 5 demo_fmt [2 ^ 32 - 42] = (8, [120; 45; 48; 52; 0] ++ replicate 11 170).
Proof.
  rewrite (vsnprintf_bounded (fun _ => []) (fun _ _ _ => 0) demo_fmt [2 ^ 32 - 42] demo_buf 5).
  - reflexivity.
  - split; [lia|vm_compute; discriminate].
  - vm_compute. reflexivity.
Defined.
Lemma vsnprintf_read_back_witness : (strtol (vsnprintf (fun _ => []) (fun _ _ _ => 0) demo_buf 16 [37; 45; 54; 46; 51; 100] [2 ^ 32 - 42]).2 10).1 = -42.
Proof.
  rewrite (vsnprintf_read_back (fun _ => []) (fun _ _ _ => 0) [45; 54; 46; 51; 100] [2 ^ 32 - 42] (mk_spec true false false false false 6 3 0) [2 ^ 32 - 42] demo_buf 16).
  - reflexivity.
  - reflexivity.
  - vm_compute. discriminate.
  - left. vm_compute. discriminate.
  - split; vm_compute; [reflexivity|discriminate].
  - reflexivity.
Defined.
End Format.
