(* ===== verification/Boot.v ===== *)
(** What the kernel learns from its loader (src/bootinfo.c): the memory map
    that fills the frame bitmap, and where the screen is. The information is
    read from physical memory, as the loader left it. *)
From S2P Require Import Prelude Pmm Mem.
From stdpp Require Import base list gmap numbers.
From Stdlib Require Import ZArith Lia.
Import Pmm Mem.
Open Scope Z_scope.

Module Boot.

(** The globals; [pmm] is the frame bitmap. *)
Record boot := mk_boot {
  frames_of : pmm; boot_has_fb : Z; boot_fb_addr : Z; boot_fb_width : Z; boot_fb_height : Z; boot_fb_bpp : Z; boot_fb_pitch : Z; boot_ram_top_below_4g : Z;
}.
Definition set_frames (p : pmm) (b : boot) : boot :=
  mk_boot p (boot_has_fb b) (boot_fb_addr b) (boot_fb_width b) (boot_fb_height b) (boot_fb_bpp b) (boot_fb_pitch b) (boot_ram_top_below_4g b).
Definition set_top (t : Z) (b : boot) : boot :=
  mk_boot (frames_of b) (boot_has_fb b) (boot_fb_addr b) (boot_fb_width b) (boot_fb_height b) (boot_fb_bpp b) (boot_fb_pitch b) t.
Definition set_fb (addr width height bpp pitch : Z) (b : boot) : boot := mk_boot (frames_of b) 1 addr width height bpp pitch (boot_ram_top_below_4g b).
Definition on_frames (f : pmm -> pmm) : st boot unit := modify (fun b => set_frames (f (frames_of b)) b).

Section ops.
Context (m : mem).
#[local] Abbreviation r8 := (ld8 m).
#[local] Abbreviation r16 a := (le_get (load_bytes m a 2)).
#[local] Abbreviation r32 := (ld32 m).

(** One entry of the memory map. *)
Definition mmap_entry (current_addr : Z) : st boot unit :=
  let base_low := r32 (u32 (current_addr + 4)) in
  let len_low := r32 (u32 (current_addr + 12)) in
  let type := r32 (u32 (current_addr + 20)) in
  if type =? 1 then
    on_frames (pmm_init_region base_low len_low);;
    let region_end := u32 (base_low + len_low) in
    let region_end := if region_end <? base_low then 0xFFFFFFFF else region_end in
    modify (fun b => if boot_ram_top_below_4g b <? region_end then set_top region_end b else b)
  else mret tt.
(** The walk; an entry whose size wraps the address may walk for ever. *)
Fixpoint mmap_loop (fuel : nat) (current_addr mmap_end : Z) : st boot unit :=
  match fuel with
  | O => mret tt
  | S fuel =>
      if current_addr <? mmap_end then
        mmap_entry current_addr;;
        mmap_loop fuel (u32 (current_addr + u32 (r32 current_addr + 4))) mmap_end
      else mret tt
  end.
(** [kernel_end]: where the linker ends the image. *)
Definition memory_map (fuel : nat) (mb kernel_end : Z) : st boot unit :=
  let mmap_length := r32 (u32 (mb + 44)) in
  let mmap_addr := r32 (u32 (mb + 48)) in
  mmap_loop fuel mmap_addr (u32 (mmap_addr + mmap_length));;
  on_frames (pmm_deinit_region 0 0x100000);;
  on_frames (pmm_deinit_region 0x100000 0x500000);;
  on_frames (pmm_deinit_region 0x100000 (u32 (kernel_end - 0x100000))).
(** The screen by the framebuffer fields, if they give one; by the VBE mode. *)
Definition fb_fields (mb : Z) : st boot bool :=
  let fb_addr_lo := r32 (u32 (mb + 88)) in
  if fb_addr_lo =? 0 then mret false else
  modify (set_fb fb_addr_lo (r32 (u32 (mb + 100))) (r32 (u32 (mb + 104))) (r8 (u32 (mb + 108))) (r32 (u32 (mb + 96))));; mret true.
Definition vbe_fields (mb : Z) : st boot unit :=
  let mode := r32 (u32 (mb + 76)) in
  if mode =? 0 then mret tt else
  let x := r16 (u32 (mode + 18)) in
  let bpp := r8 (u32 (mode + 25)) in
  let phys := r32 (u32 (mode + 40)) in
  when (negb (phys =? 0)) (modify (set_fb phys x (r16 (u32 (mode + 20))) bpp (if 8 <=? bpp then x * ((bpp + 7) / 8) else x))).
Definition parse_multiboot (fuel : nat) (mb_magic mb_info kernel_end : Z) : st boot unit :=
  if negb (mb_magic =? 0x2BADB002) then mret tt else
  if mb_info =? 0 then mret tt else
  let flags := r32 mb_info in
  on_frames pmm_init;;
  when (Z.testbit flags 6) (memory_map fuel mb_info kernel_end);;
  found ← (if Z.testbit flags 12 then fb_fields mb_info else mret false);
  when (negb found && Z.testbit flags 11) (vbe_fields mb_info).
End ops.

(** ** The map as a list of entries *)

Record entry := mk_entry { e_size : Z; e_base : Z; e_len : Z; e_type : Z }.
(** [es] lies in memory from [a] to [b]. The fields the code reads are the low
    words of base and length. *)
Fixpoint map_at (m : mem) (a : Z) (es : list entry) (b : Z) : Prop :=
  match es with
  | [] => a = b
  | e :: es =>
      20 <= e_size e /\ a + e_size e + 4 <= b /\ ld32 m a = e_size e /\ ld32 m (a + 4) = e_base e /\ ld32 m (a + 12) = e_len e /\ ld32 m (a + 20) = e_type e /\
      map_at m (a + e_size e + 4) es b
  end.
Definition free_in (e : entry) (c : Z) : Prop := e_type e = 1 /\ in_region (e_base e) (e_len e) c.
#[export] Instance free_in_dec e c : Decision (free_in e c).
Proof. unfold free_in. apply _. Defined.
(** The end of a region, cut at 4 GiB. *)
Definition region_top (e : entry) : Z := if e_base e + e_len e <? 2 ^ 32 then e_base e + e_len e else 2 ^ 32 - 1.
Fixpoint top_of (es : list entry) : Z :=
  match es with [] => 0 | e :: es => if e_type e =? 1 then Z.max (region_top e) (top_of es) else top_of es end.

Definition shaped (b : boot) : Prop := pmm_shape (frames_of b).
Lemma entry_run m a e b : shaped b -> 0 <= a -> a + 24 < 2 ^ 32 -> ld32 m (a + 4) = e_base e -> ld32 m (a + 12) = e_len e -> ld32 m (a + 20) = e_type e -> 0 <= boot_ram_top_below_4g b ->
  exists b', mmap_entry m a b = (tt, b') /\ shaped b' /\
    (forall c, in_range c -> frame_used (frames_of b') c = if decide (free_in e c /\ c <> 0) then false else if decide (e_type e = 1 /\ c = 0) then true else frame_used (frames_of b) c) /\
    boot_ram_top_below_4g b' = Z.max (boot_ram_top_below_4g b) (if e_type e =? 1 then region_top e else 0).
Proof.
  intros Hs Ha Hw Hb Hl Ht Hp. unfold mmap_entry. rewrite (u32_small (a + 4)), (u32_small (a + 12)), (u32_small (a + 20)) by lia. rewrite Hb, Hl, Ht.
  assert (Bb : is_u32 (e_base e)) by (rewrite <- Hb; apply ld32_bound). assert (Bl : is_u32 (e_len e)) by (rewrite <- Hl; apply ld32_bound).
  destruct (Z.eqb_spec (e_type e) 1) as [E|E].
  - destruct (init_region_used (frames_of b) (e_base e) (e_len e) Hs Bb Bl) as [S U].
    set (end_ := if u32 (e_base e + e_len e) <? e_base e then 0xFFFFFFFF else u32 (e_base e + e_len e)).
    assert (Er : end_ = region_top e).
    { unfold end_, region_top, is_u32 in *. destruct (Z.ltb_spec (e_base e + e_len e) (2 ^ 32)).
      - rewrite u32_small by lia. by rewrite (proj2 (Z.ltb_ge _ _)) by lia.
      - assert (u32 (e_base e + e_len e) = e_base e + e_len e - 2 ^ 32) as -> by (unfold u32; zdm). by rewrite (proj2 (Z.ltb_lt _ _)) by lia. }
    eexists. split; [reflexivity|]. rewrite Er. set (b1 := set_frames _ b). assert (T1 : boot_ram_top_below_4g b1 = boot_ram_top_below_4g b) by done.
    destruct (Z.ltb_spec (boot_ram_top_below_4g b1) (region_top e)).
    all: split; [exact S|]; split; [|cbn [set_top boot_ram_top_below_4g]; lia]; intros c Hc; etrans; [apply U, Hc|]; unfold free_in.
    all: repeat case_decide; try done; tauto.
  - exists b. split; [done|]. split; [done|]. split; [|lia]. intros c Hc. by rewrite !decide_False by (unfold free_in; tauto).
Qed.

(** What the walk leaves of a frame: free if an entry says so. *)
Definition offered (es : list entry) (c : Z) : Prop := Exists (fun e => free_in e c) es.
#[export] Instance offered_dec es c : Decision (offered es c).
Proof. unfold offered. apply _. Defined.
Lemma map_len m a es b : map_at m a es b -> a <= b /\ (es <> [] -> a + 24 <= b).
Proof. revert a. induction es as [|e es IH]; intros a; cbn; [intros ->; split; [lia|done]|]. intros (H1 & H2 & _). split; intros; lia. Qed.
Lemma loop_run m es : forall fuel a e b, map_at m a es e -> 0 <= a -> e < 2 ^ 32 -> (length es <= fuel)%nat -> shaped b -> 0 <= boot_ram_top_below_4g b ->
  exists b', mmap_loop m fuel a e b = (tt, b') /\ shaped b' /\
    (forall c, in_range c -> c <> 0 -> frame_used (frames_of b') c = if decide (offered es c) then false else frame_used (frames_of b) c) /\
    (frame_used (frames_of b) 0 = true -> frame_used (frames_of b') 0 = true) /\
    boot_ram_top_below_4g b' = Z.max (boot_ram_top_below_4g b) (top_of es).
Proof.
  induction es as [|en es IH]; intros fuel a e b Hm Ha He Hf Hs Hp.
  - cbn in Hm. subst e. exists b. assert (E : mmap_loop m fuel a a b = (tt, b)) by (destruct fuel; [done|]; cbn [mmap_loop]; by rewrite Z.ltb_irrefl).
    split; [exact E|]. split; [done|]. split; [|split; [done|cbn; lia]]. intros c _ _. rewrite decide_False; [done|]. intros Ho. inversion Ho.
  - pose proof (map_len _ _ _ _ Hm) as [_ Hl]. specialize (Hl ltac:(done)). destruct Hm as (M1 & M2 & M3 & M4 & M5 & M6 & M7). destruct fuel as [|fuel]; [cbn in Hf; lia|]. cbn [length] in Hf.
    cbn [mmap_loop]. rewrite (proj2 (Z.ltb_lt a e)) by lia. destruct (entry_run m a en b Hs Ha ltac:(lia) M4 M5 M6 Hp) as (b1 & E1 & S1 & U1 & T1). rewrite (bind_run _ _ _ _ _ E1).
    rewrite M3, (u32_small (e_size en + 4)), u32_small, Z.add_assoc by lia.
    destruct (IH fuel (a + e_size en + 4) e b1 M7 ltac:(lia) He ltac:(lia) S1 ltac:(lia)) as (b2 & E2 & S2 & U2 & Z2 & T2). exists b2. split; [exact E2|]. split; [done|]. split; [|split].
    + intros c Hc Hn. rewrite U2, U1 by done. assert (Ho : offered (en :: es) c <-> free_in en c \/ offered es c) by (unfold offered; apply Exists_cons). repeat case_decide; done || tauto.
    + intros H0. apply Z2. rewrite U1 by (unfold in_range, PMM_MAX_BLOCKS; lia). rewrite decide_False by tauto. by case_decide.
    + rewrite T2, T1. cbn [top_of]. destruct (e_type en =? 1); [lia|]. assert (0 <= top_of es) by (clear; induction es as [|x es IH]; cbn; [lia|]; destruct (e_type x =? 1); lia). lia.
Qed.

(** What a later step that leaves the frames alone does to them. *)
Definition keeps (f : st boot unit) : Prop := forall b, frames_of (f b).2 = frames_of b /\ boot_ram_top_below_4g (f b).2 = boot_ram_top_below_4g b.
Lemma screen_keeps m mb flags : keeps ((if Z.testbit flags 12 then fb_fields m mb else mret false) ≫= fun found : bool => when (negb found && Z.testbit flags 11) (vbe_fields m mb)).
Proof.
  assert (Hv : keeps (vbe_fields m mb)).
  { intros b. unfold vbe_fields. destruct (ld32 m (u32 (mb + 76)) =? 0); [done|]. by destruct (ld32 m (u32 (_ + 40)) =? 0). }
  intros b. destruct (Z.testbit flags 12).
  - unfold fb_fields. destruct (ld32 m (u32 (mb + 88)) =? 0); [|done]. destruct (Z.testbit flags 11); [apply (Hv b)|done].
  - destruct (Z.testbit flags 11); [apply (Hv b)|done].
Qed.
Lemma init_used p : in_range (pmm_next_hint p) -> pmm_shape (pmm_init p) /\ forall c, in_range c -> frame_used (pmm_init p) c = true.
Proof.
  intros Hh. destruct booted_ok as [[S1 S2 _] _]. split; [by constructor|]. intros c Hc. pose proof (booted_used c Hc) as E. unfold frame_used in *. exact E.
Qed.

(** C24 - The frames the kernel may use are the ones the loader offers: with a
    memory map in good order, a frame is free after [parse_multiboot] exactly
    if an entry of type 1 covers it and it lies neither below 6 MiB nor in
    the kernel's image; and the highest address of memory is the top of the
    entries. Of each entry only the low words of base and length count. *)
Theorem parse_multiboot_frames m fuel mb kernel_end es b0 : 0 < mb -> mb + 112 < 2 ^ 32 -> Z.testbit (ld32 m mb) 6 = true ->
  let a := ld32 m (mb + 48) in let e := a + ld32 m (mb + 44) in
  map_at m a es e -> e < 2 ^ 32 -> (length es <= fuel)%nat -> 0x100000 <= kernel_end < 2 ^ 32 ->
  in_range (pmm_next_hint (frames_of b0)) -> boot_ram_top_below_4g b0 = 0 ->
  let b := (parse_multiboot m fuel 0x2BADB002 mb kernel_end b0).2 in
  pmm_shape (frames_of b) /\ boot_ram_top_below_4g b = top_of es /\
  forall c, in_range c -> frame_used (frames_of b) c = false <-> offered es c /\ 0x600000 <= c * 4096 /\ kernel_end < (c + 1) * 4096.
Proof.
  intros Hm0 Hm1 Hf a e Hm He Hfu Hk Hh Ht b.
  destruct (init_used (frames_of b0) Hh) as [S0 U0]. set (b1 := set_frames (pmm_init (frames_of b0)) b0).
  pose proof (ld32_bound m (mb + 48)). pose proof (ld32_bound m (mb + 44)).
  destruct (loop_run m es fuel a e b1 Hm ltac:(unfold a; lia) He Hfu S0 ltac:(cbn; lia)) as (b2 & E2 & S2 & U2 & Z2 & T2).
  destruct (deinit_region_used (frames_of b2) 0 0x100000 S2) as [S3 U3]; [unfold is_u32; lia..|]. set (p3 := pmm_deinit_region 0 _ _) in *.
  destruct (deinit_region_used p3 0x100000 0x500000 S3) as [S4 U4]; [unfold is_u32; lia..|]. set (p4 := pmm_deinit_region 0x100000 0x500000 p3) in *.
  destruct (deinit_region_used p4 0x100000 (kernel_end - 0x100000) S4) as [S5 U5]; [unfold is_u32; lia..|]. set (p5 := pmm_deinit_region 0x100000 (kernel_end - 0x100000) p4) in *.
  assert (Eb : frames_of b = p5 /\ boot_ram_top_below_4g b = boot_ram_top_below_4g b2).
  { unfold b, parse_multiboot. change (negb (0x2BADB002 =? 0x2BADB002)) with false. rewrite (proj2 (Z.eqb_neq mb 0)) by lia.
    rewrite (bind_run (on_frames pmm_init) _ b0 tt b1) by done. rewrite Hf. cbn [when].
    assert (Em : memory_map m fuel mb kernel_end b1 = (tt, set_frames p5 b2)).
    { unfold memory_map. rewrite !(u32_small (mb + _)) by lia. fold a. rewrite (u32_small (a + ld32 m (mb + 44))) by (unfold e, a in *; lia). fold e.
      rewrite (bind_run _ _ _ _ _ E2). rewrite (u32_small (kernel_end - _)) by lia. reflexivity. }
    rewrite (bind_run _ _ _ _ _ Em). destruct (screen_keeps m mb (ld32 m mb) (set_frames p5 b2)) as [K1 K2]. rewrite K1, K2. done. }
  destruct Eb as [-> ->]. split; [done|]. split; [rewrite T2; cbn; rewrite Ht; assert (0 <= top_of es) by (clear; induction es as [|x es IH]; cbn; [lia|]; destruct (e_type x =? 1); lia); lia|].
  assert (Ek : (kernel_end - 0x100000) / 4096 = kernel_end / 4096 - 256) by zdm.
  assert (R1 : forall c, in_region 0 0x100000 c <-> 0 <= c < 256) by (intros; unfold in_region, PMM_BLOCK_SIZE; zdm).
  assert (R2 : forall c, in_region 0x100000 0x500000 c <-> 256 <= c < 1536) by (intros; unfold in_region, PMM_BLOCK_SIZE; zdm).
  assert (R3 : forall c, in_region 0x100000 (kernel_end - 0x100000) c <-> 256 <= c < kernel_end / 4096) by (intros; unfold in_region, PMM_BLOCK_SIZE; rewrite Ek; zdm).
  intros c Hc. rewrite U5, U4, U3 by done. destruct (decide (in_region 0x100000 (kernel_end - _) c)) as [D|D]; rewrite R3 in D; [split; [done|zdm]|].
  destruct (decide (in_region 0x100000 _ c)) as [D2|D2]; rewrite R2 in D2; [split; [done|lia]|].
  destruct (decide (in_region 0 _ c)) as [D1|D1]; rewrite R1 in D1; [split; [done|lia]|]. unfold in_range in Hc.
  rewrite U2 by (done || lia). rewrite (U0 c Hc : frame_used (frames_of b1) c = true). case_decide; split; try done; [|tauto]. intros _. split; [done|]. zdm.
Qed.

(** A machine with 32 MiB: what the loader writes, and a frame at 7 MiB. *)
#[local] Definition demo_mem : mem :=
  foldr (fun av m => st32 av.1 av.2 m) ∅ [(0x9000, 64); (0x902C, 24); (0x9030, 0x9100); (0x9100, 20); (0x9104, 0x100000); (0x910C, 0x1F00000); (0x9114, 1)].
#[local] Definition demo_boot : boot := mk_boot (mk_pmm [] 0 0) 0 0 0 0 0 0 0.
Lemma parse_multiboot_frames_witness : frame_used (frames_of (parse_multiboot demo_mem 1 0x2BADB002 0x9000 0x580000 demo_boot).2) 1792 = false.
Proof.
  destruct (parse_multiboot_frames demo_mem 1 0x9000 0x580000 [mk_entry 20 0x100000 0x1F00000 1] demo_boot) as (_ & _ & H).
  - lia.
  - lia.
  - vm_compute. reflexivity.
  - cbn [map_at e_size e_base e_len e_type]. assert (E : ld32 demo_mem (0x9000 + 48) = 0x9100 /\ ld32 demo_mem (0x9000 + 44) = 24) by (vm_compute; done). destruct E as [-> ->].
    split; [lia|]. split; [lia|]. vm_compute. done.
  - vm_compute. reflexivity.
  - cbn. lia.
  - lia.
  - split; vm_compute; done.
  - reflexivity.
  - apply H; [split; vm_compute; done|]. split; [|split; [vm_compute; discriminate|vm_compute; done]].
    apply Exists_cons_hd. split; [done|]. vm_compute. split; [discriminate|done].
Defined.
End Boot.
