(* ===== verification/Vesa.v ===== *)
(** The screen (src/vesa.c): pixels in a back buffer in memory, rectangles,
    lines and characters clipped to the screen, scrolling, the mouse cursor
    drawn over the picture, buttons.

    Coordinates are C ints; the comparisons the code makes unsigned are
    written with [u32]. The font is a table of rows of eight bits. *)
From S2P Require Import Prelude Pmm CString Mem.
From stdpp Require Import base list gmap numbers.
From Stdlib Require Import ZArith Lia.
Import CString Mem.
Open Scope Z_scope.

Module Vesa.

Definition back : Z := 0x800000.
Definition MOUSE_SIZE : Z := 5.
Definition MOUSE_BORDER : Z := 1.
Definition MOUSE_BOX : Z := MOUSE_SIZE + 2 * MOUSE_BORDER.
Definition VESA_MAX_BUTTONS : Z := 32.

(** What [vesa_init_from_params] sets up. *)
Record geom := mk_geom { vesa_ready : bool; lfb : Z; fb_width : Z; fb_height : Z; fb_bpp : Z; fb_pitch : Z }.
Definition vesa_init_from_params (phys_addr width height bpp pitch : Z) (p : Pmm.pmm) : geom * Pmm.pmm :=
  let bad := (width =? 0) || (height =? 0) || (8192 <? width) || (8192 <? height) in
  let width := if bad then 1920 else width in
  let height := if bad then 1080 else height in
  let bpp := if bad then 32 else bpp in
  let pitch := if bad then width * 4 else pitch in
  let fb_pitch := if negb (pitch =? 0) then pitch else u32 (width * (u32 (bpp + 7) / 8)) in
  (mk_geom true phys_addr width height bpp fb_pitch, Pmm.pmm_deinit_region back (u32 (fb_pitch * height)) p).
Record button (H : Type) := mk_button { b_x : Z; b_y : Z; b_w : Z; b_h : Z; b_color : Z; b_label : list Z; b_click : option H; b_active : bool }.
Arguments mk_button {H}. Arguments b_x {H}. Arguments b_y {H}. Arguments b_w {H}. Arguments b_h {H}. Arguments b_color {H}. Arguments b_label {H}. Arguments b_click {H}. Arguments b_active {H}.
#[export] Instance button_inhabited {H} : Inhabited (button H) := populate (mk_button 0 0 0 0 0 [] None false).
Record vesa (H : Type) := mk_vesa {
  geo : geom; ram : mem;
  c_x : Z; c_y : Z; sc_x : Z; sc_y : Z;
  mouse_under : list (list Z); mouse_prev_x : Z; mouse_prev_y : Z; mouse_has_saved : bool;
  g_buttons : list (button H); g_button_count : Z; app_mode : bool;
}.
Arguments mk_vesa {H}. Arguments geo {H}. Arguments ram {H}. Arguments c_x {H}. Arguments c_y {H}. Arguments sc_x {H}. Arguments sc_y {H}.
Arguments mouse_under {H}. Arguments mouse_prev_x {H}. Arguments mouse_prev_y {H}. Arguments mouse_has_saved {H}. Arguments g_buttons {H}. Arguments g_button_count {H}. Arguments app_mode {H}.

Section ops.
Context {H : Type}.
Implicit Types s : vesa H.
#[local] Abbreviation M := (st (vesa H)).

Definition set_ram (m : mem) s : vesa H := mk_vesa (geo s) m (c_x s) (c_y s) (sc_x s) (sc_y s) (mouse_under s) (mouse_prev_x s) (mouse_prev_y s) (mouse_has_saved s) (g_buttons s) (g_button_count s) (app_mode s).
Definition set_pos (x y : Z) s : vesa H := mk_vesa (geo s) (ram s) x y (sc_x s) (sc_y s) (mouse_under s) (mouse_prev_x s) (mouse_prev_y s) (mouse_has_saved s) (g_buttons s) (g_button_count s) (app_mode s).
Definition set_spos (x y : Z) s : vesa H := mk_vesa (geo s) (ram s) (c_x s) (c_y s) x y (mouse_under s) (mouse_prev_x s) (mouse_prev_y s) (mouse_has_saved s) (g_buttons s) (g_button_count s) (app_mode s).
Definition set_mouse (u : list (list Z)) (x y : Z) (b : bool) s : vesa H := mk_vesa (geo s) (ram s) (c_x s) (c_y s) (sc_x s) (sc_y s) u x y b (g_buttons s) (g_button_count s) (app_mode s).
Definition set_buttons (l : list (button H)) (n : Z) s : vesa H := mk_vesa (geo s) (ram s) (c_x s) (c_y s) (sc_x s) (sc_y s) (mouse_under s) (mouse_prev_x s) (mouse_prev_y s) (mouse_has_saved s) l n (app_mode s).
Definition on_ram (f : mem -> mem) : M unit := modify (fun s => set_ram (f (ram s)) s).

Definition Wwidth s : Z := fb_width (geo s).
Definition Hheight s : Z := fb_height (geo s).
Definition Wpitch s : Z := fb_pitch (geo s).

(** ** Pixels *)

Definition put_pixel_32 (x y color : Z) : M unit :=
  g ← gets geo;
  if (x <? 0) || (fb_width g <=? u32 x) || (y <? 0) || (fb_height g <=? u32 y) then mret tt else
  let offset := u32 (u32 (y * fb_pitch g) + u32 (x * (fb_bpp g / 8))) in
  if u32 (fb_pitch g * fb_height g) <=? offset then mret tt else on_ram (st32 (back + offset) color).
(** The three bytes of a 24-bit pixel, at the offset the code computes. *)
Definition store_24 (a color : Z) : mem -> mem := store_bytes a [Z.land color 0xFF; Z.land (Z.shiftr color 8) 0xFF; Z.land (Z.shiftr color 16) 0xFF].
Definition vesa_putpixel (x y color : Z) : M unit :=
  g ← gets geo;
  if negb (vesa_ready g) then mret tt else
  if (x <? 0) || (fb_width g <=? u32 x) || (y <? 0) || (fb_height g <=? u32 y) then mret tt else
  if fb_bpp g =? 32 then put_pixel_32 x y color
  else if fb_bpp g =? 24 then on_ram (store_24 (back + u32 (y * fb_pitch g) + x * 4) color)
  else when (fb_bpp g =? 8) (on_ram (st8 (lfb g + u32 (y * fb_pitch g + x)) (u8 color))).

(** ** Rectangles and lines *)

(** A clipped span: [x0 < 0] and [(uint32_t)x1 > limit]. *)
Definition clip_low (x : Z) : Z := if x <? 0 then 0 else x.
Definition clip_high (x limit : Z) : Z := if limit <? u32 x then limit else x.
Definition vesa_draw_rec (x y width height col : Z) : M unit :=
  g ← gets geo;
  if negb (vesa_ready g) then mret tt else
  let x0 := clip_low x in
  let y0 := clip_low y in
  let x1 := clip_high (s32 (x + width)) (fb_width g) in
  let y1 := clip_high (s32 (y + height)) (fb_height g) in
  if (x1 <=? x0) || (y1 <=? y0) then mret tt else
  if fb_bpp g =? 32 then
    ffor (rounds y0 y1) y0 (fun r => ffor (rounds x0 x1) x0 (fun c => on_ram (st32 (back + u32 (r * fb_pitch g) + c * 4) col)))
  else ffor (rounds y0 y1) y0 (fun r => ffor (rounds x0 x1) x0 (fun c => vesa_putpixel c r col)).
Definition vesa_draw_hor (x y a col : Z) : M unit :=
  g ← gets geo;
  if negb (vesa_ready g) || (y <? 0) || (fb_height g <=? u32 y) then mret tt else
  let x0 := clip_low x in
  let x1 := clip_high (s32 (x + a)) (fb_width g) in
  if x1 <=? x0 then mret tt else
  if fb_bpp g =? 32 then ffor (rounds x0 x1) x0 (fun c => on_ram (st32 (back + u32 (y * fb_pitch g) + c * 4) col))
  else ffor (rounds x0 x1) x0 (fun c => vesa_putpixel c y col).
Definition vesa_draw_ver (x y a col : Z) : M unit :=
  g ← gets geo;
  if negb (vesa_ready g) || (x <? 0) || (fb_width g <=? u32 x) then mret tt else
  let y0 := clip_low y in
  let y1 := clip_high (s32 (y + a)) (fb_height g) in
  if fb_bpp g =? 32 then ffor (rounds y0 y1) y0 (fun r => on_ram (st32 (back + u32 (r * fb_pitch g) + x * 4) col))
  else ffor (rounds y0 y1) y0 (fun r => vesa_putpixel x r col).
Definition vesa_clear (color : Z) : M unit :=
  g ← gets geo;
  if negb (vesa_ready g) then mret tt else
  vesa_draw_rec 0 0 (fb_width g) (fb_height g) color;; modify (set_pos 0 0).

(** ** Characters *)

(** [font8x8_basic c cy]: row [cy] of the glyph of [c]. *)
Context (font8x8_basic : Z -> Z -> Z).
Definition glyph_color (c cy cx fg bg : Z) : Z := if Z.testbit (font8x8_basic c cy) cx then fg else bg.
Definition vesa_draw_char_34 (c x y fg_color bg_color : Z) : M unit :=
  g ← gets geo;
  if negb (vesa_ready g) then mret tt else
  if (c <? 0) || (127 <? c) then mret tt else
  let each (f : Z -> Z -> M unit) := ffor (rounds 0 8) 0 (fun cy => ffor (rounds 0 8) 0 (f cy)) in
  if (x <? 0) || (y <? 0) || (fb_width g <? u32 (x + 8)) || (fb_height g <? u32 (y + 8)) then
    each (fun cy cx => vesa_putpixel (x + cx) (y + cy) (glyph_color c cy cx fg_color bg_color))
  else if fb_bpp g =? 32 then
    each (fun cy cx => on_ram (st32 (back + u32 ((y + cy) * fb_pitch g) + x * 4 + cx * 4) (glyph_color c cy cx fg_color bg_color)))
  else if fb_bpp g =? 24 then
    each (fun cy cx => on_ram (store_24 (back + u32 ((y + cy) * fb_pitch g) + x * 4 + cx * 4) (glyph_color c cy cx fg_color bg_color)))
  else when (fb_bpp g =? 8)
    (each (fun cy cx => on_ram (st8 (lfb g + u32 ((y + cy) * fb_pitch g + (x + cx))) (u8 (glyph_color c cy cx fg_color bg_color))))).

(** ** The whole screen *)

Definition vesa_swap : M unit :=
  g ← gets geo;
  when (vesa_ready g) (on_ram (Mem.memcpy (lfb g) back (u32 (fb_height g * fb_pitch g)))).
(** [vesa_memmove]: the string instructions copy in the right direction. *)
Definition vesa_memmove (dst src n : Z) (m : mem) : mem := store_bytes dst (load_bytes m src n) m.
Definition vesa_scroll (lines : Z) : M unit :=
  g ← gets geo;
  if negb (vesa_ready g) then mret tt else
  if lines <=? 0 then mret tt else
  if fb_height g <=? lines then vesa_clear 0 else
  let bytes := u32 (lines * fb_pitch g) in
  let remaining := u32 ((fb_height g - lines) * fb_pitch g) in
  if fb_bpp g =? 8 then
    on_ram (vesa_memmove (lfb g) (lfb g + bytes) remaining);; on_ram (Mem.memset (lfb g + remaining) 0 bytes)
  else
    on_ram (vesa_memmove back (back + bytes) remaining);; on_ram (Mem.memset (back + remaining) 0 bytes);; vesa_swap.

(** A character at the cursor of [c_x], [c_y]. *)
Definition vesa_print_char (c : Z) : M unit :=
  s ← gets (fun s => s);
  if negb (vesa_ready (geo s)) then mret tt else
  if c =? 10 then modify (set_pos 0 (c_y s + 8)) else
  if c =? 8 then
    if 8 <=? c_x s then modify (set_pos (c_x s - 8) (c_y s));; vesa_draw_rec (c_x s - 8) (c_y s) 8 8 0
    else when (8 <=? c_y s) (modify (set_pos (Wwidth s - 8) (c_y s - 8));; vesa_draw_rec (Wwidth s - 8) (c_y s - 8) 8 8 0)
  else if c =? 13 then mret tt else
  let (x, y) := if Wwidth s <? c_x s + 8 then (0, c_y s + 8) else (c_x s, c_y s) in
  vesa_draw_char_34 c x y 0xFFFFFF 0;; modify (set_pos (x + 8) y).
Fixpoint vesa_print_string (str : list Z) : M unit :=
  match str with [] => mret tt | c :: str => if c =? 0 then mret tt else vesa_print_char c;; vesa_print_string str end.

(** ** The mouse cursor *)

Definition vesa_get_backpixel (x y : Z) s : Z :=
  let g := geo s in
  if (x <? 0) || (fb_width g <=? u32 x) || (y <? 0) || (fb_height g <=? u32 y) then 0 else
  if fb_bpp g =? 32 then ld32 (ram s) (back + u32 (y * fb_pitch g) + x * 4)
  else if fb_bpp g =? 24 then le_get (load_bytes (ram s) (back + u32 (y * fb_pitch g) + x * 4) 3)
  else 0.
Definition restore_under s : M unit :=
  ffor (rounds 0 MOUSE_BOX) 0 (fun dy => ffor (rounds 0 MOUSE_BOX) 0 (fun dx =>
    vesa_putpixel (mouse_prev_x s - MOUSE_BORDER + dx) (mouse_prev_y s - MOUSE_BORDER + dy) (((mouse_under s).[dy]).[dx]))).
Definition save_under (x y : Z) s : list (list Z) :=
  tab (fun dy => tab (fun dx => vesa_get_backpixel (x - MOUSE_BORDER + dx) (y - MOUSE_BORDER + dy) s) 0 MOUSE_BOX) 0 MOUSE_BOX.
Definition cursor_shape (x y buttons : Z) : M unit :=
  let border_color := if Z.land buttons 0x07 =? 0 then 0xFFFFFF else 0xFF0000 in
  vesa_draw_rec (x - MOUSE_BORDER) (y - MOUSE_BORDER) MOUSE_BOX MOUSE_BORDER border_color;;
  vesa_draw_rec (x - MOUSE_BORDER) (y + MOUSE_SIZE) MOUSE_BOX MOUSE_BORDER border_color;;
  vesa_draw_rec (x - MOUSE_BORDER) y MOUSE_BORDER MOUSE_SIZE border_color;;
  vesa_draw_rec (x + MOUSE_SIZE) y MOUSE_BORDER MOUSE_SIZE border_color;;
  vesa_draw_rec x y MOUSE_SIZE MOUSE_SIZE 0xFFFFFF.
(** The arguments are [mouse_x], [mouse_y] and [mouse_buttons]. *)
Definition mouse_draw (x y buttons : Z) : M unit :=
  s ← gets (fun s => s);
  if negb (vesa_ready (geo s)) then mret tt else
  when (mouse_has_saved s) (restore_under s);;
  modify (fun s => set_mouse (save_under x y s) (mouse_prev_x s) (mouse_prev_y s) (mouse_has_saved s) s);;
  cursor_shape x y buttons;;
  modify (fun s => set_mouse (mouse_under s) x y true s).

(** [screen_appmode]: what a program draws replaces the picture. *)
Definition screen_appmode : M unit :=
  modify (fun s => mk_vesa (geo s) (ram s) (c_x s) (c_y s) (sc_x s) (sc_y s) (mouse_under s) (mouse_prev_x s) (mouse_prev_y s) false (g_buttons s) (g_button_count s) (negb (app_mode s))).

(** ** Buttons *)

Definition vesa_darken (color : Z) : Z :=
  let dark v := if 40 <? v then v - 40 else 0 in
  Z.lor (Z.lor (Z.shiftl (dark (Z.land (Z.shiftr color 16) 0xFF)) 16) (Z.shiftl (dark (Z.land (Z.shiftr color 8) 0xFF)) 8)) (dark (Z.land color 0xFF)).
(** The slot of a button drawn at a place before, or a new one. *)
Definition button_slot (x y : Z) s : option Z :=
  match first_some (fun i => let b := (g_buttons s).[i] in if b_active b && (b_x b =? x) && (b_y b =? y) then Some i else None) (rounds 0 (g_button_count s)) 0 with
  | Some i => Some i
  | None => if g_button_count s <? VESA_MAX_BUTTONS then Some (g_button_count s) else None
  end.
Definition button_record (x y w h color : Z) (label : list Z) (on_click : option H) : M unit :=
  s ← gets (fun s => s);
  match button_slot x y s with
  | None => mret tt
  | Some i => modify (set_buttons ((g_buttons s).[i := mk_button x y w h color (take 31 label) on_click true]) (Z.max (g_button_count s) (i + 1)))
  end.
(** [label]: the characters, none for a null pointer. *)
Definition vesa_draw_button (x y w h color : Z) (label : list Z) (on_click : option H) : M unit :=
  g ← gets geo;
  if negb (vesa_ready g) || (w <=? 0) || (h <=? 0) then mret tt else
  vesa_draw_rec x y w h color;;
  let border := vesa_darken color in
  vesa_draw_hor x y w border;; vesa_draw_hor x (y + h - 1) w border;;
  vesa_draw_ver x y h border;; vesa_draw_ver (x + w - 1) y h border;;
  let text := take 31 label in
  let lx := Z.max x (x + Z.quot (w - zlen text * 8) 2) in
  let ly := Z.max y (y + Z.quot (h - 8) 2) in
  ffor (rounds 0 (zlen text)) 0 (fun i => vesa_draw_char_34 (text.[i]) (lx + i * 8) ly 0xFFFFFF color);;
  button_record x y w h color label on_click.
Definition vesa_buttons_clear : M unit :=
  modify (fun s => set_buttons ((fun b => mk_button (b_x b) (b_y b) (b_w b) (b_h b) (b_color b) (b_label b) (b_click b) false) <$> g_buttons s) 0 s).
Definition button_hit (mx my : Z) (b : button H) : bool :=
  b_active b && (b_x b <=? mx) && (mx <? b_x b + b_w b) && (b_y b <=? my) && (my <? b_y b + b_h b).
(** [click]: what [mouse_poll_click] answers; [run h] runs a handler, which may
    draw and clear buttons: the table is read again every round. *)
Fixpoint buttons_loop (run : H -> M unit) (mx my : Z) (n : nat) (i : Z) : M unit :=
  match n with
  | O => mret tt
  | S n =>
      s ← gets (fun s => s);
      if i <? g_button_count s then
        let b := (g_buttons s).[i] in
        (if button_hit mx my b then match b_click b with Some h => run h | None => mret tt end else mret tt);;
        buttons_loop run mx my n (i + 1)
      else mret tt
  end.
Definition vesa_buttons_poll (run : H -> M unit) (click : option (Z * Z)) : M unit :=
  s ← gets (fun s => s);
  if g_button_count s =? 0 then mret tt else
  match click with None => mret tt | Some (mx, my) => buttons_loop run mx my (Z.to_nat VESA_MAX_BUTTONS) 0 end.
End ops.

End Vesa.

(** What the drawing functions of src/vesa.c do to the pixels of a 32-bit
    screen: the part of a shape that lies on the screen changes, no other
    pixel and no memory outside the back buffer does; the mouse cursor is an
    overlay; scrolling moves the picture. *)
Import CString Mem Vesa.

Module VesaProps.

Section pixels.
Context {H : Type}.
Implicit Types s : vesa H.
#[local] Abbreviation M := (st (vesa H)).

(** A screen of 32-bit pixels whose rows do not overlap. *)
Record good (g : geom) : Prop := {
  go_ready : vesa_ready g = true; go_bpp : fb_bpp g = 32;
  go_width : 0 < fb_width g <= 8192; go_height : 0 < fb_height g <= 8192;
  go_pitch : 4 * fb_width g <= fb_pitch g; go_size : back + fb_pitch g * fb_height g < 2 ^ 32;
}.
Definition on_screen (g : geom) (x y : Z) : Prop := 0 <= x < fb_width g /\ 0 <= y < fb_height g.
#[export] Instance on_screen_dec g x y : Decision (on_screen g x y).
Proof. unfold on_screen. apply _. Defined.
Definition off (g : geom) (x y : Z) : Z := back + y * fb_pitch g + x * 4.
Definition in_back (g : geom) (a : Z) : Prop := back <= a < back + fb_pitch g * fb_height g.
Definition pixel s (x y : Z) : Z := ld32 (ram s) (off (geo s) x y).

(** [m] gives the pixels where [f] has a color that color and does nothing else. *)
Definition paints (g : geom) (m : M unit) (f : Z -> Z -> option Z) : Prop := forall s, geo s = g ->
  exists r, m s = (tt, set_ram r s) /\
    (forall x y, on_screen g x y -> ld32 r (off g x y) = match f x y with Some c => u32 c | None => ld32 (ram s) (off g x y) end) /\
    (forall a, ~ in_back g a -> ld8 r a = ld8 (ram s) a).

Lemma set_ram_id s : set_ram (ram s) s = s.
Proof. by destruct s. Qed.
Lemma set_ram_twice r r' s : set_ram r (set_ram r' s) = set_ram r s.
Proof. by destruct s. Qed.
Lemma paints_ext g m f f' : paints g m f -> (forall x y, on_screen g x y -> f x y = f' x y) -> paints g m f'.
Proof. intros Hm Hf s Hs. destruct (Hm s Hs) as (r & E & P & O). exists r. split; [done|]. split; [|done]. intros x y Hxy. rewrite <- Hf by done. by apply P. Qed.
Lemma paints_ret g : paints g (mret tt) (fun _ _ => None).
Proof. intros s Hs. exists (ram s). by rewrite set_ram_id. Qed.
Lemma paints_seq g m m' f f' : paints g m f -> paints g m' f' -> paints g (m;; m') (fun x y => match f' x y with Some c => Some c | None => f x y end).
Proof.
  intros Hm Hm' s Hs. destruct (Hm s Hs) as (r & E & P & O). destruct (Hm' (set_ram r s) Hs) as (r' & E' & P' & O'). exists r'.
  rewrite (bind_run _ _ _ _ _ E), E', set_ram_twice. split; [done|]. split.
  - intros x y Hxy. rewrite P' by done. destruct (f' x y); [done|]. by apply P.
  - intros a Ha. rewrite O' by done. by apply O.
Qed.
Lemma paints_geo g (k : geom -> M unit) f : paints g (k g) f -> paints g (gets geo ≫= k) f.
Proof. intros Hk s Hs. rewrite (bind_run (gets geo) k s g s) by (unfold gets; by rewrite Hs). by apply Hk. Qed.
Lemma paints_for g (body : Z -> M unit) (h f : Z -> Z -> Z -> option Z) a b : a <= b -> (forall j, a <= j < b -> paints g (body j) (h j)) ->
  (forall x y, f a x y = None) -> (forall j x y, a <= j < b -> on_screen g x y -> f (j + 1) x y = match h j x y with Some c => Some c | None => f j x y end) ->
  paints g (ffor (rounds a b) a body) (f b).
Proof.
  intros Hab Hb H0 Hf s Hs.
  pose proof (ffor_rounds (fun j t => exists r, t = set_ram r s /\ (forall x y, on_screen g x y -> ld32 r (off g x y) = match f j x y with Some c => u32 c | None => ld32 (ram s) (off g x y) end) /\
    (forall a, ~ in_back g a -> ld8 r a = ld8 (ram s) a)) a b body s Hab) as Hi.
  destruct Hi as (r & E & P & O).
  - exists (ram s). rewrite set_ram_id. split; [done|]. split; [|done]. intros x y _. by rewrite H0.
  - intros j t Hj (r & -> & P & O). destruct (Hb j Hj (set_ram r s) Hs) as (r' & E' & P' & O'). exists r'. rewrite E', set_ram_twice. split; [done|]. split.
    + intros x y Hxy. rewrite P', Hf by done. destruct (h j x y); [done|]. by apply P.
    + intros a' Ha. rewrite O' by done. by apply O.
  - exists r. split; [|done]. destruct (ffor _ _ _ s) as [[] t]. cbn in E. by subst.
Qed.

Lemma off_bounds g x y : good g -> on_screen g x y -> back <= off g x y /\ off g x y + 4 <= back + fb_pitch g * fb_height g.
Proof. intros G [Hx Hy]. pose proof (go_pitch g G). pose proof (go_width g G). unfold off. split; nia. Qed.
Lemma off_apart g x y x' y' : good g -> on_screen g x y -> on_screen g x' y' -> (x', y') <> (x, y) -> off g x' y' + 4 <= off g x y \/ off g x y + 4 <= off g x' y'.
Proof.
  intros G [Hx Hy] [Hx' Hy'] Hn. pose proof (go_pitch g G). unfold off. destruct (Z.lt_trichotomy y y') as [|[->|]]; [right; nia| |left; nia].
  destruct (Z.lt_trichotomy x x') as [|[->|]]; [right; lia|done|left; lia].
Qed.
Definition dot (x y c : Z) (px py : Z) : option Z := if decide (px = x /\ py = y) then Some c else None.
Lemma paints_dot g x y c : good g -> on_screen g x y -> paints g (on_ram (st32 (off g x y) c)) (dot x y c).
Proof.
  intros G Hxy s Hs. exists (st32 (off g x y) c (ram s)). split; [done|]. split.
  - intros px py Hp. unfold dot. case_decide as D; [destruct D as [-> ->]; apply ld32_st32|]. apply ld32_st32_ne.
    destruct (off_apart g x y px py G Hxy Hp); [|lia..]. intros [= -> ->]. by apply D.
  - intros a Ha. pose proof (off_bounds g x y G Hxy). unfold st32. rewrite ld8_store_bytes, zlen_le_put, decide_False; [done|]. unfold in_back in Ha. lia.
Qed.
(** A run of pixels in a row and a block of rows. *)
Definition block (x0 y0 x1 y1 c : Z) (px py : Z) : option Z := if decide (x0 <= px < x1 /\ y0 <= py < y1) then Some c else None.
Lemma paints_row g x0 x1 y c : good g -> 0 <= x0 <= x1 -> x1 <= fb_width g -> 0 <= y < fb_height g ->
  paints g (ffor (rounds x0 x1) x0 (fun x => on_ram (st32 (back + u32 (y * fb_pitch g) + x * 4) c))) (block x0 y x1 (y + 1) c).
Proof.
  intros G H0 H1 Hy. apply (paints_for g _ (fun x => dot x y c) (fun j => block x0 y j (y + 1) c)); [lia| | |].
  - intros x Hx. rewrite u32_small. { apply paints_dot; [done|]. split; lia. } pose proof (go_pitch g G). pose proof (go_width g G). pose proof (go_size g G). unfold back in *. nia.
  - intros. unfold block. by rewrite decide_False by lia.
  - intros j px py Hj _. unfold block, dot. repeat case_decide; done || lia.
Qed.
Lemma paints_block g x0 y0 x1 y1 c : good g -> 0 <= x0 <= x1 -> x1 <= fb_width g -> 0 <= y0 <= y1 -> y1 <= fb_height g ->
  paints g (ffor (rounds y0 y1) y0 (fun r => ffor (rounds x0 x1) x0 (fun x => on_ram (st32 (back + u32 (r * fb_pitch g) + x * 4) c)))) (block x0 y0 x1 y1 c).
Proof.
  intros G Hx Hw Hy Hh. apply (paints_for g _ (fun r => block x0 r x1 (r + 1) c) (fun j => block x0 y0 x1 j c)); [lia| | |].
  - intros r Hr. apply paints_row; lia || done.
  - intros. unfold block. by rewrite decide_False by lia.
  - intros j px py Hj _. unfold block. repeat case_decide; done || lia.
Qed.

(** ** Shapes *)

Lemma clip_low_max x : clip_low x = Z.max 0 x.
Proof. unfold clip_low. destruct (Z.ltb_spec x 0); lia. Qed.
Lemma clip_high_min x n : 0 <= x < 2 ^ 32 -> clip_high x n = Z.min x n.
Proof. intros. unfold clip_high. rewrite u32_small by done. destruct (Z.ltb_spec n x); lia. Qed.
(** A C int whose sum with an extent is one too, and not negative. *)
Definition extends (x w : Z) : Prop := - 2 ^ 31 <= x < 2 ^ 31 /\ 0 <= x + w < 2 ^ 31.

Lemma draw_rec_paints g x y w h col : good g -> extends x w -> extends y h -> paints g (vesa_draw_rec x y w h col) (block x y (x + w) (y + h) col).
Proof.
  intros G [Hx Hw] [Hy Hh]. unfold vesa_draw_rec. apply paints_geo. rewrite (go_ready g G), (go_bpp g G). cbn [negb Z.eqb Pos.eqb]. rewrite !clip_low_max, !s32_small, !clip_high_min by lia.
  destruct ((_ <=? _) || _) eqn:E.
  - eapply paints_ext; [apply paints_ret|]. intros px py [Hp Hq]. unfold block. case_decide; [|done]. apply orb_true_iff in E as [E|E]; apply Z.leb_le in E; lia.
  - apply orb_false_iff in E as [E1 E2]. apply Z.leb_gt in E1, E2. eapply paints_ext; [apply paints_block; [done|lia..]|].
    intros px py [Hp Hq]. unfold block. repeat case_decide; done || lia.
Qed.
Lemma draw_hor_paints g x y a col : good g -> extends x a -> - 2 ^ 31 <= y < 2 ^ 31 -> paints g (vesa_draw_hor x y a col) (block x y (x + a) (y + 1) col).
Proof.
  intros G [Hx Ha] Hy. unfold vesa_draw_hor. apply paints_geo. rewrite (go_ready g G), (go_bpp g G). cbn [negb Z.eqb Pos.eqb orb]. rewrite !clip_low_max, s32_small, clip_high_min by lia.
  pose proof (go_height g G).
  destruct ((y <? 0) || _) eqn:E.
  { eapply paints_ext; [apply paints_ret|]. intros px py [Hp Hq]. unfold block. case_decide; [|done]. apply orb_true_iff in E as [E|E]; [apply Z.ltb_lt in E; lia|].
    apply Z.leb_le in E. rewrite u32_small in E; lia. }
  apply orb_false_iff in E as [E1 E2]. apply Z.ltb_ge in E1. rewrite u32_small in E2 by lia. apply Z.leb_gt in E2. destruct (Z.leb_spec (Z.min (x + a) (fb_width g)) (Z.max 0 x)).
  - eapply paints_ext; [apply paints_ret|]. intros px py [Hp Hq]. unfold block. case_decide; [lia|done].
  - eapply paints_ext; [apply paints_row; [done|lia..]|]. intros px py [Hp Hq]. unfold block. repeat case_decide; done || lia.
Qed.
Lemma draw_ver_paints g x y a col : good g -> extends y a -> - 2 ^ 31 <= x < 2 ^ 31 -> paints g (vesa_draw_ver x y a col) (block x y (x + 1) (y + a) col).
Proof.
  intros G [Hy Ha] Hx. unfold vesa_draw_ver. apply paints_geo. rewrite (go_ready g G), (go_bpp g G). cbn [negb Z.eqb Pos.eqb orb]. rewrite !clip_low_max, s32_small, clip_high_min by lia.
  pose proof (go_width g G). pose proof (go_pitch g G). pose proof (go_size g G).
  destruct ((x <? 0) || _) eqn:E.
  { eapply paints_ext; [apply paints_ret|]. intros px py [Hp Hq]. unfold block. case_decide; [|done]. apply orb_true_iff in E as [E|E]; [apply Z.ltb_lt in E; lia|].
    apply Z.leb_le in E. rewrite u32_small in E; lia. }
  apply orb_false_iff in E as [E1 E2]. apply Z.ltb_ge in E1. rewrite u32_small in E2 by lia. apply Z.leb_gt in E2. set (y0 := Z.max 0 y). set (y1 := Z.min (y + a) (fb_height g)).
  destruct (decide (y0 <= y1)).
  - apply paints_ext with (f := block x y0 (x + 1) y1 col).
    + apply (paints_for g _ (fun r => dot x r col) (fun j => block x y0 (x + 1) j col)); [done| | |].
      * intros r Hr. rewrite u32_small by (unfold back in *; nia). apply paints_dot; [done|]. split; lia.
      * intros. unfold block. by rewrite decide_False by lia.
      * intros j px py Hj _. unfold block, dot. repeat case_decide; done || lia.
    + intros px py [Hp Hq]. unfold block. repeat case_decide; done || lia.
  - unfold rounds. replace (Z.to_nat (y1 - y0)) with 0%nat by lia. eapply paints_ext; [apply paints_ret|]. intros px py [Hp Hq]. unfold block. case_decide; [lia|done].
Qed.
Lemma putpixel_paints g x y c : good g -> - 2 ^ 31 <= x < 2 ^ 31 -> - 2 ^ 31 <= y < 2 ^ 31 -> paints g (vesa_putpixel x y c) (dot x y c).
Proof.
  intros G Hx Hy. pose proof (go_width g G). pose proof (go_height g G). pose proof (go_pitch g G). pose proof (go_size g G).
  assert (Hout : (x <? 0) || (fb_width g <=? u32 x) || (y <? 0) || (fb_height g <=? u32 y) = negb (bool_decide (on_screen g x y))).
  { unfold on_screen. case_bool_decide as D; cbn [negb].
    - rewrite !u32_small by lia. repeat (apply orb_false_iff; split); (apply Z.ltb_ge || apply Z.leb_gt); lia.
    - destruct (Z.ltb_spec x 0); [done|]. destruct (Z.ltb_spec y 0); [by rewrite orb_true_r|]. rewrite !u32_small by lia. cbn [orb]. rewrite orb_false_r.
      destruct (Z.leb_spec (fb_width g) x); [done|]. destruct (Z.leb_spec (fb_height g) y); [done|]. lia. }
  unfold vesa_putpixel. apply paints_geo. rewrite (go_ready g G), (go_bpp g G), Hout. cbn [Z.eqb Pos.eqb]. change (negb true) with false. destruct (decide (on_screen g x y)) as [D|D].
  - rewrite (bool_decide_eq_true_2 _ D) in *. cbn [negb] in *. unfold put_pixel_32. apply paints_geo. rewrite Hout. rewrite (go_bpp g G). change (32 / 8) with 4.
    destruct D as [D1 D2]. rewrite (u32_small (y * _)), (u32_small (x * 4)), (u32_small (fb_pitch g * _)), u32_small by (unfold back in *; nia).
    rewrite (proj2 (Z.leb_gt _ _)) by nia. rewrite Z.add_assoc. apply paints_dot; [done|by split].
  - rewrite (bool_decide_eq_false_2 _ D). cbn [negb]. eapply paints_ext; [apply paints_ret|]. intros px py Hp. unfold dot. case_decide as E; [|done]. destruct E as [-> ->]. done.
Qed.

(** A grid of [m] by [n] pixels from (x, y) on, each with a color of its own. *)
Definition grid (x y m n : Z) (color : Z -> Z -> Z) (px py : Z) : option Z :=
  if decide (x <= px < x + m /\ y <= py < y + n) then Some (color (py - y) (px - x)) else None.
Lemma paints_grid g x y m n color (body : Z -> Z -> M unit) : 0 <= m -> 0 <= n -> (forall cy cx, 0 <= cy < n -> 0 <= cx < m -> paints g (body cy cx) (dot (x + cx) (y + cy) (color cy cx))) ->
  paints g (ffor (rounds 0 n) 0 (fun cy => ffor (rounds 0 m) 0 (body cy))) (grid x y m n color).
Proof.
  intros Hm Hn Hb. apply (paints_for g _ (fun cy => grid x (y + cy) m 1 (fun _ => color cy)) (fun j => grid x y m j color)); [done| | |].
  - intros cy Hcy. eapply paints_ext; [apply (paints_for g (body cy) (fun cx => dot (x + cx) (y + cy) (color cy cx)) (fun j => grid x (y + cy) j 1 (fun _ => color cy))); [done| | |]|done].
    + intros cx Hcx. by apply Hb.
    + intros. unfold grid. by rewrite decide_False by lia.
    + intros j px py Hj _. unfold grid, dot. repeat case_decide; try done; try lia. do 2 f_equal. lia.
  - intros. unfold grid. by rewrite decide_False by lia.
  - intros j px py Hj _. unfold grid. repeat case_decide; try done; try lia. do 2 f_equal. lia.
Qed.
Lemma draw_char_paints g font c x y fg bg : good g -> - 2 ^ 31 <= x < 2 ^ 31 - 8 -> - 2 ^ 31 <= y < 2 ^ 31 - 8 -> 0 <= c <= 127 ->
  paints g (vesa_draw_char_34 font c x y fg bg) (grid x y 8 8 (fun cy cx => glyph_color font c cy cx fg bg)).
Proof.
  intros G Hx Hy Hc. pose proof (go_width g G). pose proof (go_height g G). pose proof (go_pitch g G). pose proof (go_size g G).
  unfold vesa_draw_char_34. apply paints_geo. rewrite (go_ready g G), (go_bpp g G), (proj2 (Z.ltb_ge 127 c)), (proj2 (Z.ltb_ge c 0)) by lia. cbn [negb orb Z.eqb Pos.eqb].
  destruct (_ || _) eqn:E.
  - apply paints_grid; [done..|]. intros cy cx Hcy Hcx. apply putpixel_paints; [done|lia..].
  - apply orb_false_iff in E as [E E4]. apply orb_false_iff in E as [E E3]. apply orb_false_iff in E as [E1 E2]. apply Z.ltb_ge in E1, E2, E3, E4. rewrite u32_small in E3, E4 by lia.
    apply paints_grid; [done..|]. intros cy cx Hcy Hcx. rewrite u32_small by (unfold back in *; nia).
    replace (back + (y + cy) * fb_pitch g + x * 4 + cx * 4) with (off g (x + cx) (y + cy)) by (unfold off; lia). apply paints_dot; [done|]. split; lia.
Qed.

(** ** The cursor over the picture *)

Definition in_box (x y px py : Z) : Prop := x - 1 <= px < x + 6 /\ y - 1 <= py < y + 6.
#[export] Instance in_box_dec x y px py : Decision (in_box x y px py).
Proof. unfold in_box. apply _. Defined.
(** The picture without the cursor: where one is drawn, what it covers. *)
Definition picture s (px py : Z) : Z :=
  if decide (mouse_has_saved s = true /\ in_box (mouse_prev_x s) (mouse_prev_y s) px py)
  then ((mouse_under s).[py - (mouse_prev_y s - 1)]).[px - (mouse_prev_x s - 1)] else pixel s px py.
Definition cursor_color (b x y px py : Z) : Z :=
  if decide (x <= px < x + 5 /\ y <= py < y + 5) then 0xFFFFFF else if Z.land b 7 =? 0 then 0xFFFFFF else 0xFF0000.
(** Where the cursor was drawn it was on the screen, and saved words. *)
Record cursor_ok s : Prop := {
  cu_good : good (geo s);
  cu_prev : mouse_has_saved s = true -> on_screen (geo s) (mouse_prev_x s) (mouse_prev_y s) /\ forall i j, 0 <= i < 7 -> 0 <= j < 7 -> is_u32 (((mouse_under s).[i]).[j]);
}.
Lemma backpixel_pixel s px py : good (geo s) -> - 2 ^ 31 <= px < 2 ^ 31 -> - 2 ^ 31 <= py < 2 ^ 31 ->
  vesa_get_backpixel px py s = if decide (on_screen (geo s) px py) then pixel s px py else 0.
Proof.
  intros G Hx Hy. pose proof (go_width _ G). pose proof (go_height _ G). pose proof (go_pitch _ G). pose proof (go_size _ G). unfold vesa_get_backpixel, on_screen.
  destruct (Z.ltb_spec px 0); [by rewrite decide_False by lia|]. destruct (Z.ltb_spec py 0); [rewrite orb_true_r; by rewrite decide_False by lia|].
  rewrite (u32_small px), (u32_small py) by lia. cbn [orb]. rewrite orb_false_r. destruct (Z.leb_spec (fb_width (geo s)) px); [by rewrite decide_False by lia|].
  destruct (Z.leb_spec (fb_height (geo s)) py); [by rewrite decide_False by lia|]. cbn [orb]. rewrite decide_True by lia. rewrite (go_bpp _ G), u32_small by (unfold back in *; nia). done.
Qed.
Lemma restore_paints g s : good g -> on_screen g (mouse_prev_x s) (mouse_prev_y s) ->
  paints g (restore_under s) (grid (mouse_prev_x s - 1) (mouse_prev_y s - 1) 7 7 (fun dy dx => ((mouse_under s).[dy]).[dx])).
Proof.
  intros G [Hx Hy]. pose proof (go_width _ G). pose proof (go_height _ G). apply paints_grid; [done..|]. intros dy dx Hdy Hdx. apply putpixel_paints; [done|unfold MOUSE_BORDER; lia..].
Qed.
Lemma cursor_paints g x y b : good g -> on_screen g x y ->
  paints g (cursor_shape x y b) (fun px py => if decide (in_box x y px py) then Some (cursor_color b x y px py) else None).
Proof.
  intros G [Hx Hy]. pose proof (go_width _ G). pose proof (go_height _ G). unfold cursor_shape, MOUSE_BOX, MOUSE_SIZE, MOUSE_BORDER.
  eapply paints_ext; [repeat (apply paints_seq; [apply draw_rec_paints; [done|split; lia..]|]); apply draw_rec_paints; [done|split; lia..]|].
  intros px py _. unfold block, in_box, cursor_color. set (bc := if _ =? _ then _ else _). repeat case_decide; done || lia.
Qed.

(** C33 - The mouse cursor is drawn over the picture: [mouse_draw] puts back what
    the cursor covered and shows it at its new place, in its colors; nothing
    of the picture behind is lost, and no memory but the back buffer differs. *)
Theorem mouse_draw_overlay s x y b : cursor_ok s -> on_screen (geo s) x y ->
  let s' := (mouse_draw x y b s).2 in
  cursor_ok s' /\ mouse_has_saved s' = true /\ mouse_prev_x s' = x /\ mouse_prev_y s' = y /\
  (forall px py, on_screen (geo s) px py -> picture s' px py = picture s px py /\
     pixel s' px py = if decide (in_box x y px py) then cursor_color b x y px py else picture s px py) /\
  (forall a, ~ in_back (geo s) a -> ld8 (ram s') a = ld8 (ram s) a).
Proof.
  intros [G Hprev] Hxy. set (g := geo s) in *. pose proof (go_width _ G). pose proof (go_height _ G).
  assert (R : exists r, when (mouse_has_saved s) (restore_under s) s = (tt, set_ram r s) /\ (forall px py, on_screen g px py -> ld32 r (off g px py) = picture s px py) /\ (forall a, ~ in_back g a -> ld8 r a = ld8 (ram s) a)).
  { destruct (mouse_has_saved s) eqn:Hsaved.
    - destruct (Hprev eq_refl) as [Hp Hw]. destruct (restore_paints g s G Hp s eq_refl) as (r & E & P & O). exists r. split; [exact E|]. split; [|done].
      intros px py Hpp. rewrite P by done. unfold grid, picture, in_box. rewrite Hsaved. destruct (decide (_ /\ _)) as [D|D].
      + rewrite decide_True by lia. apply u32_small, Hw; lia.
      + rewrite decide_False by lia. done.
    - exists (ram s). split; [cbn; by rewrite set_ram_id|]. split; [|done]. intros px py Hpp. unfold picture. rewrite Hsaved, decide_False; [done|]. by intros [? _]. }
  destruct R as (r & E1 & P1 & O1). set (s1 := set_ram r s). set (under := save_under x y s1).
  set (s2 := set_mouse under (mouse_prev_x s1) (mouse_prev_y s1) (mouse_has_saved s1) s1).
  destruct (cursor_paints g x y b G Hxy s2 eq_refl) as (r3 & E3 & P3 & O3).
  assert (E : mouse_draw x y b s = (tt, set_mouse under x y true (set_ram r3 s2))).
  { unfold mouse_draw. rewrite (bind_run (gets _) _ s s s) by done. rewrite (go_ready (geo s) G). cbn [negb]. rewrite (bind_run _ _ _ _ _ E1). fold s1.
    rewrite (bind_run (modify _) _ s1 tt s2), (bind_run _ _ _ _ _ E3) by done. done. }
  rewrite E. cbn [snd]. set (s' := set_mouse _ _ _ _ _). assert (Hu : forall i j, 0 <= i < 7 -> 0 <= j < 7 -> (under.[i]).[j] = if decide (on_screen g (x - 1 + j) (y - 1 + i)) then picture s (x - 1 + j) (y - 1 + i) else 0).
  { intros i j Hi Hj. unfold under, save_under. rewrite (aget_tab _ 0 MOUSE_BOX i), (aget_tab _ 0 MOUSE_BOX j) by (unfold MOUSE_BOX, MOUSE_SIZE, MOUSE_BORDER; lia). unfold MOUSE_BORDER. destruct Hxy as [Hx Hy].
    rewrite !Z.add_0_l, backpixel_pixel by (done || lia). change (geo s1) with g. case_decide; [|done]. by apply P1. }
  assert (Hpix : forall px py, on_screen g px py -> pixel s' px py = if decide (in_box x y px py) then cursor_color b x y px py else picture s px py).
  { intros px py Hp. change (pixel s' px py) with (ld32 r3 (off g px py)). rewrite P3 by done. case_decide; [|by apply P1]. apply u32_small. unfold cursor_color. repeat case_match; lia. }
  split; [constructor; [exact G|]; intros _; split; [exact Hxy|]|].
  { intros i j Hi Hj. change (mouse_under s') with under. rewrite Hu by done. unfold is_u32. case_decide as D; [|lia]. rewrite <- (P1 _ _ D). apply ld32_bound. }
  split; [done|]. split; [done|]. split; [done|]. split.
  - intros px py Hp. split; [|by apply Hpix]. unfold picture at 1. change (mouse_has_saved s') with true. change (mouse_prev_x s') with x. change (mouse_prev_y s') with y. change (mouse_under s') with under.
    destruct (decide (in_box x y px py)) as [D|D].
    + rewrite decide_True by done. unfold in_box in D. rewrite Hu by lia. replace (x - 1 + (px - (x - 1))) with px by lia. replace (y - 1 + (py - (y - 1))) with py by lia. by rewrite decide_True.
    + rewrite decide_False by (by intros [_ ?]). rewrite Hpix, decide_False by done. done.
  - intros a Ha. change (ram s') with r3. rewrite O3 by done. by apply O1.
Qed.

(** ** Scrolling *)

Definition lfb_apart (g : geom) : Prop := lfb g + fb_pitch g * fb_height g <= back \/ back + fb_pitch g * fb_height g <= lfb g.
(** [vesa_scroll] moves the picture up, clears the lines that become free and
    shows the result: the frame buffer holds what the back buffer holds. *)
Theorem vesa_scroll_moves s lines : good (geo s) -> lfb_apart (geo s) -> 0 < lines < fb_height (geo s) ->
  exists r, vesa_scroll lines s = (tt, set_ram r s) /\
    (forall x y, on_screen (geo s) x y -> ld32 r (off (geo s) x y) = if decide (y + lines < fb_height (geo s)) then pixel s x (y + lines) else 0) /\
    (forall i, 0 <= i < fb_pitch (geo s) * fb_height (geo s) -> ld8 r (lfb (geo s) + i) = ld8 r (back + i)) /\
    (forall a, ~ in_back (geo s) a -> ~ lfb (geo s) <= a < lfb (geo s) + fb_pitch (geo s) * fb_height (geo s) -> ld8 r a = ld8 (ram s) a).
Proof.
  intros G Hap Hl. set (g := geo s) in *. pose proof (go_width g G). pose proof (go_height g G). pose proof (go_pitch g G). pose proof (go_size g G).
  set (n := fb_pitch g * fb_height g) in *. assert (Hn : u32 (fb_height g * fb_pitch g) = n) by (rewrite u32_small by (unfold n, back in *; nia); unfold n; lia).
  set (bytes := lines * fb_pitch g). set (rem := (fb_height g - lines) * fb_pitch g). assert (Hb : bytes + rem = n) by (unfold bytes, rem, n; nia). assert (0 <= bytes /\ 0 <= rem) by (unfold bytes, rem; nia).
  set (r1 := vesa_memmove back (back + bytes) rem (ram s)). set (r2 := Mem.memset (back + rem) 0 bytes r1). set (r3 := Mem.memcpy (lfb g) back n r2). exists r3.
  assert (E : vesa_scroll lines s = (tt, set_ram r3 s)).
  { unfold vesa_scroll. rewrite (bind_run (gets geo) _ s g s) by done. rewrite (go_ready g G), (go_bpp g G), (proj2 (Z.leb_gt lines 0)), (proj2 (Z.leb_gt (fb_height g) lines)) by lia. cbn [negb Z.eqb Pos.eqb].
    fold bytes rem. rewrite (u32_small bytes), (u32_small rem) by (unfold back in *; lia). rewrite (bind_run (on_ram _) _ s tt (set_ram r1 s)), (bind_run (on_ram _) _ (set_ram r1 s) tt (set_ram r2 (set_ram r1 s))) by done.
    unfold vesa_swap. rewrite (bind_run (gets geo) _ _ g (set_ram r2 (set_ram r1 s))) by done. rewrite (go_ready g G), Hn. cbn [when]. unfold on_ram, modify. rewrite !set_ram_twice. done. }
  assert (B1 : forall a, ld8 r1 a = if decide (back <= a < back + rem) then ld8 (ram s) (a + bytes) else ld8 (ram s) a).
  { intros a. unfold r1, vesa_memmove. rewrite ld8_store_bytes, zlen_load by lia. case_decide; [|done]. unfold load_bytes. rewrite aget_tab by lia. rewrite u8_small by apply ld8_byte. f_equal. lia. }
  assert (B2 : forall a, ld8 r2 a = if decide (back + rem <= a < back + n) then 0 else ld8 r1 a).
  { intros a. unfold r2. rewrite ld8_memset by lia. replace (back + rem + bytes) with (back + n) by lia. done. }
  assert (B3 : forall a, ld8 r3 a = if decide (lfb g <= a < lfb g + n) then ld8 r2 (back + (a - lfb g)) else ld8 r2 a).
  { intros a. unfold r3, Mem.memcpy. rewrite ld8_store_bytes, zlen_load by (unfold n; nia). case_decide; [|done]. unfold load_bytes. rewrite aget_tab by lia. apply u8_small, ld8_byte. }
  assert (B4 : forall a, in_back g a -> ld8 r3 a = ld8 r2 a) by (intros a Ha; rewrite B3, decide_False; [done|]; unfold in_back, lfb_apart in *; fold n in Ha, Hap; lia).
  split; [exact E|]. split; [|split].
  - intros x y [Hx Hy]. assert (Ho : forall b, off g x y <= b < off g x y + 4 -> in_back g b) by (intros b Hob; pose proof (off_bounds g x y G ltac:(by split)); unfold in_back; lia).
    rewrite (ld32_same r2 r3) by (intros; by apply B4, Ho). case_decide as D.
    + unfold pixel. fold g. replace (off g x (y + lines)) with (off g x y + bytes) by (unfold off, bytes; lia). unfold ld32, load_bytes. f_equal. apply list_eq_aget; [by rewrite !zlen_tab|]. rewrite zlen_tab by lia.
      intros i Hi. rewrite !aget_tab by lia. assert (back <= off g x y + i < back + rem) by (unfold off, rem; nia). rewrite B2, decide_False, B1, decide_True by lia. f_equal. lia.
    + apply ld32_zero. intros b Hob. assert (back + rem <= b < back + n) by (unfold off, rem, n in *; nia). by rewrite B2, decide_True.
  - intros i Hi. rewrite B3, decide_True by lia. replace (back + (lfb g + i - lfb g)) with (back + i) by lia. symmetry. apply B4. unfold in_back. fold n. lia.
  - intros a Ha Hla. unfold in_back in Ha. fold n in Ha. rewrite B3, decide_False, B2, decide_False, B1, decide_False by lia. done.
Qed.

(** ** A rectangle to the left of the screen *)

(** [vesa_draw_rec] compares the right edge as an unsigned number: a rectangle
    that ends before the left edge of the screen covers its rows from the left
    edge to the right one. *)
Theorem draw_rec_left_of_screen g x y w h col : good g -> - 2 ^ 31 <= x < 0 -> - 2 ^ 31 <= x + w < 0 -> extends y h ->
  paints g (vesa_draw_rec x y w h col) (block 0 y (fb_width g) (y + h) col).
Proof.
  intros G Hx Hw [Hy Hh]. pose proof (go_width g G). pose proof (go_height g G). unfold vesa_draw_rec. apply paints_geo. rewrite (go_ready g G), (go_bpp g G). cbn [negb Z.eqb Pos.eqb].
  rewrite !clip_low_max, !s32_small, (clip_high_min (y + h)) by lia.
  assert (Ec : clip_high (x + w) (fb_width g) = fb_width g) by (unfold clip_high; assert (Eu : u32 (x + w) = x + w + 2 ^ 32) by (unfold u32; zdm); by rewrite Eu, (proj2 (Z.ltb_lt _ _)) by lia).
  rewrite Ec, Z.max_l by lia. destruct ((_ <=? _) || _) eqn:E.
  - eapply paints_ext; [apply paints_ret|]. intros px py [Hp Hq]. unfold block. case_decide; [|done]. apply orb_true_iff in E as [E|E]; apply Z.leb_le in E; lia.
  - apply orb_false_iff in E as [E1 E2]. apply Z.leb_gt in E1, E2. eapply paints_ext; [apply paints_block; [done|lia..]|].
    intros px py [Hp Hq]. unfold block. repeat case_decide; done || lia.
Qed.
End pixels.
End VesaProps.
