(* ===== verification/Console.v ===== *)
(** Text on the screen (src/klog.c): characters at a cursor that wraps and
    scrolls, in white or in a color, formatted messages, the clock of
    src/vesa.c. *)
From S2P Require Import Prelude CString Format Mem Vesa Focus Terminal.
From stdpp Require Import base list gmap numbers.
From Stdlib Require Import ZArith Lia.
Import CString Format Mem Vesa.
Open Scope Z_scope.

Module Console.

Section ops.
Context {H : Type} (font8x8_basic : Z -> Z -> Z).
Implicit Types s : vesa H.
#[local] Abbreviation M := (st (vesa H)).
#[local] Abbreviation vesa_draw_char_34 := (vesa_draw_char_34 font8x8_basic).

Definition cursor (func : Z) : M unit :=
  s ← gets (fun s => s);
  if (func =? 101) || (func =? 108) then vesa_draw_rec (c_x s) (c_y s) 8 8 0
  else vesa_draw_rec (c_x s) (c_y s + 1) 3 7 0xFFFF00.
(** The end of a round: a line below the screen makes it scroll. *)
Definition keep_on_screen : M unit :=
  s ← gets (fun s => s);
  when (u32 (Hheight s) <=? u32 (c_y s)) (vesa_scroll 8;; modify (fun s => set_pos (c_x s) (c_y s - 8) s)).

Definition klog_color_char (color c : Z) : M unit :=
  (s ← gets (fun s => s);
   if c =? 10 then modify (set_pos 0 (c_y s + 8)) else
   vesa_draw_char_34 c (c_x s) (c_y s) color 0;;
   modify (fun t => if u32 (Wwidth s) <=? u32 (c_x s + 8) then set_pos 0 (c_y s + 8) t else set_pos (c_x s + 8) (c_y s) t));;
  keep_on_screen.
Definition klog_char (c : Z) : M unit :=
  (s ← gets (fun s => s);
   if c =? 10 then cursor 101;; modify (set_pos 0 (c_y s + 8))
   else if c =? 8 then
     cursor 101;;
     if 8 <=? c_x s then modify (set_pos (c_x s - 8) (c_y s));; vesa_draw_char_34 32 (c_x s - 8) (c_y s) 0 0
     else when (8 <=? c_y s) (modify (set_pos (Wwidth s - 8) (c_y s - 8));; vesa_draw_char_34 32 (Wwidth s - 8) (c_y s - 8) 0 0)
   else
     vesa_draw_char_34 c (c_x s) (c_y s) 0xFFFFFF 0;;
     if u32 (Wwidth s) <=? u32 (c_x s + 8) then modify (set_pos 0 (c_y s + 8));; vesa_draw_rec 0 (c_y s + 8) 8 8 0
     else modify (set_pos (c_x s + 8) (c_y s)));;
  keep_on_screen.
Fixpoint each_char (f : Z -> M unit) (msg : list Z) : M unit :=
  match msg with [] => mret tt | c :: msg => if c =? 0 then mret tt else f c;; each_char f msg end.
Definition klog_color (msg : list Z) (color : Z) : M unit := each_char (klog_color_char color) msg;; cursor 100.
Definition klog (msg : list Z) : M unit := each_char klog_char msg;; cursor 100.
Definition kklog (msg : list Z) : M unit := klog msg;; klog [10].
Definition kklog_color (msg : list Z) (color : Z) : M unit := klog_color msg color;; klog [10].
(** "sysmsg: " *)
Definition klog_status (status_str : list Z) (color : Z) : M unit := klog_color [115; 121; 115; 109; 115; 103; 58; 32] color;; kklog_color status_str color.

(** The same at the cursor of [sc_x], [sc_y]; the test of the backspace and the
    erased cursor are those of [c_x], [c_y], as in the code. *)
Definition klogol_char (color c : Z) : M unit :=
  (s ← gets (fun s => s);
   if c =? 10 then cursor 101;; modify (set_spos 0 (sc_y s + 8))
   else if c =? 8 then
     cursor 101;;
     if 8 <=? sc_x s then modify (set_spos (sc_x s - 8) (sc_y s));; vesa_draw_char_34 32 (sc_x s - 8) (sc_y s) 0 0
     else when (8 <=? c_y s) (modify (set_spos (Wwidth s - 8) (sc_y s - 8));; vesa_draw_char_34 32 (Wwidth s - 8) (sc_y s - 8) 0 0)
   else
     vesa_draw_char_34 c (sc_x s) (sc_y s) color 0;;
     if u32 (Wwidth s) <=? u32 (sc_x s + 8) then modify (set_spos 0 (sc_y s + 8));; vesa_draw_rec 0 (sc_y s + 8) 8 8 0
     else modify (set_spos (sc_x s + 8) (sc_y s)));;
  s ← gets (fun s => s);
  when (u32 (Hheight s) <=? u32 (sc_y s)) (vesa_scroll 8;; modify (fun s => set_spos (sc_x s) (sc_y s - 8) s)).
Definition klogol (msg : list Z) (color : Z) : M unit := each_char (klogol_char color) msg;; cursor 100.
(** [clock_draw], at a time. *)
Definition clock_draw (hour min sec : Z) : M unit :=
  g ← gets geo;
  if negb (vesa_ready g) then mret tt else
  modify (set_spos 1800 9);;
  klogol (itoa hour 10) 0x009000;; klogol [58] 0x009000;; klogol (itoa min 10) 0x009000;; klogol [58] 0x009000;;
  klogol (if sec <? 10 then 48 :: itoa sec 10 else itoa sec 10) 0x009000.

(** ** Formatted messages *)

(** Decimal digits of a 64-bit number, the most significant first. *)
Fixpoint ull_scale (fuel : nat) (v div : Z) : Z :=
  match fuel with O => div | S fuel => if div <=? v / 10 then ull_scale fuel v (u64 (div * 10)) else div end.
Fixpoint ull_digits (fuel : nat) (v div : Z) : list Z :=
  match fuel with O => [] | S fuel => if 0 <? div then (48 + v / div) :: ull_digits fuel (v mod div) (div / 10) else [] end.
Definition ull_text (v : Z) : list Z := if v =? 0 then [48] else ull_digits 20 v (ull_scale 20 v 1).

Context (str_at : Z -> list Z).
(** The strings a format makes the log print, one call each. *)
Fixpoint log_pieces (fuel : nat) (fmt args : list Z) : list (list Z) :=
  match fuel with
  | O => []
  | S fuel =>
      let c := hd0 fmt in
      if c =? 0 then [] else
      if negb (c =? 37) then [c] :: log_pieces fuel (tail fmt) args else
      let fmt := tail fmt in
      let conv := hd0 fmt in
      let rest := tail fmt in
      if conv =? 100 then let (v, args) := va_int args in itoa v 10 :: log_pieces fuel rest args
      else if conv =? 120 then let (v, args) := va_word args in itoa (s32 v) 16 :: log_pieces fuel rest args
      else if conv =? 115 then let (p, args) := va_word args in (if p =? 0 then [40; 110; 117; 108; 108; 41] else cstr (str_at p)) :: log_pieces fuel rest args
      else if conv =? 99 then let (v, args) := va_int args in [u8 v] :: log_pieces fuel rest args
      else if conv =? 108 then
        if (hd0 rest =? 108) && (hd0 (tail rest) =? 117) then let (v, args) := va_two args in ull_text v :: log_pieces fuel (tail (tail rest)) args
        else [60; 63; 62] :: log_pieces fuel rest args
      else if conv =? 37 then [37] :: log_pieces fuel rest args
      else [60; 63; 62] :: log_pieces fuel rest args
  end.
Fixpoint each_piece (f : list Z -> M unit) (l : list (list Z)) : M unit := match l with [] => mret tt | p :: l => f p;; each_piece f l end.
Definition klogf (fmt args : list Z) : M unit := each_piece klog (log_pieces (length fmt) fmt args).
Definition klogf_color (fmt : list Z) (color : Z) (args : list Z) : M unit := each_piece (fun p => klog_color p color) (log_pieces (length fmt) fmt args).
Definition kklogf_color (fmt : list Z) (color : Z) (args : list Z) : M unit := klogf_color fmt color args;; klog [10].
(** [kklogf] hands on the format but not the arguments: the conversions read
    what is on the stack ([stack]). *)
Definition kklogf (fmt args stack : list Z) : M unit := klogf fmt stack;; klog [10].
End ops.

End Console.

(** The console is a grid of characters: what [klog] and [klog_color] do to
    the pixels is what a terminal of rows and columns does to its cells. *)
Import CString Format Mem Vesa VesaProps Console.

Module ConsoleProps.

(** ** The grid *)

(** A cell holds a character and its color; [None]: what is there is not said. *)
Abbreviation cell := (option (Z * Z)).
Record tty := mk_tty { cells : Z -> Z -> cell; col : Z; row : Z }.
Definition set_cell (i j : Z) (x : cell) (f : Z -> Z -> cell) (i' j' : Z) : cell := if decide (i' = i /\ j' = j) then x else f i' j'.
Definition blank : cell := Some (32, 0).

Section spec.
Context (cols rows : Z).
(** A cursor below the last row moves everything up. *)
Definition scrolled (t : tty) : tty :=
  if rows <=? row t then mk_tty (fun i j => if j + 1 <? rows then cells t i (j + 1) else blank) (col t) (row t - 1) else t.
(** Leave [x] in the cell of the cursor and go on. *)
Definition leave (x : cell) (i j : Z) (t : tty) : tty := mk_tty (set_cell (col t) (row t) x (cells t)) i j.
Definition printed (c color : Z) : cell := if c <=? 127 then Some (c, color) else None.
Definition advance (x : cell) (t : tty) : tty := if cols <=? col t + 1 then leave x 0 (row t + 1) t else leave x (col t + 1) (row t) t.
Definition tty_char (c : Z) (t : tty) : tty := scrolled (
  if c =? 10 then leave blank 0 (row t + 1) t
  else if c =? 8 then
    if 0 <? col t then leave blank (col t - 1) (row t) t else if 0 <? row t then leave blank (cols - 1) (row t - 1) t else t
  else advance (printed c 0xFFFFFF) t).
Definition tty_color_char (color c : Z) (t : tty) : tty := scrolled (if c =? 10 then leave None 0 (row t + 1) t else advance (printed c color) t).
Definition tty_chars (f : Z -> tty -> tty) (msg : list Z) (t : tty) : tty := foldl (fun t c => f c t) t msg.
End spec.

(** ** What the pixels show *)

Section shows.
Context {H : Type} (font : Z -> Z -> Z).
Implicit Types s : vesa H.
#[local] Abbreviation M := (st (vesa H)).

Definition cell_shows s (i j : Z) (x : cell) : Prop :=
  match x with None => True | Some (c, fg) => forall dx dy, 0 <= dx < 8 -> 0 <= dy < 8 -> pixel s (8 * i + dx) (8 * j + dy) = glyph_color font c dy dx fg 0 end.
(** The cursor may be one row below the screen for a moment. *)
Record shows_at (cols rows : Z) s (t : tty) : Prop := {
  sh_good : good (geo s); sh_lfb : lfb_apart (geo s);
  sh_width : fb_width (geo s) = 8 * cols; sh_height : fb_height (geo s) = 8 * rows;
  sh_x : c_x s = 8 * col t; sh_y : c_y s = 8 * row t; sh_col : 0 <= col t < cols; sh_row : 0 <= row t <= rows;
  sh_cells : forall i j, 0 <= i < cols -> 0 <= j < rows -> (i, j) <> (col t, row t) -> cell_shows s i j (cells t i j);
}.
Definition shows (cols rows : Z) s (t : tty) : Prop := shows_at cols rows s t /\ row t < rows.
(** Only the screen's memory may differ. *)
Definition screen_only s s' : Prop := geo s' = geo s /\
  forall a, ~ in_back (geo s) a -> ~ lfb (geo s) <= a < lfb (geo s) + fb_pitch (geo s) * fb_height (geo s) -> ld8 (ram s') a = ld8 (ram s) a.
Lemma screen_only_refl s : screen_only s s.
Proof. done. Qed.
Lemma screen_only_trans s1 s2 s3 : screen_only s1 s2 -> screen_only s2 s3 -> screen_only s1 s3.
Proof. intros [G1 R1] [G2 R2]. split; [congruence|]. intros a Ha Hl. rewrite R2 by (by rewrite G1). by apply R1. Qed.

Definition within (g : geom) (f : Z -> Z -> option Z) (i j : Z) : Prop := forall px py, on_screen g px py -> f px py <> None -> 8 * i <= px < 8 * i + 8 /\ 8 * j <= py < 8 * j + 8.
(** Drawing in the cell of the cursor disturbs nothing that is said. *)
Lemma draw_at_cursor cols rows s t m f : shows_at cols rows s t -> paints (geo s) m f -> within (geo s) f (col t) (row t) ->
  exists r, m s = (tt, set_ram r s) /\ shows_at cols rows (set_ram r s) t /\ screen_only s (set_ram r s) /\
    forall x y, on_screen (geo s) x y -> pixel (set_ram r s) x y = match f x y with Some c => u32 c | None => pixel s x y end.
Proof.
  intros [G L W Hh X Y C R Hc] Hp Hw. destruct (Hp s eq_refl) as (r & E & P & O). exists r. split; [done|]. split; [|split; [split; [done|]; intros a Ha _; by apply O|intros x y Hxy; by apply P]].
  constructor; try done. intros i j Hi Hj Hne. specialize (Hc i j Hi Hj Hne). unfold cell_shows in *. destruct (cells t i j) as [[c fg]|]; [|done]. intros dx dy Hdx Hdy.
  rewrite <- Hc by done. assert (Ho : on_screen (geo s) (8 * i + dx) (8 * j + dy)) by (split; lia). unfold pixel at 1. change (geo (set_ram r s)) with (geo s). rewrite P by done.
  destruct (f (8 * i + dx) (8 * j + dy)) eqn:Ef; [|done]. destruct (Hw _ _ Ho ltac:(by rewrite Ef)). exfalso. apply Hne. f_equal; lia.
Qed.
(** Moving the cursor away from a cell whose contents are known. *)
Lemma move_cursor cols rows s t x i j : shows_at cols rows s t -> (row t < rows -> cell_shows s (col t) (row t) x) -> 0 <= i < cols -> 0 <= j <= rows ->
  shows_at cols rows (set_pos (8 * i) (8 * j) s) (leave x i j t).
Proof.
  intros [G L W Hh X Y C R Hc] Hx Hi Hj. constructor; try done. intros i' j' Hi' Hj' Hne. unfold leave, set_cell. cbn [cells]. case_decide as D.
  - destruct D as [-> ->]. apply Hx. lia.
  - apply (Hc i' j' Hi' Hj'). intros [= -> ->]. by apply D.
Qed.

(** ** One character *)

Context (font_blank : forall dy, font 32 dy = 0).
Context (cols rows : Z) (rows_two : 2 <= rows).

Lemma blank_color dy dx fg : glyph_color font 32 dy dx fg 0 = 0.
Proof. unfold glyph_color. by rewrite font_blank, Z.testbit_0_l. Qed.
Lemma keep_run s t : shows_at cols rows s t -> exists s', keep_on_screen s = (tt, s') /\ shows cols rows s' (scrolled rows t) /\ screen_only s s'.
Proof.
  intros Hs. pose proof Hs as [G L W Hh X Y C R Hc]. pose proof (go_height _ G). unfold keep_on_screen. rewrite (bind_run (gets _) _ s s s) by done.
  unfold Hheight. rewrite !u32_small by lia. unfold scrolled. rewrite Hh, Y. destruct (Z.leb_spec (8 * rows) (8 * row t)) as [Hle|Hlt].
  - rewrite (proj2 (Z.leb_le rows (row t))) by lia. cbn [when]. destruct (vesa_scroll_moves s 8 G L) as (r & E & P & B & O); [lia|]. rewrite (bind_run _ _ _ _ _ E).
    set (s' := set_pos (c_x s) (c_y s - 8) (set_ram r s)). exists s'. split; [done|]. assert (Hp : forall x y, on_screen (geo s) x y -> pixel s' x y = if decide (y + 8 < fb_height (geo s)) then pixel s x (y + 8) else 0) by (intros; by apply P).
    split; [|by split]. split; [|cbn; lia]. constructor; try done; cbn [row col s' set_pos c_x c_y]; try lia.
    intros i j Hi Hj _. cbn [cells]. destruct (Z.ltb_spec (j + 1) rows).
    + specialize (Hc i (j + 1) Hi ltac:(lia)). unfold cell_shows in *. destruct (cells t i (j + 1)) as [[c fg]|]; [|done]. intros dx dy Hdx Hdy. rewrite Hp by (split; lia). rewrite decide_True by lia.
      replace (8 * j + dy + 8) with (8 * (j + 1) + dy) by lia. apply Hc; [intros [= -> ?]; lia|done..].
    + intros dx dy Hdx Hdy. rewrite Hp by (split; lia). rewrite decide_False by lia. by rewrite blank_color.
  - rewrite (proj2 (Z.leb_gt rows (row t))) by lia. exists s. split; [done|]. split; [split; [done|lia]|done].
Qed.

(** Drawing a character in the cell of the cursor. *)
Lemma draw_char_cell s t c fg : shows_at cols rows s t -> 0 <= c -> is_u32 fg -> exists r, vesa_draw_char_34 font c (c_x s) (c_y s) fg 0 s = (tt, set_ram r s) /\ shows_at cols rows (set_ram r s) t /\ screen_only s (set_ram r s) /\
  (row t < rows -> cell_shows (set_ram r s) (col t) (row t) (printed c fg)).
Proof.
  intros Hs Hc Hfg. pose proof Hs as [G L W Hh X Y C R _]. pose proof (go_width _ G). pose proof (go_height _ G). unfold printed. destruct (Z.leb_spec c 127).
  - destruct (draw_at_cursor cols rows s t _ _ Hs (draw_char_paints (geo s) font c (c_x s) (c_y s) fg 0 G ltac:(lia) ltac:(lia) ltac:(lia))) as (r & E & S & O & P).
    { intros px py _. unfold grid. case_decide; [|done]. intros _. lia. }
    exists r. split; [done|]. split; [done|]. split; [done|]. intros Hr dx dy Hdx Hdy. rewrite P by (split; lia). unfold grid. rewrite decide_True by lia.
    replace (8 * row t + dy - c_y s) with dy by lia. replace (8 * col t + dx - c_x s) with dx by lia. apply u32_small. unfold glyph_color. destruct (Z.testbit _ _); [done|unfold is_u32; lia].
  - exists (ram s). rewrite set_ram_id. split; [|done]. unfold vesa_draw_char_34. rewrite (bind_run (gets geo) _ s (geo s) s) by done. rewrite (go_ready _ G). cbn [negb]. by rewrite (proj2 (Z.ltb_lt 127 c)), orb_true_r.
Qed.
(** Blackening the cell of the cursor. *)
Lemma black_cell s t m f : shows_at cols rows s t -> paints (geo s) m f -> (forall px py, f px py = block (8 * col t) (8 * row t) (8 * col t + 8) (8 * row t + 8) 0 px py) ->
  exists r, m s = (tt, set_ram r s) /\ shows_at cols rows (set_ram r s) t /\ screen_only s (set_ram r s) /\ (row t < rows -> cell_shows (set_ram r s) (col t) (row t) blank).
Proof.
  intros Hs Hm Hf. pose proof Hs as [G L W Hh X Y C R _]. destruct (draw_at_cursor cols rows s t m f Hs Hm) as (r & E & S & O & P).
  { intros px py _. rewrite Hf. unfold block. case_decide; [|done]. intros _. lia. }
  exists r. split; [done|]. split; [done|]. split; [done|]. intros Hr dx dy Hdx Hdy. rewrite P by (split; lia). rewrite Hf. unfold block. rewrite decide_True by lia. by rewrite blank_color.
Qed.
Lemma cursor_erase s t : shows_at cols rows s t -> exists r, cursor 101 s = (tt, set_ram r s) /\ shows_at cols rows (set_ram r s) t /\ screen_only s (set_ram r s) /\ (row t < rows -> cell_shows (set_ram r s) (col t) (row t) blank).
Proof.
  intros Hs. pose proof Hs as [G L W Hh X Y C R _]. pose proof (go_width _ G). pose proof (go_height _ G). unfold cursor. rewrite (bind_run (gets _) _ s s s) by done. cbn [Z.eqb Pos.eqb orb].
  apply (black_cell s t _ _ Hs (draw_rec_paints (geo s) (c_x s) (c_y s) 8 8 0 G ltac:(split; lia) ltac:(split; lia))). intros px py. by rewrite X, Y.
Qed.

(** [m] runs to a screen that shows [t']. *)
Definition reaches (m : M unit) s (t' : tty) : Prop := exists s', m s = (tt, s') /\ shows_at cols rows s' t' /\ screen_only s s'.
Lemma reaches_ret s t : shows_at cols rows s t -> reaches (mret tt) s t.
Proof. by exists s. Qed.
Lemma reaches_run (m : M unit) (k : unit -> M unit) s s1 t : m s = (tt, s1) -> screen_only s s1 -> reaches (k tt) s1 t -> reaches (m ≫= k) s t.
Proof. intros E O (s2 & E2 & S2 & O2). exists s2. rewrite (bind_run _ _ _ _ _ E), E2. split; [done|]. split; [done|]. by apply (screen_only_trans s s1). Qed.
Lemma reaches_gets (k : vesa H -> M unit) s t : reaches (k s) s t -> reaches (gets (fun s => s) ≫= k) s t.
Proof. done. Qed.
Lemma reaches_move s t x i j : shows_at cols rows s t -> (row t < rows -> cell_shows s (col t) (row t) x) -> 0 <= i < cols -> 0 <= j <= rows -> reaches (modify (set_pos (8 * i) (8 * j))) s (leave x i j t).
Proof. intros Hs Hx Hi Hj. exists (set_pos (8 * i) (8 * j) s). split; [done|]. split; [by apply move_cursor|done]. Qed.
Lemma reaches_kept (m : M unit) s t : reaches m s t -> exists s', (m;; keep_on_screen) s = (tt, s') /\ shows cols rows s' (scrolled rows t) /\ screen_only s s'.
Proof.
  intros (s1 & E & S & O). destruct (keep_run s1 t S) as (s2 & E2 & S2 & O2). exists s2. rewrite (bind_run _ _ _ _ _ E), E2. split; [done|]. split; [done|]. by apply (screen_only_trans s s1).
Qed.
(** After the character the cursor goes on, and the cell it wraps to is made black. *)
Lemma reaches_draw s t c color (tail : vesa H -> M unit) : shows_at cols rows s t -> row t < rows -> 0 <= c -> is_u32 color ->
  (forall r, shows_at cols rows (set_ram r s) t -> (row t < rows -> cell_shows (set_ram r s) (col t) (row t) (printed c color)) -> reaches (tail s) (set_ram r s) (advance cols (printed c color) t)) ->
  reaches (vesa_draw_char_34 font c (c_x s) (c_y s) color 0;; tail s) s (advance cols (printed c color) t).
Proof.
  intros Hs Hr Hc Hcol Ht. destruct (draw_char_cell s t c color Hs Hc Hcol) as (r & E & S & O & P). apply (reaches_run _ _ s (set_ram r s)); [done|done|]. by apply Ht.
Qed.
Lemma klog_char_runs s t c : shows cols rows s t -> 0 < c -> exists s', klog_char font c s = (tt, s') /\ shows cols rows s' (tty_char cols rows c t) /\ screen_only s s'.
Proof.
  intros [Hs Hr] Hc. pose proof Hs as [G L W Hh X Y C R _]. pose proof (go_width _ G). pose proof (go_height _ G). unfold klog_char, tty_char. apply reaches_kept.
  apply reaches_gets. destruct (Z.eqb_spec c 10) as [->|N10]; [|destruct (Z.eqb_spec c 8) as [->|N8]].
  - destruct (cursor_erase s t Hs) as (r & E & S & O & P). apply (reaches_run _ _ s (set_ram r s)); [done|done|]. replace (c_y s + 8) with (8 * (row t + 1)) by lia.
    apply (reaches_move (set_ram r s) t blank 0 (row t + 1) S P); lia.
  - destruct (cursor_erase s t Hs) as (r & E & S & O & P). apply (reaches_run _ _ s (set_ram r s)); [done|done|]. rewrite X, Y.
    assert (Hback : forall i j, 0 <= i < cols -> 0 <= j < rows -> reaches (modify (set_pos (8 * i) (8 * j));; vesa_draw_char_34 font 32 (8 * i) (8 * j) 0 0) (set_ram r s) (leave blank i j t)).
    { intros i j Hi Hj. destruct (reaches_move (set_ram r s) t blank i j S P Hi ltac:(lia)) as (s1 & E1 & S1 & O1). apply (reaches_run _ _ _ s1 _ E1 O1).
      destruct (draw_char_cell s1 (leave blank i j t) 32 0 S1) as (r2 & E2 & S2 & O2 & _); [lia|unfold is_u32; lia|]. injection E1 as <-. exists (set_ram r2 (set_pos (8 * i) (8 * j) (set_ram r s))). by split. }
    destruct (Z.leb_spec 8 (8 * col t)).
    + rewrite (proj2 (Z.ltb_lt 0 (col t))) by lia. replace (8 * col t - 8) with (8 * (col t - 1)) by lia. apply Hback; lia.
    + rewrite (proj2 (Z.ltb_ge 0 (col t))) by lia. destruct (Z.leb_spec 8 (8 * row t)); cbn [when].
      * rewrite (proj2 (Z.ltb_lt 0 (row t))) by lia. unfold Wwidth. rewrite W. replace (8 * cols - 8) with (8 * (cols - 1)) by lia. replace (8 * row t - 8) with (8 * (row t - 1)) by lia. apply Hback; lia.
      * rewrite (proj2 (Z.ltb_ge 0 (row t))) by lia. by apply reaches_ret.
  - apply (reaches_draw s t c 0xFFFFFF (fun s => if u32 (Wwidth s) <=? u32 (c_x s + 8) then modify (set_pos 0 (c_y s + 8));; vesa_draw_rec 0 (c_y s + 8) 8 8 0 else modify (set_pos (c_x s + 8) (c_y s)))); [done|done|lia|unfold is_u32; lia|].
    intros r S P. unfold Wwidth, advance. rewrite W, X, Y, !u32_small by lia. destruct (Z.leb_spec (8 * cols) (8 * col t + 8)).
    + rewrite (proj2 (Z.leb_le cols (col t + 1))) by lia. replace (8 * row t + 8) with (8 * (row t + 1)) by lia. destruct (reaches_move (set_ram r s) t (printed c 0xFFFFFF) 0 (row t + 1) S P) as (s1 & E1 & S1 & O1); [lia..|].
      apply (reaches_run _ _ _ s1 _ E1 O1). pose proof S1 as [G1 _ _ _ _ _ _ _ _].
      destruct (black_cell s1 _ _ _ S1 (draw_rec_paints (geo s1) 0 (8 * (row t + 1)) 8 8 0 G1 ltac:(split; lia) ltac:(split; lia))) as (r2 & E2 & S2 & O2 & _); [done|]. by exists (set_ram r2 s1).
    + rewrite (proj2 (Z.leb_gt cols (col t + 1))) by lia. replace (8 * col t + 8) with (8 * (col t + 1)) by lia. apply (reaches_move (set_ram r s) t _ (col t + 1) (row t) S P); lia.
Qed.
Lemma klog_color_char_runs s t color c : shows cols rows s t -> 0 < c -> is_u32 color ->
  exists s', klog_color_char font color c s = (tt, s') /\ shows cols rows s' (tty_color_char cols rows color c t) /\ screen_only s s'.
Proof.
  intros [Hs Hr] Hc Hcol. pose proof Hs as [G L W Hh X Y C R _]. pose proof (go_width _ G). pose proof (go_height _ G). unfold klog_color_char, tty_color_char. apply reaches_kept.
  apply reaches_gets. destruct (Z.eqb_spec c 10) as [->|N10].
  - replace (c_y s + 8) with (8 * (row t + 1)) by lia. apply (reaches_move s t None 0 (row t + 1) Hs); done || lia.
  - apply (reaches_draw s t c color (fun s => modify (fun t => if u32 (Wwidth s) <=? u32 (c_x s + 8) then set_pos 0 (c_y s + 8) t else set_pos (c_x s + 8) (c_y s) t))); [done|done|lia|done|].
    intros r S P. unfold Wwidth, advance. rewrite W, X, Y, !u32_small by lia. destruct (Z.leb_spec (8 * cols) (8 * col t + 8)).
    + rewrite (proj2 (Z.leb_le cols (col t + 1))) by lia. replace (8 * row t + 8) with (8 * (row t + 1)) by lia. apply (reaches_move (set_ram r s) t _ 0 (row t + 1) S P); lia.
    + rewrite (proj2 (Z.leb_gt cols (col t + 1))) by lia. replace (8 * col t + 8) with (8 * (col t + 1)) by lia. apply (reaches_move (set_ram r s) t _ (col t + 1) (row t) S P); lia.
Qed.

Lemma each_char_runs (f : Z -> M unit) (g : Z -> tty -> tty) msg : is_bytes msg ->
  (forall s t c, shows cols rows s t -> 0 < c -> exists s', f c s = (tt, s') /\ shows cols rows s' (g c t) /\ screen_only s s') ->
  forall s t, shows cols rows s t -> exists s', each_char f msg s = (tt, s') /\ shows cols rows s' (tty_chars g (cstr msg) t) /\ screen_only s s'.
Proof.
  intros Hb Hf. induction Hb as [|c msg Hc Hb IH]; intros s t Hs; cbn [each_char cstr]; [by exists s|]. destruct (Z.eqb_spec c 0); [by exists s|].
  destruct (Hf s t c Hs) as (s1 & E1 & S1 & O1); [unfold is_u8 in Hc; lia|]. destruct (IH s1 (g c t) S1) as (s2 & E2 & S2 & O2). exists s2. rewrite (bind_run _ _ _ _ _ E1), E2.
  split; [done|]. split; [done|]. by apply (screen_only_trans s s1).
Qed.
Lemma cursor_draw s t : shows cols rows s t -> exists s', cursor 100 s = (tt, s') /\ shows cols rows s' t /\ screen_only s s'.
Proof.
  intros [Hs Hr]. pose proof Hs as [G L W Hh X Y C R _]. pose proof (go_width _ G). pose proof (go_height _ G).
  destruct (draw_at_cursor cols rows s t _ _ Hs (draw_rec_paints (geo s) (c_x s) (c_y s + 1) 3 7 0xFFFF00 G ltac:(split; lia) ltac:(split; lia))) as (r & E & S & O & _).
  { intros px py _. unfold block. case_decide; [|done]. intros _. lia. }
  exists (set_ram r s). split; [|by split]. unfold cursor. by rewrite (bind_run (gets _) _ s s s) by done.
Qed.

(** C25 - The console is a grid of characters: when the screen shows the cells of
    a grid with its cursor, then after [klog] and [klog_color] it shows the
    grid a terminal makes of the message, wrapping at the last column and
    scrolling at the last row; only memory of the screen has changed. *)
Theorem klog_is_a_terminal s t msg color : shows cols rows s t -> is_bytes msg -> is_u32 color ->
  (exists s', klog font msg s = (tt, s') /\ shows cols rows s' (tty_chars (tty_char cols rows) (cstr msg) t) /\ screen_only s s') /\
  (exists s', klog_color font msg color s = (tt, s') /\ shows cols rows s' (tty_chars (tty_color_char cols rows color) (cstr msg) t) /\ screen_only s s').
Proof.
  intros Hs Hb Hc. split.
  - destruct (each_char_runs (klog_char font) (tty_char cols rows) msg Hb klog_char_runs s t Hs) as (s1 & E1 & S1 & O1). destruct (cursor_draw s1 _ S1) as (s2 & E2 & S2 & O2).
    exists s2. unfold klog. rewrite (bind_run _ _ _ _ _ E1), E2. split; [done|]. split; [done|]. by apply (screen_only_trans s s1).
  - destruct (each_char_runs (klog_color_char font color) (tty_color_char cols rows color) msg Hb (fun s t c S P => klog_color_char_runs s t color c S P Hc) s t Hs) as (s1 & E1 & S1 & O1).
    destruct (cursor_draw s1 _ S1) as (s2 & E2 & S2 & O2). exists s2. unfold klog_color. rewrite (bind_run _ _ _ _ _ E1), E2. split; [done|]. split; [done|]. by apply (screen_only_trans s s1).
Qed.
End shows.

(** ** A screen of two columns and two rows *)

#[local] Definition demo_font (c r : Z) : Z := if c =? 97 then 255 else 0.
#[local] Definition demo_geo : geom := mk_geom true 0x100000 16 16 32 64.
#[local] Definition demo : vesa unit := mk_vesa demo_geo ∅ 0 0 0 0 [] 0 0 false [] 0 false.
Lemma demo_good : good demo_geo.
Proof. by constructor. Qed.
Lemma console_shows : shows demo_font 2 2 demo (mk_tty (fun _ _ => None) 0 0).
Proof. split; [|done]. constructor; try done. left. vm_compute. discriminate. Qed.
(** "a", a new line: the letter is there, in white, in the first cell. *)
Lemma klog_is_a_terminal_witness : exists s', klog demo_font [97; 10] demo = (tt, s') /\ pixel s' 3 3 = 0xFFFFFF /\ c_y s' = 8.
Proof.
  destruct (klog_is_a_terminal demo_font ltac:(reflexivity) 2 2 ltac:(done) demo (mk_tty (fun _ _ => None) 0 0) [97; 10] 0 console_shows) as [(s' & E & [S _] & _) _].
  - vdec.
  - vdec.
  - exists s'. split; [exact E|]. split; [|exact (sh_y _ _ _ _ _ S)]. apply (sh_cells _ _ _ _ _ S 0 0 ltac:(done) ltac:(done) ltac:(discriminate) 3 3); done.
Defined.
(** The cursor drawn twice: where it was first, the picture is back. *)
Lemma mouse_draw_overlay_witness : let s1 := (mouse_draw 4 4 0 demo).2 in let s2 := (mouse_draw 12 12 1 s1).2 in pixel s2 4 4 = 0 /\ pixel s2 12 12 = 0xFFFFFF /\ pixel s2 11 12 = 0xFF0000.
Proof.
  intros s1 s2. assert (C0 : cursor_ok demo) by (constructor; [apply demo_good|discriminate]).
  destruct (mouse_draw_overlay demo 4 4 0 C0) as (C1 & _ & _ & _ & P1 & _); [split; vm_compute; split; discriminate || done|].
  destruct (mouse_draw_overlay s1 12 12 1 C1) as (_ & _ & _ & _ & P2 & _); [split; vm_compute; split; discriminate || done|].
  assert (On : forall x y, 0 <= x < 16 -> 0 <= y < 16 -> on_screen demo_geo x y) by (by split).
  unfold s2. split; [|split].
  - destruct (P2 4 4 (On 4 4 ltac:(done) ltac:(done))) as [_ ->]. rewrite decide_False by (unfold in_box; lia). unfold s1. destruct (P1 4 4 (On 4 4 ltac:(done) ltac:(done))) as [-> _]. vm_compute. reflexivity.
  - destruct (P2 12 12 (On 12 12 ltac:(done) ltac:(done))) as [_ ->]. vm_compute. reflexivity.
  - destruct (P2 11 12 (On 11 12 ltac:(done) ltac:(done))) as [_ ->]. vm_compute. reflexivity.
Defined.
End ConsoleProps.
