(* ===== verification/Input.v ===== *)
(** Keyboards and mice (src/usbhid.c without its attachment, src/ps2.c): USB
    reports and PS/2 bytes become characters for the terminal, and motion and
    buttons of the mouse.

    Delays are left out. The terminal and the ring of standard input are the class [Keys]. *)
From S2P Require Import Prelude CString Focus Terminal.
From stdpp Require Import base list numbers.
From Stdlib Require Import ZArith Lia.
Open Scope Z_scope.

(** [terminal_key] and [stdin_feed]. *)
Class Keys (K : Type) := { terminal_key : Z -> K -> K; stdin_feed : Z -> K -> K }.

Module Input.

(** ** The mouse *)

Record mouse := mk_mouse {
  mouse_x : Z; mouse_y : Z; mouse_dirty : bool; mouse_buttons : Z;
  mouse_click_pending : bool; mouse_click_x : Z; mouse_click_y : Z; mouse_click_button : Z; g_mouse_prev_buttons : Z;
}.
Definition mouse_boot : mouse := mk_mouse 640 360 false 0 false 0 0 0 0.
(** The click that waits, if one does; it is taken. *)
Definition mouse_poll_click : st mouse (option (Z * Z)) := fun m =>
  if mouse_click_pending m then
    (Some (mouse_click_x m, mouse_click_y m), mk_mouse (mouse_x m) (mouse_y m) (mouse_dirty m) (mouse_buttons m) false (mouse_click_x m) (mouse_click_y m) (mouse_click_button m) (g_mouse_prev_buttons m))
  else (None, m).
Section motion.
(** The size of the screen. *)
Context (Wwidth Hheight : Z).
Definition bound_to (v max : Z) : Z := let v := if v <? 0 then 0 else v in if max <? v then max else v.
Definition mouse_apply_motion (dx dy buttons : Z) (m : mouse) : mouse :=
  let x := bound_to (s32 (mouse_x m + dx)) (s32 (Wwidth - 1)) in
  let y := bound_to (s32 (mouse_y m + dy)) (s32 (Hheight - 1)) in
  let b := Z.land buttons 0x07 in
  let pressed := Z.land b (Z.lnot (g_mouse_prev_buttons m)) in
  if pressed =? 0 then mk_mouse x y true b (mouse_click_pending m) (mouse_click_x m) (mouse_click_y m) (mouse_click_button m) b
  else mk_mouse x y true b true x y pressed b.
Definition usbhid_mouse_report (report : list Z) (m : mouse) : mouse :=
  let len := zlen report in
  if (len =? 3) || (len =? 4) then mouse_apply_motion (s8 (report.[1])) (s8 (report.[2])) (report.[0]) m else m.
End motion.

(** ** Characters of keys *)

Definition hid_map_lower : list Z := [0; 0; 0; 0] ++ [97; 98; 99; 100; 101; 102; 103; 104; 105; 106; 107; 108; 109; 110; 111; 112; 113; 114; 115; 116; 117; 118; 119; 120; 121; 122] ++
  [49; 50; 51; 52; 53; 54; 55; 56; 57; 48; 10; 27; 8; 9; 32; 45; 61; 91; 93; 92; 0; 59; 39; 96; 44; 46; 47] ++ replicate 43 0.
Definition hid_map_upper : list Z := [0; 0; 0; 0] ++ [65; 66; 67; 68; 69; 70; 71; 72; 73; 74; 75; 76; 77; 78; 79; 80; 81; 82; 83; 84; 85; 86; 87; 88; 89; 90] ++
  [33; 64; 35; 36; 37; 94; 38; 42; 40; 41; 10; 27; 8; 9; 32; 95; 43; 123; 125; 124; 0; 58; 34; 126; 60; 62; 63] ++ replicate 43 0.
Definition ps2_lower : list Z := [0; 0; 49; 50; 51; 52; 53; 54; 55; 56; 57; 48; 45; 61; 8; 9; 113; 119; 101; 114; 116; 121; 117; 105; 111; 112; 91; 93; 10; 0; 97; 115; 100; 102; 103; 104;
  106; 107; 108; 59; 39; 96; 0; 92; 122; 120; 99; 118; 98; 110; 109; 44; 46; 47; 0; 42; 0; 32; 0; 0; 0; 0; 0; 0; 0; 0; 0; 0; 0; 0; 0; 55; 56; 57; 45; 52; 53; 54; 43; 49; 50; 51; 48; 46].
Definition ps2_upper : list Z := [0; 0; 33; 64; 35; 36; 37; 94; 38; 42; 40; 41; 95; 43; 8; 9; 81; 87; 69; 82; 84; 89; 85; 73; 79; 80; 123; 125; 10; 0; 65; 83; 68; 70; 71; 72;
  74; 75; 76; 58; 34; 126; 0; 124; 90; 88; 67; 86; 66; 78; 77; 60; 62; 63; 0; 42; 0; 32; 0; 0; 0; 0; 0; 0; 0; 0; 0; 0; 0; 0; 0; 55; 56; 57; 45; 52; 53; 54; 43; 49; 50; 51; 48; 46].
Definition PS2_TABLE_SIZE : Z := 84.

Section keyboard.
Context {K : Type} `{Keys K}.

(** ** USB keyboards *)

(** [g_prev_keys], [usb_kbd_dirty] and the sink. *)
Record kbd := mk_kbd { g_prev_keys : list Z; usb_kbd_dirty : bool; sink : K }.
(** A character for both, an arrow for the terminal only. *)
Definition type_char (c : Z) : st kbd unit := modify (fun k => mk_kbd (g_prev_keys k) true (stdin_feed c (terminal_key c (sink k)))).
Definition type_arrow (c : Z) : st kbd unit := modify (fun k => mk_kbd (g_prev_keys k) true (terminal_key c (sink k))).
Definition hid_key (shift : bool) (code : Z) : st kbd unit :=
  if code =? 0x52 then type_arrow Terminal.ARROW_UP
  else if code =? 0x51 then type_arrow Terminal.ARROW_DOWN
  else if code =? 0x50 then type_arrow Terminal.ARROW_LEFT
  else if code =? 0x4F then type_arrow Terminal.ARROW_RIGHT
  else if code =? 0x29 then type_arrow Terminal.ARROW_ESC
  else when (code <? 104) (let c := (if shift then hid_map_upper else hid_map_lower).[code] in when (negb (c =? 0)) (type_char c)).
Definition already (code : Z) (prev : list Z) : bool := existsb (Z.eqb code) (take 6 prev).
Definition usbhid_keyboard_report (report : list Z) : st kbd unit :=
  if zlen report <? 8 then mret tt else
  let modifiers := report.[0] in
  let shift := negb (Z.land modifiers (Z.lor 0x02 0x20) =? 0) in
  ffor (rounds 0 6) 0 (fun i =>
    let code := report.[2 + i] in
    k ← gets (fun k => k);
    when (negb (code =? 0) && negb (already code (g_prev_keys k))) (hid_key shift code));;
  modify (fun k => mk_kbd (slice report 2 6) (usb_kbd_dirty k) (sink k)).

(** ** PS/2 keyboards *)

Record mods := mk_mods { g_ext : bool; g_skip : Z; g_lshift : bool; g_rshift : bool; g_caps : bool }.
Definition mods_boot : mods := mk_mods false 0 false false false.
Definition set_ext (b : bool) (m : mods) : mods := mk_mods b (g_skip m) (g_lshift m) (g_rshift m) (g_caps m).
Definition set_skip (n : Z) (m : mods) : mods := mk_mods (g_ext m) n (g_lshift m) (g_rshift m) (g_caps m).
Definition set_lshift (b : bool) (m : mods) : mods := mk_mods (g_ext m) (g_skip m) b (g_rshift m) (g_caps m).
Definition set_rshift (b : bool) (m : mods) : mods := mk_mods (g_ext m) (g_skip m) (g_lshift m) b (g_caps m).
Definition set_caps (b : bool) (m : mods) : mods := mk_mods (g_ext m) (g_skip m) (g_lshift m) (g_rshift m) b.
Definition ext_char (code : Z) : Z :=
  if code =? 0x48 then Terminal.ARROW_UP else if code =? 0x50 then Terminal.ARROW_DOWN else if code =? 0x4B then Terminal.ARROW_LEFT
  else if code =? 0x4D then Terminal.ARROW_RIGHT else if code =? 0x1C then 10 else if code =? 0x35 then 47 else 0.
Definition plain_char (code : Z) (m : mods) : Z :=
  if code =? 0x01 then Terminal.ARROW_ESC
  else if code <? PS2_TABLE_SIZE then
    let shift := g_lshift m || g_rshift m in
    let base := ps2_lower.[code] in
    if (97 <=? base) && (base <=? 122) then if xorb shift (g_caps m) then ps2_upper.[code] else base
    else if shift then ps2_upper.[code] else base
  else 0.
(** The state of the decoder with that of the sink. *)
Definition ps2_keyboard_byte (b : Z) : st (mods * kbd) unit := fun '(m, k) =>
  if 0 <? g_skip m then (tt, (set_skip (g_skip m - 1) m, k)) else
  if b =? 0xE1 then (tt, (set_skip 5 m, k)) else
  if b =? 0xE0 then (tt, (set_ext true m, k)) else
  if (b =? 0x00) || (b =? 0xFF) || (b =? 0xFA) || (b =? 0xFE) then (tt, (m, k)) else
  let ext := g_ext m in
  let m := set_ext false m in
  let release := Z.testbit b 7 in
  let code := Z.land b 0x7F in
  if ext && ((code =? 0x2A) || (code =? 0x36)) then (tt, (m, k)) else
  if negb ext && (code =? 0x2A) then (tt, (set_lshift (negb release) m, k)) else
  if negb ext && (code =? 0x36) then (tt, (set_rshift (negb release) m, k)) else
  if negb ext && (code =? 0x3A) then (tt, (if release then m else set_caps (negb (g_caps m)) m, k)) else
  if release then (tt, (m, k)) else
  let c := if ext then ext_char code else plain_char code m in
  if c =? 0 then (tt, (m, k)) else (tt, (m, (type_char c k).2)).
End keyboard.
Arguments kbd K : clear implicits.

(** ** The PS/2 mouse *)

(** [g_mouse_pkt] and [g_mouse_idx]. *)
Record packet := mk_packet { g_mouse_pkt : list Z; g_mouse_idx : Z }.
Definition ps2_mouse_byte (width height b : Z) : st (packet * mouse) unit := fun '(p, m) =>
  if (g_mouse_idx p =? 0) && negb (Z.testbit b 3) then (tt, (p, m)) else
  let pkt := (g_mouse_pkt p).[g_mouse_idx p := b] in
  if g_mouse_idx p + 1 <? 3 then (tt, (mk_packet pkt (g_mouse_idx p + 1), m)) else
  let p := mk_packet pkt 0 in
  let flags := pkt.[0] in
  if negb (Z.land flags 0xC0 =? 0) then (tt, (p, m)) else
  let dx := pkt.[1] - Z.land (Z.shiftl flags 4) 0x100 in
  let dy := pkt.[2] - Z.land (Z.shiftl flags 3) 0x100 in
  (tt, (p, mouse_apply_motion width height dx (- dy) (Z.land flags 0x07) m)).

(** ** The PS/2 controller *)

Definition PS2_DATA : Z := 0x60.
Definition PS2_STATUS : Z := 0x64.
Definition PS2_COMMAND : Z := 0x64.
Section controller.
Context {P : Type} `{Ports P}.

Definition flag (v bit : Z) : bool := negb (Z.land v bit =? 0).
(** Whether the flag of the status port takes the value in time. *)
Fixpoint ps2_wait (n : nat) (bit : Z) (want : bool) : st P bool :=
  match n with
  | O => mret false
  | S n => v ← inb PS2_STATUS; if Bool.eqb (flag v bit) want then mret true else ps2_wait n bit want
  end.
Definition ps2_wait_write : st P bool := ps2_wait (Z.to_nat 20000) 0x02 false.
Definition ps2_wait_read (ms : Z) : st P bool := ps2_wait (Z.to_nat (ms * 20)) 0x01 true.
Definition ps2_read (ms : Z) : st P Z := ok ← ps2_wait_read ms; if (ok : bool) then inb PS2_DATA else mret (-1).
Definition ps2_command (cmd : Z) : st P bool := ok ← ps2_wait_write; if (ok : bool) then outb PS2_COMMAND cmd;; mret true else mret false.
Definition ps2_data (val : Z) : st P bool := ok ← ps2_wait_write; if (ok : bool) then outb PS2_DATA val;; mret true else mret false.
Fixpoint ps2_flush_loop (n : nat) : st P unit :=
  match n with O => mret tt | S n => v ← inb PS2_STATUS; if flag v 0x01 then _ ← inb PS2_DATA; ps2_flush_loop n else mret tt end.
Definition ps2_flush : st P unit := ps2_flush_loop 64.
Definition ps2_read_config : st P Z := ok ← ps2_command 0x20; if (ok : bool) then ps2_read 100 else mret (-1).
Definition ps2_write_config (cfg : Z) : st P bool := ok ← ps2_command 0x60; if (ok : bool) then ps2_data cfg else mret false.
Fixpoint ps2_device_send_loop (n : nat) (second : bool) (val : Z) : st P bool :=
  match n with
  | O => mret false
  | S n =>
      ok ← (if second then ps2_command 0xD4 else mret true);
      if negb (ok : bool) then mret false else
      ok ← ps2_data val;
      if negb (ok : bool) then mret false else
      r ← ps2_read 200;
      if r =? 0xFA then mret true else if negb (r =? 0xFE) then mret false else ps2_device_send_loop n second val
  end.
Definition ps2_device_send (second : bool) (val : Z) : st P bool := ps2_device_send_loop 3 second val.
(** Whether the device is ready. *)
Definition ps2_keyboard_init : st P bool :=
  _ ← ps2_command 0xAE;
  ps2_flush;;
  ok ← ps2_device_send false 0xFF;
  if negb (ok : bool) then mret false else
  _ ← ps2_read 1000;
  ps2_flush;;
  _ ← ps2_device_send false 0xF5;
  ok ← ps2_device_send false 0xF0;
  _ ← (if (ok : bool) then ps2_device_send false 0x02 else mret false);
  ps2_device_send false 0xF4.
Definition ps2_mouse_init : st P bool :=
  _ ← ps2_command 0xA8;
  ps2_flush;;
  ok ← ps2_device_send true 0xFF;
  if negb (ok : bool) then _ ← ps2_command 0xA7; mret false else
  bat ← ps2_read 1000;
  _ ← (if bat =? 0xAA then ps2_read 200 else mret 0);
  ps2_flush;;
  _ ← ps2_device_send true 0xF6;
  ok ← ps2_device_send true 0xF4;
  if negb (ok : bool) then _ ← ps2_command 0xA7; mret false else mret true.
(** The configuration with both interrupts and clocks on and translation. *)
Definition ps2_config (cfg : Z) : Z := Z.lor (Z.land cfg (Z.lnot (Z.lor (Z.lor 0x01 0x02) (Z.lor 0x10 0x20)))) 0x40.
(** [g_controller], [g_kbd_ok], [g_mouse_ok]. *)
Definition ps2_init : st P (bool * bool * bool) :=
  v ← inb PS2_STATUS;
  if v =? 0xFF then mret (false, false, false) else
  _ ← ps2_command 0xAD;
  _ ← ps2_command 0xA7;
  ps2_flush;;
  cfg ← ps2_read_config;
  if cfg <? 0 then mret (false, false, false) else
  _ ← ps2_write_config (u8 (ps2_config cfg));
  ok ← ps2_command 0xAA;
  _ ← (if (ok : bool) then ps2_read 500 else mret 0);
  ps2_flush;;
  _ ← ps2_write_config (u8 (ps2_config cfg));
  ok ← ps2_command 0xA8;
  dual ← (if (ok : bool) then c2 ← ps2_read_config; _ ← ps2_command 0xA7; mret ((0 <=? c2) && negb (flag c2 0x20)) else mret false);
  ps2_flush;;
  kbd_ok ← ps2_keyboard_init;
  mouse_ok ← (if (dual : bool) then ps2_mouse_init else mret false);
  final_cfg ← ps2_read_config;
  _ ← (if 0 <=? final_cfg then ps2_write_config (u8 (ps2_config final_cfg)) else mret true);
  ps2_flush;;
  mret (true, kbd_ok, mouse_ok).
End controller.

Section poll.
Context {P K : Type} `{Ports P} `{Keys K} (Wwidth Hheight : Z).
(** Ports, keyboard and mouse together. *)
Record ps2 := mk_ps2 { ports : P; keys : mods * kbd K; mouse_of : packet * mouse; g_controller : bool; g_kbd_ok : bool; g_mouse_ok : bool }.
Definition on_ports {R} (m : st P R) : st ps2 R := fun s => let (r, p) := m (ports s) in (r, mk_ps2 p (keys s) (mouse_of s) (g_controller s) (g_kbd_ok s) (g_mouse_ok s)).
Definition on_keys (m : st (mods * kbd K) unit) : st ps2 unit := modify (fun s => mk_ps2 (ports s) (m (keys s)).2 (mouse_of s) (g_controller s) (g_kbd_ok s) (g_mouse_ok s)).
Definition on_mouse (m : st (packet * mouse) unit) : st ps2 unit := modify (fun s => mk_ps2 (ports s) (keys s) (m (mouse_of s)).2 (g_controller s) (g_kbd_ok s) (g_mouse_ok s)).
(** [usb]: whether a USB keyboard is active. *)
Fixpoint ps2_poll_loop (n : nat) (usb : bool) : st ps2 unit :=
  match n with
  | O => mret tt
  | S n =>
      v ← on_ports (inb PS2_STATUS);
      if negb (flag v 0x01) then mret tt else
      b ← on_ports (inb PS2_DATA);
      s ← gets (fun s => s);
      (if flag v 0xC0 then mret tt
       else if flag v 0x20 then when (g_mouse_ok s) (on_mouse (ps2_mouse_byte Wwidth Hheight b))
       else when (g_kbd_ok s && negb usb) (on_keys (ps2_keyboard_byte b)));;
      ps2_poll_loop n usb
  end.
Definition ps2_poll (usb : bool) : st ps2 unit := s ← gets (fun s => s); when (g_controller s) (ps2_poll_loop 64 usb).
End poll.

End Input.

(** What the keyboards and mice of [Input] promise: the scan codes of a PS/2
    keyboard, cut into bytes, are the characters that its keys mean; the
    packets of a PS/2 mouse are its motions; the pointer never leaves the
    screen, whatever bytes and reports arrive. *)
Import Input.

Module InputProps.

(** Bytes one after the other. *)
Definition feed {S} (byte : Z -> st S unit) (bs : list Z) (s : S) : S := foldl (fun s b => (byte b s).2) s bs.
Lemma feed_app {S} (byte : Z -> st S unit) bs1 bs2 s : feed byte (bs1 ++ bs2) s = feed byte bs2 (feed byte bs1 s).
Proof. apply foldl_app. Qed.
(** Events cut into bytes, when each event is one step of the specification, which sees what came before. *)
Lemma feed_events {S E} (byte : Z -> st S unit) (encode : E -> list Z) (valid : E -> Prop) (inv : list E -> S -> Prop) :
  (forall before e s, valid e -> inv before s -> inv (before ++ [e]) (feed byte (encode e) s)) ->
  forall evs before s, Forall valid evs -> inv before s -> inv (before ++ evs) (feed byte (concat (map encode evs)) s).
Proof.
  intros Hstep evs. induction evs as [|e evs IH]; intros before s HF Hi; cbn [map concat]; [by rewrite app_nil_r|].
  apply list.Forall_cons in HF as [He HF]. rewrite feed_app. replace (before ++ e :: evs) with ((before ++ [e]) ++ evs) by by rewrite <- app_assoc.
  apply IH; [done|]. by apply Hstep.
Qed.

(** ** PS/2 keyboards *)

(** What happens to a key; [ext]: one of the keys that the first keyboards did not have. *)
Inductive key_event := Down (ext : bool) (code : Z) | Up (ext : bool) (code : Z) | Pause | Reply (b : Z).
Definition encode (e : key_event) : list Z :=
  match e with
  | Down ext c => (if ext then [0xE0] else []) ++ [c]
  | Up ext c => (if ext then [0xE0] else []) ++ [c + 0x80]
  | Pause => [0xE1; 0x1D; 0x45; 0xE1; 0x9D; 0xC5]
  | Reply b => [b]
  end.
(** A scan code is not one of the bytes with another meaning. *)
Definition valid (e : key_event) : Prop :=
  match e with
  | Down _ c => 0 < c < 0x80
  | Up _ c => 0 < c < 0x80 /\ c ∉ [0x60; 0x61; 0x7A; 0x7E; 0x7F]
  | Pause => True
  | Reply b => b ∈ [0x00; 0xFF; 0xFA; 0xFE]
  end.
(** The key is down at the end. *)
Definition held (c : Z) (evs : list key_event) : bool :=
  foldl (fun h e => match e with Down false d => if d =? c then true else h | Up false d => if d =? c then false else h | _ => h end) false evs.
Definition caps (evs : list key_event) : bool :=
  foldl (fun on e => match e with Down false 0x3A => negb on | _ => on end) false evs.
Definition shifted (evs : list key_event) : bool := held 0x2A evs || held 0x36 evs.
(** The character on the key; a capital letter is 32 below its small one. *)
Definition key_char (shift lock ext : bool) (c : Z) : Z :=
  if ext then
    match c with 0x48 => Terminal.ARROW_UP | 0x50 => Terminal.ARROW_DOWN | 0x4B => Terminal.ARROW_LEFT | 0x4D => Terminal.ARROW_RIGHT | 0x1C => 10 | 0x35 => 47 | _ => 0 end
  else if c =? 1 then Terminal.ARROW_ESC
  else if PS2_TABLE_SIZE <=? c then 0
  else if bool_decide (97 <= ps2_lower.[c] <= 122) then ps2_lower.[c] - (if xorb shift lock then 32 else 0)
  else (if shift then ps2_upper else ps2_lower).[c].
Definition event_chars (before : list key_event) (e : key_event) : list Z :=
  match e with
  | Down ext c => let ch := key_char (shifted before) (caps before) ext c in if ch =? 0 then [] else [ch]
  | _ => []
  end.
Fixpoint chars_from (before evs : list key_event) : list Z :=
  match evs with [] => [] | e :: evs => event_chars before e ++ chars_from (before ++ [e]) evs end.
Lemma chars_from_snoc evs e before : chars_from before (evs ++ [e]) = chars_from before evs ++ event_chars (before ++ evs) e.
Proof.
  revert before. induction evs as [|d evs IH]; intros before; cbn [chars_from app]; [by rewrite !app_nil_r|].
  rewrite IH, app_assoc. do 2 f_equal. by rewrite <- app_assoc.
Qed.
Lemma held_snoc c evs e : held c (evs ++ [e]) = match e with Down false d => if d =? c then true else held c evs | Up false d => if d =? c then false else held c evs | _ => held c evs end.
Proof. unfold held. by rewrite foldl_app. Qed.
Lemma caps_snoc evs e : caps (evs ++ [e]) = match e with Down false 0x3A => negb (caps evs) | _ => caps evs end.
Proof. unfold caps. by rewrite foldl_app. Qed.

(** A code with the bit of a release, and without. *)
Lemma scan_bits c : 0 <= c < 0x80 -> Z.testbit c 7 = false /\ Z.land c 0x7F = c /\ Z.testbit (c + 0x80) 7 = true /\ Z.land (c + 0x80) 0x7F = c.
Proof.
  intros Hc. change 0x7F with (Z.ones 7). rewrite !Z.land_ones by lia. rewrite <- (Z.mul_1_l 0x80) at 1 2. change 0x80 with (2 ^ 7) at 1 2.
  rewrite !Z.testbit_odd, !Z.shiftr_div_pow2 by lia. rewrite Z.div_add, Z.mod_add by lia.
  rewrite (Z.div_small c), (Z.mod_small c) by lia. done.
Qed.
(** The characters of a plain key, as the code computes them. *)
Lemma plain_char_key c m : 0 < c < 0x80 -> plain_char c m = key_char (g_lshift m || g_rshift m) (g_caps m) false c.
Proof.
  intros Hc. unfold plain_char, key_char. case (c =? 1); [done|]. destruct (c <? PS2_TABLE_SIZE) eqn:E; [|by replace (PS2_TABLE_SIZE <=? c) with true by lia].
  replace (PS2_TABLE_SIZE <=? c) with false by lia. unfold PS2_TABLE_SIZE in E. rewrite bool_decide_decide.
  destruct (decide _) as [Hl|Hl].
  - replace ((97 <=? _) && _) with true by lia. destruct (xorb _ _); [|lia].
    assert (HF : Forall (fun c => 97 <= ps2_lower.[c] <= 122 -> ps2_upper.[c] = ps2_lower.[c] - 32) (seqZ 0 84)) by vdec.
    apply (proj1 (list.Forall_forall _ _) HF c); [apply elem_of_seqZ; lia|done].
  - replace ((97 <=? _) && _) with false by lia. by case (_ || _).
Qed.
Lemma ext_char_key c sh lk : 0 < c < 0x80 -> ext_char c = key_char sh lk true c.
Proof.
  intros Hc. change (key_char sh lk true c) with (key_char false false true c).
  assert (HF : Forall (fun c => ext_char c = key_char false false true c) (seqZ 0 0x80)) by vdec.
  apply (proj1 (list.Forall_forall _ _) HF c), elem_of_seqZ. lia.
Qed.
Lemma mute_key sh lk c ext : c ∈ [0x2A; 0x36] \/ (c = 0x3A /\ ext = false) -> key_char sh lk ext c = 0.
Proof. intros [Hc|[-> ->]]; [|by destruct sh, lk]. repeat (apply elem_of_cons in Hc as [->|Hc]; [by destruct sh, lk, ext|]). by apply elem_of_nil in Hc. Qed.

Section keyboard.
Context {K : Type} `{Keys K}.
Implicit Types k : kbd K.

(** The decoder between two events. *)
Definition mods_after (evs : list key_event) : mods := mk_mods false 0 (held 0x2A evs) (held 0x36 evs) (caps evs).
Definition types (cs : list Z) k : kbd K := foldl (fun k c => (type_char c k).2) k cs.
(** The last byte of a pressed or released key. *)
Lemma down_byte ext c k evs : 0 < c < 0x80 ->
  ps2_keyboard_byte c (set_ext ext (mods_after evs), k) = (tt, (mods_after (evs ++ [Down ext c]), types (event_chars evs (Down ext c)) k)).
Proof.
  intros Hc. unfold mods_after. rewrite !held_snoc, caps_snoc. destruct (scan_bits c) as (Hb & Hl & _); [lia|].
  unfold ps2_keyboard_byte. cbn [g_skip g_ext set_ext set_skip g_lshift g_rshift g_caps]. change (0 <? 0) with false. cbv iota beta.
  do 6 (rewrite (proj2 (Z.eqb_neq c _)) by lia). cbn [orb]. cbv iota zeta. rewrite Hb, Hl. unfold event_chars.
  destruct ext; cbn [andb negb].
  - destruct ((c =? 0x2A) || (c =? 0x36)) eqn:E.
    + rewrite mute_key; [done|]. left. apply orb_true_iff in E as [E%Z.eqb_eq|E%Z.eqb_eq]; subst; vdec.
    + rewrite (ext_char_key c (shifted evs) (caps evs)) by done. cbv zeta. by destruct (_ =? 0).
  - destruct (c =? 0x2A) eqn:E1; [apply Z.eqb_eq in E1 as ->; by rewrite mute_key by (left; vdec)|].
    destruct (c =? 0x36) eqn:E2; [apply Z.eqb_eq in E2 as ->; by rewrite mute_key by (left; vdec)|].
    destruct (c =? 0x3A) eqn:E3; [apply Z.eqb_eq in E3 as ->; by rewrite mute_key by (right; done)|].
    rewrite plain_char_key by done. cbn [g_lshift g_rshift g_caps set_ext].
    assert (Hcaps : match c with 0x3A => negb (caps evs) | _ => caps evs end = caps evs).
    { apply Z.eqb_neq in E3. repeat (match goal with |- match ?x with _ => _ end = _ => destruct x; try done end). }
    rewrite Hcaps. unfold shifted. cbv zeta. by destruct (_ =? 0).
Qed.
Lemma up_byte ext c k evs : 0 < c < 0x80 -> c ∉ [0x60; 0x61; 0x7A; 0x7E; 0x7F] ->
  ps2_keyboard_byte (c + 0x80) (set_ext ext (mods_after evs), k) = (tt, (mods_after (evs ++ [Up ext c]), k)).
Proof.
  intros Hc Hn. unfold mods_after. rewrite !held_snoc, caps_snoc. destruct (scan_bits c) as (_ & _ & Hb & Hl); [lia|].
  rewrite !list.not_elem_of_cons in Hn. destruct Hn as (N1 & N2 & N3 & N4 & N5 & _).
  unfold ps2_keyboard_byte. cbn [g_skip g_ext set_ext set_skip g_lshift g_rshift g_caps]. change (0 <? 0) with false. cbv iota beta.
  do 6 (rewrite (proj2 (Z.eqb_neq (c + 0x80) _)) by lia). cbn [orb]. cbv iota zeta. rewrite Hb, Hl.
  destruct ext; cbn [andb negb].
  - by destruct ((c =? 0x2A) || (c =? 0x36)).
  - destruct (c =? 0x2A) eqn:E1; [apply Z.eqb_eq in E1 as ->; done|]. destruct (c =? 0x36) eqn:E2; [done|]. by destruct (c =? 0x3A).
Qed.
Lemma ext_byte k evs : ps2_keyboard_byte 0xE0 (mods_after evs, k) = (tt, (set_ext true (mods_after evs), k)).
Proof. done. Qed.

Definition decoded (k0 : kbd K) (evs : list key_event) (s : mods * kbd K) : Prop := s = (mods_after evs, types (chars_from [] evs) k0).
Lemma event_decoded k0 evs e s : valid e -> decoded k0 evs s -> decoded k0 (evs ++ [e]) (feed ps2_keyboard_byte (encode e) s).
Proof.
  intros Hv ->. unfold decoded. rewrite chars_from_snoc. unfold types at 2. rewrite foldl_app. fold (types (chars_from [] evs) k0).
  fold (types (event_chars ([] ++ evs) e) (types (chars_from [] evs) k0)). rewrite app_nil_l. generalize (types (chars_from [] evs) k0). intros k.
  destruct e as [ext c|ext c| |b]; cbn [encode valid] in *.
  - rewrite feed_app. transitivity (ps2_keyboard_byte c (set_ext ext (mods_after evs), k)).2; [by destruct ext|]. by rewrite down_byte.
  - destruct Hv. rewrite feed_app. transitivity (ps2_keyboard_byte (c + 0x80) (set_ext ext (mods_after evs), k)).2; [by destruct ext|]. by rewrite up_byte.
  - unfold mods_after. by rewrite !held_snoc, caps_snoc.
  - unfold mods_after. rewrite !held_snoc, caps_snoc. by repeat (apply list.elem_of_cons in Hv as [->|Hv]; [done|]); apply list.elem_of_nil in Hv.
Qed.

(** C27 - A PS/2 keyboard types what its keys mean: whatever keys are pressed
    and released, in any order, with a Pause key and replies of the keyboard
    in between, the bytes that arrive one at a time leave the decoder between
    two keys with both shift keys and caps lock as they are, and give the
    terminal and standard input exactly the characters of the keys pressed, in
    order: capital letters when exactly one of shift and caps lock is on, the
    upper character of another key when a shift key is down. *)
Theorem ps2_keyboard_types (evs : list key_event) k : Forall valid evs ->
  feed ps2_keyboard_byte (concat (map encode evs)) (mods_boot, k) = (mods_after evs, types (chars_from [] evs) k).
Proof. intros HF. apply (feed_events ps2_keyboard_byte encode valid (decoded k) (event_decoded k) evs [] _ HF). done. Qed.
End keyboard.

(** A terminal that keeps its keys, with the ring of src/terminal.c. *)
#[local] Instance kept_keys : Keys (list Z * Terminal.ring) :=
  {| terminal_key c k := (k.1 ++ [c], k.2); stdin_feed c k := (k.1, Terminal.stdin_feed c k.2) |}.
Definition kbd_demo : kbd (list Z * Terminal.ring) := mk_kbd (replicate 6 0) false ([], Terminal.mk_ring (replicate 256 0) 0 0).
(** Shift, "h", release, "i", caps lock, "h", keypad enter, Pause, arrow up: "Hi", "H", a new line, the arrow. *)
Definition events_demo : list key_event :=
  [Down false 0x2A; Down false 0x23; Up false 0x2A; Down false 0x17; Reply 0xFA; Down false 0x3A; Up false 0x3A; Down false 0x23; Down true 0x1C; Pause; Down true 0x48].
Lemma ps2_keyboard_types_witness : Forall valid events_demo /\ chars_from [] events_demo = [72; 105; 72; 10; Terminal.ARROW_UP] /\
  feed ps2_keyboard_byte (concat (map encode events_demo)) (mods_boot, kbd_demo) = (mods_after events_demo, types (chars_from [] events_demo) kbd_demo).
Proof.
  assert (Hv : Forall valid events_demo).
  { unfold events_demo, valid. repeat (apply list.Forall_cons; split; [first [done | lia | split; [lia|vdec] | vdec]|]). done. }
  split; [done|]. split; [vm_compute; reflexivity|]. apply (ps2_keyboard_types events_demo kbd_demo Hv).
Defined.

(** ** Mice *)

(** What a packet says: motion, up is positive, and the buttons; or that the motion was too far; or a byte that starts
    no packet. *)
Inductive mouse_event := Motion (dx dy buttons : Z) | Overflow (flags b1 b2 : Z) | Stray (b : Z).
Definition first_byte (dx dy buttons : Z) : Z := 8 + buttons + (if dx <? 0 then 1 else 0) * 0x10 + (if dy <? 0 then 1 else 0) * 0x20.
Definition packet_bytes (e : mouse_event) : list Z :=
  match e with
  | Motion dx dy buttons => [first_byte dx dy buttons; u8 dx; u8 dy]
  | Overflow flags b1 b2 => [flags; b1; b2]
  | Stray b => [b]
  end.
Definition valid_packet (e : mouse_event) : Prop :=
  match e with
  | Motion dx dy buttons => -256 <= dx < 256 /\ -256 <= dy < 256 /\ 0 <= buttons < 8
  | Overflow flags _ _ => Z.testbit flags 3 = true /\ Z.land flags 0xC0 <> 0
  | Stray b => Z.testbit b 3 = false
  end.

Section mouse.
Context (width height : Z).
Implicit Types m : mouse.

Definition moved (e : mouse_event) m : mouse := match e with Motion dx dy b => mouse_apply_motion width height dx (- dy) b m | _ => m end.
(** The three values that a packet's first byte and its others give. *)
Lemma packet_decode dx dy b : valid_packet (Motion dx dy b) ->
  let flags := first_byte dx dy b in
  Z.testbit flags 3 = true /\ Z.land flags 0xC0 = 0 /\ Z.land flags 0x07 = b /\
  u8 dx - Z.land (Z.shiftl flags 4) 0x100 = dx /\ u8 dy - Z.land (Z.shiftl flags 3) 0x100 = dy.
Proof.
  intros (Hx & Hy & Hb). assert (HF : Forall (fun b => Forall (fun x => Forall (fun y =>
      Z.testbit (first_byte x y b) 3 = true /\ Z.land (first_byte x y b) 0xC0 = 0 /\ Z.land (first_byte x y b) 0x07 = b /\
      Z.land (Z.shiftl (first_byte x y b) 4) 0x100 = - x * 256 /\ Z.land (Z.shiftl (first_byte x y b) 3) 0x100 = - y * 256) [0; -1]) [0; -1]) (seqZ 0 8)) by vdec.
  assert (Hd : forall d, -256 <= d < 256 -> exists x, x ∈ [0; -1] /\ (x <? 0) = (d <? 0) /\ u8 d = d - x * 256).
  { intros d Hd. exists (if d <? 0 then -1 else 0). unfold u8. change (2 ^ 8) with 256. destruct (d <? 0) eqn:E; (split; [vdec|split; [done|zdm]]). }
  destruct (Hd dx Hx) as (x & Hx1 & Ex & Ux). destruct (Hd dy Hy) as (y & Hy1 & Ey & Uy).
  assert (Hbs : b ∈ seqZ 0 8) by (apply elem_of_seqZ; lia).
  pose proof (proj1 (list.Forall_forall _ _) (proj1 (list.Forall_forall _ _) (proj1 (list.Forall_forall _ _) HF b Hbs) x Hx1) y Hy1) as (F1 & F2 & F3 & F4 & F5).
  cbv zeta. replace (first_byte dx dy b) with (first_byte x y b) by (unfold first_byte; by rewrite Ex, Ey).
  rewrite F1, F2, F3, F4, F5. repeat split; lia.
Qed.
Definition framed m0 (es : list mouse_event) (s : packet * mouse) : Prop :=
  g_mouse_idx s.1 = 0 /\ zlen (g_mouse_pkt s.1) = 3 /\ s.2 = foldl (fun m e => moved e m) m0 es.
(** The third byte of a packet that started properly. *)
Lemma packet_fed p m f b1 b2 : g_mouse_idx p = 0 -> zlen (g_mouse_pkt p) = 3 -> Z.testbit f 3 = true ->
  feed (ps2_mouse_byte width height) [f; b1; b2] (p, m) = (mk_packet [f; b1; b2] 0,
    if negb (Z.land f 0xC0 =? 0) then m
    else mouse_apply_motion width height (b1 - Z.land (Z.shiftl f 4) 0x100) (- (b2 - Z.land (Z.shiftl f 3) 0x100)) (Z.land f 0x07) m).
Proof.
  destruct p as [pkt idx]; cbn [g_mouse_idx g_mouse_pkt]. intros -> Hl Hf. destruct pkt as [|x [|y [|z [|]]]]; try (unfold zlen in Hl; cbn [length] in Hl; lia). unfold feed; cbn [foldl].
  unfold ps2_mouse_byte at 3. cbn [g_mouse_idx g_mouse_pkt]. rewrite Hf. change ((0 =? 0) && negb true) with false. change (0 + 1 <? 3) with true. cbv iota. cbn [snd].
  unfold ps2_mouse_byte at 2. cbn [g_mouse_idx g_mouse_pkt]. change ((0 + 1 =? 0) && _) with false. change (0 + 1 + 1 <? 3) with true. cbv iota. cbn [snd].
  unfold ps2_mouse_byte. cbn [g_mouse_idx g_mouse_pkt]. change ((0 + 1 + 1 =? 0) && _) with false. change (0 + 1 + 1 + 1 <? 3) with false. cbv iota zeta.
  change (([x; y; z].[0 := f]).[0 + 1 := b1].[0 + 1 + 1 := b2]) with [f; b1; b2]. change ([f; b1; b2].[0]) with f. change ([f; b1; b2].[1]) with b1. change ([f; b1; b2].[2]) with b2.
  by case (negb _).
Qed.
Lemma packet_framed m0 before e s : valid_packet e -> framed m0 before s -> framed m0 (before ++ [e]) (feed (ps2_mouse_byte width height) (packet_bytes e) s).
Proof.
  destruct s as [p m]. intros Hv (Hi & Hl & Hm). cbn [fst snd] in Hi, Hl, Hm. subst m. unfold framed. rewrite foldl_app. cbn [foldl fst snd].
  destruct e as [dx dy b|f b1 b2|b]; cbn [packet_bytes].
  - destruct (packet_decode dx dy b Hv) as (F1 & F2 & F3 & F4 & F5). rewrite packet_fed by done. rewrite F2, F3, F4, F5. done.
  - destruct Hv as [F1 F2]. rewrite packet_fed by done. rewrite (proj2 (Z.eqb_neq _ _) F2). done.
  - unfold feed; cbn [foldl]. unfold ps2_mouse_byte. cbn [valid_packet] in Hv. rewrite Hi, Hv. done.
Qed.
(** A PS/2 mouse moves the pointer by its packets: whatever packets
    arrive, one byte at a time, with bytes that start no packet and packets
    whose motion overflowed in between, the pointer moves by the motion and
    presses the buttons of each proper packet, in order, and by nothing else;
    motions of nine bits, negative ones included, come out as the mouse meant
    them, with up and down turned to the screen's. *)
Theorem ps2_mouse_moves (es : list mouse_event) p m : g_mouse_idx p = 0 -> zlen (g_mouse_pkt p) = 3 -> Forall valid_packet es ->
  exists p', g_mouse_idx p' = 0 /\ feed (ps2_mouse_byte width height) (concat (map packet_bytes es)) (p, m) = (p', foldl (fun m e => moved e m) m es).
Proof.
  intros Hi Hl HF. pose proof (feed_events (ps2_mouse_byte width height) packet_bytes valid_packet (framed m) (packet_framed m) es [] (p, m) HF) as (Ei & _ & Em); [done|].
  destruct (feed _ _ _) as [p' m']. cbn [fst snd app] in *. subst. by exists p'.
Qed.

(** ** The pointer on the screen *)

Record on_screen m : Prop := {
  os_x : 0 <= mouse_x m < width; os_y : 0 <= mouse_y m < height;
  os_buttons : g_mouse_prev_buttons m = mouse_buttons m /\ 0 <= mouse_buttons m < 8;
  os_click : mouse_click_pending m = true -> 0 <= mouse_click_x m < width /\ 0 <= mouse_click_y m < height /\ 0 < mouse_click_button m < 8;
}.
Inductive input := Report (report : list Z) | Byte (b : Z) | Take.
Definition take_in (i : input) : packet * mouse -> packet * mouse := fun '(p, m) =>
  match i with
  | Report r => (p, usbhid_mouse_report width height r m)
  | Byte b => (ps2_mouse_byte width height b (p, m)).2
  | Take => (p, (mouse_poll_click m).2)
  end.
Context (Hwidth : 0 < width < 2 ^ 31) (Hheight : 0 < height < 2 ^ 31).
Lemma bound_to_range v max : 0 <= max -> 0 <= bound_to v max < max + 1.
Proof. intros. unfold bound_to. destruct (v <? 0) eqn:E; [destruct (max <? 0) eqn:E'; lia|destruct (max <? v) eqn:E'; lia]. Qed.
Lemma land_7 b : 0 <= Z.land b 0x07 < 8.
Proof. change 0x07 with (Z.ones 3). rewrite Z.land_ones by lia. apply Z.mod_pos_bound. done. Qed.
Lemma pressed_range b prev : 0 <= Z.land (Z.land b 0x07) (Z.lnot prev) < 8.
Proof. rewrite <- Z.land_assoc, (Z.land_comm 0x07), Z.land_assoc. apply land_7. Qed.
Lemma motion_on_screen dx dy b m : on_screen m -> on_screen (mouse_apply_motion width height dx dy b m).
Proof.
  intros [_ _ _ Hc]. unfold mouse_apply_motion. rewrite !(s32_small (_ - 1)) by lia.
  pose proof (bound_to_range (s32 (mouse_x m + dx)) (width - 1)). pose proof (bound_to_range (s32 (mouse_y m + dy)) (height - 1)).
  pose proof (land_7 b). pose proof (pressed_range b (g_mouse_prev_buttons m)).
  destruct (_ =? 0) eqn:E; constructor; cbn; try lia; try done; try (split; [done|lia]).
Qed.
Lemma input_on_screen i s : on_screen s.2 -> on_screen (take_in i s).2.
Proof.
  destruct s as [p m]. cbn [snd]. intros Hm. destruct i as [r|b|]; cbn [take_in].
  - unfold usbhid_mouse_report. destruct (_ || _); [|done]. by apply motion_on_screen.
  - unfold ps2_mouse_byte. destruct (_ && _); [done|]. cbv zeta. destruct (_ <? 3); [done|]. destruct (negb _); [done|]. by apply motion_on_screen.
  - unfold mouse_poll_click. destruct (mouse_click_pending m); [|done]. destruct Hm. by constructor.
Qed.
End mouse.

(** The pointer stays on the screen: whatever USB reports and PS/2 bytes
    arrive, complete packets or not, and whenever clicks are taken, the pointer
    is inside the screen, the buttons remembered are those of the last motion,
    and a click that waits lies inside the screen and names a button. *)
Theorem mouse_on_screen (width height : Z) : 0 < width < 2 ^ 31 -> 0 < height < 2 ^ 31 -> forall (ins : list input) p m,
  on_screen width height m -> on_screen width height (foldl (fun s i => take_in width height i s) (p, m) ins).2.
Proof.
  intros Hw Hh ins. induction ins as [|i ins IH]; intros p m Hm; cbn [foldl]; [done|].
  pose proof (input_on_screen width height Hw Hh i (p, m) Hm) as Hi. destruct (take_in _ _ i (p, m)) as [p' m']. by apply IH.
Qed.
(** A motion to the left out of the screen with a button, a report, half a packet. *)
Definition inputs_demo : list input := [Byte 0x39; Byte 0x9C; Byte 0; Report [1; 250; 10]; Take; Byte 0xFF; Byte 0x08].
Definition packet_demo : packet := mk_packet [0; 0; 0] 0.
Lemma mouse_on_screen_witness : (foldl (fun s i => take_in 800 600 i s) (packet_demo, mouse_boot) inputs_demo).2.(mouse_x) = 534 /\
  on_screen 800 600 (foldl (fun s i => take_in 800 600 i s) (packet_demo, mouse_boot) inputs_demo).2.
Proof.
  split; [vm_compute; reflexivity|]. apply (mouse_on_screen 800 600); [lia|lia|].
  constructor; cbn; lia || done.
Defined.
Definition packets_demo : list mouse_event := [Motion (-5) 3 1; Stray 0x21; Overflow 0x48 1 2; Motion 255 (-256) 0].
Lemma ps2_mouse_moves_witness : Forall valid_packet packets_demo /\
  exists p', g_mouse_idx p' = 0 /\ feed (ps2_mouse_byte 800 600) (concat (map packet_bytes packets_demo)) (packet_demo, mouse_boot) =
    (p', foldl (fun m e => moved 800 600 e m) mouse_boot packets_demo).
Proof.
  assert (HF : Forall valid_packet packets_demo).
  { unfold packets_demo. repeat (apply list.Forall_cons; split; [cbn [valid_packet]; first [done | lia | by vm_compute]|]). done. }
  split; [done|]. apply (ps2_mouse_moves 800 600 packets_demo packet_demo mouse_boot); done.
Defined.
End InputProps.
