(* ===== verification/Usb.v ===== *)
(** The USB layer (src/usb.c, src/usbhub.c, the attachment of src/usbhid.c,
    src/pl2303.c, src/pump.c): devices are found, given an address, described
    by their descriptors, configured and handed to the driver of their class.

    A pointer to a device is its index in [g_devices], a host controller is a
    number, 0 the null pointer. What the controllers do is the class [Hcd]:
    a transfer answers with its result, the buffer as it leaves it and the
    device's [hcd_priv], the only field a controller changes. Delays and log
    lines are left out. *)
From S2P Require Import Prelude CString Focus Terminal Input.
From stdpp Require Import base list numbers.
From Stdlib Require Import ZArith Lia.
Import CString Input.
Open Scope Z_scope.

Record usb_setup_pkt := mk_setup { bmRequestType : Z; bRequest : Z; wValue : Z; wIndex : Z; wLength : Z }.
Record usb_device := mk_dev {
  in_use : bool; address : Z; speed : Z; max_packet0 : Z; hcd : Z; hub_addr : Z; hub_port : Z; dev_desc : list Z;
  iface_number : Z; iface_class : Z; iface_subclass : Z; iface_protocol : Z;
  ep_in_addr : Z; ep_in_maxpkt : Z; ep_in_interval : Z; ep_out_addr : Z; ep_out_maxpkt : Z;
  bulk_in_toggle : Z; bulk_out_toggle : Z; hcd_priv : Z;
}.
(** The functions a controller may call with a report. *)
Inductive callback := KeyboardReport | MouseReport | RawReport.
#[export] Instance callback_eq_dec : EqDecision callback.
Proof. solve_decision. Defined.

Class Hcd (B : Type) := {
  (** controller, index and fields of the device, request, buffer *)
  control_transfer : Z -> Z -> usb_device -> usb_setup_pkt -> list Z -> st B (Z * list Z * Z);
  (** endpoint, buffer, whether it is read, toggle; the toggle after *)
  bulk_transfer : Z -> Z -> usb_device -> Z -> list Z -> bool -> Z -> st B (Z * list Z * Z * Z);
  (** endpoint, size of its packets, interval *)
  setup_interrupt_in : Z -> Z -> usb_device -> Z -> Z -> Z -> callback -> st B (Z * Z);
  release_device : Z -> Z -> usb_device -> st B unit;
  has_bulk : Z -> bool;
  has_release : Z -> bool;
  (** what an array on the stack holds before anything is stored *)
  stack_bytes : Z -> st B (list Z);
}.

Module Usb.

Definition USB_MAX_DEVICES : Z := 32.
Definition USB_MAX_HUB_PORTS : Z := 8.
Definition USB_REQ_SET_ADDRESS : Z := 0x05.
Definition USB_REQ_GET_DESCRIPTOR : Z := 0x06.
Definition USB_REQ_SET_CONFIGURATION : Z := 0x09.
Definition USB_REQ_SET_PROTOCOL : Z := 0x0B.
Definition USB_REQ_SET_IDLE : Z := 0x0A.
Definition USB_DESC_DEVICE : Z := 0x01.
Definition USB_DESC_CONFIGURATION : Z := 0x02.
Definition USB_DESC_INTERFACE : Z := 0x04.
Definition USB_DESC_ENDPOINT : Z := 0x05.
Definition USB_DESC_HUB : Z := 0x29.
Definition USB_CLASS_HUB : Z := 0x09.
Definition USB_CLASS_HID : Z := 0x03.
Definition USB_EP_TYPE_MASK : Z := 0x03.
Definition USB_EP_TYPE_BULK : Z := 0x02.
Definition USB_EP_TYPE_INTERRUPT : Z := 0x03.
Definition USB_EP_DIR_IN : Z := 0x80.

(** ** Devices *)

Definition no_device : usb_device := mk_dev false 0 0 0 0 0 0 (replicate 18 0) 0 0 0 0 0 0 0 0 0 0 0 0.
#[export] Instance usb_device_inhabited : Inhabited usb_device := populate no_device.
Implicit Types d : usb_device.
Definition set_used (b : bool) d : usb_device := mk_dev b (address d) (speed d) (max_packet0 d) (hcd d) (hub_addr d) (hub_port d) (dev_desc d) (iface_number d) (iface_class d) (iface_subclass d) (iface_protocol d) (ep_in_addr d) (ep_in_maxpkt d) (ep_in_interval d) (ep_out_addr d) (ep_out_maxpkt d) (bulk_in_toggle d) (bulk_out_toggle d) (hcd_priv d).
Definition set_hcd (h : Z) d : usb_device := mk_dev (in_use d) (address d) (speed d) (max_packet0 d) h (hub_addr d) (hub_port d) (dev_desc d) (iface_number d) (iface_class d) (iface_subclass d) (iface_protocol d) (ep_in_addr d) (ep_in_maxpkt d) (ep_in_interval d) (ep_out_addr d) (ep_out_maxpkt d) (bulk_in_toggle d) (bulk_out_toggle d) (hcd_priv d).
Definition set_address (a : Z) d : usb_device := mk_dev (in_use d) a (speed d) (max_packet0 d) (hcd d) (hub_addr d) (hub_port d) (dev_desc d) (iface_number d) (iface_class d) (iface_subclass d) (iface_protocol d) (ep_in_addr d) (ep_in_maxpkt d) (ep_in_interval d) (ep_out_addr d) (ep_out_maxpkt d) (bulk_in_toggle d) (bulk_out_toggle d) (hcd_priv d).
Definition set_place (ha hp sp : Z) d : usb_device := mk_dev (in_use d) (address d) sp (max_packet0 d) (hcd d) ha hp (dev_desc d) (iface_number d) (iface_class d) (iface_subclass d) (iface_protocol d) (ep_in_addr d) (ep_in_maxpkt d) (ep_in_interval d) (ep_out_addr d) (ep_out_maxpkt d) (bulk_in_toggle d) (bulk_out_toggle d) (hcd_priv d).
Definition set_max_packet0 (m : Z) d : usb_device := mk_dev (in_use d) (address d) (speed d) m (hcd d) (hub_addr d) (hub_port d) (dev_desc d) (iface_number d) (iface_class d) (iface_subclass d) (iface_protocol d) (ep_in_addr d) (ep_in_maxpkt d) (ep_in_interval d) (ep_out_addr d) (ep_out_maxpkt d) (bulk_in_toggle d) (bulk_out_toggle d) (hcd_priv d).
Definition set_dev_desc (l : list Z) d : usb_device := mk_dev (in_use d) (address d) (speed d) (max_packet0 d) (hcd d) (hub_addr d) (hub_port d) l (iface_number d) (iface_class d) (iface_subclass d) (iface_protocol d) (ep_in_addr d) (ep_in_maxpkt d) (ep_in_interval d) (ep_out_addr d) (ep_out_maxpkt d) (bulk_in_toggle d) (bulk_out_toggle d) (hcd_priv d).
Definition set_iface (n c sc p : Z) d : usb_device := mk_dev (in_use d) (address d) (speed d) (max_packet0 d) (hcd d) (hub_addr d) (hub_port d) (dev_desc d) n c sc p (ep_in_addr d) (ep_in_maxpkt d) (ep_in_interval d) (ep_out_addr d) (ep_out_maxpkt d) (bulk_in_toggle d) (bulk_out_toggle d) (hcd_priv d).
Definition set_ep_in (a m i : Z) d : usb_device := mk_dev (in_use d) (address d) (speed d) (max_packet0 d) (hcd d) (hub_addr d) (hub_port d) (dev_desc d) (iface_number d) (iface_class d) (iface_subclass d) (iface_protocol d) a m i (ep_out_addr d) (ep_out_maxpkt d) (bulk_in_toggle d) (bulk_out_toggle d) (hcd_priv d).
Definition set_ep_out (a m : Z) d : usb_device := mk_dev (in_use d) (address d) (speed d) (max_packet0 d) (hcd d) (hub_addr d) (hub_port d) (dev_desc d) (iface_number d) (iface_class d) (iface_subclass d) (iface_protocol d) (ep_in_addr d) (ep_in_maxpkt d) (ep_in_interval d) a m (bulk_in_toggle d) (bulk_out_toggle d) (hcd_priv d).
Definition set_toggles (i o : Z) d : usb_device := mk_dev (in_use d) (address d) (speed d) (max_packet0 d) (hcd d) (hub_addr d) (hub_port d) (dev_desc d) (iface_number d) (iface_class d) (iface_subclass d) (iface_protocol d) (ep_in_addr d) (ep_in_maxpkt d) (ep_in_interval d) (ep_out_addr d) (ep_out_maxpkt d) i o (hcd_priv d).
Definition set_priv (p : Z) d : usb_device := mk_dev (in_use d) (address d) (speed d) (max_packet0 d) (hcd d) (hub_addr d) (hub_port d) (dev_desc d) (iface_number d) (iface_class d) (iface_subclass d) (iface_protocol d) (ep_in_addr d) (ep_in_maxpkt d) (ep_in_interval d) (ep_out_addr d) (ep_out_maxpkt d) (bulk_in_toggle d) (bulk_out_toggle d) p.

(** ** Configurations *)

(** The worth of the interface described at [p]. *)
Definition iface_score (buf : list Z) (p : Z) : Z :=
  if buf.[p + 5] =? USB_CLASS_HID then
    if (buf.[p + 6] =? 1) && ((buf.[p + 7] =? 1) || (buf.[p + 7] =? 2)) then (if buf.[p + 7] =? 1 then 4 else 3) else 2
  else if buf.[p + 5] =? USB_CLASS_HUB then 2 else 1.
(** [fin]: where the descriptors end. *)
Fixpoint best_iface (fuel : nat) (buf : list Z) (fin p best_score : Z) (best : option Z) : option Z :=
  match fuel with
  | O => best
  | S fuel =>
      if (p + 2 <=? fin) && negb (buf.[p] =? 0) then
        if negb (buf.[p + 1] =? USB_DESC_INTERFACE) || negb (buf.[p + 3] =? 0) then best_iface fuel buf fin (p + buf.[p]) best_score best
        else let score := iface_score buf p in
          if best_score <? score then best_iface fuel buf fin (p + buf.[p]) score (Some p) else best_iface fuel buf fin (p + buf.[p]) best_score best
      else best
  end.
(** The endpoint described at [p]. *)
Definition take_endpoint (buf : list Z) (p : Z) d : usb_device :=
  let ep_addr := buf.[p + 2] in
  let ep_type := Z.land (buf.[p + 3]) USB_EP_TYPE_MASK in
  let is_in := negb (Z.land ep_addr USB_EP_DIR_IN =? 0) in
  let maxpkt := Z.land (get_le 2 buf (p + 4)) 0x7FF in
  let d :=
    if (ep_in_addr d =? 0) && (ep_type =? USB_EP_TYPE_INTERRUPT) && is_in then set_ep_in ep_addr maxpkt (if buf.[p + 6] =? 0 then 10 else buf.[p + 6]) d
    else if (ep_in_addr d =? 0) && (ep_type =? USB_EP_TYPE_BULK) && is_in then set_ep_in ep_addr maxpkt 0 d
    else d in
  if (ep_out_addr d =? 0) && (ep_type =? USB_EP_TYPE_BULK) && negb is_in then set_ep_out ep_addr maxpkt d else d.
Fixpoint endpoints (fuel : nat) (buf : list Z) (fin p : Z) d : usb_device :=
  match fuel with
  | O => d
  | S fuel =>
      if (p + 2 <=? fin) && negb (buf.[p] =? 0) then
        if buf.[p + 1] =? USB_DESC_INTERFACE then d
        else endpoints fuel buf fin (p + buf.[p]) (if buf.[p + 1] =? USB_DESC_ENDPOINT then take_endpoint buf p d else d)
      else d
  end.
Definition usb_parse_config (cfgbuf : list Z) (total_len : Z) d : usb_device :=
  match best_iface (Z.to_nat total_len) cfgbuf total_len 0 0 None with
  | None => d
  | Some best =>
      let d := set_iface (cfgbuf.[best + 2]) (cfgbuf.[best + 5]) (cfgbuf.[best + 6]) (cfgbuf.[best + 7]) d in
      endpoints (Z.to_nat total_len) cfgbuf total_len (best + cfgbuf.[best]) d
  end.

(** ** The state *)

Definition HID_RAW_MAX_DEVICES : Z := 4.
Definition HID_RAW_BUF_LEN : Z := 64.
Record usbhub_ctx := mk_hub { hub_dev : Z; num_ports : Z; port_present : list bool }.
#[export] Instance usbhub_ctx_inhabited : Inhabited usbhub_ctx := populate (mk_hub 0 0 (replicate 8 false)).
Record usbhid_raw_slot := mk_raw { raw_dev : Z; last_report : list Z; last_len : Z; update_count : Z; raw_in_use : bool }.
#[export] Instance usbhid_raw_slot_inhabited : Inhabited usbhid_raw_slot := populate (mk_raw 0 (replicate 64 0) 0 0 false).
(** [pl2303_active] is [g_active] of src/pl2303.c; [hid] and [pointer] are the state of [Input]. *)
Record usb (B K : Type) := mk_usb {
  g_devices : list usb_device; g_next_address : Z; g_hubs : list usbhub_ctx; g_hub_count : Z;
  g_active_kbd_dev : option Z; g_raw_slots : list usbhid_raw_slot; pl2303_active : option Z; hid : kbd K; pointer : mouse; bus : B;
}.
Arguments mk_usb {B K}. Arguments g_devices {B K}. Arguments g_next_address {B K}. Arguments g_hubs {B K}. Arguments g_hub_count {B K}.
Arguments g_active_kbd_dev {B K}. Arguments g_raw_slots {B K}. Arguments pl2303_active {B K}. Arguments hid {B K}. Arguments pointer {B K}. Arguments bus {B K}.

Section ops.
Context {B K : Type} `{Hcd B} `{Keys K}.
Implicit Types s : usb B K.
#[local] Abbreviation M := (st (usb B K)).
Definition set_devices (l : list usb_device) s : usb B K := mk_usb l (g_next_address s) (g_hubs s) (g_hub_count s) (g_active_kbd_dev s) (g_raw_slots s) (pl2303_active s) (hid s) (pointer s) (bus s).
Definition set_next (a : Z) s : usb B K := mk_usb (g_devices s) a (g_hubs s) (g_hub_count s) (g_active_kbd_dev s) (g_raw_slots s) (pl2303_active s) (hid s) (pointer s) (bus s).
Definition set_hubs (l : list usbhub_ctx) (n : Z) s : usb B K := mk_usb (g_devices s) (g_next_address s) l n (g_active_kbd_dev s) (g_raw_slots s) (pl2303_active s) (hid s) (pointer s) (bus s).
Definition set_kbd (o : option Z) s : usb B K := mk_usb (g_devices s) (g_next_address s) (g_hubs s) (g_hub_count s) o (g_raw_slots s) (pl2303_active s) (hid s) (pointer s) (bus s).
Definition set_raw (l : list usbhid_raw_slot) s : usb B K := mk_usb (g_devices s) (g_next_address s) (g_hubs s) (g_hub_count s) (g_active_kbd_dev s) l (pl2303_active s) (hid s) (pointer s) (bus s).
Definition set_active (o : option Z) s : usb B K := mk_usb (g_devices s) (g_next_address s) (g_hubs s) (g_hub_count s) (g_active_kbd_dev s) (g_raw_slots s) o (hid s) (pointer s) (bus s).
Definition set_hid (k : kbd K) s : usb B K := mk_usb (g_devices s) (g_next_address s) (g_hubs s) (g_hub_count s) (g_active_kbd_dev s) (g_raw_slots s) (pl2303_active s) k (pointer s) (bus s).
Definition set_pointer (m : mouse) s : usb B K := mk_usb (g_devices s) (g_next_address s) (g_hubs s) (g_hub_count s) (g_active_kbd_dev s) (g_raw_slots s) (pl2303_active s) (hid s) m (bus s).
Definition set_bus (b : B) s : usb B K := mk_usb (g_devices s) (g_next_address s) (g_hubs s) (g_hub_count s) (g_active_kbd_dev s) (g_raw_slots s) (pl2303_active s) (hid s) (pointer s) b.
Definition dev_at (i : Z) s : usb_device := (g_devices s).[i].
Definition on_dev (i : Z) (f : usb_device -> usb_device) : M unit := modify (fun s => set_devices ((g_devices s).[i := f (dev_at i s)]) s).
Definition on_bus {R} (m : st B R) : M R := fun s => let (r, b) := m (bus s) in (r, set_bus b s).

(** ** Transfers *)

Definition usb_control_transfer (i type req value index : Z) (buf : list Z) : M (Z * list Z) :=
  s ← gets (fun s => s);
  '(r, buf, priv) ← on_bus (control_transfer (hcd (dev_at i s)) i (dev_at i s) (mk_setup type req (u16 value) (u16 index) (zlen buf)) buf);
  on_dev i (set_priv priv);;
  mret (r, buf).
Definition usb_get_descriptor (i type index : Z) (buf : list Z) : M (Z * list Z) :=
  usb_control_transfer i 0x80 USB_REQ_GET_DESCRIPTOR (Z.lor (Z.shiftl type 8) index) 0 buf.
Definition usb_set_address (i addr : Z) : M Z :=
  '(r, _) ← usb_control_transfer i 0x00 USB_REQ_SET_ADDRESS addr 0 [];
  when (0 <=? r) (on_dev i (set_address addr));;
  mret r.
Definition usb_set_configuration (i config : Z) : M Z := '(r, _) ← usb_control_transfer i 0x00 USB_REQ_SET_CONFIGURATION config 0 []; mret r.
Definition bulk (i ep : Z) (buf : list Z) (dir_in : bool) : M (Z * list Z) :=
  s ← gets (fun s => s);
  let d := dev_at i s in
  '(r, buf, t, priv) ← on_bus (bulk_transfer (hcd d) i d ep buf dir_in (if dir_in then bulk_in_toggle d else bulk_out_toggle d));
  on_dev i (fun d => set_priv priv (if dir_in then set_toggles (Z.land t 1) (bulk_out_toggle d) d else set_toggles (bulk_in_toggle d) (Z.land t 1) d));;
  mret (r, buf).
Definition usb_bulk_write (i : Z) (buf : list Z) : M Z :=
  s ← gets (fun s => s);
  let d := dev_at i s in
  if (hcd d =? 0) || negb (has_bulk (hcd d)) || (ep_out_addr d =? 0) then mret (-1) else
  '(r, _) ← bulk i (ep_out_addr d) buf false; mret r.
Definition usb_bulk_read (i : Z) (buf : list Z) : M (Z * list Z) :=
  s ← gets (fun s => s);
  let d := dev_at i s in
  if (hcd d =? 0) || negb (has_bulk (hcd d)) || (ep_in_addr d =? 0) then mret (-1, buf) else bulk i (ep_in_addr d) buf true.
Definition interrupt_in (i : Z) (cb : callback) : M Z :=
  s ← gets (fun s => s);
  let d := dev_at i s in
  '(r, priv) ← on_bus (setup_interrupt_in (hcd d) i d (ep_in_addr d) (ep_in_maxpkt d) (ep_in_interval d) cb);
  on_dev i (set_priv priv);;
  mret r.

(** ** The table of devices *)

Definition usb_init : M unit := modify (fun s => set_next 1 (set_devices (replicate 32 no_device) s)).
Definition usb_alloc_device (h : Z) : M (option Z) :=
  floop (rounds 0 USB_MAX_DEVICES) 0 (fun i =>
    s ← gets (fun s => s);
    if in_use (dev_at i s) then mret None
    else on_dev i (fun _ => set_max_packet0 8 (set_hcd h (set_used true no_device)));; mret (Some i)).
Definition usbhid_notify_detach (i : Z) : M unit := modify (fun s => if bool_decide (g_active_kbd_dev s = Some i) then set_kbd None s else s).
Definition usb_free_device (i : Z) : M unit :=
  usbhid_notify_detach i;;
  s ← gets (fun s => s);
  when (negb (hcd (dev_at i s) =? 0) && has_release (hcd (dev_at i s))) (on_bus (release_device (hcd (dev_at i s)) i (dev_at i s)));;
  on_dev i (set_priv 0);;
  on_dev i (set_used false).
Definition address_taken (a : Z) s : bool := existsb (fun d => in_use d && (address d =? a)) (g_devices s).
Definition usb_pick_address : M Z :=
  r ← floop 127 0 (fun _ =>
    s ← gets (fun s => s);
    let candidate := g_next_address s in
    modify (set_next (if 127 <? candidate + 1 then 1 else candidate + 1));;
    mret (if address_taken candidate s then None else Some candidate));
  mret (default (-1) r).
Definition usb_device_count s : Z := zlen (filter (fun d => Is_true (in_use d)) (g_devices s)).
(** The index of the device. *)
Definition usb_find_child_device (ha hp : Z) s : option Z :=
  first_some (fun i => let d := dev_at i s in if in_use d && (hub_addr d =? ha) && (hub_port d =? hp) then Some i else None) (rounds 0 USB_MAX_DEVICES) 0.
(** The [index]-th of the devices in use, from [i] on. *)
Fixpoint nth_used (n : nat) (i index : Z) (used : Z -> bool) : option Z :=
  match n with
  | O => None
  | S n => if used i then (if index =? 0 then Some i else nth_used n (i + 1) (index - 1) used) else nth_used n (i + 1) index used
  end.
Definition usb_get_device (index : Z) s : option Z := nth_used (rounds 0 USB_MAX_DEVICES) 0 index (fun i => in_use (dev_at i s)).

(** What the controllers of root ports do when a port loses its device. *)
Fixpoint remove_port_devices (n : nat) (h port index : Z) : M unit :=
  match n with
  | O => mret tt
  | S n =>
      s ← gets (fun s => s);
      match usb_get_device index s with
      | None => mret tt
      | Some i =>
          let d := dev_at i s in
          if (hcd d =? h) && (hub_addr d =? 0) && (hub_port d =? port) then usb_free_device i;; remove_port_devices n h port index
          else remove_port_devices n h port (index + 1)
      end
  end.
Definition uhci_remove_port_devices (h port : Z) : M unit := remove_port_devices 33 h port 0.

(** ** Devices that report *)

Definition usbhid_keyboard_active s : bool := match g_active_kbd_dev s with Some _ => true | None => false end.
Definition usbhid_raw_report (dev : Z) (report : list Z) : M unit :=
  _ ← floop (rounds 0 HID_RAW_MAX_DEVICES) 0 (fun i =>
    s ← gets (fun s => s);
    let r := (g_raw_slots s).[i] in
    if raw_in_use r && (raw_dev r =? dev) then
      let copy_len := Z.min (zlen report) HID_RAW_BUF_LEN in
      modify (set_raw ((g_raw_slots s).[i := mk_raw (raw_dev r) (splice (last_report r) 0 (take (Z.to_nat copy_len) report)) copy_len (u32 (update_count r + 1)) true]));; mret (Some tt)
    else mret None);
  mret tt.
Definition usbhid_raw_slot_count s : Z := zlen (filter (fun r => Is_true (raw_in_use r)) (g_raw_slots s)).
Definition raw_slot (index : Z) s : option Z := nth_used (rounds 0 HID_RAW_MAX_DEVICES) 0 index (fun i => raw_in_use ((g_raw_slots s).[i])).
Definition usbhid_raw_slot_device (index : Z) s : option Z := i ← raw_slot index s; Some (raw_dev ((g_raw_slots s).[i])).
(** The length, the bytes and the number of reports so far. *)
Definition usbhid_raw_slot_report (index max_len : Z) s : option (Z * list Z * Z) :=
  i ← raw_slot index s;
  let r := (g_raw_slots s).[i] in
  let copy_len := Z.min (last_len r) max_len in
  Some (copy_len, take (Z.to_nat copy_len) (last_report r), update_count r).
(** What a controller does with a report. *)
Definition usb_report (width height : Z) (cb : callback) (dev : Z) (report : list Z) : M unit :=
  match cb with
  | KeyboardReport => modify (fun s => set_hid (usbhid_keyboard_report report (hid s)).2 s)
  | MouseReport => modify (fun s => set_pointer (usbhid_mouse_report width height report (pointer s)) s)
  | RawReport => usbhid_raw_report dev report
  end.
Definition HID_PROTO_KEYBOARD : Z := 1.
Definition HID_PROTO_MOUSE : Z := 2.
Definition usbhid_attach (i : Z) : M unit :=
  s ← gets (fun s => s);
  let d := dev_at i s in
  if ep_in_addr d =? 0 then mret tt else
  if (iface_protocol d =? HID_PROTO_KEYBOARD) || (iface_protocol d =? HID_PROTO_MOUSE) then
    _ ← usb_control_transfer i 0x21 USB_REQ_SET_PROTOCOL 0 (iface_number d) [];
    _ ← usb_control_transfer i 0x21 USB_REQ_SET_IDLE 0 (iface_number d) [];
    if iface_protocol d =? HID_PROTO_KEYBOARD then
      modify (fun s => set_hid (mk_kbd (replicate 6 0) (usb_kbd_dirty (hid s)) (sink (hid s))) s);;
      _ ← interrupt_in i KeyboardReport;
      modify (set_kbd (Some i))
    else _ ← interrupt_in i MouseReport; mret tt
  else
    _ ← usb_control_transfer i 0x21 USB_REQ_SET_IDLE 0 (iface_number d) [];
    _ ← floop (rounds 0 HID_RAW_MAX_DEVICES) 0 (fun j =>
      s ← gets (fun s => s);
      let r := (g_raw_slots s).[j] in
      if raw_in_use r then mret None else
      modify (set_raw ((g_raw_slots s).[j := mk_raw i (last_report r) 0 0 true]));;
      _ ← interrupt_in i RawReport; mret (Some tt));
    mret tt.

(** ** The serial adapter *)

Definition k_known_ids : list (Z * Z) := [(0x067B, 0x2303); (0x067B, 0x23A3); (0x067B, 0x23B3); (0x067B, 0x23C3); (0x067B, 0x23D3); (0x067B, 0x23E3); (0x0557, 0x2008)].
Definition id_vendor d : Z := get_le 2 (dev_desc d) 8.
Definition id_product d : Z := get_le 2 (dev_desc d) 10.
Definition known_id d : bool := existsb (fun '(vid, pid) => (vid =? id_vendor d) && (pid =? id_product d)) k_known_ids.
(** The adapter that was unplugged is forgotten. *)
Definition drop_active : M unit := modify (fun s => match pl2303_active s with Some a => if in_use (dev_at a s) then s else set_active None s | None => s end).
Definition pl2303_probe (i : Z) : M bool := drop_active;; gets (fun s => known_id (dev_at i s)).
Definition pl2303_vendor_write (i value index : Z) : M Z := '(r, _) ← usb_control_transfer i 0x40 0x01 value index []; mret r.
Definition pl2303_vendor_read (i value : Z) : M (Z * Z) := '(r, buf) ← usb_control_transfer i 0xC0 0x01 value 0 [0]; mret (r, buf.[0]).
Definition pl2303_set_control_lines (i : Z) (dtr rts : bool) : M Z :=
  '(r, _) ← usb_control_transfer i 0x21 0x22 (Z.lor (if dtr then 1 else 0) (if rts then 2 else 0)) 0 []; mret r.
Definition pl2303_line (baud databits parity stopbits : Z) : list Z :=
  [Z.land baud 0xFF; Z.land (Z.shiftr baud 8) 0xFF; Z.land (Z.shiftr baud 16) 0xFF; Z.land (Z.shiftr baud 24) 0xFF; stopbits; parity; databits].
Definition pl2303_set_line (i baud databits parity stopbits : Z) : M Z :=
  '(r, _) ← usb_control_transfer i 0x21 0x20 0 0 (pl2303_line baud databits parity stopbits); mret r.
Definition pl2303_vendor_init (i : Z) : M unit :=
  _ ← pl2303_vendor_read i 0x8484; _ ← pl2303_vendor_write i 0x0404 0;
  _ ← pl2303_vendor_read i 0x8484; _ ← pl2303_vendor_read i 0x8383;
  _ ← pl2303_vendor_read i 0x8484; _ ← pl2303_vendor_write i 0x0404 1;
  _ ← pl2303_vendor_read i 0x8484; _ ← pl2303_vendor_read i 0x8383;
  _ ← pl2303_vendor_write i 0 1; _ ← pl2303_vendor_write i 1 0; _ ← pl2303_vendor_write i 2 0x24;
  mret tt.
Definition pl2303_attach (i : Z) : M unit :=
  s ← gets (fun s => s);
  if (ep_out_addr (dev_at i s) =? 0) || (ep_in_addr (dev_at i s) =? 0) then mret tt else
  pl2303_vendor_init i;;
  _ ← pl2303_set_line i 9600 8 0 0;
  _ ← pl2303_set_control_lines i true true;
  modify (set_active (Some i)).
Definition pl2303_get_active : M (option Z) := drop_active;; gets pl2303_active.

(** The pump behind it: the bytes of a message, and the answer up to a carriage return. *)
Definition PUMP_READ_RETRIES : Z := 40.
Definition PUMP_MAX_MSG : Z := 80.
Definition pump_message (start_char : Z) (body : list Z) : list Z := start_char :: take (Z.to_nat (PUMP_MAX_MSG - 3)) body ++ [13].
(** The bytes of a chunk: [inr] when the answer is complete. *)
Fixpoint pump_chunk (chunk : list Z) (response : list Z) (maxlen : Z) : list Z + list Z :=
  match chunk with
  | [] => inl response
  | c :: chunk => if zlen response <? maxlen - 1 then (if c =? 13 then inr response else pump_chunk chunk (response ++ [c]) maxlen) else inl response
  end.
Fixpoint pump_answer (n : nat) (dev : Z) (response : list Z) (maxlen : Z) : M (Z * list Z) :=
  match n with
  | O => mret (if zlen response =? 0 then -1 else zlen response, response)
  | S n =>
      if negb (zlen response <? maxlen - 1) then mret (if zlen response =? 0 then -1 else zlen response, response) else
      chunk ← on_bus (stack_bytes 64);
      '(r, chunk) ← usb_bulk_read dev chunk;
      if r <=? 0 then pump_answer n dev response maxlen else
      match pump_chunk (take (Z.to_nat r) chunk) response maxlen with
      | inr response => mret (zlen response, response)
      | inl response => pump_answer n dev response maxlen
      end
  end.
Definition pump_is_ready : M bool := o ← pl2303_get_active; mret (match o with Some _ => true | None => false end).
(** [wants]: whether the caller gave room for an answer. *)
Definition pump_send_command (start_char : Z) (body : list Z) (wants : bool) (maxlen : Z) : M (Z * list Z) :=
  o ← pl2303_get_active;
  match o with
  | None => mret (-1, [])
  | Some dev =>
      r ← usb_bulk_write dev (pump_message start_char body);
      if r <? 0 then mret (-1, []) else
      if negb wants || (maxlen <=? 0) then mret (0, []) else
      pump_answer (Z.to_nat PUMP_READ_RETRIES) dev [] maxlen
  end.

(** ** Hubs *)

Definition USB_PORT_FEAT_CONNECTION : Z := 0.
Definition USB_PORT_FEAT_ENABLE : Z := 1.
Definition USB_PORT_FEAT_HIGHSPEED : Z := 10.
Definition USB_PORT_FEAT_RESET : Z := 4.
Definition USB_PORT_FEAT_POWER : Z := 8.
Definition USB_PORT_FEAT_LOWSPEED : Z := 9.
Definition USB_PORT_FEAT_C_CONNECTION : Z := 16.
Definition USB_PORT_FEAT_C_RESET : Z := 20.
Definition usbhub_get_port_status (i port : Z) : M Z := '(_, buf) ← usb_control_transfer i 0xA3 0x00 0 (port + 1) [0; 0; 0; 0]; mret (u32 (get_le 4 buf 0)).
Definition usbhub_set_feature (i port feature : Z) : M unit := _ ← usb_control_transfer i 0x23 0x03 feature (port + 1) []; mret tt.
Definition usbhub_clear_feature (i port feature : Z) : M unit := _ ← usb_control_transfer i 0x23 0x01 feature (port + 1) []; mret tt.
Definition usbhub_attach (i : Z) : M unit :=
  s ← gets (fun s => s);
  if 8 <=? g_hub_count s then mret tt else
  desc ← on_bus (stack_bytes 7);
  '(r, desc) ← usb_control_transfer i 0xA0 0x06 (Z.shiftl USB_DESC_HUB 8) 0 desc;
  if r <? 0 then mret tt else
  let num_ports := Z.min (desc.[2]) USB_MAX_HUB_PORTS in
  ffor (rounds 0 num_ports) 0 (fun p => usbhub_set_feature i p USB_PORT_FEAT_POWER);;
  modify (fun s => set_hubs ((g_hubs s).[g_hub_count s := mk_hub i num_ports (replicate 8 false)]) (g_hub_count s + 1) s).

(** ** Finding a device *)

(** The first eight bytes of its descriptor, in three attempts. *)
Fixpoint first_descriptor (n : nat) (i : Z) (tmp : list Z) : M (Z * list Z) :=
  match n with
  | O => mret (-1, tmp)
  | S n => '(got, tmp) ← usb_get_descriptor i USB_DESC_DEVICE 0 tmp; if got <? 0 then first_descriptor n i tmp else mret (got, tmp)
  end.
(** Its configuration: the value that selects it. *)
Definition read_config (i : Z) : M (option Z) :=
  cfg9 ← on_bus (stack_bytes 9);
  '(r, cfg9) ← usb_get_descriptor i USB_DESC_CONFIGURATION 0 cfg9;
  if r <? 0 then mret None else
  let total := Z.min (get_le 2 cfg9 2) 512 in
  cfgbuf ← on_bus (stack_bytes 512);
  '(r, got) ← usb_get_descriptor i USB_DESC_CONFIGURATION 0 (take (Z.to_nat total) cfgbuf);
  if r <? 0 then mret None else
  on_dev i (usb_parse_config (splice cfgbuf 0 got) total);;
  mret (Some (cfg9.[5])).
(** The driver of its class. *)
Definition attach (i : Z) : M unit :=
  serial ← pl2303_probe i;
  s ← gets (fun s => s);
  if (serial : bool) then pl2303_attach i
  else if iface_class (dev_at i s) =? USB_CLASS_HID then usbhid_attach i
  else if iface_class (dev_at i s) =? USB_CLASS_HUB then usbhub_attach i
  else mret tt.
Definition usb_enumerate_device (h ha hp sp : Z) : M unit :=
  o ← usb_alloc_device h;
  match o with
  | None => mret tt
  | Some i =>
      on_dev i (fun d => set_max_packet0 8 (set_place ha hp sp (set_address 0 d)));;
      tmp ← on_bus (stack_bytes 8);
      '(got, tmp) ← first_descriptor 3 i tmp;
      if got <? 0 then usb_free_device i else
      on_dev i (set_max_packet0 (if tmp.[7] =? 0 then 8 else tmp.[7]));;
      addr ← usb_pick_address;
      if addr <? 0 then usb_free_device i else
      r ← usb_set_address i addr;
      if r <? 0 then usb_free_device i else
      s ← gets (fun s => s);
      '(r, desc) ← usb_get_descriptor i USB_DESC_DEVICE 0 (dev_desc (dev_at i s));
      on_dev i (set_dev_desc desc);;
      if r <? 0 then usb_free_device i else
      c ← read_config i;
      match c with
      | None => usb_free_device i
      | Some value =>
          r ← usb_set_configuration i value;
          if r <? 0 then usb_free_device i else attach i
      end
  end.

(** ** Watching the hubs *)

Definition bit (v n : Z) : bool := negb (Z.land v (Z.shiftl 1 n) =? 0).
Definition set_present (h p : Z) (b : bool) : M unit :=
  modify (fun s => let hub := (g_hubs s).[h] in set_hubs ((g_hubs s).[h := mk_hub (hub_dev hub) (num_ports hub) ((port_present hub).[p := b])]) (g_hub_count s) s).
(** The status until the reset is over, 60 times at most. *)
Fixpoint await_reset (n : nat) (dev p : Z) : M unit :=
  match n with
  | O => mret tt
  | S n => st2 ← usbhub_get_port_status dev p; if bit (Z.shiftr st2 16) USB_PORT_FEAT_RESET then mret tt else await_reset n dev p
  end.
Definition hub_port_poll (h p : Z) : M unit :=
  s ← gets (fun s => s);
  let dev := hub_dev ((g_hubs s).[h]) in
  status ← usbhub_get_port_status dev p;
  let change := Z.shiftr status 16 in
  if bit change USB_PORT_FEAT_C_CONNECTION then
    usbhub_clear_feature dev p USB_PORT_FEAT_C_CONNECTION;;
    s ← gets (fun s => s);
    if bit status USB_PORT_FEAT_CONNECTION then
      when (negb ((port_present ((g_hubs s).[h])).[p])) (
        usbhub_set_feature dev p USB_PORT_FEAT_RESET;;
        await_reset 60 dev p;;
        usbhub_clear_feature dev p USB_PORT_FEAT_C_RESET;;
        st2 ← usbhub_get_port_status dev p;
        when (bit st2 USB_PORT_FEAT_ENABLE) (
          set_present h p true;;
          s ← gets (fun s => s);
          usb_enumerate_device (hcd (dev_at dev s)) (address (dev_at dev s)) p
            (if bit st2 USB_PORT_FEAT_LOWSPEED then 1 else if bit st2 USB_PORT_FEAT_HIGHSPEED then 2 else 0)))
    else
      set_present h p false;;
      s ← gets (fun s => s);
      match usb_find_child_device (address (dev_at dev s)) p s with Some child => usb_free_device child | None => mret tt end
  else mret tt.
(** A hub found on the way is visited too. *)
Fixpoint hubs_poll (n : nat) (h : Z) : M unit :=
  match n with
  | O => mret tt
  | S n =>
      s ← gets (fun s => s);
      if h <? g_hub_count s then ffor (rounds 0 (num_ports ((g_hubs s).[h]))) 0 (hub_port_poll h);; hubs_poll n (h + 1) else mret tt
  end.
Definition usbhub_poll : M unit := hubs_poll 8 0.
Definition usb_poll : M unit := usbhub_poll.
End ops.

End Usb.
