(* ===== verification/UsbProps.v ===== *)
(** What the USB layer of [Usb] promises: addresses of devices in use are
    distinct and one is always found for a new device, the interface used is
    the best of those described; and that nothing behind a hub is ever found. *)
From S2P Require Import Prelude CString Focus Terminal Input Usb.
From stdpp Require Import base list numbers.
From Stdlib Require Import ZArith Lia.
Import CString Input Usb.
Open Scope Z_scope.

Module UsbProps.

(** A change of one element that [f] does not see. *)
Lemma map_aset_same {A C} `{Inhabited A} (f : A -> C) (g : A -> A) (l : list A) i : (forall x, f (g x) = f x) -> map f (l.[i := g (l.[i])]) = map f l.
Proof.
  intros Hf. unfold aset, aget. destruct (decide (Z.to_nat i < length l)%nat) as [Hi|Hi]; [|by rewrite list_insert_ge by lia].
  rewrite list_fmap_insert, Hf. apply list_insert_id. rewrite list_lookup_fmap. by rewrite (list_lookup_lookup_total_lt _ _ Hi).
Qed.

Section addresses.
Context {B K : Type} `{Hcd B} `{Keys K}.
Implicit Types s : usb B K.
#[local] Abbreviation M := (st (usb B K)).

(** ** What matters for addresses *)

Definition use_of (d : usb_device) : bool * Z := (in_use d, address d).
(** Who uses which address, and the address tried next. *)
Definition core s : list (bool * Z) * Z := (map use_of (g_devices s), g_next_address s).
Definition quiet {R} (m : M R) : Prop := forall s, core (m s).2 = core s.
Definition triple {R} (P : list (bool * Z) * Z -> Prop) (m : M R) (Q : R -> list (bool * Z) * Z -> Prop) : Prop := forall s, P (core s) -> Q (m s).1 (core (m s).2).

Lemma quiet_ret {R} (a : R) : quiet (mret a).
Proof. done. Qed.
Lemma quiet_gets {R} (f : usb B K -> R) : quiet (gets f).
Proof. done. Qed.
Lemma quiet_bind {R R'} (m : M R) (f : R -> M R') : quiet m -> (forall a, quiet (f a)) -> quiet (m ≫= f).
Proof. intros Hm Hf s. unfold mbind, st_bind. specialize (Hm s). destruct (m s) as [a s']. cbn in Hm. by rewrite Hf. Qed.
Lemma quiet_when b (m : M unit) : quiet m -> quiet (when b m).
Proof. by destruct b. Qed.
Lemma quiet_modify (f : usb B K -> usb B K) : (forall s, core (f s) = core s) -> quiet (modify f).
Proof. intros Hf s. apply Hf. Qed.
Lemma quiet_on_bus {R} (m : st B R) : quiet (on_bus m).
Proof. intros s. unfold on_bus. by destruct (m (bus s)). Qed.
Lemma quiet_on_dev i f : (forall d, use_of (f d) = use_of d) -> quiet (on_dev i f).
Proof. intros Hf s. unfold on_dev, modify, core, dev_at. cbn [snd g_devices g_next_address set_devices]. by rewrite map_aset_same. Qed.
Lemma quiet_floop {R} n i (body : Z -> M (option R)) : (forall j, quiet (body j)) -> quiet (floop n i body).
Proof.
  intros Hb. revert i. induction n as [|n IH]; intros i s; cbn [floop]; [done|].
  pose proof (Hb i s) as E. destruct (body i s) as [[r|] s']; [done|]. cbn in E. by rewrite IH.
Qed.
Lemma quiet_ffor n i (body : Z -> M unit) : (forall j, quiet (body j)) -> quiet (ffor n i body).
Proof. intros Hb. revert i. induction n as [|n IH]; intros i s; cbn [ffor]; [done|]. by rewrite IH, Hb. Qed.
Lemma triple_quiet {R} (P : list (bool * Z) * Z -> Prop) (m : M R) : quiet m -> triple P m (fun _ => P).
Proof. intros Hm s Hp. by rewrite Hm. Qed.
Lemma triple_bind {R R'} P (Q : R -> _ -> Prop) (Q' : R' -> _ -> Prop) (m : M R) (f : R -> M R') :
  triple P m Q -> (forall a, triple (Q a) (f a) Q') -> triple P (m ≫= f) Q'.
Proof. intros Hm Hf s Hp. unfold mbind, st_bind. specialize (Hm s Hp). destruct (m s) as [a s']. by apply Hf. Qed.
Lemma triple_ret {R} (P : R -> _ -> Prop) (a : R) : triple (P a) (mret a : M R) P.
Proof. intros s. done. Qed.
Lemma triple_weaken {R} P P' (Q : R -> _ -> Prop) (m : M R) : (forall c, P c -> P' c) -> triple P' m Q -> triple P m Q.
Proof. intros Hw Hm s Hp. apply Hm, Hw, Hp. Qed.
End addresses.

Create HintDb quiet discriminated.
#[export] Hint Resolve quiet_ret quiet_gets quiet_on_bus quiet_when : quiet.
(** Programs that only transfer, one command after the other. *)
Ltac quiets := intros; repeat (cbv zeta; first
  [ solve [auto with quiet nocore]
  | match goal with
    | |- quiet (mbind _ _) => apply quiet_bind; [|intros]
    | |- quiet (floop _ _ _) => apply quiet_floop; intros
    | |- quiet (ffor _ _ _) => apply quiet_ffor; intros
    | |- quiet (when _ _) => apply quiet_when
    | |- quiet (on_dev _ _) => apply quiet_on_dev; intros; by repeat case_match
    | |- quiet (modify _) => apply quiet_modify; done
    | |- quiet (if ?x then _ else _) => destruct x
    | |- quiet (match ?x with _ => _ end) => destruct x
    end ]).

Section quiet_ops.
Context {B K : Type} `{Hcd B} `{Keys K}.
Implicit Types s : usb B K.
#[local] Abbreviation Q m := (quiet (B := B) (K := K) m).

Lemma q_control i type req value index buf : Q (usb_control_transfer i type req value index buf).
Proof. unfold usb_control_transfer. quiets. Qed.
#[local] Hint Resolve q_control : quiet.
Lemma q_get_descriptor i type index buf : Q (usb_get_descriptor i type index buf).
Proof. unfold usb_get_descriptor. quiets. Qed.
Lemma q_set_configuration i c : Q (usb_set_configuration i c).
Proof. unfold usb_set_configuration. quiets. Qed.
Lemma q_bulk i ep buf dir : Q (bulk i ep buf dir).
Proof. unfold bulk. quiets. Qed.
#[local] Hint Resolve q_get_descriptor q_set_configuration q_bulk : quiet.
Lemma q_bulk_read i buf : Q (usb_bulk_read i buf).
Proof. unfold usb_bulk_read. quiets. Qed.
Lemma q_bulk_write i buf : Q (usb_bulk_write i buf).
Proof. unfold usb_bulk_write. quiets. Qed.
Lemma q_interrupt_in i cb : Q (interrupt_in i cb).
Proof. unfold interrupt_in. quiets. Qed.
#[local] Hint Resolve q_bulk_read q_bulk_write q_interrupt_in : quiet.
Lemma q_detach i : Q (usbhid_notify_detach i).
Proof. unfold usbhid_notify_detach. apply quiet_modify. intros s. by case_bool_decide. Qed.
Lemma q_raw_report dev report : Q (usbhid_raw_report dev report).
Proof. unfold usbhid_raw_report. quiets. Qed.
#[local] Hint Resolve q_detach q_raw_report : quiet.
Lemma q_report w h cb dev report : Q (usb_report w h cb dev report).
Proof. unfold usb_report. quiets. Qed.
Lemma q_hid_attach i : Q (usbhid_attach i).
Proof. unfold usbhid_attach. quiets. Qed.
Lemma q_drop_active : Q drop_active.
Proof. unfold drop_active. apply quiet_modify. intros s. by repeat case_match. Qed.
#[local] Hint Resolve q_hid_attach q_drop_active : quiet.
Lemma q_probe i : Q (pl2303_probe i).
Proof. unfold pl2303_probe. quiets. Qed.
Lemma q_get_active : Q pl2303_get_active.
Proof. unfold pl2303_get_active. quiets. Qed.
#[local] Hint Resolve q_probe q_get_active : quiet.
Lemma q_pl2303_attach i : Q (pl2303_attach i).
Proof. unfold pl2303_attach, pl2303_vendor_init, pl2303_vendor_read, pl2303_vendor_write, pl2303_set_line, pl2303_set_control_lines. quiets. Qed.
Lemma q_pump_answer n dev response maxlen : Q (pump_answer n dev response maxlen).
Proof. revert response. induction n as [|n IH]; intros; cbn [pump_answer]; quiets; auto. Qed.
#[local] Hint Resolve q_pl2303_attach q_pump_answer : quiet.
Lemma q_pump_command c body wants maxlen : Q (pump_send_command c body wants maxlen).
Proof. unfold pump_send_command. quiets. Qed.
Lemma q_port_status i p : Q (usbhub_get_port_status i p).
Proof. unfold usbhub_get_port_status. quiets. Qed.
Lemma q_set_feature i p f : Q (usbhub_set_feature i p f).
Proof. unfold usbhub_set_feature. quiets. Qed.
Lemma q_clear_feature i p f : Q (usbhub_clear_feature i p f).
Proof. unfold usbhub_clear_feature. quiets. Qed.
#[local] Hint Resolve q_port_status q_set_feature q_clear_feature : quiet.
Lemma q_hub_attach i : Q (usbhub_attach i).
Proof. unfold usbhub_attach. quiets. Qed.
Lemma q_first_descriptor n i tmp : Q (first_descriptor n i tmp).
Proof. revert tmp. induction n as [|n IH]; intros; cbn [first_descriptor]; quiets; auto. Qed.
Lemma parse_config_use buf len d : use_of (usb_parse_config buf len d) = use_of d.
Proof.
  unfold usb_parse_config. destruct (best_iface _ _ _ _ _ _) as [best|]; [|done].
  set (d1 := set_iface _ _ _ _ d). change (use_of d) with (use_of d1). generalize (best + buf.[best]) as p. generalize d1. clear d1.
  induction (Z.to_nat len) as [|n IH]; intros d1 p; cbn [endpoints]; [done|]. destruct (_ && _); [|done]. destruct (_ =? _); [done|].
  rewrite IH. destruct (_ =? _); [|done]. unfold take_endpoint. by repeat case_match.
Qed.
Lemma q_read_config i : Q (read_config i).
Proof. unfold read_config. quiets. apply quiet_on_dev. intros. apply parse_config_use. Qed.
#[local] Hint Resolve q_hub_attach q_first_descriptor q_read_config : quiet.
Lemma q_attach i : Q (attach i).
Proof. unfold attach. quiets. Qed.
Lemma q_present h p b : Q (set_present h p b).
Proof. unfold set_present. quiets. Qed.
Lemma q_await n dev p : Q (await_reset n dev p).
Proof. induction n as [|n IH]; cbn [await_reset]; quiets; auto. Qed.
End quiet_ops.
#[export] Hint Resolve q_control q_get_descriptor q_set_configuration q_report q_pump_command q_port_status q_set_feature q_clear_feature q_first_descriptor q_read_config q_attach q_present q_await q_detach : quiet.

(** ** Addresses apart *)

(** Indices that differ, also as options. *)
Ltac differ := first [ lia | done | let E := fresh in intros E; injection E; lia ].

(** The devices in use but [e] have addresses of their own. *)
Record apart (e : option Z) (c : list (bool * Z) * Z) : Prop := {
  ap_length : zlen c.1 = USB_MAX_DEVICES; ap_next : 1 <= c.2 <= 127;
  ap_range : forall i, 0 <= i < USB_MAX_DEVICES -> Some i <> e -> (c.1.[i]).1 = true -> 1 <= (c.1.[i]).2 <= 127;
  ap_distinct : forall i j, 0 <= i < USB_MAX_DEVICES -> 0 <= j < USB_MAX_DEVICES -> Some i <> e -> Some j <> e -> i <> j ->
    (c.1.[i]).1 = true -> (c.1.[j]).1 = true -> (c.1.[i]).2 <> (c.1.[j]).2;
}.
Definition fresh (a : Z) (c : list (bool * Z) * Z) : Prop := 1 <= a <= 127 /\ Forall (fun x => x.1 = true -> x.2 <> a) c.1.
Lemma apart_enter e i x l n : 0 <= i < USB_MAX_DEVICES -> e = None \/ e = Some i -> apart e (l, n) -> apart (Some i) (l.[i := x], n).
Proof.
  intros Hi He [Hl Hn Hr Hd]; cbn in *. assert (Hne : forall j, Some j <> Some i -> Some j <> e) by (intros j Hj; destruct He as [->| ->]; congruence).
  constructor; cbn; [by rewrite zlen_aset|done| |].
  - intros j Hj Hji. assert (i <> j) by congruence. rewrite aget_aset_ne by lia. apply Hr; auto.
  - intros j k Hj Hk Hji Hki Hjk. assert (i <> j /\ i <> k) as [Hij Hik] by (split; congruence). rewrite !aget_aset_ne by lia. apply Hd; auto.
Qed.
Lemma apart_leave i l n a b : 0 <= i < USB_MAX_DEVICES -> apart (Some i) (l, n) -> (b = true -> fresh a (l, n)) -> apart None (l.[i := (b, a)], n).
Proof.
  intros Hi [Hl Hn Hr Hd] Hf; cbn in *.
  assert (Hfr : forall j, 0 <= j < USB_MAX_DEVICES -> b = true -> (l.[j]).1 = true -> (l.[j]).2 <> a).
  { intros j Hj Hb. apply (aget_Forall _ _ j (proj2 (Hf Hb))). cbn. lia. }
  constructor; cbn; [by rewrite zlen_aset|done| |].
  - intros j Hj _. rewrite aget_aset by lia. case_decide; cbn; [|apply Hr; differ]. intros Hb. apply (Hf Hb).
  - intros j k Hj Hk _ _ Hjk. rewrite !aget_aset by lia. do 2 case_decide; cbn; subst; [done| | |].
    + intros Hb Hk' E. by apply (Hfr k Hk Hb Hk').
    + intros Hj' Hb. by apply Hfr.
    + apply Hd; differ.
Qed.
Lemma apart_next e l n n' : 1 <= n' <= 127 -> apart e (l, n) -> apart e (l, n').
Proof. intros Hn [Hl _ Hr Hd]. by constructor. Qed.

(** Go past a command that is quiet. *)
Ltac skips := eapply triple_bind; [apply triple_quiet; auto with quiet nocore|intros ?; cbn beta iota].
Tactic Notation "skipping" simple_intropattern(p) := eapply triple_bind; [apply triple_quiet; auto with quiet nocore|intros p; cbn beta iota].

Section steps.
Context {B K : Type} `{Hcd B} `{Keys K}.
Implicit Types s : usb B K.
#[local] Abbreviation M := (st (usb B K)).

Lemma core_dev s i : 0 <= i < zlen (g_devices s) -> (core s).1.[i] = use_of (dev_at i s).
Proof.
  unfold core, dev_at, aget, zlen. cbn [fst]. intros Hi. rewrite !list_lookup_total_alt, list_lookup_fmap.
  destruct (lookup_lt_is_Some_2 (g_devices s) (Z.to_nat i)) as [d ->]; [lia|done].
Qed.
Lemma core_length s : zlen (core s).1 = zlen (g_devices s).
Proof. unfold core, zlen. cbn. by rewrite length_map. Qed.
Lemma core_on_dev s i f : core (on_dev i f s).2 = ((core s).1.[i := use_of (f (dev_at i s))], (core s).2).
Proof. unfold on_dev, modify, core, aset. cbn. by rewrite list_fmap_insert. Qed.
(** A change of one device, seen in the core. *)
Lemma triple_on_dev P (g : bool * Z -> bool * Z) i f (Q : unit -> _ -> Prop) :
  (forall d, use_of (f d) = g (use_of d)) -> (forall c, P c -> 0 <= i < zlen c.1 /\ Q tt (c.1.[i := g (c.1.[i])], c.2)) -> triple P (on_dev i f : M unit) Q.
Proof.
  intros Hf HP s Hs. destruct (HP _ Hs) as [Hi HQ]. rewrite core_on_dev, Hf, <- core_dev by (by rewrite <- core_length). exact HQ.
Qed.
Lemma triple_consequence {R} P (Q Q' : R -> _ -> Prop) (m : M R) : triple P m Q -> (forall a c, Q a c -> Q' a c) -> triple P m Q'.
Proof. intros Hm Hq s Hp. apply Hq, Hm, Hp. Qed.

(** *** The operations on addresses *)

Lemma alloc_apart h : triple (apart None) (usb_alloc_device h : M _) (fun o c => match o with Some i => 0 <= i < USB_MAX_DEVICES /\ apart (Some i) c | None => apart None c end).
Proof.
  intros s Hs. unfold usb_alloc_device.
  apply (floop_inv (fun _ s => apart None (core s)) (fun o s => match o with Some i => 0 <= i < USB_MAX_DEVICES /\ apart (Some i) (core s) | None => apart None (core s) end)); [done| |done].
  intros j s' Hj Hs'. munfold. destruct (in_use _); [done|]. unfold rounds in Hj. rewrite Z2Nat.id in Hj by done. split; [lia|].
  pose proof (core_on_dev s' j (fun _ => set_max_packet0 8 (set_hcd h (set_used true no_device)))) as E. unfold on_dev, modify in E. cbn [snd] in E. rewrite E.
  destruct (core s') as [l n]. apply (apart_enter None); [lia|by left|done].
Qed.
Lemma free_apart e i : 0 <= i < USB_MAX_DEVICES -> e = None \/ e = Some i -> triple (apart e) (usb_free_device i : M unit) (fun _ => apart None).
Proof.
  intros Hi He. unfold usb_free_device. skips. skips. skips. skips; [apply quiet_on_dev; done|].
  apply (triple_on_dev _ (fun x => (false, x.2))); [done|]. intros [l n] Hap. cbn [fst snd]. split; [pose proof (ap_length _ _ Hap) as Hlen; cbn [fst] in Hlen; lia|].
  pose proof (apart_enter e i (false, (l.[i]).2) l n Hi He Hap) as Ha. rewrite <- (aset_aset l i (false, (l.[i]).2)). by apply apart_leave.
Qed.
Lemma set_address_apart i a : 0 <= i < USB_MAX_DEVICES -> triple (fun c => apart (Some i) c /\ fresh a c) (usb_set_address i a : M Z)
  (fun r c => if r <? 0 then apart (Some i) c else apart None c).
Proof.
  intros Hi. unfold usb_set_address. skipping [r buf].
  unfold when. destruct (0 <=? r) eqn:E.
  - apply (triple_bind _ (fun _ => apart None)); [|intros u s Hs; cbn; by replace (r <? 0) with false by lia].
    apply (triple_on_dev _ (fun x => (x.1, a))); [done|]. intros [l n] [Hap Hf]. cbn [fst snd].
    split; [pose proof (ap_length _ _ Hap) as Hlen; cbn [fst] in Hlen; lia|]. by apply apart_leave.
  - intros s [Hap _]. change (if r <? 0 then apart (Some i) (core s) else apart None (core s)). by replace (r <? 0) with true by lia.
Qed.

(** *** An address is always found *)

Definition candidate (n : Z) (j : Z) : Z := (n - 1 + j) mod 127 + 1.
Lemma candidate_range n j : 1 <= candidate n j <= 127.
Proof. unfold candidate. pose proof (Z.mod_pos_bound (n - 1 + j) 127). lia. Qed.
Lemma candidate_step n j : (if 127 <? candidate n j + 1 then 1 else candidate n j + 1) = candidate n (j + 1).
Proof. unfold candidate. pose proof (Z.mod_pos_bound (n - 1 + j) 127 eq_refl). replace (n - 1 + (j + 1)) with (n - 1 + j + 1) by lia. rewrite <- (Zplus_mod_idemp_l _ 1). destruct (127 <? _) eqn:E; [|rewrite (Z.mod_small (_ + 1)); lia]. replace ((n - 1 + j) mod 127) with 126 by lia. done. Qed.
Lemma taken_core a s : address_taken a s = existsb (fun x => x.1 && (x.2 =? a)) (core s).1.
Proof. unfold address_taken, core. cbn [fst]. induction (g_devices s) as [|d l IH]; [done|]. cbn [existsb map]. by rewrite IH. Qed.
Lemma not_taken_fresh a c : 1 <= a <= 127 -> existsb (fun x => x.1 && (x.2 =? a)) c.1 = false -> fresh a c.
Proof.
  intros Ha Hx. split; [done|]. apply list.Forall_forall. intros x Hin Hu Heq. apply not_true_iff_false in Hx. apply Hx, existsb_exists. exists x.
  split; [by apply list_elem_of_In|]. rewrite Hu. cbn. by apply Z.eqb_eq.
Qed.
(** 32 devices do not use 127 addresses. *)
Lemma some_candidate_free (l : list (bool * Z)) n : zlen l = USB_MAX_DEVICES -> ~ (forall j, 0 <= j < 127 -> existsb (fun x => x.1 && (x.2 =? candidate n j)) l = true).
Proof.
  intros Hl Hall. assert (Hnd : List.NoDup (map (candidate n) (seqZ 0 127))).
  { apply NoDup_ListNoDup, NoDup_fmap_2_strong; [|apply NoDup_seqZ]. intros x y Hx%elem_of_seqZ Hy%elem_of_seqZ. unfold candidate. zdm. }
  assert (Hin : incl (map (candidate n) (seqZ 0 127)) (map snd l)).
  { intros a Ha. apply in_map_iff in Ha as (j & <- & Hj). apply list_elem_of_In, elem_of_seqZ in Hj. specialize (Hall j ltac:(lia)).
    apply existsb_exists in Hall as (x & Hx & [_ E%Z.eqb_eq]%andb_true_iff). rewrite <- E. by apply in_map. }
  pose proof (NoDup_incl_length Hnd Hin) as Hlen. rewrite !length_map, length_seqZ in Hlen. unfold zlen, USB_MAX_DEVICES in Hl. lia.
Qed.
Lemma pick_address s : zlen (g_devices s) = USB_MAX_DEVICES -> 1 <= g_next_address s <= 127 ->
  exists a n, usb_pick_address s = (a, set_next n s) /\ 1 <= n <= 127 /\ fresh a (core s).
Proof.
  intros Hl Hn. set (n0 := g_next_address s).
  pose proof (floop_inv (fun j s' => s' = set_next (candidate n0 j) s /\ (forall k, 0 <= k < j -> address_taken (candidate n0 k) s = true))
    (fun o s' => exists n a, 1 <= n <= 127 /\ s' = set_next n s /\ o = Some a /\ fresh a (core s)) 127 0
    (fun _ => s ← gets (fun s => s); modify (set_next (if 127 <? g_next_address s + 1 then 1 else g_next_address s + 1));; mret (if address_taken (g_next_address s) s then None else Some (g_next_address s))) s) as Hloop.
  unfold usb_pick_address, mbind at 1, st_bind. destruct (floop _ _ _ s) as [o s'] eqn:E. cbn [fst snd] in Hloop. destruct Hloop as (n & a & Hrange & -> & -> & Hf).
  - unfold candidate. rewrite Z.add_0_r, Z.mod_small by (unfold n0; lia). replace (n0 - 1 + 1) with n0 by lia. split; [by destruct s|lia].
  - intros j s1 Hj [-> Hk]. munfold. cbn [g_next_address set_next]. rewrite candidate_step. change (address_taken (candidate n0 j) (set_next (candidate n0 j) s)) with (address_taken (candidate n0 j) s).
    destruct (address_taken (candidate n0 j) s) eqn:Et.
    + split; [done|]. intros k Hk'. destruct (decide (k = j)) as [->|]; [done|apply Hk; lia].
    + exists (candidate n0 (j + 1)), (candidate n0 j). split; [apply candidate_range|]. split; [done|]. split; [done|]. apply not_taken_fresh; [apply candidate_range|]. by rewrite <- taken_core.
  - intros s1 [_ Hk]. exfalso. apply (some_candidate_free (core s).1 n0); [by rewrite core_length|]. intros j Hj. rewrite <- taken_core. apply Hk. lia.
  - exists a, n. done.
Qed.

(** *** Every operation *)

Lemma triple_pull {R} (X : Prop) P (m : M R) Q : (X -> triple P m Q) -> triple (fun c => X /\ P c) m Q.
Proof. intros Hm s [Hx Hp]. by apply Hm. Qed.
Lemma pick_apart i : triple (apart (Some i)) (usb_pick_address : M Z) (fun a c => 0 <= a /\ (apart (Some i) c /\ fresh a c)).
Proof.
  intros s Hs. destruct (pick_address s) as (a & n & -> & Hn & Hf); [rewrite <- core_length; apply Hs|apply (ap_next _ _ Hs)|].
  cbn [fst snd]. pose proof (proj1 Hf). split; [lia|]. split; [|done]. by apply (apart_next _ _ (g_next_address s)).
Qed.
Lemma enumerate_apart h ha hp sp : triple (apart None) (usb_enumerate_device h ha hp sp : M unit) (fun _ => apart None).
Proof.
  unfold usb_enumerate_device. eapply triple_bind; [apply alloc_apart|]. intros [i|]; [|apply (triple_ret (fun _ => apart None))].
  apply triple_pull. intros Hi. assert (Hfree : forall e, e = None \/ e = Some i -> triple (apart e) (usb_free_device i : M unit) (fun _ => apart None)) by (intros; by apply free_apart).
  apply (triple_bind _ (fun _ => apart (Some i))); [|intros _].
  { apply (triple_on_dev _ (fun x => (x.1, 0))); [done|]. intros [l n] Hap. cbn [fst snd]. split; [pose proof (ap_length _ _ Hap) as Hlen; cbn [fst] in Hlen; lia|]. apply (apart_enter (Some i)); auto. }
  skips. skipping [got tmp]. destruct (got <? 0); [apply Hfree; by right|]. skips; [apply quiet_on_dev; done|].
  eapply triple_bind; [apply pick_apart|]. intros addr. apply triple_pull. intros Haddr. replace (addr <? 0) with false by lia.
  eapply triple_bind; [by apply set_address_apart|]. intros r. cbn beta. destruct (r <? 0); [apply Hfree; by right|].
  skips. skipping [r' desc]. skips; [apply quiet_on_dev; done|]. destruct (r' <? 0); [apply Hfree; by left|].
  skipping [value|]; [|apply Hfree; by left]. skipping r''. destruct (r'' <? 0); [apply Hfree; by left|]. apply triple_quiet, q_attach.
Qed.
Lemma triple_ffor P n i (body : Z -> M unit) : (forall j, triple P (body j) (fun _ => P)) -> triple P (ffor n i body) (fun _ => P).
Proof. intros Hb. revert i. induction n as [|n IH]; intros i s Hs; cbn [ffor snd]; [done|]. apply IH, Hb, Hs. Qed.
Lemma nth_used_range n i index f j : nth_used n i index f = Some j -> i <= j < i + Z.of_nat n /\ f j = true.
Proof.
  revert i index. induction n as [|n IH]; intros i index; cbn [nth_used]; [done|]. destruct (f i) eqn:E; [destruct (index =? 0)|].
  - intros [= ->]. split; [lia|done].
  - intros Hj%IH. split; [lia|apply Hj].
  - intros Hj%IH. split; [lia|apply Hj].
Qed.
Lemma get_device_range index s i : usb_get_device index s = Some i -> 0 <= i < USB_MAX_DEVICES.
Proof. unfold usb_get_device. intros Hi. pose proof (nth_used_range _ _ _ _ _ Hi) as [Hj _]. change (Z.of_nat (rounds 0 USB_MAX_DEVICES)) with 32 in Hj. unfold USB_MAX_DEVICES. lia. Qed.
Lemma remove_apart n h port index : triple (apart None) (remove_port_devices n h port index : M unit) (fun _ => apart None).
Proof.
  revert index. induction n as [|n IH]; intros index; cbn [remove_port_devices]; [by apply triple_quiet|].
  skipping s0. destruct (usb_get_device index s0) as [i|] eqn:E; [|by apply triple_quiet]. apply get_device_range in E. cbv zeta. destruct (_ && _); [|apply IH].
  eapply triple_bind; [apply free_apart; [exact E|by left]|]. intros ?; cbn beta. apply IH.
Qed.
Lemma port_apart h p : triple (apart None) (hub_port_poll h p : M unit) (fun _ => apart None).
Proof.
  unfold hub_port_poll. skipping s0. cbv zeta. skipping status. destruct (bit _ _); [|by apply triple_quiet]. skips. skipping s1. destruct (bit _ _).
  - destruct (negb _); unfold when; [|by apply triple_quiet]. skips. skips. skips. skips. destruct (bit _ _); [|by apply triple_quiet]. skips. skips. apply enumerate_apart.
  - skips. skipping s2. destruct (usb_find_child_device _ _ _) as [c|] eqn:E; [|by apply triple_quiet]. apply free_apart; [|by left].
    unfold usb_find_child_device in E. set (f := fun i : Z => in_use (dev_at i s2) && (hub_addr (dev_at i s2) =? address (dev_at (hub_dev (g_hubs s0).[h]) s2)) && (hub_port (dev_at i s2) =? p)).
    pose proof (first_some_hit f (rounds 0 USB_MAX_DEVICES) 0) as Hh. change (first_some (fun i => if f i then Some i else None) (rounds 0 USB_MAX_DEVICES) 0 = Some c) in E.
    rewrite E in Hh. exact (proj1 Hh).
Qed.
Lemma hubs_apart n h : triple (apart None) (hubs_poll n h : M unit) (fun _ => apart None).
Proof.
  revert h. induction n as [|n IH]; intros h; cbn [hubs_poll]; [by apply triple_quiet|]. skips. destruct (_ <? _); [|by apply triple_quiet].
  eapply triple_bind; [apply triple_ffor; intros; apply port_apart|]. intros ?; cbn beta. apply IH.
Qed.
End steps.

(** ** What happens to the USB layer *)

Inductive event := Start | Plug (h ha hp sp : Z) | Unplug (h port : Z) | Poll | Reported (cb : callback) (dev : Z) (report : list Z) | Pump (start_char : Z) (body : list Z) (maxlen : Z).
Section run.
Context {B K : Type} `{Hcd B} `{Keys K} (width height : Z).
Definition happens (e : event) : st (usb B K) unit :=
  match e with
  | Start => usb_init
  | Plug h ha hp sp => usb_enumerate_device h ha hp sp
  | Unplug h port => uhci_remove_port_devices h port
  | Poll => usb_poll
  | Reported cb dev report => usb_report width height cb dev report
  | Pump c body maxlen => _ ← pump_send_command c body true maxlen; mret tt
  end.
Lemma happens_apart e : triple (apart None) (happens e) (fun _ => apart None).
Proof.
  destruct e; cbn [happens].
  - intros s [_ _ _ _]. split; [done|done| |]; cbn [fst]; intros i; intros; change (core (usb_init s).2).1 with (replicate 32 (false, 0)) in *; rewrite aget_replicate in * by (unfold USB_MAX_DEVICES in *; lia); done.
  - apply enumerate_apart.
  - apply remove_apart.
  - apply hubs_apart.
  - apply triple_quiet, q_report.
  - skips. by apply triple_quiet.
Qed.

(** C26 - Devices have addresses of their own: whatever devices are plugged in
    and removed at root ports, whatever the hubs and the controllers answer to
    any request, whatever reports arrive, after every sequence of these two
    devices in use never have the same address, and every address is one that
    the bus allows, 1 to 127; and a device that gets as far as being given an
    address always gets one: of the 127 addresses one that no device in use
    has is found, so the branch that runs out of addresses is never taken. *)
Theorem usb_addresses_distinct (es : list event) (s : usb B K) :
  let s' := foldl (fun s e => (happens e s).2) (usb_init s).2 es in
  (forall i j, 0 <= i < USB_MAX_DEVICES -> 0 <= j < USB_MAX_DEVICES -> i <> j -> in_use (dev_at i s') = true -> in_use (dev_at j s') = true ->
     1 <= address (dev_at i s') <= 127 /\ address (dev_at i s') <> address (dev_at j s')) /\
  exists a n, usb_pick_address s' = (a, set_next n s') /\ 1 <= a <= 127 /\ address_taken a s' = false.
Proof.
  assert (Hap : forall es s, apart None (core s) -> apart None (core (foldl (fun s e => (happens e s).2) s es))).
  { clear es s. intros es. induction es as [|e es IH]; intros s Hs; cbn [foldl]; [done|]. by apply IH, happens_apart. }
  assert (Hinit : apart None (core (usb_init s).2)).
  { split; [done|done| |]; cbn [fst]; intros i; intros; change (core (usb_init s).2).1 with (replicate 32 (false, 0)) in *; rewrite aget_replicate in * by (unfold USB_MAX_DEVICES in *; lia); done. }
  cbv zeta. specialize (Hap es _ Hinit). set (s' := foldl _ _ _) in *. pose proof (ap_length _ _ Hap) as Hl. rewrite core_length in Hl. split.
  - intros i j Hi Hj Hij Ui Uj. pose proof (core_dev s' i ltac:(lia)) as Ei. pose proof (core_dev s' j ltac:(lia)) as Ej.
    pose proof (ap_range _ _ Hap i Hi ltac:(done)) as Hr. pose proof (ap_distinct _ _ Hap i j Hi Hj ltac:(done) ltac:(done) Hij) as Hd.
    rewrite Ei in Hr, Hd. rewrite Ej in Hd. auto.
  - destruct (pick_address s' Hl (ap_next _ _ Hap)) as (a & n & E & _ & Ha & Hf). exists a, n. split; [done|]. split; [done|].
    rewrite taken_core. apply not_true_iff_false. intros (x & Hx & [Hu Heq%Z.eqb_eq]%andb_true_iff)%existsb_exists.
    rewrite list.Forall_forall in Hf. apply (Hf x); [by apply list_elem_of_In|done|done].
Qed.
End run.

(** ** Behind a hub *)

Section blind.
Context {B K : Type} `{Hcd B} `{Keys K}.
Implicit Types s : usb B K.
(** All but the bus and what the controllers keep with their devices is as before. *)
Definition unnoticed s s' : Prop := exists l b, s' = set_bus b (set_devices l s) /\ map (set_priv 0) l = map (set_priv 0) (g_devices s).
Lemma unnoticed_refl s : unnoticed s s.
Proof. exists (g_devices s), (bus s). by destruct s. Qed.
Lemma unnoticed_trans s1 s2 s3 : unnoticed s1 s2 -> unnoticed s2 s3 -> unnoticed s1 s3.
Proof. intros (l & b & -> & E) (l' & b' & -> & E'). exists l', b'. split; [done|]. by rewrite E', <- E. Qed.
Lemma status_unnoticed i p s : let '(v, s') := usbhub_get_port_status i p s in unnoticed s s' /\ 0 <= v < 2 ^ 32.
Proof.
  unfold usbhub_get_port_status, usb_control_transfer. munfold. unfold on_bus. destruct (control_transfer _ _ _ _ _ _) as [[[r buf] priv] b]. split; [|apply u32_range].
  eexists _, b. split; [done|]. cbn. by apply map_aset_same.
Qed.
(** The change of a connection is bit 16 of the status, which is bit 0 of its upper half; the upper half has no bit 16. *)
Lemma no_change v : 0 <= v < 2 ^ 32 -> bit (Z.shiftr v 16) USB_PORT_FEAT_C_CONNECTION = false.
Proof.
  intros Hv. unfold bit. change (Z.shiftl 1 USB_PORT_FEAT_C_CONNECTION) with (bit_mask 16). rewrite land_bit_mask, negb_involutive by done.
  rewrite Z.shiftr_spec by done. destruct (decide (v = 0)) as [->|]; [done|]. apply Z.bits_above_log2; [lia|]. apply Z.log2_lt_pow2; lia.
Qed.
Lemma port_unnoticed h p s : unnoticed s (hub_port_poll h p s).2.
Proof.
  unfold hub_port_poll. munfold. pose proof (status_unnoticed (hub_dev ((g_hubs s).[h])) p s) as Hst.
  destruct (usbhub_get_port_status _ _ _) as [v s']. destruct Hst as [Hs Hv]. by rewrite no_change.
Qed.
Lemma hubs_unnoticed n h s : unnoticed s (hubs_poll n h s).2.
Proof.
  revert h s. induction n as [|n IH]; intros h s; cbn [hubs_poll]; [apply unnoticed_refl|]. munfold. destruct (_ <? _); [|apply unnoticed_refl].
  pose proof (ffor_inv (fun _ s' => unnoticed s s') (rounds 0 (num_ports ((g_hubs s).[h]))) 0 (hub_port_poll h) s (unnoticed_refl s)) as Hf.
  destruct (ffor _ _ _ s) as [u s'] eqn:E. cbn [snd] in Hf. eapply unnoticed_trans; [apply Hf|apply IH].
  intros j s1 _ Hs1. eapply unnoticed_trans; [exact Hs1|apply port_unnoticed].
Qed.

(** Nothing behind a hub is ever found: whatever the hubs answer, polling
    them changes nothing but the controllers' own state. No device appears, no
    port counts as occupied, and a device taken out of a hub is not released:
    the bit that says that a connection changed is looked for in a half of the
    status word that does not have it. *)
Theorem usbhub_poll_blind s : exists l b, (usbhub_poll s).2 = set_bus b (set_devices l s) /\ map (set_priv 0) l = map (set_priv 0) (g_devices s).
Proof. apply hubs_unnoticed. Qed.
End blind.

(** ** The interface of a configuration *)

(** A descriptor: as long as its first byte says, and long enough for what its second says it is. *)
Definition desc_ok (e : list Z) : Prop :=
  2 <= zlen e /\ e.[0] = zlen e /\ (e.[1] = USB_DESC_INTERFACE -> 9 <= zlen e) /\ (e.[1] = USB_DESC_ENDPOINT -> 7 <= zlen e).
(** The descriptors lie in the buffer one after the other. *)
Fixpoint described (buf : list Z) (p : Z) (ds : list (list Z)) (fin : Z) : Prop :=
  match ds with [] => p = fin | e :: ds => (desc_ok e /\ slice buf p (zlen e) = e) /\ described buf (p + zlen e) ds fin end.
(** An interface in its first setting, and its worth. *)
Definition usable (e : list Z) : Prop := e.[1] = USB_DESC_INTERFACE /\ e.[3] = 0.
Definition worth (e : list Z) : Z := iface_score e 0.
(** The endpoints that belong to the interface before them. *)
Fixpoint own_endpoints (ds : list (list Z)) : list (list Z) :=
  match ds with [] => [] | e :: ds => if e.[1] =? USB_DESC_INTERFACE then [] else if e.[1] =? USB_DESC_ENDPOINT then e :: own_endpoints ds else own_endpoints ds end.
Definition is_in (e : list Z) : Prop := Z.land (e.[2]) USB_EP_DIR_IN <> 0.
#[export] Instance is_in_dec e : Decision (is_in e).
Proof. unfold is_in. apply _. Defined.
Definition ep_type (e : list Z) : Z := Z.land (e.[3]) USB_EP_TYPE_MASK.
(** The first endpoint that delivers data, and the first that takes it. *)
Definition input_endpoint (es : list (list Z)) : Z :=
  match filter (fun e => is_in e /\ (ep_type e = USB_EP_TYPE_INTERRUPT \/ ep_type e = USB_EP_TYPE_BULK)) es with e :: _ => e.[2] | [] => 0 end.
Definition output_endpoint (es : list (list Z)) : Z :=
  match filter (fun e => ~ is_in e /\ ep_type e = USB_EP_TYPE_BULK /\ e.[2] <> 0) es with e :: _ => e.[2] | [] => 0 end.

Section config.
Context (buf : list Z).
Lemma described_byte p e k : 0 <= p -> slice buf p (zlen e) = e -> 0 <= k < zlen e -> buf.[p + k] = e.[k].
Proof.
  intros Hp He Hk. assert (Hlen : p + k < zlen buf).
  { assert (Hl : zlen (slice buf p (zlen e)) = zlen e) by by rewrite He. unfold slice, zlen in *. rewrite length_take, length_drop in Hl. lia. }
  transitivity ((slice buf p (zlen e)).[k]); [by rewrite aget_slice|by rewrite He].
Qed.
Lemma described_word p e k : 0 <= p -> slice buf p (zlen e) = e -> 0 <= k -> k + 2 <= zlen e -> get_le 2 buf (p + k) = get_le 2 e k.
Proof.
  intros Hp He Hk Hl. unfold get_le. f_equal. change (Z.of_nat 2) with 2.
  assert (Hlen : p + zlen e <= zlen buf).
  { assert (Hz : zlen (slice buf p (zlen e)) = zlen e) by by rewrite He. pose proof (zlen_nonneg e). unfold slice, zlen in *. rewrite length_take, length_drop in Hz. lia. }
  apply list_eq_aget; [rewrite !zlen_slice; lia|]. rewrite zlen_slice by lia. intros i Hi. rewrite !aget_slice by lia.
  rewrite <- Z.add_assoc. apply described_byte; [done|done|lia].
Qed.
(** The interface taken: the first of the best. *)
Lemma best_iface_spec fuel ds fin p sc best : 0 <= p -> described buf p ds fin -> (length ds <= fuel)%nat ->
  let r := best_iface fuel buf fin p sc best in
  (r = best /\ Forall (fun e => usable e -> worth e <= sc) ds) \/
  exists pre e post, ds = pre ++ e :: post /\ r = Some (p + zlen (concat pre)) /\ usable e /\ sc < worth e /\
    Forall (fun e' => usable e' -> worth e' < worth e) pre /\ Forall (fun e' => usable e' -> worth e' <= worth e) post.
Proof.
  revert ds p sc best. induction fuel as [|fuel IH]; intros ds p sc best Hp Hd Hf.
  { destruct ds; [|cbn in Hf; lia]. left. by split. }
  destruct ds as [|e ds]; cbn [described] in Hd.
  { left. subst p. cbn [best_iface]. replace (fin + 2 <=? fin) with false by lia. by split. }
  destruct Hd as [[(H2 & Hlen & Hi & _) He] Hd]. cbn [best_iface length] in *. pose proof (fun k => described_byte p e k Hp He) as Hb.
  assert (Hfin : forall ds p, described buf p ds fin -> p <= fin).
  { clear. intros ds. induction ds as [|e ds IH]; intros p; cbn [described]; [lia|]. intros [[[H2 _] _] Hd]. apply IH in Hd. lia. }
  pose proof (Hfin _ _ Hd) as Hle. rewrite (Hb 1), <- (Z.add_0_r p), (Hb 0), Z.add_0_r by lia. replace ((p + 2 <=? fin) && negb (e.[0] =? 0)) with true by lia. rewrite Hlen.
  assert (Hgo : forall sc' best', let r := best_iface fuel buf fin (p + zlen e) sc' best' in
     (r = best' /\ Forall (fun e => usable e -> worth e <= sc') ds) \/
     exists pre d post, ds = pre ++ d :: post /\ r = Some (p + zlen (concat (e :: pre))) /\ usable d /\ sc' < worth d /\
       Forall (fun e' => usable e' -> worth e' < worth d) pre /\ Forall (fun e' => usable e' -> worth e' <= worth d) post).
  { intros sc' best'. destruct (IH ds (p + zlen e) sc' best') as [Hl|(pre & d & post & E1 & E2 & E3)]; [lia|done|lia|by left|right].
    exists pre, d, post. split; [done|]. split; [|done]. rewrite E2. cbn [concat]. rewrite zlen_app. f_equal. lia. }
  destruct (negb (e.[1] =? USB_DESC_INTERFACE) || negb (buf.[p + 3] =? 0)) eqn:Eu.
  - assert (Hnu : ~ usable e).
    { intros [E1 E3]. rewrite (Hb 3) in Eu by (specialize (Hi E1); lia). rewrite E1, E3 in Eu. discriminate. }
    destruct (Hgo sc best) as [[-> HF]|(pre & d & post & -> & -> & Hu & Hw & H1 & H3)]; [left|right].
    + split; [done|]. by constructor.
    + exists (e :: pre), d, post. refine (conj _ (conj _ (conj _ (conj _ (conj _ _))))); [done|done|done|done|by constructor|done].
  - assert (He1 : e.[1] = USB_DESC_INTERFACE) by lia. specialize (Hi He1). rewrite (Hb 3) in Eu by lia. assert (Hu : usable e) by (split; lia).
    assert (Hs : iface_score buf p = worth e) by (unfold worth, iface_score; rewrite !Hb, !Z.add_0_l by lia; done). rewrite Hs. cbv zeta.
    destruct (sc <? worth e) eqn:Es.
    + right. destruct (Hgo (worth e) (Some p)) as [[-> HF]|(pre & d & post & -> & -> & Hud & Hw & H1 & H3)].
      * exists [], e, ds. refine (conj _ (conj _ (conj _ (conj _ (conj _ _))))); [done|by rewrite Z.add_0_r|done|lia|constructor|done].
      * exists (e :: pre), d, post. refine (conj _ (conj _ (conj _ (conj _ (conj _ _))))); [done|done|done|lia|by constructor|done].
    + destruct (Hgo sc best) as [[-> HF]|(pre & d & post & -> & -> & Hud & Hw & H1 & H3)]; [left|right].
      * split; [done|]. constructor; [intros; lia|done].
      * exists (e :: pre), d, post. refine (conj _ (conj _ (conj _ (conj _ (conj _ _))))); [done|done|done|done|constructor; [intros; lia|done]|done].
Qed.
Lemma described_le ds p fin : described buf p ds fin -> p <= fin.
Proof. revert p. induction ds as [|e ds IH]; intros p; cbn [described]; [lia|]. intros [[[H2 _] _] Hd]. apply IH in Hd. lia. Qed.
Lemma described_app ds ds' p fin : described buf p (ds ++ ds') fin -> described buf (p + zlen (concat ds)) ds' fin.
Proof.
  revert p. induction ds as [|e ds IH]; intros p; cbn [described app concat]; [by rewrite Z.add_0_r|].
  intros [_ Hd]. rewrite zlen_app, Z.add_assoc. by apply IH.
Qed.
Lemma take_endpoint_here p e d : 0 <= p -> slice buf p (zlen e) = e -> 7 <= zlen e -> take_endpoint buf p d = take_endpoint e 0 d.
Proof.
  intros Hp He Hl. unfold take_endpoint. rewrite (described_word p e 4) by (done || lia).
  rewrite !(described_byte p e) by (done || lia). by rewrite !Z.add_0_l.
Qed.
Lemma endpoints_spec fuel ds fin p d : 0 <= p -> described buf p ds fin -> (length ds <= fuel)%nat ->
  endpoints fuel buf fin p d = foldl (fun d e => take_endpoint e 0 d) d (own_endpoints ds).
Proof.
  revert ds p d. induction fuel as [|fuel IH]; intros ds p d Hp Hd Hf; (destruct ds as [|e ds]; [|cbn [length] in Hf]); try lia; cbn [endpoints own_endpoints foldl].
  { done. }
  { cbn in Hd. subst p. by replace (fin + 2 <=? fin) with false by lia. }
  destruct Hd as [[(H2 & Hlen & _ & He7) He] Hd]. pose proof (fun k => described_byte p e k Hp He) as Hb. pose proof (described_le _ _ _ Hd) as Hle.
  rewrite (Hb 1), <- (Z.add_0_r p), (Hb 0), Z.add_0_r by lia. replace ((p + 2 <=? fin) && negb (e.[0] =? 0)) with true by lia. rewrite Hlen.
  destruct (e.[1] =? USB_DESC_INTERFACE); [done|]. rewrite (IH ds) by (done || lia). destruct (e.[1] =? USB_DESC_ENDPOINT) eqn:E5; [|done].
  cbn [foldl]. rewrite (take_endpoint_here p e) by (done || (apply He7; lia)). done.
Qed.
End config.

(** What the endpoints leave in the device. *)
Lemma take_endpoint_in e d : ep_in_addr (take_endpoint e 0 d) =
  if (ep_in_addr d =? 0) && bool_decide (is_in e /\ (ep_type e = USB_EP_TYPE_INTERRUPT \/ ep_type e = USB_EP_TYPE_BULK)) then e.[2] else ep_in_addr d.
Proof.
  unfold take_endpoint. rewrite !Z.add_0_l. fold (ep_type e). case_bool_decide as Hc; unfold is_in in Hc;
  destruct (Z.eqb_spec (ep_in_addr d) 0), (Z.eqb_spec (ep_type e) USB_EP_TYPE_INTERRUPT), (Z.eqb_spec (ep_type e) USB_EP_TYPE_BULK), (Z.eqb_spec (Z.land (e.[2]) USB_EP_DIR_IN) 0);
  cbn [andb negb]; try (exfalso; tauto); by repeat (case_match; try done).
Qed.
Lemma take_endpoint_out e d : ep_out_addr (take_endpoint e 0 d) =
  if (ep_out_addr d =? 0) && bool_decide (~ is_in e /\ ep_type e = USB_EP_TYPE_BULK) then e.[2] else ep_out_addr d.
Proof.
  unfold take_endpoint. rewrite !Z.add_0_l. fold (ep_type e). case_bool_decide as Hc; unfold is_in in Hc;
  destruct (Z.eqb_spec (ep_in_addr d) 0), (Z.eqb_spec (ep_type e) USB_EP_TYPE_INTERRUPT), (Z.eqb_spec (ep_type e) USB_EP_TYPE_BULK), (Z.eqb_spec (Z.land (e.[2]) USB_EP_DIR_IN) 0);
  cbn [andb negb]; try (exfalso; tauto); cbn [ep_out_addr set_ep_in]; destruct (Z.eqb_spec (ep_out_addr d) 0); cbn [andb]; try done; try (exfalso; tauto).
Qed.
Abbreviation take_endpoints := (foldl (fun d e => take_endpoint e 0 d)).
Lemma take_endpoints_in es d : ep_in_addr (take_endpoints d es) = if ep_in_addr d =? 0 then input_endpoint es else ep_in_addr d.
Proof.
  revert d. induction es as [|e es IH]; intros d; cbn [foldl]; [unfold input_endpoint; rewrite filter_nil; destruct (Z.eqb_spec (ep_in_addr d) 0); done|].
  rewrite IH, take_endpoint_in. unfold input_endpoint. rewrite filter_cons. destruct (Z.eqb_spec (ep_in_addr d) 0) as [E|E]; cbn [andb]; [|by rewrite (proj2 (Z.eqb_neq _ _) E)].
  case_bool_decide as Hc; [rewrite decide_True by done|rewrite decide_False by done; by rewrite E].
  destruct Hc as [Hin _]. rewrite (proj2 (Z.eqb_neq _ _)); [done|]. intros E2. apply Hin. by rewrite E2, Z.land_0_l.
Qed.
Lemma take_endpoints_out es d : ep_out_addr (take_endpoints d es) = if ep_out_addr d =? 0 then output_endpoint es else ep_out_addr d.
Proof.
  revert d. induction es as [|e es IH]; intros d; cbn [foldl]; [unfold output_endpoint; rewrite filter_nil; destruct (Z.eqb_spec (ep_out_addr d) 0); done|].
  rewrite IH, take_endpoint_out. unfold output_endpoint. rewrite filter_cons. destruct (Z.eqb_spec (ep_out_addr d) 0) as [E|E]; cbn [andb]; [|by rewrite (proj2 (Z.eqb_neq _ _) E)].
  case_bool_decide as Hc; [|rewrite decide_False by tauto; by rewrite E].
  destruct (Z.eqb_spec (e.[2]) 0); [rewrite decide_False by tauto|rewrite decide_True by tauto]; done.
Qed.
(** The interface stays as it was chosen. *)
Lemma take_endpoints_iface es d : iface_number (take_endpoints d es) = iface_number d /\ iface_class (take_endpoints d es) = iface_class d /\
  iface_subclass (take_endpoints d es) = iface_subclass d /\ iface_protocol (take_endpoints d es) = iface_protocol d.
Proof.
  revert d. induction es as [|e es IH]; intros d; cbn [foldl]; [done|]. destruct (IH (take_endpoint e 0 d)) as (-> & -> & -> & ->).
  unfold take_endpoint. by repeat case_match.
Qed.
Lemma described_concat ds pre junk : Forall desc_ok ds -> described (pre ++ concat ds ++ junk) (zlen pre) ds (zlen pre + zlen (concat ds)).
Proof.
  revert pre. induction ds as [|e ds IH]; intros pre HF; cbn [described concat]; [change (zlen []) with 0; lia|].
  apply list.Forall_cons in HF as [He HF]. split; [split; [done|]|].
  - rewrite slice_past, Z.sub_diag by lia. rewrite <- app_assoc, slice_app_l by lia. apply slice_all.
  - replace (zlen pre + zlen (e ++ concat ds)) with (zlen (pre ++ e) + zlen (concat ds)) by (rewrite !zlen_app; lia).
    rewrite <- zlen_app. replace (pre ++ (e ++ concat ds) ++ junk) with ((pre ++ e) ++ concat ds ++ junk) by by rewrite <- !app_assoc. by apply IH.
Qed.
Lemma length_concat_desc ds : Forall desc_ok ds -> Z.of_nat (length ds) <= zlen (concat ds).
Proof. induction 1 as [|e ds [H2 _] _ IH]; cbn [concat length]; [change (zlen []) with 0; lia|]. rewrite zlen_app. lia. Qed.

(** C28 - The interface used is the best of those described: from a
    configuration that is a sequence of well-formed descriptors the device is
    given the number and class of the first interface, in its first setting,
    that no other exceeds in worth (a boot keyboard before a boot mouse, before
    any other input device or hub, before the rest), and as endpoints the first
    input and the first bulk output of that interface, none of another's; when
    there is no interface the device stays as it is. Whatever lies behind the
    descriptors in the buffer has no part in it. *)
Theorem usb_parse_config_best ds junk d : Forall desc_ok ds -> ep_in_addr d = 0 -> ep_out_addr d = 0 ->
  let d' := usb_parse_config (concat ds ++ junk) (zlen (concat ds)) d in
  (Forall (fun e => ~ usable e) ds /\ d' = d) \/
  exists pre e post, ds = pre ++ e :: post /\ usable e /\
    Forall (fun e' => usable e' -> worth e' < worth e) pre /\ Forall (fun e' => usable e' -> worth e' <= worth e) post /\
    (iface_number d', iface_class d', iface_subclass d', iface_protocol d') = (e.[2], e.[5], e.[6], e.[7]) /\
    ep_in_addr d' = input_endpoint (own_endpoints post) /\ ep_out_addr d' = output_endpoint (own_endpoints post).
Proof.
  intros HF Hin Hout. pose proof (described_concat ds [] junk HF) as Hd. change (zlen []) with 0 in Hd. cbn [app] in Hd. rewrite Z.add_0_l in Hd.
  pose proof (length_concat_desc ds HF) as Hlen. unfold usb_parse_config.
  destruct (best_iface_spec _ (Z.to_nat (zlen (concat ds))) ds _ 0 0 None ltac:(lia) Hd ltac:(lia)) as [[-> Hnone]|(pre & e & post & Hds & -> & Hu & _ & Hpre & Hpost)].
  - left. split; [|done]. eapply list.Forall_impl; [exact Hnone|]. intros e Hw Hu. specialize (Hw Hu). unfold worth, iface_score in Hw. repeat case_match; lia.
  - right. exists pre, e, post. split; [done|]. rewrite Z.add_0_l. rewrite Hds in Hd. apply (described_app _ pre) in Hd. rewrite Z.add_0_l, <- Hds in Hd.
    destruct Hd as [[He Hs] Hd]. pose proof (zlen_nonneg (concat pre)) as Hp. pose proof He as (_ & H0 & H9 & _). specialize (H9 (proj1 Hu)).
    pose proof (fun k => described_byte _ _ e k Hp Hs) as Hb. pose proof (Hb 0 ltac:(lia)) as Hb0. rewrite Z.add_0_r in Hb0.
    rewrite (Hb 2), (Hb 5), (Hb 6), (Hb 7), Hb0, H0 by lia. rewrite (endpoints_spec _ _ post (zlen (concat ds))); [|pose proof (zlen_nonneg e); lia|done|].
    2:{ rewrite Hds, length_app in Hlen at 1. cbn [length] in Hlen. lia. }
    rewrite take_endpoints_in, take_endpoints_out. destruct (take_endpoints_iface (own_endpoints post) (set_iface (e.[2]) (e.[5]) (e.[6]) (e.[7]) d)) as (-> & -> & -> & ->).
    cbn [ep_in_addr ep_out_addr set_iface iface_number iface_class iface_subclass iface_protocol]. rewrite Hin, Hout. done.
Qed.

(** ** A bus with keyboards *)

(** A configuration with a mouse and a boot keyboard, as a receiver of both has. *)
Definition descriptors_demo : list (list Z) := [[9; 2; 59; 0; 2; 1; 0; 0xA0; 50];
  [9; 4; 0; 0; 1; 3; 1; 2; 0]; [9; 0x21; 0x11; 1; 0; 1; 0x22; 52; 0]; [7; 5; 0x81; 3; 4; 0; 10];
  [9; 4; 1; 0; 1; 3; 1; 1; 0]; [9; 0x21; 0x11; 1; 0; 1; 0x22; 63; 0]; [7; 5; 0x82; 3; 8; 0; 10]].
Lemma usb_parse_config_best_witness : Forall desc_ok descriptors_demo /\
  (iface_protocol (usb_parse_config (concat descriptors_demo ++ [7; 7]) 59 no_device) = HID_PROTO_KEYBOARD) /\
  let d' := usb_parse_config (concat descriptors_demo ++ [7; 7]) (zlen (concat descriptors_demo)) no_device in
  (Forall (fun e => ~ usable e) descriptors_demo /\ d' = no_device) \/
  exists pre e post, descriptors_demo = pre ++ e :: post /\ usable e /\
    Forall (fun e' => usable e' -> worth e' < worth e) pre /\ Forall (fun e' => usable e' -> worth e' <= worth e) post /\
    (iface_number d', iface_class d', iface_subclass d', iface_protocol d') = (e.[2], e.[5], e.[6], e.[7]) /\
    ep_in_addr d' = input_endpoint (own_endpoints post) /\ ep_out_addr d' = output_endpoint (own_endpoints post).
Proof.
  assert (HF : Forall desc_ok descriptors_demo) by (unfold descriptors_demo, desc_ok; repeat (apply list.Forall_cons; split; [repeat split; vm_compute; congruence|]); done).
  split; [done|]. split; [vm_compute; reflexivity|]. apply (usb_parse_config_best descriptors_demo [7; 7] no_device HF); reflexivity.
Defined.
#[local] Instance keyboards : Hcd unit := {|
  control_transfer h i d setup buf b :=
    let answer l := (0, take (length buf) l ++ drop (length l) buf, 0, b) in
    if (bRequest setup =? 6) && (wValue setup =? 0x100) then answer [18; 1; 0; 2; 0; 0; 0; 8; 0x6D; 4; 0x52; 0xC5; 0; 0; 1; 2; 0; 1]
    else if (bRequest setup =? 6) && (wValue setup =? 0x200) then answer (concat descriptors_demo) else (0, buf, 0, b);
  bulk_transfer h i d ep buf dir t b := (-1, buf, t, 0, b);
  setup_interrupt_in h i d ep m iv cb b := (0, 0, b);
  release_device h i d b := (tt, b);
  has_bulk h := false; has_release h := true;
  stack_bytes n b := (replicate (Z.to_nat n) 0xCC, b);
|}.
#[local] Instance no_keys : Keys unit := {| terminal_key c k := k; stdin_feed c k := k |}.
Definition usb_demo : usb unit unit := mk_usb (replicate 32 no_device) 1 (replicate 8 inhabitant) 0 None (replicate 4 inhabitant) None (mk_kbd (replicate 6 0) false tt) mouse_boot tt.
(** Two are plugged in, the first is pulled out, a third comes: it does not get the address of the second. *)
Example plugged : let s := foldl (fun s e => (happens 800 600 e s).2) usb_demo [Plug 1 0 0 0; Plug 1 0 1 0; Unplug 1 0; Plug 1 0 2 1] in
  (map address (filter (fun d => Is_true (in_use d)) (g_devices s)), g_active_kbd_dev s) = ([3; 2], Some 0).
Proof. vm_compute. reflexivity. Qed.
End UsbProps.
