(* ===== verification/Scriber.v ===== *)
(** The text editor (src/app.c): the text with its cursor, the menu, the name
    of the file, rows and scrolling, saving and leaving.

    The screen is that of [Vesa], the keyboard goes through [Focus]. Storing
    the file and the terminal's prompt are the class [Desk]. *)
From S2P Require Import Prelude CString Focus Pmm Mem Vesa Terminal TermEdit.
From stdpp Require Import base list numbers.
From Stdlib Require Import ZArith Lia.
Import CString Focus.
Open Scope Z_scope.

(** [K] names key handlers and the handlers of buttons. *)
Class Desk (W K : Type) := {
  vfs_write_file : list Z -> list Z -> list Z -> Z -> st W Z;
  terminal_show_prompt : st (Vesa.vesa K * W) unit;
}.

Module Scriber.

Definition SCRIBER_BUF_SIZE : Z := 16384.
Definition SCRIBER_FNAME_SIZE : Z := 32.
Definition SCRIBER_MODE_EDIT : Z := 0.
Definition SCRIBER_MODE_MENU : Z := 1.
Definition SCRIBER_MODE_FNAME : Z := 2.
Definition SCRIBER_BAR_H : Z := 16.
Definition SCRIBER_MAX_ROWS : Z := 600.

Record scriber := mk_scriber {
  scriber_buf : list Z; scriber_len : Z; scriber_pos : Z; scriber_mode : Z; scriber_fname : list Z; scriber_fname_len : Z;
  scriber_row_starts : list Z; scriber_row_count : Z; scriber_top_row : Z; scriber_focus_id : Z;
}.
Definition scriber_boot : scriber := mk_scriber (replicate (Z.to_nat 16384) 0) 0 0 SCRIBER_MODE_EDIT (replicate 32 0) 0 (replicate 600 0) 0 0 (-1).
Definition set_text (b : list Z) (n p : Z) (d : scriber) := mk_scriber b n p (scriber_mode d) (scriber_fname d) (scriber_fname_len d) (scriber_row_starts d) (scriber_row_count d) (scriber_top_row d) (scriber_focus_id d).
Definition set_pos (p : Z) (d : scriber) := set_text (scriber_buf d) (scriber_len d) p d.
Definition set_mode (m : Z) (d : scriber) := mk_scriber (scriber_buf d) (scriber_len d) (scriber_pos d) m (scriber_fname d) (scriber_fname_len d) (scriber_row_starts d) (scriber_row_count d) (scriber_top_row d) (scriber_focus_id d).
Definition set_fname (f : list Z) (n : Z) (d : scriber) := mk_scriber (scriber_buf d) (scriber_len d) (scriber_pos d) (scriber_mode d) f n (scriber_row_starts d) (scriber_row_count d) (scriber_top_row d) (scriber_focus_id d).
Definition set_rows (r : list Z) (n : Z) (d : scriber) := mk_scriber (scriber_buf d) (scriber_len d) (scriber_pos d) (scriber_mode d) (scriber_fname d) (scriber_fname_len d) r n (scriber_top_row d) (scriber_focus_id d).
Definition set_top (t : Z) (d : scriber) := mk_scriber (scriber_buf d) (scriber_len d) (scriber_pos d) (scriber_mode d) (scriber_fname d) (scriber_fname_len d) (scriber_row_starts d) (scriber_row_count d) t (scriber_focus_id d).
Definition set_focus_id (i : Z) (d : scriber) := mk_scriber (scriber_buf d) (scriber_len d) (scriber_pos d) (scriber_mode d) (scriber_fname d) (scriber_fname_len d) (scriber_row_starts d) (scriber_row_count d) (scriber_top_row d) i.

(** ** Moving and editing *)

Fixpoint line_start_loop (n : nat) (buf : list Z) (idx : Z) : Z :=
  match n with O => idx | S n => if (0 <? idx) && negb (buf.[idx - 1] =? 10) then line_start_loop n buf (idx - 1) else idx end.
Definition scriber_line_start (d : scriber) (idx : Z) : Z := line_start_loop (Z.to_nat idx) (scriber_buf d) idx.
Fixpoint line_end_loop (n : nat) (buf : list Z) (len idx : Z) : Z :=
  match n with O => idx | S n => if (idx <? len) && negb (buf.[idx] =? 10) then line_end_loop n buf len (idx + 1) else idx end.
Definition scriber_line_end (d : scriber) (idx : Z) : Z := line_end_loop (Z.to_nat (scriber_len d - idx)) (scriber_buf d) (scriber_len d) idx.
Definition scriber_move_up : st scriber unit :=
  d ← gets (fun d => d);
  let ls := scriber_line_start d (scriber_pos d) in
  if ls =? 0 then mret tt else
  let col := scriber_pos d - ls in
  let prev_end := ls - 1 in
  let prev_start := scriber_line_start d prev_end in
  let prev_len := prev_end - prev_start in
  modify (set_pos (prev_start + (if col <? prev_len then col else prev_len))).
Definition scriber_move_down : st scriber unit :=
  d ← gets (fun d => d);
  let ls := scriber_line_start d (scriber_pos d) in
  let le := scriber_line_end d (scriber_pos d) in
  if scriber_len d <=? le then mret tt else
  let col := scriber_pos d - ls in
  let next_start := le + 1 in
  let next_end := scriber_line_end d next_start in
  let next_len := next_end - next_start in
  modify (set_pos (next_start + (if col <? next_len then col else next_len))).
Definition on_buf (f : list Z -> list Z) : st scriber unit := modify (fun d => set_text (f (scriber_buf d)) (scriber_len d) (scriber_pos d) d).
Definition scriber_insert (c : Z) : st scriber unit :=
  d ← gets (fun d => d);
  let len := scriber_len d in
  let pos := scriber_pos d in
  if SCRIBER_BUF_SIZE - 1 <=? len then mret tt else
  ffor (rounds pos len) 0 (fun j => let i := len - j in on_buf (fun b => b.[i := b.[i - 1]]));;
  on_buf (fun b => b.[pos := c]);;
  modify (fun d => set_text (scriber_buf d) (len + 1) (pos + 1) d).
Definition scriber_backspace : st scriber unit :=
  d ← gets (fun d => d);
  let len := scriber_len d in
  let pos := scriber_pos d in
  if pos =? 0 then mret tt else
  ffor (rounds (pos - 1) (len - 1)) (pos - 1) (fun i => on_buf (fun b => b.[i := b.[i + 1]]));;
  modify (fun d => set_text (scriber_buf d) (len - 1) (pos - 1) d).

(** ** Rows on the screen *)

Definition add_row (start : Z) (d : scriber) : scriber :=
  if scriber_row_count d <? SCRIBER_MAX_ROWS then set_rows ((scriber_row_starts d).[scriber_row_count d := start]) (scriber_row_count d + 1) d else d.
Fixpoint build_rows_loop (width : Z) (n : nat) (i x : Z) (d : scriber) : scriber :=
  match n with
  | O => d
  | S n =>
      if (scriber_buf d).[i] =? 10 then build_rows_loop width n (i + 1) 1 (add_row (i + 1) d)
      else if width - 8 <? x + 8 then build_rows_loop width n (i + 1) 1 (add_row (i + 1) d)
      else build_rows_loop width n (i + 1) (x + 8) d
  end.
Definition scriber_build_rows (width : Z) (d : scriber) : scriber :=
  build_rows_loop width (Z.to_nat (scriber_len d)) 0 1 (set_rows ((scriber_row_starts d).[0 := 0]) 1 d).
Fixpoint row_of_loop (starts : list Z) (idx : Z) (n : nat) (i row : Z) : Z :=
  match n with O => row | S n => if starts.[i] <=? idx then row_of_loop starts idx n (i + 1) i else row end.
Definition scriber_row_of (d : scriber) (idx : Z) : Z := row_of_loop (scriber_row_starts d) idx (rounds 0 (scriber_row_count d)) 0 0.
Definition scriber_adjust_scroll (height : Z) (d : scriber) : scriber :=
  let view_h := height - SCRIBER_BAR_H in
  let max_rows := Z.quot view_h 8 in
  let cur_row := scriber_row_of d (scriber_pos d) in
  let top := scriber_top_row d in
  let top := if cur_row <? top then cur_row else top in
  let top := if top + max_rows - 1 <? cur_row then cur_row - max_rows + 1 else top in
  let top := if top <? 0 then 0 else top in
  let top := if scriber_row_count d - 1 <? top then scriber_row_count d - 1 else top in
  set_top top d.

Section screen.
Context {K W : Type} {HW : Desk W K} (font8x8_basic : Z -> Z -> Z).
Abbreviation V := (st (Vesa.vesa K)).
Fixpoint scriber_draw_text (s : list Z) (x y color : Z) : V unit :=
  match s with
  | [] => mret tt
  | c :: s => if c =? 0 then mret tt else Vesa.vesa_draw_char_34 font8x8_basic c x y color 0;; scriber_draw_text s (x + 8) y color
  end.
(** The text from [i] on; where the cursor goes. *)
Fixpoint redraw_loop (buf : list Z) (len pos width view_h : Z) (n : nat) (i x y cur_x cur_y : Z) : V (Z * Z) :=
  match n with
  | O => mret (cur_x, cur_y)
  | S n =>
      let '(cur_x, cur_y) := if i =? pos then (x, y) else (cur_x, cur_y) in
      if i =? len then mret (cur_x, cur_y) else
      let c := buf.[i] in
      if c =? 10 then redraw_loop buf len pos width view_h n (i + 1) 1 (y + 8) cur_x cur_y else
      Vesa.vesa_draw_char_34 font8x8_basic c x y 0xFFFFFF 0;;
      let '(x, y) := if width - 8 <? x + 8 then (1, y + 8) else (x + 8, y) in
      if view_h - 8 <? y then mret (cur_x, cur_y) else redraw_loop buf len pos width view_h n (i + 1) x y cur_x cur_y
  end.

(** The editor, the screen, the holders of the keyboard and the rest. *)
Record desk := mk_desk { doc : scriber; scr : Vesa.vesa K; keys : focus K; env : W }.
#[local] Abbreviation M := (st desk).
Definition on_doc (f : scriber -> scriber) : M unit := modify (fun k => mk_desk (f (doc k)) (scr k) (keys k) (env k)).
Definition run_doc {R} (m : st scriber R) : M R := fun k => let (r, d) := m (doc k) in (r, mk_desk d (scr k) (keys k) (env k)).
Definition on_scr {R} (m : V R) : M R := fun k => let (r, v) := m (scr k) in (r, mk_desk (doc k) v (keys k) (env k)).
Definition on_keys {R} (m : st (focus K) R) : M R := fun k => let (r, f) := m (keys k) in (r, mk_desk (doc k) (scr k) f (env k)).
Definition on_env {R} (m : st W R) : M R := fun k => let (r, w) := m (env k) in (r, mk_desk (doc k) (scr k) (keys k) w).
Definition on_term {R} (m : st (Vesa.vesa K * W) R) : M R := fun k => let '(r, (v, w)) := m (scr k, env k) in (r, mk_desk (doc k) v (keys k) w).

Definition scriber_redraw : M unit :=
  k ← gets (fun k => k);
  let width := Vesa.Wwidth (scr k) in
  let height := Vesa.Hheight (scr k) in
  on_doc (scriber_build_rows width);;
  on_doc (scriber_adjust_scroll height);;
  let view_h := height - SCRIBER_BAR_H in
  on_scr (Vesa.vesa_draw_rec 0 0 width view_h 0);;
  d ← gets doc;
  let start := (scriber_row_starts d).[scriber_top_row d] in
  '(cur_x, cur_y) ← on_scr (redraw_loop (scriber_buf d) (scriber_len d) (scriber_pos d) width view_h (rounds start (scriber_len d + 1)) start 1 1 1 1);
  on_scr (Vesa.vesa_draw_rec cur_x (cur_y + 1) 3 7 0xFFFF00).
(** "ESC:resume  s:save  d:discard", "filename (enter to save, esc to cancel): ", "scriber", "scb" *)
Definition menu_text : list Z := [69; 83; 67; 58; 114; 101; 115; 117; 109; 101; 32; 32; 115; 58; 115; 97; 118; 101; 32; 32; 100; 58; 100; 105; 115; 99; 97; 114; 100].
Definition fname_text : list Z := [102; 105; 108; 101; 110; 97; 109; 101; 32; 40; 101; 110; 116; 101; 114; 32; 116; 111; 32; 115; 97; 118; 101; 44; 32; 101; 115; 99; 32; 116; 111; 32; 99; 97; 110; 99; 101; 108; 41; 58; 32].
Definition scriber_name : list Z := [115; 99; 114; 105; 98; 101; 114].
Definition scb : list Z := [115; 99; 98].
Definition draw_bar (text : list Z) : M unit :=
  v ← gets scr;
  let bar_y := Vesa.Hheight v - SCRIBER_BAR_H in
  on_scr (Vesa.vesa_draw_rec 0 bar_y (Vesa.Wwidth v) SCRIBER_BAR_H 0x202020);;
  on_scr (scriber_draw_text text 8 (bar_y + 4) 0xFFFF00).
Definition scriber_draw_menu : M unit := draw_bar menu_text.
Definition scriber_draw_fname : M unit :=
  draw_bar fname_text;;
  k ← gets (fun k => k);
  on_scr (scriber_draw_text (take (Z.to_nat (scriber_fname_len (doc k))) (scriber_fname (doc k))) (8 + 42 * 8) (Vesa.Hheight (scr k) - SCRIBER_BAR_H + 4) 0xFFFFFF).
Definition scriber_exit : M unit :=
  on_doc (fun d => set_top 0 (set_mode SCRIBER_MODE_EDIT (set_fname (scriber_fname d) 0 (set_text (scriber_buf d) 0 0 d))));;
  on_scr Vesa.screen_appmode;;
  on_keys focus_pop;;
  on_scr (Vesa.vesa_clear 0);;
  on_scr (modify (Vesa.set_pos 0 0));;
  on_term terminal_show_prompt.
Definition scriber_save : M unit :=
  d ← gets doc;
  if scriber_fname_len d =? 0 then on_doc (set_mode SCRIBER_MODE_MENU);; scriber_draw_menu else
  on_doc (fun d => set_fname ((scriber_fname d).[scriber_fname_len d := 0]) (scriber_fname_len d) d);;
  d ← gets doc;
  _ ← on_env (vfs_write_file (cstr (scriber_fname d)) (slice (scriber_buf d) 0 (scriber_len d)) scb 0);
  scriber_exit.
(** [self]: the handler [scriber_key]. *)
Definition app_scriber (self : K) : M unit :=
  on_doc (fun d => set_top 0 (set_mode SCRIBER_MODE_EDIT (set_fname (scriber_fname d) 0 (set_text (scriber_buf d) 0 0 d))));;
  d ← gets doc;
  when (scriber_focus_id d <? 0) (i ← on_keys (focus_register self 0 scriber_name); on_doc (set_focus_id i));;
  on_scr (Vesa.vesa_clear 0);;
  on_scr Vesa.screen_appmode;;
  d ← gets doc;
  on_keys (focus_push (scriber_focus_id d));;
  scriber_redraw.
(** [unknown]: the log line. *)
Definition app (self : K) (unknown : M unit) (app_name : list Z) : M unit := if strcmp app_name scriber_name =? 0 then app_scriber self else unknown.

Definition menu_key (c : Z) : M unit :=
  if c =? Terminal.ARROW_ESC then on_doc (set_mode SCRIBER_MODE_EDIT);; scriber_redraw
  else if c =? 115 then on_doc (fun d => set_fname (scriber_fname d) 0 (set_mode SCRIBER_MODE_FNAME d));; scriber_draw_fname
  else if c =? 100 then scriber_exit
  else mret tt.
Definition fname_key (c : Z) : M unit :=
  if c =? Terminal.ARROW_ESC then on_doc (set_mode SCRIBER_MODE_MENU);; scriber_draw_menu
  else if c =? 10 then scriber_save
  else if c =? 8 then on_doc (fun d => if 0 <? scriber_fname_len d then set_fname (scriber_fname d) (scriber_fname_len d - 1) d else d);; scriber_draw_fname
  else d ← gets doc;
    when ((32 <=? c) && (c <? 127) && (scriber_fname_len d <? SCRIBER_FNAME_SIZE - 1))
      (on_doc (fun d => set_fname ((scriber_fname d).[scriber_fname_len d := c]) (scriber_fname_len d + 1) d);; scriber_draw_fname).
Definition edit_key (c : Z) : M unit :=
  if c =? 0 then mret tt
  else if c =? Terminal.ARROW_UP then run_doc scriber_move_up;; scriber_redraw
  else if c =? Terminal.ARROW_DOWN then run_doc scriber_move_down;; scriber_redraw
  else if c =? Terminal.ARROW_LEFT then on_doc (fun d => if 0 <? scriber_pos d then set_pos (scriber_pos d - 1) d else d);; scriber_redraw
  else if c =? Terminal.ARROW_RIGHT then on_doc (fun d => if scriber_pos d <? scriber_len d then set_pos (scriber_pos d + 1) d else d);; scriber_redraw
  else if c =? Terminal.ARROW_ESC then on_doc (set_mode SCRIBER_MODE_MENU);; scriber_draw_menu
  else if c =? 8 then run_doc scriber_backspace;; scriber_redraw
  else run_doc (scriber_insert c);; scriber_redraw.
Definition scriber_key (c : Z) : M unit :=
  d ← gets doc;
  if scriber_mode d =? SCRIBER_MODE_MENU then menu_key c
  else if scriber_mode d =? SCRIBER_MODE_FNAME then fname_key c
  else edit_key c.
End screen.
Arguments desk : clear implicits.
End Scriber.

(** What the keys mean: the text as lines with a cursor in one of them. *)
Import Scriber.

Module ScriberProps.

Record page := mk_page { above : list (list Z); lft : list Z; rgt : list Z; below : list (list Z) }.
(** The lines above, the nearest first; the lines below. *)
Fixpoint lines_before (a : list (list Z)) : list Z := match a with [] => [] | l :: a => lines_before a ++ l ++ [10] end.
Fixpoint lines_after (b : list (list Z)) : list Z := match b with [] => [] | l :: b => 10 :: l ++ lines_after b end.
Definition before (p : page) : list Z := lines_before (above p) ++ lft p.
Definition after (p : page) : list Z := rgt p ++ lines_after (below p).
Definition text (p : page) : list Z := before p ++ after p.
Definition line_ok (l : list Z) : Prop := Forall (fun c => c <> 10) l.
Record page_ok (p : page) : Prop := { ok_above : Forall line_ok (above p); ok_left : line_ok (lft p); ok_right : line_ok (rgt p); ok_below : Forall line_ok (below p) }.
Definition empty_page : page := mk_page [] [] [] [].

Inductive view := Editing | Menu | Naming (name : list Z).
(** What a key does beyond the editor: nothing, leaving it, storing the text first. *)
Inductive effect := Stay | Leave | Save (name contents : list Z).
Definition room (p : page) : bool := zlen (text p) <? SCRIBER_BUF_SIZE - 1.
Definition key_up (p : page) : page :=
  match above p with
  | [] => p
  | l :: a => let k := length (lft p) in mk_page a (take k l) (drop k l) ((lft p ++ rgt p) :: below p)
  end.
Definition key_down (p : page) : page :=
  match below p with
  | [] => p
  | l :: b => let k := length (lft p) in mk_page ((lft p ++ rgt p) :: above p) (take k l) (drop k l) b
  end.
Definition key_left (p : page) : page :=
  match rev (lft p), above p with
  | c :: r, _ => mk_page (above p) (rev r) (c :: rgt p) (below p)
  | [], l :: a => mk_page a l [] (rgt p :: below p)
  | [], [] => p
  end.
Definition key_right (p : page) : page :=
  match rgt p, below p with
  | c :: r, _ => mk_page (above p) (lft p ++ [c]) r (below p)
  | [], l :: b => mk_page (lft p :: above p) [] l b
  | [], [] => p
  end.
Definition key_backspace (p : page) : page :=
  match rev (lft p), above p with
  | c :: r, _ => mk_page (above p) (rev r) (rgt p) (below p)
  | [], l :: a => mk_page a l (rgt p) (below p)
  | [], [] => p
  end.
Definition key_insert (c : Z) (p : page) : page :=
  if negb (room p) then p
  else if c =? 10 then mk_page (lft p :: above p) [] (rgt p) (below p) else mk_page (above p) (lft p ++ [c]) (rgt p) (below p).
Definition press_editing (c : Z) (p : page) : page * view * effect :=
  if c =? 0 then (p, Editing, Stay) else if c =? Terminal.ARROW_UP then (key_up p, Editing, Stay) else if c =? Terminal.ARROW_DOWN then (key_down p, Editing, Stay)
  else if c =? Terminal.ARROW_LEFT then (key_left p, Editing, Stay) else if c =? Terminal.ARROW_RIGHT then (key_right p, Editing, Stay)
  else if c =? Terminal.ARROW_ESC then (p, Menu, Stay) else if c =? 8 then (key_backspace p, Editing, Stay) else (key_insert c p, Editing, Stay).
Definition press_menu (c : Z) (p : page) : page * view * effect :=
  if c =? Terminal.ARROW_ESC then (p, Editing, Stay) else if c =? 115 then (p, Naming [], Stay) else if c =? 100 then (empty_page, Editing, Leave) else (p, Menu, Stay).
Definition press_naming (c : Z) (p : page) (name : list Z) : page * view * effect :=
  if c =? Terminal.ARROW_ESC then (p, Menu, Stay)
  else if c =? 10 then match name with [] => (p, Menu, Stay) | _ => (empty_page, Editing, Save name (text p)) end
  else if c =? 8 then (p, Naming (removelast name), Stay)
  else if (32 <=? c) && (c <? 127) && (zlen name <? 31) then (p, Naming (name ++ [c]), Stay) else (p, Naming name, Stay).
Definition press (c : Z) (p : page) (v : view) : page * view * effect :=
  match v with Editing => press_editing c p | Menu => press_menu c p | Naming name => press_naming c p name end.

(** ** The buffer *)

(** The buffer holds [b] before the cursor and [a] after it. *)
Record at_ (d : scriber) (b a : list Z) : Prop := {
  at_buf : zlen (scriber_buf d) = SCRIBER_BUF_SIZE; at_len : scriber_len d = zlen (b ++ a); at_pos : scriber_pos d = zlen b;
  at_fits : zlen (b ++ a) < SCRIBER_BUF_SIZE; at_text : slice (scriber_buf d) 0 (zlen (b ++ a)) = b ++ a;
}.
(** All but the text and its cursor. *)
Definition rest_of (d : scriber) := (scriber_mode d, scriber_fname d, scriber_fname_len d, scriber_row_starts d, scriber_row_count d, scriber_top_row d, scriber_focus_id d).
Lemma at_get d b a i : at_ d b a -> 0 <= i < zlen (b ++ a) -> (scriber_buf d).[i] = (b ++ a).[i].
Proof. intros [H1 _ _ H4 H5] Hi. unfold SCRIBER_BUF_SIZE in *. rewrite <- H5. by rewrite aget_slice by lia. Qed.
Lemma at_move d b a b' a' : at_ d b a -> b' ++ a' = b ++ a -> at_ (set_pos (zlen b') d) b' a'.
Proof. intros [H1 H2 _ H4 H5] E. split; rewrite ?E; done. Qed.
Lemma aget_mid (b a : list Z) c : (b ++ c :: a).[zlen b] = c.
Proof. rewrite TermEdit.aget_app by apply zlen_nonneg. by rewrite decide_False, Z.sub_diag by lia. Qed.
Lemma aget_next (x : Z) l i : 0 < i -> (x :: l).[i] = l.[i - 1].
Proof. intros. unfold aget. by replace (Z.to_nat i) with (S (Z.to_nat (i - 1))) by lia. Qed.
Lemma zlen_next (x : Z) l : zlen (x :: l) = zlen l + 1.
Proof. unfold zlen. cbn [length]. lia. Qed.

Lemma line_start_run d b a u l : at_ d b a -> line_ok l -> u = [] \/ (exists u', u = u' ++ [10]) -> (exists r, b ++ a = (u ++ l) ++ r) -> scriber_line_start d (zlen (u ++ l)) = zlen u.
Proof.
  intros Ha Hl Hu. unfold scriber_line_start. induction l as [|c l IH] using rev_ind; intros [r Er].
  - rewrite app_nil_r in *. destruct Hu as [->|[u' ->]]; [done|]. rewrite zlen_app. change (zlen [10]) with 1. pose proof (zlen_nonneg u').
    replace (Z.to_nat (zlen u' + 1)) with (S (length u')) by (unfold zlen; lia). cbn [line_start_loop]. rewrite (proj2 (Z.ltb_lt 0 _)) by lia. replace (zlen u' + 1 - 1) with (zlen u') by lia.
    rewrite (at_get d b a) by (done || (rewrite Er, !zlen_app; change (zlen [10]) with 1; pose proof (zlen_nonneg r); lia)). rewrite Er, <- app_assoc. cbn [Datatypes.app]. by rewrite aget_mid.
  - apply Forall_app in Hl as [Hl Hc]. apply list.Forall_cons in Hc as [Hc _]. rewrite app_assoc, (zlen_app (u ++ l)) in *. change (zlen [c]) with 1. pose proof (zlen_nonneg (u ++ l)).
    replace (Z.to_nat (zlen (u ++ l) + 1)) with (S (Z.to_nat (zlen (u ++ l)))) by lia. cbn [line_start_loop]. rewrite (proj2 (Z.ltb_lt 0 _)) by lia. replace (zlen (u ++ l) + 1 - 1) with (zlen (u ++ l)) by lia.
    rewrite (at_get d b a) by (done || (rewrite Er, !zlen_app; change (zlen [c]) with 1; rewrite zlen_app in *; pose proof (zlen_nonneg r); lia)). rewrite Er, <- app_assoc. cbn [Datatypes.app]. rewrite aget_mid, (proj2 (Z.eqb_neq c 10)) by done. cbn [andb negb].
    apply IH; [done|]. exists (c :: r). rewrite Er, <- !app_assoc. done.
Qed.
Lemma line_end_run d b a u l r : at_ d b a -> line_ok l -> r = [] \/ (exists r', r = 10 :: r') -> b ++ a = u ++ l ++ r -> scriber_line_end d (zlen u) = zlen u + zlen l.
Proof.
  intros Ha Hl Hr. unfold scriber_line_end. rewrite (at_len d b a Ha). revert u. induction l as [|c l IH]; intros u E; rewrite E, !zlen_app.
  - cbn [Datatypes.app] in E. change (zlen (@nil Z)) with 0. destruct Hr as [->|[r' ->]].
    + change (zlen (@nil Z)) with 0. replace (Z.to_nat _) with 0%nat by lia. cbn. lia.
    + rewrite zlen_next. pose proof (zlen_nonneg r'). pose proof (zlen_nonneg u). replace (Z.to_nat _) with (S (Z.to_nat (zlen r'))) by lia. cbn [line_end_loop]. rewrite (proj2 (Z.ltb_lt _ _)) by lia.
      rewrite (at_get d b a) by (done || (rewrite E, zlen_app, zlen_next; lia)). rewrite E, aget_mid. cbn. lia.
  - apply list.Forall_cons in Hl as [Hc Hl]. cbn [Datatypes.app] in E. rewrite zlen_next. pose proof (zlen_nonneg r). pose proof (zlen_nonneg u). pose proof (zlen_nonneg l).
    replace (Z.to_nat _) with (S (Z.to_nat (zlen l + zlen r))) by lia. cbn [line_end_loop]. rewrite (proj2 (Z.ltb_lt _ _)) by lia.
    rewrite (at_get d b a) by (done || (rewrite E, zlen_app, zlen_next, zlen_app; lia)). rewrite E, aget_mid, (proj2 (Z.eqb_neq c 10)) by done. cbn [andb negb].
    assert (Eu : zlen u + 1 = zlen (u ++ [c])) by (rewrite zlen_app; done). specialize (IH Hl (u ++ [c])). rewrite E, <- !app_assoc in IH. specialize (IH eq_refl). rewrite <- Eu in IH. rewrite !zlen_app, zlen_next, zlen_app in IH.
    replace (zlen u + (zlen l + zlen r + 1) - (zlen u + 1)) with (zlen l + zlen r) in IH by lia.
    replace (zlen u + (zlen l + 1 + zlen r)) with (zlen u + (zlen l + zlen r + 1)) by lia. rewrite IH. lia.
Qed.

(** ** The cursor *)

Definition holds (d : scriber) (p : page) : Prop := at_ d (before p) (after p) /\ page_ok p.
Lemma before_ends a : lines_before a = [] \/ exists u, lines_before a = u ++ [10].
Proof. destruct a as [|l a]; [by left|right]. exists (lines_before a ++ l). cbn [lines_before]. by rewrite app_assoc. Qed.
Lemma after_ends b : lines_after b = [] \/ exists r, lines_after b = 10 :: r.
Proof. destruct b as [|l b]; [by left|right]. by exists (l ++ lines_after b). Qed.
Lemma set_pos_same d b a : at_ d b a -> set_pos (zlen b) d = d.
Proof. intros H. rewrite <- (at_pos _ _ _ H). by destruct d. Qed.
Lemma set_pos_to d b a q : at_ d b a -> q = zlen b -> set_pos q d = d.
Proof. intros H ->. by apply (set_pos_same d b a). Qed.
Lemma holds_move d p p' : holds d p -> page_ok p' -> text p' = text p -> holds (set_pos (zlen (before p')) d) p'.
Proof. intros [Ha _] Hp Ht. split; [|done]. by apply (at_move d (before p) (after p)). Qed.
Lemma zlen_take_min (l l' : list Z) : zlen (take (length l') l) = if zlen l' <? zlen l then zlen l' else zlen l.
Proof. unfold zlen. rewrite length_take. destruct (Z.ltb_spec (Z.of_nat (length l')) (Z.of_nat (length l))); lia. Qed.
Lemma line_ok_app l l' : line_ok (l ++ l') <-> line_ok l /\ line_ok l'.
Proof. apply Forall_app. Qed.
Lemma page_line_ok l : line_ok l -> forall k, line_ok (take k l) /\ line_ok (drop k l).
Proof. intros H k. rewrite <- line_ok_app. by rewrite take_drop. Qed.

(** Texts that differ in their grouping only. *)
Ltac assoc := unfold text, before, after; cbn [above lft rgt below lines_before lines_after Datatypes.app]; repeat (rewrite <- ?app_assoc; cbn [Datatypes.app]); done.
Lemma up_ok p : page_ok p -> page_ok (key_up p) /\ text (key_up p) = text p.
Proof.
  intros Hp. unfold key_up. destruct p as [[|l a] f r b]; cbn [above lft rgt below]; [done|]. destruct Hp as [Ha Hl Hr Hb]. cbn in *. apply list.Forall_cons in Ha as [Hl' Ha].
  destruct (page_line_ok l Hl' (length f)). split; [split; cbn; [done..|]; constructor; [by apply line_ok_app|done]|].
  rewrite <- (take_drop (length f) l) at 3. assoc.
Qed.
Lemma down_ok p : page_ok p -> page_ok (key_down p) /\ text (key_down p) = text p.
Proof.
  intros Hp. unfold key_down. destruct p as [a f r [|l b]]; cbn [above lft rgt below]; [done|]. destruct Hp as [Ha Hl Hr Hb]. cbn in *. apply list.Forall_cons in Hb as [Hl' Hb].
  destruct (page_line_ok l Hl' (length f)). split; [split; cbn; [|done..]; constructor; [by apply line_ok_app|done]|].
  rewrite <- (take_drop (length f) l) at 3. assoc.
Qed.
Lemma start_of_line d p : holds d p -> scriber_line_start d (zlen (before p)) = zlen (lines_before (above p)).
Proof. intros [Ha Hp]. apply (line_start_run d (before p) (after p)); [done|apply Hp|apply before_ends|by exists (after p)]. Qed.
Lemma move_up_run d p : holds d p -> scriber_move_up d = (tt, set_pos (zlen (before (key_up p))) d).
Proof.
  intros [Ha Hp]. unfold scriber_move_up. munfold. rewrite (at_pos _ _ _ Ha).
  rewrite (start_of_line d p) by done.
  pose proof Ha as Ha'. destruct p as [[|l a] f r b]; cbn [above lft rgt below lines_before key_up] in *.
  { cbn [Z.eqb]. change (zlen (@nil Z) =? 0) with true. cbn iota. by rewrite (set_pos_same d _ _ Ha). }
  rewrite !zlen_app. change (zlen [10]) with 1. pose proof (zlen_nonneg (lines_before a)). pose proof (zlen_nonneg l). rewrite (proj2 (Z.eqb_neq _ 0)) by lia.
  replace (zlen (lines_before a) + (zlen l + 1) - 1) with (zlen (lines_before a ++ l)) by (rewrite zlen_app; lia).
  assert (Hl : line_ok l) by (destruct Hp as [Hp _ _ _]; cbn in Hp; by apply list.Forall_cons in Hp as [? _]).
  rewrite (line_start_run d _ _ (lines_before a) l Ha Hl (before_ends a)).
  2:{ unfold before. cbn [above lft lines_before]. rewrite <- !app_assoc. eexists. rewrite <- !app_assoc. done. }
  unfold modify. do 2 f_equal. unfold before. cbn [above lft lines_before]. rewrite !zlen_app, zlen_take_min. change (zlen [10]) with 1.
  replace (zlen (lines_before a) + (zlen l + 1) + zlen f - (zlen (lines_before a) + (zlen l + 1))) with (zlen f) by lia.
  replace (zlen (lines_before a) + zlen l - zlen (lines_before a)) with (zlen l) by lia. done.
Qed.
Lemma move_down_run d p : holds d p -> scriber_move_down d = (tt, set_pos (zlen (before (key_down p))) d).
Proof.
  intros [Ha Hp]. unfold scriber_move_down. munfold. rewrite (at_pos _ _ _ Ha).
  rewrite (start_of_line d p) by done.
  rewrite (line_end_run d _ _ (before p) (rgt p) (lines_after (below p)) Ha (ok_right p Hp) (after_ends _) eq_refl). rewrite (at_len _ _ _ Ha), zlen_app.
  pose proof Ha as Ha'. unfold after. rewrite zlen_app. destruct p as [a f r [|l b]]; cbn [above lft rgt below lines_after key_down] in *.
  { change (zlen (@nil Z)) with 0. rewrite (proj2 (Z.leb_le _ _)) by lia. by rewrite (set_pos_same d _ _ Ha). }
  rewrite zlen_next, zlen_app. pose proof (zlen_nonneg (lines_after b)). pose proof (zlen_nonneg l). rewrite (proj2 (Z.leb_gt _ _)) by lia.
  set (P := mk_page a f r (l :: b)) in *. replace (zlen (before P) + zlen r + 1) with (zlen (before P ++ r ++ [10])) by (rewrite !zlen_app; change (zlen [10]) with 1; lia).
  assert (Hl : line_ok l) by (destruct Hp as [_ _ _ Hp]; cbn in Hp; by apply list.Forall_cons in Hp as [? _]).
  rewrite (line_end_run d _ _ (before P ++ r ++ [10]) l (lines_after b) Ha Hl (after_ends b)).
  2:{ unfold after. cbn [rgt below lines_after P]. rewrite <- !app_assoc. done. }
  unfold modify. do 2 f_equal. unfold before. cbn [above lft P lines_before]. rewrite !zlen_app, zlen_take_min. change (zlen [10]) with 1.
  replace (zlen (lines_before a) + zlen f - zlen (lines_before a)) with (zlen f) by lia.
  replace (zlen (lines_before a) + zlen f + (zlen r + 1) + zlen l - (zlen (lines_before a) + zlen f + (zlen r + 1))) with (zlen l) by lia. destruct (zlen f <? zlen l); lia.
Qed.
Lemma left_ok p : page_ok p -> page_ok (key_left p) /\ text (key_left p) = text p /\ zlen (before (key_left p)) = Z.max 0 (zlen (before p) - 1).
Proof.
  intros Hp. unfold key_left. destruct p as [a f r b]. cbn [above lft rgt below]. destruct Hp as [Ha Hf Hr Hb]. cbn in *. destruct f as [|c f _] using rev_ind.
  - destruct a as [|l a]; cbn [rev]; [done|]. apply list.Forall_cons in Ha as [Hl Ha]. split; [split; cbn; [done|done|by constructor|by constructor]|]. split; [assoc|].
    unfold before. cbn [above lft lines_before]. rewrite !zlen_app. change (zlen [10]) with 1. change (zlen (@nil Z)) with 0. pose proof (zlen_nonneg (lines_before a)). pose proof (zlen_nonneg l). lia.
  - apply line_ok_app in Hf as [Hf Hc]. rewrite rev_unit. cbn iota. rewrite rev_involutive. apply list.Forall_cons in Hc as [Hc _]. split; [split; cbn; [done|done|by constructor|done]|]. split; [assoc|].
    unfold before. cbn [above lft lines_before]. rewrite !zlen_app. change (zlen [c]) with 1. pose proof (zlen_nonneg (lines_before a)). pose proof (zlen_nonneg f). lia.
Qed.
Lemma right_ok p : page_ok p -> page_ok (key_right p) /\ text (key_right p) = text p /\ zlen (before (key_right p)) = Z.min (zlen (text p)) (zlen (before p) + 1).
Proof.
  intros Hp. unfold key_right. destruct p as [a f r b]. cbn [above lft rgt below]. destruct Hp as [Ha Hf Hr Hb]. cbn in *.
  assert (Hn : zlen (before (mk_page a f r b)) <= zlen (text (mk_page a f r b))) by (unfold text; rewrite zlen_app; pose proof (zlen_nonneg (after (mk_page a f r b))); lia).
  destruct r as [|c r].
  - destruct b as [|l b].
    + split; [done|]. split; [done|]. unfold text, after, before in *. cbn [above lft rgt below lines_after Datatypes.app] in *. rewrite app_nil_r in *. lia.
    + apply list.Forall_cons in Hb as [Hl Hb]. split; [split; cbn; [by constructor|done|done|done]|]. split; [assoc|]. unfold text, before, after. cbn [above lft rgt below lines_before lines_after Datatypes.app].
      repeat rewrite ?zlen_app, ?zlen_next. change (zlen (@nil Z)) with 0. pose proof (zlen_nonneg (lines_after b)). pose proof (zlen_nonneg l). lia.
  - apply list.Forall_cons in Hr as [Hc Hr]. split; [split; cbn; [done|apply line_ok_app; split; [done|by constructor]|done|done]|]. split; [assoc|]. unfold text, before, after. cbn [above lft rgt below lines_before lines_after Datatypes.app].
    repeat rewrite ?zlen_app, ?zlen_next. change (zlen (@nil Z)) with 0. pose proof (zlen_nonneg (lines_after b)). pose proof (zlen_nonneg r). lia.
Qed.

(** ** Typing *)

Lemma on_buf_for (f : Z -> list Z -> list Z) n i d : ffor n i (fun j => on_buf (f j)) d = (tt, set_text ((ffor n i (fun j => modify (f j)) (scriber_buf d)).2) (scriber_len d) (scriber_pos d) d).
Proof. revert i d. induction n as [|n IH]; intros i d; cbn [ffor]; [by destruct d|]. unfold on_buf at 1, modify at 1 2. cbn [snd]. rewrite IH. by destruct d. Qed.
(** A text written to the buffer, character by character. *)
Lemma at_intro buf n p d b a : zlen buf = SCRIBER_BUF_SIZE -> zlen (b ++ a) < SCRIBER_BUF_SIZE -> n = zlen (b ++ a) -> p = zlen b -> (forall i, 0 <= i < zlen (b ++ a) -> buf.[i] = (b ++ a).[i]) -> at_ (set_text buf n p d) b a.
Proof.
  intros Hb Hf -> -> Hi. pose proof (zlen_nonneg (b ++ a)). split; try done. cbn. apply list_eq_aget; [rewrite zlen_slice; lia|]. rewrite zlen_slice by lia. intros i Hr. rewrite aget_slice by lia. by apply Hi.
Qed.
Lemma insert_run d b a c : at_ d b a -> zlen (b ++ a) < SCRIBER_BUF_SIZE - 1 -> exists d', scriber_insert c d = (tt, d') /\ at_ d' (b ++ [c]) a /\ rest_of d' = rest_of d.
Proof.
  intros Ha Hf. unfold scriber_insert. rewrite (bind_run (gets _) _ d d d) by done. rewrite (at_len _ _ _ Ha), (at_pos _ _ _ Ha), (proj2 (Z.leb_gt _ _)) by done.
  set (len := zlen (b ++ a)) in *. set (pos := zlen b). pose proof (at_buf _ _ _ Ha) as Hb. assert (Hz : len = pos + zlen a) by apply zlen_app. pose proof (zlen_nonneg b). pose proof (zlen_nonneg a). fold pos in H.
  rewrite (bind_run _ _ _ _ _ (on_buf_for (fun j b => b.[len - j := b.[len - j - 1]]) (rounds pos len) 0 d)). unfold on_buf. munfold.
  destruct (TermEdit.shift_right (scriber_buf d) pos len ltac:(lia) ltac:(lia)) as [Ho Hs]. set (out := (ffor _ _ _ (scriber_buf d)).2) in *.
  eexists. split; [reflexivity|]. split; [|done]. cbn [scriber_buf set_text]. assert (El : zlen ((b ++ [c]) ++ a) = len + 1) by (rewrite !zlen_app; change (zlen [c]) with 1; lia).
  apply at_intro; [rewrite zlen_aset; lia|lia|lia|by rewrite zlen_app|]. rewrite El. intros i Hi. rewrite <- app_assoc. cbn [Datatypes.app]. rewrite aget_aset by lia. rewrite TermEdit.aget_app by lia. fold pos.
  case_decide as E; [subst i; by rewrite decide_False, Z.sub_diag by lia|]. rewrite Hs by lia. destruct (decide (i < pos)).
  - rewrite decide_False by lia. rewrite (at_get d b a) by (done || (fold len; lia)). rewrite TermEdit.aget_app by lia. by rewrite decide_True.
  - rewrite decide_True by lia. rewrite (at_get d b a) by (done || (fold len; lia)). rewrite TermEdit.aget_app by lia. fold pos. rewrite decide_False by lia. rewrite aget_next by lia. f_equal. lia.
Qed.
Lemma insert_full d b a c : at_ d b a -> SCRIBER_BUF_SIZE - 1 <= zlen (b ++ a) -> scriber_insert c d = (tt, d).
Proof. intros Ha Hf. unfold scriber_insert. munfold. by rewrite (at_len _ _ _ Ha), (proj2 (Z.leb_le _ _)). Qed.
Lemma backspace_run d b c a : at_ d (b ++ [c]) a -> exists d', scriber_backspace d = (tt, d') /\ at_ d' b a /\ rest_of d' = rest_of d.
Proof.
  intros Ha. unfold scriber_backspace. rewrite (bind_run (gets _) _ d d d) by done. rewrite (at_len _ _ _ Ha), (at_pos _ _ _ Ha). rewrite <- app_assoc. cbn [Datatypes.app]. rewrite !zlen_app, !zlen_next. change (zlen (@nil Z) + 1) with 1.
  pose proof (zlen_nonneg b). pose proof (zlen_nonneg a). rewrite (proj2 (Z.eqb_neq _ 0)) by lia. set (len := zlen b + (zlen a + 1)). set (pos := zlen b + 1). pose proof (at_buf _ _ _ Ha) as Hb. pose proof (at_fits _ _ _ Ha) as Hf.
  assert (Et : (b ++ [c]) ++ a = b ++ c :: a) by (by rewrite <- app_assoc). assert (El : zlen (b ++ c :: a) = len) by (by rewrite zlen_app, zlen_next). rewrite Et, El in Hf.
  rewrite (bind_run _ _ _ _ _ (on_buf_for (fun i b => b.[i := b.[i + 1]]) (rounds (pos - 1) (len - 1)) (pos - 1) d)). munfold.
  destruct (TermEdit.shift_left (scriber_buf d) pos len ltac:(lia) ltac:(lia)) as [Ho Hs]. set (out := (ffor _ _ _ (scriber_buf d)).2) in *.
  eexists. split; [reflexivity|]. split; [|done]. cbn [scriber_buf set_text]. assert (El' : zlen (b ++ a) = len - 1) by (rewrite zlen_app; lia).
  apply at_intro; [lia|lia|lia|lia|]. rewrite El'. intros i Hi. rewrite Hs by lia. rewrite TermEdit.aget_app by lia. case_decide as E1; rewrite (at_get d _ _ _ Ha) by (rewrite Et, El; lia); rewrite Et, TermEdit.aget_app by lia.
  - rewrite !decide_False by lia. rewrite aget_next by lia. f_equal. lia.
  - by rewrite !decide_True by lia.
Qed.

(** ** The editor *)

Section editor.
Context {K W : Type} {HW : Desk W K} (font : Z -> Z -> Z).
Implicit Types k : desk K W.

Record rep (d : scriber) (p : page) (v : view) : Prop := {
  rp_text : holds d p; rp_fname : zlen (scriber_fname d) = SCRIBER_FNAME_SIZE;
  rp_mode : scriber_mode d = match v with Editing => SCRIBER_MODE_EDIT | Menu => SCRIBER_MODE_MENU | Naming _ => SCRIBER_MODE_FNAME end;
  rp_name : match v with
    | Naming name => Forall (fun c => 32 <= c < 127) name /\ zlen name < SCRIBER_FNAME_SIZE /\ scriber_fname_len d = zlen name /\ slice (scriber_fname d) 0 (zlen name) = name
    | _ => True
    end;
}.
(** What drawing leaves alone. *)
Definition core (d : scriber) := (scriber_buf d, scriber_len d, scriber_pos d, scriber_mode d, scriber_fname d, scriber_fname_len d, scriber_focus_id d).
Definition quiet (m : st (desk K W) unit) : Prop := forall k, keys (m k).2 = keys k /\ env (m k).2 = env k /\ core (doc (m k).2) = core (doc k).
Lemma rep_same d d' p v : core d' = core d -> rep d p v -> rep d' p v.
Proof. intros [= E1 E2 E3 E4 E5 E6 _] [[[] Hp] R2 R3 R4]. split; [split; [split|]|..]; try congruence; destruct v; try done; congruence. Qed.
Lemma drawn_bind {R} (m : st (desk K W) R) (f : R -> st (desk K W) unit) : (forall k, keys (m k).2 = keys k /\ env (m k).2 = env k /\ core (doc (m k).2) = core (doc k)) -> (forall r, quiet (f r)) -> quiet (m ≫= f).
Proof. intros Hm Hf k. munfold. specialize (Hm k). destruct (m k) as [r k1]. destruct (Hf r k1) as (H1 & H2 & H3). destruct Hm as (M1 & M2 & M3). cbn in *. repeat split; congruence. Qed.
Lemma on_scr_quiet {R} (m : st (Vesa.vesa K) R) k : keys (on_scr m k).2 = keys k /\ env (on_scr m k).2 = env k /\ core (doc (on_scr m k).2) = core (doc k).
Proof. unfold on_scr. by destruct (m (scr k)). Qed.
Lemma gets_quiet {R} (f : desk K W -> R) k : keys (gets f k).2 = keys k /\ env (gets f k).2 = env k /\ core (doc (gets f k).2) = core (doc k).
Proof. done. Qed.
Lemma on_doc_quiet f : (forall d, core (f d) = core d) -> quiet (on_doc f).
Proof. intros Hf k. unfold on_doc. by split_and!; cbn. Qed.
Lemma add_row_core i d : core (add_row i d) = core d.
Proof. unfold add_row. by case_match. Qed.
Lemma build_loop_core w n i x d : core (build_rows_loop w n i x d) = core d.
Proof.
  revert i x d. induction n as [|n IH]; intros i x d; cbn [build_rows_loop]; [done|]. destruct (_ =? 10); [rewrite IH; apply add_row_core|]. destruct (_ <? _); [rewrite IH; apply add_row_core|apply IH].
Qed.
Lemma build_rows_core w d : core (scriber_build_rows w d) = core d.
Proof. exact (build_loop_core _ _ _ _ _). Qed.
Lemma redraw_quiet : quiet (scriber_redraw font).
Proof.
  unfold scriber_redraw. apply drawn_bind; [apply gets_quiet|]. intros k0. apply drawn_bind; [apply on_doc_quiet; intros; apply build_rows_core|]. intros _. apply drawn_bind; [by apply on_doc_quiet|]. intros _.
  apply drawn_bind; [apply on_scr_quiet|]. intros _. apply drawn_bind; [apply gets_quiet|]. intros d. apply drawn_bind; [apply on_scr_quiet|]. intros [x y]. intros k. apply on_scr_quiet.
Qed.
Lemma bar_quiet t : quiet (draw_bar font t).
Proof. unfold draw_bar. apply drawn_bind; [apply gets_quiet|]. intros v. apply drawn_bind; [apply on_scr_quiet|]. intros _ k. apply on_scr_quiet. Qed.
Lemma fname_quiet : quiet (scriber_draw_fname font).
Proof. unfold scriber_draw_fname. apply drawn_bind; [apply bar_quiet|]. intros _. apply drawn_bind; [apply gets_quiet|]. intros k0 k. apply on_scr_quiet. Qed.

(** The text is [p] and the keyboard and the world are as before. *)
Definition stays (p : page) (v : view) k k' : Prop := rep (doc k') p v /\ keys k' = keys k /\ env k' = env k.
Lemma then_quiet (m : st (desk K W) unit) q d' p v k : m k = (tt, mk_desk d' (scr k) (keys k) (env k)) -> quiet q -> rep d' p v -> stays p v k ((m;; q) k).2.
Proof. intros Hm Hq Hr. rewrite (bind_run _ _ _ _ _ Hm). destruct (Hq (mk_desk d' (scr k) (keys k) (env k))) as (H1 & H2 & H3). split; [by eapply rep_same|done]. Qed.
(** The editor is left: the screen is cleared and the terminal prompts. *)
Definition cleared (s : Vesa.vesa K) : Vesa.vesa K := Vesa.set_pos 0 0 (Vesa.vesa_clear 0 (Vesa.screen_appmode s).2).2.
Definition left_desk (w : W) k k' : Prop := rep (doc k') empty_page Editing /\ keys k' = (focus_pop (keys k)).2 /\ (scr k', env k') = (terminal_show_prompt (cleared (scr k), w)).2.
Definition pressed (k k' : desk K W) (r : page * view * effect) : Prop :=
  let '(p, v, e) := r in
  match e with Stay => stays p v k k' | Leave => left_desk (env k) k k' | Save name t => left_desk (vfs_write_file name t scb 0 (env k)).2 k k' end.
Lemma exit_run k : zlen (scriber_buf (doc k)) = SCRIBER_BUF_SIZE -> zlen (scriber_fname (doc k)) = SCRIBER_FNAME_SIZE -> left_desk (env k) k (scriber_exit k).2.
Proof.
  intros Hb Hf. unfold left_desk, cleared, scriber_exit, on_doc, on_scr, on_keys, on_term. munfold. cbn [scr doc keys env].
  destruct (Vesa.screen_appmode (scr k)) as [u1 s1]. cbn [fst snd scr doc keys env]. destruct (focus_pop (keys k)) as [u2 f2]. cbn [fst snd scr doc keys env]. destruct (Vesa.vesa_clear 0 s1) as [u3 s3]. cbn [fst snd scr doc keys env].
  destruct (terminal_show_prompt _) as [u4 [s4 w4]]. cbn [fst snd scr doc keys env]. split; [|done].
  split; [split; [apply (at_intro (scriber_buf (doc k)) 0 0 (set_top 0 (set_mode SCRIBER_MODE_EDIT (set_fname (scriber_fname (doc k)) 0 (doc k)))) [] []); try done; intros i Hi; unfold zlen in Hi; cbn in Hi; lia|split; by constructor]|done|done|done].
Qed.

(** A text at the list level is one of lines. *)
Lemma rep_page d p v p' : rep d p v -> page_ok p' -> (before p', after p') = (before p, after p) -> rep d p' v.
Proof. intros [[Ha _] R2 R3 R4] Hp [= E1 E2]. split; [split; [by rewrite E1, E2|done]|done..]. Qed.
Lemma rep_edit d d' p p' v : rep d p v -> rest_of d' = rest_of d -> at_ d' (before p') (after p') -> page_ok p' -> rep d' p' v.
Proof. intros [[Ha _] R2 R3 R4] [= E1 E2 E3 _ _ _ _] Ha' Hp. split; [done|congruence..|]. destruct v; try done. by rewrite E2, E3. Qed.
Lemma rep_cursor d p p' v : rep d p v -> page_ok p' -> text p' = text p -> rep (set_pos (zlen (before p')) d) p' v.
Proof. intros R Hp Ht. apply (rep_edit d _ p); [done|done| |done]. by apply (holds_move d p p' (rp_text _ _ _ R)). Qed.
Lemma typing d p v c : rep d p v -> exists d', scriber_insert c d = (tt, d') /\ rep d' (key_insert c p) v.
Proof.
  intros R. pose proof (rp_text _ _ _ R) as [Ha Hp]. unfold key_insert, room. destruct (Z.ltb_spec (zlen (text p)) (SCRIBER_BUF_SIZE - 1)) as [Hlt|Hge]; cbn [negb].
  2:{ exists d. by rewrite (insert_full d _ _ c Ha). }
  destruct (insert_run d _ _ c Ha Hlt) as (d' & E & Ha' & Er). exists d'. split; [done|]. destruct Hp as [H1 H2 H3 H4]. destruct (Z.eqb_spec c 10) as [->|Hc]; apply (rep_edit d d' p); try done.
  - unfold before in *. cbn [above lft lines_before]. rewrite app_nil_r, <- app_assoc in *. done.
  - split; cbn; [by constructor|by constructor|done..].
  - unfold before in *. cbn [above lft lines_before]. rewrite <- app_assoc in *. done.
  - split; cbn; [done| |done..]. apply line_ok_app. split; [done|by constructor].
Qed.
Lemma erasing d p v : rep d p v -> exists d', scriber_backspace d = (tt, d') /\ rep d' (key_backspace p) v.
Proof.
  intros R. pose proof (rp_text _ _ _ R) as [Ha Hp]. pose proof Hp as [H1 H2 H3 H4]. unfold key_backspace. destruct p as [a f r b]. cbn [above lft rgt below] in *. destruct f as [|c f _] using rev_ind.
  - destruct a as [|l a]; cbn [rev].
    + exists d. split; [|done]. unfold scriber_backspace. munfold. by rewrite (at_pos _ _ _ Ha).
    + unfold before in Ha. cbn [above lft lines_before] in Ha. rewrite app_nil_r, app_assoc in Ha. destruct (backspace_run d _ 10 _ Ha) as (d' & E & Ha' & Er). exists d'. split; [done|].
      apply list.Forall_cons in H1 as [Hl H1]. by apply (rep_edit d d' (mk_page (l :: a) [] r b)).
  - rewrite rev_unit. cbn iota. rewrite rev_involutive. unfold before in Ha. cbn [above lft] in Ha. rewrite app_assoc in Ha. destruct (backspace_run d _ c _ Ha) as (d' & E & Ha' & Er). exists d'. split; [done|].
    apply line_ok_app in H2 as [Hf _]. by apply (rep_edit d d' (mk_page a (f ++ [c]) r b)).
Qed.
(** The text stays, the view changes. *)
Lemma rep_view d d' p v v' : rep d p v -> (scriber_buf d', scriber_len d', scriber_pos d') = (scriber_buf d, scriber_len d, scriber_pos d) -> zlen (scriber_fname d') = SCRIBER_FNAME_SIZE ->
  scriber_mode d' = match v' with Editing => SCRIBER_MODE_EDIT | Menu => SCRIBER_MODE_MENU | Naming _ => SCRIBER_MODE_FNAME end ->
  match v' with Naming name => Forall (fun c => 32 <= c < 127) name /\ zlen name < SCRIBER_FNAME_SIZE /\ scriber_fname_len d' = zlen name /\ slice (scriber_fname d') 0 (zlen name) = name | _ => True end -> rep d' p v'.
Proof. intros [[[] Hp] _ _ _] [= E1 E2 E3] Hf Hm Hn. split; [split; [split; congruence|done]|done..]. Qed.
Lemma edit_pressed c k p : rep (doc k) p Editing -> pressed k (edit_key font c k).2 (press_editing c p).
Proof.
  intros R. pose proof (rp_text _ _ _ R) as Ht. pose proof Ht as [Ha Hp]. unfold edit_key, press_editing.
  assert (Hrun : forall (m : st scriber unit) d', m (doc k) = (tt, d') -> run_doc m k = (tt, mk_desk d' (scr k) (keys k) (env k))) by (intros m d' E; unfold run_doc; by rewrite E).
  destruct (c =? 0); [by split|]. destruct (c =? Terminal.ARROW_UP).
  { destruct (up_ok p Hp). eapply then_quiet; [apply Hrun, (move_up_run _ _ Ht)|apply redraw_quiet|by apply (rep_cursor _ p)]. }
  destruct (c =? Terminal.ARROW_DOWN).
  { destruct (down_ok p Hp). eapply then_quiet; [apply Hrun, (move_down_run _ _ Ht)|apply redraw_quiet|by apply (rep_cursor _ p)]. }
  destruct (c =? Terminal.ARROW_LEFT).
  { destruct (left_ok p Hp) as (Hp' & Et & Ez). eapply then_quiet; [reflexivity|apply redraw_quiet|]. pose proof (rep_cursor _ p _ _ R Hp' Et) as Hm. rewrite Ez in Hm. rewrite (at_pos _ _ _ Ha). pose proof (zlen_nonneg (before p)).
    destruct (Z.ltb_spec 0 (zlen (before p))); [by rewrite Z.max_r in Hm by lia|]. rewrite Z.max_l in Hm by lia. rewrite (set_pos_to _ _ _ _ Ha) in Hm by lia. done. }
  destruct (c =? Terminal.ARROW_RIGHT).
  { destruct (right_ok p Hp) as (Hp' & Et & Ez). eapply then_quiet; [reflexivity|apply redraw_quiet|]. pose proof (rep_cursor _ p _ _ R Hp' Et) as Hm. rewrite Ez in Hm. rewrite (at_pos _ _ _ Ha), (at_len _ _ _ Ha). fold (text p).
    assert (zlen (before p) <= zlen (text p)) by (unfold text; rewrite zlen_app; pose proof (zlen_nonneg (after p)); lia).
    destruct (Z.ltb_spec (zlen (before p)) (zlen (text p))); [by rewrite Z.min_r in Hm by lia|]. rewrite Z.min_l in Hm by lia. rewrite (set_pos_to _ _ _ _ Ha) in Hm by lia. done. }
  destruct (c =? Terminal.ARROW_ESC).
  { eapply then_quiet; [reflexivity|apply bar_quiet|]. apply (rep_view _ _ p _ Menu R); try done. apply R. }
  destruct (c =? 8).
  { destruct (erasing _ _ _ R) as (d' & E & R'). eapply then_quiet; [by apply Hrun|apply redraw_quiet|done]. }
  destruct (typing _ _ _ c R) as (d' & E & R'). eapply then_quiet; [by apply Hrun|apply redraw_quiet|done].
Qed.
Lemma menu_pressed c k p : rep (doc k) p Menu -> pressed k (menu_key font c k).2 (press_menu c p).
Proof.
  intros R. unfold menu_key, press_menu. destruct (c =? Terminal.ARROW_ESC).
  { eapply then_quiet; [reflexivity|apply redraw_quiet|]. apply (rep_view _ _ p _ Editing R); try done. apply R. }
  destruct (c =? 115).
  { eapply then_quiet; [reflexivity|apply fname_quiet|]. apply (rep_view _ _ p _ (Naming []) R); try done. apply R. }
  destruct (c =? 100); [|by split]. apply exit_run; [apply R|apply R].
Qed.
Lemma cstr_plain (l r : list Z) : Forall (fun c => 32 <= c < 127) l -> cstr (l ++ 0 :: r) = l.
Proof. induction 1 as [|c l Hc Hl IH]; [done|]. cbn [Datatypes.app cstr]. rewrite (proj2 (Z.eqb_neq c 0)) by lia. by rewrite IH. Qed.
Lemma slice_aset_end (l : list Z) n c : 0 <= n < zlen l -> slice (l.[n := c]) 0 (n + 1) = slice l 0 n ++ [c].
Proof.
  intros Hn. rewrite slice_plus by lia. f_equal.
  - apply list_eq_aget; [rewrite !zlen_slice; rewrite ?zlen_aset; lia|]. rewrite zlen_slice by (rewrite ?zlen_aset; lia). intros i Hi. rewrite !aget_slice by (rewrite ?zlen_aset; lia). by rewrite aget_aset_ne by lia.
  - apply list_eq_aget; [by rewrite zlen_slice by (rewrite ?zlen_aset; lia)|]. rewrite zlen_slice by (rewrite ?zlen_aset; lia). intros i Hi. rewrite aget_slice by (rewrite ?zlen_aset; lia). replace i with 0 by lia. rewrite Z.add_0_r. by apply aget_aset_eq.
Qed.
Lemma name_pressed c k p name : rep (doc k) p (Naming name) -> pressed k (fname_key font c k).2 (press_naming c p name).
Proof.
  intros R. pose proof (rp_fname _ _ _ R) as Hz. destruct (rp_name _ _ _ R) as (Hn & Hl & En & Es). pose proof (zlen_nonneg name). unfold fname_key, press_naming, SCRIBER_FNAME_SIZE in *. destruct (c =? Terminal.ARROW_ESC).
  { eapply then_quiet; [reflexivity|apply bar_quiet|]. by apply (rep_view _ _ p _ Menu R). }
  destruct (c =? 10).
  { unfold scriber_save. rewrite (bind_run (gets _) _ k (doc k) k) by done. rewrite En. destruct name as [|x name].
    - eapply then_quiet; [reflexivity|apply bar_quiet|]. by apply (rep_view _ _ p _ Menu R).
    - set (nm := x :: name) in *. assert (Hpos : 0 < zlen nm) by (unfold nm; rewrite zlen_next; pose proof (zlen_nonneg name); lia). rewrite (proj2 (Z.eqb_neq _ 0)) by lia.
      unfold pressed. pose proof (rp_text _ _ _ R) as [Ha _]. unfold on_doc at 1. munfold. cbn [doc scr keys env]. unfold on_env. cbn [doc scr keys env scriber_fname scriber_buf scriber_len set_fname].
      rewrite (at_len _ _ _ Ha), (at_text _ _ _ Ha). fold (text p).
      replace (cstr _) with nm.
      2:{ rewrite <- (slice_all ((scriber_fname (doc k)).[_ := _])). rewrite zlen_aset, Hz. replace 32 with ((zlen nm + 1) + (31 - zlen nm)) by lia. rewrite slice_plus by lia. rewrite En, slice_aset_end, Es by lia. rewrite <- app_assoc. symmetry. by apply cstr_plain. }
      destruct (vfs_write_file nm (text p) scb 0 (env k)) as [r w]. cbn [snd]. apply (exit_run (mk_desk _ (scr k) (keys k) w)); cbn; [apply Ha|by rewrite zlen_aset]. }
  destruct (c =? 8).
  { eapply then_quiet; [reflexivity|apply fname_quiet|]. rewrite En. destruct name as [|x name _] using rev_ind; [exact R|]. rewrite removelast_last. rewrite (zlen_app name) in *. change (zlen [x]) with 1 in *.
    pose proof (zlen_nonneg name). rewrite (proj2 (Z.ltb_lt 0 _)) by lia. apply Forall_app in Hn as [Hn _]. apply (rep_view _ _ p _ (Naming name) R); try done; [apply R|].
    split; [done|]. split; [unfold SCRIBER_FNAME_SIZE; lia|]. cbn. split; [lia|]. rewrite slice_plus in Es by lia. apply app_inj_2 in Es as [Es _]; [done|]. unfold slice. rewrite length_take, length_drop. unfold zlen in *. cbn [length]. lia. }
  unfold when. rewrite (bind_run (gets _) _ k (doc k) k) by done. rewrite En. change (32 - 1) with 31. destruct (_ && (zlen name <? 31)) eqn:Ec; [|by split].
  apply andb_prop in Ec as [Ec E31]. apply andb_prop in Ec as [E1 E2]. eapply then_quiet; [reflexivity|apply fname_quiet|]. apply (rep_view _ _ p _ (Naming (name ++ [c])) R); try done.
  - cbn. by rewrite zlen_aset.
  - apply R.
  - rewrite zlen_app. change (zlen [c]) with 1. cbn. rewrite En. split; [apply Forall_app; split; [done|constructor; [lia|done]]|]. split; [unfold SCRIBER_FNAME_SIZE; lia|]. split; [done|]. rewrite slice_aset_end by lia. by rewrite Es.
Qed.

(** C16 - Every key of the text editor does to its buffer what it means for a
    text of lines with a cursor: characters are inserted and erased where the
    cursor stands, the arrows move it through the lines, also to shorter ones
    and over their ends, the menu and the entry of a file name leave the text
    alone; a text is stored exactly as it stands under the name entered, and
    only then or when it is discarded is the editor left, empty, with the
    keyboard given back and the terminal prompting on a cleared screen. *)
Theorem scriber_edits c k p v : rep (doc k) p v -> pressed k (scriber_key font c k).2 (press c p v).
Proof.
  intros R. unfold scriber_key, press. rewrite (bind_run (gets _) _ k (doc k) k) by done. rewrite (rp_mode _ _ _ R). destruct v as [| |name]; cbn [Z.eqb SCRIBER_MODE_EDIT SCRIBER_MODE_MENU SCRIBER_MODE_FNAME Pos.eqb].
  - by apply edit_pressed.
  - by apply menu_pressed.
  - by apply name_pressed.
Qed.
(** [app_scriber] opens an empty text. *)
Definition keeps {R} (m : st (desk K W) R) (p : page) (v : view) : Prop := forall k, rep (doc k) p v -> rep (doc (m k).2) p v.
Lemma starts_bind {R S} (m : st (desk K W) R) (f : R -> st (desk K W) S) p v : keeps m p v -> (forall r, keeps (f r) p v) -> keeps (m ≫= f) p v.
Proof. intros Hm Hf k R0. munfold. specialize (Hm k R0). destruct (m k) as [r k1]. by apply Hf. Qed.
Lemma starts_scr {R} (m : st (Vesa.vesa K) R) p v : keeps (on_scr m) p v.
Proof. intros k R0. eapply rep_same; [apply on_scr_quiet|done]. Qed.
Lemma starts_keys {R} (m : st (focus K) R) p v : keeps (on_keys m) p v.
Proof. intros k R0. unfold on_keys. by destruct (m (keys k)). Qed.
Lemma starts_focus i p v : keeps (on_doc (set_focus_id i)) p v.
Proof. intros k [[[] Hp] R2 R3 R4]. by split; [split; [split|]|..]. Qed.
Lemma starts_gets {R} (f : desk K W -> R) p v : keeps (gets f) p v.
Proof. by intros k. Qed.
Lemma starts_ret p v : keeps (mret tt) p v.
Proof. by intros k. Qed.
Lemma app_scriber_starts self k : zlen (scriber_buf (doc k)) = SCRIBER_BUF_SIZE -> zlen (scriber_fname (doc k)) = SCRIBER_FNAME_SIZE -> rep (doc (app_scriber font self k).2) empty_page Editing.
Proof.
  intros Hb Hf. unfold app_scriber. rewrite (bind_run (on_doc _) _ k tt _ eq_refl). match goal with |- rep (doc (?m ?k1).2) _ _ => enough (Hk : keeps m empty_page Editing) end.
  { apply Hk. cbn. split; [split; [|split; by constructor]|done|done|done]. apply (at_intro (scriber_buf (doc k)) 0 0 (set_top 0 (set_mode SCRIBER_MODE_EDIT (set_fname (scriber_fname (doc k)) 0 (doc k)))) [] []); try done. intros i Hi. unfold zlen in Hi. cbn in Hi. lia. }
  apply starts_bind; [apply starts_gets|]. intros d. apply starts_bind.
  { unfold when. case_match; [|apply starts_ret]. apply starts_bind; [apply starts_keys|]. intros i. apply starts_focus. }
  intros _. apply starts_bind; [apply starts_scr|]. intros _. apply starts_bind; [apply starts_scr|]. intros _. apply starts_bind; [apply starts_gets|]. intros d'. apply starts_bind; [apply starts_keys|]. intros _ k' R0.
  eapply rep_same; [apply redraw_quiet|done].
Qed.
End editor.

(** ** Where the cursor is drawn *)

(** The place of the next character after [c], and after a text. *)
Definition place (w : Z) (at0 : Z * Z) (c : Z) : Z * Z := let (x, y) := at0 in if c =? 10 then (1, y + 8) else if w - 8 <? x + 8 then (1, y + 8) else (x + 8, y).
Definition laid (w : Z) (t : list Z) (s q y : Z) : Z * Z := foldl (place w) (1, y) (slice t s (q - s)).
Lemma place_down w x y c : y <= (place w (x, y) c).2.
Proof. unfold place. repeat case_match; cbn; lia. Qed.
Lemma fold_down w l x y : y <= (foldl (place w) (x, y) l).2.
Proof. revert x y. induction l as [|c l IH]; intros x y; cbn [foldl]; [cbn; lia|]. pose proof (place_down w x y c). destruct (place w (x, y) c) as [x' y']. specialize (IH x' y'). cbn in *. lia. Qed.
Lemma slice_head (t : list Z) s n : 0 <= s -> 0 < n -> s + n <= zlen t -> slice t s n = t.[s] :: slice t (s + 1) (n - 1).
Proof.
  intros Hs Hn Hz. replace n with (1 + (n - 1)) at 1 by lia. rewrite slice_plus by lia. change (t.[s] :: slice t (s + 1) (n - 1)) with ([t.[s]] ++ slice t (s + 1) (n - 1)). f_equal.
  apply list_eq_aget; [by rewrite zlen_slice by lia|]. rewrite zlen_slice by lia. intros i Hi. rewrite aget_slice by lia. replace i with 0 by lia. by rewrite Z.add_0_r.
Qed.

Section cursor.
Context {K : Type} (font : Z -> Z -> Z) (buf : list Z) (len pos w view_h : Z).
Hypothesis Hlen : 0 <= pos <= len.
Hypothesis Hbuf : len <= zlen buf.
(** The loop past the cursor draws only. *)
Lemma redraw_past n i x y cx cy (v : Vesa.vesa K) : pos < i -> (redraw_loop font buf len pos w view_h n i x y cx cy v).1 = (cx, cy).
Proof.
  revert i x y v. induction n as [|n IH]; intros i x y v Hi; cbn [redraw_loop]; [done|]. rewrite (proj2 (Z.eqb_neq i pos)) by lia. destruct (i =? len); [done|]. destruct (_ =? 10); [apply IH; lia|].
  munfold. destruct (Vesa.vesa_draw_char_34 _ _ _ _ _ _ _) as [u v']. destruct (if w - 8 <? x + 8 then _ else _) as [x' y']. destruct (view_h - 8 <? y'); [done|]. apply IH. lia.
Qed.
Lemma redraw_finds n i x y cx cy (v : Vesa.vesa K) : 0 <= i <= pos -> (rounds i (len + 1) <= n)%nat -> let '(X, Y) := foldl (place w) (x, y) (slice buf i (pos - i)) in
  (Y <= view_h - 8 -> (redraw_loop font buf len pos w view_h n i x y cx cy v).1 = (X, Y)) /\
  (i < pos -> view_h - 8 < Y -> X <> 1 -> (redraw_loop font buf len pos w view_h n i x y cx cy v).1 = (cx, cy)).
Proof.
  revert i x y v. induction n as [|n IH]; intros i x y v Hi Hn; [unfold rounds in Hn; lia|]. destruct (decide (i = pos)) as [->|Hne].
  { rewrite Z.sub_diag, slice_nil by lia. cbn [foldl]. split; [|lia]. intros _. cbn [redraw_loop]. rewrite Z.eqb_refl. destruct (pos =? len); [done|]. destruct (_ =? 10); [apply redraw_past; lia|].
    munfold. destruct (Vesa.vesa_draw_char_34 _ _ _ _ _ _ _) as [u v']. destruct (if w - 8 <? x + 8 then _ else _) as [x' y']. destruct (view_h - 8 <? y'); [done|]. apply redraw_past. lia. }
  rewrite slice_head by lia. cbn [foldl redraw_loop]. rewrite (proj2 (Z.eqb_neq i pos)), (proj2 (Z.eqb_neq i len)) by lia. replace (pos - i - 1) with (pos - (i + 1)) by lia.
  assert (Hn' : (rounds (i + 1) (len + 1) <= n)%nat) by (unfold rounds in *; lia). unfold place at 2. destruct (buf.[i] =? 10) eqn:E10.
  { specialize (IH (i + 1) 1 (y + 8) v ltac:(lia) Hn'). destruct (decide (i + 1 = pos)) as [E|E].
    - rewrite <- E, Z.sub_diag, slice_nil in * by lia. cbn [foldl] in *. split; [apply IH|lia].
    - destruct (foldl _ _ _) as [X Y]. destruct IH as [IH1 IH2]. split; [done|]. intros _. apply IH2. lia. }
  munfold. destruct (Vesa.vesa_draw_char_34 _ _ _ _ _ _ _) as [u v']. set (xy := if w - 8 <? x + 8 then _ else _). destruct xy as [x' y'] eqn:Exy. subst xy.
  pose proof (fold_down w (slice buf (i + 1) (pos - (i + 1))) x' y') as Hd. specialize (IH (i + 1) x' y' v' ltac:(lia) Hn').
  destruct (Z.ltb_spec (view_h - 8) y').
  - destruct (foldl _ _ _) as [X Y]. cbn in Hd. split; [lia|done].
  - destruct (decide (i + 1 = pos)) as [E|E].
    + rewrite <- E, Z.sub_diag, slice_nil in * by lia. cbn [foldl] in *. split; [apply IH|lia].
    + destruct (foldl _ _ _) as [X Y]. destruct IH as [IH1 IH2]. split; [done|]. intros _. apply IH2. lia.
Qed.
End cursor.

Section rows.
Context (w : Z).
Lemma laid_snoc t s q y : 0 <= s <= q -> q < zlen t -> laid w t s (q + 1) y = place w (laid w t s q y) (t.[q]).
Proof.
  intros Hs Hq. unfold laid. replace (q + 1 - s) with (q - s + 1) by lia. rewrite slice_plus by lia. replace (s + (q - s)) with q by lia. rewrite (slice_head t q 1) by lia. rewrite (slice_nil t (q + 1)) by lia. by rewrite foldl_app.
Qed.
Lemma laid_self t s y : laid w t s s y = (1, y).
Proof. unfold laid. by rewrite slice_nil by lia. Qed.
Lemma laid_trans t s m q y y' : 0 <= s <= m -> m <= q -> laid w t s m y = (1, y') -> laid w t s q y = laid w t m q y'.
Proof. intros Hs Hm E. unfold laid in *. replace (q - s) with ((m - s) + (q - m)) by lia. rewrite slice_plus, foldl_app, E by lia. by replace (s + (m - s)) with m by lia. Qed.

(** One row from [s]: the cells up to [q]; a row that ends before [q]. *)
Definition run (t : list Z) (s q : Z) : Prop := forall y, laid w t s q y = (1 + 8 * (q - s), y).
Definition row_to (t : list Z) (s q : Z) : Prop := forall y, laid w t s q y = (1, y + 8).
Definition last_row (d : scriber) : Z := (scriber_row_starts d).[scriber_row_count d - 1].
(** The rows of the text up to [i]. *)
Record rows_ok (d : scriber) (i : Z) : Prop := {
  ro_len : zlen (scriber_row_starts d) = SCRIBER_MAX_ROWS; ro_count : 1 <= scriber_row_count d <= SCRIBER_MAX_ROWS; ro_first : (scriber_row_starts d).[0] = 0;
  ro_rows : forall j, 0 <= j < scriber_row_count d - 1 -> let s := (scriber_row_starts d).[j] in let e := (scriber_row_starts d).[j + 1] in
    0 <= s < e /\ (forall q, s <= q < e -> run (scriber_buf d) s q) /\ row_to (scriber_buf d) s e;
  ro_last : 0 <= last_row d <= i /\ forall q, last_row d <= q <= i -> run (scriber_buf d) (last_row d) q;
}.
Lemma rows_end d i : rows_ok d i -> scriber_row_count d < SCRIBER_MAX_ROWS -> row_to (scriber_buf d) (last_row d) (i + 1) -> rows_ok (add_row (i + 1) d) (i + 1) /\ last_row (add_row (i + 1) d) = i + 1.
Proof.
  intros [L C F R [Hl Hr]] Hc Ht. unfold add_row. rewrite (proj2 (Z.ltb_lt _ _)) by done. unfold last_row in *. cbn [scriber_row_starts scriber_row_count scriber_buf set_rows]. set (n := scriber_row_count d) in *.
  assert (El : ((scriber_row_starts d).[n := i + 1]).[n + 1 - 1] = i + 1) by (replace (n + 1 - 1) with n by lia; apply aget_aset_eq; lia). split; [|done].
  split; cbn [scriber_row_starts scriber_row_count scriber_buf set_rows]; [by rewrite zlen_aset|unfold SCRIBER_MAX_ROWS in *; lia|by rewrite aget_aset_ne by lia| |].
  - intros j Hj. cbv zeta. rewrite (aget_aset_ne _ n j) by lia. destruct (decide (j = n - 1)) as [->|].
    + replace (n - 1 + 1) with n by lia. rewrite aget_aset_eq by lia. split; [lia|]. split; [intros q Hq; apply Hr; lia|done].
    + rewrite aget_aset_ne by lia. apply R. lia.
  - unfold last_row. cbn [scriber_row_starts scriber_row_count scriber_buf set_rows]. rewrite El. split; [lia|]. intros q Hq. replace q with (i + 1) by lia. intros y. rewrite laid_self. f_equal. lia.
Qed.
Lemma rows_same d i : rows_ok d i -> run (scriber_buf d) (last_row d) (i + 1) -> rows_ok d (i + 1).
Proof. intros [L C F R [Hl Hr]] Ht. split; try done. split; [lia|]. intros q Hq. destruct (decide (q = i + 1)) as [->|]; [done|]. apply Hr. lia. Qed.
Lemma add_row_count i d : scriber_row_count d <= scriber_row_count (add_row i d).
Proof. unfold add_row. case_match; cbn; lia. Qed.
Lemma build_loop_count n i x d : scriber_row_count d <= scriber_row_count (build_rows_loop w n i x d).
Proof.
  revert i x d. induction n as [|n IH]; intros i x d; cbn [build_rows_loop]; [lia|]. pose proof (add_row_count (i + 1) d).
  destruct (_ =? 10); [specialize (IH (i + 1) 1 (add_row (i + 1) d)); lia|]. destruct (_ <? _); [specialize (IH (i + 1) 1 (add_row (i + 1) d)); lia|apply IH].
Qed.
Lemma add_row_buf i d : scriber_buf (add_row i d) = scriber_buf d.
Proof. unfold add_row. by case_match. Qed.
Lemma build_loop_rows n i d : rows_ok d i -> i + Z.of_nat n <= zlen (scriber_buf d) -> scriber_row_count (build_rows_loop w n i (1 + 8 * (i - last_row d)) d) < SCRIBER_MAX_ROWS ->
  rows_ok (build_rows_loop w n i (1 + 8 * (i - last_row d)) d) (i + Z.of_nat n).
Proof.
  revert i d. induction n as [|n IH]; intros i d Hd Hn Hc; [by rewrite Z.add_0_r|]. cbn [build_rows_loop] in *. pose proof Hd as [L C F R [Hl Hr]].
  assert (Hstep : forall y, laid w (scriber_buf d) (last_row d) (i + 1) y = place w (1 + 8 * (i - last_row d), y) ((scriber_buf d).[i])) by (intros y; rewrite laid_snoc by lia; by rewrite (Hr i ltac:(lia) y)).
  assert (Hend : row_to (scriber_buf d) (last_row d) (i + 1) -> scriber_row_count (build_rows_loop w n (i + 1) 1 (add_row (i + 1) d)) < SCRIBER_MAX_ROWS -> rows_ok (build_rows_loop w n (i + 1) 1 (add_row (i + 1) d)) (i + Z.of_nat (S n))).
  { intros Ht Hc'. assert (Hcd : scriber_row_count d < SCRIBER_MAX_ROWS) by (pose proof (build_loop_count n (i + 1) 1 (add_row (i + 1) d)); pose proof (add_row_count (i + 1) d); lia).
    destruct (rows_end d i Hd Hcd Ht) as [Hd' El]. specialize (IH (i + 1) (add_row (i + 1) d) Hd'). rewrite El, Z.sub_diag, add_row_buf in IH. replace (i + Z.of_nat (S n)) with (i + 1 + Z.of_nat n) by lia. apply IH; [lia|done]. }
  destruct ((scriber_buf d).[i] =? 10) eqn:E10.
  - apply Hend; [|done]. intros y. rewrite Hstep. unfold place. by rewrite E10.
  - destruct (w - 8 <? 1 + 8 * (i - last_row d) + 8) eqn:Ew.
    + apply Hend; [|done]. intros y. rewrite Hstep. unfold place. by rewrite E10, Ew.
    + assert (Ht : run (scriber_buf d) (last_row d) (i + 1)) by (intros y; rewrite Hstep; unfold place; rewrite E10, Ew; f_equal; lia).
      specialize (IH (i + 1) d (rows_same d i Hd Ht)). replace (1 + 8 * (i + 1 - last_row d)) with (1 + 8 * (i - last_row d) + 8) in IH by lia. replace (i + Z.of_nat (S n)) with (i + 1 + Z.of_nat n) by lia. apply IH; [lia|done].
Qed.
Lemma row_loop_spec starts q n i : 1 <= i -> starts.[i - 1] <= q -> let r := row_of_loop starts q n i (i - 1) in
  0 <= r < i + Z.of_nat n /\ starts.[r] <= q /\ (r + 1 < i + Z.of_nat n -> q < starts.[r + 1]).
Proof.
  revert i. induction n as [|n IH]; intros i Hi Hq; cbn [row_of_loop]; [split; [lia|]; split; [done|lia]|]. destruct (Z.leb_spec (starts.[i]) q).
  - specialize (IH (i + 1) ltac:(lia)). replace (i + 1 - 1) with i in IH by lia. specialize (IH H). replace (i + Z.of_nat (S n)) with (i + 1 + Z.of_nat n) by lia. exact IH.
  - split; [lia|]. split; [done|]. intros _. by replace (i - 1 + 1) with i by lia.
Qed.
Lemma row_of_spec d i q : rows_ok d i -> 0 <= q -> let r := scriber_row_of d q in
  0 <= r < scriber_row_count d /\ (scriber_row_starts d).[r] <= q /\ (r + 1 < scriber_row_count d -> q < (scriber_row_starts d).[r + 1]).
Proof.
  intros [L C F _ _] Hq. unfold scriber_row_of, rounds. replace (Z.to_nat (scriber_row_count d - 0)) with (S (Z.to_nat (scriber_row_count d - 1))) by lia. cbn [row_of_loop]. rewrite F, (proj2 (Z.leb_le 0 q)) by done.
  pose proof (row_loop_spec (scriber_row_starts d) q (Z.to_nat (scriber_row_count d - 1)) 1 ltac:(lia)) as Hr. change (1 - 1) with 0 in Hr. rewrite F in Hr. specialize (Hr Hq). replace (1 + Z.of_nat (Z.to_nat (scriber_row_count d - 1))) with (scriber_row_count d) in Hr by lia. exact Hr.
Qed.
(** From the start of a row to a place [k] rows further down. *)
Lemma laid_rows d i k r q y : rows_ok d i -> 0 <= k <= r -> r < scriber_row_count d -> (scriber_row_starts d).[r] <= q <= i -> (r + 1 < scriber_row_count d -> q < (scriber_row_starts d).[r + 1]) ->
  laid w (scriber_buf d) ((scriber_row_starts d).[r - k]) q y = (1 + 8 * (q - (scriber_row_starts d).[r]), y + 8 * k) /\ 0 <= (scriber_row_starts d).[r - k] <= (scriber_row_starts d).[r].
Proof.
  intros Hd [Hk0 Hk] Hr Hq Hn. pose proof Hd as [L C F R [Hl Hlast]]. revert Hk y. pattern k. apply natlike_ind; [| |done].
  - intros Hr0. rewrite Z.sub_0_r. destruct (decide (r = scriber_row_count d - 1)) as [->|].
    + intros y. unfold last_row in *. rewrite (Hlast q) by lia. split; [f_equal; lia|lia].
    + intros y. destruct (R r) as (H1 & H2 & _); [lia|]. rewrite H2 by lia. split; [f_equal; lia|lia].
  - intros j Hj IH Hjr y. replace (r - Z.succ j) with (r - j - 1) by lia. destruct (R (r - j - 1)) as (H1 & _ & H3); [lia|]. replace (r - j - 1 + 1) with (r - j) in * by lia. destruct (IH ltac:(lia) (y + 8)) as [IH1 IH2]. split; [|lia].
    rewrite (laid_trans _ _ ((scriber_row_starts d).[r - j]) _ y (y + 8)); [|lia|lia|apply H3]. rewrite IH1. f_equal. lia.
Qed.
End rows.

Section placed.
Context {K W : Type} {HW : Desk W K} (font : Z -> Z -> Z).
(** The rows that [scriber_redraw] computes, and where it draws the cursor. *)
Definition rows_of (k : desk K W) : scriber := scriber_adjust_scroll (Vesa.Hheight (scr k)) (scriber_build_rows (Vesa.Wwidth (scr k)) (doc k)).
Definition cursor_cell (k : desk K W) : Z * Z :=
  let d := rows_of k in let start := (scriber_row_starts d).[scriber_top_row d] in let view_h := Vesa.Hheight (scr k) - SCRIBER_BAR_H in
  (redraw_loop font (scriber_buf d) (scriber_len d) (scriber_pos d) (Vesa.Wwidth (scr k)) view_h (rounds start (scriber_len d + 1)) start 1 1 1 1 (Vesa.vesa_draw_rec 0 0 (Vesa.Wwidth (scr k)) view_h 0 (scr k)).2).1.
Lemma redraw_cursor (k : desk K W) : exists v, scriber_redraw font k = on_scr (Vesa.vesa_draw_rec (cursor_cell k).1 ((cursor_cell k).2 + 1) 3 7 0xFFFF00) (mk_desk (rows_of k) v (keys k) (env k)).
Proof.
  unfold scriber_redraw, cursor_cell. rewrite (bind_run (gets _) _ k k k) by done. do 2 rewrite (bind_run (on_doc _) _ _ tt _ eq_refl). cbn [doc scr keys env]. fold (rows_of k).
  destruct (Vesa.vesa_draw_rec 0 0 (Vesa.Wwidth (scr k)) (Vesa.Hheight (scr k) - SCRIBER_BAR_H) 0 (scr k)) as [u v0] eqn:E0. cbn [snd].
  rewrite (bind_run (on_scr _) _ _ u (mk_desk (rows_of k) v0 (keys k) (env k))) by (unfold on_scr; cbn [doc scr keys env]; by rewrite E0). rewrite (bind_run (gets doc) _ _ (rows_of k) (mk_desk (rows_of k) v0 (keys k) (env k))) by done.
  set (loop := redraw_loop _ _ _ _ _ _ _ _ _ _ _ _). destruct (loop v0) as [[X Y] v1] eqn:E1. rewrite (bind_run (on_scr loop) _ _ (X, Y) (mk_desk (rows_of k) v1 (keys k) (env k))) by (unfold on_scr; cbn [doc scr keys env]; by rewrite E1). by exists v1.
Qed.
Lemma build_rows_ok d b a w : at_ d b a -> zlen (scriber_row_starts d) = SCRIBER_MAX_ROWS -> scriber_row_count (scriber_build_rows w d) < SCRIBER_MAX_ROWS -> rows_ok w (scriber_build_rows w d) (zlen (b ++ a)).
Proof.
  intros Ha Hz Hc. unfold scriber_build_rows in *. rewrite (at_len _ _ _ Ha) in *. set (d0 := set_rows ((scriber_row_starts d).[0 := 0]) 1 d) in *. pose proof (zlen_nonneg (b ++ a)).
  assert (El : last_row d0 = 0) by (unfold last_row; cbn; apply aget_aset_eq; unfold SCRIBER_MAX_ROWS in *; lia).
  assert (H0 : rows_ok w d0 0).
  { split; cbn; [by rewrite zlen_aset|unfold SCRIBER_MAX_ROWS; lia|exact El|lia|]. rewrite El. split; [lia|]. intros q Hq y. replace q with 0 by lia. by rewrite laid_self. }
  pose proof (build_loop_rows w (Z.to_nat (zlen (b ++ a))) 0 d0 H0) as Hl. rewrite El in Hl. change (1 + 8 * (0 - 0)) with 1 in Hl. rewrite Z2Nat.id, Z.add_0_l in Hl by lia. apply Hl; [|done]. cbn. rewrite (at_buf _ _ _ Ha). pose proof (at_fits _ _ _ Ha). lia.
Qed.
(** After the scroll the row of the cursor is one of those in view. *)
Lemma adjust_view w h d i : rows_ok w d i -> 0 <= scriber_pos d -> 8 <= h - SCRIBER_BAR_H -> let e := scriber_adjust_scroll h d in
  let r := scriber_row_of d (scriber_pos d) in 0 <= scriber_top_row e <= r /\ r - scriber_top_row e < (h - SCRIBER_BAR_H) / 8.
Proof.
  intros Hd Hp Hh. destruct (row_of_spec w d i _ Hd Hp) as (Hr & _ & _). unfold scriber_adjust_scroll. cbn [scriber_top_row set_top]. set (r := scriber_row_of d (scriber_pos d)) in *. rewrite Z.quot_div_nonneg by lia.
  assert (1 <= (h - SCRIBER_BAR_H) / 8) by (apply Z.div_le_lower_bound; lia). set (m := (h - SCRIBER_BAR_H) / 8) in *. set (t := scriber_top_row d). clearbody m t r. cbv zeta.
  repeat match goal with |- context [Z.ltb ?x ?y] => lazymatch x with context [Z.ltb _ _] => fail | _ => lazymatch y with context [Z.ltb _ _] => fail | _ => destruct (Z.ltb_spec x y) end end end; lia.
Qed.

#[local] Abbreviation paints := (VesaProps.paints (H := K)).
(** The loop draws white characters on black. *)
Definition monochrome (f : Z -> Z -> option Z) : Prop := forall px py, f px py = None \/ f px py = Some 0 \/ f px py = Some 0xFFFFFF.
Lemma paints_same g (m m' : st (Vesa.vesa K) unit) f : (forall s, m' s = m s) -> paints g m f -> paints g m' f.
Proof. intros E Hm s Hs. rewrite E. by apply Hm. Qed.
Lemma char_paints g c x y : VesaProps.good g -> 0 <= x <= 8192 -> 0 <= y < 2 ^ 30 -> exists f, monochrome f /\ paints g (Vesa.vesa_draw_char_34 font c x y 0xFFFFFF 0) f.
Proof.
  intros G Hx Hy. destruct (decide (0 <= c <= 127)) as [Hc|Hc].
  - eexists. split; [|by apply VesaProps.draw_char_paints; [|lia..]]. intros px py. unfold VesaProps.grid, Vesa.glyph_color. repeat case_match; auto.
  - exists (fun _ _ => None). split; [by left|]. unfold Vesa.vesa_draw_char_34. apply VesaProps.paints_geo. rewrite (VesaProps.go_ready g G). cbn [negb].
    replace ((c <? 0) || (127 <? c)) with true; [apply VesaProps.paints_ret|]. symmetry. apply orb_true_iff. rewrite !Z.ltb_lt. lia.
Qed.
Lemma loop_paints g buf len pos w view_h n i x y cx cy : VesaProps.good g -> w <= 8192 -> 0 <= x <= 8192 -> 0 <= y -> y + 8 * Z.of_nat n < 2 ^ 30 ->
  exists f, monochrome f /\ paints g (_ ← redraw_loop font buf len pos w view_h n i x y cx cy; mret tt) f.
Proof.
  intros G Hw. revert i x y cx cy. induction n as [|n IH]; intros i x y cx cy Hx Hy Hn; cbn [redraw_loop].
  { exists (fun _ _ => None). split; [by left|apply VesaProps.paints_ret]. }
  destruct (if i =? pos then (x, y) else (cx, cy)) as [cx' cy']. destruct (i =? len); [exists (fun _ _ => None); split; [by left|apply VesaProps.paints_ret]|].
  destruct (_ =? 10); [apply IH; lia|]. destruct (char_paints g (buf.[i]) x y G) as (f1 & M1 & P1); [done|lia|].
  set (xy := if w - 8 <? x + 8 then _ else _). assert (Hxy : 0 <= xy.1 <= 8192 /\ y <= xy.2 <= y + 8) by (unfold xy; destruct (Z.ltb_spec (w - 8) (x + 8)); cbn; lia). destruct xy as [x' y']. cbn in Hxy.
  assert (H2 : exists f2, monochrome f2 /\ paints g (_ ← (if view_h - 8 <? y' then mret (cx', cy') else redraw_loop font buf len pos w view_h n (i + 1) x' y' cx' cy'); mret tt) f2).
  { destruct (_ <? y'); [exists (fun _ _ => None); split; [by left|apply VesaProps.paints_ret]|apply IH; lia]. }
  destruct H2 as (f2 & M2 & P2). eexists. split; [|eapply paints_same; [|exact (VesaProps.paints_seq g _ _ _ _ P1 P2)]].
  - intros px py. cbn beta. destruct (f2 px py) eqn:E2; [rewrite <- E2; apply M2|apply M1].
  - intros s. unfold mbind, st_bind. by destruct (Vesa.vesa_draw_char_34 _ _ _ _ _ _ s).
Qed.
(** The picture after [scriber_redraw]: in the view a pixel is yellow exactly
    where the cursor is. *)
Lemma redraw_yellow k : VesaProps.good (Vesa.geo (scr k)) -> SCRIBER_BAR_H <= Vesa.Hheight (scr k) -> 0 <= (scriber_row_starts (rows_of k)).[scriber_top_row (rows_of k)] -> scriber_len (rows_of k) <= SCRIBER_BUF_SIZE ->
  0 <= (cursor_cell k).1 <= 2 ^ 30 -> 0 <= (cursor_cell k).2 <= 2 ^ 30 ->
  let k' := (scriber_redraw font k).2 in (doc k', keys k', env k') = (rows_of k, keys k, env k) /\ Vesa.geo (scr k') = Vesa.geo (scr k) /\
  forall px py, 0 <= px < Vesa.Wwidth (scr k) -> 0 <= py < Vesa.Hheight (scr k) - SCRIBER_BAR_H ->
    (VesaProps.pixel (scr k') px py = 0xFFFF00 <-> (cursor_cell k).1 <= px < (cursor_cell k).1 + 3 /\ (cursor_cell k).2 + 1 <= py < (cursor_cell k).2 + 8).
Proof.
  intros G Hh Hs Hl Hx Hy. pose proof (VesaProps.go_width _ G) as Gw. pose proof (VesaProps.go_height _ G) as Gh. set (g := Vesa.geo (scr k)) in *.
  set (d := rows_of k) in *. set (view_h := Vesa.Hheight (scr k) - SCRIBER_BAR_H). set (w := Vesa.Wwidth (scr k)). assert (Hbar : SCRIBER_BAR_H = 16) by done. assert (Hbuf : SCRIBER_BUF_SIZE = 16384) by done.
  assert (Hgh : Vesa.Hheight (scr k) = Vesa.fb_height g) by done. assert (Hgw : w = Vesa.fb_width g) by done.
  set (start := (scriber_row_starts d).[scriber_top_row d]) in *.
  destruct (loop_paints g (scriber_buf d) (scriber_len d) (scriber_pos d) w view_h (rounds start (scriber_len d + 1)) start 1 1 1 1 G) as (f & Mf & Pf); [lia|lia|lia|unfold rounds; lia|].
  pose proof (VesaProps.draw_rec_paints (H := K) g 0 0 w view_h 0 G ltac:(unfold VesaProps.extends; lia) ltac:(unfold VesaProps.extends, view_h; lia)) as P0.
  pose proof (VesaProps.draw_rec_paints (H := K) g (cursor_cell k).1 ((cursor_cell k).2 + 1) 3 7 0xFFFF00 G ltac:(unfold VesaProps.extends; lia) ltac:(unfold VesaProps.extends; lia)) as P2.
  destruct (P0 (scr k) eq_refl) as (r0 & E0 & Q0 & _). destruct (Pf (Vesa.set_ram r0 (scr k)) eq_refl) as (r1 & E1 & Q1 & _). destruct (P2 (Vesa.set_ram r1 (scr k)) eq_refl) as (r2 & E2 & Q2 & _).
  unfold mbind, st_bind in E1. destruct (redraw_loop font (scriber_buf d) (scriber_len d) (scriber_pos d) w view_h (rounds start (scriber_len d + 1)) start 1 1 1 1 (Vesa.set_ram r0 (scr k))) as [[X Y] v1] eqn:El.
  assert (v1 = Vesa.set_ram r1 (scr k)) as -> by exact (f_equal snd E1).
  assert (Ec : cursor_cell k = (X, Y)) by (change (cursor_cell k) with (redraw_loop font (scriber_buf d) (scriber_len d) (scriber_pos d) w view_h (rounds start (scriber_len d + 1)) start 1 1 1 1 (Vesa.vesa_draw_rec 0 0 w view_h 0 (scr k)).2).1; rewrite E0; exact (f_equal fst El)). rewrite Ec in *. cbn [fst snd] in *.
  assert (Er : scriber_redraw font k = (tt, mk_desk d (Vesa.set_ram r2 (scr k)) (keys k) (env k))).
  { unfold scriber_redraw. rewrite (bind_run (gets _) _ k k k) by done. do 2 rewrite (bind_run (on_doc _) _ _ tt _ eq_refl). cbn [doc scr keys env]. fold (rows_of k) d w view_h.
    rewrite (bind_run (on_scr _) _ _ tt (mk_desk d (Vesa.set_ram r0 (scr k)) (keys k) (env k))) by (unfold on_scr; cbn [doc scr keys env]; by rewrite E0). rewrite (bind_run (gets doc) _ _ d (mk_desk d (Vesa.set_ram r0 (scr k)) (keys k) (env k))) by done. fold start.
    rewrite (bind_run (on_scr _) _ _ (X, Y) (mk_desk d (Vesa.set_ram r1 (scr k)) (keys k) (env k))) by (unfold on_scr; cbn [doc scr keys env]; by rewrite El). unfold on_scr. cbn [doc scr keys env]. by rewrite E2. }
  rewrite Er. cbn [snd doc keys env scr]. split; [done|]. split; [done|]. intros px py Hpx Hpy. assert (Hon : VesaProps.on_screen g px py) by (split; unfold view_h in *; lia).
  unfold VesaProps.pixel. change (Vesa.ram (Vesa.set_ram r2 (scr k))) with r2. change (Vesa.geo (Vesa.set_ram r2 (scr k))) with g. rewrite Q2, Q1, Q0 by done. change (Vesa.ram (Vesa.set_ram r1 (scr k))) with r1. change (Vesa.ram (Vesa.set_ram r0 (scr k))) with r0. unfold VesaProps.block.
  destruct (decide (X <= px < X + 3 /\ Y + 1 <= py < Y + 1 + 7)) as [Hin|Hout]; [split; [intros _; lia|done]|]. split; [|lia]. intros Ep. exfalso.
  destruct (Mf px py) as [E|[E|E]]; rewrite E in Ep; [|by vm_compute in Ep..]. rewrite decide_True in Ep by (unfold view_h; lia). by vm_compute in Ep.
Qed.

Lemma at_prefix d b a : at_ d b a -> slice (scriber_buf d) 0 (zlen b) = b.
Proof.
  intros Ha. pose proof (at_fits _ _ _ Ha) as Hf. pose proof (at_buf _ _ _ Ha) as Hb. pose proof (zlen_nonneg a). pose proof (zlen_nonneg b). rewrite zlen_app in Hf.
  assert (Hz : zlen (slice (scriber_buf d) 0 (zlen b)) = zlen b) by (apply zlen_slice; lia). apply list_eq_aget; [done|]. intros i Hi. rewrite aget_slice, Z.add_0_l by lia.
  rewrite (at_get _ _ _ _ Ha) by (rewrite zlen_app; lia). unfold aget. rewrite lookup_total_app_l; [done|unfold zlen in *; lia].
Qed.
(** The cell of the cursor in terms of the rows computed, and its place on a
    page without end. *)
Lemma cursor_cell_place k b a : at_ (doc k) b a -> zlen (scriber_row_starts (doc k)) = SCRIBER_MAX_ROWS -> SCRIBER_BAR_H + 8 <= Vesa.Hheight (scr k) ->
  let d := rows_of k in scriber_row_count d < SCRIBER_MAX_ROWS ->
  let row := scriber_row_of d (zlen b) in let x := 1 + 8 * (zlen b - (scriber_row_starts d).[row]) in
  let below_top := row - scriber_top_row d in let in_view := (Vesa.Hheight (scr k) - SCRIBER_BAR_H) / 8 in
  0 <= below_top < in_view /\
  (below_top < in_view - 1 \/ Vesa.Hheight (scr k) mod 8 <> 0 -> cursor_cell k = (x, 1 + 8 * below_top)) /\
  (below_top = in_view - 1 -> Vesa.Hheight (scr k) mod 8 = 0 -> x <> 1 -> cursor_cell k = (1, 1)) /\
  foldl (place (Vesa.Wwidth (scr k))) (1, 1) b = (x, 1 + 8 * row) /\
  core d = core (doc k) /\ 0 <= (scriber_row_starts d).[scriber_top_row d] /\ scriber_len d <= SCRIBER_BUF_SIZE /\ 1 <= x <= 1 + 8 * SCRIBER_BUF_SIZE.
Proof.
  intros Ha Hz Hh d Hc row x below_top in_view. set (w := Vesa.Wwidth (scr k)). set (h := Vesa.Hheight (scr k)) in *. pose proof (zlen_nonneg b). pose proof (zlen_nonneg a).
  set (e := scriber_build_rows w (doc k)). assert (Hd : rows_ok w e (zlen (b ++ a))) by (by apply build_rows_ok).
  assert (Ec : core e = core (doc k)) by apply build_rows_core. injection Ec as Eb Elen Epos _ _ _ _. rewrite (at_pos _ _ _ Ha) in Epos. rewrite (at_len _ _ _ Ha) in Elen.
  destruct (adjust_view w h e _ Hd) as [Hv1 Hv2]; [lia|lia|]. rewrite Epos in Hv1, Hv2. change (scriber_row_of e (zlen b)) with row in Hv1, Hv2. change (scriber_top_row (scriber_adjust_scroll h e)) with (scriber_top_row d) in Hv1, Hv2.
  split; [unfold below_top, in_view; lia|]. destruct (row_of_spec w e _ (zlen b) Hd) as (Hr1 & Hr2 & Hr3); [done|]. change (scriber_row_of e (zlen b)) with row in Hr1, Hr2, Hr3.
  destruct (laid_rows w e _ below_top row (zlen b) 1 Hd) as [El Es]; [unfold below_top; lia|lia|rewrite zlen_app; lia|done|]. replace (row - below_top) with (scriber_top_row d) in El, Es by (unfold below_top; lia).
  unfold cursor_cell. fold d w h. change (scriber_buf d) with (scriber_buf e). change (scriber_len d) with (scriber_len e). change (scriber_pos d) with (scriber_pos e). change (scriber_row_starts d) with (scriber_row_starts e) in *. rewrite Elen, Epos.
  set (start := (scriber_row_starts e).[scriber_top_row d]) in *. unfold laid in El.
  pose proof (@redraw_finds K font (scriber_buf e) (zlen (b ++ a)) (zlen b) w (h - SCRIBER_BAR_H)) as Hf. specialize (Hf ltac:(rewrite zlen_app; lia)). rewrite Eb in *. rewrite (at_buf _ _ _ Ha) in Hf. pose proof (at_fits _ _ _ Ha).
  specialize (Hf ltac:(lia) (rounds start (zlen (b ++ a) + 1)) start 1 1 1 1 (Vesa.vesa_draw_rec 0 0 w (h - SCRIBER_BAR_H) 0 (scr k)).2 ltac:(lia) (le_n _)). rewrite El in Hf. destruct Hf as [Hf1 Hf2]. change (1 + 8 * (zlen b - (scriber_row_starts e).[row])) with x in Hf1, Hf2. unfold SCRIBER_BAR_H in *.
  split; [|split; [|split; [|split; [|split; [|split]]]]].
  - intros Hb. rewrite Hf1; [done|]. unfold below_top, in_view in *. destruct Hb; zdm.
  - intros Hb Hm Hx. apply Hf2; [|unfold in_view in *; zdm|done]. destruct (decide (start = zlen b)) as [E|]; [|lia]. exfalso. unfold x in Hx. lia.
  - destruct (laid_rows w e _ row row (zlen b) 1 Hd) as [El0 _]; [lia|lia|rewrite zlen_app; lia|done|]. rewrite Z.sub_diag, (ro_first _ _ _ Hd) in El0. unfold laid in El0. rewrite Eb, Z.sub_0_r in El0.
    rewrite (at_prefix _ _ _ Ha) in El0. exact El0.
  - exact (build_rows_core w (doc k)).
  - exact (proj1 Es).
  - lia.
  - rewrite zlen_app in *. change x with (1 + 8 * (zlen b - (scriber_row_starts e).[row])). unfold SCRIBER_BUF_SIZE in *. lia.
Qed.

(** From [s] to [s']: the same screen, and in its view the yellow pixels are
    those of the cursor at (X, Y). *)
Definition cursor_drawn (s s' : Vesa.vesa K) (X Y : Z) : Prop := Vesa.geo s' = Vesa.geo s /\ forall px py, 0 <= px < Vesa.Wwidth s -> 0 <= py < Vesa.Hheight s - SCRIBER_BAR_H ->
  (VesaProps.pixel s' px py = 0xFFFF00 <-> X <= px < X + 3 /\ Y + 1 <= py < Y + 8).

(** C40 - Where the text editor draws its cursor, on a screen of 32-bit pixels
    and in a text of less than 600 rows. Let (x, y) be the place of the cursor
    when the text before it is laid out on a page without end. [scriber_redraw]
    scrolls so that its row is in view, and in the view the yellow pixels are
    exactly those of the cursor at (x, y), moved up by the rows scrolled away,
    unless it is in the lowest row of the view on a screen whose height is a
    multiple of eight, as those of all usual modes: there a cursor that is not
    at the start of its row is drawn in the top left corner instead, so that
    from the moment the text is longer than the screen typing at its end loses
    the cursor. (At the start of that row it may be either.) The text, the name
    and the mode, the keyboard and the world do not change. *)
Theorem scriber_cursor_place (k : desk K W) b a : VesaProps.good (Vesa.geo (scr k)) -> at_ (doc k) b a -> zlen (scriber_row_starts (doc k)) = SCRIBER_MAX_ROWS -> SCRIBER_BAR_H + 8 <= Vesa.Hheight (scr k) ->
  let k' := (scriber_redraw font k).2 in scriber_row_count (doc k') < SCRIBER_MAX_ROWS ->
  let '(x, y) := foldl (place (Vesa.Wwidth (scr k))) (1, 1) b in
  let y' := y - 8 * scriber_top_row (doc k') in let lowest := 1 + 8 * ((Vesa.Hheight (scr k) - SCRIBER_BAR_H) / 8 - 1) in
  1 <= y' <= lowest /\
  (y' < lowest \/ Vesa.Hheight (scr k) mod 8 <> 0 -> cursor_drawn (scr k) (scr k') x y') /\
  (y' = lowest -> Vesa.Hheight (scr k) mod 8 = 0 -> x <> 1 -> cursor_drawn (scr k) (scr k') 1 1) /\
  core (doc k') = core (doc k) /\ keys k' = keys k /\ env k' = env k.
Proof.
  intros G Ha Hz Hh k' Hc. destruct (redraw_cursor k) as [v Ev].
  assert (Ed : doc k' = rows_of k) by (unfold k'; rewrite Ev; unfold on_scr; by destruct (Vesa.vesa_draw_rec _ _ _ _ _ _)). rewrite Ed in Hc.
  destruct (cursor_cell_place k b a Ha Hz Hh Hc) as (Hv & Hfound & Hlost & El & Ecore & Hs & Hl & Hx). rewrite El. rewrite Ed. cbv zeta.
  pose proof (VesaProps.go_height _ G) as Gh. assert (Hgh : Vesa.Hheight (scr k) = Vesa.fb_height (Vesa.geo (scr k))) by done.
  set (x := 1 + 8 * (zlen b - _)) in *. set (row := scriber_row_of _ _) in *. set (m := (Vesa.Hheight (scr k) - SCRIBER_BAR_H) / 8) in *.
  assert (Hm : m <= 1024) by (unfold m, SCRIBER_BAR_H in *; zdm).
  assert (Hdraw : forall X Y, cursor_cell k = (X, Y) -> 0 <= X <= 2 ^ 30 -> 0 <= Y <= 2 ^ 30 -> cursor_drawn (scr k) (scr k') X Y).
  { intros X Y E HX HY. destruct (redraw_yellow k G) as (Ek & Eg & Hy); [lia|done|done|by rewrite E|by rewrite E|]. fold k' in Ek, Eg, Hy. rewrite E in Hy.
    by split. }
  unfold SCRIBER_BUF_SIZE in *. split; [lia|]. split; [|split; [|split; [done|]]].
  - intros Hb. apply Hdraw; [|lia|lia]. rewrite Hfound by lia. f_equal. lia.
  - intros Hb Hmod Hne. apply Hdraw; [|lia|lia]. apply Hlost; [lia|done|done].
  - destruct (redraw_quiet font k) as (Q1 & Q2 & _). by split.
Qed.
End placed.

(** ** A name entered and confirmed *)

#[export] Instance folder_desk : Desk (list (list Z * list Z)) unit := {
  vfs_write_file path contents _ _ := fun w => (zlen contents, w ++ [(path, contents)]); terminal_show_prompt := mret tt }.
Definition dark_screen : Vesa.vesa unit := Vesa.mk_vesa (Vesa.mk_geom false 0 640 480 32 2560) ∅ 0 0 0 0 [] 0 0 false [] 0 false.
Definition no_font (c r : Z) : Z := 0.
Definition doc_demo : scriber := mk_scriber ([104; 10; 105] ++ replicate (Z.to_nat 16381) 0) 3 1 SCRIBER_MODE_FNAME (97 :: replicate 31 0) 1 (replicate 600 0) 1 0 0.
Definition desk_demo : desk unit (list (list Z * list Z)) := mk_desk doc_demo dark_screen focus_boot [].
Definition page_demo : page := mk_page [] [104] [] [[105]].
Lemma doc_demo_rep : rep doc_demo page_demo (Naming [97]).
Proof. split; [split; [split; vm_compute; reflexivity|split; vdec]|by vm_compute|done|split; [vdec|vfacts]]. Qed.
Lemma scriber_edits_witness : rep doc_demo page_demo (Naming [97]) /\ env (scriber_key no_font 10 desk_demo).2 = [([97], [104; 10; 105])].
Proof.
  split; [exact doc_demo_rep|]. destruct (scriber_edits no_font 10 desk_demo page_demo (Naming [97]) doc_demo_rep) as (_ & _ & E). exact (eq_trans (f_equal snd E) eq_refl).
Defined.
(** Two rows in view, three in the text. *)
Definition low_screen : Vesa.vesa unit := Vesa.mk_vesa (Vesa.mk_geom true 0 640 32 32 2560) ∅ 0 0 0 0 [] 0 0 false [] 0 false.
Definition long_demo : desk unit (list (list Z * list Z)) :=
  mk_desk (mk_scriber ([10; 10; 97] ++ replicate (Z.to_nat 16381) 0) 3 3 SCRIBER_MODE_EDIT (replicate 32 0) 0 (replicate 600 0) 0 0 0) low_screen focus_boot [].
Lemma scriber_cursor_place_witness : at_ (doc long_demo) [10; 10; 97] [] /\ let k' := (scriber_redraw no_font long_demo).2 in scriber_top_row (doc k') = 1 /\ VesaProps.pixel (scr k') 1 2 = 0xFFFF00.
Proof.
  assert (Ha : at_ (doc long_demo) [10; 10; 97] []) by (split; vm_compute; reflexivity). split; [exact Ha|]. split; [by vm_compute|].
  pose proof (scriber_cursor_place no_font long_demo [10; 10; 97] [] ltac:(by constructor) Ha ltac:(by vm_compute) ltac:(by vm_compute) ltac:(by vm_compute)) as (_ & _ & Hl & _).
  destruct (Hl ltac:(by vm_compute) ltac:(by vm_compute) ltac:(done)) as [_ Hp]. apply Hp; vm_compute; intuition congruence.
Defined.
End ScriberProps.
