(* ===== verification/Shell.v ===== *)
(** Commands of the shell on files and texts (src/commands.c): loading a text
    and its lines, [head], [tail], [wc], [grep], [sort], [uniq], [cat], and
    copying, moving and removing files and directories.

    What the commands call is the class [Calls]: the system calls on files,
    the directories of src/vfs.c and the log. A pointer to a line is its
    offset in [text_buf]. The theorems on texts are about any such calls, in
    the runs in which the file opens and reads; [ShellVfs] has the calls of the
    modelled virtual file system and shows that an open COSFS file reads so. *)
From Stdlib Require Import String Ascii.
From S2P Require Import Prelude CString Disk CosData CosAlloc CosFile CosFormat CosAllocSpec CosVol CosTree CosContent CosBlocks CosCreate CosDemo FatData VfsPath VfsData VfsBackend VfsMount Vfs VfsFiles.
From stdpp Require Import base list gmap numbers.
From Stdlib Require Import ZArith Lia.
Import CString.
Open Scope Z_scope.

(** Arguments of formatted messages. *)
Inductive larg := LInt (v : Z) | LStr (s : list Z).
Record dirent := mk_dirent { d_name : list Z; d_is_dir : bool; d_size : Z }.
Class Calls (W : Type) := {
  r3_open : list Z -> Z -> st W Z;
  (** the result and the bytes stored *)
  r3_read : Z -> Z -> st W (Z * list Z);
  r3_write : Z -> list Z -> st W Z;
  r3_lseek : Z -> Z -> Z -> st W Z;
  r3_close : Z -> st W Z;
  r3_unlink : list Z -> st W Z;
  r3_mkdir : list Z -> st W Z;
  vfs_remove : list Z -> st W Z;
  (** [is_dir]; [None] is an error *)
  vfs_stat : list Z -> st W (option bool);
  (** the entries, or an error *)
  vfs_readdir : list Z -> Z -> st W (Z + list dirent);
  vfs_strerror : Z -> list Z;
  klog : list Z -> st W unit;
  klog_color : list Z -> Z -> st W unit;
  klogf : list Z -> list larg -> st W unit;
  kklog : list Z -> st W unit;
  kklogf : list Z -> list larg -> st W unit;
  vfs_chdir : list Z -> st W Z;
  vfs_getcwd : W -> list Z;
  vesa_print_string : list Z -> st W unit;
}.

Module Shell.

Definition txt (s : string) : list Z := (fun a => Z.of_nat (nat_of_ascii a)) <$> list_ascii_of_string s.
Arguments txt s%_string_scope.
Definition VFS_PATH_MAX : Z := 128.
Definition TEXT_BUF_SIZE : Z := 32768.
Definition TEXT_MAX_LINES : Z := 512.
Definition COPY_BUF : Z := 4096.
Definition O_RDONLY : Z := 0.
Definition O_CREATE : Z := Z.lor 0x0001 0x0040.
Definition O_REWRITE : Z := Z.lor (Z.lor 0x0001 0x0040) 0x0200.
Definition SEEK_SET : Z := 0.
Definition SEEK_END : Z := 2.
(** A file holds less than 2^32 bytes and a read that is not the last brings [COPY_BUF]. *)
Definition COPY_ROUNDS : nat := Z.to_nat (2 ^ 20 + 1).

(** ** Names *)

Definition base_name (path : list Z) : list Z := match strrchr path 47 with Some i => cstr (drop (Z.to_nat (i + 1)) path) | None => cstr path end.
Definition path_join (outsz : Z) (dir name : list Z) : list Z :=
  let out := take (Z.to_nat (outsz - 1)) (cstr dir) in
  let out := if (0 <? zlen out) && negb (out.[zlen out - 1] =? 47) && (zlen out <? outsz - 1) then out ++ [47] else out in
  out ++ take (Z.to_nat (outsz - 1 - zlen out)) (cstr name).
(** The copy [cmd_dirname] makes of its argument. *)
Definition dir_buf (path : list Z) : list Z := cstr (take (Z.to_nat (VFS_PATH_MAX - 1)) path).
Definition is_dot (name : list Z) : bool := (strcmp name [46] =? 0) || (strcmp name [46; 46] =? 0).
Definition is_option (arg : list Z) : bool := (hd0 arg =? 45) && negb (hd0 (tail arg) =? 0).
(** The letters of the options and the first sixteen other arguments. *)
Definition options (args : list (list Z)) : list Z := List.concat ((fun a => if is_option a then cstr (tail a) else []) <$> args).
Definition operands (args : list (list Z)) : list (list Z) := take 16 (filter (fun a => is_option a = false) args).
Definition last_of (l : list (list Z)) : option (list Z) := head (rev l).
Definition has (c : Z) (letters : list Z) : bool := existsb (Z.eqb c) letters.

Section commands.
Context {W : Type} {HW : Calls W}.

Fixpoint each {A} (f : A -> st W unit) (l : list A) : st W unit := match l with [] => mret tt | x :: l => f x;; each f l end.

(** ** Texts *)

Record shell := mk_shell { text_buf : list Z; text_lines : list Z; sys : W }.
#[local] Abbreviation M := (st shell).
Definition call {R} (m : st W R) : M R := fun s => let (r, w) := m (sys s) in (r, mk_shell (text_buf s) (text_lines s) w).
Definition load_file (path : list Z) : M Z :=
  fd ← call (r3_open path O_RDONLY);
  if fd <? 0 then mret (-1) else
  size ← call (r3_lseek fd 0 SEEK_END);
  _ ← call (r3_lseek fd 0 SEEK_SET);
  let count := if TEXT_BUF_SIZE <? size then TEXT_BUF_SIZE else if 0 <? size then size else 0 in
  bytes ← (if count =? 0 then mret 0 else
    '(n, bs) ← call (r3_read fd count);
    modify (fun s => mk_shell (splice (text_buf s) 0 bs) (text_lines s) (sys s));; mret n);
  _ ← call (r3_close fd);
  mret bytes.
(** [n] lines so far, the next begins at [start]; [lines] is the array of pointers. *)
Fixpoint split_loop (k : nat) (i start n : Z) (buf lines : list Z) : Z * Z * list Z * list Z :=
  match k with
  | O => (start, n, buf, lines)
  | S k =>
      if buf.[i] =? 10 then
        if n <? TEXT_MAX_LINES then split_loop k (i + 1) (i + 1) (n + 1) (buf.[i := 0]) (put_le 4 lines (n * 4) start)
        else split_loop k (i + 1) (i + 1) n (buf.[i := 0]) lines
      else split_loop k (i + 1) start n buf lines
  end.
Definition split_lines (bytes : Z) : M Z :=
  s ← gets (fun s => s);
  let '(start, n, buf, lines) := split_loop (Z.to_nat bytes) 0 0 0 (text_buf s) (text_lines s) in
  let last := (start <? bytes) && (n <? TEXT_MAX_LINES) in
  modify (fun s => mk_shell buf (if last then put_le 4 lines (n * 4) start else lines) (sys s));;
  mret (if last then n + 1 else n).
Definition line_at (buf lines : list Z) (i : Z) : list Z := cstr (drop (Z.to_nat (get_le 4 lines (i * 4))) buf).
Definition print_line (i : Z) : M unit := s ← gets (fun s => s); call (klogf (txt "%s" ++ [10]) [LStr (line_at (text_buf s) (text_lines s) i)]).

(** The loop over the arguments of [head] and [tail]. *)
Fixpoint count_args (args : list (list Z)) (n : Z) (path : option (list Z)) : Z * option (list Z) :=
  match args with
  | [] => (n, path)
  | a :: args => 
      match args with
      | v :: args' => if strcmp a (txt "-n") =? 0 then count_args args' (atoi v) path else count_args args n (Some a)
      | [] => count_args args n (Some a)
      end
  end.
(** Usage, a file that cannot be opened, and what is done with its lines. *)
Definition on_lines (usage fail : list Z) (path : option (list Z)) (f : Z -> M unit) : M unit :=
  match path with
  | None => call (kklog usage)
  | Some path =>
      bytes ← load_file path;
      if bytes <? 0 then call (kklogf fail [LStr path]) else
      count ← split_lines bytes; f count
  end.
Definition cmd_head (args : list (list Z)) : M unit :=
  let '(n, path) := count_args args 10 None in
  on_lines (txt "Usage: head [-n N] <file>" ++ [10]) (txt "head: cannot open '%s'" ++ [10]) path (fun count =>
    ffor (rounds 0 (if n <? count then n else count)) 0 print_line).
Definition cmd_tail (args : list (list Z)) : M unit :=
  let '(n, path) := count_args args 10 None in
  on_lines (txt "Usage: tail [-n N] <file>" ++ [10]) (txt "tail: cannot open '%s'" ++ [10]) path (fun count =>
    let from := s32 (count - n) in let from := if from <? 0 then 0 else from in ffor (rounds from count) from print_line).
Fixpoint wc_loop (l : list Z) (lines words : Z) (inword : bool) : Z * Z :=
  match l with
  | [] => (lines, words)
  | c :: l =>
      let lines := if c =? 10 then lines + 1 else lines in
      if (c =? 32) || (c =? 9) || (c =? 10) then wc_loop l lines words false
      else wc_loop l lines (if inword then words else words + 1) true
  end.
Definition cmd_wc (args : list (list Z)) : M unit :=
  let o := options args in
  let all := negb (has 108 o) && negb (has 119 o) && negb (has 99 o) in
  match last_of (filter (fun a => is_option a = false) args) with
  | None => call (kklog (txt "Usage: wc [-lwc] <file>" ++ [10]))
  | Some path =>
      bytes ← load_file path;
      if bytes <? 0 then call (kklogf (txt "wc: cannot open '%s'" ++ [10]) [LStr path]) else
      s ← gets (fun s => s);
      let '(lines, words) := wc_loop (slice (text_buf s) 0 bytes) 0 0 false in
      when (all || has 108 o) (call (klogf (txt "%d ") [LInt lines]));;
      when (all || has 119 o) (call (klogf (txt "%d ") [LInt words]));;
      when (all || has 99 o) (call (klogf (txt "%d ") [LInt bytes]));;
      call (klogf (txt "%s" ++ [10]) [LStr path])
  end.
Definition cmd_grep (args : list (list Z)) : M unit :=
  let o := options args in
  match filter (fun a => is_option a = false) args with
  | pattern :: files => on_lines (txt "Usage: grep [-nv] <pattern> <file>" ++ [10]) (txt "grep: cannot open '%s'" ++ [10]) (last_of files) (fun count =>
      ffor (rounds 0 count) 0 (fun i =>
        s ← gets (fun s => s);
        let found := match strstr (line_at (text_buf s) (text_lines s) i) pattern with Some _ => true | None => false end in
        when (negb (Bool.eqb found (has 118 o))) (when (has 110 o) (call (klogf (txt "%d:") [LInt (i + 1)]));; print_line i)))
  | [] => call (kklog (txt "Usage: grep [-nv] <pattern> <file>" ++ [10]))
  end.
(** Elements of [text_lines], compared through [buf]. *)
Definition cmp_lines (buf : list Z) (a b : list Z) : Z := strcmp (drop (Z.to_nat (le_get a)) buf) (drop (Z.to_nat (le_get b)) buf).
Definition sort_lines (count : Z) : M unit :=
  modify (fun s => mk_shell (text_buf s) (splice (text_lines s) 0 (qsort (cmp_lines (text_buf s)) (slice (text_lines s) 0 (count * 4)) count 4)) (sys s)).
Definition cmd_sort (args : list (list Z)) : M unit :=
  let is_r a := strcmp a (txt "-r") =? 0 in
  let reverse := existsb is_r args in
  on_lines (txt "Usage: sort [-r] <file>" ++ [10]) (txt "sort: cannot open '%s'" ++ [10]) (last_of (filter (fun a => is_r a = false) args)) (fun count =>
    sort_lines count;;
    ffor (rounds 0 count) 0 (fun i => print_line (if reverse then count - 1 - i else i))).
Definition cmd_uniq (args : list (list Z)) : M unit :=
  on_lines (txt "Usage: uniq <file>" ++ [10]) (txt "uniq: cannot open '%s'" ++ [10]) (head args) (fun count =>
    ffor (rounds 0 count) 0 (fun i =>
      s ← gets (fun s => s);
      let line i := line_at (text_buf s) (text_lines s) i in
      when ((i =? 0) || negb (strcmp (line i) (line (i - 1)) =? 0)) (print_line i))).

(** ** Files and directories *)

Definition path_is_dir (path : list Z) : st W bool := o ← vfs_stat path; mret (default false o).
Fixpoint copy_loop (k : nat) (sfd dfd : Z) : st W unit :=
  match k with
  | O => mret tt
  | S k => '(n, bs) ← r3_read sfd COPY_BUF; if 0 <? n then _ ← r3_write dfd bs; copy_loop k sfd dfd else mret tt
  end.
Definition copy_file (src dst : list Z) : st W Z :=
  sfd ← r3_open src O_RDONLY;
  if sfd <? 0 then mret (-1) else
  dfd ← r3_open dst O_REWRITE;
  if dfd <? 0 then _ ← r3_close sfd; mret (-1) else
  copy_loop COPY_ROUNDS sfd dfd;;
  _ ← r3_close sfd; _ ← r3_close dfd; mret 0.
(** The entries but the two with dots, until one finds the stack used up. *)
Fixpoint each_entry (f : dirent -> st W (option Z)) (l : list dirent) : st W bool :=
  match l with
  | [] => mret true
  | e :: l => if is_dot (d_name e) then each_entry f l else o ← f e; match o with Some _ => each_entry f l | None => mret false end
  end.
(** Calls in calls: [depth] frames fit on the stack; [None] is what happens beyond. *)
Fixpoint remove_recursive (depth : nat) (path : list Z) : st W (option Z) :=
  match depth with
  | O => mret None
  | S depth =>
      d ← path_is_dir path;
      if negb (d : bool) then r ← r3_unlink path; mret (Some r) else
      e ← vfs_readdir path 64;
      match e with
      | inl err => mret (Some err)
      | inr l => ok ← each_entry (fun e => remove_recursive depth (path_join VFS_PATH_MAX path (d_name e))) l;
          if (ok : bool) then r ← vfs_remove path; mret (Some r) else mret None
      end
  end.
Fixpoint copy_recursive (depth : nat) (src dst : list Z) : st W (option Z) :=
  match depth with
  | O => mret None
  | S depth =>
      d ← path_is_dir src;
      if negb (d : bool) then r ← copy_file src dst; mret (Some r) else
      _ ← r3_mkdir dst;
      e ← vfs_readdir src 64;
      match e with
      | inl err => mret (Some err)
      | inr l => ok ← each_entry (fun e => copy_recursive depth (path_join VFS_PATH_MAX src (d_name e)) (path_join VFS_PATH_MAX dst (d_name e))) l;
          mret (if (ok : bool) then Some 0 else None)
      end
  end.
(** The sources one after the other; [false]: the stack is used up. *)
Fixpoint each_path (f : list Z -> st W (option Z)) (l : list (list Z)) : st W bool :=
  match l with [] => mret true | x :: l => o ← f x; match o with Some _ => each_path f l | None => mret false end end.
Definition done : st W (option Z) := mret (Some 0).

Context (depth : nat).
(** The target of one source: inside the directory [dst], or [dst]. *)
Definition target (dst_is_dir : bool) (dst src : list Z) : list Z := if dst_is_dir then path_join VFS_PATH_MAX dst (base_name src) else dst.
(** What is left to do once the result is known. *)
Definition with_result (o : option Z) (f : Z -> st W unit) : st W (option Z) := match o with None => mret None | Some r => f r;; done end.
Definition cp_one (recursive : bool) (real_dst src : list Z) : st W (option Z) :=
  let fail r := when (negb (r =? 0)) (kklogf (txt "cp: cannot copy '%s'" ++ [10]) [LStr src]) in
  d ← (if recursive then path_is_dir src else mret false);
  if (d : bool) then o ← copy_recursive depth src real_dst; with_result o fail else
  d ← path_is_dir src;
  if (d : bool) then kklogf (txt "cp: -r not specified; omitting directory '%s'" ++ [10]) [LStr src];; done
  else r ← copy_file src real_dst; with_result (Some r) fail.
(** The sources and the target of [cp] and [mv]. *)
Definition to_target (name : string) (usage : list Z) (paths : list (list Z)) (one : list Z -> list Z -> st W (option Z)) : st W bool :=
  match rev paths with
  | dst :: (_ :: _) as r =>
      let srcs := rev r in
      dst_is_dir ← path_is_dir dst;
      if (1 <? zlen srcs) && negb (dst_is_dir : bool) then kklogf (txt (name ++ ": target '%s' is not a directory") ++ [10]) [LStr dst];; mret true else
      each_path (fun src => one (target dst_is_dir dst src) src) srcs
  | _ => kklog usage;; mret true
  end.
Definition cmd_cp (args : list (list Z)) : st W bool :=
  let o := options args in
  to_target "cp" (txt "Usage: cp [-r] <src>... <dst>" ++ [10]) (operands args) (cp_one (has 114 o || has 82 o)).
Definition mv_one (real_dst src : list Z) : st W (option Z) :=
  d ← path_is_dir src;
  o ← (if (d : bool) then copy_recursive depth src real_dst else r ← copy_file src real_dst; mret (Some r));
  match o with
  | None => mret None
  | Some r =>
      if negb (r =? 0) then kklogf (txt "mv: cannot move '%s'" ++ [10]) [LStr src];; done else
      d ← path_is_dir src;
      if (d : bool) then remove_recursive depth src else _ ← r3_unlink src; done
  end.
Definition cmd_mv (args : list (list Z)) : st W bool := to_target "mv" (txt "Usage: mv <src>... <dst>" ++ [10]) (take 16 args) mv_one.
Definition rm_one (recursive force : bool) (path : list Z) : st W (option Z) :=
  let fail r := when (negb (r =? 0) && negb force) (kklogf (txt "rm: cannot remove '%s'" ++ [10]) [LStr path]) in
  d ← (if recursive then path_is_dir path else mret false);
  if (d : bool) then o ← remove_recursive depth path; with_result o fail else
  d ← path_is_dir path;
  if (d : bool) then when (negb force) (kklogf (txt "rm: cannot remove '%s': is a directory" ++ [10]) [LStr path]);; done
  else r ← r3_unlink path; with_result (Some r) fail.
Definition cmd_rm (args : list (list Z)) : st W bool :=
  let o := options args in
  match operands args with
  | [] => kklog (txt "Usage: rm [-rf] <path>..." ++ [10]);; mret true
  | paths => each_path (rm_one (has 114 o || has 82 o) (has 102 o)) paths
  end.
Definition cmd_touch (args : list (list Z)) : st W unit :=
  match args with
  | [] => kklog (txt "Usage: touch <file>..." ++ [10])
  | _ => each (fun a => fd ← r3_open a O_CREATE; if fd <? 0 then kklogf (txt "touch: cannot touch '%s'" ++ [10]) [LStr a] else _ ← r3_close fd; mret tt) args
  end.
Fixpoint mkdir_parents (rest buf : list Z) : st W unit :=
  match rest with
  | [] => _ ← r3_mkdir buf; mret tt
  | c :: rest =>
      if zlen buf <? VFS_PATH_MAX - 1 then
        let buf := buf ++ [c] in
        when ((c =? 47) && (1 <? zlen buf)) (_ ← r3_mkdir buf; mret tt);;
        mkdir_parents rest buf
      else _ ← r3_mkdir buf; mret tt
  end.
Definition mkdir_one (parents : bool) (path : list Z) : st W unit :=
  if parents then mkdir_parents (cstr path) [] else
  r ← r3_mkdir path; when (negb (r =? 0)) (kklogf (txt "mkdir: cannot create directory '%s'" ++ [10]) [LStr path]).
Definition cmd_mkdir (args : list (list Z)) : st W unit :=
  let is_p a := strcmp a (txt "-p") =? 0 in
  match filter (fun a => is_p a = false) args with
  | [] => kklog (txt "Usage: mkdir [-p] <dir>..." ++ [10])
  | dirs => each (mkdir_one (existsb is_p args)) dirs
  end.
Definition cmd_wr (args : list (list Z)) : st W unit :=
  match args with
  | path :: data :: _ =>
      fd ← r3_open path O_REWRITE;
      if fd <? 0 then kklogf (txt "write: %s") [LStr (vfs_strerror fd)] else
      r ← (if strlen data =? 0 then mret 0 else r3_write fd (cstr data));
      _ ← r3_close fd;
      if r <? 0 then kklogf (txt "write: %s") [LStr (vfs_strerror r)] else kklog (txt "write successful")
  | _ => kklog (txt "Usage: wr <filename> <data>")
  end.
Definition cmd_dl (args : list (list Z)) : st W unit :=
  match args with
  | [] => kklog (txt "Usage: dl <file>")
  | path :: _ => r ← r3_unlink path; kklog (txt (if r =? 0 then "file deleted" else "dl: file not found or path is a directory"))
  end.
Definition cmd_mf (args : list (list Z)) : st W unit :=
  match args with
  | [] => kklog (txt "Usage: mf <name>")
  | path :: _ => r ← r3_mkdir path; kklog (txt (if r =? 0 then "directory created" else "mkdir: failed"))
  end.
Definition cmd_cd (args : list (list Z)) : st W unit :=
  match args with
  | [] => cwd ← gets vfs_getcwd; kklogf (txt "%s") [LStr cwd]
  | path :: _ => r ← vfs_chdir path; when (negb (r =? 0)) (kklogf (txt "cd: %s") [LStr (vfs_strerror r)])
  end.
Definition cmd_pwd : st W unit := cwd ← gets vfs_getcwd; kklogf (txt "%s" ++ [10]) [LStr cwd].
Definition cmd_basename (args : list (list Z)) : st W unit :=
  match args with [] => kklog (txt "Usage: basename <path>" ++ [10]) | path :: _ => kklogf (txt "%s" ++ [10]) [LStr (base_name path)] end.
Definition cmd_dirname (args : list (list Z)) : st W unit :=
  match args with
  | [] => kklog (txt "Usage: dirname <path>" ++ [10])
  | path :: _ =>
      let buf := dir_buf path in
      match strrchr buf 47 with
      | None => kklog (txt "." ++ [10])
      | Some i => if i =? 0 then kklog (txt "/" ++ [10]) else kklogf (txt "%s" ++ [10]) [LStr (take (Z.to_nat i) buf)]
      end
  end.

(** ** Printing *)

(** The bytes of one read: the number of the line and whether one begins. *)
Fixpoint cat_bytes (numbered : bool) (bs : list Z) (at_start : bool) (line : Z) : st W (bool * Z) :=
  match bs with
  | [] => mret (at_start, line)
  | c :: bs =>
      let number := numbered && at_start in
      when number (klogf (txt "%6d" ++ [9]) [LInt line]);;
      vesa_print_string [c];;
      cat_bytes numbered bs (if c =? 10 then true else if number then false else at_start) (if number then line + 1 else line)
  end.
Fixpoint cat_loop (k : nat) (numbered : bool) (fd : Z) (at_start : bool) (line : Z) : st W unit :=
  match k with
  | O => mret tt
  | S k => '(n, bs) ← r3_read fd COPY_BUF; if 0 <? n then '(a, l) ← cat_bytes numbered bs at_start line; cat_loop k numbered fd a l else mret tt
  end.
Definition cmd_cat (args : list (list Z)) : st W unit :=
  match operands args with
  | [] => kklog (txt "Usage: cat [-n] <file>..." ++ [10])
  | paths => each (fun path =>
      fd ← r3_open path O_RDONLY;
      if fd <? 0 then kklogf (txt "cat: %s: cannot open" ++ [10]) [LStr path] else
      cat_loop COPY_ROUNDS (has 110 (options args)) fd true 1;; _ ← r3_close fd; mret tt) paths
  end.
Definition entry_color (e : dirent) : Z := if d_is_dir e then 0xFF0000 else 0x00FF00.
Fixpoint ls_entries (longfmt onecol : bool) (l : list dirent) (col : Z) : st W Z :=
  match l with
  | [] => mret col
  | e :: l =>
      if longfmt then klogf (txt "%c %8d ") [LInt (if d_is_dir e then 100 else 45); LInt (d_size e)];; klog_color (d_name e) (entry_color e);; klog [10];; ls_entries longfmt onecol l col
      else if onecol then klog_color (d_name e) (entry_color e);; klog [10];; ls_entries longfmt onecol l col
      else klog (txt "  ");; klog_color (d_name e) (entry_color e);; when ((col + 1) mod 4 =? 0) (klog [10]);; ls_entries longfmt onecol l (col + 1)
  end.
Fixpoint do_ls (k : nat) (longfmt onecol recursive header : bool) (path : list Z) : st W (option Z) :=
  match k with
  | O => mret None
  | S k =>
      r ← vfs_readdir path 64;
      match r with
      | inl err => kklogf (txt "ls: cannot access '%s': %s" ++ [10]) [LStr path; LStr (vfs_strerror err)];; done
      | inr l =>
          when header (klogf (txt "%s:" ++ [10]) [LStr path]);;
          col ← ls_entries longfmt onecol l 0;
          when (negb longfmt && negb onecol && negb (zlen l =? 0) && negb (col mod 4 =? 0)) (klog [10]);;
          if negb recursive then done else
          ok ← each_entry (fun e => klog [10];; do_ls k longfmt onecol recursive true (path_join VFS_PATH_MAX path (d_name e))) (filter (fun e => d_is_dir e = true) l);
          mret (if (ok : bool) then Some 0 else None)
      end
  end.
Fixpoint ls_paths (longfmt onecol recursive header : bool) (l : list (list Z)) : st W bool :=
  match l with
  | [] => mret true
  | p :: l => o ← do_ls depth longfmt onecol recursive header p; match o with None => mret false | Some _ => when (negb (zlen l =? 0)) (klog [10]);; ls_paths longfmt onecol recursive header l end
  end.
Definition cmd_ls (args : list (list Z)) : st W bool :=
  let o := options args in
  let paths := match operands args with [] => [txt "."] | l => l end in
  ls_paths (has 108 o) (has 49 o) (has 82 o) ((1 <? zlen paths) || has 82 o) paths.
(** The two sequences of a backslash; [single] prints another character. *)
Fixpoint echo_chars (s : list Z) : st W unit :=
  match s with
  | [] => mret tt
  | c :: s1 => 
      if c =? 0 then mret tt else
      match s1 with
      | d :: s2 => if (c =? 92) && (d =? 110) then klog [10];; echo_chars s2 else if (c =? 92) && (d =? 116) then klog [9];; echo_chars s2 else klog [c];; echo_chars s1
      | [] => klog [c]
      end
  end.
Fixpoint echo_options (args : list (list Z)) (nonewline interpret : bool) : bool * bool * list (list Z) :=
  match args with
  | [] => (nonewline, interpret, [])
  | a :: rest => if strcmp a (txt "-n") =? 0 then echo_options rest true interpret else if strcmp a (txt "-e") =? 0 then echo_options rest nonewline true else (nonewline, interpret, args)
  end.
Fixpoint echo_words (interpret : bool) (l : list (list Z)) : st W unit :=
  match l with [] => mret tt | a :: l => (if interpret then echo_chars a else klog a);; when (negb (zlen l =? 0)) (klog [32]);; echo_words interpret l end.
Definition cmd_echo (args : list (list Z)) : st W unit :=
  let '(nonewline, interpret, words) := echo_options args false false in
  echo_words interpret words;; when (negb nonewline) (klog [10]).
Fixpoint printf_loop (fmt : list Z) (args : list (list Z)) : st W unit :=
  match fmt with
  | [] => mret tt
  | c :: f1 =>
      if c =? 0 then mret tt else
      match f1 with
      | d :: f2 =>
          if (c =? 92) && (d =? 110) then klog [10];; printf_loop f2 args
          else if (c =? 92) && (d =? 116) then klog [9];; printf_loop f2 args
          else if (c =? 37) && (d =? 115) then klog (default [] (head args));; printf_loop f2 (tail args)
          else if (c =? 37) && (d =? 100) then klog (itoa (match args with a :: _ => atoi a | [] => 0 end) 10);; printf_loop f2 (tail args)
          else if (c =? 37) && (d =? 37) then klog [37];; printf_loop f2 args
          else klog [c];; printf_loop f1 args
      | [] => klog [c]
      end
  end.
Definition cmd_printf (args : list (list Z)) : st W unit :=
  match args with [] => kklog (txt "Usage: printf <format> [args...]" ++ [10]) | fmt :: args => printf_loop fmt args end.
End commands.
Arguments shell : clear implicits.
End Shell.

Module ShellProps.
Import Shell.

(** ** The lines of a text *)

(** A text of lines, each ended; the same with the ends replaced by zeros. *)
Fixpoint joined (ls : list (list Z)) : list Z := match ls with [] => [] | l :: ls => l ++ 10 :: joined ls end.
Fixpoint cut (ls : list (list Z)) : list Z := match ls with [] => [] | l :: ls => l ++ 0 :: cut ls end.
Fixpoint starts (s : Z) (ls : list (list Z)) : list Z := match ls with [] => [] | l :: ls => s :: starts (s + zlen l + 1) ls end.
Fixpoint puts (lines : list Z) (n : Z) (os : list Z) : list Z := match os with [] => lines | o :: os => puts (put_le 4 lines (n * 4) o) (n + 1) os end.
Definition plain (l : list Z) : Prop := Forall (fun c => 0 < c < 256 /\ c <> 10) l.
Lemma zlen_more {A} (x : A) l : zlen (x :: l) = zlen l + 1.
Proof. unfold zlen. cbn [length]. lia. Qed.
Lemma aget_at (u v : list Z) c : (u ++ c :: v).[zlen u] = c.
Proof. unfold aget, zlen. rewrite Nat2Z.id, lookup_total_app_r, Nat.sub_diag by lia. done. Qed.
Lemma aset_at (u v : list Z) c d : (u ++ c :: v).[zlen u := d] = u ++ d :: v.
Proof. unfold aset, zlen. rewrite Nat2Z.id. rewrite <- (Nat.add_0_r (length u)), insert_app_r. done. Qed.
Lemma zlen_cut ls : zlen (cut ls) = zlen (joined ls).
Proof. induction ls as [|l ls IH]; [done|]. cbn [cut joined]. rewrite !zlen_app, !zlen_more. lia. Qed.
Lemma split_skip l k pre start n r lines : plain l -> split_loop (length l + k) (zlen pre) start n (pre ++ l ++ r) lines = split_loop k (zlen (pre ++ l)) start n (pre ++ l ++ r) lines.
Proof.
  intros Hl. revert pre. induction Hl as [|c l [Hc H10] Hl IH]; intros pre; [by rewrite app_nil_r|]. cbn [length Nat.add split_loop Datatypes.app]. rewrite aget_at, (proj2 (Z.eqb_neq c 10)) by done.
  specialize (IH (pre ++ [c])). rewrite zlen_app, <- !app_assoc in IH. cbn [Datatypes.app] in IH. exact IH.
Qed.
Lemma cut_run ls pre rest n lines : Forall plain ls -> n + zlen ls <= TEXT_MAX_LINES ->
  split_loop (length (joined ls)) (zlen pre) (zlen pre) n (pre ++ joined ls ++ rest) lines = (zlen pre + zlen (joined ls), n + zlen ls, pre ++ cut ls ++ rest, puts lines n (starts (zlen pre) ls)).
Proof.
  intros Hls. revert pre n lines. induction Hls as [|l ls Hl Hls IH]; intros pre n lines Hn; cbn [joined cut starts puts].
  - cbn [length split_loop Datatypes.app]. change (zlen (@nil Z)) with 0. change (zlen (@nil (list Z))) with 0. do 3 f_equal; lia.
  - rewrite zlen_more in Hn. pose proof (zlen_nonneg ls). rewrite length_app. cbn [length]. rewrite <- app_assoc, split_skip by done. cbn [split_loop Datatypes.app]. rewrite (app_assoc pre l), aget_at. cbn [Z.eqb Pos.eqb]. rewrite (proj2 (Z.ltb_lt n _)) by lia. rewrite aset_at.
    specialize (IH (pre ++ l ++ [0]) (n + 1) (put_le 4 lines (n * 4) (zlen pre)) ltac:(lia)). rewrite !zlen_app in IH. change (zlen [0]) with 1 in IH. rewrite !zlen_app, zlen_more.
    rewrite <- !app_assoc in *. cbn [Datatypes.app] in *. replace (zlen pre + zlen l + 1) with (zlen pre + (zlen l + 1)) by lia. rewrite IH. rewrite zlen_more. do 3 f_equal; lia.
Qed.
Lemma zlen_puts lines n os : 0 <= n -> (n + zlen os) * 4 <= zlen lines -> zlen (puts lines n os) = zlen lines.
Proof. revert lines n. induction os as [|o os IH]; intros lines n Hn Hz; [done|]. rewrite zlen_more in Hz. pose proof (zlen_nonneg os). cbn [puts]. rewrite IH; rewrite ?zlen_put_le; lia. Qed.
Lemma puts_other lines n os m : 0 <= m < n -> (n + zlen os) * 4 <= zlen lines -> get_le 4 (puts lines n os) (m * 4) = get_le 4 lines (m * 4).
Proof.
  revert lines n. induction os as [|o os IH]; intros lines n Hm Hz; [done|]. rewrite zlen_more in Hz. pose proof (zlen_nonneg os). cbn [puts]. rewrite IH; [|lia|rewrite zlen_put_le; lia].
  apply (get_put_le_ne 4 4); lia.
Qed.
Lemma puts_get lines n os j : 0 <= n -> (n + zlen os) * 4 <= zlen lines -> 0 <= j < zlen os -> Forall is_u32 os -> get_le 4 (puts lines n os) ((n + j) * 4) = os.[j].
Proof.
  revert lines n j. induction os as [|o os IH]; intros lines n j Hn Hz Hj Hos; [change (zlen (@nil Z)) with 0 in Hj; lia|]. rewrite zlen_more in *. apply list.Forall_cons in Hos as [Ho Hos]. cbn [puts]. destruct (decide (j = 0)) as [->|].
  - rewrite Z.add_0_r, puts_other by (rewrite ?zlen_put_le; lia). rewrite get_put_le by lia. change (8 * Z.of_nat 4) with 32. by rewrite Z.mod_small.
  - replace (n + j) with (n + 1 + (j - 1)) by lia. rewrite IH; [|lia|rewrite zlen_put_le; lia|lia|done]. unfold aget. by replace (Z.to_nat j) with (S (Z.to_nat (j - 1))) by lia.
Qed.
Lemma zlen_starts s ls : zlen (starts s ls) = zlen ls.
Proof. revert s. induction ls as [|l ls IH]; intros s; [done|]. cbn [starts]. by rewrite !zlen_more, IH. Qed.
Lemma starts_range s ls : 0 <= s -> Forall (fun o => s <= o < s + zlen (joined ls)) (starts s ls).
Proof.
  revert s. induction ls as [|l ls IH]; intros s Hs; [constructor|]. cbn [starts joined]. rewrite zlen_app, zlen_more. pose proof (zlen_nonneg l). pose proof (zlen_nonneg (joined ls)). constructor; [lia|].
  eapply list.Forall_impl; [apply IH; lia|]. cbn. intros o Ho. lia.
Qed.
Lemma cstr_ended l r : plain l -> cstr (l ++ 0 :: r) = l.
Proof. induction 1 as [|c l [Hc _] Hl IH]; [done|]. cbn [Datatypes.app cstr]. rewrite (proj2 (Z.eqb_neq c 0)) by lia. by rewrite IH. Qed.
Lemma line_cut ls s j rest : Forall plain ls -> 0 <= j < zlen ls -> cstr (drop (Z.to_nat ((starts s ls).[j] - s)) (cut ls ++ rest)) = ls.[j].
Proof.
  intros Hls. revert s j. induction Hls as [|l ls Hl Hls IH]; intros s j Hj; [change (zlen (@nil (list Z))) with 0 in Hj; lia|]. rewrite zlen_more in Hj. cbn [starts cut]. destruct (decide (j = 0)) as [->|Hj0].
  - change ((s :: starts (s + zlen l + 1) ls).[0]) with s. rewrite Z.sub_diag. cbn [drop]. rewrite <- app_assoc. cbn [Datatypes.app]. by apply cstr_ended.
  - assert (Ej : forall (T : Type) `{Inhabited T} (x : T) xs, (x :: xs).[j] = xs.[j - 1]) by (intros; unfold aget; by replace (Z.to_nat j) with (S (Z.to_nat (j - 1))) by lia). rewrite !Ej.
    specialize (IH (s + zlen l + 1) (j - 1) ltac:(lia)). rewrite <- IH. f_equal. pose proof (starts_range (s + zlen l + 1) ls) as Hr. set (o := (starts (s + zlen l + 1) ls).[j - 1]) in *.
    assert (Ho : s + zlen l + 1 <= o).
    { unfold o, aget. pose proof (zlen_starts (s + zlen l + 1) ls) as Hz. clear -Hz Hj Hj0. revert Hz. generalize (s + zlen l + 1) as t. intros t Hz. assert (Hlow : Forall (fun o => t <= o) (starts t ls)).
      { clear Hz Hj Hj0. revert t. induction ls as [|l' ls IH]; intros t; [constructor|]. cbn [starts]. constructor; [lia|]. eapply list.Forall_impl; [apply IH|]. cbn. intros o Ho. pose proof (zlen_nonneg l'). lia. }
      apply (Forall_lookup_1 _ _ (Z.to_nat (j - 1)) _ Hlow). apply list_lookup_lookup_total_lt. unfold zlen in *. lia. }
    replace (Z.to_nat (o - s)) with (length l + S (Z.to_nat (o - (s + zlen l + 1))))%nat by (unfold zlen in *; lia). rewrite <- drop_drop, <- app_assoc, drop_app_length. done.
Qed.

(** ** The commands that print lines *)

Section texts.
Context {W : Type} {HW : Calls W}.
Implicit Types (s : shell W) (w : W).
Definition said (l : list Z) : list Z * list larg := (txt "%s" ++ [10], [LStr l]).
Record buffers s : Prop := { bf_buf : zlen (text_buf s) = TEXT_BUF_SIZE; bf_bytes : is_bytes (text_buf s); bf_lines : zlen (text_lines s) = TEXT_MAX_LINES * 4 }.
(** The buffer holds the lines [ls]. *)
Record shows s (ls : list (list Z)) : Prop := {
  sh_bytes : is_bytes (text_buf s); sh_size : zlen (text_lines s) = TEXT_MAX_LINES * 4; sh_count : zlen ls <= TEXT_MAX_LINES;
  sh_line : forall i, 0 <= i < zlen ls -> line_at (text_buf s) (text_lines s) i = ls.[i];
}.
(** The messages [l] one after the other, and nothing else. *)
Definition speak (l : list (list Z * list larg)) : st W unit := each (fun m => klogf m.1 m.2) l.
(** From [s] the messages [l] have been printed. *)
Definition says s s' (l : list (list Z * list larg)) : Prop := text_buf s' = text_buf s /\ text_lines s' = text_lines s /\ sys s' = (speak l (sys s)).2.
(** In [w] the calls that open [p], ask for its length, go back to its start,
    read it and close it succeed; they bring the bytes [c] and lead to [w']. *)
Definition reads w (p c : list Z) w' : Prop := exists fd w1 w2 w3 w4, r3_open p O_RDONLY w = (fd, w1) /\ 0 <= fd /\
  r3_lseek fd 0 SEEK_END w1 = (zlen c, w2) /\ (r3_lseek fd 0 SEEK_SET w2).2 = w3 /\
  (if zlen c =? 0 then w4 = w3 else r3_read fd (zlen c) w3 = ((zlen c, c), w4)) /\ (r3_close fd w4).2 = w'.
Lemma call_run {R} (m : st W R) s r w : m (sys s) = (r, w) -> call m s = (r, mk_shell (text_buf s) (text_lines s) w).
Proof. intros E. unfold call. by rewrite E. Qed.
Lemma speak_app l l' w : (speak l' (speak l w).2).2 = (speak (l ++ l') w).2.
Proof.
  revert w. induction l as [|m l IH]; intros w; [done|]. unfold speak. cbn [each Datatypes.app]. unfold mbind, st_bind.
  destruct (klogf m.1 m.2 w) as [[] w1]. apply IH.
Qed.
Lemma load_file_run s p c w' : buffers s -> reads (sys s) p c w' -> zlen c <= TEXT_BUF_SIZE -> load_file p s = (zlen c, mk_shell (splice (text_buf s) 0 c) (text_lines s) w').
Proof.
  intros [Hb _ _] (fd & w1 & w2 & w3 & w4 & E1 & P1 & E2 & E3 & E4 & E5) Hc. pose proof (zlen_nonneg c).
  destruct (r3_lseek fd 0 SEEK_SET w2) as [r3 w3'] eqn:E3'. cbn in E3. subst w3'. destruct (r3_close fd w4) as [r5 w5'] eqn:E5'. cbn in E5. subst w5'.
  unfold load_file. rewrite (bind_run _ _ _ _ _ (call_run _ s _ _ E1)). rewrite (proj2 (Z.ltb_ge fd 0)) by done. rewrite (bind_run _ _ _ _ _ (call_run _ (mk_shell (text_buf s) (text_lines s) w1) _ _ E2)). rewrite (bind_run _ _ _ _ _ (call_run _ (mk_shell (text_buf s) (text_lines s) w2) _ _ E3')).
  rewrite (proj2 (Z.ltb_ge TEXT_BUF_SIZE _)) by done. destruct (Z.eqb_spec (zlen c) 0) as [Hz|Hz].
  - destruct c as [|x c]; [|rewrite zlen_more in Hz; pose proof (zlen_nonneg c); lia]. change (zlen (@nil Z)) with 0. cbn [Z.ltb Z.compare Z.eqb]. subst w4.
    rewrite (bind_run (mret 0) _ _ 0 (mk_shell (text_buf s) (text_lines s) w3)) by done. rewrite (bind_run _ _ _ _ _ (call_run _ (mk_shell (text_buf s) (text_lines s) w3) _ _ E5')). by unfold splice.
  - rewrite (proj2 (Z.ltb_lt 0 _)) by lia. rewrite (proj2 (Z.eqb_neq (zlen c) 0)) by done.
    rewrite (bind_run ('(n, bs) ← call _; _) _ _ (zlen c) (mk_shell (splice (text_buf s) 0 c) (text_lines s) w4)) by (by rewrite (bind_run _ _ _ _ _ (call_run _ (mk_shell (text_buf s) (text_lines s) w3) _ _ E4))).
    by rewrite (bind_run _ _ _ _ _ (call_run _ (mk_shell (splice (text_buf s) 0 c) (text_lines s) w4) _ _ E5')).
Qed.
Lemma joined_bytes ls : Forall plain ls -> is_bytes (joined ls) /\ is_bytes (cut ls).
Proof.
  induction 1 as [|l ls Hl Hls [IH1 IH2]]; [by split; constructor|]. cbn [joined cut]. assert (is_bytes l) by (eapply list.Forall_impl; [exact Hl|]; intros c [Hc _]; unfold is_u8; lia).
  split; apply Forall_app; (split; [done|]); (constructor; [unfold is_u8; lia|done]).
Qed.
Lemma on_lines_run usage fail p f s ls w : buffers s -> reads (sys s) p (joined ls) w -> Forall plain ls -> zlen (joined ls) <= TEXT_BUF_SIZE -> zlen ls <= TEXT_MAX_LINES ->
  exists s', on_lines usage fail (Some p) f s = f (zlen ls) s' /\ shows s' ls /\ sys s' = w.
Proof.
  intros Hb Hp Hls Hz Hn. pose proof (load_file_run s p _ w Hb Hp Hz) as E. destruct Hb as [Hb1 Hb2 Hb3]. pose proof (zlen_nonneg (joined ls)). pose proof (zlen_nonneg ls). destruct (joined_bytes ls Hls) as [_ Hcut].
  set (rest := drop (length (joined ls)) (text_buf s)). assert (Es : splice (text_buf s) 0 (joined ls) = joined ls ++ rest) by done.
  pose proof (cut_run ls [] rest 0 (text_lines s) Hls ltac:(lia)) as Hs. change (zlen (@nil Z)) with 0 in Hs. cbn [Datatypes.app] in Hs. rewrite !Z.add_0_l in Hs.
  set (lines := puts (text_lines s) 0 (starts 0 ls)) in *. exists (mk_shell (cut ls ++ rest) lines w). split; [|split; [|done]].
  - unfold on_lines. rewrite (bind_run _ _ _ _ _ E). rewrite (proj2 (Z.ltb_ge (zlen (joined ls)) 0)) by done. apply bind_run. unfold split_lines. rewrite (bind_run (gets _) _ _ (mk_shell (splice (text_buf s) 0 (joined ls)) (text_lines s) w) (mk_shell (splice (text_buf s) 0 (joined ls)) (text_lines s) w)) by done. cbn [text_buf text_lines sys].
    unfold zlen at 1. rewrite Nat2Z.id, Es, Hs. by rewrite Z.ltb_irrefl.
  - assert (Hbound : Forall is_u32 (starts 0 ls)) by (eapply list.Forall_impl; [apply starts_range; done|]; unfold is_u32, TEXT_BUF_SIZE in *; intros; cbn in *; lia).
    assert (Hrest : is_bytes rest) by (by apply Forall_drop). split; cbn [text_buf text_lines]; [by apply Forall_app|unfold lines; rewrite zlen_puts; rewrite ?zlen_starts; lia|done|].
    intros i Hi. unfold line_at, lines. rewrite <- (line_cut ls 0 i rest Hls Hi), Z.sub_0_r. do 3 f_equal. rewrite <- (Z.add_0_l i) at 1. apply puts_get; rewrite ?zlen_starts; [lia|lia|lia|done].
Qed.
Lemma print_line_run s ls i : shows s ls -> 0 <= i < zlen ls -> exists s', print_line i s = (tt, s') /\ says s s' [said (ls.[i])].
Proof.
  intros Hs Hi. unfold print_line. rewrite (bind_run (gets _) _ s s s) by done. rewrite (sh_line _ _ Hs i Hi). unfold call. destruct (klogf _ _ (sys s)) as [[] w] eqn:E. eexists. split; [done|]. split; [done|]. split; [done|]. unfold speak, said. cbn [each sys fst snd]. unfold mbind, st_bind. by rewrite E.
Qed.
Lemma shows_says s s' l ls : shows s ls -> says s s' l -> shows s' ls.
Proof. intros [H1 H2 H3 H4] (E1 & E2 & _). split; rewrite ?E1, ?E2; done. Qed.
(** A loop over lines, each round printing its part. *)
Lemma says_for (body : Z -> st (shell W) unit) (g : Z -> list (list Z * list larg)) ls n i s : shows s ls -> (forall j s0, i <= j < i + Z.of_nat n -> shows s0 ls -> exists s1, body j s0 = (tt, s1) /\ says s0 s1 (g j)) ->
  exists s', ffor n i body s = (tt, s') /\ says s s' (mjoin (tab g i (Z.of_nat n))).
Proof.
  revert i s. induction n as [|n IH]; intros i s Hs Hb; cbn [ffor].
  - exists s. split; [done|]. rewrite tab_nil by lia. split; [done|]. done.
  - destruct (Hb i s) as (s1 & E1 & S1); [lia|done|]. rewrite E1. destruct (IH (i + 1) s1) as (s2 & E2 & S2); [by eapply shows_says|intros; apply Hb; [lia|done]|].
    exists s2. split; [done|]. rewrite tab_cons by lia. replace (Z.of_nat (S n) - 1) with (Z.of_nat n) by lia. cbn [mjoin list_join]. destruct S1 as (A1 & A2 & A3), S2 as (B1 & B2 & B3). split; [congruence|]. split; [congruence|]. by rewrite B3, A3, speak_app.
Qed.
Lemma tab_lines (ls : list (list Z)) a n : 0 <= a -> 0 <= n -> a + n <= zlen ls -> mjoin (tab (fun i => [said (ls.[i])]) a n) = said <$> slice ls a n.
Proof.
  intros Ha Hn Hz. assert (E : slice ls a n = tab (fun i => ls.[i]) a n).
  { transitivity (tab (fun i => ls.[i]) a (zlen (slice ls a n))); [|by rewrite zlen_slice]. apply tab_eq. intros i Hi. rewrite zlen_slice in Hi by lia. by rewrite aget_slice by lia. }
  rewrite E. unfold tab. clear E Hz. induction (seqZ a n) as [|x l IH]; [done|]. exact (f_equal (cons (said (ls.[x]))) IH).
Qed.
Lemma tab_select (ls : list (list Z)) (g : list Z -> list (list Z * list larg)) : mjoin (tab (fun i => g (ls.[i])) 0 (zlen ls)) = mjoin (g <$> ls).
Proof.
  f_equal. assert (E : ls = tab (fun i => ls.[i]) 0 (zlen ls)) by (apply tab_eq; intros; by rewrite Z.add_0_l). transitivity (g <$> tab (fun i => ls.[i]) 0 (zlen ls)); [|by rewrite <- E]. unfold tab. by rewrite <- list_fmap_compose.
Qed.

(** The file [p] is a text of the lines [ls] that fits the buffers, and reading
    it leads to [w]. *)
Record text_file s p (ls : list (list Z)) w : Prop := {
  tf_buffers : buffers s; tf_file : reads (sys s) p (joined ls) w; tf_plain : Forall plain ls; tf_size : zlen (joined ls) <= TEXT_BUF_SIZE; tf_count : zlen ls <= TEXT_MAX_LINES;
}.
(** The command [m] reads its file, which leads to [w], and then prints the
    lines [out], one message for each, and makes no other call. *)
Definition answers (m : st (shell W) unit) s w (out : list (list Z)) : Prop := exists s', m s = (tt, s') /\ sys s' = (speak (said <$> out) w).2.
(** Lines that differ from the one before. *)
Fixpoint squeeze (prev : option (list Z)) (ls : list (list Z)) : list (list Z) := match ls with [] => [] | l :: ls => (if bool_decide (prev = Some l) then [] else [l]) ++ squeeze (Some l) ls end.
Lemma on_lines_prints usage fail p f s ls w l : text_file s p ls w -> (forall s0, shows s0 ls -> exists s1, f (zlen ls) s0 = (tt, s1) /\ says s0 s1 (said <$> l)) -> answers (on_lines usage fail (Some p) f) s w l.
Proof. intros [H1 H2 H3 H4 H5] Hf. destruct (on_lines_run usage fail p f s ls w H1 H2 H3 H4 H5) as (s0 & E & Hs & V). destruct (Hf s0 Hs) as (s1 & E1 & _ & _ & V1). exists s1. split; [congruence|]. by rewrite V1, V. Qed.
(** Consecutive lines. *)
Lemma print_range s ls a b : shows s ls -> 0 <= a -> b <= zlen ls -> exists s', ffor (rounds a b) a print_line s = (tt, s') /\ says s s' (said <$> slice ls a (b - a)).
Proof.
  intros Hs Ha Hb. destruct (says_for print_line (fun i => [said (ls.[i])]) ls (rounds a b) a s Hs) as (s' & E & S); [intros j s0 Hj Hs0; unfold rounds in Hj; apply print_line_run; [done|lia]|].
  exists s'. split; [done|]. unfold rounds in S. destruct (decide (a <= b)).
  - rewrite Z2Nat.id, tab_lines in S by lia. done.
  - rewrite Z2Nat.nonpos in S by lia. rewrite tab_nil in S by lia. by rewrite slice_nil by lia.
Qed.
Lemma select_lines (keep : list Z -> bool) (ls : list (list Z)) : mjoin ((fun l => if keep l then [said l] else []) <$> ls) = said <$> filter (fun l => keep l = true) ls.
Proof.
  induction ls as [|l ls IH]; [done|]. rewrite filter_cons. destruct (keep l) eqn:E.
  - rewrite decide_True by done. rewrite !fmap_cons, <- IH, E. done.
  - rewrite decide_False by done. rewrite <- IH. rewrite fmap_cons, E. done.
Qed.
Lemma squeeze_from (ls : list (list Z)) k i : 0 <= i -> Z.of_nat k = zlen ls - i ->
  mjoin (tab (fun j => if (j =? 0) || negb (bool_decide (ls.[j] = ls.[j - 1])) then [said (ls.[j])] else []) i (Z.of_nat k)) = said <$> squeeze (if i =? 0 then None else Some (ls.[i - 1])) (drop (Z.to_nat i) ls).
Proof.
  revert i. induction k as [|k IH]; intros i Hi Hk; [rewrite tab_nil, drop_ge by (unfold zlen in *; lia); done|]. rewrite tab_cons by lia. replace (Z.of_nat (S k) - 1) with (Z.of_nat k) by lia.
  rewrite (drop_S ls (ls.[i]) (Z.to_nat i)) by (unfold aget; apply list_lookup_lookup_total_lt; unfold zlen in *; lia). specialize (IH (i + 1) ltac:(lia) ltac:(lia)). rewrite (proj2 (Z.eqb_neq (i + 1) 0)) in IH by lia.
  replace (i + 1 - 1) with i in IH by lia. replace (Z.to_nat (i + 1)) with (S (Z.to_nat i)) in IH by lia. cbn [squeeze]. rewrite fmap_app, <- IH. cbn [mjoin list_join]. f_equal. destruct (Z.eqb_spec i 0); cbn [orb].
  - by rewrite bool_decide_eq_false_2.
  - destruct (decide (ls.[i] = ls.[i - 1])) as [E|E]; [by rewrite bool_decide_eq_true_2, bool_decide_eq_true_2 by congruence|by rewrite bool_decide_eq_false_2, bool_decide_eq_false_2 by congruence].
Qed.
Lemma line_plain ls i : Forall plain ls -> 0 <= i < zlen ls -> plain (ls.[i]).
Proof. intros H Hi. by apply aget_Forall. Qed.
Lemma cstr_whole l : plain l -> cstr l = l.
Proof. induction 1 as [|c l [Hc _] Hl IH]; [done|]. cbn [cstr]. rewrite (proj2 (Z.eqb_neq c 0)) by lia. by rewrite IH. Qed.

(** The text [pat] occurs in the line. *)
Definition occurs (pat l : list Z) : Prop := exists before after, l = before ++ pat ++ after.
Lemma occurs_at pat l : occurs pat l <-> Exists (fun k => pat `prefix_of` drop k l) (seq 0 (S (length l))).
Proof.
  rewrite list.Exists_exists. split.
  - intros (u & v & ->). exists (length u). split; [apply elem_of_seq; rewrite length_app; lia|]. rewrite drop_app_length. by apply prefix_app_r.
  - intros (k & _ & v & E). exists (take k l), v. by rewrite <- E, take_drop.
Qed.
#[export] Instance occurs_dec pat l : Decision (occurs pat l).
Proof. refine (cast_if (decide (Exists (fun k => pat `prefix_of` drop k l) (seq 0 (S (length l)))))); by rewrite occurs_at. Defined.
Lemma strstr_occurs l pat : plain l -> (strstr l pat <> None <-> occurs (cstr pat) l).
Proof.
  intros Hl. pose proof (strstr_first l pat) as H. rewrite (cstr_whole l Hl) in H. destruct (strstr l pat) as [k|].
  - split; [|done]. intros _. destruct H as (_ & (after & E) & _). exists (take (Z.to_nat k) l), after. by rewrite <- E, take_drop.
  - split; [done|]. intros (u & v & E). exfalso. apply (H (zlen u) (zlen_nonneg u)). rewrite E. unfold zlen. rewrite Nat2Z.id, drop_app_length. by apply prefix_app_r.
Qed.

Lemma grep_lines pat ls : Forall plain ls -> filter (fun l => bool_decide (strstr l pat <> None) = true) ls = filter (occurs (cstr pat)) ls.
Proof.
  induction 1 as [|l ls Hl _ IH]; [done|]. rewrite !filter_cons, IH. pose proof (strstr_occurs l pat Hl) as E.
  destruct (decide (occurs _ _)) as [Ho|Ho]; [rewrite decide_True|rewrite decide_False]; [done| |done|]; rewrite bool_decide_eq_true; tauto.
Qed.
Lemma atoi_range v : - 2 ^ 31 <= atoi v < 2 ^ 31.
Proof. unfold atoi. destruct (take_sign _). apply s32_range. Qed.

(** C31 - The tools for texts print what they promise. On a file of ended lines
    that fits their buffers, and that the calls open and read, [head -n] prints
    the first lines, [tail -n] the last ones, [grep] those in which the pattern
    occurs, [uniq] each line that differs from the one before, all in the order
    of the file; besides reading the file and printing they make no call. With
    a negative number [head] prints nothing, and [tail] nothing either unless
    the difference overflows, when it prints the whole text. *)
Theorem text_tools s p ls w v pattern : text_file s p ls w -> is_option pattern = false -> is_option p = false ->
  answers (cmd_head [txt "-n"; v; p]) s w (take (Z.to_nat (atoi v)) ls) /\
  answers (cmd_tail [txt "-n"; v; p]) s w (if zlen ls - atoi v <? 2 ^ 31 then drop (Z.to_nat (zlen ls - atoi v)) ls else ls) /\
  answers (cmd_grep [pattern; p]) s w (filter (occurs (cstr pattern)) ls) /\
  answers (cmd_uniq [p]) s w (squeeze None ls).
Proof.
  intros Ht Hpat Hp. pose proof (zlen_nonneg ls). assert (Eargs : count_args [txt "-n"; v; p] 10 None = (atoi v, Some p)) by done. split; [|split; [|split]].
  - unfold cmd_head. rewrite Eargs. apply (on_lines_prints _ _ p _ s ls w); [done|]. intros s0 Hs. destruct (print_range s0 ls 0 (if atoi v <? zlen ls then atoi v else zlen ls) Hs) as (s1 & E1 & S1); [lia|destruct (Z.ltb_spec (atoi v) (zlen ls)); lia|].
    exists s1. split; [done|]. replace (take _ ls) with (slice ls 0 ((if atoi v <? zlen ls then atoi v else zlen ls) - 0)); [done|]. unfold slice. change (Z.to_nat 0) with 0%nat. rewrite drop_0. destruct (Z.ltb_spec (atoi v) (zlen ls)); [by rewrite Z.sub_0_r|]. rewrite !take_ge; [done|..]; unfold zlen in *; lia.
  - unfold cmd_tail. rewrite Eargs. apply (on_lines_prints _ _ p _ s ls w); [done|]. intros s0 Hs. set (from := if s32 (zlen ls - atoi v) <? 0 then 0 else s32 (zlen ls - atoi v)).
    assert (Hf : 0 <= from) by (unfold from; destruct (Z.ltb_spec (s32 (zlen ls - atoi v)) 0); lia). assert (Hv : - 2 ^ 31 <= atoi v < 2 ^ 31) by apply atoi_range. pose proof (tf_count _ _ _ _ Ht) as Hc. unfold TEXT_MAX_LINES in Hc.
    destruct (print_range s0 ls from (zlen ls) Hs Hf) as (s1 & E1 & S1); [lia|]. exists s1. split; [exact E1|]. assert (Eo : slice ls from (zlen ls - from) = if zlen ls - atoi v <? 2 ^ 31 then drop (Z.to_nat (zlen ls - atoi v)) ls else ls); [|by rewrite <- Eo].
    unfold slice. rewrite take_ge by (rewrite length_drop; unfold zlen in *; lia). unfold from. destruct (Z.ltb_spec (zlen ls - atoi v) (2 ^ 31)).
    + rewrite !s32_small by lia. f_equal. destruct (Z.ltb_spec (zlen ls - atoi v) 0); lia.
    + rewrite <- (s32_add_mul _ (-1)), s32_small by lia. rewrite (proj2 (Z.ltb_lt _ 0)) by lia. done.
  - unfold cmd_grep, options. rewrite !filter_cons, filter_nil, !decide_True by done. cbn [last_of rev Datatypes.app head]. rewrite !fmap_cons, Hpat, Hp. cbn [List.concat Datatypes.app fmap list_fmap has existsb].
    apply (on_lines_prints _ _ p _ s ls w); [done|]. intros s0 Hs.
    set (found := fun l => if bool_decide (strstr l pattern <> None) then [said l] else []).
    destruct (says_for (fun i => s ← gets (fun s => s); let found := match strstr (line_at (text_buf s) (text_lines s) i) pattern with Some _ => true | None => false end in when (negb (Bool.eqb found false)) (when false (call (klogf (txt "%d:") [LInt (i + 1)]));; print_line i))
      (fun i => found (ls.[i])) ls (rounds 0 (zlen ls)) 0 s0 Hs) as (s1 & E1 & S1).
    { intros j s1 Hj Hs1. unfold rounds in Hj. rewrite (bind_run (gets _) _ s1 s1 s1) by done. cbv zeta. rewrite (sh_line _ _ Hs1) by lia. unfold found. destruct (strstr (ls.[j]) pattern) as [x|].
      - cbn [Bool.eqb negb when]. rewrite bool_decide_eq_true_2 by done. rewrite (bind_run (mret tt) _ s1 tt s1) by done. apply print_line_run; [done|lia].
      - cbn [Bool.eqb negb when]. rewrite bool_decide_eq_false_2 by (intros Hx; by apply Hx). exists s1. split; [done|]. split; [done|]. done. }
    exists s1. split; [exact E1|]. unfold rounds in S1. rewrite Z2Nat.id, Z.sub_0_r in S1 by lia. rewrite (tab_select ls found) in S1. unfold found in S1. rewrite (select_lines (fun l => bool_decide (strstr l pattern <> None))) in S1. rewrite <- (grep_lines pattern ls) by apply Ht. exact S1.
  - unfold cmd_uniq. cbn [head]. apply (on_lines_prints _ _ p _ s ls w); [done|]. intros s0 Hs.
    destruct (says_for (fun i => s ← gets (fun s => s); let line i := line_at (text_buf s) (text_lines s) i in when ((i =? 0) || negb (strcmp (line i) (line (i - 1)) =? 0)) (print_line i))
      (fun j => if (j =? 0) || negb (bool_decide (ls.[j] = ls.[j - 1])) then [said (ls.[j])] else []) ls (rounds 0 (zlen ls)) 0 s0 Hs) as (s1 & E1 & S1).
    { intros j s1 Hj Hs1. unfold rounds in Hj. rewrite (bind_run (gets _) _ s1 s1 s1) by done. cbv zeta. destruct (Z.eqb_spec j 0) as [->|Hj0]; cbn [orb when]; [apply print_line_run; [done|lia]|]. rewrite !(sh_line _ _ Hs1) by lia.
      assert (Hcmp : (strcmp (ls.[j]) (ls.[j - 1]) =? 0) = bool_decide (ls.[j] = ls.[j - 1])).
      { pose proof (tf_plain _ _ _ _ Ht) as Hpl. apply eq_true_iff_eq. rewrite Z.eqb_eq, bool_decide_eq_true, strcmp_eq, !cstr_whole by (apply line_plain; [done|lia]). done. }
      rewrite Hcmp. destruct (bool_decide _); cbn [negb when]; [|apply print_line_run; [done|lia]]. exists s1. split; [done|]. split; [done|]. done. }
    exists s1. split; [exact E1|]. unfold rounds in S1. rewrite Z2Nat.id, Z.sub_0_r in S1 by lia. pose proof (squeeze_from ls (length ls) 0 ltac:(lia) ltac:(unfold zlen; lia)) as Hq. cbn [Z.eqb] in Hq. change (Z.of_nat (length ls)) with (zlen ls) in Hq. cbn [Z.to_nat drop] in Hq. rewrite Hq in S1. exact S1.
Qed.

(** ** Sorting *)

Lemma hd0_first (x : Z) l : hd0 (x :: l) = x.
Proof. done. Qed.
Lemma hd0_none : hd0 [] = 0.
Proof. done. Qed.
Lemma strcmp_back a b : strcmp b a = - strcmp a b.
Proof.
  revert b. induction a as [|x a IH]; intros [|y b]; cbn [strcmp tail]; rewrite ?hd0_first, ?hd0_none; [done| | |].
  - destruct (Z.eqb_spec y 0) as [->|]; cbn [negb andb]; [done|lia].
  - destruct (Z.eqb_spec x 0) as [->|]; cbn [negb andb]; [done|lia].
  - destruct (Z.eqb_spec x 0), (Z.eqb_spec y 0), (Z.eqb_spec x y), (Z.eqb_spec y x); cbn [negb andb]; try lia; apply IH.
Qed.
Lemma strcmp_chain a b c : is_bytes a -> is_bytes b -> is_bytes c -> strcmp a b <= 0 -> strcmp b c <= 0 -> strcmp a c <= 0.
Proof.
  intros Ha. revert b c. assert (Hd : forall l, is_bytes l -> 0 <= hd0 l) by (intros l [|x l' Hx _]; rewrite ?hd0_first, ?hd0_none; unfold is_u8 in *; lia). assert (Ht : forall l, is_bytes l -> is_bytes (tail l)) by (intros l [|x l' _ Hl]; [constructor|done]).
  induction Ha as [|x a Hx Ha IH]; intros b c Hb Hc; cbn [strcmp]; [pose proof (Hd c Hc); lia|]. unfold is_u8 in Hx. pose proof (Hd c Hc). pose proof (Hd b Hb). destruct (Z.eqb_spec x 0) as [->|Hx0]; cbn [negb andb]; [lia|].
  destruct Hb as [|y b Hy Hb]; cbn [tail strcmp]; rewrite ?hd0_first, ?hd0_none; [rewrite (proj2 (Z.eqb_neq x 0)) by done; lia|]. destruct (Z.eqb_spec x y) as [->|Hxy].
  - rewrite (proj2 (Z.eqb_neq y 0)) by done. cbn [negb andb]. destruct (Z.eqb_spec y (hd0 c)); intros H1 H2; [by apply (IH b (tail c)); [|apply Ht|..]|lia].
  - destruct (Z.eqb_spec y 0) as [->|]; cbn [negb andb]; [intros; lia|]. destruct (Z.eqb_spec y (hd0 c)) as [Ey|]; intros H1 H2; (destruct (Z.eqb_spec x (hd0 c)); [|lia]); lia.
Qed.
Lemma strcmp_cut a b : strcmp (cstr a) (cstr b) = strcmp a b.
Proof.
  assert (Hd : forall l, hd0 (cstr l) = hd0 l) by (intros [|x l]; [done|]; cbn [cstr]; destruct (Z.eqb_spec x 0) as [->|]; done).
  revert b. induction a as [|x a IH]; intros b; cbn [cstr strcmp]; [by rewrite Hd|]. destruct (Z.eqb_spec x 0) as [->|Hx]; cbn [strcmp negb andb]; [by rewrite Hd|]. rewrite (proj2 (Z.eqb_neq x 0)) by done. cbn [negb andb]. rewrite Hd.
  destruct (Z.eqb_spec x (hd0 b)) as [E|]; [|done]. destruct b as [|y b]; [by rewrite hd0_none in E|]. rewrite hd0_first in E. cbn [cstr]. rewrite (proj2 (Z.eqb_neq y 0)) by congruence. apply IH.
Qed.
Definition str_of (buf e : list Z) : list Z := cstr (drop (Z.to_nat (le_get e)) buf).
Lemma elems_at buf arr n i : 0 <= i < Z.of_nat n -> (str_of buf <$> elems arr 4 n).[i] = str_of buf (elem arr 4 i).
Proof. intros Hi. unfold aget. apply list_lookup_total_correct. rewrite list_lookup_fmap, lookup_elems by lia. cbn. by rewrite Z2Nat.id by lia. Qed.
Lemma zlen_elems buf arr n : zlen (str_of buf <$> elems arr 4 n) = Z.of_nat n.
Proof. unfold zlen, elems. by rewrite !length_fmap, length_seq. Qed.
Lemma sorted_lines s ls : shows s ls -> exists s' ls', sort_lines (zlen ls) s = (tt, s') /\ shows s' ls' /\ ls' ≡ₚ ls /\ zlen ls' = zlen ls /\ sys s' = sys s /\ forall i j, 0 <= i < j -> j < zlen ls' -> strcmp (ls'.[i]) (ls'.[j]) <= 0.
Proof.
  intros [H1 H2 H3 H4]. unfold sort_lines. set (buf := text_buf s). set (n := length ls). set (arr := slice (text_lines s) 0 (zlen ls * 4)). pose proof (zlen_nonneg ls). assert (Hz : zlen arr = Z.of_nat n * 4) by (unfold arr; rewrite zlen_slice by lia; unfold zlen, n; lia).
  assert (Hdrop : forall k, is_bytes (drop k buf)) by (intros k; by apply Forall_drop).
  destruct (qsort_correct (cmp_lines buf) arr n 4) as (Q1 & Q2 & Q3); [intros a b; unfold cmp_lines; rewrite (strcmp_back (drop _ _)); lia|intros a b c; unfold cmp_lines; by apply strcmp_chain|done|done|].
  set (arr' := qsort (cmp_lines buf) arr (Z.of_nat n) 4) in *. set (ls' := str_of buf <$> elems arr' 4 n).
  assert (El : ls = str_of buf <$> elems arr 4 n).
  { apply list_eq_aget; [by rewrite zlen_elems|]. intros i Hi. rewrite elems_at by done. rewrite <- (H4 i Hi). unfold line_at, str_of, elem, arr, get_le. do 3 f_equal. rewrite slice_slice by lia. f_equal. }
  assert (Hlen : zlen ls' = zlen ls) by apply zlen_elems. assert (Hn : Z.of_nat n = zlen ls) by done.
  exists (mk_shell buf (splice (text_lines s) 0 arr') (sys s)), ls'. split; [done|]. split; [|split; [|split; [done|split; [done|]]]].
  - split; cbn [text_buf text_lines]; [done|rewrite zlen_splice; lia|lia|]. intros i Hi. unfold ls'. rewrite elems_at by lia. unfold line_at, str_of, elem, get_le. do 3 f_equal. unfold splice. change (Z.to_nat 0) with 0%nat. rewrite take_0, app_nil_l, slice_app_l by lia. done.
  - rewrite El. unfold ls'. by rewrite Q2.
  - intros i j Hij Hj. unfold ls'. rewrite !elems_at by lia. unfold str_of. rewrite strcmp_cut. specialize (Q3 (Z.to_nat i) (Z.to_nat j)). rewrite !Z2Nat.id in Q3 by lia. apply Q3. unfold n, zlen in *. lia.
Qed.

(** C30 - [sort] prints the lines of a text that fits its buffers, and that the
    calls open and read, each as often as it occurs, in the order of [strcmp],
    and with [-r] in the reverse; besides that it makes no call. *)
Theorem sort_prints s p ls w (r : bool) : text_file s p ls w -> strcmp p (txt "-r") <> 0 -> exists out, out ≡ₚ ls /\ (forall i j, 0 <= i < j -> j < zlen out -> strcmp (out.[i]) (out.[j]) <= 0) /\
  answers (cmd_sort (if r then [txt "-r"; p] else [p])) s w (if r then reverse out else out).
Proof.
  intros Ht Hp. unfold cmd_sort. cbv zeta. assert (Hf : (strcmp p (txt "-r") =? 0) = false) by (by apply Z.eqb_neq). assert (Hr : (strcmp (txt "-r") (txt "-r") =? 0) = true) by done.
  assert (Eargs : existsb (fun a => strcmp a (txt "-r") =? 0) (if r then [txt "-r"; p] else [p]) = r /\ last_of (filter (fun a => (strcmp a (txt "-r") =? 0) = false) (if r then [txt "-r"; p] else [p])) = Some p).
  { destruct r; cbn [existsb]; rewrite ?Hr, ?Hf; (split; [done|]); rewrite !filter_cons, filter_nil, ?Hr, ?Hf; done. }
  destruct Eargs as [-> ->]. destruct (on_lines_run (txt "Usage: sort [-r] <file>" ++ [10]) (txt "sort: cannot open '%s'" ++ [10]) p (fun count => sort_lines count;; ffor (rounds 0 count) 0 (fun i => print_line (if r then count - 1 - i else i))) s ls w) as (s0 & E & Hs & V); [apply Ht..|].
  destruct (sorted_lines s0 ls Hs) as (s1 & out & E1 & Hs1 & Hperm & Hl & V1 & Hord). exists out. split; [done|]. split; [done|]. pose proof (zlen_nonneg ls).
  set (out' := if r then reverse out else out). assert (Hl' : zlen out' = zlen ls) by (unfold out', zlen in *; destruct r; rewrite ?length_reverse; lia).
  destruct (says_for (fun i => print_line (if r then zlen ls - 1 - i else i)) (fun i => [said (out'.[i])]) out (rounds 0 (zlen ls)) 0 s1 Hs1) as (s2 & E2 & _ & _ & V2).
  { intros j s2 Hj Hs2. unfold rounds in Hj. replace (out'.[j]) with (out.[if r then zlen ls - 1 - j else j]); [apply print_line_run; [done|destruct r; lia]|]. unfold out'. destruct r; [|done]. unfold aget. rewrite !list_lookup_total_alt. f_equal.
    rewrite reverse_lookup by (unfold zlen in *; lia). f_equal. unfold zlen in *. lia. }
  exists s2. split; [by rewrite E, (bind_run _ _ _ _ _ E1)|]. rewrite V2, V1, V. do 2 f_equal. unfold rounds. rewrite Z2Nat.id, Z.sub_0_r by lia. rewrite tab_lines by lia. f_equal. rewrite <- Hl'. apply slice_all.
Qed.
End texts.

End ShellProps.

(** ** The calls of the commands served by the virtual file system *)
Module ShellVfs.
Import VfsPath VfsData VfsBackend VfsLock VfsFiles Drives Shell ShellProps.

Section served.
Context {D K : Type} `{BlockDevLaws D} `{Kernel K}.
(** The console and the names of errors are parameters. *)
Context (logf kklogf' : list Z -> list larg -> K -> K) (strerror : Z -> list Z).
Implicit Types v : vstate D K.

(** A call that waits for the lock without end has no result: [d] stands for it. *)
Definition settle {A} (d : A) (m : st (vstate D K) (option A)) : st (vstate D K) A := fun v => let (o, v') := m v in (default d o, v').
Definition console (f : K -> K) : st (vstate D K) unit := modify (fun v => set_kern (f (kern v)) v).
Definition vfs_calls : Calls (vstate D K) := {|
  r3_open p flags := settle (-1) (Vfs.open p flags); r3_read fd n := settle (-1, []) (Vfs.read 0 fd true n);
  r3_write fd b := settle (-1) (Vfs.write fd (Some b) (zlen b)); r3_lseek fd off whence := settle (-1) (Vfs.lseek fd off whence);
  r3_close fd := settle (-1) (Vfs.close fd); r3_unlink p := settle (-1) (Vfs.unlink p); r3_mkdir p := settle (-1) (Vfs.vfs_mkdir p);
  vfs_remove p := settle (-1) (Vfs.vfs_remove p);
  vfs_stat p := r ← settle (inl (-1)) (Vfs.vfs_stat p); mret (match r with inl _ => None | inr n => Some (n_is_dir n) end);
  vfs_readdir p n := r ← settle (inl (-1)) (Vfs.vfs_readdir p n); mret (match r with inl e => inl e | inr l => inr ((fun e => mk_dirent (vd_name e) (vd_is_dir e) (vd_size e)) <$> l) end);
  vfs_strerror := strerror; klog m := console (k_klog m); klog_color m _ := console (k_klog m); klogf f a := console (logf f a);
  kklog m := console (k_klog (m ++ [10])); kklogf f a := console (kklogf' f a); vfs_chdir p := settle (-1) (Vfs.vfs_chdir p);
  vfs_getcwd := s_cwd; vesa_print_string m := console (k_klog m) |}.
#[local] Existing Instance vfs_calls.

(** *** Open files under the other calls *)

(** A field that an update of a list leaves alone. *)
Lemma aset_field {A B} `{Inhabited A} (f : A -> B) (l : list A) i j x : f x = f (l.[i]) -> f ((l.[i := x]).[j]) = f (l.[j]).
Proof.
  unfold aget, aset. intros E. destruct (decide (Z.to_nat i = Z.to_nat j)) as [Ei|]; [|by rewrite list_lookup_total_insert_ne]. rewrite <- Ei.
  destruct (decide (Z.to_nat i < length l)%nat); [by rewrite list_lookup_total_insert_eq|by rewrite list_insert_ge by lia].
Qed.
(** What [serves] looks at besides the descriptor. *)
Record alike v v' : Prop := {
  al_cos : cos v' = cos v; al_loaded : s_cos_loaded v' = s_cos_loaded v; al_lck : lck v' = lck v; al_task : current_task v' = current_task v;
  al_mounts : forall mi, m_fs (mount_at v' mi) = m_fs (mount_at v mi) /\ m_drive (mount_at v' mi) = m_drive (mount_at v mi);
}.
Definition same_file (f f' : vfile) : Prop := v_used f' = v_used f /\ v_mount f' = v_mount f /\ v_size f' = v_size f /\ v_id f' = v_id f.
Lemma serves_alike v v' fd c : alike v v' -> same_file (file_at v fd) (file_at v' fd) -> serves v fd c -> serves v' fd c.
Proof.
  intros [A1 A2 A3 A4 A5] (F1 & F2 & F3 & F4) [(l & L1 & L2) [O1 O2 O3 O4 O5 O6 (g & a & [(s0 & R & Hd & Hl) Hc Hr Hi] & Hf)]].
  destruct (A5 (v_mount (file_at v fd))) as [M1 M2]. split; [exists l; rewrite A3, A4; by split|]. constructor.
  - unfold Vfs.fget in *. by rewrite F1.
  - by rewrite F2, M1.
  - destruct O3. by constructor; rewrite A1.
  - by rewrite F3.
  - done.
  - done.
  - exists g, a. rewrite F2, F4, M2. split; [|done]. constructor; [|done..]. exists s0. unfold at_drive, g_drive in *. rewrite A1, A2. by split.
Qed.
Lemma fget_range v fd : Vfs.fget v fd = true -> 0 <= fd < zlen (s_files v) /\ fd < 32.
Proof.
  unfold Vfs.fget. rewrite !andb_true_iff, Z.leb_le, Z.ltb_lt. intros [[Hf1 Hf2] Hu]. split; [|exact Hf2]. split; [done|]. destruct (decide (fd < zlen (s_files v))) as [|Hge]; [done|].
  unfold file_at, aget in Hu. rewrite list_lookup_total_alt, lookup_ge_None_2 in Hu by (unfold zlen in *; lia). discriminate.
Qed.
(** The position of a descriptor moves. *)
Definition at_pos (fd t : Z) v : vstate D K := (upd_file fd (set_v_pos t) v).2.
Lemma file_at_other (g : vfile -> vfile) fd fd' v : 0 <= fd -> 0 <= fd' -> fd' <> fd -> file_at (upd_file fd g v).2 fd' = file_at v fd'.
Proof. intros. unfold upd_file, modify, file_at. cbn [snd s_files set_files]. by rewrite aget_aset_ne by lia. Qed.
Lemma file_at_self (g : vfile -> vfile) fd v : 0 <= fd < zlen (s_files v) -> file_at (upd_file fd g v).2 fd = g (file_at v fd).
Proof. intros. unfold upd_file, modify, file_at. cbn [snd s_files set_files]. by rewrite aget_aset_eq by lia. Qed.
Lemma serves_range v fd c : serves v fd c -> 0 <= fd < zlen (s_files v) /\ fd < 32.
Proof. intros [_ Ho]. apply fget_range, Ho. Qed.
Lemma serves_at_pos v fd t c fd' c' : serves v fd c -> serves v fd' c' -> serves (at_pos fd t v) fd' c'.
Proof.
  intros Hs Hs'. apply serves_range in Hs as [Hr _]. pose proof (serves_range _ _ _ Hs') as [Hr' _]. apply (serves_alike v); [by split| |done].
  destruct (decide (fd' = fd)) as [->|]; unfold at_pos; [rewrite file_at_self by done|rewrite file_at_other by (lia || done)]; by destruct (file_at v _).
Qed.

(** *** The calls of [load_file] *)

Lemma lseek_served v fd c whence t : serves v fd c -> (whence = SEEK_SET /\ t = 0 \/ whence = SEEK_END /\ t = zlen c) ->
  Vfs.vfs_lseek fd 0 whence v = (Some t, at_pos fd t v).
Proof.
  intros Hs Hw. pose proof Hs as [(l & E1 & E2) Ho]. pose proof (of_max _ _ _ Ho) as Hm. pose proof (zlen_nonneg c). unfold Vfs.vfs_lseek.
  replace (at_pos fd t v) with (set_lck (lck v) (at_pos fd t v)) by (unfold at_pos, upd_file, modify; by destruct v). apply (locked_run _ v (at_pos fd t v) l); [done|done|].
  pose proof (open_file_lock v fd c l Ho) as Hs1. set (v1 := set_lck l v) in *. rewrite (bind_run (gets id) _ v1 v1 v1) by done. rewrite (of_used _ _ _ Hs1), (of_size _ _ _ Hs1). cbn [negb].
  assert (Et : s32 t = t) by (apply s32_small; destruct Hw as [[_ ->]|[_ ->]]; lia). destruct Hw as [[-> ->]|[-> ->]].
  - reflexivity.
  - change (SEEK_END =? Vfs.SEEK_SET) with false. change (SEEK_END =? Vfs.SEEK_CUR) with false. change (SEEK_END =? Vfs.SEEK_END) with true. cbv beta iota zeta.
    rewrite Et, Z.add_0_r, Et. rewrite (proj2 (Z.leb_le 0 _)) by done. reflexivity.
Qed.
Lemma read_served v fd c n : serves v fd c -> v_pos (file_at v fd) = 0 -> 0 < n < 2 ^ 31 -> n = zlen c ->
  exists v', Vfs.vfs_read fd true n v = (Some (n, c), v') /\ v' = at_pos fd n (come v (drive_of v fd)).
Proof.
  intros Hs Hp Hn En. pose proof Hs as [(l & E1 & E2) Ho]. eexists. split; [|reflexivity]. unfold Vfs.vfs_read. set (v2 := at_pos fd n (come v (drive_of v fd))).
  replace v2 with (set_lck (lck v) v2) by (unfold v2, at_pos, upd_file, modify; by destruct v). apply (locked_run _ v v2 l); [done|done|].
  pose proof (open_file_lock v fd c l Ho) as Hs1. set (v1 := set_lck l v) in *. change (file_at v fd) with (file_at v1 fd) in Hp.
  rewrite (bind_run (gets id) _ v1 v1 v1) by done. rewrite (of_used _ _ _ Hs1), Hp. cbn [andb negb]. set (v3 := come v1 (drive_of v1 fd)).
  assert (Er : in_ctx (v_mount (file_at v1 fd)) (read_at (v_mount (file_at v1 fd)) fd 0 n) v1 = (c, v3)).
  { unfold in_ctx. rewrite (bind_run _ _ _ _ _ (enter_run v1 _ (of_fs _ _ _ Hs1))), (bind_run _ _ _ _ _ (read_at_run v1 fd c 0 n Hs1 ltac:(lia) ltac:(lia) ltac:(lia))). rewrite En, slice_all.
    fold (drive_of v1 fd). fold v3. unfold ctx_leave. rewrite (bind_run _ _ v3 tt v3); [done|]. rewrite (bind_run (gets id) _ v3 v3 v3) by done. change (mount_at v3) with (mount_at v1). by rewrite (of_fs _ _ _ Hs1). }
  rewrite (bind_run _ _ _ _ _ Er). rewrite <- En, s32_small by lia. unfold Vfs.advance. rewrite (proj2 (Z.ltb_lt 0 n)) by lia. cbn [when].
  assert (Ew : upd_file fd (fun f => set_v_pos (u32 (v_pos f + n)) f) v3 = (tt, set_lck l v2)).
  { unfold v2, at_pos, upd_file, modify. do 2 f_equal. change (file_at v3 fd) with (file_at v1 fd). rewrite Hp, u32_small by lia. reflexivity. }
  by rewrite (bind_run _ _ _ _ _ Ew).
Qed.
Lemma close_served v fd c : serves v fd c -> exists v', Vfs.vfs_close fd v = (Some 0, v') /\ alike v v' /\ v_used (file_at v' fd) = false /\ forall fd', 0 <= fd' -> fd' <> fd -> file_at v' fd' = file_at v fd'.
Proof.
  intros Hs. pose proof (serves_range _ _ _ Hs) as [Hr _]. pose proof Hs as [(l & E1 & E2) Ho]. set (mi := v_mount (file_at v fd)). set (m := mount_at v mi). set (v2 := (upd_file fd (set_v_used false) (set_mount mi (set_m_open_count (m_open_count m - 1) m) v).2).2).
  exists (set_lck (lck v) v2). split.
  - unfold Vfs.vfs_close. apply (locked_run _ v v2 l); [done|done|]. pose proof (open_file_lock v fd c l Ho) as Hs1. set (v1 := set_lck l v) in *.
    rewrite (bind_run (gets id) _ v1 v1 v1) by done. rewrite (of_used _ _ _ Hs1). reflexivity.
  - split; [|split].
    + split; try done. intros mi'. split; [apply (aset_field m_fs)|apply (aset_field m_drive)]; done.
    + change (file_at (set_lck (lck v) v2) fd) with (file_at v2 fd). unfold v2. rewrite file_at_self by done. done.
    + intros fd' Hf Hne. change (file_at (set_lck (lck v) v2) fd') with (file_at v2 fd'). unfold v2. by rewrite file_at_other by lia.
Qed.
Lemma handle_fd fd : 0 <= fd < 32 -> Vfs.is_stdio_fd (fd + 3) = false /\ s32 (fd + 3 - Vfs.STDIO_FD_COUNT) = fd /\ (fd + 3 =? Vfs.STDIO_FD_IN) = false.
Proof.
  intros Hf. unfold Vfs.is_stdio_fd, Vfs.STDIO_FD_IN, Vfs.STDIO_FD_OUT, Vfs.STDIO_FD_ERR, Vfs.STDIO_FD_COUNT. rewrite !(proj2 (Z.eqb_neq _ _)) by lia. split; [done|]. split; [|done]. rewrite s32_small; lia.
Qed.
Lemma settle_run {A} (d a : A) (m : st (vstate D K) (option A)) v v' : m v = (Some a, v') -> settle d m v = (a, v').
Proof. intros E. unfold settle. by rewrite E. Qed.
(** Opening the path [p] gives the descriptor [fd], at the start of a COSFS file
    with the bytes [c]. *)
Definition opens v (p : list Z) (fd : Z) v1 (c : list Z) : Prop := Vfs.open p O_RDONLY v = (Some (fd + 3), v1) /\ serves v1 fd c /\ v_pos (file_at v1 fd) = 0.
Lemma vfs_reads v p fd v1 c : opens v p fd v1 c -> exists v', reads v p c v' /\ v_used (file_at v' fd) = false /\ lck v' = lck v1 /\
  forall fd' c', fd' <> fd -> serves v1 fd' c' -> serves v' fd' c'.
Proof.
  intros (E1 & Hs & Hp). pose proof (serves_range _ _ _ Hs) as [Hr Hr32]. destruct (handle_fd fd ltac:(lia)) as (Hh1 & Hh2 & Hh3). pose proof (of_max _ _ _ (proj2 Hs)) as Hm. pose proof (zlen_nonneg c).
  set (v2 := at_pos fd (zlen c) v1). set (v3 := at_pos fd 0 v2). assert (Hs2 : serves v2 fd c) by (by apply (serves_at_pos v1 fd _ c)). assert (Hs3 : serves v3 fd c) by (by apply (serves_at_pos v2 fd _ c)).
  set (v4 := if zlen c =? 0 then v3 else at_pos fd (zlen c) (come v3 (drive_of v3 fd))).
  assert (Hkeep : forall fd' c', serves v1 fd' c' -> serves v4 fd' c').
  { intros fd' c' Hs'. assert (serves v3 fd' c') by (by apply (serves_at_pos v2 fd _ c), (serves_at_pos v1 fd _ c)). unfold v4. destruct (zlen c =? 0); [done|].
    apply (serves_at_pos _ fd _ c); by apply (serves_come v3 fd c). }
  destruct (close_served v4 fd c (Hkeep _ _ Hs)) as (v5 & E5 & Ha & Hu & Ho). exists v5. split; [|split; [done|split]].
  - exists (fd + 3), v1, v2, v3, v4. split; [by apply settle_run|]. split; [lia|]. cbn [r3_lseek r3_read r3_close vfs_calls]. split; [|split; [|split]].
    + apply settle_run. unfold Vfs.lseek. rewrite Hh1, Hh2. apply (lseek_served v1 fd c); [done|by right].
    + rewrite (settle_run (-1) 0 _ v2 v3); [done|]. unfold Vfs.lseek. rewrite Hh1, Hh2. apply (lseek_served v2 fd c); [done|by left].
    + unfold v4. destruct (Z.eqb_spec (zlen c) 0) as [|Hz]; [done|]. apply settle_run. unfold Vfs.read. rewrite Hh3, Hh1, Hh2.
      destruct (read_served v3 fd c (zlen c) Hs3) as (v' & Er & ->); [|lia|done|done]. unfold v3, at_pos. rewrite file_at_self; [done|by apply (serves_range v2 fd c)].
    + rewrite (settle_run (-1) 0 _ v4 v5); [done|]. unfold Vfs.close. rewrite Hh1, Hh2. unfold Vfs.map_done. by rewrite (bind_run _ _ _ _ _ E5).
  - rewrite (al_lck _ _ Ha). unfold v4. by destruct (zlen c =? 0).
  - intros fd' c' Hne Hs'. apply (serves_alike v4); [done| |by apply Hkeep]. pose proof (serves_range _ _ _ Hs'). rewrite Ho by (lia || done). done.
Qed.

(** C29 - Loading a text over the virtual file system. When the path opens as a
    COSFS file that fits the buffer, whichever drive the driver stood on,
    [load_file] answers the file's length and puts its bytes, and nothing else,
    into the text buffer; its descriptor is free again, the lock is as after
    the opening, and every other open file is served as before. *)
Theorem load_file_served (s : shell (vstate D K)) p fd v1 c : buffers s -> opens (sys s) p fd v1 c -> zlen c <= TEXT_BUF_SIZE ->
  exists v', load_file p s = (zlen c, mk_shell (splice (text_buf s) 0 c) (text_lines s) v') /\ v_used (file_at v' fd) = false /\ lck v' = lck v1 /\
    forall fd' c', fd' <> fd -> serves v1 fd' c' -> serves v' fd' c'.
Proof.
  intros Hb Ho Hc. destruct (vfs_reads _ _ _ _ _ Ho) as (v' & Hr & H1' & H2' & H3'). exists v'. split; [|done]. by apply load_file_run.
Qed.
End served.

(** *** The text "b", "a", "a" in the file "a" of the volume of [CosDemo]; the
    other drive of the channel is selected and taken as loaded, and the console
    keeps what it is told *)

Definition messages : Type := list (list Z * list larg).
#[export] Instance listener : Kernel messages := {|
  k_malloc := fun _ k => (1, k); k_free := fun _ k => k; k_klog := fun m k => k ++ [(m, [])];
  k_stdin_getc := fun k => (-1, k); k_ps2_poll := fun k => k |}.
Definition heard (f : list Z) (a : list larg) (k : messages) : messages := k ++ [(f, a)].
#[export] Instance demo_calls : Calls (vstate Drives.drives messages) := vfs_calls heard heard (fun _ => []).
Definition letters_demo : list (list Z) := [[98]; [97]; [97]].
Definition text_volume : Cos.fsstate Drives.drives := (CosFile.fs_write CosDemo.FILE_A 0 (joined letters_demo) 6 CosDemo.demo2).2.
Definition two_drives : Drives.drives := Drives.mk_drives (0x1F0, 1) (Drives.bank (Cos.dev text_volume)).
Definition desk : vstate Drives.drives messages :=
  mk_v (Cos.mk_fs two_drives CosDemo.blank_sb (replicate (Z.to_nat INODE_BITMAP_SIZE) 0) 0 0 0 0 3 1 [Cos.mk_device 0x1F0 0 64; Cos.mk_device 0x1F0 1 64] 2)
    Fat.zero_fs [] [] [mk_mount true 0 VFS_FS_COSFS true 0 0 0 [47] Fat.zero_fs] (Some 0) (replicate VFS_MAX_FDS zero_vfile) [47] [] 1 0 lock_free 0.
Definition shell_demo : shell (vstate Drives.drives messages) := mk_shell (replicate (Z.to_nat 32768) 0) (replicate (Z.to_nat 2048) 0) desk.
Lemma shell_demo_buffers : buffers shell_demo.
Proof. split; [by vm_compute|apply Forall_replicate; unfold is_u8; lia|by vm_compute]. Qed.
Definition desk_open : vstate Drives.drives messages := (Vfs.open [97] O_RDONLY desk).2.
Definition open_volume : Cos.fsstate Drives.drives := Cos.set_current_dir 0 (Cos.set_dev (at_drive desk_open 0) (cos desk_open)).
Definition open_node : Cos.inode := CosVol.a_inode (CosVol.abs open_volume) CosDemo.FILE_A.
Lemma open_volume_rep : CosVol.rep CosDemo.demo_g open_volume (CosVol.abs open_volume).
Proof. CosDemo.demo_rep_tac. Qed.
Lemma roots_open_node : forall r, 0 <= r <= 14 -> CosTree.root_ptr open_node r = if decide (r = 0) then 13 else 0.
Proof. apply CosDemo.demo_roots. intros r Hr. do 15 (destruct r as [|r]; [vm_compute; reflexivity|]). lia. Qed.
Lemma desk_opens : opens desk [97] 0 desk_open (joined letters_demo).
Proof.
  split; [|split; [|vm_compute; reflexivity]].
  { unfold desk_open. destruct (Vfs.open [97] O_RDONLY desk) as [r v] eqn:E. cbn [snd]. f_equal. change r with (r, v).1. rewrite <- E. vm_compute. reflexivity. }
  split; [exists (mk_lock 1 0 1); split; vm_compute; reflexivity|]. constructor; [vm_compute; reflexivity|vm_compute; reflexivity| |vm_compute; reflexivity|vm_compute; reflexivity|vdec|].
  - constructor; [vm_compute; done|]. split; [vm_compute; reflexivity|unfold is_bytes; vdec].
  - exists CosDemo.demo_g, (CosVol.abs open_volume). split.
    + constructor; [|vm_compute; reflexivity|vm_compute; reflexivity|vm_compute; reflexivity]. exists open_volume. split; [exact open_volume_rep|]. by split.
    + exists open_node. split; [vm_compute; done|]. split; [reflexivity|]. split; [apply (CosCreate.single_tree _ _ _ 13 roots_open_node); [vm_compute; done|vm_compute; reflexivity]|]. split; [vm_compute; reflexivity|].
      intros i Hi. change (zlen (joined letters_demo)) with 6 in Hi. assert (i = 0 \/ i = 1 \/ i = 2 \/ i = 3 \/ i = 4 \/ i = 5) as [->|[->|[->|[->|[->| ->]]]]] by lia; vm_compute; reflexivity.
Qed.
Lemma load_file_served_witness : exists v', load_file [97] shell_demo = (6, mk_shell (splice (text_buf shell_demo) 0 (joined letters_demo)) (text_lines shell_demo) v') /\ v_used (file_at v' 0) = false.
Proof. destruct (load_file_served heard heard (fun _ => []) shell_demo [97] 0 desk_open (joined letters_demo) shell_demo_buffers desk_opens ltac:(done)) as (v' & E & Hu & _). exists v'. split; [exact E|exact Hu]. Defined.
(** The commands on it. *)
Lemma shell_demo_file : exists w, text_file shell_demo [97] letters_demo w.
Proof.
  destruct (vfs_reads heard heard (fun _ => []) desk [97] 0 desk_open (joined letters_demo) desk_opens) as (w & Hr & _). exists w.
  split; [exact shell_demo_buffers|exact Hr|vdec|by vm_compute|by vm_compute].
Qed.
Lemma text_tools_witness : exists w, text_file shell_demo [97] letters_demo w /\ answers (cmd_head [txt "-n"; [50]; [97]]) shell_demo w [[98]; [97]] /\ answers (cmd_tail [txt "-n"; [50]; [97]]) shell_demo w [[97]; [97]] /\
  answers (cmd_grep [[98]; [97]]) shell_demo w [[98]] /\ answers (cmd_uniq [[97]]) shell_demo w [[98]; [97]].
Proof. destruct shell_demo_file as [w Hw]. exists w. split; [exact Hw|]. exact (text_tools shell_demo [97] letters_demo w [50] [98] Hw eq_refl eq_refl). Defined.
Lemma sort_prints_witness : exists w, text_file shell_demo [97] letters_demo w /\ exists out, out ≡ₚ letters_demo /\ answers (cmd_sort [[97]]) shell_demo w out.
Proof. destruct shell_demo_file as [w Hw]. exists w. split; [exact Hw|]. destruct (sort_prints shell_demo [97] letters_demo w false Hw) as (out & Hout1 & _ & Hout3); [by vm_compute|]. by exists out. Defined.

(** Two moves that lose what is moved: onto itself, the file is emptied by the
    opening of the target and then removed; onto "b" on a volume without a free
    block, the writes fail, which [copy_file] does not look at, and the source
    of 1200 bytes is removed all the same. *)
Definition stat_of (p : list Z) (v : vstate drives messages) : option (Z + vnode) := (Vfs.vfs_stat p v).1.
Lemma mv_loses_onto_itself : stat_of [97] desk = Some (inr (mk_vnode false 6 6)) /\ let '(ok, v) := cmd_mv 5 [[97]; [97]] desk in ok = true /\ kern v = [] /\ stat_of [97] v = Some (inl (-13)).
Proof. vm_compute. done. Qed.
Definition long_volume : Cos.fsstate drives := (CosAlloc.block_write 1 (replicate 512 255) (CosFile.fs_write CosDemo.FILE_A 0 (replicate 1200 65) 1200 CosDemo.demo2).2).2.
Definition full_desk : vstate drives messages := set_cos (Cos.set_dev (mk_drives (0x1F0, 1) (bank (Cos.dev long_volume))) (cos desk)) desk.
Lemma mv_loses_when_full : stat_of [97] full_desk = Some (inr (mk_vnode false 1200 6)) /\
  let '(ok, v) := cmd_mv 5 [[97]; [98]] full_desk in ok = true /\ kern v = [] /\ stat_of [97] v = Some (inl (-13)) /\ stat_of [98] v = Some (inr (mk_vnode false 0 7)).
Proof. vm_compute. done. Qed.
End ShellVfs.
